(* ===== verification/_CoqProject ===== *)
-Q . S2P
Prelude.v
Buffer.v
CortexM.v
State.v
Kernel.v
BmpAlloc.v
Invariant.v
Decide.v
Init.v
Demo.v
Transitions.v
Mutex.v
Semaphore.v
Cond.v
Event.v
Flag.v
Gate.v
Console.v
Pause.v
Sched.v
Thread.v
Irq.v
Svc.v
System.v
Crc.v
Xmodem.v
Malloc.v
Convert.v
Ymodem.v
Mbuf.v
Chksum.v
Ip.v
Udp.v
Route.v
Arp.v
Icmp.v
Tcp.v
TcpOut.v
TcpSnd.v
TcpConn.v
TcpOpen.v
JsVm.v
JsGen.v
JsCorrect.v
JsExt.v
