(* ===== verification/Prelude.v ===== *)
(** * Verification of ThinkOS

    ThinkOS (src/sdk) is a small preemptive real-time kernel for Cortex-M
    processors with the libraries its applications use.  This development models
    the kernel of src/sdk/libthinkos in its default configuration, with the
    console and the monitor enabled as every board of the repository does, and
    several of the libraries, and proves what makes them correct.

    ** The program

    A thread enters the kernel by an SVC instruction; [thinkos_svc_isr] looks the
    handler up and passes it the saved registers of the caller.  A handler reads
    and writes the run-time record [thinkos_rt] (queues of threads as 32-bit
    masks, a status word and a saved context per thread, the words of the
    objects) and asks for a context switch by setting PendSV, which
    [cm3_pendsv_isr] serves.  The tick [cm3_systick_isr] wakes the threads whose
    time has come and shares the processor, [cm3_default_isr] turns an interrupt
    into the wake-up of a thread, and the debug monitor drives the console.
    The handlers run one at a time: they have the same interrupt priority.  The
    routines that post to an object from an interrupt of higher priority are
    modelled as steps of their own between the handlers; the LDREX/STREX retries
    inside a handler then succeed at once.

    ** Files

    - [Prelude]: machine integers, buffers and words of memory as lists, the
      rewrite base [rtdb], tactics and the lemmas the components share.
    - [CortexM] (include/arch/cortex-m3.h): CLZ, RBIT and bit-band accesses.
    - [State] (include/thinkos/kernel.h, include/thinkos.h): configuration,
      queue numbers, error codes; the record [kernel] is [struct thinkos_rt]
      with the context records and the few machine registers the kernel drives.
      [Kernel]: the inline functions of kernel.h on it.
    - [BmpAlloc] (misc/bmp_alloc.c): the allocation bitmaps.
    - [Invariant]: the consistency of queues, status words, allocation and
      interrupts, one situation per thread.  [Decide] evaluates it, [Transitions]
      proves what each way to block or wake a thread does to it, in the form the
      components use.
    - [Init] (thinkos_init.c), [Demo]: start-up, and sample states.
    - [Mutex], [Semaphore], [Cond], [Event], [Flag], [Gate], [Console]
      (thinkos_mutex.c ... thinkos_console.c): the handlers under their C names,
      the abstract object each implements, and the refinement between the two.
    - [Pause] (thinkos_pause.c), [Sched] (thinkos_core.c, thinkos_sleep.c),
      [Thread] (thinkos_thread.c, thinkos_exit.c, thinkos_join.c,
      thinkos_cancel.c), [Irq] (thinkos_irq.c), [Svc] (thinkos_svc.c,
      thinkos_ctl.c, thinkos_idle.c, thinkos_dbgmon.c, thinkos_break.c).
    - [System]: the whole kernel as a step relation over system calls, ticks,
      scheduling, interrupts and the console driver, and its reachable states.
    - [Crc] (libcrc, libbacnet/bacnet_crc.c, include/crc.h): all the variants of
      the cyclic redundancy checks.
    - [Xmodem] (libxmodem): the XMODEM sender and receiver over a device given
      as a parameter, then over a line between the two.
    - [Malloc] (libc/malloc.c, libc/calloc.c): the first-fit allocator whose list of
      holes lives in the memory it manages.
    - [Convert] (libutil, libc/strtoul.c and the like): number printers and
      readers, square roots, logarithm.
    - [Ymodem] (libxmodem/ymodem_rcv.c): the YMODEM receiver.
    - [Buffer]: stores and loads of runs of bytes, shared by the protocols.
    - [Mbuf] (libtcpip/mbuf): the pool of network buffers, lists and byte queues of
      them, with the chains of pointers.
    - [Chksum] (libtcpip/in_chksum.c), [Ip] (libtcpip/ip.c), [Udp] (libtcpip/udp and
      the lookup of libtcpip/pcb): from the checksum to the sockets.
    - [Route] (libtcpip/ip_route.c), [Arp] (libtcpip/arp, [ip_output] of ip.c), [Icmp]
      (libtcpip/icmp.c): routes, hardware addresses, echo replies and error messages.
    - [Tcp] (libtcpip/tcp/tcp_in.c, tcp_recv.c): what a segment does to a connection;
      [TcpOut] (tcp_out.c, tcp_send.c, tcp_close.c, tcp_tmr.c, tcp_keepalive.c): what is
      sent; [TcpSnd]: the invariant of the sender; [TcpConn]: two hosts and a network;
      [TcpOpen] (tcp_connect.c, tcp_listen.c, tcp_accept.c, tcp_in.c): the opening.
    - [JsVm] (libmicrojs/microjs_vm.c): the machine of the script language; [JsGen]
      (microjs_sdt.c): the actions of its translator and the code they make;
      [JsCorrect]: what a program means and that its code does it; [JsExt]
      (microjs_sdt.c, microjs_sym.c): objects and functions of the host.

    ** What the theorems show

    - Global: a run of the kernel is a sequence of labelled events, and every state
      it reaches is consistent ([System.reachable_consistent]), provided that the run has none of the
      few calls whose handlers omit a check ([System.event_safe] lists them; the
      theorems on errors show what these calls do); start-up makes the main thread run.
    - Objects: each handler, on every branch and error, is the operation of an
      abstract object (owner and waiters, counter, event set, flag, gate, byte
      queue); waiters are served in the order of their numbers, exactly one or
      all as the operation says, and nobody else moves.  Where a handler departs from
      its object (a timed wait at a gate that is locked and open) the theorem names the case
      and another one shows that the object excludes it.
    - Scheduling: the lowest numbered ready thread runs, a tick wakes exactly the
      threads that are due, a sleeping thread wakes on time whatever runs meanwhile, time sharing is
      proportional to the priorities: the ticks that request a switch are counted, and
      what each does to the queues is stated.
    - Threads: creation, exit with join, termination, pause and resume.
    - Checks and transfers: every optimised CRC equals the bit by bit remainder;
      the CCITT one detects the bursts of up to 16 bits; a file sent by XMODEM is
      received as it was, each side reading what the other one writes, and the receiver never accepts
      a packet that is damaged or out of order, the right check being defined apart from the code.
    - Memory: malloc and free refine an allocator on a sequence of blocks, used
      blocks never overlap nor change, and the heap stays consistent under every
      sequence of calls and of writes of the clients to their blocks, as long as no request
      is so large that the sum with the end of the heap wraps around.
    - Conversions: printing and reading back is the identity on every 32-bit and
      64-bit value; u32sqrt is exact, u64sqrt below 2^62.
    - Network: a queue of network buffers is a lossless byte queue under every
      sequence of operations; the checksum is the one's complement sum; the headers
      the output makes pass the checks of the input; a datagram goes from
      [udp_sendto] to the queue of the receiving block and out of [udp_recv]
      unchanged.  The route of an address has the longest prefix, a datagram for an
      unknown host is sent once its address is resolved, echo replies and error
      messages are accepted by their receivers.
    - TCP: two hosts that run the code over a network that loses, repeats and
      reorders segments: each application reads a prefix of what the other wrote, every
      call returns, and a message that fits is delivered; the handshake leads both
      to that state, and the connections of a listener are accepted in their order.
    - MicroJS: the code of a program that the translator accepts computes what the program
      means, its declarations looked up in the table the translator builds, peephole
      optimisations, back-patched jumps and exception frame included.  The meaning
      is independent of the translator: && and || are logical, and the programs are those
      whose logical operands are truth values, since the code made for others is bitwise
      ([JsExt.logic_and_is_bitwise]).  A call of a function with one or two values passes the
      values of its arguments in order and stores the first value or raises.
    - Errors: where the code departs from what it means to do, a theorem states
      what it does instead (a gate that loses an opening, a terminated thread
      that the clock revives, a packet that is repeated with a wrong header, an empty
      datagram that loses the network buffers, a listener hidden by a connection).

    ** Bounds and fuel

    Integers are [Z] with the wrap-around of their width written out.  Loops whose
    bound is not structural take fuel: the queue drains and the clock scan 32
    steps (a queue is a 32-bit mask and each step clears a bit; the lemmas show
    that it is then empty), the retry loops of the handlers 2 (the second attempt
    always succeeds, as proved), the walk over the threads 8.  The loops of
    XMODEM that wait for the other side have no bound in the code: there the fuel
    is a parameter, [None] means that it ran out, and the transfer theorem gives
    the fuel that is enough (the length of the file plus two; the bytes the device
    delivers plus 256 for one packet).
    The walks over the list of holes take as much fuel as the heap has chunks,
    which a consistent list cannot exhaust; the walks over network buffers take 65 or
    66, one more than the pool has buffers, and [in_chksum] folds its sum in at most
    two rounds.  [tcp_output] takes one round more than the queue has bytes; with a
    segment size of 0 no number is enough, which is proved.

    ** Not modelled

    The parts that are registers and instructions rather than computation: the
    assembly entry code, exception handlers, MPU and debug units, start-up of the
    core, the STM32 support code and device drivers, flash loaders, boards.  The
    debug monitor only as far as it drives the console.  Interrupts that arrive
    inside a handler (between LDREX and STREX).  The larger programs on top of
    the kernel: the scanner and the libraries of MicroJS, the rest of the network
    stack (DHCP, raw sockets and interfaces), the HTTP and GDB servers, shells and
    tools. *)

From stdpp Require Import base tactics numbers list gmap.
From Stdlib Require Import ZArith Lia.

#[global] Open Scope Z_scope.

(** ** Machine integers *)

Definition u32 (z : Z) : Z := z mod 4294967296.
Definition u16 (z : Z) : Z := z mod 65536.
Definition u8 (z : Z) : Z := z mod 256.

(** Two's complement reading of a [w]-bit pattern. *)
Definition int32 (z : Z) : Z := if u32 z <? 2147483648 then u32 z else u32 z - 4294967296.
Definition int8 (z : Z) : Z := if u8 z <? 128 then u8 z else u8 z - 256.

Lemma u32_range z : 0 <= u32 z < 4294967296.
Proof. apply Z.mod_pos_bound. lia. Qed.

Lemma u32_small z : 0 <= z < 4294967296 -> u32 z = z.
Proof. apply Z.mod_small. Qed.

Lemma u16_small z : 0 <= z < 65536 -> u16 z = z.
Proof. apply Z.mod_small. Qed.

Lemma u8_range z : 0 <= u8 z < 256.
Proof. apply Z.mod_pos_bound. lia. Qed.

Lemma u8_small z : 0 <= z < 256 -> u8 z = z.
Proof. apply Z.mod_small. Qed.

Lemma int32_small z : -2147483648 <= z < 2147483648 -> int32 z = z.
Proof.
  intros H. unfold int32, u32.
  destruct (Z.ltb_spec (z mod 4294967296) 2147483648);
    pose proof (Z.mod_pos_bound z 4294967296); Z.div_mod_to_equations; lia.
Qed.

Lemma int8_small z : -128 <= z < 128 -> int8 z = z.
Proof.
  intros H. unfold int8, u8.
  destruct (Z.ltb_spec (z mod 256) 128);
    pose proof (Z.mod_pos_bound z 256); Z.div_mod_to_equations; lia.
Qed.

Lemma int32_u32 z : int32 (u32 z) = int32 z.
Proof. unfold int32, u32. rewrite Zmod_mod. reflexivity. Qed.

Lemma int8_u8 z : int8 (u8 z) = int8 z.
Proof. unfold int8, u8. rewrite Zmod_mod. reflexivity. Qed.

Lemma u8_int8 z : 0 <= z < 256 -> u8 (int8 z) = z.
Proof.
  intros H. unfold int8. rewrite (u8_small z) by done. destruct (z <? 128); [by apply u8_small|].
  unfold u8. Z.div_mod_to_equations. lia.
Qed.

(** ** Arrays

    A C array is a list; an index is a [Z].  Reading outside the array gives
    [0] and writing outside leaves it unchanged: every theorem that depends on
    a read or a write carries the bound. *)

Definition rd (l : list Z) (i : Z) : Z :=
  if i <? 0 then 0 else nth (Z.to_nat i) l 0.

Definition wr (l : list Z) (i v : Z) : list Z :=
  if i <? 0 then l else <[Z.to_nat i := v]> l.

Definition len (l : list Z) : Z := Z.of_nat (length l).

Lemma len_app (l1 l2 : list Z) : len (l1 ++ l2) = len l1 + len l2.
Proof. unfold len. rewrite length_app. lia. Qed.

Lemma len_wr l i v : len (wr l i v) = len l.
Proof. unfold len, wr. destruct (i <? 0); [done|]. by rewrite length_insert. Qed.

Lemma nth_lookup_default (l : list Z) (n : nat) : nth n l 0 = default 0 (l !! n).
Proof. revert n. induction l as [|x l IH]; intros [|n]; simpl; done. Qed.

Lemma rd_wr_eq l i v : 0 <= i < len l -> rd (wr l i v) i = v.
Proof.
  unfold len, rd, wr. intros H. destruct (Z.ltb_spec i 0); [lia|].
  rewrite nth_lookup_default, list_lookup_insert_eq; [done|lia].
Qed.

Lemma rd_wr_ne l i j v : i <> j -> rd (wr l i v) j = rd l j.
Proof.
  unfold rd, wr. intros H.
  destruct (Z.ltb_spec i 0), (Z.ltb_spec j 0); try done.
  rewrite !nth_lookup_default, list_lookup_insert_ne; [done|lia].
Qed.

Lemma rd_wr l i j v :
  0 <= i < len l -> rd (wr l i v) j = if i =? j then v else rd l j.
Proof.
  intros H. destruct (Z.eqb_spec i j) as [<-|Hne].
  - by apply rd_wr_eq.
  - by apply rd_wr_ne.
Qed.

(** A write in or out of range changes at most its own cell. *)
Lemma rd_wr_cases l i j v : rd (wr l i v) j = rd l j \/ (i = j /\ rd (wr l i v) j = v).
Proof.
  destruct (Z.eq_dec i j) as [<-|Hne]; [|left; by apply rd_wr_ne].
  destruct (decide (0 <= i < len l)) as [H|H].
  - right. split; [done|]. by apply rd_wr_eq.
  - left. unfold rd, wr, len in *. destruct (Z.ltb_spec i 0); [done|].
    rewrite list_insert_ge; [done|lia].
Qed.

Lemma rd_out l i : ~ (0 <= i < len l) -> rd l i = 0.
Proof.
  unfold rd, len. intros H. destruct (Z.ltb_spec i 0); [done|].
  rewrite nth_overflow; [done|lia].
Qed.

Lemma wr_rd_id l i : wr l i (rd l i) = l.
Proof.
  unfold wr, rd. destruct (Z.ltb_spec i 0); [done|].
  rewrite nth_lookup_default.
  destruct (l !! Z.to_nat i) eqn:E; simpl.
  - by apply list_insert_id.
  - apply list_insert_ge. by apply lookup_ge_None.
Qed.

(** The array [0, 0, ..., 0] of [memset]. *)
Definition zeros (n : nat) : list Z := replicate n 0.

Lemma rd_zeros n i : rd (zeros n) i = 0.
Proof.
  unfold rd, zeros. destruct (i <? 0); [done|]. rewrite nth_lookup_default.
  destruct (replicate n 0 !! Z.to_nat i) eqn:E; [|done].
  apply lookup_replicate in E as [-> _]. done.
Qed.

Lemma len_zeros n : len (zeros n) = Z.of_nat n.
Proof. unfold len, zeros. by rewrite length_replicate. Qed.

(** Fields put together by shifts. *)
Lemma lor_shift x y k : 0 <= k -> 0 <= x < 2 ^ k -> Z.lor x (Z.shiftl y k) = x + y * 2 ^ k.
Proof.
  intros Hk Hx. assert (N : Z.land x (Z.shiftl y k) = 0).
  { apply Z.bits_inj'. intros n Hn. rewrite Z.land_spec, Z.bits_0. destruct (Z.lt_ge_cases n k).
    - by rewrite (Z.shiftl_spec_low y), andb_false_r by done.
    - rewrite <- (Z.mod_small x (2 ^ k)) by done. by rewrite Z.mod_pow2_bits_high by lia. }
  by rewrite <- Z.lxor_lor, <- Z.add_nocarry_lxor, Z.shiftl_mul_pow2.
Qed.

(** ** Tactics *)

(** Splits every boolean comparison that decides a branch. *)
Ltac zb_case :=
  match goal with
  | |- context [if ?a =? ?b then _ else _] => destruct (Z.eqb_spec a b)
  | |- context [if ?a <? ?b then _ else _] => destruct (Z.ltb_spec a b)
  | |- context [if ?a <=? ?b then _ else _] => destruct (Z.leb_spec a b)
  end.

Ltac zb_case_in H :=
  match type of H with
  | context [if ?a =? ?b then _ else _] => destruct (Z.eqb_spec a b)
  | context [if ?a <? ?b then _ else _] => destruct (Z.ltb_spec a b)
  | context [if ?a <=? ?b then _ else _] => destruct (Z.leb_spec a b)
  end.

Create Rewrite HintDb rtdb.
#[export] Hint Rewrite len_wr len_zeros rd_zeros : rtdb.
