(* ===== verification/Buffer.v ===== *)
(** * Byte buffers

    Stores and loads of runs of bytes in a buffer of fixed length, as [memcpy] and
    the copy loops of the libraries do them, and the lemmas the protocol code
    shares. *)

From stdpp Require Import base tactics numbers list.
From Stdlib Require Import ZArith Lia.
From S2P Require Import Prelude.

(** Bytes stored at an offset of a buffer, and read from one. *)
Definition put (off : Z) (l buf : list Z) : list Z :=
  take (Z.to_nat off) buf ++ l ++ drop (Z.to_nat off + length l) buf.
Definition get (off n : Z) (buf : list Z) : list Z := take (Z.to_nat n) (drop (Z.to_nat off) buf).

Lemma put_0 (l buf : list Z) : put 0 l buf = l ++ drop (length l) buf.
Proof. done. Qed.

Lemma put_next (h l buf : list Z) :
  put (len h) l (h ++ buf) = h ++ l ++ drop (length l) buf.
Proof.
  unfold put, len. rewrite Nat2Z.id, take_app_length.
  by rewrite <- drop_drop, drop_app_length.
Qed.

Lemma length_put off l buf :
  0 <= off -> (Z.to_nat off + length l <= length buf)%nat -> length (put off l buf) = length buf.
Proof. intros Ho H. unfold put. rewrite !length_app, length_take, length_drop. lia. Qed.

Lemma get_mid (h l t : list Z) : get (len h) (len l) (h ++ l ++ t) = l.
Proof. unfold get, len. by rewrite !Nat2Z.id, drop_app_length, take_app_length. Qed.

Lemma rd_mid (h t : list Z) x : rd (h ++ x :: t) (len h) = x.
Proof.
  unfold rd, len. destruct (Z.ltb_spec (Z.of_nat (length h)) 0); [lia|].
  rewrite Nat2Z.id, nth_lookup_default. by rewrite list_lookup_middle.
Qed.

Lemma rd_mid2 (h t : list Z) x y : rd (h ++ x :: y :: t) (len h + 1) = y.
Proof.
  replace (len h + 1) with (len (h ++ [x])) by (unfold len; rewrite length_app; simpl; lia).
  change (x :: y :: t) with ([x] ++ y :: t). rewrite app_assoc. apply rd_mid.
Qed.

Lemma get_take a n k (l : list Z) : 0 <= k <= n -> get a k l = take (Z.to_nat k) (get a n l).
Proof. intros H. unfold get. rewrite take_take. f_equal. lia. Qed.

Lemma get_drop a n k (l : list Z) : 0 <= a -> 0 <= k <= n -> get (a + k) (n - k) l = drop (Z.to_nat k) (get a n l).
Proof.
  intros Ha H. unfold get. rewrite skipn_firstn_comm, drop_drop. f_equal; [lia|f_equal; lia].
Qed.

Lemma put_nil off buf : put off [] buf = buf.
Proof. unfold put. simpl. rewrite Nat.add_0_r. apply take_drop. Qed.

Lemma drop_put_start off l buf :
  (Z.to_nat off <= length buf)%nat -> drop (Z.to_nat off) (put off l buf) = l ++ drop (Z.to_nat off + length l) buf.
Proof.
  intros H. unfold put. rewrite drop_app_length'; [done|]. rewrite length_take. lia.
Qed.

Lemma drop_put off l buf :
  (Z.to_nat off <= length buf)%nat ->
  drop (Z.to_nat off + length l) (put off l buf) = drop (Z.to_nat off + length l) buf.
Proof.
  intros H. unfold put. rewrite app_assoc, drop_app_length'; [done|]. rewrite length_app, length_take. lia.
Qed.

Lemma drop_put_ge off l j buf :
  (Z.to_nat off <= length buf)%nat -> (Z.to_nat off + length l <= j)%nat -> drop j (put off l buf) = drop j buf.
Proof.
  intros H Hj. replace j with ((Z.to_nat off + length l) + (j - (Z.to_nat off + length l)))%nat by lia.
  rewrite <- (drop_drop (put off l buf)), drop_put by done. by rewrite drop_drop.
Qed.

Lemma rd_put off c buf : 0 <= off -> (Z.to_nat off < length buf)%nat -> rd (put off [c] buf) off = c.
Proof.
  intros Ho H. unfold put.
  assert (E : off = len (take (Z.to_nat off) buf)) by (unfold len; rewrite length_take; lia).
  rewrite E at 3. apply rd_mid.
Qed.

Lemma get_put_from off a l buf :
  0 <= off -> get (off + 3) (len a) buf = a -> (Z.to_nat off + 3 + length a + length l <= length buf)%nat ->
  get (off + 3) (len (a ++ l)) (put (off + 3 + len a) l buf) = a ++ l.
Proof.
  intros Ho Eg H. unfold put, get, len in *.
  replace (Z.to_nat (off + 3 + Z.of_nat (length a))) with (Z.to_nat (off + 3) + length a)%nat by lia.
  rewrite !Nat2Z.id in *. rewrite drop_app_le by (rewrite length_take; lia). rewrite skipn_firstn_comm.
  replace (Z.to_nat (off + 3) + length a - Z.to_nat (off + 3))%nat with (length a) by lia.
  rewrite Eg, app_assoc. apply take_app_length.
Qed.

Lemma get_app_l off a b buf : get off (len (a ++ b)) buf = a ++ b -> get off (len a) buf = a.
Proof.
  intros E. rewrite (get_take _ (len (a ++ b))) by (unfold len; rewrite length_app; lia). rewrite E. unfold len.
  by rewrite Nat2Z.id, take_app_length.
Qed.

Lemma get_app_r off a b buf : 0 <= off -> get off (len (a ++ b)) buf = a ++ b -> get (off + len a) (len b) buf = b.
Proof.
  intros Ho E. replace (len b) with (len (a ++ b) - len a) by (unfold len; rewrite length_app; lia).
  rewrite get_drop by (unfold len; rewrite ?length_app; lia). rewrite E. unfold len. by rewrite Nat2Z.id, drop_app_length.
Qed.

Lemma get_drop_eq off n k buf buf' :
  0 <= k <= off -> drop (Z.to_nat k) buf = drop (Z.to_nat k) buf' -> get off n buf = get off n buf'.
Proof.
  intros H E. unfold get. f_equal. replace (Z.to_nat off) with (Z.to_nat k + (Z.to_nat off - Z.to_nat k))%nat by lia.
  rewrite <- !drop_drop. by rewrite E.
Qed.

Lemma get_put_end off a l buf :
  get 3 (len a) buf = a -> off = 3 + len a -> (3 + length a + length l <= length buf)%nat ->
  get 3 (len (a ++ l)) (put off l buf) = a ++ l.
Proof.
  intros Eg -> H. unfold put, get, len in *. change (Z.to_nat 3) with 3%nat in *.
  replace (Z.to_nat (3 + Z.of_nat (length a))) with (3 + length a)%nat by lia. rewrite !Nat2Z.id in *.
  rewrite drop_app_le by (rewrite length_take; lia). rewrite skipn_firstn_comm.
  replace (3 + length a - 3)%nat with (length a) by lia. rewrite Eg, app_assoc. apply take_app_length.
Qed.

Lemma rd_put_0 c pkt i : 1 <= i -> rd (put 0 [c] pkt) i = rd pkt i.
Proof.
  intros Hi. rewrite put_0. cbn [length app]. unfold rd. destruct (Z.ltb_spec i 0); [lia|].
  replace (Z.to_nat i) with (S (Z.to_nat (i - 1))) by lia. destruct pkt as [|x pkt]; [|done]. by destruct (Z.to_nat (i - 1)).
Qed.

Lemma get_put_0 c pkt i n : 1 <= i -> get i n (put 0 [c] pkt) = get i n pkt.
Proof.
  intros Hi. rewrite put_0. cbn [length app]. unfold get. f_equal. replace (Z.to_nat i) with (S (Z.to_nat (i - 1))) by lia.
  cbn [drop]. by rewrite drop_drop.
Qed.

Lemma put_get off n buf : 0 <= off -> put off (get off n buf) buf = buf.
Proof.
  intros H. unfold put, get. rewrite <- drop_drop.
  replace (take (Z.to_nat n) (drop (Z.to_nat off) buf) ++ _) with (drop (Z.to_nat off) buf); [apply take_drop|].
  rewrite <- (take_drop (Z.to_nat n) (drop (Z.to_nat off) buf)) at 1. f_equal. rewrite length_take.
  destruct (Nat.le_ge_cases (Z.to_nat n) (length (drop (Z.to_nat off) buf))) as [L|L]; [by rewrite Nat.min_l|].
  rewrite Nat.min_r by done. rewrite drop_all. apply drop_ge. done.
Qed.
