(* ===== verification/CortexM.v ===== *)
(** * Cortex-M instructions the kernel is written with

    Models [__clz], [__rbit], [__bit_mem_rd] and [__bit_mem_wr] of
    src/sdk/include/arch/cortex-m3.h on 32-bit patterns, and proves the facts
    the scheduler and the object allocators rest on: [clz (rbit w)] is the index
    of the lowest set bit, and is 32 exactly when the bitmap is empty. *)

From stdpp Require Import base tactics numbers list gmap.
From Stdlib Require Import ZArith Lia.
From S2P Require Import Prelude.

(** ** Definitions *)

(** CLZ: the number of zero bits above the most significant set bit. *)
Definition __clz (val : Z) : Z := if val =? 0 then 32 else 31 - Z.log2 val.

(** RBIT: bit [i] of the result is bit [31 - i] of the operand. *)
Fixpoint rbit_from (n : nat) (val : Z) : Z :=
  match n with
  | O => 0
  | S m =>
      let rest := rbit_from m val in
      if Z.testbit val (Z.of_nat m) then Z.setbit rest (31 - Z.of_nat m) else rest
  end.

Definition __rbit (val : Z) : Z := rbit_from 32 val.

Arguments __rbit : simpl never.
Arguments __clz : simpl never.

(** Bit-band access to bit [bit] of a word. *)
Definition __bit_mem_rd (w bit : Z) : bool := Z.testbit w bit.

Definition __bit_mem_wr (w bit : Z) (val : bool) : Z :=
  if val then Z.setbit w bit else Z.clearbit w bit.

Arguments __bit_mem_wr : simpl never.

(** ** Reversal *)

Lemma rbit_from_spec n val i :
  (n <= 32)%nat -> 0 <= i ->
  Z.testbit (rbit_from n val) i =
    ((32 - Z.of_nat n <=? i) && (i <=? 31) && Z.testbit val (31 - i)).
Proof.
  revert i. induction n as [|n IH]; intros i Hn Hi; simpl rbit_from.
  - rewrite Z.bits_0. destruct (Z.leb_spec (32 - Z.of_nat 0) i), (Z.leb_spec i 31); simpl; lia || done.
  - destruct (Z.testbit val (Z.of_nat n)) eqn:E.
    + rewrite Z.setbit_eqb by lia. rewrite IH by lia.
      destruct (Z.eqb_spec (31 - Z.of_nat n) i) as [<-|Hne].
      * replace (31 - (31 - Z.of_nat n)) with (Z.of_nat n) by lia. rewrite E.
        destruct (Z.leb_spec (32 - Z.of_nat (S n)) (31 - Z.of_nat n)),
          (Z.leb_spec (31 - Z.of_nat n) 31); simpl; lia || done.
      * simpl. destruct (Z.leb_spec (32 - Z.of_nat (S n)) i), (Z.leb_spec (32 - Z.of_nat n) i);
          simpl; lia || done.
    + rewrite IH by lia.
      destruct (Z.leb_spec (32 - Z.of_nat (S n)) i), (Z.leb_spec (32 - Z.of_nat n) i);
        simpl; try lia; try done.
      replace (31 - i) with (Z.of_nat n) by lia. rewrite E. by rewrite andb_false_r.
Qed.

Lemma rbit_nonneg n val : (n <= 32)%nat -> 0 <= rbit_from n val.
Proof.
  induction n as [|n IH]; intros Hn; simpl; [done|].
  destruct (Z.testbit val (Z.of_nat n)); [|apply IH; lia].
  unfold Z.setbit. apply Z.lor_nonneg. split; [apply IH; lia|].
  apply Z.shiftl_nonneg. lia.
Qed.

Lemma rbit_nonneg' val : 0 <= __rbit val.
Proof. unfold __rbit. apply rbit_nonneg. lia. Qed.

Lemma rbit_spec val i :
  0 <= i < 32 -> Z.testbit (__rbit val) i = Z.testbit val (31 - i).
Proof.
  intros Hi. unfold __rbit. rewrite rbit_from_spec by lia.
  destruct (Z.leb_spec (32 - Z.of_nat 32) i), (Z.leb_spec i 31); simpl; lia || done.
Qed.

Lemma rbit_high val i : 32 <= i -> Z.testbit (__rbit val) i = false.
Proof.
  intros Hi. unfold __rbit. rewrite rbit_from_spec by lia.
  destruct (Z.leb_spec i 31); [lia|]. by rewrite andb_false_r.
Qed.

Lemma rbit_zero_iff val :
  __rbit val = 0 <-> (forall i, 0 <= i < 32 -> Z.testbit val i = false).
Proof.
  split.
  - intros H i Hi. replace i with (31 - (31 - i)) by lia.
    rewrite <- rbit_spec by lia. rewrite H. apply Z.bits_0.
  - intros H. apply Z.bits_inj_0. intros i.
    destruct (Z.ltb_spec i 0); [by apply Z.testbit_neg_r|].
    destruct (Z.ltb_spec i 32); [|by apply rbit_high].
    rewrite rbit_spec by lia. apply H. lia.
Qed.

#[global] Opaque __rbit.

(** ** Lowest set bit *)

Lemma log2_lt_32 w : 0 < w -> (forall i, 32 <= i -> Z.testbit w i = false) -> Z.log2 w < 32.
Proof.
  intros Hw H. destruct (Z.ltb_spec (Z.log2 w) 32) as [|Hge]; [done|].
  pose proof (Z.bit_log2 w Hw) as Hb. rewrite H in Hb; [done|lia].
Qed.

(** [clz (rbit w)] is the lowest set bit of [w] ... *)
Lemma ctz_some w :
  __rbit w <> 0 ->
  0 <= __clz (__rbit w) < 32 /\
  Z.testbit w (__clz (__rbit w)) = true /\
  (forall j, 0 <= j < __clz (__rbit w) -> Z.testbit w j = false).
Proof.
  intros Hne. pose proof (rbit_nonneg' w) as Hnn.
  assert (Hpos : 0 < __rbit w) by lia.
  pose proof (log2_lt_32 (__rbit w) Hpos (rbit_high w)) as Hlt.
  pose proof (Z.log2_nonneg (__rbit w)) as Hl0.
  unfold __clz. destruct (Z.eqb_spec (__rbit w) 0); [lia|].
  split; [lia|]. split.
  - rewrite <- rbit_spec by lia. by apply Z.bit_log2.
  - intros j Hj. replace j with (31 - (31 - j)) by lia.
    rewrite <- rbit_spec by lia. apply Z.bits_above_log2; lia.
Qed.

(** ... and 32 when no bit is set. *)
Lemma ctz_none w :
  __clz (__rbit w) = 32 <-> (forall i, 0 <= i < 32 -> Z.testbit w i = false).
Proof.
  rewrite <- rbit_zero_iff. split.
  - intros H. destruct (Z.eq_dec (__rbit w) 0) as [|Hne]; [done|].
    pose proof (ctz_some w Hne). lia.
  - intros ->. reflexivity.
Qed.

Lemma ctz_range w : 0 <= __clz (__rbit w) <= 32.
Proof.
  destruct (Z.eq_dec (__rbit w) 0) as [->|Hne]; [done|].
  pose proof (ctz_some w Hne). lia.
Qed.

(** The two cases in the form the callers' tests produce. *)
Lemma ctz_bit w :
  __clz (__rbit w) <> 32 ->
  0 <= __clz (__rbit w) < 32 /\ Z.testbit w (__clz (__rbit w)) = true.
Proof.
  intros H. destruct (Z.eq_dec (__rbit w) 0) as [E|Hne].
  - by rewrite E in H.
  - pose proof (ctz_some w Hne) as (?&?&?). done.
Qed.

Lemma ctz_least w i :
  0 <= i < 32 -> Z.testbit w i = true -> __clz (__rbit w) <= i.
Proof.
  intros Hi Hb. destruct (Z.eq_dec (__rbit w) 0) as [E|Hne].
  - rewrite rbit_zero_iff in E. rewrite E in Hb; done.
  - destruct (ctz_some w Hne) as (?&?&Hmin).
    destruct (Z.leb_spec (__clz (__rbit w)) i); [done|].
    rewrite Hmin in Hb; [done|lia].
Qed.

Lemma ctz_unique w i :
  0 <= i < 32 -> Z.testbit w i = true ->
  (forall j, 0 <= j < i -> Z.testbit w j = false) -> __clz (__rbit w) = i.
Proof.
  intros Hi Hb Hmin. pose proof (ctz_least w i Hi Hb) as Hle.
  destruct (ctz_bit w) as [Hr Ht]; [lia|].
  destruct (Z.eq_dec (__clz (__rbit w)) i); [done|].
  rewrite Hmin in Ht; [done|lia].
Qed.

(** ** Bit-band writes *)

Lemma bit_wr_spec w i j v :
  0 <= i -> Z.testbit (__bit_mem_wr w i v) j = if i =? j then v else Z.testbit w j.
Proof.
  intros Hi. unfold __bit_mem_wr. destruct v.
  - rewrite Z.setbit_eqb by lia. by destruct (Z.eqb_spec i j).
  - destruct (Z.eqb_spec i j) as [<-|Hne].
    + apply Z.clearbit_eq.
    + by apply Z.clearbit_neq.
Qed.

Lemma bit_wr_eq w i v : 0 <= i -> Z.testbit (__bit_mem_wr w i v) i = v.
Proof. intros. rewrite bit_wr_spec by done. by rewrite Z.eqb_refl. Qed.

Lemma bit_wr_ne w i j v : 0 <= i -> i <> j -> Z.testbit (__bit_mem_wr w i v) j = Z.testbit w j.
Proof. intros. rewrite bit_wr_spec by done. by destruct (Z.eqb_spec i j). Qed.

Lemma testbit_ldiff_bit w i j :
  0 <= i -> Z.testbit (Z.ldiff w (Z.shiftl 1 i)) j = if i =? j then false else Z.testbit w j.
Proof.
  intros Hi. change (Z.ldiff w (Z.shiftl 1 i)) with (__bit_mem_wr w i false).
  by apply bit_wr_spec.
Qed.

Lemma testbit_lor_bit w i j :
  0 <= i -> Z.testbit (Z.lor w (Z.shiftl 1 i)) j = if i =? j then true else Z.testbit w j.
Proof.
  intros Hi. change (Z.lor w (Z.shiftl 1 i)) with (__bit_mem_wr w i true).
  by apply bit_wr_spec.
Qed.

Lemma testbit_shiftl1 i j : 0 <= i -> Z.testbit (Z.shiftl 1 i) j = (i =? j).
Proof.
  intros Hi. rewrite Z.shiftl_1_l. destruct (Z.eqb_spec i j) as [<-|Hne].
  - by apply Z.pow2_bits_true.
  - by apply Z.pow2_bits_false.
Qed.

(** [w & (1 << i)] as a test. *)
Lemma land_bit_eqb w i : 0 <= i -> (Z.land w (Z.shiftl 1 i) =? 0) = negb (Z.testbit w i).
Proof.
  intros Hi. destruct (Z.testbit w i) eqn:E; simpl.
  - apply Z.eqb_neq. intros Hz. apply (f_equal (fun x => Z.testbit x i)) in Hz.
    by rewrite Z.land_spec, E, testbit_shiftl1, Z.eqb_refl, Z.bits_0 in Hz by lia.
  - apply Z.eqb_eq. apply Z.bits_inj_0. intros j. rewrite Z.land_spec, testbit_shiftl1 by lia.
    destruct (Z.eqb_spec i j) as [<-|]; [by rewrite E|apply andb_false_r].
Qed.

(** A 32-bit pattern has no bit above 31. *)
Lemma testbit_u32_high w i : 0 <= w < 4294967296 -> 32 <= i -> Z.testbit w i = false.
Proof.
  intros Hw Hi. destruct (Z.eq_dec w 0) as [->|Hne]; [apply Z.bits_0|].
  apply Z.bits_above_log2; [lia|].
  assert (Z.log2 w < 32) by (apply Z.log2_lt_pow2; [lia|change (2^32) with 4294967296; lia]).
  lia.
Qed.

Lemma word_of_bits w :
  0 <= w -> (forall i, 32 <= i -> Z.testbit w i = false) -> w < 4294967296.
Proof.
  intros Hw H. enough (w mod 2 ^ 32 = w) as <- by (apply Z.mod_pos_bound; lia).
  apply Z.bits_inj'. intros i Hi. destruct (Z.ltb_spec i 32).
  - by apply Z.mod_pow2_bits_low.
  - rewrite Z.mod_pow2_bits_high by lia. symmetry. by apply H.
Qed.

(** A bit write keeps a word a word. *)
Lemma bit_wr_range w i v :
  0 <= w < 4294967296 -> 0 <= i < 32 -> 0 <= __bit_mem_wr w i v < 4294967296.
Proof.
  intros Hw Hi.
  assert (H0 : 0 <= __bit_mem_wr w i v).
  { unfold __bit_mem_wr, Z.setbit, Z.clearbit. destruct v.
    - apply Z.lor_nonneg. split; [lia|]. apply Z.shiftl_nonneg. lia.
    - apply Z.ldiff_nonneg. lia. }
  split; [done|]. apply word_of_bits; [done|]. intros j Hj. rewrite bit_wr_spec by lia.
  destruct (Z.eqb_spec i j); [lia|]. by apply testbit_u32_high.
Qed.

#[global] Transparent __rbit.
#[global] Strategy 1000 [__rbit rbit_from __clz].

#[export] Hint Rewrite testbit_ldiff_bit testbit_lor_bit bit_wr_spec using lia : rtdb.

(** Rounding down to a multiple of 8 by a mask. *)
Lemma land_align8 sp : 0 <= sp < 4294967296 -> Z.land sp 4294967288 = 8 * (sp / 8).
Proof.
  intros H. change 4294967288 with (Z.shiftl (Z.ones 29) 3).
  replace (8 * (sp / 8)) with (Z.shiftl (Z.shiftr sp 3) 3)
    by (rewrite Z.shiftl_mul_pow2, Z.shiftr_div_pow2 by lia; change (2 ^ 3) with 8; lia).
  apply Z.bits_inj'. intros i Hi. rewrite Z.land_spec, !Z.shiftl_spec by lia.
  destruct (Z.ltb_spec i 3).
  - rewrite !(Z.testbit_neg_r _ (i - 3)) by lia. apply andb_false_r.
  - rewrite Z.shiftr_spec, Z.testbit_ones_nonneg by lia. replace (i - 3 + 3) with i by lia.
    destruct (Z.ltb_spec (i - 3) 29); [apply andb_true_r|].
    rewrite (testbit_u32_high sp i H) by lia. done.
Qed.
