(* ===== verification/State.v ===== *)
(** * Kernel configuration and run-time state

    The configuration constants of src/sdk/include/thinkos/kernel.h (the
    defaults of the header, with THINKOS_ENABLE_CONSOLE and
    THINKOS_ENABLE_MONITOR set as every board configuration of the repository
    sets them), the numbering of the wait queues, the error and object codes of
    src/sdk/include/thinkos.h, and the state: [struct thinkos_rt], the context
    records it points to, and the few machine registers the kernel drives. *)

From stdpp Require Import base tactics numbers list gmap.
From Stdlib Require Import ZArith Lia.
From S2P Require Import Prelude CortexM.

(** ** Configuration *)

Abbreviation THINKOS_THREADS_MAX := 8 (only parsing).
Abbreviation THINKOS_MUTEX_MAX := 8 (only parsing).
Abbreviation THINKOS_COND_MAX := 8 (only parsing).
Abbreviation THINKOS_SEMAPHORE_MAX := 8 (only parsing).
Abbreviation THINKOS_EVENT_MAX := 4 (only parsing).
Abbreviation THINKOS_FLAG_MAX := 8 (only parsing).
Abbreviation THINKOS_GATE_MAX := 8 (only parsing).
Abbreviation THINKOS_IRQ_MAX := 80 (only parsing).
Abbreviation THINKOS_SCHED_LIMIT_MAX := 32 (only parsing).
Abbreviation THINKOS_SCHED_LIMIT_MIN := 1 (only parsing).
Abbreviation THINKOS_CONSOLE_RX_FIFO_LEN := 64 (only parsing).
Abbreviation THINKOS_CONSOLE_TX_FIFO_LEN := 64 (only parsing).

Abbreviation THINKOS_THREAD_NULL := 32 (only parsing).
Abbreviation THINKOS_THREAD_IDLE := 8 (only parsing).
Abbreviation THINKOS_THREAD_VOID := 9 (only parsing).

(** Offsets of the queues in [wq_lst], in the order of the fields of
    [struct thinkos_rt]. *)
Abbreviation THINKOS_WQ_READY := 0 (only parsing).
Abbreviation THINKOS_WQ_TMSHARE := 1 (only parsing).
Abbreviation THINKOS_WQ_CLOCK := 2 (only parsing).
Abbreviation THINKOS_MUTEX_BASE := 3 (only parsing).
Abbreviation THINKOS_COND_BASE := 11 (only parsing).
Abbreviation THINKOS_SEM_BASE := 19 (only parsing).
Abbreviation THINKOS_EVENT_BASE := 27 (only parsing).
Abbreviation THINKOS_FLAG_BASE := 31 (only parsing).
Abbreviation THINKOS_GATE_BASE := 39 (only parsing).
Abbreviation THINKOS_JOIN_BASE := 47 (only parsing).
Abbreviation THINKOS_WQ_CONSOLE_WR := 55 (only parsing).
Abbreviation THINKOS_WQ_CONSOLE_RD := 56 (only parsing).
Abbreviation THINKOS_WQ_PAUSED := 57 (only parsing).
Abbreviation THINKOS_WQ_CANCELED := 58 (only parsing).
Abbreviation THINKOS_WQ_LST_END := 59 (only parsing).

(** [enum thinkos_err] *)
Abbreviation THINKOS_OK := 0 (only parsing).
Abbreviation THINKOS_ETIMEDOUT := (-1) (only parsing).
Abbreviation THINKOS_EINTR := (-2) (only parsing).
Abbreviation THINKOS_EINVAL := (-3) (only parsing).
Abbreviation THINKOS_EAGAIN := (-4) (only parsing).
Abbreviation THINKOS_EDEADLK := (-5) (only parsing).
Abbreviation THINKOS_EPERM := (-6) (only parsing).
Abbreviation THINKOS_ENOSYS := (-7) (only parsing).
Abbreviation THINKOS_EFAULT := (-8) (only parsing).
Abbreviation THINKOS_ENOMEM := (-9) (only parsing).
Abbreviation THINKOS_EBADF := (-10) (only parsing).

(** [enum thinkos_obj_kind] *)
Inductive thinkos_obj_kind :=
  | OBJ_READY | OBJ_TMSHARE | OBJ_CLOCK | OBJ_MUTEX | OBJ_COND | OBJ_SEMAPHORE
  | OBJ_EVENT | OBJ_FLAG | OBJ_GATE | OBJ_JOIN | OBJ_CONREAD | OBJ_CONWRITE
  | OBJ_PAUSED | OBJ_CANCELED | OBJ_COMMSEND | OBJ_COMMRECV | OBJ_IRQ
  | OBJ_FAULT | OBJ_INVALID.

#[global] Instance thinkos_obj_kind_eq_dec : EqDecision thinkos_obj_kind.
Proof. solve_decision. Defined.

(** The size of [struct thinkos_context] and the addresses of the two exit
    stubs: link-time constants of the image. *)
Definition sizeof_context : Z := 64.
Definition addr_thread_exit : Z := 134217984.
Definition addr_exit_stub : Z := 134218240.
Definition addr_idle_task : Z := 134218496.
Definition CM_EPSR_T : Z := 16777216.

(** ** State *)

(** [struct thinkos_context]: the record a thread's [ctx] pointer designates. *)
Record thinkos_context := mk_context {
  r4 : Z; r5 : Z; r6 : Z; r7 : Z;
  r8 : Z; r9 : Z; r10 : Z; r11 : Z;
  r0 : Z; r1 : Z; r2 : Z; r3 : Z;
  r12 : Z; lr : Z; pc : Z; xpsr : Z
}.

Definition set_r0 (v : Z) (c : thinkos_context) : thinkos_context :=
  mk_context (r4 c) (r5 c) (r6 c) (r7 c) (r8 c) (r9 c) (r10 c) (r11 c)
    v (r1 c) (r2 c) (r3 c) (r12 c) (lr c) (pc c) (xpsr c).

Definition set_pc (v : Z) (c : thinkos_context) : thinkos_context :=
  mk_context (r4 c) (r5 c) (r6 c) (r7 c) (r8 c) (r9 c) (r10 c) (r11 c)
    (r0 c) (r1 c) (r2 c) (r3 c) (r12 c) (lr c) v (xpsr c).

(** [thinkos_console_rt] with its two pipes. *)
Record console_rt := mk_console {
  open_cnt : Z;
  connected : bool;
  tx_last_cnt : Z;
  tx_head : Z; tx_tail : Z; tx_buf : list Z;
  rx_head : Z; rx_tail : Z; rx_buf : list Z
}.

(** [struct thinkos_rt] and what it drives.  [wq_lst] is the whole list of
    queues, so that [wq_lst[stat >> 1]] aliases the named queues as in the C
    structure; [ctx] carries [void_ctx] as its last word and [sched] the bytes
    of the scheduler sub-structure, since the code indexes one field through
    the other. *)
Record kernel := mk_kernel {
  ctx : list Z; (* thread context pointers, the idle thread's, then void_ctx *)
  critical_cnt : Z; (* critical section entry counter *)
  active : Z; (* current active thread *)
  wq_lst : list Z; (* all wait queues, wq_ready first *)
  th_stat : list Z; (* per thread status: wq << 1 | timed *)
  sched : list Z; (* bytes of sched_val[], sched_idle_val, sched_pri[], sched_idle_pri, padding *)
  sched_limit : Z;
  ticks : Z;
  clock : list Z;
  sem_val : list Z;
  ev : list Z; (* words of { pend, mask } ev[] *)
  flag : Z; (* flag signal bitmap *)
  gate : Z; (* two bits per gate *)
  lock : list Z; (* mutex owners, -1 when free *)
  irq_th : list Z;
  th_alloc : Z;
  mutex_alloc : Z;
  cond_alloc : Z;
  sem_alloc : Z;
  ev_alloc : Z;
  flag_alloc : Z;
  gate_alloc : Z;
  th_inf : list Z;
  frames : gmap Z thinkos_context; (* live context records by address *)
  psp : Z; (* record of the running thread: PSP - 32 *)
  pendsv : bool; (* SCB.ICSR PENDSVSET *)
  irq_en : gset Z; (* interrupts enabled in the NVIC *)
  irq_pend : gset Z; (* interrupts pending in the NVIC *)
  mon_events : Z; (* thinkos_dbgmon_rt.events *)
  mon_req : bool; (* DCB.DEMCR MON_REQ *)
  mon_pend : bool; (* DCB.DEMCR MON_PEND *)
  console : console_rt; (* thinkos_console_rt *)
  umem : gmap Z Z; (* bytes of the threads' buffers *)
  wild : bool (* a store went outside the objects of the model *)
}.

Definition set_ctx (v : list Z) (s : kernel) : kernel :=
  mk_kernel v (critical_cnt s) (active s) (wq_lst s) (th_stat s) (sched s) (sched_limit s)
    (ticks s) (clock s) (sem_val s) (ev s) (flag s) (gate s) (lock s) (irq_th s) (th_alloc s)
    (mutex_alloc s) (cond_alloc s) (sem_alloc s) (ev_alloc s) (flag_alloc s) (gate_alloc s)
    (th_inf s) (frames s) (psp s) (pendsv s) (irq_en s) (irq_pend s) (mon_events s) (mon_req s)
    (mon_pend s) (console s) (umem s) (wild s).
Definition set_critical_cnt (v : Z) (s : kernel) : kernel :=
  mk_kernel (ctx s) v (active s) (wq_lst s) (th_stat s) (sched s) (sched_limit s) (ticks s)
    (clock s) (sem_val s) (ev s) (flag s) (gate s) (lock s) (irq_th s) (th_alloc s)
    (mutex_alloc s) (cond_alloc s) (sem_alloc s) (ev_alloc s) (flag_alloc s) (gate_alloc s)
    (th_inf s) (frames s) (psp s) (pendsv s) (irq_en s) (irq_pend s) (mon_events s) (mon_req s)
    (mon_pend s) (console s) (umem s) (wild s).
Definition set_active (v : Z) (s : kernel) : kernel :=
  mk_kernel (ctx s) (critical_cnt s) v (wq_lst s) (th_stat s) (sched s) (sched_limit s) (ticks s)
    (clock s) (sem_val s) (ev s) (flag s) (gate s) (lock s) (irq_th s) (th_alloc s)
    (mutex_alloc s) (cond_alloc s) (sem_alloc s) (ev_alloc s) (flag_alloc s) (gate_alloc s)
    (th_inf s) (frames s) (psp s) (pendsv s) (irq_en s) (irq_pend s) (mon_events s) (mon_req s)
    (mon_pend s) (console s) (umem s) (wild s).
Definition set_wq_lst (v : list Z) (s : kernel) : kernel :=
  mk_kernel (ctx s) (critical_cnt s) (active s) v (th_stat s) (sched s) (sched_limit s) (ticks s)
    (clock s) (sem_val s) (ev s) (flag s) (gate s) (lock s) (irq_th s) (th_alloc s)
    (mutex_alloc s) (cond_alloc s) (sem_alloc s) (ev_alloc s) (flag_alloc s) (gate_alloc s)
    (th_inf s) (frames s) (psp s) (pendsv s) (irq_en s) (irq_pend s) (mon_events s) (mon_req s)
    (mon_pend s) (console s) (umem s) (wild s).
Definition set_th_stat (v : list Z) (s : kernel) : kernel :=
  mk_kernel (ctx s) (critical_cnt s) (active s) (wq_lst s) v (sched s) (sched_limit s) (ticks s)
    (clock s) (sem_val s) (ev s) (flag s) (gate s) (lock s) (irq_th s) (th_alloc s)
    (mutex_alloc s) (cond_alloc s) (sem_alloc s) (ev_alloc s) (flag_alloc s) (gate_alloc s)
    (th_inf s) (frames s) (psp s) (pendsv s) (irq_en s) (irq_pend s) (mon_events s) (mon_req s)
    (mon_pend s) (console s) (umem s) (wild s).
Definition set_sched (v : list Z) (s : kernel) : kernel :=
  mk_kernel (ctx s) (critical_cnt s) (active s) (wq_lst s) (th_stat s) v (sched_limit s) (ticks s)
    (clock s) (sem_val s) (ev s) (flag s) (gate s) (lock s) (irq_th s) (th_alloc s)
    (mutex_alloc s) (cond_alloc s) (sem_alloc s) (ev_alloc s) (flag_alloc s) (gate_alloc s)
    (th_inf s) (frames s) (psp s) (pendsv s) (irq_en s) (irq_pend s) (mon_events s) (mon_req s)
    (mon_pend s) (console s) (umem s) (wild s).
Definition set_sched_limit (v : Z) (s : kernel) : kernel :=
  mk_kernel (ctx s) (critical_cnt s) (active s) (wq_lst s) (th_stat s) (sched s) v (ticks s)
    (clock s) (sem_val s) (ev s) (flag s) (gate s) (lock s) (irq_th s) (th_alloc s)
    (mutex_alloc s) (cond_alloc s) (sem_alloc s) (ev_alloc s) (flag_alloc s) (gate_alloc s)
    (th_inf s) (frames s) (psp s) (pendsv s) (irq_en s) (irq_pend s) (mon_events s) (mon_req s)
    (mon_pend s) (console s) (umem s) (wild s).
Definition set_ticks (v : Z) (s : kernel) : kernel :=
  mk_kernel (ctx s) (critical_cnt s) (active s) (wq_lst s) (th_stat s) (sched s) (sched_limit s) v
    (clock s) (sem_val s) (ev s) (flag s) (gate s) (lock s) (irq_th s) (th_alloc s)
    (mutex_alloc s) (cond_alloc s) (sem_alloc s) (ev_alloc s) (flag_alloc s) (gate_alloc s)
    (th_inf s) (frames s) (psp s) (pendsv s) (irq_en s) (irq_pend s) (mon_events s) (mon_req s)
    (mon_pend s) (console s) (umem s) (wild s).
Definition set_clock (v : list Z) (s : kernel) : kernel :=
  mk_kernel (ctx s) (critical_cnt s) (active s) (wq_lst s) (th_stat s) (sched s) (sched_limit s)
    (ticks s) v (sem_val s) (ev s) (flag s) (gate s) (lock s) (irq_th s) (th_alloc s)
    (mutex_alloc s) (cond_alloc s) (sem_alloc s) (ev_alloc s) (flag_alloc s) (gate_alloc s)
    (th_inf s) (frames s) (psp s) (pendsv s) (irq_en s) (irq_pend s) (mon_events s) (mon_req s)
    (mon_pend s) (console s) (umem s) (wild s).
Definition set_sem_val (v : list Z) (s : kernel) : kernel :=
  mk_kernel (ctx s) (critical_cnt s) (active s) (wq_lst s) (th_stat s) (sched s) (sched_limit s)
    (ticks s) (clock s) v (ev s) (flag s) (gate s) (lock s) (irq_th s) (th_alloc s)
    (mutex_alloc s) (cond_alloc s) (sem_alloc s) (ev_alloc s) (flag_alloc s) (gate_alloc s)
    (th_inf s) (frames s) (psp s) (pendsv s) (irq_en s) (irq_pend s) (mon_events s) (mon_req s)
    (mon_pend s) (console s) (umem s) (wild s).
Definition set_ev (v : list Z) (s : kernel) : kernel :=
  mk_kernel (ctx s) (critical_cnt s) (active s) (wq_lst s) (th_stat s) (sched s) (sched_limit s)
    (ticks s) (clock s) (sem_val s) v (flag s) (gate s) (lock s) (irq_th s) (th_alloc s)
    (mutex_alloc s) (cond_alloc s) (sem_alloc s) (ev_alloc s) (flag_alloc s) (gate_alloc s)
    (th_inf s) (frames s) (psp s) (pendsv s) (irq_en s) (irq_pend s) (mon_events s) (mon_req s)
    (mon_pend s) (console s) (umem s) (wild s).
Definition set_flag (v : Z) (s : kernel) : kernel :=
  mk_kernel (ctx s) (critical_cnt s) (active s) (wq_lst s) (th_stat s) (sched s) (sched_limit s)
    (ticks s) (clock s) (sem_val s) (ev s) v (gate s) (lock s) (irq_th s) (th_alloc s)
    (mutex_alloc s) (cond_alloc s) (sem_alloc s) (ev_alloc s) (flag_alloc s) (gate_alloc s)
    (th_inf s) (frames s) (psp s) (pendsv s) (irq_en s) (irq_pend s) (mon_events s) (mon_req s)
    (mon_pend s) (console s) (umem s) (wild s).
Definition set_gate (v : Z) (s : kernel) : kernel :=
  mk_kernel (ctx s) (critical_cnt s) (active s) (wq_lst s) (th_stat s) (sched s) (sched_limit s)
    (ticks s) (clock s) (sem_val s) (ev s) (flag s) v (lock s) (irq_th s) (th_alloc s)
    (mutex_alloc s) (cond_alloc s) (sem_alloc s) (ev_alloc s) (flag_alloc s) (gate_alloc s)
    (th_inf s) (frames s) (psp s) (pendsv s) (irq_en s) (irq_pend s) (mon_events s) (mon_req s)
    (mon_pend s) (console s) (umem s) (wild s).
Definition set_lock (v : list Z) (s : kernel) : kernel :=
  mk_kernel (ctx s) (critical_cnt s) (active s) (wq_lst s) (th_stat s) (sched s) (sched_limit s)
    (ticks s) (clock s) (sem_val s) (ev s) (flag s) (gate s) v (irq_th s) (th_alloc s)
    (mutex_alloc s) (cond_alloc s) (sem_alloc s) (ev_alloc s) (flag_alloc s) (gate_alloc s)
    (th_inf s) (frames s) (psp s) (pendsv s) (irq_en s) (irq_pend s) (mon_events s) (mon_req s)
    (mon_pend s) (console s) (umem s) (wild s).
Definition set_irq_th (v : list Z) (s : kernel) : kernel :=
  mk_kernel (ctx s) (critical_cnt s) (active s) (wq_lst s) (th_stat s) (sched s) (sched_limit s)
    (ticks s) (clock s) (sem_val s) (ev s) (flag s) (gate s) (lock s) v (th_alloc s)
    (mutex_alloc s) (cond_alloc s) (sem_alloc s) (ev_alloc s) (flag_alloc s) (gate_alloc s)
    (th_inf s) (frames s) (psp s) (pendsv s) (irq_en s) (irq_pend s) (mon_events s) (mon_req s)
    (mon_pend s) (console s) (umem s) (wild s).
Definition set_th_alloc (v : Z) (s : kernel) : kernel :=
  mk_kernel (ctx s) (critical_cnt s) (active s) (wq_lst s) (th_stat s) (sched s) (sched_limit s)
    (ticks s) (clock s) (sem_val s) (ev s) (flag s) (gate s) (lock s) (irq_th s) v (mutex_alloc s)
    (cond_alloc s) (sem_alloc s) (ev_alloc s) (flag_alloc s) (gate_alloc s) (th_inf s) (frames s)
    (psp s) (pendsv s) (irq_en s) (irq_pend s) (mon_events s) (mon_req s) (mon_pend s) (console s)
    (umem s) (wild s).
Definition set_mutex_alloc (v : Z) (s : kernel) : kernel :=
  mk_kernel (ctx s) (critical_cnt s) (active s) (wq_lst s) (th_stat s) (sched s) (sched_limit s)
    (ticks s) (clock s) (sem_val s) (ev s) (flag s) (gate s) (lock s) (irq_th s) (th_alloc s) v
    (cond_alloc s) (sem_alloc s) (ev_alloc s) (flag_alloc s) (gate_alloc s) (th_inf s) (frames s)
    (psp s) (pendsv s) (irq_en s) (irq_pend s) (mon_events s) (mon_req s) (mon_pend s) (console s)
    (umem s) (wild s).
Definition set_cond_alloc (v : Z) (s : kernel) : kernel :=
  mk_kernel (ctx s) (critical_cnt s) (active s) (wq_lst s) (th_stat s) (sched s) (sched_limit s)
    (ticks s) (clock s) (sem_val s) (ev s) (flag s) (gate s) (lock s) (irq_th s) (th_alloc s)
    (mutex_alloc s) v (sem_alloc s) (ev_alloc s) (flag_alloc s) (gate_alloc s) (th_inf s)
    (frames s) (psp s) (pendsv s) (irq_en s) (irq_pend s) (mon_events s) (mon_req s) (mon_pend s)
    (console s) (umem s) (wild s).
Definition set_sem_alloc (v : Z) (s : kernel) : kernel :=
  mk_kernel (ctx s) (critical_cnt s) (active s) (wq_lst s) (th_stat s) (sched s) (sched_limit s)
    (ticks s) (clock s) (sem_val s) (ev s) (flag s) (gate s) (lock s) (irq_th s) (th_alloc s)
    (mutex_alloc s) (cond_alloc s) v (ev_alloc s) (flag_alloc s) (gate_alloc s) (th_inf s)
    (frames s) (psp s) (pendsv s) (irq_en s) (irq_pend s) (mon_events s) (mon_req s) (mon_pend s)
    (console s) (umem s) (wild s).
Definition set_ev_alloc (v : Z) (s : kernel) : kernel :=
  mk_kernel (ctx s) (critical_cnt s) (active s) (wq_lst s) (th_stat s) (sched s) (sched_limit s)
    (ticks s) (clock s) (sem_val s) (ev s) (flag s) (gate s) (lock s) (irq_th s) (th_alloc s)
    (mutex_alloc s) (cond_alloc s) (sem_alloc s) v (flag_alloc s) (gate_alloc s) (th_inf s)
    (frames s) (psp s) (pendsv s) (irq_en s) (irq_pend s) (mon_events s) (mon_req s) (mon_pend s)
    (console s) (umem s) (wild s).
Definition set_flag_alloc (v : Z) (s : kernel) : kernel :=
  mk_kernel (ctx s) (critical_cnt s) (active s) (wq_lst s) (th_stat s) (sched s) (sched_limit s)
    (ticks s) (clock s) (sem_val s) (ev s) (flag s) (gate s) (lock s) (irq_th s) (th_alloc s)
    (mutex_alloc s) (cond_alloc s) (sem_alloc s) (ev_alloc s) v (gate_alloc s) (th_inf s)
    (frames s) (psp s) (pendsv s) (irq_en s) (irq_pend s) (mon_events s) (mon_req s) (mon_pend s)
    (console s) (umem s) (wild s).
Definition set_gate_alloc (v : Z) (s : kernel) : kernel :=
  mk_kernel (ctx s) (critical_cnt s) (active s) (wq_lst s) (th_stat s) (sched s) (sched_limit s)
    (ticks s) (clock s) (sem_val s) (ev s) (flag s) (gate s) (lock s) (irq_th s) (th_alloc s)
    (mutex_alloc s) (cond_alloc s) (sem_alloc s) (ev_alloc s) (flag_alloc s) v (th_inf s)
    (frames s) (psp s) (pendsv s) (irq_en s) (irq_pend s) (mon_events s) (mon_req s) (mon_pend s)
    (console s) (umem s) (wild s).
Definition set_th_inf (v : list Z) (s : kernel) : kernel :=
  mk_kernel (ctx s) (critical_cnt s) (active s) (wq_lst s) (th_stat s) (sched s) (sched_limit s)
    (ticks s) (clock s) (sem_val s) (ev s) (flag s) (gate s) (lock s) (irq_th s) (th_alloc s)
    (mutex_alloc s) (cond_alloc s) (sem_alloc s) (ev_alloc s) (flag_alloc s) (gate_alloc s) v
    (frames s) (psp s) (pendsv s) (irq_en s) (irq_pend s) (mon_events s) (mon_req s) (mon_pend s)
    (console s) (umem s) (wild s).
Definition set_frames (v : gmap Z thinkos_context) (s : kernel) : kernel :=
  mk_kernel (ctx s) (critical_cnt s) (active s) (wq_lst s) (th_stat s) (sched s) (sched_limit s)
    (ticks s) (clock s) (sem_val s) (ev s) (flag s) (gate s) (lock s) (irq_th s) (th_alloc s)
    (mutex_alloc s) (cond_alloc s) (sem_alloc s) (ev_alloc s) (flag_alloc s) (gate_alloc s)
    (th_inf s) v (psp s) (pendsv s) (irq_en s) (irq_pend s) (mon_events s) (mon_req s)
    (mon_pend s) (console s) (umem s) (wild s).
Definition set_psp (v : Z) (s : kernel) : kernel :=
  mk_kernel (ctx s) (critical_cnt s) (active s) (wq_lst s) (th_stat s) (sched s) (sched_limit s)
    (ticks s) (clock s) (sem_val s) (ev s) (flag s) (gate s) (lock s) (irq_th s) (th_alloc s)
    (mutex_alloc s) (cond_alloc s) (sem_alloc s) (ev_alloc s) (flag_alloc s) (gate_alloc s)
    (th_inf s) (frames s) v (pendsv s) (irq_en s) (irq_pend s) (mon_events s) (mon_req s)
    (mon_pend s) (console s) (umem s) (wild s).
Definition set_pendsv (v : bool) (s : kernel) : kernel :=
  mk_kernel (ctx s) (critical_cnt s) (active s) (wq_lst s) (th_stat s) (sched s) (sched_limit s)
    (ticks s) (clock s) (sem_val s) (ev s) (flag s) (gate s) (lock s) (irq_th s) (th_alloc s)
    (mutex_alloc s) (cond_alloc s) (sem_alloc s) (ev_alloc s) (flag_alloc s) (gate_alloc s)
    (th_inf s) (frames s) (psp s) v (irq_en s) (irq_pend s) (mon_events s) (mon_req s)
    (mon_pend s) (console s) (umem s) (wild s).
Definition set_irq_en (v : gset Z) (s : kernel) : kernel :=
  mk_kernel (ctx s) (critical_cnt s) (active s) (wq_lst s) (th_stat s) (sched s) (sched_limit s)
    (ticks s) (clock s) (sem_val s) (ev s) (flag s) (gate s) (lock s) (irq_th s) (th_alloc s)
    (mutex_alloc s) (cond_alloc s) (sem_alloc s) (ev_alloc s) (flag_alloc s) (gate_alloc s)
    (th_inf s) (frames s) (psp s) (pendsv s) v (irq_pend s) (mon_events s) (mon_req s)
    (mon_pend s) (console s) (umem s) (wild s).
Definition set_irq_pend (v : gset Z) (s : kernel) : kernel :=
  mk_kernel (ctx s) (critical_cnt s) (active s) (wq_lst s) (th_stat s) (sched s) (sched_limit s)
    (ticks s) (clock s) (sem_val s) (ev s) (flag s) (gate s) (lock s) (irq_th s) (th_alloc s)
    (mutex_alloc s) (cond_alloc s) (sem_alloc s) (ev_alloc s) (flag_alloc s) (gate_alloc s)
    (th_inf s) (frames s) (psp s) (pendsv s) (irq_en s) v (mon_events s) (mon_req s) (mon_pend s)
    (console s) (umem s) (wild s).
Definition set_mon_events (v : Z) (s : kernel) : kernel :=
  mk_kernel (ctx s) (critical_cnt s) (active s) (wq_lst s) (th_stat s) (sched s) (sched_limit s)
    (ticks s) (clock s) (sem_val s) (ev s) (flag s) (gate s) (lock s) (irq_th s) (th_alloc s)
    (mutex_alloc s) (cond_alloc s) (sem_alloc s) (ev_alloc s) (flag_alloc s) (gate_alloc s)
    (th_inf s) (frames s) (psp s) (pendsv s) (irq_en s) (irq_pend s) v (mon_req s) (mon_pend s)
    (console s) (umem s) (wild s).
Definition set_mon_req (v : bool) (s : kernel) : kernel :=
  mk_kernel (ctx s) (critical_cnt s) (active s) (wq_lst s) (th_stat s) (sched s) (sched_limit s)
    (ticks s) (clock s) (sem_val s) (ev s) (flag s) (gate s) (lock s) (irq_th s) (th_alloc s)
    (mutex_alloc s) (cond_alloc s) (sem_alloc s) (ev_alloc s) (flag_alloc s) (gate_alloc s)
    (th_inf s) (frames s) (psp s) (pendsv s) (irq_en s) (irq_pend s) (mon_events s) v (mon_pend s)
    (console s) (umem s) (wild s).
Definition set_mon_pend (v : bool) (s : kernel) : kernel :=
  mk_kernel (ctx s) (critical_cnt s) (active s) (wq_lst s) (th_stat s) (sched s) (sched_limit s)
    (ticks s) (clock s) (sem_val s) (ev s) (flag s) (gate s) (lock s) (irq_th s) (th_alloc s)
    (mutex_alloc s) (cond_alloc s) (sem_alloc s) (ev_alloc s) (flag_alloc s) (gate_alloc s)
    (th_inf s) (frames s) (psp s) (pendsv s) (irq_en s) (irq_pend s) (mon_events s) (mon_req s) v
    (console s) (umem s) (wild s).
Definition set_console (v : console_rt) (s : kernel) : kernel :=
  mk_kernel (ctx s) (critical_cnt s) (active s) (wq_lst s) (th_stat s) (sched s) (sched_limit s)
    (ticks s) (clock s) (sem_val s) (ev s) (flag s) (gate s) (lock s) (irq_th s) (th_alloc s)
    (mutex_alloc s) (cond_alloc s) (sem_alloc s) (ev_alloc s) (flag_alloc s) (gate_alloc s)
    (th_inf s) (frames s) (psp s) (pendsv s) (irq_en s) (irq_pend s) (mon_events s) (mon_req s)
    (mon_pend s) v (umem s) (wild s).
Definition set_umem (v : gmap Z Z) (s : kernel) : kernel :=
  mk_kernel (ctx s) (critical_cnt s) (active s) (wq_lst s) (th_stat s) (sched s) (sched_limit s)
    (ticks s) (clock s) (sem_val s) (ev s) (flag s) (gate s) (lock s) (irq_th s) (th_alloc s)
    (mutex_alloc s) (cond_alloc s) (sem_alloc s) (ev_alloc s) (flag_alloc s) (gate_alloc s)
    (th_inf s) (frames s) (psp s) (pendsv s) (irq_en s) (irq_pend s) (mon_events s) (mon_req s)
    (mon_pend s) (console s) v (wild s).
Definition set_wild (v : bool) (s : kernel) : kernel :=
  mk_kernel (ctx s) (critical_cnt s) (active s) (wq_lst s) (th_stat s) (sched s) (sched_limit s)
    (ticks s) (clock s) (sem_val s) (ev s) (flag s) (gate s) (lock s) (irq_th s) (th_alloc s)
    (mutex_alloc s) (cond_alloc s) (sem_alloc s) (ev_alloc s) (flag_alloc s) (gate_alloc s)
    (th_inf s) (frames s) (psp s) (pendsv s) (irq_en s) (irq_pend s) (mon_events s) (mon_req s)
    (mon_pend s) (console s) (umem s) v.

(** Reduces a field of an updated state. *)
Ltac ksimpl :=
  cbn [ctx critical_cnt active wq_lst th_stat sched sched_limit ticks clock sem_val ev flag gate
       lock irq_th th_alloc mutex_alloc cond_alloc sem_alloc ev_alloc flag_alloc gate_alloc
       th_inf frames psp pendsv irq_en irq_pend mon_events mon_req mon_pend console umem wild
       set_ctx set_critical_cnt set_active set_wq_lst set_th_stat set_sched set_sched_limit
       set_ticks set_clock set_sem_val set_ev set_flag set_gate set_lock set_irq_th set_th_alloc
       set_mutex_alloc set_cond_alloc set_sem_alloc set_ev_alloc set_flag_alloc set_gate_alloc
       set_th_inf set_frames set_psp set_pendsv set_irq_en set_irq_pend set_mon_events
       set_mon_req set_mon_pend set_console set_umem set_wild] in *.
Ltac ksimpl_goal :=
  cbn [ctx critical_cnt active wq_lst th_stat sched sched_limit ticks clock sem_val ev flag gate
       lock irq_th th_alloc mutex_alloc cond_alloc sem_alloc ev_alloc flag_alloc gate_alloc
       th_inf frames psp pendsv irq_en irq_pend mon_events mon_req mon_pend console umem wild
       set_ctx set_critical_cnt set_active set_wq_lst set_th_stat set_sched set_sched_limit
       set_ticks set_clock set_sem_val set_ev set_flag set_gate set_lock set_irq_th set_th_alloc
       set_mutex_alloc set_cond_alloc set_sem_alloc set_ev_alloc set_flag_alloc set_gate_alloc
       set_th_inf set_frames set_psp set_pendsv set_irq_en set_irq_pend set_mon_events
       set_mon_req set_mon_pend set_console set_umem set_wild].
