(* ===== verification/Kernel.v ===== *)
(** * Kernel primitives

    The inline functions of src/sdk/include/thinkos/kernel.h on the state of
    [State]: bit-band writes to the queues, the deferred scheduler request,
    [__thinkos_suspend], the queue insertions, removals and wake-ups.  Every
    handler of the kernel is a composition of these stores.  The second half
    gives the algebra of the queue list: what each primitive does to the
    membership [inq l wq th] of a thread in a queue. *)

From stdpp Require Import base tactics numbers list gmap.
From Stdlib Require Import ZArith Lia.
From S2P Require Import Prelude CortexM State.

(** Sequencing of stores, in the order of the C statements. *)
Notation "s |> f" := (f s) (at level 68, left associativity, only parsing).

(** ** Stores *)

Definition zero_context : thinkos_context :=
  mk_context 0 0 0 0 0 0 0 0 0 0 0 0 0 0 0 0.

Definition context_at (a : Z) (s : kernel) : thinkos_context :=
  default zero_context (frames s !! a).

(** The four argument registers of a system call: [arg] is the address of
    the context record whose [r0] field the C pointer [arg] designates. *)
Definition arg_0 (arg : Z) (s : kernel) : Z := u32 (r0 (context_at arg s)).
Definition arg_1 (arg : Z) (s : kernel) : Z := u32 (r1 (context_at arg s)).
Definition arg_2 (arg : Z) (s : kernel) : Z := u32 (r2 (context_at arg s)).
Definition arg_3 (arg : Z) (s : kernel) : Z := u32 (r3 (context_at arg s)).
Definition arg_4 (arg : Z) (s : kernel) : Z := u32 (r12 (context_at arg s)).

(** A store through a context pointer; one that designates no record is
    recorded in [wild]. *)
Definition frame_store (f : thinkos_context -> thinkos_context) (a : Z) (s : kernel) : kernel :=
  set_wild (wild s || match frames s !! a with Some _ => false | None => true end)
    (set_frames (alter f a (frames s)) s).

(** [arg[0] = v] *)
Definition arg_ret (arg v : Z) (s : kernel) : kernel := frame_store (set_r0 (u32 v)) arg s.

(** [thinkos_rt.ctx[th]->r0 = v] *)
Definition ctx_r0_store (th v : Z) (s : kernel) : kernel :=
  frame_store (set_r0 (u32 v)) (rd (ctx s) th) s.

(** [__bit_mem_wr(&thinkos_rt.wq_lst[wq], th, v)] *)
Definition wq_bit_wr (l : list Z) (wq th : Z) (v : bool) : list Z :=
  wr l wq (__bit_mem_wr (rd l wq) th v).

Definition wq_bit_store (wq th : Z) (v : bool) (s : kernel) : kernel :=
  set_wq_lst (wq_bit_wr (wq_lst s) wq th v) s.

Definition wq_store (wq v : Z) (s : kernel) : kernel := set_wq_lst (wr (wq_lst s) wq v) s.
Definition th_stat_store (th v : Z) (s : kernel) : kernel :=
  set_th_stat (wr (th_stat s) th (u16 v)) s.
Definition clock_store (th v : Z) (s : kernel) : kernel := set_clock (wr (clock s) th (u32 v)) s.
Definition ctx_store (th v : Z) (s : kernel) : kernel := set_ctx (wr (ctx s) th v) s.
Definition lock_store (i v : Z) (s : kernel) : kernel := set_lock (wr (lock s) i (int8 v)) s.
Definition sem_val_store (i v : Z) (s : kernel) : kernel := set_sem_val (wr (sem_val s) i (u32 v)) s.

(** ** kernel.h *)

Definition thinkos_bit_set (bmp bit : Z) : Z := __bit_mem_wr bmp bit true.
Definition thinkos_bit_clr (bmp bit : Z) : Z := __bit_mem_wr bmp bit false.

(** [~w] on 32 bits. *)
Definition bnot (w : Z) : Z := 4294967295 - u32 w.

Definition thinkos_alloc_lo (w start : Z) : Z * Z :=
  let idx := __clz (__rbit (bnot (Z.shiftr w start))) + start in
  if 32 <=? idx then (w, -1) else (__bit_mem_wr w idx true, idx).

Definition thinkos_alloc_hi (w start : Z) : Z * Z :=
  let start := if 31 <? start then 31 else start in
  let idx := start - __clz (bnot (Z.shiftl w (31 - start))) in
  if idx <? 0 then (w, -1) else (__bit_mem_wr w idx true, idx).

Definition __thinkos_defer_sched (s : kernel) : kernel := set_pendsv true s.

Definition __thinkos_preempt (s : kernel) : kernel :=
  set_pendsv (pendsv s || (critical_cnt s =? 0)) s.

Definition __thinkos_ready_clr (s : kernel) : kernel :=
  s |> wq_store THINKOS_WQ_READY 0
    |> wq_store THINKOS_WQ_TMSHARE 0
    |> wq_bit_store THINKOS_WQ_READY THINKOS_THREADS_MAX true.

(** The exclusive store of the loop succeeds at once when no exception comes
    between; when only the idle thread is left ready the time share queue
    becomes the ready queue. *)
Definition suspend_wq (l : list Z) (thread : Z) : list Z :=
  let ready := Z.ldiff (rd l THINKOS_WQ_READY) (Z.shiftl 1 thread) in
  let tmshare := rd l THINKOS_WQ_TMSHARE in
  let refill := ready =? Z.shiftl 1 THINKOS_THREADS_MAX in
  wr (wr l THINKOS_WQ_READY (if refill then Z.lor ready tmshare else ready))
    THINKOS_WQ_TMSHARE (if refill then 0 else tmshare).

Definition __thinkos_suspend (thread : Z) (s : kernel) : kernel :=
  set_wq_lst (suspend_wq (wq_lst s) thread) s.

Definition __thinkos_wq_head (wq : Z) (s : kernel) : Z := __clz (__rbit (rd (wq_lst s) wq)).

Definition __thinkos_wq_insert (wq th : Z) (s : kernel) : kernel :=
  s |> wq_bit_store wq th true
    |> th_stat_store th (Z.shiftl wq 1).

Definition __thinkos_tmdwq_insert (wq th ms : Z) (s : kernel) : kernel :=
  s |> clock_store th (ticks s + ms)
    |> wq_bit_store wq th true
    |> wq_bit_store THINKOS_WQ_CLOCK th true
    |> th_stat_store th (Z.shiftl wq 1 + 1).

Definition __thinkos_wq_remove (wq th : Z) (s : kernel) : kernel :=
  s |> wq_bit_store wq th false
    |> wq_bit_store THINKOS_WQ_CLOCK th false
    |> th_stat_store th 0.

Definition __thinkos_wakeup (wq th : Z) (s : kernel) : kernel :=
  s |> wq_bit_store THINKOS_WQ_READY th true
    |> wq_bit_store wq th false
    |> wq_bit_store THINKOS_WQ_CLOCK th false
    |> ctx_r0_store th 0
    |> th_stat_store th 0.

Definition __thinkos_wakeup_return (wq th ret : Z) (s : kernel) : kernel :=
  s |> wq_bit_store THINKOS_WQ_READY th true
    |> wq_bit_store wq th false
    |> wq_bit_store THINKOS_WQ_CLOCK th false
    |> th_stat_store th 0
    |> ctx_r0_store th ret.

(** The tail shared by the functions that take a thread out of a queue with
    an exclusive store: [__thinkos_sem_post_i], [__thinkos_ev_raise_i],
    [__thinkos_flag_give_i], [__thinkos_gate_open_i] and others. *)
Definition ready_return (th ret : Z) (s : kernel) : kernel :=
  s |> wq_bit_store THINKOS_WQ_READY th true
    |> wq_bit_store THINKOS_WQ_CLOCK th false
    |> ctx_r0_store th ret
    |> th_stat_store th 0.

(** [while ((th = __thinkos_wq_head(wq)) != THINKOS_THREAD_NULL) wake(th)];
    a queue is a 32-bit word, so 32 rounds empty it. *)
Fixpoint wq_drain (n : nat) (wake : Z -> kernel -> kernel) (wq : Z) (s : kernel) : kernel :=
  match n with
  | O => s
  | S n =>
      let th := __thinkos_wq_head wq s in
      if th =? THINKOS_THREAD_NULL then s else wq_drain n wake wq (wake th s)
  end.

(** Reduces a field of a state built with the stores above. *)
Ltac kred :=
  cbn [ctx critical_cnt active wq_lst th_stat sched sched_limit ticks clock sem_val ev flag gate
       lock irq_th th_alloc mutex_alloc cond_alloc sem_alloc ev_alloc flag_alloc gate_alloc
       th_inf frames psp pendsv irq_en irq_pend mon_events mon_req mon_pend console umem wild
       set_ctx set_critical_cnt set_active set_wq_lst set_th_stat set_sched set_sched_limit
       set_ticks set_clock set_sem_val set_ev set_flag set_gate set_lock set_irq_th set_th_alloc
       set_mutex_alloc set_cond_alloc set_sem_alloc set_ev_alloc set_flag_alloc set_gate_alloc
       set_th_inf set_frames set_psp set_pendsv set_irq_en set_irq_pend set_mon_events
       set_mon_req set_mon_pend set_console set_umem set_wild
       frame_store arg_ret ctx_r0_store wq_bit_store wq_store th_stat_store clock_store ctx_store
       lock_store sem_val_store __thinkos_defer_sched __thinkos_preempt __thinkos_suspend
       __thinkos_wq_insert __thinkos_tmdwq_insert __thinkos_wq_remove __thinkos_wakeup
       __thinkos_wakeup_return ready_return].

(** ** The algebra of the queue list *)

(** Thread [th] is in queue [wq]. *)
Definition inq (l : list Z) (wq th : Z) : bool := Z.testbit (rd l wq) th.

Lemma len_wq_bit_wr l wq th v : len (wq_bit_wr l wq th v) = len l.
Proof. apply len_wr. Qed.

Lemma inq_bit_wr l wq th v wq' th' :
  0 <= wq < len l -> 0 <= th ->
  inq (wq_bit_wr l wq th v) wq' th' =
    if (wq =? wq') && (th =? th') then v else inq l wq' th'.
Proof.
  intros Hwq Hth. unfold inq, wq_bit_wr. rewrite rd_wr by done.
  destruct (Z.eqb_spec wq wq') as [<-|]; [|done].
  rewrite bit_wr_spec by done. by destruct (th =? th').
Qed.

Lemma inq_wr l wq v wq' th :
  0 <= wq < len l ->
  inq (wr l wq v) wq' th = if wq =? wq' then Z.testbit v th else inq l wq' th.
Proof. intros Hwq. unfold inq. rewrite rd_wr by done. by destruct (wq =? wq'). Qed.

(** Storing back a queue word with one bit cleared or set is a bit write. *)
Lemma wr_ldiff_bit l wq th :
  wr l wq (Z.ldiff (rd l wq) (Z.shiftl 1 th)) = wq_bit_wr l wq th false.
Proof. done. Qed.

Lemma wr_lor_bit l wq th :
  wr l wq (Z.lor (rd l wq) (Z.shiftl 1 th)) = wq_bit_wr l wq th true.
Proof. done. Qed.

Lemma wq_store_lor wq th s :
  wq_store wq (Z.lor (rd (wq_lst s) wq) (Z.shiftl 1 th)) s = wq_bit_store wq th true s.
Proof. done. Qed.

Lemma wr_comm l i j v w : i <> j -> wr (wr l i v) j w = wr (wr l j w) i v.
Proof.
  intros H. unfold wr. destruct (Z.ltb_spec i 0), (Z.ltb_spec j 0); try done.
  apply list_insert_insert_ne. lia.
Qed.

Lemma wq_bit_wr_comm l i j th th' v w :
  i <> j -> wq_bit_wr (wq_bit_wr l i th v) j th' w = wq_bit_wr (wq_bit_wr l j th' w) i th v.
Proof.
  intros H. unfold wq_bit_wr. rewrite !rd_wr_ne by done. by apply wr_comm.
Qed.

Lemma bit_wr_comm w i j v u :
  0 <= i -> 0 <= j -> i <> j ->
  __bit_mem_wr (__bit_mem_wr w i v) j u = __bit_mem_wr (__bit_mem_wr w j u) i v.
Proof.
  intros Hi Hj Hne. apply Z.bits_inj'. intros k Hk. rewrite !bit_wr_spec by done.
  destruct (Z.eqb_spec i k), (Z.eqb_spec j k); congruence.
Qed.

(** Writes to the bits of different threads commute, whatever the queues. *)
Lemma wq_bit_wr_comm_th l i j th th' v w :
  0 <= i < len l -> 0 <= j < len l -> 0 <= th -> 0 <= th' -> th <> th' ->
  wq_bit_wr (wq_bit_wr l i th v) j th' w = wq_bit_wr (wq_bit_wr l j th' w) i th v.
Proof.
  intros Hi Hj Ht Ht' Hne. destruct (Z.eq_dec i j) as [->|]; [|by apply wq_bit_wr_comm].
  unfold wq_bit_wr. rewrite !rd_wr_eq by done. rewrite bit_wr_comm by done.
  unfold wr. destruct (Z.ltb_spec j 0); [lia|]. by rewrite !list_insert_insert_eq.
Qed.

(** The head of a queue: the lowest numbered thread in it. *)
Lemma wq_head_spec wq s :
  __thinkos_wq_head wq s <> THINKOS_THREAD_NULL ->
  0 <= __thinkos_wq_head wq s < 32 /\
  inq (wq_lst s) wq (__thinkos_wq_head wq s) = true.
Proof. apply ctz_bit. Qed.

Lemma wq_head_null wq s :
  __thinkos_wq_head wq s = THINKOS_THREAD_NULL <->
  forall th, 0 <= th < 32 -> inq (wq_lst s) wq th = false.
Proof. apply ctz_none. Qed.

Lemma wq_head_least wq s th :
  0 <= th < 32 -> inq (wq_lst s) wq th = true -> __thinkos_wq_head wq s <= th.
Proof. apply ctz_least. Qed.

(** Suspending a thread removes it from the ready queue, and from the time
    share queue when that is emptied into the ready queue. *)
Lemma len_suspend_wq l th : len (suspend_wq l th) = len l.
Proof. unfold suspend_wq. by rewrite !len_wr. Qed.

Lemma inq_suspend_other l th wq th' :
  1 < len l -> wq <> THINKOS_WQ_READY -> wq <> THINKOS_WQ_TMSHARE ->
  inq (suspend_wq l th) wq th' = inq l wq th'.
Proof.
  intros Hl H0 H1. unfold suspend_wq. rewrite !inq_wr by (rewrite ?len_wr; lia).
  destruct (Z.eqb_spec THINKOS_WQ_TMSHARE wq); [done|].
  destruct (Z.eqb_spec THINKOS_WQ_READY wq); done.
Qed.

(** A thread other than the suspended one is in the ready or the time share
    queue exactly when it was in one of them. *)
Lemma inq_suspend_union l th th' :
  1 < len l -> 0 <= th -> th <> th' ->
  inq (suspend_wq l th) THINKOS_WQ_READY th' || inq (suspend_wq l th) THINKOS_WQ_TMSHARE th' =
  inq l THINKOS_WQ_READY th' || inq l THINKOS_WQ_TMSHARE th'.
Proof.
  intros Hl Hth Hne. unfold suspend_wq, inq.
  set (ready := Z.ldiff _ _).
  assert (Hr : Z.testbit ready th' = Z.testbit (rd l 0) th').
  { unfold ready. rewrite testbit_ldiff_bit by done. by destruct (Z.eqb_spec th th'). }
  rewrite rd_wr_ne, rd_wr_eq, rd_wr_eq by (rewrite ?len_wr; lia).
  destruct (ready =? Z.shiftl 1 8); [|by rewrite Hr].
  rewrite Z.lor_spec, Z.bits_0, Hr. by rewrite orb_false_r.
Qed.

Lemma inq_suspend_ready_mono l th th' :
  1 < len l -> 0 <= th -> th <> th' ->
  inq l THINKOS_WQ_READY th' = true -> inq (suspend_wq l th) THINKOS_WQ_READY th' = true.
Proof.
  intros Hl Hth Hne H. unfold suspend_wq, inq in *.
  rewrite rd_wr_ne, rd_wr_eq by (rewrite ?len_wr; lia).
  assert (Hr : Z.testbit (Z.ldiff (rd l 0) (Z.shiftl 1 th)) th' = true).
  { rewrite testbit_ldiff_bit by done. by destruct (Z.eqb_spec th th'). }
  destruct (_ =? _); [|done]. by rewrite Z.lor_spec, Hr.
Qed.

(** The suspended thread leaves the ready queue unless it waits for the next
    time share cycle and that cycle begins now. *)
Lemma inq_suspend_self l th :
  1 < len l -> 0 <= th -> inq l THINKOS_WQ_TMSHARE th = false ->
  inq (suspend_wq l th) THINKOS_WQ_READY th = false /\
  inq (suspend_wq l th) THINKOS_WQ_TMSHARE th = false.
Proof.
  intros Hl Hth H. unfold suspend_wq, inq in *.
  set (ready := Z.ldiff _ _).
  assert (Hr : Z.testbit ready th = false).
  { unfold ready. rewrite testbit_ldiff_bit by done. by rewrite Z.eqb_refl. }
  rewrite rd_wr_ne, rd_wr_eq, rd_wr_eq by (rewrite ?len_wr; lia).
  destruct (ready =? Z.shiftl 1 8); [|done].
  by rewrite Z.lor_spec, Z.bits_0, Hr, H.
Qed.

Lemma inq_suspend_sub l th wq th' :
  1 < len l -> 0 <= th ->
  inq (suspend_wq l th) wq th' = true ->
  inq l wq th' = true \/ (wq = THINKOS_WQ_READY /\ inq l THINKOS_WQ_TMSHARE th' = true).
Proof.
  intros Hl Hth. destruct (Z.eq_dec wq 0) as [->|H0]; [|destruct (Z.eq_dec wq 1) as [->|H1]].
  - unfold suspend_wq, inq. rewrite rd_wr_ne, rd_wr_eq by (rewrite ?len_wr; lia).
    match goal with |- context [if ?b then _ else _] => destruct b end;
      rewrite ?Z.lor_spec, testbit_ldiff_bit by done;
      destruct (th =? th'), (Z.testbit (rd l 0) th'); simpl; auto.
  - unfold suspend_wq, inq. rewrite rd_wr_eq by (rewrite ?len_wr; lia).
    destruct (_ =? _); [by rewrite Z.bits_0|auto].
  - rewrite inq_suspend_other by done. auto.
Qed.

(** ** Handles and return values *)

(** [wq - BASE < MAX] on unsigned words: the handle is in the class. *)
Lemma handle_range wq base max :
  0 <= wq < 4294967296 -> 0 <= base -> base + max <= 4294967296 ->
  u32 (wq - base) < max -> base <= wq < base + max /\ u32 (wq - base) = wq - base.
Proof. unfold u32. intros. Z.div_mod_to_equations. lia. Qed.

Lemma handle_idx base i : 0 <= i < 4294967296 -> u32 (base + i - base) = i.
Proof. intros. rewrite Z.add_simpl_l. by apply u32_small. Qed.

Lemma arg_0_range a s : 0 <= arg_0 a s < 4294967296.
Proof. apply u32_range. Qed.

(** The call's record is live. *)
Definition live (a : Z) (s : kernel) : Prop := is_Some (frames s !! a).

Lemma arg_0_ret a v s : live a s -> arg_0 a (arg_ret a v s) = u32 v.
Proof.
  intros [c Hc]. unfold arg_0, context_at. kred. rewrite lookup_alter_eq, Hc. simpl.
  unfold u32. by rewrite Zmod_mod.
Qed.

Lemma arg_0_stored a v s : live a s -> forall s',
  frames s' = alter (set_r0 (u32 v)) a (frames s) -> arg_0 a s' = u32 v.
Proof.
  intros [c Hc] s' E. unfold arg_0, context_at. rewrite E, lookup_alter_eq, Hc. simpl.
  unfold u32. by rewrite Zmod_mod.
Qed.

(** A second store of the same value through a record that may alias. *)
Lemma arg_0_both a b v s s' :
  live a s ->
  frames s' = alter (set_r0 (u32 v)) b (alter (set_r0 (u32 v)) a (frames s)) -> arg_0 a s' = u32 v.
Proof.
  intros [c Hc] E. unfold arg_0, context_at. rewrite E.
  destruct (Z.eq_dec b a) as [->|Hn]; rewrite ?lookup_alter_ne, ?lookup_alter_eq, Hc by done; simpl;
    unfold u32; by rewrite Zmod_mod.
Qed.

Lemma live_frame_store f a b s : live a s -> live a (frame_store f b s).
Proof. unfold live. kred. by rewrite lookup_alter_is_Some. Qed.

Lemma frame_store_ne f a b s : a <> b -> context_at a (frame_store f b s) = context_at a s.
Proof. intros H. unfold context_at. kred. by rewrite lookup_alter_ne. Qed.

(** A wake-up that stores through another record leaves the caller's result. *)
Lemma arg_0_ctx_r0 a th v s : rd (ctx s) th <> a -> arg_0 a (ctx_r0_store th v s) = arg_0 a s.
Proof. intros H. unfold arg_0, ctx_r0_store. by rewrite frame_store_ne by done. Qed.
