(* ===== verification/BmpAlloc.v ===== *)
(** * Bitmap allocator

    [__thinkos_bmp_alloc] and [__thinkos_bmp_init] of
    src/sdk/libthinkos/misc/bmp_alloc.c, which back every object allocation
    system call, and the two one-word variants of kernel.h used for thread
    slots.  The allocator returns the lowest free index, marks it and nothing
    else, and fails exactly when no index is free; a bitmap set up by
    [__thinkos_bmp_init] never yields an index past its size. *)

From stdpp Require Import base tactics numbers list gmap.
From Stdlib Require Import ZArith Lia.
From S2P Require Import Prelude CortexM State Kernel.

(** ** Code *)

(** The search loop from word [i], [n] words left. *)
Fixpoint bmp_alloc_from (n : nat) (i : Z) (bmp : list Z) : list Z * Z :=
  match n with
  | O => (bmp, THINKOS_ENOMEM)
  | S n =>
      let j := __clz (__rbit (bnot (rd bmp i))) in
      if j <? 32 then (wr bmp i (__bit_mem_wr (rd bmp i) j true), 32 * i + j)
      else bmp_alloc_from n (i + 1) bmp
  end.

Definition __thinkos_bmp_alloc (bmp : list Z) (bits : Z) : list Z * Z :=
  bmp_alloc_from (Z.to_nat ((bits + 31) / 32)) 0 bmp.

Fixpoint bmp_clear_from (n : nat) (i : Z) (bmp : list Z) : list Z :=
  match n with
  | O => bmp
  | S n => bmp_clear_from n (i + 1) (wr bmp i 0)
  end.

Definition __thinkos_bmp_init (bmp : list Z) (bits : Z) : list Z :=
  let i := bits / 32 in
  let bmp := bmp_clear_from (Z.to_nat i) 0 bmp in
  if bits mod 32 =? 0 then bmp
  else wr bmp i (u32 (Z.shiftl 4294967295 (bits mod 32))).

(** The allocation maps of the configuration fit in one word. *)
Definition bmp_alloc_word (w bits : Z) : Z * Z :=
  (rd ((__thinkos_bmp_alloc [w] bits).1) 0, (__thinkos_bmp_alloc [w] bits).2).

(** ** Bits of an array of words *)

Definition bmp_bit (bmp : list Z) (k : Z) : bool := Z.testbit (rd bmp (k / 32)) (k mod 32).

(** Freeing: [__bit_mem_wr(bmp, k, 0)]. *)
Definition bmp_free (bmp : list Z) (k : Z) : list Z :=
  wr bmp (k / 32) (__bit_mem_wr (rd bmp (k / 32)) (k mod 32) false).

Definition words (bits : Z) : Z := (bits + 31) / 32.

Lemma bnot_spec w i : 0 <= i < 32 -> Z.testbit (bnot w) i = negb (Z.testbit w i).
Proof.
  intros Hi. unfold bnot. rewrite <- (Z.mod_pow2_bits_low w 32 i) by lia.
  change (w mod 2 ^ 32) with (u32 w). pose proof (u32_range w) as Hr.
  replace (4294967295 - u32 w) with (Z.lnot (u32 w) + 1 * 2 ^ 32) by (unfold Z.lnot; lia).
  rewrite <- (Z.mod_pow2_bits_low _ 32 i), Z.mod_add, Z.mod_pow2_bits_low by lia.
  apply Z.lnot_spec. lia.
Qed.

Lemma bit_index a b k l : 0 <= b < 32 -> 0 <= l < 32 ->
  32 * a + b = k -> k / 32 = a /\ k mod 32 = b.
Proof. intros. Z.div_mod_to_equations. lia. Qed.

Lemma bmp_bit_word bmp i j : 0 <= j < 32 -> bmp_bit bmp (32 * i + j) = Z.testbit (rd bmp i) j.
Proof. intros Hj. unfold bmp_bit. destruct (bit_index i j (32 * i + j) 0) as [-> ->]; done || lia. Qed.

(** Setting or clearing one bit of the array. *)
Lemma bmp_bit_wr bmp i j v k :
  0 <= i < len bmp -> 0 <= j < 32 ->
  bmp_bit (wr bmp i (__bit_mem_wr (rd bmp i) j v)) k =
    if k =? 32 * i + j then v else bmp_bit bmp k.
Proof.
  intros Hi Hj. unfold bmp_bit. rewrite rd_wr by done.
  destruct (Z.eqb_spec i (k / 32)) as [E|Hne].
  - rewrite bit_wr_spec by lia. rewrite E.
    destruct (Z.eqb_spec j (k mod 32)), (Z.eqb_spec k (32 * (k / 32) + j)); try done;
      Z.div_mod_to_equations; lia.
  - destruct (Z.eqb_spec k (32 * i + j)); [|done]. Z.div_mod_to_equations; lia.
Qed.

(** ** The search *)

Lemma bmp_alloc_from_spec n i bmp :
  0 <= i -> i + Z.of_nat n <= len bmp ->
  let '(bmp', r) := bmp_alloc_from n i bmp in
  (r = THINKOS_ENOMEM /\ bmp' = bmp /\
     forall k, 32 * i <= k < 32 * (i + Z.of_nat n) -> bmp_bit bmp k = true) \/
  (32 * i <= r < 32 * (i + Z.of_nat n) /\ bmp_bit bmp r = false /\ len bmp' = len bmp /\
     (forall k, 32 * i <= k < r -> bmp_bit bmp k = true) /\
     forall k, bmp_bit bmp' k = if k =? r then true else bmp_bit bmp k).
Proof.
  revert i. induction n as [|n IH]; intros i Hi Hn; simpl bmp_alloc_from.
  - left. split_and!; [done..|]. intros; lia.
  - destruct (Z.ltb_spec (__clz (__rbit (bnot (rd bmp i)))) 32) as [Hlt|Hge].
    + destruct (ctz_bit (bnot (rd bmp i)) ltac:(lia)) as [Hj Hb].
      set (j := __clz (__rbit (bnot (rd bmp i)))) in *.
      rewrite bnot_spec in Hb by done. apply negb_true_iff in Hb.
      right. split_and!; [lia|lia| |apply len_wr| |].
      * by rewrite bmp_bit_word.
      * intros k Hk. replace k with (32 * i + (k - 32 * i)) by lia.
        rewrite bmp_bit_word by lia.
        destruct (Z.testbit (rd bmp i) (k - 32 * i)) eqn:E; [done|].
        pose proof (ctz_least (bnot (rd bmp i)) (k - 32 * i) ltac:(lia)) as Hl.
        rewrite bnot_spec, E in Hl by lia. specialize (Hl eq_refl). unfold j in Hk. lia.
      * intros k. apply bmp_bit_wr; [lia|done].
    + assert (Hfull : forall k, 32 * i <= k < 32 * (i + 1) -> bmp_bit bmp k = true).
      { intros k Hk. pose proof (ctz_range (bnot (rd bmp i))).
        pose proof (proj1 (ctz_none (bnot (rd bmp i))) ltac:(lia) (k - 32 * i) ltac:(lia)) as Hz.
        rewrite bnot_spec in Hz by lia. apply negb_false_iff in Hz.
        replace k with (32 * i + (k - 32 * i)) by lia. by rewrite bmp_bit_word by lia. }
      specialize (IH (i + 1) ltac:(lia) ltac:(lia)).
      destruct (bmp_alloc_from n (i + 1) bmp) as [bmp' r].
      destruct IH as [(-> & -> & Hall)|(Hr & Hf & Hl & Hlow & Hupd)].
      * left. split_and!; [done..|]. intros k Hk.
        destruct (Z.ltb_spec k (32 * (i + 1))); [apply Hfull; lia|apply Hall; lia].
      * right. split_and!; try done; try lia. intros k Hk.
        destruct (Z.ltb_spec k (32 * (i + 1))); [apply Hfull; lia|apply Hlow; lia].
Qed.

Lemma words_nonneg bits : 0 <= bits -> 0 <= words bits /\ bits <= 32 * words bits < bits + 32.
Proof. unfold words. intros. Z.div_mod_to_equations. lia. Qed.

(** The array of a map of [bits] objects; the bits past the end are taken. *)
Definition bmp_ok (bmp : list Z) (bits : Z) : Prop :=
  0 <= bits /\ len bmp = words bits /\
  forall k, bits <= k < 32 * words bits -> bmp_bit bmp k = true.

(** The allocator takes the lowest free index of a bitmap, marks that
    index and nothing else, never returns an index past the size of the map,
    and fails with ENOMEM, leaving the map alone, exactly when every index is
    taken. *)
Theorem bmp_alloc_lowest bmp bits :
  bmp_ok bmp bits ->
  let '(bmp', r) := __thinkos_bmp_alloc bmp bits in
  bmp_ok bmp' bits /\
  ((r = THINKOS_ENOMEM /\ bmp' = bmp /\ forall k, 0 <= k < bits -> bmp_bit bmp k = true) \/
   (0 <= r < bits /\ bmp_bit bmp r = false /\ (forall k, 0 <= k < r -> bmp_bit bmp k = true) /\
    forall k, bmp_bit bmp' k = if k =? r then true else bmp_bit bmp k)).
Proof.
  intros (Hb & Hl & Hhi). destruct (words_nonneg bits Hb) as [Hw0 Hw].
  pose proof (bmp_alloc_from_spec (Z.to_nat (words bits)) 0 bmp ltac:(lia) ltac:(lia)) as H.
  unfold __thinkos_bmp_alloc. fold (words bits).
  destruct (bmp_alloc_from _ 0 bmp) as [bmp' r].
  destruct H as [(-> & -> & Hall)|(Hr & Hf & Hl' & Hlow & Hupd)].
  - split; [done|]. left. split_and!; [done..|]. intros k Hk. apply Hall. lia.
  - assert (r < bits).
    { destruct (Z.ltb_spec r bits); [done|]. rewrite Hhi in Hf; [done|lia]. }
    split; [|right; split_and!; try done; try lia; intros; apply Hlow; lia].
    split_and!; [done|congruence|]. intros k Hk. rewrite Hupd.
    destruct (k =? r); [done|]. by apply Hhi.
Qed.

(** ** Initialisation and release *)

Lemma bmp_clear_from_spec n i bmp :
  0 <= i -> i + Z.of_nat n <= len bmp ->
  len (bmp_clear_from n i bmp) = len bmp /\
  forall j, rd (bmp_clear_from n i bmp) j = if (i <=? j) && (j <? i + Z.of_nat n) then 0 else rd bmp j.
Proof.
  revert i bmp. induction n as [|n IH]; intros i bmp Hi Hn; simpl bmp_clear_from.
  - split; [done|]. intros j. by destruct (Z.leb_spec i j), (Z.ltb_spec j (i + Z.of_nat 0)); try lia.
  - destruct (IH (i + 1) (wr bmp i 0)) as [Hl Hr]; [lia|rewrite len_wr; lia|].
    rewrite len_wr in Hl. split; [done|]. intros j. rewrite Hr, rd_wr by lia.
    destruct (Z.leb_spec (i + 1) j), (Z.ltb_spec j (i + 1 + Z.of_nat n)), (Z.leb_spec i j),
      (Z.ltb_spec j (i + Z.of_nat (S n))), (Z.eqb_spec i j); simpl; lia || done.
Qed.

(** A map set up by [__thinkos_bmp_init] has every index below its size
    free and every bit past it taken, so it is one the allocator accepts. *)
Theorem bmp_init_free bmp bits :
  0 <= bits -> len bmp = words bits ->
  bmp_ok (__thinkos_bmp_init bmp bits) bits /\
  forall k, 0 <= k < bits -> bmp_bit (__thinkos_bmp_init bmp bits) k = false.
Proof.
  intros Hb Hl. assert (Hw : bits / 32 <= words bits) by (unfold words; Z.div_mod_to_equations; lia).
  assert (Hq : 0 <= bits / 32) by (Z.div_mod_to_equations; lia).
  destruct (bmp_clear_from_spec (Z.to_nat (bits / 32)) 0 bmp) as [Hlc Hrc]; [lia|lia|].
  unfold __thinkos_bmp_init. set (c := bmp_clear_from _ _ _) in *.
  assert (Hlow : forall k, 0 <= k < 32 * (bits / 32) -> bmp_bit c k = false).
  { intros k Hk. unfold bmp_bit. rewrite Hrc.
    destruct (Z.leb_spec 0 (k / 32)), (Z.ltb_spec (k / 32) (0 + Z.of_nat (Z.to_nat (bits / 32))));
      simpl; try apply Z.bits_0; Z.div_mod_to_equations; lia. }
  destruct (Z.eqb_spec (bits mod 32) 0) as [E|Hne].
  - split; [split_and!; [done|congruence|]|].
    + intros k Hk. unfold words in Hk. Z.div_mod_to_equations; lia.
    + intros k Hk. apply Hlow. Z.div_mod_to_equations; lia.
  - assert (Hi : bits / 32 < len c) by (rewrite Hlc, Hl; unfold words; Z.div_mod_to_equations; lia).
    assert (Hbit : forall k, 0 <= k -> k / 32 = bits / 32 ->
      bmp_bit (wr c (bits / 32) (u32 (Z.shiftl 4294967295 (bits mod 32)))) k = (bits <=? k)).
    { intros k Hk E. unfold bmp_bit. rewrite E, rd_wr_eq by lia.
      change (u32 ?x) with (x mod 2 ^ 32).
      rewrite Z.mod_pow2_bits_low, Z.shiftl_spec by (Z.div_mod_to_equations; lia).
      change 4294967295 with (Z.ones 32). rewrite Z.testbit_ones by lia.
      destruct (Z.leb_spec bits k), (Z.leb_spec 0 (k mod 32 - bits mod 32)),
        (Z.ltb_spec (k mod 32 - bits mod 32) 32); simpl; try done; Z.div_mod_to_equations; lia. }
    split; [split_and!; [done|rewrite len_wr; congruence|]|].
    + intros k Hk. unfold words in Hk. rewrite Hbit; [lia|lia|Z.div_mod_to_equations; lia].
    + intros k Hk. destruct (Z.eq_dec (k / 32) (bits / 32)) as [E|Hn].
      * rewrite Hbit by (done || lia). lia.
      * unfold bmp_bit. rewrite rd_wr_ne by done. apply Hlow. Z.div_mod_to_equations; lia.
Qed.

(** Releasing an index makes it, and only it, available again: the next
    allocation returns the released index if no lower one is free. *)
Theorem bmp_free_alloc bmp bits k :
  bmp_ok bmp bits -> 0 <= k < bits -> (forall j, 0 <= j < k -> bmp_bit bmp j = true) ->
  bmp_ok (bmp_free bmp k) bits /\ (__thinkos_bmp_alloc (bmp_free bmp k) bits).2 = k.
Proof.
  intros (Hb & Hl & Hhi) Hk Hlow. destruct (words_nonneg bits Hb) as [Hw0 Hw].
  assert (Hbit : forall j, bmp_bit (bmp_free bmp k) j = if j =? k then false else bmp_bit bmp j).
  { intros j. unfold bmp_free. rewrite bmp_bit_wr by (Z.div_mod_to_equations; lia).
    by replace (32 * (k / 32) + k mod 32) with k by (Z.div_mod_to_equations; lia). }
  assert (Hok : bmp_ok (bmp_free bmp k) bits).
  { split_and!; [done|unfold bmp_free; rewrite len_wr; done|].
    intros j Hj. rewrite Hbit. destruct (Z.eqb_spec j k); [lia|by apply Hhi]. }
  split; [done|]. destruct Hok as (_ & Hl' & Hhi').
  pose proof (bmp_alloc_from_spec (Z.to_nat (words bits)) 0 (bmp_free bmp k) ltac:(lia) ltac:(lia)) as H.
  unfold __thinkos_bmp_alloc. fold (words bits). destruct (bmp_alloc_from _ 0 _) as [bmp' r]. simpl.
  destruct H as [(-> & -> & Hall)|(Hr & Hf & _ & Hlo & _)].
  - specialize (Hall k ltac:(lia)). by rewrite Hbit, Z.eqb_refl in Hall.
  - rewrite Hbit in Hf. destruct (Z.eqb_spec r k); [done|].
    destruct (Z.ltb_spec r k); [rewrite Hlow in Hf; done || lia|].
    specialize (Hlo k ltac:(lia)). by rewrite Hbit, Z.eqb_refl in Hlo.
Qed.

(** ** One-word maps *)

Lemma bmp_bit_one w k : 0 <= k < 32 -> bmp_bit [w] k = Z.testbit w k.
Proof. intros Hk. replace k with (32 * 0 + k) by lia. by rewrite bmp_bit_word. Qed.

(** The form in which the allocation handlers use the allocator. *)
Lemma bmp_alloc_word_spec w bits :
  0 < bits <= 32 -> (forall k, bits <= k < 32 -> Z.testbit w k = true) ->
  let '(w', r) := bmp_alloc_word w bits in
  (r = THINKOS_ENOMEM /\ w' = w /\ forall k, 0 <= k < bits -> Z.testbit w k = true) \/
  (0 <= r < bits /\ Z.testbit w r = false /\ (forall k, 0 <= k < r -> Z.testbit w k = true) /\
   w' = __bit_mem_wr w r true).
Proof.
  intros Hb Hhi. unfold bmp_alloc_word, __thinkos_bmp_alloc.
  replace (Z.to_nat ((bits + 31) / 32)) with 1%nat
    by (assert ((bits + 31) / 32 = 1) as -> by (Z.div_mod_to_equations; lia); done).
  pose proof (bmp_alloc_from_spec 1 0 [w] ltac:(lia) ltac:(unfold len; simpl; lia)) as H.
  cbn [bmp_alloc_from] in *. change (rd [w] 0) with w in *. change (32 * 0) with 0 in *.
  destruct (Z.ltb_spec (__clz (__rbit (bnot w))) 32) as [Hlt|Hge]; cbn [fst snd] in *.
  - right. destruct H as [(E & _)|(Hr & Hf & _ & Hlow & _)].
    + pose proof (ctz_range (bnot w)). lia.
    + rewrite Z.add_0_l in *. rewrite bmp_bit_one in Hf by lia.
      split_and!; [lia| |done| |done].
      * destruct (Z.ltb_spec (__clz (__rbit (bnot w))) bits); [done|].
        rewrite Hhi in Hf; [done|lia].
      * intros k Hk. rewrite <- bmp_bit_one by lia. apply Hlow. lia.
  - left. destruct H as [(_ & _ & Hall)|(Hr & _)]; [|lia]. split_and!; [done..|].
    intros k Hk. rewrite <- bmp_bit_one by lia. apply Hall. lia.
Qed.

Lemma clz_zero w : 0 <= w < 4294967296 -> __clz w = 32 <-> w = 0.
Proof.
  intros Hw. unfold __clz. destruct (Z.eqb_spec w 0); [done|].
  pose proof (Z.log2_nonneg w). split; [lia|done].
Qed.

Lemma clz_high w :
  0 < w < 4294967296 ->
  0 <= __clz w < 32 /\ Z.testbit w (31 - __clz w) = true /\
  forall j, 31 - __clz w < j -> Z.testbit w j = false.
Proof.
  intros Hw. unfold __clz. destruct (Z.eqb_spec w 0); [lia|].
  pose proof (Z.log2_nonneg w).
  assert (Z.log2 w < 32) by (apply Z.log2_lt_pow2; lia).
  replace (31 - (31 - Z.log2 w)) with (Z.log2 w) by lia.
  split_and!; [lia|lia|apply Z.bit_log2; lia|]. intros j Hj. apply Z.bits_above_log2; lia.
Qed.

Lemma alloc_lo_spec w start :
  0 <= start < 32 ->
  let '(w', r) := thinkos_alloc_lo w start in
  (r = -1 /\ w' = w /\ forall k, start <= k < 32 -> Z.testbit w k = true) \/
  (start <= r < 32 /\ Z.testbit w r = false /\ w' = __bit_mem_wr w r true /\
   forall k, start <= k < r -> Z.testbit w k = true).
Proof.
  intros Hs.
    unfold thinkos_alloc_lo. set (x := bnot (Z.shiftr w start)).
    assert (Hx : forall k, start <= k < 32 -> Z.testbit x (k - start) = negb (Z.testbit w k)).
    { intros k Hk. unfold x. rewrite bnot_spec, Z.shiftr_spec by lia.
      by replace (k - start + start) with k by lia. }
    pose proof (ctz_range x).
    destruct (Z.leb_spec 32 (__clz (__rbit x) + start)).
    + left. split_and!; [done..|]. intros k Hk. destruct (Z.testbit w k) eqn:E; [done|].
      pose proof (ctz_least x (k - start) ltac:(lia)) as Hl. rewrite Hx, E in Hl by done.
      specialize (Hl eq_refl). lia.
    + right. destruct (ctz_bit x ltac:(lia)) as [Hr Hb].
      rewrite <- (Z.add_simpl_r (__clz (__rbit x)) start), Hx in Hb by lia.
      apply negb_true_iff in Hb. split_and!; [lia|lia|done|done|].
      intros k Hk. destruct (Z.testbit w k) eqn:E; [done|].
      pose proof (ctz_least x (k - start) ltac:(lia)) as Hl. rewrite Hx, E in Hl by lia.
      specialize (Hl eq_refl). lia.
Qed.

Lemma alloc_hi_spec w start :
  0 <= w < 4294967296 -> 0 <= start < 32 ->
  let '(w', r) := thinkos_alloc_hi w start in
  (r = -1 /\ w' = w /\ forall k, 0 <= k <= start -> Z.testbit w k = true) \/
  (0 <= r <= start /\ Z.testbit w r = false /\ w' = __bit_mem_wr w r true /\
   forall k, r < k <= start -> Z.testbit w k = true).
Proof.
  intros Hw Hs.
    unfold thinkos_alloc_hi. destruct (Z.ltb_spec 31 start); [lia|].
    set (x := bnot (Z.shiftl w (31 - start))).
    assert (Hx : forall k, 0 <= k <= start -> Z.testbit x (k + (31 - start)) = negb (Z.testbit w k)).
    { intros k Hk. unfold x. rewrite bnot_spec, Z.shiftl_spec by lia.
      by replace (k + (31 - start) - (31 - start)) with k by lia. }
    assert (Hxr : 0 <= x < 4294967296).
    { unfold x, bnot. pose proof (u32_range (Z.shiftl w (31 - start))). lia. }
    assert (Hlowx : start < 31 -> Z.testbit x 0 = true).
    { intros. unfold x. rewrite bnot_spec, Z.shiftl_spec by lia. by rewrite Z.testbit_neg_r by lia. }
    destruct (Z.eq_dec x 0) as [E0|Hne].
    + assert (start = 31) as ->.
      { destruct (Z.eq_dec start 31); [done|]. rewrite E0, Z.bits_0 in Hlowx. specialize (Hlowx ltac:(lia)). done. }
      rewrite E0. left. simpl. split_and!; [done..|]. intros k Hk.
      pose proof (Hx k Hk) as Hz. rewrite E0, Z.bits_0 in Hz. by destruct (Z.testbit w k).
    + destruct (clz_high x ltac:(lia)) as (Hr & Hb & Hhi).
      assert (Htop : forall k, 0 <= k <= start -> start - __clz x < k -> Z.testbit w k = true).
      { intros k Hk Hlt. pose proof (Hx k Hk) as Hz. rewrite Hhi in Hz by lia.
        by destruct (Z.testbit w k). }
      destruct (Z.ltb_spec (start - __clz x) 0).
      * left. split_and!; [done..|]. intros k Hk. apply Htop; lia.
      * right. replace (31 - __clz x) with (start - __clz x + (31 - start)) in Hb by lia.
        rewrite Hx in Hb by lia. apply negb_true_iff in Hb.
        split_and!; [lia|lia|done|done|]. intros k Hk. apply Htop; lia.
Qed.

(** ** Samples *)

Definition bmp_demo : list Z := [4294967295; 4278190095].

Lemma bmp_demo_ok : bmp_ok bmp_demo 56.
Proof.
  split_and!; [done|reflexivity|]. intros k Hk. vm_compute in Hk.
  assert (k = 56 \/ k = 57 \/ k = 58 \/ k = 59 \/ k = 60 \/ k = 61 \/ k = 62 \/ k = 63)
    as Hc by (destruct Hk as [H1 H2]; change (56 <= k) in H1; change (k < 64) in H2; lia).
  by repeat destruct Hc as [->|Hc]; [..|rewrite Hc].
Qed.

Lemma bmp_alloc_lowest_witness :
  exists bmp', __thinkos_bmp_alloc bmp_demo 56 = (bmp', 36) /\ bmp_ok bmp' 56.
Proof.
  pose proof (bmp_alloc_lowest bmp_demo 56 bmp_demo_ok) as H.
  replace (__thinkos_bmp_alloc bmp_demo 56) with ([4294967295; 4278190111], 36) in *
    by (vm_compute; reflexivity).
  destruct H as [H _]. eexists. split; [reflexivity|exact H].
Defined.

Lemma bmp_init_free_witness :
  bmp_ok (__thinkos_bmp_init [7; 9] 56) 56 /\ bmp_bit (__thinkos_bmp_init [7; 9] 56) 55 = false.
Proof.
  destruct (bmp_init_free [7; 9] 56) as [H1 H2]; [lia|reflexivity|].
  split; [exact H1|]. apply H2. lia.
Defined.

Lemma bmp_free_alloc_witness :
  (__thinkos_bmp_alloc (bmp_free bmp_demo 3) 56).2 = 3.
Proof.
  apply (bmp_free_alloc bmp_demo 56 3); [exact bmp_demo_ok|lia|].
  intros j Hj. assert (j = 0 \/ j = 1 \/ j = 2) as [-> | [-> | ->]] by lia; reflexivity.
Defined.
