(* ===== verification/Invariant.v ===== *)
(** * Queue consistency

    The structural invariant every kernel entry keeps.  [thread_ok] lists the
    situations a thread can be in: for each it gives exactly the queues of
    [wq_lst] the thread is a member of, its status word [th_stat], its
    allocation bit, and whether an interrupt is assigned to it.  So no thread
    is in two places, and no allocated thread is in none.

    [thread_step] is the compositional part: the stores of a handler that
    concern one thread leave every other thread in its situation. *)

From stdpp Require Import base tactics numbers list gmap.
From Stdlib Require Import ZArith Lia.
From S2P Require Import Prelude CortexM State Kernel.

(** The queues of synchronisation objects, of joiners and of the console. *)
Definition sync_wq (wq : Z) : Prop := THINKOS_MUTEX_BASE <= wq < THINKOS_WQ_PAUSED.

(** Joining a thread has no timed variant. *)
Definition timed_ok (wq : Z) (tm : bool) : Prop :=
  tm = true -> wq < THINKOS_JOIN_BASE \/ THINKOS_WQ_CONSOLE_WR <= wq.

(** [th_stat] of a sleeping thread, and of one that was canceled. *)
Abbreviation STAT_CLOCK := 5 (only parsing).
Abbreviation STAT_CANCELED := 116 (only parsing).

(** The status words the kernel writes. *)
Inductive stat_ok : Z -> Prop :=
  | stat_ready : stat_ok 0
  | stat_clock : stat_ok STAT_CLOCK
  | stat_sync wq tm : sync_wq wq -> timed_ok wq tm -> stat_ok (2 * wq + Z.b2z tm)
  | stat_canceled : stat_ok STAT_CANCELED.

(** [m wq]: the thread is in queue [wq]; then its status word, its allocation
    bit, and whether an interrupt is assigned to it. *)
Inductive thread_ok (m : Z -> bool) : Z -> bool -> bool -> Prop :=
  | T_ready : (forall wq, m wq = (wq =? THINKOS_WQ_READY)) -> thread_ok m 0 true false
  | T_share : (forall wq, m wq = (wq =? THINKOS_WQ_TMSHARE)) -> thread_ok m 0 true false
  | T_sleep : (forall wq, m wq = (wq =? THINKOS_WQ_CLOCK)) -> thread_ok m STAT_CLOCK true false
  | T_wait w tm : sync_wq w -> timed_ok w tm ->
      (forall wq, m wq = (wq =? w) || tm && (wq =? THINKOS_WQ_CLOCK)) ->
      thread_ok m (2 * w + Z.b2z tm) true false
  | T_paused st iw : stat_ok st -> (iw = true -> st = 0) ->
      (forall wq, m wq = (wq =? THINKOS_WQ_PAUSED)) -> thread_ok m st true iw
  | T_irq : (forall wq, m wq = false) -> thread_ok m 0 true true
  | T_canceled :
      (forall wq, m wq = true -> wq = THINKOS_WQ_CANCELED \/ wq = THINKOS_WQ_PAUSED \/
                                 wq = THINKOS_WQ_READY \/ wq = THINKOS_WQ_TMSHARE) ->
      (exists wq, m wq = true) -> thread_ok m STAT_CANCELED true false
  | T_free : (forall wq, m wq = true -> wq = THINKOS_WQ_PAUSED) -> thread_ok m 0 false false.

(** An interrupt is assigned to thread [th]. *)
Definition irq_waiting (irqs : list Z) (th : Z) : bool := bool_decide (th ∈ irqs).

(** The queues thread [th] is in. *)
Definition mem (s : kernel) (th wq : Z) : bool := inq (wq_lst s) wq th.

Definition thread_in (s : kernel) (th : Z) : Prop :=
  thread_ok (mem s th) (rd (th_stat s) th) (Z.testbit (th_alloc s) th)
    (irq_waiting (irq_th s) th).

Record kernel_ok (s : kernel) : Prop := {
  k_wq : len (wq_lst s) = THINKOS_WQ_LST_END;
  k_stat : len (th_stat s) = THINKOS_THREADS_MAX;
  k_irq : len (irq_th s) = THINKOS_IRQ_MAX;
  k_irq_range : forall i, 0 <= i < THINKOS_IRQ_MAX -> 0 <= rd (irq_th s) i <= THINKOS_THREAD_IDLE;
  k_irq_inj : forall i j, 0 <= i < THINKOS_IRQ_MAX -> 0 <= j < THINKOS_IRQ_MAX ->
    rd (irq_th s) i = rd (irq_th s) j -> rd (irq_th s) i < THINKOS_THREAD_IDLE -> i = j;
  k_irq_paused : forall i, 0 <= i < THINKOS_IRQ_MAX -> i ∈ irq_en s ->
    rd (irq_th s) i < THINKOS_THREAD_IDLE -> mem s (rd (irq_th s) i) THINKOS_WQ_PAUSED = false;
  k_bits : forall wq th, mem s th wq = true ->
    0 <= th < THINKOS_THREADS_MAX \/ (wq = THINKOS_WQ_READY /\ th = THINKOS_THREAD_IDLE);
  k_idle : mem s THINKOS_THREAD_IDLE THINKOS_WQ_READY = true;
  k_threads : forall th, 0 <= th < THINKOS_THREADS_MAX -> thread_in s th
}.

(** ** What the situations exclude *)

Lemma shiftr_stat w tm : Z.shiftr (2 * w + Z.b2z tm) 1 = w.
Proof.
  rewrite Z.shiftr_div_pow2 by lia. change (2 ^ 1) with 2.
  destruct tm; simpl; Z.div_mod_to_equations; lia.
Qed.

Lemma stat_word w (tm : bool) :
  sync_wq w -> u16 (Z.shiftl w 1 + Z.b2z tm) = 2 * w + Z.b2z tm.
Proof.
  unfold sync_wq. intros H. rewrite Z.shiftl_mul_pow2 by lia. change (2 ^ 1) with 2.
  rewrite u16_small; destruct tm; simpl; lia.
Qed.

(** Membership in one queue determines the situation. *)
Lemma ok_in_sync m st al iw w :
  thread_ok m st al iw -> sync_wq w -> m w = true ->
  exists tm, st = 2 * w + Z.b2z tm /\ al = true /\ iw = false /\
    forall wq, m wq = (wq =? w) || tm && (wq =? THINKOS_WQ_CLOCK).
Proof.
  intros H Hw Hm. unfold sync_wq in Hw.
  destruct H as [H|H|H|w' tm Hw' Htm H|st iw Hst Hiw H|H|H He|H];
    try (rewrite H in Hm; lia).
  - exists tm. rewrite H in Hm. destruct (Z.eqb_spec w w') as [->|]; [done|].
    destruct tm; simpl in Hm; lia.
  - apply H in Hm. lia.
  - apply H in Hm. lia.
Qed.

Lemma ok_in_clock m st al iw :
  thread_ok m st al iw -> m THINKOS_WQ_CLOCK = true ->
  exists w, st = 2 * w + 1 /\ (sync_wq w \/ w = THINKOS_WQ_CLOCK) /\ al = true /\ iw = false /\
    forall wq, m wq = (wq =? w) || (wq =? THINKOS_WQ_CLOCK).
Proof.
  intros H Hm. destruct H as [H|H|H|w' tm Hw' Htm H|st iw Hst Hiw H|H|H He|H];
    try (rewrite H in Hm; lia).
  - exists 2. split_and!; try done; auto. intros wq. rewrite H. by destruct (wq =? 2).
  - exists w'. rewrite H in Hm. unfold sync_wq in Hw'. destruct (Z.eqb_spec 2 w'); [lia|].
    destruct tm; [|done]. split_and!; auto.
  - apply H in Hm. lia.
  - apply H in Hm. lia.
Qed.

Lemma ok_running m st al iw :
  thread_ok m st al iw -> st = 0 -> m THINKOS_WQ_READY = true ->
  al = true /\ iw = false /\ forall wq, m wq = (wq =? THINKOS_WQ_READY).
Proof.
  intros H Hst Hm. destruct H as [H|H|H|w' tm Hw' Htm H|st iw Hst' Hiw H|H|H He|H];
    try (rewrite H in Hm; lia); try done.
  - rewrite H in Hm. unfold sync_wq in Hw'. destruct tm; simpl in Hst; lia.
  - apply H in Hm. lia.
Qed.

Lemma ok_irq m st al iw :
  thread_ok m st al iw -> iw = true ->
  st = 0 /\ al = true /\ forall wq, m wq = true -> wq = THINKOS_WQ_PAUSED.
Proof.
  intros H ->. inversion H as [| | | |st' iw' Hst' Hiw Hm| Hm| |]; subst.
  - split_and!; auto. intros wq. rewrite Hm. lia.
  - split_and!; auto. intros wq. by rewrite Hm.
Qed.

(** ** Stores that concern one thread *)

(** What happens to the threads an operation is not about: they may move
    from the time share queue to the ready queue. *)
Definition same_thread (m m' : Z -> bool) : Prop :=
  (forall wq, wq <> THINKOS_WQ_READY -> wq <> THINKOS_WQ_TMSHARE -> m' wq = m wq) /\
  ((m' THINKOS_WQ_READY = m THINKOS_WQ_READY /\ m' THINKOS_WQ_TMSHARE = m THINKOS_WQ_TMSHARE) \/
   (m' THINKOS_WQ_READY = m THINKOS_WQ_READY || m THINKOS_WQ_TMSHARE /\
    m' THINKOS_WQ_TMSHARE = false)).

Lemma same_thread_ext m m' : (forall wq, m' wq = m wq) -> same_thread m m'.
Proof. intros H. split; intros; rewrite ?H; auto. Qed.

Lemma same_thread_trans m1 m2 m3 : same_thread m1 m2 -> same_thread m2 m3 -> same_thread m1 m3.
Proof.
  intros [A1 A2] [B1 B2]. split.
  - intros wq H0 H1. rewrite B1, A1; done.
  - destruct A2 as [[-> ->]|[-> ->]] in B2; destruct B2 as [[-> ->]|[-> ->]]; auto.
    rewrite orb_false_r. auto.
Qed.

Lemma same_thread_cases m m' :
  same_thread m m' ->
  (forall wq, m' wq = m wq) \/
  (forall wq, m' wq = if wq =? THINKOS_WQ_READY then m THINKOS_WQ_READY || m THINKOS_WQ_TMSHARE
                      else if wq =? THINKOS_WQ_TMSHARE then false else m wq).
Proof.
  intros [H1 [[H2 H3]|[H2 H3]]]; [left|right]; intros wq;
    destruct (Z.eqb_spec wq 0) as [->|]; try destruct (Z.eqb_spec wq 1) as [->|]; auto.
Qed.

Lemma thread_ok_ext m m' st al iw :
  (forall wq, m' wq = m wq) -> thread_ok m st al iw -> thread_ok m' st al iw.
Proof.
  intros E [H|H|H|w tm Hw Htm H|st' iw' Hst Hiw H|H|H [wq0 He]|H];
    [apply T_ready|apply T_share|apply T_sleep|apply T_wait; [done|done|]
    |apply T_paused; [done..|]|apply T_irq|apply T_canceled; [|exists wq0; by rewrite E]
    |apply T_free]; intros wq; rewrite E; auto.
Qed.

Lemma thread_ok_same m m' st al iw :
  same_thread m m' -> thread_ok m st al iw -> thread_ok m' st al iw.
Proof.
  intros [E|E]%same_thread_cases; [by apply thread_ok_ext|].
  intros [H|H|H|w tm Hw Htm H|st' iw' Hst Hiw H|H|H [wq0 He]|H].
  - apply T_ready. intros wq. rewrite E, !H. destruct (Z.eqb_spec wq 0); [done|]; by destruct (Z.eqb_spec wq 1).
  - apply T_ready. intros wq. rewrite E, !H. destruct (Z.eqb_spec wq 0); [done|]; by destruct (Z.eqb_spec wq 1).
  - apply T_sleep. intros wq. rewrite E, !H.
    destruct (Z.eqb_spec wq 0) as [->|]; [done|]. by destruct (Z.eqb_spec wq 1) as [->|].
  - apply T_wait; [done|done|]. intros wq. rewrite E, !H. unfold sync_wq in Hw.
    destruct (Z.eqb_spec wq 0); [subst; destruct tm; lia|].
    destruct (Z.eqb_spec wq 1); [subst; destruct tm; lia|done].
  - apply T_paused; [done..|]. intros wq. rewrite E, !H.
    destruct (Z.eqb_spec wq 0) as [->|]; [done|]. by destruct (Z.eqb_spec wq 1) as [->|].
  - apply T_irq. intros wq. rewrite E, !H. destruct (Z.eqb_spec wq 0); [done|]; by destruct (Z.eqb_spec wq 1).
  - apply T_canceled.
    + intros wq. rewrite E. destruct (Z.eqb_spec wq 0); [auto|]. destruct (wq =? 1); [done|]. auto.
    + destruct (H wq0 He) as [-> | [-> | [-> | ->]]].
      * exists 58. by rewrite E.
      * exists 57. by rewrite E.
      * exists 0. rewrite E. simpl. by rewrite He.
      * exists 0. rewrite E. simpl. by rewrite He, orb_true_r.
  - apply T_free. intros wq. rewrite E.
    destruct (m 0) eqn:E0; [apply H in E0; lia|]. destruct (m 1) eqn:E1; [apply H in E1; lia|].
    destruct (wq =? 0); [done|]. destruct (wq =? 1); [done|]. auto.
Qed.

(** Suspending [th] leaves every other thread where it was, up to the refill
    of the ready queue. *)
Lemma same_suspend l th th' :
  1 < len l -> 0 <= th -> th <> th' ->
  same_thread (fun wq => inq l wq th') (fun wq => inq (suspend_wq l th) wq th').
Proof.
  intros Hl Hth Hne. split.
  - intros wq H0 H1. by apply inq_suspend_other.
  - unfold suspend_wq, inq. rewrite rd_wr_ne, rd_wr_eq, rd_wr_eq by (rewrite ?len_wr; lia).
    destruct (_ =? _).
    + right. rewrite Z.lor_spec, testbit_ldiff_bit, Z.bits_0 by done.
      by destruct (Z.eqb_spec th th').
    + left. rewrite testbit_ldiff_bit by done. by destruct (Z.eqb_spec th th').
Qed.

(** The state [s'] differs from [s], as far as the invariant is concerned,
    in the queues, the status and the allocation of thread [th] only. *)
Record thread_step (th : Z) (s s' : kernel) : Prop := {
  ts_len : len (wq_lst s) = THINKOS_WQ_LST_END -> len (wq_lst s') = THINKOS_WQ_LST_END;
  ts_stat_len : len (th_stat s') = len (th_stat s);
  ts_irq : irq_th s' = irq_th s;
  ts_irq_en : irq_en s' ⊆ irq_en s;
  ts_high : forall th' wq, THINKOS_THREADS_MAX <= th' \/ th' < 0 ->
    len (wq_lst s) = THINKOS_WQ_LST_END ->
    (forall th' wq, mem s th' wq = true -> 0 <= th' < THINKOS_THREADS_MAX \/
       (wq = THINKOS_WQ_READY /\ th' = THINKOS_THREAD_IDLE)) ->
    mem s' th' wq = mem s th' wq;
  ts_other : forall th', 0 <= th' < THINKOS_THREADS_MAX -> th' <> th ->
    len (wq_lst s) = THINKOS_WQ_LST_END ->
    same_thread (mem s th') (mem s' th') /\
    rd (th_stat s') th' = rd (th_stat s) th' /\
    Z.testbit (th_alloc s') th' = Z.testbit (th_alloc s) th'
}.

Lemma thread_step_refl th s : thread_step th s s.
Proof. split; auto. intros; split; [by apply same_thread_ext|done]. Qed.

Lemma thread_step_trans th s1 s2 s3 :
  thread_step th s1 s2 -> thread_step th s2 s3 -> thread_step th s1 s3.
Proof.
  intros [A1 A2 A3 A4 A5 A6] [B1 B2 B3 B4 B5 B6]. split; try congruence; auto.
  - set_solver.
  - intros th' wq Hth' Hl Hb. rewrite B5, A5; auto.
    intros th'' wq' Hm. destruct (decide (0 <= th'' < 8)) as [|Hn]; [auto|].
    rewrite A5 in Hm by (auto; lia). auto.
  - intros th' Hth' Hne Hl. destruct (A6 th' Hth' Hne Hl) as (?&?&?).
    destruct (B6 th' Hth' Hne (A1 Hl)) as (?&?&?).
    split_and!; [by eapply same_thread_trans|congruence|congruence].
Qed.

(** A step that stores nothing the invariant looks at. *)
Lemma thread_step_frame th s s' :
  wq_lst s' = wq_lst s -> th_stat s' = th_stat s -> th_alloc s' = th_alloc s ->
  irq_th s' = irq_th s -> irq_en s' = irq_en s -> thread_step th s s'.
Proof.
  intros H1 H2 H3 H4 H5. unfold mem.
  split; unfold mem; rewrite ?H1, ?H2, ?H3, ?H4, ?H5; auto.
  intros; split; [by apply same_thread_ext|done].
Qed.

Lemma mem_bit_store w th v s th' wq :
  len (wq_lst s) = THINKOS_WQ_LST_END -> 0 <= w < THINKOS_WQ_LST_END -> 0 <= th ->
  mem (wq_bit_store w th v s) th' wq = if (w =? wq) && (th =? th') then v else mem s th' wq.
Proof. intros. unfold mem. kred. apply inq_bit_wr; lia. Qed.

Lemma mem_suspend_self th s wq :
  len (wq_lst s) = THINKOS_WQ_LST_END -> 0 <= th -> mem s th THINKOS_WQ_TMSHARE = false ->
  mem (__thinkos_suspend th s) th wq = if wq =? THINKOS_WQ_READY then false else mem s th wq.
Proof.
  intros Hl Hth Ht. unfold mem in *. kred.
  destruct (inq_suspend_self (wq_lst s) th) as [H0 H1]; [lia|done|done|].
  destruct (Z.eqb_spec wq 0) as [->|]; [done|].
  destruct (Z.eq_dec wq 1) as [->|]; [by rewrite H1|]. apply inq_suspend_other; lia.
Qed.

Lemma thread_step_bit th w v s :
  0 <= w < THINKOS_WQ_LST_END -> 0 <= th < THINKOS_THREADS_MAX ->
  thread_step th s (wq_bit_store w th v s).
Proof.
  intros Hw Hth. split; kred; auto.
  - by rewrite len_wq_bit_wr.
  - intros th' wq Hth' Hl _. rewrite mem_bit_store by lia.
    destruct (Z.eqb_spec th th'); [lia|]. by rewrite andb_false_r.
  - intros th' Hth' Hne Hl. split; [|done]. apply same_thread_ext. intros wq.
    rewrite mem_bit_store by lia. destruct (Z.eqb_spec th th'); [lia|]. by rewrite andb_false_r.
Qed.

Lemma thread_step_stat th v s : thread_step th s (th_stat_store th v s).
Proof.
  split; kred; auto.
  - by rewrite len_wr.
  - intros th' Hth' Hne Hl. rewrite rd_wr_ne by done. split; [by apply same_thread_ext|done].
Qed.

Lemma thread_step_suspend th s :
  0 <= th < THINKOS_THREADS_MAX -> thread_step th s (__thinkos_suspend th s).
Proof.
  intros Hth. split; kred; auto.
  - by rewrite len_suspend_wq.
  - intros th' wq Hth' Hl Hb. unfold mem. kred.
    destruct (same_thread_cases _ _ (same_suspend (wq_lst s) th th' ltac:(lia) ltac:(lia)
      ltac:(lia))) as [E|E]; rewrite E; [done|].
    destruct (inq (wq_lst s) 1 th') eqn:E1; [by apply Hb in E1; lia|].
    rewrite orb_false_r. destruct (Z.eqb_spec wq 0) as [->|]; [done|].
    by destruct (Z.eqb_spec wq 1) as [->|].
  - intros th' Hth' Hne Hl. split; [|done]. by apply same_suspend; lia.
Qed.

(** ** Lifting the change of one thread to the kernel *)

Lemma irq_waiting_iff irqs th :
  irq_waiting irqs th = true <-> exists i, 0 <= i < len irqs /\ rd irqs i = th.
Proof.
  unfold irq_waiting. rewrite bool_decide_eq_true, list_elem_of_lookup. unfold rd, len. split.
  - intros [n Hn]. exists (Z.of_nat n). pose proof (lookup_lt_Some _ _ _ Hn).
    destruct (Z.ltb_spec (Z.of_nat n) 0); [lia|]. rewrite Nat2Z.id, nth_lookup_default, Hn.
    split; [lia|done].
  - intros (i & Hi & Hr). destruct (Z.ltb_spec i 0); [lia|]. exists (Z.to_nat i).
    rewrite nth_lookup_default in Hr. destruct (lookup_lt_is_Some_2 irqs (Z.to_nat i)) as [x Hx]; [lia|].
    rewrite Hx in Hr. simpl in Hr. by rewrite Hx, Hr.
Qed.

Lemma kernel_ok_step th s s' :
  kernel_ok s -> 0 <= th < THINKOS_THREADS_MAX -> thread_step th s s' -> thread_in s' th ->
  (forall i, 0 <= i < THINKOS_IRQ_MAX -> i ∈ irq_en s' -> rd (irq_th s) i = th ->
     mem s' th THINKOS_WQ_PAUSED = false) ->
  kernel_ok s'.
Proof.
  intros [K1 K2 K3 K4 K5 K6 K7 K8 K9] Hth [T1 T2 T3 T4 T5 T6] Hok Hp.
  split; rewrite ?T3; try congruence; auto.
  - intros i Hi Hen Hlt. destruct (Z.eq_dec (rd (irq_th s) i) th) as [E|Hne].
    + rewrite E. eauto.
    + destruct (T6 _ (conj (proj1 (K4 i Hi)) Hlt) Hne K1) as ([Ho _]&_&_).
      rewrite Ho by lia. apply K6; [done|set_solver|done].
  - intros wq th' Hm. destruct (decide (0 <= th' < 8)); [auto|].
    rewrite T5 in Hm by (auto; lia). auto.
  - rewrite T5; auto. lia.
  - intros th' Hth'. destruct (Z.eq_dec th' th) as [->|Hne]; [done|].
    destruct (T6 th' Hth' Hne K1) as (Hs&Hst&Hal). unfold thread_in. rewrite Hst, Hal, T3.
    eapply thread_ok_same; [exact Hs|]. by apply K9.
Qed.

(** The common case: no interrupt is assigned to the thread. *)
Lemma kernel_ok_step' th s s' :
  kernel_ok s -> 0 <= th < THINKOS_THREADS_MAX -> thread_step th s s' ->
  irq_waiting (irq_th s) th = false ->
  thread_ok (mem s' th) (rd (th_stat s') th) (Z.testbit (th_alloc s') th) false ->
  kernel_ok s'.
Proof.
  intros K Hth T Hiw Hok. eapply kernel_ok_step; [done|done|done| |].
  - unfold thread_in. by rewrite (ts_irq _ _ _ T), Hiw.
  - intros i Hi _ Hr. exfalso. assert (irq_waiting (irq_th s) th = true) as E; [|congruence].
    apply irq_waiting_iff. exists i. rewrite (k_irq s K). done.
Qed.

Lemma kernel_ok_frame s s' :
  wq_lst s' = wq_lst s -> th_stat s' = th_stat s -> th_alloc s' = th_alloc s ->
  irq_th s' = irq_th s -> irq_en s' = irq_en s -> kernel_ok s -> kernel_ok s'.
Proof.
  intros H1 H2 H3 H4 H5 [K1 K2 K3 K4 K5 K6 K7 K8 K9].
  split; unfold thread_in, mem in *; rewrite ?H1, ?H2, ?H3, ?H4, ?H5; assumption.
Qed.

(** Closes [kernel_ok s'] when [s'] stores nothing the invariant looks at. *)
Ltac kframe :=
  match goal with
  | K : kernel_ok ?s |- kernel_ok _ => apply (kernel_ok_frame s); [kred; reflexivity..|exact K]
  end.

(** Goes on with a state that has the same queues. *)
Ltac kvia x := apply (kernel_ok_frame x); [kred; reflexivity..|].
