(* ===== verification/Decide.v ===== *)
(** * A decision procedure for queue consistency

    [kernel_okb] evaluates the invariant of [Invariant] on a concrete state;
    it is sound, so the invariant of a given state is proved by computation. *)

From stdpp Require Import base tactics numbers list gmap.
From Stdlib Require Import ZArith Lia.
From S2P Require Import Prelude CortexM State Kernel BmpAlloc Invariant.

(** The queues a thread is in, in order. *)
Definition queues_of (s : kernel) (th : Z) : list Z :=
  filter (fun wq => mem s th wq = true) (seqZ 0 THINKOS_WQ_LST_END).

Definition in_sync (w : Z) : bool :=
  (THINKOS_MUTEX_BASE <=? w) && (w <? THINKOS_WQ_PAUSED).

(** The status word of a thread that waits in a queue. *)
Definition in_wait (st : Z) : bool :=
  in_sync (st / 2) &&
  (negb (Z.odd st) || (st / 2 <? THINKOS_JOIN_BASE) || (THINKOS_WQ_CONSOLE_WR <=? st / 2)).

Definition stat_okb (st : Z) : bool :=
  (st =? 0) || (st =? STAT_CLOCK) || (st =? STAT_CANCELED) || in_wait st.

Definition thread_okb (st : Z) (al iw : bool) (qs : list Z) : bool :=
  match al, iw with
  | false, false => (st =? 0) && (bool_decide (qs = []) || bool_decide (qs = [THINKOS_WQ_PAUSED]))
  | false, true => false
  | true, true => (st =? 0) && (bool_decide (qs = []) || bool_decide (qs = [THINKOS_WQ_PAUSED]))
  | true, false =>
      stat_okb st && bool_decide (qs = [THINKOS_WQ_PAUSED]) ||
      (st =? 0) && bool_decide (qs = [THINKOS_WQ_READY]) ||
      (st =? 0) && bool_decide (qs = [THINKOS_WQ_TMSHARE]) ||
      (st =? STAT_CLOCK) && bool_decide (qs = [THINKOS_WQ_CLOCK]) ||
      in_wait st && bool_decide (qs = if Z.odd st then [THINKOS_WQ_CLOCK; st / 2] else [st / 2]) ||
      (st =? STAT_CANCELED) && negb (bool_decide (qs = [])) &&
        forallb (fun w => bool_decide (w ∈ [58; 57; 0; 1])) qs
  end.

Definition irq_okb (s : kernel) : bool :=
  forallb (fun i => (0 <=? rd (irq_th s) i) && (rd (irq_th s) i <=? THINKOS_THREAD_IDLE) &&
    ((THINKOS_THREAD_IDLE <=? rd (irq_th s) i) ||
     forallb (fun j => (i =? j) || negb (rd (irq_th s) i =? rd (irq_th s) j)) (seqZ 0 THINKOS_IRQ_MAX) &&
     (negb (bool_decide (i ∈ irq_en s)) || negb (mem s (rd (irq_th s) i) THINKOS_WQ_PAUSED))))
    (seqZ 0 THINKOS_IRQ_MAX).

Definition kernel_okb (s : kernel) : bool :=
  (len (wq_lst s) =? THINKOS_WQ_LST_END) && (len (th_stat s) =? THINKOS_THREADS_MAX) &&
  (len (irq_th s) =? THINKOS_IRQ_MAX) && irq_okb s &&
  forallb (fun w => (0 <=? rd (wq_lst s) w) && (rd (wq_lst s) w <? (if w =? 0 then 512 else 256)))
    (seqZ 0 THINKOS_WQ_LST_END) &&
  mem s THINKOS_THREAD_IDLE THINKOS_WQ_READY &&
  forallb (fun th => thread_okb (rd (th_stat s) th) (Z.testbit (th_alloc s) th)
    (irq_waiting (irq_th s) th) (queues_of s th)) (seqZ 0 THINKOS_THREADS_MAX).

(** ** Soundness *)

Lemma queues_of_spec s th :
  len (wq_lst s) = THINKOS_WQ_LST_END -> forall wq, mem s th wq = true <-> wq ∈ queues_of s th.
Proof.
  intros Hl wq. unfold queues_of. rewrite list_elem_of_filter, elem_of_seqZ.
  split; [|tauto]. intros H. split; [done|].
  destruct (decide (0 <= wq < 0 + 59)) as [|Hn]; [done|].
  unfold mem, inq in H. rewrite rd_out in H by lia. by rewrite Z.bits_0 in H.
Qed.

Lemma mem_singleton (m : Z -> bool) w : (forall wq, m wq = true <-> wq ∈ [w]) -> forall wq, m wq = (wq =? w).
Proof.
  intros H wq. specialize (H wq). rewrite list_elem_of_singleton in H.
  destruct (Z.eqb_spec wq w), (m wq); intuition congruence.
Qed.

Lemma mem_nil (m : Z -> bool) : (forall wq, m wq = true <-> wq ∈ []) -> forall wq, m wq = false.
Proof. intros H wq. specialize (H wq). rewrite elem_of_nil in H. destruct (m wq); intuition. Qed.

Lemma stat_word_split st : in_wait st = true ->
  sync_wq (st / 2) /\ timed_ok (st / 2) (Z.odd st) /\ st = 2 * (st / 2) + Z.b2z (Z.odd st).
Proof.
  unfold in_wait, in_sync, sync_wq, timed_ok. intros H. split; [lia|].
  split; [intros E; rewrite E in H; simpl in H; lia|].
  pose proof (Z.div2_odd st) as E. rewrite Z.div2_div in E. lia.
Qed.

Lemma stat_okb_sound st : stat_okb st = true -> stat_ok st.
Proof.
  unfold stat_okb. rewrite !orb_true_iff, !Z.eqb_eq. intros [[[->| ->]| ->]|H]; try constructor.
  destruct (stat_word_split st H) as (Hw & Htm & E). rewrite E. by constructor.
Qed.

Lemma thread_okb_sound m st al iw qs :
  (forall wq, m wq = true <-> wq ∈ qs) -> thread_okb st al iw qs = true -> thread_ok m st al iw.
Proof.
  intros Hm H. unfold thread_okb in H. destruct al, iw; [| |done|].
  - apply andb_true_iff in H as [->%Z.eqb_eq H]. apply orb_true_iff in H as [H|H];
      apply bool_decide_eq_true in H as ->; [apply T_irq; by apply mem_nil|].
    apply T_paused; [constructor|done|by apply mem_singleton].
  - rewrite !orb_true_iff, !andb_true_iff, !bool_decide_eq_true, !Z.eqb_eq in H.
    destruct H as [[[[[[H ->]|[-> ->]]|[-> ->]]|[-> ->]]|[Hs ->]]|[[-> Hne] Hall]].
    + apply T_paused; [by apply stat_okb_sound|done|by apply mem_singleton].
    + apply T_ready; by apply mem_singleton.
    + apply T_share; by apply mem_singleton.
    + apply T_sleep; by apply mem_singleton.
    + destruct (stat_word_split st Hs) as (Hw & Htm & E). rewrite E at 1. apply T_wait; [done|done|].
      intros wq. specialize (Hm wq). destruct (Z.odd st).
      * rewrite elem_of_cons, list_elem_of_singleton in Hm.
        destruct (Z.eqb_spec wq (st / 2)), (Z.eqb_spec wq 2), (m wq); simpl; intuition congruence.
      * rewrite list_elem_of_singleton in Hm.
        destruct (Z.eqb_spec wq (st / 2)), (m wq); simpl; intuition congruence.
    + apply T_canceled.
      * intros wq Hwq. apply Hm in Hwq. rewrite forallb_forall in Hall.
        apply list_elem_of_In, Hall, bool_decide_eq_true in Hwq.
        rewrite !elem_of_cons, elem_of_nil in Hwq. intuition.
      * destruct qs as [|q qs]; [done|]. exists q. apply Hm. by left.
  - apply andb_true_iff in H as [->%Z.eqb_eq H]. apply T_free. intros wq Hwq. apply Hm in Hwq.
    apply orb_true_iff in H as [H|H]; apply bool_decide_eq_true in H as ->.
    + by apply elem_of_nil in Hwq.
    + by apply list_elem_of_singleton in Hwq.
Qed.

Lemma forallb_seqZ f a n i : forallb f (seqZ a n) = true -> a <= i < a + n -> f i = true.
Proof. rewrite forallb_forall. intros H Hi. apply H, list_elem_of_In, elem_of_seqZ. lia. Qed.

Lemma kernel_okb_sound s : kernel_okb s = true -> kernel_ok s.
Proof.
  unfold kernel_okb. rewrite !andb_true_iff, !Z.eqb_eq.
  intros [[[[[[Hl Hst] Hir] Hirq] Hw] Hidle] Hth].
  assert (Hirq' : forall i, 0 <= i < 80 -> _) by (intros i Hi; exact (forallb_seqZ _ 0 80 i Hirq Hi)).
  cbv beta in Hirq'. split; try done.
  - intros i Hi. specialize (Hirq' i Hi). lia.
  - intros i j Hi Hj Eij Hlt. specialize (Hirq' i Hi).
    rewrite !andb_true_iff, orb_true_iff, andb_true_iff in Hirq'.
    destruct Hirq' as [_ [H|[H _]]]; [lia|].
    pose proof (forallb_seqZ _ 0 80 j H ltac:(lia)) as H'. simpl in H'. lia.
  - intros i Hi Hen Hlt. specialize (Hirq' i Hi).
    rewrite !andb_true_iff, orb_true_iff, andb_true_iff in Hirq'.
    destruct Hirq' as [_ [H|[_ H]]]; [lia|].
    rewrite bool_decide_eq_true_2 in H by done. simpl in H. by apply negb_true_iff in H.
  - intros wq th Hm. pose proof Hm as Hq. rewrite queues_of_spec in Hq by done.
    unfold queues_of in Hq. apply list_elem_of_filter in Hq as [_ Hr%elem_of_seqZ].
    pose proof (forallb_seqZ _ 0 59 wq Hw ltac:(lia)) as Hb. simpl in Hb.
    unfold mem, inq in Hm. destruct (Z.ltb_spec th 0); [by rewrite Z.testbit_neg_r in Hm|].
    destruct (Z.ltb_spec th 8) as [|Hge]; [lia|]. right.
    assert (Hlog : Z.log2 (rd (wq_lst s) wq) < th -> False).
    { intros Hlg. rewrite Z.bits_above_log2 in Hm by lia. done. }
    assert (H256 : forall k, 0 < k -> rd (wq_lst s) wq < 2 ^ k -> th < k).
    { intros k Hk Hlt. destruct (Z.ltb_spec th k); [done|]. exfalso. apply Hlog.
      destruct (Z.eq_dec (rd (wq_lst s) wq) 0) as [->|]; [simpl; lia|].
      enough (Z.log2 (rd (wq_lst s) wq) < k) by lia. apply Z.log2_lt_pow2; lia. }
    destruct (Z.eqb_spec wq 0) as [->|]; [|specialize (H256 8); lia].
    specialize (H256 9). lia.
  - intros th Hth'. pose proof (forallb_seqZ _ 0 8 th Hth ltac:(lia)) as H.
    unfold thread_in. eapply thread_okb_sound; [|exact H]. by apply queues_of_spec.
Qed.
