(* ===== verification/Init.v ===== *)
(** * Start-up and reset

    [__thinkos_kill_all], [__thinkos_reset] and [thinkos_init] of
    src/sdk/libthinkos/thinkos_init.c with [__thinkos_irq_reset_all]
    (thinkos_irq.c) and [__thinkos_idle_init] (thinkos_idle.c).  Priorities,
    SysTick, CONTROL and the other core registers are configuration of the
    hardware and are not part of the state. *)

From stdpp Require Import base tactics numbers list gmap.
From Stdlib Require Import ZArith Lia.
From S2P Require Import Prelude CortexM State Kernel BmpAlloc Invariant.

(** ** Code *)

(** The scheduling bytes: [sched_val[i]] (signed) and [sched_pri[i]]. *)
Definition sched_val (s : kernel) (i : Z) : Z := int8 (rd (sched s) i).
Definition sched_pri (s : kernel) (i : Z) : Z := u8 (rd (sched s) (9 + i)).
Definition sched_val_store (i v : Z) (s : kernel) : kernel := set_sched (wr (sched s) i (u8 v)) s.
Definition sched_pri_store (i v : Z) (s : kernel) : kernel :=
  set_sched (wr (sched s) (9 + i) (u8 v)) s.

(** [__thinkos_memset32(&thinkos_rt, 0, sizeof(struct thinkos_rt))] *)
Definition clear_rt (s : kernel) : kernel :=
  mk_kernel (zeros 10) 0 0 (zeros 59) (zeros 8) (zeros 20) 0 0 (zeros 8) (zeros 8) (zeros 8) 0 0
    (zeros 8) (zeros 80) 0 0 0 0 0 0 0 (zeros 9) (frames s) (psp s) (pendsv s) (irq_en s)
    (irq_pend s) (mon_events s) (mon_req s) (mon_pend s) (console s) (umem s) (wild s).

Definition __thinkos_irq_reset_all (s : kernel) : kernel :=
  set_irq_th (replicate 80 THINKOS_THREAD_IDLE) s.

Definition __thinkos_kill_all (s : kernel) : kernel :=
  s |> set_wq_lst (zeros 59)
    |> wq_bit_store THINKOS_WQ_READY THINKOS_THREADS_MAX true
    |> set_active THINKOS_THREAD_VOID
    |> __thinkos_defer_sched.

Definition bmp_init_word (bits : Z) : Z := rd (__thinkos_bmp_init [0] bits) 0.

Definition __thinkos_reset (s : kernel) : kernel :=
  s |> clear_rt
    |> __thinkos_irq_reset_all
    |> set_lock (replicate 8 (-1))
    |> set_ev [0; 4294967295; 0; 4294967295; 0; 4294967295; 0; 4294967295]
    |> set_th_alloc (bmp_init_word THINKOS_THREADS_MAX)
    |> set_mutex_alloc (bmp_init_word THINKOS_MUTEX_MAX)
    |> set_sem_alloc (bmp_init_word THINKOS_SEMAPHORE_MAX)
    |> set_cond_alloc (bmp_init_word THINKOS_COND_MAX)
    |> set_flag_alloc (bmp_init_word THINKOS_FLAG_MAX)
    |> set_ev_alloc (bmp_init_word THINKOS_EVENT_MAX)
    |> set_gate_alloc (bmp_init_word THINKOS_GATE_MAX)
    |> set_active THINKOS_THREAD_IDLE
    |> wq_store THINKOS_WQ_READY (Z.shiftl 1 THINKOS_THREADS_MAX).

(** The address of the idle thread's context and of the information records. *)
Definition addr_idle_ctx : Z := 536870912.
Definition addr_idle_inf : Z := 134218752.
Definition addr_main_inf : Z := 134218784.

Definition idle_context : thinkos_context :=
  mk_context 0 0 0 0 0 0 0 0 0 0 0 0 0 addr_thread_exit addr_idle_task CM_EPSR_T.

Definition __thinkos_idle_init (s : kernel) : kernel :=
  s |> set_frames (<[addr_idle_ctx := idle_context]> (frames s))
    |> ctx_store THINKOS_THREAD_IDLE addr_idle_ctx
    |> wq_bit_store THINKOS_WQ_READY THINKOS_THREADS_MAX true
    |> set_th_inf (wr (th_inf s) THINKOS_THREAD_IDLE addr_idle_inf).

(** The fields of the option word. *)
Definition __PRIORITY (opt : Z) : Z := Z.land (Z.shiftr opt 16) 255.
Definition __ID (opt : Z) : Z := Z.land (Z.shiftr opt 24) 127.
Definition __PAUSED (opt : Z) : Z := Z.land (Z.shiftr opt 31) 1.

(** When no slot is left [id] is -1 and the arrays are indexed with it. *)
Definition __thinkos_init_main (opt : Z) (s : kernel) : kernel * Z :=
  let priority := __PRIORITY opt in
  let id := __ID opt - 1 in
  let id := if id <? 0 then 0 else id in
  let '(alloc, id) := thinkos_alloc_lo (th_alloc s) id in
  let s := set_th_alloc alloc s in
  let s := set_wild (wild s || (id <? 0) || (THINKOS_THREADS_MAX <=? id)) s in
  let s := set_th_inf (wr (th_inf s) id addr_main_inf) s in
  let priority := if THINKOS_SCHED_LIMIT_MAX <? priority then THINKOS_SCHED_LIMIT_MAX
                  else priority in
  let s := s |> sched_pri_store id priority
             |> sched_val_store id (priority / 2)
             |> set_sched_limit (if priority <? THINKOS_SCHED_LIMIT_MIN
                                 then THINKOS_SCHED_LIMIT_MIN else priority)
             |> set_active id
             |> wq_store THINKOS_WQ_READY
                  (Z.lor (Z.shiftl 1 id) (Z.shiftl 1 THINKOS_THREADS_MAX)) in
  let s := if __PAUSED opt =? 1 then s |> wq_store THINKOS_WQ_PAUSED (Z.shiftl 1 id) else s in
  (s, id).

(** The state after [thinkos_init(opt)] and what it returns. *)
Definition thinkos_init (opt : Z) (s : kernel) : kernel * Z :=
  let '(s, thread_id) := s |> __thinkos_reset |> __thinkos_idle_init |> __thinkos_init_main opt in
  if thread_id <? 0 then (s, thread_id) else (s, thread_id + 1).

(** Exception entry: the hardware and the entry sequence stack the caller's
    registers; [a] is the record's address. *)
Definition exception_entry (a : Z) (c : thinkos_context) (s : kernel) : kernel :=
  s |> set_frames (<[a := c]> (frames s)) |> set_psp a.

(** Memory before the kernel is initialised. *)
Definition power_on : kernel :=
  mk_kernel [] 0 0 [] [] [] 0 0 [] [] [] 0 0 [] [] 0 0 0 0 0 0 0 [] ∅ 0 false ∅ ∅ 0 false false
    (mk_console 0 false 0 0 0 (zeros 64) 0 0 (zeros 64)) ∅ false.
