(* ===== verification/Demo.v ===== *)
(** * Sample states

    Concrete states on which the properties of the components are evaluated:
    four threads created after start-up, each stopped in a system call whose
    record holds the arguments, then variations of it. *)

From stdpp Require Import base tactics numbers list gmap.
From Stdlib Require Import ZArith Lia.
From S2P Require Import Prelude CortexM State Kernel BmpAlloc Invariant Decide Init.

Definition boot : kernel := (thinkos_init 0 power_on).1.

(** A record with the given argument registers. *)
Definition call_record (a0 a1 a2 a3 : Z) : thinkos_context :=
  mk_context 0 0 0 0 0 0 0 0 a0 a1 a2 a3 0 addr_exit_stub 134220000 CM_EPSR_T.

(** The record of thread [th]. *)
Definition record_of (th : Z) : Z := 536875008 + 64 * th.

(** Threads 0 to 3 are allocated and ready; thread 0 runs. *)
Definition demo : kernel :=
  boot
    |> set_th_alloc 4294967055
    |> set_wq_lst (wr (wq_lst boot) THINKOS_WQ_READY 271)
    |> set_ctx [record_of 0; record_of 1; record_of 2; record_of 3; 0; 0; 0; 0; addr_idle_ctx; 0]
    |> set_frames
         (<[record_of 0 := call_record 0 0 0 0]> (<[record_of 1 := call_record 0 0 0 0]>
         (<[record_of 2 := call_record 0 0 0 0]> (<[record_of 3 := call_record 0 0 0 0]>
          (frames boot)))))
    |> set_psp (record_of 0).

(** The same with the argument registers of thread 0 set. *)
Definition demo_call (a0 a1 a2 a3 : Z) (s : kernel) : kernel :=
  exception_entry (record_of 0) (call_record a0 a1 a2 a3) s.

(** Thread [th] waits in queue [wq]. *)
Definition demo_wait (th wq : Z) (s : kernel) : kernel :=
  s |> set_wq_lst (wq_bit_wr (wq_bit_wr (wq_lst s) THINKOS_WQ_READY th false) wq th true)
    |> th_stat_store th (2 * wq).

(** Closes [kernel_ok s] for a concrete [s]. *)
Ltac kernel_ok_compute := apply kernel_okb_sound; vm_compute; reflexivity.

(** Splits [0 <= i < n] into its cases for a small constant [n]. *)
Ltac z_cases i :=
  match goal with
  | H : 0 <= i < ?n |- _ =>
      let rec go k :=
        lazymatch eval compute in (k =? n) with
        | true => exfalso; lia
        | false =>
            let k' := eval compute in (k + 1) in
            destruct (Z.eq_dec i k) as [->|?]; [ | go k' ]
        end in
      go 0
  end.
