(* ===== verification/Transitions.v ===== *)
(** * Transitions between thread situations

    The moves the handlers are composed of (block on a queue, wake up from a
    queue, wake every thread of a queue) keep the invariant of [Invariant].
    The tactics [ts] and [mem_simp] reduce a handler to these lemmas. *)

From stdpp Require Import base tactics numbers list gmap.
From Stdlib Require Import ZArith Lia.
From S2P Require Import Prelude CortexM State Kernel Invariant.

(** ** Tactics *)

Lemma len_bit_store w th v s : len (wq_lst (wq_bit_store w th v s)) = len (wq_lst s).
Proof. apply len_wq_bit_wr. Qed.

Lemma len_suspend th s : len (wq_lst (__thinkos_suspend th s)) = len (wq_lst s).
Proof. apply len_suspend_wq. Qed.

Lemma mem_ctx_r0_store th v s : mem (ctx_r0_store th v s) = mem s. Proof. done. Qed.
Lemma mem_arg_ret a v s : mem (arg_ret a v s) = mem s. Proof. done. Qed.
Lemma mem_th_stat_store th v s : mem (th_stat_store th v s) = mem s. Proof. done. Qed.
Lemma mem_clock_store th v s : mem (clock_store th v s) = mem s. Proof. done. Qed.
Lemma mem_ctx_store th v s : mem (ctx_store th v s) = mem s. Proof. done. Qed.
Lemma mem_defer s : mem (__thinkos_defer_sched s) = mem s. Proof. done. Qed.
Lemma mem_preempt s : mem (__thinkos_preempt s) = mem s. Proof. done. Qed.
Lemma mem_lock_store i v s : mem (lock_store i v s) = mem s. Proof. done. Qed.
Lemma mem_sem_val_store i v s : mem (sem_val_store i v s) = mem s. Proof. done. Qed.

Create Rewrite HintDb memdb.
#[export] Hint Rewrite mem_ctx_r0_store mem_arg_ret mem_th_stat_store mem_clock_store
  mem_ctx_store mem_defer mem_preempt mem_lock_store mem_sem_val_store : memdb.

(** The length of the queue list of a composed state. *)
Ltac len_wq :=
  kred; rewrite ?len_wq_bit_wr, ?len_suspend_wq, ?len_wr;
  (assumption || (try match goal with K : kernel_ok _ |- _ => rewrite (k_wq _ K) end; lia)).

(** Computes the membership of a thread after a sequence of stores. *)
Ltac mem_simp :=
  repeat (autorewrite with memdb;
          first [ rewrite mem_bit_store by (len_wq || lia)
                | rewrite mem_suspend_self by (len_wq || lia || assumption) ]);
  autorewrite with memdb.

(** Proves [thread_step th s s'] for a composition of stores on [th]. *)
Ltac ts :=
  lazymatch goal with
  | |- thread_step ?th ?s ?s => apply thread_step_refl
  | |- thread_step ?th ?s (?f ?x) =>
      apply (thread_step_trans th s x);
      [ ts
      | first [ apply thread_step_bit; lia
              | apply thread_step_stat
              | apply thread_step_suspend; lia
              | apply thread_step_frame; reflexivity ] ]
  end.

(** ** Waking a thread *)

Section thread.
Context (s : kernel) (K : kernel_ok s) (th : Z) (Hth : 0 <= th < THINKOS_THREADS_MAX).

Lemma len_stat : 0 <= th < len (th_stat s).
Proof using K Hth. rewrite (k_stat s K). lia. Qed.

(** [s'] takes the thread from queue [w], timed or not, to the ready queue. *)
Lemma wake_ok w s' :
  sync_wq w -> mem s th w = true -> thread_step th s s' ->
  th_alloc s' = th_alloc s -> rd (th_stat s') th = 0 ->
  (forall wq, mem s' th wq = if wq =? THINKOS_WQ_READY then true
     else if wq =? w then false else if wq =? THINKOS_WQ_CLOCK then false else mem s th wq) ->
  kernel_ok s'.
Proof using K Hth.
  intros Hw Hm T Hal Hst Hmem. pose proof (k_threads s K th Hth) as Hok.
  destruct (ok_in_sync _ _ _ _ w Hok Hw Hm) as (tm & _ & Ha & Hiw & Hall).
  apply (kernel_ok_step' th s); try done. rewrite Hst, Hal, Ha.
  apply T_ready. intros wq. rewrite Hmem, Hall.
  destruct (Z.eqb_spec wq 0); [done|]. destruct (wq =? w); [done|].
  destruct (wq =? 2); [done|]. by rewrite andb_false_r.
Qed.

Lemma wakeup_ok w :
  sync_wq w -> mem s th w = true -> kernel_ok (__thinkos_wakeup w th s).
Proof using K Hth.
  intros Hw Hm. pose proof len_stat. unfold sync_wq in *. unfold __thinkos_wakeup.
  apply (wake_ok w); try done; [ts|kred; by rewrite rd_wr_eq|].
  intros wq. mem_simp. rewrite Z.eqb_refl, !andb_true_r, (Z.eqb_sym wq 0), (Z.eqb_sym wq w),
    (Z.eqb_sym wq 2). destruct (Z.eqb_spec 0 wq), (Z.eqb_spec w wq), (Z.eqb_spec 2 wq); done || lia.
Qed.

Lemma wakeup_return_ok w v :
  sync_wq w -> mem s th w = true -> kernel_ok (__thinkos_wakeup_return w th v s).
Proof using K Hth.
  intros Hw Hm. eapply kernel_ok_frame; [..|apply (wakeup_ok w Hw Hm)]; reflexivity.
Qed.

(** Out of the queue with an exclusive store, then the shared tail. *)
Lemma ready_return_ok w v :
  sync_wq w -> mem s th w = true -> kernel_ok (ready_return th v (wq_bit_store w th false s)).
Proof using K Hth.
  intros Hw Hm. pose proof len_stat. unfold sync_wq in *. unfold ready_return.
  apply (wake_ok w); try done; [ts|kred; by rewrite rd_wr_eq|].
  intros wq. mem_simp. rewrite Z.eqb_refl, !andb_true_r, (Z.eqb_sym wq 0), (Z.eqb_sym wq w),
    (Z.eqb_sym wq 2). destruct (Z.eqb_spec 0 wq), (Z.eqb_spec w wq), (Z.eqb_spec 2 wq); done || lia.
Qed.

(** ** Blocking a thread *)

(** The caller of a system call: ready and with no status. *)
Definition calling : Prop := mem s th THINKOS_WQ_READY = true /\ rd (th_stat s) th = 0.

Lemma calling_facts :
  calling -> Z.testbit (th_alloc s) th = true /\ irq_waiting (irq_th s) th = false /\
  forall wq, mem s th wq = (wq =? THINKOS_WQ_READY).
Proof using K Hth. intros [Hr Hst]. eapply ok_running; [by apply K|done|done]. Qed.

(** [s'] moves the caller from the ready queue to queue [w], timed or not. *)
Lemma block_ok w tm s' :
  sync_wq w -> timed_ok w tm -> calling -> thread_step th s s' -> th_alloc s' = th_alloc s ->
  rd (th_stat s') th = 2 * w + Z.b2z tm ->
  (forall wq, mem s' th wq = (wq =? w) || tm && (wq =? THINKOS_WQ_CLOCK)) ->
  kernel_ok s'.
Proof using K Hth.
  intros Hw Htm Hc T Hal Hst Hmem. destruct (calling_facts Hc) as (Ha & Hiw & Hall).
  apply (kernel_ok_step' th s); try done. rewrite Hst, Hal, Ha. by apply T_wait.
Qed.

Lemma wq_insert_suspend_ok w :
  sync_wq w -> calling -> kernel_ok (__thinkos_suspend th (__thinkos_wq_insert w th s)).
Proof using K Hth.
  intros Hw Hc. pose proof len_stat. destruct (calling_facts Hc) as (_ & _ & Hall).
  pose proof (stat_word w false Hw) as Hsw. simpl in Hsw. rewrite Z.add_0_r in Hsw.
  unfold sync_wq in *. unfold __thinkos_wq_insert.
  apply (block_ok w false); try done; [ts|kred; by rewrite rd_wr_eq|].
  assert (mem (th_stat_store th (Z.shiftl w 1) (wq_bit_store w th true s)) th 1 = false).
  { mem_simp. rewrite Hall. destruct (Z.eqb_spec w 1); [lia|done]. }
  intros wq. mem_simp. rewrite Hall, Z.eqb_refl, andb_true_r, (Z.eqb_sym w).
  by destruct (Z.eqb_spec wq 0), (Z.eqb_spec wq w); try lia.
Qed.

Lemma tmdwq_insert_suspend_ok w ms :
  sync_wq w -> timed_ok w true -> calling -> kernel_ok (__thinkos_suspend th (__thinkos_tmdwq_insert w th ms s)).
Proof using K Hth.
  intros Hw Htm Hc. pose proof len_stat. destruct (calling_facts Hc) as (_ & _ & Hall).
  pose proof (stat_word w true Hw) as Hsw. simpl in Hsw.
  unfold sync_wq in *. unfold __thinkos_tmdwq_insert.
  apply (block_ok w true); try done; [ts|kred; by rewrite rd_wr_eq|].
  set (s1 := th_stat_store _ _ _).
  assert (mem s1 th 1 = false).
  { unfold s1. mem_simp. rewrite Hall. destruct (Z.eqb_spec w 1); [lia|done]. }
  assert (len (wq_lst s1) = 59) by (unfold s1; len_wq).
  intros wq. rewrite mem_suspend_self by (done || lia). unfold s1.
  mem_simp. rewrite Hall, Z.eqb_refl, !andb_true_r, (Z.eqb_sym w), (Z.eqb_sym 2).
  destruct (Z.eqb_spec wq 0), (Z.eqb_spec wq w), (Z.eqb_spec wq 2); simpl; try lia; done.
Qed.

(** The order of the waits that guard against interrupts: suspend, set the
    status, then enter the queue. *)
Lemma suspend_queue_ok w :
  sync_wq w -> calling ->
  kernel_ok (wq_bit_store w th true (th_stat_store th (Z.shiftl w 1) (__thinkos_suspend th s))).
Proof using K Hth.
  intros Hw Hc. pose proof len_stat. destruct (calling_facts Hc) as (_ & _ & Hall).
  pose proof (stat_word w false Hw) as Hsw. simpl in Hsw. rewrite Z.add_0_r in Hsw.
  unfold sync_wq in *. pose proof (Hall 1) as H1.
  apply (block_ok w false); try done; [ts|kred; by rewrite rd_wr_eq|].
  intros wq. mem_simp. rewrite Hall, Z.eqb_refl, andb_true_r, (Z.eqb_sym w).
  destruct (Z.eqb_spec wq 0), (Z.eqb_spec wq w); done || lia.
Qed.

Lemma suspend_tqueue_ok w :
  sync_wq w -> timed_ok w true -> calling ->
  kernel_ok (wq_bit_store THINKOS_WQ_CLOCK th true (wq_bit_store w th true
    (th_stat_store th (Z.shiftl w 1 + 1) (__thinkos_suspend th s)))).
Proof using K Hth.
  intros Hw Htm Hc. pose proof len_stat. destruct (calling_facts Hc) as (_ & _ & Hall).
  pose proof (stat_word w true Hw) as Hsw. simpl in Hsw.
  unfold sync_wq in *. pose proof (Hall 1) as H1.
  apply (block_ok w true); try done; [ts|kred; by rewrite rd_wr_eq|].
  intros wq. mem_simp. rewrite Hall, Z.eqb_refl, !andb_true_r, (Z.eqb_sym w), (Z.eqb_sym 2).
  destruct (Z.eqb_spec wq 0), (Z.eqb_spec wq w), (Z.eqb_spec wq 2); done || lia.
Qed.

End thread.

(** ** Emptying a queue *)

(** The threads of a queue are user threads. *)
Lemma sync_wq_thread s wq th :
  kernel_ok s -> sync_wq wq -> mem s th wq = true -> 0 <= th < THINKOS_THREADS_MAX.
Proof. intros K Hw Hm. apply (k_bits s K) in Hm. unfold sync_wq in Hw. lia. Qed.

Lemma sync_head s wq :
  kernel_ok s -> sync_wq wq -> __thinkos_wq_head wq s <> THINKOS_THREAD_NULL ->
  0 <= __thinkos_wq_head wq s < THINKOS_THREADS_MAX /\ mem s (__thinkos_wq_head wq s) wq = true.
Proof.
  intros K Hw Hn. destruct (wq_head_spec wq s Hn) as [_ Hm].
  split; [|done]. by eapply sync_wq_thread.
Qed.

(** Properties kept by every wake-up hold after the loop. *)
Lemma wq_drain_ind (P : kernel -> Prop) wake wq n s :
  (forall s th, P s -> mem s th wq = true -> th = __thinkos_wq_head wq s -> P (wake th s)) ->
  P s -> P (wq_drain n wake wq s).
Proof.
  intros Hstep. revert s. induction n as [|n IH]; intros s HP; simpl; [done|].
  destruct (Z.eqb_spec (__thinkos_wq_head wq s) 32) as [|Hn]; [done|].
  apply IH, Hstep; [done| |done]. by apply wq_head_spec.
Qed.

(** The loop ends with an empty queue. *)
Lemma wq_drain_empty wake wq s (fuel : nat) :
  (32 <= fuel)%nat ->
  (forall s th th', 0 <= th < 32 ->
     len (wq_lst s) = THINKOS_WQ_LST_END -> mem (wake th s) th' wq =
     if th =? th' then false else mem s th' wq) ->
  (forall s th, len (wq_lst s) = THINKOS_WQ_LST_END ->
     len (wq_lst (wake th s)) = THINKOS_WQ_LST_END) ->
  len (wq_lst s) = THINKOS_WQ_LST_END ->
  forall th, 0 <= th < 32 -> mem (wq_drain fuel wake wq s) th wq = false.
Proof.
  intros Hf Hwake Hlen Hl.
  enough (H : forall (n : nat) k s, len (wq_lst s) = 59 -> 32 <= k + Z.of_nat n ->
            (forall th, 0 <= th < k -> mem s th wq = false) ->
            forall th, 0 <= th < 32 -> mem (wq_drain n wake wq s) th wq = false).
  { intros th. apply (H fuel 0); [done|lia|lia]. }
  clear s Hl. induction n as [|n IH]; intros k s Hl Hk Hlow th Hth; simpl.
  - apply Hlow. lia.
  - destruct (Z.eqb_spec (__thinkos_wq_head wq s) 32) as [E|Hn].
    + by apply wq_head_null.
    + destruct (wq_head_spec wq s Hn) as [Hr Hm].
      assert (k <= __thinkos_wq_head wq s).
      { destruct (decide (k <= __thinkos_wq_head wq s)); [done|].
        assert (mem s (__thinkos_wq_head wq s) wq = false) as E; [apply Hlow; lia|].
        unfold mem in E. by rewrite E in Hm. }
      apply (IH (k + 1)); [by apply Hlen|lia| |done].
      intros th' Hth'. rewrite Hwake by done.
      destruct (Z.eqb_spec (__thinkos_wq_head wq s) th'); [done|].
      destruct (mem s th' wq) eqn:E; [|done].
      pose proof (wq_head_least wq s th' ltac:(lia) E). lia.
Qed.

(** ** Queues as sets, and what a caller observes *)

(** The threads in queue [wq]. *)
Definition wq_set (s : kernel) (wq : Z) : gset Z :=
  list_to_set (filter (fun th => mem s th wq = true) (seqZ 0 THINKOS_THREADS_MAX)).

Lemma elem_of_wq_set s wq th :
  th ∈ wq_set s wq <-> 0 <= th < THINKOS_THREADS_MAX /\ mem s th wq = true.
Proof.
  unfold wq_set. rewrite elem_of_list_to_set, list_elem_of_filter, elem_of_seqZ. naive_solver lia.
Qed.

Lemma wq_set_ext s s' wq : (forall th, mem s' th wq = mem s th wq) -> wq_set s' wq = wq_set s wq.
Proof. intros H. apply set_eq. intros th. by rewrite !elem_of_wq_set, H. Qed.

Lemma wq_set_add s s' wq th :
  0 <= th < THINKOS_THREADS_MAX ->
  (forall th', mem s' th' wq = if th =? th' then true else mem s th' wq) ->
  wq_set s' wq = {[th]} ∪ wq_set s wq.
Proof.
  intros Hth H. apply set_eq. intros th'.
  rewrite elem_of_union, elem_of_singleton, !elem_of_wq_set, H.
  destruct (Z.eqb_spec th th') as [->|]; naive_solver.
Qed.

Lemma wq_set_del s s' wq th :
  (forall th', mem s' th' wq = if th =? th' then false else mem s th' wq) ->
  wq_set s' wq = wq_set s wq ∖ {[th]}.
Proof.
  intros H. apply set_eq. intros th'.
  rewrite elem_of_difference, elem_of_singleton, !elem_of_wq_set, H.
  destruct (Z.eqb_spec th th') as [->|]; naive_solver.
Qed.

Lemma wq_set_empty s wq :
  kernel_ok s -> sync_wq wq -> __thinkos_wq_head wq s = THINKOS_THREAD_NULL <-> wq_set s wq = ∅.
Proof.
  intros K Hw. rewrite wq_head_null. split.
  - intros H. apply set_eq. intros th. rewrite elem_of_wq_set. split; [|set_solver].
    intros [Hr Hm]. unfold mem in Hm. rewrite H in Hm; [done|lia].
  - intros H th Hth. destruct (inq (wq_lst s) wq th) eqn:E; [|done].
    pose proof (sync_wq_thread s wq th K Hw E).
    assert (th ∈ wq_set s wq) by (apply elem_of_wq_set; done). set_solver.
Qed.

(** The head of a queue is its least element. *)
Lemma wq_set_head s wq :
  kernel_ok s -> sync_wq wq -> __thinkos_wq_head wq s <> THINKOS_THREAD_NULL ->
  __thinkos_wq_head wq s ∈ wq_set s wq /\
  forall th, th ∈ wq_set s wq -> __thinkos_wq_head wq s <= th.
Proof.
  intros K Hw Hn. destruct (sync_head s wq K Hw Hn) as [Hr Hm].
  split; [by apply elem_of_wq_set|]. intros th [Hth Hin]%elem_of_wq_set.
  apply wq_head_least; [lia|done].
Qed.

(** The result of a system call as its caller sees it: it returns with a
    value and goes on, or it waits, timed or not, with the scheduler called and,
    if timed, with the time-out error as the value it returns by default. *)
Inductive outcome := Ret (v : Z) | Block (timed : bool).

Inductive observes (arg self wq : Z) (s : kernel) : outcome -> Prop :=
  | obs_ret v : arg_0 arg s = u32 v -> calling s self -> observes arg self wq s (Ret v)
  | obs_block tm :
      (forall wq', mem s self wq' = (wq' =? wq) || tm && (wq' =? THINKOS_WQ_CLOCK)) ->
      rd (th_stat s) self = 2 * wq + Z.b2z tm -> pendsv s = true ->
      (tm = true -> arg_0 arg s = u32 THINKOS_ETIMEDOUT) ->
      observes arg self wq s (Block tm).

(** What a thread that was waiting observes when it is woken with [v]. *)
Definition woken (s s' : kernel) (th v : Z) : Prop :=
  calling s' th /\ (live (rd (ctx s) th) s -> arg_0 (rd (ctx s) th) s' = u32 v).

(** In a consistent state, membership in the queue says it all. *)
Lemma observes_block s arg self w tm :
  kernel_ok s -> 0 <= self < THINKOS_THREADS_MAX -> sync_wq w ->
  mem s self w = true -> mem s self THINKOS_WQ_CLOCK = tm -> pendsv s = true ->
  (tm = true -> arg_0 arg s = u32 THINKOS_ETIMEDOUT) -> observes arg self w s (Block tm).
Proof.
  intros K Hs Hw Hm Ht Hp Hr.
  destruct (ok_in_sync _ _ _ _ w (k_threads s K self Hs) Hw Hm) as (tm' & Hst & _ & _ & Hall).
  rewrite Hall in Ht. unfold sync_wq in Hw. destruct (Z.eqb_spec 2 w); [lia|].
  rewrite andb_true_r in Ht. simpl in Ht. subst tm'. by constructor.
Qed.

Lemma calling_frame s s' th :
  wq_lst s' = wq_lst s -> th_stat s' = th_stat s -> calling s th -> calling s' th.
Proof. unfold calling, mem. by intros -> ->. Qed.

(** What the two blocking sequences do to the queues. *)
Section blocked.
Context (s : kernel) (K : kernel_ok s) (th : Z) (Hth : 0 <= th < THINKOS_THREADS_MAX).
Context (w : Z) (Hw : sync_wq w).

Lemma mem_insert_suspend th' wq :
  2 <= wq ->
  mem (__thinkos_suspend th (__thinkos_wq_insert w th s)) th' wq =
    if (w =? wq) && (th =? th') then true else mem s th' wq.
Proof using K Hth Hw.
  unfold sync_wq in *. intros Hwq. unfold mem, __thinkos_wq_insert. kred.
  rewrite inq_suspend_other, inq_bit_wr by (rewrite ?len_wq_bit_wr, ?(k_wq s K); lia).
  done.
Qed.

Lemma mem_tmd_insert_suspend ms th' wq :
  2 <= wq ->
  mem (__thinkos_suspend th (__thinkos_tmdwq_insert w th ms s)) th' wq =
    if ((w =? wq) || (THINKOS_WQ_CLOCK =? wq)) && (th =? th') then true else mem s th' wq.
Proof using K Hth Hw.
  unfold sync_wq in *. intros Hwq. unfold mem, __thinkos_tmdwq_insert. kred.
  rewrite inq_suspend_other, !inq_bit_wr by (rewrite ?len_wq_bit_wr, ?(k_wq s K); lia).
  by destruct (Z.eqb_spec 2 wq), (Z.eqb_spec w wq), (th =? th').
Qed.

Lemma mem_suspend_queue v th' wq :
  2 <= wq ->
  mem (wq_bit_store w th true (th_stat_store th v (__thinkos_suspend th s))) th' wq =
    if (w =? wq) && (th =? th') then true else mem s th' wq.
Proof using K Hth Hw.
  unfold sync_wq in *. intros Hwq. unfold mem. kred.
  rewrite inq_bit_wr, inq_suspend_other by (rewrite ?len_suspend_wq, ?(k_wq s K); lia).
  done.
Qed.

Lemma mem_suspend_tqueue v th' wq :
  2 <= wq ->
  mem (wq_bit_store THINKOS_WQ_CLOCK th true (wq_bit_store w th true
    (th_stat_store th v (__thinkos_suspend th s)))) th' wq =
    if ((w =? wq) || (THINKOS_WQ_CLOCK =? wq)) && (th =? th') then true else mem s th' wq.
Proof using K Hth Hw.
  unfold sync_wq in *. intros Hwq. unfold mem. kred.
  rewrite !inq_bit_wr, inq_suspend_other
    by (rewrite ?len_wq_bit_wr, ?len_suspend_wq, ?(k_wq s K); lia).
  by destruct (Z.eqb_spec 2 wq), (Z.eqb_spec w wq), (th =? th').
Qed.

Lemma mem_ready_return v th' wq :
  2 < wq ->
  mem (ready_return th v (wq_bit_store w th false s)) th' wq =
    if (w =? wq) && (th =? th') then false else mem s th' wq.
Proof using K Hth Hw.
  unfold sync_wq in *. intros Hwq. unfold ready_return. mem_simp.
  destruct (Z.eqb_spec 2 wq); [lia|]. destruct (Z.eqb_spec 0 wq); [lia|done].
Qed.

Lemma ready_return_woken v :
  mem s th w = true -> woken s (ready_return th v (wq_bit_store w th false s)) th v.
Proof using K Hth Hw.
  intros Hm. unfold sync_wq in *. split; [split|].
  - unfold ready_return. mem_simp. by rewrite Z.eqb_refl, !andb_true_r.
  - kred. rewrite rd_wr_eq; [done|]. by apply len_stat.
  - intros Hl. by apply (arg_0_stored _ v s Hl).
Qed.

Lemma ready_return_calling v th' :
  calling s th' -> th' <> th -> calling (ready_return th v (wq_bit_store w th false s)) th'.
Proof using K Hth Hw.
  intros [Hr Hst] Hne. unfold sync_wq in *. split.
  - unfold ready_return. mem_simp. destruct (Z.eqb_spec th th'); [lia|].
    by rewrite !andb_false_r.
  - kred. by rewrite rd_wr_ne by done.
Qed.

Lemma mem_wakeup th' wq :
  2 < wq ->
  mem (__thinkos_wakeup w th s) th' wq =
    if (w =? wq) && (th =? th') then false else mem s th' wq.
Proof using K Hth Hw.
  unfold sync_wq in *. intros Hwq. unfold __thinkos_wakeup. mem_simp.
  destruct (Z.eqb_spec 2 wq); [lia|]. destruct (Z.eqb_spec 0 wq); [lia|done].
Qed.

(** The thread taken out of the queue observes the value. *)
Lemma wakeup_woken :
  mem s th w = true -> woken s (__thinkos_wakeup w th s) th 0.
Proof using K Hth Hw.
  intros Hm. unfold sync_wq in *. split; [split|].
  - unfold __thinkos_wakeup. mem_simp. rewrite Z.eqb_refl, !andb_true_r.
    destruct (Z.eqb_spec w 0); [lia|done].
  - kred. rewrite rd_wr_eq; [done|]. by apply len_stat.
  - intros [c Hl]. unfold arg_0, context_at. kred. by rewrite lookup_alter_eq, Hl.
Qed.

Lemma wakeup_calling th' : calling s th' -> th' <> th -> calling (__thinkos_wakeup w th s) th'.
Proof using K Hth Hw.
  intros [Hr Hst] Hne. unfold sync_wq in *. split.
  - unfold __thinkos_wakeup. mem_simp. destruct (Z.eqb_spec th th'); [lia|].
    by rewrite !andb_false_r.
  - kred. by rewrite rd_wr_ne by done.
Qed.
End blocked.

(** ** Waking every thread of a queue *)

(** An operation that takes a thread out of [wq] and makes its call return
    [v]: what [wq_drain] needs of the body of the loop. *)
Class Waker (wq v : Z) (wake : Z -> kernel -> kernel) : Prop := {
  wk_wq : forall th s, wq_lst (wake th s) = wq_lst (__thinkos_wakeup wq th s);
  wk_stat : forall th s, th_stat (wake th s) = th_stat (__thinkos_wakeup wq th s);
  wk_alloc : forall th s, th_alloc (wake th s) = th_alloc s;
  wk_irq : forall th s, irq_th (wake th s) = irq_th s;
  wk_en : forall th s, irq_en (wake th s) = irq_en s;
  wk_ctx : forall th s, ctx (wake th s) = ctx s;
  wk_ret : forall th s a, live a s -> live a (wake th s) /\
    arg_0 a (wake th s) = if a =? rd (ctx s) th then u32 v else arg_0 a s
}.

Lemma ret_alter a b v s s' :
  live a s -> frames s' = alter (set_r0 (u32 v)) b (frames s) ->
  live a s' /\ arg_0 a s' = if a =? b then u32 v else arg_0 a s.
Proof.
  intros Hl E. split; [unfold live; rewrite E; by apply lookup_alter_is_Some|].
  destruct (Z.eqb_spec a b) as [->|Hne]; [by apply (arg_0_stored _ v s Hl)|].
  unfold arg_0, context_at. by rewrite E, lookup_alter_ne by done.
Qed.

#[global] Instance wakeup_waker wq : Waker wq 0 (__thinkos_wakeup wq).
Proof. split; intros; try (by kred). apply ret_alter; [done|by kred]. Qed.

#[global] Instance wakeup_return_waker wq v :
  Waker wq v (fun th => __thinkos_wakeup_return wq th v).
Proof. split; intros; try (by kred). apply ret_alter; [done|by kred]. Qed.

Section drain.
Context (wq v : Z) (wake : Z -> kernel -> kernel) {W : Waker wq v wake} (Hwq : sync_wq wq).

Lemma waker_mem s th th' w :
  len (wq_lst s) = THINKOS_WQ_LST_END -> 0 <= th -> 2 < w ->
  mem (wake th s) th' w = if (wq =? w) && (th =? th') then false else mem s th' w.
Proof using W Hwq.
  intros Hl Hth Hw. unfold mem, sync_wq in *. rewrite wk_wq. kred.
  rewrite !inq_bit_wr by (rewrite ?len_wq_bit_wr; lia).
  destruct (Z.eqb_spec 2 w); [lia|]. by destruct (Z.eqb_spec 0 w); [lia|].
Qed.

Lemma waker_ok s th :
  kernel_ok s -> 0 <= th < THINKOS_THREADS_MAX -> mem s th wq = true -> kernel_ok (wake th s).
Proof using W Hwq.
  intros K Hth Hm. apply (kernel_ok_frame (__thinkos_wakeup wq th s));
    [apply wk_wq|apply wk_stat|by rewrite wk_alloc; kred|by rewrite wk_irq; kred
    |by rewrite wk_en; kred|by apply wakeup_ok].
Qed.

Lemma waker_calling s th th' :
  kernel_ok s -> 0 <= th < THINKOS_THREADS_MAX -> mem s th wq = true ->
  calling s th' \/ th' = th -> calling (wake th s) th'.
Proof using W Hwq.
  intros K Hth Hm H. apply (calling_frame (__thinkos_wakeup wq th s)); [apply wk_wq|apply wk_stat|].
  destruct (Z.eq_dec th' th) as [->|Hne]; [by apply wakeup_woken|].
  destruct H as [H|H]; [|done]. by apply wakeup_calling.
Qed.

Context (s : kernel) (K : kernel_ok s).

(** Every thread of the queue is woken with [v]; nothing else changes. *)
Definition drained (s' : kernel) : Prop :=
  kernel_ok s' /\ wq_set s' wq = ∅ /\
  (forall th, th ∈ wq_set s wq -> woken s s' th v) /\
  (forall w, sync_wq w -> w <> wq -> wq_set s' w = wq_set s w) /\
  (forall th, calling s th -> calling s' th).

(** A field the body of the loop keeps, the loop keeps. *)
Lemma wq_drain_field {A} (f : kernel -> A) n :
  (forall th s1, f (wake th s1) = f s1) -> forall s1, f (wq_drain n wake wq s1) = f s1.
Proof using .
  intros H. induction n as [|n IH]; intros s1; [done|]. cbn [wq_drain].
  destruct (_ =? _); [done|]. by rewrite IH, H.
Qed.

(** The loop unrolled once, as the handlers have it. *)
Lemma wq_drain_first (n : nat) :
  __thinkos_wq_head wq s <> THINKOS_THREAD_NULL ->
  wq_drain n wake wq (wake (__thinkos_wq_head wq s) s) = wq_drain (S n) wake wq s.
Proof using . intros H. cbn [wq_drain]. by destruct (Z.eqb_spec (__thinkos_wq_head wq s) 32). Qed.

Lemma wq_drain_spec fuel : (32 <= fuel)%nat -> drained (wq_drain fuel wake wq s).
Proof using W Hwq K.
  intros Hf.
  set (P := fun s1 => kernel_ok s1 /\ ctx s1 = ctx s /\
    (forall a, live a s -> live a s1) /\
    (forall th, th ∈ wq_set s wq -> th ∈ wq_set s1 wq \/ woken s s1 th v) /\
    (forall w, sync_wq w -> w <> wq -> wq_set s1 w = wq_set s w) /\
    (forall th, calling s th -> calling s1 th)).
  assert (HP : P (wq_drain fuel wake wq s)).
  { apply wq_drain_ind; [|unfold P; split_and!; auto].
    intros s1 th (K1 & Hc & Hl & Hw & Ho & Hca) Hm _.
    pose proof (sync_wq_thread s1 wq th K1 Hwq Hm) as Hth. pose proof (k_wq s1 K1) as Hlen.
    split_and!; [by apply waker_ok|by rewrite wk_ctx| | | |].
    - intros a Ha. by apply wk_ret, Hl.
    - intros th' Hin. destruct (Z.eq_dec th' th) as [->|Hne].
      + right. split; [apply waker_calling; auto|]. intros Ha.
        destruct (wk_ret th s1 _ (Hl _ Ha)) as [_ ->]. by rewrite Hc, Z.eqb_refl.
      + destruct (Hw th' Hin) as [H|[H1 H2]].
        * left. apply elem_of_wq_set in H as [Hr' H]. apply elem_of_wq_set. split; [done|].
          rewrite waker_mem by (unfold sync_wq in Hwq; lia).
          destruct (Z.eqb_spec th th'); [lia|]. by rewrite andb_false_r.
        * right. split; [apply waker_calling; auto|]. intros Ha.
          destruct (wk_ret th s1 _ (Hl _ Ha)) as [_ ->]. destruct (_ =? _); auto.
    - intros w Hsw Hne. rewrite <- (Ho w Hsw Hne). apply wq_set_ext. intros th'.
      rewrite waker_mem by (unfold sync_wq in Hsw; lia). by destruct (Z.eqb_spec wq w).
    - intros th' H. apply waker_calling; auto. }
  destruct HP as (K' & _ & _ & Hw & Ho & Hca).
  assert (He : wq_set (wq_drain fuel wake wq s) wq = ∅).
  { apply wq_set_empty; [exact K'|exact Hwq|]. apply wq_head_null. apply wq_drain_empty; [exact Hf|..].
    - intros s1 th th' Hth Hlen. rewrite waker_mem by (unfold sync_wq in Hwq; lia).
      by rewrite Z.eqb_refl.
    - intros s1 th Hlen. rewrite wk_wq. kred. by rewrite !len_wq_bit_wr.
    - apply K. }
  split; [exact K'|]. split; [exact He|]. split; [|split; [exact Ho|exact Hca]].
  intros th Hin. destruct (Hw th Hin) as [H|H]; [|exact H]. rewrite He in H. exfalso. exact (not_elem_of_empty th H).
Qed.
End drain.

(** ** Tactics for the handlers *)

(** Stores outside the queues, one at a time. *)
Lemma ok_defer s : kernel_ok s -> kernel_ok (__thinkos_defer_sched s).
Proof. intros K. kframe. Qed.
Lemma ok_preempt s : kernel_ok s -> kernel_ok (__thinkos_preempt s).
Proof. intros K. kframe. Qed.
Lemma ok_arg_ret a v s : kernel_ok s -> kernel_ok (arg_ret a v s).
Proof. intros K. kframe. Qed.
Lemma ok_ctx_r0_store th v s : kernel_ok s -> kernel_ok (ctx_r0_store th v s).
Proof. intros K. kframe. Qed.

Ltac kpeel :=
  repeat lazymatch goal with
         | |- kernel_ok (__thinkos_defer_sched _) => apply ok_defer
         | |- kernel_ok (__thinkos_preempt _) => apply ok_preempt
         | |- kernel_ok (arg_ret _ _ _) => apply ok_arg_ret
         | |- kernel_ok (ctx_r0_store _ _ _) => apply ok_ctx_r0_store
         end; try assumption.

(** Splits the guards of a handler; closes the branches that only return. *)
Ltac guards :=
  repeat (match goal with
          | |- kernel_ok (if ?a =? ?b then _ else _) => destruct (Z.eqb_spec a b)
          | |- kernel_ok (if ?a <? ?b then _ else _) => destruct (Z.ltb_spec a b)
          | |- kernel_ok (if ?a <=? ?b then _ else _) => destruct (Z.leb_spec a b)
          | |- kernel_ok (if ?b then _ else _) => destruct b eqn:?
          end; try kframe).

(** The handle read from the call's record, once its class is checked. *)
Ltac handle :=
  match goal with
  | H : u32 (arg_0 ?a ?s - ?base) < ?max |- _ =>
      let Hr := fresh "Hr" in let Hi := fresh "Hi" in
      destruct (handle_range (arg_0 a s) base max (arg_0_range a s)) as [Hr Hi];
      [lia|lia|exact H|]
  end.
