(* ===== verification/Mutex.v ===== *)
(** * Mutexes

    The handlers of src/sdk/libthinkos/thinkos_mutex.c, the abstract mutex
    they implement (an owner and a set of waiters, with direct hand-off to the
    lowest numbered waiter), and the refinement between the two. *)

From stdpp Require Import base tactics numbers list gmap.
From Stdlib Require Import ZArith Lia.
From S2P Require Import Prelude CortexM State Kernel BmpAlloc Invariant Decide Init Demo Transitions.

(** ** Code *)

Definition thinkos_mutex_alloc_svc (arg : Z) (s : kernel) : kernel :=
  let '(bmp, idx) := bmp_alloc_word (mutex_alloc s) THINKOS_MUTEX_MAX in
  let s := set_mutex_alloc bmp s in
  if 0 <=? idx then
    s |> lock_store idx (-1)
      |> arg_ret arg (idx + THINKOS_MUTEX_BASE)
  else s |> arg_ret arg idx.

Definition thinkos_mutex_free_svc (arg : Z) (s : kernel) : kernel :=
  let wq := arg_0 arg s in
  let idx := u32 (wq - THINKOS_MUTEX_BASE) in
  if THINKOS_MUTEX_MAX <=? idx then s |> arg_ret arg THINKOS_EINVAL
  else set_mutex_alloc (__bit_mem_wr (mutex_alloc s) idx false) s.

Definition thinkos_mutex_lock_svc (arg self : Z) (s : kernel) : kernel :=
  let wq := arg_0 arg s in
  let mutex := u32 (wq - THINKOS_MUTEX_BASE) in
  if THINKOS_MUTEX_MAX <=? mutex then s |> arg_ret arg THINKOS_EINVAL
  else if negb (__bit_mem_rd (mutex_alloc s) mutex) then s |> arg_ret arg THINKOS_EINVAL
  else if rd (lock s) mutex =? -1 then
    s |> lock_store mutex self
      |> arg_ret arg 0
  else if rd (lock s) mutex =? self then s |> arg_ret arg THINKOS_EDEADLK
  else
    s |> __thinkos_wq_insert wq self
      |> arg_ret arg 0
      |> __thinkos_suspend self
      |> __thinkos_defer_sched.

Definition thinkos_mutex_trylock_svc (arg self : Z) (s : kernel) : kernel :=
  let wq := arg_0 arg s in
  let mutex := u32 (wq - THINKOS_MUTEX_BASE) in
  if THINKOS_MUTEX_MAX <=? mutex then s |> arg_ret arg THINKOS_EINVAL
  else if negb (__bit_mem_rd (mutex_alloc s) mutex) then s |> arg_ret arg THINKOS_EINVAL
  else if rd (lock s) mutex =? -1 then
    s |> lock_store mutex self
      |> arg_ret arg 0
  else if rd (lock s) mutex =? self then s |> arg_ret arg THINKOS_EDEADLK
  else s |> arg_ret arg THINKOS_EAGAIN.

Definition thinkos_mutex_timedlock_svc (arg self : Z) (s : kernel) : kernel :=
  let wq := arg_0 arg s in
  let ms := arg_1 arg s in
  let mutex := u32 (wq - THINKOS_MUTEX_BASE) in
  if THINKOS_MUTEX_MAX <=? mutex then s |> arg_ret arg THINKOS_EINVAL
  else if negb (__bit_mem_rd (mutex_alloc s) mutex) then s |> arg_ret arg THINKOS_EINVAL
  else if rd (lock s) mutex =? -1 then
    s |> lock_store mutex self
      |> arg_ret arg 0
  else if rd (lock s) mutex =? self then s |> arg_ret arg THINKOS_EDEADLK
  else
    s |> __thinkos_tmdwq_insert wq self ms
      |> arg_ret arg THINKOS_ETIMEDOUT
      |> __thinkos_suspend self
      |> __thinkos_defer_sched.

Definition thinkos_mutex_unlock_svc (arg self : Z) (s : kernel) : kernel :=
  let wq := arg_0 arg s in
  let mutex := u32 (wq - THINKOS_MUTEX_BASE) in
  if THINKOS_MUTEX_MAX <=? mutex then s |> arg_ret arg THINKOS_EINVAL
  else if negb (__bit_mem_rd (mutex_alloc s) mutex) then s |> arg_ret arg THINKOS_EINVAL
  else if negb (rd (lock s) mutex =? self) then s |> arg_ret arg THINKOS_EPERM
  else
    let s := s |> arg_ret arg 0 in
    let th := __thinkos_wq_head wq s in
    if th =? THINKOS_THREAD_NULL then s |> lock_store mutex (-1)
    else
      s |> lock_store mutex th
        |> __thinkos_wakeup wq th
        |> __thinkos_defer_sched.

(** ** Abstract mutex *)

Record mutex_abs := mk_mutex { owner : option Z; waiters : gset Z }.

Inductive mutex_op := Lock (self : Z) | TryLock (self : Z) | TimedLock (self : Z) | Unlock (self : Z).

Inductive mutex_step : mutex_op -> mutex_abs -> mutex_abs -> outcome -> Prop :=
  | lock_free op self W :
      op = Lock self \/ op = TryLock self \/ op = TimedLock self ->
      mutex_step op (mk_mutex None W) (mk_mutex (Some self) W) (Ret THINKOS_OK)
  | lock_own op self W :
      op = Lock self \/ op = TryLock self \/ op = TimedLock self ->
      mutex_step op (mk_mutex (Some self) W) (mk_mutex (Some self) W) (Ret THINKOS_EDEADLK)
  | lock_busy self o W : o <> self ->
      mutex_step (Lock self) (mk_mutex (Some o) W) (mk_mutex (Some o) ({[self]} ∪ W)) (Block false)
  | timedlock_busy self o W : o <> self ->
      mutex_step (TimedLock self) (mk_mutex (Some o) W) (mk_mutex (Some o) ({[self]} ∪ W)) (Block true)
  | trylock_busy self o W : o <> self ->
      mutex_step (TryLock self) (mk_mutex (Some o) W) (mk_mutex (Some o) W) (Ret THINKOS_EAGAIN)
  | unlock_other self o W : o <> Some self ->
      mutex_step (Unlock self) (mk_mutex o W) (mk_mutex o W) (Ret THINKOS_EPERM)
  | unlock_last self :
      mutex_step (Unlock self) (mk_mutex (Some self) ∅) (mk_mutex None ∅) (Ret THINKOS_OK)
  | unlock_handoff self W th : th ∈ W -> (forall th', th' ∈ W -> th <= th') ->
      mutex_step (Unlock self) (mk_mutex (Some self) W) (mk_mutex (Some th) (W ∖ {[th]}))
        (Ret THINKOS_OK).

(** The abstraction of mutex [m]. *)
Definition mutex_of (s : kernel) (m : Z) : mutex_abs :=
  mk_mutex (if rd (lock s) m =? -1 then None else Some (rd (lock s) m))
    (wq_set s (THINKOS_MUTEX_BASE + m)).

(** Owners are thread numbers; a free mutex that is allocated has no waiter. *)
Definition lock_ok (s : kernel) : Prop :=
  len (lock s) = THINKOS_MUTEX_MAX /\
  forall m, 0 <= m < THINKOS_MUTEX_MAX ->
    -1 <= rd (lock s) m < THINKOS_THREADS_MAX /\
    (rd (lock s) m = -1 -> wq_set s (THINKOS_MUTEX_BASE + m) = ∅).

(** ** Queue consistency *)

Section ok.
Context (s : kernel) (K : kernel_ok s) (arg self : Z).
Context (Hself : 0 <= self < THINKOS_THREADS_MAX) (Hc : calling s self).

Lemma mutex_alloc_ok : kernel_ok (thinkos_mutex_alloc_svc arg s).
Proof using K.
  unfold thinkos_mutex_alloc_svc. destruct (bmp_alloc_word _ _). cbv zeta. guards.
Qed.

Lemma mutex_free_ok : kernel_ok (thinkos_mutex_free_svc arg s).
Proof using K. unfold thinkos_mutex_free_svc. cbv zeta. guards. Qed.

Lemma mutex_lock_ok : kernel_ok (thinkos_mutex_lock_svc arg self s).
Proof using K Hself Hc.
  unfold thinkos_mutex_lock_svc. cbv zeta. guards. handle.
  kvia (__thinkos_suspend self (__thinkos_wq_insert (arg_0 arg s) self s)).
  apply wq_insert_suspend_ok; try done. unfold sync_wq. lia.
Qed.

Lemma mutex_trylock_ok : kernel_ok (thinkos_mutex_trylock_svc arg self s).
Proof using K. unfold thinkos_mutex_trylock_svc. cbv zeta. guards. Qed.

Lemma mutex_timedlock_ok : kernel_ok (thinkos_mutex_timedlock_svc arg self s).
Proof using K Hself Hc.
  unfold thinkos_mutex_timedlock_svc. cbv zeta. guards. handle.
  kvia (__thinkos_suspend self (__thinkos_tmdwq_insert (arg_0 arg s) self (arg_1 arg s) s)).
  apply tmdwq_insert_suspend_ok; try done; unfold sync_wq, timed_ok; lia.
Qed.

Lemma mutex_unlock_ok : kernel_ok (thinkos_mutex_unlock_svc arg self s).
Proof using K.
  unfold thinkos_mutex_unlock_svc. cbv zeta. guards. handle.
  change (__thinkos_wq_head (arg_0 arg s) (arg_ret arg 0 s))
    with (__thinkos_wq_head (arg_0 arg s) s) in *.
  assert (Hw : sync_wq (arg_0 arg s)) by (unfold sync_wq; lia).
  destruct (sync_head s (arg_0 arg s) K Hw) as [Hr' Hm]; [done|].
  kvia (__thinkos_wakeup (arg_0 arg s) (__thinkos_wq_head (arg_0 arg s) s) s).
  by apply wakeup_ok.
Qed.
End ok.

(** ** Refinement *)

Section refinement.
Context (s : kernel) (K : kernel_ok s) (L : lock_ok s).
Context (arg self m : Z) (Hself : 0 <= self < THINKOS_THREADS_MAX) (Hc : calling s self).
Context (Hlive : live arg s) (Hm : 0 <= m < THINKOS_MUTEX_MAX).
Context (Harg : arg_0 arg s = THINKOS_MUTEX_BASE + m).
Context (Hal : Z.testbit (mutex_alloc s) m = true).

(** The step of mutex [m] from [s] to [s'], seen by the caller, with every
    other mutex left alone and the invariants kept. *)
Definition mutex_refines (op : mutex_op) (s' : kernel) : Prop :=
  (exists out, mutex_step op (mutex_of s m) (mutex_of s' m) out /\
     observes arg self (THINKOS_MUTEX_BASE + m) s' out) /\
  (forall m', 0 <= m' < THINKOS_MUTEX_MAX -> m' <> m -> mutex_of s' m' = mutex_of s m') /\
  kernel_ok s' /\ lock_ok s'.

Lemma mutex_guards {A} (x y z : A) :
  (if THINKOS_MUTEX_MAX <=? u32 (THINKOS_MUTEX_BASE + m - THINKOS_MUTEX_BASE) then x
   else if negb (__bit_mem_rd (mutex_alloc s) m) then y else z) = z.
Proof using Hm Hal.
  rewrite handle_idx by lia. unfold __bit_mem_rd. rewrite Hal.
  destruct (Z.leb_spec 8 m); [lia|done].
Qed.

Lemma own_sync : sync_wq (THINKOS_MUTEX_BASE + m).
Proof using Hm. unfold sync_wq. lia. Qed.

(** The owner of [m] becomes [o] and no other mutex queue changes. *)
Lemma mutex_change o s' :
  lock s' = wr (lock s) m o -> -1 <= o < THINKOS_THREADS_MAX ->
  (forall m', m' <> m -> 0 <= m' < THINKOS_MUTEX_MAX ->
     wq_set s' (THINKOS_MUTEX_BASE + m') = wq_set s (THINKOS_MUTEX_BASE + m')) ->
  (o = -1 -> wq_set s' (THINKOS_MUTEX_BASE + m) = ∅) ->
  mutex_of s' m = mk_mutex (if o =? -1 then None else Some o) (wq_set s' (THINKOS_MUTEX_BASE + m)) /\
  (forall m', 0 <= m' < THINKOS_MUTEX_MAX -> m' <> m -> mutex_of s' m' = mutex_of s m') /\
  lock_ok s'.
Proof using L Hm.
  intros El Ho Hq He. destruct L as [Ll Lr]. split_and!.
  - unfold mutex_of. rewrite El, rd_wr_eq by lia. done.
  - intros m' Hm' Hne. unfold mutex_of. rewrite El, rd_wr_ne, Hq by done. done.
  - split; [by rewrite El, len_wr|]. intros m' Hm'. rewrite El, rd_wr by lia.
    destruct (Z.eqb_spec m m') as [<-|]; [auto|]. rewrite Hq by (done || lia). by apply Lr.
Qed.

(** The three branches of the lock calls. *)
Lemma take_free op :
  op = Lock self \/ op = TryLock self \/ op = TimedLock self ->
  rd (lock s) m = -1 -> mutex_refines op (arg_ret arg 0 (lock_store m self s)).
Proof using K L Hself Hc Hlive Hm.
  intros Hop El. set (s' := arg_ret _ _ _).
  assert (Hq : forall w, wq_set s' w = wq_set s w) by (intros; by apply wq_set_ext).
  destruct (mutex_change self s') as (E & Ho & Lk);
    [unfold s'; kred; by rewrite int8_small by lia|lia|by intros|lia|].
  split_and!; try done; [|unfold s'; kframe].
  exists (Ret 0). split.
  - rewrite E. unfold mutex_of. rewrite El, Hq. destruct (Z.eqb_spec self (-1)); [lia|].
    by apply lock_free.
  - apply obs_ret; [apply arg_0_ret; by apply Hlive|by apply (calling_frame s)].
Qed.

Lemma refuse op v :
  mutex_step op (mutex_of s m) (mutex_of s m) (Ret v) -> mutex_refines op (arg_ret arg v s).
Proof using K L Hc Hlive Hm.
  intros Hst. set (s' := arg_ret _ _ _).
  assert (Hq : forall w, wq_set s' w = wq_set s w) by (intros; by apply wq_set_ext).
  assert (Hmu : forall m', mutex_of s' m' = mutex_of s m').
  { intros m'. unfold mutex_of. by rewrite Hq. }
  split_and!; [|by intros|unfold s'; kframe|].
  - exists (Ret v). rewrite Hmu. split; [done|].
    apply obs_ret; [by apply arg_0_ret|by apply (calling_frame s)].
  - destruct L as [Ll Lr]. split; [done|]. intros m' Hm'. rewrite Hq. by apply Lr.
Qed.

Lemma wait_busy op tm s' :
  (op = Lock self /\ tm = false \/ op = TimedLock self /\ tm = true) ->
  rd (lock s) m <> -1 -> rd (lock s) m <> self -> kernel_ok s' -> lock s' = lock s ->
  pendsv s' = true -> (tm = true -> arg_0 arg s' = u32 THINKOS_ETIMEDOUT) ->
  (forall th' wq, THINKOS_WQ_CLOCK <= wq -> mem s' th' wq =
     if ((THINKOS_MUTEX_BASE + m =? wq) || tm && (THINKOS_WQ_CLOCK =? wq)) && (self =? th')
     then true else mem s th' wq) ->
  mutex_refines op s'.
Proof using K L Hself Hc Hm.
  intros Hop Hn1 Hn2 K' El Hp Hr Hmem.
  destruct (mutex_change (rd (lock s) m) s') as (E & Ho & Lk).
  - by rewrite wr_rd_id.
  - by apply L.
  - intros m' Hne Hm'. apply wq_set_ext. intros th. rewrite Hmem by lia.
    destruct (Z.eqb_spec (3 + m) (3 + m')), (Z.eqb_spec 2 (3 + m')); try lia.
    by rewrite andb_false_r.
  - lia.
  - split_and!; try done. exists (Block tm). split.
    + rewrite E. unfold mutex_of. destruct (Z.eqb_spec (rd (lock s) m) (-1)); [lia|].
      rewrite (wq_set_add s s' _ self Hself).
      * destruct Hop as [[-> ->]|[-> ->]]; by constructor.
      * intros th'. rewrite Hmem by lia. by rewrite Z.eqb_refl.
    + destruct (calling_facts s K self Hself Hc) as (_ & _ & Hall).
      apply observes_block; try done; [unfold sync_wq; lia| |].
      * rewrite Hmem by lia. by rewrite !Z.eqb_refl.
      * rewrite Hmem by lia. rewrite !Z.eqb_refl, Hall. destruct (Z.eqb_spec (3 + m) 2); [lia|].
        by destruct tm.
Qed.

(** The branches of unlock: nobody waits ... *)
Lemma release_free :
  rd (lock s) m = self -> __thinkos_wq_head (THINKOS_MUTEX_BASE + m) s = THINKOS_THREAD_NULL ->
  let s' := lock_store m (-1) (arg_ret arg 0 s) in
  mutex_refines (Unlock self) s' /\ owner (mutex_of s' m) = None.
Proof using K L Hself Hc Hlive Hm.
  intros E En s'. apply wq_set_empty in En; [|done|apply own_sync].
  assert (Hq : forall w, wq_set s' w = wq_set s w) by (intros; by apply wq_set_ext).
  destruct (mutex_change (-1) s') as (E' & Ho & Lk); [by unfold s'; kred|lia|by intros|by rewrite Hq|].
  split; [|by rewrite E']. split_and!; try done; [|unfold s'; kframe].
  exists (Ret 0). rewrite E', Hq, En. split.
  - unfold mutex_of. rewrite E, En. destruct (Z.eqb_spec self (-1)); [lia|]. constructor.
  - apply obs_ret; [apply (arg_0_stored arg _ s); [done|by kred]|].
    apply (calling_frame s); [by unfold s'; kred..|done].
Qed.

(** ... or the lowest numbered waiter gets the lock. *)
Lemma hand_off :
  rd (lock s) m = self -> __thinkos_wq_head (THINKOS_MUTEX_BASE + m) s <> THINKOS_THREAD_NULL ->
  let th := __thinkos_wq_head (THINKOS_MUTEX_BASE + m) s in
  let s' := __thinkos_defer_sched (__thinkos_wakeup (THINKOS_MUTEX_BASE + m) th
              (lock_store m th (arg_ret arg 0 s))) in
  mutex_refines (Unlock self) s' /\ owner (mutex_of s' m) = Some th /\ woken s s' th 0.
Proof using K L Hself Hc Hlive Hm.
  intros E Hn th s'. pose proof own_sync as Hw.
  destruct (sync_head s (3 + m) K Hw Hn) as [Hr Hmem].
  destruct (wq_set_head s (3 + m) K Hw Hn) as [Hin Hleast]. fold th in Hr, Hmem, Hin, Hleast.
  assert (Hms : forall th' wq, 2 < wq -> mem s' th' wq =
      if (3 + m =? wq) && (th =? th') then false else mem s th' wq).
  { intros th' wq Hwq. rewrite <- (mem_wakeup s K th Hr (3 + m) Hw th' wq Hwq).
    unfold mem, s'. by kred. }
  assert (Hne : self <> th).
  { intros Es. destruct (calling_facts s K self Hself Hc) as (_ & _ & Hall).
    rewrite <- Es, Hall in Hmem. lia. }
  destruct (mutex_change th s') as (E' & Ho & Lk); [by unfold s'; kred; rewrite int8_small by lia|lia| |lia|].
  { intros m' Hne' Hm'. apply wq_set_ext. intros th'. rewrite Hms by lia.
    by destruct (Z.eqb_spec (3 + m) (3 + m')); [lia|]. }
  destruct (Z.eqb_spec th (-1)); [lia|]. split_and!; [split_and!; try done| |].
  - exists (Ret 0). rewrite E'. unfold mutex_of. rewrite E. destruct (Z.eqb_spec self (-1)); [lia|].
    rewrite (wq_set_del s s' _ th) by (intros th'; rewrite Hms by lia; by rewrite Z.eqb_refl).
    split; [by apply unlock_handoff|]. apply obs_ret.
    + apply (arg_0_both arg (rd (ctx s) th) 0 s); [done|]. by unfold s'; kred.
    + apply (calling_frame (__thinkos_wakeup (3 + m) th s)); [by unfold s'; kred..|].
      by apply wakeup_calling.
  - unfold s'. kvia (__thinkos_wakeup (3 + m) th s). by apply wakeup_ok.
  - by rewrite E'.
  - destruct (wakeup_woken s K th Hr (3 + m) Hw Hmem) as [Hcall _]. split.
    + apply (calling_frame (__thinkos_wakeup (3 + m) th s)); [by unfold s'; kred..|done].
    + intros Hlv. apply (arg_0_stored _ 0 (arg_ret arg 0 s)); [by apply live_frame_store|].
      by unfold s'; kred.
Qed.
End refinement.

(** C10: [thinkos_mutex_lock], [trylock] and [timedlock] implement the
    abstract mutex: a free mutex is taken, a second lock by the owner is
    refused with EDEADLK, a busy one is refused with EAGAIN ([trylock]) or
    makes the caller, and only the caller, wait in the mutex's queue. *)
Theorem mutex_lock_refines s arg self m :
  kernel_ok s -> lock_ok s -> 0 <= self < THINKOS_THREADS_MAX -> calling s self ->
  live arg s -> 0 <= m < THINKOS_MUTEX_MAX -> arg_0 arg s = THINKOS_MUTEX_BASE + m ->
  Z.testbit (mutex_alloc s) m = true ->
  mutex_refines s arg self m (Lock self) (thinkos_mutex_lock_svc arg self s) /\
  mutex_refines s arg self m (TryLock self) (thinkos_mutex_trylock_svc arg self s) /\
  mutex_refines s arg self m (TimedLock self) (thinkos_mutex_timedlock_svc arg self s).
Proof.
  intros K L Hs Hc Hl Hm Harg Hal.
  pose proof (mutex_lock_ok s K arg self Hs Hc) as K1.
  pose proof (mutex_timedlock_ok s K arg self Hs Hc) as K2. revert K1 K2.
  unfold thinkos_mutex_lock_svc, thinkos_mutex_trylock_svc, thinkos_mutex_timedlock_svc.
  rewrite Harg, handle_idx by lia. unfold __bit_mem_rd. rewrite Hal.
  destruct (Z.leb_spec 8 m); [lia|]. simpl negb. cbv zeta iota.
  destruct (Z.eqb_spec (rd (lock s) m) (-1)) as [E|Hn1].
  { intros _ _. split_and!; apply take_free; auto. }
  destruct (Z.eqb_spec (rd (lock s) m) self) as [E|Hn2].
  { intros _ _. split_and!; apply refuse; auto; unfold mutex_of; rewrite E;
      (destruct (Z.eqb_spec self (-1)); [lia|]); apply lock_own; auto. }
  intros K1 K2. assert (Hw : sync_wq (3 + m)) by (unfold sync_wq; lia). split_and!.
  - apply (wait_busy s K L arg self m Hs Hc Hm (Lock self) false); auto; [done|].
    intros th' wq Hwq. rewrite andb_false_l, orb_false_r. by apply mem_insert_suspend.
  - apply refuse; auto. unfold mutex_of. destruct (Z.eqb_spec (rd (lock s) m) (-1)); [lia|].
    by constructor.
  - apply (wait_busy s K L arg self m Hs Hc Hm (TimedLock self) true); auto.
    + intros _. apply (arg_0_stored arg _ s); [done|by kred].
    + intros th' wq Hwq. rewrite andb_true_l. by apply mem_tmd_insert_suspend.
Qed.

(** C11: [thinkos_mutex_unlock] implements the abstract unlock: a caller that
    does not own the mutex gets EPERM and changes nothing; with no waiter the
    mutex becomes free; otherwise it is handed over to the lowest numbered
    waiter, which leaves the queue, becomes ready and sees its lock call
    return 0, while every other waiter goes on waiting. *)
Theorem mutex_unlock_refines s arg self m :
  kernel_ok s -> lock_ok s -> 0 <= self < THINKOS_THREADS_MAX -> calling s self ->
  live arg s -> 0 <= m < THINKOS_MUTEX_MAX -> arg_0 arg s = THINKOS_MUTEX_BASE + m ->
  Z.testbit (mutex_alloc s) m = true ->
  let s' := thinkos_mutex_unlock_svc arg self s in
  mutex_refines s arg self m (Unlock self) s' /\
  forall th, owner (mutex_of s m) = Some self -> owner (mutex_of s' m) = Some th ->
    woken s s' th 0.
Proof.
  intros K L Hs Hc Hl Hm Harg Hal. cbv zeta.
  unfold thinkos_mutex_unlock_svc. rewrite Harg, handle_idx by lia.
  unfold __bit_mem_rd. rewrite Hal. destruct (Z.leb_spec 8 m); [lia|]. simpl negb. cbv zeta iota.
  change (__thinkos_wq_head (3 + m) (arg_ret arg 0 s)) with (__thinkos_wq_head (3 + m) s).
  destruct (Z.eqb_spec (rd (lock s) m) self) as [E|Hne]; simpl negb; cbv iota.
  - destruct (Z.eqb_spec (__thinkos_wq_head (3 + m) s) 32) as [En|Hn].
    + destruct (release_free s K L arg self m) as [H1 H2]; try done. split; [done|]. intros th. by rewrite H2.
    + destruct (hand_off s K L arg self m) as (H1 & H2 & H3); try done. split; [done|].
      intros th _. rewrite H2. by intros [= <-].
  - split.
    + apply refuse; auto. unfold mutex_of. destruct (Z.eqb_spec (rd (lock s) m) (-1)); constructor; congruence.
    + intros th Ho. unfold mutex_of in Ho. simpl in Ho.
      destruct (Z.eqb_spec (rd (lock s) m) (-1)); congruence.
Qed.

(** ** Sample *)

(** Mutex 0 is owned by thread 0 and threads 2 and 3 wait for it. *)
Definition mutex_demo : kernel :=
  demo_call THINKOS_MUTEX_BASE 50 0 0
    (demo |> set_mutex_alloc 4294967041 |> lock_store 0 0
          |> demo_wait 2 THINKOS_MUTEX_BASE |> demo_wait 3 THINKOS_MUTEX_BASE).

Lemma mutex_demo_lock_ok : lock_ok mutex_demo.
Proof.
  split; [reflexivity|]. intros m Hm.
  z_cases m; (split; [vm_compute; split; congruence|vm_compute; congruence || reflexivity]).
Qed.

Lemma mutex_unlock_refines_witness :
  let s' := thinkos_mutex_unlock_svc (record_of 0) 0 mutex_demo in
  mutex_refines mutex_demo (record_of 0) 0 0 (Unlock 0) s' /\
  rd (lock s') 0 = 2 /\ woken mutex_demo s' 2 0.
Proof.
  destruct (mutex_unlock_refines mutex_demo (record_of 0) 0 0) as [H1 H2];
    [kernel_ok_compute|exact mutex_demo_lock_ok|lia|split; vm_compute; reflexivity
    |eexists; vm_compute; reflexivity|lia|vm_compute; reflexivity|vm_compute; reflexivity|].
  split; [exact H1|]. split; [vm_compute; reflexivity|]. apply H2; vm_compute; reflexivity.
Defined.

Lemma mutex_lock_refines_witness :
  let s := lock_store 0 1 mutex_demo in
  mutex_refines s (record_of 0) 0 0 (Lock 0) (thinkos_mutex_lock_svc (record_of 0) 0 s) /\
  mutex_refines s (record_of 0) 0 0 (TryLock 0) (thinkos_mutex_trylock_svc (record_of 0) 0 s) /\
  mutex_refines s (record_of 0) 0 0 (TimedLock 0) (thinkos_mutex_timedlock_svc (record_of 0) 0 s).
Proof.
  apply (mutex_lock_refines (lock_store 0 1 mutex_demo) (record_of 0) 0 0);
    [kernel_ok_compute| |lia|split; vm_compute; reflexivity
    |eexists; vm_compute; reflexivity|lia|vm_compute; reflexivity|vm_compute; reflexivity].
  split; [reflexivity|]. intros m Hm.
  z_cases m; (split; [vm_compute; split; congruence|vm_compute; congruence || reflexivity]).
Defined.
