(* ===== verification/Semaphore.v ===== *)
(** * Semaphores

    The handlers of src/sdk/libthinkos/thinkos_semaphore.c, run without
    interference (the exclusive stores succeed; [SemRace] puts interrupts
    between the loads and the stores), the abstract counting semaphore, and
    the refinement. *)

From stdpp Require Import base tactics numbers list gmap.
From Stdlib Require Import ZArith Lia.
From S2P Require Import Prelude CortexM State Kernel BmpAlloc Invariant Decide Init Demo Transitions.

(** ** Code *)

Definition thinkos_sem_alloc_svc (arg : Z) (s : kernel) : kernel :=
  let value := arg_0 arg s in
  let '(bmp, idx) := bmp_alloc_word (sem_alloc s) THINKOS_SEMAPHORE_MAX in
  let s := set_sem_alloc bmp s in
  if 0 <=? idx then
    s |> sem_val_store idx value
      |> arg_ret arg (idx + THINKOS_SEM_BASE)
  else s |> arg_ret arg idx.

Definition thinkos_sem_free_svc (arg : Z) (s : kernel) : kernel :=
  let wq := arg_0 arg s in
  let idx := u32 (wq - THINKOS_SEM_BASE) in
  if THINKOS_SEMAPHORE_MAX <=? idx then s |> arg_ret arg THINKOS_EINVAL
  else set_sem_alloc (__bit_mem_wr (sem_alloc s) idx false) s.

Definition thinkos_sem_init_svc (arg : Z) (s : kernel) : kernel :=
  let wq := arg_0 arg s in
  let sem := u32 (wq - THINKOS_SEM_BASE) in
  let value := arg_1 arg s in
  if THINKOS_SEMAPHORE_MAX <=? sem then s |> arg_ret arg THINKOS_EINVAL
  else if negb (__bit_mem_rd (sem_alloc s) sem) then s |> arg_ret arg THINKOS_EINVAL
  else
    s |> sem_val_store sem value
      |> arg_ret arg 0.

Definition thinkos_sem_trywait_svc (arg : Z) (s : kernel) : kernel :=
  let wq := arg_0 arg s in
  let sem := u32 (wq - THINKOS_SEM_BASE) in
  if THINKOS_SEMAPHORE_MAX <=? sem then s |> arg_ret arg THINKOS_EINVAL
  else if negb (__bit_mem_rd (sem_alloc s) sem) then s |> arg_ret arg THINKOS_EINVAL
  else
    let val := rd (sem_val s) sem in
    if 0 <? val then
      s |> arg_ret arg 0
        |> sem_val_store sem (val - 1)
    else
      s |> arg_ret arg THINKOS_EAGAIN
        |> sem_val_store sem val.

(** From the label [again]; [n] bounds the rollbacks. *)
Fixpoint sem_wait_again (n : nat) (wq sem arg self : Z) (s : kernel) : kernel :=
  match n with
  | O => s
  | S n =>
      let val := rd (sem_val s) sem in
      if 0 <? val then
        s |> sem_val_store sem (val - 1)
          |> arg_ret arg 0
      else
        let s := s |> __thinkos_suspend self
                   |> th_stat_store self (Z.shiftl wq 1)
                   |> ctx_store self arg in
        let queue := rd (wq_lst s) wq in
        if 0 <? rd (sem_val s) sem then
          s |> th_stat_store self 0
            |> wq_bit_store THINKOS_WQ_READY self true
            |> sem_wait_again n wq sem arg self
        else
          s |> wq_store wq (Z.lor queue (Z.shiftl 1 self))
            |> __thinkos_defer_sched
  end.

Definition thinkos_sem_wait_svc (arg self : Z) (s : kernel) : kernel :=
  let wq := arg_0 arg s in
  let sem := u32 (wq - THINKOS_SEM_BASE) in
  if THINKOS_SEMAPHORE_MAX <=? sem then s |> arg_ret arg THINKOS_EINVAL
  else if negb (__bit_mem_rd (sem_alloc s) sem) then s |> arg_ret arg THINKOS_EINVAL
  else sem_wait_again 2 wq sem arg self s.

Fixpoint sem_timedwait_again (n : nat) (wq sem ms arg self : Z) (s : kernel) : kernel :=
  match n with
  | O => s
  | S n =>
      let val := rd (sem_val s) sem in
      if 0 <? val then
        s |> sem_val_store sem (val - 1)
          |> arg_ret arg 0
      else
        let s := s |> __thinkos_suspend self
                   |> th_stat_store self (Z.shiftl wq 1 + 1)
                   |> ctx_store self arg in
        let queue := Z.lor (rd (wq_lst s) wq) (Z.shiftl 1 self) in
        if 0 <? rd (sem_val s) sem then
          s |> th_stat_store self 0
            |> wq_bit_store THINKOS_WQ_READY self true
            |> sem_timedwait_again n wq sem ms arg self
        else
          s |> wq_store wq queue
            |> clock_store self (ticks s + ms)
            |> wq_bit_store THINKOS_WQ_CLOCK self true
            |> arg_ret arg THINKOS_ETIMEDOUT
            |> __thinkos_defer_sched
  end.

Definition thinkos_sem_timedwait_svc (arg self : Z) (s : kernel) : kernel :=
  let wq := arg_0 arg s in
  let sem := u32 (wq - THINKOS_SEM_BASE) in
  let ms := arg_1 arg s in
  if THINKOS_SEMAPHORE_MAX <=? sem then s |> arg_ret arg THINKOS_EINVAL
  else if negb (__bit_mem_rd (sem_alloc s) sem) then s |> arg_ret arg THINKOS_EINVAL
  else sem_timedwait_again 2 wq sem ms arg self s.

Definition __thinkos_sem_post_i (wq : Z) (s : kernel) : kernel :=
  let queue := rd (wq_lst s) wq in
  let th := __clz (__rbit queue) in
  if th =? THINKOS_THREAD_NULL then
    let sem := wq - THINKOS_SEM_BASE in
    s |> sem_val_store sem (rd (sem_val s) sem + 1)
  else
    s |> wq_store wq (Z.ldiff queue (Z.shiftl 1 th))
      |> ready_return th 0.

(** The interrupt handlers' entry. *)
Definition cm3_except7_isr (wq : Z) (s : kernel) : kernel :=
  s |> __thinkos_sem_post_i wq
    |> __thinkos_preempt.

Definition thinkos_sem_post_svc (arg : Z) (s : kernel) : kernel :=
  let wq := arg_0 arg s in
  let sem := u32 (wq - THINKOS_SEM_BASE) in
  if THINKOS_SEMAPHORE_MAX <=? sem then s |> arg_ret arg THINKOS_EINVAL
  else if negb (__bit_mem_rd (sem_alloc s) sem) then s |> arg_ret arg THINKOS_EINVAL
  else
    s |> arg_ret arg 0
      |> __thinkos_sem_post_i wq
      |> __thinkos_defer_sched.

(** ** Abstract semaphore *)

Record sem_abs := mk_sem { value : Z; pending : gset Z }.

Inductive sem_op := SemWait (self : Z) | SemTry | SemTimedWait (self : Z) | SemPost.

Inductive sem_step : sem_op -> sem_abs -> sem_abs -> outcome -> Prop :=
  | sem_take op self v W :
      op = SemWait self \/ op = SemTry \/ op = SemTimedWait self -> 0 < v ->
      sem_step op (mk_sem v W) (mk_sem (v - 1) W) (Ret THINKOS_OK)
  | sem_refuse W : sem_step SemTry (mk_sem 0 W) (mk_sem 0 W) (Ret THINKOS_EAGAIN)
  | sem_block self W :
      sem_step (SemWait self) (mk_sem 0 W) (mk_sem 0 ({[self]} ∪ W)) (Block false)
  | sem_tblock self W :
      sem_step (SemTimedWait self) (mk_sem 0 W) (mk_sem 0 ({[self]} ∪ W)) (Block true)
  | sem_give v : sem_step SemPost (mk_sem v ∅) (mk_sem (u32 (v + 1)) ∅) (Ret THINKOS_OK)
  | sem_wake v W th : th ∈ W -> (forall th', th' ∈ W -> th <= th') ->
      sem_step SemPost (mk_sem v W) (mk_sem v (W ∖ {[th]})) (Ret THINKOS_OK).

(** The abstraction of semaphore [i]. *)
Definition sem_of (s : kernel) (i : Z) : sem_abs :=
  mk_sem (rd (sem_val s) i) (wq_set s (THINKOS_SEM_BASE + i)).

(** Values are words; a positive semaphore has no waiter. *)
Definition sem_ok (s : kernel) : Prop :=
  len (sem_val s) = THINKOS_SEMAPHORE_MAX /\
  forall i, 0 <= i < THINKOS_SEMAPHORE_MAX ->
    0 <= rd (sem_val s) i < 4294967296 /\
    (0 < rd (sem_val s) i -> wq_set s (THINKOS_SEM_BASE + i) = ∅).

(** ** Queue consistency *)

(** Without interference the wait never rolls back. *)
Lemma sem_wait_again_eq n wq sem arg self s :
  sem_wait_again (S n) wq sem arg self s =
  if 0 <? rd (sem_val s) sem then
    arg_ret arg 0 (sem_val_store sem (rd (sem_val s) sem - 1) s)
  else
    __thinkos_defer_sched (wq_bit_store wq self true
      (ctx_store self arg (th_stat_store self (Z.shiftl wq 1) (__thinkos_suspend self s)))).
Proof.
  cbn [sem_wait_again].
  change (sem_val (ctx_store _ _ (th_stat_store _ _ (__thinkos_suspend self s)))) with (sem_val s).
  by destruct (0 <? rd (sem_val s) sem).
Qed.

Lemma sem_timedwait_again_eq n wq sem ms arg self s :
  sem_timedwait_again (S n) wq sem ms arg self s =
  if 0 <? rd (sem_val s) sem then
    arg_ret arg 0 (sem_val_store sem (rd (sem_val s) sem - 1) s)
  else
    __thinkos_defer_sched (arg_ret arg THINKOS_ETIMEDOUT
      (wq_bit_store THINKOS_WQ_CLOCK self true (clock_store self (ticks s + ms)
      (wq_bit_store wq self true
      (ctx_store self arg (th_stat_store self (Z.shiftl wq 1 + 1) (__thinkos_suspend self s))))))).
Proof.
  cbn [sem_timedwait_again].
  change (sem_val (ctx_store _ _ (th_stat_store _ _ (__thinkos_suspend self s)))) with (sem_val s).
  by destruct (0 <? rd (sem_val s) sem).
Qed.

(** Posting in the two cases. *)
Lemma sem_post_eq wq s :
  __thinkos_sem_post_i wq s =
  if __thinkos_wq_head wq s =? THINKOS_THREAD_NULL then
    sem_val_store (wq - THINKOS_SEM_BASE) (rd (sem_val s) (wq - THINKOS_SEM_BASE) + 1) s
  else ready_return (__thinkos_wq_head wq s) 0 (wq_bit_store wq (__thinkos_wq_head wq s) false s).
Proof. done. Qed.

Section ok.
Context (s : kernel) (K : kernel_ok s) (arg self : Z).
Context (Hself : 0 <= self < THINKOS_THREADS_MAX) (Hc : calling s self).

Lemma sem_alloc_ok : kernel_ok (thinkos_sem_alloc_svc arg s).
Proof using K.
  unfold thinkos_sem_alloc_svc. destruct (bmp_alloc_word _ _). cbv zeta. guards.
Qed.

Lemma sem_free_ok : kernel_ok (thinkos_sem_free_svc arg s).
Proof using K. unfold thinkos_sem_free_svc. cbv zeta. guards. Qed.

Lemma sem_init_ok : kernel_ok (thinkos_sem_init_svc arg s).
Proof using K. unfold thinkos_sem_init_svc. cbv zeta. guards. Qed.

Lemma sem_trywait_ok : kernel_ok (thinkos_sem_trywait_svc arg s).
Proof using K. unfold thinkos_sem_trywait_svc. cbv zeta. guards. Qed.

Lemma sem_wait_ok : kernel_ok (thinkos_sem_wait_svc arg self s).
Proof using K Hself Hc.
  unfold thinkos_sem_wait_svc. cbv zeta. guards. handle. rewrite sem_wait_again_eq. guards.
  kvia (wq_bit_store (arg_0 arg s) self true
    (th_stat_store self (Z.shiftl (arg_0 arg s) 1) (__thinkos_suspend self s))).
  apply suspend_queue_ok; try done. unfold sync_wq. lia.
Qed.

Lemma sem_timedwait_ok : kernel_ok (thinkos_sem_timedwait_svc arg self s).
Proof using K Hself Hc.
  unfold thinkos_sem_timedwait_svc. cbv zeta. guards. handle. rewrite sem_timedwait_again_eq. guards.
  kvia (wq_bit_store THINKOS_WQ_CLOCK self true (wq_bit_store (arg_0 arg s) self true
    (th_stat_store self (Z.shiftl (arg_0 arg s) 1 + 1) (__thinkos_suspend self s)))).
  apply suspend_tqueue_ok; try done; unfold sync_wq, timed_ok; lia.
Qed.

Lemma sem_post_i_ok wq :
  THINKOS_SEM_BASE <= wq < THINKOS_SEM_BASE + THINKOS_SEMAPHORE_MAX ->
  kernel_ok (__thinkos_sem_post_i wq s).
Proof using K.
  intros Hwq. assert (Hw : sync_wq wq) by (unfold sync_wq; lia).
  rewrite sem_post_eq. guards.
  destruct (sync_head s wq K Hw) as [Hr Hm]; [done|]. by apply ready_return_ok.
Qed.
End ok.

Lemma sem_isr_ok s wq :
  kernel_ok s -> THINKOS_SEM_BASE <= wq < THINKOS_SEM_BASE + THINKOS_SEMAPHORE_MAX ->
  kernel_ok (cm3_except7_isr wq s).
Proof.
  intros K Hwq. unfold cm3_except7_isr. kpeel. by apply sem_post_i_ok.
Qed.

Lemma sem_post_ok s arg : kernel_ok s -> kernel_ok (thinkos_sem_post_svc arg s).
Proof.
  intros K. unfold thinkos_sem_post_svc. cbv zeta. guards. handle.
  kpeel. apply sem_post_i_ok; [by kpeel|lia].
Qed.

(** ** Refinement *)

Section refinement.
Context (s : kernel) (K : kernel_ok s) (L : sem_ok s).
Context (i : Z) (Hi : 0 <= i < THINKOS_SEMAPHORE_MAX).

Definition sem_frame (s' : kernel) : Prop :=
  (forall j, 0 <= j < THINKOS_SEMAPHORE_MAX -> j <> i -> sem_of s' j = sem_of s j) /\
  kernel_ok s' /\ sem_ok s'.

Lemma sem_sync : sync_wq (THINKOS_SEM_BASE + i).
Proof using Hi. unfold sync_wq. lia. Qed.

(** The value of [i] becomes [v] and no other semaphore queue changes. *)
Lemma sem_change v s' :
  sem_val s' = wr (sem_val s) i v -> 0 <= v < 4294967296 ->
  (forall j, j <> i -> 0 <= j < THINKOS_SEMAPHORE_MAX ->
     wq_set s' (THINKOS_SEM_BASE + j) = wq_set s (THINKOS_SEM_BASE + j)) ->
  (0 < v -> wq_set s' (THINKOS_SEM_BASE + i) = ∅) -> kernel_ok s' ->
  sem_of s' i = mk_sem v (wq_set s' (THINKOS_SEM_BASE + i)) /\ sem_frame s'.
Proof using L Hi.
  intros Ev Hv Hq He K'. destruct L as [Ll Lr]. unfold sem_frame, sem_ok. split_and!; try done.
  - unfold sem_of. rewrite Ev, rd_wr_eq by lia. done.
  - intros j Hj Hne. unfold sem_of. rewrite Ev, rd_wr_ne, Hq by done. done.
  - by rewrite Ev, len_wr.
  - intros j Hj. rewrite Ev, rd_wr by lia.
    destruct (Z.eqb_spec i j) as [<-|]; [auto|]. rewrite Hq by (done || lia). by apply Lr.
Qed.

(** Posting, from a system call or from an interrupt handler. *)
Lemma sem_post_i_refines :
  let s' := __thinkos_sem_post_i (THINKOS_SEM_BASE + i) s in
  sem_step SemPost (sem_of s i) (sem_of s' i) (Ret THINKOS_OK) /\ sem_frame s' /\
  (wq_set s (THINKOS_SEM_BASE + i) <> ∅ ->
   woken s s' (__thinkos_wq_head (THINKOS_SEM_BASE + i) s) 0).
Proof using K L Hi.
  intros s'. pose proof sem_sync as Hw.
  assert (K' : kernel_ok s') by (apply sem_post_i_ok; [done|lia]). revert K'. unfold s'. clear s'.
  rewrite sem_post_eq. replace (19 + i - 19) with i by lia.
  destruct (Z.eqb_spec (__thinkos_wq_head (19 + i) s) 32) as [En|Hn]; intros K'.
  - apply wq_set_empty in En; [|done..]. set (s' := sem_val_store _ _ _) in *.
    assert (Hq : forall w, wq_set s' w = wq_set s w) by (intros; by apply wq_set_ext).
    destruct (sem_change (u32 (rd (sem_val s) i + 1)) s') as [E F];
      [done|apply u32_range|by intros|by rewrite Hq|done|].
    rewrite E, Hq. split_and!; [|done|done]. unfold sem_of. rewrite En. constructor.
  - destruct (sync_head s (19 + i) K Hw Hn) as [Hr Hmem].
    destruct (wq_set_head s (19 + i) K Hw Hn) as [Hin Hleast].
    set (th := __thinkos_wq_head (19 + i) s) in *.
    pose proof (mem_ready_return s K th Hr (19 + i) Hw 0) as Hms.
    set (s' := ready_return _ _ _) in *.
    assert (Hpos : ~ 0 < rd (sem_val s) i).
    { intros Hp. apply (proj2 L) in Hp; [|done]. set_solver. }
    destruct (sem_change (rd (sem_val s) i) s') as [E F];
      [by rewrite wr_rd_id|by apply L| |done|done|].
    { intros j Hne Hj. apply wq_set_ext. intros th'. rewrite Hms by lia.
      by destruct (Z.eqb_spec (19 + i) (19 + j)); [lia|]. }
    rewrite E. split_and!; [|done|intros _; by apply ready_return_woken].
    rewrite (wq_set_del s s' _ th) by (intros th'; rewrite Hms by lia; by rewrite Z.eqb_refl).
    by apply sem_wake.
Qed.
End refinement.

Section wait.
Context (s : kernel) (K : kernel_ok s) (L : sem_ok s).
Context (arg self i : Z) (Hself : 0 <= self < THINKOS_THREADS_MAX) (Hc : calling s self).
Context (Hlive : live arg s) (Hi : 0 <= i < THINKOS_SEMAPHORE_MAX).

(** The step of semaphore [i] seen by the caller. *)
Definition sem_refines (op : sem_op) (s' : kernel) : Prop :=
  (exists out, sem_step op (sem_of s i) (sem_of s' i) out /\
     observes arg self (THINKOS_SEM_BASE + i) s' out) /\ sem_frame s i s'.

(** A token is there. *)
Lemma take_token op s' :
  op = SemWait self \/ op = SemTry \/ op = SemTimedWait self -> 0 < rd (sem_val s) i ->
  sem_val s' = wr (sem_val s) i (u32 (rd (sem_val s) i - 1)) ->
  wq_lst s' = wq_lst s -> th_stat s' = th_stat s -> arg_0 arg s' = u32 0 -> kernel_ok s' ->
  sem_refines op s'.
Proof using L Hc Hi.
  intros Hop Hp Ev Ew Es Hr K'.
  destruct (proj2 L i Hi) as [Hv He].
  assert (Hq : forall w, wq_set s' w = wq_set s w)
    by (intros w; apply wq_set_ext; intros th; unfold mem; by rewrite Ew).
  rewrite u32_small in Ev by lia.
  destruct (sem_change s L i Hi (rd (sem_val s) i - 1) s') as [E F];
    [done|lia|by intros|rewrite Hq; auto|done|].
  split; [|done]. exists (Ret 0). rewrite E, Hq. split; [by eapply sem_take|].
  apply obs_ret; [done|by apply (calling_frame s)].
Qed.

(** No token: the caller enters the queue. *)
Lemma wait_token op tm s' :
  (op = SemWait self /\ tm = false \/ op = SemTimedWait self /\ tm = true) ->
  rd (sem_val s) i = 0 -> kernel_ok s' -> sem_val s' = sem_val s -> pendsv s' = true ->
  (tm = true -> arg_0 arg s' = u32 THINKOS_ETIMEDOUT) ->
  (forall th' wq, THINKOS_WQ_CLOCK <= wq -> mem s' th' wq =
     if ((THINKOS_SEM_BASE + i =? wq) || tm && (THINKOS_WQ_CLOCK =? wq)) && (self =? th')
     then true else mem s th' wq) ->
  sem_refines op s'.
Proof using K L Hself Hc Hi.
  intros Hop Hz K' Ev Hp Hr Hmem.
  destruct (sem_change s L i Hi (rd (sem_val s) i) s') as [E F];
    [by rewrite wr_rd_id|by apply L| |lia|done|].
  - intros j Hne Hj. apply wq_set_ext. intros th. rewrite Hmem by lia.
    destruct (Z.eqb_spec (19 + i) (19 + j)), (Z.eqb_spec 2 (19 + j)); try lia.
    by rewrite andb_false_r.
  - split; [|done]. exists (Block tm). split.
    + rewrite E, Hz, (wq_set_add s s' _ self Hself).
      * unfold sem_of. rewrite Hz. destruct Hop as [[-> ->]|[-> ->]]; by constructor.
      * intros th'. rewrite Hmem by lia. by rewrite Z.eqb_refl.
    + destruct (calling_facts s K self Hself Hc) as (_ & _ & Hall).
      apply observes_block; try done; [unfold sync_wq; lia| |].
      * rewrite Hmem by lia. by rewrite !Z.eqb_refl.
      * rewrite Hmem by lia. rewrite !Z.eqb_refl, Hall.
        destruct (Z.eqb_spec (19 + i) 2); [lia|]. by destruct tm.
Qed.

(** No token and no wait. *)
Lemma refuse_token :
  rd (sem_val s) i = 0 ->
  sem_refines SemTry (sem_val_store i (rd (sem_val s) i) (arg_ret arg THINKOS_EAGAIN s)).
Proof using K L Hc Hlive Hi.
  intros Hz. set (s' := sem_val_store _ _ _).
  assert (Hq : forall w, wq_set s' w = wq_set s w) by (intros; by apply wq_set_ext).
  destruct (sem_change s L i Hi (rd (sem_val s) i) s') as [E F];
    [unfold s'; kred; rewrite u32_small; [done|by apply L]|by apply L|by intros|lia|unfold s'; kframe|].
  split; [|done]. exists (Ret (-4)). rewrite E, Hq, Hz. split.
  - unfold sem_of. rewrite Hz. constructor.
  - apply obs_ret; [apply (arg_0_stored arg _ s Hlive); by unfold s'; kred|].
    apply (calling_frame s); [by unfold s'; kred..|done].
Qed.
End wait.

(** C12: [thinkos_sem_wait], [trywait] and [timedwait], run without
    interference, implement the counting semaphore: a positive value is
    decremented and the call returns 0; at zero [trywait] returns EAGAIN and
    the others put the caller, and only the caller, in the queue (with the
    time-out error as its default result when timed).  The fuel of the retry
    loop is enough: no call ends because it ran out. *)
Theorem sem_wait_refines s arg self i :
  kernel_ok s -> sem_ok s -> 0 <= self < THINKOS_THREADS_MAX -> calling s self -> live arg s ->
  0 <= i < THINKOS_SEMAPHORE_MAX -> arg_0 arg s = THINKOS_SEM_BASE + i ->
  Z.testbit (sem_alloc s) i = true ->
  sem_refines s arg self i (SemWait self) (thinkos_sem_wait_svc arg self s) /\
  sem_refines s arg self i SemTry (thinkos_sem_trywait_svc arg s) /\
  sem_refines s arg self i (SemTimedWait self) (thinkos_sem_timedwait_svc arg self s).
Proof.
  intros K L Hs Hc Hl Hi Harg Hal.
  pose proof (sem_wait_ok s K arg self Hs Hc) as K1.
  pose proof (sem_trywait_ok s K arg) as K2.
  pose proof (sem_timedwait_ok s K arg self Hs Hc) as K3. revert K1 K2 K3.
  unfold thinkos_sem_wait_svc, thinkos_sem_trywait_svc, thinkos_sem_timedwait_svc.
  rewrite Harg, handle_idx by lia. unfold __bit_mem_rd. rewrite Hal.
  destruct (Z.leb_spec 8 i); [lia|]. simpl negb. cbv zeta iota.
  rewrite sem_wait_again_eq, sem_timedwait_again_eq.
  assert (Hw : sync_wq (19 + i)) by (unfold sync_wq; lia).
  destruct (proj2 L i Hi) as [Hv He].
  destruct (Z.ltb_spec 0 (rd (sem_val s) i)) as [Hp|Hp]; intros K1 K2 K3.
  - split_and!; apply take_token; auto; try (by kred); apply (arg_0_stored arg 0 s Hl); by kred.
  - assert (Hz : rd (sem_val s) i = 0) by lia. split_and!.
    + apply (wait_token s K L arg self i Hs Hc Hi (SemWait self) false); auto; [done|].
      intros th' wq Hwq. rewrite andb_false_l, orb_false_r.
      rewrite <- (mem_suspend_queue s K self Hs (19 + i) Hw (Z.shiftl (19 + i) 1)) by done.
      unfold mem. by kred.
    + by apply refuse_token.
    + apply (wait_token s K L arg self i Hs Hc Hi (SemTimedWait self) true); auto.
      * intros _. apply (arg_0_stored arg _ s Hl). by kred.
      * intros th' wq Hwq. rewrite andb_true_l.
        rewrite <- (mem_suspend_tqueue s K self Hs (19 + i) Hw (Z.shiftl (19 + i) 1 + 1)) by done.
        unfold mem. by kred.
Qed.

(** Raising the scheduler request afterwards changes none of this. *)
Lemma sem_preempt s s1 i th :
  sem_step SemPost (sem_of s i) (sem_of s1 i) (Ret THINKOS_OK) /\ sem_frame s i s1 /\
    (wq_set s (THINKOS_SEM_BASE + i) <> ∅ -> woken s s1 th 0) ->
  sem_step SemPost (sem_of s i) (sem_of (__thinkos_preempt s1) i) (Ret THINKOS_OK) /\
    sem_frame s i (__thinkos_preempt s1) /\
    (wq_set s (THINKOS_SEM_BASE + i) <> ∅ -> woken s (__thinkos_preempt s1) th 0).
Proof.
  intros (H1 & (H2 & H3 & H4) & H5). split_and!.
  - exact H1.
  - split_and!; [exact H2|by kpeel|exact H4].
  - intros Hne. destruct (H5 Hne) as [Ha Hb]. split; [exact Ha|exact Hb].
Qed.

(** C13: a post, from a system call or from an interrupt handler, gives its
    token to the lowest numbered waiter, which leaves the queue, becomes ready
    and sees its wait return 0; with nobody waiting the value grows by one
    (modulo 2^32).  No token is dropped, and no other semaphore changes. *)
Theorem sem_post_refines s i :
  kernel_ok s -> sem_ok s -> 0 <= i < THINKOS_SEMAPHORE_MAX ->
  let s' := cm3_except7_isr (THINKOS_SEM_BASE + i) s in
  sem_step SemPost (sem_of s i) (sem_of s' i) (Ret THINKOS_OK) /\ sem_frame s i s' /\
  (wq_set s (THINKOS_SEM_BASE + i) <> ∅ ->
     woken s s' (__thinkos_wq_head (THINKOS_SEM_BASE + i) s) 0) /\
  (critical_cnt s = 0 -> pendsv s' = true).
Proof.
  intros K L Hi. cbv zeta. unfold cm3_except7_isr.
  destruct (sem_preempt _ _ _ _ (sem_post_i_refines s K L i Hi)) as (H1 & H2 & H3).
  split_and!; [exact H1|exact H2|exact H3|].
  assert (Hcc : critical_cnt (__thinkos_sem_post_i (19 + i) s) = critical_cnt s).
  { rewrite sem_post_eq. by destruct (_ =? 32). }
  intros Hz. unfold __thinkos_preempt. rewrite Hcc, Hz. apply orb_true_r.
Qed.

(** ** Sample *)

(** Semaphore 0 has no token and threads 2 and 3 wait for one; thread 0 calls. *)
Definition sem_demo : kernel :=
  demo_call THINKOS_SEM_BASE 50 0 0
    (demo |> set_sem_alloc 4294967041
          |> demo_wait 2 THINKOS_SEM_BASE |> demo_wait 3 THINKOS_SEM_BASE).

Lemma sem_demo_ok : sem_ok sem_demo.
Proof.
  split; [reflexivity|]. intros i Hi.
  z_cases i; (split; [vm_compute; split; congruence|vm_compute; congruence || reflexivity]).
Qed.

Lemma sem_wait_refines_witness :
  sem_refines sem_demo (record_of 0) 0 0 (SemWait 0) (thinkos_sem_wait_svc (record_of 0) 0 sem_demo) /\
  sem_refines sem_demo (record_of 0) 0 0 SemTry (thinkos_sem_trywait_svc (record_of 0) sem_demo) /\
  sem_refines sem_demo (record_of 0) 0 0 (SemTimedWait 0)
    (thinkos_sem_timedwait_svc (record_of 0) 0 sem_demo).
Proof.
  apply (sem_wait_refines sem_demo (record_of 0) 0 0);
    [kernel_ok_compute|exact sem_demo_ok|lia|split; vm_compute; reflexivity
    |eexists; vm_compute; reflexivity|lia|vm_compute; reflexivity|vm_compute; reflexivity].
Defined.

Lemma sem_post_refines_witness :
  let s' := cm3_except7_isr THINKOS_SEM_BASE sem_demo in
  sem_step SemPost (mk_sem 0 {[2; 3]}) (mk_sem 0 {[3]}) (Ret THINKOS_OK) /\
  woken sem_demo s' 2 0 /\ pendsv s' = true.
Proof.
  destruct (sem_post_refines sem_demo 0) as (H1 & _ & H3 & H4);
    [kernel_ok_compute|exact sem_demo_ok|lia|].
  replace (sem_of sem_demo 0) with (mk_sem 0 {[2; 3]}) in H1 by (vm_compute; reflexivity).
  replace (sem_of (cm3_except7_isr (19 + 0) sem_demo) 0) with (mk_sem 0 {[3]}) in H1
    by (vm_compute; reflexivity).
  split; [exact H1|]. split; [|apply H4; vm_compute; reflexivity].
  replace (__thinkos_wq_head (19 + 0) sem_demo) with 2 in H3 by (vm_compute; reflexivity).
  apply H3. vm_compute. congruence.
Defined.
