(* ===== verification/Cond.v ===== *)
(** * Condition variables

    The handlers of src/sdk/libthinkos/thinkos_cond.c: waiting gives up the
    mutex and enters the queue in one step, signalling wakes the lowest
    numbered waiter, broadcasting wakes them all. *)

From stdpp Require Import base tactics numbers list gmap.
From Stdlib Require Import ZArith Lia.
From S2P Require Import Prelude CortexM State Kernel BmpAlloc Invariant Decide Init Demo Transitions Mutex.

(** ** Code *)

Definition thinkos_cond_alloc_svc (arg : Z) (s : kernel) : kernel :=
  let '(bmp, idx) := bmp_alloc_word (cond_alloc s) THINKOS_COND_MAX in
  let s := set_cond_alloc bmp s in
  if 0 <=? idx then s |> arg_ret arg (idx + THINKOS_COND_BASE)
  else s |> arg_ret arg idx.

Definition thinkos_cond_free_svc (arg : Z) (s : kernel) : kernel :=
  let wq := arg_0 arg s in
  let cond := u32 (wq - THINKOS_COND_BASE) in
  if THINKOS_COND_MAX <=? cond then s |> arg_ret arg THINKOS_EINVAL
  else set_cond_alloc (__bit_mem_wr (cond_alloc s) cond false) s.

Definition thinkos_cond_wait_svc (arg self : Z) (s : kernel) : kernel :=
  let cwq := arg_0 arg s in
  let mwq := arg_1 arg s in
  let cond := u32 (cwq - THINKOS_COND_BASE) in
  let mutex := u32 (mwq - THINKOS_MUTEX_BASE) in
  if THINKOS_COND_MAX <=? cond then s |> arg_ret arg THINKOS_EINVAL
  else if THINKOS_MUTEX_MAX <=? mutex then s |> arg_ret arg THINKOS_EINVAL
  else if negb (__bit_mem_rd (cond_alloc s) cond) then s |> arg_ret arg THINKOS_EINVAL
  else if negb (__bit_mem_rd (mutex_alloc s) mutex) then s |> arg_ret arg THINKOS_EINVAL
  else if negb (rd (lock s) mutex =? self) then s |> arg_ret arg THINKOS_EPERM
  else
    let s := s |> __thinkos_wq_insert cwq self in
    let th := __thinkos_wq_head mwq s in
    let s := if th =? THINKOS_THREAD_NULL then s |> lock_store mutex (-1)
             else s |> lock_store mutex th |> __thinkos_wakeup mwq th in
    s |> arg_ret arg 0
      |> __thinkos_suspend self
      |> __thinkos_defer_sched.

Definition thinkos_cond_timedwait_svc (arg self : Z) (s : kernel) : kernel :=
  let cwq := arg_0 arg s in
  let mwq := arg_1 arg s in
  let cond := u32 (cwq - THINKOS_COND_BASE) in
  let mutex := u32 (mwq - THINKOS_MUTEX_BASE) in
  let ms := arg_2 arg s in
  if THINKOS_COND_MAX <=? cond then s |> arg_ret arg THINKOS_EINVAL
  else if THINKOS_MUTEX_MAX <=? mutex then s |> arg_ret arg THINKOS_EINVAL
  else if negb (__bit_mem_rd (cond_alloc s) cond) then s |> arg_ret arg THINKOS_EINVAL
  else if negb (__bit_mem_rd (mutex_alloc s) mutex) then s |> arg_ret arg THINKOS_EINVAL
  else if negb (rd (lock s) mutex =? self) then s |> arg_ret arg THINKOS_EPERM
  else
    let s := s |> __thinkos_tmdwq_insert cwq self ms in
    let th := __thinkos_wq_head mwq s in
    let s := if th =? THINKOS_THREAD_NULL then s |> lock_store mutex (-1)
             else s |> lock_store mutex th |> __thinkos_wakeup mwq th in
    s |> arg_ret arg THINKOS_ETIMEDOUT
      |> __thinkos_suspend self
      |> __thinkos_defer_sched.

Definition thinkos_cond_signal_svc (arg : Z) (s : kernel) : kernel :=
  let cwq := arg_0 arg s in
  let cond := u32 (cwq - THINKOS_COND_BASE) in
  if THINKOS_COND_MAX <=? cond then s |> arg_ret arg THINKOS_EINVAL
  else if negb (__bit_mem_rd (cond_alloc s) cond) then s |> arg_ret arg THINKOS_EINVAL
  else
    let th := __thinkos_wq_head cwq s in
    let s := if negb (th =? THINKOS_THREAD_NULL)
             then s |> __thinkos_wakeup cwq th |> __thinkos_defer_sched else s in
    s |> arg_ret arg 0.

Definition thinkos_cond_broadcast_svc (arg : Z) (s : kernel) : kernel :=
  let cwq := arg_0 arg s in
  let cond := u32 (cwq - THINKOS_COND_BASE) in
  if THINKOS_COND_MAX <=? cond then s |> arg_ret arg THINKOS_EINVAL
  else if negb (__bit_mem_rd (cond_alloc s) cond) then s |> arg_ret arg THINKOS_EINVAL
  else
    let th := __thinkos_wq_head cwq s in
    let s := if negb (th =? THINKOS_THREAD_NULL)
             then s |> __thinkos_wakeup cwq th
                    |> wq_drain 32 (__thinkos_wakeup cwq) cwq
                    |> __thinkos_defer_sched
             else s in
    s |> arg_ret arg 0.

(** ** Queue consistency *)

(** Entering one queue and waking another thread from a second queue are
    independent. *)
Lemma insert_wakeup_comm s cwq mwq self th :
  kernel_ok s -> sync_wq cwq -> sync_wq mwq ->
  0 <= self < THINKOS_THREADS_MAX -> 0 <= th < THINKOS_THREADS_MAX -> th <> self ->
  wq_lst (__thinkos_wakeup mwq th (__thinkos_wq_insert cwq self s)) =
    wq_lst (__thinkos_wq_insert cwq self (__thinkos_wakeup mwq th s)) /\
  th_stat (__thinkos_wakeup mwq th (__thinkos_wq_insert cwq self s)) =
    th_stat (__thinkos_wq_insert cwq self (__thinkos_wakeup mwq th s)).
Proof.
  intros K Hc Hm Hs Ht Hne. unfold sync_wq in *. pose proof (k_wq s K). kred. split.
  - rewrite (wq_bit_wr_comm_th _ cwq 0), (wq_bit_wr_comm_th _ cwq mwq), (wq_bit_wr_comm_th _ cwq 2)
      by (rewrite ?len_wq_bit_wr; lia). done.
  - by rewrite wr_comm by lia.
Qed.

Lemma tmd_insert_wakeup_comm s cwq mwq self th ms :
  kernel_ok s -> sync_wq cwq -> sync_wq mwq ->
  0 <= self < THINKOS_THREADS_MAX -> 0 <= th < THINKOS_THREADS_MAX -> th <> self ->
  wq_lst (__thinkos_wakeup mwq th (__thinkos_tmdwq_insert cwq self ms s)) =
    wq_lst (__thinkos_tmdwq_insert cwq self ms (__thinkos_wakeup mwq th s)) /\
  th_stat (__thinkos_wakeup mwq th (__thinkos_tmdwq_insert cwq self ms s)) =
    th_stat (__thinkos_tmdwq_insert cwq self ms (__thinkos_wakeup mwq th s)).
Proof.
  intros K Hc Hm Hs Ht Hne. unfold sync_wq in *. pose proof (k_wq s K). kred. split.
  - rewrite (wq_bit_wr_comm_th _ 2 0), (wq_bit_wr_comm_th _ cwq 0) by (rewrite ?len_wq_bit_wr; lia).
    rewrite (wq_bit_wr_comm_th _ 2 mwq), (wq_bit_wr_comm_th _ cwq mwq) by (rewrite ?len_wq_bit_wr; lia).
    rewrite (wq_bit_wr_comm_th _ 2 2), (wq_bit_wr_comm_th _ cwq 2) by (rewrite ?len_wq_bit_wr; lia).
    done.
  - by rewrite wr_comm by lia.
Qed.

Lemma head_insert s cwq mwq self :
  cwq <> mwq -> __thinkos_wq_head mwq (__thinkos_wq_insert cwq self s) = __thinkos_wq_head mwq s.
Proof. intros. unfold __thinkos_wq_head. kred. unfold wq_bit_wr. by rewrite rd_wr_ne. Qed.

Lemma head_tmd_insert s cwq mwq self ms :
  cwq <> mwq -> mwq <> THINKOS_WQ_CLOCK ->
  __thinkos_wq_head mwq (__thinkos_tmdwq_insert cwq self ms s) = __thinkos_wq_head mwq s.
Proof. intros. unfold __thinkos_wq_head. kred. unfold wq_bit_wr. by rewrite !rd_wr_ne. Qed.

(** Both kinds of wait at once. *)
Definition enter (tm : bool) (cwq self ms : Z) (s : kernel) : kernel :=
  if tm then __thinkos_tmdwq_insert cwq self ms s else __thinkos_wq_insert cwq self s.

Section enter.
Context (s : kernel) (K : kernel_ok s) (self : Z) (Hself : 0 <= self < THINKOS_THREADS_MAX).
Context (cwq : Z) (Hcw : sync_wq cwq) (tm : bool) (ms : Z).

Lemma enter_ok :
  timed_ok cwq tm -> calling s self -> kernel_ok (__thinkos_suspend self (enter tm cwq self ms s)).
Proof using K Hself Hcw.
  intros Ht Hc. unfold enter. destruct tm; [by apply tmdwq_insert_suspend_ok|by apply wq_insert_suspend_ok].
Qed.

Lemma mem_enter th' wq :
  THINKOS_WQ_CLOCK <= wq ->
  mem (__thinkos_suspend self (enter tm cwq self ms s)) th' wq =
    if ((cwq =? wq) || tm && (THINKOS_WQ_CLOCK =? wq)) && (self =? th') then true else mem s th' wq.
Proof using K Hself Hcw.
  intros Hwq. unfold enter. destruct tm; simpl.
  - by rewrite mem_tmd_insert_suspend.
  - rewrite orb_false_r. by rewrite mem_insert_suspend.
Qed.

Lemma enter_wakeup_comm mwq th :
  sync_wq mwq -> 0 <= th < THINKOS_THREADS_MAX -> th <> self ->
  wq_lst (__thinkos_wakeup mwq th (enter tm cwq self ms s)) =
    wq_lst (enter tm cwq self ms (__thinkos_wakeup mwq th s)) /\
  th_stat (__thinkos_wakeup mwq th (enter tm cwq self ms s)) =
    th_stat (enter tm cwq self ms (__thinkos_wakeup mwq th s)).
Proof using K Hself Hcw.
  intros. unfold enter. destruct tm; [by apply tmd_insert_wakeup_comm|by apply insert_wakeup_comm].
Qed.

Lemma head_enter mwq :
  cwq <> mwq -> mwq <> THINKOS_WQ_CLOCK ->
  __thinkos_wq_head mwq (enter tm cwq self ms s) = __thinkos_wq_head mwq s.
Proof using . intros. unfold enter. destruct tm; [by apply head_tmd_insert|by apply head_insert]. Qed.

Lemma enter_fields :
  lock (enter tm cwq self ms s) = lock s /\ th_alloc (enter tm cwq self ms s) = th_alloc s /\
  irq_th (enter tm cwq self ms s) = irq_th s /\ irq_en (enter tm cwq self ms s) = irq_en s /\
  frames (enter tm cwq self ms s) = frames s /\ ctx (enter tm cwq self ms s) = ctx s.
Proof using . unfold enter. by destruct tm. Qed.
End enter.

(** The common body of the two waits, past the argument checks. *)
Definition cond_wait_body (tm : bool) (cwq mwq mutex ms v arg self : Z) (s : kernel) : kernel :=
  let s := enter tm cwq self ms s in
  let th := __thinkos_wq_head mwq s in
  let s := if th =? THINKOS_THREAD_NULL then s |> lock_store mutex (-1)
           else s |> lock_store mutex th |> __thinkos_wakeup mwq th in
  s |> arg_ret arg v
    |> __thinkos_suspend self
    |> __thinkos_defer_sched.

Section wait.
Context (s : kernel) (K : kernel_ok s) (L : lock_ok s).
Context (arg self c m : Z) (Hself : 0 <= self < THINKOS_THREADS_MAX) (Hc : calling s self).
Context (Hlive : live arg s) (Hcond : 0 <= c < THINKOS_COND_MAX) (Hm : 0 <= m < THINKOS_MUTEX_MAX).
Context (Hown : rd (lock s) m = self) (tm : bool) (ms v : Z).

Lemma cond_sync : sync_wq (THINKOS_COND_BASE + c).
Proof using Hcond. unfold sync_wq. lia. Qed.

(** The mutex after the release, before the caller leaves the ready queue:
    what [thinkos_mutex_unlock] would leave. *)
Definition released : kernel :=
  let mwq := THINKOS_MUTEX_BASE + m in
  let th := __thinkos_wq_head mwq s in
  if th =? THINKOS_THREAD_NULL then lock_store m (-1) (arg_ret arg 0 s)
  else __thinkos_defer_sched (__thinkos_wakeup mwq th (lock_store m th (arg_ret arg 0 s))).

(** The thread the mutex goes to is not the caller. *)
Lemma heir_ne :
  __thinkos_wq_head (THINKOS_MUTEX_BASE + m) s <> THINKOS_THREAD_NULL ->
  __thinkos_wq_head (THINKOS_MUTEX_BASE + m) s <> self.
Proof using K Hself Hc Hm.
  intros Hn E. assert (Hw : sync_wq (3 + m)) by (unfold sync_wq; lia).
  destruct (sync_head s (3 + m) K Hw Hn) as [_ Hmem].
  destruct (calling_facts s K self Hself Hc) as (_ & _ & Hall). rewrite E, Hall in Hmem. lia.
Qed.

Lemma released_ok : kernel_ok released /\ calling released self.
Proof using K Hself Hc Hm.
  unfold released. cbv zeta. pose proof heir_ne as Hne.
  assert (Hw : sync_wq (3 + m)) by (unfold sync_wq; lia).
  destruct (Z.eqb_spec (__thinkos_wq_head (3 + m) s) 32) as [En|Hn].
  - split; [kframe|]. apply (calling_frame s); [by kred..|done].
  - destruct (sync_head s (3 + m) K Hw Hn) as [Hr Hmem]. specialize (Hne Hn).
    set (th := __thinkos_wq_head (3 + m) s) in *. split.
    + kvia (__thinkos_wakeup (3 + m) th s). by apply wakeup_ok.
    + apply (calling_frame (__thinkos_wakeup (3 + m) th s)); [by kred..|]. by apply wakeup_calling.
Qed.

Lemma released_facts :
  mutex_refines s arg self m (Unlock self) released /\ calling released self /\
  forall th, owner (mutex_of released m) = Some th -> woken s released th 0 /\ th <> self.
Proof using K L Hself Hc Hlive Hm Hown.
  unfold released. cbv zeta.
  destruct (Z.eqb_spec (__thinkos_wq_head (3 + m) s) 32) as [En|Hn].
  - destruct (release_free s K L arg self m) as [H1 H2]; try done.
    split_and!; [done| |by intros th; rewrite H2].
    apply (calling_frame s); [by kred..|done].
  - destruct (hand_off s K L arg self m) as (H1 & H2 & H3); try done.
    assert (Hw : sync_wq (3 + m)) by (unfold sync_wq; lia).
    destruct (sync_head s (3 + m) K Hw Hn) as [Hr Hmem].
    pose proof (heir_ne Hn) as Hne.
    split_and!; [done| |intros th; rewrite H2; by intros [= <-]].
    apply (calling_frame (__thinkos_wakeup (3 + m) (__thinkos_wq_head (3 + m) s) s)); [by kred..|].
    by apply wakeup_calling.
Qed.

Abbreviation body :=
  (cond_wait_body tm (THINKOS_COND_BASE + c) (THINKOS_MUTEX_BASE + m) m ms v arg self s).

(** The wait is the release followed by the entry into the queue. *)
Lemma body_queues :
  wq_lst body = wq_lst (__thinkos_suspend self (enter tm (THINKOS_COND_BASE + c) self ms released)) /\
  th_stat body = th_stat (enter tm (THINKOS_COND_BASE + c) self ms released) /\
  lock body = lock released /\ pendsv body = true.
Proof using K Hself Hc Hcond Hm.
  unfold cond_wait_body, released. cbv zeta. rewrite head_enter by lia.
  assert (Hw : sync_wq (3 + m)) by (unfold sync_wq; lia).
  destruct (Z.eqb_spec (__thinkos_wq_head (3 + m) s) 32) as [En|Hn].
  - unfold enter. destruct tm; kred; done.
  - destruct (sync_head s (3 + m) K Hw Hn) as [Hr Hmem].
    pose proof (heir_ne Hn) as Hne.
    destruct (enter_wakeup_comm s K self Hself (11 + c) cond_sync tm ms (3 + m) _ Hw Hr Hne) as [E1 E2].
    revert E1 E2. unfold enter. destruct tm; kred; intros E1 E2; rewrite E1, E2; by split_and!.
Qed.

Lemma body_frame :
  th_alloc body = th_alloc released /\ irq_th body = irq_th released /\ irq_en body = irq_en released.
Proof using .
  unfold cond_wait_body, released, enter. cbv zeta.
  repeat match goal with |- context [if ?b then _ else _] => destruct b end; by kred.
Qed.

Lemma body_ok : kernel_ok body.
Proof using K Hself Hc Hcond Hm.
  destruct body_queues as (E1 & E2 & _). destruct body_frame as (F1 & F2 & F3).
  destruct released_ok as [KU HcU]. set (U := released) in *. clearbody U.
  pose proof (enter_ok U KU self Hself (11 + c) cond_sync tm ms ltac:(unfold timed_ok; lia) HcU) as KE.
  destruct (enter_fields U self (11 + c) tm ms) as (_ & G1 & G2 & G3 & _ & _).
  apply (kernel_ok_frame (__thinkos_suspend self (enter tm (11 + c) self ms U)));
    [done|done|..|done]; [rewrite F1|rewrite F2|rewrite F3]; symmetry; assumption.
Qed.

(** What one wait does: [body] of both handlers. *)
Definition cond_waits (s' : kernel) : Prop :=
  mutex_step (Unlock self) (mutex_of s m) (mutex_of s' m) (Ret THINKOS_OK) /\
  (forall m', 0 <= m' < THINKOS_MUTEX_MAX -> m' <> m -> mutex_of s' m' = mutex_of s m') /\
  wq_set s' (THINKOS_COND_BASE + c) = {[self]} ∪ wq_set s (THINKOS_COND_BASE + c) /\
  observes arg self (THINKOS_COND_BASE + c) s' (Block tm) /\
  (forall th, owner (mutex_of s' m) = Some th -> calling s' th) /\
  kernel_ok s' /\ lock_ok s'.

Lemma released_cond :
  wq_set released (THINKOS_COND_BASE + c) = wq_set s (THINKOS_COND_BASE + c).
Proof using K Hcond Hm.
  apply wq_set_ext. intros th. unfold released. cbv zeta.
  assert (Hw : sync_wq (3 + m)) by (unfold sync_wq; lia).
  destruct (Z.eqb_spec (__thinkos_wq_head (3 + m) s) 32) as [En|Hn]; [done|].
  destruct (sync_head s (3 + m) K Hw Hn) as [Hr _].
  transitivity (mem (__thinkos_wakeup (3 + m) (__thinkos_wq_head (3 + m) s) s) th (11 + c));
    [unfold mem; by kred|].
  rewrite mem_wakeup by (done || lia). by destruct (Z.eqb_spec (3 + m) (11 + c)); [lia|].
Qed.

Lemma enter_calling U th :
  kernel_ok U -> th <> self -> calling U th ->
  calling (__thinkos_suspend self (enter tm (THINKOS_COND_BASE + c) self ms U)) th.
Proof using Hself Hcond.
  intros KU Hne [Hr Hst]. pose proof (k_wq U KU). split.
  - unfold mem, enter in *. destruct tm; kred; apply inq_suspend_ready_mono;
      rewrite ?len_wq_bit_wr; try lia; rewrite !inq_bit_wr by (rewrite ?len_wq_bit_wr; lia);
      destruct (Z.eqb_spec self th); try lia; by rewrite !andb_false_r.
  - unfold enter. destruct tm; kred; by rewrite rd_wr_ne by lia.
Qed.

Lemma body_waits :
  (tm = true -> arg_0 arg body = u32 THINKOS_ETIMEDOUT) -> cond_waits body.
Proof using K L Hself Hc Hlive Hcond Hm Hown.
  intros Hr. destruct body_queues as (E1 & E2 & E3 & E4).
  destruct released_facts as (((out & Hst & Hob) & Hoth & KU & LU) & HcU & Hwk).
  pose proof released_cond as Hqc. set (U := released) in *. clearbody U.
  pose proof (mem_enter U KU self Hself (11 + c) cond_sync tm ms) as Hme.
  assert (Hmem : forall th wq, 2 <= wq -> mem body th wq =
     if ((11 + c =? wq) || tm && (2 =? wq)) && (self =? th) then true else mem U th wq).
  { intros th wq Hwq. rewrite <- Hme by done. unfold mem. by rewrite E1. }
  pose proof body_ok as KB.
  assert (Hmq : forall m', 0 <= m' < 8 -> mutex_of body m' = mutex_of U m').
  { intros m' Hm'. unfold mutex_of. rewrite E3. f_equal. apply wq_set_ext. intros th.
    rewrite Hmem by lia. destruct (Z.eqb_spec (11 + c) (3 + m')), (Z.eqb_spec 2 (3 + m')); try lia.
    by rewrite andb_false_r. }
  assert (Hout : out = Ret 0).
  { assert (Ho : owner (mutex_of s m) = Some self).
    { simpl. rewrite Hown. by destruct (Z.eqb_spec self (-1)); [lia|]. }
    revert Hst Ho. generalize (mutex_of s m) as a, (mutex_of U m) as b. intros a b Hst Ho.
    inversion Hst; subst; simpl in Ho; try done; intuition congruence. }
  subst out. split_and!; try done.
  - by rewrite Hmq.
  - intros m' H1 H2. rewrite Hmq by done. auto.
  - rewrite <- Hqc. apply wq_set_add; [done|]. intros th. rewrite Hmem by lia. by rewrite Z.eqb_refl.
  - destruct (calling_facts U KU self Hself HcU) as (_ & _ & Hall).
    apply observes_block; try done; [apply cond_sync| |].
    + rewrite Hmem by lia. by rewrite !Z.eqb_refl.
    + rewrite Hmem by lia. rewrite !Z.eqb_refl, Hall.
      destruct (Z.eqb_spec (11 + c) 2); [lia|]. by destruct tm.
  - intros th. rewrite Hmq by done. intros Ho. destruct (Hwk th Ho) as [[Hcth _] Hne].
    apply (calling_frame (__thinkos_suspend self (enter tm (11 + c) self ms U))); [done|done|].
    by apply enter_calling.
  - split; [rewrite E3; apply LU|]. intros m' Hm'. rewrite E3.
    pose proof (Hmq m' Hm') as E. apply (f_equal waiters) in E. simpl in E. rewrite E. by apply LU.
Qed.
End wait.

(** ** The handlers *)

Lemma cond_waits_both s arg self c m :
  kernel_ok s -> lock_ok s -> 0 <= self < THINKOS_THREADS_MAX -> calling s self -> live arg s ->
  0 <= c < THINKOS_COND_MAX -> 0 <= m < THINKOS_MUTEX_MAX ->
  arg_0 arg s = THINKOS_COND_BASE + c -> arg_1 arg s = THINKOS_MUTEX_BASE + m ->
  Z.testbit (cond_alloc s) c = true -> Z.testbit (mutex_alloc s) m = true ->
  rd (lock s) m = self ->
  cond_waits s arg self c m false (thinkos_cond_wait_svc arg self s) /\
  cond_waits s arg self c m true (thinkos_cond_timedwait_svc arg self s).
Proof.
  intros K L Hs Hc Hl Hcd Hm H0 H1 Hca Hma Hown.
  unfold thinkos_cond_wait_svc, thinkos_cond_timedwait_svc. rewrite H0, H1, !handle_idx by lia.
  unfold __bit_mem_rd. rewrite Hca, Hma, Hown, Z.eqb_refl.
  destruct (Z.leb_spec 8 c); [lia|]. destruct (Z.leb_spec 8 m); [lia|]. simpl negb. cbv iota. split.
  - exact (body_waits s K L arg self c m Hs Hc Hl Hcd Hm Hown false 0 0 ltac:(done)).
  - apply (body_waits s K L arg self c m Hs Hc Hl Hcd Hm Hown true (arg_2 arg s) (-1)).
    intros _. unfold cond_wait_body. cbv zeta.
    match goal with |- context [if ?b then ?x else ?y] => set (s1 := if b then x else y) end.
    assert (Hl1 : live arg s1).
    { unfold s1. destruct (_ =? _); [done|]. by apply lookup_alter_is_Some. }
    clearbody s1. apply (arg_0_stored arg (-1) s1 Hl1). by kred.
Qed.

(** Whatever the arguments. *)
Lemma cond_wait_ok s arg self :
  kernel_ok s -> 0 <= self < THINKOS_THREADS_MAX -> calling s self ->
  kernel_ok (thinkos_cond_wait_svc arg self s) /\ kernel_ok (thinkos_cond_timedwait_svc arg self s).
Proof.
  intros K Hs Hc. unfold thinkos_cond_wait_svc, thinkos_cond_timedwait_svc.
  destruct (Z.leb_spec 8 (u32 (arg_0 arg s - 11))) as [|Hc8]; [split; kframe|].
  destruct (Z.leb_spec 8 (u32 (arg_1 arg s - 3))) as [|Hm8]; [split; kframe|].
  do 3 (match goal with |- context [if ?b then arg_ret _ _ _ else _] => destruct b end; [split; kframe|]).
  destruct (handle_range (arg_0 arg s) 11 8 (u32_range _)) as [Hr1 E1]; [lia|lia|done|].
  destruct (handle_range (arg_1 arg s) 3 8 (u32_range _)) as [Hr2 E2]; [lia|lia|done|].
  rewrite E2. set (c := arg_0 arg s - 11) in *. set (m := arg_1 arg s - 3) in *.
  replace (arg_0 arg s) with (11 + c) by lia. replace (arg_1 arg s) with (3 + m) by lia. split.
  - exact (body_ok s K arg self c m Hs Hc ltac:(lia) ltac:(lia) false 0 0).
  - exact (body_ok s K arg self c m Hs Hc ltac:(lia) ltac:(lia) true (arg_2 arg s) (-1)).
Qed.

Lemma cond_signal_ok s arg : kernel_ok s -> kernel_ok (thinkos_cond_signal_svc arg s).
Proof.
  intros K. unfold thinkos_cond_signal_svc. cbv zeta. guards. handle. kpeel.
  assert (Hw : sync_wq (arg_0 arg s)) by (unfold sync_wq; lia).
  destruct (Z.eqb_spec (__thinkos_wq_head (arg_0 arg s) s) 32) as [|Hn]; [done|]. simpl negb.
  destruct (sync_head s _ K Hw Hn) as [Hr' Hm]. cbv iota. kpeel. by apply wakeup_ok.
Qed.

Lemma cond_broadcast_ok s arg : kernel_ok s -> kernel_ok (thinkos_cond_broadcast_svc arg s).
Proof.
  intros K. unfold thinkos_cond_broadcast_svc. cbv zeta. guards. handle. kpeel.
  assert (Hw : sync_wq (arg_0 arg s)) by (unfold sync_wq; lia).
  destruct (Z.eqb_spec (__thinkos_wq_head (arg_0 arg s) s) 32) as [|Hn]; [done|]. simpl negb.
  cbv iota. kpeel. rewrite wq_drain_first by done.
  apply (wq_drain_spec (arg_0 arg s) 0); [apply _|done|done|lia].
Qed.

(** [thinkos_cond_wait] and [timedwait] called by the owner of the mutex
    release it (to the lowest numbered thread waiting for it, which becomes
    ready, or to nobody) and put the caller in the condition's queue, in one
    step; every other mutex is left alone and the invariants are kept. *)
Theorem cond_wait_releases s arg self c m :
  kernel_ok s -> lock_ok s -> 0 <= self < THINKOS_THREADS_MAX -> calling s self -> live arg s ->
  0 <= c < THINKOS_COND_MAX -> 0 <= m < THINKOS_MUTEX_MAX ->
  arg_0 arg s = THINKOS_COND_BASE + c -> arg_1 arg s = THINKOS_MUTEX_BASE + m ->
  Z.testbit (cond_alloc s) c = true -> Z.testbit (mutex_alloc s) m = true ->
  rd (lock s) m = self ->
  cond_waits s arg self c m false (thinkos_cond_wait_svc arg self s) /\
  cond_waits s arg self c m true (thinkos_cond_timedwait_svc arg self s).
Proof. apply cond_waits_both. Qed.

Lemma cond_alloc_ok s arg : kernel_ok s -> kernel_ok (thinkos_cond_alloc_svc arg s).
Proof.
  intros K. unfold thinkos_cond_alloc_svc. destruct (bmp_alloc_word _ _). cbv zeta. guards.
Qed.

Lemma cond_free_ok s arg : kernel_ok s -> kernel_ok (thinkos_cond_free_svc arg s).
Proof. intros K. unfold thinkos_cond_free_svc. cbv zeta. guards. Qed.

(** [thinkos_cond_signal] wakes the lowest numbered waiter, which sees its
    wait return 0, and no other thread; with no waiter it changes nothing but
    the caller's result. *)
Theorem cond_signal_wakes_one s arg c :
  kernel_ok s -> live arg s -> 0 <= c < THINKOS_COND_MAX ->
  arg_0 arg s = THINKOS_COND_BASE + c -> Z.testbit (cond_alloc s) c = true ->
  let s' := thinkos_cond_signal_svc arg s in
  let wq := THINKOS_COND_BASE + c in
  kernel_ok s' /\
  (wq_set s wq = ∅ -> s' = arg_ret arg 0 s) /\
  (wq_set s wq <> ∅ ->
     let th := __thinkos_wq_head wq s in
     th ∈ wq_set s wq /\ (forall th', th' ∈ wq_set s wq -> th <= th') /\
     wq_set s' wq = wq_set s wq ∖ {[th]} /\ calling s' th /\
     (live (rd (ctx s) th) s -> arg_0 (rd (ctx s) th) s' = 0) /\ pendsv s' = true).
Proof.
  intros K Hl Hcd H0 Hal. cbv zeta. unfold thinkos_cond_signal_svc.
  rewrite H0, handle_idx by lia. unfold __bit_mem_rd. rewrite Hal.
  destruct (Z.leb_spec 8 c); [lia|]. simpl negb. cbv iota zeta.
  assert (Hw : sync_wq (11 + c)) by (unfold sync_wq; lia).
  destruct (Z.eqb_spec (__thinkos_wq_head (11 + c) s) 32) as [En|Hn]; simpl negb; cbv iota.
  - split_and!; [kframe|done|]. intros Hne. by apply wq_set_empty in En.
  - destruct (sync_head s (11 + c) K Hw Hn) as [Hr Hm].
    destruct (wq_set_head s (11 + c) K Hw Hn) as [Hin Hle].
    set (th := __thinkos_wq_head (11 + c) s) in *.
    destruct (wakeup_woken s K th Hr (11 + c) Hw Hm) as [Hcall _].
    split; [kpeel; exact (wakeup_ok s K th Hr (11 + c) Hw Hm)|].
    split; [intros E; rewrite E in Hin; by apply not_elem_of_empty in Hin|]. intros _.
    split; [exact Hin|]. split; [exact Hle|]. split_and!; [| | |by kred].
    + apply wq_set_del. intros th'. rewrite mem_arg_ret, mem_defer, mem_wakeup by (done || lia).
      by rewrite Z.eqb_refl.
    + apply (calling_frame (__thinkos_wakeup (11 + c) th s)); [by kred..|done].
    + intros Hlv. apply (arg_0_both _ arg 0 s); [done|by kred].
Qed.

(** C14: [thinkos_cond_broadcast] wakes every waiter, each of which sees its
    wait return 0, empties the queue, and changes no other queue; the loop
    ends within its fuel. *)
Theorem cond_broadcast_wakes_all s arg c :
  kernel_ok s -> live arg s -> 0 <= c < THINKOS_COND_MAX ->
  arg_0 arg s = THINKOS_COND_BASE + c -> Z.testbit (cond_alloc s) c = true ->
  exists s1, drained (THINKOS_COND_BASE + c) 0 s s1 /\
    thinkos_cond_broadcast_svc arg s =
      arg_ret arg 0 (if decide (wq_set s (THINKOS_COND_BASE + c) = ∅) then s1
                     else __thinkos_defer_sched s1).
Proof.
  intros K Hl Hcd H0 Hal. unfold thinkos_cond_broadcast_svc.
  rewrite H0, handle_idx by lia. unfold __bit_mem_rd. rewrite Hal.
  destruct (Z.leb_spec 8 c); [lia|]. simpl negb. cbv iota zeta.
  assert (Hw : sync_wq (11 + c)) by (unfold sync_wq; lia).
  destruct (Z.eqb_spec (__thinkos_wq_head (11 + c) s) 32) as [En|Hn]; simpl negb; cbv iota.
  - apply wq_set_empty in En; [|done..]. exists s. rewrite decide_True by done. split; [|done].
    split_and!; [done|done| |done|done]. intros th. rewrite En. intros H'.
    exfalso. exact (not_elem_of_empty th H').
  - rewrite wq_drain_first by done.
    exists (wq_drain 33 (__thinkos_wakeup (11 + c)) (11 + c) s).
    rewrite decide_False by (intros E; apply Hn; by apply wq_set_empty).
    split; [|done]. apply wq_drain_spec; [apply _|done|done|lia].
Qed.

(** ** Sample *)

(** Thread 0 owns mutex 0, for which thread 2 waits; threads 1 and 3 wait on
    condition 0. *)
Definition cond_demo : kernel :=
  demo_call THINKOS_COND_BASE THINKOS_MUTEX_BASE 50 0
    (demo |> set_mutex_alloc 4294967041 |> set_cond_alloc 4294967041 |> lock_store 0 0
          |> demo_wait 2 THINKOS_MUTEX_BASE
          |> demo_wait 1 THINKOS_COND_BASE |> demo_wait 3 THINKOS_COND_BASE).

Lemma cond_wait_releases_witness :
  cond_waits cond_demo (record_of 0) 0 0 0 false (thinkos_cond_wait_svc (record_of 0) 0 cond_demo) /\
  cond_waits cond_demo (record_of 0) 0 0 0 true (thinkos_cond_timedwait_svc (record_of 0) 0 cond_demo) /\
  rd (lock (thinkos_cond_wait_svc (record_of 0) 0 cond_demo)) 0 = 2.
Proof.
  destruct (cond_wait_releases cond_demo (record_of 0) 0 0 0) as [H1 H2];
    [kernel_ok_compute| |lia|split; vm_compute; reflexivity|eexists; vm_compute; reflexivity
    |lia|lia|vm_compute; reflexivity..|].
  - split; [reflexivity|]. intros m Hm.
    z_cases m; (split; [vm_compute; split; congruence|vm_compute; congruence || reflexivity]).
  - split; [exact H1|]. split; [exact H2|]. vm_compute. reflexivity.
Defined.

Lemma cond_signal_wakes_one_witness :
  let s' := thinkos_cond_signal_svc (record_of 0) cond_demo in
  kernel_ok s' /\ wq_set s' THINKOS_COND_BASE = {[3]} /\ calling s' 1 /\ pendsv s' = true.
Proof.
  destruct (cond_signal_wakes_one cond_demo (record_of 0) 0) as (H1 & _ & H3);
    [kernel_ok_compute|eexists; vm_compute; reflexivity|lia|vm_compute; reflexivity..|].
  destruct H3 as (_ & _ & _ & H4 & _ & H5); [vm_compute; congruence|].
  split; [exact H1|]. split; [vm_compute; reflexivity|]. split; [|exact H5].
  replace 1 with (__thinkos_wq_head (11 + 0) cond_demo) by (vm_compute; reflexivity). exact H4.
Defined.

Lemma cond_broadcast_wakes_all_witness :
  exists s1, drained THINKOS_COND_BASE 0 cond_demo s1 /\
    thinkos_cond_broadcast_svc (record_of 0) cond_demo = arg_ret (record_of 0) 0 (__thinkos_defer_sched s1).
Proof.
  destruct (cond_broadcast_wakes_all cond_demo (record_of 0) 0) as (s1 & H1 & H2);
    [kernel_ok_compute|eexists; vm_compute; reflexivity|lia|vm_compute; reflexivity..|].
  exists s1. split; [exact H1|].
  rewrite decide_False in H2 by (vm_compute; congruence). exact H2.
Defined.
