(* ===== verification/Event.v ===== *)
(** * Event sets

    The handlers of src/sdk/libthinkos/thinkos_event.c, run without
    interference, and the abstract event set they implement: 32 events, a set
    of pending ones, a mask of enabled ones, and a queue of threads waiting
    for any enabled event. *)

From stdpp Require Import base tactics numbers list gmap.
From Stdlib Require Import ZArith Lia.
From S2P Require Import Prelude CortexM State Kernel BmpAlloc Invariant Decide Init Demo Transitions.

(** ** Code *)

(** The two words of event set [no]. *)
Definition ev_pend (s : kernel) (no : Z) : Z := rd (ev s) (2 * no).
Definition ev_mask (s : kernel) (no : Z) : Z := rd (ev s) (2 * no + 1).
Definition ev_store (w v : Z) (s : kernel) : kernel := set_ev (wr (ev s) w v) s.

(** Bit-band write and read of bit [bit] counted from word [w]: a bit number
    over 31 reaches the words that follow, and past the last one memory that
    is not part of the event sets. *)
Definition ev_bit_store (w bit : Z) (v : bool) (s : kernel) : kernel :=
  let i := w + bit / 32 in
  s |> set_wild (wild s || (8 <=? i))
    |> set_ev (wr (ev s) i (__bit_mem_wr (rd (ev s) i) (bit mod 32) v)).

Definition ev_bit_load (w bit : Z) (s : kernel) : bool :=
  Z.testbit (rd (ev s) (w + bit / 32)) (bit mod 32).

(** [1 << n] with the shift amount in a register: its low byte counts. *)
Definition lsl1 (n : Z) : Z := if n mod 256 <? 32 then Z.shiftl 1 (n mod 256) else 0.

Definition thinkos_ev_alloc_svc (arg : Z) (s : kernel) : kernel :=
  let '(bmp, idx) := bmp_alloc_word (ev_alloc s) THINKOS_EVENT_MAX in
  let s := set_ev_alloc bmp s in
  if 0 <=? idx then
    s |> ev_store (2 * idx + 1) 4294967295
      |> ev_store (2 * idx) 0
      |> arg_ret arg (idx + THINKOS_EVENT_BASE)
  else s |> arg_ret arg idx.

Definition thinkos_ev_free_svc (arg : Z) (s : kernel) : kernel :=
  let wq := arg_0 arg s in
  if (wq <? THINKOS_EVENT_BASE) || (THINKOS_EVENT_BASE + THINKOS_EVENT_MAX <=? wq)
  then s |> arg_ret arg THINKOS_EINVAL
  else set_ev_alloc (__bit_mem_wr (ev_alloc s) (wq - THINKOS_EVENT_BASE) false) s.

(** From the label [again]; [n] bounds the rollbacks. *)
Fixpoint ev_wait_again (n : nat) (wq no mask arg self : Z) (s : kernel) : kernel :=
  match n with
  | O => s
  | S n =>
      let pend := ev_pend s no in
      let e := __clz (__rbit (Z.land pend mask)) in
      if e <? 32 then
        s |> ev_store (2 * no) (Z.ldiff pend (Z.shiftl 1 e))
          |> arg_ret arg e
      else
        let s := s |> __thinkos_suspend self
                   |> th_stat_store self (Z.shiftl wq 1)
                   |> ctx_store self arg in
        let queue := Z.lor (rd (wq_lst s) wq) (Z.shiftl 1 self) in
        if __clz (__rbit (Z.land (ev_pend s no) mask)) <? 32 then
          s |> th_stat_store self 0
            |> wq_bit_store THINKOS_WQ_READY self true
            |> ev_wait_again n wq no mask arg self
        else
          s |> wq_store wq queue
            |> __thinkos_defer_sched
  end.

Definition thinkos_ev_wait_svc (arg self : Z) (s : kernel) : kernel :=
  let wq := arg_0 arg s in
  let no := u32 (wq - THINKOS_EVENT_BASE) in
  if THINKOS_EVENT_MAX <=? no then s |> arg_ret arg THINKOS_EINVAL
  else if negb (__bit_mem_rd (ev_alloc s) no) then s |> arg_ret arg THINKOS_EINVAL
  else ev_wait_again 2 wq no (ev_mask s no) arg self s.

Fixpoint ev_timedwait_again (n : nat) (wq no mask ms arg self : Z) (s : kernel) : kernel :=
  match n with
  | O => s
  | S n =>
      let pend := ev_pend s no in
      let e := __clz (__rbit (Z.land pend mask)) in
      if e <? 32 then
        s |> ev_store (2 * no) (Z.ldiff pend (Z.shiftl 1 e))
          |> arg_ret arg e
      else
        let s := s |> __thinkos_suspend self
                   |> th_stat_store self (Z.shiftl wq 1 + 1)
                   |> ctx_store self arg in
        let queue := Z.lor (rd (wq_lst s) wq) (Z.shiftl 1 self) in
        if __clz (__rbit (Z.land (ev_pend s no) mask)) <? 32 then
          s |> th_stat_store self 0
            |> wq_bit_store THINKOS_WQ_READY self true
            |> ev_timedwait_again n wq no mask ms arg self
        else
          s |> wq_store wq queue
            |> clock_store self (ticks s + ms)
            |> wq_bit_store THINKOS_WQ_CLOCK self true
            |> arg_ret arg THINKOS_ETIMEDOUT
            |> __thinkos_defer_sched
  end.

Definition thinkos_ev_timedwait_svc (arg self : Z) (s : kernel) : kernel :=
  let wq := arg_0 arg s in
  let ms := arg_1 arg s in
  let no := u32 (wq - THINKOS_EVENT_BASE) in
  if THINKOS_EVENT_MAX <=? no then s |> arg_ret arg THINKOS_EINVAL
  else if negb (__bit_mem_rd (ev_alloc s) no) then s |> arg_ret arg THINKOS_EINVAL
  else ev_timedwait_again 2 wq no (ev_mask s no) ms arg self s.

Definition __thinkos_ev_raise_i (wq e : Z) (s : kernel) : kernel :=
  let no := wq - THINKOS_EVENT_BASE in
  if negb (ev_bit_load (2 * no + 1) e s) then s |> ev_bit_store (2 * no) e true
  else
    let queue := rd (wq_lst s) wq in
    let th := __clz (__rbit queue) in
    if th =? THINKOS_THREAD_NULL then s |> ev_bit_store (2 * no) e true
    else
      s |> wq_store wq (Z.ldiff queue (Z.shiftl 1 th))
        |> ready_return th e.

Definition cm3_except9_isr (wq e : Z) (s : kernel) : kernel :=
  s |> __thinkos_ev_raise_i wq e
    |> __thinkos_preempt.

Definition thinkos_ev_raise_svc (arg : Z) (s : kernel) : kernel :=
  let wq := arg_0 arg s in
  let e := arg_1 arg s in
  let no := u32 (wq - THINKOS_EVENT_BASE) in
  if 31 <? e then s |> arg_ret arg THINKOS_EINVAL
  else if THINKOS_EVENT_MAX <=? no then s |> arg_ret arg THINKOS_EINVAL
  else if negb (__bit_mem_rd (ev_alloc s) no) then s |> arg_ret arg THINKOS_EINVAL
  else
    s |> arg_ret arg 0
      |> __thinkos_ev_raise_i wq e
      |> __thinkos_defer_sched.

Definition thinkos_ev_mask_svc (arg : Z) (s : kernel) : kernel :=
  let wq := arg_0 arg s in
  let e := arg_1 arg s in
  let val := arg_2 arg s in
  let no := u32 (wq - THINKOS_EVENT_BASE) in
  if THINKOS_EVENT_MAX <=? no then s |> arg_ret arg THINKOS_EINVAL
  else if negb (__bit_mem_rd (ev_alloc s) no) then s |> arg_ret arg THINKOS_EINVAL
  else
    let s := s |> arg_ret arg 0 in
    if val =? 0 then s |> ev_bit_store (2 * no + 1) e false
    else
      let mask := ev_mask s no in
      if negb (Z.land mask (lsl1 e) =? 0) then s
      else if negb (ev_bit_load (2 * no) e s) then
        s |> ev_store (2 * no + 1) (Z.lor mask (lsl1 e))
      else
        let queue := rd (wq_lst s) wq in
        let th := __clz (__rbit queue) in
        if th =? THINKOS_THREAD_NULL then s |> ev_bit_store (2 * no + 1) e true
        else
          s |> wq_store wq (Z.ldiff queue (Z.shiftl 1 th))
            |> ev_bit_store (2 * no) e false
            |> ev_bit_store (2 * no + 1) e true
            |> ready_return th e
            |> __thinkos_defer_sched.

Definition thinkos_ev_clear_svc (arg : Z) (s : kernel) : kernel :=
  let wq := arg_0 arg s in
  let e := arg_1 arg s in
  let no := u32 (wq - THINKOS_EVENT_BASE) in
  if THINKOS_EVENT_MAX <=? no then s |> arg_ret arg THINKOS_EINVAL
  else if negb (__bit_mem_rd (ev_alloc s) no) then s |> arg_ret arg THINKOS_EINVAL
  else
    s |> arg_ret arg 0
      |> ev_bit_store (2 * no) e false.

(** ** Abstract event set *)

Record ev_abs := mk_ev { pend : Z; mask : Z; waiting : gset Z }.

Inductive ev_op :=
  | EvWait (self : Z) | EvTimedWait (self : Z) | EvRaise (e : Z) | EvEnable (e : Z)
  | EvDisable (e : Z) | EvClear (e : Z).

(** The event of a wake-up goes to the lowest numbered waiter. *)
Inductive ev_step : ev_op -> ev_abs -> ev_abs -> outcome -> option (Z * Z) -> Prop :=
  | ev_take op self p m W e :
      op = EvWait self \/ op = EvTimedWait self ->
      0 <= e < 32 -> Z.testbit p e = true -> Z.testbit m e = true ->
      (forall j, 0 <= j < e -> Z.testbit p j && Z.testbit m j = false) ->
      ev_step op (mk_ev p m W) (mk_ev (Z.clearbit p e) m W) (Ret e) None
  | ev_block op self tm p m W :
      op = EvWait self /\ tm = false \/ op = EvTimedWait self /\ tm = true ->
      (forall j, 0 <= j < 32 -> Z.testbit p j && Z.testbit m j = false) ->
      ev_step op (mk_ev p m W) (mk_ev p m ({[self]} ∪ W)) (Block tm) None
  | ev_pends e p m W : Z.testbit m e = false \/ W = ∅ ->
      ev_step (EvRaise e) (mk_ev p m W) (mk_ev (Z.setbit p e) m W) (Ret 0) None
  | ev_wakes e p m W th : Z.testbit m e = true -> th ∈ W -> (forall th', th' ∈ W -> th <= th') ->
      ev_step (EvRaise e) (mk_ev p m W) (mk_ev p m (W ∖ {[th]})) (Ret 0) (Some (th, e))
  | ev_enables e p m W : Z.testbit m e = true \/ Z.testbit p e = false \/ W = ∅ ->
      ev_step (EvEnable e) (mk_ev p m W) (mk_ev p (Z.setbit m e) W) (Ret 0) None
  | ev_enables_wakes e p m W th :
      Z.testbit m e = false -> Z.testbit p e = true -> th ∈ W -> (forall th', th' ∈ W -> th <= th') ->
      ev_step (EvEnable e) (mk_ev p m W) (mk_ev (Z.clearbit p e) (Z.setbit m e) (W ∖ {[th]}))
        (Ret 0) (Some (th, e))
  | ev_disables e p m W :
      ev_step (EvDisable e) (mk_ev p m W) (mk_ev p (Z.clearbit m e) W) (Ret 0) None
  | ev_clears e p m W :
      ev_step (EvClear e) (mk_ev p m W) (mk_ev (Z.clearbit p e) m W) (Ret 0) None.

(** The abstraction of set [no]. *)
Definition ev_of (s : kernel) (no : Z) : ev_abs :=
  mk_ev (ev_pend s no) (ev_mask s no) (wq_set s (THINKOS_EVENT_BASE + no)).

(** A set with an enabled pending event has no waiter. *)
Definition ev_ok (s : kernel) : Prop :=
  len (ev s) = 2 * THINKOS_EVENT_MAX /\
  (forall w, 0 <= w < 2 * THINKOS_EVENT_MAX -> 0 <= rd (ev s) w < 4294967296) /\
  forall no j, 0 <= no < THINKOS_EVENT_MAX -> 0 <= j < 32 ->
    Z.testbit (ev_pend s no) j && Z.testbit (ev_mask s no) j = true ->
    wq_set s (THINKOS_EVENT_BASE + no) = ∅.

(** ** Queue consistency *)

Lemma ev_wait_again_eq n wq no mask arg self s :
  ev_wait_again (S n) wq no mask arg self s =
  let e := __clz (__rbit (Z.land (ev_pend s no) mask)) in
  if e <? 32 then arg_ret arg e (ev_store (2 * no) (Z.ldiff (ev_pend s no) (Z.shiftl 1 e)) s)
  else
    __thinkos_defer_sched (wq_bit_store wq self true
      (ctx_store self arg (th_stat_store self (Z.shiftl wq 1) (__thinkos_suspend self s)))).
Proof.
  cbn [ev_wait_again].
  change (ev_pend (ctx_store _ _ (th_stat_store _ _ (__thinkos_suspend self s))) no) with (ev_pend s no).
  cbv zeta. by destruct (_ <? 32).
Qed.

Lemma ev_timedwait_again_eq n wq no mask ms arg self s :
  ev_timedwait_again (S n) wq no mask ms arg self s =
  let e := __clz (__rbit (Z.land (ev_pend s no) mask)) in
  if e <? 32 then arg_ret arg e (ev_store (2 * no) (Z.ldiff (ev_pend s no) (Z.shiftl 1 e)) s)
  else
    __thinkos_defer_sched (arg_ret arg THINKOS_ETIMEDOUT
      (wq_bit_store THINKOS_WQ_CLOCK self true (clock_store self (ticks s + ms)
      (wq_bit_store wq self true
      (ctx_store self arg (th_stat_store self (Z.shiftl wq 1 + 1) (__thinkos_suspend self s))))))).
Proof.
  cbn [ev_timedwait_again].
  change (ev_pend (ctx_store _ _ (th_stat_store _ _ (__thinkos_suspend self s))) no) with (ev_pend s no).
  cbv zeta. by destruct (_ <? 32).
Qed.

Lemma ev_raise_eq wq e s :
  __thinkos_ev_raise_i wq e s =
  let no := wq - THINKOS_EVENT_BASE in
  if negb (ev_bit_load (2 * no + 1) e s) then ev_bit_store (2 * no) e true s
  else if __thinkos_wq_head wq s =? THINKOS_THREAD_NULL then ev_bit_store (2 * no) e true s
  else ready_return (__thinkos_wq_head wq s) e (wq_bit_store wq (__thinkos_wq_head wq s) false s).
Proof. done. Qed.

(** Like [kframe], through the stores of this file. *)
Ltac ev_red := unfold ev_bit_store, ev_store; cbv zeta.

Lemma ev_raise_i_ok s wq e :
  kernel_ok s -> THINKOS_EVENT_BASE <= wq < THINKOS_EVENT_BASE + THINKOS_EVENT_MAX ->
  kernel_ok (__thinkos_ev_raise_i wq e s).
Proof.
  intros K Hwq. assert (Hw : sync_wq wq) by (unfold sync_wq; lia).
  rewrite ev_raise_eq. ev_red. guards.
  destruct (sync_head s wq K Hw) as [Hr Hm]; [done|]. by apply ready_return_ok.
Qed.

Lemma ev_isr_ok s wq e :
  kernel_ok s -> THINKOS_EVENT_BASE <= wq < THINKOS_EVENT_BASE + THINKOS_EVENT_MAX ->
  kernel_ok (cm3_except9_isr wq e s).
Proof. intros K Hwq. unfold cm3_except9_isr. kpeel. by apply ev_raise_i_ok. Qed.

Section ok.
Context (s : kernel) (K : kernel_ok s) (arg self : Z).
Context (Hself : 0 <= self < THINKOS_THREADS_MAX) (Hc : calling s self).

Lemma ev_alloc_ok : kernel_ok (thinkos_ev_alloc_svc arg s).
Proof using K.
  unfold thinkos_ev_alloc_svc. destruct (bmp_alloc_word _ _). ev_red. guards.
Qed.

Lemma ev_free_ok : kernel_ok (thinkos_ev_free_svc arg s).
Proof using K. unfold thinkos_ev_free_svc. cbv zeta. guards. Qed.

Lemma ev_clear_ok : kernel_ok (thinkos_ev_clear_svc arg s).
Proof using K. unfold thinkos_ev_clear_svc. ev_red. guards. Qed.

Lemma ev_wait_ok : kernel_ok (thinkos_ev_wait_svc arg self s).
Proof using K Hself Hc.
  unfold thinkos_ev_wait_svc. cbv zeta. guards. handle. rewrite ev_wait_again_eq. ev_red. guards.
  kvia (wq_bit_store (arg_0 arg s) self true
    (th_stat_store self (Z.shiftl (arg_0 arg s) 1) (__thinkos_suspend self s))).
  apply suspend_queue_ok; try done. unfold sync_wq. lia.
Qed.

Lemma ev_timedwait_ok : kernel_ok (thinkos_ev_timedwait_svc arg self s).
Proof using K Hself Hc.
  unfold thinkos_ev_timedwait_svc. cbv zeta. guards. handle. rewrite ev_timedwait_again_eq.
  ev_red. guards.
  kvia (wq_bit_store THINKOS_WQ_CLOCK self true (wq_bit_store (arg_0 arg s) self true
    (th_stat_store self (Z.shiftl (arg_0 arg s) 1 + 1) (__thinkos_suspend self s)))).
  apply suspend_tqueue_ok; try done; unfold sync_wq, timed_ok; lia.
Qed.

Lemma ev_raise_ok : kernel_ok (thinkos_ev_raise_svc arg s).
Proof using K.
  unfold thinkos_ev_raise_svc. cbv zeta. guards. handle. kpeel.
  apply ev_raise_i_ok; [by kpeel|lia].
Qed.

Lemma ev_mask_ok : kernel_ok (thinkos_ev_mask_svc arg s).
Proof using K.
  unfold thinkos_ev_mask_svc. ev_red. guards. handle.
  change (__clz (__rbit (rd (wq_lst (arg_ret arg 0 s)) (arg_0 arg s))))
    with (__thinkos_wq_head (arg_0 arg s) s) in *.
  assert (Hw : sync_wq (arg_0 arg s)) by (unfold sync_wq; lia).
  destruct (sync_head s (arg_0 arg s) K Hw) as [Hr' Hm]; [done|].
  kvia (ready_return (__thinkos_wq_head (arg_0 arg s) s) (arg_1 arg s)
         (wq_bit_store (arg_0 arg s) (__thinkos_wq_head (arg_0 arg s) s) false s)).
  by apply ready_return_ok.
Qed.
End ok.

(** ** Refinement *)

Section refinement.
Context (s : kernel) (K : kernel_ok s) (L : ev_ok s).
Context (no : Z) (Hno : 0 <= no < THINKOS_EVENT_MAX).

Definition ev_frame (s' : kernel) : Prop :=
  (forall j, 0 <= j < THINKOS_EVENT_MAX -> j <> no -> ev_of s' j = ev_of s j) /\
  kernel_ok s' /\ ev_ok s'.

Lemma ev_sync : sync_wq (THINKOS_EVENT_BASE + no).
Proof using Hno. unfold sync_wq. lia. Qed.

Lemma ev_words : 0 <= ev_pend s no < 4294967296 /\ 0 <= ev_mask s no < 4294967296.
Proof using L Hno. destruct L as (Hl & Hr & _). split; apply Hr; lia. Qed.

(** Set [no] becomes [p], [m] and no other set's queue changes. *)
Lemma ev_change p m s' :
  ev s' = wr (wr (ev s) (2 * no) p) (2 * no + 1) m ->
  0 <= p < 4294967296 -> 0 <= m < 4294967296 ->
  (forall j, j <> no -> 0 <= j < THINKOS_EVENT_MAX ->
     wq_set s' (THINKOS_EVENT_BASE + j) = wq_set s (THINKOS_EVENT_BASE + j)) ->
  (forall j, 0 <= j < 32 -> Z.testbit p j && Z.testbit m j = true ->
     wq_set s' (THINKOS_EVENT_BASE + no) = ∅) ->
  kernel_ok s' ->
  ev_of s' no = mk_ev p m (wq_set s' (THINKOS_EVENT_BASE + no)) /\ ev_frame s'.
Proof using L Hno.
  intros Ev Hp Hm Hq He K'. destruct L as (Ll & Lw & Lr).
  assert (Hrd : forall w, rd (ev s') w =
    if w =? 2 * no + 1 then m else if w =? 2 * no then p else rd (ev s) w).
  { intros w. rewrite Ev, rd_wr by (rewrite ?len_wr; lia). rewrite rd_wr by lia.
    by rewrite (Z.eqb_sym w), (Z.eqb_sym w). }
  assert (Hof : forall j, ev_pend s' j = (if j =? no then p else ev_pend s j) /\
                          ev_mask s' j = (if j =? no then m else ev_mask s j)).
  { intros j. unfold ev_pend, ev_mask. rewrite !Hrd.
    destruct (Z.eqb_spec j no), (Z.eqb_spec (2 * j) (2 * no + 1)), (Z.eqb_spec (2 * j) (2 * no)),
      (Z.eqb_spec (2 * j + 1) (2 * no + 1)), (Z.eqb_spec (2 * j + 1) (2 * no)); try lia; done. }
  split.
  { unfold ev_of. destruct (Hof no) as [-> ->]. by rewrite Z.eqb_refl. }
  unfold ev_frame, ev_ok. split_and!; [| |by rewrite Ev, !len_wr| |].
  - intros j Hj Hne. unfold ev_of. destruct (Hof j) as [-> ->]. rewrite Hq by done.
    by destruct (Z.eqb_spec j no).
  - exact K'.
  - intros w Hw. rewrite Hrd. repeat zb_case; try done. by apply Lw.
  - intros j i Hj Hi. destruct (Hof j) as [-> ->]. destruct (Z.eqb_spec j no) as [->|Hne].
    + intros H. exact (He i Hi H).
    + rewrite Hq by done. by apply Lr.
Qed.

(** The stores of single words and bits in that form. *)
Lemma ev_pend_store p : wr (ev s) (2 * no) p = wr (wr (ev s) (2 * no) p) (2 * no + 1) (ev_mask s no).
Proof using .
  unfold ev_mask. rewrite <- (rd_wr_ne (ev s) (2 * no) (2 * no + 1) p) by lia. by rewrite wr_rd_id.
Qed.

Lemma ev_mask_store m : wr (ev s) (2 * no + 1) m = wr (wr (ev s) (2 * no) (ev_pend s no)) (2 * no + 1) m.
Proof using . unfold ev_pend. by rewrite wr_rd_id. Qed.

Lemma ev_bit_in w e v s0 :
  0 <= e < 32 -> ev (ev_bit_store w e v s0) = wr (ev s0) w (__bit_mem_wr (rd (ev s0) w) e v).
Proof using .
  intros He. unfold ev_bit_store. cbv zeta. kred.
  by rewrite Z.div_small, Z.mod_small, Z.add_0_r by lia.
Qed.

Lemma ev_load_in w e s0 : 0 <= e < 32 -> ev_bit_load w e s0 = Z.testbit (rd (ev s0) w) e.
Proof using .
  intros He. unfold ev_bit_load. by rewrite Z.div_small, Z.mod_small, Z.add_0_r by lia.
Qed.

Definition wakes (s' : kernel) (wk : option (Z * Z)) : Prop :=
  match wk with Some (th, e) => woken s s' th e | None => True end.

(** Raising an event, from a system call or from an interrupt handler. *)
Lemma ev_raise_i_refines e :
  0 <= e < 32 ->
  let s' := __thinkos_ev_raise_i (THINKOS_EVENT_BASE + no) e s in
  (exists wk, ev_step (EvRaise e) (ev_of s no) (ev_of s' no) (Ret 0) wk /\ wakes s' wk) /\ ev_frame s'.
Proof using K L Hno.
  intros He s'. pose proof ev_sync as Hw. destruct ev_words as [Hp Hm].
  assert (K' : kernel_ok s') by (apply ev_raise_i_ok; [done|lia]). revert K'. unfold s'. clear s'.
  rewrite ev_raise_eq. cbv zeta. replace (27 + no - 27) with no by lia. rewrite ev_load_in by done.
  fold (ev_mask s no).
  assert (Hpd : Z.testbit (ev_mask s no) e = false \/ wq_set s (27 + no) = ∅ ->
    kernel_ok (ev_bit_store (2 * no) e true s) ->
    (exists wk, ev_step (EvRaise e) (ev_of s no) (ev_of (ev_bit_store (2 * no) e true s) no) (Ret 0) wk /\
       wakes (ev_bit_store (2 * no) e true s) wk) /\ ev_frame (ev_bit_store (2 * no) e true s)).
  { intros Hor K'. set (s' := ev_bit_store _ _ _ _) in *.
    assert (Hq : forall w, wq_set s' w = wq_set s w) by (intros; by apply wq_set_ext).
    destruct (ev_change (Z.setbit (ev_pend s no) e) (ev_mask s no) s') as [E F].
    - unfold s'. rewrite ev_bit_in by done. apply ev_pend_store.
    - by apply (bit_wr_range _ e true).
    - done.
    - by intros.
    - intros j Hj. rewrite Z.setbit_eqb, Hq by lia. destruct Hor as [Hor|Hor]; [|done].
      destruct (Z.eqb_spec e j) as [<-|]; [by rewrite Hor|]. simpl. by apply (proj2 (proj2 L) no j).
    - exact K'.
    - split; [|exact F]. exists None. rewrite E, Hq. split; [by apply ev_pends|done]. }
  destruct (Z.testbit (ev_mask s no) e) eqn:Eb; simpl negb; cbv iota; [|auto].
  destruct (Z.eqb_spec (__thinkos_wq_head (27 + no) s) 32) as [En|Hn]; intros K'.
  { apply Hpd; [|done]. right. by apply wq_set_empty. }
  clear Hpd. destruct (sync_head s (27 + no) K Hw Hn) as [Hr Hmem].
  destruct (wq_set_head s (27 + no) K Hw Hn) as [Hin Hleast].
  set (th := __thinkos_wq_head (27 + no) s) in *.
  pose proof (mem_ready_return s K th Hr (27 + no) Hw e) as Hms.
  pose proof (ready_return_woken s K th Hr (27 + no) Hw e Hmem) as Hwk.
  set (s' := ready_return _ _ _) in *.
  destruct (ev_change (ev_pend s no) (ev_mask s no) s') as [E F]; [| done| done| | | exact K'|].
  - unfold s'. kred. by rewrite <- ev_mask_store, wr_rd_id.
  - intros j Hne Hj. apply wq_set_ext. intros th'. rewrite Hms by lia.
    by destruct (Z.eqb_spec (27 + no) (27 + j)); [lia|].
  - intros j Hj Hpm. exfalso. apply (proj2 (proj2 L) no j Hno Hj) in Hpm.
    rewrite Hpm in Hin. by apply not_elem_of_empty in Hin.
  - split; [|exact F]. exists (Some (th, e)). rewrite E. split; [|exact Hwk].
    rewrite (wq_set_del s s' _ th) by (intros th'; rewrite Hms by lia; by rewrite Z.eqb_refl).
    by apply ev_wakes.
Qed.
End refinement.

(** C15: raising an enabled event from an interrupt handler gives it to the
    lowest numbered waiter, which leaves the queue and sees its wait return the
    event number; a disabled event, or one nobody waits for, becomes pending.
    Other sets are untouched, and the scheduler is called unless a critical
    section holds it. *)
Theorem ev_raise_refines s no e :
  kernel_ok s -> ev_ok s -> 0 <= no < THINKOS_EVENT_MAX -> 0 <= e < 32 ->
  let s' := cm3_except9_isr (THINKOS_EVENT_BASE + no) e s in
  (exists wk, ev_step (EvRaise e) (ev_of s no) (ev_of s' no) (Ret 0) wk /\ wakes s s' wk) /\
  ev_frame s no s' /\ (critical_cnt s = 0 -> pendsv s' = true).
Proof.
  intros K L Hno He. cbv zeta. unfold cm3_except9_isr.
  assert (Hcc : critical_cnt (__thinkos_ev_raise_i (27 + no) e s) = critical_cnt s).
  { rewrite ev_raise_eq. cbv zeta. destruct (negb _); [done|]. by destruct (_ =? 32). }
  pose proof (ev_raise_i_refines s K L no Hno e He) as H. cbv zeta in H. revert H Hcc.
  generalize (__thinkos_ev_raise_i (27 + no) e s) as s1.
  intros s1 ((wk & H1 & H2) & (H3 & H4 & H5)) Hcc. split_and!.
  - exists wk. split; [exact H1|]. destruct wk as [[th e']|]; [|done]. exact H2.
  - split_and!; [exact H3|by kpeel|exact H5].
  - intros Hz. kred. rewrite Hcc, Hz. apply orb_true_r.
Qed.

Section wait.
Context (s : kernel) (K : kernel_ok s) (L : ev_ok s).
Context (arg self no : Z) (Hself : 0 <= self < THINKOS_THREADS_MAX) (Hc : calling s self).
Context (Hlive : live arg s) (Hno : 0 <= no < THINKOS_EVENT_MAX).

Definition ev_refines (op : ev_op) (s' : kernel) : Prop :=
  (exists out, ev_step op (ev_of s no) (ev_of s' no) out None /\
     observes arg self (THINKOS_EVENT_BASE + no) s' out) /\ ev_frame s no s'.

(** An enabled event is pending. *)
Lemma take_event op :
  op = EvWait self \/ op = EvTimedWait self ->
  let e := __clz (__rbit (Z.land (ev_pend s no) (ev_mask s no))) in
  e < 32 ->
  ev_refines op (arg_ret arg e (ev_store (2 * no) (Z.ldiff (ev_pend s no) (Z.shiftl 1 e)) s)).
Proof using K L Hc Hlive Hno.
  intros Hop e He. destruct (ev_words s L no Hno) as [Hp Hm].
  destruct (ctz_bit (Z.land (ev_pend s no) (ev_mask s no))) as [Hr Hb]; [unfold e in He; lia|].
  fold e in Hr, Hb. rewrite Z.land_spec in Hb. apply andb_true_iff in Hb as [Hb1 Hb2].
  set (s' := arg_ret _ _ _).
  assert (Hq : forall w, wq_set s' w = wq_set s w) by (intros; by apply wq_set_ext).
  destruct (ev_change s L no Hno (Z.clearbit (ev_pend s no) e) (ev_mask s no) s') as [E F].
  - rewrite <- ev_pend_store. done.
  - by apply (bit_wr_range _ e false).
  - done.
  - by intros.
  - intros j Hj Hpm. rewrite Hq. apply (proj2 (proj2 L) no j Hno Hj).
    change (Z.clearbit ?p e) with (__bit_mem_wr p e false) in Hpm.
    rewrite (bit_wr_spec _ e j false) in Hpm by lia. by destruct (e =? j).
  - unfold s', ev_store. kframe.
  - split; [|exact F]. exists (Ret e). rewrite E, Hq. split.
    + apply (ev_take op self); try done. intros j Hj. rewrite <- Z.land_spec.
      destruct (Z.testbit (Z.land (ev_pend s no) (ev_mask s no)) j) eqn:Ej; [|done].
      pose proof (ctz_least _ j ltac:(lia) Ej). unfold e in Hj. lia.
    + apply obs_ret; [by apply arg_0_ret|by apply (calling_frame s)].
Qed.

(** None is: the caller enters the queue. *)
Lemma wait_event op tm s' :
  (op = EvWait self /\ tm = false \/ op = EvTimedWait self /\ tm = true) ->
  ~ __clz (__rbit (Z.land (ev_pend s no) (ev_mask s no))) < 32 ->
  kernel_ok s' -> ev s' = ev s -> pendsv s' = true ->
  (tm = true -> arg_0 arg s' = u32 THINKOS_ETIMEDOUT) ->
  (forall th' wq, THINKOS_WQ_CLOCK <= wq -> mem s' th' wq =
     if ((THINKOS_EVENT_BASE + no =? wq) || tm && (THINKOS_WQ_CLOCK =? wq)) && (self =? th')
     then true else mem s th' wq) ->
  ev_refines op s'.
Proof using K L Hself Hc Hno.
  intros Hop Hz K' Ev Hp Hr Hmem. destruct (ev_words s L no Hno) as [Hpw Hmw].
  pose proof (ctz_range (Z.land (ev_pend s no) (ev_mask s no))) as Hrg.
  assert (Hnone : forall j, 0 <= j < 32 -> Z.testbit (ev_pend s no) j && Z.testbit (ev_mask s no) j = false).
  { intros j Hj. rewrite <- Z.land_spec. apply ctz_none; lia. }
  destruct (ev_change s L no Hno (ev_pend s no) (ev_mask s no) s') as [E F];
    [by rewrite <- ev_mask_store, Ev, wr_rd_id|done|done| | |done|].
  - intros j Hne Hj. apply wq_set_ext. intros th. rewrite Hmem by lia.
    destruct (Z.eqb_spec (27 + no) (27 + j)), (Z.eqb_spec 2 (27 + j)); try lia.
    by rewrite andb_false_r.
  - intros j Hj. by rewrite Hnone.
  - split; [|done]. exists (Block tm). split.
    + rewrite E, (wq_set_add s s' _ self Hself).
      * by apply ev_block.
      * intros th'. rewrite Hmem by lia. by rewrite Z.eqb_refl.
    + destruct (calling_facts s K self Hself Hc) as (_ & _ & Hall).
      apply observes_block; try done; [unfold sync_wq; lia| |].
      * rewrite Hmem by lia. by rewrite !Z.eqb_refl.
      * rewrite Hmem by lia. rewrite !Z.eqb_refl, Hall.
        destruct (Z.eqb_spec (27 + no) 2); [lia|]. by destruct tm.
Qed.
End wait.

(** [thinkos_ev_wait] and [timedwait], run without interference, return
    the lowest numbered enabled pending event and clear it; when there is none
    the caller, and only the caller, enters the queue of the set. *)
Theorem ev_wait_refines s arg self no :
  kernel_ok s -> ev_ok s -> 0 <= self < THINKOS_THREADS_MAX -> calling s self -> live arg s ->
  0 <= no < THINKOS_EVENT_MAX -> arg_0 arg s = THINKOS_EVENT_BASE + no ->
  Z.testbit (ev_alloc s) no = true ->
  ev_refines s arg self no (EvWait self) (thinkos_ev_wait_svc arg self s) /\
  ev_refines s arg self no (EvTimedWait self) (thinkos_ev_timedwait_svc arg self s).
Proof.
  intros K L Hs Hc Hl Hno Harg Hal.
  pose proof (ev_wait_ok s K arg self Hs Hc) as K1.
  pose proof (ev_timedwait_ok s K arg self Hs Hc) as K2. revert K1 K2.
  unfold thinkos_ev_wait_svc, thinkos_ev_timedwait_svc.
  rewrite Harg, handle_idx by lia. unfold __bit_mem_rd. rewrite Hal.
  destruct (Z.leb_spec 4 no); [lia|]. simpl negb. cbv zeta iota.
  rewrite ev_wait_again_eq, ev_timedwait_again_eq. cbv zeta.
  assert (Hw : sync_wq (27 + no)) by (unfold sync_wq; lia).
  destruct (Z.ltb_spec (__clz (__rbit (Z.land (ev_pend s no) (ev_mask s no)))) 32) as [He|He];
    intros K1 K2.
  - split; apply take_event; auto.
  - split.
    + apply (wait_event s K L arg self no Hs Hc Hno (EvWait self) false); auto; try lia.
      intros th' wq Hwq. rewrite andb_false_l, orb_false_r.
      rewrite <- (mem_suspend_queue s K self Hs (27 + no) Hw (Z.shiftl (27 + no) 1)) by done.
      unfold mem. by kred.
    + apply (wait_event s K L arg self no Hs Hc Hno (EvTimedWait self) true); auto; try lia.
      * intros _. apply (arg_0_stored arg _ s Hl). by kred.
      * intros th' wq Hwq. rewrite andb_true_l.
        rewrite <- (mem_suspend_tqueue s K self Hs (27 + no) Hw (Z.shiftl (27 + no) 1 + 1)) by done.
        unfold mem. by kred.
Qed.

(** Enabling an event in range, in the cases the code tells apart. *)
Lemma ev_enable_eq s arg no e :
  0 <= no < THINKOS_EVENT_MAX -> 0 <= e < 32 ->
  arg_0 arg s = THINKOS_EVENT_BASE + no -> arg_1 arg s = e -> arg_2 arg s <> 0 ->
  Z.testbit (ev_alloc s) no = true ->
  thinkos_ev_mask_svc arg s =
  let s0 := arg_ret arg 0 s in
  let wq := THINKOS_EVENT_BASE + no in
  if Z.testbit (ev_mask s no) e then s0
  else if negb (Z.testbit (ev_pend s no) e) then
    ev_store (2 * no + 1) (Z.setbit (ev_mask s no) e) s0
  else if __thinkos_wq_head wq s =? THINKOS_THREAD_NULL then ev_bit_store (2 * no + 1) e true s0
  else __thinkos_defer_sched (ready_return (__thinkos_wq_head wq s) e
         (ev_bit_store (2 * no + 1) e true (ev_bit_store (2 * no) e false
            (wq_bit_store wq (__thinkos_wq_head wq s) false s0)))).
Proof.
  intros Hno He H0 H1 H2 Hal. unfold thinkos_ev_mask_svc. rewrite H0, H1, handle_idx by lia.
  unfold __bit_mem_rd. rewrite Hal. destruct (Z.leb_spec 4 no); [lia|]. simpl negb. cbv zeta iota.
  destruct (Z.eqb_spec (arg_2 arg s) 0); [done|]. rewrite ev_load_in by done.
  change (ev_mask (arg_ret arg 0 s) no) with (ev_mask s no).
  change (rd (ev (arg_ret arg 0 s)) (2 * no)) with (ev_pend s no).
  assert (El : lsl1 e = Z.shiftl 1 e).
  { unfold lsl1. rewrite Z.mod_small by lia. by destruct (Z.ltb_spec e 32); [|lia]. }
  assert (Et : (Z.land (ev_mask s no) (lsl1 e) =? 0) = negb (Z.testbit (ev_mask s no) e)).
  { rewrite El. apply land_bit_eqb. lia. }
  rewrite Et, negb_involutive, El.
  destruct (Z.testbit (ev_mask s no) e); [done|]. destruct (Z.testbit (ev_pend s no) e); done.
Qed.

Section enable.
Context (s : kernel) (K : kernel_ok s) (L : ev_ok s) (arg no e : Z).
Context (Hno : 0 <= no < THINKOS_EVENT_MAX) (He : 0 <= e < 32).
Context (Hoff : Z.testbit (ev_mask s no) e = false).

(** The mask bit is set and nobody is woken. *)
Lemma enable_only s' :
  Z.testbit (ev_pend s no) e = false \/ wq_set s (THINKOS_EVENT_BASE + no) = ∅ ->
  ev s' = wr (ev s) (2 * no + 1) (Z.setbit (ev_mask s no) e) -> wq_lst s' = wq_lst s ->
  kernel_ok s' ->
  ev_step (EvEnable e) (ev_of s no) (ev_of s' no) (Ret 0) None /\ ev_frame s no s'.
Proof using L Hno He.
  intros Hor Ev Ew K'. destruct (ev_words s L no Hno) as [Hp Hm].
  assert (Hq : forall w, wq_set s' w = wq_set s w)
    by (intros w; apply wq_set_ext; intros th; unfold mem; by rewrite Ew).
  destruct (ev_change s L no Hno (ev_pend s no) (Z.setbit (ev_mask s no) e) s') as [E F].
  - rewrite Ev. apply ev_mask_store.
  - done.
  - by apply (bit_wr_range _ e true).
  - by intros.
  - intros j Hj. rewrite Z.setbit_eqb, Hq by lia. destruct (Z.eqb_spec e j) as [<-|].
    + destruct Hor as [-> |Hor]; done.
    + simpl. by apply (proj2 (proj2 L) no j).
  - done.
  - split; [|done]. rewrite E, Hq. apply ev_enables. tauto.
Qed.

(** The event was pending: the lowest numbered waiter gets it. *)
Lemma enable_wakes :
  let wq := THINKOS_EVENT_BASE + no in
  let th := __thinkos_wq_head wq s in
  let s0 := arg_ret arg 0 s in
  let s' := __thinkos_defer_sched (ready_return th e
         (ev_bit_store (2 * no + 1) e true (ev_bit_store (2 * no) e false
            (wq_bit_store wq th false s0)))) in
  Z.testbit (ev_pend s no) e = true -> th <> THINKOS_THREAD_NULL -> kernel_ok s' ->
  ev_step (EvEnable e) (ev_of s no) (ev_of s' no) (Ret 0) (Some (th, e)) /\ ev_frame s no s' /\
  calling s' th.
Proof using K L Hno He Hoff.
  intros wq th s0 s' Hpe Hn K'. destruct (ev_words s L no Hno) as [Hp Hm].
  pose proof (ev_sync no Hno) as Hw. fold wq in Hw.
  destruct (sync_head s wq K Hw Hn) as [Hr Hmem].
  destruct (wq_set_head s wq K Hw Hn) as [Hin Hleast]. fold th in Hr, Hmem, Hin, Hleast.
  assert (Hms : forall th' w, 2 < w -> mem s' th' w =
      if (wq =? w) && (th =? th') then false else mem s th' w).
  { intros th' w Hlt. rewrite <- (mem_ready_return s K th Hr wq Hw e th' w Hlt).
    unfold mem, s', s0, ev_bit_store. cbv zeta. by kred. }
  assert (Hev : ev s' = wr (wr (ev s) (2 * no) (Z.clearbit (ev_pend s no) e)) (2 * no + 1)
                          (Z.setbit (ev_mask s no) e)).
  { unfold s'. transitivity (ev (ev_bit_store (2 * no + 1) e true (ev_bit_store (2 * no) e false
      (wq_bit_store wq th false s0)))); [by kred|]. rewrite !ev_bit_in by done. unfold s0. kred.
    by rewrite rd_wr_ne by lia. }
  destruct (ev_change s L no Hno _ _ s' Hev) as [E F].
  - by apply (bit_wr_range _ e false).
  - by apply (bit_wr_range _ e true).
  - intros j Hne Hj. apply wq_set_ext. intros th'. rewrite Hms by lia.
    by destruct (Z.eqb_spec wq (27 + j)); [unfold wq in *; lia|].
  - intros j Hj Hpm. exfalso.
    rewrite Z.setbit_eqb in Hpm by lia. change (Z.clearbit ?p e) with (__bit_mem_wr p e false) in Hpm.
    rewrite bit_wr_spec in Hpm by lia. destruct (e =? j); [done|]. simpl in Hpm.
    apply (proj2 (proj2 L) no j Hno Hj) in Hpm. fold wq in Hpm. rewrite Hpm in Hin.
    by apply not_elem_of_empty in Hin.
  - done.
  - split_and!; [|done|].
    + rewrite E. fold wq. rewrite (wq_set_del s s' _ th)
        by (intros th'; rewrite Hms by (unfold wq; lia); by rewrite Z.eqb_refl).
      by apply ev_enables_wakes.
    + apply (calling_frame (ready_return th e (wq_bit_store wq th false s)));
        [unfold s', s0, ev_bit_store; cbv zeta; by kred..|]. by apply ready_return_woken.
Qed.
End enable.

(** Enabling an event in range with [thinkos_ev_mask] sets its mask bit
    and no other; if the event was pending and threads wait, the lowest
    numbered one takes it, so an enabled pending event never coexists with a
    waiter. *)
Theorem ev_enable_refines s arg no e :
  kernel_ok s -> ev_ok s -> 0 <= no < THINKOS_EVENT_MAX -> 0 <= e < 32 ->
  arg_0 arg s = THINKOS_EVENT_BASE + no -> arg_1 arg s = e -> arg_2 arg s <> 0 ->
  Z.testbit (ev_alloc s) no = true ->
  let s' := thinkos_ev_mask_svc arg s in
  exists wk, ev_step (EvEnable e) (ev_of s no) (ev_of s' no) (Ret 0) wk /\ ev_frame s no s' /\
    (forall th e', wk = Some (th, e') -> calling s' th).
Proof.
  intros K L Hno He H0 H1 H2 Hal. pose proof (ev_mask_ok s K arg) as K'. revert K'. cbv zeta.
  rewrite (ev_enable_eq s arg no e) by done. cbv zeta.
  destruct (Z.testbit (ev_mask s no) e) eqn:Em; [|destruct (Z.testbit (ev_pend s no) e) eqn:Ep].
  - intros K'. exists None.
    assert (Es : Z.setbit (ev_mask s no) e = ev_mask s no).
    { apply Z.bits_inj'. intros j Hj. rewrite Z.setbit_eqb by lia.
      destruct (Z.eqb_spec e j) as [<-|]; [by rewrite Em|done]. }
    destruct (enable_only s L no e Hno He (arg_ret arg 0 s)) as [A B];
      [|rewrite Es; unfold ev_mask; by rewrite wr_rd_id|done|exact K'|done].
    destruct (Z.testbit (ev_pend s no) e) eqn:Ep; [right|by left].
    apply (proj2 (proj2 L) no e Hno He). by rewrite Ep, Em.
  - simpl negb. cbv iota.
    destruct (Z.eqb_spec (__thinkos_wq_head (27 + no) s) 32) as [En|Hn]; intros K'.
    + apply wq_set_empty in En; [|done|by apply ev_sync]. exists None.
      destruct (enable_only s L no e Hno He (ev_bit_store (2 * no + 1) e true (arg_ret arg 0 s)))
        as [A B]; [by right|by rewrite ev_bit_in|done|exact K'|done].
    + destruct (enable_wakes s K L arg no e Hno He Em Ep Hn K') as (A & B & C).
      eexists. split; [exact A|]. split; [exact B|]. intros th e' [= <- _]. exact C.
  - simpl negb. cbv iota. intros K'. exists None.
    destruct (enable_only s L no e Hno He (ev_store (2 * no + 1) (Z.setbit (ev_mask s no) e)
      (arg_ret arg 0 s))) as [A B]; [by left|done|done|exact K'|done].
Qed.

(** [thinkos_ev_clear] does not check the event number, which its API
    documents as 0 to 31: with number 64 a call on set 0 clears a pending
    event of set 1. *)
Theorem ev_clear_unchecked :
  exists s arg,
    kernel_ok s /\ ev_ok s /\ arg_0 arg s = THINKOS_EVENT_BASE + 0 /\ arg_1 arg s = 64 /\
    Z.testbit (ev_pend s 1) 0 = true /\
    Z.testbit (ev_pend (thinkos_ev_clear_svc arg s) 1) 0 = false.
Proof.
  exists (demo_call THINKOS_EVENT_BASE 64 0 0 (demo |> set_ev_alloc 4294967283 |> ev_store 2 1)),
    (record_of 0).
  split; [kernel_ok_compute|]. split; [|vm_compute; done].
  split; [reflexivity|]. split.
  - intros w Hw. change (2 * 4) with 8 in Hw. z_cases w; vm_compute; split; congruence.
  - intros no j Hno _ _. z_cases no; vm_compute; reflexivity.
Qed.

(** ** Sample *)

(** In set 0 event 3 is disabled and pending, and threads 2 and 3 wait. *)
Definition ev_demo : kernel :=
  demo_call THINKOS_EVENT_BASE 3 1 0
    (demo |> set_ev_alloc 4294967283 |> ev_store 0 8 |> ev_store 1 4294967287
          |> demo_wait 2 THINKOS_EVENT_BASE |> demo_wait 3 THINKOS_EVENT_BASE).

Lemma ev_demo_ok : ev_ok ev_demo.
Proof.
  split; [reflexivity|]. split.
  - intros w Hw. change (2 * 4) with 8 in Hw. z_cases w; vm_compute; split; congruence.
  - intros no j Hno Hj. z_cases no; [|vm_compute; reflexivity..].
    z_cases j; vm_compute; congruence.
Qed.

Lemma ev_raise_refines_witness :
  let s' := cm3_except9_isr THINKOS_EVENT_BASE 5 ev_demo in
  (exists wk, ev_step (EvRaise 5) (ev_of ev_demo 0) (ev_of s' 0) (Ret 0) wk /\ wakes ev_demo s' wk) /\
  pendsv s' = true /\ arg_0 (record_of 2) s' = 5.
Proof.
  destruct (ev_raise_refines ev_demo 0 5) as (H1 & _ & H3);
    [kernel_ok_compute|exact ev_demo_ok|lia|lia|].
  split; [exact H1|]. split; [apply H3|]; vm_compute; reflexivity.
Defined.

Lemma ev_wait_refines_witness :
  ev_refines ev_demo (record_of 0) 0 0 (EvWait 0) (thinkos_ev_wait_svc (record_of 0) 0 ev_demo) /\
  ev_refines ev_demo (record_of 0) 0 0 (EvTimedWait 0)
    (thinkos_ev_timedwait_svc (record_of 0) 0 ev_demo).
Proof.
  apply (ev_wait_refines ev_demo (record_of 0) 0 0);
    [kernel_ok_compute|exact ev_demo_ok|lia|split; vm_compute; reflexivity
    |eexists; vm_compute; reflexivity|lia|vm_compute; reflexivity|vm_compute; reflexivity].
Defined.

Lemma ev_enable_refines_witness :
  let s' := thinkos_ev_mask_svc (record_of 0) ev_demo in
  (exists wk, ev_step (EvEnable 3) (ev_of ev_demo 0) (ev_of s' 0) (Ret 0) wk) /\
  arg_0 (record_of 2) s' = 3.
Proof.
  destruct (ev_enable_refines ev_demo (record_of 0) 0 3) as (wk & H1 & _);
    [kernel_ok_compute|exact ev_demo_ok|lia|lia|vm_compute; reflexivity|vm_compute; reflexivity
    |vm_compute; congruence|vm_compute; reflexivity|].
  split; [exists wk; exact H1|vm_compute; reflexivity].
Defined.
