(* ===== verification/Flag.v ===== *)
(** * Flags

    The handlers of src/sdk/libthinkos/thinkos_flag.c, run without
    interference: the take/give family (a binary semaphore) and the watch/set
    family (a level that threads wait for), with the abstract flag. *)

From stdpp Require Import base tactics numbers list gmap.
From Stdlib Require Import ZArith Lia.
From S2P Require Import Prelude CortexM State Kernel BmpAlloc Invariant Decide Init Demo Transitions.

(** ** Code *)

Definition thinkos_flag_alloc_svc (arg : Z) (s : kernel) : kernel :=
  let '(bmp, idx) := bmp_alloc_word (flag_alloc s) THINKOS_FLAG_MAX in
  let s := set_flag_alloc bmp s in
  if 0 <=? idx then
    s |> set_flag (__bit_mem_wr (flag s) idx false)
      |> arg_ret arg (idx + THINKOS_FLAG_BASE)
  else s |> arg_ret arg idx.

Definition thinkos_flag_free_svc (arg : Z) (s : kernel) : kernel :=
  let wq := arg_0 arg s in
  let idx := u32 (wq - THINKOS_FLAG_BASE) in
  if THINKOS_FLAG_MAX <=? idx then s |> arg_ret arg THINKOS_EINVAL
  else set_flag_alloc (__bit_mem_wr (flag_alloc s) (wq - THINKOS_FLAG_BASE) false) s.

(** From the label [again]; [n] bounds the rollbacks. *)
Fixpoint flag_take_again (n : nat) (wq idx arg self : Z) (s : kernel) : kernel :=
  match n with
  | O => s
  | S n =>
      let flags := flag s in
      if negb (Z.land flags (Z.shiftl 1 idx) =? 0) then
        s |> set_flag (Z.ldiff flags (Z.shiftl 1 idx))
          |> arg_ret arg 0
      else
        let s := s |> __thinkos_suspend self
                   |> th_stat_store self (Z.shiftl wq 1) in
        let queue := Z.lor (rd (wq_lst s) wq) (Z.shiftl 1 self) in
        if negb (Z.land (flag s) (Z.shiftl 1 idx) =? 0) then
          s |> th_stat_store self 0
            |> wq_bit_store THINKOS_WQ_READY self true
            |> flag_take_again n wq idx arg self
        else
          s |> wq_store wq queue
            |> __thinkos_defer_sched
  end.

Definition thinkos_flag_take_svc (arg self : Z) (s : kernel) : kernel :=
  let wq := arg_0 arg s in
  let idx := u32 (wq - THINKOS_FLAG_BASE) in
  if THINKOS_FLAG_MAX <=? idx then s |> arg_ret arg THINKOS_EINVAL
  else if negb (__bit_mem_rd (flag_alloc s) idx) then s |> arg_ret arg THINKOS_EINVAL
  else flag_take_again 2 wq idx arg self s.

Fixpoint flag_timedtake_again (n : nat) (wq idx ms arg self : Z) (s : kernel) : kernel :=
  match n with
  | O => s
  | S n =>
      let flags := flag s in
      if negb (Z.land flags (Z.shiftl 1 idx) =? 0) then
        s |> set_flag (Z.ldiff flags (Z.shiftl 1 idx))
          |> arg_ret arg 0
      else
        let s := s |> __thinkos_suspend self
                   |> th_stat_store self (Z.shiftl wq 1 + 1) in
        let queue := Z.lor (rd (wq_lst s) wq) (Z.shiftl 1 self) in
        if negb (Z.land (flag s) (Z.shiftl 1 idx) =? 0) then
          s |> th_stat_store self 0
            |> wq_bit_store THINKOS_WQ_READY self true
            |> flag_timedtake_again n wq idx ms arg self
        else
          s |> wq_store wq queue
            |> clock_store self (ticks s + ms)
            |> wq_bit_store THINKOS_WQ_CLOCK self true
            |> arg_ret arg THINKOS_ETIMEDOUT
            |> __thinkos_defer_sched
  end.

Definition thinkos_flag_timedtake_svc (arg self : Z) (s : kernel) : kernel :=
  let wq := arg_0 arg s in
  let ms := arg_1 arg s in
  let idx := u32 (wq - THINKOS_FLAG_BASE) in
  if THINKOS_FLAG_MAX <=? idx then s |> arg_ret arg THINKOS_EINVAL
  else if negb (__bit_mem_rd (flag_alloc s) idx) then s |> arg_ret arg THINKOS_EINVAL
  else flag_timedtake_again 2 wq idx ms arg self s.

Definition __thinkos_flag_give_i (wq : Z) (s : kernel) : kernel :=
  let idx := wq - THINKOS_FLAG_BASE in
  let queue := rd (wq_lst s) wq in
  let th := __clz (__rbit queue) in
  if th =? THINKOS_THREAD_NULL then s |> set_flag (Z.lor (flag s) (Z.shiftl 1 idx))
  else
    s |> wq_store wq (Z.ldiff queue (Z.shiftl 1 th))
      |> ready_return th 0.

Definition cm3_except10_isr (wq : Z) (s : kernel) : kernel :=
  s |> __thinkos_flag_give_i wq
    |> __thinkos_preempt.

Definition thinkos_flag_give_svc (arg : Z) (s : kernel) : kernel :=
  let wq := arg_0 arg s in
  let idx := u32 (wq - THINKOS_FLAG_BASE) in
  if THINKOS_FLAG_MAX <=? idx then s |> arg_ret arg THINKOS_EINVAL
  else if negb (__bit_mem_rd (flag_alloc s) idx) then s |> arg_ret arg THINKOS_EINVAL
  else
    s |> arg_ret arg 0
      |> __thinkos_flag_give_i wq
      |> __thinkos_defer_sched.

Definition thinkos_flag_val_svc (arg : Z) (s : kernel) : kernel :=
  let wq := arg_0 arg s in
  let idx := u32 (wq - THINKOS_FLAG_BASE) in
  if THINKOS_FLAG_MAX <=? idx then s |> arg_ret arg THINKOS_EINVAL
  else if negb (__bit_mem_rd (flag_alloc s) idx) then s |> arg_ret arg THINKOS_EINVAL
  else s |> arg_ret arg (Z.b2z (__bit_mem_rd (flag s) idx)).

Definition __thinkos_flag_clr (wq : Z) (s : kernel) : kernel :=
  let flg := wq - THINKOS_FLAG_BASE in
  set_flag (__bit_mem_wr (flag s) flg false) s.

Definition thinkos_flag_clr_svc (arg : Z) (s : kernel) : kernel :=
  let wq := arg_0 arg s in
  let idx := u32 (wq - THINKOS_FLAG_BASE) in
  if THINKOS_FLAG_MAX <=? idx then s |> arg_ret arg THINKOS_EINVAL
  else if negb (__bit_mem_rd (flag_alloc s) idx) then s |> arg_ret arg THINKOS_EINVAL
  else
    s |> arg_ret arg 0
      |> __thinkos_flag_clr wq.

Definition thinkos_flag_set_svc (arg : Z) (s : kernel) : kernel :=
  let wq := arg_0 arg s in
  let idx := u32 (wq - THINKOS_FLAG_BASE) in
  if THINKOS_FLAG_MAX <=? idx then s |> arg_ret arg THINKOS_EINVAL
  else if negb (__bit_mem_rd (flag_alloc s) idx) then s |> arg_ret arg THINKOS_EINVAL
  else
    let s := s |> arg_ret arg 0 in
    let s := set_flag (__bit_mem_wr (flag s) idx true) s in
    let th := __thinkos_wq_head wq s in
    if negb (th =? THINKOS_THREAD_NULL) then
      s |> __thinkos_wakeup wq th
        |> wq_drain 32 (__thinkos_wakeup wq) wq
        |> __thinkos_defer_sched
    else s.

Definition thinkos_flag_watch_svc (arg self : Z) (s : kernel) : kernel :=
  let wq := arg_0 arg s in
  let idx := u32 (wq - THINKOS_FLAG_BASE) in
  if THINKOS_FLAG_MAX <=? idx then s |> arg_ret arg THINKOS_EINVAL
  else if negb (__bit_mem_rd (flag_alloc s) idx) then s |> arg_ret arg THINKOS_EINVAL
  else
    let s := s |> arg_ret arg 0 in
    if __bit_mem_rd (flag s) idx then s
    else
      s |> __thinkos_wq_insert wq self
        |> __thinkos_suspend self
        |> __thinkos_defer_sched.

Definition thinkos_flag_timedwatch_svc (arg self : Z) (s : kernel) : kernel :=
  let wq := arg_0 arg s in
  let ms := arg_1 arg s in
  let idx := u32 (wq - THINKOS_FLAG_BASE) in
  if THINKOS_FLAG_MAX <=? idx then s |> arg_ret arg THINKOS_EINVAL
  else if negb (__bit_mem_rd (flag_alloc s) idx) then s |> arg_ret arg THINKOS_EINVAL
  else
    let s := s |> arg_ret arg 0 in
    if __bit_mem_rd (flag s) idx then s
    else
      s |> arg_ret arg THINKOS_ETIMEDOUT
        |> __thinkos_tmdwq_insert wq self ms
        |> __thinkos_suspend self
        |> __thinkos_defer_sched.

(** ** Abstract flag *)

Record flag_abs := mk_flag { raised : bool; watchers : gset Z }.

(** [FTake self tm]: take, or timed take. *)
Inductive flag_op :=
  | FTake (self : Z) (tm : bool) | FWatch (self : Z) (tm : bool) | FGive | FSet | FClr.

Inductive flag_step : flag_op -> flag_abs -> flag_abs -> outcome -> Prop :=
  | flag_take self tm W :
      flag_step (FTake self tm) (mk_flag true W) (mk_flag false W) (Ret 0)
  | flag_watch self tm W :
      flag_step (FWatch self tm) (mk_flag true W) (mk_flag true W) (Ret 0)
  | flag_block op self tm W : op = FTake self tm \/ op = FWatch self tm ->
      flag_step op (mk_flag false W) (mk_flag false ({[self]} ∪ W)) (Block tm)
  | flag_give b : flag_step FGive (mk_flag b ∅) (mk_flag true ∅) (Ret 0)
  | flag_pass b W th : th ∈ W -> (forall th', th' ∈ W -> th <= th') ->
      flag_step FGive (mk_flag b W) (mk_flag b (W ∖ {[th]})) (Ret 0)
  | flag_raise b W : flag_step FSet (mk_flag b W) (mk_flag true ∅) (Ret 0)
  | flag_lower b W : flag_step FClr (mk_flag b W) (mk_flag false W) (Ret 0).

Definition flag_of (s : kernel) (i : Z) : flag_abs :=
  mk_flag (Z.testbit (flag s) i) (wq_set s (THINKOS_FLAG_BASE + i)).

(** A raised flag has no waiter. *)
Definition flag_ok (s : kernel) : Prop :=
  forall i, 0 <= i < THINKOS_FLAG_MAX -> Z.testbit (flag s) i = true ->
    wq_set s (THINKOS_FLAG_BASE + i) = ∅.

(** ** Queue consistency *)

Lemma flag_take_again_eq n wq idx arg self s :
  0 <= idx ->
  flag_take_again (S n) wq idx arg self s =
  if Z.testbit (flag s) idx then arg_ret arg 0 (set_flag (Z.clearbit (flag s) idx) s)
  else __thinkos_defer_sched (wq_bit_store wq self true
         (th_stat_store self (Z.shiftl wq 1) (__thinkos_suspend self s))).
Proof.
  intros Hi. cbn [flag_take_again].
  change (flag (th_stat_store _ _ (__thinkos_suspend self s))) with (flag s).
  rewrite land_bit_eqb, negb_involutive by done. by destruct (Z.testbit (flag s) idx).
Qed.

Lemma flag_timedtake_again_eq n wq idx ms arg self s :
  0 <= idx ->
  flag_timedtake_again (S n) wq idx ms arg self s =
  if Z.testbit (flag s) idx then arg_ret arg 0 (set_flag (Z.clearbit (flag s) idx) s)
  else __thinkos_defer_sched (arg_ret arg THINKOS_ETIMEDOUT
      (wq_bit_store THINKOS_WQ_CLOCK self true (clock_store self (ticks s + ms)
      (wq_bit_store wq self true (th_stat_store self (Z.shiftl wq 1 + 1) (__thinkos_suspend self s)))))).
Proof.
  intros Hi. cbn [flag_timedtake_again].
  change (flag (th_stat_store _ _ (__thinkos_suspend self s))) with (flag s).
  rewrite land_bit_eqb, negb_involutive by done. by destruct (Z.testbit (flag s) idx).
Qed.

Lemma flag_give_eq wq s :
  __thinkos_flag_give_i wq s =
  if __thinkos_wq_head wq s =? THINKOS_THREAD_NULL then
    set_flag (Z.setbit (flag s) (wq - THINKOS_FLAG_BASE)) s
  else ready_return (__thinkos_wq_head wq s) 0 (wq_bit_store wq (__thinkos_wq_head wq s) false s).
Proof. done. Qed.

Lemma flag_give_i_ok s wq :
  kernel_ok s -> THINKOS_FLAG_BASE <= wq < THINKOS_FLAG_BASE + THINKOS_FLAG_MAX ->
  kernel_ok (__thinkos_flag_give_i wq s).
Proof.
  intros K Hwq. assert (Hw : sync_wq wq) by (unfold sync_wq; lia). rewrite flag_give_eq. guards.
  destruct (sync_head s wq K Hw) as [Hr Hm]; [done|]. by apply ready_return_ok.
Qed.

Lemma flag_isr_ok s wq :
  kernel_ok s -> THINKOS_FLAG_BASE <= wq < THINKOS_FLAG_BASE + THINKOS_FLAG_MAX ->
  kernel_ok (cm3_except10_isr wq s).
Proof. intros K Hwq. unfold cm3_except10_isr. kpeel. by apply flag_give_i_ok. Qed.

Section ok.
Context (s : kernel) (K : kernel_ok s) (arg self : Z).
Context (Hself : 0 <= self < THINKOS_THREADS_MAX) (Hc : calling s self).

Lemma flag_alloc_ok : kernel_ok (thinkos_flag_alloc_svc arg s).
Proof using K.
  unfold thinkos_flag_alloc_svc. destruct (bmp_alloc_word _ _). cbv zeta. guards.
Qed.

Lemma flag_free_ok : kernel_ok (thinkos_flag_free_svc arg s).
Proof using K. unfold thinkos_flag_free_svc. cbv zeta. guards. Qed.

Lemma flag_val_ok : kernel_ok (thinkos_flag_val_svc arg s).
Proof using K. unfold thinkos_flag_val_svc. cbv zeta. guards. Qed.

Lemma flag_clr_ok : kernel_ok (thinkos_flag_clr_svc arg s).
Proof using K. unfold thinkos_flag_clr_svc, __thinkos_flag_clr. cbv zeta. guards. Qed.

Lemma flag_take_ok : kernel_ok (thinkos_flag_take_svc arg self s).
Proof using K Hself Hc.
  unfold thinkos_flag_take_svc. cbv zeta. guards. handle. rewrite flag_take_again_eq by lia. guards.
  kvia (wq_bit_store (arg_0 arg s) self true
    (th_stat_store self (Z.shiftl (arg_0 arg s) 1) (__thinkos_suspend self s))).
  apply suspend_queue_ok; try done. unfold sync_wq. lia.
Qed.

Lemma flag_timedtake_ok : kernel_ok (thinkos_flag_timedtake_svc arg self s).
Proof using K Hself Hc.
  unfold thinkos_flag_timedtake_svc. cbv zeta. guards. handle.
  rewrite flag_timedtake_again_eq by lia. guards.
  kvia (wq_bit_store THINKOS_WQ_CLOCK self true (wq_bit_store (arg_0 arg s) self true
    (th_stat_store self (Z.shiftl (arg_0 arg s) 1 + 1) (__thinkos_suspend self s)))).
  apply suspend_tqueue_ok; try done; unfold sync_wq, timed_ok; lia.
Qed.

Lemma flag_give_ok : kernel_ok (thinkos_flag_give_svc arg s).
Proof using K.
  unfold thinkos_flag_give_svc. cbv zeta. guards. handle. kpeel.
  apply flag_give_i_ok; [by kpeel|lia].
Qed.

Lemma flag_watch_ok : kernel_ok (thinkos_flag_watch_svc arg self s).
Proof using K Hself Hc.
  unfold thinkos_flag_watch_svc. cbv zeta. guards. handle.
  kvia (__thinkos_suspend self (__thinkos_wq_insert (arg_0 arg s) self s)).
  apply wq_insert_suspend_ok; try done. unfold sync_wq. lia.
Qed.

Lemma flag_timedwatch_ok : kernel_ok (thinkos_flag_timedwatch_svc arg self s).
Proof using K Hself Hc.
  unfold thinkos_flag_timedwatch_svc. cbv zeta. guards. handle.
  kvia (__thinkos_suspend self (__thinkos_tmdwq_insert (arg_0 arg s) self (arg_1 arg s) s)).
  apply tmdwq_insert_suspend_ok; try done; unfold sync_wq, timed_ok; lia.
Qed.
End ok.

(** Every thread that watches is woken. *)
Lemma flag_set_eq s arg i :
  0 <= i < THINKOS_FLAG_MAX -> arg_0 arg s = THINKOS_FLAG_BASE + i ->
  Z.testbit (flag_alloc s) i = true ->
  thinkos_flag_set_svc arg s =
  let s0 := set_flag (__bit_mem_wr (flag s) i true) (arg_ret arg 0 s) in
  let wq := THINKOS_FLAG_BASE + i in
  if __thinkos_wq_head wq s =? THINKOS_THREAD_NULL then s0
  else __thinkos_defer_sched (wq_drain 33 (__thinkos_wakeup wq) wq s0).
Proof.
  intros Hi Ha Hal. unfold thinkos_flag_set_svc. rewrite Ha, handle_idx by lia.
  unfold __bit_mem_rd. rewrite Hal. destruct (Z.leb_spec 8 i); [lia|]. simpl negb. cbv zeta iota.
  set (s0 := set_flag _ _).
  assert (Eh : __thinkos_wq_head (31 + i) s0 = __thinkos_wq_head (31 + i) s) by done.
  change (flag (arg_ret arg 0 s)) with (flag s). fold s0. rewrite Eh.
  destruct (Z.eqb_spec (__thinkos_wq_head (31 + i) s) 32) as [|Hn]; [done|]. simpl negb. cbv iota.
  rewrite <- Eh in *. by rewrite (wq_drain_first (31 + i)).
Qed.

Lemma flag_set_ok s arg : kernel_ok s -> kernel_ok (thinkos_flag_set_svc arg s).
Proof.
  intros K. unfold thinkos_flag_set_svc. cbv zeta. guards. handle.
  set (s0 := set_flag _ _) in *. rewrite (wq_drain_first (arg_0 arg s) _ s0)
    by (intros E; rewrite E in *; done).
  kpeel. apply (wq_drain_spec (arg_0 arg s) 0); [apply _|unfold sync_wq; lia|unfold s0; kframe|lia].
Qed.

(** ** Refinement *)

Section refinement.
Context (s : kernel) (K : kernel_ok s) (L : flag_ok s).
Context (i : Z) (Hi : 0 <= i < THINKOS_FLAG_MAX).

Definition flag_frame (s' : kernel) : Prop :=
  (forall j, 0 <= j < THINKOS_FLAG_MAX -> j <> i -> flag_of s' j = flag_of s j) /\
  kernel_ok s' /\ flag_ok s'.

Lemma flag_sync : sync_wq (THINKOS_FLAG_BASE + i).
Proof using Hi. unfold sync_wq. lia. Qed.

(** Flag [i] becomes [b] and no other flag queue changes. *)
Lemma flag_change b s' :
  flag s' = __bit_mem_wr (flag s) i b ->
  (forall j, j <> i -> 0 <= j < THINKOS_FLAG_MAX ->
     wq_set s' (THINKOS_FLAG_BASE + j) = wq_set s (THINKOS_FLAG_BASE + j)) ->
  (b = true -> wq_set s' (THINKOS_FLAG_BASE + i) = ∅) -> kernel_ok s' ->
  flag_of s' i = mk_flag b (wq_set s' (THINKOS_FLAG_BASE + i)) /\ flag_frame s'.
Proof using L Hi.
  intros Ef Hq He K'. unfold flag_frame, flag_ok, flag_of.
  split_and!; try done.
  - by rewrite Ef, bit_wr_spec, Z.eqb_refl by lia.
  - intros j Hj Hne. rewrite Ef, bit_wr_spec, Hq by (done || lia). by destruct (Z.eqb_spec i j).
  - intros j Hj. rewrite Ef, bit_wr_spec by lia.
    destruct (Z.eqb_spec i j) as [<-|]; [auto|]. rewrite Hq by (done || lia). by apply L.
Qed.

(** A store of the value the flag has. *)
Lemma flag_same : flag s = __bit_mem_wr (flag s) i (Z.testbit (flag s) i).
Proof using Hi.
  apply Z.bits_inj'. intros j Hj. rewrite bit_wr_spec by lia. by destruct (Z.eqb_spec i j) as [<-|].
Qed.

Lemma flag_give_i_refines :
  let s' := __thinkos_flag_give_i (THINKOS_FLAG_BASE + i) s in
  flag_step FGive (flag_of s i) (flag_of s' i) (Ret THINKOS_OK) /\ flag_frame s' /\
  (wq_set s (THINKOS_FLAG_BASE + i) <> ∅ ->
   woken s s' (__thinkos_wq_head (THINKOS_FLAG_BASE + i) s) 0).
Proof using K L Hi.
  intros s'. pose proof flag_sync as Hw.
  assert (K' : kernel_ok s') by (apply flag_give_i_ok; [done|lia]). revert K'. unfold s'. clear s'.
  rewrite flag_give_eq. replace (31 + i - 31) with i by lia.
  destruct (Z.eqb_spec (__thinkos_wq_head (31 + i) s) 32) as [En|Hn]; intros K'.
  - apply wq_set_empty in En; [|done..]. set (s' := set_flag _ _) in *.
    assert (Hq : forall w, wq_set s' w = wq_set s w) by (intros; by apply wq_set_ext).
    destruct (flag_change true s') as [E F]; [done|by intros|by rewrite Hq|done|].
    rewrite E, Hq. split_and!; [|done|done]. unfold flag_of. rewrite En. constructor.
  - destruct (sync_head s (31 + i) K Hw Hn) as [Hr Hmem].
    destruct (wq_set_head s (31 + i) K Hw Hn) as [Hin Hleast].
    set (th := __thinkos_wq_head (31 + i) s) in *.
    pose proof (mem_ready_return s K th Hr (31 + i) Hw 0) as Hms.
    set (s' := ready_return _ _ _) in *.
    destruct (flag_change (Z.testbit (flag s) i) s') as [E F]; [exact flag_same| | |done|].
    + intros j Hne Hj. apply wq_set_ext. intros th'. rewrite Hms by lia.
      by destruct (Z.eqb_spec (31 + i) (31 + j)); [lia|].
    + intros Hb. apply L in Hb; [|done]. rewrite Hb in Hin. exfalso. exact (not_elem_of_empty _ Hin).
    + rewrite E. split_and!; [|done|intros _; by apply ready_return_woken].
      rewrite (wq_set_del s s' _ th) by (intros th'; rewrite Hms by lia; by rewrite Z.eqb_refl).
      by apply flag_pass.
Qed.
End refinement.

Section wait.
Context (s : kernel) (K : kernel_ok s) (L : flag_ok s).
Context (arg self i : Z) (Hself : 0 <= self < THINKOS_THREADS_MAX) (Hc : calling s self).
Context (Hlive : live arg s) (Hi : 0 <= i < THINKOS_FLAG_MAX).

(** The step of flag [i] seen by the caller. *)
Definition flag_refines (op : flag_op) (s' : kernel) : Prop :=
  (exists out, flag_step op (flag_of s i) (flag_of s' i) out /\
     observes arg self (THINKOS_FLAG_BASE + i) s' out) /\ flag_frame s i s'.

(** The flag is raised: it is taken, or seen. *)
Lemma flag_there op b s' :
  flag_step op (mk_flag true ∅) (mk_flag b ∅) (Ret 0) -> Z.testbit (flag s) i = true ->
  flag s' = __bit_mem_wr (flag s) i b -> wq_lst s' = wq_lst s -> th_stat s' = th_stat s ->
  arg_0 arg s' = u32 0 -> kernel_ok s' -> flag_refines op s'.
Proof using L Hc Hi.
  intros Hop Hb Ef Ew Es Hr K'.
  assert (Hq : forall w, wq_set s' w = wq_set s w)
    by (intros w; apply wq_set_ext; intros th; unfold mem; by rewrite Ew).
  pose proof (L i Hi Hb) as He.
  destruct (flag_change s L i Hi b s') as [E F]; [done|by intros|by rewrite Hq|done|].
  split; [|done]. exists (Ret 0). unfold flag_of at 1. rewrite E, Hq, He, Hb.
  split; [exact Hop|]. apply obs_ret; [done|by apply (calling_frame s)].
Qed.

(** It is not: the caller enters the queue. *)
Lemma flag_wait op tm s' :
  op = FTake self tm \/ op = FWatch self tm ->
  Z.testbit (flag s) i = false -> kernel_ok s' -> flag s' = flag s -> pendsv s' = true ->
  (tm = true -> arg_0 arg s' = u32 THINKOS_ETIMEDOUT) ->
  (forall th' wq, THINKOS_WQ_CLOCK <= wq -> mem s' th' wq =
     if ((THINKOS_FLAG_BASE + i =? wq) || tm && (THINKOS_WQ_CLOCK =? wq)) && (self =? th')
     then true else mem s th' wq) ->
  flag_refines op s'.
Proof using K L Hself Hc Hi.
  intros Hop Hz K' Ef Hp Hr Hmem.
  destruct (flag_change s L i Hi false s') as [E F]; [|  |done|done|].
  - rewrite Ef. rewrite <- Hz. by apply flag_same.
  - intros j Hne Hj. apply wq_set_ext. intros th. rewrite Hmem by lia.
    destruct (Z.eqb_spec (31 + i) (31 + j)), (Z.eqb_spec 2 (31 + j)); try lia.
    by rewrite andb_false_r.
  - split; [|done]. exists (Block tm). split.
    + rewrite E, (wq_set_add s s' _ self Hself).
      * unfold flag_of. rewrite Hz. by apply flag_block.
      * intros th'. rewrite Hmem by lia. by rewrite Z.eqb_refl.
    + destruct (calling_facts s K self Hself Hc) as (_ & _ & Hall).
      apply observes_block; try done; [unfold sync_wq; lia| |].
      * rewrite Hmem by lia. by rewrite !Z.eqb_refl.
      * rewrite Hmem by lia. rewrite !Z.eqb_refl, Hall.
        destruct (Z.eqb_spec (31 + i) 2); [lia|]. by destruct tm.
Qed.
End wait.

(** [thinkos_flag_take] and [timedtake], run without interference, take
    the flag when it is raised: it is lowered and the call returns 0; otherwise
    the caller, and only the caller, enters the queue. *)
Theorem flag_take_refines s arg self i :
  kernel_ok s -> flag_ok s -> 0 <= self < THINKOS_THREADS_MAX -> calling s self -> live arg s ->
  0 <= i < THINKOS_FLAG_MAX -> arg_0 arg s = THINKOS_FLAG_BASE + i ->
  Z.testbit (flag_alloc s) i = true ->
  flag_refines s arg self i (FTake self false) (thinkos_flag_take_svc arg self s) /\
  flag_refines s arg self i (FTake self true) (thinkos_flag_timedtake_svc arg self s).
Proof.
  intros K L Hs Hc Hl Hi Harg Hal.
  pose proof (flag_take_ok s K arg self Hs Hc) as K1.
  pose proof (flag_timedtake_ok s K arg self Hs Hc) as K2. revert K1 K2.
  unfold thinkos_flag_take_svc, thinkos_flag_timedtake_svc.
  rewrite Harg, handle_idx by lia. unfold __bit_mem_rd. rewrite Hal.
  destruct (Z.leb_spec 8 i); [lia|]. simpl negb. cbv zeta iota.
  rewrite flag_take_again_eq, flag_timedtake_again_eq by lia.
  assert (Hw : sync_wq (31 + i)) by (unfold sync_wq; lia).
  destruct (Z.testbit (flag s) i) eqn:Hb; intros K1 K2.
  - split; (eapply (flag_there s L arg self i Hc Hi _ false);
      [constructor|done|done|by kred|by kred|by apply arg_0_ret|done]).
  - split.
    + apply (flag_wait s K L arg self i Hs Hc Hi (FTake self false) false); auto; [done|].
      intros th' wq Hwq. rewrite andb_false_l, orb_false_r.
      rewrite <- (mem_suspend_queue s K self Hs (31 + i) Hw (Z.shiftl (31 + i) 1)) by done.
      unfold mem. by kred.
    + apply (flag_wait s K L arg self i Hs Hc Hi (FTake self true) true); auto.
      * intros _. apply (arg_0_stored arg _ s Hl). by kred.
      * intros th' wq Hwq. rewrite andb_true_l.
        rewrite <- (mem_suspend_tqueue s K self Hs (31 + i) Hw (Z.shiftl (31 + i) 1 + 1)) by done.
        unfold mem. by kred.
Qed.

(** [thinkos_flag_watch] and [timedwatch] return 0 at once while the flag
    is raised, and leave it raised; otherwise the caller, and only the caller,
    enters the queue. *)
Theorem flag_watch_refines s arg self i :
  kernel_ok s -> flag_ok s -> 0 <= self < THINKOS_THREADS_MAX -> calling s self -> live arg s ->
  0 <= i < THINKOS_FLAG_MAX -> arg_0 arg s = THINKOS_FLAG_BASE + i ->
  Z.testbit (flag_alloc s) i = true ->
  flag_refines s arg self i (FWatch self false) (thinkos_flag_watch_svc arg self s) /\
  flag_refines s arg self i (FWatch self true) (thinkos_flag_timedwatch_svc arg self s).
Proof.
  intros K L Hs Hc Hl Hi Harg Hal.
  pose proof (flag_watch_ok s K arg self Hs Hc) as K1.
  pose proof (flag_timedwatch_ok s K arg self Hs Hc) as K2. revert K1 K2.
  unfold thinkos_flag_watch_svc, thinkos_flag_timedwatch_svc.
  rewrite Harg, handle_idx by lia. unfold __bit_mem_rd. rewrite Hal.
  destruct (Z.leb_spec 8 i); [lia|]. simpl negb. cbv zeta iota.
  change (flag (arg_ret arg 0 s)) with (flag s).
  assert (Hw : sync_wq (31 + i)) by (unfold sync_wq; lia).
  pose proof (flag_same s i Hi) as Hsame.
  destruct (Z.testbit (flag s) i) eqn:Hb; intros K1 K2.
  - split; (eapply (flag_there s L arg self i Hc Hi _ true);
      [constructor|done|done|by kred|by kred|by apply arg_0_ret|done]).
  - split.
    + apply (flag_wait s K L arg self i Hs Hc Hi (FWatch self false) false); auto; [done|].
      intros th' wq Hwq. rewrite andb_false_l, orb_false_r.
      rewrite <- (mem_insert_suspend s K self Hs (31 + i) Hw) by done.
      unfold mem. by kred.
    + apply (flag_wait s K L arg self i Hs Hc Hi (FWatch self true) true); auto.
      * intros _. apply (arg_0_stored arg _ (arg_ret arg 0 s)); [by apply live_frame_store|by kred].
      * intros th' wq Hwq. rewrite andb_true_l.
        rewrite <- (mem_tmd_insert_suspend s K self Hs (31 + i) Hw (arg_1 arg s)) by done.
        unfold mem. by kred.
Qed.

(** Giving a flag, from an interrupt handler, passes it to the lowest
    numbered waiter, which becomes ready and sees its call return 0; with
    nobody waiting the flag is raised (giving a raised flag changes nothing).
    No other flag changes, and the scheduler is called unless the kernel is in
    a critical section. *)
Theorem flag_give_refines s i :
  kernel_ok s -> flag_ok s -> 0 <= i < THINKOS_FLAG_MAX ->
  let s' := cm3_except10_isr (THINKOS_FLAG_BASE + i) s in
  flag_step FGive (flag_of s i) (flag_of s' i) (Ret THINKOS_OK) /\ flag_frame s i s' /\
  (wq_set s (THINKOS_FLAG_BASE + i) <> ∅ ->
     woken s s' (__thinkos_wq_head (THINKOS_FLAG_BASE + i) s) 0) /\
  (critical_cnt s = 0 -> pendsv s' = true).
Proof.
  intros K L Hi. cbv zeta. unfold cm3_except10_isr.
  destruct (flag_give_i_refines s K L i Hi) as (H1 & (H2 & H3 & H4) & H5).
  assert (Hcc : critical_cnt (__thinkos_flag_give_i (31 + i) s) = critical_cnt s).
  { rewrite flag_give_eq. by destruct (_ =? 32). }
  revert H1 H2 H3 H4 H5 Hcc. generalize (__thinkos_flag_give_i (31 + i) s). intros s1 H1 H2 H3 H4 H5 Hcc.
  split_and!; [exact H1|split_and!; [exact H2|by kpeel|exact H4]| |].
  - intros Hne. destruct (H5 Hne) as [Ha Hb]. split; [exact Ha|exact Hb].
  - intros Hz. unfold __thinkos_preempt. rewrite Hcc, Hz. apply orb_true_r.
Qed.

(** [thinkos_flag_set] raises the flag and wakes every thread waiting for
    it, each seeing its call return 0; [thinkos_flag_clr] lowers it and wakes
    nobody.  So a raised flag never has a waiter. *)
Theorem flag_set_clr_refines s arg i :
  kernel_ok s -> flag_ok s -> 0 <= i < THINKOS_FLAG_MAX -> arg_0 arg s = THINKOS_FLAG_BASE + i ->
  Z.testbit (flag_alloc s) i = true ->
  (let s' := thinkos_flag_set_svc arg s in
   flag_step FSet (flag_of s i) (flag_of s' i) (Ret THINKOS_OK) /\ flag_frame s i s' /\
   forall th, th ∈ wq_set s (THINKOS_FLAG_BASE + i) -> woken (arg_ret arg 0 s) s' th 0) /\
  (let s' := thinkos_flag_clr_svc arg s in
   flag_step FClr (flag_of s i) (flag_of s' i) (Ret THINKOS_OK) /\ flag_frame s i s' /\
   wq_lst s' = wq_lst s).
Proof.
  intros K L Hi Harg Hal. pose proof (flag_sync i Hi) as Hw. split; cbv zeta.
  - pose proof (flag_set_ok s arg K) as K'. revert K'. rewrite (flag_set_eq s arg i) by done.
    cbv zeta. set (s0 := set_flag _ _).
    assert (K0 : kernel_ok s0) by (unfold s0; kframe).
    assert (Hq0 : forall w, wq_set s0 w = wq_set s w) by (intros; by apply wq_set_ext).
    assert (Hf : forall s', flag s' = __bit_mem_wr (flag s) i true -> drained (31 + i) 0 s0 s' ->
      flag_step FSet (flag_of s i) (flag_of s' i) (Ret 0) /\ flag_frame s i s' /\
      forall th, th ∈ wq_set s (31 + i) -> woken (arg_ret arg 0 s) s' th 0).
    { intros s' Ef (K' & He & Hwk & Ho & _).
      destruct (flag_change s L i Hi true s') as [E F]; [done| |by intros|done|].
      - intros j Hne Hj. rewrite Ho by (unfold sync_wq; lia). apply Hq0.
      - rewrite E, He. split_and!; [apply flag_raise|done|].
        intros th Hth. rewrite <- Hq0 in Hth. destruct (Hwk th Hth) as [Ha Hb].
        split; [exact Ha|exact Hb]. }
    destruct (Z.eqb_spec (__thinkos_wq_head (31 + i) s) 32) as [En|Hn]; intros K'.
    + apply wq_set_empty in En; [|done..]. apply Hf; [done|].
      split_and!; [done|by rewrite Hq0| |done|done].
      intros th Hth. rewrite Hq0, En in Hth. exfalso. exact (not_elem_of_empty _ Hth).
    + pose proof (wq_drain_spec (31 + i) 0 (__thinkos_wakeup (31 + i)) Hw s0 K0 33 ltac:(lia)) as D.
      pose proof (wq_drain_field (31 + i) (__thinkos_wakeup (31 + i)) flag 33 ltac:(done) s0) as Ef.
      revert D Ef. generalize (wq_drain 33 (__thinkos_wakeup (31 + i)) (31 + i) s0).
      intros s1 (D1 & D2 & D3 & D4 & D5) Ef. apply Hf; [exact Ef|]. split_and!; [by kpeel|exact D2| |exact D4|exact D5].
      intros th Hth. destruct (D3 th Hth) as [Ha Hb]. split; [exact Ha|exact Hb].
  - pose proof (flag_clr_ok s K arg) as K'. revert K'. unfold thinkos_flag_clr_svc.
    rewrite Harg, handle_idx by lia. unfold __bit_mem_rd. rewrite Hal.
    destruct (Z.leb_spec 8 i); [lia|]. simpl negb. cbv zeta iota. unfold __thinkos_flag_clr.
    replace (31 + i - 31) with i by lia. set (s' := set_flag _ _). intros K'.
    assert (Hq : forall w, wq_set s' w = wq_set s w) by (intros; by apply wq_set_ext).
    destruct (flag_change s L i Hi false s') as [E F]; [done|by intros|done|done|].
    rewrite E, Hq. split_and!; [apply flag_lower|done|done].
Qed.

(** ** Sample *)

(** Flag 0 is down and threads 2 and 3 wait for it; thread 0 calls. *)
Definition flag_demo : kernel :=
  demo_call THINKOS_FLAG_BASE 50 0 0
    (demo |> set_flag_alloc 4294967041
          |> demo_wait 2 THINKOS_FLAG_BASE |> demo_wait 3 THINKOS_FLAG_BASE).

Lemma flag_demo_ok : flag_ok flag_demo.
Proof. intros i Hi. z_cases i; vm_compute; congruence. Qed.

Lemma flag_take_refines_witness :
  flag_refines flag_demo (record_of 0) 0 0 (FTake 0 false)
    (thinkos_flag_take_svc (record_of 0) 0 flag_demo) /\
  flag_refines flag_demo (record_of 0) 0 0 (FTake 0 true)
    (thinkos_flag_timedtake_svc (record_of 0) 0 flag_demo).
Proof.
  apply (flag_take_refines flag_demo (record_of 0) 0 0);
    [kernel_ok_compute|exact flag_demo_ok|lia|split; vm_compute; reflexivity
    |eexists; vm_compute; reflexivity|lia|vm_compute; reflexivity|vm_compute; reflexivity].
Defined.

Lemma flag_watch_refines_witness :
  flag_refines flag_demo (record_of 0) 0 0 (FWatch 0 false)
    (thinkos_flag_watch_svc (record_of 0) 0 flag_demo) /\
  flag_refines flag_demo (record_of 0) 0 0 (FWatch 0 true)
    (thinkos_flag_timedwatch_svc (record_of 0) 0 flag_demo).
Proof.
  apply (flag_watch_refines flag_demo (record_of 0) 0 0);
    [kernel_ok_compute|exact flag_demo_ok|lia|split; vm_compute; reflexivity
    |eexists; vm_compute; reflexivity|lia|vm_compute; reflexivity|vm_compute; reflexivity].
Defined.

Lemma flag_give_refines_witness :
  let s' := cm3_except10_isr THINKOS_FLAG_BASE flag_demo in
  flag_step FGive (mk_flag false {[2; 3]}) (mk_flag false {[3]}) (Ret THINKOS_OK) /\
  woken flag_demo s' 2 0 /\ pendsv s' = true.
Proof.
  destruct (flag_give_refines flag_demo 0) as (H1 & _ & H3 & H4);
    [kernel_ok_compute|exact flag_demo_ok|lia|].
  replace (flag_of flag_demo 0) with (mk_flag false {[2; 3]}) in H1 by (vm_compute; reflexivity).
  replace (flag_of (cm3_except10_isr (31 + 0) flag_demo) 0) with (mk_flag false {[3]}) in H1
    by (vm_compute; reflexivity).
  split; [exact H1|]. split; [|apply H4; vm_compute; reflexivity].
  replace (__thinkos_wq_head (31 + 0) flag_demo) with 2 in H3 by (vm_compute; reflexivity).
  apply H3. vm_compute. congruence.
Defined.

Lemma flag_set_clr_refines_witness :
  let s' := thinkos_flag_set_svc (record_of 0) flag_demo in
  flag_step FSet (mk_flag false {[2; 3]}) (mk_flag true ∅) (Ret THINKOS_OK) /\ flag_frame flag_demo 0 s' /\
  calling s' 2 /\ calling s' 3.
Proof.
  destruct (flag_set_clr_refines flag_demo (record_of 0) 0) as ((H1 & H2 & H3) & _);
    [kernel_ok_compute|exact flag_demo_ok|lia|vm_compute; reflexivity..|].
  replace (flag_of flag_demo 0) with (mk_flag false {[2; 3]}) in H1 by (vm_compute; reflexivity).
  replace (flag_of (thinkos_flag_set_svc (record_of 0) flag_demo) 0) with (mk_flag true ∅) in H1
    by (vm_compute; reflexivity).
  split; [exact H1|]. split; [exact H2|].
  split; (apply H3; apply elem_of_wq_set; split; [lia|vm_compute; reflexivity]).
Defined.
