(* ===== verification/Gate.v ===== *)
(** * Gates

    The handlers of src/sdk/libthinkos/thinkos_gate.c, run without
    interference: a gate admits one thread at a time, is locked while that
    thread is inside and may be signaled, that is, opened, meanwhile. *)

From stdpp Require Import base tactics numbers list gmap.
From Stdlib Require Import ZArith Lia.
From S2P Require Import Prelude CortexM State Kernel BmpAlloc Invariant Decide Init Demo Transitions.

(** ** Code *)

Abbreviation __GATE_SIGNALED := 1 (only parsing).
Abbreviation __GATE_LOCKED := 2 (only parsing).

Definition thinkos_gate_alloc_svc (arg : Z) (s : kernel) : kernel :=
  let '(bmp, idx) := bmp_alloc_word (gate_alloc s) THINKOS_GATE_MAX in
  let s := set_gate_alloc bmp s in
  if 0 <=? idx then
    let s := set_gate (__bit_mem_wr (gate s) (idx * 2) false) s in
    let s := set_gate (__bit_mem_wr (gate s) (idx * 2 + 1) false) s in
    s |> arg_ret arg (idx + THINKOS_GATE_BASE)
  else s |> arg_ret arg idx.

Definition thinkos_gate_free_svc (arg : Z) (s : kernel) : kernel :=
  let wq := arg_0 arg s in
  let idx := u32 (wq - THINKOS_GATE_BASE) in
  if THINKOS_GATE_MAX <=? idx then s |> arg_ret arg THINKOS_EINVAL
  else set_gate_alloc (__bit_mem_wr (gate_alloc s) (wq - THINKOS_GATE_BASE) false) s.

(** From the label [again], with [idx] already doubled; [n] bounds the
    rollbacks. *)
Fixpoint gate_wait_again (n : nat) (wq idx arg self : Z) (s : kernel) : kernel :=
  match n with
  | O => s
  | S n =>
      let gates := gate s in
      if Z.land (Z.shiftr gates idx) 3 =? __GATE_SIGNALED then
        let gates := Z.lor (Z.ldiff gates (Z.shiftl 3 idx)) (Z.shiftl __GATE_LOCKED idx) in
        s |> set_gate gates
          |> arg_ret arg 0
      else
        let s := s |> __thinkos_suspend self
                   |> th_stat_store self (Z.shiftl wq 1)
                   |> ctx_store self arg in
        let queue := Z.lor (rd (wq_lst s) wq) (Z.shiftl 1 self) in
        if Z.land (Z.shiftr (gate s) idx) 3 =? __GATE_SIGNALED then
          s |> th_stat_store self 0
            |> wq_bit_store THINKOS_WQ_READY self true
            |> gate_wait_again n wq idx arg self
        else
          s |> wq_store wq queue
            |> __thinkos_defer_sched
  end.

Definition thinkos_gate_wait_svc (arg self : Z) (s : kernel) : kernel :=
  let wq := arg_0 arg s in
  let idx := u32 (wq - THINKOS_GATE_BASE) in
  if THINKOS_GATE_MAX <=? idx then s |> arg_ret arg THINKOS_EINVAL
  else if negb (__bit_mem_rd (gate_alloc s) idx) then s |> arg_ret arg THINKOS_EINVAL
  else gate_wait_again 2 wq (idx * 2) arg self s.

Fixpoint gate_timedwait_again (n : nat) (wq idx ms arg self : Z) (s : kernel) : kernel :=
  match n with
  | O => s
  | S n =>
      let gates := gate s in
      if Z.land (Z.shiftr gates idx) 3 =? 3 then s |> arg_ret arg 0
      else if Z.land (Z.shiftr gates idx) 3 =? __GATE_SIGNALED then
        let gates := Z.lor (Z.ldiff gates (Z.shiftl 3 idx)) (Z.shiftl __GATE_LOCKED idx) in
        s |> set_gate gates
          |> arg_ret arg 0
      else
        let s := s |> __thinkos_suspend self
                   |> th_stat_store self (Z.shiftl wq 1 + 1)
                   |> ctx_store self arg in
        let queue := Z.lor (rd (wq_lst s) wq) (Z.shiftl 1 self) in
        if Z.land (Z.shiftr (gate s) idx) 3 =? __GATE_SIGNALED then
          s |> th_stat_store self 0
            |> wq_bit_store THINKOS_WQ_READY self true
            |> gate_timedwait_again n wq idx ms arg self
        else
          s |> wq_store wq queue
            |> clock_store self (ticks s + ms)
            |> wq_bit_store THINKOS_WQ_CLOCK self true
            |> arg_ret arg THINKOS_ETIMEDOUT
            |> __thinkos_defer_sched
  end.

Definition thinkos_gate_timedwait_svc (arg self : Z) (s : kernel) : kernel :=
  let wq := arg_0 arg s in
  let ms := arg_1 arg s in
  let idx := u32 (wq - THINKOS_GATE_BASE) in
  if THINKOS_GATE_MAX <=? idx then s |> arg_ret arg THINKOS_EINVAL
  else if negb (__bit_mem_rd (gate_alloc s) idx) then s |> arg_ret arg THINKOS_EINVAL
  else gate_timedwait_again 2 wq (idx * 2) ms arg self s.

(** The end shared by [thinkos_gate_exit_svc] and [__thinkos_gate_open_i]: the
    gate is locked, let the first waiting thread in or unlock it. *)
Definition gate_pass (wq idx : Z) (s : kernel) : kernel * bool :=
  let queue := rd (wq_lst s) wq in
  let th := __clz (__rbit queue) in
  if th =? THINKOS_THREAD_NULL then
    (s |> set_gate (Z.ldiff (gate s) (Z.shiftl __GATE_LOCKED idx)), false)
  else
    let s := s |> wq_store wq (Z.ldiff queue (Z.shiftl 1 th)) in
    let s := s |> set_gate (Z.ldiff (gate s) (Z.shiftl __GATE_SIGNALED idx)) in
    (s |> ready_return th 0, true).

Definition thinkos_gate_exit_svc (arg : Z) (s : kernel) : kernel :=
  let wq := arg_0 arg s in
  let open := arg_1 arg s in
  let idx := u32 (wq - THINKOS_GATE_BASE) in
  if THINKOS_GATE_MAX <=? idx then s |> arg_ret arg THINKOS_EINVAL
  else if negb (__bit_mem_rd (gate_alloc s) idx) then s |> arg_ret arg THINKOS_EINVAL
  else if negb (__bit_mem_rd (gate s) (idx * 2 + 1)) then s |> arg_ret arg THINKOS_EPERM
  else
    let idx := idx * 2 in
    let s := s |> arg_ret arg 0 in
    if negb (0 <? open) && (Z.land (gate s) (Z.shiftl __GATE_SIGNALED 3) =? 0) then
      s |> set_gate (Z.ldiff (gate s) (Z.shiftl __GATE_LOCKED idx))
    else
      let s := if 0 <? open then s |> set_gate (Z.lor (gate s) (Z.shiftl __GATE_SIGNALED idx))
               else s in
      let '(s, woke) := gate_pass wq idx s in
      if woke then s |> __thinkos_defer_sched else s.

Definition __thinkos_gate_open_i (wq : Z) (s : kernel) : kernel :=
  let idx := (wq - THINKOS_GATE_BASE) * 2 in
  let gates := gate s in
  if negb (Z.land gates (Z.shiftl __GATE_LOCKED idx) =? 0) then
    s |> set_gate (Z.lor gates (Z.shiftl __GATE_SIGNALED idx))
  else
    let s := s |> set_gate (Z.lor gates (Z.shiftl (Z.lor __GATE_LOCKED __GATE_SIGNALED) idx)) in
    (gate_pass wq idx s).1.

Definition cm3_except13_isr (wq : Z) (s : kernel) : kernel :=
  s |> __thinkos_gate_open_i wq
    |> __thinkos_preempt.

Definition thinkos_gate_open_svc (arg : Z) (s : kernel) : kernel :=
  let wq := arg_0 arg s in
  let idx := u32 (wq - THINKOS_GATE_BASE) in
  if THINKOS_GATE_MAX <=? idx then s |> arg_ret arg THINKOS_EINVAL
  else if negb (__bit_mem_rd (gate_alloc s) idx) then s |> arg_ret arg THINKOS_EINVAL
  else
    s |> arg_ret arg 0
      |> __thinkos_gate_open_i wq
      |> __thinkos_defer_sched.

Definition thinkos_gate_close_svc (arg : Z) (s : kernel) : kernel :=
  let wq := arg_0 arg s in
  let idx := u32 (wq - THINKOS_GATE_BASE) in
  if THINKOS_GATE_MAX <=? idx then s |> arg_ret arg THINKOS_EINVAL
  else if negb (__bit_mem_rd (gate_alloc s) idx) then s |> arg_ret arg THINKOS_EINVAL
  else
    let s := s |> arg_ret arg 0 in
    set_gate (__bit_mem_wr (gate s) (idx * 2) false) s.

(** ** Abstract gate *)

Record gate_abs := mk_gate { signaled : bool; locked : bool; queued : gset Z }.

(** [GWait self tm]: wait, or timed wait; [GExit open]: leave the gate, and
    leave it open or not. *)
Inductive gate_op := GWait (self : Z) (tm : bool) | GExit (open : bool) | GOpen | GClose.

(** Whom a locked gate admits when its thread leaves, or it is opened. *)
Inductive gate_admit (sg : bool) : gset Z -> gate_abs -> Prop :=
  | admit_none : gate_admit sg ∅ (mk_gate sg false ∅)
  | admit_first W th : th ∈ W -> (forall th', th' ∈ W -> th <= th') ->
      gate_admit sg W (mk_gate false true (W ∖ {[th]})).

Inductive gate_step : gate_op -> gate_abs -> gate_abs -> outcome -> Prop :=
  | gate_enter self tm W :
      gate_step (GWait self tm) (mk_gate true false W) (mk_gate false true W) (Ret 0)
  | gate_queue self tm sg lk W : sg = false \/ lk = true ->
      gate_step (GWait self tm) (mk_gate sg lk W) (mk_gate sg lk ({[self]} ∪ W)) (Block tm)
  | gate_not_in op sg W :
      gate_step (GExit op) (mk_gate sg false W) (mk_gate sg false W) (Ret THINKOS_EPERM)
  | gate_leave_open sg W g : gate_admit true W g ->
      gate_step (GExit true) (mk_gate sg true W) g (Ret 0)
  | gate_leave_signaled W g : gate_admit true W g ->
      gate_step (GExit false) (mk_gate true true W) g (Ret 0)
  | gate_leave_closed W :
      gate_step (GExit false) (mk_gate false true W) (mk_gate false false W) (Ret 0)
  | gate_signal sg W : gate_step GOpen (mk_gate sg true W) (mk_gate true true W) (Ret 0)
  | gate_opened sg W g : gate_admit true W g -> gate_step GOpen (mk_gate sg false W) g (Ret 0)
  | gate_closed sg lk W : gate_step GClose (mk_gate sg lk W) (mk_gate false lk W) (Ret 0).

Definition gate_of (s : kernel) (i : Z) : gate_abs :=
  mk_gate (Z.testbit (gate s) (2 * i)) (Z.testbit (gate s) (2 * i + 1))
    (wq_set s (THINKOS_GATE_BASE + i)).

(** Nobody waits at a gate that is open and free. *)
Definition gate_ok (s : kernel) : Prop :=
  forall i, 0 <= i < THINKOS_GATE_MAX ->
    Z.testbit (gate s) (2 * i) = true -> Z.testbit (gate s) (2 * i + 1) = false ->
    wq_set s (THINKOS_GATE_BASE + i) = ∅.

(** ** The words *)

Lemma shl2 k : 0 <= k -> Z.shiftl 2 k = Z.shiftl 1 (k + 1).
Proof. intros. rewrite !Z.shiftl_mul_pow2, Z.pow_add_r by lia. lia. Qed.

Lemma shl3 k : 0 <= k -> Z.shiftl 3 k = Z.lor (Z.shiftl 1 k) (Z.shiftl 1 (k + 1)).
Proof. intros. rewrite <- shl2 by done. by rewrite <- Z.shiftl_lor. Qed.

(** The two bits of a gate. *)
Lemma gate_bits g k :
  0 <= k ->
  Z.land (Z.shiftr g k) 3 = Z.b2z (Z.testbit g k) + 2 * Z.b2z (Z.testbit g (k + 1)).
Proof.
  intros Hk. set (x := Z.shiftr g k).
  assert (E : Z.testbit g k = Z.testbit x 0 /\ Z.testbit g (k + 1) = Z.testbit x 1).
  { unfold x. rewrite !Z.shiftr_spec by lia. split; f_equal; lia. }
  destruct E as [-> ->]. change 3 with (Z.ones 2). rewrite Z.land_ones by lia.
  rewrite (Z.testbit_spec' x 0), (Z.testbit_spec' x 1) by lia. change (2 ^ 0) with 1.
  change (2 ^ 1) with 2. change (2 ^ 2) with 4. Z.div_mod_to_equations. lia.
Qed.

Lemma gate_is_open g k :
  0 <= k -> (Z.land (Z.shiftr g k) 3 =? 1) = Z.testbit g k && negb (Z.testbit g (k + 1)).
Proof. intros. rewrite gate_bits by done. by destruct (Z.testbit g k), (Z.testbit g (k + 1)). Qed.

Lemma gate_is_both g k :
  0 <= k -> (Z.land (Z.shiftr g k) 3 =? 3) = Z.testbit g k && Z.testbit g (k + 1).
Proof. intros. rewrite gate_bits by done. by destruct (Z.testbit g k), (Z.testbit g (k + 1)). Qed.

(** [g'] is [g] with the bits of the gate at [k] set to [sg] and [lk]. *)
Definition gate_word (g k : Z) (sg lk : bool) (g' : Z) : Prop :=
  forall j, 0 <= j ->
    Z.testbit g' j = if k =? j then sg else if k + 1 =? j then lk else Z.testbit g j.

(** Bits of the words the handlers store. *)
Ltac gate_word_tac :=
  let j := fresh "j" in
  intros j ?; rewrite ?shl3, ?shl2 by lia;
  rewrite ?Z.lor_spec, ?Z.ldiff_spec, ?Z.lor_spec, ?testbit_shiftl1, ?bit_wr_spec by lia;
  repeat match goal with |- context [?a =? ?b] => destruct (Z.eqb_spec a b); subst; try lia end;
  repeat match goal with H : Z.testbit _ _ = _ |- _ => rewrite H end;
  try reflexivity; try (by rewrite ?andb_true_r, ?andb_false_r, ?orb_true_r, ?orb_false_r).

Section words.
Context (g k : Z) (Hk : 0 <= k).
Lemma word_same : gate_word g k (Z.testbit g k) (Z.testbit g (k + 1)) g.
Proof using. 
  intros j _. destruct (Z.eqb_spec k j) as [<-|]; [done|].
  by destruct (Z.eqb_spec (k + 1) j) as [<-|].
Qed.
Lemma word_enter : gate_word g k false true (Z.lor (Z.ldiff g (Z.shiftl 3 k)) (Z.shiftl 2 k)).
Proof using Hk. gate_word_tac. Qed.
Lemma word_unlock : gate_word g k (Z.testbit g k) false (Z.ldiff g (Z.shiftl 2 k)).
Proof using Hk. gate_word_tac. Qed.
Lemma word_signal : gate_word g k true (Z.testbit g (k + 1)) (Z.lor g (Z.shiftl 1 k)).
Proof using Hk. gate_word_tac. Qed.
Lemma word_close : gate_word g k false (Z.testbit g (k + 1)) (__bit_mem_wr g k false).
Proof using Hk. gate_word_tac. Qed.
Lemma word_unsignal : gate_word g k false (Z.testbit g (k + 1)) (Z.ldiff g (Z.shiftl 1 k)).
Proof using Hk. gate_word_tac. Qed.
Lemma word_both : gate_word g k true true (Z.lor g (Z.shiftl 3 k)).
Proof using Hk. gate_word_tac. Qed.

Lemma word_trans a b c d g1 g2 :
  gate_word g k a b g1 -> gate_word g1 k c d g2 -> gate_word g k c d g2.
Proof using.
  intros H1 H2 j Hj. rewrite H2, H1 by done. destruct (k =? j); [done|]. by destruct (k + 1 =? j).
Qed.

Lemma word_sig a b g1 : gate_word g k a b g1 -> Z.testbit g1 k = a.
Proof using Hk. intros H. rewrite H by lia. by rewrite Z.eqb_refl. Qed.
Lemma word_lck a b g1 : gate_word g k a b g1 -> Z.testbit g1 (k + 1) = b.
Proof using Hk. intros H. rewrite H by lia. destruct (Z.eqb_spec k (k + 1)); [lia|]. by rewrite Z.eqb_refl. Qed.
End words.

(** ** Queue consistency *)

Lemma gate_wait_again_eq n wq idx arg self s :
  0 <= idx ->
  gate_wait_again (S n) wq idx arg self s =
  if Z.testbit (gate s) idx && negb (Z.testbit (gate s) (idx + 1)) then
    arg_ret arg 0 (set_gate (Z.lor (Z.ldiff (gate s) (Z.shiftl 3 idx)) (Z.shiftl 2 idx)) s)
  else __thinkos_defer_sched (wq_bit_store wq self true (ctx_store self arg
         (th_stat_store self (Z.shiftl wq 1) (__thinkos_suspend self s)))).
Proof.
  intros Hi. cbn [gate_wait_again].
  change (gate (ctx_store _ _ (th_stat_store _ _ (__thinkos_suspend self s)))) with (gate s).
  rewrite gate_is_open by done. by destruct (_ && _).
Qed.

Lemma gate_timedwait_again_eq n wq idx ms arg self s :
  0 <= idx ->
  gate_timedwait_again (S n) wq idx ms arg self s =
  if Z.testbit (gate s) idx then
    if Z.testbit (gate s) (idx + 1) then arg_ret arg 0 s
    else arg_ret arg 0 (set_gate (Z.lor (Z.ldiff (gate s) (Z.shiftl 3 idx)) (Z.shiftl 2 idx)) s)
  else __thinkos_defer_sched (arg_ret arg THINKOS_ETIMEDOUT
      (wq_bit_store THINKOS_WQ_CLOCK self true (clock_store self (ticks s + ms)
      (wq_bit_store wq self true (ctx_store self arg
        (th_stat_store self (Z.shiftl wq 1 + 1) (__thinkos_suspend self s))))))).
Proof.
  intros Hi. cbn [gate_timedwait_again].
  change (gate (ctx_store _ _ (th_stat_store _ _ (__thinkos_suspend self s)))) with (gate s).
  rewrite gate_is_open, gate_is_both by done.
  by destruct (Z.testbit (gate s) idx), (Z.testbit (gate s) (idx + 1)).
Qed.

(** Passing the gate, in the two cases. *)
Lemma gate_pass_eq wq idx s :
  gate_pass wq idx s =
  if __thinkos_wq_head wq s =? THINKOS_THREAD_NULL then
    (set_gate (Z.ldiff (gate s) (Z.shiftl 2 idx)) s, false)
  else
    (ready_return (__thinkos_wq_head wq s) 0 (set_gate (Z.ldiff (gate s) (Z.shiftl 1 idx))
       (wq_bit_store wq (__thinkos_wq_head wq s) false s)), true).
Proof. done. Qed.

Lemma gate_pass_ok s wq idx :
  kernel_ok s -> sync_wq wq -> kernel_ok (gate_pass wq idx s).1.
Proof.
  intros K Hw. rewrite gate_pass_eq.
  destruct (Z.eqb_spec (__thinkos_wq_head wq s) 32) as [|Hn]; simpl; [kframe|].
  destruct (sync_head s wq K Hw Hn) as [Hr Hm].
  kvia (ready_return (__thinkos_wq_head wq s) 0 (wq_bit_store wq (__thinkos_wq_head wq s) false s)).
  by apply ready_return_ok.
Qed.

Lemma gate_open_i_ok s wq :
  kernel_ok s -> THINKOS_GATE_BASE <= wq < THINKOS_GATE_BASE + THINKOS_GATE_MAX ->
  kernel_ok (__thinkos_gate_open_i wq s).
Proof.
  intros K Hwq. unfold __thinkos_gate_open_i. cbv zeta. guards.
  apply gate_pass_ok; [kframe|unfold sync_wq; lia].
Qed.

Lemma gate_isr_ok s wq :
  kernel_ok s -> THINKOS_GATE_BASE <= wq < THINKOS_GATE_BASE + THINKOS_GATE_MAX ->
  kernel_ok (cm3_except13_isr wq s).
Proof. intros K Hwq. unfold cm3_except13_isr. kpeel. by apply gate_open_i_ok. Qed.

Section ok.
Context (s : kernel) (K : kernel_ok s) (arg self : Z).
Context (Hself : 0 <= self < THINKOS_THREADS_MAX) (Hc : calling s self).

Lemma gate_alloc_ok : kernel_ok (thinkos_gate_alloc_svc arg s).
Proof using K.
  unfold thinkos_gate_alloc_svc. destruct (bmp_alloc_word _ _). cbv zeta. guards.
Qed.

Lemma gate_free_ok : kernel_ok (thinkos_gate_free_svc arg s).
Proof using K. unfold thinkos_gate_free_svc. cbv zeta. guards. Qed.

Lemma gate_close_ok : kernel_ok (thinkos_gate_close_svc arg s).
Proof using K. unfold thinkos_gate_close_svc. cbv zeta. guards. Qed.

Lemma gate_wait_ok : kernel_ok (thinkos_gate_wait_svc arg self s).
Proof using K Hself Hc.
  unfold thinkos_gate_wait_svc. cbv zeta. guards. handle. rewrite gate_wait_again_eq by lia. guards.
  kvia (wq_bit_store (arg_0 arg s) self true
    (th_stat_store self (Z.shiftl (arg_0 arg s) 1) (__thinkos_suspend self s))).
  apply suspend_queue_ok; try done. unfold sync_wq. lia.
Qed.

Lemma gate_timedwait_ok : kernel_ok (thinkos_gate_timedwait_svc arg self s).
Proof using K Hself Hc.
  unfold thinkos_gate_timedwait_svc. cbv zeta. guards. handle.
  rewrite gate_timedwait_again_eq by lia. guards.
  kvia (wq_bit_store THINKOS_WQ_CLOCK self true (wq_bit_store (arg_0 arg s) self true
    (th_stat_store self (Z.shiftl (arg_0 arg s) 1 + 1) (__thinkos_suspend self s)))).
  apply suspend_tqueue_ok; try done; unfold sync_wq, timed_ok; lia.
Qed.

Lemma gate_open_ok : kernel_ok (thinkos_gate_open_svc arg s).
Proof using K.
  unfold thinkos_gate_open_svc. cbv zeta. guards. handle. kpeel.
  apply gate_open_i_ok; [by kpeel|lia].
Qed.

Lemma gate_exit_ok : kernel_ok (thinkos_gate_exit_svc arg s).
Proof using K.
  unfold thinkos_gate_exit_svc. cbv zeta. guards. handle.
  set (s1 := if 0 <? _ then _ else _).
  assert (K1 : kernel_ok s1) by (unfold s1; destruct (0 <? _); kframe). clearbody s1.
  pose proof (gate_pass_ok s1 (arg_0 arg s) (u32 (arg_0 arg s - 39) * 2) K1) as Kp.
  destruct (gate_pass _ _ s1) as [s2 woke]. simpl in Kp.
  destruct woke; [kpeel|]; apply Kp; unfold sync_wq; lia.
Qed.
End ok.

(** ** Refinement *)

Section refinement.
Context (s : kernel) (K : kernel_ok s) (L : gate_ok s).
Context (i : Z) (Hi : 0 <= i < THINKOS_GATE_MAX).

Definition gate_frame (s' : kernel) : Prop :=
  (forall j, 0 <= j < THINKOS_GATE_MAX -> j <> i -> gate_of s' j = gate_of s j) /\
  kernel_ok s' /\ gate_ok s'.

Lemma gate_sync : sync_wq (THINKOS_GATE_BASE + i).
Proof using Hi. unfold sync_wq. lia. Qed.

(** Gate [i] becomes [sg], [lk] and no other gate queue changes. *)
Lemma gate_change sg lk s' :
  gate_word (gate s) (2 * i) sg lk (gate s') ->
  (forall j, j <> i -> 0 <= j < THINKOS_GATE_MAX ->
     wq_set s' (THINKOS_GATE_BASE + j) = wq_set s (THINKOS_GATE_BASE + j)) ->
  (sg = true -> lk = false -> wq_set s' (THINKOS_GATE_BASE + i) = ∅) -> kernel_ok s' ->
  gate_of s' i = mk_gate sg lk (wq_set s' (THINKOS_GATE_BASE + i)) /\ gate_frame s'.
Proof using L Hi.
  intros Hg Hq He K'. unfold gate_frame, gate_ok, gate_of.
  assert (Ho : forall j, 0 <= j < 8 -> j <> i ->
    Z.testbit (gate s') (2 * j) = Z.testbit (gate s) (2 * j) /\
    Z.testbit (gate s') (2 * j + 1) = Z.testbit (gate s) (2 * j + 1)).
  { intros j Hj Hne. rewrite !Hg by lia. split;
    repeat match goal with |- context [?a =? ?b] => destruct (Z.eqb_spec a b); try lia end; done. }
  assert (Hs := word_sig (gate s) (2 * i) ltac:(lia) sg lk (gate s') Hg).
  assert (Hl := word_lck (gate s) (2 * i) ltac:(lia) sg lk (gate s') Hg).
  split_and!; try done.
  - by rewrite Hs, Hl.
  - intros j Hj Hne. destruct (Ho j Hj Hne) as [-> ->]. by rewrite Hq by done.
  - intros j Hj. destruct (Z.eq_dec j i) as [->|Hne]; [rewrite Hs, Hl; auto|].
    destruct (Ho j Hj Hne) as [-> ->]. rewrite Hq by done. by apply L.
Qed.

(** A locked gate lets the first waiting thread in, or is unlocked. *)
Lemma gate_pass_refines sg s1 :
  gate_word (gate s) (2 * i) sg true (gate s1) -> wq_lst s1 = wq_lst s -> th_stat s1 = th_stat s ->
  kernel_ok s1 ->
  (wq_set s (THINKOS_GATE_BASE + i) = ∅ \/ sg = true) ->
  let s' := (gate_pass (THINKOS_GATE_BASE + i) (2 * i) s1).1 in
  gate_admit sg (wq_set s (THINKOS_GATE_BASE + i)) (gate_of s' i) /\ gate_frame s' /\
  (wq_set s (THINKOS_GATE_BASE + i) <> ∅ ->
     calling s' (__thinkos_wq_head (THINKOS_GATE_BASE + i) s)).
Proof using K L Hi.
  intros Hg Ew Es K1 Hor s'. pose proof gate_sync as Hw.
  assert (K' : kernel_ok s') by (by apply gate_pass_ok). revert K'. unfold s'. clear s'.
  assert (Hq1 : forall w, wq_set s1 w = wq_set s w)
    by (intros w; apply wq_set_ext; intros th; unfold mem; by rewrite Ew).
  assert (Hh : __thinkos_wq_head (39 + i) s1 = __thinkos_wq_head (39 + i) s)
    by (unfold __thinkos_wq_head; by rewrite Ew).
  rewrite gate_pass_eq, Hh.
  destruct (Z.eqb_spec (__thinkos_wq_head (39 + i) s) 32) as [En|Hn]; cbn [fst]; intros K'.
  - apply wq_set_empty in En; [|done..]. set (s' := set_gate _ _) in *.
    assert (Hq : forall w, wq_set s' w = wq_set s w) by (intros; rewrite <- Hq1; by apply wq_set_ext).
    destruct (gate_change sg false s') as [E F]; [|by intros|by rewrite Hq|done|].
    + eapply word_trans; [exact Hg|]. rewrite <- (word_sig (gate s) (2 * i) ltac:(lia) _ _ _ Hg).
      by apply word_unlock; lia.
    + rewrite E, Hq, En. split_and!; [constructor|done|done].
  - destruct (sync_head s (39 + i) K Hw Hn) as [Hr Hmem].
    destruct (wq_set_head s (39 + i) K Hw Hn) as [Hin Hleast].
    set (th := __thinkos_wq_head (39 + i) s) in *.
    pose proof (mem_ready_return s K th Hr (39 + i) Hw 0) as Hms.
    pose proof (ready_return_woken s K th Hr (39 + i) Hw 0 Hmem) as [Hcall _].
    set (s' := ready_return _ _ _) in *.
    assert (Hm' : forall th' wq, 2 < wq ->
      mem s' th' wq = if (39 + i =? wq) && (th =? th') then false else mem s th' wq).
    { intros th' wq Hwq. rewrite <- Hms by done. unfold s', mem. kred. by rewrite Ew. }
    destruct (gate_change false true s') as [E F]; [| |done|done|].
    + eapply word_trans; [exact Hg|]. rewrite <- (word_lck (gate s) (2 * i) ltac:(lia) _ _ _ Hg).
      by apply word_unsignal; lia.
    + intros j Hne Hj. apply wq_set_ext. intros th'. rewrite Hm' by lia.
      by destruct (Z.eqb_spec (39 + i) (39 + j)); [lia|].
    + rewrite E. split_and!; [|done|].
      * rewrite (wq_set_del s s' _ th) by (intros th'; rewrite Hm' by lia; by rewrite Z.eqb_refl).
        by apply admit_first.
      * intros _. eapply calling_frame; [..|exact Hcall]; unfold s'; kred; by rewrite ?Ew, ?Es.
Qed.

Lemma gate_open_i_refines :
  let s' := __thinkos_gate_open_i (THINKOS_GATE_BASE + i) s in
  gate_step GOpen (gate_of s i) (gate_of s' i) (Ret THINKOS_OK) /\ gate_frame s' /\
  (locked (gate_of s i) = false -> wq_set s (THINKOS_GATE_BASE + i) <> ∅ ->
     calling s' (__thinkos_wq_head (THINKOS_GATE_BASE + i) s)).
Proof using K L Hi.
  cbv zeta. unfold __thinkos_gate_open_i. replace ((39 + i - 39) * 2) with (2 * i) by lia.
  rewrite shl2, land_bit_eqb, negb_involutive by lia. change (Z.lor 2 1) with 3.
  destruct (Z.testbit (gate s) (2 * i + 1)) eqn:El.
  - set (s' := set_gate _ _).
    assert (Hq : forall w, wq_set s' w = wq_set s w) by (intros; by apply wq_set_ext).
    destruct (gate_change true true s') as [E F]; [|by intros|done|unfold s'; kframe|].
    + pose proof (word_signal (gate s) (2 * i) ltac:(lia)) as H. by rewrite El in H.
    + split_and!; [|done|simpl; congruence]. rewrite E, Hq. unfold gate_of. rewrite El. constructor.
  - destruct (gate_pass_refines true (set_gate (Z.lor (gate s) (Z.shiftl 3 (2 * i))) s))
      as (H1 & H2 & H3); [by apply word_both; lia|done|done|kframe|by right|].
    split_and!; [|exact H2|intros _; exact H3]. unfold gate_of at 1. rewrite El. by apply gate_opened.
Qed.
End refinement.

Section wait.
Context (s : kernel) (K : kernel_ok s) (L : gate_ok s).
Context (arg self i : Z) (Hself : 0 <= self < THINKOS_THREADS_MAX) (Hc : calling s self).
Context (Hlive : live arg s) (Hi : 0 <= i < THINKOS_GATE_MAX).

(** The step of gate [i] seen by the caller. *)
Definition gate_refines (op : gate_op) (s' : kernel) : Prop :=
  (exists out, gate_step op (gate_of s i) (gate_of s' i) out /\
     observes arg self (THINKOS_GATE_BASE + i) s' out) /\ gate_frame s i s'.

(** The call returns and leaves the queues alone. *)
Lemma gate_returns op sg lk v s' :
  gate_step op (gate_of s i) (mk_gate sg lk (wq_set s (THINKOS_GATE_BASE + i))) (Ret v) ->
  gate_word (gate s) (2 * i) sg lk (gate s') -> wq_lst s' = wq_lst s -> th_stat s' = th_stat s ->
  (sg = true -> lk = false -> wq_set s (THINKOS_GATE_BASE + i) = ∅) ->
  arg_0 arg s' = u32 v -> kernel_ok s' -> gate_refines op s'.
Proof using L Hc Hi.
  intros Hop Hg Ew Es He Hr K'.
  assert (Hq : forall w, wq_set s' w = wq_set s w)
    by (intros w; apply wq_set_ext; intros th; unfold mem; by rewrite Ew).
  destruct (gate_change s L i Hi sg lk s') as [E F]; [done|by intros|by rewrite Hq|done|].
  split; [|done]. exists (Ret v). rewrite E, Hq.
  split; [exact Hop|]. apply obs_ret; [done|by apply (calling_frame s)].
Qed.

(** The caller enters the queue. *)
Lemma gate_waits tm s' :
  Z.testbit (gate s) (2 * i) = false \/ Z.testbit (gate s) (2 * i + 1) = true ->
  kernel_ok s' -> gate s' = gate s -> pendsv s' = true ->
  (tm = true -> arg_0 arg s' = u32 THINKOS_ETIMEDOUT) ->
  (forall th' wq, THINKOS_WQ_CLOCK <= wq -> mem s' th' wq =
     if ((THINKOS_GATE_BASE + i =? wq) || tm && (THINKOS_WQ_CLOCK =? wq)) && (self =? th')
     then true else mem s th' wq) ->
  gate_refines (GWait self tm) s'.
Proof using K L Hself Hc Hi.
  intros Hz K' Eg Hp Hr Hmem. pose proof (word_same (gate s) (2 * i)) as Hsame.
  destruct (gate_change s L i Hi _ _ s' ltac:(rewrite Eg; exact Hsame)) as [E F]; [| |done|].
  - intros j Hne Hj. apply wq_set_ext. intros th. rewrite Hmem by lia.
    destruct (Z.eqb_spec (39 + i) (39 + j)), (Z.eqb_spec 2 (39 + j)); try lia.
    by rewrite andb_false_r.
  - intros H1 H2. rewrite H1, H2 in Hz. by destruct Hz.
  - split; [|done]. exists (Block tm). split.
    + rewrite E, (wq_set_add s s' _ self Hself); [by apply gate_queue|].
      intros th'. rewrite Hmem by lia. by rewrite Z.eqb_refl.
    + destruct (calling_facts s K self Hself Hc) as (_ & _ & Hall).
      apply observes_block; try done; [unfold sync_wq; lia| |].
      * rewrite Hmem by lia. by rewrite !Z.eqb_refl.
      * rewrite Hmem by lia. rewrite !Z.eqb_refl, Hall.
        destruct (Z.eqb_spec (39 + i) 2); [lia|]. by destruct tm.
Qed.

(** The gate is open and free: the caller enters and locks it. *)
Lemma gate_enters tm :
  Z.testbit (gate s) (2 * i) = true -> Z.testbit (gate s) (2 * i + 1) = false ->
  gate_refines (GWait self tm)
    (arg_ret arg 0 (set_gate (Z.lor (Z.ldiff (gate s) (Z.shiftl 3 (2 * i))) (Z.shiftl 2 (2 * i))) s)).
Proof using K L Hc Hlive Hi.
  intros H1 H2. apply (gate_returns _ false true 0).
  - unfold gate_of. rewrite H1, H2. constructor.
  - by apply word_enter; lia.
  - by kred.
  - by kred.
  - done.
  - by apply arg_0_ret.
  - kframe.
Qed.
End wait.

(** C16: [thinkos_gate_wait] and [timedwait], run without interference, on an
    allocated gate.  At an open and free gate the caller enters, which closes and locks
    it; otherwise the caller, and only the caller, enters the queue of the gate, with the
    time-out error as its default result when timed.  The one exception is the timed wait
    at a gate that is locked and has been opened since: it returns 0 at once and changes
    nothing, so that the caller goes on as if it had entered. *)
Theorem gate_wait_refines s arg self i :
  kernel_ok s -> gate_ok s -> 0 <= self < THINKOS_THREADS_MAX -> calling s self -> live arg s ->
  0 <= i < THINKOS_GATE_MAX -> arg_0 arg s = THINKOS_GATE_BASE + i ->
  Z.testbit (gate_alloc s) i = true ->
  gate_refines s arg self i (GWait self false) (thinkos_gate_wait_svc arg self s) /\
  if signaled (gate_of s i) && locked (gate_of s i) then thinkos_gate_timedwait_svc arg self s = arg_ret arg 0 s
  else gate_refines s arg self i (GWait self true) (thinkos_gate_timedwait_svc arg self s).
Proof.
  intros K L Hs Hc Hl Hi Harg Hal.
  pose proof (gate_wait_ok s K arg self Hs Hc) as K1.
  pose proof (gate_timedwait_ok s K arg self Hs Hc) as K2. revert K1 K2.
  unfold thinkos_gate_wait_svc, thinkos_gate_timedwait_svc.
  rewrite Harg, handle_idx by lia. unfold __bit_mem_rd. rewrite Hal.
  destruct (Z.leb_spec 8 i); [lia|]. simpl negb. cbv zeta iota.
  rewrite gate_wait_again_eq, gate_timedwait_again_eq by lia. rewrite (Z.mul_comm i 2).
  assert (Hw : sync_wq (39 + i)) by (unfold sync_wq; lia).
  pose proof (mem_suspend_queue s K self Hs (39 + i) Hw (Z.shiftl (39 + i) 1)) as Mq.
  unfold gate_of at 1 2. cbn [signaled locked].
  destruct (Z.testbit (gate s) (2 * i)) eqn:Es; [destruct (Z.testbit (gate s) (2 * i + 1)) eqn:El|];
    cbv [andb negb]; cbv iota; intros K1 K2; split; try done; try (by apply gate_enters).
  - apply gate_waits; auto; [done|].
    intros th' wq Hwq. rewrite andb_false_l, orb_false_r, <- Mq by done. unfold mem. by kred.
  - apply gate_waits; auto; [done|].
    intros th' wq Hwq. rewrite andb_false_l, orb_false_r, <- Mq by done. unfold mem. by kred.
  - apply gate_waits; auto.
    + intros _. apply (arg_0_stored arg _ s Hl). by kred.
    + intros th' wq Hwq. rewrite andb_true_l.
      rewrite <- (mem_suspend_tqueue s K self Hs (39 + i) Hw (Z.shiftl (39 + i) 1 + 1)) by done.
      unfold mem. by kred.
Qed.

(** In that exception the call does not do what a wait is for: its result is
    none of those the specification admits. *)
Theorem gate_timedwait_skips s arg self i :
  kernel_ok s -> 0 <= self < THINKOS_THREADS_MAX -> calling s self -> 0 <= i < THINKOS_GATE_MAX ->
  signaled (gate_of s i) = true -> locked (gate_of s i) = true ->
  ~ gate_refines s arg self i (GWait self true) (arg_ret arg 0 s).
Proof.
  intros K Hs Hc Hi Es El [(out & Hst & _) _]. change (gate_of (arg_ret arg 0 s) i) with (gate_of s i) in Hst.
  destruct (calling_facts s K self Hs Hc) as (_ & _ & Hall). specialize (Hall (39 + i)).
  assert (Hn : self ∉ queued (gate_of s i)).
  { intros [_ Hm]%elem_of_wq_set. rewrite Hall in Hm. lia. }
  generalize dependent (gate_of s i). intros [sg lk W] Es El Hst Hn. cbn in *. subst sg lk.
  assert (HW : {[self]} ∪ W = W) by (inversion Hst; congruence). set_solver.
Qed.

(** opening a gate, from an interrupt handler: a locked gate is marked
    signaled; a free one admits its lowest numbered waiter, which becomes
    ready, and stays locked for it, or stays open when nobody waits.  So nobody
    is left waiting at an open and free gate. *)
Theorem gate_open_refines s i :
  kernel_ok s -> gate_ok s -> 0 <= i < THINKOS_GATE_MAX ->
  let s' := cm3_except13_isr (THINKOS_GATE_BASE + i) s in
  gate_step GOpen (gate_of s i) (gate_of s' i) (Ret THINKOS_OK) /\ gate_frame s i s' /\
  (locked (gate_of s i) = false -> wq_set s (THINKOS_GATE_BASE + i) <> ∅ ->
     calling s' (__thinkos_wq_head (THINKOS_GATE_BASE + i) s)).
Proof.
  intros K L Hi. cbv zeta. unfold cm3_except13_isr.
  destruct (gate_open_i_refines s K L i Hi) as (H1 & (H2 & H3 & H4) & H5).
  revert H1 H2 H3 H4 H5. generalize (__thinkos_gate_open_i (39 + i) s). intros s1 H1 H2 H3 H4 H5.
  split_and!; [exact H1|split_and!; [exact H2|by kpeel|exact H4]|exact H5].
Qed.

(** The exit past its argument checks. *)
Lemma gate_exit_eq s arg i :
  0 <= i < THINKOS_GATE_MAX -> arg_0 arg s = THINKOS_GATE_BASE + i ->
  Z.testbit (gate_alloc s) i = true ->
  thinkos_gate_exit_svc arg s =
  let s0 := arg_ret arg 0 s in
  if negb (Z.testbit (gate s) (2 * i + 1)) then arg_ret arg THINKOS_EPERM s
  else if (arg_1 arg s =? 0) && negb (Z.testbit (gate s) 3) then
    set_gate (Z.ldiff (gate s) (Z.shiftl 2 (2 * i))) s0
  else
    let s1 := if arg_1 arg s =? 0 then s0
              else set_gate (Z.lor (gate s) (Z.shiftl 1 (2 * i))) s0 in
    let p := gate_pass (THINKOS_GATE_BASE + i) (2 * i) s1 in
    if p.2 then __thinkos_defer_sched p.1 else p.1.
Proof.
  intros Hi Ha Hal. unfold thinkos_gate_exit_svc. rewrite Ha, handle_idx by lia.
  unfold __bit_mem_rd. rewrite Hal. destruct (Z.leb_spec 8 i); [lia|]. simpl negb. cbv zeta iota.
  rewrite (Z.mul_comm i 2). destruct (Z.testbit (gate s) (2 * i + 1)); [|done]. simpl negb. cbv iota.
  change (gate (arg_ret arg 0 s)) with (gate s). rewrite (land_bit_eqb (gate s) 3) by lia.
  assert (E0 : (0 <? arg_1 arg s) = negb (arg_1 arg s =? 0)).
  { pose proof (u32_range (r1 (context_at arg s))) as Hr. fold (arg_1 arg s) in Hr.
    destruct (Z.ltb_spec 0 (arg_1 arg s)), (Z.eqb_spec (arg_1 arg s) 0); lia || done. }
  rewrite E0, negb_involutive.
  destruct ((arg_1 arg s =? 0) && _); [done|].
  by destruct (arg_1 arg s =? 0); simpl negb; cbv iota; destruct (gate_pass _ _ _).
Qed.

(** [thinkos_gate_exit] with [open] set, or with [open] clear while bit 3
    of the gate word (the bit the code looks at) happens to agree with the
    gate's own signal, implements the exit: EPERM at a gate that is not locked;
    otherwise, open or signaled, the lowest numbered waiter enters the gate,
    which stays locked, or the gate is left open with nobody waiting; neither
    open nor signaled, the gate is left closed. *)
Theorem gate_exit_refines s arg i :
  kernel_ok s -> gate_ok s -> live arg s -> 0 <= i < THINKOS_GATE_MAX ->
  arg_0 arg s = THINKOS_GATE_BASE + i -> Z.testbit (gate_alloc s) i = true ->
  (arg_1 arg s = 0 -> Z.testbit (gate s) 3 = Z.testbit (gate s) (2 * i)) ->
  let s' := thinkos_gate_exit_svc arg s in
  exists v, gate_step (GExit (negb (arg_1 arg s =? 0))) (gate_of s i) (gate_of s' i) (Ret v) /\
    gate_frame s i s'.
Proof.
  intros K L Hl Hi Harg Hal H3. cbv zeta. rewrite (gate_exit_eq s arg i) by done. cbv zeta.
  destruct (Z.testbit (gate s) (2 * i + 1)) eqn:El;
    [change (negb true) with false|change (negb false) with true]; cbv iota.
  2:{ exists THINKOS_EPERM. set (s' := arg_ret _ _ _).
      assert (K' : kernel_ok s') by (unfold s'; kframe).
      split; [|by split_and!]. change (gate_of s' i) with (gate_of s i). unfold gate_of. rewrite El.
      constructor. }
  exists 0. set (s0 := arg_ret arg 0 s). assert (K0 : kernel_ok s0) by (unfold s0; kframe).
  destruct (Z.eqb_spec (arg_1 arg s) 0) as [E0|E0]; [rewrite (H3 E0)|]; cbv [negb andb]; cbv iota.
  - destruct (Z.testbit (gate s) (2 * i)) eqn:Es.
    + destruct (gate_pass_refines s K L i Hi true s0) as (A & B & _); [|done|done|done|by right|].
      { pose proof (word_same (gate s) (2 * i)) as Hs. by rewrite Es, El in Hs. }
      unfold gate_of at 1. rewrite Es, El. revert A B. generalize (gate_pass (39 + i) (2 * i) s0).
      intros [s1 []] A B; cbn [fst snd] in *; (split; [by apply gate_leave_signaled|]); [|exact B].
      destruct B as (B1 & B2 & B3). split_and!; [exact B1|by kpeel|exact B3].
    + set (s' := set_gate _ _).
      assert (Hq : forall w, wq_set s' w = wq_set s w) by (intros; by apply wq_set_ext).
      destruct (gate_change s L i Hi false false s') as [E F]; [|by intros|done|unfold s'; kframe|].
      { pose proof (word_unlock (gate s) (2 * i) ltac:(lia)) as Hu. by rewrite Es in Hu. }
      split; [|exact F]. rewrite E, Hq. unfold gate_of. rewrite Es, El. constructor.
  - set (s1 := set_gate _ _).
    destruct (gate_pass_refines s K L i Hi true s1) as (A & B & _);
      [|done|done|unfold s1; kframe|by right|].
    { pose proof (word_signal (gate s) (2 * i) ltac:(lia)) as Hs. by rewrite El in Hs. }
    unfold gate_of at 1. rewrite El. revert A B. generalize (gate_pass (39 + i) (2 * i) s1).
    intros [s2 []] A B; cbn [fst snd] in *; (split; [by apply gate_leave_open|]); [|exact B].
    destruct B as (B1 & B2 & B3). split_and!; [exact B1|by kpeel|exact B3].
Qed.

(** C17: [thinkos_gate_exit] tests bit 3 of the gate word, which is the lock of
    gate 1, where it means the signal of its own gate ([__GATE_SIGNALED << 3]
    for [__GATE_SIGNALED << idx]).  So, while gate 1 is not locked: when a gate is opened while
    a thread is inside and others wait, and the thread inside leaves with [open] clear, the call
    returns 0 and the gate is left open and free with all the waiting threads still in
    its queue, which is what the gate's invariant excludes: the opening is lost. *)
Theorem gate_exit_loses_open s arg i W :
  live arg s -> 0 <= i < THINKOS_GATE_MAX -> arg_0 arg s = THINKOS_GATE_BASE + i ->
  Z.testbit (gate_alloc s) i = true -> gate_of s i = mk_gate true true W -> W <> ∅ ->
  arg_1 arg s = 0 -> Z.testbit (gate s) 3 = false ->
  let s' := thinkos_gate_exit_svc arg s in
  arg_0 arg s' = 0 /\ gate_of s' i = mk_gate true false W /\ wq_lst s' = wq_lst s /\ ~ gate_ok s'.
Proof.
  intros Hl Hi Harg Hal Hg HW H0 H3. cbv zeta. rewrite (gate_exit_eq s arg i) by done. cbv zeta.
  rewrite H0, H3. injection Hg as Es El Eq. rewrite El. change (negb true) with false. cbn [Z.eqb negb andb]. cbv iota.
  set (s' := set_gate _ _). pose proof (word_unlock (gate s) (2 * i) ltac:(lia)) as Hu. rewrite Es in Hu.
  assert (G : gate_of s' i = mk_gate true false W).
  { unfold gate_of. change (gate s') with (Z.ldiff (gate s) (Z.shiftl 2 (2 * i))).
    rewrite (word_sig (gate s) (2 * i) ltac:(lia) _ _ _ Hu), (word_lck (gate s) (2 * i) ltac:(lia) _ _ _ Hu), <- Eq. done. }
  split_and!; [by apply arg_0_ret|exact G|done|]. intros Hok. injection G as G1 G2 G3.
  apply HW. rewrite <- G3. by apply Hok.
Qed.

(** ** Sample *)

(** Gate 0 is locked and threads 2 and 3 wait at it; thread 0 calls. *)
Definition gate_demo : kernel :=
  demo_call THINKOS_GATE_BASE 1 0 0
    (demo |> set_gate_alloc 4294967041 |> set_gate 2
          |> demo_wait 2 THINKOS_GATE_BASE |> demo_wait 3 THINKOS_GATE_BASE).

Lemma gate_demo_ok : gate_ok gate_demo.
Proof. intros i Hi. z_cases i; vm_compute; congruence. Qed.

Lemma gate_wait_refines_witness :
  gate_refines gate_demo (record_of 0) 0 0 (GWait 0 false)
    (thinkos_gate_wait_svc (record_of 0) 0 gate_demo) /\
  gate_refines gate_demo (record_of 0) 0 0 (GWait 0 true)
    (thinkos_gate_timedwait_svc (record_of 0) 0 gate_demo).
Proof.
  destruct (gate_wait_refines gate_demo (record_of 0) 0 0) as [H1 H2];
    [kernel_ok_compute|exact gate_demo_ok|lia|split; vm_compute; reflexivity
    |eexists; vm_compute; reflexivity|lia|vm_compute; reflexivity|vm_compute; reflexivity|].
  split; [exact H1|].
  replace (signaled (gate_of gate_demo 0) && locked (gate_of gate_demo 0)) with false in H2 by (vm_compute; reflexivity).
  exact H2.
Defined.

(** The same gate, opened meanwhile. *)
Lemma gate_timedwait_skips_witness :
  ~ gate_refines (set_gate 3 gate_demo) (record_of 0) 0 0 (GWait 0 true) (arg_ret (record_of 0) 0 (set_gate 3 gate_demo)).
Proof.
  apply (gate_timedwait_skips (set_gate 3 gate_demo) (record_of 0) 0 0);
    [kernel_ok_compute|lia|split; vm_compute; reflexivity|lia|vm_compute; reflexivity|vm_compute; reflexivity].
Defined.

(** Thread 2 waits at gate 0, opened while thread 0 is inside; thread 0 leaves. *)
Definition exit_demo : kernel :=
  demo_call THINKOS_GATE_BASE 0 0 0
    (demo |> set_gate_alloc 4294967041 |> demo_wait 2 THINKOS_GATE_BASE |> set_gate 3).

Lemma gate_exit_loses_open_witness :
  kernel_ok exit_demo /\ gate_ok exit_demo /\
  gate_of (thinkos_gate_exit_svc (record_of 0) exit_demo) 0 = mk_gate true false {[2]}.
Proof.
  split; [kernel_ok_compute|]. split; [intros i Hi; z_cases i; vm_compute; congruence|].
  apply (gate_exit_loses_open exit_demo (record_of 0) 0 {[2]});
    [eexists; vm_compute; reflexivity|lia|vm_compute; reflexivity|vm_compute; reflexivity|vm_compute; reflexivity
    |set_solver|vm_compute; reflexivity|vm_compute; reflexivity].
Defined.

Lemma gate_open_refines_witness :
  let s := set_gate 0 gate_demo in
  let s' := cm3_except13_isr THINKOS_GATE_BASE s in
  gate_step GOpen (mk_gate false false {[2; 3]}) (mk_gate false true {[3]}) (Ret THINKOS_OK) /\
  calling s' 2.
Proof.
  destruct (gate_open_refines (set_gate 0 gate_demo) 0) as (H1 & _ & H3);
    [kernel_ok_compute|intros i Hi; z_cases i; vm_compute; congruence|lia|].
  replace (gate_of (set_gate 0 gate_demo) 0) with (mk_gate false false {[2; 3]}) in H1
    by (vm_compute; reflexivity).
  replace (gate_of (cm3_except13_isr (39 + 0) (set_gate 0 gate_demo)) 0)
    with (mk_gate false true {[3]}) in H1 by (vm_compute; reflexivity).
  split; [exact H1|].
  replace (__thinkos_wq_head (39 + 0) (set_gate 0 gate_demo)) with 2 in H3 by (vm_compute; reflexivity).
  apply H3; vm_compute; congruence || reflexivity.
Defined.

Lemma gate_exit_refines_witness :
  let s' := thinkos_gate_exit_svc (record_of 0) gate_demo in
  (exists v, gate_step (GExit true) (gate_of gate_demo 0) (gate_of s' 0) (Ret v)) /\
  gate_of s' 0 = mk_gate false true {[3]}.
Proof.
  destruct (gate_exit_refines gate_demo (record_of 0) 0) as (v & H1 & _);
    [kernel_ok_compute|exact gate_demo_ok|eexists; vm_compute; reflexivity|lia
    |vm_compute; reflexivity..|vm_compute; congruence|].
  split; [exists v; exact H1|]. vm_compute. reflexivity.
Defined.
