(* ===== verification/Console.v ===== *)
(** * The console

    src/sdk/libthinkos/thinkos_console.c: two byte pipes between the threads
    and the debug monitor, kept as rings of 64 bytes with free running 32-bit
    counters, and the system call on them.  The abstract contents of a pipe is
    a list; the theorems show that the pipes are first-in first-out queues.
    [__thinkos_memcpy] is src/sdk/libthinkos/misc/memcpy.c. *)

From stdpp Require Import base tactics numbers list gmap.
From Stdlib Require Import ZArith Lia.
From S2P Require Import Prelude CortexM State Kernel BmpAlloc Invariant Decide Init Demo Transitions.

(** ** Code *)

Abbreviation CONSOLE_WRITE := 0 (only parsing).
Abbreviation CONSOLE_READ := 1 (only parsing).
Abbreviation CONSOLE_TIMEDREAD := 2 (only parsing).
Abbreviation CONSOLE_OPEN := 3 (only parsing).
Abbreviation CONSOLE_CLOSE := 4 (only parsing).
Abbreviation CONSOLE_DRAIN := 5 (only parsing).
Abbreviation CONSOLE_IOCTL := 6 (only parsing).
Abbreviation CONSOLE_IS_CONNECTED := 7 (only parsing).
Abbreviation DBGMON_RX_PIPE := 3 (only parsing).
Abbreviation DBGMON_TX_PIPE := 4 (only parsing).

(** A byte of the threads' memory. *)
Definition mem_rd (m : gmap Z Z) (a : Z) : Z := u8 (default 0 (m !! a)).

(** [__thinkos_memcpy] from the threads' memory into a pipe. *)
Fixpoint memcpy_in (n : nat) (dst src : Z) (m : gmap Z Z) (buf : list Z) : list Z :=
  match n with
  | O => buf
  | S n => memcpy_in n (dst + 1) (src + 1) m (wr buf dst (mem_rd m src))
  end.

(** [__thinkos_memcpy] from a pipe into the threads' memory. *)
Fixpoint memcpy_out (n : nat) (dst src : Z) (buf : list Z) (m : gmap Z Z) : gmap Z Z :=
  match n with
  | O => m
  | S n => memcpy_out n (dst + 1) (src + 1) buf (<[dst := rd buf src]> m)
  end.

Definition con_tx (head tail : Z) (buf : list Z) (c : console_rt) : console_rt :=
  mk_console (open_cnt c) (connected c) (tx_last_cnt c) head tail buf
    (rx_head c) (rx_tail c) (rx_buf c).

Definition con_rx (head tail : Z) (c : console_rt) : console_rt :=
  mk_console (open_cnt c) (connected c) (tx_last_cnt c) (tx_head c) (tx_tail c) (tx_buf c)
    head tail (rx_buf c).

Definition con_open (n : Z) (c : console_rt) : console_rt :=
  mk_console n (connected c) (tx_last_cnt c) (tx_head c) (tx_tail c) (tx_buf c)
    (rx_head c) (rx_tail c) (rx_buf c).

Definition con_last (n : Z) (c : console_rt) : console_rt :=
  mk_console (open_cnt c) (connected c) n (tx_head c) (tx_tail c) (tx_buf c)
    (rx_head c) (rx_tail c) (rx_buf c).

Definition con_connected (v : bool) (c : console_rt) : console_rt :=
  mk_console (open_cnt c) v (tx_last_cnt c) (tx_head c) (tx_tail c) (tx_buf c)
    (rx_head c) (rx_tail c) (rx_buf c).

(** src/sdk/libthinkos/thinkos_dbgmon.c *)
Definition dbgmon_signal (sig : Z) (s : kernel) : kernel :=
  s |> set_mon_events (__bit_mem_wr (mon_events s) sig true)
    |> set_mon_pend true.

Definition dbgmon_clear (sig : Z) (s : kernel) : kernel :=
  s |> set_mon_events (__bit_mem_wr (mon_events s) sig false).

Definition rx_pipe_read (buf len : Z) (s : kernel) : kernel * Z :=
  let pipe := console s in
  let tail := rx_tail pipe in
  let max := int32 (rx_head pipe - tail) in
  if max =? 0 then (s, 0)
  else
    let cnt := int32 (Z.min (u32 max) len) in
    let pos := tail mod THINKOS_CONSOLE_RX_FIFO_LEN in
    let m :=
      if THINKOS_CONSOLE_RX_FIFO_LEN <? pos + cnt then
        let n := THINKOS_CONSOLE_RX_FIFO_LEN - pos in
        umem s |> memcpy_out (Z.to_nat (u32 n)) buf pos (rx_buf pipe)
               |> memcpy_out (Z.to_nat (u32 (cnt - n))) (buf + n) 0 (rx_buf pipe)
      else umem s |> memcpy_out (Z.to_nat (u32 cnt)) buf pos (rx_buf pipe) in
    (s |> set_umem m
       |> set_console (con_rx (rx_head pipe) (u32 (tail + cnt)) pipe), cnt).

Definition tx_pipe_write (buf len : Z) (s : kernel) : kernel * Z :=
  let pipe := console s in
  let head := tx_head pipe in
  let tail := tx_tail pipe in
  let max := u32 (tail + THINKOS_CONSOLE_TX_FIFO_LEN - head) in
  if max =? 0 then (s, 0)
  else
    let cnt := int32 (Z.min max len) in
    let pos := head mod THINKOS_CONSOLE_TX_FIFO_LEN in
    let b :=
      if THINKOS_CONSOLE_TX_FIFO_LEN <? u32 (pos + cnt) then
        let n := THINKOS_CONSOLE_TX_FIFO_LEN - pos in
        tx_buf pipe |> memcpy_in (Z.to_nat (u32 n)) pos buf (umem s)
                    |> memcpy_in (Z.to_nat (u32 (cnt - n))) 0 (buf + n) (umem s)
      else tx_buf pipe |> memcpy_in (Z.to_nat (u32 cnt)) pos buf (umem s) in
    (s |> set_console (con_tx (u32 (head + cnt)) tail b pipe), cnt).

Definition tx_pipe_isfull (s : kernel) : bool :=
  u32 (tx_tail (console s) + THINKOS_CONSOLE_TX_FIFO_LEN) =? tx_head (console s).

Definition tx_pipe_isempty (s : kernel) : bool :=
  tx_tail (console s) =? tx_head (console s).

(** The position in [buf] stands for the pointer. *)
Definition __console_tx_pipe_ptr (s : kernel) : kernel * Z * Z :=
  let pipe := console s in
  let pos := tx_tail pipe mod THINKOS_CONSOLE_TX_FIFO_LEN in
  let cnt := int32 (tx_head pipe - tx_tail pipe) in
  let cnt := if THINKOS_CONSOLE_TX_FIFO_LEN <? pos + cnt
             then THINKOS_CONSOLE_TX_FIFO_LEN - pos else cnt in
  (s |> set_console (con_last (u16 cnt) pipe), pos, cnt).

Definition __console_tx_pipe_commit (cnt : Z) (s : kernel) : kernel :=
  let wq := THINKOS_WQ_CONSOLE_WR in
  let pipe := console s in
  let s := s |> set_console (con_tx (tx_head pipe) (u32 (tx_tail pipe + cnt)) (tx_buf pipe) pipe) in
  let th := __thinkos_wq_head wq s in
  if th =? THINKOS_THREAD_NULL then s
  else
    s |> __thinkos_wakeup wq th
      |> __thinkos_defer_sched.

Definition __console_rx_pipe_ptr (s : kernel) : Z * Z :=
  let pipe := console s in
  let pos := rx_head pipe mod THINKOS_CONSOLE_RX_FIFO_LEN in
  let cnt := int32 (rx_tail pipe + THINKOS_CONSOLE_RX_FIFO_LEN - rx_head pipe) in
  let cnt := if THINKOS_CONSOLE_RX_FIFO_LEN <? pos + cnt
             then THINKOS_CONSOLE_RX_FIFO_LEN - pos else cnt in
  (pos, cnt).

Definition __console_rx_pipe_commit (cnt : Z) (s : kernel) : kernel :=
  let wq := THINKOS_WQ_CONSOLE_RD in
  let pipe := console s in
  let s := s |> set_console (con_rx (u32 (rx_head pipe + cnt)) (rx_tail pipe) pipe) in
  let th := __thinkos_wq_head wq s in
  if th =? THINKOS_THREAD_NULL then s
  else
    let buf := u32 (r1 (context_at (rd (ctx s) th) s)) in
    let max := u32 (r2 (context_at (rd (ctx s) th) s)) in
    let '(s, n) := rx_pipe_read buf max s in
    if n =? 0 then s
    else
      s |> __thinkos_wakeup_return wq th n
        |> __thinkos_defer_sched.

Definition __console_rd_resume (th wq : Z) (tmw : bool) (s : kernel) : kernel :=
  __thinkos_wakeup_return wq th 0 s.

Definition __console_wr_resume (th wq : Z) (tmw : bool) (s : kernel) : kernel :=
  let s := if tx_pipe_isfull s then s |> dbgmon_signal DBGMON_TX_PIPE else s in
  __thinkos_wakeup_return wq th 0 s.

(** From the label [wr_again]; [None] when [n] rounds do not end the loop. *)
Fixpoint console_wr_again (n : nat) (buf len arg self : Z) (s : kernel) : option kernel :=
  match n with
  | O => None
  | S n =>
      let wq := THINKOS_WQ_CONSOLE_WR in
      let '(s, cnt) := tx_pipe_write buf len s in
      if 0 <? cnt then
        Some (s |> dbgmon_signal DBGMON_TX_PIPE
                |> arg_ret arg cnt)
      else
        let s := s |> arg_ret arg 0
                   |> __thinkos_suspend self
                   |> th_stat_store self (Z.shiftl wq 1)
                   |> ctx_store self arg in
        let queue := rd (wq_lst s) wq in
        if negb (tx_pipe_isfull s) then
          s |> th_stat_store self 0
            |> wq_bit_store THINKOS_WQ_READY self true
            |> console_wr_again n buf len arg self
        else
          Some (s |> wq_store wq (Z.lor queue (Z.shiftl 1 self))
                  |> __thinkos_defer_sched)
  end.

(** From the label [drain_again]. *)
Fixpoint console_drain_again (n : nat) (arg self : Z) (s : kernel) : option kernel :=
  match n with
  | O => None
  | S n =>
      let wq := THINKOS_WQ_CONSOLE_WR in
      if tx_pipe_isempty s then Some (s |> arg_ret arg 0)
      else
        let s := s |> arg_ret arg THINKOS_EAGAIN
                   |> __thinkos_suspend self
                   |> th_stat_store self (Z.shiftl wq 1)
                   |> ctx_store self arg in
        let queue := rd (wq_lst s) wq in
        if tx_pipe_isempty s then
          s |> th_stat_store self 0
            |> wq_bit_store THINKOS_WQ_READY self true
            |> console_drain_again n arg self
        else
          Some (s |> wq_store wq (Z.lor queue (Z.shiftl 1 self))
                  |> __thinkos_defer_sched)
  end.

(** [None]: the call does not return. *)
Definition thinkos_console_svc (arg self : Z) (s : kernel) : option kernel :=
  let req := arg_0 arg s in
  if req =? CONSOLE_OPEN then
    Some (s |> set_console (con_open (u8 (open_cnt (console s) + 1)) (console s))
            |> arg_ret arg THINKOS_OK)
  else if req =? CONSOLE_CLOSE then
    Some (if 0 <? open_cnt (console s) then s |> arg_ret arg THINKOS_EBADF
          else s |> arg_ret arg THINKOS_OK)
  else if req =? CONSOLE_IOCTL then Some (s |> arg_ret arg THINKOS_OK)
  else if req =? CONSOLE_IS_CONNECTED then
    Some (s |> arg_ret arg (Z.b2z (connected (console s))))
  else if req =? CONSOLE_TIMEDREAD then
    let '(s, n) := rx_pipe_read (arg_1 arg s) (arg_2 arg s) s in
    Some (if 0 <? n then
            s |> dbgmon_signal DBGMON_RX_PIPE
              |> arg_ret arg n
          else
            let s := s |> __thinkos_suspend self in
            s |> __thinkos_tmdwq_insert THINKOS_WQ_CONSOLE_RD self (arg_3 arg s)
              |> arg_ret arg THINKOS_ETIMEDOUT
              |> __thinkos_defer_sched)
  else if req =? CONSOLE_READ then
    let '(s, n) := rx_pipe_read (arg_1 arg s) (arg_2 arg s) s in
    Some (if 0 <? n then
            s |> dbgmon_signal DBGMON_RX_PIPE
              |> arg_ret arg n
          else
            s |> __thinkos_suspend self
              |> __thinkos_wq_insert THINKOS_WQ_CONSOLE_RD self
              |> __thinkos_defer_sched)
  else if req =? CONSOLE_WRITE then
    console_wr_again 2 (arg_1 arg s) (arg_2 arg s) arg self s
  else if req =? CONSOLE_DRAIN then console_drain_again 2 arg self s
  else Some (s |> arg_ret arg THINKOS_EINVAL).

Definition __console_reset (s : kernel) : kernel :=
  let s := s |> dbgmon_clear DBGMON_TX_PIPE |> dbgmon_clear DBGMON_RX_PIPE in
  set_console (mk_console 0 false 0 0 0 (tx_buf (console s)) 0 0 (rx_buf (console s))) s.

Definition __console_connect_set (val : bool) (s : kernel) : kernel :=
  set_console (con_connected val (console s)) s.

Definition thinkos_console_init (s : kernel) : kernel := __console_reset s.

(** ** Rings *)

(** The bytes between [tail] and [head], oldest first. *)
Definition ring (head tail : Z) (buf : list Z) : list Z :=
  (fun k => rd buf ((tail + k) mod 64)) <$> seqZ 0 (u32 (head - tail)).

Definition ring_ok (head tail : Z) (buf : list Z) : Prop :=
  len buf = 64 /\ 0 <= head < 4294967296 /\ 0 <= tail < 4294967296 /\ u32 (head - tail) <= 64.

(** The first [n] bytes at address [a]. *)
Definition mem_bytes (m : gmap Z Z) (a n : Z) : list Z := (fun k => mem_rd m (a + k)) <$> seqZ 0 n.

Definition tx_data (s : kernel) : list Z :=
  ring (tx_head (console s)) (tx_tail (console s)) (tx_buf (console s)).
Definition rx_data (s : kernel) : list Z :=
  ring (rx_head (console s)) (rx_tail (console s)) (rx_buf (console s)).

Definition console_ok (s : kernel) : Prop :=
  ring_ok (tx_head (console s)) (tx_tail (console s)) (tx_buf (console s)) /\
  ring_ok (rx_head (console s)) (rx_tail (console s)) (rx_buf (console s)).

Lemma len_fmap_seqZ (f : Z -> Z) n : 0 <= n -> len (f <$> seqZ 0 n) = n.
Proof. intros. unfold len. rewrite length_fmap, length_seqZ. lia. Qed.

Lemma len_ring head tail buf : len (ring head tail buf) = u32 (head - tail).
Proof. apply len_fmap_seqZ, u32_range. Qed.

Lemma fmap_seqZ_ext (f g : Z -> Z) a n :
  (forall k, a <= k < a + n -> f k = g k) -> f <$> seqZ a n = g <$> seqZ a n.
Proof.
  intros H. apply list_fmap_ext. intros i x Hx.
  apply lookup_seqZ in Hx as [-> Hi]. apply H. lia.
Qed.

Lemma fmap_seqZ_shift (f : Z -> Z) a n : f <$> seqZ a n = (fun k => f (a + k)) <$> seqZ 0 n.
Proof.
  rewrite <- (Z.add_0_r a) at 1. rewrite <- fmap_add_seqZ. by rewrite <- list_fmap_compose.
Qed.

(** Where a byte of the ring is: the counters wrap at a multiple of 64. *)
Lemma ring_pos head tail :
  (tail + u32 (head - tail)) mod 64 = head mod 64.
Proof. unfold u32. Z.div_mod_to_equations. lia. Qed.

Lemma u32_mod64 a k : (u32 a + k) mod 64 = (a + k) mod 64.
Proof. unfold u32. Z.div_mod_to_equations. lia. Qed.

(** The two copies of a transfer that wraps around, as one. *)
Lemma memcpy_in_spec n : forall dst src m buf j,
  0 <= dst -> dst + Z.of_nat n <= len buf ->
  len (memcpy_in n dst src m buf) = len buf /\
  rd (memcpy_in n dst src m buf) j =
    if (dst <=? j) && (j <? dst + Z.of_nat n) then mem_rd m (src + (j - dst)) else rd buf j.
Proof.
  induction n as [|n IH]; intros dst src m buf j Hd Hl; cbn [memcpy_in].
  - split; [done|]. destruct (Z.leb_spec dst j), (Z.ltb_spec j (dst + Z.of_nat 0)); try done; lia.
  - destruct (IH (dst + 1) (src + 1) m (wr buf dst (mem_rd m src)) j) as [H1 H2];
      [lia|rewrite len_wr; lia|]. rewrite H1, H2, len_wr. split; [done|].
    rewrite rd_wr by lia.
    destruct (Z.leb_spec (dst + 1) j), (Z.leb_spec dst j), (Z.ltb_spec j (dst + 1 + Z.of_nat n)),
      (Z.ltb_spec j (dst + Z.of_nat (S n))), (Z.eqb_spec dst j); simpl; try lia; try done;
      f_equal; lia.
Qed.

Lemma memcpy_out_spec n : forall dst src buf m a,
  mem_rd (memcpy_out n dst src buf m) a =
    if (dst <=? a) && (a <? dst + Z.of_nat n) then u8 (rd buf (src + (a - dst))) else mem_rd m a.
Proof.
  induction n as [|n IH]; intros dst src buf m a; cbn [memcpy_out].
  - destruct (Z.leb_spec dst a), (Z.ltb_spec a (dst + Z.of_nat 0)); try done; lia.
  - rewrite IH. unfold mem_rd.
    destruct (Z.eq_dec dst a) as [<-|Hne].
    + rewrite lookup_insert_eq. simpl.
      destruct (Z.leb_spec (dst + 1) dst), (Z.leb_spec dst dst), (Z.ltb_spec dst (dst + Z.of_nat (S n)));
        simpl; try lia. do 2 f_equal. lia.
    + rewrite lookup_insert_ne by done.
      destruct (Z.leb_spec (dst + 1) a), (Z.leb_spec dst a), (Z.ltb_spec a (dst + 1 + Z.of_nat n)),
        (Z.ltb_spec a (dst + Z.of_nat (S n))); simpl; try lia; try done; do 2 f_equal; lia.
Qed.

(** The transfer into the ring. *)
Definition ring_in (pos cnt src : Z) (m : gmap Z Z) (buf : list Z) : list Z :=
  if 64 <? pos + cnt then
    memcpy_in (Z.to_nat (cnt - (64 - pos))) 0 (src + (64 - pos)) m
      (memcpy_in (Z.to_nat (64 - pos)) pos src m buf)
  else memcpy_in (Z.to_nat cnt) pos src m buf.

Lemma ring_in_spec pos cnt src m buf j :
  len buf = 64 -> 0 <= pos < 64 -> 0 <= cnt <= 64 -> 0 <= j < 64 ->
  len (ring_in pos cnt src m buf) = 64 /\
  rd (ring_in pos cnt src m buf) j =
    if (j - pos) mod 64 <? cnt then mem_rd m (src + (j - pos) mod 64) else rd buf j.
Proof.
  intros Hl Hp Hc Hj. unfold ring_in.
  assert (Hk : (j - pos) mod 64 = if pos <=? j then j - pos else j - pos + 64).
  { destruct (Z.leb_spec pos j); Z.div_mod_to_equations; lia. }
  rewrite Hk. destruct (Z.ltb_spec 64 (pos + cnt)) as [Hw|Hw].
  - destruct (memcpy_in_spec (Z.to_nat (64 - pos)) pos src m buf j) as [L1 R1]; [lia|lia|].
    destruct (memcpy_in_spec (Z.to_nat (cnt - (64 - pos))) 0 (src + (64 - pos)) m
      (memcpy_in (Z.to_nat (64 - pos)) pos src m buf) j) as [L2 R2]; [lia|lia|].
    rewrite L2, R2, R1, L1, Hl. split; [done|]. rewrite !Z2Nat.id by lia.
    destruct (Z.leb_spec pos j), (Z.leb_spec 0 j), (Z.ltb_spec j (0 + (cnt - (64 - pos)))),
      (Z.ltb_spec j (pos + (64 - pos))); simpl; try lia;
      match goal with |- context [?a <? cnt] => destruct (Z.ltb_spec a cnt) end; try lia; try done;
      f_equal; lia.
  - destruct (memcpy_in_spec (Z.to_nat cnt) pos src m buf j) as [L1 R1]; [lia|lia|].
    rewrite L1, R1, Hl, Z2Nat.id by lia. split; [done|].
    destruct (Z.leb_spec pos j), (Z.ltb_spec j (pos + cnt)); simpl;
      match goal with |- context [?a <? cnt] => destruct (Z.ltb_spec a cnt) end; try lia; done.
Qed.

(** The transfer out of the ring. *)
Definition ring_out (pos cnt dst : Z) (buf : list Z) (m : gmap Z Z) : gmap Z Z :=
  if 64 <? pos + cnt then
    memcpy_out (Z.to_nat (cnt - (64 - pos))) (dst + (64 - pos)) 0 buf
      (memcpy_out (Z.to_nat (64 - pos)) dst pos buf m)
  else memcpy_out (Z.to_nat cnt) dst pos buf m.

Lemma ring_out_spec pos cnt dst buf m a :
  0 <= pos < 64 -> 0 <= cnt <= 64 ->
  mem_rd (ring_out pos cnt dst buf m) a =
    if (dst <=? a) && (a <? dst + cnt) then u8 (rd buf ((pos + (a - dst)) mod 64)) else mem_rd m a.
Proof.
  intros Hp Hc. unfold ring_out.
  assert (Hk : forall k, 0 <= k < 64 -> (pos + k) mod 64 = if pos + k <? 64 then pos + k else pos + k - 64).
  { intros k ?. destruct (Z.ltb_spec (pos + k) 64); Z.div_mod_to_equations; lia. }
  destruct (Z.ltb_spec 64 (pos + cnt)) as [Hw|Hw].
  - rewrite !memcpy_out_spec, !Z2Nat.id by lia.
    destruct (Z.leb_spec dst a), (Z.ltb_spec a (dst + cnt)), (Z.leb_spec (dst + (64 - pos)) a),
      (Z.ltb_spec a (dst + (64 - pos) + (cnt - (64 - pos)))), (Z.ltb_spec a (dst + (64 - pos)));
      simpl; try lia; try done; rewrite Hk by lia;
      destruct (Z.ltb_spec (pos + (a - dst)) 64); try lia; do 2 f_equal; lia.
  - rewrite memcpy_out_spec, Z2Nat.id by lia.
    destruct (Z.leb_spec dst a), (Z.ltb_spec a (dst + cnt)); simpl; try done.
    rewrite Hk by lia. by destruct (Z.ltb_spec (pos + (a - dst)) 64); [|lia].
Qed.

(** Appending to a ring. *)
Lemma ring_push head tail buf cnt src m :
  ring_ok head tail buf -> 0 <= cnt -> cnt <= 64 - u32 (head - tail) ->
  let buf' := ring_in (head mod 64) cnt src m buf in
  ring_ok (u32 (head + cnt)) tail buf' /\
  ring (u32 (head + cnt)) tail buf' = ring head tail buf ++ mem_bytes m src cnt.
Proof.
  intros (Hl & Hh & Ht & Hn) Hc Hf. cbv zeta.
  pose proof (u32_range (head - tail)) as Hr.
  pose proof (Z.mod_pos_bound head 64 ltac:(lia)) as Hm.
  assert (E : u32 (u32 (head + cnt) - tail) = u32 (head - tail) + cnt).
  { unfold u32 in *. Z.div_mod_to_equations. lia. }
  destruct (ring_in_spec (head mod 64) cnt src m buf 0 Hl Hm) as [Hl' _]; [lia|lia|].
  split; [refine (conj Hl' (conj (u32_range _) (conj Ht _))); lia|].
  unfold ring. rewrite E, seqZ_app, fmap_app by lia. f_equal.
  - apply fmap_seqZ_ext. intros k Hk. pose proof (Z.mod_pos_bound (tail + k) 64 ltac:(lia)) as Hb.
    destruct (ring_in_spec (head mod 64) cnt src m buf ((tail + k) mod 64) Hl Hm) as [_ ->]; [lia|lia|].
    rewrite <- (ring_pos head tail).
    replace (((tail + k) mod 64 - (tail + u32 (head - tail)) mod 64) mod 64)
      with (k - u32 (head - tail) + 64); [by destruct (Z.ltb_spec (k - u32 (head - tail) + 64) cnt); [lia|]|].
    rewrite <- Zminus_mod. replace (tail + k - (tail + u32 (head - tail))) with (k - u32 (head - tail)) by lia.
    Z.div_mod_to_equations. lia.
  - rewrite Z.add_0_l, fmap_seqZ_shift. apply fmap_seqZ_ext. intros k Hk.
    pose proof (Z.mod_pos_bound (tail + (u32 (head - tail) + k)) 64 ltac:(lia)) as Hb.
    destruct (ring_in_spec (head mod 64) cnt src m buf ((tail + (u32 (head - tail) + k)) mod 64) Hl Hm)
      as [_ ->]; [lia|lia|].
    rewrite <- (ring_pos head tail). rewrite <- Zminus_mod.
    replace (tail + (u32 (head - tail) + k) - (tail + u32 (head - tail))) with k by lia.
    rewrite Z.mod_small by lia. by destruct (Z.ltb_spec k cnt); [|lia].
Qed.

(** Dropping from a ring. *)
Lemma ring_pop head tail buf cnt :
  ring_ok head tail buf -> 0 <= cnt <= u32 (head - tail) ->
  ring_ok head (u32 (tail + cnt)) buf /\
  ring head tail buf = ((fun k => rd buf ((tail + k) mod 64)) <$> seqZ 0 cnt)
    ++ ring head (u32 (tail + cnt)) buf.
Proof.
  intros (Hl & Hh & Ht & Hn) Hc.
  assert (E : u32 (head - u32 (tail + cnt)) = u32 (head - tail) - cnt).
  { unfold u32 in *. Z.div_mod_to_equations. lia. }
  split; [refine (conj Hl (conj Hh (conj (u32_range _) _))); lia|].
  unfold ring. rewrite E. replace (u32 (head - tail)) with (cnt + (u32 (head - tail) - cnt)) at 1 by lia.
  rewrite seqZ_app, fmap_app by lia. f_equal. rewrite Z.add_0_l, fmap_seqZ_shift.
  apply fmap_seqZ_ext. intros k Hk. rewrite u32_mod64. do 2 f_equal. lia.
Qed.

(** More bytes of the buffer become part of the ring. *)
Lemma ring_extend head tail buf cnt :
  ring_ok head tail buf -> 0 <= cnt -> cnt <= 64 - u32 (head - tail) ->
  ring_ok (u32 (head + cnt)) tail buf /\
  ring (u32 (head + cnt)) tail buf =
    ring head tail buf ++ ((fun k => rd buf ((head + k) mod 64)) <$> seqZ 0 cnt).
Proof.
  intros (Hl & Hh & Ht & Hn) Hc Hf. pose proof (u32_range (head - tail)) as Hr.
  assert (E : u32 (u32 (head + cnt) - tail) = u32 (head - tail) + cnt).
  { unfold u32 in *. Z.div_mod_to_equations. lia. }
  split; [refine (conj Hl (conj (u32_range _) (conj Ht _))); lia|].
  unfold ring. rewrite E, seqZ_app, fmap_app by lia. f_equal.
  rewrite Z.add_0_l, fmap_seqZ_shift. apply fmap_seqZ_ext. intros k Hk.
  f_equal. rewrite Z.add_assoc, <- Zplus_mod_idemp_l, ring_pos, Zplus_mod_idemp_l. done.
Qed.

(** ** Reads and writes *)

(** [s'] has the queues, the threads and the records of [s]. *)
Definition same_kernel (s s' : kernel) : Prop :=
  wq_lst s' = wq_lst s /\ th_stat s' = th_stat s /\ th_alloc s' = th_alloc s /\
  irq_th s' = irq_th s /\ irq_en s' = irq_en s /\ frames s' = frames s /\ ctx s' = ctx s.

Lemma same_kernel_ok s s' : same_kernel s s' -> kernel_ok s -> kernel_ok s'.
Proof. intros (? & ? & ? & ? & ? & _). by apply kernel_ok_frame. Qed.

Lemma same_kernel_calling s s' th : same_kernel s s' -> calling s th -> calling s' th.
Proof. intros (? & ? & _). by apply calling_frame. Qed.

Lemma rx_read_spec s buf n :
  console_ok s -> 0 <= n < 4294967296 ->
  let '(s', cnt) := rx_pipe_read buf n s in
  cnt = Z.min (len (rx_data s)) n /\ same_kernel s s' /\ console_ok s' /\ tx_data s' = tx_data s /\
  exists l, rx_data s = l ++ rx_data s' /\ len l = cnt /\
    mem_bytes (umem s') buf cnt = u8 <$> l /\
    (forall a, ~ buf <= a < buf + cnt -> mem_rd (umem s') a = mem_rd (umem s) a).
Proof.
  intros [Tx Rx] Hn. unfold rx_data. rewrite len_ring. unfold rx_pipe_read.
  pose proof Rx as (Hl & Hh & Ht & Hr). set (c := console s) in *.
  pose proof (u32_range (rx_head c - rx_tail c)) as Hu. set (max := u32 (rx_head c - rx_tail c)) in *.
  assert (Em : int32 (rx_head c - rx_tail c) = max).
  { rewrite <- int32_u32. apply int32_small. fold max. lia. }
  rewrite Em. destruct (Z.eqb_spec max 0) as [E0|E0].
  - split_and!; try done; [lia|]. exists []. split_and!; [done|unfold len; simpl; lia|done|done].
  - rewrite (u32_small max) by done. pose proof (Z.mod_pos_bound (rx_tail c) 64 ltac:(lia)) as Hp.
    rewrite int32_small by lia. set (cnt := Z.min max n) in *.
    destruct (ring_pop _ _ _ cnt Rx ltac:(lia)) as [Rx' Er].
    set (s' := set_console _ _).
    assert (Em' : umem s' = ring_out (rx_tail c mod 64) cnt buf (rx_buf c) (umem s)).
    { unfold s'. kred. unfold ring_out. destruct (Z.ltb_spec 64 (rx_tail c mod 64 + cnt));
        by rewrite !u32_small by lia. }
    pose proof (ring_out_spec (rx_tail c mod 64) cnt buf (rx_buf c) (umem s)) as Ho.
    split_and!; try done. exists ((fun k => rd (rx_buf c) ((rx_tail c + k) mod 64)) <$> seqZ 0 cnt).
    split_and!; [exact Er|apply len_fmap_seqZ; lia| |].
    + unfold mem_bytes. rewrite <- list_fmap_compose. apply fmap_seqZ_ext. intros k Hk.
      rewrite Em', Ho by lia.
      destruct (Z.leb_spec buf (buf + k)), (Z.ltb_spec (buf + k) (buf + cnt)); simpl; try lia.
      rewrite Zplus_mod_idemp_l. do 2 f_equal. f_equal. lia.
    + intros a Ha. rewrite Em', Ho by lia.
      destruct (Z.leb_spec buf a), (Z.ltb_spec a (buf + cnt)); simpl; done || lia.
Qed.

Lemma tx_write_spec s buf n :
  console_ok s -> 0 <= n < 4294967296 ->
  let '(s', cnt) := tx_pipe_write buf n s in
  cnt = Z.min (64 - len (tx_data s)) n /\ same_kernel s s' /\ console_ok s' /\
  rx_data s' = rx_data s /\ umem s' = umem s /\ mon_events s' = mon_events s /\
  tx_data s' = tx_data s ++ mem_bytes (umem s) buf cnt.
Proof.
  intros [Tx Rx] Hn. unfold tx_data. rewrite len_ring. unfold tx_pipe_write.
  pose proof Tx as (Hl & Hh & Ht & Hr). set (c := console s) in *.
  pose proof (u32_range (tx_head c - tx_tail c)) as Hu.
  assert (Em : u32 (tx_tail c + 64 - tx_head c) = 64 - u32 (tx_head c - tx_tail c)).
  { unfold u32 in *. Z.div_mod_to_equations. lia. }
  rewrite Em. set (max := 64 - _) in *. destruct (Z.eqb_spec max 0) as [E0|E0].
  - split_and!; try done; [lia|]. symmetry. apply app_nil_r.
  - pose proof (Z.mod_pos_bound (tx_head c) 64 ltac:(lia)) as Hp.
    rewrite int32_small by lia. set (cnt := Z.min max n) in *.
    destruct (ring_push _ _ _ cnt buf (umem s) Tx ltac:(lia) ltac:(lia)) as [Tx' Er].
    match goal with |- context [set_console (con_tx _ _ ?b _) s] => set (b' := b) end.
    assert (Eb : b' = ring_in (tx_head c mod 64) cnt buf (umem s) (tx_buf c)).
    { unfold b', ring_in. rewrite (u32_small (_ + cnt)) by lia.
      destruct (Z.ltb_spec 64 (tx_head c mod 64 + cnt)); by rewrite !u32_small by lia. }
    rewrite Eb. split_and!; done.
Qed.

(** The test at the label agrees with the contents. *)
Lemma tx_full_iff s : console_ok s -> tx_pipe_isfull s = (len (tx_data s) =? 64).
Proof.
  intros [(Hl & Hh & Ht & Hr) _]. unfold tx_data. rewrite len_ring. unfold tx_pipe_isfull.
  pose proof (u32_range (tx_head (console s) - tx_tail (console s))).
  destruct (Z.eqb_spec (u32 (tx_tail (console s) + 64)) (tx_head (console s))) as [E|E],
    (Z.eqb_spec (u32 (tx_head (console s) - tx_tail (console s))) 64) as [F|F]; try done;
    exfalso; unfold u32 in *; Z.div_mod_to_equations; lia.
Qed.

Lemma tx_empty_iff s : console_ok s -> tx_pipe_isempty s = (len (tx_data s) =? 0).
Proof.
  intros [(Hl & Hh & Ht & Hr) _]. unfold tx_data. rewrite len_ring. unfold tx_pipe_isempty.
  destruct (Z.eqb_spec (tx_tail (console s)) (tx_head (console s))) as [E|E],
    (Z.eqb_spec (u32 (tx_head (console s) - tx_tail (console s))) 0) as [F|F]; try done;
    exfalso; unfold u32 in *; Z.div_mod_to_equations; lia.
Qed.

(** ** The system call *)

(** The state in which the caller waits, in the two orders the code uses. *)
Definition con_wait (wq v arg self : Z) (s : kernel) : kernel :=
  __thinkos_defer_sched (wq_bit_store wq self true (ctx_store self arg
    (th_stat_store self (Z.shiftl wq 1) (__thinkos_suspend self (arg_ret arg v s))))).

Section svc.
Context (s : kernel) (C : console_ok s).

Lemma write_full buf n : len (tx_data s) = 64 -> tx_pipe_write buf n s = (s, 0).
Proof using C.
  intros Hf. unfold tx_data in Hf. rewrite len_ring in Hf. unfold tx_pipe_write.
  destruct C as [(_ & Hh & Ht & _) _]. set (c := console s) in *.
  replace (u32 (tx_tail c + 64 - tx_head c)) with 0; [done|].
  unfold u32 in *. Z.div_mod_to_equations. lia.
Qed.

(** The loop ends in its first round when there is something to write. *)
Lemma wr_again_eq k buf n arg self :
  0 <= n < 4294967296 ->
  console_wr_again (S k) buf n arg self s =
  if 64 <=? len (tx_data s) then Some (con_wait THINKOS_WQ_CONSOLE_WR 0 arg self s)
  else if 0 <? n then
    let '(s', cnt) := tx_pipe_write buf n s in
    Some (arg_ret arg cnt (dbgmon_signal DBGMON_TX_PIPE s'))
  else console_wr_again k buf n arg self
    (wq_bit_store THINKOS_WQ_READY self true (th_stat_store self 0
       (ctx_store self arg (th_stat_store self (Z.shiftl THINKOS_WQ_CONSOLE_WR 1)
         (__thinkos_suspend self (arg_ret arg 0 (tx_pipe_write buf n s).1)))))).
Proof using C.
  intros Hn. cbn [console_wr_again]. pose proof (tx_full_iff s C) as Hfull.
  pose proof (tx_write_spec s buf n C Hn) as Hw. pose proof (write_full buf n) as Hwf.
  assert (Hr : 0 <= len (tx_data s) <= 64).
  { unfold tx_data. rewrite len_ring. pose proof (u32_range (tx_head (console s) - tx_tail (console s))).
    destruct C as [(_ & _ & _ & ?) _]. lia. }
  destruct (Z.leb_spec 64 (len (tx_data s))) as [Hf|Hf].
  - rewrite Hwf by lia. change (0 <? 0) with false. cbv iota.
    change (tx_pipe_isfull _) with (tx_pipe_isfull s). rewrite Hfull.
    destruct (Z.eqb_spec (len (tx_data s)) 64); [|lia]. change (negb true) with false. cbv iota.
    rewrite wq_store_lor. reflexivity.
  - destruct (tx_pipe_write buf n s) as [s' cnt]. destruct Hw as (Hc & _ & C' & _ & _ & _ & Ht).
    destruct (Z.ltb_spec 0 n) as [Hp|Hp]; [by destruct (Z.ltb_spec 0 cnt); [|lia]|].
    destruct (Z.ltb_spec 0 cnt); [lia|].
    change (tx_pipe_isfull _) with (tx_pipe_isfull s'). rewrite (tx_full_iff s' C'), Ht.
    replace cnt with 0 by lia. unfold mem_bytes. simpl. rewrite app_nil_r.
    destruct (Z.eqb_spec (len (tx_data s)) 64); [lia|]. reflexivity.
Qed.

Lemma drain_again_eq k arg self :
  console_drain_again (S k) arg self s =
  if len (tx_data s) =? 0 then Some (arg_ret arg 0 s)
  else Some (con_wait THINKOS_WQ_CONSOLE_WR THINKOS_EAGAIN arg self s).
Proof using C.
  cbn [console_drain_again]. rewrite <- (tx_empty_iff s C).
  change (tx_pipe_isempty (ctx_store _ _ _)) with (tx_pipe_isempty s).
  destruct (tx_pipe_isempty s); [reflexivity|]. rewrite wq_store_lor. reflexivity.
Qed.
End svc.

(** A write of nothing to a pipe that is not full never leaves the loop. *)
Lemma wr_again_hangs k : forall s buf arg self,
  console_ok s -> len (tx_data s) < 64 -> console_wr_again k buf 0 arg self s = None.
Proof.
  induction k as [|k IH]; intros s buf arg self C Hf; [done|].
  rewrite wr_again_eq by (done || lia). destruct (Z.leb_spec 64 (len (tx_data s))); [lia|]. simpl.
  pose proof (tx_write_spec s buf 0 C ltac:(lia)) as Hw.
  destruct (tx_pipe_write buf 0 s) as [s' cnt]. destruct Hw as (Hc & _ & C' & _ & _ & _ & Ht).
  simpl. apply IH; [exact C'|]. change (tx_data _) with (tx_data s'). rewrite Ht.
  replace cnt with 0 by lia. unfold mem_bytes. simpl. by rewrite app_nil_r.
Qed.

Section blocks.
Context (s : kernel) (K : kernel_ok s) (arg self : Z).
Context (Hself : 0 <= self < THINKOS_THREADS_MAX) (Hc : calling s self) (Hl : live arg s).

Lemma con_wait_ok wq v : sync_wq wq -> kernel_ok (con_wait wq v arg self s).
Proof using K Hself Hc.
  intros Hw. unfold con_wait.
  kvia (wq_bit_store wq self true (th_stat_store self (Z.shiftl wq 1) (__thinkos_suspend self s))).
  by apply suspend_queue_ok.
Qed.

(** The caller is in the queue, with [v] as its result so far. *)
Lemma con_wait_blocks wq v :
  sync_wq wq -> observes arg self wq (con_wait wq v arg self s) (Block false) /\
    arg_0 arg (con_wait wq v arg self s) = u32 v.
Proof using K Hself Hc Hl.
  intros Hw. pose proof (con_wait_ok wq v Hw) as K'.
  destruct (calling_facts s K self Hself Hc) as (_ & _ & Hall). unfold sync_wq in Hw.
  pose proof (mem_suspend_queue s K self Hself wq Hw (Z.shiftl wq 1) self) as Hm. split.
  - apply observes_block; try done; unfold con_wait.
    + transitivity (mem (wq_bit_store wq self true (th_stat_store self (Z.shiftl wq 1)
        (__thinkos_suspend self s))) self wq); [unfold mem; by kred|].
      rewrite Hm by lia. by rewrite !Z.eqb_refl.
    + transitivity (mem (wq_bit_store wq self true (th_stat_store self (Z.shiftl wq 1)
        (__thinkos_suspend self s))) self 2); [unfold mem; by kred|].
      rewrite Hm, Hall by lia. by destruct (Z.eqb_spec wq 2); [lia|].
  - apply (arg_0_stored arg v s Hl). unfold con_wait. by kred.
Qed.
End blocks.

(** What a read of up to [n] bytes into [buf] does. *)
Definition read_done (s s' : kernel) (buf n : Z) (l : list Z) : Prop :=
  rx_data s = l ++ rx_data s' /\ len l = Z.min (len (rx_data s)) n /\ l <> [] /\
  mem_bytes (umem s') buf (len l) = u8 <$> l /\
  (forall a, ~ buf <= a < buf + len l -> mem_rd (umem s') a = mem_rd (umem s) a).

(** C18: a console write of at least one byte appends to the transmit pipe the
    first bytes of the caller's buffer, in order and as many as there is room
    for, returns their number and signals the monitor; when the pipe is full
    the caller waits, and its call will return 0.  Nothing is lost or
    duplicated, whatever the wrap of the 32-bit counters. *)
Theorem console_write_fifo s arg self :
  kernel_ok s -> console_ok s -> 0 <= self < THINKOS_THREADS_MAX -> calling s self -> live arg s ->
  arg_0 arg s = CONSOLE_WRITE -> 0 < arg_2 arg s ->
  exists s', thinkos_console_svc arg self s = Some s' /\ kernel_ok s' /\ console_ok s' /\
    rx_data s' = rx_data s /\
    ((len (tx_data s) = 64 /\ tx_data s' = tx_data s /\ arg_0 arg s' = 0 /\
      observes arg self THINKOS_WQ_CONSOLE_WR s' (Block false)) \/
     exists cnt, 0 < cnt /\ cnt = Z.min (64 - len (tx_data s)) (arg_2 arg s) /\
      tx_data s' = tx_data s ++ mem_bytes (umem s) (arg_1 arg s) cnt /\ arg_0 arg s' = cnt /\
      calling s' self /\ Z.testbit (mon_events s') DBGMON_TX_PIPE = true /\ mon_pend s' = true).
Proof.
  intros K C Hs Hc Hl H0 H2. unfold thinkos_console_svc. rewrite H0. cbv zeta.
  change (0 =? _) with false at 1 2 3 4 5 6. change (0 =? 0) with true. cbv iota.
  pose proof (u32_range (r2 (context_at arg s))) as Hn. fold (arg_2 arg s) in Hn.
  rewrite wr_again_eq by done. destruct (Z.leb_spec 64 (len (tx_data s))) as [Hf|Hf].
  - destruct (con_wait_blocks s K arg self Hs Hc Hl THINKOS_WQ_CONSOLE_WR 0) as [B1 B2];
      [unfold sync_wq; lia|].
    eexists. split; [reflexivity|]. split; [apply con_wait_ok; try done; unfold sync_wq; lia|].
    split; [exact C|]. split; [done|]. left. split_and!; [|done|done|done].
    unfold tx_data in *. rewrite len_ring in *. destruct C as [(_ & _ & _ & ?) _]. lia.
  - destruct (Z.ltb_spec 0 (arg_2 arg s)); [|lia].
    pose proof (tx_write_spec s (arg_1 arg s) (arg_2 arg s) C Hn) as Hw.
    destruct (tx_pipe_write _ _ s) as [s1 cnt]. destruct Hw as (E & S1 & C1 & R1 & _ & _ & T1).
    pose proof (same_kernel_ok s s1 S1 K) as K1. pose proof (same_kernel_calling s s1 self S1 Hc) as Hc1.
    eexists. split; [reflexivity|]. unfold dbgmon_signal.
    split; [kframe|]. split; [exact C1|]. split; [exact R1|]. right. exists cnt.
    assert (Hcnt : 0 < cnt <= 64). { rewrite E. split; [lia|]. unfold tx_data, len. lia. }
    split; [lia|]. split; [exact E|]. split; [exact T1|]. split; [|split; [|split; [|done]]].
    + rewrite (arg_0_stored arg cnt s1); [apply u32_small; lia| |by kred].
      destruct S1 as (_ & _ & _ & _ & _ & F & _). unfold live. by rewrite F.
    + apply (calling_frame s1); [by kred..|done].
    + kred. apply bit_wr_eq. lia.
Qed.

(** The suspension and the insertion of the two reads. *)
Lemma read_wait_ok s self :
  kernel_ok s -> 0 <= self < THINKOS_THREADS_MAX -> calling s self ->
  kernel_ok (__thinkos_wq_insert THINKOS_WQ_CONSOLE_RD self (__thinkos_suspend self s)) /\
  forall ms, kernel_ok (__thinkos_tmdwq_insert THINKOS_WQ_CONSOLE_RD self ms (__thinkos_suspend self s)).
Proof.
  intros K Hs Hc. assert (Hw : sync_wq 56) by (unfold sync_wq; lia). split.
  - kvia (wq_bit_store 56 self true (th_stat_store self (Z.shiftl 56 1) (__thinkos_suspend self s))).
    by apply suspend_queue_ok.
  - intros ms. kvia (wq_bit_store 2 self true (wq_bit_store 56 self true
      (th_stat_store self (Z.shiftl 56 1 + 1) (__thinkos_suspend self s)))).
    apply suspend_tqueue_ok; try done; unfold timed_ok; lia.
Qed.

(** A console read takes the oldest bytes of the receive pipe, as many as
    there are and as the caller asked for, stores them in order at the caller's
    buffer and nowhere else, and returns their number; when there is none the
    caller waits, with the time-out error as its default result in the timed
    variant. *)
Theorem console_read_fifo s arg self (tm : bool) :
  kernel_ok s -> console_ok s -> 0 <= self < THINKOS_THREADS_MAX -> calling s self -> live arg s ->
  arg_0 arg s = (if tm then CONSOLE_TIMEDREAD else CONSOLE_READ) ->
  exists s', thinkos_console_svc arg self s = Some s' /\ kernel_ok s' /\ console_ok s' /\
    tx_data s' = tx_data s /\
    ((Z.min (len (rx_data s)) (arg_2 arg s) = 0 /\ rx_data s' = rx_data s /\
      observes arg self THINKOS_WQ_CONSOLE_RD s' (Block tm)) \/
     exists l, read_done s s' (arg_1 arg s) (arg_2 arg s) l /\ arg_0 arg s' = len l /\
      calling s' self).
Proof.
  intros K C Hs Hc Hl H0.
  pose proof (u32_range (r2 (context_at arg s))) as Hn. fold (arg_2 arg s) in Hn.
  pose proof (rx_read_spec s (arg_1 arg s) (arg_2 arg s) C Hn) as Hr.
  assert (E : thinkos_console_svc arg self s =
    let '(s1, n) := rx_pipe_read (arg_1 arg s) (arg_2 arg s) s in
    Some (if 0 <? n then arg_ret arg n (dbgmon_signal DBGMON_RX_PIPE s1)
      else if tm then __thinkos_defer_sched (arg_ret arg THINKOS_ETIMEDOUT
             (__thinkos_tmdwq_insert THINKOS_WQ_CONSOLE_RD self (arg_3 arg (__thinkos_suspend self s1))
               (__thinkos_suspend self s1)))
      else __thinkos_defer_sched (__thinkos_wq_insert THINKOS_WQ_CONSOLE_RD self (__thinkos_suspend self s1)))).
  { unfold thinkos_console_svc. rewrite H0. by destruct tm, (rx_pipe_read _ _ s). }
  rewrite E. clear E. destruct (rx_pipe_read _ _ s) as [s1 n].
  destruct Hr as (En & S1 & C1 & T1 & l & D1 & D2 & D3 & D4).
  pose proof (same_kernel_ok s s1 S1 K) as K1. pose proof (same_kernel_calling s s1 self S1 Hc) as Hc1.
  assert (Hl1 : live arg s1). { destruct S1 as (_ & _ & _ & _ & _ & F & _). unfold live. by rewrite F. }
  assert (Hb : 0 <= n <= 64). { rewrite En. unfold rx_data. rewrite len_ring.
    pose proof (u32_range (rx_head (console s) - rx_tail (console s))).
    destruct C as [_ (_ & _ & _ & ?)]. lia. }
  eexists. split; [reflexivity|]. destruct (Z.ltb_spec 0 n) as [Hp|Hp].
  - unfold dbgmon_signal. split; [kframe|]. split; [exact C1|]. split; [exact T1|]. right.
    exists l. rewrite D2. split; [|split].
    + refine (conj D1 (conj _ (conj _ (conj _ _)))); rewrite ?D2; try done.
      intros ->. unfold len in D2. simpl in D2. lia.
    + rewrite (arg_0_stored arg n s1 Hl1); [apply u32_small; lia|by kred].
    + apply (calling_frame s1); [by kred..|done].
  - destruct (read_wait_ok s1 self K1 Hs Hc1) as [W1 W2].
    assert (Hw : sync_wq 56) by (unfold sync_wq; lia).
    assert (Hll : l = []) by (apply length_zero_iff_nil; unfold len in D2; lia).
    destruct (calling_facts s1 K1 self Hs Hc1) as (_ & _ & Hall).
    destruct tm; (split; [by kpeel|]); (split; [exact C1|]); (split; [exact T1|]); left;
      (split; [lia|]); (split; [rewrite D1, Hll; done|]); apply observes_block; try done; try (by kpeel).
    + rewrite mem_defer, mem_arg_ret. unfold mem, __thinkos_tmdwq_insert. kred.
      rewrite !inq_bit_wr by (rewrite ?len_wq_bit_wr, ?len_suspend_wq, ?(k_wq s1 K1); lia).
      by rewrite !Z.eqb_refl.
    + rewrite mem_defer, mem_arg_ret. unfold mem, __thinkos_tmdwq_insert. kred.
      rewrite !inq_bit_wr by (rewrite ?len_wq_bit_wr, ?len_suspend_wq, ?(k_wq s1 K1); lia).
      by rewrite !Z.eqb_refl.
    + intros _. rewrite (arg_0_stored arg (-1) s1 Hl1); [done|by kred].
    + rewrite mem_defer. unfold mem, __thinkos_wq_insert. kred.
      rewrite !inq_bit_wr by (rewrite ?len_wq_bit_wr, ?len_suspend_wq, ?(k_wq s1 K1); lia).
      by rewrite !Z.eqb_refl.
    + rewrite mem_defer. unfold mem, __thinkos_wq_insert. kred.
      rewrite !inq_bit_wr, inq_suspend_other
        by (rewrite ?len_wq_bit_wr, ?len_suspend_wq, ?(k_wq s1 K1); lia).
      fold (mem s1 self 2). by rewrite Hall.
Qed.

(** A console write of zero bytes while the pipe is not full never leaves
    the retry loop of the handler, whatever the number of rounds: the write
    moves nothing, the pipe is not full, so the handler rolls back and starts
    again. *)
Theorem console_write_zero_hangs s arg self rounds :
  console_ok s -> arg_0 arg s = CONSOLE_WRITE -> arg_2 arg s = 0 -> len (tx_data s) < 64 ->
  thinkos_console_svc arg self s = None /\
  console_wr_again rounds (arg_1 arg s) (arg_2 arg s) arg self s = None.
Proof.
  intros C H0 H2 Hf. rewrite H2. split; [|by apply wr_again_hangs].
  unfold thinkos_console_svc. rewrite H0, H2. by apply wr_again_hangs.
Qed.

(** The monitor takes the oldest run of bytes. *)
Lemma tx_ptr_spec s :
  console_ok s ->
  let '(s1, pos, cnt) := __console_tx_pipe_ptr s in
  same_kernel s s1 /\ console_ok s1 /\ rx_data s1 = rx_data s /\ tx_data s1 = tx_data s /\
  0 <= pos /\ 0 <= cnt /\ pos + cnt <= 64 /\ (cnt = 0 -> tx_data s = []) /\ cnt <= len (tx_data s) /\
  exists rest, tx_data s = ((fun k => rd (tx_buf (console s)) (pos + k)) <$> seqZ 0 cnt) ++ rest.
Proof.
  intros C. unfold __console_tx_pipe_ptr. destruct C as [Tx Rx]. pose proof Tx as (Hl & Hh & Ht & Hr).
  unfold tx_data at 3 4 5. rewrite len_ring. set (c := console s) in *.
  pose proof (u32_range (tx_head c - tx_tail c)) as Hu.
  assert (Em : int32 (tx_head c - tx_tail c) = u32 (tx_head c - tx_tail c)).
  { rewrite <- int32_u32. apply int32_small. lia. }
  rewrite Em. pose proof (Z.mod_pos_bound (tx_tail c) 64 ltac:(lia)) as Hp.
  set (max := u32 _) in *. set (pos := tx_tail c mod 64) in *.
  set (cnt := if 64 <? pos + max then 64 - pos else max).
  assert (Hcnt : 0 <= cnt <= max /\ pos + cnt <= 64 /\ (cnt = 0 -> max = 0)).
  { unfold cnt. destruct (Z.ltb_spec 64 (pos + max)); lia. }
  destruct (ring_pop _ _ _ cnt Tx ltac:(lia)) as [_ Er].
  split_and!; try done; try lia.
  - intros E. unfold ring. fold max. replace max with 0 by lia. done.
  - eexists. rewrite Er at 1. f_equal. apply fmap_seqZ_ext. intros k Hk.
    rewrite <- Zplus_mod_idemp_l. fold pos. rewrite Z.mod_small by lia. done.
Qed.

(** What the monitor transmits is what was written, in order: the run of
    bytes [__console_tx_pipe_ptr] designates is the head of the transmit pipe,
    not empty unless the pipe is, and [__console_tx_pipe_commit] of its length
    removes exactly it and makes the lowest numbered waiting writer ready, its
    call returning 0 for a retry. *)
Theorem console_tx_drains s :
  kernel_ok s -> console_ok s ->
  let '(s1, pos, cnt) := __console_tx_pipe_ptr s in
  let s' := __console_tx_pipe_commit cnt s1 in
  tx_data s = ((fun k => rd (tx_buf (console s)) (pos + k)) <$> seqZ 0 cnt) ++ tx_data s' /\
  0 <= pos /\ pos + cnt <= 64 /\ (cnt = 0 -> tx_data s = []) /\
  kernel_ok s' /\ console_ok s' /\ rx_data s' = rx_data s /\
  (wq_set s THINKOS_WQ_CONSOLE_WR <> ∅ ->
     woken s s' (__thinkos_wq_head THINKOS_WQ_CONSOLE_WR s) 0 /\ pendsv s' = true).
Proof.
  intros K C. pose proof (tx_ptr_spec s C) as Hp.
  assert (E1 : (__console_tx_pipe_ptr s).1.1 =
    set_console (con_last (tx_last_cnt (console (__console_tx_pipe_ptr s).1.1)) (console s)) s) by done.
  destruct (__console_tx_pipe_ptr s) as [[s1 pos] cnt]. cbn [fst] in E1.
  destruct Hp as (S1 & C1 & R1 & T1 & P1 & P2 & P3 & P4 & P5 & rest & Er). cbv zeta.
  pose proof (same_kernel_ok s s1 S1 K) as K1.
  assert (Hc : console s1 = con_last (tx_last_cnt (console s1)) (console s)) by (by rewrite E1 at 1).
  assert (Hp : tx_head (console s1) = tx_head (console s) /\ tx_tail (console s1) = tx_tail (console s) /\
    tx_buf (console s1) = tx_buf (console s)) by (rewrite Hc; done).
  clear E1 Hc. destruct Hp as (Eh & Et & Eb).
  unfold tx_data in P5, T1. rewrite len_ring in P5. rewrite <- Eh, <- Et in P5.
  destruct C1 as [Tx1 Rx1]. destruct (ring_pop _ _ _ cnt Tx1 ltac:(lia)) as [Tx2 Er2].
  assert (Ed : tx_data s = ((fun k => rd (tx_buf (console s)) (pos + k)) <$> seqZ 0 cnt)
    ++ ring (tx_head (console s1)) (u32 (tx_tail (console s1) + cnt)) (tx_buf (console s1))).
  { rewrite Er. f_equal. unfold tx_data in Er. rewrite <- T1, Er2 in Er.
    apply app_inj_1 in Er as [_ Er]; [done|]. by rewrite !length_fmap. }
  unfold __console_tx_pipe_commit. cbv zeta. set (s2 := set_console _ s1).
  assert (S2 : same_kernel s s2) by exact S1. pose proof (same_kernel_ok s s2 S2 K) as K2.
  assert (C2 : console_ok s2) by (split; [exact Tx2|exact Rx1]).
  assert (R2 : rx_data s2 = rx_data s) by exact R1.
  assert (T2 : tx_data s2 = ring (tx_head (console s1)) (u32 (tx_tail (console s1) + cnt)) (tx_buf (console s1)))
    by done.
  rewrite <- T2 in Ed. clearbody s2.
  assert (Hh : __thinkos_wq_head 55 s2 = __thinkos_wq_head 55 s)
    by (unfold __thinkos_wq_head; by rewrite (proj1 S2)).
  assert (Hw : sync_wq 55) by (unfold sync_wq; lia). rewrite Hh.
  destruct (Z.eqb_spec (__thinkos_wq_head 55 s) 32) as [En|Hn].
  - split_and!; try done. intros Hne. by apply wq_set_empty in En.
  - rewrite <- Hh in *. destruct (sync_head s2 55 K2 Hw Hn) as [Hr Hm].
    set (th := __thinkos_wq_head 55 s2) in *. destruct (wakeup_woken s2 K2 th Hr 55 Hw Hm) as [W1 W2].
    pose proof (wakeup_ok s2 K2 th Hr 55 Hw Hm) as K3.
    assert (Ec : console (__thinkos_wakeup 55 th s2) = console s2) by (by kred).
    revert K3 W1 W2 Ec. generalize (__thinkos_wakeup 55 th s2). intros s3 K3 W1 W2 Ec.
    destruct S2 as (_ & _ & _ & _ & _ & F & X). unfold tx_data, rx_data, console_ok in *. kred.
    rewrite Ec. split_and!; [exact Ed|lia|lia|exact P4|by kpeel|apply C2|apply C2|exact R2|].
    intros _. split; [|done]. split; [exact W1|].
    intros Hl. unfold live in *. rewrite <- X, <- F in Hl. rewrite <- X. exact (W2 Hl).
Qed.

(** The part of the receive pipe a commit of [cnt] bytes adds. *)
Definition rx_fresh (s : kernel) (cnt : Z) : list Z :=
  (fun k => rd (rx_buf (console s)) ((rx_head (console s) + k) mod 64)) <$> seqZ 0 cnt.

(** what the monitor received reaches the readers in order: the commit of
    [cnt] bytes, no more than there is room for, appends them to the receive
    pipe; if a thread waits to read, the lowest numbered one takes the oldest
    bytes, as many as it asked for, finds them in its buffer, and returns their
    number; the rest stays in the pipe. *)
Theorem console_rx_delivers s cnt :
  kernel_ok s -> console_ok s -> 0 <= cnt <= 64 - len (rx_data s) ->
  let s' := __console_rx_pipe_commit cnt s in
  let th := __thinkos_wq_head THINKOS_WQ_CONSOLE_RD s in
  let c := context_at (rd (ctx s) th) s in
  kernel_ok s' /\ console_ok s' /\ tx_data s' = tx_data s /\
  exists l, rx_data s ++ rx_fresh s cnt = l ++ rx_data s' /\
    (l = [] \/
     (wq_set s THINKOS_WQ_CONSOLE_RD <> ∅ /\ woken s s' th (len l) /\ pendsv s' = true /\
      len l = Z.min (len (rx_data s) + cnt) (u32 (r2 c)) /\
      mem_bytes (umem s') (u32 (r1 c)) (len l) = u8 <$> l)).
Proof.
  intros K C Hcnt. cbv zeta. unfold __console_rx_pipe_commit. cbv zeta.
  unfold rx_data in Hcnt. rewrite len_ring in Hcnt. destruct C as [Tx Rx].
  destruct (ring_extend _ _ _ cnt Rx ltac:(lia) ltac:(lia)) as [Rx1 Er].
  set (s1 := set_console _ s). assert (S1 : same_kernel s s1) by done.
  assert (K1 : kernel_ok s1) by (by apply (same_kernel_ok s)).
  assert (C1 : console_ok s1) by (split; [exact Tx|exact Rx1]).
  assert (T1 : tx_data s1 = tx_data s) by done.
  assert (D1 : rx_data s1 = rx_data s ++ rx_fresh s cnt) by exact Er. clearbody s1.
  assert (Hh : __thinkos_wq_head 56 s1 = __thinkos_wq_head 56 s)
    by (unfold __thinkos_wq_head; by rewrite (proj1 S1)).
  assert (Hw : sync_wq 56) by (unfold sync_wq; lia). rewrite Hh.
  set (th := __thinkos_wq_head 56 s) in *.
  assert (Hx : context_at (rd (ctx s1) th) s1 = context_at (rd (ctx s) th) s).
  { destruct S1 as (_ & _ & _ & _ & _ & F & X). unfold context_at. by rewrite F, X. }
  rewrite Hx. set (c := context_at (rd (ctx s) th) s) in *.
  destruct (Z.eqb_spec th 32) as [En|Hn].
  { split_and!; [done|apply C1..|done|]. exists []. split; [by rewrite <- D1|by left]. }
  pose proof (rx_read_spec s1 (u32 (r1 c)) (u32 (r2 c)) C1 (u32_range _)) as Hr.
  destruct (rx_pipe_read _ _ s1) as [s2 n]. destruct Hr as (Hn2 & S2 & C2 & T2 & l & D2 & D3 & D4 & _).
  pose proof (same_kernel_ok s1 s2 S2 K1) as K2.
  assert (Hin : wq_set s 56 <> ∅) by (intros E; apply Hn; by apply wq_set_empty).
  assert (Hh2 : th = __thinkos_wq_head 56 s2)
    by (unfold th, __thinkos_wq_head; by rewrite (proj1 S2), (proj1 S1)).
  destruct (Z.eqb_spec n 0) as [E0|E0].
  { split_and!; [done|apply C2..|congruence|]. exists []. split; [|by left].
    rewrite <- D1, D2. assert (l = []) as ->; [|done]. apply length_zero_iff_nil. unfold len in D3. lia. }
  destruct (sync_head s2 56 K2 Hw) as [Hr2 Hm2]; [congruence|]. rewrite <- Hh2 in Hr2, Hm2.
  pose proof (wakeup_return_ok s2 K2 th Hr2 56 n Hw Hm2) as K3.
  destruct (wakeup_woken s2 K2 th Hr2 56 Hw Hm2) as [W1 _].
  assert (W3 : calling (__thinkos_wakeup_return 56 th n s2) th)
    by (apply (calling_frame (__thinkos_wakeup 56 th s2)); [by kred..|done]).
  assert (W4 : live (rd (ctx s2) th) s2 -> arg_0 (rd (ctx s2) th) (__thinkos_wakeup_return 56 th n s2) = u32 n)
    by (intros Hl; apply (arg_0_stored _ n s2 Hl); by kred).
  assert (Ec : console (__thinkos_wakeup_return 56 th n s2) = console s2 /\
    umem (__thinkos_wakeup_return 56 th n s2) = umem s2) by (by kred).
  revert K3 W3 W4 Ec. generalize (__thinkos_wakeup_return 56 th n s2). intros s3 K3 W3 W4 [Ec Eu].
  destruct S1 as (_ & _ & _ & _ & _ & F1 & X1), S2 as (_ & _ & _ & _ & _ & F2 & X2).
  unfold tx_data, rx_data, console_ok, rx_fresh in *. kred. rewrite Ec, Eu.
  split_and!; [by kpeel|apply C2|apply C2|congruence|]. exists l. rewrite <- D1, D2.
  split; [done|]. right. rewrite D3. split_and!; [done| |done| |done].
  - split; [exact W3|]. unfold live in *. rewrite X2, X1, F2, F1 in W4. exact W4.
  - rewrite Hn2, D1. unfold len. rewrite length_app, length_fmap, length_seqZ. lia.
Qed.

(** Whatever the request, as long as it returns. *)
Lemma console_svc_ok s arg self s' :
  kernel_ok s -> console_ok s -> 0 <= self < THINKOS_THREADS_MAX -> calling s self ->
  thinkos_console_svc arg self s = Some s' -> kernel_ok s' /\ console_ok s'.
Proof.
  intros K C Hs Hc. unfold thinkos_console_svc. cbv zeta.
  pose proof (u32_range (r2 (context_at arg s))) as Hn. fold (arg_2 arg s) in Hn.
  pose proof (rx_read_spec s (arg_1 arg s) (arg_2 arg s) C Hn) as Hr.
  destruct (_ =? 3); [intros [= <-]; split; [kframe|exact C]|].
  destruct (_ =? 4); [intros [= <-]; destruct (_ <? _); (split; [kframe|exact C])|].
  destruct (_ =? 6); [intros [= <-]; split; [kframe|exact C]|].
  destruct (_ =? 7); [intros [= <-]; split; [kframe|exact C]|].
  assert (Hrd : forall s1 n, rx_pipe_read (arg_1 arg s) (arg_2 arg s) s = (s1, n) ->
    kernel_ok s1 /\ console_ok s1 /\ calling s1 self).
  { intros s1 n E. rewrite E in Hr. destruct Hr as (_ & S1 & C1 & _).
    split; [by apply (same_kernel_ok s)|]. split; [done|by apply (same_kernel_calling s)]. }
  destruct (rx_pipe_read _ _ s) as [s1 n]. destruct (Hrd s1 n eq_refl) as (K1 & C1 & Hc1). clear Hr Hrd.
  destruct (read_wait_ok s1 self K1 Hs Hc1) as [W1 W2].
  destruct (_ =? 2); [intros [= <-]; destruct (_ <? _); (split; [|exact C1]);
    [unfold dbgmon_signal; kframe|kpeel; apply W2]|].
  destruct (_ =? 1); [intros [= <-]; destruct (_ <? _); (split; [|exact C1]);
    [unfold dbgmon_signal; kframe|kpeel; apply W1]|].
  assert (Hw : sync_wq 55) by (unfold sync_wq; lia).
  destruct (_ =? 0).
  - destruct (decide (arg_2 arg s = 0 /\ len (tx_data s) < 64)) as [[E0 Hf]|Hnz];
      [by rewrite E0, wr_again_hangs|].
    rewrite wr_again_eq by done. destruct (Z.leb_spec 64 (len (tx_data s))).
    { intros [= <-]. split; [by apply con_wait_ok|exact C]. }
    destruct (Z.ltb_spec 0 (arg_2 arg s)) as [Hp|Hp]; [|exfalso; apply Hnz; lia].
    pose proof (tx_write_spec s (arg_1 arg s) (arg_2 arg s) C Hn) as Hx.
    destruct (tx_pipe_write _ _ s) as [s2 cnt]. destruct Hx as (_ & S2 & C2 & _).
    pose proof (same_kernel_ok s s2 S2 K) as K2.
    intros [= <-]. split; [unfold dbgmon_signal; kframe|exact C2].
  - destruct (_ =? 5); [|intros [= <-]; split; [kframe|exact C]].
    rewrite drain_again_eq by done.
    destruct (_ =? 0); intros [= <-]; (split; [|exact C]); [kframe|by apply con_wait_ok].
Qed.

Lemma tx_commit_ok s cnt : kernel_ok s -> kernel_ok (__console_tx_pipe_commit cnt s).
Proof.
  intros K. unfold __console_tx_pipe_commit. cbv zeta. set (s1 := set_console _ s).
  assert (K1 : kernel_ok s1) by (unfold s1; kframe). clearbody s1. guards.
  destruct (sync_head s1 55 K1) as [Hr Hm]; [unfold sync_wq; lia|done|].
  kpeel. by apply wakeup_ok.
Qed.

(** Closing the console is refused with EBADF exactly when it is open, and
    the count of opens is never lowered: opening, closing and closing again
    gives OK, EBADF, EBADF. *)
Theorem console_close_inverted s arg self :
  live arg s -> arg_0 arg s = CONSOLE_CLOSE ->
  exists s', thinkos_console_svc arg self s = Some s' /\ console s' = console s /\
    arg_0 arg s' = u32 (if 0 <? open_cnt (console s) then THINKOS_EBADF else THINKOS_OK).
Proof.
  intros Hl H0. unfold thinkos_console_svc. rewrite H0. cbv zeta. simpl (_ =? _). cbv iota.
  eexists. split; [reflexivity|]. destruct (0 <? _); (split; [done|by apply arg_0_ret]).
Qed.

(** ** Sample *)

(** The transmit pipe holds 62 bytes across the wrap of the counters, the
    receive pipe holds none, thread 2 waits to read up to 4 bytes and thread 0
    writes 5 bytes. *)
Definition console_demo : kernel :=
  let c := console demo in
  let s :=
    demo |> set_console (mk_console 1 true 0 30 4294967264 (zeros 64) 5 5 (wr (zeros 64) 5 77))
         |> set_umem (<[1000 := 65]> (<[1001 := 66]> ∅))
         |> demo_wait 2 THINKOS_WQ_CONSOLE_RD in
  let s := set_frames (<[record_of 2 := call_record CONSOLE_READ 2000 4 0]> (frames s)) s in
  demo_call CONSOLE_WRITE 1000 5 0 s.

Lemma console_demo_ok : console_ok console_demo.
Proof. split; vm_compute; split_and!; congruence. Qed.

Lemma console_write_fifo_witness :
  (exists s', thinkos_console_svc (record_of 0) 0 console_demo = Some s' /\ kernel_ok s' /\ console_ok s') /\
  match thinkos_console_svc (record_of 0) 0 console_demo with
  | Some s' => arg_0 (record_of 0) s' = 2 /\ tx_data s' = tx_data console_demo ++ [65; 66]
  | None => False
  end.
Proof.
  destruct (console_write_fifo console_demo (record_of 0) 0) as (s' & H1 & H2 & H3 & _);
    [kernel_ok_compute|exact console_demo_ok|lia|split; vm_compute; reflexivity
    |eexists; vm_compute; reflexivity|vm_compute; reflexivity|vm_compute; reflexivity|].
  split; [exists s'; split; [exact H1|split; [exact H2|exact H3]]|]. vm_compute. split; reflexivity.
Defined.

(** One byte is in the receive pipe and thread 0 reads up to 4. *)
Definition console_read_demo : kernel :=
  demo_call CONSOLE_READ 2000 4 0 (set_console (con_rx 6 5 (console console_demo)) demo).

Lemma console_read_fifo_witness :
  (exists s', thinkos_console_svc (record_of 0) 0 console_read_demo = Some s' /\ kernel_ok s') /\
  match thinkos_console_svc (record_of 0) 0 console_read_demo with
  | Some s' => rx_data console_read_demo = [77] /\ rx_data s' = [] /\ mem_rd (umem s') 2000 = 77
  | None => False
  end.
Proof.
  destruct (console_read_fifo console_read_demo (record_of 0) 0 false) as (s' & H1 & H2 & _);
    [kernel_ok_compute|split; vm_compute; split_and!; congruence|lia|split; vm_compute; reflexivity
    |eexists; vm_compute; reflexivity|vm_compute; reflexivity|].
  split; [exists s'; split; [exact H1|exact H2]|]. vm_compute. split_and!; reflexivity.
Defined.

Lemma console_write_zero_hangs_witness :
  let s := demo_call CONSOLE_WRITE 1000 0 0 console_demo in
  thinkos_console_svc (record_of 0) 0 s = None /\ console_wr_again 1000 1000 0 (record_of 0) 0 s = None.
Proof.
  apply (console_write_zero_hangs (demo_call CONSOLE_WRITE 1000 0 0 console_demo) (record_of 0) 0 1000);
    [split; vm_compute; split_and!; congruence|vm_compute; reflexivity..].
Defined.

Lemma console_tx_drains_witness :
  let s1 := (__console_tx_pipe_ptr console_demo).1.1 in
  (__console_tx_pipe_ptr console_demo).2 = 32 /\
  kernel_ok (__console_tx_pipe_commit 32 s1) /\ len (tx_data (__console_tx_pipe_commit 32 s1)) = 30.
Proof.
  pose proof (console_tx_drains console_demo) as H.
  destruct H as (_ & _ & _ & _ & H & _); [kernel_ok_compute|exact console_demo_ok|].
  split; [vm_compute; reflexivity|]. split; [exact H|vm_compute; reflexivity].
Defined.

Lemma console_rx_delivers_witness :
  let s' := __console_rx_pipe_commit 1 console_demo in
  kernel_ok s' /\ rx_data s' = [] /\ arg_0 (record_of 2) s' = 1 /\ mem_rd (umem s') 2000 = 77.
Proof.
  destruct (console_rx_delivers console_demo 1) as (H & _);
    [kernel_ok_compute|exact console_demo_ok|vm_compute; split; congruence|].
  split; [exact H|]. vm_compute. split_and!; reflexivity.
Defined.

Lemma console_close_inverted_witness :
  let s := demo_call CONSOLE_CLOSE 0 0 0 console_demo in
  exists s', thinkos_console_svc (record_of 0) 0 s = Some s' /\ open_cnt (console s') = 1 /\
    int32 (arg_0 (record_of 0) s') = THINKOS_EBADF.
Proof.
  destruct (console_close_inverted (demo_call CONSOLE_CLOSE 0 0 0 console_demo) (record_of 0) 0)
    as (s' & H1 & H2 & H3); [eexists; vm_compute; reflexivity|vm_compute; reflexivity|].
  exists s'. split; [exact H1|]. rewrite H2, H3. vm_compute. split; reflexivity.
Defined.
