(* ===== verification/Pause.v ===== *)
(** * Pausing and resuming threads

    src/sdk/libthinkos/thinkos_pause.c with the object type table of
    misc/thinkos_type.c and the loops of misc/pause_all.c and
    misc/resume_all.c: a paused thread leaves every queue and keeps its status
    word; resuming puts it back where the status says, or completes its wait if
    the object has become available meanwhile. *)

From stdpp Require Import base tactics numbers list gmap.
From Stdlib Require Import ZArith Lia.
From S2P Require Import Prelude CortexM State Kernel BmpAlloc Invariant Decide Init Demo Transitions Mutex Semaphore Event Flag Gate Console.

(** ** Code *)

(** [thinkos_obj_type_lut]: one entry per queue, then one for interrupts. *)
Definition thinkos_obj_type_lut : list thinkos_obj_kind :=
  [OBJ_READY; OBJ_TMSHARE; OBJ_CLOCK] ++
  replicate 8 OBJ_MUTEX ++ replicate 8 OBJ_COND ++ replicate 8 OBJ_SEMAPHORE ++
  replicate 4 OBJ_EVENT ++ replicate 8 OBJ_FLAG ++ replicate 8 OBJ_GATE ++ replicate 8 OBJ_JOIN ++
  [OBJ_CONWRITE; OBJ_CONREAD; OBJ_PAUSED; OBJ_CANCELED; OBJ_IRQ].

Definition obj_type (wq : Z) : thinkos_obj_kind :=
  nth (Z.to_nat wq) thinkos_obj_type_lut OBJ_INVALID.

Definition thinkos_obj_type_get (oid : Z) : thinkos_obj_kind + Z :=
  if THINKOS_WQ_LST_END <=? oid then inr THINKOS_EINVAL else inl (obj_type oid).

Definition cm3_irq_enable (irq : Z) (s : kernel) : kernel := set_irq_en ({[irq]} ∪ irq_en s) s.
Definition cm3_irq_disable (irq : Z) (s : kernel) : kernel := set_irq_en (irq_en s ∖ {[irq]}) s.
Definition cm3_irq_pend_clr (irq : Z) (s : kernel) : kernel := set_irq_pend (irq_pend s ∖ {[irq]}) s.

(** The first interrupt assigned to the thread. *)
Fixpoint irq_scan (n : nat) (irq thread_id : Z) (irqs : list Z) : option Z :=
  match n with
  | O => None
  | S n => if rd irqs irq =? thread_id then Some irq else irq_scan n (irq + 1) thread_id irqs
  end.

Definition irq_of (thread_id : Z) (s : kernel) : option Z :=
  irq_scan (Z.to_nat THINKOS_IRQ_MAX) 0 thread_id (irq_th s).

Definition ready_resume (thread_id wq : Z) (tmw : bool) (s : kernel) : kernel :=
  s |> wq_bit_store THINKOS_WQ_READY thread_id true.

Definition irq_resume (thread_id wq : Z) (tmw : bool) (s : kernel) : kernel :=
  let s := match irq_of thread_id s with Some irq => s |> cm3_irq_enable irq | None => s end in
  s |> wq_bit_store wq thread_id true
    |> wq_bit_store THINKOS_WQ_CLOCK thread_id tmw.

Definition tmshare_resume (thread_id wq : Z) (tmw : bool) (s : kernel) : kernel :=
  s |> wq_bit_store wq thread_id true.

Definition clock_resume (thread_id wq : Z) (tmw : bool) (s : kernel) : kernel :=
  s |> wq_bit_store THINKOS_WQ_CLOCK thread_id true.

(** The wait is over: ready, with result 0. *)
Definition resume_done (thread_id : Z) (s : kernel) : kernel :=
  s |> wq_bit_store THINKOS_WQ_READY thread_id true
    |> ctx_r0_store thread_id 0
    |> th_stat_store thread_id 0.

(** Back to the queue. *)
Definition resume_wait (thread_id wq : Z) (tmw : bool) (s : kernel) : kernel :=
  s |> wq_bit_store wq thread_id true
    |> wq_bit_store THINKOS_WQ_CLOCK thread_id tmw.

Definition mutex_resume (thread_id wq : Z) (tmw : bool) (s : kernel) : kernel :=
  let mutex := wq - THINKOS_MUTEX_BASE in
  if rd (lock s) mutex =? -1 then
    s |> lock_store mutex thread_id
      |> resume_done thread_id
  else s |> resume_wait thread_id wq tmw.

Definition cond_resume (thread_id wq : Z) (tmw : bool) (s : kernel) : kernel :=
  s |> resume_wait thread_id wq tmw.

Definition semaphore_resume (thread_id wq : Z) (tmw : bool) (s : kernel) : kernel :=
  let sem := wq - THINKOS_SEM_BASE in
  if 0 <? rd (sem_val s) sem then
    s |> sem_val_store sem (rd (sem_val s) sem - 1)
      |> resume_done thread_id
  else s |> resume_wait thread_id wq tmw.

Definition evset_resume (thread_id wq : Z) (tmw : bool) (s : kernel) : kernel :=
  let no := wq - THINKOS_EVENT_BASE in
  let ev := __clz (__rbit (Z.land (ev_pend s no) (ev_mask s no))) in
  if ev <? 32 then
    s |> ev_bit_store (2 * no) ev false
      |> resume_done thread_id
  else s |> resume_wait thread_id wq tmw.

Definition flag_resume (thread_id wq : Z) (tmw : bool) (s : kernel) : kernel :=
  let idx := wq - THINKOS_FLAG_BASE in
  if __bit_mem_rd (flag s) idx then
    s |> set_flag (__bit_mem_wr (flag s) idx false)
      |> resume_done thread_id
  else s |> resume_wait thread_id wq tmw.

Definition __thinkos_gate_resume (thread_id wq : Z) (tmw : bool) (s : kernel) : kernel :=
  let idx := wq - THINKOS_GATE_BASE in
  let open := __bit_mem_rd (gate s) (idx * 2) in
  let lock := __bit_mem_rd (gate s) (idx * 2 + 1) in
  if open && negb lock then
    s |> set_gate (__bit_mem_wr (__bit_mem_wr (gate s) (idx * 2) false) (idx * 2 + 1) true)
      |> resume_done thread_id
  else s |> resume_wait thread_id wq tmw.

Definition join_resume (thread_id wq : Z) (tmw : bool) (s : kernel) : kernel :=
  s |> wq_bit_store wq thread_id true.

Definition canceled_resume (thread_id wq : Z) (tmw : bool) (s : kernel) : kernel :=
  s |> wq_bit_store wq thread_id true.

Definition paused_resume (thread_id wq : Z) (tmw : bool) (s : kernel) : kernel := s.

(** [None] for the kinds without an entry: a null function pointer. *)
Definition thread_resume_lut (type : thinkos_obj_kind) : option (Z -> Z -> bool -> kernel -> kernel) :=
  match type with
  | OBJ_READY => Some ready_resume
  | OBJ_TMSHARE => Some tmshare_resume
  | OBJ_CLOCK => Some clock_resume
  | OBJ_MUTEX => Some mutex_resume
  | OBJ_COND => Some cond_resume
  | OBJ_SEMAPHORE => Some semaphore_resume
  | OBJ_EVENT => Some evset_resume
  | OBJ_FLAG => Some flag_resume
  | OBJ_GATE => Some __thinkos_gate_resume
  | OBJ_JOIN => Some join_resume
  | OBJ_CONREAD => Some __console_rd_resume
  | OBJ_CONWRITE => Some __console_wr_resume
  | OBJ_PAUSED => Some paused_resume
  | OBJ_CANCELED => Some canceled_resume
  | OBJ_IRQ => Some irq_resume
  | _ => None
  end.

Definition __thinkos_thread_pause (thread_id : Z) (s : kernel) : kernel * bool :=
  if __bit_mem_rd (rd (wq_lst s) THINKOS_WQ_PAUSED) thread_id then (s, false)
  else
    let s := s |> wq_bit_store THINKOS_WQ_PAUSED thread_id true in
    let stat := rd (th_stat s) thread_id in
    let s := s |> wq_bit_store (Z.shiftr stat 1) thread_id false
               |> wq_bit_store THINKOS_WQ_TMSHARE thread_id false in
    let s := match irq_of thread_id s with Some irq => s |> cm3_irq_disable irq | None => s end in
    (s |> wq_bit_store THINKOS_WQ_CLOCK thread_id false, true).

(** A call through a null pointer is recorded in [wild]. *)
Definition __thinkos_thread_resume (thread_id : Z) (s : kernel) : kernel * bool :=
  if negb (__bit_mem_rd (rd (wq_lst s) THINKOS_WQ_PAUSED) thread_id) then (s, false)
  else
    let s := s |> wq_bit_store THINKOS_WQ_PAUSED thread_id false in
    let stat := rd (th_stat s) thread_id in
    let wq := Z.shiftr stat 1 in
    let tmw := Z.odd stat in
    match thread_resume_lut (obj_type wq) with
    | Some resume => (resume thread_id wq tmw s, true)
    | None => (set_wild true s, true)
    end.

Definition thinkos_resume_svc (arg : Z) (s : kernel) : kernel :=
  let thread_id := u32 (arg_0 arg s - 1) in
  if THINKOS_THREADS_MAX <=? thread_id then s |> arg_ret arg THINKOS_EINVAL
  else if negb (__bit_mem_rd (th_alloc s) thread_id) then s |> arg_ret arg THINKOS_EINVAL
  else if rd (ctx s) thread_id =? 0 then s |> arg_ret arg THINKOS_EINVAL
  else
    let '(s, r) := s |> arg_ret arg 0 |> __thinkos_thread_resume thread_id in
    if r then s |> __thinkos_defer_sched else s.

Definition thinkos_pause_svc (arg self : Z) (s : kernel) : kernel :=
  let thread := arg_0 arg s in
  let thread_id := if thread =? 0 then self else u32 (thread - 1) in
  if THINKOS_THREADS_MAX <=? thread_id then s |> arg_ret arg THINKOS_EINVAL
  else if negb (__bit_mem_rd (th_alloc s) thread_id) then s |> arg_ret arg THINKOS_EINVAL
  else if rd (ctx s) thread_id =? 0 then s |> arg_ret arg THINKOS_EINVAL
  else
    let '(s, r) := s |> arg_ret arg 0 |> __thinkos_thread_pause thread_id in
    if r then s |> __thinkos_defer_sched else s.

(** [for (th = 0; th < THINKOS_THREADS_MAX; ++th) if (ctx[th] != NULL) f(th)] *)
Definition for_threads (f : Z -> kernel -> kernel) (s : kernel) : kernel :=
  fold_left (fun s th => if rd (ctx s) th =? 0 then s else f th s) (seqZ 0 THINKOS_THREADS_MAX) s.

Definition __thinkos_pause_all (s : kernel) : kernel :=
  s |> for_threads (fun th s => (__thinkos_thread_pause th s).1)
    |> __thinkos_defer_sched.

Definition __thinkos_resume_all (s : kernel) : kernel :=
  s |> for_threads (fun th s => (__thinkos_thread_resume th s).1)
    |> __thinkos_defer_sched.

(** misc/thread_ispaused.c, misc/suspended.c *)
Definition __thinkos_thread_ispaused (th : Z) (s : kernel) : bool :=
  if THINKOS_THREADS_MAX <=? th then false
  else if rd (ctx s) th =? 0 then false
  else __bit_mem_rd (rd (wq_lst s) THINKOS_WQ_PAUSED) th.

Definition __thinkos_suspended (s : kernel) : bool :=
  forallb (fun th => (rd (ctx s) th =? 0) ||
      (__bit_mem_rd (rd (wq_lst s) THINKOS_WQ_CANCELED) th ||
       __bit_mem_rd (rd (wq_lst s) THINKOS_WQ_PAUSED) th))
    (seqZ 0 THINKOS_THREADS_MAX).

(** ** Queue consistency *)

(** Splits every comparison of queue numbers. *)
Ltac eqb_cases :=
  repeat match goal with |- context [?a =? ?b] => destruct (Z.eqb_spec a b); subst; try lia end;
  try reflexivity.

Lemma irq_scan_spec n : forall irq th irqs,
  match irq_scan n irq th irqs with
  | Some i => irq <= i < irq + Z.of_nat n /\ rd irqs i = th
  | None => forall i, irq <= i < irq + Z.of_nat n -> rd irqs i <> th
  end.
Proof.
  induction n as [|n IH]; intros irq th irqs; cbn [irq_scan]; [lia|].
  destruct (Z.eqb_spec (rd irqs irq) th) as [E|E]; [split; [lia|done]|].
  specialize (IH (irq + 1) th irqs). destruct (irq_scan n (irq + 1) th irqs) as [i|].
  - split; [lia|apply IH].
  - intros i Hi. destruct (Z.eq_dec i irq) as [->|]; [done|]. apply IH. lia.
Qed.

(** Disabling the interrupt assigned to a thread, if any. *)
Definition irq_off (th : Z) (s : kernel) : kernel :=
  match irq_of th s with Some irq => cm3_irq_disable irq s | None => s end.

Lemma irq_off_step th s : thread_step th s (irq_off th s).
Proof.
  unfold irq_off. destruct (irq_of th s); [|apply thread_step_refl].
  split; unfold cm3_irq_disable; kred; auto; [set_solver|].
  intros th' _ _ _. split; [by apply same_thread_ext|done].
Qed.

Lemma irq_off_none th s i :
  kernel_ok s -> 0 <= th < THINKOS_THREADS_MAX -> 0 <= i < THINKOS_IRQ_MAX ->
  rd (irq_th s) i = th -> i ∉ irq_en (irq_off th s).
Proof.
  intros K Hth Hi Hr. unfold irq_off, irq_of.
  pose proof (irq_scan_spec (Z.to_nat 80) 0 th (irq_th s)) as Hs.
  destruct (irq_scan _ 0 th (irq_th s)) as [j|]; [|by apply Hs in Hr].
  destruct Hs as [Hj Ej]. assert (i = j) as <-.
  { apply (k_irq_inj s K); [done|lia|congruence|lia]. }
  unfold cm3_irq_disable. kred. set_solver.
Qed.

(** Pausing in terms of [irq_off]. *)
Lemma pause_eq th s :
  mem s th THINKOS_WQ_PAUSED = false ->
  __thinkos_thread_pause th s =
  (wq_bit_store THINKOS_WQ_CLOCK th false (irq_off th
     (wq_bit_store THINKOS_WQ_TMSHARE th false
       (wq_bit_store (Z.shiftr (rd (th_stat s) th) 1) th false
         (wq_bit_store THINKOS_WQ_PAUSED th true s)))), true).
Proof.
  intros Hm. unfold __thinkos_thread_pause, __bit_mem_rd. unfold mem, inq in Hm. rewrite Hm. done.
Qed.

(** Where the status word points. *)
Lemma stat_queue st : stat_ok st -> 0 <= Z.shiftr st 1 < THINKOS_WQ_PAUSED \/ Z.shiftr st 1 = THINKOS_WQ_CANCELED.
Proof.
  intros [| |wq tm Hw _|]; [left; done|left; done| |right; done].
  rewrite shiftr_stat. unfold sync_wq in Hw. left. lia.
Qed.

Lemma thread_stat_ok m st al iw : thread_ok m st al iw -> stat_ok st.
Proof. intros [| | |w tm Hw Ht _| | | |]; try done; constructor; done. Qed.

Section pause.
Context (s : kernel) (K : kernel_ok s) (th : Z) (Hth : 0 <= th < THINKOS_THREADS_MAX).
Context (Hp : mem s th THINKOS_WQ_PAUSED = false).

Lemma mem_pause wq :
  let w := Z.shiftr (rd (th_stat s) th) 1 in
  mem (__thinkos_thread_pause th s).1 th wq =
    if (2 =? wq) || (1 =? wq) || (w =? wq) then false
    else if 57 =? wq then true else mem s th wq.
Proof using K Hth Hp.
  intros w. pose proof (stat_queue _ (thread_stat_ok _ _ _ _ (k_threads s K th Hth))) as Hw. fold w in Hw.
  rewrite pause_eq by done. cbn [fst]. fold w.
  set (s1 := wq_bit_store 57 th true s).
  assert (L1 : len (wq_lst s1) = 59) by (unfold s1; len_wq).
  set (s2 := wq_bit_store 1 th false (wq_bit_store w th false s1)).
  assert (L2 : len (wq_lst s2) = 59) by (unfold s2; len_wq).
  assert (E : wq_lst (irq_off th s2) = wq_lst s2) by (unfold irq_off; by destruct (irq_of th s2)).
  rewrite mem_bit_store by (rewrite ?E; done || lia). unfold mem. rewrite E. fold (mem s2 th wq).
  unfold s2. rewrite !mem_bit_store by (len_wq || lia). unfold s1. rewrite mem_bit_store by (len_wq || lia).
  rewrite !Z.eqb_refl, !andb_true_r. by destruct (2 =? wq), (1 =? wq), (w =? wq).
Qed.

Lemma pause_step : thread_step th s (__thinkos_thread_pause th s).1.
Proof using K Hth Hp.
  rewrite pause_eq by done. cbn [fst].
  pose proof (stat_queue _ (thread_stat_ok _ _ _ _ (k_threads s K th Hth))) as Hw.
  eapply thread_step_trans; [|apply thread_step_bit; lia].
  eapply thread_step_trans; [|apply irq_off_step]. ts.
Qed.

Lemma pause_fields :
  th_stat (__thinkos_thread_pause th s).1 = th_stat s /\
  th_alloc (__thinkos_thread_pause th s).1 = th_alloc s.
Proof using Hp. rewrite pause_eq by done. cbn [fst]. unfold irq_off. by destruct (irq_of th _). Qed.

Lemma pause_irq i :
  0 <= i < THINKOS_IRQ_MAX -> rd (irq_th s) i = th -> i ∉ irq_en (__thinkos_thread_pause th s).1.
Proof using K Hth Hp.
  intros Hi Hr. rewrite pause_eq by done. cbn [fst].
  set (s2 := wq_bit_store 1 th false _).
  assert (E : irq_en (wq_bit_store 2 th false (irq_off th s2)) = irq_en (irq_off th s)).
  { unfold irq_off. assert (irq_of th s2 = irq_of th s) as -> by done. by destruct (irq_of th s). }
  rewrite E. by apply irq_off_none.
Qed.

(** The paused thread is in the paused queue and in no other, except a
    canceled one that was joined and is about to end. *)
Lemma paused_only :
  rd (th_stat s) th <> STAT_CANCELED ->
  forall wq, mem (__thinkos_thread_pause th s).1 th wq = (wq =? THINKOS_WQ_PAUSED).
Proof using K Hth Hp.
  intros Hn wq. rewrite mem_pause. cbv zeta.
  pose proof (k_threads s K th Hth) as T. unfold thread_in in T. revert T Hn Hp.
  generalize (rd (th_stat s) th) (Z.testbit (th_alloc s) th) (irq_waiting (irq_th s) th).
  intros st al iw T Hn Hp. rewrite (Z.eqb_sym 2), (Z.eqb_sym 1), (Z.eqb_sym 57).
  destruct T as [H|H|H|w tm Hw Htm H|st' iw' Hst' Hiw H|H|H He|H]; rewrite ?shiftr_stat; try done.
  - change (Z.shiftr 0 1) with 0. rewrite H. eqb_cases.
  - change (Z.shiftr 0 1) with 0. rewrite H. eqb_cases.
  - change (Z.shiftr 5 1) with 2. rewrite H. eqb_cases.
  - unfold sync_wq in Hw. rewrite H. destruct tm; eqb_cases.
  - rewrite H in Hp. done.
  - change (Z.shiftr 0 1) with 0. rewrite H. eqb_cases.
  - change (Z.shiftr 0 1) with 0. destruct (mem s th wq) eqn:E; [pose proof (H _ E); subst; congruence|]. eqb_cases.
Qed.

Lemma pause_thread_ok : kernel_ok (__thinkos_thread_pause th s).1.
Proof using K Hth Hp.
  apply (kernel_ok_step th s _ K Hth pause_step); [|intros i Hi Hen Hr; by apply pause_irq in Hr].
  destruct pause_fields as [Es Ea]. unfold thread_in.
  rewrite Es, Ea, (ts_irq _ _ _ pause_step). pose proof (k_threads s K th Hth) as T. unfold thread_in in T.
  pose proof paused_only as Ho. pose proof mem_pause as Hm. cbv zeta in Hm.
  destruct (Z.eq_dec (rd (th_stat s) th) 116) as [E|E].
  - rewrite E in *. change (Z.shiftr 116 1) with 58 in Hm.
    inversion T as [| | |w tm Hw Htm H| st iw Hst Hiw H| |H He|]; subst; try done.
    + unfold sync_wq in Hw. destruct tm; simpl in *; lia.
    + rewrite H in Hp. done.
    + apply T_canceled; [|exists 57; by rewrite Hm].
      intros wq. rewrite Hm. destruct (Z.eqb_spec 57 wq); [auto|].
      destruct (_ || _); [done|]. auto.
  - specialize (Ho E). revert T. generalize (Z.testbit (th_alloc s) th) (irq_waiting (irq_th s) th).
    intros al iw T. pose proof (thread_stat_ok _ _ _ _ T) as Hst.
    destruct al; [|inversion T; subst; apply T_free; intros wq; rewrite Ho; lia].
    apply T_paused; [done| |done]. intros ->. by apply (ok_irq _ _ _ _ T).
Qed.
End pause.

(** ** Resuming *)

(** The kind of each queue a thread can wait in, with its range. *)
Definition kind_range (w : Z) : bool :=
  match obj_type w with
  | OBJ_MUTEX => (3 <=? w) && (w <? 11)
  | OBJ_COND => (11 <=? w) && (w <? 19)
  | OBJ_SEMAPHORE => (19 <=? w) && (w <? 27)
  | OBJ_EVENT => (27 <=? w) && (w <? 31)
  | OBJ_FLAG => (31 <=? w) && (w <? 39)
  | OBJ_GATE => (39 <=? w) && (w <? 47)
  | OBJ_JOIN => (47 <=? w) && (w <? 55)
  | OBJ_CONWRITE => w =? 55
  | OBJ_CONREAD => w =? 56
  | _ => false
  end.

Lemma sync_kind w : sync_wq w -> kind_range w = true.
Proof.
  intros Hw. unfold sync_wq in Hw.
  assert (H : forallb kind_range (seqZ 3 54) = true) by (vm_compute; reflexivity).
  exact (forallb_seqZ _ 3 54 w H ltac:(lia)).
Qed.

(** The object of queue [w] would satisfy the wait at once. *)
Definition available (s : kernel) (w : Z) : bool :=
  match obj_type w with
  | OBJ_MUTEX => rd (lock s) (w - THINKOS_MUTEX_BASE) =? -1
  | OBJ_SEMAPHORE => 0 <? rd (sem_val s) (w - THINKOS_SEM_BASE)
  | OBJ_EVENT =>
      let no := w - THINKOS_EVENT_BASE in
      __clz (__rbit (Z.land (ev_pend s no) (ev_mask s no))) <? 32
  | OBJ_FLAG => Z.testbit (flag s) (w - THINKOS_FLAG_BASE)
  | OBJ_GATE =>
      Z.testbit (gate s) ((w - THINKOS_GATE_BASE) * 2) &&
      negb (Z.testbit (gate s) ((w - THINKOS_GATE_BASE) * 2 + 1))
  | OBJ_CONREAD | OBJ_CONWRITE => true
  | _ => false
  end.

(** What [__thinkos_thread_resume] makes of a paused thread. *)
Inductive resumed (s s' : kernel) (th : Z) : Prop :=
  | res_ready :
      rd (th_stat s) th = 0 \/ (exists w tm, sync_wq w /\ rd (th_stat s) th = 2 * w + Z.b2z tm /\
        available s w = true /\ (live (rd (ctx s) th) s -> arg_0 (rd (ctx s) th) s' = 0)) ->
      (forall wq, mem s' th wq = (wq =? THINKOS_WQ_READY)) -> rd (th_stat s') th = 0 -> resumed s s' th
  | res_sleep :
      rd (th_stat s) th = STAT_CLOCK -> (forall wq, mem s' th wq = (wq =? THINKOS_WQ_CLOCK)) ->
      th_stat s' = th_stat s -> resumed s s' th
  | res_wait w tm :
      sync_wq w -> timed_ok w tm -> rd (th_stat s) th = 2 * w + Z.b2z tm -> available s w = false ->
      (forall wq, mem s' th wq = (wq =? w) || tm && (wq =? THINKOS_WQ_CLOCK)) ->
      th_stat s' = th_stat s -> resumed s s' th.

Section resume.
Context (s : kernel) (K : kernel_ok s) (th : Z) (Hth : 0 <= th < THINKOS_THREADS_MAX).
Context (Hp : forall wq, mem s th wq = (wq =? THINKOS_WQ_PAUSED)).

Abbreviation s1 := (wq_bit_store THINKOS_WQ_PAUSED th false s).

Lemma resume_len : len (wq_lst s1) = THINKOS_WQ_LST_END.
Proof using K. len_wq. Qed.

(** Ready with result 0, after stores outside the queues. *)
Lemma resume_done_facts s2 :
  wq_lst s2 = wq_lst s1 -> th_stat s2 = th_stat s -> frames s2 = frames s -> ctx s2 = ctx s ->
  (forall wq, mem (resume_done th s2) th wq = (wq =? THINKOS_WQ_READY)) /\
  rd (th_stat (resume_done th s2)) th = 0 /\
  (live (rd (ctx s) th) s -> arg_0 (rd (ctx s) th) (resume_done th s2) = 0).
Proof using K Hth Hp.
  intros Ew Es Ef Ec. pose proof resume_len as L1. split_and!.
  - intros wq. unfold resume_done, mem. kred. rewrite Ew.
    rewrite inq_bit_wr by (rewrite ?L1; lia). fold (mem s1 th wq).
    rewrite mem_bit_store, Hp, !Z.eqb_refl, !andb_true_r by (apply K || lia). eqb_cases.
  - unfold resume_done. kred. rewrite Es, rd_wr_eq; [done|]. by apply len_stat.
  - intros Hl. apply (arg_0_stored _ 0 s Hl). unfold resume_done. kred. by rewrite Ef, Ec.
Qed.

(** Back in the queue. *)
Lemma resume_wait_mem w tm :
  sync_wq w -> forall wq, mem (resume_wait th w tm s1) th wq = (wq =? w) || tm && (wq =? THINKOS_WQ_CLOCK).
Proof using K Hth Hp.
  unfold sync_wq. intros Hw wq. pose proof resume_len as L1. unfold resume_wait.
  rewrite !mem_bit_store by (len_wq || lia). rewrite Hp, !Z.eqb_refl, !andb_true_r.
  destruct tm; eqb_cases.
Qed.

Lemma resume_eq :
  __thinkos_thread_resume th s =
  match thread_resume_lut (obj_type (Z.shiftr (rd (th_stat s) th) 1)) with
  | Some resume => (resume th (Z.shiftr (rd (th_stat s) th) 1) (Z.odd (rd (th_stat s) th)) s1, true)
  | None => (set_wild true s1, true)
  end.
Proof using Hp.
  unfold __thinkos_thread_resume, __bit_mem_rd. pose proof (Hp 57) as H. unfold mem, inq in H.
  rewrite H. done.
Qed.

(** A thread waiting in queue [w]. *)
Lemma resume_sync w tm :
  sync_wq w -> timed_ok w tm -> rd (th_stat s) th = 2 * w + Z.b2z tm ->
  resumed s (__thinkos_thread_resume th s).1 th.
Proof using K Hth Hp.
  intros Hw Htm Hst. pose proof (sync_kind w Hw) as Hk. rewrite resume_eq, Hst, shiftr_stat.
  assert (Ho : Z.odd (2 * w + Z.b2z tm) = tm).
  { rewrite Z.odd_add, Z.odd_mul. by destruct tm. }
  rewrite Ho. pose proof (resume_wait_mem w tm Hw) as Hmw. unfold sync_wq in Hw.
  pose proof resume_done_facts as Hd. pose proof resume_len as L1.
  assert (Hwait : available s w = false -> resumed s (resume_wait th w tm s1) th)
    by (intros Ha; by apply (res_wait _ _ _ w tm)).
  assert (Hdone : forall s2, available s w = true -> wq_lst s2 = wq_lst s1 -> th_stat s2 = th_stat s ->
    frames s2 = frames s -> ctx s2 = ctx s -> resumed s (resume_done th s2) th).
  { intros s2 Ha E1 E2 E3 E4. destruct (Hd s2 E1 E2 E3 E4) as (A & B & C).
    apply res_ready; [right; by exists w, tm|done|done]. }
  assert (Hcon : w = 55 \/ w = 56 -> forall s2, available s w = true -> wq_lst s2 = wq_lst s1 ->
    th_stat s2 = th_stat s -> frames s2 = frames s -> ctx s2 = ctx s ->
    resumed s (__thinkos_wakeup_return w th 0 s2) th).
  { intros Hw' s2 Ha E1 E2 E3 E4. apply res_ready.
    - right. exists w, tm. split_and!; try done. intros Hl. apply (arg_0_stored _ 0 s Hl). kred. by rewrite E3, E4.
    - intros wq. unfold mem. kred. rewrite E1.
      rewrite !inq_bit_wr by (rewrite ?len_wq_bit_wr, ?L1; lia). fold (mem s1 th wq).
      rewrite mem_bit_store, Hp, !Z.eqb_refl, !andb_true_r by (apply K || lia). eqb_cases.
    - kred. rewrite E2, rd_wr_eq; [done|]. by apply len_stat. }
  unfold kind_range in Hk. unfold available in Hwait, Hdone, Hcon.
  destruct (obj_type w) eqn:Ek; try done; cbn [thread_resume_lut fst].
  - unfold mutex_resume. change (lock s1) with (lock s). destruct (_ =? -1); [by apply Hdone|by apply Hwait].
  - by apply Hwait.
  - unfold semaphore_resume. change (sem_val s1) with (sem_val s). destruct (0 <? _); [by apply Hdone|by apply Hwait].
  - unfold evset_resume. change (ev_pend s1) with (ev_pend s). change (ev_mask s1) with (ev_mask s).
    cbv zeta in *. destruct (_ <? 32); [by apply Hdone|by apply Hwait].
  - unfold flag_resume, __bit_mem_rd. change (flag s1) with (flag s).
    destruct (Z.testbit _ _); [by apply Hdone|by apply Hwait].
  - unfold __thinkos_gate_resume, __bit_mem_rd. change (gate s1) with (gate s).
    match goal with |- resumed _ (if ?b then _ else _) _ => destruct b end; [by apply Hdone|by apply Hwait].
  - unfold join_resume. assert (tm = false) as ->. { destruct tm; [|done]. unfold timed_ok in Htm. lia. }
    apply (res_wait _ _ _ w false); try done; [unfold available; by rewrite Ek|].
    intros wq. rewrite mem_bit_store by (len_wq || lia).
    rewrite mem_bit_store, Hp, !Z.eqb_refl, !andb_true_r by (apply K || lia). eqb_cases.
  - apply Hcon; [lia|done..].
  - unfold __console_wr_resume. destruct (tx_pipe_isfull s1); (apply Hcon; [lia|done..]).
Qed.
End resume.

Lemma resume_lut_step th w tm s r :
  0 <= th < THINKOS_THREADS_MAX -> 0 <= w < THINKOS_WQ_LST_END -> obj_type w <> OBJ_IRQ ->
  thread_resume_lut (obj_type w) = Some r -> thread_step th s (r th w tm s).
Proof.
  intros Hth Hw Hirq Hr. destruct (obj_type w); try done; injection Hr as <-;
    unfold ready_resume, tmshare_resume, clock_resume, mutex_resume, cond_resume, semaphore_resume,
      evset_resume, flag_resume, __thinkos_gate_resume, join_resume, canceled_resume, paused_resume,
      __console_rd_resume, __console_wr_resume, dbgmon_signal, ev_bit_store; cbv zeta;
    try match goal with |- thread_step _ _ (if ?b then _ else _) => destruct b end;
    try match goal with |- context [if ?b then _ else _] => destruct b end;
    unfold resume_done, resume_wait, __thinkos_wakeup_return; ts.
Qed.

(** The queues of threads and of objects are never of the interrupt kind. *)
Lemma obj_type_not_irq w : 0 <= w < THINKOS_WQ_LST_END -> obj_type w <> OBJ_IRQ /\
  exists r, thread_resume_lut (obj_type w) = Some r.
Proof.
  intros Hw.
  assert (H : forallb (fun w => negb (bool_decide (obj_type w = OBJ_IRQ)) &&
    match thread_resume_lut (obj_type w) with Some _ => true | None => false end) (seqZ 0 59) = true)
    by (vm_compute; reflexivity).
  pose proof (forallb_seqZ _ 0 59 w H ltac:(lia)) as E. cbv beta in E.
  apply andb_true_iff in E as [E1 E2]. apply negb_true_iff, bool_decide_eq_false in E1.
  split; [done|]. destruct (thread_resume_lut (obj_type w)) as [r|]; [by exists r|done].
Qed.

Lemma resume_step s th :
  kernel_ok s -> 0 <= th < THINKOS_THREADS_MAX -> thread_step th s (__thinkos_thread_resume th s).1.
Proof.
  intros K Hth. unfold __thinkos_thread_resume. destruct (negb _); [apply thread_step_refl|].
  pose proof (stat_queue _ (thread_stat_ok _ _ _ _ (k_threads s K th Hth))) as Hw. cbv zeta.
  change (th_stat (wq_bit_store 57 th false s)) with (th_stat s).
  destruct (obj_type_not_irq (Z.shiftr (rd (th_stat s) th) 1)) as [Hn [r Hr]]; [lia|].
  rewrite Hr. cbn [fst]. apply (thread_step_trans th s (wq_bit_store 57 th false s)); [apply thread_step_bit; lia|].
  apply resume_lut_step; try done. lia.
Qed.

Lemma resume_alloc s th : th_alloc (__thinkos_thread_resume th s).1 = th_alloc s.
Proof.
  unfold __thinkos_thread_resume. destruct (negb _); [done|]. cbv zeta.
  set (w := Z.shiftr _ 1). set (tm := Z.odd _). destruct (obj_type w); cbn [thread_resume_lut fst]; try done;
    unfold mutex_resume, semaphore_resume, evset_resume, flag_resume, __thinkos_gate_resume, irq_resume,
      __console_wr_resume; cbv zeta; try destruct (irq_of th _);
    try match goal with |- context [if ?b then _ else _] => destruct b end; done.
Qed.

(** A paused thread that is not canceled, with no interrupt assigned. *)
Lemma paused_facts s th :
  kernel_ok s -> 0 <= th < THINKOS_THREADS_MAX -> mem s th THINKOS_WQ_PAUSED = true ->
  rd (th_stat s) th <> STAT_CANCELED -> forall wq, mem s th wq = (wq =? THINKOS_WQ_PAUSED).
Proof.
  intros K Hth Hp Hn. pose proof (k_threads s K th Hth) as T. unfold thread_in in T.
  inversion T as [H|H|H|w tm Hw Htm H|st iw Hst Hiw H|H|H He|H]; subst; try congruence;
    try (rewrite H in Hp; done); try done.
  - rewrite H in Hp. unfold sync_wq in Hw. destruct (Z.eqb_spec 57 w); [lia|]. by destruct tm.
  - intros wq. destruct (mem s th wq) eqn:E; [apply H in E as ->; done|].
    destruct (Z.eqb_spec wq 57); congruence.
Qed.

Lemma resume_spec s th :
  kernel_ok s -> 0 <= th < THINKOS_THREADS_MAX -> mem s th THINKOS_WQ_PAUSED = true ->
  rd (th_stat s) th <> STAT_CANCELED -> resumed s (__thinkos_thread_resume th s).1 th.
Proof.
  intros K Hth Hp Hn. pose proof (paused_facts s th K Hth Hp Hn) as Hm.
  pose proof (thread_stat_ok _ _ _ _ (k_threads s K th Hth)) as Hs. pose proof (resume_eq s th Hm) as Er.
  pose proof (k_wq s K) as Hl.
  inversion Hs as [E|E|w tm Hw Htm E|E]; [| |by eapply resume_sync|congruence].
  - rewrite Er, <- E. change (obj_type (Z.shiftr 0 1)) with OBJ_READY. cbn [thread_resume_lut fst].
    unfold ready_resume. apply res_ready; [by left| |by kred]. intros wq. rewrite !mem_bit_store by (len_wq || lia).
    rewrite Hm, !Z.eqb_refl, !andb_true_r. eqb_cases.
  - rewrite Er, <- E. change (obj_type (Z.shiftr 5 1)) with OBJ_CLOCK. cbn [thread_resume_lut fst].
    unfold clock_resume. apply res_sleep; [done| |by kred]. intros wq. rewrite !mem_bit_store by (len_wq || lia).
    rewrite Hm, !Z.eqb_refl, !andb_true_r. eqb_cases.
Qed.

Lemma resumed_ok s s' th :
  thread_ok (mem s th) (rd (th_stat s) th) true false -> resumed s s' th ->
  thread_ok (mem s' th) (rd (th_stat s') th) true false.
Proof.
  intros T [_ H ->|E H Es|w tm Hw Htm E _ H Es].
  - by apply T_ready.
  - rewrite Es, E. by apply T_sleep.
  - rewrite Es, E. by apply T_wait.
Qed.

(** A canceled thread goes back to the canceled queue. *)
Lemma resume_canceled s th :
  kernel_ok s -> 0 <= th < THINKOS_THREADS_MAX -> mem s th THINKOS_WQ_PAUSED = true ->
  rd (th_stat s) th = STAT_CANCELED ->
  th_stat (__thinkos_thread_resume th s).1 = th_stat s /\
  forall wq, mem (__thinkos_thread_resume th s).1 th wq =
    if wq =? THINKOS_WQ_CANCELED then true else if wq =? THINKOS_WQ_PAUSED then false else mem s th wq.
Proof.
  intros K Hth Hp E. pose proof (k_wq s K). unfold __thinkos_thread_resume, __bit_mem_rd.
  unfold mem, inq in Hp. rewrite Hp. cbv zeta. change (negb true) with false. cbv iota.
  change (th_stat (wq_bit_store 57 th false s)) with (th_stat s).
  rewrite E. change (obj_type (Z.shiftr 116 1)) with OBJ_CANCELED. cbn [thread_resume_lut fst].
  split; [done|]. intros wq.
  change (Z.shiftr 116 1) with 58. unfold canceled_resume.
  rewrite !mem_bit_store by (len_wq || lia). rewrite !Z.eqb_refl, !andb_true_r, (Z.eqb_sym 58), (Z.eqb_sym 57).
  done.
Qed.

Lemma resume_thread_ok s th :
  kernel_ok s -> 0 <= th < THINKOS_THREADS_MAX -> Z.testbit (th_alloc s) th = true ->
  irq_waiting (irq_th s) th = false -> kernel_ok (__thinkos_thread_resume th s).1.
Proof.
  intros K Hth Ha Hiw. destruct (mem s th 57) eqn:Hp.
  2:{ unfold __thinkos_thread_resume, __bit_mem_rd. unfold mem, inq in Hp. by rewrite Hp. }
  apply (kernel_ok_step' th s); [done|done|by apply resume_step|done|]. rewrite resume_alloc, Ha.
  pose proof (k_threads s K th Hth) as T. unfold thread_in in T. rewrite Ha, Hiw in T.
  destruct (Z.eq_dec (rd (th_stat s) th) 116) as [E|E].
  - destruct (resume_canceled s th K Hth Hp E) as [Es Hm]. rewrite Es, E in *.
    apply T_canceled; [|exists 58; by rewrite Hm]. intros wq. rewrite Hm.
    destruct (Z.eqb_spec wq 58); [auto|]. destruct (Z.eqb_spec wq 57); [done|]. intros Hwq.
    inversion T as [|  | |w tm Hw Htm H|st iw Hst Hiw' H| |H He|]; subst; try done.
    + unfold sync_wq in Hw. destruct tm; simpl in *; lia.
    + rewrite H in Hwq. lia.
    + auto.
  - eapply resumed_ok; [exact T|]. by apply resume_spec.
Qed.

(** ** Other threads *)

(** [s'] differs from [s] in the queue bits of thread [th] only. *)
Definition others (th : Z) (s s' : kernel) : Prop :=
  len (wq_lst s) = THINKOS_WQ_LST_END ->
  len (wq_lst s') = THINKOS_WQ_LST_END /\ forall th' wq, th' <> th -> mem s' th' wq = mem s th' wq.

#[global] Instance others_refl th : Reflexive (others th).
Proof. intros s Hl. by split. Qed.

#[global] Instance others_trans th : Transitive (others th).
Proof.
  intros s1 s2 s3 H1 H2 Hl. destruct (H1 Hl) as [L1 M1]. destruct (H2 L1) as [L2 M2].
  split; [done|]. intros th' wq Hne. by rewrite M2, M1.
Qed.

Lemma others_bit th w v s : 0 <= w < THINKOS_WQ_LST_END -> 0 <= th -> others th s (wq_bit_store w th v s).
Proof.
  intros Hw Hth Hl. split; [len_wq|]. intros th' wq Hne. rewrite mem_bit_store by (done || lia).
  destruct (Z.eqb_spec th th'); [congruence|]. by rewrite andb_false_r.
Qed.

Lemma others_frame th s s' : wq_lst s' = wq_lst s -> others th s s'.
Proof. intros E Hl. unfold mem. by rewrite E. Qed.

Ltac oth :=
  lazymatch goal with
  | |- others ?th ?s ?s => reflexivity
  | |- others ?th ?s (wq_bit_store _ _ _ ?x) => transitivity x; [oth|apply others_bit; lia]
  | |- others ?th ?s (?f ?x) => transitivity x; [oth|apply others_frame; kred; reflexivity]
  end.

Lemma pause_others s th :
  kernel_ok s -> 0 <= th < THINKOS_THREADS_MAX -> others th s (__thinkos_thread_pause th s).1.
Proof.
  intros K Hth. destruct (mem s th 57) eqn:Hp.
  - unfold __thinkos_thread_pause, __bit_mem_rd. unfold mem, inq in Hp. rewrite Hp. reflexivity.
  - pose proof (stat_queue _ (thread_stat_ok _ _ _ _ (k_threads s K th Hth))) as Hw.
    rewrite pause_eq by done. cbn [fst]. set (s2 := wq_bit_store 1 th false _).
    transitivity s2; [unfold s2; oth|]. transitivity (irq_off th s2); [|apply others_bit; lia].
    apply others_frame. unfold irq_off. by destruct (irq_of th s2).
Qed.

Lemma resume_others s th :
  kernel_ok s -> 0 <= th < THINKOS_THREADS_MAX -> others th s (__thinkos_thread_resume th s).1.
Proof.
  intros K Hth. unfold __thinkos_thread_resume. destruct (negb _); [reflexivity|].
  pose proof (stat_queue _ (thread_stat_ok _ _ _ _ (k_threads s K th Hth))) as Hw. cbv zeta.
  change (th_stat (wq_bit_store 57 th false s)) with (th_stat s).
  destruct (obj_type_not_irq (Z.shiftr (rd (th_stat s) th) 1)) as [Hn _]; [lia|].
  set (w := Z.shiftr _ 1) in *. set (tm := Z.odd _). set (s1 := wq_bit_store 57 th false s).
  transitivity s1; [unfold s1; oth|]. clearbody s1 w tm.
  destruct (obj_type w); cbn [thread_resume_lut fst]; try done;
    unfold ready_resume, tmshare_resume, clock_resume, mutex_resume, cond_resume, semaphore_resume,
      evset_resume, flag_resume, __thinkos_gate_resume, join_resume, canceled_resume, paused_resume,
      __console_rd_resume, __console_wr_resume, dbgmon_signal, ev_bit_store; cbv zeta;
    try match goal with |- others _ _ (if ?b then _ else _) => destruct b end;
    try match goal with |- context [if ?b then _ else _] => destruct b end;
    unfold resume_done, resume_wait, __thinkos_wakeup_return; oth.
Qed.

(** A thread whose status points to [w] is there, or paused. *)
Lemma wait_where m w tm :
  thread_ok m (2 * w + Z.b2z tm) true false -> sync_wq w ->
  m w = true \/ m THINKOS_WQ_PAUSED = true.
Proof.
  intros T Hw. unfold sync_wq in Hw. remember (2 * w + Z.b2z tm) as st eqn:E.
  destruct T as [H|H|H|w' tm' Hw' Htm' H|st' iw Hst Hiw' H|H|H He|H]; try (destruct tm; simpl in E; lia).
  - left. assert (w' = w) as -> by (destruct tm, tm'; simpl in E; lia). rewrite H. by rewrite Z.eqb_refl.
  - right. by rewrite H.
Qed.

(** ** Properties *)

(** Pausing a thread takes it out of every queue (a canceled one that was
    joined apart), puts it in the paused queue, keeps its status word, disables
    the interrupt assigned to it, leaves every other thread where it was, and
    keeps the invariant. *)
Theorem pause_isolates s th :
  kernel_ok s -> 0 <= th < THINKOS_THREADS_MAX -> mem s th THINKOS_WQ_PAUSED = false ->
  let s' := (__thinkos_thread_pause th s).1 in
  kernel_ok s' /\ th_stat s' = th_stat s /\
  mem s' th THINKOS_WQ_PAUSED = true /\ mem s' th THINKOS_WQ_CLOCK = false /\
  (rd (th_stat s) th <> STAT_CANCELED -> forall wq, mem s' th wq = (wq =? THINKOS_WQ_PAUSED)) /\
  (forall i, 0 <= i < THINKOS_IRQ_MAX -> rd (irq_th s) i = th -> i ∉ irq_en s') /\
  (forall th' wq, th' <> th -> mem s' th' wq = mem s th' wq).
Proof.
  intros K Hth Hp s'. pose proof (mem_pause s K th Hth Hp) as Hm. cbv zeta in Hm.
  pose proof (stat_queue _ (thread_stat_ok _ _ _ _ (k_threads s K th Hth))) as Hw.
  split; [by apply pause_thread_ok|]. split; [by apply pause_fields|].
  split; [unfold s'; rewrite Hm; destruct (Z.eqb_spec (Z.shiftr (rd (th_stat s) th) 1) 57); [lia|done]|].
  split; [unfold s'; by rewrite Hm|]. split; [by apply paused_only|].
  split; [intros; by apply pause_irq|].
  intros th' wq Hne. by apply (pause_others s th K Hth (k_wq s K)).
Qed.

(** Resuming a paused thread: if it was ready it is ready again; if it
    slept it goes back to the clock queue; if it waited for an object that is
    available now, its wait is completed and it becomes ready with result 0;
    if the object is not available it goes back to the object's queue, and to
    the clock queue when the wait was timed.  No other thread moves. *)
Theorem resume_restores s th :
  kernel_ok s -> 0 <= th < THINKOS_THREADS_MAX -> mem s th THINKOS_WQ_PAUSED = true ->
  rd (th_stat s) th <> STAT_CANCELED -> Z.testbit (th_alloc s) th = true ->
  irq_waiting (irq_th s) th = false ->
  let s' := (__thinkos_thread_resume th s).1 in
  resumed s s' th /\ kernel_ok s' /\ (forall th' wq, th' <> th -> mem s' th' wq = mem s th' wq).
Proof.
  intros K Hth Hp Hn Ha Hiw. split; [by apply resume_spec|]. split; [by apply resume_thread_ok|].
  intros th' wq Hne. by apply (resume_others s th K Hth (k_wq s K)).
Qed.

(** pausing and resuming is the identity on the queues for a thread that
    is ready, sleeping, or waiting for an object that is not available. *)
Theorem pause_resume_roundtrip s th :
  kernel_ok s -> 0 <= th < THINKOS_THREADS_MAX ->
  mem s th THINKOS_WQ_PAUSED = false -> mem s th THINKOS_WQ_TMSHARE = false ->
  rd (th_stat s) th <> STAT_CANCELED -> Z.testbit (th_alloc s) th = true ->
  irq_waiting (irq_th s) th = false ->
  available s (Z.shiftr (rd (th_stat s) th) 1) = false ->
  let s' := (__thinkos_thread_resume th (__thinkos_thread_pause th s).1).1 in
  (forall th' wq, mem s' th' wq = mem s th' wq) /\ rd (th_stat s') th = rd (th_stat s) th.
Proof.
  intros K Hth Hp Ht Hn Ha Hiw Hav. cbv zeta.
  pose proof (pause_thread_ok s K th Hth Hp) as K1. destruct (pause_fields s th Hp) as [Es Eal].
  pose proof (paused_only s K th Hth Hp Hn) as Hm1.
  pose proof (pause_others s th K Hth (k_wq s K)) as [_ Ho1].
  assert (Hav1 : available (__thinkos_thread_pause th s).1 (Z.shiftr (rd (th_stat s) th) 1) = false).
  { rewrite <- Hav. rewrite pause_eq by done. cbn [fst]. unfold irq_off. by destruct (irq_of th _). }
  set (s1 := (__thinkos_thread_pause th s).1) in *. clearbody s1. rewrite <- Es in *.
  pose proof (resume_spec s1 th K1 Hth ltac:(by rewrite Hm1) Hn) as R.
  pose proof (resume_others s1 th K1 Hth (k_wq s1 K1)) as [_ Ho2].
  pose proof (k_threads s K th Hth) as T. unfold thread_in in T. rewrite <- Es, Ha, Hiw in T.
  assert (Hself : (forall wq, mem (__thinkos_thread_resume th s1).1 th wq = mem s th wq) /\
    rd (th_stat (__thinkos_thread_resume th s1).1) th = rd (th_stat s1) th).
  { destruct R as [[E|(w & tm & Hw & E & A & _)] H H0|E H H0|w tm Hw Htm E A H H0].
    - rewrite E in *. split; [|done]. intros wq. rewrite H.
      inversion T as [HT|HT| |w' tm' Hw' Htm' HT|st iw Hst Hiw' HT| | |]; subst; rewrite ?HT; try done.
      + rewrite HT in Ht. done.
      + unfold sync_wq in Hw'. destruct tm'; simpl in *; lia.
      + rewrite HT in Hp. done.
    - rewrite E, shiftr_stat in Hav1. congruence.
    - rewrite H0. split; [|done]. intros wq. rewrite H. rewrite E in T.
      inversion T as [ | |HT|w' tm' Hw' Htm' HT|st iw Hst Hiw' HT| | |]; subst; rewrite ?HT; try done.
      + unfold sync_wq in Hw'. destruct tm'; simpl in *; lia.
      + rewrite HT in Hp. done.
    - rewrite H0. split; [|done]. intros wq. rewrite H. rewrite E in T.
      assert (Hin : mem s th w = true \/ mem s th 57 = true) by exact (wait_where _ w tm T Hw).
      destruct Hin as [Hin|Hin]; [|congruence].
      destruct (ok_in_sync _ _ _ _ w T Hw Hin) as (tm' & Est & _ & _ & Hall). rewrite Hall.
      assert (tm' = tm) as -> by (destruct tm, tm'; simpl in Est; lia || done). done. }
  split; [|apply Hself]. intros th' wq. destruct (Z.eq_dec th' th) as [->|Hne]; [apply Hself|].
  by rewrite Ho2, Ho1.
Qed.

(** ** The system calls *)

Lemma pause_ok s th :
  kernel_ok s -> 0 <= th < THINKOS_THREADS_MAX -> kernel_ok (__thinkos_thread_pause th s).1.
Proof.
  intros K Hth. destruct (mem s th 57) eqn:Hp; [|by apply pause_thread_ok].
  unfold __thinkos_thread_pause, __bit_mem_rd. unfold mem, inq in Hp. by rewrite Hp.
Qed.

Lemma pause_svc_ok s arg self :
  kernel_ok s -> 0 <= self < THINKOS_THREADS_MAX -> kernel_ok (thinkos_pause_svc arg self s).
Proof.
  intros K Hs. unfold thinkos_pause_svc. cbv zeta. set (th := if arg_0 arg s =? 0 then _ else _).
  assert (Ht : 0 <= th).
  { unfold th. destruct (_ =? 0); [lia|]. pose proof (u32_range (arg_0 arg s - 1)). lia. }
  guards. pose proof (pause_ok (arg_ret arg 0 s) th ltac:(kframe) ltac:(lia)) as Kp.
  destruct (__thinkos_thread_pause th (arg_ret arg 0 s)) as [s1 []]; [by kpeel|done].
Qed.

(** A resume of a thread to which no interrupt is assigned. *)
Lemma resume_svc_ok s arg :
  kernel_ok s -> irq_waiting (irq_th s) (u32 (arg_0 arg s - 1)) = false ->
  kernel_ok (thinkos_resume_svc arg s).
Proof.
  intros K Hiw. unfold thinkos_resume_svc. cbv zeta. pose proof (u32_range (arg_0 arg s - 1)) as Hr.
  set (th := u32 _) in *. guards.
  assert (Ha : Z.testbit (th_alloc (arg_ret arg 0 s)) th = true) by (by apply negb_false_iff).
  pose proof (resume_thread_ok (arg_ret arg 0 s) th ltac:(kframe) ltac:(lia) Ha Hiw) as Kp.
  destruct (__thinkos_thread_resume th (arg_ret arg 0 s)) as [s1 []]; [by kpeel|done].
Qed.

(** A loop over the threads keeps what its body keeps. *)
Lemma for_threads_ind (P : kernel -> Prop) f s :
  (forall th s, 0 <= th < THINKOS_THREADS_MAX -> P s -> P (f th s)) -> P s -> P (for_threads f s).
Proof.
  intros Hf. unfold for_threads.
  assert (Hl : Forall (fun th => 0 <= th < 8) (seqZ 0 8)) by (apply Forall_seqZ; lia).
  revert s Hl. generalize (seqZ 0 8) as l. induction l as [|th l IH]; intros s Hl HP; [done|].
  inversion Hl; subst. simpl. apply IH; [done|]. destruct (_ =? 0); [done|]. by apply Hf.
Qed.

Lemma pause_all_ok s : kernel_ok s -> kernel_ok (__thinkos_pause_all s).
Proof.
  intros K. unfold __thinkos_pause_all. kpeel. apply for_threads_ind; [|done].
  intros th s1 Hth K1. by apply pause_ok.
Qed.

(** ** Sample *)

(** Thread 2 waits for semaphore 0 and is paused; a token has come since. *)
Definition pause_demo : kernel :=
  demo |> set_sem_alloc 4294967041 |> demo_wait 2 THINKOS_SEM_BASE.

Lemma pause_isolates_witness :
  let s' := (__thinkos_thread_pause 2 pause_demo).1 in
  kernel_ok s' /\ (forall wq, mem s' 2 wq = (wq =? THINKOS_WQ_PAUSED)).
Proof.
  destruct (pause_isolates pause_demo 2) as (H1 & _ & _ & _ & H5 & _);
    [kernel_ok_compute|lia|vm_compute; reflexivity|].
  split; [exact H1|]. apply H5. vm_compute. congruence.
Defined.

Lemma resume_restores_witness :
  let s := sem_val_store 0 3 (__thinkos_thread_pause 2 pause_demo).1 in
  let s' := (__thinkos_thread_resume 2 s).1 in
  resumed s s' 2 /\ calling s' 2 /\ rd (sem_val s') 0 = 2.
Proof.
  destruct (resume_restores (sem_val_store 0 3 (__thinkos_thread_pause 2 pause_demo).1) 2) as [H1 _];
    [kernel_ok_compute|lia|vm_compute; reflexivity|vm_compute; congruence|vm_compute; reflexivity..|].
  split; [exact H1|]. split; [split|]; vm_compute; reflexivity.
Defined.

Lemma pause_resume_roundtrip_witness :
  kernel_ok pause_demo /\
  ((forall th' wq, mem (__thinkos_thread_resume 2 (__thinkos_thread_pause 2 pause_demo).1).1 th' wq =
      mem pause_demo th' wq) /\
   rd (th_stat (__thinkos_thread_resume 2 (__thinkos_thread_pause 2 pause_demo).1).1) 2 =
     rd (th_stat pause_demo) 2).
Proof.
  split; [kernel_ok_compute|].
  apply (pause_resume_roundtrip pause_demo 2);
    [kernel_ok_compute|lia|vm_compute; reflexivity|vm_compute; reflexivity|vm_compute; congruence|vm_compute; reflexivity..].
Defined.
