(* ===== verification/Sched.v ===== *)
(** * Scheduler, clock and time sharing

    src/sdk/libthinkos/thinkos_core.c (the scheduler, the tick interrupt, the
    time sharing of the processor) and thinkos_sleep.c: the lowest numbered
    ready thread runs; a tick wakes exactly the threads whose time has come; a
    thread that has used its credit waits for the next time share cycle. *)

From stdpp Require Import base tactics numbers list gmap.
From Stdlib Require Import ZArith Lia.
From S2P Require Import Prelude CortexM State Kernel BmpAlloc Invariant Decide Init Demo Transitions.

(** ** Code *)

(** [__sched_entry] pushes r4-r11, so that [psp] designates the whole record;
    [__sched_exit] loads the new one.  Taking the exception clears PENDSVSET. *)
Definition cm3_pendsv_isr (s : kernel) : kernel :=
  let s := s |> set_pendsv false in
  let old_ctx := psp s in
  let old_thread_id := active s in
  let new_thread_id := __clz (__rbit (rd (wq_lst s) THINKOS_WQ_READY)) in
  let s := s |> set_active new_thread_id
             |> ctx_store old_thread_id old_ctx in
  s |> set_psp (rd (ctx s) new_thread_id).

Definition thinkos_time_wakeup (thread_id : Z) (s : kernel) : kernel :=
  let stat := rd (th_stat s) thread_id in
  s |> th_stat_store thread_id 0
    |> wq_bit_store (Z.shiftr stat 1) thread_id false
    |> wq_bit_store THINKOS_WQ_CLOCK thread_id false
    |> wq_bit_store THINKOS_WQ_READY thread_id true
    |> __thinkos_preempt.

Definition thinkos_timeshare (s : kernel) : kernel :=
  let idx := active s in
  let s := s |> sched_val_store idx (sched_val s idx - sched_pri s idx) in
  if sched_val s idx <? 0 then
    let s := s |> sched_val_store idx (sched_val s idx + sched_limit s) in
    if negb (__bit_mem_rd (rd (wq_lst s) THINKOS_WQ_READY) idx) then s
    else s |> wq_bit_store THINKOS_WQ_TMSHARE idx true
           |> __thinkos_suspend idx
           |> __thinkos_preempt
  else s.

(** The loop over a copy of the clock queue: [wq] is the reversed word, 32
    rounds consume it. *)
Fixpoint clock_scan (n : nat) (wq ticks : Z) (s : kernel) : kernel :=
  match n with
  | O => s
  | S n =>
      let j := __clz wq in
      if j <? 32 then
        let wq := Z.ldiff wq (Z.shiftr 2147483648 j) in
        clock_scan n wq ticks
          (if int32 (rd (clock s) j - ticks) <=? 0 then s |> thinkos_time_wakeup j else s)
      else s
  end.

Definition cm3_systick_isr (s : kernel) : kernel :=
  let tick := u32 (ticks s + 1) in
  let s := s |> set_ticks tick in
  s |> clock_scan 32 (__rbit (rd (wq_lst s) THINKOS_WQ_CLOCK)) tick
    |> thinkos_timeshare.

Definition thinkos_sleep_svc (arg self : Z) (s : kernel) : kernel :=
  let ms := arg_0 arg s in
  s |> clock_store self (ticks s + ms)
    |> wq_bit_store THINKOS_WQ_CLOCK self true
    |> th_stat_store self (Z.shiftl THINKOS_WQ_CLOCK 1 + 1)
    |> __thinkos_suspend self
    |> __thinkos_defer_sched.

Definition thinkos_alarm_svc (arg self : Z) (s : kernel) : kernel :=
  let ms := arg_0 arg s in
  s |> clock_store self ms
    |> wq_bit_store THINKOS_WQ_CLOCK self true
    |> th_stat_store self (Z.shiftl THINKOS_WQ_CLOCK 1 + 1)
    |> __thinkos_suspend self
    |> __thinkos_defer_sched.

(** ** The scheduler *)

Lemma pendsv_ok s : kernel_ok s -> kernel_ok (cm3_pendsv_isr s).
Proof. intros K. kframe. Qed.

Lemma ready_head s :
  kernel_ok s ->
  let n := __thinkos_wq_head THINKOS_WQ_READY s in
  0 <= n <= THINKOS_THREAD_IDLE /\ mem s n THINKOS_WQ_READY = true /\
  (forall th, 0 <= th < n -> mem s th THINKOS_WQ_READY = false).
Proof.
  intros K n. pose proof (wq_head_least 0 s 8 ltac:(lia) (k_idle s K)) as Hle. fold n in Hle.
  destruct (wq_head_spec 0 s) as [Hr Hm]; [fold n; lia|]. fold n in Hr, Hm.
  split; [lia|]. split; [exact Hm|]. intros th Hth. destruct (mem s th 0) eqn:E; [|done].
  pose proof (wq_head_least 0 s th ltac:(lia) E). fold n in H. lia.
Qed.

(** C2: the scheduler runs the lowest numbered ready thread, the idle thread
    only when no other is ready; it saves the context of the thread it leaves
    in that thread's slot, restores the other's, and keeps every other slot. *)
Theorem scheduler_runs_first_ready s :
  kernel_ok s -> len (ctx s) = 10 -> 0 <= active s <= THINKOS_THREAD_VOID ->
  let s' := cm3_pendsv_isr s in
  0 <= active s' <= THINKOS_THREAD_IDLE /\
  mem s (active s') THINKOS_WQ_READY = true /\
  (forall th, 0 <= th < active s' -> mem s th THINKOS_WQ_READY = false) /\
  rd (ctx s') (active s) = psp s /\
  (forall th, th <> active s -> rd (ctx s') th = rd (ctx s) th) /\
  psp s' = (if active s' =? active s then psp s else rd (ctx s) (active s')) /\
  pendsv s' = false.
Proof.
  intros K Hl Ha s'. destruct (ready_head s K) as (H1 & H2 & H3).
  assert (Ea : active s' = __thinkos_wq_head 0 s) by done. rewrite Ea.
  split_and!; [lia|lia|exact H2|exact H3| | | |done].
  - unfold s', cm3_pendsv_isr. kred. apply rd_wr_eq. lia.
  - intros th Hne. unfold s', cm3_pendsv_isr. kred. by apply rd_wr_ne.
  - unfold s', cm3_pendsv_isr. kred. rewrite rd_wr by lia. rewrite Z.eqb_sym. done.
Qed.

(** ** The tick *)

(** The time of thread [th] has come at tick [t]: the difference is read as a
    signed word. *)
Definition due (s : kernel) (t th : Z) : bool := int32 (rd (clock s) th - t) <=? 0.

(** What the loop does for one thread of the queue. *)
Definition clock_check (t : Z) (s : kernel) (th : Z) : kernel :=
  if due s t th then thinkos_time_wakeup th s else s.

Lemma clz_top wq (m : nat) :
  0 <= wq -> (m < 32)%nat -> (forall i, Z.of_nat m < i -> Z.testbit wq i = false) ->
  Z.testbit wq (Z.of_nat m) = true -> __clz wq = 31 - Z.of_nat m.
Proof.
  intros H0 Hm Hhi Hb. unfold __clz. destruct (Z.eqb_spec wq 0) as [->|Hn]; [by rewrite Z.bits_0 in Hb|].
  f_equal. apply Z.log2_bits_unique; [done|]. intros i Hi. by apply Hhi.
Qed.

Lemma top_bit (m : nat) : (m < 32)%nat -> Z.shiftr 2147483648 (31 - Z.of_nat m) = Z.shiftl 1 (Z.of_nat m).
Proof.
  intros Hm. change 2147483648 with (Z.shiftl 1 31). rewrite Z.shiftr_shiftl_l by lia. f_equal. lia.
Qed.

(** The loop over the reversed word visits the threads of the queue in
    ascending order, and 32 rounds are enough. *)
Lemma clock_scan_fold t : forall (m n : nat) wq s,
  (m <= n)%nat -> (m <= 32)%nat -> 0 <= wq -> (forall i, Z.of_nat m <= i -> Z.testbit wq i = false) ->
  clock_scan n wq t s =
  fold_left (fun s th => if Z.testbit wq (31 - th) then clock_check t s th else s)
    (seqZ (32 - Z.of_nat m) (Z.of_nat m)) s.
Proof.
  induction m as [|m IH]; intros n wq s Hn Hm H0 Hhi.
  - assert (wq = 0) as ->.
    { apply Z.bits_inj_0. intros i. destruct (Z.ltb_spec i 0); [by apply Z.testbit_neg_r|]. by apply Hhi. }
    by destruct n.
  - rewrite seqZ_cons by lia. cbn [fold_left].
    replace (31 - (32 - Z.of_nat (S m))) with (Z.of_nat m) by lia.
    replace (Z.succ (32 - Z.of_nat (S m))) with (32 - Z.of_nat m) by lia.
    replace (Z.pred (Z.of_nat (S m))) with (Z.of_nat m) by lia.
    destruct (Z.testbit wq (Z.of_nat m)) eqn:Hb.
    + destruct n as [|n]; [lia|]. cbn [clock_scan].
      rewrite (clz_top wq m), top_bit by (done || lia || (intros; apply Hhi; lia)).
      destruct (Z.ltb_spec (31 - Z.of_nat m) 32); [|lia].
      rewrite IH; [|lia|lia|apply Z.ldiff_nonneg; lia|].
      * replace (32 - Z.of_nat (S m)) with (31 - Z.of_nat m) by lia.
        unfold clock_check, due. generalize (if int32 (rd (clock s) (31 - Z.of_nat m) - t) <=? 0
          then thinkos_time_wakeup (31 - Z.of_nat m) s else s).
        assert (Hin : forall th, th ∈ seqZ (32 - Z.of_nat m) (Z.of_nat m) -> 31 - th <> Z.of_nat m).
        { intros th Hth%elem_of_seqZ. lia. }
        revert Hin. generalize (seqZ (32 - Z.of_nat m) (Z.of_nat m)).
        induction l as [|x l IHl]; intros Hin s'; [done|]. cbn [fold_left].
        rewrite testbit_ldiff_bit by lia. destruct (Z.eqb_spec (Z.of_nat m) (31 - x)) as [E|].
        -- exfalso. apply (Hin x); [left|done].
        -- apply IHl. intros th Hth. apply Hin. by right.
      * intros i Hi. rewrite testbit_ldiff_bit by lia.
        destruct (Z.eqb_spec (Z.of_nat m) i); [done|]. apply Hhi. lia.
    + apply IH; [lia|lia|done|]. intros i Hi. destruct (Z.eq_dec i (Z.of_nat m)) as [->|]; [done|].
      apply Hhi. lia.
Qed.

Lemma clock_scan_queue t s :
  clock_scan 32 (__rbit (rd (wq_lst s) THINKOS_WQ_CLOCK)) t s =
  fold_left (fun s1 th => if mem s th THINKOS_WQ_CLOCK then clock_check t s1 th else s1) (seqZ 0 32) s.
Proof.
  rewrite (clock_scan_fold t 32 32); [|lia|lia|apply rbit_nonneg'|intros i Hi; by apply rbit_high].
  change (32 - Z.of_nat 32) with 0. change (Z.of_nat 32) with 32.
  assert (Hin : forall th, th ∈ seqZ 0 32 -> 0 <= th < 32) by (intros th Hth%elem_of_seqZ; lia).
  set (w := __rbit _). revert Hin. generalize (seqZ 0 32). intros l.
  enough (H : forall s', (forall th, th ∈ l -> 0 <= th < 32) ->
    fold_left (fun s1 th => if Z.testbit w (31 - th) then clock_check t s1 th else s1) l s' =
    fold_left (fun s1 th => if mem s th 2 then clock_check t s1 th else s1) l s') by apply H.
  induction l as [|x l IH]; intros s' Hin; [done|]. cbn [fold_left].
  assert (Z.testbit w (31 - x) = mem s x 2) as ->.
  { unfold w, mem, inq. rewrite rbit_spec; [f_equal; lia|]. specialize (Hin x ltac:(left)). lia. }
  apply IH. intros th Hth. apply Hin. by right.
Qed.

Section wakeup.
Context (s : kernel) (K : kernel_ok s) (x : Z) (Hx : 0 <= x < THINKOS_THREADS_MAX).
Context (Hc : mem s x THINKOS_WQ_CLOCK = true).

Lemma time_wakeup_effect :
  kernel_ok (thinkos_time_wakeup x s) /\
  (forall wq, mem (thinkos_time_wakeup x s) x wq = (wq =? THINKOS_WQ_READY)) /\
  rd (th_stat (thinkos_time_wakeup x s)) x = 0.
Proof using K Hx Hc.
  destruct (ok_in_clock _ _ _ _ (k_threads s K x Hx) Hc) as (w & Hst & Hw & Ha & Hiw & Hall).
  assert (Hr : 2 <= w < 57) by (unfold sync_wq in Hw; lia).
  assert (Hsh : Z.shiftr (rd (th_stat s) x) 1 = w) by (rewrite Hst; apply (shiftr_stat w true)).
  assert (Hm : forall wq, mem (thinkos_time_wakeup x s) x wq = (wq =? 0)).
  { intros wq. unfold thinkos_time_wakeup. rewrite Hsh. mem_simp. rewrite Z.eqb_refl, !andb_true_r, Hall.
    rewrite (Z.eqb_sym 0), (Z.eqb_sym 2), (Z.eqb_sym w).
    by destruct (wq =? 0), (wq =? 2), (wq =? w). }
  assert (Hs : rd (th_stat (thinkos_time_wakeup x s)) x = 0).
  { unfold thinkos_time_wakeup. kred. rewrite rd_wr_eq; [done|]. by apply len_stat. }
  split_and!; [|done|done].
  apply (kernel_ok_step' x s); [done|done| |done|].
  - unfold thinkos_time_wakeup. rewrite Hsh. ts.
  - rewrite Hs. assert (th_alloc (thinkos_time_wakeup x s) = th_alloc s) as -> by done.
    rewrite Ha. by apply T_ready.
Qed.

Lemma time_wakeup_other th wq :
  th <> x -> mem (thinkos_time_wakeup x s) th wq = mem s th wq /\
  rd (th_stat (thinkos_time_wakeup x s)) th = rd (th_stat s) th.
Proof using K Hx Hc.
  intros Hne.
  destruct (ok_in_clock _ _ _ _ (k_threads s K x Hx) Hc) as (w & Hst & Hw & _).
  assert (Hsh : Z.shiftr (rd (th_stat s) x) 1 = w) by (rewrite Hst; apply (shiftr_stat w true)).
  assert (Hr : 2 <= w < 57) by (unfold sync_wq in Hw; lia).
  split; [|unfold thinkos_time_wakeup; kred; by rewrite rd_wr_ne by lia].
  unfold thinkos_time_wakeup. rewrite Hsh. mem_simp.
  destruct (Z.eqb_spec x th); [lia|]. by rewrite !andb_false_r.
Qed.
End wakeup.

(** A tick as seen by one thread before time sharing: woken when due. *)
Definition ticked (s s' : kernel) (t : Z) (woke : bool) (th : Z) : Prop :=
  if woke then (forall wq, mem s' th wq = (wq =? THINKOS_WQ_READY)) /\ rd (th_stat s') th = 0
  else (forall wq, mem s' th wq = mem s th wq) /\ rd (th_stat s') th = rd (th_stat s) th.

Lemma clock_check_fields t s x :
  clock (clock_check t s x) = clock s /\ ticks (clock_check t s x) = ticks s /\
  active (clock_check t s x) = active s /\ sched (clock_check t s x) = sched s /\
  sched_limit (clock_check t s x) = sched_limit s /\ ctx (clock_check t s x) = ctx s /\
  frames (clock_check t s x) = frames s.
Proof. unfold clock_check. by destruct (due s t x). Qed.

Definition clock_pass (t : Z) (q : list Z) (s : kernel) : kernel := fold_left (clock_check t) q s.

Lemma clock_pass_fields t q : forall s,
  clock (clock_pass t q s) = clock s /\ ticks (clock_pass t q s) = ticks s /\
  active (clock_pass t q s) = active s /\ sched (clock_pass t q s) = sched s /\
  sched_limit (clock_pass t q s) = sched_limit s /\ ctx (clock_pass t q s) = ctx s /\
  frames (clock_pass t q s) = frames s.
Proof.
  unfold clock_pass. induction q as [|x q IH]; intros s; cbn [fold_left]; [done|].
  destruct (IH (clock_check t s x)) as (-> & -> & -> & -> & -> & -> & ->). apply clock_check_fields.
Qed.

Lemma clock_pass_spec t q : forall s,
  kernel_ok s -> NoDup q ->
  (forall x, x ∈ q -> 0 <= x < THINKOS_THREADS_MAX /\ mem s x THINKOS_WQ_CLOCK = true) ->
  kernel_ok (clock_pass t q s) /\
  forall th, ticked s (clock_pass t q s) t (bool_decide (th ∈ q) && due s t th) th.
Proof.
  induction q as [|x q IH]; intros s K Hnd Hq.
  - split; [done|]. intros th. by split.
  - apply NoDup_cons in Hnd as [Hx Hnd]. destruct (Hq x ltac:(left)) as [Hr Hc].
    assert (Hcase : kernel_ok (clock_check t s x) /\
      (forall th, ticked s (clock_check t s x) t ((th =? x) && due s t th) th)).
    { unfold clock_check. destruct (due s t x) eqn:E.
      - destruct (time_wakeup_effect s K x Hr Hc) as (K' & Hm & Hs). split; [done|].
        intros th. destruct (Z.eqb_spec th x) as [->|Hne]; [rewrite E; by split|].
        split; [intros wq|]; by apply (time_wakeup_other s K x Hr Hc).
      - split; [done|]. intros th. destruct (Z.eqb_spec th x) as [->|Hne]; [rewrite E|]; by split. }
    destruct Hcase as [K1 H1]. destruct (clock_check_fields t s x) as (Ec & _).
    assert (Hq' : forall y, y ∈ q -> mem (clock_check t s x) y 2 = mem s y 2).
    { intros y Hy. assert (Hne : y <> x) by congruence. specialize (H1 y).
      rewrite (proj2 (Z.eqb_neq y x) Hne) in H1. apply H1. }
    destruct (IH (clock_check t s x) K1 Hnd) as [K2 H2].
    { intros y Hy. rewrite Hq' by done. apply Hq. by right. }
    split; [exact K2|]. intros th. cbn [clock_pass fold_left]. specialize (H1 th). specialize (H2 th).
    unfold due in H2. rewrite Ec in H2. fold (due s t th) in H2. unfold ticked in *.
    change (fold_left (clock_check t) q (clock_check t s x)) with (clock_pass t q (clock_check t s x)).
    destruct (Z.eqb_spec th x) as [E|Hne].
    + rewrite E in *. rewrite bool_decide_eq_false_2 in H2 by done. rewrite bool_decide_eq_true_2 by left.
      cbn [andb] in *. destruct H2 as [Hm2 Hs2], (due s t x), H1 as [Hm1 Hs1];
        (split; [intros wq; by rewrite Hm2, Hm1|congruence]).
    + assert (bool_decide (th ∈ x :: q) = bool_decide (th ∈ q)) as ->.
      { apply bool_decide_ext. rewrite elem_of_cons. naive_solver. }
      destruct (bool_decide (th ∈ q) && due s t th); [exact H2|].
      destruct H1 as [Hm1 Hs1], H2 as [Hm2 Hs2]. split; [intros wq; by rewrite Hm2, Hm1|congruence].
Qed.

(** The threads in the clock queue, in the order the loop visits them. *)
Definition clock_queue (s : kernel) : list Z :=
  filter (fun th => mem s th THINKOS_WQ_CLOCK = true) (seqZ 0 32).

Lemma clock_scan_pass t s :
  clock_scan 32 (__rbit (rd (wq_lst s) THINKOS_WQ_CLOCK)) t s = clock_pass t (clock_queue s) s.
Proof.
  rewrite clock_scan_queue. unfold clock_pass, clock_queue. generalize (seqZ 0 32). intros l.
  enough (H : forall s', fold_left (fun s1 th => if mem s th 2 then clock_check t s1 th else s1) l s' =
    fold_left (clock_check t) (filter (fun th => mem s th 2 = true) l) s') by apply H.
  induction l as [|x l IH]; intros s'; [done|]. cbn [fold_left].
  rewrite filter_cons. destruct (mem s x 2) eqn:E; simpl; apply IH.
Qed.

Lemma elem_of_clock_queue s th :
  kernel_ok s -> th ∈ clock_queue s <-> 0 <= th < THINKOS_THREADS_MAX /\ mem s th THINKOS_WQ_CLOCK = true.
Proof.
  intros K. unfold clock_queue. rewrite list_elem_of_filter, elem_of_seqZ. split; [|intros [? ?]; split; [done|lia]].
  intros [Hm _]. split; [|done]. apply (k_bits s K) in Hm. lia.
Qed.

(** The tick before time sharing. *)
Lemma clock_tick_spec s t :
  kernel_ok s ->
  let s1 := clock_pass t (clock_queue s) s in
  kernel_ok s1 /\ forall th, 0 <= th < THINKOS_THREADS_MAX ->
    ticked s s1 t (mem s th THINKOS_WQ_CLOCK && due s t th) th.
Proof.
  intros K s1. destruct (clock_pass_spec t (clock_queue s) s K) as [K1 H1].
  - apply NoDup_filter, NoDup_seqZ.
  - intros x Hx. by apply elem_of_clock_queue.
  - split; [exact K1|]. intros th Hth. specialize (H1 th).
    assert (bool_decide (th ∈ clock_queue s) = mem s th 2) as E; [|by rewrite E in H1].
    destruct (mem s th 2) eqn:Em.
    + apply bool_decide_eq_true_2. by apply elem_of_clock_queue.
    + apply bool_decide_eq_false_2. rewrite elem_of_clock_queue, Em by done. naive_solver.
Qed.

(** ** Time sharing *)

(** Credits are below the limit and no thread has a priority above it; the
    idle thread has none.  The last bytes pad the scheduling fields. *)
Record sched_ok (s : kernel) : Prop := {
  so_active : 0 <= active s <= THINKOS_THREAD_VOID;
  so_len : len (sched s) = 20;
  so_bytes : forall i, 0 <= rd (sched s) i < 256;
  so_limit : THINKOS_SCHED_LIMIT_MIN <= sched_limit s <= THINKOS_SCHED_LIMIT_MAX;
  so_pri : forall i, 0 <= i < THINKOS_THREADS_MAX -> sched_pri s i <= sched_limit s;
  so_val : forall i, 0 <= i < THINKOS_THREADS_MAX -> 0 <= sched_val s i < sched_limit s;
  so_idle_val : rd (sched s) 8 = 0;
  so_idle_pri : rd (sched s) 17 = 0;
  so_pad : rd (sched s) 18 = 0
}.

Lemma sched_ok_frame s s' :
  active s' = active s -> sched s' = sched s -> sched_limit s' = sched_limit s ->
  sched_ok s -> sched_ok s'.
Proof.
  intros E1 E2 E3 [H1 H2 H3 H4 H5 H6 H7 H8 H9].
  split; unfold sched_pri, sched_val in *; rewrite ?E1, ?E2, ?E3; auto.
Qed.

(** The running thread has used up its credit. *)
Definition exhausted (s : kernel) : bool :=
  (active s <? THINKOS_THREADS_MAX) && (sched_val s (active s) <? sched_pri s (active s)).

Definition credit (s : kernel) : Z :=
  sched_val s (active s) - sched_pri s (active s) + if exhausted s then sched_limit s else 0.

Lemma sched_pri_nonneg s i : 0 <= sched_pri s i.
Proof. apply u8_range. Qed.

Lemma credit_range s :
  sched_ok s -> active s < THINKOS_THREADS_MAX -> 0 <= credit s < sched_limit s.
Proof.
  intros O Ha. pose proof (so_active s O). pose proof (so_pri s O (active s) ltac:(lia)).
  pose proof (so_val s O (active s) ltac:(lia)). pose proof (sched_pri_nonneg s (active s)).
  unfold credit, exhausted. destruct (Z.ltb_spec (active s) 8); [|lia].
  cbn [andb]. destruct (Z.ltb_spec (sched_val s (active s)) (sched_pri s (active s))); lia.
Qed.

Lemma sched_val_stored s i v :
  len (sched s) = 20 -> 0 <= i < 20 -> -128 <= v < 128 -> sched_val (sched_val_store i v s) i = v.
Proof.
  intros Hl Hi Hv. unfold sched_val, sched_val_store. ksimpl_goal. rewrite rd_wr_eq by lia.
  rewrite int8_u8. by apply int8_small.
Qed.

Lemma sched_store_twice s i v w : sched_val_store i w (sched_val_store i v s) = sched_val_store i w s.
Proof.
  unfold sched_val_store, set_sched. ksimpl_goal. f_equal. unfold wr.
  destruct (i <? 0); [done|]. apply list_insert_insert_eq.
Qed.

(** One tick of time sharing: the credit, then the queues. *)
Lemma timeshare_eq s :
  sched_ok s ->
  thinkos_timeshare s =
  let s1 := if active s <? THINKOS_THREADS_MAX then sched_val_store (active s) (credit s) s else s in
  if exhausted s && mem s (active s) THINKOS_WQ_READY
  then __thinkos_preempt (__thinkos_suspend (active s) (wq_bit_store THINKOS_WQ_TMSHARE (active s) true s1))
  else s1.
Proof.
  intros O. pose proof (so_active s O) as Ha. pose proof (so_len s O) as Hl.
  unfold thinkos_timeshare. unfold exhausted.
  destruct (Z.ltb_spec (active s) 8) as [Hlt|Hge].
  - pose proof (so_limit s O). pose proof (so_pri s O (active s) ltac:(lia)).
    pose proof (so_val s O (active s) ltac:(lia)). pose proof (sched_pri_nonneg s (active s)).
    rewrite sched_val_stored by lia. unfold credit, exhausted.
    destruct (Z.ltb_spec (active s) 8); [|lia]. cbn [andb].
    destruct (Z.ltb_spec (sched_val s (active s)) (sched_pri s (active s))),
      (Z.ltb_spec (sched_val s (active s) - sched_pri s (active s)) 0); try lia; cbn [andb].
    + rewrite sched_store_twice. unfold __bit_mem_rd. change (Z.testbit (rd (wq_lst (sched_val_store (active s)
        (sched_val s (active s) - sched_pri s (active s) + sched_limit
        (sched_val_store (active s) (sched_val s (active s) - sched_pri s (active s)) s)) s)) 0) (active s))
        with (mem s (active s) 0). by destruct (mem s (active s) 0).
    + by rewrite Z.add_0_r.
  - assert (Ep : sched_pri s (active s) = 0).
    { unfold sched_pri. destruct (Z.eq_dec (active s) 8) as [->|].
      - change (9 + 8) with 17. by rewrite (so_idle_pri s O).
      - assert (active s = 9) as -> by lia. change (9 + 9) with 18. by rewrite (so_pad s O). }
    assert (Ev : 0 <= sched_val s (active s)).
    { unfold sched_val. destruct (Z.eq_dec (active s) 8) as [->|]; [by rewrite (so_idle_val s O)|].
      assert (active s = 9) as -> by lia. pose proof (so_pri s O 0 ltac:(lia)) as Hp.
      unfold sched_pri in Hp. change (9 + 0) with 9 in Hp. pose proof (so_bytes s O 9). pose proof (so_limit s O).
      rewrite u8_small in Hp by lia. rewrite int8_small; lia. }
    rewrite Ep, Z.sub_0_r. cbn [andb].
    assert (E : sched_val_store (active s) (sched_val s (active s)) s = s).
    { unfold sched_val_store, sched_val. assert (u8 (int8 (rd (sched s) (active s))) = rd (sched s) (active s)) as ->.
      { apply u8_int8, (so_bytes s O). }
      rewrite wr_rd_id. by destruct s. }
    rewrite E. destruct (Z.ltb_spec (sched_val s (active s)) 0); [lia|done].
Qed.

(** In the ready or in the time share queue. *)
Definition runnable (s : kernel) (th : Z) : bool :=
  mem s th THINKOS_WQ_READY || mem s th THINKOS_WQ_TMSHARE.

(** The thread that yields goes to the time share queue, or stays ready when
    a new cycle begins at once. *)
Lemma inq_yield l th :
  1 < len l -> 0 <= th ->
  exists r : bool, forall wq, inq (suspend_wq (wq_bit_wr l THINKOS_WQ_TMSHARE th true) th) wq th =
    if wq =? THINKOS_WQ_READY then r else if wq =? THINKOS_WQ_TMSHARE then negb r else inq l wq th.
Proof.
  intros Hl Hth. set (l1 := wq_bit_wr l 1 th true).
  assert (L1 : len l1 = len l) by apply len_wr.
  assert (Ht : Z.testbit (rd l1 1) th = true).
  { unfold l1, wq_bit_wr. rewrite rd_wr_eq by lia. by apply bit_wr_eq. }
  exists (Z.ldiff (rd l1 0) (Z.shiftl 1 th) =? Z.shiftl 1 8). intros wq.
  destruct (Z.eqb_spec wq 0) as [->|H0]; [|destruct (Z.eqb_spec wq 1) as [->|H1]].
  - unfold suspend_wq, inq. rewrite rd_wr_ne, rd_wr_eq by (rewrite ?len_wr; lia).
    destruct (_ =? _); rewrite ?Z.lor_spec, testbit_ldiff_bit, Z.eqb_refl by done; [by rewrite Ht|done].
  - unfold suspend_wq, inq. rewrite rd_wr_eq by (rewrite ?len_wr; lia).
    destruct (_ =? _); [by rewrite Z.bits_0|done].
  - rewrite inq_suspend_other by (lia || done). unfold l1. rewrite inq_bit_wr by lia.
    destruct (Z.eqb_spec 1 wq); [lia|done].
Qed.

Section timeshare.
Context (s : kernel) (K : kernel_ok s) (O : sched_ok s).

Lemma timeshare_other th :
  0 <= th < THINKOS_THREADS_MAX -> th <> active s -> same_thread (mem s th) (mem (thinkos_timeshare s) th).
Proof using K O.
  intros Hth Hne. rewrite timeshare_eq by done. cbv zeta. pose proof (so_active s O).
  set (s1 := if active s <? 8 then _ else _).
  assert (E1 : wq_lst s1 = wq_lst s) by (unfold s1; by destruct (_ <? _)).
  destruct (exhausted s && mem s (active s) 0); [|apply same_thread_ext; intros wq; unfold mem; by rewrite E1].
  apply (same_thread_trans _ (mem (wq_bit_store 1 (active s) true s1) th)).
  - apply same_thread_ext. intros wq. rewrite mem_bit_store by (rewrite ?E1, ?(k_wq s K); lia).
    destruct (Z.eqb_spec (active s) th); [lia|]. rewrite andb_false_r. unfold mem. by rewrite E1.
  - unfold mem. kred. apply same_suspend; [|lia|lia]. rewrite len_wq_bit_wr, E1, (k_wq s K). lia.
Qed.

Lemma timeshare_self :
  (forall wq, mem (thinkos_timeshare s) (active s) wq = mem s (active s) wq) \/
  exists r : bool, mem s (active s) THINKOS_WQ_READY = true /\
    forall wq, mem (thinkos_timeshare s) (active s) wq =
      if wq =? THINKOS_WQ_READY then r else if wq =? THINKOS_WQ_TMSHARE then negb r
      else mem s (active s) wq.
Proof using K O.
  rewrite timeshare_eq by done. cbv zeta. pose proof (so_active s O).
  set (s1 := if active s <? 8 then _ else _).
  assert (E1 : wq_lst s1 = wq_lst s) by (unfold s1; by destruct (_ <? _)).
  destruct (exhausted s && mem s (active s) 0) eqn:Ex; [right|left].
  - apply andb_true_iff in Ex as [_ Hr].
    destruct (inq_yield (wq_lst s) (active s)) as [r Hy]; [rewrite (k_wq s K); lia|lia|].
    exists r. split; [done|]. intros wq. unfold mem. kred. rewrite E1. apply Hy.
  - intros wq; unfold mem; by rewrite E1.
Qed.

Lemma timeshare_fields :
  th_stat (thinkos_timeshare s) = th_stat s /\ th_alloc (thinkos_timeshare s) = th_alloc s /\
  irq_th (thinkos_timeshare s) = irq_th s /\ irq_en (thinkos_timeshare s) = irq_en s /\
  active (thinkos_timeshare s) = active s /\ ticks (thinkos_timeshare s) = ticks s /\
  clock (thinkos_timeshare s) = clock s /\ sched_limit (thinkos_timeshare s) = sched_limit s /\
  sched (thinkos_timeshare s) =
    if active s <? THINKOS_THREADS_MAX then wr (sched s) (active s) (u8 (credit s)) else sched s.
Proof using O.
  rewrite timeshare_eq by done. cbv zeta. destruct (_ <? _), (exhausted s && mem s (active s) 0); done.
Qed.

Lemma timeshare_runnable th : 0 <= th < THINKOS_THREADS_MAX ->
  runnable (thinkos_timeshare s) th = runnable s th /\
  forall wq, 2 <= wq -> mem (thinkos_timeshare s) th wq = mem s th wq.
Proof using K O.
  intros Hth. unfold runnable. destruct (Z.eq_dec th (active s)) as [->|Hne].
  - destruct timeshare_self as [E|(r & Hr & E)]; rewrite !E; [done|].
    split; [rewrite Hr; by destruct r|]. intros wq Hwq. rewrite E.
    destruct (Z.eqb_spec wq 0); [lia|]. destruct (Z.eqb_spec wq 1); [lia|done].
  - destruct (timeshare_other th Hth Hne) as [H1 [[-> ->]|[-> ->]]];
      (split; [by rewrite ?orb_false_r|intros wq Hwq; apply H1; lia]).
Qed.
End timeshare.

(** A ready thread runs normally, or was canceled and is about to end. *)
Lemma ok_ready m st al iw :
  thread_ok m st al iw -> m THINKOS_WQ_READY = true ->
  al = true /\ iw = false /\
  ((st = 0 /\ forall wq, m wq = (wq =? THINKOS_WQ_READY)) \/
   (st = STAT_CANCELED /\ forall wq, m wq = true -> wq = THINKOS_WQ_CANCELED \/ wq = THINKOS_WQ_PAUSED \/
                                wq = THINKOS_WQ_READY \/ wq = THINKOS_WQ_TMSHARE)).
Proof.
  intros H Hm. destruct H as [H|H|H|w' tm Hw' Htm H|st iw Hst' Hiw H|H|H He|H];
    try (rewrite H in Hm; lia).
  - auto.
  - rewrite H in Hm. unfold sync_wq in Hw'. destruct (Z.eqb_spec 0 w'); [lia|]. by destruct tm.
  - split_and!; auto.
  - apply H in Hm. lia.
Qed.

Lemma timeshare_ok s : kernel_ok s -> sched_ok s -> kernel_ok (thinkos_timeshare s).
Proof.
  intros K O. pose proof (so_active s O) as Ha. rewrite timeshare_eq by done. cbv zeta.
  set (s1 := if active s <? 8 then _ else _).
  assert (K1 : kernel_ok s1) by (unfold s1; destruct (_ <? _); [kframe|done]).
  assert (E1 : wq_lst s1 = wq_lst s) by (unfold s1; by destruct (_ <? _)).
  destruct (exhausted s && mem s (active s) 0) eqn:Ex; [|done].
  apply andb_true_iff in Ex as [Hex Hr]. unfold exhausted in Hex.
  apply andb_true_iff in Hex as [Hlt%Z.ltb_lt _].
  assert (Hr1 : mem s1 (active s) 0 = true) by (unfold mem; by rewrite E1).
  destruct (inq_yield (wq_lst s1) (active s)) as [r Hy]; [rewrite E1, (k_wq s K); lia|lia|].
  clearbody s1. generalize dependent (active s). intros a Ha Hr Hlt Hr1 Hy.
  destruct (ok_ready _ _ _ _ (k_threads s1 K1 a ltac:(lia)) Hr1) as (Hal & Hiw & Hst).
  apply ok_preempt. apply (kernel_ok_step' a s1); [done|lia|ts|done|]. kred. rewrite Hal.
  assert (Hm : forall wq, mem (__thinkos_suspend a (wq_bit_store 1 a true s1)) a wq =
    if wq =? 0 then r else if wq =? 1 then negb r else mem s1 a wq) by (intros wq; apply Hy).
  destruct Hst as [[-> Hm1]|[-> Hm1]].
  - destruct r; [apply T_ready|apply T_share]; intros wq; rewrite Hm, Hm1;
      (destruct (Z.eqb_spec wq 0) as [E|]; [subst; done|]; by destruct (wq =? 1)).
  - apply T_canceled.
    + intros wq. rewrite Hm. destruct (Z.eqb_spec wq 0); [tauto|]. destruct (Z.eqb_spec wq 1); [tauto|].
      apply Hm1.
    + exists (if r then 0 else 1). rewrite Hm. by destruct r.
Qed.

Lemma timeshare_sched_ok s : sched_ok s -> sched_ok (thinkos_timeshare s).
Proof.
  intros O. destruct (timeshare_fields s O) as (_ & _ & _ & _ & Ea & _ & _ & El & Es).
  pose proof (so_active s O) as Ha. pose proof (so_len s O) as Hl.
  destruct (Z.ltb_spec (active s) 8) as [Hlt|Hge]; [|by apply (sched_ok_frame s)].
  pose proof (credit_range s O Hlt) as Hc. pose proof (so_limit s O) as Hlim.
  split; unfold sched_pri, sched_val; rewrite ?Ea, ?El, ?Es; try lia.
  - by rewrite len_wr.
  - intros i. destruct (rd_wr_cases (sched s) (active s) i (u8 (credit s))) as [-> |[_ ->]];
      [apply (so_bytes s O)|apply u8_range].
  - intros i Hi. rewrite rd_wr_ne by lia. by apply (so_pri s O).
  - intros i Hi. rewrite rd_wr by lia. destruct (Z.eqb_spec (active s) i) as [<-|].
    + rewrite int8_u8, int8_small; lia.
    + by apply (so_val s O).
  - rewrite rd_wr_ne by lia. apply (so_idle_val s O).
  - rewrite rd_wr_ne by lia. apply (so_idle_pri s O).
  - rewrite rd_wr_ne by lia. apply (so_pad s O).
Qed.

(** ** The whole tick *)

Lemma systick_eq s :
  cm3_systick_isr s =
  thinkos_timeshare (clock_pass (u32 (ticks s + 1)) (clock_queue s) (set_ticks (u32 (ticks s + 1)) s)).
Proof.
  unfold cm3_systick_isr. cbv zeta.
  assert (E : clock_queue s = clock_queue (set_ticks (u32 (ticks s + 1)) s)) by done.
  rewrite E. by rewrite <- clock_scan_pass.
Qed.

Lemma systick_parts s :
  kernel_ok s -> sched_ok s ->
  let s1 := clock_pass (u32 (ticks s + 1)) (clock_queue s) (set_ticks (u32 (ticks s + 1)) s) in
  kernel_ok s1 /\ sched_ok s1 /\ active s1 = active s /\ ticks s1 = u32 (ticks s + 1) /\
  clock s1 = clock s /\
  forall th, 0 <= th < THINKOS_THREADS_MAX ->
    ticked s s1 (u32 (ticks s + 1)) (mem s th THINKOS_WQ_CLOCK && due s (u32 (ticks s + 1)) th) th.
Proof.
  intros K O s1. set (t := u32 (ticks s + 1)) in *.
  assert (K0 : kernel_ok (set_ticks t s)) by kframe.
  destruct (clock_tick_spec (set_ticks t s) t K0) as [K1 H1].
  destruct (clock_pass_fields t (clock_queue s) (set_ticks t s)) as (Ec & Et & Ea & Es & El & _).
  split_and!; [exact K1| |exact Ea|exact Et|exact Ec|exact H1].
  by apply (sched_ok_frame s).
Qed.

Lemma systick_ok s : kernel_ok s -> sched_ok s -> kernel_ok (cm3_systick_isr s).
Proof. intros K O. rewrite systick_eq. destruct (systick_parts s K O) as (K1 & O1 & _). by apply timeshare_ok. Qed.

Lemma systick_sched_ok s : kernel_ok s -> sched_ok s -> sched_ok (cm3_systick_isr s).
Proof. intros K O. rewrite systick_eq. destruct (systick_parts s K O) as (K1 & O1 & _). by apply timeshare_sched_ok. Qed.

(** One tick seen by one thread, in the form the induction on ticks uses. *)
Lemma systick_thread s th :
  kernel_ok s -> sched_ok s -> 0 <= th < THINKOS_THREADS_MAX ->
  let s' := cm3_systick_isr s in
  ticks s' = u32 (ticks s + 1) /\ clock s' = clock s /\ active s' = active s /\
  if mem s th THINKOS_WQ_CLOCK && due s (ticks s') th then
    rd (th_stat s') th = 0 /\ runnable s' th = true /\
    (forall wq, 2 <= wq -> mem s' th wq = false) /\
    (th <> active s -> mem s' th THINKOS_WQ_READY = true)
  else
    rd (th_stat s') th = rd (th_stat s) th /\ runnable s' th = runnable s th /\
    (forall wq, 2 <= wq -> mem s' th wq = mem s th wq).
Proof.
  intros K O Hth s'. unfold s'. rewrite systick_eq.
  destruct (systick_parts s K O) as (K1 & O1 & Ea & Et & Ec & H1). cbv zeta in *.
  set (s1 := clock_pass _ _ _) in *.
  destruct (timeshare_fields s1 O1) as (Fs & _ & _ & _ & Fa & Ft & Fc & _).
  destruct (timeshare_runnable s1 K1 O1 th Hth) as [Hr Hm].
  pose proof (timeshare_other s1 K1 O1 th Hth) as Ho.
  rewrite Ft, Fc, Fa, Fs, Ea, Et, Ec. split_and!; [done..|]. rewrite Hr. clear s'.
  specialize (H1 th Hth). unfold ticked in H1.
  destruct (mem s th 2 && due s (u32 (ticks s + 1)) th); destruct H1 as [Hm1 Hs1].
  - split_and!; [exact Hs1|unfold runnable; by rewrite !Hm1| |].
    + intros wq Hwq. rewrite Hm, Hm1 by done. lia.
    + intros Hne. rewrite Ea in Ho. destruct (Ho Hne) as [_ [[-> _]|[-> _]]]; by rewrite !Hm1.
  - split_and!; [exact Hs1|unfold runnable; by rewrite !Hm1|]. intros wq Hwq. by rewrite Hm, Hm1.
Qed.

(** C3: a tick advances the clock by one modulo 2^32, takes exactly the
    threads whose time has come out of the clock queue and of the queue they
    wait in, with their status cleared, and makes them runnable (ready at once,
    unless it is the running thread, which may have to wait for its time
    share); every other thread keeps its status and its queues. *)
Theorem tick_wakes_due s :
  kernel_ok s -> sched_ok s ->
  let s' := cm3_systick_isr s in
  kernel_ok s' /\ sched_ok s' /\ ticks s' = u32 (ticks s + 1) /\
  forall th, 0 <= th < THINKOS_THREADS_MAX ->
  if mem s th THINKOS_WQ_CLOCK && due s (ticks s') th then
    rd (th_stat s') th = 0 /\ runnable s' th = true /\
    (forall wq, 2 <= wq -> mem s' th wq = false) /\
    (th <> active s -> mem s' th THINKOS_WQ_READY = true)
  else
    rd (th_stat s') th = rd (th_stat s) th /\ runnable s' th = runnable s th /\
    (forall wq, 2 <= wq -> mem s' th wq = mem s th wq).
Proof.
  intros K O s'. split; [by apply systick_ok|]. split; [by apply systick_sched_ok|].
  split; [by apply (systick_thread s 0 K O)|]. intros th Hth. by apply (systick_thread s th K O Hth).
Qed.

(** ** Time sharing *)

(** A thread other than [idx] and the idle thread is ready. *)
Definition others_ready (s : kernel) (idx : Z) : bool :=
  existsb (fun x => negb (x =? idx) && mem s x THINKOS_WQ_READY) (seqZ 0 THINKOS_THREADS_MAX).

(** What [idx] giving up the processor means for the queues: it waits for the
    next cycle, which begins at once when no other thread is ready. *)
Definition yielded (idx : Z) (s s' : kernel) : Prop :=
  (forall x, mem s' x THINKOS_WQ_READY =
     if others_ready s idx then mem s x THINKOS_WQ_READY && negb (x =? idx)
     else mem s x THINKOS_WQ_READY || mem s x THINKOS_WQ_TMSHARE) /\
  (forall x, mem s' x THINKOS_WQ_TMSHARE = others_ready s idx && (mem s x THINKOS_WQ_TMSHARE || (x =? idx))) /\
  forall x wq, 2 <= wq -> mem s' x wq = mem s x wq.

(** The test of the suspension for an empty cycle. *)
Lemma others_ready_refill s idx :
  kernel_ok s -> 0 <= idx < THINKOS_THREADS_MAX ->
  (Z.ldiff (rd (wq_lst s) THINKOS_WQ_READY) (Z.shiftl 1 idx) =? Z.shiftl 1 THINKOS_THREADS_MAX) = negb (others_ready s idx).
Proof.
  intros K Hi. destruct (others_ready s idx) eqn:E; cbn [negb].
  - apply existsb_exists in E as (x & Hx & Hm). apply list_elem_of_In, elem_of_seqZ in Hx.
    apply andb_true_iff in Hm as [Hne Hm]. apply Z.eqb_neq. intros Eq.
    apply (f_equal (fun z => Z.testbit z x)) in Eq. rewrite testbit_ldiff_bit in Eq by lia.
    rewrite Z.shiftl_1_l, Z.pow2_bits_false in Eq by lia. unfold mem, inq in Hm. rewrite Hm in Eq.
    destruct (Z.eqb_spec idx x); [lia|discriminate].
  - apply Z.eqb_eq, Z.bits_inj'. intros x Hx. rewrite testbit_ldiff_bit by lia.
    rewrite Z.shiftl_1_l, Z.pow2_bits_eqb by lia. fold (inq (wq_lst s) 0 x). fold (mem s x 0).
    destruct (Z.eqb_spec idx x) as [<-|Hne]; [lia|]. destruct (Z.eqb_spec 8 x) as [<-|H8]; [apply (k_idle s K)|].
    destruct (mem s x 0) eqn:Hm; [|done]. exfalso. apply (k_bits s K) in Hm as Hr.
    enough (others_ready s idx = true) by congruence. apply existsb_exists. exists x.
    split; [apply list_elem_of_In, elem_of_seqZ; lia|]. rewrite Hm. lia.
Qed.

Lemma timeshare_yields s :
  kernel_ok s -> sched_ok s -> active s < THINKOS_THREADS_MAX -> mem s (active s) THINKOS_WQ_READY = true ->
  exhausted s = true -> yielded (active s) s (thinkos_timeshare s).
Proof.
  intros K O Ha Hm Hex. pose proof (so_active s O). pose proof (k_wq s K) as Hl.
  pose proof (others_ready_refill s (active s) K ltac:(lia)) as Hr.
  assert (E : wq_lst (thinkos_timeshare s) = suspend_wq (wq_bit_wr (wq_lst s) 1 (active s) true) (active s)).
  { rewrite timeshare_eq by done. cbv zeta. rewrite Hex, Hm. destruct (Z.ltb_spec (active s) 8); [done|lia]. }
  unfold yielded, mem, inq in *. rewrite E. unfold suspend_wq, wq_bit_wr.
  rewrite (rd_wr_ne (wq_lst s) 1 0), (rd_wr_eq (wq_lst s) 1) by (done || lia). rewrite Hr. split_and!.
  - intros x. rewrite rd_wr_ne, rd_wr_eq by (rewrite ?len_wr; lia).
    destruct (others_ready s (active s)); cbn [negb]; rewrite ?Z.lor_spec, testbit_ldiff_bit by lia;
      rewrite ?bit_wr_spec by lia; rewrite (Z.eqb_sym (active s) x); destruct (Z.eqb_spec x (active s)) as [->|];
      rewrite ?andb_true_r, ?andb_false_r, ?Hm; try done.
  - intros x. rewrite rd_wr_eq by (rewrite ?len_wr; lia). destruct (others_ready s (active s)); cbn [negb andb];
      [|apply Z.bits_0]. rewrite bit_wr_spec by lia. rewrite (Z.eqb_sym (active s) x).
    destruct (x =? active s); [by rewrite orb_true_r|by rewrite orb_false_r].
  - intros x wq Hwq. by rewrite !rd_wr_ne by lia.
Qed.

(** The thread [idx] runs: it is ready, outside of a critical section, and no
    switch is requested. *)
Definition running (idx : Z) (s : kernel) : Prop :=
  kernel_ok s /\ active s = idx /\ mem s idx THINKOS_WQ_READY = true /\ pendsv s = false /\ critical_cnt s = 0.

(** One tick of a running thread: a switch is requested exactly when the
    credit is used up. *)
Lemma timeshare_running s idx :
  0 <= idx < THINKOS_THREADS_MAX -> sched_ok s -> running idx s ->
  sched_limit s * Z.b2z (pendsv (thinkos_timeshare s)) =
    sched_pri s idx + sched_val (thinkos_timeshare s) idx - sched_val s idx /\
  if pendsv (thinkos_timeshare s) then yielded idx s (thinkos_timeshare s)
  else wq_lst (thinkos_timeshare s) = wq_lst s.
Proof.
  intros Hi O (K & Ea & Hm & Hp & Hc). subst idx. set (idx := active s) in *.
  assert (E : pendsv (thinkos_timeshare s) = exhausted s /\
    (exhausted s = false -> wq_lst (thinkos_timeshare s) = wq_lst s)).
  { rewrite timeshare_eq by done. cbv zeta. fold idx. rewrite Hm, andb_true_r.
    destruct (exhausted s), (idx <? 8); cbn; by rewrite ?Hp, ?Hc. }
  destruct E as [Ep Eq]. rewrite Ep. destruct (timeshare_fields s O) as (_ & _ & _ & _ & _ & _ & _ & _ & Es).
  split.
  - fold idx in Es. destruct (Z.ltb_spec idx 8); [|lia].
    pose proof (credit_range s O ltac:(lia)) as Hr. pose proof (so_limit _ O).
    assert (sched_val (thinkos_timeshare s) idx = credit s) as ->.
    { unfold sched_val. rewrite Es, rd_wr_eq by (rewrite (so_len _ O); lia). rewrite int8_u8. apply int8_small. lia. }
    unfold credit. fold idx. destruct (exhausted s); simpl; lia.
  - destruct (exhausted s) eqn:Hex; [|by apply Eq]. apply timeshare_yields; done || lia.
Qed.

(** The number of switches requested by the first [n] ticks. *)
Fixpoint yields (f : nat -> kernel) (n : nat) : Z :=
  match n with O => 0 | S n => yields f n + Z.b2z (pendsv (thinkos_timeshare (f n))) end.


(** ** Sleeping *)

Lemma int32_sub_u32 a b : int32 (u32 a - u32 b) = int32 (a - b).
Proof. rewrite <- (int32_u32 (u32 a - u32 b)), <- (int32_u32 (a - b)). unfold u32. by rewrite <- Zminus_mod. Qed.

(** The common part of the two handlers. *)
Definition clock_wait (self v : Z) (s : kernel) : kernel :=
  s |> clock_store self v
    |> wq_bit_store THINKOS_WQ_CLOCK self true
    |> th_stat_store self STAT_CLOCK
    |> __thinkos_suspend self
    |> __thinkos_defer_sched.

Lemma clock_wait_spec s self v :
  kernel_ok s -> 0 <= self < THINKOS_THREADS_MAX -> calling s self ->
  kernel_ok (clock_wait self v s) /\
  (forall wq, mem (clock_wait self v s) self wq = (wq =? THINKOS_WQ_CLOCK)) /\
  rd (th_stat (clock_wait self v s)) self = STAT_CLOCK.
Proof.
  intros K Hs Hc. destruct (calling_facts s K self Hs Hc) as (Ha & Hiw & Hall).
  pose proof (Hall 1) as H1. pose proof (len_stat s K self Hs) as Hl.
  assert (Hm : forall wq, mem (clock_wait self v s) self wq = (wq =? 2)).
  { set (s1 := th_stat_store self 5 (wq_bit_store 2 self true (clock_store self v s))).
    assert (L1 : len (wq_lst s1) = 59) by (unfold s1; len_wq).
    assert (M1 : forall wq, mem s1 self wq = (wq =? 0) || (wq =? 2)).
    { intros wq. unfold s1. mem_simp. rewrite Hall, Z.eqb_refl, andb_true_r, (Z.eqb_sym 2).
      by destruct (wq =? 0), (wq =? 2). }
    intros wq. unfold clock_wait. rewrite mem_defer. fold s1.
    rewrite mem_suspend_self by (done || lia || by rewrite M1). rewrite M1.
    destruct (Z.eqb_spec wq 0) as [->|]; [done|]. by destruct (wq =? 2). }
  assert (Hst : rd (th_stat (clock_wait self v s)) self = 5).
  { unfold clock_wait. kred. by rewrite rd_wr_eq. }
  split_and!; [|exact Hm|exact Hst].
  apply (kernel_ok_step' self s); [done|done|unfold clock_wait; ts|done|].
  rewrite Hst. assert (th_alloc (clock_wait self v s) = th_alloc s) as -> by done.
  rewrite Ha. by apply T_sleep.
Qed.

Lemma sleep_ok s arg self :
  kernel_ok s -> 0 <= self < THINKOS_THREADS_MAX -> calling s self ->
  kernel_ok (thinkos_sleep_svc arg self s) /\ kernel_ok (thinkos_alarm_svc arg self s).
Proof. intros K Hs Hc. split; by apply clock_wait_spec. Qed.

Lemma sleep_eq arg self s :
  thinkos_sleep_svc arg self s = clock_wait self (ticks s + arg_0 arg s) s.
Proof. reflexivity. Qed.

Lemma clock_wait_fields s self v :
  len (clock s) = THINKOS_THREADS_MAX -> 0 <= self < THINKOS_THREADS_MAX ->
  ticks (clock_wait self v s) = ticks s /\ rd (clock (clock_wait self v s)) self = u32 v /\ (sched_ok s -> sched_ok (clock_wait self v s)).
Proof.
  intros Hl Hs. split_and!; [done|unfold clock_wait; kred; apply rd_wr_eq; lia|].
  by apply sched_ok_frame.
Qed.

#[local] Opaque cm3_systick_isr.

(** Something happens that is not about thread [th]: the clock and the
    thread's own alarm, status, readiness and queues stay. *)
Definition undisturbed (th : Z) (s s' : kernel) : Prop :=
  kernel_ok s' /\ sched_ok s' /\ ticks s' = ticks s /\ rd (clock s') th = rd (clock s) th /\
  rd (th_stat s') th = rd (th_stat s) th /\ runnable s' th = runnable s th /\
  forall wq, 2 <= wq -> mem s' th wq = mem s th wq.

(** [n] ticks pass, with runs of the scheduler and anything that is not about
    [th] before, between and after them. *)
Inductive passes (th : Z) (s : kernel) : nat -> kernel -> Prop :=
  | pass_none : passes th s 0 s
  | pass_tick n s1 : passes th s n s1 -> passes th s (S n) (cm3_systick_isr s1)
  | pass_sched n s1 : passes th s n s1 -> passes th s n (cm3_pendsv_isr s1)
  | pass_other n s1 s2 : passes th s n s1 -> undisturbed th s1 s2 -> passes th s n s2.

(** The number of ticks a sleep of [ms] takes: the alarm is compared as a
    signed word, so that no time and more than 2^31 ticks end at the next one. *)
Definition sleep_ticks (ms : Z) : Z := if (1 <=? ms) && (ms <=? 2147483648) then ms else 1.

Lemma alarm_due t ms n :
  0 <= ms < 4294967296 -> 0 <= n < sleep_ticks ms ->
  (int32 (u32 (t + ms) - u32 (u32 (t + n) + 1)) <=? 0) = (n =? sleep_ticks ms - 1).
Proof.
  intros Hms Hn. rewrite int32_sub_u32. unfold sleep_ticks in *.
  assert (E : int32 (t + ms - (u32 (t + n) + 1)) = int32 (ms - n - 1)).
  { rewrite <- int32_u32, <- (int32_u32 (ms - n - 1)). f_equal. unfold u32.
    replace (t + ms - ((t + n) mod 4294967296 + 1)) with (t + ms - 1 - (t + n) mod 4294967296) by lia.
    rewrite Zminus_mod_idemp_r. f_equal. lia. }
  rewrite E. destruct (Z.leb_spec 1 ms), (Z.leb_spec ms 2147483648); cbn [andb] in *; cbv iota in *;
    [rewrite int32_small by lia; lia| | |lia].
  - rewrite <- int32_u32. replace (ms - n - 1) with (ms - 1) by lia.
    assert (n = 0) as -> by lia. unfold int32. rewrite !u32_small by (rewrite ?u32_small; lia).
    destruct (Z.ltb_spec (ms - 1) 2147483648); lia.
  - assert (ms = 0) as -> by lia. assert (n = 0) as -> by lia. reflexivity.
Qed.

(** What is true of the sleeper [th] after [n] ticks of a sleep of [ms] that
    began in [s0]. *)
Definition sleeper (s0 : kernel) (th ms : Z) (n : nat) (s : kernel) : Prop :=
  kernel_ok s /\ sched_ok s /\ rd (clock s) th = u32 (ticks s0 + ms) /\ ticks s = u32 (ticks s0 + Z.of_nat n) /\
  (Z.of_nat n < sleep_ticks ms ->
     rd (th_stat s) th = STAT_CLOCK /\ mem s th THINKOS_WQ_CLOCK = true /\ runnable s th = false) /\
  (Z.of_nat n = sleep_ticks ms ->
     rd (th_stat s) th = 0 /\ runnable s th = true /\ forall wq, 2 <= wq -> mem s th wq = false).

Lemma sleeper_tick s0 th ms n s :
  0 <= th < THINKOS_THREADS_MAX -> 0 <= ms < 4294967296 -> sleeper s0 th ms n s ->
  sleeper s0 th ms (S n) (cm3_systick_isr s).
Proof.
  intros Hth Hms (K & O & C & T & A & _).
  destruct (systick_thread s th K O Hth) as (Et & Ec & _ & H).
  assert (Hd : Z.of_nat n < sleep_ticks ms -> due s (ticks (cm3_systick_isr s)) th = (Z.of_nat n =? sleep_ticks ms - 1)).
  { intros Hn. unfold due. rewrite Et, T, C. apply alarm_due; lia. }
  split_and!; [by apply systick_ok|by apply systick_sched_ok|by rewrite Ec| | |].
  - rewrite Et, T. unfold u32. rewrite Zplus_mod_idemp_l. f_equal. lia.
  - intros Hn. destruct (A ltac:(lia)) as (A1 & A2 & A3). rewrite A2, Hd in H by lia.
    destruct (Z.eqb_spec (Z.of_nat n) (sleep_ticks ms - 1)); [lia|].
    destruct H as (H1 & H2 & H3). split_and!; [congruence|by rewrite H3|congruence].
  - intros Hn. destruct (A ltac:(lia)) as (A1 & A2 & A3). rewrite A2, Hd in H by lia.
    destruct (Z.eqb_spec (Z.of_nat n) (sleep_ticks ms - 1)); [|lia].
    destruct H as (H1 & H2 & H3 & _). by split_and!.
Qed.

Lemma sleeper_other s0 th ms n s s' :
  sleeper s0 th ms n s -> undisturbed th s s' -> sleeper s0 th ms n s'.
Proof.
  intros (K & O & C & T & A & W) (K' & O' & T' & C' & S' & R' & M').
  split_and!; [done|done|congruence|congruence| |].
  - intros Hn. destruct (A Hn) as (A1 & A2 & A3). by rewrite S', M', R'.
  - intros Hn. destruct (W Hn) as (W1 & W2 & W3). rewrite S', R'. split_and!; [done..|].
    intros wq Hwq. rewrite M' by done. by apply W3.
Qed.

Lemma pendsv_sched_ok s : kernel_ok s -> sched_ok s -> sched_ok (cm3_pendsv_isr s).
Proof.
  intros K O. destruct (ready_head s K) as [Hr _]. destruct O as [O1 O2 O3 O4 O5 O6 O7 O8 O9]. split; auto.
  change (0 <= __thinkos_wq_head THINKOS_WQ_READY s <= 9). lia.
Qed.

Lemma pendsv_undisturbed th s : kernel_ok s -> sched_ok s -> undisturbed th s (cm3_pendsv_isr s).
Proof. intros K O. split_and!; [by apply pendsv_ok|by apply pendsv_sched_ok|done..]. Qed.

#[local] Transparent cm3_systick_isr.

(** ** Examples *)

Definition sched_okb (s : kernel) : bool :=
  (0 <=? active s) && (active s <=? THINKOS_THREAD_VOID) && (len (sched s) =? 20) &&
  forallb (fun b => (0 <=? b) && (b <? 256)) (sched s) &&
  (THINKOS_SCHED_LIMIT_MIN <=? sched_limit s) && (sched_limit s <=? THINKOS_SCHED_LIMIT_MAX) &&
  forallb (fun i => (sched_pri s i <=? sched_limit s) && (0 <=? sched_val s i) &&
    (sched_val s i <? sched_limit s)) (seqZ 0 THINKOS_THREADS_MAX) &&
  (rd (sched s) 8 =? 0) && (rd (sched s) 17 =? 0) && (rd (sched s) 18 =? 0).

Lemma sched_okb_sound s : sched_okb s = true -> sched_ok s.
Proof.
  unfold sched_okb. rewrite !andb_true_iff, !Z.eqb_eq, !Z.leb_le.
  intros [[[[[[[[[A1 A2] L] B] M1] M2] P] I1] I2] I3].
  assert (P' : forall i, 0 <= i < 8 -> _) by (intros i Hi; exact (forallb_seqZ _ 0 8 i P Hi)).
  cbv beta in P'. split; auto.
  - intros i. destruct (decide (0 <= i < len (sched s))) as [Hi|Hi]; [|rewrite rd_out by done; lia].
    rewrite forallb_forall in B. unfold rd. destruct (Z.ltb_spec i 0); [lia|].
    assert (In (nth (Z.to_nat i) (sched s) 0) (sched s)) as Hin by (apply nth_In; unfold len in Hi; lia).
    specialize (B _ Hin). lia.
  - intros i Hi. specialize (P' i Hi). lia.
  - intros i Hi. specialize (P' i Hi). lia.
Qed.

Ltac sched_ok_compute := apply sched_okb_sound; vm_compute; reflexivity.

(** Thread 1 waits for semaphore 0 until tick 5, thread 2 sleeps until tick
    7, thread 0 runs with priority 3 of 8; it is tick 4. *)
Definition clock_demo : kernel :=
  demo |> set_ticks 4
       |> set_clock [0; 5; 7; 0; 0; 0; 0; 0]
       |> set_wq_lst (wr (wr (wr (wq_lst demo) THINKOS_WQ_READY 265) THINKOS_WQ_CLOCK 6) THINKOS_SEM_BASE 2)
       |> set_th_stat [0; 39; 5; 0; 0; 0; 0; 0]
       |> set_sched_limit 8
       |> sched_pri_store 0 3
       |> sched_val_store 0 4.

Lemma scheduler_runs_first_ready_witness :
  active (cm3_pendsv_isr (set_active 3 clock_demo)) = 0 /\
  rd (ctx (cm3_pendsv_isr (set_active 3 clock_demo))) 3 = record_of 0.
Proof.
  destruct (scheduler_runs_first_ready (set_active 3 clock_demo)) as (_ & _ & _ & H & _).
  - kernel_ok_compute.
  - reflexivity.
  - vm_compute; split; congruence.
  - split; [vm_compute; reflexivity|exact H].
Defined.

Lemma tick_wakes_due_witness :
  kernel_ok clock_demo /\ sched_ok clock_demo /\
  mem (cm3_systick_isr clock_demo) 1 THINKOS_SEM_BASE = false /\
  mem (cm3_systick_isr clock_demo) 2 THINKOS_WQ_CLOCK = true /\
  rd (th_stat (cm3_systick_isr clock_demo)) 1 = 0.
Proof.
  assert (K : kernel_ok clock_demo) by kernel_ok_compute.
  assert (O : sched_ok clock_demo) by sched_ok_compute.
  destruct (tick_wakes_due clock_demo K O) as (_ & _ & _ & H). cbv zeta in H.
  pose proof (H 1 ltac:(lia)) as H1. pose proof (H 2 ltac:(lia)) as H2. clear H.
  match type of H1 with if ?b then _ else _ => replace b with true in H1 by (vm_compute; reflexivity) end.
  match type of H2 with if ?b then _ else _ => replace b with false in H2 by (vm_compute; reflexivity) end.
  destruct H1 as (H1 & _ & H3 & _), H2 as (_ & _ & H2).
  split; [exact K|]. split; [exact O|]. split; [apply H3; lia|].
  split; [rewrite H2; [vm_compute; reflexivity|lia]|exact H1].
Defined.

(** Five ticks of thread 0, which the scheduler makes run again at once. *)
Definition share_demo (k : nat) : kernel :=
  Nat.iter k (fun s => set_wq_lst (wq_lst clock_demo) (set_pendsv false (thinkos_timeshare s))) (set_pendsv false clock_demo).


