(* ===== verification/Thread.v ===== *)
(** * Threads: creation, exit, join, cancel and termination

    src/sdk/libthinkos/thinkos_thread.c, thinkos_exit.c, thinkos_join.c,
    thinkos_cancel.c and the helpers of misc/ (exec.c, thread_get.c,
    thread_getnext.c, thread_inf_set.c, thread_isalive.c, active.c,
    memset32.c). *)

From stdpp Require Import base tactics numbers list gmap.
From Stdlib Require Import ZArith Lia.
From S2P Require Import Prelude CortexM State Kernel BmpAlloc Invariant Decide Init Demo Transitions Pause Sched.

(** ** Code *)

(** [__thinkos_memset32] on memory: the bytes of the buffer, and the words of
    the context records that lie in it. *)
Fixpoint memset32_bytes (n : nat) (dst val : Z) (m : gmap Z Z) : gmap Z Z :=
  match n with
  | O => m
  | S n =>
      memset32_bytes n (dst + 4) val
        (<[dst := u8 val]> (<[dst + 1 := u8 (Z.shiftr val 8)]>
        (<[dst + 2 := u8 (Z.shiftr val 16)]> (<[dst + 3 := u8 (Z.shiftr val 24)]> m))))
  end.

Definition memset32_record (dst val len a : Z) (c : thinkos_context) : thinkos_context :=
  let w off old := if (dst <=? a + off) && (a + off <? dst + 4 * (len / 4)) then val else old in
  mk_context (w 0 (r4 c)) (w 4 (r5 c)) (w 8 (r6 c)) (w 12 (r7 c))
    (w 16 (r8 c)) (w 20 (r9 c)) (w 24 (r10 c)) (w 28 (r11 c))
    (w 32 (r0 c)) (w 36 (r1 c)) (w 40 (r2 c)) (w 44 (r3 c))
    (w 48 (r12 c)) (w 52 (lr c)) (w 56 (pc c)) (w 60 (xpsr c)).

Definition __thinkos_memset32 (dst val len : Z) (s : kernel) : kernel :=
  s |> set_umem (memset32_bytes (Z.to_nat (len / 4)) dst val (umem s))
    |> set_frames (map_imap (fun a c => Some (memset32_record dst val len a c)) (frames s)).

(** The new record replaces what is at its address. *)
Definition __thinkos_thread_init (thread_id sp task arg : Z) (s : kernel) : kernel :=
  let pc := Z.land task 4294967294 in
  let sp := Z.land sp 4294967288 in
  let sp := u32 (sp - sizeof_context) in
  let ctx := mk_context 0 0 0 0 0 0 0 0 arg 0 0 0 0 addr_exit_stub pc CM_EPSR_T in
  s |> set_frames (<[sp := ctx]> (frames s))
    |> ctx_store thread_id sp
    |> wq_bit_store THINKOS_WQ_PAUSED thread_id true.

Definition th_inf_store (th v : Z) (s : kernel) : kernel := set_th_inf (wr (th_inf s) th v) s.

(** The fields of [init->opt] that [Init] does not name. *)
Definition opt_stack_size (opt : Z) : Z := Z.land opt 65535.

(** The slot for a thread that asks for number [id]: from [id - 1] up, then
    down. *)
Definition thread_slot (id alloc : Z) : Z * Z :=
  let target_id := id - 1 in
  if THINKOS_THREADS_MAX <=? target_id then thinkos_alloc_hi alloc THINKOS_THREADS_MAX
  else
    let target_id := if target_id <? 0 then 0 else target_id in
    let '(alloc, thread_id) := thinkos_alloc_lo alloc target_id in
    if thread_id <? 0 then thinkos_alloc_hi alloc target_id else (alloc, thread_id).

(** Priority, schedule limit and credit of the new thread. *)
Definition thread_sched_init (thread_id priority : Z) (s : kernel) : kernel :=
  let s := s |> sched_pri_store thread_id priority in
  let s := if THINKOS_SCHED_LIMIT_MAX <? sched_pri s thread_id
           then s |> sched_pri_store thread_id THINKOS_SCHED_LIMIT_MAX else s in
  let s := if sched_limit s <? sched_pri s thread_id
           then s |> set_sched_limit (sched_pri s thread_id) else s in
  s |> sched_val_store thread_id (sched_limit s / 2).

(** The call's record is read through [arg] again after the new stack has
    been filled. *)
Definition thinkos_thread_create_svc (arg : Z) (s : kernel) : kernel :=
  let '(alloc, thread_id) := thread_slot (__ID (arg_3 arg s)) (th_alloc s) in
  let s := s |> set_th_alloc alloc in
  if thread_id <? 0 then s |> arg_ret arg THINKOS_EINVAL
  else
    let stack_size := opt_stack_size (arg_3 arg s) in
    let sp := u32 (arg_2 arg s + stack_size) in
    if stack_size <? sizeof_context then s |> arg_ret arg THINKOS_EINVAL
    else
      let s := s |> __thinkos_memset32 (arg_2 arg s) 3735928559 stack_size in
      let s := s |> th_inf_store thread_id (arg_4 arg s) in
      let s := s |> thread_sched_init thread_id (__PRIORITY (arg_3 arg s)) in
      let s := s |> __thinkos_thread_init thread_id sp (arg_0 arg s) (arg_1 arg s) in
      let s := if __PAUSED (arg_3 arg s) =? 0
               then (s |> __thinkos_thread_resume thread_id).1 |> __thinkos_defer_sched
               else s in
      s |> arg_ret arg (thread_id + 1).

(** The schedule limit is raised to the highest priority of the other
    threads; it is never lowered. *)
Definition sched_limit_eval (thread_id : Z) (s : kernel) : kernel :=
  fold_left (fun s j =>
    if j =? thread_id then s
    else if rd (ctx s) j =? 0 then s
    else if sched_limit s <? sched_pri s j then s |> set_sched_limit (sched_pri s j) else s)
    (seqZ 0 THINKOS_THREADS_MAX) s.

Definition __thinkos_thread_abort (thread_id : Z) (s : kernel) : kernel :=
  let s := s |> sched_limit_eval thread_id in
  let s := s |> set_th_alloc (__bit_mem_wr (th_alloc s) thread_id false) in
  let s := if thread_id =? active s then s |> set_active THINKOS_THREAD_VOID else s in
  s |> ctx_store thread_id 0
    |> __thinkos_suspend thread_id
    |> __thinkos_defer_sched.

(** [__thinkos_wakeup(wq, th); thinkos_rt.ctx[th]->r0 = code] *)
Definition join_wakeup (wq code th : Z) (s : kernel) : kernel :=
  s |> __thinkos_wakeup wq th
    |> ctx_r0_store th code.

Definition thinkos_terminate_svc (arg self : Z) (s : kernel) : kernel :=
  let thread := arg_0 arg s in
  let code := arg_1 arg s in
  let thread_id := if thread =? 0 then self else u32 (thread - 1) in
  if THINKOS_THREADS_MAX <=? thread_id then s |> arg_ret arg THINKOS_EINVAL
  else if negb (__bit_mem_rd (th_alloc s) thread_id) then s |> arg_ret arg THINKOS_EINVAL
  else
    let s := s |> wq_bit_store THINKOS_WQ_TMSHARE thread_id false in
    let stat := rd (th_stat s) thread_id in
    let s := s |> th_stat_store thread_id 0
               |> wq_bit_store (Z.shiftr stat 1) thread_id false in
    let wq := THINKOS_JOIN_BASE + thread_id in
    let th := __thinkos_wq_head wq s in
    let s := if negb (th =? THINKOS_THREAD_NULL) then
               s |> join_wakeup wq code th
                 |> wq_drain 32 (join_wakeup wq code) wq
                 |> __thinkos_defer_sched
             else s in
    s |> __thinkos_thread_abort thread_id.

(** [ctx->pc = v] through the call's record. *)
Definition arg_pc (arg v : Z) (s : kernel) : kernel := frame_store (set_pc v) arg s.

Definition thinkos_exit_svc (arg self : Z) (s : kernel) : kernel :=
  let s := if rd (wq_lst s) (THINKOS_JOIN_BASE + self) =? 0 then
             s |> __thinkos_wq_insert THINKOS_WQ_CANCELED self
               |> __thinkos_suspend self
               |> __thinkos_defer_sched
           else s in
  s |> arg_pc arg addr_thread_exit.

Definition thinkos_join_svc (arg self : Z) (s : kernel) : kernel :=
  let thread_id := u32 (arg_0 arg s - 1) in
  if THINKOS_THREADS_MAX <=? thread_id then s |> arg_ret arg THINKOS_EINVAL
  else if negb (__bit_mem_rd (th_alloc s) thread_id) then s |> arg_ret arg THINKOS_EINVAL
  else
    let s := if __bit_mem_rd (rd (wq_lst s) THINKOS_WQ_CANCELED) thread_id then
               s |> wq_bit_store THINKOS_WQ_CANCELED thread_id false
                 |> wq_bit_store THINKOS_WQ_READY thread_id true
             else s in
    let wq := THINKOS_JOIN_BASE + thread_id in
    s |> __thinkos_wq_insert wq self
      |> __thinkos_suspend self
      |> __thinkos_defer_sched
      |> arg_ret arg (-1).

(** [thinkos_rt.ctx[th]->pc = v] *)
Definition ctx_pc_store (th v : Z) (s : kernel) : kernel := frame_store (set_pc v) (rd (ctx s) th) s.

Definition thinkos_cancel_svc (arg self : Z) (s : kernel) : kernel :=
  let thread := arg_0 arg s in
  let thread_id := if thread =? 0 then self else u32 (thread - 1) in
  let code := arg_1 arg s in
  if THINKOS_THREADS_MAX <=? thread_id then s |> arg_ret arg THINKOS_EINVAL
  else if negb (__bit_mem_rd (th_alloc s) thread_id) then s |> arg_ret arg THINKOS_EINVAL
  else
    let stat := rd (th_stat s) thread_id in
    s |> wq_bit_store (Z.shiftr stat 1) thread_id false
      |> __thinkos_wq_insert THINKOS_WQ_CANCELED thread_id
      |> wq_bit_store THINKOS_WQ_TMSHARE thread_id false
      |> wq_bit_store THINKOS_WQ_CLOCK thread_id false
      |> ctx_pc_store thread_id addr_thread_exit
      |> ctx_r0_store thread_id code
      |> arg_ret arg 0.

(** misc/thread_inf_set.c, misc/exec.c *)
Definition __thinkos_thread_inf_set (thread_id inf : Z) (s : kernel) : kernel :=
  if negb (rd (ctx s) thread_id =? 0) then s |> th_inf_store thread_id inf else s.

Definition __thinkos_exec (main_stack thread_id func arg : Z) (paused : bool) (s : kernel) : kernel :=
  let s := s |> __thinkos_thread_abort thread_id in
  let s := s |> set_th_alloc (__bit_mem_wr (th_alloc s) thread_id true)
             |> __thinkos_thread_init thread_id main_stack func arg
             |> __thinkos_thread_inf_set thread_id addr_main_inf in
  if negb paused then (s |> __thinkos_thread_resume thread_id).1 |> __thinkos_defer_sched else s.

(** misc/active.c, misc/thread_isalive.c *)
Definition __thinkos_active (s : kernel) : bool :=
  existsb (fun th => negb (rd (ctx s) th =? 0)) (seqZ 0 THINKOS_THREADS_MAX).

Definition __thinkos_thread_isalive (th : Z) (s : kernel) : bool :=
  if th =? THINKOS_THREAD_IDLE then true
  else if th =? THINKOS_THREAD_VOID then negb (rd (ctx s) 9 =? 0)
  else if THINKOS_THREADS_MAX <=? th then false
  else negb (rd (ctx s) th =? 0).

(** misc/thread_getnext.c: [n] bounds the rest of the scan. *)
Fixpoint getnext_from (n : nat) (idx : Z) (s : kernel) : Z :=
  match n with
  | O => -1
  | S n => if idx <? THINKOS_THREADS_MAX
           then if negb (rd (ctx s) idx =? 0) then idx else getnext_from n (idx + 1) s
           else -1
  end.

Definition __thinkos_thread_getnext (th : Z) (s : kernel) : Z :=
  let idx := if th <? 0 then 0 else th + 1 in
  getnext_from 8 idx s.

(** misc/thread_get.c *)
Record thinkos_thread := mk_thread {
  st_no : Z; st_wq : Z; st_tmw : Z; st_alloc : Z; st_sched_val : Z; st_sched_pri : Z;
  st_clock : Z; st_cyccnt : Z; st_inf : Z; st_sp : Z; st_regs : thinkos_context
}.

Definition __thinkos_thread_get (thread_id : Z) (s : kernel) : option thinkos_thread :=
  if (THINKOS_THREADS_MAX <=? thread_id) || (rd (ctx s) thread_id =? 0) then None
  else Some (mk_thread (thread_id + 1) (Z.shiftr (rd (th_stat s) thread_id) 1)
    (Z.land (rd (th_stat s) thread_id) 1)
    (Z.b2z (negb (Z.land (th_alloc s) (Z.shiftl 1 thread_id) =? 0)))
    (u8 (sched_val s thread_id)) (sched_pri s thread_id)
    (u32 (int32 (rd (clock s) thread_id - ticks s))) 0 (rd (th_inf s) thread_id)
    (rd (ctx s) thread_id) (context_at (rd (ctx s) thread_id) s)).

(** ** Queue consistency *)

#[global] Instance join_waker wq code : Waker wq code (join_wakeup wq code).
Proof.
  split; intros; try (by kred). unfold join_wakeup.
  destruct (ret_alter a (rd (ctx s) th) 0 s (__thinkos_wakeup wq th s) H) as [Hl E]; [by kred|].
  destruct (ret_alter a (rd (ctx s) th) code _ (ctx_r0_store th code (__thinkos_wakeup wq th s)) Hl)
    as [Hl' E']; [by kred|]. split; [done|]. rewrite E', E. by destruct (a =? rd (ctx s) th).
Qed.

Lemma join_sync th : 0 <= th < THINKOS_THREADS_MAX -> sync_wq (THINKOS_JOIN_BASE + th).
Proof. unfold sync_wq. lia. Qed.

(** A thread in the canceled queue was canceled or has exited. *)
Lemma ok_canceled m st al iw :
  thread_ok m st al iw -> m THINKOS_WQ_CANCELED = true -> st = STAT_CANCELED /\ al = true /\ iw = false.
Proof.
  intros H Hm. destruct H as [H|H|H|w tm Hw Htm H|st iw Hst Hiw H|H|H He|H]; try (rewrite H in Hm; lia).
  - rewrite H in Hm. unfold sync_wq in Hw. destruct (Z.eqb_spec 58 w); [lia|]. by destruct tm.
  - done.
  - apply H in Hm. lia.
Qed.

(** Letting an exited thread go on, when it is joined. *)
Definition release_canceled (th : Z) (s : kernel) : kernel :=
  if __bit_mem_rd (rd (wq_lst s) THINKOS_WQ_CANCELED) th then
    s |> wq_bit_store THINKOS_WQ_CANCELED th false |> wq_bit_store THINKOS_WQ_READY th true
  else s.

Lemma release_mem th th' wq s :
  len (wq_lst s) = THINKOS_WQ_LST_END -> 0 <= th ->
  mem (release_canceled th s) th' wq =
    if mem s th THINKOS_WQ_CANCELED && (th =? th')
    then if wq =? THINKOS_WQ_READY then true else if wq =? THINKOS_WQ_CANCELED then false else mem s th' wq
    else mem s th' wq.
Proof.
  intros Hl Hth. unfold release_canceled, __bit_mem_rd. fold (inq (wq_lst s) 58 th). fold (mem s th 58).
  destruct (mem s th 58); [|done]. mem_simp. rewrite (Z.eqb_sym 0), (Z.eqb_sym 58).
  by destruct (th =? th'), (wq =? 0), (wq =? 58).
Qed.

Lemma release_ok s th :
  kernel_ok s -> 0 <= th < THINKOS_THREADS_MAX -> kernel_ok (release_canceled th s).
Proof.
  intros K Hth. destruct (mem s th 58) eqn:Hm.
  - destruct (ok_canceled _ _ _ _ (k_threads s K th Hth) Hm) as (Hst & Ha & Hiw).
    apply (kernel_ok_step' th s); [done|done| |done|].
    + unfold release_canceled. destruct (__bit_mem_rd _ th); ts.
    + assert (th_stat (release_canceled th s) = th_stat s /\ th_alloc (release_canceled th s) = th_alloc s)
        as [-> ->] by (unfold release_canceled; by destruct (__bit_mem_rd _ th)).
      rewrite Hst, Ha. apply T_canceled.
      * intros wq. rewrite release_mem by (apply K || lia). rewrite Hm, Z.eqb_refl. cbn [andb].
        destruct (Z.eqb_spec wq 0); [tauto|]. destruct (Z.eqb_spec wq 58); [tauto|].
        pose proof (k_threads s K th Hth) as T. unfold thread_in in T. rewrite Hst in T.
        intros Hq. inversion T as [| | |w tm Hw _ H Hs|st iw Hs' _ H| |H _|]; subst.
        -- unfold sync_wq in Hw. destruct tm; simpl in *; lia.
        -- rewrite H in Hm. done.
        -- by apply H.
      * exists 0. rewrite release_mem by (apply K || lia). by rewrite Hm, Z.eqb_refl.
  - assert (release_canceled th s = s) as ->; [|done].
    unfold release_canceled, __bit_mem_rd. unfold mem, inq in Hm. by rewrite Hm.
Qed.

Lemma release_calling s th self :
  kernel_ok s -> 0 <= th < THINKOS_THREADS_MAX -> 0 <= self < THINKOS_THREADS_MAX ->
  calling s self -> calling (release_canceled th s) self.
Proof.
  intros K Hth Hs [Hr Hst]. split.
  - rewrite release_mem by (apply K || lia). destruct (mem s th 58 && (th =? self)); done.
  - unfold release_canceled. by destruct (__bit_mem_rd _ th).
Qed.

Lemma join_ok s arg self :
  kernel_ok s -> 0 <= self < THINKOS_THREADS_MAX -> calling s self -> kernel_ok (thinkos_join_svc arg self s).
Proof.
  intros K Hs Hc. unfold thinkos_join_svc. cbv zeta. guards.
  fold (release_canceled (u32 (arg_0 arg s - 1)) s).
  pose proof (u32_range (arg_0 arg s - 1)). set (t := u32 (arg_0 arg s - 1)) in *.
  assert (Ht : 0 <= t < 8) by lia. kpeel. apply wq_insert_suspend_ok; [by apply release_ok|done|apply join_sync; lia|by apply release_calling].
Qed.

(** Entering the canceled queue: the caller when it exits. *)
Definition cancel_self (self : Z) (s : kernel) : kernel :=
  s |> __thinkos_wq_insert THINKOS_WQ_CANCELED self |> __thinkos_suspend self |> __thinkos_defer_sched.

Lemma cancel_self_effect s self :
  kernel_ok s -> 0 <= self < THINKOS_THREADS_MAX -> calling s self ->
  kernel_ok (cancel_self self s) /\
  (forall wq, mem (cancel_self self s) self wq = (wq =? THINKOS_WQ_CANCELED)) /\
  rd (th_stat (cancel_self self s)) self = STAT_CANCELED /\
  forall th, calling s th -> th <> self -> 0 <= th < THINKOS_THREADS_MAX -> calling (cancel_self self s) th.
Proof.
  intros K Hs Hc. destruct (calling_facts s K self Hs Hc) as (Ha & Hiw & Hall).
  pose proof (len_stat s K self Hs). unfold cancel_self. rewrite mem_defer.
  set (s1 := __thinkos_wq_insert 58 self s).
  assert (L1 : len (wq_lst s1) = 59) by (unfold s1, __thinkos_wq_insert; len_wq).
  assert (M1 : forall wq, mem s1 self wq = (wq =? 0) || (wq =? 58)).
  { intros wq. unfold s1, __thinkos_wq_insert. mem_simp. rewrite Hall, Z.eqb_refl, andb_true_r, (Z.eqb_sym 58).
    by destruct (wq =? 0), (wq =? 58). }
  assert (M2 : forall wq, mem (__thinkos_suspend self s1) self wq = (wq =? 58)).
  { intros wq. rewrite mem_suspend_self by (done || lia || by rewrite M1). rewrite M1.
    destruct (Z.eqb_spec wq 0) as [->|]; [done|]. by destruct (wq =? 58). }
  assert (S2 : rd (th_stat (__thinkos_suspend self s1)) self = 116) by (unfold s1; kred; by rewrite rd_wr_eq).
  assert (T : thread_step self s (__thinkos_suspend self s1)) by (unfold s1, __thinkos_wq_insert; ts).
  split_and!; [|exact M2|exact S2|].
  - apply ok_defer. apply (kernel_ok_step' self s); [done|done|exact T|done|]. rewrite S2.
    assert (th_alloc (__thinkos_suspend self s1) = th_alloc s) as -> by done. rewrite Ha.
    apply T_canceled; [intros wq; rewrite M2; lia|exists 58; by rewrite M2].
  - intros th [Hr Hst] Hne Hth. destruct (ts_other _ _ _ T th Hth Hne (k_wq s K)) as ([_ Hq] & E & _).
    split; [|kred; etransitivity; [exact E|exact Hst]].
    rewrite mem_defer. by destruct Hq as [[-> _]|[-> _]]; rewrite Hr.
Qed.

Lemma exit_ok s arg self :
  kernel_ok s -> 0 <= self < THINKOS_THREADS_MAX -> calling s self -> kernel_ok (thinkos_exit_svc arg self s).
Proof.
  intros K Hs Hc. unfold thinkos_exit_svc. cbv zeta.
  match goal with |- kernel_ok (arg_pc _ _ ?x) => apply (kernel_ok_frame x); [reflexivity..|] end.
  destruct (_ =? 0); [|done]. by apply cancel_self_effect.
Qed.

Section target.
Context (s : kernel) (K : kernel_ok s) (t : Z) (Ht : 0 <= t < THINKOS_THREADS_MAX).
Context (Hiw : irq_waiting (irq_th s) t = false).
Let w := Z.shiftr (rd (th_stat s) t) 1.

(** A thread that was taken out of the queue its status names, of the time
    share queue and of the clock queue is at most paused, or ready because
    it was canceled and joined. *)
Lemma removed_queues wq :
  wq <> w -> wq <> THINKOS_WQ_TMSHARE -> wq <> THINKOS_WQ_CLOCK -> mem s t wq = true ->
  wq = THINKOS_WQ_PAUSED \/ (wq = THINKOS_WQ_READY /\ rd (th_stat s) t = STAT_CANCELED).
Proof using K Ht.
  intros Hw H1 H2 Hm. unfold w in Hw. pose proof (k_threads s K t Ht) as T. unfold thread_in in T.
  revert Hw T. generalize (rd (th_stat s) t) (Z.testbit (th_alloc s) t) (irq_waiting (irq_th s) t).
  intros st al iw Hw T. revert Hw.
  destruct T as [H|H|H|w' tm Hw' Htm H|st' iw' Hst' Hiw' H|H|H He|H]; rewrite ?shiftr_stat; intros Hw;
    try (rewrite H in Hm; change (Z.shiftr 0 1) with 0 in *; change (Z.shiftr 5 1) with 2 in *; lia).
  - change (Z.shiftr 116 1) with 58 in Hw. apply H in Hm. lia.
  - left. by apply H.
Qed.

Lemma target_wq : 0 <= w < THINKOS_WQ_LST_END.
Proof using K Ht. pose proof (stat_queue _ (thread_stat_ok _ _ _ _ (k_threads s K t Ht))). fold w in H. lia. Qed.

(** Canceling parks the thread in the canceled queue. *)
Lemma cancel_thread_ok :
  Z.testbit (th_alloc s) t = true ->
  kernel_ok (s |> wq_bit_store w t false
               |> __thinkos_wq_insert THINKOS_WQ_CANCELED t
               |> wq_bit_store THINKOS_WQ_TMSHARE t false
               |> wq_bit_store THINKOS_WQ_CLOCK t false).
Proof using K Ht Hiw.
  intros Ha. pose proof target_wq as Hw. pose proof (len_stat s K t Ht) as Hl. unfold __thinkos_wq_insert.
  set (s' := wq_bit_store 2 t false _).
  assert (M : forall wq, mem s' t wq = if (2 =? wq) || (1 =? wq) then false else if 58 =? wq then true
    else if w =? wq then false else mem s t wq).
  { intros wq. unfold s'. mem_simp. rewrite Z.eqb_refl, !andb_true_r.
    by destruct (2 =? wq), (1 =? wq), (58 =? wq). }
  apply (kernel_ok_step' t s); [done|done|unfold s'; ts|done|].
  assert (rd (th_stat s') t = 116) as -> by (unfold s'; kred; by rewrite rd_wr_eq).
  assert (th_alloc s' = th_alloc s) as -> by done. rewrite Ha. apply T_canceled; [|exists 58; by rewrite M].
  intros wq. rewrite M. destruct (Z.eqb_spec 2 wq); [done|]. destruct (Z.eqb_spec 1 wq); [done|].
  cbn [orb]. destruct (Z.eqb_spec 58 wq); [intros; lia|]. destruct (Z.eqb_spec w wq); [done|].
  intros Hm. destruct (removed_queues wq) as [->|[-> _]]; auto; lia.
Qed.
End target.

Lemma cancel_ok s arg self :
  kernel_ok s -> 0 <= self < THINKOS_THREADS_MAX ->
  (let t := if arg_0 arg s =? 0 then self else u32 (arg_0 arg s - 1) in irq_waiting (irq_th s) t = false) ->
  kernel_ok (thinkos_cancel_svc arg self s).
Proof.
  intros K Hs Hiw. unfold thinkos_cancel_svc. cbv zeta in *.
  set (t := if arg_0 arg s =? 0 then self else u32 (arg_0 arg s - 1)) in *.
  assert (0 <= t) by (unfold t; destruct (_ =? 0); [lia|apply u32_range]). guards.
  kpeel. unfold ctx_pc_store.
  match goal with |- kernel_ok (frame_store _ _ ?x) => apply (kernel_ok_frame x); [reflexivity..|] end.
  apply cancel_thread_ok; [done|lia|done|]. by apply negb_false_iff in Heqb.
Qed.

(** Termination goes through a state in which the thread is in no queue and
    still allocated.  [park t] puts it in the canceled queue; the wake-up of
    the joiners commutes with that. *)
Definition park (t : Z) (s : kernel) : kernel :=
  s |> th_stat_store t STAT_CANCELED |> wq_bit_store THINKOS_WQ_CANCELED t true.

Lemma park_wakeup t wq code th s :
  len (wq_lst s) = THINKOS_WQ_LST_END -> sync_wq wq -> 0 <= th -> 0 <= t -> th <> t ->
  join_wakeup wq code th (park t s) = park t (join_wakeup wq code th s).
Proof.
  intros Hl Hwq Hth Ht Hne. unfold sync_wq in Hwq. destruct s as [x1 x2 x3 x4 x5 x6 x7 x8 x9 x10 x11 x12 x13 x14 x15 x16 x17 x18 x19 x20 x21 x22 x23 x24 x25 x26 x27 x28 x29 x30 x31 x32 x33 x34]. ksimpl.
  cbv beta iota delta [join_wakeup park __thinkos_wakeup wq_bit_store th_stat_store ctx_r0_store frame_store
    set_wq_lst set_th_stat set_frames set_wild
    ctx critical_cnt active wq_lst th_stat sched sched_limit ticks clock sem_val ev flag gate
    lock irq_th th_alloc mutex_alloc cond_alloc sem_alloc ev_alloc flag_alloc gate_alloc
    th_inf frames psp pendsv irq_en irq_pend mon_events mon_req mon_pend console umem wild].
  f_equal.
  - rewrite (wq_bit_wr_comm_th _ 58 0) by (rewrite ?len_wq_bit_wr; lia).
    rewrite (wq_bit_wr_comm_th _ 58 wq) by (rewrite ?len_wq_bit_wr; lia).
    by rewrite (wq_bit_wr_comm_th _ 58 2) by (rewrite ?len_wq_bit_wr; lia).
  - by apply wr_comm.
Qed.

Lemma park_mem t x th wq :
  len (wq_lst x) = THINKOS_WQ_LST_END -> 0 <= t ->
  mem (park t x) th wq = if (wq =? THINKOS_WQ_CANCELED) && (t =? th) then true else mem x th wq.
Proof. intros Hl Ht. unfold park. mem_simp. by rewrite (Z.eqb_sym 58). Qed.

Lemma park_head t wq s :
  wq <> THINKOS_WQ_CANCELED -> __thinkos_wq_head wq (park t s) = __thinkos_wq_head wq s.
Proof.
  intros H. unfold __thinkos_wq_head, park. kred. unfold wq_bit_wr. by rewrite rd_wr_ne.
Qed.

Lemma park_drain t wq code n s :
  len (wq_lst s) = THINKOS_WQ_LST_END -> sync_wq wq -> 0 <= t -> mem s t wq = false ->
  wq_drain n (join_wakeup wq code) wq (park t s) = park t (wq_drain n (join_wakeup wq code) wq s) /\
  len (wq_lst (wq_drain n (join_wakeup wq code) wq s)) = THINKOS_WQ_LST_END /\
  (forall wq', mem (wq_drain n (join_wakeup wq code) wq s) t wq' = mem s t wq') /\
  rd (th_stat (wq_drain n (join_wakeup wq code) wq s)) t = rd (th_stat s) t /\
  th_alloc (wq_drain n (join_wakeup wq code) wq s) = th_alloc s.
Proof.
  intros Hl Hwq Ht. revert s Hl. induction n as [|n IH]; intros s Hl Hm; [done|]. cbn [wq_drain].
  rewrite park_head by (unfold sync_wq in Hwq; lia).
  destruct (Z.eqb_spec (__thinkos_wq_head wq s) 32) as [|Hn]; [done|].
  destruct (wq_head_spec wq s Hn) as [Hr Hin].
  set (th := __thinkos_wq_head wq s) in *.
  assert (Hne : th <> t) by (intros ->; unfold mem in Hm; congruence).
  assert (L' : len (wq_lst (join_wakeup wq code th s)) = 59) by (unfold join_wakeup; len_wq).
  assert (M' : forall wq', mem (join_wakeup wq code th s) t wq' = mem s t wq').
  { intros wq'. unfold join_wakeup, __thinkos_wakeup. unfold sync_wq in Hwq. mem_simp.
    destruct (Z.eqb_spec th t); [done|]. by rewrite !andb_false_r. }
  rewrite park_wakeup by (done || lia).
  destruct (IH (join_wakeup wq code th s) L') as (-> & ? & H3 & H4 & H5); [by rewrite M'|].
  split_and!; [done|done| | |].
  - intros wq'. by rewrite H3.
  - rewrite H4. unfold join_wakeup. kred. by rewrite rd_wr_ne.
  - by rewrite H5.
Qed.

(** Aborting changes, as far as the queues go, one thread. *)
Lemma sched_limit_eval_frame t s :
  exists v, sched_limit_eval t s = set_sched_limit v s.
Proof.
  unfold sched_limit_eval. generalize (seqZ 0 8). intros l.
  enough (H : forall v0, exists v, fold_left (fun s j => if j =? t then s else if rd (ctx s) j =? 0 then s
    else if sched_limit s <? sched_pri s j then set_sched_limit (sched_pri s j) s else s) l
    (set_sched_limit v0 s) = set_sched_limit v s).
  { specialize (H (sched_limit s)). destruct s. exact H. }
  induction l as [|j l IH]; intros v0; [by exists v0|]. cbn [fold_left].
  destruct (j =? t); [apply IH|]. destruct (_ =? 0); [apply IH|]. destruct (_ <? _); [|apply IH].
  destruct (IH (sched_pri (set_sched_limit v0 s) j)) as [v E]. exists v. exact E.
Qed.

Lemma abort_eq t s :
  exists v a, (a = if t =? active s then THINKOS_THREAD_VOID else active s) /\
  __thinkos_thread_abort t s =
  __thinkos_defer_sched (__thinkos_suspend t (ctx_store t 0
    (set_active a (set_th_alloc (__bit_mem_wr (th_alloc s) t false) (set_sched_limit v s))))).
Proof.
  unfold __thinkos_thread_abort. destruct (sched_limit_eval_frame t s) as [v ->]. exists v. eexists.
  split; [reflexivity|]. cbv zeta. ksimpl_goal. destruct (t =? active s); [done|]. by destruct s.
Qed.

(** Aborting from [x], compared with a state [y] that has the same queues and
    the thread parked. *)
Section abort.
Context (t : Z) (Ht : 0 <= t < THINKOS_THREADS_MAX) (y x : kernel).
Context (Ly : len (wq_lst y) = THINKOS_WQ_LST_END).
Context (Ew : wq_lst x = wq_lst y) (Es : th_stat x = th_stat y).

Lemma abort_step :
  th_alloc x = th_alloc y -> irq_th x = irq_th y -> irq_en x = irq_en y ->
  thread_step t (park t y) (__thinkos_thread_abort t x).
Proof using Ht Ly Ew Es.
  intros Eal Ei Een. destruct (abort_eq t x) as (v & a & _ & ->). set (s' := __thinkos_defer_sched _).
  assert (Wq : wq_lst s' = suspend_wq (wq_lst y) t) by (unfold s'; kred; by rewrite Ew).
  assert (St : th_stat s' = th_stat y) by (unfold s'; by kred).
  assert (Al : th_alloc s' = __bit_mem_wr (th_alloc y) t false) by (unfold s'; kred; by rewrite Eal).
  assert (Ir : irq_th s' = irq_th y) by (unfold s'; by kred).
  assert (Ie : irq_en s' = irq_en y) by (unfold s'; by kred).
  clearbody s'. split.
  - intros _. by rewrite Wq, len_suspend_wq.
  - unfold park. kred. by rewrite St, len_wr.
  - rewrite Ir. unfold park. by kred.
  - rewrite Ie. unfold park. by kred.
  - intros th' wq Hth' Hl Hb.
    assert (Hy : forall th wq, mem y th wq = true -> 0 <= th < 8 \/ wq = 0 /\ th = 8).
    { intros th'' wq' Hq. apply Hb. rewrite park_mem by (done || lia). by destruct ((wq' =? 58) && (t =? th'')). }
    destruct (thread_step_suspend t y Ht) as [_ _ _ _ H _].
    rewrite park_mem by (done || lia). destruct (Z.eqb_spec t th'); [lia|]. rewrite andb_false_r.
    rewrite <- (H th' wq Hth' Ly Hy). unfold mem. by rewrite Wq.
  - intros th' Hth' Hne Hl. split_and!.
    + apply (same_thread_trans _ (mem y th')).
      * apply same_thread_ext. intros wq. rewrite park_mem by (done || lia).
        destruct (Z.eqb_spec t th'); [lia|]. by rewrite andb_false_r.
      * unfold mem. rewrite Wq. apply same_suspend; lia.
    + rewrite St. unfold park. kred. by rewrite rd_wr_ne.
    + rewrite Al. unfold park. kred. by rewrite bit_wr_ne by lia.
Qed.

Lemma abort_self :
  mem y t THINKOS_WQ_TMSHARE = false ->
  (forall wq, mem (__thinkos_thread_abort t x) t wq = if wq =? THINKOS_WQ_READY then false else mem y t wq) /\
  rd (th_stat (__thinkos_thread_abort t x)) t = rd (th_stat y) t /\
  Z.testbit (th_alloc (__thinkos_thread_abort t x)) t = false.
Proof using Ht Ly Ew Es.
  intros H1. destruct (abort_eq t x) as (v & a & _ & ->). split_and!.
  - intros wq. assert (E : forall th q, mem x th q = mem y th q) by (intros; unfold mem; by rewrite Ew).
    rewrite <- E. rewrite <- E in H1. rewrite <- Ew in Ly.
    by rewrite <- (mem_suspend_self t x wq Ly ltac:(lia) H1).
  - kred. by rewrite Es.
  - kred. rewrite bit_wr_spec by lia. by rewrite Z.eqb_refl.
Qed.
End abort.

Section terminate.
Context (s : kernel) (K : kernel_ok s) (t code : Z) (Ht : 0 <= t < THINKOS_THREADS_MAX).
Context (Ha : Z.testbit (th_alloc s) t = true) (Hiw : irq_waiting (irq_th s) t = false).
Context (Hc : mem s t THINKOS_WQ_CLOCK = true -> rd (th_stat s) t = STAT_CLOCK).

Let w := Z.shiftr (rd (th_stat s) t) 1.
Let jq := THINKOS_JOIN_BASE + t.

(** The thread out of its queues, then its joiners woken. *)
Definition removed : kernel :=
  s |> wq_bit_store THINKOS_WQ_TMSHARE t false |> th_stat_store t 0 |> wq_bit_store w t false.
Definition joined : kernel := wq_drain 33 (join_wakeup jq code) jq removed.

Lemma removed_len : len (wq_lst removed) = THINKOS_WQ_LST_END.
Proof using K. unfold removed. len_wq. Qed.

Lemma removed_mem th wq :
  mem removed th wq = if (t =? th) && ((wq =? w) || (wq =? THINKOS_WQ_TMSHARE)) then false else mem s th wq.
Proof using K Ht.
  pose proof (target_wq s K t Ht) as Hw. fold w in Hw. unfold removed. mem_simp.
  rewrite (Z.eqb_sym w), (Z.eqb_sym 1). by destruct (wq =? w), (wq =? 1), (t =? th).
Qed.

(** What is left of the thread in the queues. *)
Lemma removed_self wq :
  mem removed t wq = true -> wq = THINKOS_WQ_PAUSED \/ (wq = THINKOS_WQ_READY /\ rd (th_stat s) t = STAT_CANCELED).
Proof using K Ht Hc.
  rewrite removed_mem, Z.eqb_refl. cbn [andb]. destruct (Z.eqb_spec wq w) as [|Hw]; [done|].
  destruct (Z.eqb_spec wq 1) as [|H1]; [done|]. cbn [orb]. intros Hm.
  apply (removed_queues s K t Ht wq Hw H1); [|done]. intros ->. apply Hw.
  specialize (Hc Hm). unfold w. by rewrite Hc.
Qed.

Lemma removed_join : mem removed t jq = false.
Proof using K Ht Hc.
  destruct (mem removed t jq) eqn:E; [|done]. apply removed_self in E. unfold jq in E. lia.
Qed.

Lemma park_removed_ok : kernel_ok (park t removed).
Proof using K Ht Ha Hiw Hc.
  pose proof (target_wq s K t Ht) as Hw. fold w in Hw. pose proof (len_stat s K t Ht) as Hl.
  assert (Hs : rd (th_stat (park t removed)) t = 116).
  { unfold park, removed. kred. by rewrite rd_wr_eq by (rewrite len_wr; lia). }
  apply (kernel_ok_step' t s); [done|done|unfold park, removed; ts|done|].
  rewrite Hs. assert (th_alloc (park t removed) = th_alloc s) as -> by done. rewrite Ha.
  apply T_canceled.
  - intros wq. rewrite park_mem by (apply removed_len || lia). destruct (Z.eqb_spec wq 58); [intros; lia|].
    cbn [andb]. intros Hm. apply removed_self in Hm. lia.
  - exists 58. rewrite park_mem by (apply removed_len || lia). by rewrite !Z.eqb_refl.
Qed.

Lemma joined_drained : drained jq code (park t removed) (park t joined).
Proof using K Ht Ha Hiw Hc.
  destruct (park_drain t jq code 33 removed removed_len (join_sync t Ht) ltac:(lia) removed_join) as [E _].
  unfold joined. rewrite <- E.
  exact (wq_drain_spec jq code (join_wakeup jq code) (join_sync t Ht) _ park_removed_ok 33 ltac:(lia)).
Qed.

Lemma joined_self :
  len (wq_lst joined) = THINKOS_WQ_LST_END /\ (forall wq, mem joined t wq = mem removed t wq) /\
  rd (th_stat joined) t = 0 /\ th_alloc joined = th_alloc s.
Proof using K Ht Hc.
  destruct (park_drain t jq code 33 removed removed_len (join_sync t Ht) ltac:(lia) removed_join)
    as (_ & H1 & H2 & H3 & H4).
  pose proof (len_stat s K t Ht) as Hl. split_and!; [exact H1|exact H2| |exact H4].
  unfold joined. rewrite H3. unfold removed. kred. by rewrite rd_wr_eq.
Qed.

(** The state after the abort, from any state that agrees with [joined] on
    the fields the invariant looks at. *)
Lemma abort_joined x :
  wq_lst x = wq_lst joined -> th_stat x = th_stat joined -> th_alloc x = th_alloc joined ->
  irq_th x = irq_th joined -> irq_en x = irq_en joined ->
  kernel_ok (__thinkos_thread_abort t x) /\
  (forall wq, mem (__thinkos_thread_abort t x) t wq = true -> wq = THINKOS_WQ_PAUSED) /\
  Z.testbit (th_alloc (__thinkos_thread_abort t x)) t = false /\
  forall th, 0 <= th < THINKOS_THREADS_MAX -> th <> t ->
    same_thread (mem (park t joined) th) (mem (__thinkos_thread_abort t x) th) /\
    rd (th_stat (__thinkos_thread_abort t x)) th = rd (th_stat joined) th.
Proof using K Ht Ha Hiw Hc.
  intros Ew Es Eal Ei Een. destruct joined_self as (Lj & Mj & Sj & _).
  pose proof joined_drained as (Kp & _).
  assert (Pi : irq_th joined = irq_th s) by (unfold joined; by rewrite wq_drain_field).
  assert (M1 : mem joined t 1 = false) by (rewrite Mj, removed_mem, Z.eqb_refl; by rewrite orb_true_r).
  generalize dependent joined. intros y Ew Es Eal Ei Een Ly My Sy Ky Pi M1.
  pose proof (abort_step t Ht y x Ly Ew Es Eal Ei Een) as T.
  destruct (abort_self t Ht y x Ly Ew Es M1) as (Hm & Hs & Hal).
  assert (Hm' : forall wq, mem (__thinkos_thread_abort t x) t wq = true -> wq = 57).
  { intros wq. rewrite Hm, My. destruct (Z.eqb_spec wq 0); [done|]. intros E. apply removed_self in E. lia. }
  split_and!; [|exact Hm'|exact Hal|].
  - apply (kernel_ok_step' t (park t y)); [exact Ky|exact Ht|exact T|by rewrite <- Hiw, <- Pi|].
    rewrite Hal, Hs, Sy. by apply T_free.
  - intros th Hth Hne. destruct (ts_other _ _ _ T th Hth Hne (k_wq _ Ky)) as (H1 & H2 & _).
    split; [exact H1|]. rewrite H2. unfold park. kred. by rewrite rd_wr_ne.
Qed.
End terminate.

Lemma wq_drain_stop n wake wq s :
  __thinkos_wq_head wq s = THINKOS_THREAD_NULL -> wq_drain n wake wq s = s.
Proof. intros H. destruct n as [|n]; [done|]. cbn [wq_drain]. by rewrite H. Qed.

(** The handler once the target is valid. *)
Lemma terminate_eq s arg self t :
  t = (if arg_0 arg s =? 0 then self else u32 (arg_0 arg s - 1)) ->
  t < THINKOS_THREADS_MAX -> Z.testbit (th_alloc s) t = true ->
  exists x, thinkos_terminate_svc arg self s = __thinkos_thread_abort t x /\
    (x = joined s t (arg_1 arg s) \/ x = __thinkos_defer_sched (joined s t (arg_1 arg s))).
Proof.
  intros Et Hlt Ha. unfold thinkos_terminate_svc. cbv zeta. rewrite <- Et.
  destruct (Z.leb_spec 8 t); [lia|]. unfold __bit_mem_rd. rewrite Ha. cbn [negb].
  change (rd (th_stat (wq_bit_store 1 t false s)) t) with (rd (th_stat s) t).
  fold (removed s t). unfold joined. generalize (removed s t). intros r.
  eexists. split; [reflexivity|].
  destruct (Z.eqb_spec (__thinkos_wq_head (47 + t) r) 32) as [E|E]; cbn [negb].
  - left. by rewrite wq_drain_stop.
  - right. apply (f_equal __thinkos_defer_sched). exact (wq_drain_first _ (join_wakeup _ _) r 32 E).
Qed.

Lemma abort_fields t x :
  frames (__thinkos_thread_abort t x) = frames x /\
  ctx (__thinkos_thread_abort t x) = wr (ctx x) t 0 /\
  active (__thinkos_thread_abort t x) = (if t =? active x then THINKOS_THREAD_VOID else active x) /\
  pendsv (__thinkos_thread_abort t x) = true.
Proof. destruct (abort_eq t x) as (v & a & -> & ->). done. Qed.

Lemma joined_fields s t code :
  ctx (joined s t code) = ctx s /\ active (joined s t code) = active s /\ irq_th (joined s t code) = irq_th s.
Proof. unfold joined. by rewrite !wq_drain_field. Qed.

Lemma park_removed_ctx s t : ctx (park t (removed s t)) = ctx s.
Proof. reflexivity. Qed.

Lemma park_frames t x : frames (park t x) = frames x.
Proof. reflexivity. Qed.

Lemma removed_frames s t : frames (removed s t) = frames s.
Proof. reflexivity. Qed.

Lemma arg_0_frames a x y : frames x = frames y -> arg_0 a x = arg_0 a y.
Proof. unfold arg_0, context_at. by intros ->. Qed.

Lemma live_frames a x y : frames y = frames x -> live a x -> live a y.
Proof. unfold live. by intros ->. Qed.

#[local] Opaque joined.

Section terminated.
Context (s : kernel) (arg self t : Z) (K : kernel_ok s) (Ht : 0 <= t < THINKOS_THREADS_MAX).
Context (Et : t = if arg_0 arg s =? 0 then self else u32 (arg_0 arg s - 1)).
Context (Ha : Z.testbit (th_alloc s) t = true) (Hiw : irq_waiting (irq_th s) t = false).
Context (Hc : mem s t THINKOS_WQ_CLOCK = true -> rd (th_stat s) t = STAT_CLOCK).

Let jq := THINKOS_JOIN_BASE + t.
Let s' := thinkos_terminate_svc arg self s.

Lemma terminate_fields :
  frames s' = frames (joined s t (arg_1 arg s)) /\ ctx s' = wr (ctx s) t 0 /\
  active s' = (if t =? active s then THINKOS_THREAD_VOID else active s) /\ pendsv s' = true /\
  kernel_ok s' /\ (forall wq, mem s' t wq = true -> wq = THINKOS_WQ_PAUSED) /\
  Z.testbit (th_alloc s') t = false /\
  forall th, 0 <= th < THINKOS_THREADS_MAX -> th <> t ->
    same_thread (mem (park t (joined s t (arg_1 arg s))) th) (mem s' th) /\
    rd (th_stat s') th = rd (th_stat (joined s t (arg_1 arg s))) th.
Proof using K Ht Et Ha Hiw Hc.
  destruct (terminate_eq s arg self t Et ltac:(lia) Ha) as (x & E & Hx). unfold s'. rewrite E. clear E s'.
  destruct (joined_fields s t (arg_1 arg s)) as (Jc & Ja & _).
  destruct (abort_fields t x) as (F1 & F2 & F3 & F4).
  pose proof (abort_joined s K t (arg_1 arg s) Ht Ha Hiw Hc x) as H.
  clear K Ha Hiw Hc Et. revert Hx Jc Ja H F1 F2 F3 F4. generalize (joined s t (arg_1 arg s)).
  intros J Hx Jc Ja H F1 F2 F3 F4.
  assert (Hf : frames x = frames J /\ ctx x = ctx J /\ active x = active J).
  { destruct Hx as [E|E]; rewrite E; auto. }
  destruct Hf as (G1 & G2 & G3). rewrite F1, F2, F3, F4, G1, G2, G3, Jc, Ja. do 4 (split; [reflexivity|]).
  apply H; destruct Hx as [E|E]; rewrite E; reflexivity.
Qed.

(** A thread other than the target, in a queue of objects. *)
Lemma terminate_other_queue th wq :
  0 <= th < THINKOS_THREADS_MAX -> th <> t -> sync_wq wq ->
  mem s' th wq = mem (park t (joined s t (arg_1 arg s))) th wq.
Proof using K Ht Et Ha Hiw Hc.
  intros Hth Hne Hw. unfold sync_wq in Hw.
  destruct terminate_fields as (_ & _ & _ & _ & _ & _ & _ & Ho).
  destruct (Ho th Hth Hne) as [[H _] _]. apply H; lia.
Qed.
End terminated.

(** C8: a thread is terminated that does not wait for an interrupt and is
    not in a timed wait (a plain sleep is allowed).  Its slot and its context are freed
    and it is in no queue but, possibly, the one of the paused threads, a mark it keeps;
    every thread that waits to join it returns from its call with the exit code; no other
    thread leaves the queue it waits in; and when the target is the running thread its
    context is discarded. *)
Theorem terminate_wakes_joiners s arg self t :
  kernel_ok s -> 0 <= t < THINKOS_THREADS_MAX -> len (ctx s) = 10 ->
  t = (if arg_0 arg s =? 0 then self else u32 (arg_0 arg s - 1)) ->
  Z.testbit (th_alloc s) t = true -> irq_waiting (irq_th s) t = false ->
  (mem s t THINKOS_WQ_CLOCK = true -> rd (th_stat s) t = STAT_CLOCK) ->
  let s' := thinkos_terminate_svc arg self s in
  kernel_ok s' /\ pendsv s' = true /\
  Z.testbit (th_alloc s') t = false /\ rd (ctx s') t = 0 /\
  (forall wq, mem s' t wq = true -> wq = THINKOS_WQ_PAUSED) /\
  active s' = (if t =? active s then THINKOS_THREAD_VOID else active s) /\
  wq_set s' (THINKOS_JOIN_BASE + t) = ∅ /\
  (forall th, th ∈ wq_set s (THINKOS_JOIN_BASE + t) -> th <> t -> woken s s' th (arg_1 arg s)) /\
  (forall wq, sync_wq wq -> wq <> THINKOS_JOIN_BASE + t -> wq_set s' wq = wq_set s wq ∖ {[t]}).
Proof.
  intros K Ht Hl Et Ha Hiw Hc. cbv zeta.
  destruct (terminate_fields s arg self t K Ht Et Ha Hiw Hc) as (Ff & Fc & Fa & Fp & K' & Hself & Hal & Ho).
  pose proof (terminate_other_queue s arg self t K Ht Et Ha Hiw Hc) as Hq.
  revert Ff Fc Fa Fp K' Hself Hal Ho Hq. generalize (thinkos_terminate_svc arg self s).
  intros s' Ff Fc Fa Fp K' Hself Hal Ho Hq.
  destruct (joined_drained s K t (arg_1 arg s) Ht Ha Hiw Hc) as (Kp & Hempty & Hwoken & Hkeep & _).
  assert (Hsync : forall wq, sync_wq wq -> wq_set s' wq = wq_set (park t (joined s t (arg_1 arg s))) wq ∖ {[t]}).
  { intros wq Hw. apply wq_set_del. intros th. destruct (Z.eqb_spec t th) as [<-|Hne].
    - destruct (mem s' t wq) eqn:E; [|done]. apply Hself in E. unfold sync_wq in Hw. lia.
    - destruct (decide (0 <= th < 8)) as [Hth|Hth]; [by apply Hq|].
      destruct (mem s' th wq) eqn:E1; [apply (k_bits s' K') in E1; unfold sync_wq in Hw; lia|].
      destruct (mem (park t (joined s t (arg_1 arg s))) th wq) eqn:E2; [|done].
      apply (k_bits _ Kp) in E2. unfold sync_wq in Hw. lia. }
  assert (Hrem : forall wq, sync_wq wq -> wq_set (park t (removed s t)) wq = wq_set s wq ∖ {[t]}).
  { intros wq Hw. apply wq_set_del. intros th.
    rewrite park_mem by (apply removed_len || lia; done). rewrite removed_mem by done. unfold sync_wq in Hw.
    destruct (Z.eqb_spec wq 58); [lia|]. cbn [andb]. destruct (Z.eqb_spec t th) as [<-|]; [|done].
    cbn [andb]. destruct ((wq =? _) || (wq =? 1)) eqn:E; [done|].
    destruct (mem s t wq) eqn:Em; [|done]. exfalso.
    assert (Hr : mem (removed s t) t wq = true) by (rewrite removed_mem, Z.eqb_refl by done; cbn [andb]; by rewrite E).
    apply removed_self in Hr; [lia|done..]. }
  split_and!; [exact K'|exact Fp|exact Hal| |exact Hself|exact Fa| | |].
  - rewrite Fc. apply rd_wr_eq. lia.
  - rewrite Hsync, Hempty by by apply join_sync. set_solver.
  - intros th Hin Hne. pose proof Hin as [Hth _]%elem_of_wq_set.
    destruct (Hwoken th) as [[Hr Hst] Hret]; [rewrite Hrem by (by apply join_sync); set_solver|].
    destruct (Ho th Hth Hne) as [[_ Hrdy] Hst']. split; [split|].
    + destruct Hrdy as [[-> _]|[-> _]]; by rewrite Hr.
    + rewrite Hst', <- Hst. unfold park. kred. by rewrite rd_wr_ne.
    + intros Hlive. rewrite park_removed_ctx in Hret.
      rewrite (arg_0_frames _ s' (park t (joined s t (arg_1 arg s)))) by (rewrite park_frames; exact Ff).
      apply Hret. revert Hlive. apply live_frames. rewrite park_frames. apply removed_frames.
  - intros wq Hw Hne. rewrite Hsync, Hkeep, Hrem by done. set_solver.
Qed.

(** ** Exit and join *)

Section join.
Context (s : kernel) (K : kernel_ok s) (t j : Z) (Ht : 0 <= t < THINKOS_THREADS_MAX)
  (Hj : 0 <= j < THINKOS_THREADS_MAX).

(** The joiner of an exited thread lets it go on and waits for it. *)
Lemma join_effect arg :
  t <> j -> calling s j -> (forall wq, mem s t wq = (wq =? THINKOS_WQ_CANCELED)) ->
  Z.testbit (th_alloc s) t = true -> arg_0 arg s = t + 1 ->
  let s' := thinkos_join_svc arg j s in
  (forall wq, mem s' t wq = (wq =? THINKOS_WQ_READY)) /\
  (forall wq, mem s' j wq = (wq =? THINKOS_JOIN_BASE + t)) /\
  rd (th_stat s') j = 2 * (THINKOS_JOIN_BASE + t) /\ rd (th_stat s') t = rd (th_stat s) t /\ pendsv s' = true /\
  frames s' = alter (set_r0 (u32 (-1))) arg (frames s).
Proof using K Ht Hj.
  intros Hne Hc Hm Ha Harg.
  assert (E : thinkos_join_svc arg j s = arg_ret arg (-1) (__thinkos_defer_sched
    (__thinkos_suspend j (__thinkos_wq_insert (47 + t) j (release_canceled t s))))).
  { unfold thinkos_join_svc. rewrite Harg. replace (t + 1 - 1) with t by lia.
    rewrite u32_small by lia. cbv zeta. destruct (Z.leb_spec 8 t); [lia|].
    unfold __bit_mem_rd at 1. by rewrite Ha. }
  cbv zeta. rewrite E. clear E. pose proof (release_ok s t K Ht) as K1.
  pose proof (release_calling s t j K Ht Hj Hc) as Hc1.
  assert (M1 : forall wq, mem (release_canceled t s) t wq = (wq =? 0)).
  { intros wq. rewrite release_mem by (apply K || lia). rewrite !Hm, !Z.eqb_refl. cbn [andb].
    by destruct (wq =? 0), (wq =? 58). }
  assert (F1 : th_stat (release_canceled t s) = th_stat s /\ frames (release_canceled t s) = frames s).
  { unfold release_canceled. by destruct (__bit_mem_rd _ t). }
  destruct F1 as [S1 F1]. revert K1 Hc1 M1 S1 F1. generalize (release_canceled t s). intros s1 K1 Hc1 M1 S1 F1.
  pose proof (wq_insert_suspend_ok s1 K1 j Hj (47 + t) (join_sync t Ht) Hc1) as K2.
  pose proof (stat_word (47 + t) false (join_sync t Ht)) as Hsw. simpl in Hsw. rewrite !Z.add_0_r in Hsw.
  set (s2 := __thinkos_suspend j _) in *.
  assert (T : thread_step j s1 s2) by (unfold s2, __thinkos_wq_insert; pose proof (join_sync t Ht); unfold sync_wq in *; ts).
  assert (Sj : rd (th_stat s2) j = 2 * (47 + t)).
  { unfold s2. kred. rewrite rd_wr_eq; [exact Hsw|]. by apply len_stat. }
  assert (Fr : frames s2 = frames s) by (unfold s2; kred; exact F1).
  assert (Mj : mem s2 j (47 + t) = true).
  { unfold s2. rewrite (mem_insert_suspend s1 K1 j Hj (47 + t) (join_sync t Ht)) by lia. by rewrite !Z.eqb_refl. }
  destruct (ok_in_sync _ _ _ _ _ (k_threads s2 K2 j Hj) (join_sync t Ht) Mj) as (tm & Est & _ & _ & Hall).
  assert (tm = false) as -> by (destruct tm; [rewrite Sj in Est; simpl in Est; lia|done]).
  destruct (ts_other _ _ _ T t Ht Hne (k_wq s1 K1)) as (Hsame & Hst & _).
  clearbody s2. split_and!; [| |kred; exact Sj|kred; by rewrite Hst, S1|done|kred; by rewrite Fr].
  - intros wq. rewrite mem_arg_ret, mem_defer.
    destruct (same_thread_cases _ _ Hsame) as [->|E]; [apply M1|]. rewrite E, !M1.
    destruct (Z.eqb_spec wq 0); [done|]. by destruct (wq =? 1).
  - intros wq. rewrite mem_arg_ret, mem_defer, Hall. by rewrite orb_false_r.
Qed.
End join.

(** C7: the exit and join protocol.  A thread that exits when nobody waits to
    join it stays parked, to continue at the final exit routine; the thread that
    then joins it makes it ready again and waits for it to terminate. *)
Theorem exit_then_join s argt t argj j :
  kernel_ok s -> 0 <= t < THINKOS_THREADS_MAX -> 0 <= j < THINKOS_THREADS_MAX -> t <> j ->
  calling s t -> calling s j -> rd (wq_lst s) (THINKOS_JOIN_BASE + t) = 0 ->
  arg_0 argj s = t + 1 -> argt <> argj -> live argt s ->
  let s1 := thinkos_exit_svc argt t s in
  let s2 := thinkos_join_svc argj j s1 in
  (forall wq, mem s1 t wq = (wq =? THINKOS_WQ_CANCELED)) /\ kernel_ok s2 /\
  (forall wq, mem s2 t wq = (wq =? THINKOS_WQ_READY)) /\ rd (th_stat s2) t = STAT_CANCELED /\
  pc (context_at argt s2) = addr_thread_exit /\
  (forall wq, mem s2 j wq = (wq =? THINKOS_JOIN_BASE + t)) /\
  rd (th_stat s2) j = 2 * (THINKOS_JOIN_BASE + t) /\ pendsv s2 = true.
Proof.
  intros K Ht Hj Hne Hct Hcj Hq Harg Hat Hlive. cbv zeta.
  destruct (cancel_self_effect s t K Ht Hct) as (Kc & Mc & Sc & Hcall).
  destruct (calling_facts s K t Ht Hct) as (Ha & _ & _).
  assert (E1 : thinkos_exit_svc argt t s = arg_pc argt addr_thread_exit (cancel_self t s)).
  { unfold thinkos_exit_svc. cbv zeta. by rewrite Hq. }
  rewrite E1. set (s1 := arg_pc argt addr_thread_exit (cancel_self t s)).
  assert (K1 : kernel_ok s1) by (apply (kernel_ok_frame (cancel_self t s)); [reflexivity..|exact Kc]).
  assert (Fr : frames s1 = alter (set_pc addr_thread_exit) argt (frames s)) by reflexivity.
  assert (M1 : forall wq, mem s1 t wq = (wq =? 58)) by exact Mc.
  assert (S1 : rd (th_stat s1) t = 116) by exact Sc.
  assert (C1 : calling s1 j) by (exact (Hcall j Hcj ltac:(lia) Hj)).
  assert (A1 : Z.testbit (th_alloc s1) t = true) by exact Ha.
  assert (G1 : arg_0 argj s1 = t + 1).
  { rewrite <- Harg. unfold arg_0, context_at. by rewrite Fr, lookup_alter_ne. }
  clearbody s1. pose proof (join_ok s1 argj j K1 Hj C1) as K2.
  destruct (join_effect s1 K1 t j Ht Hj argj Hne C1 M1 A1 G1) as (Jt & Jj & Js & Jst & Jp & Jf). cbv zeta in *.
  split_and!; [exact M1|exact K2|exact Jt|congruence| |exact Jj|exact Js|exact Jp].
  unfold context_at. rewrite Jf, Fr, lookup_alter_ne, lookup_alter_eq by done.
  by destruct Hlive as [c ->].
Qed.

(** ** Creation *)

(** The thread bitmap: a word whose bits above the last thread are taken. *)
Definition th_alloc_ok (s : kernel) : Prop :=
  0 <= th_alloc s < 4294967296 /\
  forall i, THINKOS_THREADS_MAX <= i < 32 -> Z.testbit (th_alloc s) i = true.

(** The slot nearest to the number asked for: the first free one from there
    up; when there is none, the last free one. *)
Definition chosen_slot (id w r : Z) : Prop :=
  let p := Z.max 0 (id - 1) in
  if p <=? r then forall k, p <= k < r -> Z.testbit w k = true
  else forall k, r < k < THINKOS_THREADS_MAX -> Z.testbit w k = true.

Lemma thread_slot_spec id w :
  0 <= w < 4294967296 -> (forall i, THINKOS_THREADS_MAX <= i < 32 -> Z.testbit w i = true) -> 0 <= id ->
  let '(w', r) := thread_slot id w in
  (r = -1 /\ w' = w /\ forall k, 0 <= k < THINKOS_THREADS_MAX -> Z.testbit w k = true) \/
  (0 <= r < THINKOS_THREADS_MAX /\ Z.testbit w r = false /\ w' = __bit_mem_wr w r true /\ chosen_slot id w r).
Proof.
  intros Hw Hhi Hid. unfold thread_slot, chosen_slot.
  assert (Hlow : forall r, 0 <= r < 32 -> Z.testbit w r = false -> r < 8).
  { intros r Hr Hf. destruct (Z.ltb_spec r 8); [done|]. rewrite Hhi in Hf; [done|lia]. }
  destruct (Z.leb_spec 8 (id - 1)) as [H8|H8].
  - pose proof (alloc_hi_spec w 8 Hw ltac:(lia)) as H. destruct (thinkos_alloc_hi w 8) as [w' r].
    destruct H as [(-> & -> & H)|(Hr & Hf & -> & H)]; [left|right].
    + split_and!; [done|done|]. intros k Hk. apply H. lia.
    + assert (r < 8) by (apply Hlow; [lia|done]). split_and!; [lia|lia|done|done|].
      destruct (Z.leb_spec (Z.max 0 (id - 1)) r); [lia|]. intros k Hk. apply H. lia.
  - set (p := if id - 1 <? 0 then 0 else id - 1).
    assert (Hp : p = Z.max 0 (id - 1)) by (unfold p; destruct (Z.ltb_spec (id - 1) 0); lia).
    rewrite <- Hp. pose proof (alloc_lo_spec w p ltac:(lia)) as H.
    destruct (thinkos_alloc_lo w p) as [w' r]. destruct H as [(-> & -> & H)|(Hr & Hf & -> & H)].
    + change (-1 <? 0) with true. cbv iota. pose proof (alloc_hi_spec w p Hw ltac:(lia)) as H'.
      destruct (thinkos_alloc_hi w p) as [w'' r']. destruct H' as [(-> & -> & H')|(Hr & Hf & -> & H')]; [left|right].
      * split_and!; [done|done|]. intros k Hk. destruct (Z.leb_spec p k); [apply H|apply H']; lia.
      * assert (r' < 8) by (apply Hlow; [lia|done]). split_and!; [lia|lia|done|done|].
        destruct (Z.leb_spec p r').
        -- assert (r' = p) as -> by lia. rewrite H in Hf; [done|lia].
        -- intros k Hk. destruct (Z.leb_spec p k); [apply H|apply H']; lia.
    + destruct (Z.ltb_spec r 0); [lia|]. right. assert (r < 8) by (apply Hlow; [lia|done]).
      split_and!; [lia|lia|done|done|]. destruct (Z.leb_spec p r); [done|lia].
Qed.

Lemma thread_step_alloc th v s :
  0 <= th -> thread_step th s (set_th_alloc (__bit_mem_wr (th_alloc s) th v) s).
Proof.
  intros Hth. split; kred; auto. intros th' Hth' Hne Hl. split; [by apply same_thread_ext|].
  split; [done|]. by rewrite bit_wr_ne by lia.
Qed.

(** Filling a buffer leaves the records outside it. *)
Lemma memset32_outside dst val len a c :
  a + sizeof_context <= dst \/ dst + 4 * (len / 4) <= a -> memset32_record dst val len a c = c.
Proof.
  intros H. unfold sizeof_context in H. unfold memset32_record. cbv zeta.
  assert (E : forall off, 0 <= off < 64 -> (dst <=? a + off) && (a + off <? dst + 4 * (len / 4)) = false) by lia.
  rewrite !E by lia. by destruct c.
Qed.

Lemma memset32_context dst val len a s :
  a + sizeof_context <= dst \/ dst + 4 * (len / 4) <= a ->
  frames (__thinkos_memset32 dst val len s) !! a = frames s !! a.
Proof.
  intros H. unfold __thinkos_memset32. ksimpl_goal. rewrite map_lookup_imap.
  destruct (frames s !! a) as [c|] eqn:E; simpl; [|done]. by rewrite memset32_outside.
Qed.

Lemma sched_init_frame id pri s :
  exists l v, thread_sched_init id pri s = set_sched l (set_sched_limit v s).
Proof.
  unfold thread_sched_init, sched_pri_store, sched_val_store. cbv zeta.
  destruct (_ <? _); destruct (_ <? _); destruct s; eexists; eexists; reflexivity.
Qed.

(** What the creation of thread [id] with entry [task], argument [a1] and the
    stack that ends at [sp] leaves. *)
Definition new_record (task a1 : Z) : thinkos_context :=
  mk_context 0 0 0 0 0 0 0 0 a1 0 0 0 0 addr_exit_stub (Z.land task 4294967294) CM_EPSR_T.

Definition record_addr (sp : Z) : Z := u32 (Z.land sp 4294967288 - sizeof_context).

Lemma free_thread s th :
  kernel_ok s -> 0 <= th < THINKOS_THREADS_MAX -> Z.testbit (th_alloc s) th = false ->
  rd (th_stat s) th = 0 /\ irq_waiting (irq_th s) th = false /\
  forall wq, mem s th wq = true -> wq = THINKOS_WQ_PAUSED.
Proof.
  intros K Hth Ha. pose proof (k_threads s K th Hth) as T. unfold thread_in in T. rewrite Ha in T.
  inversion T as [| | | | | | |H]; subst; auto.
Qed.

(** The new thread in the paused queue, or ready. *)
Definition start_thread (id a : Z) (c : thinkos_context) (paused : bool) (s : kernel) : kernel :=
  let s := s |> set_frames (<[a := c]> (frames s)) |> ctx_store id a |> wq_bit_store THINKOS_WQ_PAUSED id true in
  if paused then s
  else s |> wq_bit_store THINKOS_WQ_PAUSED id false |> wq_bit_store THINKOS_WQ_READY id true |> __thinkos_defer_sched.

Lemma resume_new id s :
  mem s id THINKOS_WQ_PAUSED = true -> rd (th_stat s) id = 0 ->
  (__thinkos_thread_resume id s).1 = wq_bit_store THINKOS_WQ_READY id true (wq_bit_store THINKOS_WQ_PAUSED id false s).
Proof.
  intros Hm Hst. unfold __thinkos_thread_resume, __bit_mem_rd. unfold mem, inq in Hm. rewrite Hm.
  change (negb true) with false. cbv iota zeta.
  change (rd (th_stat (wq_bit_store 57 id false s)) id) with (rd (th_stat s) id). rewrite Hst. reflexivity.
Qed.

Lemma start_fields id a c paused x :
  frames (start_thread id a c paused x) = <[a := c]> (frames x) /\
  ctx (start_thread id a c paused x) = wr (ctx x) id a /\
  th_alloc (start_thread id a c paused x) = th_alloc x.
Proof. by destruct paused. Qed.

Section start.
Context (s : kernel) (K : kernel_ok s) (id a : Z) (c : thinkos_context) (paused : bool).
Context (Hid : 0 <= id < THINKOS_THREADS_MAX) (Hfree : Z.testbit (th_alloc s) id = false).
Context (x : kernel) (Ew : wq_lst x = wq_lst s) (Es : th_stat x = th_stat s) (Ei : irq_th x = irq_th s).
Context (Een : irq_en x = irq_en s) (Eal : th_alloc x = __bit_mem_wr (th_alloc s) id true).

Lemma start_mem th wq :
  mem (start_thread id a c paused x) th wq =
    if id =? th then wq =? (if paused then THINKOS_WQ_PAUSED else THINKOS_WQ_READY) else mem s th wq.
Proof using K Hid Hfree Ew.
  destruct (free_thread s id K Hid Hfree) as (_ & _ & Hm).
  unfold start_thread. cbv zeta. set (y := ctx_store id a _).
  assert (Ly : len (wq_lst y) = 59) by (unfold y; kred; rewrite Ew; apply K).
  assert (Hy : mem y th wq = mem s th wq) by (unfold y, mem; kred; by rewrite Ew). clearbody y.
  destruct paused; rewrite ?mem_defer; rewrite !mem_bit_store by (len_wq || lia);
    rewrite Hy, (Z.eqb_sym 57), ?(Z.eqb_sym 0);
    (destruct (Z.eqb_spec id th) as [<-|Hne]; [|by rewrite !andb_false_r]);
    rewrite !andb_true_r; destruct (Z.eqb_spec wq 57) as [->|H57]; try done;
    (destruct (mem s id wq) eqn:E; [apply Hm in E; lia|]); by destruct (wq =? 0).
Qed.

Lemma start_ok : kernel_ok (start_thread id a c paused x).
Proof using K Hid Hfree Ew Es Ei Een Eal.
  destruct (free_thread s id K Hid Hfree) as (Hst & Hiw & _).
  assert (F : th_stat (start_thread id a c paused x) = th_stat s /\
    irq_th (start_thread id a c paused x) = irq_th s /\ irq_en (start_thread id a c paused x) = irq_en s /\
    th_alloc (start_thread id a c paused x) = __bit_mem_wr (th_alloc s) id true).
  { unfold start_thread. cbv zeta. destruct paused; kred; auto. }
  destruct F as (Fs & Fi & Fe & Fa). pose proof start_mem as Hm.
  assert (T : thread_step id s (start_thread id a c paused x)).
  { split; rewrite ?Fs, ?Fi, ?Fe; auto.
    - intros _. unfold start_thread. cbv zeta. destruct paused; kred; rewrite ?len_wq_bit_wr, Ew; apply K.
    - intros th' wq Hth' _ _. rewrite Hm. destruct (Z.eqb_spec id th'); [lia|done].
    - intros th' Hth' Hne _. split_and!; [|done|rewrite Fa; by rewrite bit_wr_ne by lia].
      apply same_thread_ext. intros wq. rewrite Hm. destruct (Z.eqb_spec id th'); [lia|done]. }
  apply (kernel_ok_step' id s); [exact K|exact Hid|exact T|exact Hiw|].
  rewrite Fs, Hst, Fa, bit_wr_eq by lia.
  destruct paused; [apply T_paused; [constructor|done|]|apply T_ready]; intros wq; rewrite Hm; by rewrite Z.eqb_refl.
Qed.
End start.

Section create.
Context (s : kernel) (arg : Z).
Let size := opt_stack_size (arg_3 arg s).
Let base := arg_2 arg s.
Let a := record_addr (u32 (base + size)).
Context (Hout : arg + sizeof_context <= base \/ base + 4 * (size / 4) <= arg).

(** The state the new record is stored in. *)
Definition prepared (id alloc : Z) : kernel :=
  let s1 := set_th_alloc alloc s |> __thinkos_memset32 base 3735928559 size in
  s1 |> th_inf_store id (arg_4 arg s1) |> thread_sched_init id (__PRIORITY (arg_3 arg s)).

Lemma prepared_args id alloc :
  context_at arg (prepared id alloc) = context_at arg s /\
  wq_lst (prepared id alloc) = wq_lst s /\ th_stat (prepared id alloc) = th_stat s /\
  irq_th (prepared id alloc) = irq_th s /\ irq_en (prepared id alloc) = irq_en s /\
  th_alloc (prepared id alloc) = alloc /\ ctx (prepared id alloc) = ctx s /\
  frames (prepared id alloc) = frames (__thinkos_memset32 base 3735928559 size s).
Proof using Hout.
  unfold prepared. cbv zeta.
  match goal with |- context [thread_sched_init ?i ?p ?x] => destruct (sched_init_frame i p x) as (l & v & ->) end.
  split; [|done]. unfold context_at. f_equal.
  exact (memset32_context base 3735928559 size arg (set_th_alloc alloc s) Hout).
Qed.

Lemma create_eq id alloc :
  thread_slot (__ID (arg_3 arg s)) (th_alloc s) = (alloc, id) -> 0 <= id < THINKOS_THREADS_MAX ->
  sizeof_context <= size -> a <> arg -> rd (th_stat s) id = 0 -> len (wq_lst s) = THINKOS_WQ_LST_END ->
  thinkos_thread_create_svc arg s =
  arg_ret arg (id + 1) (start_thread id a (new_record (arg_0 arg s) (arg_1 arg s))
    (negb (__PAUSED (arg_3 arg s) =? 0)) (prepared id alloc)).
Proof using Hout.
  intros Hslot Hid Hsz Hne Hst Hl. destruct (prepared_args id alloc) as (Hc & Hw & Hs & _).
  unfold thinkos_thread_create_svc. rewrite Hslot. cbv zeta. destruct (Z.ltb_spec id 0); [lia|].
  change (arg_3 arg (set_th_alloc alloc s)) with (arg_3 arg s).
  change (arg_2 arg (set_th_alloc alloc s)) with base. fold size.
  destruct (Z.ltb_spec size sizeof_context); [lia|].
  set (s1 := __thinkos_memset32 base 3735928559 size (set_th_alloc alloc s)).
  assert (C1 : context_at arg s1 = context_at arg s) 
    by (unfold context_at; f_equal; exact (memset32_context base 3735928559 size arg (set_th_alloc alloc s) Hout)).
  assert (A3 : arg_3 arg (th_inf_store id (arg_4 arg s1) s1) = arg_3 arg s).
  { transitivity (arg_3 arg s1); [done|]. unfold arg_3. by rewrite C1. }
  rewrite A3. change (thread_sched_init id (__PRIORITY (arg_3 arg s)) (th_inf_store id (arg_4 arg s1) s1))
    with (prepared id alloc). clearbody s1. clear A3.
  set (p := prepared id alloc) in *. clearbody p.
  assert (A0 : arg_0 arg p = arg_0 arg s) by (unfold arg_0; by rewrite Hc).
  assert (A1 : arg_1 arg p = arg_1 arg s) by (unfold arg_1; by rewrite Hc). rewrite A0, A1.
  change (__thinkos_thread_init id (u32 (base + size)) (arg_0 arg s) (arg_1 arg s) p) with
    (start_thread id a (new_record (arg_0 arg s) (arg_1 arg s)) true p).
  set (q := start_thread id a _ true p).
  assert (A3 : arg_3 arg q = arg_3 arg s).
  { unfold q, start_thread, arg_3. cbv zeta. rewrite <- Hc. unfold context_at. kred. by rewrite lookup_insert_ne. }
  rewrite A3. f_equal. destruct (__PAUSED (arg_3 arg s) =? 0); cbn [negb]; [|done].
  assert (Hm : mem q id 57 = true).
  { unfold q, start_thread. cbv zeta. rewrite mem_bit_store by (kred; rewrite ?Hw; lia). by rewrite !Z.eqb_refl. }
  assert (Hz : rd (th_stat q) id = 0) by (unfold q, start_thread; cbv zeta; kred; by rewrite Hs).
  by rewrite resume_new.
Qed.
End create.

(** The record of a new thread lies at the top of its stack. *)
Lemma record_in_stack base size :
  0 <= base -> base mod 8 = 0 -> sizeof_context <= size -> base + size < 4294967296 ->
  base <= record_addr (u32 (base + size)) /\ record_addr (u32 (base + size)) + sizeof_context <= base + size /\
  record_addr (u32 (base + size)) mod 8 = 0 /\
  base + size < record_addr (u32 (base + size)) + sizeof_context + 8.
Proof.
  unfold sizeof_context, record_addr. intros H0 Hm Hs Hlt. rewrite (u32_small (base + size)) by lia.
  rewrite land_align8 by lia. unfold sizeof_context. rewrite u32_small; Z.div_mod_to_equations; lia.
Qed.

(** The check of the stack size comes after the slot has been taken and does
    not give it back. *)
Lemma create_small s arg id w :
  thread_slot (__ID (arg_3 arg s)) (th_alloc s) = (w, id) -> 0 <= id ->
  opt_stack_size (arg_3 arg s) < sizeof_context ->
  thinkos_thread_create_svc arg s = arg_ret arg THINKOS_EINVAL (set_th_alloc w s).
Proof.
  intros Eslot Hid Hsz. unfold thinkos_thread_create_svc. rewrite Eslot. cbv zeta. destruct (Z.ltb_spec id 0); [lia|].
  change (arg_3 arg (set_th_alloc w s)) with (arg_3 arg s).
  destruct (Z.ltb_spec (opt_stack_size (arg_3 arg s)) sizeof_context); [done|lia].
Qed.

Lemma create_started s arg id :
  kernel_ok s -> len (ctx s) = 10 -> live arg s ->
  thread_slot (__ID (arg_3 arg s)) (th_alloc s) = (__bit_mem_wr (th_alloc s) id true, id) ->
  0 <= id < THINKOS_THREADS_MAX -> Z.testbit (th_alloc s) id = false ->
  let size := opt_stack_size (arg_3 arg s) in
  let base := arg_2 arg s in
  sizeof_context <= size -> base mod 8 = 0 -> base + size < 4294967296 ->
  arg + sizeof_context <= base \/ base + size <= arg ->
  let s' := thinkos_thread_create_svc arg s in
  kernel_ok s' /\ arg_0 arg s' = id + 1 /\ th_alloc s' = __bit_mem_wr (th_alloc s) id true /\
  (exists a, rd (ctx s') id = a /\ base <= a /\ a + sizeof_context <= base + size /\ a mod 8 = 0 /\
     context_at a s' = new_record (arg_0 arg s) (arg_1 arg s)) /\
  forall th wq, mem s' th wq =
    if id =? th then wq =? (if __PAUSED (arg_3 arg s) =? 0 then THINKOS_WQ_READY else THINKOS_WQ_PAUSED)
    else mem s th wq.
Proof.
  intros K Hctx Hlive Eslot Hid Hfree size base Hsz Hal Htop Hout. cbv zeta.
  assert (Hb : 0 <= base) by apply u32_range.
  pose proof (record_in_stack base size Hb Hal Hsz Htop) as (Ra & Rt & R8 & _).
  assert (Hout' : arg + sizeof_context <= base \/ base + 4 * (size / 4) <= arg).
  { destruct Hout; [by left|right]. Z.div_mod_to_equations; lia. }
  assert (Hna : record_addr (u32 (base + size)) <> arg) by (unfold sizeof_context in *; lia).
  destruct (free_thread s id K Hid Hfree) as (Hst & _ & _).
  rewrite (create_eq s arg Hout' id _ Eslot Hid Hsz Hna Hst (k_wq s K)). fold base size.
  destruct (prepared_args s arg Hout' id (__bit_mem_wr (th_alloc s) id true)) as (_ & Pw & Ps & Pi & Pe & Pa & Pc & Pf).
  revert Pw Ps Pi Pe Pa Pc Pf. generalize (prepared s arg id (__bit_mem_wr (th_alloc s) id true)).
  set (a := record_addr (u32 (base + size))) in *. set (c := new_record (arg_0 arg s) (arg_1 arg s)).
  intros x Pw Ps Pi Pe Pa Pc Pf.
  assert (Lx : live arg x).
  { unfold live. rewrite Pf. fold base size. by rewrite memset32_context. }
  destruct (start_fields id a c (negb (__PAUSED (arg_3 arg s) =? 0)) x) as (Sf & Sc & Sa). clear Eslot.
  split; [apply ok_arg_ret, (start_ok s K id a c _ Hid Hfree x Pw Ps Pi Pe Pa)|]. split_and!.
  - rewrite arg_0_ret; [apply u32_small; lia|]. unfold live. rewrite Sf, lookup_insert_ne by done. exact Lx.
  - kred. rewrite Sa. exact Pa.
  - exists a. split_and!; [|exact Ra|exact Rt|exact R8|].
    + kred. rewrite Sc, Pc. apply rd_wr_eq. lia.
    + unfold context_at. kred. rewrite lookup_alter_ne, Sf, lookup_insert_eq by congruence. reflexivity.
  - intros th wq. rewrite mem_arg_ret.
    rewrite (start_mem s K id a c _ Hid Hfree x Pw th wq). by destruct (__PAUSED (arg_3 arg s) =? 0).
Qed.

(** C6: a call to create a thread.  With every slot taken it returns EINVAL and
    changes nothing.  Otherwise it takes the first free slot from the number asked for
    upward, or the highest free one when there is none.  If the stack is smaller than a
    record it returns EINVAL and the slot stays allocated without a thread, nothing else
    being changed.  If the stack is large enough, aligned, inside the address space and apart
    from the caller's record, it returns the number of the slot and starts the thread, ready
    or paused as asked, with a fresh record at the top of its stack that begins at the
    entry point with the argument in r0 and ends in the exit stub; no other thread is
    moved. *)
Theorem thread_create_starts s arg :
  kernel_ok s -> th_alloc_ok s -> len (ctx s) = 10 -> live arg s ->
  let size := opt_stack_size (arg_3 arg s) in
  let base := arg_2 arg s in
  let s' := thinkos_thread_create_svc arg s in
  (forall i, 0 <= i < THINKOS_THREADS_MAX -> Z.testbit (th_alloc s) i = true) /\
   arg_0 arg s' = u32 THINKOS_EINVAL /\ s' = arg_ret arg THINKOS_EINVAL s \/
  exists id, 0 <= id < THINKOS_THREADS_MAX /\ Z.testbit (th_alloc s) id = false /\
    chosen_slot (__ID (arg_3 arg s)) (th_alloc s) id /\
    if size <? sizeof_context then
      arg_0 arg s' = u32 THINKOS_EINVAL /\
      s' = arg_ret arg THINKOS_EINVAL (set_th_alloc (__bit_mem_wr (th_alloc s) id true) s)
    else
      base mod 8 = 0 -> base + size < 4294967296 -> arg + sizeof_context <= base \/ base + size <= arg ->
      kernel_ok s' /\ arg_0 arg s' = id + 1 /\ th_alloc s' = __bit_mem_wr (th_alloc s) id true /\
      (exists a, rd (ctx s') id = a /\ base <= a /\ a + sizeof_context <= base + size /\ a mod 8 = 0 /\
         context_at a s' = new_record (arg_0 arg s) (arg_1 arg s)) /\
      forall th wq, mem s' th wq =
        if id =? th then wq =? (if __PAUSED (arg_3 arg s) =? 0 then THINKOS_WQ_READY else THINKOS_WQ_PAUSED)
        else mem s th wq.
Proof.
  intros K [Hw Hhi] Hctx Hlive size base. cbv zeta.
  assert (Hid0 : 0 <= __ID (arg_3 arg s)) by (unfold __ID; apply Z.land_nonneg; lia).
  pose proof (thread_slot_spec (__ID (arg_3 arg s)) (th_alloc s) Hw Hhi Hid0) as Hs.
  destruct (thread_slot (__ID (arg_3 arg s)) (th_alloc s)) as [w' id] eqn:Eslot.
  destruct Hs as [(-> & -> & Hfull)|(Hid & Hfree & -> & Hnear)].
  - assert (E : thinkos_thread_create_svc arg s = arg_ret arg (-3) s).
    { unfold thinkos_thread_create_svc. rewrite Eslot. cbv zeta. by destruct s. }
    rewrite E. left. split_and!; [done|by apply arg_0_ret|done].
  - right. exists id. split_and!; [lia|lia|done|done|].
    destruct (Z.ltb_spec size sizeof_context) as [Hsz|Hsz].
    + rewrite (create_small s arg id _ Eslot ltac:(lia) Hsz). split; [by apply arg_0_ret|done].
    + intros Hal Htop Hout. by apply (create_started s arg id).
Qed.

(** The check of the stack size comes after the slot has been taken and
    does not give it back: a call refused for a small stack leaves an allocated
    slot without a thread. *)
Theorem thread_create_leaks_slot s arg :
  th_alloc_ok s -> live arg s -> opt_stack_size (arg_3 arg s) < sizeof_context ->
  (exists i, 0 <= i < THINKOS_THREADS_MAX /\ Z.testbit (th_alloc s) i = false) ->
  let s' := thinkos_thread_create_svc arg s in
  arg_0 arg s' = u32 THINKOS_EINVAL /\
  exists id, 0 <= id < THINKOS_THREADS_MAX /\ Z.testbit (th_alloc s) id = false /\
    Z.testbit (th_alloc s') id = true /\ wq_lst s' = wq_lst s /\ ctx s' = ctx s.
Proof.
  intros [Hw Hhi] Hlive Hsz (i & Hi & Hif). cbv zeta.
  assert (Hid0 : 0 <= __ID (arg_3 arg s)) by (unfold __ID; apply Z.land_nonneg; lia).
  pose proof (thread_slot_spec (__ID (arg_3 arg s)) (th_alloc s) Hw Hhi Hid0) as Hs.
  destruct (thread_slot (__ID (arg_3 arg s)) (th_alloc s)) as [w' id] eqn:Eslot.
  destruct Hs as [(-> & -> & Hfull)|(Hid & Hfree & -> & Hnear)]; [by rewrite Hfull in Hif|].
  pose proof (create_small s arg id _ Eslot ltac:(lia) Hsz) as E.
  rewrite E. clear E Eslot. split; [by apply arg_0_ret|]. exists id. split; [done|]. split; [done|].
  split; [kred; apply bit_wr_eq; lia|]. split; reflexivity.
Qed.

(** ** Examples *)

(** Thread 2 waits to join thread 1; thread 0 terminates thread 1 with code 7. *)
Definition join_demo : kernel := demo_call 2 7 0 0 (demo_wait 2 (THINKOS_JOIN_BASE + 1) demo).

Lemma terminate_wakes_joiners_witness :
  kernel_ok join_demo /\
  mem (thinkos_terminate_svc (record_of 0) 0 join_demo) 2 THINKOS_WQ_READY = true /\
  wq_set (thinkos_terminate_svc (record_of 0) 0 join_demo) (THINKOS_JOIN_BASE + 1) = ∅.
Proof.
  assert (K : kernel_ok join_demo) by kernel_ok_compute.
  destruct (terminate_wakes_joiners join_demo (record_of 0) 0 1) as (_ & _ & _ & _ & _ & _ & He & Hw & _);
    [exact K|lia|reflexivity|vm_compute; reflexivity|vm_compute; reflexivity|vm_compute; reflexivity
    |vm_compute; congruence|].
  split; [exact K|]. split; [|exact He].
  destruct (Hw 2) as [[Hr _] _]; [apply elem_of_wq_set; split; [lia|vm_compute; reflexivity]|lia|exact Hr].
Defined.

Lemma exit_then_join_witness :
  let s1 := thinkos_exit_svc (record_of 1) 1 (demo_call 2 0 0 0 demo) in
  kernel_ok (thinkos_join_svc (record_of 0) 0 s1) /\
  pc (context_at (record_of 1) (thinkos_join_svc (record_of 0) 0 s1)) = addr_thread_exit.
Proof.
  destruct (exit_then_join (demo_call 2 0 0 0 demo) (record_of 1) 1 (record_of 0) 0)
    as (_ & K & _ & _ & P & _);
    [kernel_ok_compute|lia|lia|lia|split; vm_compute; reflexivity|split; vm_compute; reflexivity
    |vm_compute; reflexivity|vm_compute; reflexivity|vm_compute; congruence|vm_compute; eexists; reflexivity|].
  split; [exact K|exact P].
Defined.

(** Thread 0 creates thread 6 with a stack of 256 bytes. *)
Definition create_demo : kernel := demo_call 134225921 99 536879104 (100663296 + 256) demo.

Lemma create_demo_alloc : th_alloc_ok create_demo.
Proof.
  split; [vm_compute; split; congruence|]. intros i Hi.
  assert (H : forallb (fun i => Z.testbit (th_alloc create_demo) i) (seqZ 8 24) = true) by (vm_compute; reflexivity).
  exact (forallb_seqZ _ 8 24 i H ltac:(lia)).
Qed.

Lemma thread_create_starts_witness :
  kernel_ok (thinkos_thread_create_svc (record_of 0) create_demo) /\
  arg_0 (record_of 0) (thinkos_thread_create_svc (record_of 0) create_demo) = 6.
Proof.
  destruct (thread_create_starts create_demo (record_of 0)) as [[H _]|(id & _ & _ & _ & H)];
    [kernel_ok_compute|exact create_demo_alloc|reflexivity|vm_compute; eexists; reflexivity| |].
  - discriminate (H 5 ltac:(lia)).
  - revert H. generalize (eq_refl (opt_stack_size (arg_3 (record_of 0) create_demo) <? sizeof_context)).
    generalize (opt_stack_size (arg_3 (record_of 0) create_demo) <? sizeof_context) at 2 3. intros b Eb.
    assert (b = false) as -> by (rewrite <- Eb; vm_compute; reflexivity). intros H.
    destruct H as (K & _); [vm_compute; reflexivity|vm_compute; reflexivity|left; vm_compute; congruence|].
    split; [exact K|vm_compute; reflexivity].
Defined.

Lemma thread_create_leaks_slot_witness :
  let s := demo_call 134225921 99 536879104 (100663296 + 32) demo in
  arg_0 (record_of 0) (thinkos_thread_create_svc (record_of 0) s) = 4294967293 /\
  Z.testbit (th_alloc (thinkos_thread_create_svc (record_of 0) s)) 5 = true.
Proof.
  intros s. destruct (thread_create_leaks_slot s (record_of 0)) as [H _];
    [exact create_demo_alloc|vm_compute; eexists; reflexivity|vm_compute; reflexivity
    |exists 5; split; [lia|vm_compute; reflexivity]|].
  split; [exact H|vm_compute; reflexivity].
Defined.

(** terminating a thread in a timed wait leaves it in the clock queue.
    Thread 1 waits for semaphore 0 with a time-out, thread 3 terminates it, and
    at the next tick the freed thread is ready again with no context: the
    scheduler switches to a null record. *)
Theorem terminate_timed_runs_ghost :
  let s0 := clock_demo |> demo_wait 0 (THINKOS_SEM_BASE + 1) |> set_active 3 |> exception_entry (record_of 3) (call_record 2 0 0 0) in
  let s1 := thinkos_terminate_svc (record_of 3) 3 s0 in
  let s2 := cm3_systick_isr s1 in
  let s3 := cm3_pendsv_isr s2 in
  kernel_ok s0 /\ Z.testbit (th_alloc s1) 1 = false /\ rd (ctx s1) 1 = 0 /\
  mem s1 1 THINKOS_WQ_CLOCK = true /\ mem s2 1 THINKOS_WQ_READY = true /\
  active s3 = 1 /\ psp s3 = 0.
Proof. split; [kernel_ok_compute|]. vm_compute. split_and!; reflexivity. Qed.
