(* ===== verification/Irq.v ===== *)
(** * Interrupts as events

    src/sdk/libthinkos/thinkos_irq.c: a thread waits for an interrupt by
    assigning itself to it and enabling it; the default interrupt routine
    disables the interrupt and makes the thread ready.  The timed variants and
    the control call are disabled by the configuration. *)

From stdpp Require Import base tactics numbers list gmap.
From Stdlib Require Import ZArith Lia.
From S2P Require Import Prelude CortexM State Kernel BmpAlloc Invariant Decide Init Demo Transitions Pause.

(** ** Code *)

Definition irq_th_store (irq v : Z) (s : kernel) : kernel := set_irq_th (wr (irq_th s) irq (u8 v)) s.

Definition cm3_default_isr (irq : Z) (s : kernel) : kernel :=
  let s := s |> cm3_irq_disable irq in
  let thread_id := rd (irq_th s) irq in
  s |> irq_th_store irq THINKOS_THREAD_IDLE
    |> wq_bit_store THINKOS_WQ_READY thread_id true
    |> __thinkos_preempt.

Definition thinkos_irq_wait_svc (arg self : Z) (s : kernel) : kernel :=
  let irq := arg_0 arg s in
  if THINKOS_IRQ_MAX <=? irq then s |> arg_ret arg THINKOS_EINVAL
  else
    s |> arg_ret arg THINKOS_OK
      |> __thinkos_suspend self
      |> irq_th_store irq self
      |> __thinkos_defer_sched
      |> cm3_irq_pend_clr irq
      |> cm3_irq_enable irq.

(** ** Queue consistency *)

Lemma irq_waiting_wr irqs irq v th :
  0 <= irq < len irqs -> th <> v -> th <> rd irqs irq ->
  irq_waiting (wr irqs irq v) th = irq_waiting irqs th.
Proof.
  intros Hi Hv Ho. apply eq_true_iff_eq. rewrite !irq_waiting_iff, len_wr. split; intros (i & Hr & E); exists i;
    (split; [done|]); destruct (Z.eq_dec irq i) as [<-|Hne].
  - rewrite rd_wr_eq in E by done. congruence.
  - by rewrite rd_wr_ne in E.
  - congruence.
  - by rewrite rd_wr_ne.
Qed.

Lemma irq_waiting_set irqs irq v : 0 <= irq < len irqs -> irq_waiting (wr irqs irq v) v = true.
Proof. intros H. apply irq_waiting_iff. exists irq. rewrite len_wr, rd_wr_eq by done. done. Qed.

Section wait.
Context (s : kernel) (K : kernel_ok s) (self irq : Z) (Hs : 0 <= self < THINKOS_THREADS_MAX).
Context (Hc : calling s self) (Hirq : 0 <= irq < THINKOS_IRQ_MAX).
Context (Hfree : rd (irq_th s) irq = THINKOS_THREAD_IDLE).

Lemma irq_assign_ok x :
  wq_lst x = suspend_wq (wq_lst s) self -> th_stat x = th_stat s -> th_alloc x = th_alloc s ->
  irq_th x = wr (irq_th s) irq self -> irq_en x = {[irq]} ∪ irq_en s -> kernel_ok x.
Proof using K Hs Hc Hirq Hfree.
  intros Ew Es Ea Ei Een. destruct (calling_facts s K self Hs Hc) as (Hal & Hiw & Hall).
  destruct (thread_step_suspend self s Hs) as [_ _ _ _ Hhigh Hoth].
  assert (Em : forall th wq, mem x th wq = mem (__thinkos_suspend self s) th wq) by (intros; unfold mem; by rewrite Ew).
  assert (Hself : forall wq, mem x self wq = false).
  { intros wq. rewrite Em, mem_suspend_self by (apply K || lia || by rewrite Hall). rewrite Hall. by destruct (wq =? 0). }
  assert (Hno : forall i, 0 <= i < 80 -> rd (irq_th s) i <> self).
  { intros i Hi E. assert (irq_waiting (irq_th s) self = true) as C; [|congruence].
    apply irq_waiting_iff. exists i. by rewrite (k_irq s K). }
  assert (Hrd : forall i, 0 <= i < 80 -> rd (irq_th x) i = if irq =? i then self else rd (irq_th s) i).
  { intros i Hi. rewrite Ei. apply rd_wr. by rewrite (k_irq s K). }
  split.
  - by rewrite Ew, len_suspend_wq, (k_wq s K).
  - by rewrite Es, (k_stat s K).
  - by rewrite Ei, len_wr, (k_irq s K).
  - intros i Hi. rewrite Hrd by done. destruct (irq =? i); [lia|by apply K].
  - intros i j Hi Hj. rewrite !Hrd by done. destruct (Z.eqb_spec irq i), (Z.eqb_spec irq j); subst; try done.
    + intros E. by destruct (Hno j).
    + intros E. by destruct (Hno i).
    + by apply (k_irq_inj s K).
  - intros i Hi Hen. rewrite Hrd by done. destruct (Z.eqb_spec irq i) as [<-|Hne]; [by rewrite Hself|].
    intros Hlt. assert (i ∈ irq_en s) as Hin by set_solver. rewrite Em. unfold mem. kred.
    rewrite inq_suspend_other by (rewrite ?(k_wq s K); lia). by apply (k_irq_paused s K i).
  - intros wq th. rewrite Em. intros Hm. destruct (decide (0 <= th < 8)); [by left|].
    rewrite Hhigh in Hm by (lia || apply K || (intros ? ?; apply (k_bits s K))). by apply (k_bits s K).
  - rewrite Em, Hhigh by (lia || apply K || (intros ? ?; apply (k_bits s K))). apply K.
  - intros th Hth. unfold thread_in. rewrite Es, Ea, Ei. destruct (Z.eq_dec th self) as [->|Hne].
    + rewrite irq_waiting_set by (rewrite (k_irq s K); lia). destruct Hc as [_ ->]. rewrite Hal. by apply T_irq.
    + rewrite irq_waiting_wr by (rewrite ?(k_irq s K); lia).
      destruct (Hoth th Hth Hne (k_wq s K)) as (Hsame & _ & _).
      apply (thread_ok_ext (mem (__thinkos_suspend self s) th)); [apply Em|].
      eapply thread_ok_same; [exact Hsame|]. by apply (k_threads s K).
Qed.
End wait.

(** The caller must be the only one to wait for the interrupt. *)
Lemma irq_wait_ok s arg self :
  kernel_ok s -> 0 <= self < THINKOS_THREADS_MAX -> calling s self ->
  (arg_0 arg s < THINKOS_IRQ_MAX -> rd (irq_th s) (arg_0 arg s) = THINKOS_THREAD_IDLE) ->
  kernel_ok (thinkos_irq_wait_svc arg self s).
Proof.
  intros K Hs Hc Hf. unfold thinkos_irq_wait_svc. cbv zeta. guards.
  pose proof (arg_0_range arg s). apply (irq_assign_ok s K self (arg_0 arg s) Hs Hc ltac:(lia) (Hf ltac:(lia)));
    try reflexivity. unfold irq_th_store, cm3_irq_enable, cm3_irq_pend_clr. kred. by rewrite u8_small by lia.
Qed.

Section isr.
Context (s : kernel) (K : kernel_ok s) (irq : Z) (Hirq : 0 <= irq < THINKOS_IRQ_MAX) (Hen : irq ∈ irq_en s).
Let t := rd (irq_th s) irq.

Lemma isr_mem th wq :
  mem (cm3_default_isr irq s) th wq =
    if (wq =? THINKOS_WQ_READY) && (t =? th) then true else mem s th wq.
Proof using K Hirq.
  pose proof (k_irq_range s K irq Hirq). unfold cm3_default_isr. cbv zeta.
  rewrite mem_preempt, mem_bit_store.
  - rewrite (Z.eqb_sym 0). done.
  - apply K.
  - lia.
  - apply H.
Qed.

Lemma isr_thread_mem :
  t < THINKOS_THREAD_IDLE -> forall wq, mem (cm3_default_isr irq s) t wq = (wq =? THINKOS_WQ_READY).
Proof using K Hirq Hen.
  intros Ht wq. pose proof (k_irq_range s K irq Hirq) as Hr. fold t in Hr.
  assert (Hiw : irq_waiting (irq_th s) t = true).
  { apply irq_waiting_iff. exists irq. by rewrite (k_irq s K). }
  destruct (ok_irq _ _ _ _ (k_threads s K t ltac:(lia)) Hiw) as (_ & _ & Hm).
  rewrite isr_mem, Z.eqb_refl, andb_true_r. destruct (Z.eqb_spec wq 0); [done|].
  destruct (mem s t wq) eqn:E; [|done]. pose proof (Hm wq E) as ->.
  pose proof (k_irq_paused s K irq Hirq Hen Ht) as Hp. fold t in Hp. congruence.
Qed.

Lemma default_isr_ok : kernel_ok (cm3_default_isr irq s).
Proof using K Hirq Hen.
  pose proof (k_irq_range s K irq Hirq) as Hr. fold t in Hr. pose proof isr_mem as Hm.
  assert (Eth : irq_th (cm3_default_isr irq s) = wr (irq_th s) irq 8) by reflexivity.
  assert (Hrd : forall i, 0 <= i < 80 -> rd (irq_th (cm3_default_isr irq s)) i = if irq =? i then 8 else rd (irq_th s) i).
  { intros i Hi. rewrite Eth. apply rd_wr. by rewrite (k_irq s K). }
  split.
  - unfold cm3_default_isr. cbv zeta. kred. rewrite len_wq_bit_wr. apply K.
  - apply K.
  - rewrite Eth, len_wr. apply K.
  - intros i Hi. rewrite Hrd by done. destruct (irq =? i); [lia|by apply K].
  - intros i j Hi Hj. rewrite !Hrd by done. destruct (Z.eqb_spec irq i), (Z.eqb_spec irq j); subst; try lia.
    by apply (k_irq_inj s K).
  - intros i Hi Hin. rewrite Hrd by done. destruct (Z.eqb_spec irq i); [lia|]. intros Hlt.
    rewrite Hm. cbn [andb Z.eqb]. apply (k_irq_paused s K i Hi); [|done].
    unfold cm3_default_isr in Hin. cbv zeta in Hin. revert Hin. unfold cm3_irq_disable. kred. set_solver.
  - intros wq th. rewrite Hm. destruct (Z.eqb_spec wq 0), (Z.eqb_spec t th); cbn [andb]; subst; try apply (k_bits s K).
    intros _. destruct (Z.eq_dec t 8) as [->|]; [by right|left; lia].
  - rewrite Hm. destruct (t =? 8); [done|]. apply K.
  - intros th Hth. unfold thread_in.
    change (th_stat (cm3_default_isr irq s)) with (th_stat s). change (th_alloc (cm3_default_isr irq s)) with (th_alloc s).
    destruct (Z.eq_dec th t) as [->|Hne].
    + assert (Hiw : irq_waiting (irq_th s) t = true).
      { apply irq_waiting_iff. exists irq. by rewrite (k_irq s K). }
      destruct (ok_irq _ _ _ _ (k_threads s K t Hth) Hiw) as (-> & -> & _).
      assert (irq_waiting (irq_th (cm3_default_isr irq s)) t = false) as ->.
      { rewrite Eth. destruct (irq_waiting (wr (irq_th s) irq 8) t) eqn:E; [|done].
        apply irq_waiting_iff in E as (i & Hi & E). rewrite len_wr, (k_irq s K) in Hi.
        rewrite rd_wr in E by (rewrite (k_irq s K); lia). destruct (Z.eqb_spec irq i); [lia|].
        destruct (k_irq_inj s K i irq Hi Hirq E ltac:(lia)). done. }
      apply T_ready. apply isr_thread_mem. lia.
    + assert (irq_waiting (irq_th (cm3_default_isr irq s)) th = irq_waiting (irq_th s) th) as ->.
      { apply (irq_waiting_wr (irq_th s) irq 8); [by rewrite (k_irq s K)|lia|exact Hne]. }
      apply (thread_ok_ext (mem s th)); [|by apply (k_threads s K)].
      intros wq. rewrite Hm. destruct (Z.eqb_spec t th); [congruence|]. by rewrite andb_false_r.
Qed.
End isr.

(** C9: a thread waits for an interrupt that nobody waits for yet.  It leaves
    every queue with the interrupt enabled and not pending; when the interrupt comes
    the thread is ready again, its call returns 0, and the interrupt is disabled and
    free for the next wait.  No other thread is affected, neither by the call nor by the
    interrupt: it keeps its status and its queues, but for the move from the time share
    to the ready queue when a new cycle begins. *)
Theorem irq_wait_then_isr s arg self :
  kernel_ok s -> 0 <= self < THINKOS_THREADS_MAX -> calling s self -> live arg s ->
  arg_0 arg s < THINKOS_IRQ_MAX -> rd (irq_th s) (arg_0 arg s) = THINKOS_THREAD_IDLE ->
  let irq := arg_0 arg s in
  let s1 := thinkos_irq_wait_svc arg self s in
  let s2 := cm3_default_isr irq s1 in
  (forall wq, mem s1 self wq = false) /\ irq ∈ irq_en s1 /\ irq ∉ irq_pend s1 /\ pendsv s1 = true /\
  kernel_ok s2 /\ calling s2 self /\ arg_0 arg s2 = 0 /\ irq ∉ irq_en s2 /\
  rd (irq_th s2) irq = THINKOS_THREAD_IDLE /\
  forall th, 0 <= th < THINKOS_THREADS_MAX -> th <> self ->
    rd (th_stat s2) th = rd (th_stat s) th /\ same_thread (mem s th) (mem s1 th) /\
    (forall wq, mem s2 th wq = mem s1 th wq).
Proof.
  intros K Hs Hc Hlive Hlt Hf. cbv zeta. pose proof (arg_0_range arg s) as Hr0. set (irq := arg_0 arg s) in *.
  assert (Hirq : 0 <= irq < 80) by lia.
  assert (E1 : thinkos_irq_wait_svc arg self s = cm3_irq_enable irq (cm3_irq_pend_clr irq (__thinkos_defer_sched
    (irq_th_store irq self (__thinkos_suspend self (arg_ret arg 0 s)))))).
  { unfold thinkos_irq_wait_svc. cbv zeta. fold irq. destruct (Z.leb_spec 80 irq); [lia|done]. }
  pose proof (irq_wait_ok s arg self K Hs Hc ltac:(intros; done)) as K1.
  destruct (calling_facts s K self Hs Hc) as (Hal & Hiw & Hall).
  assert (M1 : forall wq, mem (thinkos_irq_wait_svc arg self s) self wq = false).
  { intros wq. rewrite E1. transitivity (mem (__thinkos_suspend self s) self wq); [done|].
    rewrite mem_suspend_self by (apply K || lia || by rewrite Hall). rewrite Hall. by destruct (wq =? 0). }
  assert (En1 : irq ∈ irq_en (thinkos_irq_wait_svc arg self s)).
  { rewrite E1. unfold cm3_irq_enable, cm3_irq_pend_clr, irq_th_store. kred. set_solver. }
  assert (Pn1 : irq ∉ irq_pend (thinkos_irq_wait_svc arg self s)).
  { rewrite E1. unfold cm3_irq_enable, cm3_irq_pend_clr, irq_th_store. kred. set_solver. }
  assert (T1 : rd (irq_th (thinkos_irq_wait_svc arg self s)) irq = self).
  { rewrite E1. unfold cm3_irq_enable, cm3_irq_pend_clr, irq_th_store. kred.
    rewrite rd_wr_eq by (rewrite (k_irq s K); lia). apply u8_small. lia. }
  assert (F1 : frames (thinkos_irq_wait_svc arg self s) = alter (set_r0 (u32 0)) arg (frames s)) by by rewrite E1.
  assert (P1 : pendsv (thinkos_irq_wait_svc arg self s) = true) by by rewrite E1.
  assert (S1 : th_stat (thinkos_irq_wait_svc arg self s) = th_stat s) by by rewrite E1.
  assert (O1 : forall th, 0 <= th < 8 -> th <> self -> same_thread (mem s th) (mem (thinkos_irq_wait_svc arg self s) th)).
  { intros th Hth Hne. rewrite E1. apply (same_suspend (wq_lst s) self th); [rewrite (k_wq s K); lia|lia|lia]. }
  clear E1. revert K1 M1 En1 Pn1 T1 F1 P1 S1 O1. generalize (thinkos_irq_wait_svc arg self s).
  intros s1 K1 M1 En1 Pn1 T1 F1 P1 S1 O1.
  pose proof (default_isr_ok s1 K1 irq Hirq En1) as K2.
  pose proof (isr_thread_mem s1 K1 irq Hirq En1) as M2. rewrite T1 in M2.
  split_and!; [exact M1|exact En1|exact Pn1|exact P1|exact K2|split; [by rewrite M2 by lia|rewrite <- (proj2 Hc), <- S1; done]| | | |].
  - transitivity (arg_0 arg s1); [done|]. by apply (arg_0_stored arg 0 s Hlive).
  - unfold cm3_default_isr, cm3_irq_disable. cbv zeta. kred. unfold irq_th_store. kred. set_solver.
  - unfold cm3_default_isr. cbv zeta. kred. unfold irq_th_store. kred. apply rd_wr_eq.
    unfold cm3_irq_disable. kred. rewrite (k_irq s1 K1). lia.
  - intros th Hth Hne. split_and!; [by rewrite <- S1|by apply O1|]. intros wq.
    rewrite (isr_mem s1 K1 irq Hirq), T1. destruct (Z.eqb_spec self th); [lia|]. by rewrite andb_false_r.
Qed.

Lemma irq_wait_then_isr_witness :
  let s2 := cm3_default_isr 40 (thinkos_irq_wait_svc (record_of 0) 0 (demo_call 40 0 0 0 demo)) in
  kernel_ok s2 /\ calling s2 0 /\ arg_0 (record_of 0) s2 = 0.
Proof.
  destruct (irq_wait_then_isr (demo_call 40 0 0 0 demo) (record_of 0) 0) as (_ & _ & _ & _ & K & C & R & _);
    [kernel_ok_compute|lia|split; vm_compute; reflexivity|vm_compute; eexists; reflexivity
    |vm_compute; reflexivity|vm_compute; reflexivity|].
  split; [exact K|]. split; [exact C|exact R].
Defined.
