(* ===== verification/Svc.v ===== *)
(** * System calls

    src/sdk/libthinkos/thinkos_svc.c: the dispatcher and the calls it contains
    (critical sections, the clock, the thread's own number), with
    thinkos_ctl.c, thinkos_idle.c, thinkos_break.c and the entry of the debug
    monitor (thinkos_dbgmon.c). *)

From stdpp Require Import base tactics numbers list gmap.
From Stdlib Require Import ZArith Lia.
From S2P Require Import Prelude CortexM State Kernel BmpAlloc Invariant Decide Init Demo Transitions Mutex Semaphore Cond Event Flag Gate Console Pause Sched Thread Irq.

(** What the handlers read of the board: the address of the clock table, the
    delay calibration, the cycle counter, and whether the monitor is enabled. *)
Record platform := mk_platform { sysclk_hz : Z; udelay_factor : Z; cyccnt : Z; mon_en : bool }.

(** ** Code *)

Definition thinkos_nosys (arg : Z) (s : kernel) : kernel := s |> arg_ret arg THINKOS_ENOSYS.

Definition thinkos_clock_svc (arg : Z) (s : kernel) : kernel := s |> arg_ret arg (ticks s).

Definition thinkos_thread_self_svc (arg self : Z) (s : kernel) : kernel := s |> arg_ret arg (self + 1).

Definition thinkos_critical_enter_svc (arg : Z) (s : kernel) : kernel :=
  let s := s |> set_critical_cnt (u32 (critical_cnt s + 1)) in
  if negb (critical_cnt s =? 0) then s |> set_pendsv false else s.

Definition thinkos_critical_exit_svc (arg : Z) (s : kernel) : kernel :=
  if critical_cnt s =? 0 then s |> arg_ret arg THINKOS_EFAULT
  else
    let s := s |> set_critical_cnt (u32 (critical_cnt s - 1)) in
    if critical_cnt s =? 0 then s |> __thinkos_defer_sched else s.

(** A store of a word into a buffer of the caller. *)
Definition umem_store32 (a v : Z) (s : kernel) : kernel :=
  s |> set_umem (memset32_bytes 1 a v (umem s)).

Fixpoint memcpy32_out (n : nat) (dst i : Z) (l : list Z) (m : gmap Z Z) : gmap Z Z :=
  match n with
  | O => m
  | S n => memcpy32_out n (dst + 4) (i + 1) l (memset32_bytes 1 dst (rd l i) m)
  end.

Abbreviation THINKOS_CTL_ABORT := 0 (only parsing).
Abbreviation THINKOS_CTL_UDELAY_FACTOR := 1 (only parsing).
Abbreviation THINKOS_CTL_CLOCKS := 2 (only parsing).
Abbreviation THINKOS_CTL_TRACE := 4 (only parsing).
Abbreviation THINKOS_CTL_THREAD_INF := 5 (only parsing).
Abbreviation THINKOS_CTL_REBOOT := 7 (only parsing).
Abbreviation THINKOS_CTL_CYCCNT := 8 (only parsing).

(** [None]: the system is reset.  The number of information words is compared
    as a signed number.  The breakpoint instruction that ends THINKOS_CTL_ABORT when the
    monitor is built in has no effect of its own on the state: the handler returns
    after it, and what a debugger or the monitor does there is not modelled. *)
Definition thinkos_ctl_svc (p : platform) (arg : Z) (s : kernel) : option kernel :=
  let req := arg_0 arg s in
  let s := s |> arg_ret arg 0 in
  if req =? THINKOS_CTL_CLOCKS then Some (s |> umem_store32 (arg_1 arg s) (sysclk_hz p))
  else if req =? THINKOS_CTL_UDELAY_FACTOR then Some (s |> umem_store32 (arg_1 arg s) (udelay_factor p))
  else if req =? THINKOS_CTL_ABORT then Some (s |> __thinkos_pause_all |> __thinkos_defer_sched)
  else if req =? THINKOS_CTL_TRACE then Some s
  else if req =? THINKOS_CTL_REBOOT then None
  else if req =? THINKOS_CTL_THREAD_INF then
    let cnt := u32 (Z.min 9 (int32 (arg_2 arg s))) in
    Some (s |> set_umem (memcpy32_out (Z.to_nat ((u32 (4 * cnt) + 3) / 4)) (arg_1 arg s) 0 (th_inf s) (umem s))
            |> arg_ret arg cnt)
  else if req =? THINKOS_CTL_CYCCNT then Some (s |> arg_ret arg (cyccnt p))
  else Some (s |> arg_ret arg THINKOS_EINVAL).

Abbreviation DBGMON_STARTUP := 29 (only parsing).
Abbreviation DBGMON_RESET := 31 (only parsing).
Abbreviation DBGMON_IDLE := 30 (only parsing).

Definition dbgmon_signal_idle (s : kernel) : kernel :=
  if mon_req s then
    s |> set_mon_events (__bit_mem_wr (mon_events s) DBGMON_IDLE true)
      |> set_mon_req false
      |> set_mon_pend true
  else s.

Definition thinkos_idle_svc (arg : Z) (s : kernel) : kernel :=
  let s := s |> dbgmon_signal_idle in
  if negb (rd (wq_lst s) THINKOS_WQ_READY =? Z.shiftl 1 THINKOS_THREADS_MAX)
  then s |> __thinkos_defer_sched else s.

(** The events and the request of the monitor, which is what the rest of the kernel
    and the console read.  The mask, the channel, the task, the parameter and the
    stack of the monitor, and the debug units of the core, are not part of the state. *)
Definition thinkos_dbgmon_svc (p : platform) (arg self : Z) (s : kernel) : kernel :=
  s |> set_mon_events (Z.lor (if mon_en p then 0 else Z.shiftl 1 DBGMON_STARTUP) (Z.shiftl 1 DBGMON_RESET))
    |> set_mon_pend true.

(** thinkos_break.c: it is compiled but no system call number leads to it.
    [None] where the table has no bitmap. *)
Definition thinkos_obj_alloc_lut (type : thinkos_obj_kind) (s : kernel) : option Z :=
  match type with
  | OBJ_COND => Some (cond_alloc s)
  | OBJ_SEMAPHORE => Some (sem_alloc s)
  | OBJ_EVENT => Some (ev_alloc s)
  | OBJ_FLAG => Some (flag_alloc s)
  | OBJ_GATE => Some (gate_alloc s)
  | OBJ_JOIN => Some (th_alloc s)
  | _ => None
  end.

Definition thinkos_wq_base_lut (type : thinkos_obj_kind) : Z :=
  match type with
  | OBJ_READY => THINKOS_WQ_READY | OBJ_TMSHARE => THINKOS_WQ_TMSHARE | OBJ_CLOCK => THINKOS_WQ_CLOCK
  | OBJ_MUTEX => THINKOS_MUTEX_BASE | OBJ_COND => THINKOS_COND_BASE | OBJ_SEMAPHORE => THINKOS_SEM_BASE
  | OBJ_EVENT => THINKOS_EVENT_BASE | OBJ_FLAG => THINKOS_FLAG_BASE | OBJ_GATE => THINKOS_GATE_BASE
  | OBJ_JOIN => THINKOS_JOIN_BASE | OBJ_CONWRITE => THINKOS_WQ_CONSOLE_WR
  | OBJ_CONREAD => THINKOS_WQ_CONSOLE_RD | OBJ_PAUSED => THINKOS_WQ_PAUSED
  | OBJ_CANCELED => THINKOS_WQ_CANCELED | _ => 0
  end.

Definition thinkos_break_svc (arg : Z) (s : kernel) : kernel :=
  let wq := arg_0 arg s in
  if THINKOS_WQ_LST_END <=? wq then s |> arg_ret arg THINKOS_EINVAL
  else
    let type := obj_type wq in
    let idx := u32 (wq - thinkos_wq_base_lut type) in
    if match thinkos_obj_alloc_lut type s with Some alloc => negb (__bit_mem_rd alloc idx) | None => false end
    then s |> arg_ret arg THINKOS_EINVAL
    else
      let th := __thinkos_wq_head wq s in
      let s := if negb (th =? THINKOS_THREAD_NULL) then
                 s |> __thinkos_wakeup_return wq th THINKOS_EINTR
                   |> wq_drain 32 (fun th => __thinkos_wakeup_return wq th THINKOS_EINTR) wq
                   |> __thinkos_defer_sched
               else s in
      s |> arg_ret arg 0.

(** The system call numbers of syscalls.h, from 0 up. *)
Inductive syscall :=
  | SVC_THREAD_SELF | SVC_THREAD_CREATE | SVC_CLOCK | SVC_ALARM | SVC_SLEEP | SVC_MUTEX_LOCK
  | SVC_MUTEX_TRYLOCK | SVC_MUTEX_TIMEDLOCK | SVC_MUTEX_UNLOCK | SVC_SEM_INIT | SVC_SEM_WAIT
  | SVC_SEM_TRYWAIT | SVC_SEM_TIMEDWAIT | SVC_SEM_POST | SVC_COND_WAIT | SVC_COND_TIMEDWAIT
  | SVC_COND_SIGNAL | SVC_COND_BROADCAST | SVC_FLAG_TAKE | SVC_FLAG_TIMEDTAKE | SVC_FLAG_GIVE
  | SVC_FLAG_VAL | SVC_FLAG_CLR | SVC_FLAG_SET | SVC_FLAG_WATCH | SVC_FLAG_TIMEDWATCH
  | SVC_GATE_WAIT | SVC_GATE_TIMEDWAIT | SVC_GATE_EXIT | SVC_GATE_OPEN | SVC_GATE_CLOSE
  | SVC_EVENT_WAIT | SVC_EVENT_TIMEDWAIT | SVC_EVENT_RAISE | SVC_EVENT_MASK | SVC_EVENT_CLEAR
  | SVC_CONSOLE | SVC_IRQ_WAIT | SVC_IRQ_TIMEDWAIT | SVC_IRQ_CTL | SVC_MUTEX_ALLOC
  | SVC_MUTEX_FREE | SVC_SEM_ALLOC | SVC_SEM_FREE | SVC_COND_ALLOC | SVC_COND_FREE
  | SVC_FLAG_ALLOC | SVC_FLAG_FREE | SVC_EVENT_ALLOC | SVC_EVENT_FREE | SVC_GATE_ALLOC
  | SVC_GATE_FREE | SVC_JOIN | SVC_PAUSE | SVC_RESUME | SVC_CANCEL | SVC_EXIT | SVC_TERMINATE
  | SVC_CTL | SVC_COMM | SVC_ON_IDLE | SVC_ESCALATE | SVC_CRITICAL_ENTER | SVC_CRITICAL_EXIT
  | SVC_DBGMON | SVC_IRQ_TIMEDWAIT_CLEANUP.

Definition syscalls : list syscall :=
  [SVC_THREAD_SELF; SVC_THREAD_CREATE; SVC_CLOCK; SVC_ALARM; SVC_SLEEP; SVC_MUTEX_LOCK
   ; SVC_MUTEX_TRYLOCK; SVC_MUTEX_TIMEDLOCK; SVC_MUTEX_UNLOCK; SVC_SEM_INIT; SVC_SEM_WAIT
   ; SVC_SEM_TRYWAIT; SVC_SEM_TIMEDWAIT; SVC_SEM_POST; SVC_COND_WAIT; SVC_COND_TIMEDWAIT
   ; SVC_COND_SIGNAL; SVC_COND_BROADCAST; SVC_FLAG_TAKE; SVC_FLAG_TIMEDTAKE; SVC_FLAG_GIVE
   ; SVC_FLAG_VAL; SVC_FLAG_CLR; SVC_FLAG_SET; SVC_FLAG_WATCH; SVC_FLAG_TIMEDWATCH; SVC_GATE_WAIT
   ; SVC_GATE_TIMEDWAIT; SVC_GATE_EXIT; SVC_GATE_OPEN; SVC_GATE_CLOSE; SVC_EVENT_WAIT
   ; SVC_EVENT_TIMEDWAIT; SVC_EVENT_RAISE; SVC_EVENT_MASK; SVC_EVENT_CLEAR; SVC_CONSOLE
   ; SVC_IRQ_WAIT; SVC_IRQ_TIMEDWAIT; SVC_IRQ_CTL; SVC_MUTEX_ALLOC; SVC_MUTEX_FREE; SVC_SEM_ALLOC
   ; SVC_SEM_FREE; SVC_COND_ALLOC; SVC_COND_FREE; SVC_FLAG_ALLOC; SVC_FLAG_FREE; SVC_EVENT_ALLOC
   ; SVC_EVENT_FREE; SVC_GATE_ALLOC; SVC_GATE_FREE; SVC_JOIN; SVC_PAUSE; SVC_RESUME; SVC_CANCEL
   ; SVC_EXIT; SVC_TERMINATE; SVC_CTL; SVC_COMM; SVC_ON_IDLE; SVC_ESCALATE; SVC_CRITICAL_ENTER
   ; SVC_CRITICAL_EXIT; SVC_DBGMON; SVC_IRQ_TIMEDWAIT_CLEANUP].

Definition syscall_of (svc : Z) : option syscall :=
  if svc <? 0 then None else syscalls !! Z.to_nat svc.

(** [None]: the call does not return. *)
Definition thinkos_svc_isr (p : platform) (arg self svc : Z) (s : kernel) : option kernel :=
  match syscall_of svc with
  | Some SVC_THREAD_SELF => Some (s |> thinkos_thread_self_svc arg self)
  | Some SVC_THREAD_CREATE => Some (s |> thinkos_thread_create_svc arg)
  | Some SVC_CLOCK => Some (s |> thinkos_clock_svc arg)
  | Some SVC_ALARM => Some (s |> thinkos_alarm_svc arg self)
  | Some SVC_SLEEP => Some (s |> thinkos_sleep_svc arg self)
  | Some SVC_MUTEX_LOCK => Some (s |> thinkos_mutex_lock_svc arg self)
  | Some SVC_MUTEX_TRYLOCK => Some (s |> thinkos_mutex_trylock_svc arg self)
  | Some SVC_MUTEX_TIMEDLOCK => Some (s |> thinkos_mutex_timedlock_svc arg self)
  | Some SVC_MUTEX_UNLOCK => Some (s |> thinkos_mutex_unlock_svc arg self)
  | Some SVC_SEM_INIT => Some (s |> thinkos_sem_init_svc arg)
  | Some SVC_SEM_WAIT => Some (s |> thinkos_sem_wait_svc arg self)
  | Some SVC_SEM_TRYWAIT => Some (s |> thinkos_sem_trywait_svc arg)
  | Some SVC_SEM_TIMEDWAIT => Some (s |> thinkos_sem_timedwait_svc arg self)
  | Some SVC_SEM_POST => Some (s |> thinkos_sem_post_svc arg)
  | Some SVC_COND_WAIT => Some (s |> thinkos_cond_wait_svc arg self)
  | Some SVC_COND_TIMEDWAIT => Some (s |> thinkos_cond_timedwait_svc arg self)
  | Some SVC_COND_SIGNAL => Some (s |> thinkos_cond_signal_svc arg)
  | Some SVC_COND_BROADCAST => Some (s |> thinkos_cond_broadcast_svc arg)
  | Some SVC_FLAG_TAKE => Some (s |> thinkos_flag_take_svc arg self)
  | Some SVC_FLAG_TIMEDTAKE => Some (s |> thinkos_flag_timedtake_svc arg self)
  | Some SVC_FLAG_GIVE => Some (s |> thinkos_flag_give_svc arg)
  | Some SVC_FLAG_VAL => Some (s |> thinkos_flag_val_svc arg)
  | Some SVC_FLAG_CLR => Some (s |> thinkos_flag_clr_svc arg)
  | Some SVC_FLAG_SET => Some (s |> thinkos_flag_set_svc arg)
  | Some SVC_FLAG_WATCH => Some (s |> thinkos_flag_watch_svc arg self)
  | Some SVC_FLAG_TIMEDWATCH => Some (s |> thinkos_flag_timedwatch_svc arg self)
  | Some SVC_GATE_WAIT => Some (s |> thinkos_gate_wait_svc arg self)
  | Some SVC_GATE_TIMEDWAIT => Some (s |> thinkos_gate_timedwait_svc arg self)
  | Some SVC_GATE_EXIT => Some (s |> thinkos_gate_exit_svc arg)
  | Some SVC_GATE_OPEN => Some (s |> thinkos_gate_open_svc arg)
  | Some SVC_GATE_CLOSE => Some (s |> thinkos_gate_close_svc arg)
  | Some SVC_EVENT_WAIT => Some (s |> thinkos_ev_wait_svc arg self)
  | Some SVC_EVENT_TIMEDWAIT => Some (s |> thinkos_ev_timedwait_svc arg self)
  | Some SVC_EVENT_RAISE => Some (s |> thinkos_ev_raise_svc arg)
  | Some SVC_EVENT_MASK => Some (s |> thinkos_ev_mask_svc arg)
  | Some SVC_EVENT_CLEAR => Some (s |> thinkos_ev_clear_svc arg)
  | Some SVC_CONSOLE => thinkos_console_svc arg self s
  | Some SVC_IRQ_WAIT => Some (s |> thinkos_irq_wait_svc arg self)
  | Some SVC_IRQ_TIMEDWAIT => Some (s |> thinkos_nosys arg)
  | Some SVC_IRQ_CTL => Some (s |> thinkos_nosys arg)
  | Some SVC_MUTEX_ALLOC => Some (s |> thinkos_mutex_alloc_svc arg)
  | Some SVC_MUTEX_FREE => Some (s |> thinkos_mutex_free_svc arg)
  | Some SVC_SEM_ALLOC => Some (s |> thinkos_sem_alloc_svc arg)
  | Some SVC_SEM_FREE => Some (s |> thinkos_sem_free_svc arg)
  | Some SVC_COND_ALLOC => Some (s |> thinkos_cond_alloc_svc arg)
  | Some SVC_COND_FREE => Some (s |> thinkos_cond_free_svc arg)
  | Some SVC_FLAG_ALLOC => Some (s |> thinkos_flag_alloc_svc arg)
  | Some SVC_FLAG_FREE => Some (s |> thinkos_flag_free_svc arg)
  | Some SVC_EVENT_ALLOC => Some (s |> thinkos_ev_alloc_svc arg)
  | Some SVC_EVENT_FREE => Some (s |> thinkos_ev_free_svc arg)
  | Some SVC_GATE_ALLOC => Some (s |> thinkos_gate_alloc_svc arg)
  | Some SVC_GATE_FREE => Some (s |> thinkos_gate_free_svc arg)
  | Some SVC_JOIN => Some (s |> thinkos_join_svc arg self)
  | Some SVC_PAUSE => Some (s |> thinkos_pause_svc arg self)
  | Some SVC_RESUME => Some (s |> thinkos_resume_svc arg)
  | Some SVC_CANCEL => Some (s |> thinkos_cancel_svc arg self)
  | Some SVC_EXIT => Some (s |> thinkos_exit_svc arg self)
  | Some SVC_TERMINATE => Some (s |> thinkos_terminate_svc arg self)
  | Some SVC_CTL => thinkos_ctl_svc p arg s
  | Some SVC_COMM => Some (s |> thinkos_nosys arg)
  | Some SVC_ON_IDLE => Some (s |> thinkos_idle_svc arg)
  | Some SVC_ESCALATE => Some (s |> thinkos_nosys arg)
  | Some SVC_CRITICAL_ENTER => Some (s |> thinkos_critical_enter_svc arg)
  | Some SVC_CRITICAL_EXIT => Some (s |> thinkos_critical_exit_svc arg)
  | Some SVC_DBGMON => Some (s |> thinkos_dbgmon_svc p arg self)
  | Some SVC_IRQ_TIMEDWAIT_CLEANUP => Some (s |> thinkos_nosys arg)
  | None => Some (s |> thinkos_nosys arg)
  end.
