(* ===== verification/System.v ===== *)
(** * The kernel as a transition system

    The events that run kernel code (a system call of the running thread, a
    tick, the scheduler, an interrupt with a waiting thread, the interrupt side
    of the synchronisation objects, the console driver) as a step relation, and
    the invariant of every state reachable from start-up: the queues, the
    scheduling data, the console pipes and the thread bitmap stay consistent. *)

From stdpp Require Import base tactics numbers list gmap.
From Stdlib Require Import ZArith Lia.
From S2P Require Import Prelude CortexM State Kernel BmpAlloc Invariant Decide Init Demo Transitions Mutex Semaphore Cond Event Flag Gate Console Pause Sched Thread Irq Svc.

(** ** The fields most handlers do not touch *)

Definition sysf (s : kernel) : console_rt * Z * list Z * Z * Z :=
  (console s, active s, sched s, sched_limit s, th_alloc s).

Lemma sysf_arg_ret a v s : sysf (arg_ret a v s) = sysf s. Proof. reflexivity. Qed.
Lemma sysf_ctx_r0 a v s : sysf (ctx_r0_store a v s) = sysf s. Proof. reflexivity. Qed.
Lemma sysf_frame_store f a s : sysf (frame_store f a s) = sysf s. Proof. reflexivity. Qed.
Lemma sysf_wq_bit w th v s : sysf (wq_bit_store w th v s) = sysf s. Proof. reflexivity. Qed.
Lemma sysf_wq_store w v s : sysf (wq_store w v s) = sysf s. Proof. reflexivity. Qed.
Lemma sysf_th_stat th v s : sysf (th_stat_store th v s) = sysf s. Proof. reflexivity. Qed.
Lemma sysf_clock th v s : sysf (clock_store th v s) = sysf s. Proof. reflexivity. Qed.
Lemma sysf_ctx th v s : sysf (ctx_store th v s) = sysf s. Proof. reflexivity. Qed.
Lemma sysf_lock i v s : sysf (lock_store i v s) = sysf s. Proof. reflexivity. Qed.
Lemma sysf_sem i v s : sysf (sem_val_store i v s) = sysf s. Proof. reflexivity. Qed.
Lemma sysf_defer s : sysf (__thinkos_defer_sched s) = sysf s. Proof. reflexivity. Qed.
Lemma sysf_preempt s : sysf (__thinkos_preempt s) = sysf s. Proof. reflexivity. Qed.
Lemma sysf_suspend th s : sysf (__thinkos_suspend th s) = sysf s. Proof. reflexivity. Qed.
Lemma sysf_insert w th s : sysf (__thinkos_wq_insert w th s) = sysf s. Proof. reflexivity. Qed.
Lemma sysf_tmd w th ms s : sysf (__thinkos_tmdwq_insert w th ms s) = sysf s. Proof. reflexivity. Qed.
Lemma sysf_wakeup w th s : sysf (__thinkos_wakeup w th s) = sysf s. Proof. reflexivity. Qed.
Lemma sysf_wakeup_ret w th v s : sysf (__thinkos_wakeup_return w th v s) = sysf s. Proof. reflexivity. Qed.
Lemma sysf_ready_return th v s : sysf (ready_return th v s) = sysf s. Proof. reflexivity. Qed.
Lemma sysf_ev_store w v s : sysf (ev_store w v s) = sysf s. Proof. reflexivity. Qed.
Lemma sysf_set_ev v s : sysf (set_ev v s) = sysf s. Proof. reflexivity. Qed.
Lemma sysf_set_flag v s : sysf (set_flag v s) = sysf s. Proof. reflexivity. Qed.
Lemma sysf_set_gate v s : sysf (set_gate v s) = sysf s. Proof. reflexivity. Qed.
Lemma sysf_set_mutex_alloc v s : sysf (set_mutex_alloc v s) = sysf s. Proof. reflexivity. Qed.
Lemma sysf_set_sem_alloc v s : sysf (set_sem_alloc v s) = sysf s. Proof. reflexivity. Qed.
Lemma sysf_set_cond_alloc v s : sysf (set_cond_alloc v s) = sysf s. Proof. reflexivity. Qed.
Lemma sysf_set_flag_alloc v s : sysf (set_flag_alloc v s) = sysf s. Proof. reflexivity. Qed.
Lemma sysf_set_ev_alloc v s : sysf (set_ev_alloc v s) = sysf s. Proof. reflexivity. Qed.
Lemma sysf_set_gate_alloc v s : sysf (set_gate_alloc v s) = sysf s. Proof. reflexivity. Qed.
Lemma sysf_set_wild v s : sysf (set_wild v s) = sysf s. Proof. reflexivity. Qed.
Lemma sysf_set_umem v s : sysf (set_umem v s) = sysf s. Proof. reflexivity. Qed.
Lemma sysf_mon_events v s : sysf (set_mon_events v s) = sysf s. Proof. reflexivity. Qed.
Lemma sysf_mon_pend v s : sysf (set_mon_pend v s) = sysf s. Proof. reflexivity. Qed.
Lemma sysf_mon_req v s : sysf (set_mon_req v s) = sysf s. Proof. reflexivity. Qed.
Lemma sysf_pendsv v s : sysf (set_pendsv v s) = sysf s. Proof. reflexivity. Qed.
Lemma sysf_critical v s : sysf (set_critical_cnt v s) = sysf s. Proof. reflexivity. Qed.
Lemma sysf_irq_en v s : sysf (set_irq_en v s) = sysf s. Proof. reflexivity. Qed.
Lemma sysf_irq_pend v s : sysf (set_irq_pend v s) = sysf s. Proof. reflexivity. Qed.
Lemma sysf_irq_th v s : sysf (set_irq_th v s) = sysf s. Proof. reflexivity. Qed.

(** Follows the stores and the branches of a handler. *)
Ltac sysf_core :=
  lazymatch goal with
  | |- sysf ?x = sysf ?x => reflexivity
  | |- sysf (arg_ret ?a ?v ?s) = _ => refine (eq_trans (sysf_arg_ret a v s) _)
  | |- sysf (ctx_r0_store ?a ?v ?s) = _ => refine (eq_trans (sysf_ctx_r0 a v s) _)
  | |- sysf (frame_store ?f ?a ?s) = _ => refine (eq_trans (sysf_frame_store f a s) _)
  | |- sysf (wq_bit_store ?w ?th ?v ?s) = _ => refine (eq_trans (sysf_wq_bit w th v s) _)
  | |- sysf (wq_store ?w ?v ?s) = _ => refine (eq_trans (sysf_wq_store w v s) _)
  | |- sysf (th_stat_store ?th ?v ?s) = _ => refine (eq_trans (sysf_th_stat th v s) _)
  | |- sysf (clock_store ?th ?v ?s) = _ => refine (eq_trans (sysf_clock th v s) _)
  | |- sysf (ctx_store ?th ?v ?s) = _ => refine (eq_trans (sysf_ctx th v s) _)
  | |- sysf (lock_store ?i ?v ?s) = _ => refine (eq_trans (sysf_lock i v s) _)
  | |- sysf (sem_val_store ?i ?v ?s) = _ => refine (eq_trans (sysf_sem i v s) _)
  | |- sysf (__thinkos_defer_sched ?s) = _ => refine (eq_trans (sysf_defer s) _)
  | |- sysf (__thinkos_preempt ?s) = _ => refine (eq_trans (sysf_preempt s) _)
  | |- sysf (__thinkos_suspend ?th ?s) = _ => refine (eq_trans (sysf_suspend th s) _)
  | |- sysf (__thinkos_wq_insert ?w ?th ?s) = _ => refine (eq_trans (sysf_insert w th s) _)
  | |- sysf (__thinkos_tmdwq_insert ?w ?th ?ms ?s) = _ => refine (eq_trans (sysf_tmd w th ms s) _)
  | |- sysf (__thinkos_wakeup ?w ?th ?s) = _ => refine (eq_trans (sysf_wakeup w th s) _)
  | |- sysf (__thinkos_wakeup_return ?w ?th ?v ?s) = _ => refine (eq_trans (sysf_wakeup_ret w th v s) _)
  | |- sysf (ready_return ?th ?v ?s) = _ => refine (eq_trans (sysf_ready_return th v s) _)
  | |- sysf (ev_store ?w ?v ?s) = _ => refine (eq_trans (sysf_ev_store w v s) _)
  | |- sysf (set_ev ?v ?s) = _ => refine (eq_trans (sysf_set_ev v s) _)
  | |- sysf (set_flag ?v ?s) = _ => refine (eq_trans (sysf_set_flag v s) _)
  | |- sysf (set_gate ?v ?s) = _ => refine (eq_trans (sysf_set_gate v s) _)
  | |- sysf (set_mutex_alloc ?v ?s) = _ => refine (eq_trans (sysf_set_mutex_alloc v s) _)
  | |- sysf (set_sem_alloc ?v ?s) = _ => refine (eq_trans (sysf_set_sem_alloc v s) _)
  | |- sysf (set_cond_alloc ?v ?s) = _ => refine (eq_trans (sysf_set_cond_alloc v s) _)
  | |- sysf (set_flag_alloc ?v ?s) = _ => refine (eq_trans (sysf_set_flag_alloc v s) _)
  | |- sysf (set_ev_alloc ?v ?s) = _ => refine (eq_trans (sysf_set_ev_alloc v s) _)
  | |- sysf (set_gate_alloc ?v ?s) = _ => refine (eq_trans (sysf_set_gate_alloc v s) _)
  | |- sysf (set_wild ?v ?s) = _ => refine (eq_trans (sysf_set_wild v s) _)
  | |- sysf (set_umem ?v ?s) = _ => refine (eq_trans (sysf_set_umem v s) _)
  | |- sysf (set_mon_events ?v ?s) = _ => refine (eq_trans (sysf_mon_events v s) _)
  | |- sysf (set_mon_pend ?v ?s) = _ => refine (eq_trans (sysf_mon_pend v s) _)
  | |- sysf (set_mon_req ?v ?s) = _ => refine (eq_trans (sysf_mon_req v s) _)
  | |- sysf (set_pendsv ?v ?s) = _ => refine (eq_trans (sysf_pendsv v s) _)
  | |- sysf (set_critical_cnt ?v ?s) = _ => refine (eq_trans (sysf_critical v s) _)
  | |- sysf (set_irq_en ?v ?s) = _ => refine (eq_trans (sysf_irq_en v s) _)
  | |- sysf (set_irq_pend ?v ?s) = _ => refine (eq_trans (sysf_irq_pend v s) _)
  | |- sysf (set_irq_th ?v ?s) = _ => refine (eq_trans (sysf_irq_th v s) _)
  | |- sysf (let '(_, _) := ?p in _) = _ => destruct p; cbv zeta
  | |- sysf (if ?b then _ else _) = _ => destruct b
  | |- sysf (wq_drain ?n ?f ?w ?x) = _ =>
      refine (eq_trans (wq_drain_field w f sysf n (fun th s1 => eq_refl) x) _)
  end.
Ltac sysf_go := cbv zeta; repeat sysf_core.

Lemma sysf_sem_wait_again n : forall wq sem arg self s, sysf (sem_wait_again n wq sem arg self s) = sysf s.
Proof. induction n as [|n IH]; intros; cbn [sem_wait_again]; sysf_go;
  (etrans; [apply IH|]); sysf_go. Qed.
Lemma sysf_sem_timedwait_again n : forall wq sem ms arg self s, sysf (sem_timedwait_again n wq sem ms arg self s) = sysf s.
Proof. induction n as [|n IH]; intros; cbn [sem_timedwait_again]; sysf_go;
  (etrans; [apply IH|]); sysf_go. Qed.
Lemma sysf_ev_wait_again n : forall wq no mask arg self s, sysf (ev_wait_again n wq no mask arg self s) = sysf s.
Proof. induction n as [|n IH]; intros; cbn [ev_wait_again]; sysf_go;
  (etrans; [apply IH|]); sysf_go. Qed.
Lemma sysf_ev_timedwait_again n : forall wq no mask ms arg self s, sysf (ev_timedwait_again n wq no mask ms arg self s) = sysf s.
Proof. induction n as [|n IH]; intros; cbn [ev_timedwait_again]; sysf_go;
  (etrans; [apply IH|]); sysf_go. Qed.
Lemma sysf_flag_take_again n : forall wq idx arg self s, sysf (flag_take_again n wq idx arg self s) = sysf s.
Proof. induction n as [|n IH]; intros; cbn [flag_take_again]; sysf_go;
  (etrans; [apply IH|]); sysf_go. Qed.
Lemma sysf_flag_timedtake_again n : forall wq idx ms arg self s, sysf (flag_timedtake_again n wq idx ms arg self s) = sysf s.
Proof. induction n as [|n IH]; intros; cbn [flag_timedtake_again]; sysf_go;
  (etrans; [apply IH|]); sysf_go. Qed.
Lemma sysf_gate_wait_again n : forall wq idx arg self s, sysf (gate_wait_again n wq idx arg self s) = sysf s.
Proof. induction n as [|n IH]; intros; cbn [gate_wait_again]; sysf_go;
  (etrans; [apply IH|]); sysf_go. Qed.
Lemma sysf_gate_timedwait_again n : forall wq idx ms arg self s, sysf (gate_timedwait_again n wq idx ms arg self s) = sysf s.
Proof. induction n as [|n IH]; intros; cbn [gate_timedwait_again]; sysf_go;
  (etrans; [apply IH|]); sysf_go. Qed.

Lemma sysf_ev_bit w b v s : sysf (ev_bit_store w b v s) = sysf s.
Proof. unfold ev_bit_store. sysf_go. Qed.
Lemma sysf_sem_post_i wq s : sysf (__thinkos_sem_post_i wq s) = sysf s.
Proof. unfold __thinkos_sem_post_i. sysf_go. Qed.
Lemma sysf_flag_give_i wq s : sysf (__thinkos_flag_give_i wq s) = sysf s.
Proof. unfold __thinkos_flag_give_i. sysf_go. Qed.
Lemma sysf_gate_pass wq idx s : sysf (gate_pass wq idx s).1 = sysf s.
Proof. unfold gate_pass. cbv zeta. destruct (_ =? _); cbn [fst]; sysf_go. Qed.
Lemma sysf_gate_open_i wq s : sysf (__thinkos_gate_open_i wq s) = sysf s.
Proof. unfold __thinkos_gate_open_i. sysf_go. etrans; [apply sysf_gate_pass|]. sysf_go. Qed.
Lemma sysf_ev_raise_i wq e s : sysf (__thinkos_ev_raise_i wq e s) = sysf s.
Proof. unfold __thinkos_ev_raise_i. sysf_go; (etrans; [apply sysf_ev_bit|]); sysf_go. Qed.

Ltac sysf_call :=
  cbv zeta;
  repeat first
    [ progress sysf_core
    | lazymatch goal with
      | |- sysf (ev_bit_store ?w ?b ?v ?x) = _ => refine (eq_trans (sysf_ev_bit w b v x) _)
      | |- sysf (__thinkos_sem_post_i ?w ?x) = _ => refine (eq_trans (sysf_sem_post_i w x) _)
      | |- sysf (__thinkos_flag_give_i ?w ?x) = _ => refine (eq_trans (sysf_flag_give_i w x) _)
      | |- sysf (__thinkos_gate_open_i ?w ?x) = _ => refine (eq_trans (sysf_gate_open_i w x) _)
      | |- sysf (__thinkos_ev_raise_i ?w ?e ?x) = _ => refine (eq_trans (sysf_ev_raise_i w e x) _)
      | |- sysf (sem_wait_again ?n ?wq ?sem ?arg ?self ?x) = _ => refine (eq_trans (sysf_sem_wait_again n wq sem arg self x) _)
      | |- sysf (sem_timedwait_again ?n ?wq ?sem ?ms ?arg ?self ?x) = _ => refine (eq_trans (sysf_sem_timedwait_again n wq sem ms arg self x) _)
      | |- sysf (ev_wait_again ?n ?wq ?no ?mask ?arg ?self ?x) = _ => refine (eq_trans (sysf_ev_wait_again n wq no mask arg self x) _)
      | |- sysf (ev_timedwait_again ?n ?wq ?no ?mask ?ms ?arg ?self ?x) = _ => refine (eq_trans (sysf_ev_timedwait_again n wq no mask ms arg self x) _)
      | |- sysf (flag_take_again ?n ?wq ?idx ?arg ?self ?x) = _ => refine (eq_trans (sysf_flag_take_again n wq idx arg self x) _)
      | |- sysf (flag_timedtake_again ?n ?wq ?idx ?ms ?arg ?self ?x) = _ => refine (eq_trans (sysf_flag_timedtake_again n wq idx ms arg self x) _)
      | |- sysf (gate_wait_again ?n ?wq ?idx ?arg ?self ?x) = _ => refine (eq_trans (sysf_gate_wait_again n wq idx arg self x) _)
      | |- sysf (gate_timedwait_again ?n ?wq ?idx ?ms ?arg ?self ?x) = _ => refine (eq_trans (sysf_gate_timedwait_again n wq idx ms arg self x) _)
      end ].

Lemma sysf_mutex_alloc arg s : sysf (thinkos_mutex_alloc_svc arg s) = sysf s.
Proof. unfold thinkos_mutex_alloc_svc. sysf_call. Qed.
Lemma sysf_mutex_free arg s : sysf (thinkos_mutex_free_svc arg s) = sysf s.
Proof. unfold thinkos_mutex_free_svc. sysf_call. Qed.
Lemma sysf_sem_alloc arg s : sysf (thinkos_sem_alloc_svc arg s) = sysf s.
Proof. unfold thinkos_sem_alloc_svc. sysf_call. Qed.
Lemma sysf_sem_free arg s : sysf (thinkos_sem_free_svc arg s) = sysf s.
Proof. unfold thinkos_sem_free_svc. sysf_call. Qed.
Lemma sysf_sem_init arg s : sysf (thinkos_sem_init_svc arg s) = sysf s.
Proof. unfold thinkos_sem_init_svc. sysf_call. Qed.
Lemma sysf_sem_trywait arg s : sysf (thinkos_sem_trywait_svc arg s) = sysf s.
Proof. unfold thinkos_sem_trywait_svc. sysf_call. Qed.
Lemma sysf_sem_post arg s : sysf (thinkos_sem_post_svc arg s) = sysf s.
Proof. unfold thinkos_sem_post_svc. sysf_call. Qed.
Lemma sysf_cond_alloc arg s : sysf (thinkos_cond_alloc_svc arg s) = sysf s.
Proof. unfold thinkos_cond_alloc_svc. sysf_call. Qed.
Lemma sysf_cond_free arg s : sysf (thinkos_cond_free_svc arg s) = sysf s.
Proof. unfold thinkos_cond_free_svc. sysf_call. Qed.
Lemma sysf_cond_signal arg s : sysf (thinkos_cond_signal_svc arg s) = sysf s.
Proof. unfold thinkos_cond_signal_svc. sysf_call. Qed.
Lemma sysf_cond_broadcast arg s : sysf (thinkos_cond_broadcast_svc arg s) = sysf s.
Proof. unfold thinkos_cond_broadcast_svc. sysf_call. Qed.
Lemma sysf_ev_alloc arg s : sysf (thinkos_ev_alloc_svc arg s) = sysf s.
Proof. unfold thinkos_ev_alloc_svc. sysf_call. Qed.
Lemma sysf_ev_free arg s : sysf (thinkos_ev_free_svc arg s) = sysf s.
Proof. unfold thinkos_ev_free_svc. sysf_call. Qed.
Lemma sysf_ev_raise arg s : sysf (thinkos_ev_raise_svc arg s) = sysf s.
Proof. unfold thinkos_ev_raise_svc. sysf_call. Qed.
Lemma sysf_ev_mask arg s : sysf (thinkos_ev_mask_svc arg s) = sysf s.
Proof. unfold thinkos_ev_mask_svc. sysf_call. Qed.
Lemma sysf_ev_clear arg s : sysf (thinkos_ev_clear_svc arg s) = sysf s.
Proof. unfold thinkos_ev_clear_svc. sysf_call. Qed.
Lemma sysf_flag_alloc arg s : sysf (thinkos_flag_alloc_svc arg s) = sysf s.
Proof. unfold thinkos_flag_alloc_svc. sysf_call. Qed.
Lemma sysf_flag_free arg s : sysf (thinkos_flag_free_svc arg s) = sysf s.
Proof. unfold thinkos_flag_free_svc. sysf_call. Qed.
Lemma sysf_flag_give arg s : sysf (thinkos_flag_give_svc arg s) = sysf s.
Proof. unfold thinkos_flag_give_svc. sysf_call. Qed.
Lemma sysf_flag_val arg s : sysf (thinkos_flag_val_svc arg s) = sysf s.
Proof. unfold thinkos_flag_val_svc. sysf_call. Qed.
Lemma sysf_flag_clr arg s : sysf (thinkos_flag_clr_svc arg s) = sysf s.
Proof. unfold thinkos_flag_clr_svc, __thinkos_flag_clr. sysf_call. Qed.
Lemma sysf_flag_set arg s : sysf (thinkos_flag_set_svc arg s) = sysf s.
Proof. unfold thinkos_flag_set_svc. sysf_call. Qed.
Lemma sysf_gate_alloc arg s : sysf (thinkos_gate_alloc_svc arg s) = sysf s.
Proof. unfold thinkos_gate_alloc_svc. sysf_call. Qed.
Lemma sysf_gate_free arg s : sysf (thinkos_gate_free_svc arg s) = sysf s.
Proof. unfold thinkos_gate_free_svc. sysf_call. Qed.
Lemma sysf_gate_exit arg s : sysf (thinkos_gate_exit_svc arg s) = sysf s.
Proof. unfold thinkos_gate_exit_svc. cbv zeta.
  do 4 (lazymatch goal with |- sysf (if ?b then _ else _) = _ => destruct b end; [sysf_call|]).
  match goal with |- context [gate_pass ?w ?i ?x] => pose proof (sysf_gate_pass w i x) as H; destruct (gate_pass w i x) as [s1 []] end;
    cbn [fst] in H; sysf_call; (etrans; [exact H|]); sysf_call. Qed.
Lemma sysf_gate_open arg s : sysf (thinkos_gate_open_svc arg s) = sysf s.
Proof. unfold thinkos_gate_open_svc. sysf_call. Qed.
Lemma sysf_gate_close arg s : sysf (thinkos_gate_close_svc arg s) = sysf s.
Proof. unfold thinkos_gate_close_svc. sysf_call. Qed.
Lemma sysf_mutex_lock arg self s : sysf (thinkos_mutex_lock_svc arg self s) = sysf s.
Proof. unfold thinkos_mutex_lock_svc. sysf_call. Qed.
Lemma sysf_mutex_trylock arg self s : sysf (thinkos_mutex_trylock_svc arg self s) = sysf s.
Proof. unfold thinkos_mutex_trylock_svc. sysf_call. Qed.
Lemma sysf_mutex_timedlock arg self s : sysf (thinkos_mutex_timedlock_svc arg self s) = sysf s.
Proof. unfold thinkos_mutex_timedlock_svc. sysf_call. Qed.
Lemma sysf_mutex_unlock arg self s : sysf (thinkos_mutex_unlock_svc arg self s) = sysf s.
Proof. unfold thinkos_mutex_unlock_svc. sysf_call. Qed.
Lemma sysf_sem_wait arg self s : sysf (thinkos_sem_wait_svc arg self s) = sysf s.
Proof. unfold thinkos_sem_wait_svc. sysf_call. Qed.
Lemma sysf_sem_timedwait arg self s : sysf (thinkos_sem_timedwait_svc arg self s) = sysf s.
Proof. unfold thinkos_sem_timedwait_svc. sysf_call. Qed.
Lemma sysf_cond_wait arg self s : sysf (thinkos_cond_wait_svc arg self s) = sysf s.
Proof. unfold thinkos_cond_wait_svc. sysf_call. Qed.
Lemma sysf_cond_timedwait arg self s : sysf (thinkos_cond_timedwait_svc arg self s) = sysf s.
Proof. unfold thinkos_cond_timedwait_svc. sysf_call. Qed.
Lemma sysf_ev_wait arg self s : sysf (thinkos_ev_wait_svc arg self s) = sysf s.
Proof. unfold thinkos_ev_wait_svc. sysf_call. Qed.
Lemma sysf_ev_timedwait arg self s : sysf (thinkos_ev_timedwait_svc arg self s) = sysf s.
Proof. unfold thinkos_ev_timedwait_svc. sysf_call. Qed.
Lemma sysf_flag_take arg self s : sysf (thinkos_flag_take_svc arg self s) = sysf s.
Proof. unfold thinkos_flag_take_svc. sysf_call. Qed.
Lemma sysf_flag_timedtake arg self s : sysf (thinkos_flag_timedtake_svc arg self s) = sysf s.
Proof. unfold thinkos_flag_timedtake_svc. sysf_call. Qed.
Lemma sysf_flag_watch arg self s : sysf (thinkos_flag_watch_svc arg self s) = sysf s.
Proof. unfold thinkos_flag_watch_svc. sysf_call. Qed.
Lemma sysf_flag_timedwatch arg self s : sysf (thinkos_flag_timedwatch_svc arg self s) = sysf s.
Proof. unfold thinkos_flag_timedwatch_svc. sysf_call. Qed.
Lemma sysf_gate_wait arg self s : sysf (thinkos_gate_wait_svc arg self s) = sysf s.
Proof. unfold thinkos_gate_wait_svc. sysf_call. Qed.
Lemma sysf_gate_timedwait arg self s : sysf (thinkos_gate_timedwait_svc arg self s) = sysf s.
Proof. unfold thinkos_gate_timedwait_svc. sysf_call. Qed.
Lemma sysf_sleep arg self s : sysf (thinkos_sleep_svc arg self s) = sysf s.
Proof. unfold thinkos_sleep_svc. sysf_call. Qed.
Lemma sysf_alarm arg self s : sysf (thinkos_alarm_svc arg self s) = sysf s.
Proof. unfold thinkos_alarm_svc. sysf_call. Qed.
Lemma sysf_irq_wait arg self s : sysf (thinkos_irq_wait_svc arg self s) = sysf s.
Proof. unfold thinkos_irq_wait_svc, irq_th_store, cm3_irq_enable, cm3_irq_pend_clr. sysf_call. Qed.
Lemma sysf_join arg self s : sysf (thinkos_join_svc arg self s) = sysf s.
Proof. unfold thinkos_join_svc. sysf_call. Qed.
Lemma sysf_exit arg self s : sysf (thinkos_exit_svc arg self s) = sysf s.
Proof. unfold thinkos_exit_svc, arg_pc. sysf_call. Qed.
Lemma sysf_cancel arg self s : sysf (thinkos_cancel_svc arg self s) = sysf s.
Proof. unfold thinkos_cancel_svc, ctx_pc_store. sysf_call. Qed.

(** Pausing and resuming. *)
Lemma sysf_irq_resume th w tm s : sysf (irq_resume th w tm s) = sysf s.
Proof. unfold irq_resume. destruct (irq_of th s); reflexivity. Qed.
Lemma sysf_thread_pause th s : sysf (__thinkos_thread_pause th s).1 = sysf s.
Proof.
  unfold __thinkos_thread_pause. destruct (__bit_mem_rd _ _); [done|]. cbv zeta. cbn [fst].
  destruct (irq_of _ _); reflexivity.
Qed.
Lemma sysf_thread_resume th s : sysf (__thinkos_thread_resume th s).1 = sysf s.
Proof.
  unfold __thinkos_thread_resume. destruct (negb _); [done|]. cbv zeta.
  set (w := Z.shiftr _ 1). set (tm := Z.odd _). destruct (obj_type w); cbn [thread_resume_lut fst];
    rewrite ?sysf_irq_resume; try reflexivity;
    unfold mutex_resume, semaphore_resume, evset_resume, flag_resume, __thinkos_gate_resume,
      __console_wr_resume; cbv zeta;
    (match goal with |- context [if ?b then _ else _] => destruct b end; reflexivity).
Qed.
Lemma sysf_pause arg self s : sysf (thinkos_pause_svc arg self s) = sysf s.
Proof.
  unfold thinkos_pause_svc. cbv zeta. repeat (destruct (_ : bool); [done|]).
  match goal with |- context [__thinkos_thread_pause ?t ?x] =>
    pose proof (sysf_thread_pause t x) as H; destruct (__thinkos_thread_pause t x) as [s1 r] end.
  cbn [fst] in H. destruct r; exact H.
Qed.
Lemma sysf_resume arg s : sysf (thinkos_resume_svc arg s) = sysf s.
Proof.
  unfold thinkos_resume_svc. cbv zeta. repeat (destruct (_ : bool); [done|]).
  match goal with |- context [__thinkos_thread_resume ?t ?x] =>
    pose proof (sysf_thread_resume t x) as H; destruct (__thinkos_thread_resume t x) as [s1 r] end.
  cbn [fst] in H. destruct r; exact H.
Qed.
Lemma sysf_pause_all s : sysf (__thinkos_pause_all s) = sysf s.
Proof.
  unfold __thinkos_pause_all. sysf_go.
  apply (for_threads_ind (fun x => sysf x = sysf s)); [|done].
  intros th s1 _ H. by rewrite sysf_thread_pause.
Qed.

(** ** The invariant *)

(** Queues, console pipes, scheduling data and the thread bitmap. *)
Record sys_ok (s : kernel) : Prop := {
  sys_kernel : kernel_ok s;
  sys_console : console_ok s;
  sys_sched : sched_ok s;
  sys_alloc : th_alloc_ok s
}.

Lemma sysf_eq s s' :
  sysf s' = sysf s ->
  console s' = console s /\ active s' = active s /\ sched s' = sched s /\
  sched_limit s' = sched_limit s /\ th_alloc s' = th_alloc s.
Proof. unfold sysf. intros H. by injection H. Qed.

(** A step that keeps those fields has to keep the queues. *)
Lemma sys_ok_keep s s' : sys_ok s -> sysf s' = sysf s -> kernel_ok s' -> sys_ok s'.
Proof.
  intros [K C O A] E K'. apply sysf_eq in E as (E1 & E2 & E3 & E4 & E5). split; [done| | |].
  - unfold console_ok in *. by rewrite E1.
  - by apply (sched_ok_frame s).
  - unfold th_alloc_ok in *. by rewrite E5.
Qed.

Lemma sys_entry a c s : sys_ok s -> sys_ok (exception_entry a c s).
Proof. intros S. by apply (sys_ok_keep s); [|done|apply (kernel_ok_frame s); [done..|apply S]]. Qed.

(** ** Creation and termination *)

(** The scheduling bytes of one thread are replaced. *)
Lemma sched_replace s s' id :
  sched_ok s -> 0 <= id < THINKOS_THREADS_MAX -> active s' = active s -> len (sched s') = 20 ->
  sched_limit s <= sched_limit s' <= THINKOS_SCHED_LIMIT_MAX ->
  0 <= rd (sched s') id < sched_limit s' -> 0 <= rd (sched s') (9 + id) <= sched_limit s' ->
  (forall j, j <> id -> j <> 9 + id -> rd (sched s') j = rd (sched s) j) -> sched_ok s'.
Proof.
  intros O Hid Ha Hl Hv Hval Hpri Hoth. pose proof (so_limit s O) as Hlim. pose proof (so_active s O).
  split; unfold sched_pri, sched_val; try done; try lia; try (rewrite Hoth by lia; apply O).
  - intros i. destruct (Z.eq_dec i id) as [->|]; [lia|]. destruct (Z.eq_dec i (9 + id)) as [->|]; [lia|].
    rewrite Hoth by done. apply O.
  - intros i Hi. destruct (Z.eq_dec i id) as [->|Hne]; [rewrite u8_small; lia|].
    rewrite Hoth by lia. pose proof (so_pri s O i Hi) as Hp. unfold sched_pri in Hp. lia.
  - intros i Hi. destruct (Z.eq_dec i id) as [->|Hne]; [rewrite int8_small; lia|].
    rewrite Hoth by lia. pose proof (so_val s O i Hi) as Hp. unfold sched_val in Hp. lia.
Qed.

Lemma sched_init_ok id pri s :
  sched_ok s -> 0 <= id < THINKOS_THREADS_MAX -> sched_ok (thread_sched_init id pri s).
Proof.
  intros O Hid. pose proof (so_len s O) as Hl. pose proof (so_limit s O) as Hlim.
  pose proof (Z.mod_pos_bound pri 256 ltac:(lia)) as Hp. fold (u8 pri) in Hp.
  unfold thread_sched_init, sched_pri_store, sched_val_store, sched_pri. cbv zeta. ksimpl_goal.
  rewrite !rd_wr_eq by (rewrite ?len_wr; lia). rewrite (u8_small (u8 pri)) by lia.
  destruct (Z.ltb_spec 32 (u8 pri)) as [Hgt|Hle]; ksimpl_goal; rewrite !rd_wr_eq by (rewrite ?len_wr; lia);
    rewrite ?(u8_small (u8 pri)) by lia; change (u8 (u8 32)) with 32; change (u8 32) with 32;
    (match goal with |- context [?a <? ?b] => destruct (Z.ltb_spec a b) end); ksimpl_goal;
    (apply (sched_replace s _ id O Hid); ksimpl_goal;
      [done|by rewrite !len_wr|lia
      |rewrite rd_wr_eq by (rewrite ?len_wr; lia); rewrite u8_small; Z.div_mod_to_equations; lia
      |rewrite rd_wr_ne by lia; rewrite rd_wr_eq by (rewrite ?len_wr; lia); lia
      |intros j H1 H2; by rewrite !rd_wr_ne by lia]).
Qed.

(** A handler that starts a thread, whatever its buffers overlap. *)
Lemma create_shape s arg id alloc :
  thread_slot (__ID (arg_3 arg s)) (th_alloc s) = (alloc, id) -> 0 <= id < THINKOS_THREADS_MAX ->
  sizeof_context <= opt_stack_size (arg_3 arg s) -> rd (th_stat s) id = 0 ->
  len (wq_lst s) = THINKOS_WQ_LST_END ->
  exists a c paused pri y,
    thinkos_thread_create_svc arg s =
      arg_ret arg (id + 1) (start_thread id a c paused (thread_sched_init id pri y)) /\
    wq_lst y = wq_lst s /\ th_stat y = th_stat s /\ irq_th y = irq_th s /\ irq_en y = irq_en s /\
    th_alloc y = alloc /\ console y = console s /\ active y = active s /\ sched y = sched s /\
    sched_limit y = sched_limit s.
Proof.
  intros Hslot Hid Hsz Hst Hl. unfold thinkos_thread_create_svc. rewrite Hslot. cbv zeta.
  destruct (Z.ltb_spec id 0); [lia|].
  change (arg_3 arg (set_th_alloc alloc s)) with (arg_3 arg s).
  destruct (Z.ltb_spec (opt_stack_size (arg_3 arg s)) sizeof_context); [lia|].
  set (s1 := __thinkos_memset32 _ _ _ _). set (y := th_inf_store id (arg_4 arg s1) s1).
  assert (Hy : wq_lst y = wq_lst s /\ th_stat y = th_stat s /\ irq_th y = irq_th s /\ irq_en y = irq_en s /\
    th_alloc y = alloc /\ console y = console s /\ active y = active s /\ sched y = sched s /\
    sched_limit y = sched_limit s) by (split_and!; reflexivity).
  clearbody y. clear s1. set (pri := __PRIORITY _).
  assert (Hp : wq_lst (thread_sched_init id pri y) = wq_lst y /\ th_stat (thread_sched_init id pri y) = th_stat y)
    by (destruct (sched_init_frame id pri y) as (l & v & ->); done).
  set (p := thread_sched_init id pri y) in *.
  match goal with |- context [__thinkos_thread_init id ?sp ?task ?a1 p] =>
    set (a := record_addr sp); set (c := new_record task a1);
    change (__thinkos_thread_init id sp task a1 p) with (start_thread id a c true p) end.
  destruct Hp as [Hw Hs].
  assert (Hm : mem (start_thread id a c true p) id 57 = true).
  { unfold start_thread. cbv zeta. rewrite mem_bit_store by (kred; destruct Hy as [Yw _]; rewrite ?Hw, ?Yw; lia).
    by rewrite !Z.eqb_refl. }
  assert (Hz : rd (th_stat (start_thread id a c true p)) id = 0).
  { unfold start_thread. cbv zeta. kred. rewrite Hs. destruct Hy as (_ & -> & _). exact Hst. }
  exists a, c, (negb (__PAUSED (arg_3 arg (start_thread id a c true p)) =? 0)), pri, y. split; [|exact Hy].
  f_equal. destruct (__PAUSED _ =? 0); cbn [negb]; [|reflexivity]. by rewrite resume_new.
Qed.

Lemma start_sysf id a c paused x : sysf (start_thread id a c paused x) = sysf x.
Proof. by destruct paused. Qed.

Lemma alloc_set_ok w i v :
  0 <= i < THINKOS_THREADS_MAX -> 0 <= w < 4294967296 ->
  (forall k, THINKOS_THREADS_MAX <= k < 32 -> Z.testbit w k = true) ->
  0 <= __bit_mem_wr w i v < 4294967296 /\
  forall k, THINKOS_THREADS_MAX <= k < 32 -> Z.testbit (__bit_mem_wr w i v) k = true.
Proof.
  intros Hi Hw Hk. split; [by apply bit_wr_range; lia|]. intros k Hk'. rewrite bit_wr_ne by lia. auto.
Qed.

Lemma create_ok s arg :
  sys_ok s -> sizeof_context <= opt_stack_size (arg_3 arg s) -> sys_ok (thinkos_thread_create_svc arg s).
Proof.
  intros [K C O [Aw Ahi]] Hsz.
  assert (Hid0 : 0 <= __ID (arg_3 arg s)) by (unfold __ID; apply Z.land_nonneg; lia).
  pose proof (thread_slot_spec (__ID (arg_3 arg s)) (th_alloc s) Aw Ahi Hid0) as Hs.
  destruct (thread_slot (__ID (arg_3 arg s)) (th_alloc s)) as [w' id] eqn:Eslot.
  destruct Hs as [(-> & -> & _)|(Hid & Hfree & -> & _)].
  - assert (E : thinkos_thread_create_svc arg s = arg_ret arg (-3) s).
    { unfold thinkos_thread_create_svc. rewrite Eslot. cbv zeta. by destruct s. }
    rewrite E. by apply (sys_ok_keep s); [|done|kframe].
  - destruct (free_thread s id K Hid Hfree) as (Hst & _ & _).
    destruct (create_shape s arg id _ Eslot Hid Hsz Hst (k_wq s K))
      as (a & c & paused & pri & y & -> & Yw & Ys & Yi & Ye & Ya & Yc & Yact & Ysch & Ylim).
    assert (Oy : sched_ok (thread_sched_init id pri y)) by (apply sched_init_ok; [by apply (sched_ok_frame s)|done]).
    destruct (sched_init_frame id pri y) as (l & v & E). rewrite E in *.
    set (x := set_sched l (set_sched_limit v y)) in *.
    pose proof (start_ok s K id a c paused Hid Hfree x Yw Ys Yi Ye Ya) as Kx.
    destruct (sysf_eq x (arg_ret arg (id + 1) (start_thread id a c paused x)) (start_sysf id a c paused x))
      as (E1 & E2 & E3 & E4 & E5).
    split; [by apply ok_arg_ret| | |].
    + unfold console_ok in *. rewrite E1. unfold x. ksimpl_goal. by rewrite Yc.
    + by apply (sched_ok_frame x).
    + unfold th_alloc_ok. rewrite E5. unfold x. ksimpl_goal. rewrite Ya. by apply alloc_set_ok.
Qed.

(** No thread has a priority above the limit, so it is never raised here. *)
Lemma sched_limit_eval_id t s : sched_ok s -> sched_limit_eval t s = s.
Proof.
  intros O. unfold sched_limit_eval.
  assert (Hl : Forall (fun j => 0 <= j < 8) (seqZ 0 8)) by (apply Forall_seqZ; lia).
  induction Hl as [|j l Hj _ IH]; [done|]. cbn [fold_left].
  destruct (j =? t); [done|]. destruct (_ =? 0); [done|].
  pose proof (so_pri s O j Hj). destruct (Z.ltb_spec (sched_limit s) (sched_pri s j)); [lia|done].
Qed.

Lemma abort_ok t x :
  sched_ok x -> console_ok x -> th_alloc_ok x -> 0 <= t < THINKOS_THREADS_MAX ->
  let s' := __thinkos_thread_abort t x in sched_ok s' /\ console_ok s' /\ th_alloc_ok s'.
Proof.
  intros O C [Aw Ahi] Ht. unfold __thinkos_thread_abort. rewrite sched_limit_eval_id by done. cbv zeta.
  destruct (t =? _); (split; [|split; [exact C|by apply alloc_set_ok]]).
  - destruct O as [O1 O2 O3 O4 O5 O6 O7 O8 O9]. split; auto. change (0 <= 9 <= 9). lia.
  - by apply (sched_ok_frame x).
Qed.

Lemma joined_sysf s t code : sysf (joined s t code) = sysf s.
Proof. unfold joined. rewrite wq_drain_field by done. reflexivity. Qed.

Lemma terminate_ok s arg self :
  sys_ok s -> 0 <= self < THINKOS_THREADS_MAX ->
  (let t := if arg_0 arg s =? 0 then self else u32 (arg_0 arg s - 1) in
   irq_waiting (irq_th s) t = false /\ (mem s t THINKOS_WQ_CLOCK = true -> rd (th_stat s) t = STAT_CLOCK)) ->
  sys_ok (thinkos_terminate_svc arg self s).
Proof.
  intros S Hself. cbv zeta. remember (if arg_0 arg s =? 0 then self else u32 (arg_0 arg s - 1)) as t eqn:Et.
  intros [Hiw Hc]. pose proof S as [K C O A].
  assert (Ht0 : 0 <= t) by (rewrite Et; destruct (_ =? 0); [lia|apply u32_range]).
  destruct (decide (t < 8 /\ Z.testbit (th_alloc s) t = true)) as [[Ht Ha]|Hno].
  - destruct (terminate_fields s arg self t K (conj Ht0 Ht) Et Ha Hiw Hc) as (_ & _ & _ & _ & K' & _).
    destruct (terminate_eq s arg self t Et Ht Ha) as (x & E & Hx). rewrite E in *.
    assert (Ex : sysf x = sysf s).
    { rewrite <- (joined_sysf s t (arg_1 arg s)). destruct Hx as [->| ->]; [reflexivity|apply sysf_defer]. }
    apply sysf_eq in Ex as (E1 & E2 & E3 & E4 & E5). clear Hx E.
    destruct (abort_ok t x) as (O' & C' & A'); [by apply (sched_ok_frame s)| | |lia|done].
    + unfold console_ok in *. by rewrite E1.
    + unfold th_alloc_ok in *. by rewrite E5.
  - assert (E : thinkos_terminate_svc arg self s = arg_ret arg (-3) s).
    { unfold thinkos_terminate_svc. cbv zeta. rewrite <- Et. destruct (Z.leb_spec 8 t); [done|].
      unfold __bit_mem_rd. destruct (Z.testbit (th_alloc s) t) eqn:Eb; [|done]. exfalso. apply Hno. split; [lia|done]. }
    rewrite E. by apply (sys_ok_keep s); [|done|kframe].
Qed.

(** ** Every system call *)

(** The target of a call that names a thread by number, or itself by 0. *)
Definition target (arg self : Z) (s : kernel) : Z :=
  if arg_0 arg s =? 0 then self else u32 (arg_0 arg s - 1).

(** The calls whose handlers rely on something they do not check: a stack that
    holds a record, a target that does not wait for an interrupt (nor, for
    termination, in a timed wait), an interrupt nobody waits for. *)
Definition svc_safe (arg self svc : Z) (s : kernel) : Prop :=
  match syscall_of svc with
  | Some SVC_THREAD_CREATE => sizeof_context <= opt_stack_size (arg_3 arg s)
  | Some SVC_RESUME => irq_waiting (irq_th s) (u32 (arg_0 arg s - 1)) = false
  | Some SVC_CANCEL => irq_waiting (irq_th s) (target arg self s) = false
  | Some SVC_TERMINATE =>
      irq_waiting (irq_th s) (target arg self s) = false /\
      (mem s (target arg self s) THINKOS_WQ_CLOCK = true -> rd (th_stat s) (target arg self s) = STAT_CLOCK)
  | Some SVC_IRQ_WAIT => arg_0 arg s < THINKOS_IRQ_MAX -> rd (irq_th s) (arg_0 arg s) = THINKOS_THREAD_IDLE
  | _ => True
  end.

(** The handlers that do not touch the queues. *)
Ltac small :=
  match goal with S : sys_ok ?s |- _ => pose proof (sys_kernel s S); apply (sys_ok_keep s _ S) end;
  unfold thinkos_critical_enter_svc, thinkos_critical_exit_svc, thinkos_idle_svc, dbgmon_signal_idle; cbv zeta;
  repeat (match goal with |- context [if ?b then _ else _] => destruct b end); try reflexivity; kframe.

Lemma nosys_ok arg s : sys_ok s -> sys_ok (thinkos_nosys arg s).
Proof. intros S. small. Qed.
Lemma clock_ok arg s : sys_ok s -> sys_ok (thinkos_clock_svc arg s).
Proof. intros S. small. Qed.
Lemma thread_self_ok arg self s : sys_ok s -> sys_ok (thinkos_thread_self_svc arg self s).
Proof. intros S. small. Qed.
Lemma critical_enter_ok arg s : sys_ok s -> sys_ok (thinkos_critical_enter_svc arg s).
Proof. intros S. small. Qed.
Lemma critical_exit_ok arg s : sys_ok s -> sys_ok (thinkos_critical_exit_svc arg s).
Proof. intros S. small. Qed.
Lemma idle_ok arg s : sys_ok s -> sys_ok (thinkos_idle_svc arg s).
Proof. intros S. small. Qed.
Lemma dbgmon_ok p arg self s : sys_ok s -> sys_ok (thinkos_dbgmon_svc p arg self s).
Proof. intros S. small. Qed.

Lemma ctl_ok p arg s s' : sys_ok s -> thinkos_ctl_svc p arg s = Some s' -> sys_ok s'.
Proof.
  intros S. pose proof (sys_kernel s S) as K. unfold thinkos_ctl_svc, umem_store32. cbv zeta.
  assert (Ka : kernel_ok (arg_ret arg 0 s)) by kframe.
  repeat (match goal with |- (if ?b then _ else _) = _ -> _ => destruct b end); intros [= <-];
    apply (sys_ok_keep s _ S); try reflexivity; try kframe.
  - by rewrite sysf_defer, sysf_pause_all, sysf_arg_ret.
  - kpeel. by apply pause_all_ok.
Qed.

(** ** The console *)

Definition schedf (s : kernel) : Z * list Z * Z * Z := (active s, sched s, sched_limit s, th_alloc s).

Lemma schedf_read buf n s : schedf (rx_pipe_read buf n s).1 = schedf s.
Proof. unfold rx_pipe_read. cbv zeta. by destruct (_ =? 0). Qed.

Lemma schedf_write buf n s : schedf (tx_pipe_write buf n s).1 = schedf s.
Proof. unfold tx_pipe_write. cbv zeta. by destruct (_ =? 0). Qed.

Lemma schedf_wr_again n : forall buf l arg self s s',
  console_wr_again n buf l arg self s = Some s' -> schedf s' = schedf s.
Proof.
  induction n as [|n IH]; intros buf l arg self s s'; [done|]. cbn [console_wr_again].
  pose proof (schedf_write buf l s) as H. destruct (tx_pipe_write buf l s) as [s1 cnt]. cbn [fst] in H. rewrite <- H.
  destruct (0 <? cnt); [by intros [= <-]|]. cbv zeta. destruct (negb _); [|by intros [= <-]].
  intros E. apply IH in E. rewrite E. reflexivity.
Qed.

Lemma schedf_drain_again n : forall arg self s s',
  console_drain_again n arg self s = Some s' -> schedf s' = schedf s.
Proof.
  induction n as [|n IH]; intros arg self s s'; [done|]. cbn [console_drain_again].
  destruct (tx_pipe_isempty s); [by intros [= <-]|]. cbv zeta. destruct (tx_pipe_isempty _); [|by intros [= <-]].
  intros E. apply IH in E. rewrite E. reflexivity.
Qed.

Lemma schedf_console arg self s s' : thinkos_console_svc arg self s = Some s' -> schedf s' = schedf s.
Proof.
  unfold thinkos_console_svc. cbv zeta.
  repeat lazymatch goal with
  | |- (if _ then Some _ else _) = _ -> _ => destruct (_ =? _); [intros [= <-]|]
  | |- (if _ then let '(_, _) := ?r in _ else _) = _ -> _ => destruct (_ =? _);
      [pose proof (schedf_read (arg_1 arg s) (arg_2 arg s) s) as H; destruct r as [s1 n];
       cbn [fst] in H; rewrite <- H; intros [= <-]|]
  | |- (if _ then _ else _) = _ -> _ => destruct (_ =? _); [apply schedf_wr_again || apply schedf_drain_again|]
  end; try (by destruct (0 <? _)); try reflexivity.
  intros [= <-]. reflexivity.
Qed.

(** A console operation that keeps the queues and the pipes. *)
Lemma sys_ok_console s s' :
  sys_ok s -> schedf s' = schedf s -> kernel_ok s' -> console_ok s' -> sys_ok s'.
Proof.
  intros [K C O A] E K' C'. unfold schedf in E. injection E as E1 E2 E3 E4.
  split; [done|done|by apply (sched_ok_frame s)|]. unfold th_alloc_ok in *. by rewrite E4.
Qed.

(** ** The dispatcher *)

Create HintDb sys discriminated.
#[local] Hint Constants Opaque : sys.
#[local] Hint Resolve sysf_mutex_lock sysf_mutex_trylock sysf_mutex_timedlock sysf_mutex_unlock sysf_sem_init 
  sysf_sem_wait sysf_sem_trywait sysf_sem_timedwait sysf_sem_post sysf_cond_signal 
  sysf_cond_broadcast sysf_flag_take sysf_flag_timedtake sysf_flag_give sysf_flag_val 
  sysf_flag_clr sysf_flag_set sysf_flag_watch sysf_flag_timedwatch sysf_gate_wait 
  sysf_gate_timedwait sysf_gate_exit sysf_gate_open sysf_gate_close sysf_ev_wait 
  sysf_ev_timedwait sysf_ev_raise sysf_ev_mask sysf_ev_clear sysf_irq_wait sysf_mutex_alloc 
  sysf_mutex_free sysf_sem_alloc sysf_sem_free sysf_cond_alloc sysf_cond_free 
  sysf_flag_alloc sysf_flag_free sysf_ev_alloc sysf_ev_free sysf_gate_alloc sysf_gate_free 
  sysf_join sysf_cancel sysf_exit sysf_cond_wait sysf_cond_timedwait sysf_sleep sysf_alarm 
  sysf_pause sysf_resume : sys.
#[local] Hint Resolve mutex_lock_ok mutex_trylock_ok mutex_timedlock_ok mutex_unlock_ok sem_init_ok sem_wait_ok 
  sem_trywait_ok sem_timedwait_ok sem_post_ok cond_signal_ok cond_broadcast_ok flag_take_ok 
  flag_timedtake_ok flag_give_ok flag_val_ok flag_clr_ok flag_set_ok flag_watch_ok 
  flag_timedwatch_ok gate_wait_ok gate_timedwait_ok gate_exit_ok gate_open_ok gate_close_ok 
  ev_wait_ok ev_timedwait_ok ev_raise_ok ev_mask_ok ev_clear_ok irq_wait_ok mutex_alloc_ok 
  mutex_free_ok sem_alloc_ok sem_free_ok cond_alloc_ok cond_free_ok flag_alloc_ok 
  flag_free_ok ev_alloc_ok ev_free_ok gate_alloc_ok gate_free_ok join_ok cancel_ok exit_ok 
  pause_svc_ok resume_svc_ok : sys.

#[local] Hint Resolve nosys_ok clock_ok thread_self_ok critical_enter_ok critical_exit_ok idle_ok dbgmon_ok : sys.

Lemma cond_wait_plain_ok s arg self :
  kernel_ok s -> 0 <= self < THINKOS_THREADS_MAX -> calling s self -> kernel_ok (thinkos_cond_wait_svc arg self s).
Proof. intros K H C. exact (proj1 (cond_wait_ok s arg self K H C)). Qed.
Lemma cond_wait_timed_ok s arg self :
  kernel_ok s -> 0 <= self < THINKOS_THREADS_MAX -> calling s self -> kernel_ok (thinkos_cond_timedwait_svc arg self s).
Proof. intros K H C. exact (proj2 (cond_wait_ok s arg self K H C)). Qed.
Lemma sleep_plain_ok s arg self :
  kernel_ok s -> 0 <= self < THINKOS_THREADS_MAX -> calling s self -> kernel_ok (thinkos_sleep_svc arg self s).
Proof. intros K H C. exact (proj1 (sleep_ok s arg self K H C)). Qed.
Lemma alarm_ok s arg self :
  kernel_ok s -> 0 <= self < THINKOS_THREADS_MAX -> calling s self -> kernel_ok (thinkos_alarm_svc arg self s).
Proof. intros K H C. exact (proj2 (sleep_ok s arg self K H C)). Qed.

#[local] Hint Resolve cond_wait_plain_ok cond_wait_timed_ok sleep_plain_ok alarm_ok : sys.

Section calls.
Context (p : platform) (s : kernel) (S : sys_ok s) (arg self : Z).
Context (Hself : 0 <= self < THINKOS_THREADS_MAX) (Hc : calling s self).

Lemma console_call_ok s' : thinkos_console_svc arg self s = Some s' -> sys_ok s'.
Proof using S Hself Hc.
  intros E. destruct S as [K C _ _]. destruct (console_svc_ok s arg self s' K C Hself Hc E).
  apply (sys_ok_console s); [done|by eapply schedf_console|done|done].
Qed.

(** Whatever the running thread asks for, the invariant holds when the handler
    returns. *)
Lemma svc_ok svc s' :
  svc_safe arg self svc s -> thinkos_svc_isr p arg self svc s = Some s' -> sys_ok s'.
Proof using S Hself Hc.
  pose proof (sys_kernel s S) as K.
  unfold svc_safe, thinkos_svc_isr. destruct (syscall_of svc) as [[]|]; intros Hsafe;
    try (intros [= <-]; solve [eauto 2 with sys nocore]);
    try (intros [= <-]; apply (sys_ok_keep s _ S); [solve [eauto 2 with sys nocore]|solve [eauto 3 with sys nocore]]).
  - intros [= <-]. by apply create_ok.
  - apply console_call_ok.
  - intros [= <-]. by apply terminate_ok.
  - by apply ctl_ok.
Qed.
End calls.

(** ** Interrupts *)

Lemma sched_keep s s' : sched_ok s -> sysf s' = sysf s -> sched_ok s'.
Proof. intros O E. apply sysf_eq in E as (_ & E2 & E3 & E4 & _). by apply (sched_ok_frame s). Qed.

Lemma pendsv_sys s : sys_ok s -> sys_ok (cm3_pendsv_isr s).
Proof. intros [K C O A]. split; [by apply pendsv_ok|exact C|by apply pendsv_sched_ok|exact A]. Qed.

Lemma clock_scan_frame n : forall wq t s,
  console (clock_scan n wq t s) = console s /\ th_alloc (clock_scan n wq t s) = th_alloc s.
Proof.
  induction n as [|n IH]; intros wq t s; [done|]. cbn [clock_scan]. cbv zeta. destruct (_ <? 32); [|done].
  destruct (_ <=? 0); match goal with |- context [clock_scan n ?w t ?x] => destruct (IH w t x) as [-> ->] end; done.
Qed.

Lemma timeshare_frame s :
  console (thinkos_timeshare s) = console s /\ th_alloc (thinkos_timeshare s) = th_alloc s.
Proof. unfold thinkos_timeshare. cbv zeta. destruct (_ <? 0); [|done]. by destruct (negb _). Qed.

Lemma systick_sys s : sys_ok s -> sys_ok (cm3_systick_isr s).
Proof.
  intros [K C O A].
  assert (E : console (cm3_systick_isr s) = console s /\ th_alloc (cm3_systick_isr s) = th_alloc s).
  { unfold cm3_systick_isr. cbv zeta. set (s1 := set_ticks _ s).
    assert (E : console s1 = console s /\ th_alloc s1 = th_alloc s) by done. destruct E as [<- <-].
    generalize (__rbit (rd (wq_lst s1) 2)) (u32 (ticks s + 1)). intros w t. clearbody s1.
    destruct (timeshare_frame (clock_scan 32 w t s1)) as [-> ->]. apply clock_scan_frame. }
  destruct E as [E1 E2]. split; [by apply systick_ok| |by apply systick_sched_ok|].
  - unfold console_ok in *. by rewrite E1.
  - unfold th_alloc_ok in *. by rewrite E2.
Qed.

Lemma default_isr_sys s irq :
  sys_ok s -> 0 <= irq < THINKOS_IRQ_MAX -> irq ∈ irq_en s -> sys_ok (cm3_default_isr irq s).
Proof.
  intros S Hi He. apply (sys_ok_keep s _ S); [reflexivity|]. by apply default_isr_ok; [apply S|..].
Qed.

Lemma sem_isr_sys s wq :
  sys_ok s -> THINKOS_SEM_BASE <= wq < THINKOS_SEM_BASE + THINKOS_SEMAPHORE_MAX -> sys_ok (cm3_except7_isr wq s).
Proof.
  intros S H. apply (sys_ok_keep s _ S); [unfold cm3_except7_isr; sysf_call|]. by apply sem_isr_ok; [apply S|].
Qed.
Lemma ev_isr_sys s wq e :
  sys_ok s -> THINKOS_EVENT_BASE <= wq < THINKOS_EVENT_BASE + THINKOS_EVENT_MAX -> sys_ok (cm3_except9_isr wq e s).
Proof.
  intros S H. apply (sys_ok_keep s _ S); [unfold cm3_except9_isr; sysf_call|]. by apply ev_isr_ok; [apply S|].
Qed.
Lemma flag_isr_sys s wq :
  sys_ok s -> THINKOS_FLAG_BASE <= wq < THINKOS_FLAG_BASE + THINKOS_FLAG_MAX -> sys_ok (cm3_except10_isr wq s).
Proof.
  intros S H. apply (sys_ok_keep s _ S); [unfold cm3_except10_isr; sysf_call|]. by apply flag_isr_ok; [apply S|].
Qed.
Lemma gate_isr_sys s wq :
  sys_ok s -> THINKOS_GATE_BASE <= wq < THINKOS_GATE_BASE + THINKOS_GATE_MAX -> sys_ok (cm3_except13_isr wq s).
Proof.
  intros S H. apply (sys_ok_keep s _ S); [unfold cm3_except13_isr; sysf_call|]. by apply gate_isr_ok; [apply S|].
Qed.

(** ** The console driver *)

Lemma tx_commit_sys s cnt :
  sys_ok s -> 0 <= cnt <= len (tx_data s) -> sys_ok (__console_tx_pipe_commit cnt s).
Proof.
  intros S Hcnt. pose proof S as [K [Tx Rx] _ _]. unfold tx_data in Hcnt. rewrite len_ring in Hcnt.
  destruct (ring_pop _ _ _ cnt Tx Hcnt) as [Tx1 _].
  assert (E : console (__console_tx_pipe_commit cnt s) =
    con_tx (tx_head (console s)) (u32 (tx_tail (console s) + cnt)) (tx_buf (console s)) (console s) /\
    schedf (__console_tx_pipe_commit cnt s) = schedf s).
  { unfold __console_tx_pipe_commit. cbv zeta. by destruct (_ =? _). }
  destruct E as [Ec Es]. apply (sys_ok_console s _ S Es); [by apply tx_commit_ok|].
  unfold console_ok. rewrite Ec. by split.
Qed.

Lemma rx_commit_sys s cnt :
  sys_ok s -> 0 <= cnt <= 64 - len (rx_data s) -> sys_ok (__console_rx_pipe_commit cnt s).
Proof.
  intros S Hcnt. pose proof S as [K [Tx Rx] _ _]. unfold rx_data in Hcnt. rewrite len_ring in Hcnt.
  destruct (ring_extend _ _ _ cnt Rx ltac:(lia) ltac:(lia)) as [Rx1 _].
  unfold __console_rx_pipe_commit. cbv zeta. set (s1 := set_console _ s).
  assert (S1 : sys_ok s1) by (apply (sys_ok_console s _ S); [done|by apply (same_kernel_ok s)|by split]).
  clearbody s1. clear S K Tx Rx Hcnt Rx1 s. pose proof S1 as [K C _ _].
  destruct (Z.eqb_spec (__thinkos_wq_head 56 s1) 32) as [|Hn]; [done|].
  set (th := __thinkos_wq_head 56 s1) in *. set (c := context_at _ s1).
  pose proof (rx_read_spec s1 (u32 (r1 c)) (u32 (r2 c)) C (u32_range _)) as Hr.
  pose proof (schedf_read (u32 (r1 c)) (u32 (r2 c)) s1) as Es.
  destruct (rx_pipe_read _ _ s1) as [s2 n]. destruct Hr as (_ & Sk & C2 & _). cbn [fst] in Es.
  pose proof (same_kernel_ok s1 s2 Sk K) as K2.
  pose proof (sys_ok_console s1 s2 S1 Es K2 C2) as S2.
  destruct (n =? 0); [done|]. apply (sys_ok_keep s2 _ S2); [reflexivity|].
  assert (Hh : __thinkos_wq_head 56 s2 = th) by (unfold th, __thinkos_wq_head; by rewrite (proj1 Sk)).
  destruct (sync_head s2 56 K2) as [Hr Hm]; [unfold sync_wq; lia|congruence|]. rewrite Hh in Hr, Hm.
  kpeel. apply wakeup_return_ok; [done|done|unfold sync_wq; lia|done].
Qed.

(** The driver stores received bytes in the free part of the buffer. *)
Definition con_rx_fill (buf : list Z) (c : console_rt) : console_rt :=
  mk_console (open_cnt c) (connected c) (tx_last_cnt c) (tx_head c) (tx_tail c) (tx_buf c)
    (rx_head c) (rx_tail c) buf.

Lemma rx_fill_sys s buf : sys_ok s -> len buf = 64 -> sys_ok (set_console (con_rx_fill buf (console s)) s).
Proof.
  intros S Hb. pose proof S as [K [Tx (_ & Rx)] _ _].
  apply (sys_ok_console s _ S); [done|by apply (same_kernel_ok s)|]. split; [exact Tx|]. by split.
Qed.

Lemma connect_sys s v : sys_ok s -> sys_ok (__console_connect_set v s).
Proof.
  intros S. pose proof S as [K C _ _]. by apply (sys_ok_console s _ S); [|apply (same_kernel_ok s)|].
Qed.

(** ** Start-up *)

(** With no interrupt assigned it does not matter which ones are enabled. *)
Lemma kernel_ok_irqs s s' :
  kernel_ok s -> (forall i, 0 <= i < THINKOS_IRQ_MAX -> rd (irq_th s) i = THINKOS_THREAD_IDLE) ->
  wq_lst s' = wq_lst s -> th_stat s' = th_stat s -> th_alloc s' = th_alloc s -> irq_th s' = irq_th s ->
  kernel_ok s'.
Proof.
  intros [K1 K2 K3 K4 K5 K6 K7 K8 K9] Hi H1 H2 H3 H4.
  split; unfold thread_in, mem in *; rewrite ?H1, ?H2, ?H3, ?H4; try assumption.
  intros i Hr _ Hlt. rewrite Hi in Hlt by done. lia.
Qed.

(** The main thread's slot for an option word: number 0 stands for 1. *)
Definition main_slot (opt : Z) : Z := Z.max 0 (__ID opt - 1).

Section boot.
Context (opt : Z) (s : kernel).
Context (Hid : __ID opt <= THINKOS_THREADS_MAX) (Hrun : __PAUSED opt = 0).
Let id := main_slot opt.
Let pri := Z.min (__PRIORITY opt) THINKOS_SCHED_LIMIT_MAX.

Lemma main_slot_range : 0 <= id < THINKOS_THREADS_MAX.
Proof using Hid. unfold id, main_slot. lia. Qed.

Lemma init_fields :
  let s' := (thinkos_init opt s).1 in
  wq_lst s' = wr (zeros 59) 0 (Z.lor (Z.shiftl 1 id) 256) /\ th_stat s' = zeros 8 /\
  th_alloc s' = __bit_mem_wr 4294967040 id true /\ irq_th s' = replicate 80 THINKOS_THREAD_IDLE /\
  console s' = console s /\ active s' = id /\ sched_limit s' = Z.max 1 pri /\
  sched s' = wr (wr (zeros 20) (9 + id) (u8 pri)) id (u8 (pri / 2)) /\ (thinkos_init opt s).2 = id + 1.
Proof using Hid Hrun.
  unfold thinkos_init, __thinkos_init_main. rewrite Hrun.
  assert (E1 : (if __ID opt - 1 <? 0 then 0 else __ID opt - 1) = id)
    by (unfold id, main_slot; destruct (Z.ltb_spec (__ID opt - 1) 0); lia).
  assert (E2 : (if 32 <? __PRIORITY opt then 32 else __PRIORITY opt) = pri)
    by (unfold pri; destruct (Z.ltb_spec 32 (__PRIORITY opt)); lia).
  assert (E3 : (if pri <? 1 then 1 else pri) = Z.max 1 pri) by (destruct (Z.ltb_spec pri 1); lia).
  rewrite E1, E2, E3. pose proof main_slot_range as Hr. clear E1 E2 E3.
  generalize dependent id. generalize dependent pri. intros p q Hq.
  set (s0 := __thinkos_idle_init (__thinkos_reset s)).
  change (th_alloc s0) with 4294967040.
  assert (Ea : thinkos_alloc_lo 4294967040 q = (__bit_mem_wr 4294967040 q true, q))
    by (z_cases q; vm_compute; reflexivity).
  rewrite Ea. cbv zeta beta iota. change (0 =? 1) with false. cbv iota.
  destruct (Z.ltb_spec q 0); [lia|]. cbn [fst snd]. split_and!; reflexivity.
Qed.

End boot.

(** The state right after the start of the main thread in slot [id]. *)
Definition boot_state (id : Z) : kernel := (thinkos_init (Z.shiftl (id + 1) 24) power_on).1.

Lemma boot_state_ok id : 0 <= id < THINKOS_THREADS_MAX -> kernel_ok (boot_state id).
Proof. intros H. z_cases id; kernel_ok_compute. Qed.

Lemma boot_state_fields id :
  0 <= id < THINKOS_THREADS_MAX ->
  wq_lst (boot_state id) = wr (zeros 59) 0 (Z.lor (Z.shiftl 1 id) 256) /\ th_stat (boot_state id) = zeros 8 /\
  th_alloc (boot_state id) = __bit_mem_wr 4294967040 id true /\
  irq_th (boot_state id) = replicate 80 THINKOS_THREAD_IDLE.
Proof. intros H. z_cases id; vm_compute; split_and!; reflexivity. Qed.

Lemma rd_replicate n v i : 0 <= i < Z.of_nat n -> rd (replicate n v) i = v.
Proof.
  intros H. unfold rd. destruct (Z.ltb_spec i 0); [lia|]. by rewrite nth_lookup_default, lookup_replicate_2 by lia.
Qed.

(** The bits of the initial word: slots 0 to 7 are free, the others taken. *)
Lemma slots_beyond k : THINKOS_THREADS_MAX <= k < 32 -> Z.testbit 4294967040 k = true.
Proof.
  intros H. assert (Hk : 0 <= k - 8 < 24) by lia. replace k with (k - 8 + 8) by lia.
  generalize dependent (k - 8). intros j Hj. z_cases j; reflexivity.
Qed.

Lemma slots_free k : 0 <= k < THINKOS_THREADS_MAX -> Z.testbit 4294967040 k = false.
Proof. intros H. z_cases k; reflexivity. Qed.

Lemma sched_boot s id pri :
  0 <= id < THINKOS_THREADS_MAX -> 0 <= pri <= THINKOS_SCHED_LIMIT_MAX ->
  active s = id -> sched_limit s = Z.max 1 pri ->
  sched s = wr (wr (zeros 20) (9 + id) (u8 pri)) id (u8 (pri / 2)) -> sched_ok s.
Proof.
  intros Hid Hp Ha Hl Hs. set (s0 := set_sched (zeros 20) (set_sched_limit 1 s)).
  assert (O : sched_ok s0).
  { split; unfold sched_pri, sched_val, s0; ksimpl_goal; try (by rewrite ?rd_zeros); try lia; try done;
      intros i; rewrite rd_zeros; try (change (int8 0) with 0); try (change (u8 0) with 0); lia. }
  apply (sched_replace s0 s id O Hid); rewrite ?Hl, ?Hs; unfold s0; ksimpl_goal; try done; try lia.
  - by rewrite !len_wr.
  - rewrite rd_wr_eq by (rewrite len_wr; change (len (zeros 20)) with 20; lia).
    rewrite u8_small; Z.div_mod_to_equations; lia.
  - rewrite rd_wr_ne, rd_wr_eq by (change (len (zeros 20)) with 20; lia). rewrite u8_small; lia.
  - intros j H1 H2. by rewrite !rd_wr_ne by lia.
Qed.

(** [thinkos_init] starts from a consistent state: the main thread and the
    idle thread are ready, every other slot is free. *)
Lemma boot_parts opt s :
  __ID opt <= THINKOS_THREADS_MAX -> __PAUSED opt = 0 ->
  let s' := (thinkos_init opt s).1 in kernel_ok s' /\ sched_ok s' /\ th_alloc_ok s'.
Proof.
  intros Hid Hrun. cbv zeta.
  destruct (init_fields opt s Hid Hrun) as (F1 & F2 & F3 & F4 & _ & F6 & F7 & F8 & _).
  pose proof (main_slot_range opt Hid) as Hm. revert F1 F2 F3 F4 F6 F7 F8 Hm.
  generalize (thinkos_init opt s).1 (main_slot opt). intros s' id F1 F2 F3 F4 F6 F7 F8 Hm.
  destruct (boot_state_fields id Hm) as (B1 & B2 & B3 & B4). split_and!.
  - apply (kernel_ok_irqs (boot_state id)); [by apply boot_state_ok| |congruence..].
    rewrite B4. intros i Hi. by apply rd_replicate.
  - apply (sched_boot s' id _ Hm) in F8; [done| |done|done]. unfold __PRIORITY.
    pose proof (Z.land_nonneg (Z.shiftr opt 16) 255). lia.
  - unfold th_alloc_ok. rewrite F3. apply alloc_set_ok; [done|lia|apply slots_beyond].
Qed.

Lemma boot_ok opt s :
  __ID opt <= THINKOS_THREADS_MAX -> __PAUSED opt = 0 ->
  len (tx_buf (console s)) = 64 -> len (rx_buf (console s)) = 64 ->
  sys_ok (thinkos_init opt (thinkos_console_init s)).1.
Proof.
  intros Hid Hrun Ht Hr. destruct (boot_parts opt (thinkos_console_init s) Hid Hrun) as (K & O & A).
  destruct (init_fields opt (thinkos_console_init s) Hid Hrun) as (_ & _ & _ & _ & F5 & _).
  split; [done| |done|done]. unfold console_ok. rewrite F5.
  split; (split; [done|]); vm_compute; split_and!; congruence.
Qed.

(** ** The transition system *)

Section steps.
Context (p : platform).

(** What can happen next: a system call of the thread the scheduler has chosen,
    where [a] and [c] are the record the exception entry pushes, or something else. *)
Inductive kevent := EvCall (a : Z) (c : thinkos_context) (svc : Z) | EvKernel.

(** Every call is possible.  A canceled thread only ends itself. *)
Inductive kstep (s : kernel) : kevent -> kernel -> Prop :=
  | step_memory m : kstep s EvKernel (set_umem m s)
  | step_svc a c svc s' :
      0 <= active s < THINKOS_THREADS_MAX -> calling s (active s) ->
      thinkos_svc_isr p a (active s) svc (exception_entry a c s) = Some s' -> kstep s (EvCall a c svc) s'
  | step_end a c :
      0 <= active s < THINKOS_THREADS_MAX -> mem s (active s) THINKOS_WQ_READY = true ->
      rd (th_stat s) (active s) = STAT_CANCELED -> r0 c = 0 ->
      kstep s EvKernel (thinkos_terminate_svc a (active s) (exception_entry a c s))
  | step_idle a c :
      active s = THINKOS_THREAD_IDLE -> kstep s EvKernel (thinkos_idle_svc a (exception_entry a c s))
  | step_pendsv : pendsv s = true -> kstep s EvKernel (cm3_pendsv_isr s)
  | step_systick : kstep s EvKernel (cm3_systick_isr s)
  | step_irq irq : 0 <= irq < THINKOS_IRQ_MAX -> irq ∈ irq_en s -> kstep s EvKernel (cm3_default_isr irq s)
  | step_sem_isr wq : THINKOS_SEM_BASE <= wq < THINKOS_SEM_BASE + THINKOS_SEMAPHORE_MAX ->
      kstep s EvKernel (cm3_except7_isr wq s)
  | step_ev_isr wq e : THINKOS_EVENT_BASE <= wq < THINKOS_EVENT_BASE + THINKOS_EVENT_MAX ->
      kstep s EvKernel (cm3_except9_isr wq e s)
  | step_flag_isr wq : THINKOS_FLAG_BASE <= wq < THINKOS_FLAG_BASE + THINKOS_FLAG_MAX ->
      kstep s EvKernel (cm3_except10_isr wq s)
  | step_gate_isr wq : THINKOS_GATE_BASE <= wq < THINKOS_GATE_BASE + THINKOS_GATE_MAX ->
      kstep s EvKernel (cm3_except13_isr wq s)
  | step_tx cnt : 0 <= cnt <= len (tx_data s) -> kstep s EvKernel (__console_tx_pipe_commit cnt s)
  | step_rx_fill buf : len buf = 64 -> kstep s EvKernel (set_console (con_rx_fill buf (console s)) s)
  | step_rx cnt : 0 <= cnt <= 64 - len (rx_data s) -> kstep s EvKernel (__console_rx_pipe_commit cnt s)
  | step_connect v : kstep s EvKernel (__console_connect_set v s).

(** A call whose handler gets what it relies on; the other events always do. *)
Definition event_safe (s : kernel) (ev : kevent) : Prop :=
  match ev with
  | EvCall a c svc => svc_safe a (active s) svc (exception_entry a c s)
  | EvKernel => True
  end.

(** A sequence of events, with the states in which they happen. *)
Inductive kruns : kernel -> list (kernel * kevent) -> kernel -> Prop :=
  | kruns_nil s : kruns s [] s
  | kruns_cons s ev s1 l s2 : kstep s ev s1 -> kruns s1 l s2 -> kruns s ((s, ev) :: l) s2.

(** A canceled thread waits for no interrupt and no time. *)
Lemma ok_canceled_ready m st al iw :
  thread_ok m st al iw -> m THINKOS_WQ_READY = true -> st = STAT_CANCELED ->
  iw = false /\ m THINKOS_WQ_CLOCK = false.
Proof.
  intros H Hr Hst. destruct (ok_ready _ _ _ _ H Hr) as (_ & Hiw & [[H0 _]|[_ Hq]]); [lia|].
  split; [done|]. destruct (m 2) eqn:E; [|done]. apply Hq in E. lia.
Qed.

Lemma step_end_ok s a c :
  sys_ok s -> 0 <= active s < THINKOS_THREADS_MAX -> mem s (active s) THINKOS_WQ_READY = true ->
  rd (th_stat s) (active s) = STAT_CANCELED -> r0 c = 0 ->
  sys_ok (thinkos_terminate_svc a (active s) (exception_entry a c s)).
Proof.
  intros S Ha Hm Hst Hc.
  destruct (ok_canceled_ready _ _ _ _ (k_threads s (sys_kernel s S) (active s) Ha) Hm Hst) as [Hiw Hk].
  apply terminate_ok; [by apply sys_entry|done|].
  assert (E : arg_0 a (exception_entry a c s) = 0).
  { unfold arg_0, context_at, exception_entry. ksimpl_goal. rewrite lookup_insert_eq. cbn. by rewrite Hc. }
  rewrite E. cbv zeta. change (0 =? 0) with true. cbv iota. split; [exact Hiw|].
  change (mem (exception_entry a c s) (active s) 2) with (mem s (active s) 2). by rewrite Hk.
Qed.

Lemma kstep_ok s ev s' : sys_ok s -> event_safe s ev -> kstep s ev s' -> sys_ok s'.
Proof.
  intros S Safe H. destruct H.
  - apply (sys_ok_keep s _ S); [done|]. apply (kernel_ok_frame s); [done..|apply S].
  - by apply (svc_ok p (exception_entry a c s) (sys_entry a c s S) a (active s) H H0 svc).
  - by apply step_end_ok.
  - by apply idle_ok, sys_entry.
  - by apply pendsv_sys.
  - by apply systick_sys.
  - by apply default_isr_sys.
  - by apply sem_isr_sys.
  - by apply ev_isr_sys.
  - by apply flag_isr_sys.
  - by apply gate_isr_sys.
  - by apply tx_commit_sys.
  - by apply rx_fill_sys.
  - by apply rx_commit_sys.
  - by apply connect_sys.
Qed.
End steps.


(** Start-up: [thinkos_init] returns the number of the main thread's slot,
    which is allocated, running and ready with the idle thread and nobody else;
    every queue of an object is empty and no interrupt is assigned. *)
Theorem init_starts_main opt s :
  __ID opt <= THINKOS_THREADS_MAX -> __PAUSED opt = 0 ->
  let '(s', n) := thinkos_init opt s in
  n = main_slot opt + 1 /\ kernel_ok s' /\ th_alloc_ok s' /\ sched_ok s' /\ active s' = main_slot opt /\
  (forall i, 0 <= i < THINKOS_THREADS_MAX -> Z.testbit (th_alloc s') i = (i =? main_slot opt)) /\
  (forall th wq, mem s' th wq = (wq =? THINKOS_WQ_READY) && ((th =? main_slot opt) || (th =? THINKOS_THREAD_IDLE))) /\
  forall irq, 0 <= irq < THINKOS_IRQ_MAX -> rd (irq_th s') irq = THINKOS_THREAD_IDLE.
Proof.
  intros Hid Hrun. pose proof (main_slot_range opt Hid) as Hm.
  destruct (init_fields opt s Hid Hrun) as (F1 & _ & F3 & F4 & _ & F6 & _ & _ & F9).
  destruct (boot_parts opt s Hid Hrun) as (K & O & A).
  destruct (thinkos_init opt s) as [s' n]. cbn [fst snd] in *. clear Hid Hrun. set (id := main_slot opt) in *.
  split_and!; [done|done|done|done|done| | |].
  - intros i Hi. rewrite F3. rewrite bit_wr_spec by lia. rewrite (Z.eqb_sym id).
    destruct (i =? id); [done|by apply slots_free].
  - intros th wq. unfold mem, inq. rewrite F1. destruct (Z.eqb_spec wq 0) as [->|Hne].
    + rewrite rd_wr_eq by (change (len (zeros 59)) with 59; lia). cbn [andb].
      rewrite Z.lor_spec, Z.shiftl_1_l. change 256 with (2 ^ 8).
      destruct (Z.ltb_spec th 0) as [Hn|Hp]; [rewrite !Z.testbit_neg_r by lia; lia|].
      rewrite !Z.pow2_bits_eqb by lia. by rewrite !(Z.eqb_sym th).
    + by rewrite rd_wr_ne, rd_zeros, Z.testbit_0_l by done.
  - intros irq Hi. rewrite F4. by apply rd_replicate.
Qed.

(** ** Examples *)

Definition board : platform := mk_platform 168000000 42 0 true.

(** The main thread sleeps for five ticks; the idle thread runs; a tick. *)
Definition boot_demo : kernel := (thinkos_init (Z.shiftl 3 24 + Z.shiftl 4 16) (thinkos_console_init power_on)).1.
Definition svc_demo (a svc : Z) (c : thinkos_context) (s : kernel) : kernel :=
  default s (thinkos_svc_isr board a (active s) svc (exception_entry a c s)).
Definition sleep_call : thinkos_context := mk_context 0 0 0 0 0 0 0 0 5 0 0 0 0 0 0 0.
Definition asleep : kernel := svc_demo 4096 4 sleep_call boot_demo.
Definition idling : kernel := cm3_pendsv_isr asleep.
Definition ticked_demo : kernel := cm3_systick_isr (thinkos_idle_svc addr_idle_ctx (exception_entry addr_idle_ctx idle_context idling)).


Lemma init_starts_main_witness :
  let '(s', n) := thinkos_init (Z.shiftl 3 24) power_on in n = 3 /\ active s' = 2 /\ kernel_ok s'.
Proof.
  generalize (init_starts_main (Z.shiftl 3 24) power_on).
  generalize (thinkos_init (Z.shiftl 3 24) power_on). intros [s' n] H.
  destruct H as (Hn & K & _ & _ & Ha & _); [vm_compute; congruence|reflexivity|].
  split_and!; [exact Hn|exact Ha|exact K].
Defined.
