(* ===== verification/Crc.v ===== *)
(** * Cyclic redundancy checks

    src/sdk/libcrc (crc5.c, crc5bwe.c, crc5tbl4.c, crc5tbl8.c, crc8bwe.c,
    crc8tbl4.c, crc8tbl8.c, crc16bwe.c, crc16tbl4.c, crc16tbl8.c, crc16ccitt.c,
    crc32.c, crc32tab.c), src/sdk/include/crc.h and
    src/sdk/libbacnet/bacnet_crc.c.  A buffer is the list of its bytes; every
    intermediate value fits the C type it is computed in, which the range lemmas
    of the last section show. *)

From stdpp Require Import base tactics numbers list.
From Stdlib Require Import ZArith Lia.
From S2P Require Import Prelude.

(** ** Code *)

Definition crc5_step (crc c : Z) : Z :=
  let crc := Z.lxor crc c in
  let a := Z.lxor (Z.shiftl crc 2) (Z.shiftl crc 3) in
  let crc := Z.lxor crc (Z.lxor (Z.lxor (Z.shiftr crc 3) a) (Z.shiftl a 4)) in
  Z.lor (Z.land crc 0x18) (Z.land (Z.shiftr crc 5) 0x07).

Definition crc5 (data : list Z) : Z := Z.lxor (fold_left crc5_step data 0x1f) 0x1f.

(** crc5bwe.c has the same body. *)
Definition crc5bwe (data : list Z) : Z := Z.lxor (fold_left crc5_step data 0x1f) 0x1f.

Definition crc5_tbl4_lut : list Z :=
  [0x00; 0x16; 0x05; 0x13; 0x0a; 0x1c; 0x0f; 0x19;
   0x14; 0x02; 0x11; 0x07; 0x1e; 0x08; 0x1b; 0x0d;
   0x00; 0x0e; 0x1c; 0x12; 0x11; 0x1f; 0x0d; 0x03;
   0x0b; 0x05; 0x17; 0x19; 0x1a; 0x14; 0x06; 0x08].

Definition crc5tbl4_step (crc c : Z) : Z :=
  let idx := Z.lxor crc c in
  Z.lxor (rd crc5_tbl4_lut (Z.land idx 0x0f + 16)) (rd crc5_tbl4_lut (Z.shiftr idx 4)).

Definition crc5tbl4 (data : list Z) : Z := u8 (Z.lxor (fold_left crc5tbl4_step data 0x1f) 0x1f).

Definition crc5lut : list Z :=
  [0x00; 0x0e; 0x1c; 0x12; 0x11; 0x1f; 0x0d; 0x03;
   0x0b; 0x05; 0x17; 0x19; 0x1a; 0x14; 0x06; 0x08;
   0x16; 0x18; 0x0a; 0x04; 0x07; 0x09; 0x1b; 0x15;
   0x1d; 0x13; 0x01; 0x0f; 0x0c; 0x02; 0x10; 0x1e;
   0x05; 0x0b; 0x19; 0x17; 0x14; 0x1a; 0x08; 0x06;
   0x0e; 0x00; 0x12; 0x1c; 0x1f; 0x11; 0x03; 0x0d;
   0x13; 0x1d; 0x0f; 0x01; 0x02; 0x0c; 0x1e; 0x10;
   0x18; 0x16; 0x04; 0x0a; 0x09; 0x07; 0x15; 0x1b;
   0x0a; 0x04; 0x16; 0x18; 0x1b; 0x15; 0x07; 0x09;
   0x01; 0x0f; 0x1d; 0x13; 0x10; 0x1e; 0x0c; 0x02;
   0x1c; 0x12; 0x00; 0x0e; 0x0d; 0x03; 0x11; 0x1f;
   0x17; 0x19; 0x0b; 0x05; 0x06; 0x08; 0x1a; 0x14;
   0x0f; 0x01; 0x13; 0x1d; 0x1e; 0x10; 0x02; 0x0c;
   0x04; 0x0a; 0x18; 0x16; 0x15; 0x1b; 0x09; 0x07;
   0x19; 0x17; 0x05; 0x0b; 0x08; 0x06; 0x14; 0x1a;
   0x12; 0x1c; 0x0e; 0x00; 0x03; 0x0d; 0x1f; 0x11;
   0x14; 0x1a; 0x08; 0x06; 0x05; 0x0b; 0x19; 0x17;
   0x1f; 0x11; 0x03; 0x0d; 0x0e; 0x00; 0x12; 0x1c;
   0x02; 0x0c; 0x1e; 0x10; 0x13; 0x1d; 0x0f; 0x01;
   0x09; 0x07; 0x15; 0x1b; 0x18; 0x16; 0x04; 0x0a;
   0x11; 0x1f; 0x0d; 0x03; 0x00; 0x0e; 0x1c; 0x12;
   0x1a; 0x14; 0x06; 0x08; 0x0b; 0x05; 0x17; 0x19;
   0x07; 0x09; 0x1b; 0x15; 0x16; 0x18; 0x0a; 0x04;
   0x0c; 0x02; 0x10; 0x1e; 0x1d; 0x13; 0x01; 0x0f;
   0x1e; 0x10; 0x02; 0x0c; 0x0f; 0x01; 0x13; 0x1d;
   0x15; 0x1b; 0x09; 0x07; 0x04; 0x0a; 0x18; 0x16;
   0x08; 0x06; 0x14; 0x1a; 0x19; 0x17; 0x05; 0x0b;
   0x03; 0x0d; 0x1f; 0x11; 0x12; 0x1c; 0x0e; 0x00;
   0x1b; 0x15; 0x07; 0x09; 0x0a; 0x04; 0x16; 0x18;
   0x10; 0x1e; 0x0c; 0x02; 0x01; 0x0f; 0x1d; 0x13;
   0x0d; 0x03; 0x11; 0x1f; 0x1c; 0x12; 0x00; 0x0e;
   0x06; 0x08; 0x1a; 0x14; 0x17; 0x19; 0x0b; 0x05].

Definition crc5tbl8_step (crc c : Z) : Z := rd crc5lut (Z.lxor crc c).

Definition crc5tbl8 (data : list Z) : Z := u8 (Z.lxor (fold_left crc5tbl8_step data 0x1f) 0x1f).

Definition crc_bitwise_expression (idx : Z) : Z :=
  let bits := idx in
  Z.lor (Z.lor (Z.lor
    (Z.land (Z.lxor (Z.lxor (Z.shiftr bits 2) (Z.shiftr bits 1)) bits) 0x0f)
    (Z.land (Z.lxor (Z.lxor (Z.lxor (Z.shiftr bits 2) (Z.shiftr bits 1)) bits) (Z.shiftl bits 4)) 0x30))
    (Z.land (Z.lxor (Z.lxor (Z.shiftr bits 1) bits) (Z.shiftl bits 5)) 0x40))
    (Z.land (Z.lxor (Z.lxor bits (Z.shiftl bits 6)) (Z.shiftl bits 7)) 0x80).

Definition crc8bwe (data : list Z) : Z :=
  Z.lxor (fold_left (fun crc c => crc_bitwise_expression (Z.lxor crc c)) data 0xff) 0xff.

Definition crc8_tbl4_lut : list Z :=
  [0x00; 0x1c; 0x38; 0x24; 0x70; 0x6c; 0x48; 0x54;
   0xe0; 0xfc; 0xd8; 0xc4; 0x90; 0x8c; 0xa8; 0xb4;
   0x00; 0x91; 0xe3; 0x72; 0x07; 0x96; 0xe4; 0x75;
   0x0e; 0x9f; 0xed; 0x7c; 0x09; 0x98; 0xea; 0x7b].

Definition crc8tbl4_step (crc c : Z) : Z :=
  let idx := Z.lxor crc c in
  Z.lxor (rd crc8_tbl4_lut (Z.land idx 0x0f + 16)) (rd crc8_tbl4_lut (Z.shiftr idx 4)).

Definition crc8tbl4 (data : list Z) : Z := Z.lxor (fold_left crc8tbl4_step data 0xff) 0xff.

Definition crc8_table : list Z :=
  [0x00; 0x91; 0xe3; 0x72; 0x07; 0x96; 0xe4; 0x75;
   0x0e; 0x9f; 0xed; 0x7c; 0x09; 0x98; 0xea; 0x7b;
   0x1c; 0x8d; 0xff; 0x6e; 0x1b; 0x8a; 0xf8; 0x69;
   0x12; 0x83; 0xf1; 0x60; 0x15; 0x84; 0xf6; 0x67;
   0x38; 0xa9; 0xdb; 0x4a; 0x3f; 0xae; 0xdc; 0x4d;
   0x36; 0xa7; 0xd5; 0x44; 0x31; 0xa0; 0xd2; 0x43;
   0x24; 0xb5; 0xc7; 0x56; 0x23; 0xb2; 0xc0; 0x51;
   0x2a; 0xbb; 0xc9; 0x58; 0x2d; 0xbc; 0xce; 0x5f;
   0x70; 0xe1; 0x93; 0x02; 0x77; 0xe6; 0x94; 0x05;
   0x7e; 0xef; 0x9d; 0x0c; 0x79; 0xe8; 0x9a; 0x0b;
   0x6c; 0xfd; 0x8f; 0x1e; 0x6b; 0xfa; 0x88; 0x19;
   0x62; 0xf3; 0x81; 0x10; 0x65; 0xf4; 0x86; 0x17;
   0x48; 0xd9; 0xab; 0x3a; 0x4f; 0xde; 0xac; 0x3d;
   0x46; 0xd7; 0xa5; 0x34; 0x41; 0xd0; 0xa2; 0x33;
   0x54; 0xc5; 0xb7; 0x26; 0x53; 0xc2; 0xb0; 0x21;
   0x5a; 0xcb; 0xb9; 0x28; 0x5d; 0xcc; 0xbe; 0x2f;
   0xe0; 0x71; 0x03; 0x92; 0xe7; 0x76; 0x04; 0x95;
   0xee; 0x7f; 0x0d; 0x9c; 0xe9; 0x78; 0x0a; 0x9b;
   0xfc; 0x6d; 0x1f; 0x8e; 0xfb; 0x6a; 0x18; 0x89;
   0xf2; 0x63; 0x11; 0x80; 0xf5; 0x64; 0x16; 0x87;
   0xd8; 0x49; 0x3b; 0xaa; 0xdf; 0x4e; 0x3c; 0xad;
   0xd6; 0x47; 0x35; 0xa4; 0xd1; 0x40; 0x32; 0xa3;
   0xc4; 0x55; 0x27; 0xb6; 0xc3; 0x52; 0x20; 0xb1;
   0xca; 0x5b; 0x29; 0xb8; 0xcd; 0x5c; 0x2e; 0xbf;
   0x90; 0x01; 0x73; 0xe2; 0x97; 0x06; 0x74; 0xe5;
   0x9e; 0x0f; 0x7d; 0xec; 0x99; 0x08; 0x7a; 0xeb;
   0x8c; 0x1d; 0x6f; 0xfe; 0x8b; 0x1a; 0x68; 0xf9;
   0x82; 0x13; 0x61; 0xf0; 0x85; 0x14; 0x66; 0xf7;
   0xa8; 0x39; 0x4b; 0xda; 0xaf; 0x3e; 0x4c; 0xdd;
   0xa6; 0x37; 0x45; 0xd4; 0xa1; 0x30; 0x42; 0xd3;
   0xb4; 0x25; 0x57; 0xc6; 0xb3; 0x22; 0x50; 0xc1;
   0xba; 0x2b; 0x59; 0xc8; 0xbd; 0x2c; 0x5e; 0xcf].

Definition crc8tbl8 (data : list Z) : Z :=
  Z.lxor (fold_left (fun crc c => rd crc8_table (Z.lxor crc c)) data 0xff) 0xff.

Definition crc16bwe_step (crc c : Z) : Z :=
  let crc := Z.lor (Z.shiftr crc 8) (Z.shiftl (Z.land crc 0xff) 8) in
  let crc := Z.lxor crc (Z.shiftl c 8) in
  let crc := Z.lxor crc (Z.land (Z.shiftl crc 4) 0xf000) in
  let crc := Z.lxor crc (Z.land (Z.shiftr crc 12) 0x000f) in
  Z.lxor crc (Z.land (Z.shiftr crc 5) 0x07f8).

Definition crc16bwe (data : list Z) : Z := Z.lxor (fold_left crc16bwe_step data 0xffff) 0xffff.

Definition crc16_tbl4_table : list Z :=
  [0x0000; 0x1081; 0x2102; 0x3183; 0x4204; 0x5285; 0x6306; 0x7387;
   0x8408; 0x9489; 0xa50a; 0xb58b; 0xc60c; 0xd68d; 0xe70e; 0xf78f;
   0x0000; 0x1189; 0x2312; 0x329b; 0x4624; 0x57ad; 0x6536; 0x74bf;
   0x8c48; 0x9dc1; 0xaf5a; 0xbed3; 0xca6c; 0xdbe5; 0xe97e; 0xf8f7].

Definition crc16tbl4_step (crc c : Z) : Z :=
  let crc := Z.lxor crc c in
  Z.lxor (Z.lxor (Z.shiftr crc 8) (rd crc16_tbl4_table (Z.land (Z.shiftr crc 4) 15)))
    (rd crc16_tbl4_table (Z.land crc 15 + 16)).

Definition crc16tbl4 (data : list Z) : Z := Z.lxor (fold_left crc16tbl4_step data 0xffff) 0xffff.

Definition crc16lut : list Z :=
  [0x0000; 0x1189; 0x2312; 0x329b; 0x4624; 0x57ad; 0x6536; 0x74bf;
   0x8c48; 0x9dc1; 0xaf5a; 0xbed3; 0xca6c; 0xdbe5; 0xe97e; 0xf8f7;
   0x1081; 0x0108; 0x3393; 0x221a; 0x56a5; 0x472c; 0x75b7; 0x643e;
   0x9cc9; 0x8d40; 0xbfdb; 0xae52; 0xdaed; 0xcb64; 0xf9ff; 0xe876;
   0x2102; 0x308b; 0x0210; 0x1399; 0x6726; 0x76af; 0x4434; 0x55bd;
   0xad4a; 0xbcc3; 0x8e58; 0x9fd1; 0xeb6e; 0xfae7; 0xc87c; 0xd9f5;
   0x3183; 0x200a; 0x1291; 0x0318; 0x77a7; 0x662e; 0x54b5; 0x453c;
   0xbdcb; 0xac42; 0x9ed9; 0x8f50; 0xfbef; 0xea66; 0xd8fd; 0xc974;
   0x4204; 0x538d; 0x6116; 0x709f; 0x0420; 0x15a9; 0x2732; 0x36bb;
   0xce4c; 0xdfc5; 0xed5e; 0xfcd7; 0x8868; 0x99e1; 0xab7a; 0xbaf3;
   0x5285; 0x430c; 0x7197; 0x601e; 0x14a1; 0x0528; 0x37b3; 0x263a;
   0xdecd; 0xcf44; 0xfddf; 0xec56; 0x98e9; 0x8960; 0xbbfb; 0xaa72;
   0x6306; 0x728f; 0x4014; 0x519d; 0x2522; 0x34ab; 0x0630; 0x17b9;
   0xef4e; 0xfec7; 0xcc5c; 0xddd5; 0xa96a; 0xb8e3; 0x8a78; 0x9bf1;
   0x7387; 0x620e; 0x5095; 0x411c; 0x35a3; 0x242a; 0x16b1; 0x0738;
   0xffcf; 0xee46; 0xdcdd; 0xcd54; 0xb9eb; 0xa862; 0x9af9; 0x8b70;
   0x8408; 0x9581; 0xa71a; 0xb693; 0xc22c; 0xd3a5; 0xe13e; 0xf0b7;
   0x0840; 0x19c9; 0x2b52; 0x3adb; 0x4e64; 0x5fed; 0x6d76; 0x7cff;
   0x9489; 0x8500; 0xb79b; 0xa612; 0xd2ad; 0xc324; 0xf1bf; 0xe036;
   0x18c1; 0x0948; 0x3bd3; 0x2a5a; 0x5ee5; 0x4f6c; 0x7df7; 0x6c7e;
   0xa50a; 0xb483; 0x8618; 0x9791; 0xe32e; 0xf2a7; 0xc03c; 0xd1b5;
   0x2942; 0x38cb; 0x0a50; 0x1bd9; 0x6f66; 0x7eef; 0x4c74; 0x5dfd;
   0xb58b; 0xa402; 0x9699; 0x8710; 0xf3af; 0xe226; 0xd0bd; 0xc134;
   0x39c3; 0x284a; 0x1ad1; 0x0b58; 0x7fe7; 0x6e6e; 0x5cf5; 0x4d7c;
   0xc60c; 0xd785; 0xe51e; 0xf497; 0x8028; 0x91a1; 0xa33a; 0xb2b3;
   0x4a44; 0x5bcd; 0x6956; 0x78df; 0x0c60; 0x1de9; 0x2f72; 0x3efb;
   0xd68d; 0xc704; 0xf59f; 0xe416; 0x90a9; 0x8120; 0xb3bb; 0xa232;
   0x5ac5; 0x4b4c; 0x79d7; 0x685e; 0x1ce1; 0x0d68; 0x3ff3; 0x2e7a;
   0xe70e; 0xf687; 0xc41c; 0xd595; 0xa12a; 0xb0a3; 0x8238; 0x93b1;
   0x6b46; 0x7acf; 0x4854; 0x59dd; 0x2d62; 0x3ceb; 0x0e70; 0x1ff9;
   0xf78f; 0xe606; 0xd49d; 0xc514; 0xb1ab; 0xa022; 0x92b9; 0x8330;
   0x7bc7; 0x6a4e; 0x58d5; 0x495c; 0x3de3; 0x2c6a; 0x1ef1; 0x0f78].

Definition crc16tbl8_step (crc c : Z) : Z :=
  let idx := Z.land (Z.lxor crc c) 0xff in
  Z.lxor (rd crc16lut idx) (Z.shiftr crc 8).

Definition crc16tbl8 (data : list Z) : Z := Z.lxor (fold_left crc16tbl8_step data 0xffff) 0xffff.

(** [CRC16CCITT] of crc.h; crc16ccitt.c writes out the same body. *)
Definition __crc16ccitt (crc c : Z) : Z :=
  let crc := Z.lor (Z.shiftr crc 8) (Z.shiftl (Z.land crc 0xff) 8) in
  let crc := Z.lxor crc c in
  let crc := Z.lxor crc (Z.shiftr (Z.land crc 0xff) 4) in
  let crc := Z.lxor crc (Z.shiftl (Z.land crc 0x0f) 12) in
  Z.lxor crc (Z.shiftl (Z.land crc 0xff) 5).

Definition crc16ccitt (crc : Z) (buf : list Z) : Z := fold_left __crc16ccitt buf crc.

Definition _crc32_ : list Z :=
  [0x00000000; 0x77073096; 0xee0e612c; 0x990951ba; 0x076dc419; 0x706af48f;
   0xe963a535; 0x9e6495a3; 0x0edb8832; 0x79dcb8a4; 0xe0d5e91e; 0x97d2d988;
   0x09b64c2b; 0x7eb17cbd; 0xe7b82d07; 0x90bf1d91; 0x1db71064; 0x6ab020f2;
   0xf3b97148; 0x84be41de; 0x1adad47d; 0x6ddde4eb; 0xf4d4b551; 0x83d385c7;
   0x136c9856; 0x646ba8c0; 0xfd62f97a; 0x8a65c9ec; 0x14015c4f; 0x63066cd9;
   0xfa0f3d63; 0x8d080df5; 0x3b6e20c8; 0x4c69105e; 0xd56041e4; 0xa2677172;
   0x3c03e4d1; 0x4b04d447; 0xd20d85fd; 0xa50ab56b; 0x35b5a8fa; 0x42b2986c;
   0xdbbbc9d6; 0xacbcf940; 0x32d86ce3; 0x45df5c75; 0xdcd60dcf; 0xabd13d59;
   0x26d930ac; 0x51de003a; 0xc8d75180; 0xbfd06116; 0x21b4f4b5; 0x56b3c423;
   0xcfba9599; 0xb8bda50f; 0x2802b89e; 0x5f058808; 0xc60cd9b2; 0xb10be924;
   0x2f6f7c87; 0x58684c11; 0xc1611dab; 0xb6662d3d; 0x76dc4190; 0x01db7106;
   0x98d220bc; 0xefd5102a; 0x71b18589; 0x06b6b51f; 0x9fbfe4a5; 0xe8b8d433;
   0x7807c9a2; 0x0f00f934; 0x9609a88e; 0xe10e9818; 0x7f6a0dbb; 0x086d3d2d;
   0x91646c97; 0xe6635c01; 0x6b6b51f4; 0x1c6c6162; 0x856530d8; 0xf262004e;
   0x6c0695ed; 0x1b01a57b; 0x8208f4c1; 0xf50fc457; 0x65b0d9c6; 0x12b7e950;
   0x8bbeb8ea; 0xfcb9887c; 0x62dd1ddf; 0x15da2d49; 0x8cd37cf3; 0xfbd44c65;
   0x4db26158; 0x3ab551ce; 0xa3bc0074; 0xd4bb30e2; 0x4adfa541; 0x3dd895d7;
   0xa4d1c46d; 0xd3d6f4fb; 0x4369e96a; 0x346ed9fc; 0xad678846; 0xda60b8d0;
   0x44042d73; 0x33031de5; 0xaa0a4c5f; 0xdd0d7cc9; 0x5005713c; 0x270241aa;
   0xbe0b1010; 0xc90c2086; 0x5768b525; 0x206f85b3; 0xb966d409; 0xce61e49f;
   0x5edef90e; 0x29d9c998; 0xb0d09822; 0xc7d7a8b4; 0x59b33d17; 0x2eb40d81;
   0xb7bd5c3b; 0xc0ba6cad; 0xedb88320; 0x9abfb3b6; 0x03b6e20c; 0x74b1d29a;
   0xead54739; 0x9dd277af; 0x04db2615; 0x73dc1683; 0xe3630b12; 0x94643b84;
   0x0d6d6a3e; 0x7a6a5aa8; 0xe40ecf0b; 0x9309ff9d; 0x0a00ae27; 0x7d079eb1;
   0xf00f9344; 0x8708a3d2; 0x1e01f268; 0x6906c2fe; 0xf762575d; 0x806567cb;
   0x196c3671; 0x6e6b06e7; 0xfed41b76; 0x89d32be0; 0x10da7a5a; 0x67dd4acc;
   0xf9b9df6f; 0x8ebeeff9; 0x17b7be43; 0x60b08ed5; 0xd6d6a3e8; 0xa1d1937e;
   0x38d8c2c4; 0x4fdff252; 0xd1bb67f1; 0xa6bc5767; 0x3fb506dd; 0x48b2364b;
   0xd80d2bda; 0xaf0a1b4c; 0x36034af6; 0x41047a60; 0xdf60efc3; 0xa867df55;
   0x316e8eef; 0x4669be79; 0xcb61b38c; 0xbc66831a; 0x256fd2a0; 0x5268e236;
   0xcc0c7795; 0xbb0b4703; 0x220216b9; 0x5505262f; 0xc5ba3bbe; 0xb2bd0b28;
   0x2bb45a92; 0x5cb36a04; 0xc2d7ffa7; 0xb5d0cf31; 0x2cd99e8b; 0x5bdeae1d;
   0x9b64c2b0; 0xec63f226; 0x756aa39c; 0x026d930a; 0x9c0906a9; 0xeb0e363f;
   0x72076785; 0x05005713; 0x95bf4a82; 0xe2b87a14; 0x7bb12bae; 0x0cb61b38;
   0x92d28e9b; 0xe5d5be0d; 0x7cdcefb7; 0x0bdbdf21; 0x86d3d2d4; 0xf1d4e242;
   0x68ddb3f8; 0x1fda836e; 0x81be16cd; 0xf6b9265b; 0x6fb077e1; 0x18b74777;
   0x88085ae6; 0xff0f6a70; 0x66063bca; 0x11010b5c; 0x8f659eff; 0xf862ae69;
   0x616bffd3; 0x166ccf45; 0xa00ae278; 0xd70dd2ee; 0x4e048354; 0x3903b3c2;
   0xa7672661; 0xd06016f7; 0x4969474d; 0x3e6e77db; 0xaed16a4a; 0xd9d65adc;
   0x40df0b66; 0x37d83bf0; 0xa9bcae53; 0xdebb9ec5; 0x47b2cf7f; 0x30b5ffe9;
   0xbdbdf21c; 0xcabac28a; 0x53b39330; 0x24b4a3a6; 0xbad03605; 0xcdd70693;
   0x54de5729; 0x23d967bf; 0xb3667a2e; 0xc4614ab8; 0x5d681b02; 0x2a6f2b94;
   0xb40bbe37; 0xc30c8ea1; 0x5a05df1b; 0x2d02ef8d].

Definition CRC32 (crc c : Z) : Z :=
  Z.lxor (rd _crc32_ (Z.land (Z.lxor crc c) 0xff)) (Z.shiftr crc 8).

(** The loop ends for the lengths that are not negative. *)
Definition crc32 (crc : Z) (buf : list Z) : Z := Z.lxor (fold_left CRC32 buf crc) 0xffffffff.

Definition bacnet_crc8_lut : list Z :=
  [0x00; 0xfe; 0xff; 0x01; 0xfd; 0x03; 0x02; 0xfc;
   0xf9; 0x07; 0x06; 0xf8; 0x04; 0xfa; 0xfb; 0x05;
   0xf1; 0x0f; 0x0e; 0xf0; 0x0c; 0xf2; 0xf3; 0x0d;
   0x08; 0xf6; 0xf7; 0x09; 0xf5; 0x0b; 0x0a; 0xf4;
   0xe1; 0x1f; 0x1e; 0xe0; 0x1c; 0xe2; 0xe3; 0x1d;
   0x18; 0xe6; 0xe7; 0x19; 0xe5; 0x1b; 0x1a; 0xe4;
   0x10; 0xee; 0xef; 0x11; 0xed; 0x13; 0x12; 0xec;
   0xe9; 0x17; 0x16; 0xe8; 0x14; 0xea; 0xeb; 0x15;
   0xc1; 0x3f; 0x3e; 0xc0; 0x3c; 0xc2; 0xc3; 0x3d;
   0x38; 0xc6; 0xc7; 0x39; 0xc5; 0x3b; 0x3a; 0xc4;
   0x30; 0xce; 0xcf; 0x31; 0xcd; 0x33; 0x32; 0xcc;
   0xc9; 0x37; 0x36; 0xc8; 0x34; 0xca; 0xcb; 0x35;
   0x20; 0xde; 0xdf; 0x21; 0xdd; 0x23; 0x22; 0xdc;
   0xd9; 0x27; 0x26; 0xd8; 0x24; 0xda; 0xdb; 0x25;
   0xd1; 0x2f; 0x2e; 0xd0; 0x2c; 0xd2; 0xd3; 0x2d;
   0x28; 0xd6; 0xd7; 0x29; 0xd5; 0x2b; 0x2a; 0xd4;
   0x81; 0x7f; 0x7e; 0x80; 0x7c; 0x82; 0x83; 0x7d;
   0x78; 0x86; 0x87; 0x79; 0x85; 0x7b; 0x7a; 0x84;
   0x70; 0x8e; 0x8f; 0x71; 0x8d; 0x73; 0x72; 0x8c;
   0x89; 0x77; 0x76; 0x88; 0x74; 0x8a; 0x8b; 0x75;
   0x60; 0x9e; 0x9f; 0x61; 0x9d; 0x63; 0x62; 0x9c;
   0x99; 0x67; 0x66; 0x98; 0x64; 0x9a; 0x9b; 0x65;
   0x91; 0x6f; 0x6e; 0x90; 0x6c; 0x92; 0x93; 0x6d;
   0x68; 0x96; 0x97; 0x69; 0x95; 0x6b; 0x6a; 0x94;
   0x40; 0xbe; 0xbf; 0x41; 0xbd; 0x43; 0x42; 0xbc;
   0xb9; 0x47; 0x46; 0xb8; 0x44; 0xba; 0xbb; 0x45;
   0xb1; 0x4f; 0x4e; 0xb0; 0x4c; 0xb2; 0xb3; 0x4d;
   0x48; 0xb6; 0xb7; 0x49; 0xb5; 0x4b; 0x4a; 0xb4;
   0xa1; 0x5f; 0x5e; 0xa0; 0x5c; 0xa2; 0xa3; 0x5d;
   0x58; 0xa6; 0xa7; 0x59; 0xa5; 0x5b; 0x5a; 0xa4;
   0x50; 0xae; 0xaf; 0x51; 0xad; 0x53; 0x52; 0xac;
   0xa9; 0x57; 0x56; 0xa8; 0x54; 0xaa; 0xab; 0x55].

Definition bacnet_crc8 (crc : Z) (buf : list Z) : Z :=
  fold_left (fun crc c => rd bacnet_crc8_lut (Z.lxor crc c)) buf crc.

Definition bacnet_crc16_lut : list Z :=
  [0x0000; 0x1189; 0x2312; 0x329b; 0x4624; 0x57ad; 0x6536; 0x74bf;
   0x8c48; 0x9dc1; 0xaf5a; 0xbed3; 0xca6c; 0xdbe5; 0xe97e; 0xf8f7;
   0x1081; 0x0108; 0x3393; 0x221a; 0x56a5; 0x472c; 0x75b7; 0x643e;
   0x9cc9; 0x8d40; 0xbfdb; 0xae52; 0xdaed; 0xcb64; 0xf9ff; 0xe876;
   0x2102; 0x308b; 0x0210; 0x1399; 0x6726; 0x76af; 0x4434; 0x55bd;
   0xad4a; 0xbcc3; 0x8e58; 0x9fd1; 0xeb6e; 0xfae7; 0xc87c; 0xd9f5;
   0x3183; 0x200a; 0x1291; 0x0318; 0x77a7; 0x662e; 0x54b5; 0x453c;
   0xbdcb; 0xac42; 0x9ed9; 0x8f50; 0xfbef; 0xea66; 0xd8fd; 0xc974;
   0x4204; 0x538d; 0x6116; 0x709f; 0x0420; 0x15a9; 0x2732; 0x36bb;
   0xce4c; 0xdfc5; 0xed5e; 0xfcd7; 0x8868; 0x99e1; 0xab7a; 0xbaf3;
   0x5285; 0x430c; 0x7197; 0x601e; 0x14a1; 0x0528; 0x37b3; 0x263a;
   0xdecd; 0xcf44; 0xfddf; 0xec56; 0x98e9; 0x8960; 0xbbfb; 0xaa72;
   0x6306; 0x728f; 0x4014; 0x519d; 0x2522; 0x34ab; 0x0630; 0x17b9;
   0xef4e; 0xfec7; 0xcc5c; 0xddd5; 0xa96a; 0xb8e3; 0x8a78; 0x9bf1;
   0x7387; 0x620e; 0x5095; 0x411c; 0x35a3; 0x242a; 0x16b1; 0x0738;
   0xffcf; 0xee46; 0xdcdd; 0xcd54; 0xb9eb; 0xa862; 0x9af9; 0x8b70;
   0x8408; 0x9581; 0xa71a; 0xb693; 0xc22c; 0xd3a5; 0xe13e; 0xf0b7;
   0x0840; 0x19c9; 0x2b52; 0x3adb; 0x4e64; 0x5fed; 0x6d76; 0x7cff;
   0x9489; 0x8500; 0xb79b; 0xa612; 0xd2ad; 0xc324; 0xf1bf; 0xe036;
   0x18c1; 0x0948; 0x3bd3; 0x2a5a; 0x5ee5; 0x4f6c; 0x7df7; 0x6c7e;
   0xa50a; 0xb483; 0x8618; 0x9791; 0xe32e; 0xf2a7; 0xc03c; 0xd1b5;
   0x2942; 0x38cb; 0x0a50; 0x1bd9; 0x6f66; 0x7eef; 0x4c74; 0x5dfd;
   0xb58b; 0xa402; 0x9699; 0x8710; 0xf3af; 0xe226; 0xd0bd; 0xc134;
   0x39c3; 0x284a; 0x1ad1; 0x0b58; 0x7fe7; 0x6e6e; 0x5cf5; 0x4d7c;
   0xc60c; 0xd785; 0xe51e; 0xf497; 0x8028; 0x91a1; 0xa33a; 0xb2b3;
   0x4a44; 0x5bcd; 0x6956; 0x78df; 0x0c60; 0x1de9; 0x2f72; 0x3efb;
   0xd68d; 0xc704; 0xf59f; 0xe416; 0x90a9; 0x8120; 0xb3bb; 0xa232;
   0x5ac5; 0x4b4c; 0x79d7; 0x685e; 0x1ce1; 0x0d68; 0x3ff3; 0x2e7a;
   0xe70e; 0xf687; 0xc41c; 0xd595; 0xa12a; 0xb0a3; 0x8238; 0x93b1;
   0x6b46; 0x7acf; 0x4854; 0x59dd; 0x2d62; 0x3ceb; 0x0e70; 0x1ff9;
   0xf78f; 0xe606; 0xd49d; 0xc514; 0xb1ab; 0xa022; 0x92b9; 0x8330;
   0x7bc7; 0x6a4e; 0x58d5; 0x495c; 0x3de3; 0x2c6a; 0x1ef1; 0x0f78].

Definition bacnet_crc16 (crc : Z) (buf : list Z) : Z :=
  fold_left (fun crc c => Z.lxor (Z.shiftr crc 8) (rd bacnet_crc16_lut (Z.lxor (Z.land crc 0xff) c))) buf crc.

(** ** Reference: division by the generator, one bit at a time *)

(** Least significant bit first, with the generator's bits reversed. *)
Definition crc_shift (poly x : Z) : Z :=
  if Z.odd x then Z.lxor (Z.shiftr x 1) poly else Z.shiftr x 1.

Fixpoint crc_shifts (n : nat) (poly x : Z) : Z :=
  match n with O => x | S n => crc_shifts n poly (crc_shift poly x) end.

Definition crc_byte (poly crc c : Z) : Z := crc_shifts 8 poly (Z.lxor crc c).
Definition crc_ref (poly crc : Z) (data : list Z) : Z := fold_left (crc_byte poly) data crc.

(** Most significant bit first, in 16 bits. *)
Definition msb_shift (poly x : Z) : Z :=
  if Z.testbit x 15 then Z.lxor (u16 (Z.shiftl x 1)) poly else u16 (Z.shiftl x 1).

Fixpoint msb_shifts (n : nat) (poly x : Z) : Z :=
  match n with O => x | S n => msb_shifts n poly (msb_shift poly x) end.

Definition msb_byte (poly crc c : Z) : Z := msb_shifts 8 poly (Z.lxor crc (Z.shiftl c 8)).
Definition msb_ref (poly crc : Z) (data : list Z) : Z := fold_left (msb_byte poly) data crc.

Definition byte (c : Z) : Prop := 0 <= c < 256.

(** ** Words *)

Lemma below_bits n z : 0 <= n -> 0 <= z -> (forall i, n <= i -> Z.testbit z i = false) -> z < 2 ^ n.
Proof.
  intros Hn Hz H. assert (z = z mod 2 ^ n) as ->; [|apply Z.mod_pos_bound; lia].
  apply Z.bits_inj'. intros i Hi. destruct (Z.ltb_spec i n).
  - by rewrite Z.mod_pow2_bits_low.
  - rewrite Z.mod_pow2_bits_high by lia. by apply H.
Qed.

Lemma bits_above n z i : 0 <= z < 2 ^ n -> 0 <= n <= i -> Z.testbit z i = false.
Proof.
  intros Hz Hi. rewrite <- (Z.mod_small z (2 ^ n)) by done. apply Z.mod_pow2_bits_high. lia.
Qed.

Lemma lxor_range n a b : 0 <= n -> 0 <= a < 2 ^ n -> 0 <= b < 2 ^ n -> 0 <= Z.lxor a b < 2 ^ n.
Proof.
  intros Hn Ha Hb. assert (H0 : 0 <= Z.lxor a b) by (apply Z.lxor_nonneg; lia). split; [done|].
  apply below_bits; [done|done|]. intros i Hi.
  by rewrite Z.lxor_spec, (bits_above n a), (bits_above n b).
Qed.

Lemma land_ones_range n a : 0 <= n -> 0 <= Z.land a (Z.ones n) < 2 ^ n.
Proof. intros Hn. rewrite Z.land_ones by done. apply Z.mod_pos_bound. lia. Qed.

Lemma shiftr_byte c : byte c -> Z.shiftr c 8 = 0.
Proof. intros H. rewrite Z.shiftr_div_pow2 by lia. by apply Z.div_small. Qed.

(** A statement about all words of [n] bits, by evaluation on the tree of their
    prefixes. *)
Fixpoint all_words (n : nat) (p : Z -> bool) (x : Z) : bool :=
  match n with O => p x | S n => all_words n p (2 * x) && all_words n p (2 * x + 1) end.

Lemma all_words_spec n p : forall x i,
  all_words n p x = true -> 2 ^ Z.of_nat n * x <= i < 2 ^ Z.of_nat n * (x + 1) -> p i = true.
Proof.
  induction n as [|n IH]; intros x i H Hi.
  - simpl in H. change (2 ^ Z.of_nat 0) with 1 in Hi. assert (i = x) as -> by lia. done.
  - cbn [all_words] in H. apply andb_prop in H as [H1 H2]. rewrite Nat2Z.inj_succ, Z.pow_succ_r in Hi by lia.
    destruct (Z.ltb_spec i (2 ^ Z.of_nat n * (2 * x + 1))); [apply (IH _ _ H1)|apply (IH _ _ H2)]; lia.
Qed.

Lemma eq_words f g n i :
  all_words n (fun i => f i =? g i) 0 = true -> 0 <= i < 2 ^ Z.of_nat n -> f i = g i.
Proof. intros H Hi. apply Z.eqb_eq, (all_words_spec n (fun i => f i =? g i) 0); [done|lia]. Qed.

(** Two loops agree when their bodies do on the values the loop reaches. *)
Lemma fold_agree (P : Z -> Prop) (f g : Z -> Z -> Z) data : forall c,
  (forall c b, P c -> byte b -> f c b = g c b /\ P (g c b)) ->
  P c -> Forall byte data -> fold_left f data c = fold_left g data c /\ P (fold_left g data c).
Proof.
  intros c H. revert c. induction data as [|b data IH]; intros c Hc Hd; [done|].
  inversion Hd; subst. simpl. destruct (H c b) as [-> HP]; [done..|]. by apply IH.
Qed.

(** ** Linearity *)

Lemma odd_lxor a b : Z.odd (Z.lxor a b) = xorb (Z.odd a) (Z.odd b).
Proof. by rewrite <- !Z.bit0_odd, Z.lxor_spec. Qed.

Lemma crc_shift_lxor poly a b :
  crc_shift poly (Z.lxor a b) = Z.lxor (crc_shift poly a) (crc_shift poly b).
Proof.
  unfold crc_shift. rewrite odd_lxor, Z.shiftr_lxor.
  destruct (Z.odd a), (Z.odd b); simpl; apply Z.bits_inj'; intros i Hi; rewrite !Z.lxor_spec;
    by destruct (Z.testbit (Z.shiftr a 1) i), (Z.testbit (Z.shiftr b 1) i), (Z.testbit poly i).
Qed.

Lemma crc_shifts_lxor n poly : forall a b,
  crc_shifts n poly (Z.lxor a b) = Z.lxor (crc_shifts n poly a) (crc_shifts n poly b).
Proof. induction n as [|n IH]; intros a b; [done|]. simpl. by rewrite crc_shift_lxor, IH. Qed.

Lemma crc_shifts_high n poly : forall y, crc_shifts n poly (Z.shiftl y (Z.of_nat n)) = y.
Proof.
  induction n as [|n IH]; intros y; [apply Z.shiftl_0_r|].
  cbn [crc_shifts]. replace (crc_shift poly (Z.shiftl y (Z.of_nat (S n)))) with (Z.shiftl y (Z.of_nat n)); [apply IH|].
  unfold crc_shift. rewrite <- Z.bit0_odd, Z.shiftl_spec_low by lia.
  rewrite Z.shiftr_shiftl_l by lia. f_equal. lia.
Qed.

Lemma split_byte x : x = Z.lxor (Z.land x 255) (Z.shiftl (Z.shiftr x 8) 8).
Proof.
  apply Z.bits_inj'. intros i Hi. change 255 with (Z.ones 8).
  rewrite Z.lxor_spec, Z.land_spec, Z.shiftl_spec by lia. rewrite Z.testbit_ones_nonneg by lia.
  destruct (Z.ltb_spec i 8).
  - rewrite (Z.testbit_neg_r _ (i - 8)) by lia. by destruct (Z.testbit x i).
  - rewrite Z.shiftr_spec by lia. replace (i - 8 + 8) with i by lia. by destruct (Z.testbit x i).
Qed.

(** Eight steps move the high part down and act on the low byte alone. *)
Lemma crc_shifts_byte poly x :
  crc_shifts 8 poly x = Z.lxor (crc_shifts 8 poly (Z.land x 255)) (Z.shiftr x 8).
Proof.
  rewrite (split_byte x) at 1. rewrite crc_shifts_lxor. f_equal.
  apply (crc_shifts_high 8 poly (Z.shiftr x 8)).
Qed.

Lemma crc_shift_range w poly x :
  0 < w -> 0 <= poly < 2 ^ w -> 0 <= x < 2 ^ w -> 0 <= crc_shift poly x < 2 ^ w.
Proof.
  intros Hw Hp Hx. assert (Hs : 0 <= Z.shiftr x 1 < 2 ^ w).
  { rewrite Z.shiftr_div_pow2 by lia. change (2 ^ 1) with 2. Z.div_mod_to_equations; lia. }
  unfold crc_shift. destruct (Z.odd x); [apply lxor_range; lia|done].
Qed.

Lemma crc_byte_range w poly crc c :
  8 <= w -> 0 <= poly < 2 ^ w -> 0 <= crc < 2 ^ w -> byte c -> 0 <= crc_byte poly crc c < 2 ^ w.
Proof.
  intros Hw Hp Hc Hb. unfold crc_byte, byte in *.
  assert (Hx : 0 <= Z.lxor crc c < 2 ^ w).
  { apply lxor_range; [lia|done|]. pose proof (Z.pow_le_mono_r 2 8 w). lia. }
  revert Hx. generalize (Z.lxor crc c) as x. generalize 8%nat as n. induction n as [|n IH]; intros x Hx; [done|].
  cbn [crc_shifts]. apply IH. by apply crc_shift_range; [lia|..].
Qed.

(** ** The bodies of the loops *)

Definition below (n crc : Z) : Prop := 0 <= crc < n.

(** A table of 256 entries whose entry [i] is eight steps from [i]. *)
Definition table_of (poly : Z) (lut : list Z) : Prop :=
  forall i, byte i -> rd lut i = crc_shifts 8 poly i.

(** Two tables of 16 entries in one, high nibble first. *)
Definition nibbles_of (poly : Z) (lut : list Z) : Prop :=
  forall i, byte i -> Z.lxor (rd lut (Z.land i 15 + 16)) (rd lut (Z.shiftr i 4)) = crc_shifts 8 poly i.

Lemma table_check poly lut :
  all_words 8 (fun i => rd lut i =? crc_shifts 8 poly i) 0 = true -> table_of poly lut.
Proof. intros H i Hi. exact (eq_words (rd lut) (crc_shifts 8 poly) 8 i H Hi). Qed.

Lemma nibbles_check poly lut :
  all_words 8 (fun i => Z.lxor (rd lut (Z.land i 15 + 16)) (rd lut (Z.shiftr i 4)) =? crc_shifts 8 poly i) 0
    = true -> nibbles_of poly lut.
Proof. intros H i Hi. exact (eq_words _ (crc_shifts 8 poly) 8 i H Hi). Qed.

(** The update every wide table variant performs. *)
Lemma crc_byte_table poly lut crc c :
  table_of poly lut -> byte c ->
  crc_byte poly crc c = Z.lxor (rd lut (Z.land (Z.lxor crc c) 255)) (Z.shiftr crc 8).
Proof.
  intros T Hc. unfold crc_byte. rewrite crc_shifts_byte, Z.shiftr_lxor, (shiftr_byte c Hc), Z.lxor_0_r.
  rewrite T; [done|]. unfold byte. change 255 with (Z.ones 8). by apply land_ones_range.
Qed.

Lemma lxor_byte crc c : below 256 crc -> byte c -> byte (Z.lxor crc c).
Proof. intros H1 H2. by apply (lxor_range 8). Qed.

Lemma land_byte x : byte x -> Z.land x 255 = x.
Proof. intros H. change 255 with (Z.ones 8). rewrite Z.land_ones by lia. by apply Z.mod_small. Qed.

Lemma shiftr4_nibble x : Z.land (Z.shiftr x 4) 15 = Z.shiftr (Z.land x 255) 4.
Proof.
  apply Z.bits_inj'. intros i Hi. change 15 with (Z.ones 4). change 255 with (Z.ones 8).
  rewrite Z.land_spec, !Z.shiftr_spec, Z.land_spec by lia. rewrite !Z.testbit_ones_nonneg by lia.
  f_equal. destruct (Z.ltb_spec i 4), (Z.ltb_spec (i + 4) 8); lia || done.
Qed.

Lemma land_nibble x : Z.land (Z.land x 255) 15 = Z.land x 15.
Proof. by rewrite <- Z.land_assoc. Qed.

Lemma lxor_rot a b c : Z.lxor (Z.lxor a b) c = Z.lxor (Z.lxor c b) a.
Proof. by rewrite (Z.lxor_comm c b), Z.lxor_assoc, Z.lxor_comm. Qed.

(** The bytes of a word in the other order, and the rest of the bitwise
    updates. *)
Definition swap16 (x : Z) : Z := Z.lor (Z.shiftr x 8) (Z.shiftl (Z.land x 0xff) 8).

Definition bwe16_mix (crc : Z) : Z :=
  let crc := Z.lxor crc (Z.land (Z.shiftl crc 4) 0xf000) in
  let crc := Z.lxor crc (Z.land (Z.shiftr crc 12) 0x000f) in
  Z.lxor crc (Z.land (Z.shiftr crc 5) 0x07f8).

Definition crc5_mix (crc : Z) : Z :=
  let a := Z.lxor (Z.shiftl crc 2) (Z.shiftl crc 3) in
  let crc := Z.lxor crc (Z.lxor (Z.lxor (Z.shiftr crc 3) a) (Z.shiftl a 4)) in
  Z.lor (Z.land crc 0x18) (Z.land (Z.shiftr crc 5) 0x07).

Definition ccitt_mix (crc : Z) : Z :=
  let crc := Z.lxor crc (Z.shiftr (Z.land crc 0xff) 4) in
  let crc := Z.lxor crc (Z.shiftl (Z.land crc 0x0f) 12) in
  Z.lxor crc (Z.shiftl (Z.land crc 0xff) 5).

(** Maps that commute with [Z.lxor] agree on words once they agree on the low
    and on the high bytes. *)
Definition linear (f : Z -> Z) : Prop := forall a b, f (Z.lxor a b) = Z.lxor (f a) (f b).

Lemma linear_id : linear (fun x => x).
Proof. done. Qed.
Lemma linear_comp f g : linear f -> linear g -> linear (fun x => f (g x)).
Proof. intros Hf Hg a b. by rewrite Hg, Hf. Qed.
Lemma linear_lxor f g : linear f -> linear g -> linear (fun x => Z.lxor (f x) (g x)).
Proof.
  intros Hf Hg a b. rewrite Hf, Hg. apply Z.bits_inj'. intros i _. rewrite !Z.lxor_spec.
  by destruct (Z.testbit (f a) i), (Z.testbit (f b) i), (Z.testbit (g a) i), (Z.testbit (g b) i).
Qed.
Lemma linear_land f k : linear f -> linear (fun x => Z.land (f x) k).
Proof.
  intros Hf a b. rewrite Hf. apply Z.bits_inj'. intros i _. rewrite !Z.lxor_spec, !Z.land_spec, Z.lxor_spec.
  by destruct (Z.testbit (f a) i), (Z.testbit (f b) i), (Z.testbit k i).
Qed.
Lemma linear_shiftl f k : linear f -> linear (fun x => Z.shiftl (f x) k).
Proof. intros Hf a b. by rewrite Hf, Z.shiftl_lxor. Qed.
Lemma linear_shiftr f k : linear f -> linear (fun x => Z.shiftr (f x) k).
Proof. intros Hf a b. by rewrite Hf, Z.shiftr_lxor. Qed.

Ltac linear :=
  repeat first [ apply linear_id | apply linear_lxor | apply linear_land | apply linear_shiftl | apply linear_shiftr ].

Lemma linear_word f g x :
  linear f -> linear g ->
  all_words 8 (fun i => (f i =? g i) && (f (Z.shiftl i 8) =? g (Z.shiftl i 8))) 0 = true ->
  below 65536 x -> f x = g x.
Proof.
  intros Hf Hg H Hx. rewrite (split_byte x), Hf, Hg.
  assert (B : forall i, byte i -> f i = g i /\ f (Z.shiftl i 8) = g (Z.shiftl i 8)).
  { intros i Hi. unfold byte in Hi. pose proof (all_words_spec 8 _ 0 i H ltac:(simpl; lia)) as E.
    apply andb_prop in E as [E1 E2]. by apply Z.eqb_eq in E1, E2. }
  f_equal; apply B; unfold byte, below in *.
  - change 255 with (Z.ones 8). by apply (land_ones_range 8).
  - rewrite Z.shiftr_div_pow2 by lia. change (2 ^ 8) with 256. Z.div_mod_to_equations; lia.
Qed.

(** [swap16] without the [Z.lor]. *)
Definition swap_lxor (x : Z) : Z := Z.lxor (Z.shiftr x 8) (Z.shiftl (Z.land x 0xff) 8).

Lemma swap16_lxor x : below 65536 x -> swap16 x = swap_lxor x.
Proof.
  intros Hx. unfold swap16, swap_lxor. symmetry. apply Z.lxor_lor. apply Z.bits_inj'. intros i Hi.
  rewrite Z.land_spec, Z.testbit_0_l. destruct (Z.ltb_spec i 8).
  - by rewrite Z.shiftl_spec_low, andb_false_r by lia.
  - rewrite (bits_above 8 (Z.shiftr x 8)); [done| |lia]. unfold below in Hx.
    rewrite Z.shiftr_div_pow2 by lia. change (2 ^ 8) with 256. Z.div_mod_to_equations; lia.
Qed.

Lemma swap_lxor_linear : linear swap_lxor.
Proof. unfold swap_lxor. linear. Qed.

Lemma bwe16_linear : linear bwe16_mix.
Proof.
  unfold bwe16_mix. cbv zeta.
  apply (linear_comp (fun c => Z.lxor c (Z.land (Z.shiftr c 5) 0x07f8))
    (fun c => Z.lxor (Z.lxor c (Z.land (Z.shiftl c 4) 0xf000))
       (Z.land (Z.shiftr (Z.lxor c (Z.land (Z.shiftl c 4) 0xf000)) 12) 0x000f))); linear.
Qed.

Lemma ccitt_linear : linear ccitt_mix.
Proof.
  unfold ccitt_mix. cbv zeta.
  apply (linear_comp (fun c => Z.lxor c (Z.shiftl (Z.land c 0xff) 5))
    (fun c => Z.lxor (Z.lxor c (Z.shiftr (Z.land c 0xff) 4))
       (Z.shiftl (Z.land (Z.lxor c (Z.shiftr (Z.land c 0xff) 4)) 0x0f) 12))); linear.
Qed.

(** Swapping the bytes commutes with adding to one of them. *)
Lemma swap_high crc c :
  below 65536 crc -> byte c ->
  Z.lxor (swap16 crc) c = swap16 (Z.lxor crc (Z.shiftl c 8)).
Proof.
  unfold swap16. intros Hcrc Hc. rewrite Z.shiftr_lxor, Z.shiftr_shiftl_l, Z.shiftl_0_r by lia.
  assert (E : Z.land (Z.lxor crc (Z.shiftl c 8)) 255 = Z.land crc 255).
  { apply Z.bits_inj'. intros i Hi. change 255 with (Z.ones 8).
    rewrite !Z.land_spec, Z.lxor_spec, Z.shiftl_spec, Z.testbit_ones_nonneg by lia.
    destruct (Z.ltb_spec i 8); [|by rewrite !andb_false_r].
    by rewrite (Z.testbit_neg_r c), xorb_false_r by lia. }
  rewrite E. apply Z.bits_inj'. intros i Hi. rewrite !Z.lxor_spec, !Z.lor_spec, Z.lxor_spec.
  destruct (Z.ltb_spec i 8).
  - rewrite Z.shiftl_spec_low by lia. by rewrite !orb_false_r.
  - rewrite (bits_above 8 c) by (unfold byte in Hc; lia). by rewrite !xorb_false_r.
Qed.

Lemma swap_low crc c :
  below 65536 crc -> byte c ->
  Z.lxor (swap16 crc) (Z.shiftl c 8) = swap16 (Z.lxor crc c).
Proof.
  unfold swap16. intros Hcrc Hc. rewrite Z.shiftr_lxor, (shiftr_byte c Hc), Z.lxor_0_r.
  assert (Hh : 0 <= Z.shiftr crc 8 < 2 ^ 8).
  { unfold below in Hcrc. rewrite Z.shiftr_div_pow2 by lia. change (2 ^ 8) with 256. Z.div_mod_to_equations; lia. }
  apply Z.bits_inj'. intros i Hi. rewrite !Z.lxor_spec, !Z.lor_spec, !Z.shiftl_spec by lia.
  destruct (Z.ltb_spec i 8).
  - rewrite !(Z.testbit_neg_r _ (i - 8)) by lia. by rewrite xorb_false_r.
  - rewrite (bits_above 8 (Z.shiftr crc 8)) by lia. simpl. change 255 with (Z.ones 8).
    rewrite !Z.land_spec, Z.lxor_spec, Z.testbit_ones_nonneg by lia.
    destruct (Z.ltb_spec (i - 8) 8); [by rewrite !andb_true_r|].
    rewrite (bits_above 8 c) by (unfold byte in Hc; lia). by rewrite !andb_false_r.
Qed.

(** ** Equivalence *)

Lemma agree w poly (f : Z -> Z -> Z) crc data :
  8 <= w -> 0 <= poly < 2 ^ w -> (forall c b, below (2 ^ w) c -> byte b -> f c b = crc_byte poly c b) ->
  below (2 ^ w) crc -> Forall byte data -> fold_left f data crc = crc_ref poly crc data.
Proof.
  intros Hw Hp H Hc Hd. apply (fold_agree (below (2 ^ w)) f (crc_byte poly)); [|done|done].
  intros c b Hc' Hb. split; [by apply H|]. by apply crc_byte_range.
Qed.

(** A body that reads a byte wide register through [Z.lxor]. *)
Lemma agree_byte poly f crc data :
  byte poly -> all_words 8 (fun x => f x =? crc_shifts 8 poly x) 0 = true -> byte crc -> Forall byte data ->
  fold_left (fun crc c => f (Z.lxor crc c)) data crc = crc_ref poly crc data.
Proof.
  intros Hp H Hc Hd. apply (agree 8); [lia|exact Hp| |exact Hc|done]. intros c b Hc' Hb.
  apply (eq_words f (crc_shifts 8 poly) 8 _ H). by apply lxor_byte.
Qed.

Lemma ref_byte poly crc data : byte poly -> byte crc -> Forall byte data -> byte (crc_ref poly crc data).
Proof.
  intros Hp Hc Hd. apply (fold_agree byte (crc_byte poly) (crc_byte poly)); [|done|done].
  intros c b Hc' Hb. split; [done|]. by apply (crc_byte_range 8); [lia|..].
Qed.

(** The variants of crc8 (bitwise expression, nibble table, byte table)
    compute the remainder by x^8 + x^2 + x + 1 and the four of crc5 the one by
    x^5 + x^2 + 1, and BACnet's header check the one by x^8 + x^7 + 1. *)
Theorem crc8_crc5_equiv data :
  Forall byte data ->
  let r8 := Z.lxor (crc_ref 0xe0 0xff data) 0xff in
  let r5 := Z.lxor (crc_ref 0x14 0x1f data) 0x1f in
  (crc8bwe data = r8 /\ crc8tbl4 data = r8 /\ crc8tbl8 data = r8) /\
  (crc5 data = r5 /\ crc5bwe data = r5 /\ crc5tbl4 data = r5 /\ crc5tbl8 data = r5) /\
  bacnet_crc8 0xff data = crc_ref 0x81 0xff data.
Proof.
  intros Hd. cbv zeta.
  assert (A8 : forall f, all_words 8 (fun x => f x =? crc_shifts 8 0xe0 x) 0 = true ->
    fold_left (fun crc c => f (Z.lxor crc c)) data 0xff = crc_ref 0xe0 0xff data)
    by (intros f H; apply agree_byte; unfold byte; done || lia).
  assert (A5 : forall f, all_words 8 (fun x => f x =? crc_shifts 8 0x14 x) 0 = true ->
    fold_left (fun crc c => f (Z.lxor crc c)) data 0x1f = crc_ref 0x14 0x1f data)
    by (intros f H; apply agree_byte; unfold byte; done || lia).
  assert (R5 : u8 (Z.lxor (crc_ref 0x14 0x1f data) 0x1f) = Z.lxor (crc_ref 0x14 0x1f data) 0x1f).
  { apply u8_small, (lxor_range 8); [lia| |lia]. apply ref_byte; unfold byte; done || lia. }
  split_and!.
  - unfold crc8bwe. f_equal. apply A8. vm_compute. reflexivity.
  - apply (f_equal (fun z => Z.lxor z 0xff)), (A8 (fun idx => Z.lxor (rd crc8_tbl4_lut (Z.land idx 0x0f + 16))
      (rd crc8_tbl4_lut (Z.shiftr idx 4)))). vm_compute. reflexivity.
  - apply (f_equal (fun z => Z.lxor z 0xff)), (A8 (rd crc8_table)). vm_compute. reflexivity.
  - apply (f_equal (fun z => Z.lxor z 0x1f)), (A5 crc5_mix). vm_compute. reflexivity.
  - apply (f_equal (fun z => Z.lxor z 0x1f)), (A5 crc5_mix). vm_compute. reflexivity.
  - rewrite <- R5. apply (f_equal (fun z => u8 (Z.lxor z 0x1f))), (A5 (fun idx => Z.lxor (rd crc5_tbl4_lut
      (Z.land idx 0x0f + 16)) (rd crc5_tbl4_lut (Z.shiftr idx 4)))). vm_compute. reflexivity.
  - rewrite <- R5. apply (f_equal (fun z => u8 (Z.lxor z 0x1f))), (A5 (rd crc5lut)). vm_compute. reflexivity.
  - apply (agree_byte 0x81 (rd bacnet_crc8_lut)); [unfold byte; lia|vm_compute; reflexivity|unfold byte; lia|done].
Qed.

(** crc32 with its table is the remainder by the IEEE 802.3 polynomial,
    continued from the value the caller passes. *)
Theorem crc32_equiv crc data :
  0 <= crc < 4294967296 -> Forall byte data ->
  crc32 crc data = Z.lxor (crc_ref 0xedb88320 crc data) 0xffffffff.
Proof.
  intros Hc Hd. assert (T : table_of 0xedb88320 _crc32_) by (apply table_check; vm_compute; reflexivity).
  unfold crc32. f_equal. apply (agree 32); [lia|lia| |done|done].
  intros c b _ Hb. symmetry. by apply crc_byte_table.
Qed.

(** ** CCITT, most significant bit first *)

Lemma msb_shift_linear poly : linear (msb_shift poly).
Proof.
  intros a b. unfold msb_shift. rewrite Z.lxor_spec, Z.shiftl_lxor.
  assert (E : forall x y, u16 (Z.lxor x y) = Z.lxor (u16 x) (u16 y)).
  { intros x y. unfold u16. change 65536 with (2 ^ 16). rewrite <- !Z.land_ones by lia.
    apply (linear_land (fun x => x) (Z.ones 16) linear_id). }
  rewrite E. generalize (u16 (Z.shiftl a 1)) (u16 (Z.shiftl b 1)). intros x y.
  destruct (Z.testbit a 15), (Z.testbit b 15); simpl; apply Z.bits_inj'; intros i Hi; rewrite !Z.lxor_spec;
    by destruct (Z.testbit x i), (Z.testbit y i), (Z.testbit poly i).
Qed.

Lemma msb_shifts_linear n poly : linear (msb_shifts n poly).
Proof.
  induction n as [|n IH]; [apply linear_id|]. cbn [msb_shifts].
  apply (linear_comp (msb_shifts n poly) (msb_shift poly)); [exact IH|apply msb_shift_linear].
Qed.

Lemma msb_mix x : below 65536 x -> ccitt_mix (swap16 x) = msb_shifts 8 0x1021 x.
Proof.
  intros Hx. rewrite swap16_lxor by done.
  apply (linear_word (fun x => ccitt_mix (swap_lxor x)) (msb_shifts 8 0x1021));
    [|apply msb_shifts_linear|vm_compute; reflexivity|done].
  apply linear_comp; [apply ccitt_linear|apply swap_lxor_linear].
Qed.

Lemma ccitt_word crc c : below 65536 crc -> byte c -> below 65536 (Z.lxor crc (Z.shiftl c 8)).
Proof.
  unfold below, byte. intros Hcrc Hc. apply (lxor_range 16); [lia|done|].
  rewrite Z.shiftl_mul_pow2 by lia. change (2 ^ 8) with 256. change (2 ^ 16) with 65536. lia.
Qed.

Lemma ccitt_step crc c : below 65536 crc -> byte c -> __crc16ccitt crc c = msb_byte 0x1021 crc c.
Proof.
  intros Hcrc Hc. change (__crc16ccitt crc c) with (ccitt_mix (Z.lxor (swap16 crc) c)).
  rewrite swap_high by done. apply msb_mix. by apply ccitt_word.
Qed.

Lemma msb_shift_range x : below 65536 x -> below 65536 (msb_shift 0x1021 x).
Proof.
  intros Hx. unfold msb_shift, below. pose proof (Z.mod_pos_bound (Z.shiftl x 1) 65536 ltac:(lia)).
  destruct (Z.testbit x 15); [apply (lxor_range 16); [lia|done|lia]|done].
Qed.

Lemma msb_range n : forall x, below 65536 x -> below 65536 (msb_shifts n 0x1021 x).
Proof.
  induction n as [|n IH]; intros x Hx; [done|]. apply IH. by apply msb_shift_range.
Qed.

(** Undoing a step. *)
Definition msb_back (x : Z) : Z :=
  if Z.odd x then Z.shiftr (Z.lxor x 0x1021) 1 + 0x8000 else Z.shiftr x 1.

Lemma testbit_15 x : below 65536 x -> Z.testbit x 15 = (32768 <=? x).
Proof.
  intros Hx. unfold below in Hx. rewrite Z.testbit_eqb by lia. change (2 ^ 15) with 32768.
  destruct (Z.leb_spec 32768 x).
  - assert (x / 32768 = 1) as -> by (Z.div_mod_to_equations; lia). done.
  - by rewrite Z.div_small by lia.
Qed.

Lemma msb_back_shift x : below 65536 x -> msb_back (msb_shift 0x1021 x) = x.
Proof.
  intros Hx. unfold msb_shift. rewrite testbit_15, Z.shiftl_mul_pow2 by (done || lia). change (2 ^ 1) with 2.
  unfold below in Hx. unfold msb_back, u16.
  assert (Ho : Z.odd ((x * 2) mod 65536) = false).
  { rewrite <- Z.bit0_odd, Z.testbit_eqb by lia. apply Z.eqb_neq. Z.div_mod_to_equations; lia. }
  destruct (Z.leb_spec 32768 x).
  - rewrite odd_lxor, Ho. change (xorb false (Z.odd 0x1021)) with true. cbv iota.
    rewrite Z.lxor_assoc, Z.lxor_nilpotent, Z.lxor_0_r, Z.shiftr_div_pow2 by lia. change (2 ^ 1) with 2.
    Z.div_mod_to_equations; lia.
  - rewrite Ho, Z.shiftr_div_pow2 by lia. change (2 ^ 1) with 2. Z.div_mod_to_equations; lia.
Qed.

Lemma msb_shifts_inj n : forall x y,
  below 65536 x -> below 65536 y -> msb_shifts n 0x1021 x = msb_shifts n 0x1021 y -> x = y.
Proof.
  induction n as [|n IH]; intros x y Hx Hy E; [done|]. cbn [msb_shifts] in E.
  apply IH in E; [|by apply msb_shift_range|by apply msb_shift_range].
  by rewrite <- (msb_back_shift x), <- (msb_back_shift y), E.
Qed.

Lemma ccitt_range crc c : below 65536 crc -> byte c -> below 65536 (__crc16ccitt crc c).
Proof. intros Hcrc Hc. rewrite ccitt_step by done. by apply msb_range, ccitt_word. Qed.

Lemma ccitt_fold_range data : forall crc,
  below 65536 crc -> Forall byte data -> below 65536 (crc16ccitt crc data).
Proof.
  induction data as [|c data IH]; intros crc Hcrc Hd; [done|]. inversion Hd; subst.
  apply IH; [by apply ccitt_range|done].
Qed.

(** The register can be recovered from the result and the message. *)
Lemma ccitt_inj crc crc' c c' :
  below 65536 crc -> below 65536 crc' -> byte c -> byte c' ->
  __crc16ccitt crc c = __crc16ccitt crc' c' -> Z.lxor crc (Z.shiftl c 8) = Z.lxor crc' (Z.shiftl c' 8).
Proof.
  intros H1 H2 H3 H4 E. rewrite !ccitt_step in E by done. unfold msb_byte in E.
  by apply msb_shifts_inj in E; [|apply ccitt_word..].
Qed.

Lemma ccitt_fold_inj data : forall crc crc',
  below 65536 crc -> below 65536 crc' -> Forall byte data ->
  crc16ccitt crc data = crc16ccitt crc' data -> crc = crc'.
Proof.
  induction data as [|c data IH]; intros crc crc' H1 H2 Hd E; [done|]. inversion Hd; subst.
  apply IH in E; [|by apply ccitt_range|by apply ccitt_range|done].
  apply ccitt_inj in E; [|done..].
  apply (f_equal (fun z => Z.lxor z (Z.shiftl c 8))) in E.
  by rewrite !Z.lxor_assoc, Z.lxor_nilpotent, !Z.lxor_0_r in E.
Qed.

(** C27: the bitwise, the nibble table and the byte table variant of crc16, and
    the one of BACnet, compute the same function: the remainder of the message
    by x^16 + x^12 + x^5 + 1, least significant bit first; crc16ccitt computes
    the remainder by the same polynomial most significant bit first, from any
    initial value. *)
Theorem crc16_equiv data :
  Forall byte data ->
  let r := Z.lxor (crc_ref 0x8408 0xffff data) 0xffff in
  crc16bwe data = r /\ crc16tbl4 data = r /\ crc16tbl8 data = r /\
  Z.lxor (bacnet_crc16 0xffff data) 0xffff = r /\
  forall crc, 0 <= crc < 65536 -> crc16ccitt crc data = msb_ref 0x1021 crc data.
Proof.
  intros Hd. assert (T : table_of 0x8408 crc16lut) by (apply table_check; vm_compute; reflexivity).
  assert (N : nibbles_of 0x8408 crc16_tbl4_table) by (apply nibbles_check; vm_compute; reflexivity).
  assert (A : forall f, (forall c b, below 65536 c -> byte b -> f c b = crc_byte 0x8408 c b) ->
    fold_left f data 0xffff = crc_ref 0x8408 0xffff data)
    by (intros f H; apply (agree 16); [lia|lia|done|unfold below; lia|done]).
  cbv zeta. split_and!; [unfold crc16bwe; f_equal; apply A; intros crc c Hcrc Hc
    |unfold crc16tbl4; f_equal; apply A; intros crc c Hcrc Hc|unfold crc16tbl8; f_equal; apply A; intros crc c Hcrc Hc
    |unfold bacnet_crc16; f_equal; apply A; intros crc c Hcrc Hc|].
  - change (crc16bwe_step crc c) with (bwe16_mix (Z.lxor (swap16 crc) (Z.shiftl c 8))).
    assert (Hx : below 65536 (Z.lxor crc c)) by (unfold below, byte in *; apply (lxor_range 16); lia).
    rewrite swap_low, swap16_lxor by done.
    apply (linear_word (fun x => bwe16_mix (swap_lxor x)) (crc_shifts 8 0x8408)); [|intros a b; apply crc_shifts_lxor
      |vm_compute; reflexivity|done]. apply linear_comp; [apply bwe16_linear|apply swap_lxor_linear].
  - unfold crc16tbl4_step, crc_byte. cbv zeta. rewrite crc_shifts_byte, shiftr4_nibble.
    rewrite <- (N (Z.land (Z.lxor crc c) 255)) by (change 255 with (Z.ones 8); by apply (land_ones_range 8)).
    rewrite land_nibble. apply lxor_rot.
  - symmetry. by apply crc_byte_table.
  - rewrite Z.lxor_comm. rewrite (crc_byte_table _ _ _ _ T Hc). f_equal.
    change bacnet_crc16_lut with crc16lut. f_equal. rewrite <- (land_byte c Hc) at 1.
    apply Z.bits_inj'. intros i Hi. rewrite Z.lxor_spec, !Z.land_spec, Z.lxor_spec.
    by destruct (Z.testbit 255 i), (Z.testbit crc i), (Z.testbit c i).
  - intros crc Hcrc. apply (fold_agree (below 65536) __crc16ccitt (msb_byte 0x1021)); [|done|done].
    intros c b Hc Hb. split; [by apply ccitt_step|]. by apply msb_range, ccitt_word.
Qed.

Lemma low_byte_inj d :
  byte d -> (d =? 0) || negb (Z.land (msb_shifts 8 0x1021 (Z.shiftl d 8)) 255 =? 0) = true.
Proof.
  intros Hd. unfold byte in Hd.
  apply (all_words_spec 8 (fun d => (d =? 0) || negb (Z.land (msb_shifts 8 0x1021 (Z.shiftl d 8)) 255 =? 0)) 0);
    [vm_compute; reflexivity|simpl; lia].
Qed.

(** The low byte of an update tells which byte was fed to it. *)
Lemma ccitt_low crc c c' :
  below 65536 crc -> byte c -> byte c' ->
  Z.land (__crc16ccitt crc c) 255 = Z.land (__crc16ccitt crc c') 255 -> c = c'.
Proof.
  intros Hcrc Hc Hc' E. rewrite !ccitt_step in E by done. unfold msb_byte in E.
  rewrite !(msb_shifts_linear 8) in E.
  assert (L : forall x y, Z.land (Z.lxor x y) 255 = Z.lxor (Z.land x 255) (Z.land y 255))
    by (apply (linear_land (fun x => x) 255 linear_id)).
  rewrite !L in E. apply (f_equal (Z.lxor (Z.land (msb_shifts 8 0x1021 crc) 255))) in E.
  rewrite <- !Z.lxor_assoc, !Z.lxor_nilpotent, !Z.lxor_0_l in E.
  apply Z.lxor_eq_0_iff in E. rewrite <- L, <- (msb_shifts_linear 8), <- Z.shiftl_lxor in E.
  assert (Hd : byte (Z.lxor c c')) by (by apply lxor_byte). apply Z.lxor_eq_0_iff.
  pose proof (low_byte_inj (Z.lxor c c') Hd) as H. rewrite E in H. by rewrite orb_false_r, Z.eqb_eq in H.
Qed.

(** What is added to the high byte does not show in the low one. *)
Lemma land_high z c : Z.land (Z.lxor z (Z.shiftl c 8)) 255 = Z.land z 255.
Proof.
  apply Z.bits_inj'. intros i Hi. change 255 with (Z.ones 8).
  rewrite !Z.land_spec, Z.lxor_spec, Z.shiftl_spec, Z.testbit_ones_nonneg by lia.
  destruct (Z.ltb_spec i 8); [|by rewrite !andb_false_r]. by rewrite (Z.testbit_neg_r c), xorb_false_r by lia.
Qed.

Lemma ccitt_pair crc x1 y1 x2 y2 :
  below 65536 crc -> byte x1 -> byte y1 -> byte x2 -> byte y2 ->
  __crc16ccitt (__crc16ccitt crc x1) y1 = __crc16ccitt (__crc16ccitt crc x2) y2 -> x1 = x2 /\ y1 = y2.
Proof.
  intros Hcrc Hx1 Hy1 Hx2 Hy2 E.
  apply ccitt_inj in E; [|by apply ccitt_range|by apply ccitt_range|done|done].
  assert (Ex : x1 = x2).
  { apply (ccitt_low crc); [done..|]. rewrite <- (land_high _ y1), E. apply land_high. }
  subst x2. split; [done|]. revert E. generalize (__crc16ccitt crc x1). intros z E.
  apply (f_equal (Z.lxor z)) in E. rewrite <- !Z.lxor_assoc, Z.lxor_nilpotent, !Z.lxor_0_l in E.
  apply (f_equal (fun z => Z.shiftr z 8)) in E. by rewrite !Z.shiftr_shiftl_l, !Z.shiftl_0_r in E by lia.
Qed.

(** Messages of one or two bytes, for any update that tells them apart. *)
Lemma fold_short (f : Z -> Z -> Z) crc b1 b2 :
  (forall x y, byte x -> byte y -> f crc x = f crc y -> x = y) ->
  (forall x1 y1 x2 y2, byte x1 -> byte y1 -> byte x2 -> byte y2 -> f (f crc x1) y1 = f (f crc x2) y2 ->
     x1 = x2 /\ y1 = y2) ->
  Forall byte b1 -> Forall byte b2 -> length b1 = length b2 -> (length b1 <= 2)%nat ->
  fold_left f b1 crc = fold_left f b2 crc -> b1 = b2.
Proof.
  intros F1 F2 H1 H2 Hlen Hle E.
  destruct b1 as [|x1 [|y1 [|]]], b2 as [|x2 [|y2 [|]]]; cbn [length] in *; try lia; try done;
    rewrite ?Forall_cons, ?Forall_nil in *; cbn [fold_left] in E.
  - f_equal. apply F1; [apply H1|apply H2|done].
  - destruct H1 as (Hx1 & Hy1 & _), H2 as (Hx2 & Hy2 & _).
    by destruct (F2 x1 y1 x2 y2 Hx1 Hy1 Hx2 Hy2 E) as [-> ->].
Qed.

Lemma ccitt_single crc c c' :
  below 65536 crc -> byte c -> byte c' -> __crc16ccitt crc c = __crc16ccitt crc c' -> c = c'.
Proof. intros Hcrc Hc Hc' E. apply (ccitt_low crc); [done..|]. by rewrite E. Qed.

Lemma ccitt_short crc b1 b2 :
  below 65536 crc -> Forall byte b1 -> Forall byte b2 -> length b1 = length b2 -> (length b1 <= 2)%nat ->
  crc16ccitt crc b1 = crc16ccitt crc b2 -> b1 = b2.
Proof.
  intros Hcrc. exact (fold_short __crc16ccitt crc b1 b2 (fun x y => ccitt_single crc x y Hcrc)
    (fun x1 y1 x2 y2 => ccitt_pair crc x1 y1 x2 y2 Hcrc)).
Qed.

Lemma crc16ccitt_app crc a b : crc16ccitt crc (a ++ b) = crc16ccitt (crc16ccitt crc a) b.
Proof. apply fold_left_app. Qed.

(** C28: crc16ccitt detects every burst of errors of up to 16 bits that lies in
    two consecutive bytes: two messages that differ nowhere else have different
    checks. *)
Theorem crc16ccitt_detects_burst crc pre b1 b2 post :
  0 <= crc < 65536 -> Forall byte (pre ++ b1 ++ post) -> Forall byte b2 ->
  length b1 = length b2 -> (length b1 <= 2)%nat -> b1 <> b2 ->
  crc16ccitt crc (pre ++ b1 ++ post) <> crc16ccitt crc (pre ++ b2 ++ post).
Proof.
  intros Hcrc H1 H2 Hlen Hle Hne E. apply Forall_app in H1 as [Hp H1]. apply Forall_app in H1 as [H1 Hq].
  rewrite !crc16ccitt_app in E. assert (Hc : below 65536 (crc16ccitt crc pre)) by (by apply ccitt_fold_range).
  apply ccitt_fold_inj in E; [|by apply ccitt_fold_range|by apply ccitt_fold_range|done].
  by apply Hne, (ccitt_short (crc16ccitt crc pre)).
Qed.

(** ** Examples *)

(** "123456789" *)
Definition check_string : list Z := [49; 50; 51; 52; 53; 54; 55; 56; 57].

Lemma check_string_bytes : Forall byte check_string.
Proof. unfold check_string, byte. repeat (constructor; [lia|]). constructor. Qed.

Lemma crc16_equiv_witness :
  crc16tbl8 check_string = Z.lxor (crc_ref 0x8408 0xffff check_string) 0xffff /\ crc16tbl8 check_string = 0x906e.
Proof.
  destruct (crc16_equiv check_string check_string_bytes) as (_ & _ & H & _).
  split; [exact H|vm_compute; reflexivity].
Defined.

Lemma crc8_crc5_equiv_witness :
  crc8bwe check_string = crc8tbl8 check_string /\ crc5 check_string = crc5tbl8 check_string.
Proof.
  destruct (crc8_crc5_equiv check_string check_string_bytes) as ((H1 & _ & H2) & (H3 & _ & _ & H4) & _).
  split; [exact (eq_trans H1 (eq_sym H2))|exact (eq_trans H3 (eq_sym H4))].
Defined.

Lemma crc32_equiv_witness :
  crc32 0xffffffff check_string = Z.lxor (crc_ref 0xedb88320 0xffffffff check_string) 0xffffffff /\
  crc32 0xffffffff check_string = 0xcbf43926.
Proof.
  split; [|vm_compute; reflexivity]. apply crc32_equiv; [lia|apply check_string_bytes].
Defined.

Lemma crc16ccitt_detects_burst_witness :
  crc16ccitt 0 [1; 2; 3; 4] <> crc16ccitt 0 [1; 7; 9; 4].
Proof.
  apply (crc16ccitt_detects_burst 0 [1] [2; 3] [7; 9] [4]);
    [lia|repeat (constructor; [unfold byte; lia|]); constructor|repeat (constructor; [unfold byte; lia|]); constructor
    |reflexivity|simpl; lia|discriminate].
Defined.
