(* ===== verification/Xmodem.v ===== *)
(** * XMODEM file transfer

    src/sdk/libxmodem/xmodem_rcv.c and xmodem_snd.c.  The communication device
    (struct comm_dev of src/sdk/include/xmodem.h) is supplied by the caller: its
    two operations are functions on a state of their own.  A packet buffer is
    the list of its bytes, header, data and check in one piece as the C
    structure has them; pointers are valid.  The loops that wait for the other
    side have no bound in the code: [fuel] bounds each of them and [None] is
    returned when it runs out. *)

From stdpp Require Import base tactics numbers list.
From Stdlib Require Import ZArith Lia.
From S2P Require Import Prelude Buffer State Crc.

Abbreviation SOH := 1 (only parsing).
Abbreviation STX := 2 (only parsing).
Abbreviation EOT := 4 (only parsing).
Abbreviation ACK := 6 (only parsing).
Abbreviation NAK := 21 (only parsing).
Abbreviation CAN := 24 (only parsing).
Abbreviation CHAR_C := 67 (only parsing).

Abbreviation EINVAL := 22 (only parsing).
Abbreviation EBADMSG := 74 (only parsing).
Abbreviation ETIMEDOUT := 110 (only parsing).
Abbreviation ECANCELED := 125 (only parsing).

Abbreviation XMODEM_RCV_CKS := 0 (only parsing).
Abbreviation XMODEM_RCV_CRC := 1 (only parsing).
Abbreviation XMODEM_SND_STD := 0 (only parsing).
Abbreviation XMODEM_SND_1K := 1 (only parsing).
Abbreviation XMODEM_SND_IDLE := 0 (only parsing).
Abbreviation XMODEM_SND_CRC := 1 (only parsing).
Abbreviation XMODEM_SND_CKS := 2 (only parsing).

(** ** Data *)

(** [send bytes] returns a count or an error; [recv len tmo] also the bytes it
    stored. *)
Record comm_dev (D : Type) := mk_comm_dev {
  send : list Z -> D -> Z * D;
  recv : Z -> Z -> D -> Z * list Z * D
}.
Arguments send {D}. Arguments recv {D}.

Record xmodem_rcv := mk_rcv {
  rx_mode : Z; rx_sync : Z; rx_pktno : Z; rx_retry : Z; rx_data_len : Z; rx_data_pos : Z; rx_pkt : list Z
}.

Record xmodem_snd := mk_snd {
  sx_seq : Z; sx_state : Z; sx_mode : Z; sx_data_len : Z; sx_data_max : Z; sx_pkt : list Z
}.

(** ** Receiver *)

Definition rx_set_sync (v : Z) (rx : xmodem_rcv) : xmodem_rcv :=
  mk_rcv (rx_mode rx) v (rx_pktno rx) (rx_retry rx) (rx_data_len rx) (rx_data_pos rx) (rx_pkt rx).
Definition rx_set_retry (v : Z) (rx : xmodem_rcv) : xmodem_rcv :=
  mk_rcv (rx_mode rx) (rx_sync rx) (rx_pktno rx) v (rx_data_len rx) (rx_data_pos rx) (rx_pkt rx).
Definition rx_set_pos (v : Z) (rx : xmodem_rcv) : xmodem_rcv :=
  mk_rcv (rx_mode rx) (rx_sync rx) (rx_pktno rx) (rx_retry rx) (rx_data_len rx) v (rx_pkt rx).
Definition rx_set_pkt (v : list Z) (rx : xmodem_rcv) : xmodem_rcv :=
  mk_rcv (rx_mode rx) (rx_sync rx) (rx_pktno rx) (rx_retry rx) (rx_data_len rx) (rx_data_pos rx) v.

(** The checks over the data of a packet. *)
Definition pkt_crc (data : list Z) : Z := fold_left (fun crc c => u16 (__crc16ccitt crc c)) data 0.
Definition pkt_cks (data : list Z) : Z := fold_left (fun cks c => u8 (cks + c)) data 0.

Definition xmodem_rcv_init (mode : Z) (rx : xmodem_rcv) : Z * xmodem_rcv :=
  if XMODEM_RCV_CRC <? mode then (- EINVAL, rx)
  else (0, mk_rcv (int8 mode) (if int8 mode =? XMODEM_RCV_CRC then CHAR_C else NAK) 1 30 0 0 (rx_pkt rx)).

(** What the first byte of a packet leads to. *)
Inductive start := Start_timeout | Start_return (ret : Z) | Start_packet (cnt : Z).
Inductive body := Body_timeout | Body_return (ret : Z) | Body_done.

Section code.
Context {D : Type} (dev : comm_dev D) (fuel : nat).

Definition xmodem_rcv_cancel (rx : xmodem_rcv) (d : D) : Z * xmodem_rcv * D :=
  let rx := rx_set_pkt (put 0 [CAN; CAN; CAN] (rx_pkt rx)) rx in
  let '(_, d) := send dev [CAN; CAN; CAN] d in
  (0, rx, d).

Fixpoint rcv_start (n : nat) (pkt : list Z) (d : D) : option (start * list Z * D) :=
  match n with
  | O => None
  | S n =>
      let '(ret, bytes, d) := recv dev 1 2000 d in
      let pkt := put 0 bytes pkt in
      if ret =? THINKOS_ETIMEDOUT then Some (Start_timeout, pkt, d)
      else if ret <? 0 then Some (Start_return ret, pkt, d)
      else
        let c := rd pkt 0 in
        if c =? STX then Some (Start_packet 1024, pkt, d)
        else if c =? SOH then Some (Start_packet 128, pkt, d)
        else if c =? EOT then
          let pkt := put 0 [ACK] pkt in
          let '(ret, d) := send dev [ACK] d in
          Some (Start_return (if ret <? 0 then ret else 0), pkt, d)
        else rcv_start n pkt d
  end.

(** [while (rem)]: [off] is the position of [cp]. *)
Fixpoint rcv_body (n : nat) (rem off : Z) (pkt : list Z) (d : D) : option (body * list Z * D) :=
  match n with
  | O => None
  | S n =>
      if rem =? 0 then Some (Body_done, pkt, d)
      else
        let '(ret, bytes, d) := recv dev rem 500 d in
        let pkt := put off bytes pkt in
        if ret =? THINKOS_ETIMEDOUT then Some (Body_timeout, pkt, d)
        else if ret <? 0 then Some (Body_return ret, pkt, d)
        else rcv_body n (rem - ret) (off + ret) pkt d
  end.

(** [while (recv(..., pkt, 1024, 200) > 0);] *)
Fixpoint flush (n : nat) (off : Z) (pkt : list Z) (d : D) : option (list Z * D) :=
  match n with
  | O => None
  | S n =>
      let '(ret, bytes, d) := recv dev 1024 200 d in
      let pkt := put off bytes pkt in
      if 0 <? ret then flush n off pkt d else Some (pkt, d)
  end.

(** The sequence number and its complement, then the check. *)
Definition pkt_valid (mode cnt : Z) (pkt : list Z) : bool :=
  (rd pkt 1 =? Z.land (Z.lnot (rd pkt 2)) 255) &&
  (let data := get 3 cnt pkt in
   if negb (mode =? 0)
   then u16 (Z.lor (Z.shiftl (rd pkt (3 + cnt)) 8) (rd pkt (3 + cnt + 1))) =? pkt_crc data
   else rd pkt (3 + cnt) =? pkt_cks data).

Definition rx_accept (cnt : Z) (rx : xmodem_rcv) : xmodem_rcv :=
  mk_rcv (rx_mode rx) ACK (Z.land (rx_pktno rx + 1) 255) 10 cnt 0 (rx_pkt rx).

(** Too many errors. *)
Definition rcv_give_up (rx : xmodem_rcv) (d : D) : Z * xmodem_rcv * D :=
  let rx := rx_set_pkt (put 0 [CAN; CAN; CAN] (rx_pkt rx)) rx in
  let '(_, d) := send dev [CAN; CAN; CAN] d in
  (-1, rx, d).

Fixpoint rcv_pkt_loop (n : nat) (rx : xmodem_rcv) (d : D) : option (Z * xmodem_rcv * D) :=
  match n with
  | O => None
  | S n =>
      let timeout rx d :=
        let rx := rx_set_retry (u8 (rx_retry rx - 1)) rx in
        if rx_retry rx =? 0 then Some (rcv_give_up rx d) else rcv_pkt_loop n rx d in
      let error rx d :=
        match flush fuel 0 (rx_pkt rx) d with
        | None => None
        | Some (pkt, d) => timeout (rx_set_sync NAK (rx_set_pkt pkt rx)) d
        end in
      let '(ret, d) := send dev [rx_sync rx] d in
      if ret <? 0 then Some (ret, rx, d)
      else
        match rcv_start fuel (rx_pkt rx) d with
        | None => None
        | Some (Start_timeout, pkt, d) => timeout (rx_set_pkt pkt rx) d
        | Some (Start_return ret, pkt, d) => Some (ret, rx_set_pkt pkt rx, d)
        | Some (Start_packet cnt, pkt, d) =>
            match rcv_body fuel (cnt + (if negb (rx_mode rx =? 0) then 4 else 3)) 1 pkt d with
            | None => None
            | Some (Body_timeout, pkt, d) => timeout (rx_set_pkt pkt rx) d
            | Some (Body_return ret, pkt, d) => Some (ret, rx_set_pkt pkt rx, d)
            | Some (Body_done, pkt, d) =>
                let rx := rx_set_pkt pkt rx in
                let seq := rd pkt 1 in
                if negb (pkt_valid (rx_mode rx) cnt pkt) then error rx d
                else if seq =? Z.land (rx_pktno rx - 1) 255 then rcv_pkt_loop n (rx_set_sync ACK rx) d
                else if negb (seq =? rx_pktno rx) then error rx d
                else Some (cnt, rx_accept cnt rx, d)
            end
        end
  end.

Definition xmodem_rcv_pkt (rx : xmodem_rcv) (d : D) : option (Z * xmodem_rcv * D) := rcv_pkt_loop fuel rx d.

(** The bytes copied to the caller's buffer come with the result.  After one
    packet there is data to copy. *)
Definition rcv_copy (len : Z) (rx : xmodem_rcv) : Z * list Z * xmodem_rcv :=
  let n := Z.min (rx_data_len rx - rx_data_pos rx) len in
  (n, get (3 + rx_data_pos rx) n (rx_pkt rx), rx_set_pos (u16 (rx_data_pos rx + n)) rx).

Fixpoint rcv_loop (n : nat) (len : Z) (rx : xmodem_rcv) (d : D) : option (Z * list Z * xmodem_rcv * D) :=
  match n with
  | O => None
  | S n =>
      if 0 <? rx_data_len rx - rx_data_pos rx then
        let '(ret, bytes, rx) := rcv_copy len rx in Some (ret, bytes, rx, d)
      else
        match xmodem_rcv_pkt rx d with
        | None => None
        | Some (ret, rx, d) => if 0 <? ret then rcv_loop n len rx d else Some (ret, [], rx, d)
        end
  end.

Definition xmodem_rcv_loop (len : Z) (rx : xmodem_rcv) (d : D) : option (Z * list Z * xmodem_rcv * D) :=
  if len <=? 0 then Some (- EINVAL, [], rx, d) else rcv_loop fuel len rx d.

(** ** Sender *)

Definition snd_reset (sx : xmodem_snd) : xmodem_snd :=
  mk_snd 1 XMODEM_SND_IDLE (sx_mode sx) 0 (if sx_mode sx =? XMODEM_SND_1K then 1024 else 128) (sx_pkt sx).
Definition sx_set_state (v : Z) (sx : xmodem_snd) : xmodem_snd :=
  mk_snd (sx_seq sx) v (sx_mode sx) (sx_data_len sx) (sx_data_max sx) (sx_pkt sx).
Definition sx_set_seq (v : Z) (sx : xmodem_snd) : xmodem_snd :=
  mk_snd v (sx_state sx) (sx_mode sx) (sx_data_len sx) (sx_data_max sx) (sx_pkt sx).
Definition sx_set_len (v : Z) (sx : xmodem_snd) : xmodem_snd :=
  mk_snd (sx_seq sx) (sx_state sx) (sx_mode sx) v (sx_data_max sx) (sx_pkt sx).
Definition sx_set_pkt (v : list Z) (sx : xmodem_snd) : xmodem_snd :=
  mk_snd (sx_seq sx) (sx_state sx) (sx_mode sx) (sx_data_len sx) (sx_data_max sx) v.

Definition xmodem_snd_init (mode : Z) (sx : xmodem_snd) (d : D) : option (Z * xmodem_snd * D) :=
  if XMODEM_SND_1K <? mode then Some (- EINVAL, sx, d)
  else
    let sx := snd_reset (mk_snd (sx_seq sx) (sx_state sx) (u8 mode) (sx_data_len sx) (sx_data_max sx) (sx_pkt sx)) in
    match flush fuel 3 (sx_pkt sx) d with
    | None => None
    | Some (pkt, d) => Some (0, sx_set_pkt pkt sx, d)
    end.

Definition xmodem_snd_cancel (sx : xmodem_snd) (d : D) : Z * xmodem_snd * D :=
  let '(ret, d) := send dev [CAN] d in (ret, snd_reset sx, d).

(** The wait for the receiver's request; [inl ret] returns from the caller. *)
Fixpoint snd_wait (n : nat) (off retry : Z) (sx : xmodem_snd) (d : D) :
    option ((Z + Z) * xmodem_snd * D) :=
  match n with
  | O => None
  | S n =>
      let '(ret, bytes, d) := recv dev 1 2000 d in
      let sx := sx_set_pkt (put off bytes (sx_pkt sx)) sx in
      if ret <? 0 then
        if (ret =? ETIMEDOUT) && (retry + 1 <? 20) then snd_wait n off (retry + 1) sx d
        else Some (inl ret, sx, d)
      else
        let c := rd (sx_pkt sx) off in
        if c =? CAN then Some (inl (- ECANCELED), sx, d)
        else if c =? CHAR_C then Some (inr retry, sx_set_state XMODEM_SND_CRC sx, d)
        else if c =? NAK then Some (inr retry, sx_set_state XMODEM_SND_CKS sx, d)
        else snd_wait n off retry sx d
  end.

(** The transmissions of one packet: [off] is the position of its header. *)
Fixpoint snd_tries (n : nat) (off data_len retry : Z) (fcs : list Z) (sx : xmodem_snd) (d : D) :
    option (Z * xmodem_snd * D) :=
  match n with
  | O => None
  | S n =>
      let error ret sx d :=
        match flush fuel 3 (sx_pkt sx) d with
        | None => None
        | Some (pkt, d) => Some (ret, sx_set_pkt pkt sx, d)
        end in
      let '(ret, d) := send dev (get off (data_len + 3) (sx_pkt sx)) d in
      if ret <? 0 then Some (ret, sx, d)
      else
        let '(ret, d) := send dev fcs d in
        if ret <? 0 then Some (ret, sx, d)
        else
          let '(ret, bytes, d) := recv dev 1 2000 d in
          let sx := sx_set_pkt (put off bytes (sx_pkt sx)) sx in
          if ret <=? 0 then
            if (ret =? ETIMEDOUT) && (retry + 1 <? 10) then snd_tries n off data_len (retry + 1) fcs sx d
            else Some (ret, sx, d)
          else
            let c := rd (sx_pkt sx) off in
            if c =? ACK then Some (0, sx_set_seq (u8 (sx_seq sx + 1)) sx, d)
            else if c =? CAN then error (- ECANCELED) sx d
            else if negb (c =? NAK) then error (- EBADMSG) sx d
            else if retry + 1 =? 10 then error (- ECANCELED) sx d
            else snd_tries n off data_len (retry + 1) fcs sx d
  end.

(** [data] points at position [off + 3] of the structure's bytes. *)
Definition xmodem_send_pkt (off data_len : Z) (sx : xmodem_snd) (d : D) : option (Z * xmodem_snd * D) :=
  match (if sx_state sx =? XMODEM_SND_IDLE then snd_wait fuel off 0 sx d else Some (inr 0, sx, d)) with
  | None => None
  | Some (inl ret, sx, d) => Some (ret, sx, d)
  | Some (inr retry, sx, d) =>
      let pkt := put off [if data_len =? 1024 then STX else SOH; sx_seq sx; u8 (Z.lnot (sx_seq sx))] (sx_pkt sx) in
      let data := get (off + 3) data_len pkt in
      let fcs := if sx_state sx =? XMODEM_SND_CRC
                 then [Z.shiftr (pkt_crc data) 8; Z.land (pkt_crc data) 255] else [pkt_cks data] in
      snd_tries fuel off data_len retry fcs (sx_set_pkt pkt sx) d
  end.

(** [do ... while (len)]: [src] is what is left of the caller's data. *)
Fixpoint snd_loop (n : nat) (src : list Z) (sx : xmodem_snd) (d : D) : option (Z * xmodem_snd * D) :=
  match n with
  | O => None
  | S n =>
      let rem := sx_data_max sx - sx_data_len sx in
      let cnt := Z.min (len src) rem in
      let sx := sx_set_pkt (put (3 + sx_data_len sx) (take (Z.to_nat cnt) src) (sx_pkt sx)) sx in
      let sx := sx_set_len (u16 (sx_data_len sx + cnt)) sx in
      let next sx d :=
        let src := drop (Z.to_nat cnt) src in
        if len src =? 0 then Some (0, sx, d) else snd_loop n src sx d in
      if sx_data_len sx =? sx_data_max sx then
        match xmodem_send_pkt 0 (sx_data_len sx) sx d with
        | None => None
        | Some (ret, sx, d) => if ret <? 0 then Some (ret, sx, d) else next (sx_set_len 0 sx) d
        end
      else next sx d
  end.

Definition xmodem_snd_loop (data : list Z) (sx : xmodem_snd) (d : D) : option (Z * xmodem_snd * D) :=
  snd_loop fuel data sx d.

(** The padded remainder; [off] is the position of [data] less the header. *)
Fixpoint snd_rest (n : nat) (off data_len data_max : Z) (sx : xmodem_snd) (d : D) :
    option (Z * xmodem_snd * D) :=
  match n with
  | O => None
  | S n =>
      if 0 <? data_len then
        let cnt := Z.min data_len data_max in
        let sx := sx_set_pkt (put (off + 3 + cnt) (zeros (Z.to_nat (data_max - cnt))) (sx_pkt sx)) sx in
        match xmodem_send_pkt off data_max sx d with
        | None => None
        | Some (ret, sx, d) => if ret <? 0 then Some (ret, sx, d)
                               else snd_rest n (off + cnt) (data_len - cnt) data_max sx d
        end
      else
        let '(ret, d) := send dev [EOT] d in Some (ret, snd_reset sx, d)
  end.

Definition xmodem_snd_eot (sx : xmodem_snd) (d : D) : option (Z * xmodem_snd * D) :=
  let data_max := if sx_data_len sx <=? 1024 - 128 then 128 else sx_data_max sx in
  snd_rest fuel 0 (sx_data_len sx) data_max sx d.
End code.

(** ** The safety of the receiver *)

Definition sum_bytes (l : list Z) : Z := foldr Z.add 0 l.

(** What a packet of the protocol is: its number, the number's complement to
    255, the data and the check: the remainder of the data by the polynomial
    x^16 + x^12 + x^5 + 1, high byte first, or the sum of the data modulo 256. *)
Definition packet_ok (mode no cnt : Z) (pkt : list Z) : Prop :=
  rd pkt 1 = no /\ rd pkt 2 = 255 - no /\
  let data := get 3 cnt pkt in
  if negb (mode =? 0) then 256 * rd pkt (3 + cnt) + rd pkt (4 + cnt) = msb_ref 0x1021 0 data
  else rd pkt (3 + cnt) = sum_bytes data mod 256.

(** What the result of a packet reception says about the receiver. *)
Definition received (rx rx' : xmodem_rcv) (ret : Z) : Prop :=
  rx_mode rx' = rx_mode rx /\
  if 0 <? ret then
    (ret = 128 \/ ret = 1024) /\ packet_ok (rx_mode rx) (rx_pktno rx) ret (rx_pkt rx') /\
    rx_pktno rx' = Z.land (rx_pktno rx + 1) 255 /\
    rx_data_len rx' = ret /\ rx_data_pos rx' = 0 /\ rx_sync rx' = ACK
  else rx_pktno rx' = rx_pktno rx /\ rx_data_len rx' = rx_data_len rx /\ rx_data_pos rx' = rx_data_pos rx.

Lemma crc_same data : Forall byte data -> pkt_crc data = crc16ccitt 0 data.
Proof.
  unfold pkt_crc, crc16ccitt. assert (H : forall l c, 0 <= c < 65536 -> Forall byte l ->
    fold_left (fun crc c => u16 (__crc16ccitt crc c)) l c = fold_left __crc16ccitt l c).
  { induction l as [|x l IH]; intros c Hc Hl; [done|]. inversion Hl; subst. cbn [fold_left].
    pose proof (ccitt_range c x Hc ltac:(done)) as Hr. unfold below in Hr. rewrite u16_small by done. by apply IH. }
  intros Hl. apply H; [lia|done].
Qed.

Lemma crc_ref_same data : Forall byte data -> pkt_crc data = msb_ref 0x1021 0 data.
Proof.
  intros Hd. rewrite crc_same by done.
  apply (fold_agree (below 65536) __crc16ccitt (msb_byte 0x1021)); [|unfold below; lia|done].
  intros c b Hc Hb. split; [by apply ccitt_step|]. by apply msb_range, ccitt_word.
Qed.

Lemma cks_sum data : pkt_cks data = sum_bytes data mod 256.
Proof.
  unfold pkt_cks. change (sum_bytes data) with (0 + sum_bytes data). change 0 with (u8 0) at 1.
  generalize 0 as c. induction data as [|x l IH]; intros c; cbn [fold_left sum_bytes foldr].
  - by rewrite Z.add_0_r.
  - fold (sum_bytes l). replace (u8 (u8 c + x)) with (u8 (c + x)) by (unfold u8; by rewrite Zplus_mod_idemp_l).
    rewrite IH. f_equal. lia.
Qed.

Lemma rd_byte l i : Forall byte l -> byte (rd l i).
Proof.
  intros H. unfold rd. destruct (i <? 0); [done|]. rewrite nth_lookup_default.
  destruct (l !! Z.to_nat i) as [x|] eqn:E; [|done]. by eapply Forall_lookup_1.
Qed.

(** The code's test of a packet of bytes. *)
Lemma valid_packet mode cnt pkt :
  Forall byte pkt -> pkt_valid mode cnt pkt = true -> packet_ok mode (rd pkt 1) cnt pkt.
Proof.
  intros Hb V. pose proof (fun i => rd_byte pkt i Hb) as Hrd. apply andb_true_iff in V as [V1 V2].
  apply Z.eqb_eq in V1. split; [done|]. split.
  - rewrite V1. specialize (Hrd 2). change 255 with (Z.ones 8). rewrite Z.land_ones by lia.
    unfold Z.lnot. change (2 ^ 8) with 256. unfold byte in Hrd. rewrite Z.ones_equiv. change (Z.pred (2 ^ 8)) with 255.
    Z.div_mod_to_equations. lia.
  - cbv zeta in *. assert (Hd : Forall byte (get 3 cnt pkt)) by (by apply Forall_take, Forall_drop).
    destruct (negb (mode =? 0)).
    + rewrite crc_ref_same in V2 by done. apply Z.eqb_eq in V2. rewrite <- V2.
      pose proof (Hrd (3 + cnt)) as H1. pose proof (Hrd (3 + cnt + 1)) as H2. unfold byte in *.
      replace (4 + cnt) with (3 + cnt + 1) by lia. rewrite Z.lor_comm, lor_shift by lia.
      change (2 ^ 8) with 256. rewrite u16_small; lia.
    + apply Z.eqb_eq in V2. by rewrite V2, cks_sum.
Qed.

(** A device that delivers bytes. *)
Definition byte_dev {D} (dev : comm_dev D) : Prop := forall n tmo d, Forall byte (recv dev n tmo d).1.2.

(** A device that has [left d] things to deliver: a read of at least one byte
    that does not fail delivers some of them, and no more than asked for. *)
Definition supplies {D} (dev : comm_dev D) (left : D -> nat) : Prop :=
  (forall l d, (left (send dev l d).2 <= left d)%nat) /\
  forall n tmo d, 0 < n -> let '(ret, _, d') := recv dev n tmo d in
    (left d' <= left d)%nat /\ (0 <= ret -> ret <= n /\ (left d' < left d)%nat).

Lemma put_bytes off l buf : Forall byte l -> Forall byte buf -> Forall byte (put off l buf).
Proof. intros Hl Hb. unfold put. rewrite !Forall_app. split_and!; [by apply Forall_take|done|by apply Forall_drop]. Qed.

Lemma rcv_body_error {D} (dev : comm_dev D) n : forall rem off pkt d r pkt' d',
  rcv_body dev n rem off pkt d = Some (r, pkt', d') -> match r with Body_return ret => ret < 0 | _ => True end.
Proof.
  induction n as [|n IH]; intros rem off pkt d r pkt' d'; [done|]. cbn [rcv_body].
  destruct (rem =? 0); [by intros [= <- _ _]|]. destruct (recv dev rem 500 d) as [[ret bytes] d1]. cbv zeta.
  destruct (ret =? -1); [by intros [= <- _ _]|]. destruct (Z.ltb_spec ret 0); [intros [= <- _ _]; lia|]. apply IH.
Qed.

Section safety.
Context {D : Type} (dev : comm_dev D) (fuel : nat) (Hdev : byte_dev dev).

Lemma received_from rx0 rx rx' ret :
  rx_mode rx = rx_mode rx0 -> rx_pktno rx = rx_pktno rx0 -> rx_data_len rx = rx_data_len rx0 ->
  rx_data_pos rx = rx_data_pos rx0 -> received rx rx' ret -> received rx0 rx' ret.
Proof using. unfold received. by intros -> -> -> ->. Qed.

Lemma received_fail rx rx' ret :
  ret <= 0 -> rx_mode rx' = rx_mode rx -> rx_pktno rx' = rx_pktno rx -> rx_data_len rx' = rx_data_len rx ->
  rx_data_pos rx' = rx_data_pos rx -> received rx rx' ret.
Proof using. intros Hr H1 H2 H3 H4. unfold received. destruct (Z.ltb_spec 0 ret); [lia|done]. Qed.

Lemma rcv_start_spec n : forall pkt d r pkt' d',
  Forall byte pkt -> rcv_start dev n pkt d = Some (r, pkt', d') ->
  Forall byte pkt' /\
  match r with Start_timeout => True | Start_return ret => ret <= 0 | Start_packet cnt => cnt = 128 \/ cnt = 1024 end.
Proof using Hdev.
  induction n as [|n IH]; intros pkt d r pkt' d' Hp; [done|]. cbn [rcv_start].
  pose proof (Hdev 1 2000 d) as Hb. destruct (recv dev 1 2000 d) as [[ret bytes] d1]. cbn in Hb. cbv zeta.
  pose proof (put_bytes 0 bytes pkt Hb Hp) as Hp1.
  destruct (_ =? -1); [by intros [= <- <- _]|]. destruct (Z.ltb_spec ret 0); [intros [= <- <- _]; split; [done|lia]|].
  destruct (_ =? 2); [intros [= <- <- _]; auto|]. destruct (_ =? 1); [intros [= <- <- _]; auto|].
  destruct (_ =? 4); [|by apply IH]. destruct (send dev [6] d1) as [ret' d2]. intros [= <- <- _].
  split; [|destruct (Z.ltb_spec ret' 0); lia]. apply put_bytes; [|done]. by apply Forall_singleton.
Qed.

Lemma rcv_body_bytes n : forall rem off pkt d r pkt' d',
  Forall byte pkt -> rcv_body dev n rem off pkt d = Some (r, pkt', d') -> Forall byte pkt'.
Proof using Hdev.
  induction n as [|n IH]; intros rem off pkt d r pkt' d' Hp; [done|]. cbn [rcv_body].
  destruct (rem =? 0); [by intros [= <- <- _]|]. pose proof (Hdev rem 500 d) as Hb.
  destruct (recv dev rem 500 d) as [[ret bytes] d1]. cbn in Hb. cbv zeta. pose proof (put_bytes off bytes pkt Hb Hp) as Hp1.
  destruct (ret =? -1); [by intros [= <- <- _]|]. destruct (ret <? 0); [by intros [= <- <- _]|]. by apply IH.
Qed.

Lemma flush_bytes n off : forall pkt d pkt' d',
  Forall byte pkt -> flush dev n off pkt d = Some (pkt', d') -> Forall byte pkt'.
Proof using Hdev.
  induction n as [|n IH]; intros pkt d pkt' d' Hp; [done|]. cbn [flush]. pose proof (Hdev 1024 200 d) as Hb.
  destruct (recv dev 1024 200 d) as [[ret bytes] d1]. cbn in Hb. pose proof (put_bytes off bytes pkt Hb Hp) as Hp1.
  destruct (0 <? ret); [by apply IH|by intros [= <- _]].
Qed.

Lemma rcv_pkt_loop_spec n : forall rx d ret rx' d',
  Forall byte (rx_pkt rx) -> rcv_pkt_loop dev fuel n rx d = Some (ret, rx', d') -> received rx rx' ret.
Proof using Hdev.
  induction n as [|n IH]; intros rx d ret rx' d' Hp; [done|]. cbn [rcv_pkt_loop]. cbv zeta.
  assert (T : forall rx1 d1, Forall byte (rx_pkt rx1) -> rx_mode rx1 = rx_mode rx -> rx_pktno rx1 = rx_pktno rx ->
    rx_data_len rx1 = rx_data_len rx -> rx_data_pos rx1 = rx_data_pos rx ->
    (if rx_retry (rx_set_retry (u8 (rx_retry rx1 - 1)) rx1) =? 0
     then Some (rcv_give_up dev (rx_set_retry (u8 (rx_retry rx1 - 1)) rx1) d1)
     else rcv_pkt_loop dev fuel n (rx_set_retry (u8 (rx_retry rx1 - 1)) rx1) d1) = Some (ret, rx', d') ->
    received rx rx' ret).
  { intros rx1 d1 Hp1 H1 H2 H3 H4. destruct (_ =? 0).
    - unfold rcv_give_up. destruct (send dev _ d1). intros [= <- <- _]. by apply received_fail; [lia|..].
    - intros E. apply IH in E; [|done]. by eapply received_from; [..|exact E]. }
  destruct (send dev [rx_sync rx] d) as [ret0 d0].
  destruct (Z.ltb_spec ret0 0) as [Hneg|_]; [intros [= <- <- _]; by apply received_fail; [lia|..]|].
  destruct (rcv_start dev fuel (rx_pkt rx) d0) as [[[r pkt] d1]|] eqn:Es; [|done].
  apply rcv_start_spec in Es as [Hp1 Es]; [|done]. destruct r as [|ret1|cnt]; [by apply T|intros [= <- <- _]; by apply received_fail|].
  destruct (rcv_body dev fuel _ 1 pkt d1) as [[[b pkt2] d2]|] eqn:Eb; [|done].
  pose proof (rcv_body_bytes _ _ _ _ _ _ _ _ Hp1 Eb) as Hp2. apply rcv_body_error in Eb.
  destruct b as [|ret2|]; [by apply T|intros [= <- <- _]; by apply received_fail; [lia|..]|].
  assert (F : match flush dev fuel 0 (rx_pkt (rx_set_pkt pkt2 rx)) d2 with
    | None => True | Some (pkt3, _) => Forall byte pkt3 end).
  { destruct (flush dev fuel 0 _ d2) as [[pkt3 d3]|] eqn:Ef; [|done]. by apply flush_bytes in Ef. }
  destruct (pkt_valid _ _ _) eqn:Ev; cbn [negb];
    [|by destruct (flush dev fuel 0 _ d2) as [[pkt3 d3]|]; [apply T|]].
  destruct (_ =? Z.land _ _); [intros E; apply IH in E; [|done]; by eapply received_from; [..|exact E]|].
  destruct (Z.eqb_spec (rd pkt2 1) (rx_pktno (rx_set_pkt pkt2 rx))) as [Eq|]; cbn [negb];
    [|by destruct (flush dev fuel 0 _ d2) as [[pkt3 d3]|]; [apply T|]].
  intros [= <- <- _]. split; [done|]. cbn [rx_pktno rx_set_pkt] in Eq. destruct (Z.ltb_spec 0 cnt); [|lia].
  split_and!; try done. rewrite <- Eq. by apply valid_packet.
Qed.
End safety.

(** ** The end of the receiver *)

Section returns.
Context {D : Type} (dev : comm_dev D) (left : D -> nat) (Hleft : supplies dev left) (fuel : nat).

Lemma send_left l d : (left (send dev l d).2 <= left d)%nat.
Proof using Hleft. apply Hleft. Qed.

Lemma rcv_start_returns n : forall pkt d, (left d < n)%nat ->
  exists r pkt' d', rcv_start dev n pkt d = Some (r, pkt', d') /\ (left d' <= left d)%nat /\
    match r with Start_packet cnt => 0 <= cnt /\ (left d' < left d)%nat | _ => True end.
Proof using Hleft.
  induction n as [|n IH]; intros pkt d Hn; [lia|]. cbn [rcv_start].
  pose proof (proj2 Hleft 1 2000 d ltac:(lia)) as Hr. destruct (recv dev 1 2000 d) as [[ret bytes] d1]. destruct Hr as [Hle Hlt].
  cbv zeta. destruct (ret =? -1); [eexists _, _, _; by split_and!|].
  destruct (Z.ltb_spec ret 0); [eexists _, _, _; by split_and!|]. destruct (Hlt ltac:(done)) as [_ Hlt1].
  destruct (_ =? 2); [eexists _, _, _; split_and!; try done; lia|].
  destruct (_ =? 1); [eexists _, _, _; split_and!; try done; lia|].
  destruct (_ =? 4).
  - pose proof (send_left [6] d1). destruct (send dev [6] d1) as [ret' d2]. cbn in *. eexists _, _, _. split_and!; [done|lia|done].
  - destruct (IH (put 0 bytes pkt) d1 ltac:(lia)) as (r & pkt' & d' & -> & H1 & H2). eexists _, _, _.
    split_and!; [done|lia|]. destruct r; [done|done|]. lia.
Qed.

Lemma rcv_body_returns n : forall rem off pkt d, 0 <= rem -> (left d < n)%nat ->
  exists r pkt' d', rcv_body dev n rem off pkt d = Some (r, pkt', d') /\ (left d' <= left d)%nat.
Proof using Hleft.
  induction n as [|n IH]; intros rem off pkt d Hrem Hn; [lia|]. cbn [rcv_body].
  destruct (Z.eqb_spec rem 0); [by eexists _, _, _|].
  pose proof (proj2 Hleft rem 500 d ltac:(lia)) as Hr. destruct (recv dev rem 500 d) as [[ret bytes] d1]. destruct Hr as [Hle Hlt].
  cbv zeta. destruct (ret =? -1); [by eexists _, _, _|]. destruct (Z.ltb_spec ret 0); [by eexists _, _, _|].
  destruct (Hlt ltac:(done)) as [Hrn Hlt1].
  destruct (IH (rem - ret) (off + ret) (put off bytes pkt) d1 ltac:(lia) ltac:(lia)) as (r & pkt' & d' & -> & H1).
  eexists _, _, _. split; [done|lia].
Qed.

Lemma flush_returns n off : forall pkt d, (left d < n)%nat ->
  exists pkt' d', flush dev n off pkt d = Some (pkt', d') /\ (left d' <= left d)%nat.
Proof using Hleft.
  induction n as [|n IH]; intros pkt d Hn; [lia|]. cbn [flush].
  pose proof (proj2 Hleft 1024 200 d ltac:(lia)) as Hr. destruct (recv dev 1024 200 d) as [[ret bytes] d1]. destruct Hr as [Hle Hlt].
  destruct (Z.ltb_spec 0 ret); [|by eexists _, _]. destruct (Hlt ltac:(lia)) as [_ Hlt1].
  destruct (IH (put off bytes pkt) d1 ltac:(lia)) as (pkt' & d' & -> & H1). eexists _, _. split; [done|lia].
Qed.

(** The attempts that are left; the counter wraps around. *)
Definition tries (retry : Z) : nat := if retry =? 0 then 256 else Z.to_nat retry.

Lemma rcv_pkt_loop_returns n : forall rx d,
  0 <= rx_retry rx < 256 -> (left d < fuel)%nat -> (left d + tries (rx_retry rx) < n)%nat ->
  is_Some (rcv_pkt_loop dev fuel n rx d).
Proof using Hleft.
  induction n as [|n IH]; intros rx d Hr Hf Hn; [lia|]. cbn [rcv_pkt_loop]. cbv zeta.
  assert (T : forall rx1 d1, rx_retry rx1 = rx_retry rx -> (left d1 <= left d)%nat ->
    is_Some (if rx_retry (rx_set_retry (u8 (rx_retry rx1 - 1)) rx1) =? 0
     then Some (rcv_give_up dev (rx_set_retry (u8 (rx_retry rx1 - 1)) rx1) d1)
     else rcv_pkt_loop dev fuel n (rx_set_retry (u8 (rx_retry rx1 - 1)) rx1) d1)).
  { intros rx1 d1 E Hd. cbn [rx_retry rx_set_retry]. rewrite E. destruct (Z.eqb_spec (u8 (rx_retry rx - 1)) 0) as [|Hne]; [by eexists|].
    apply IH; cbn [rx_retry rx_set_retry]; [apply u8_range|lia|]. unfold tries in *. destruct (Z.eqb_spec (u8 (rx_retry rx - 1)) 0); [done|].
    destruct (Z.eqb_spec (rx_retry rx) 0) as [-> |]; [change (u8 (0 - 1)) with 255; lia|]. rewrite u8_small by lia. lia. }
  assert (F : forall rx1 d1, rx_retry rx1 = rx_retry rx -> (left d1 <= left d)%nat ->
    is_Some (match flush dev fuel 0 (rx_pkt rx1) d1 with
      | None => None
      | Some (pkt, d) =>
          if rx_retry (rx_set_retry (u8 (rx_retry (rx_set_sync 21 (rx_set_pkt pkt rx1)) - 1)) (rx_set_sync 21 (rx_set_pkt pkt rx1))) =? 0
          then Some (rcv_give_up dev (rx_set_retry (u8 (rx_retry (rx_set_sync 21 (rx_set_pkt pkt rx1)) - 1)) (rx_set_sync 21 (rx_set_pkt pkt rx1))) d)
          else rcv_pkt_loop dev fuel n (rx_set_retry (u8 (rx_retry (rx_set_sync 21 (rx_set_pkt pkt rx1)) - 1)) (rx_set_sync 21 (rx_set_pkt pkt rx1))) d
      end)).
  { intros rx1 d1 E Hd. destruct (flush_returns fuel 0 (rx_pkt rx1) d1 ltac:(lia)) as (pkt & d2 & -> & H2). apply T; [done|lia]. }
  pose proof (send_left [rx_sync rx] d) as H0. destruct (send dev [rx_sync rx] d) as [ret0 d0]. cbn in H0.
  destruct (ret0 <? 0); [by eexists|].
  destruct (rcv_start_returns fuel (rx_pkt rx) d0 ltac:(lia)) as (r & pkt & d1 & -> & H1 & Hs).
  destruct r as [|ret1|cnt]; [apply T; [done|lia]|by eexists|]. destruct Hs as [Hc Hs].
  destruct (rcv_body_returns fuel (cnt + (if negb (rx_mode rx =? 0) then 4 else 3)) 1 pkt d1) as (b & pkt2 & d2 & -> & H2);
    [destruct (negb _); lia|lia|].
  destruct b as [|ret2|]; [apply T; [done|lia]|by eexists|].
  destruct (negb (pkt_valid _ _ _)); [apply F; [done|lia]|].
  destruct (_ =? Z.land _ _); [apply IH; cbn [rx_retry rx_set_sync rx_set_pkt]; [done|lia|lia]|].
  destruct (negb _); [apply F; [done|lia]|by eexists].
Qed.
End returns.

(** C26: whatever bytes the device delivers, the receiver accepts a packet only when
    its number is the expected one, the complement matches and the CRC (or the checksum)
    that comes with the data is the right one; it then expects the next number.  When it returns anything
    else it has accepted nothing.  And if the device delivers finitely many bytes before it falls silent, the
    receiver returns: with fuel for what the device has to deliver and the 256 attempts the
    counter allows at most. *)
Theorem xmodem_rcv_accepts {D} (dev : comm_dev D) fuel rx d :
  byte_dev dev -> Forall byte (rx_pkt rx) ->
  (forall ret rx' d', xmodem_rcv_pkt dev fuel rx d = Some (ret, rx', d') -> received rx rx' ret) /\
  forall left, supplies dev left -> byte (rx_retry rx) -> (left d + 256 < fuel)%nat ->
    is_Some (xmodem_rcv_pkt dev fuel rx d).
Proof.
  intros Hd Hp. split; [intros ret rx' d'; by apply rcv_pkt_loop_spec|]. intros left Hl Hr Hf.
  apply (rcv_pkt_loop_returns dev left Hl); [exact Hr|lia|]. unfold tries, byte in *. destruct (_ =? 0); lia.
Qed.

(** ** A line between two parties *)

(** What comes in, [None] standing for a silence in which a read times out, and
    what went out. *)
Record line := mk_line { line_in : list (option Z); line_out : list Z }.

(** The first bytes before a silence, [n] at most. *)
Fixpoint take_bytes (n : nat) (l : list (option Z)) : list Z * list (option Z) :=
  match n, l with
  | S n, Some c :: l => let '(bs, l) := take_bytes n l in (c :: bs, l)
  | _, _ => ([], l)
  end.

Definition line_send (bs : list Z) (d : line) : Z * line := (len bs, mk_line (line_in d) (line_out d ++ bs)).

Definition line_recv (n tmo : Z) (d : line) : Z * list Z * line :=
  match line_in d with
  | [] => (THINKOS_ETIMEDOUT, [], d)
  | None :: l => (THINKOS_ETIMEDOUT, [], mk_line l (line_out d))
  | l => let '(bs, l) := take_bytes (Z.to_nat n) l in (len bs, bs, mk_line l (line_out d))
  end.

Definition line_dev : comm_dev line := mk_comm_dev line line_send line_recv.

Lemma take_bytes_app bs l : take_bytes (length bs) ((Some <$> bs) ++ l) = (bs, l).
Proof. induction bs as [|c bs IH]; [by destruct l as [|[]]|]. cbn [length take_bytes fmap list_fmap app]. by rewrite IH. Qed.

Lemma recv_bytes bs l out tmo :
  bs <> [] -> recv line_dev (len bs) tmo (mk_line ((Some <$> bs) ++ l) out) = (len bs, bs, mk_line l out).
Proof.
  intros H. destruct bs as [|c bs]; [done|]. cbn [recv line_dev line_recv line_in].
  change ((Some <$> c :: bs) ++ l) with (Some c :: ((Some <$> bs) ++ l)).
  unfold line_recv. cbn [line_in line_out]. unfold len at 1. rewrite Nat2Z.id.
  change (Some c :: (Some <$> bs) ++ l) with ((Some <$> c :: bs) ++ l). by rewrite take_bytes_app.
Qed.

Lemma recv_one c l out tmo : recv line_dev 1 tmo (mk_line (Some c :: l) out) = (1, [c], mk_line l out).
Proof. apply (recv_bytes [c] l out tmo). done. Qed.

(** ** Frames *)

Definition frame (crc : bool) (seq : Z) (block : list Z) : list Z :=
  [if len block =? 1024 then STX else SOH; seq; u8 (Z.lnot seq)] ++ block ++
  (if crc then [Z.shiftr (pkt_crc block) 8; Z.land (pkt_crc block) 255] else [pkt_cks block]).

Definition block_ok (block : list Z) : Prop :=
  (length block = 128%nat \/ length block = 1024%nat) /\ Forall byte block.

Lemma complement_byte seq : byte seq -> seq = Z.land (Z.lnot (u8 (Z.lnot seq))) 255.
Proof.
  intros H. apply (eq_words (fun x => x) (fun seq => Z.land (Z.lnot (u8 (Z.lnot seq))) 255) 8); [|exact H].
  vm_compute. reflexivity.
Qed.

Lemma crc_join x : 0 <= x < 65536 -> Z.lor (Z.shiftl (Z.shiftr x 8) 8) (Z.land x 255) = x.
Proof.
  intros H. rewrite Z.lor_comm. rewrite (split_byte x) at 3. symmetry. apply Z.lxor_lor. apply Z.bits_inj'. intros i Hi.
  change 255 with (Z.ones 8). rewrite !Z.land_spec, Z.shiftl_spec, Z.testbit_ones_nonneg, Z.testbit_0_l by lia.
  destruct (Z.ltb_spec i 8); [by rewrite (Z.testbit_neg_r _ (i - 8)), andb_false_r by lia|by rewrite andb_false_r].
Qed.

Lemma crc_split x : 0 <= x < 65536 -> u16 (Z.lor (Z.shiftl (Z.shiftr x 8) 8) (Z.land x 255)) = x.
Proof. intros H. rewrite crc_join by done. by apply u16_small. Qed.

Lemma fold_crc_range block : forall crc,
  0 <= crc < 65536 -> 0 <= fold_left (fun crc c => u16 (__crc16ccitt crc c)) block crc < 65536.
Proof.
  induction block as [|c block IH]; intros crc H; [done|]. cbn [fold_left]. apply IH.
  apply Z.mod_pos_bound. lia.
Qed.

Lemma pkt_crc_range block : 0 <= pkt_crc block < 65536.
Proof. apply fold_crc_range. lia. Qed.

(** The check follows the data. *)
Lemma frame_crc seq block t :
  rd (frame true seq block ++ t) (3 + len block) = Z.shiftr (pkt_crc block) 8 /\
  rd (frame true seq block ++ t) (3 + len block + 1) = Z.land (pkt_crc block) 255.
Proof.
  unfold frame. rewrite <- !app_assoc. set (h := [_; _; _]).
  assert (El : 3 + len block = len (h ++ block)) by (unfold len; rewrite length_app; simpl; lia).
  rewrite El, app_assoc. split; [apply rd_mid|apply rd_mid2].
Qed.

(** The checks accept a frame. *)
Lemma frame_valid (crc : bool) mode seq block t :
  block_ok block -> byte seq -> mode = Z.b2z crc ->
  let pkt := frame crc seq block ++ t in
  pkt_valid mode (len block) pkt = true /\ rd pkt 1 = seq /\ get 3 (len block) pkt = block.
Proof.
  intros [Hl Hb] Hs ->. cbv zeta. unfold frame. rewrite <- !app_assoc.
  set (h := if len block =? 1024 then 2 else 1). set (nseq := u8 (Z.lnot seq)).
  set (fcs := if crc then _ else _).
  assert (E1 : rd ([h; seq; nseq] ++ block ++ fcs ++ t) 1 = seq) by reflexivity.
  assert (E2 : rd ([h; seq; nseq] ++ block ++ fcs ++ t) 2 = nseq) by reflexivity.
  assert (E3 : get 3 (len block) ([h; seq; nseq] ++ block ++ fcs ++ t) = block)
    by exact (get_mid [h; seq; nseq] block (fcs ++ t)).
  split_and!; [|done|done]. unfold pkt_valid. rewrite E1, E2, E3.
  unfold nseq. rewrite <- complement_byte by done. rewrite Z.eqb_refl. cbn [andb]. cbv zeta.
  assert (El : 3 + len block = len ([h; seq; nseq] ++ block)) by (unfold len; rewrite length_app; simpl; lia).
  unfold fcs. destruct crc; cbn [Z.b2z Z.eqb negb].
  - destruct (frame_crc seq block t) as [F1 F2]. unfold frame in F1, F2. rewrite <- !app_assoc in F1, F2. fold h in F1, F2.
    rewrite F1, F2, crc_split by apply pkt_crc_range. by apply Z.eqb_refl.
  - fold nseq. rewrite El, app_assoc. change ([pkt_cks block] ++ t) with (pkt_cks block :: t).
    rewrite rd_mid. apply Z.eqb_refl.
Qed.

(** ** Reception over the line *)

Definition wire (l : list Z) (rest : list (option Z)) : list (option Z) := (Some <$> l) ++ rest.

Lemma wire_cons c l rest : wire (c :: l) rest = Some c :: wire l rest.
Proof. done. Qed.

Lemma wire_app l1 l2 rest : wire (l1 ++ l2) rest = wire l1 (wire l2 rest).
Proof. unfold wire. by rewrite fmap_app, app_assoc. Qed.

Definition frame_tail (crc : bool) (seq : Z) (block : list Z) : list Z :=
  [seq; u8 (Z.lnot seq)] ++ block ++
  (if crc then [Z.shiftr (pkt_crc block) 8; Z.land (pkt_crc block) 255] else [pkt_cks block]).

Lemma frame_cons crc seq block :
  frame crc seq block = (if len block =? 1024 then STX else SOH) :: frame_tail crc seq block.
Proof. done. Qed.

Lemma len_frame_tail crc seq block :
  len (frame_tail crc seq block) = len block + (if crc then 4 else 3).
Proof. unfold frame_tail, len. rewrite !length_app. destruct crc; simpl; lia. Qed.

Lemma start_frame fuel crc seq block pkt l out :
  block_ok block ->
  rcv_start line_dev (S fuel) pkt (mk_line (wire (frame crc seq block) l) out) =
    Some (Start_packet (len block), (if len block =? 1024 then STX else SOH) :: drop 1 pkt,
          mk_line (wire (frame_tail crc seq block) l) out).
Proof.
  intros [Hl _]. rewrite frame_cons, wire_cons. cbn [rcv_start]. rewrite recv_one, put_0. cbv zeta.
  cbn [length app]. unfold len. destruct Hl as [-> | ->]; reflexivity.
Qed.

Lemma rx_body_frame fuel crc seq block h pkt l out :
  rcv_body line_dev (S (S fuel)) (len (frame_tail crc seq block)) 1 (h :: pkt)
    (mk_line (wire (frame_tail crc seq block) l) out) =
  Some (Body_done, h :: frame_tail crc seq block ++ drop (length (frame_tail crc seq block)) pkt, mk_line l out).
Proof.
  pose proof (len_frame_tail crc seq block) as Hlen. assert (Hne : frame_tail crc seq block <> []) by done.
  assert (Hpos : 0 < len (frame_tail crc seq block)) by (rewrite Hlen; unfold len; destruct crc; lia). clear Hlen.
  revert Hne Hpos. generalize (frame_tail crc seq block). intros bs Hne Hpos. cbn [rcv_body].
  destruct (Z.eqb_spec (len bs) 0) as [|_]; [lia|]. unfold wire. rewrite recv_bytes by done. cbv zeta.
  destruct (Z.eqb_spec (len bs) (-1)) as [|_]; [lia|]. destruct (Z.ltb_spec (len bs) 0) as [|_]; [lia|].
  rewrite Z.sub_diag. change (0 =? 0) with true. reflexivity.
Qed.

Lemma next_seq x : byte x -> Z.land (x + 1) 255 = u8 (x + 1).
Proof. intros _. change 255 with (Z.ones 8). by rewrite Z.land_ones by lia. Qed.

Lemma not_previous x : byte x -> (x =? Z.land (x - 1) 255) = false.
Proof.
  intros H. unfold byte in H. change 255 with (Z.ones 8). rewrite Z.land_ones by lia. change (2 ^ 8) with 256.
  apply Z.eqb_neq. Z.div_mod_to_equations. lia.
Qed.

(** The expected frame is accepted as it comes in. *)
Lemma rcv_frame fuel n rx crc block l out :
  block_ok block -> byte (rx_pktno rx) -> rx_mode rx = Z.b2z crc ->
  rcv_pkt_loop line_dev (S (S fuel)) (S n) rx (mk_line (wire (frame crc (rx_pktno rx) block) l) out) =
  Some (len block,
    mk_rcv (rx_mode rx) ACK (u8 (rx_pktno rx + 1)) 10 (len block) 0
      (frame crc (rx_pktno rx) block ++ drop (length (frame crc (rx_pktno rx) block)) (rx_pkt rx)),
    mk_line l (out ++ [rx_sync rx])).
Proof.
  intros Hb Hp Hm. cbn [rcv_pkt_loop]. cbv zeta. cbn [send line_dev line_send]. unfold line_send. cbn [line_in line_out].
  change (len [rx_sync rx] <? 0) with false. cbv iota. rewrite start_frame by done.
  replace (len block + (if negb (rx_mode rx =? 0) then 4 else 3)) with (len (frame_tail crc (rx_pktno rx) block))
    by (rewrite len_frame_tail, Hm; by destruct crc).
  rewrite rx_body_frame. rewrite app_comm_cons, <- frame_cons, drop_drop.
  set (t := drop (1 + length (frame_tail crc (rx_pktno rx) block)) (rx_pkt rx)).
  destruct (frame_valid crc (rx_mode rx) (rx_pktno rx) block t Hb Hp Hm) as (V & S1 & _). cbv zeta in V, S1.
  cbn [rx_mode rx_set_pkt rx_pktno]. rewrite V, S1, not_previous, Z.eqb_refl by done. cbn [negb].
  unfold rx_accept. cbn [rx_mode rx_set_pkt rx_pktno rx_pkt]. by rewrite next_seq.
Qed.

Lemma rcv_eot fuel n rx l out :
  rcv_pkt_loop line_dev (S fuel) (S n) rx (mk_line (wire [EOT] l) out) =
  Some (0, rx_set_pkt (ACK :: drop 1 (rx_pkt rx)) rx, mk_line l (out ++ [rx_sync rx] ++ [ACK])).
Proof.
  cbn [rcv_pkt_loop]. cbv zeta. cbn [send line_dev]. unfold line_send. cbn [line_in line_out].
  change (len [rx_sync rx] <? 0) with false. cbv iota. cbn [rcv_start]. rewrite wire_cons, recv_one, put_0. cbv zeta.
  cbn [length app]. change (rd (4 :: drop 1 (rx_pkt rx)) 0) with 4.
  change (1 =? -1) with false. change (1 <? 0) with false. change (4 =? 2) with false. change (4 =? 1) with false.
  change (4 =? 4) with true. cbv iota. cbn [send line_dev]. unfold line_send. cbn [line_in line_out].
  change (len [6] <? 0) with false. cbv iota. rewrite put_0. cbn [length app drop]. by rewrite <- app_assoc.
Qed.

Fixpoint frames (crc : bool) (seq : Z) (blocks : list (list Z)) : list Z :=
  match blocks with
  | [] => []
  | b :: bs => frame crc seq b ++ frames crc (u8 (seq + 1)) bs
  end.

(** A client that reads the file with a buffer of [n] bytes. *)
Fixpoint receive_all (calls fuel : nat) (n : Z) (rx : xmodem_rcv) (d : line) :
    option (Z * list Z * xmodem_rcv * line) :=
  match calls with
  | O => None
  | S calls =>
      match xmodem_rcv_loop line_dev fuel n rx d with
      | None => None
      | Some (ret, bytes, rx, d) =>
          if 0 <? ret then
            match receive_all calls fuel n rx d with
            | None => None
            | Some (ret, rest, rx, d) => Some (ret, bytes ++ rest, rx, d)
            end
          else Some (ret, bytes, rx, d)
      end
  end.

(** [p]: the data of the last packet that has not been read. *)
Definition pending (crc : bool) (rx : xmodem_rcv) (p : list Z) : Prop :=
  rx_mode rx = Z.b2z crc /\ byte (rx_pktno rx) /\ 0 <= rx_data_pos rx /\ rx_data_len rx <= 1024 /\
  rx_data_len rx - rx_data_pos rx = len p /\ get (3 + rx_data_pos rx) (len p) (rx_pkt rx) = p.

(** A call that finds data copies its first part. *)
Lemma rcv_copy_pending crc rx p n :
  pending crc rx p -> p <> [] -> 0 < n ->
  let k := Z.to_nat (Z.min (len p) n) in
  exists rx', rcv_copy n rx = (Z.of_nat k, take k p, rx') /\ (0 < k)%nat /\ pending crc rx' (drop k p) /\
    rx_pktno rx' = rx_pktno rx /\ rx_sync rx' = rx_sync rx.
Proof.
  intros (Hm & Hb & Hp & Hl & El & Eg) Hne Hn k. unfold rcv_copy. rewrite El.
  assert (Hpos : 0 < len p) by (unfold len; destruct p; [done|simpl; lia]).
  eexists. split; [|split_and!].
  - f_equal. f_equal; [lia|]. rewrite (get_take _ (len p)) by lia. by rewrite Eg.
  - lia.
  - assert (Hk : len (drop k p) = len p - Z.of_nat k) by (unfold len in *; rewrite length_drop; lia).
    split_and!; cbn [rx_mode rx_pktno rx_data_pos rx_data_len rx_pkt rx_set_pos]; try done;
      rewrite ?(u16_small (rx_data_pos rx + _)) by lia; try lia.
    replace (3 + (rx_data_pos rx + Z.min (len p) n)) with (3 + rx_data_pos rx + Z.of_nat k) by lia.
    rewrite Hk, get_drop by lia. by rewrite Eg, Nat2Z.id.
  - done.
  - done.
Qed.

Lemma accepted_pending crc rx block :
  block_ok block -> byte (rx_pktno rx) -> rx_mode rx = Z.b2z crc ->
  pending crc (mk_rcv (rx_mode rx) ACK (u8 (rx_pktno rx + 1)) 10 (len block) 0
    (frame crc (rx_pktno rx) block ++ drop (length (frame crc (rx_pktno rx) block)) (rx_pkt rx))) block.
Proof.
  intros Hb Hp Hm.
  destruct (frame_valid crc (rx_mode rx) (rx_pktno rx) block
    (drop (length (frame crc (rx_pktno rx) block)) (rx_pkt rx)) Hb Hp Hm) as (_ & _ & G).
  assert (Hl : len block <= 1024) by (destruct Hb as [Hb _]; unfold len; lia).
  split_and!; cbn [rx_mode rx_pktno rx_data_pos rx_data_len rx_pkt]; try done; try lia; apply u8_range.
Qed.

(** The receiver answers each packet with an acknowledgement; its first
    message is the one it is about to send. *)
Lemma receive_all_spec fuel crc n l : 0 < n -> forall calls blocks rx p out,
  Forall block_ok blocks -> pending crc rx p -> (length p + length (concat blocks) < calls)%nat ->
  exists rx', receive_all calls (S (S fuel)) n rx
    (mk_line (wire (frames crc (rx_pktno rx) blocks ++ [EOT]) l) out) =
    Some (0, p ++ concat blocks, rx', mk_line l (out ++ rx_sync rx :: replicate (S (length blocks)) ACK)).
Proof.
  intros Hn. induction calls as [|calls IH]; intros blocks rx p out Hbl Hp Hc; [lia|].
  cbn [receive_all]. unfold xmodem_rcv_loop. destruct (Z.leb_spec n 0); [lia|]. cbn [rcv_loop].
  pose proof Hp as (Hm & Hb & _ & _ & El & _). rewrite El.
  destruct p as [|c p].
  - change (0 <? len []) with false. cbv iota. unfold xmodem_rcv_pkt. destruct blocks as [|b bs].
    + cbn [frames app concat]. rewrite rcv_eot. change (0 <? 0) with false. cbv iota. by eexists.
    + inversion Hbl as [|?? Hbo Hbs]; subst. cbn [frames concat]. rewrite <- app_assoc, wire_app.
      rewrite rcv_frame by done.
      assert (Hpos : 0 < len b) by (destruct Hbo as [Hbo _]; unfold len; lia).
      destruct (Z.ltb_spec 0 (len b)); [|lia].
      pose proof (accepted_pending crc rx b Hbo Hb Hm) as Pb.
      set (rx1 := mk_rcv _ _ _ _ _ _ _) in *. cbn [rcv_loop]. pose proof Pb as (_ & _ & _ & _ & El1 & _). rewrite El1.
      destruct (Z.ltb_spec 0 (len b)); [|lia].
      destruct (rcv_copy_pending crc rx1 b n Pb) as (rx2 & -> & Hk & P2 & E2 & Y2); [by intros ->|done|].
      set (k := Z.to_nat (Z.min (len b) n)) in *. destruct (Z.ltb_spec 0 (Z.of_nat k)); [|lia].
      destruct (IH bs rx2 (drop k b) (out ++ [rx_sync rx])) as (rx3 & E3); [done|done| |].
      { cbn [concat] in Hc. rewrite length_app in Hc. rewrite length_drop. simpl in Hc. unfold len in *. lia. }
      rewrite E2, Y2 in E3. change (rx_pktno rx1) with (u8 (rx_pktno rx + 1)) in E3. change (rx_sync rx1) with 6 in E3.
      rewrite E3. exists rx3. rewrite app_assoc, take_drop, <- app_assoc. done.
  - assert (Hpos : 0 < len (c :: p)) by (unfold len; simpl; lia). destruct (Z.ltb_spec 0 (len (c :: p))); [|lia].
    destruct (rcv_copy_pending crc rx (c :: p) n Hp) as (rx2 & -> & Hk & P2 & E2 & Y2); [done|done|].
    set (k := Z.to_nat (Z.min (len (c :: p)) n)) in *. destruct (Z.ltb_spec 0 (Z.of_nat k)); [|lia].
    destruct (IH blocks rx2 (drop k (c :: p)) out) as (rx3 & E3); [done|done|rewrite length_drop; cbn [length] in *; lia|].
    rewrite E2, Y2 in E3. rewrite E3. exists rx3. by rewrite app_assoc, take_drop.
Qed.

(** ** Transmission over the line *)

(** What the sender reads while it sends [m] packets: the request before the
    first one, and an acknowledgement for each. *)
Definition request (crc : bool) : Z := if crc then CHAR_C else NAK.
Definition script (crc idle : bool) (m : nat) : list (option Z) :=
  match m with O => [] | S _ => (if idle then [Some (request crc)] else []) ++ replicate m (Some ACK) end.

Lemma script_app crc idle m1 m2 :
  script crc idle (m1 + m2) = script crc idle m1 ++ script crc (idle && (m1 =? 0)%nat) m2.
Proof.
  destruct m1 as [|m1]; [by rewrite andb_true_r|]. rewrite andb_false_r. cbn [script plus app].
  rewrite <- app_assoc. f_equal. change (S (m1 + m2)) with (S m1 + m2)%nat. rewrite replicate_add. by destruct m2.
Qed.
Definition snd_state (crc : bool) : Z := if crc then XMODEM_SND_CRC else XMODEM_SND_CKS.

(** The sender has not started, or it knows the kind of check. *)
Definition snd_ready (crc : bool) (sx : xmodem_snd) : Prop :=
  sx_state sx = XMODEM_SND_IDLE \/ sx_state sx = snd_state crc.
Definition idle (sx : xmodem_snd) : bool := sx_state sx =? XMODEM_SND_IDLE.

Lemma len_not_neg (l : list Z) : (len l <? 0) = false.
Proof. apply Z.ltb_ge. unfold len. lia. Qed.

Section transmit.
Context (fuel : nat) (crc : bool).

Definition hdr (seq n : Z) : list Z := [if n =? 1024 then STX else SOH; seq; u8 (Z.lnot seq)].

(** The packet is laid out before its transmissions. *)
Lemma send_pkt_busy off n sx block :
  0 <= off -> (Z.to_nat off + 3 + Z.to_nat n <= length (sx_pkt sx))%nat -> 0 <= n ->
  sx_state sx = snd_state crc -> n = len block -> get (off + 3) n (sx_pkt sx) = block ->
  exists fcs pkt1,
    (forall d, xmodem_send_pkt line_dev (S fuel) off n sx d =
       snd_tries line_dev (S fuel) (S fuel) off n 0 fcs (sx_set_pkt pkt1 sx) d) /\
    get off (n + 3) pkt1 = hdr (sx_seq sx) n ++ block /\
    (hdr (sx_seq sx) n ++ block) ++ fcs = frame crc (sx_seq sx) block /\ length pkt1 = length (sx_pkt sx) /\
    drop (Z.to_nat off + 3) pkt1 = drop (Z.to_nat off + 3) (sx_pkt sx).
Proof.
  intros Ho Hl Hn Hst En Eg. unfold xmodem_send_pkt.
  assert (Ei : (sx_state sx =? 0) = false) by (rewrite Hst; by destruct crc). rewrite Ei.
  change [if n =? 1024 then 2 else 1; sx_seq sx; u8 (Z.lnot (sx_seq sx))] with (hdr (sx_seq sx) n).
  set (h := hdr (sx_seq sx) n). assert (Hh : length h = 3%nat) by done.
  assert (Hfr : forall fcs, fcs = (if sx_state sx =? 1 then [Z.shiftr (pkt_crc block) 8; Z.land (pkt_crc block) 255]
                                   else [pkt_cks block]) -> (h ++ block) ++ fcs = frame crc (sx_seq sx) block).
  { intros fcs ->. unfold frame, h, hdr. rewrite <- app_assoc, <- En, Hst. f_equal. f_equal. by destruct crc. }
  clearbody h.
  assert (D1 : drop (Z.to_nat off + 3) (put off h (sx_pkt sx)) = drop (Z.to_nat off + 3) (sx_pkt sx))
    by (rewrite <- Hh; apply drop_put; lia).
  assert (L1 : length (put off h (sx_pkt sx)) = length (sx_pkt sx)) by (apply length_put; lia).
  assert (G1 : get (off + 3) n (put off h (sx_pkt sx)) = block).
  { rewrite <- Eg. unfold get. replace (Z.to_nat (off + 3)) with (Z.to_nat off + 3)%nat by lia. by rewrite D1. }
  assert (G0 : get off (n + 3) (put off h (sx_pkt sx)) = h ++ block).
  { unfold get. rewrite drop_put_start by lia. replace (Z.to_nat (n + 3)) with (length h + Z.to_nat n)%nat by lia.
    rewrite take_app_add. f_equal. rewrite <- Eg. unfold get. f_equal. f_equal. lia. }
  cbv zeta. rewrite G1. eexists _, _. split_and!; [done|exact G0|by apply Hfr|exact L1|exact D1].
Qed.

Lemma snd_tries_line off n sx block out :
  0 <= off -> (Z.to_nat off + 3 + Z.to_nat n <= length (sx_pkt sx))%nat -> 0 <= n ->
  sx_state sx = snd_state crc -> n = len block -> get (off + 3) n (sx_pkt sx) = block ->
  exists pkt',
    (forall l, xmodem_send_pkt line_dev (S fuel) off n sx (mk_line (Some ACK :: l) out) =
      Some (0, sx_set_pkt pkt' (sx_set_seq (u8 (sx_seq sx + 1)) sx), mk_line l (out ++ frame crc (sx_seq sx) block))) /\
    length pkt' = length (sx_pkt sx) /\ drop (Z.to_nat off + 3) pkt' = drop (Z.to_nat off + 3) (sx_pkt sx).
Proof.
  intros Ho Hl Hn Hst En Eg.
  destruct (send_pkt_busy off n sx block) as (fcs & pkt1 & E & G0 & Efcs & L1 & D1); [done..|].
  exists (put off [6] pkt1). split_and!.
  - intros l. rewrite E.
    cbn [snd_tries]. cbn [sx_pkt sx_set_pkt send line_dev]. unfold line_send. cbn [line_in line_out].
    rewrite !len_not_neg. cbn [line_in line_out]. rewrite recv_one. change (1 <=? 0) with false. cbv iota.
    cbn [sx_pkt sx_set_pkt]. rewrite rd_put by lia. change (6 =? 6) with true. cbv iota.
    rewrite G0, <- app_assoc, Efcs. done.
  - rewrite length_put by (simpl; lia). done.
  - rewrite <- D1. apply drop_put_ge; cbn [length]; lia.
Qed.

(** The first packet waits for the request. *)
Lemma send_pkt_line off n sx block out :
  0 <= off -> (Z.to_nat off + 3 + Z.to_nat n <= length (sx_pkt sx))%nat -> 0 <= n ->
  snd_ready crc sx -> n = len block -> get (off + 3) n (sx_pkt sx) = block ->
  exists pkt',
    (forall l, xmodem_send_pkt line_dev (S fuel) off n sx (mk_line (script crc (idle sx) 1 ++ l) out) =
      Some (0, mk_snd (u8 (sx_seq sx + 1)) (snd_state crc) (sx_mode sx) (sx_data_len sx) (sx_data_max sx) pkt',
            mk_line l (out ++ frame crc (sx_seq sx) block))) /\
    length pkt' = length (sx_pkt sx) /\ drop (Z.to_nat off + 3) pkt' = drop (Z.to_nat off + 3) (sx_pkt sx).
Proof.
  intros Ho Hl Hn [Hst|Hst] En Eg.
  - set (sx1 := sx_set_state (snd_state crc) (sx_set_pkt (put off [request crc] (sx_pkt sx)) sx)).
    assert (D1 : drop (Z.to_nat off + 3) (sx_pkt sx1) = drop (Z.to_nat off + 3) (sx_pkt sx))
      by (apply drop_put_ge; cbn [length]; lia).
    assert (L1 : length (sx_pkt sx1) = length (sx_pkt sx)) by (apply length_put; cbn [length]; lia).
    assert (G1 : get (off + 3) n (sx_pkt sx1) = block).
    { rewrite <- Eg. unfold get. replace (Z.to_nat (off + 3)) with (Z.to_nat off + 3)%nat by lia. by rewrite D1. }
    destruct (snd_tries_line off n sx1 block out) as (pkt' & E & E1 & E2); [done|by rewrite L1|done|done|done|done|].
    exists pkt'. rewrite L1 in E1. rewrite D1 in E2. split; [|done]. intros l. refine (eq_trans _ (E l)).
    unfold xmodem_send_pkt. rewrite Hst. change (0 =? 0) with true. unfold idle. rewrite Hst.
    change (script crc (0 =? 0) 1 ++ l) with (Some (request crc) :: Some 6 :: l).
    cbn [snd_wait]. rewrite recv_one. change (1 <? 0) with false. cbv iota zeta. cbn [sx_pkt sx_set_pkt].
    rewrite rd_put by lia. assert (Es : (sx_state sx1 =? 0) = false) by (change (sx_state sx1) with (snd_state crc); by destruct crc).
    rewrite Es. unfold sx1. by destruct crc.
  - destruct (snd_tries_line off n sx block out) as (pkt' & E & E1 & E2); [done..|].
    exists pkt'. split; [|done]. intros l. unfold idle. rewrite Hst. replace (snd_state crc =? 0) with false by (by destruct crc).
    rewrite <- Hst. exact (E l).
Qed.

(** [acc]: the data of the caller that waits in the buffer. *)
Definition sending (mx : Z) (sx : xmodem_snd) (acc : list Z) : Prop :=
  snd_ready crc sx /\ sx_data_max sx = mx /\ sx_data_len sx = len acc /\ len acc < mx /\
    length (sx_pkt sx) = 1027%nat /\ get 3 (len acc) (sx_pkt sx) = acc /\ byte (sx_seq sx).

Definition seq_after (n : nat) (s : Z) : Z := Nat.iter n (fun s => u8 (s + 1)) s.

Lemma frames_app bs1 : forall s bs2,
  frames crc s (bs1 ++ bs2) = frames crc s bs1 ++ frames crc (seq_after (length bs1) s) bs2.
Proof.
  induction bs1 as [|b bs1 IH]; intros s bs2; [done|]. cbn [app frames length]. rewrite IH, app_assoc.
  do 2 f_equal. unfold seq_after. by rewrite Nat.iter_succ_r.
Qed.

(** The buffer is full: it is sent and the sender is ready for the next block. *)
Lemma snd_full mx sx acc out :
  128 <= mx <= 1024 -> snd_ready crc sx -> sx_data_max sx = mx -> sx_data_len sx = mx -> mx = len acc ->
  length (sx_pkt sx) = 1027%nat -> get 3 mx (sx_pkt sx) = acc ->
  exists sx', (forall l, xmodem_send_pkt line_dev (S fuel) 0 mx sx (mk_line (script crc (idle sx) 1 ++ l) out) =
      Some (0, sx', mk_line l (out ++ frame crc (sx_seq sx) acc))) /\
    sending mx (sx_set_len 0 sx') [] /\ sx_seq sx' = u8 (sx_seq sx + 1) /\ idle sx' = false.
Proof.
  intros Hm Hr Hx Hd Ha Hl Eg.
  destruct (send_pkt_line 0 mx sx acc out) as (pkt' & E & El & _); [lia|lia|lia|done|done|done|].
  exists (mk_snd (u8 (sx_seq sx + 1)) (snd_state crc) (sx_mode sx) (sx_data_len sx) (sx_data_max sx) pkt').
  split_and!; [exact E| |done|by destruct crc].
  split_and!; cbn [snd_ready sx_state sx_data_max sx_data_len sx_pkt sx_seq sx_set_len]; try done; try lia;
    [by right|change (len []) with 0; lia|apply u8_range].
Qed.

(** The next part of the caller's data is moved to the buffer. *)
Lemma snd_fill mx sx acc t :
  mx = 128 \/ mx = 1024 -> sending mx sx acc -> len t <= mx - len acc ->
  let sx1 := sx_set_len (u16 (sx_data_len sx + len t)) (sx_set_pkt (put (3 + sx_data_len sx) t (sx_pkt sx)) sx) in
  snd_ready crc sx1 /\ sx_data_max sx1 = mx /\ sx_data_len sx1 = len (acc ++ t) /\ length (sx_pkt sx1) = 1027%nat /\
  get 3 (len (acc ++ t)) (sx_pkt sx1) = acc ++ t /\ byte (sx_seq sx1).
Proof.
  intros Hm (Hr & Hx & Hd & Ha & Hl & Eg & Hb) Ht sx1.
  assert (El : sx_data_len sx + len t = len (acc ++ t)) by (unfold len in *; rewrite length_app; lia).
  unfold sx1. cbn [sx_pkt sx_set_len sx_set_pkt sx_data_len sx_data_max sx_seq].
  rewrite length_put by (unfold len in *; lia).
  split_and!; try done.
  - rewrite El. apply u16_small. rewrite <- El. unfold len in *. lia.
  - apply get_put_end; [done|lia|unfold len in *; lia].
Qed.

Lemma snd_loop_spec mx n : mx = 128 \/ mx = 1024 -> forall src sx acc out,
  sending mx sx acc -> (length src < n)%nat ->
  exists sx' acc' blocks,
    (forall l, snd_loop line_dev (S fuel) n src sx (mk_line (script crc (idle sx) (length blocks) ++ l) out) =
      Some (0, sx', mk_line l (out ++ frames crc (sx_seq sx) blocks))) /\
    sending mx sx' acc' /\ concat blocks ++ acc' = acc ++ src /\ Forall (fun b => len b = mx) blocks /\
    sx_seq sx' = seq_after (length blocks) (sx_seq sx) /\ idle sx' = idle sx && (length blocks =? 0)%nat.
Proof.
  intros Hm. induction n as [|n IH]; intros src sx acc out Hs Hn; [lia|].
  pose proof Hs as (_ & Hx & Hd & Ha & _). cbn [snd_loop]. cbv zeta.
  set (cnt := Z.min (len src) (sx_data_max sx - sx_data_len sx)).
  assert (Hcm : cnt = Z.min (len src) (mx - len acc)) by (unfold cnt; congruence). clearbody cnt.
  assert (Hc : 0 <= cnt <= len src) by (unfold len in *; lia).
  set (t := take (Z.to_nat cnt) src).
  assert (Ht : len t = cnt) by (unfold t, len in *; rewrite length_take; lia).
  destruct (snd_fill mx sx acc t Hm Hs) as (Hr1 & Hx1 & El1 & Lp1 & Gp1 & Hb1); [lia|]. rewrite Ht in *.
  change (sx_data_len (sx_set_pkt _ sx)) with (sx_data_len sx). set (sx1 := sx_set_len _ _) in *.
  change (idle sx) with (idle sx1). change (sx_seq sx) with (sx_seq sx1).
  assert (Et : acc ++ src = (acc ++ t) ++ drop (Z.to_nat cnt) src) by (unfold t; by rewrite <- app_assoc, take_drop).
  assert (Hdr : len (drop (Z.to_nat cnt) src) = len src - cnt) by (unfold len in *; rewrite length_drop; lia).
  rewrite Et. clearbody sx1. rewrite Hx1, El1.
  destruct (Z.eqb_spec (len (acc ++ t)) mx) as [Ef|Ef].
  - rewrite Ef. assert (Ef' : len acc + len t = mx) by (unfold len in *; rewrite length_app in Ef; lia).
    destruct (snd_full mx sx1 (acc ++ t) out) as (sx2 & E2 & Hs2 & Es2 & Ei2); try done; [lia|congruence|congruence|].
    change (sx_seq sx2) with (sx_seq (sx_set_len 0 sx2)) in Es2. change (idle sx2) with (idle (sx_set_len 0 sx2)) in Ei2.
    destruct (Z.eqb_spec (len (drop (Z.to_nat cnt) src)) 0) as [E0|E0].
    + exists (sx_set_len 0 sx2), [], [acc ++ t]. split_and!; try done; [| |by apply Forall_singleton|by rewrite Ei2, andb_false_r].
      { intros l. cbn [length]. rewrite E2. change (0 <? 0) with false. cbv iota. cbn [frames]. by rewrite app_nil_r. }
      cbn [concat app]. destruct (drop (Z.to_nat cnt) src); [by rewrite !app_nil_r|unfold len in E0; simpl in E0; lia].
    + destruct (IH (drop (Z.to_nat cnt) src) (sx_set_len 0 sx2) [] (out ++ frame crc (sx_seq sx1) (acc ++ t)))
        as (sx4 & acc4 & bs & E4 & Hs4 & Ec & Hf & Eq & Ei4); [done|unfold len in *; lia|].
      exists sx4, acc4, ((acc ++ t) :: bs). split_and!; try done.
      * intros l. cbn [length]. change (S (length bs)) with (1 + length bs)%nat. rewrite script_app, <- app_assoc.
        rewrite E2. change (0 <? 0) with false. cbv iota. rewrite Ei2 in E4. rewrite andb_false_r, E4.
        cbn [frames]. rewrite Es2. by rewrite <- app_assoc.
      * cbn [concat]. rewrite <- app_assoc, Ec; by rewrite app_nil_l.
      * by constructor.
      * rewrite Eq, Es2. unfold seq_after. cbn [length]. by rewrite Nat.iter_succ_r.
      * rewrite Ei4, Ei2. by rewrite andb_false_r.
  - assert (E0 : len (drop (Z.to_nat cnt) src) = 0).
    { unfold len in *. rewrite length_app in Ef. lia. }
    rewrite E0. change (0 =? 0) with true. cbv iota. exists sx1, (acc ++ t), []. cbn [frames concat app length script].
    rewrite app_nil_r. split_and!; try done.
    + split_and!; try done. unfold len in *. rewrite length_app in *. lia.
    + destruct (drop (Z.to_nat cnt) src); [by rewrite app_nil_r|unfold len in E0; simpl in E0; lia].
    + by rewrite andb_true_r.
Qed.

(** One padded block of the rest: the data after it is still in the buffer. *)
Lemma snd_rest_step mx off a r' sx out :
  snd_ready crc sx -> 0 <= off -> 0 < len a <= mx -> (r' = [] \/ len a = mx) ->
  (Z.to_nat off + 3 + Z.to_nat mx <= length (sx_pkt sx))%nat -> get (off + 3) (len (a ++ r')) (sx_pkt sx) = a ++ r' ->
  let z := zeros (Z.to_nat (mx - len a)) in
  exists sx',
    (forall l, xmodem_send_pkt line_dev (S fuel) off mx (sx_set_pkt (put (off + 3 + len a) z (sx_pkt sx)) sx)
        (mk_line (script crc (idle sx) 1 ++ l) out) = Some (0, sx', mk_line l (out ++ frame crc (sx_seq sx) (a ++ z)))) /\
    idle sx' = false /\ snd_ready crc sx' /\ length (sx_pkt sx') = length (sx_pkt sx) /\ sx_seq sx' = u8 (sx_seq sx + 1) /\
    sx_mode sx' = sx_mode sx /\ len (a ++ z) = mx /\
    get (off + len a + 3) (len r') (sx_pkt sx') = r'.
Proof.
  intros Hr Ho Ha Hlast Hl Eg z.
  assert (Hz : len z = mx - len a) by (unfold z; rewrite len_zeros; lia).
  assert (Haz : len (a ++ z) = mx) by (unfold len in *; rewrite length_app; lia).
  pose proof (get_app_l _ _ _ _ Eg) as Ga. apply get_app_r in Eg; [|lia].
  set (sx1 := sx_set_pkt _ sx).
  assert (L1 : length (sx_pkt sx1) = length (sx_pkt sx)) by (apply length_put; unfold len in *; lia).
  assert (G1 : get (off + 3) mx (sx_pkt sx1) = a ++ z)
    by (rewrite <- Haz; apply get_put_from; unfold len in *; [lia|done|lia]).
  assert (Gr : get (off + len a + 3) (len r') (sx_pkt sx1) = r').
  { destruct Hlast as [-> | El]; [done|]. assert (Ez : z = []) by (destruct z; [done|unfold len in *; simpl in *; lia]).
    unfold sx1. cbn [sx_pkt sx_set_pkt]. rewrite Ez, put_nil. by replace (off + len a + 3) with (off + 3 + len a) by lia. }
  destruct (send_pkt_line off mx sx1 (a ++ z) out) as (pkt' & E & El & Ed); try done; [lia|lia|].
  exists (mk_snd (u8 (sx_seq sx1 + 1)) (snd_state crc) (sx_mode sx1) (sx_data_len sx1) (sx_data_max sx1) pkt').
  change (idle sx) with (idle sx1). cbn [sx_pkt sx_seq sx_mode sx_state]. split_and!; try done.
  - unfold idle. cbn [sx_state]. by destruct crc.
  - by right.
  - by rewrite El.
  - rewrite <- Gr at 2. apply (get_drop_eq _ _ (off + 3)); [lia|]. by replace (Z.to_nat (off + 3)) with (Z.to_nat off + 3)%nat by lia.
Qed.

(** The rest of the data is sent in blocks of [mx] bytes, the last one padded. *)
Lemma snd_rest_spec mx cap n : 0 < mx -> 0 <= cap -> cap mod mx = 0 -> forall off r sx out,
  snd_ready crc sx -> 0 <= off -> r = [] \/ off mod mx = 0 -> off + len r <= cap ->
  (3 + Z.to_nat cap <= length (sx_pkt sx))%nat -> get (off + 3) (len r) (sx_pkt sx) = r ->
  (length r < n)%nat ->
  exists sx' blocks pad,
    (forall l, snd_rest line_dev (S fuel) n off (len r) mx sx (mk_line (script crc (idle sx) (length blocks) ++ l) out) =
      Some (1, snd_reset sx', mk_line l (out ++ frames crc (sx_seq sx) blocks ++ [EOT]))) /\
    concat blocks = r ++ zeros pad /\ Forall (fun b => len b = mx) blocks /\ Z.of_nat pad < mx /\
    (r = [] -> pad = 0%nat) /\ off + len r + Z.of_nat pad <= cap /\ sx_mode sx' = sx_mode sx.
Proof.
  intros Hm Hcap Cm. induction n as [|n IH]; intros off r sx out Hr Ho Om Hc Hl Eg Hn; [lia|].
  cbn [snd_rest]. destruct (Z.ltb_spec 0 (len r)) as [Hp|Hp]; cycle 1.
  { destruct r as [|c r]; [|unfold len in Hp; simpl in Hp; lia].
    cbn [send line_dev]. unfold line_send. exists sx, [], 0%nat. cbn [line_in line_out frames app length script].
    split_and!; try done. cbn [Z.of_nat]. lia. }
  assert (Om' : off mod mx = 0) by (destruct Om as [-> |Om]; [by change (len []) with 0 in Hp|done]).
  assert (Hfit : off + mx <= cap).
  { rewrite Z.mod_divide in Om', Cm by lia. destruct Om' as [i ->], Cm as [j ->].
    assert (i < j) by nia. nia. }
  cbv zeta. set (cnt := Z.min (len r) mx). assert (Hcnt : cnt = Z.min (len r) mx) by done. clearbody cnt.
  rewrite <- (take_drop (Z.to_nat cnt) r) in Eg.
  assert (Ha : len (take (Z.to_nat cnt) r) = cnt) by (unfold len in *; rewrite length_take; lia).
  assert (Hr' : len (drop (Z.to_nat cnt) r) = len r - cnt) by (unfold len in *; rewrite length_drop; lia).
  assert (Hlast : drop (Z.to_nat cnt) r = [] \/ cnt = mx).
  { destruct (drop (Z.to_nat cnt) r); [by left|right]. unfold len in *. simpl in Hr'. lia. }
  destruct (snd_rest_step mx off (take (Z.to_nat cnt) r) (drop (Z.to_nat cnt) r) sx out)
    as (sx1 & E1 & I1 & Hr1 & L1 & S1 & M1 & B1 & G1); [done|done|lia|by rewrite Ha|lia|done|].
  rewrite Ha in *. set (b := take (Z.to_nat cnt) r ++ zeros (Z.to_nat (mx - cnt))) in *.
  destruct (IH (off + cnt) (drop (Z.to_nat cnt) r) sx1 (out ++ frame crc (sx_seq sx) b))
    as (sx2 & bs & pad & E2 & Ec & Hf & Hpad & Hnil & Hend & Em);
    [done|lia| |lia|by rewrite L1|done|unfold len in *; lia|].
  { destruct Hlast as [Hlast| ->]; [by left|right]. rewrite Zplus_mod, Om', Z_mod_same_full. reflexivity. }
  assert (Run : forall l, match xmodem_send_pkt line_dev (S fuel) off mx
      (sx_set_pkt (put (off + 3 + cnt) (zeros (Z.to_nat (mx - cnt))) (sx_pkt sx)) sx)
      (mk_line (script crc (idle sx) (length (b :: bs)) ++ l) out) with
    | Some (ret, sx0, d) => if ret <? 0 then Some (ret, sx0, d)
        else snd_rest line_dev (S fuel) n (off + cnt) (len r - cnt) mx sx0 d
    | None => None end = Some (1, snd_reset sx2, mk_line l (out ++ frames crc (sx_seq sx) (b :: bs) ++ [4]))).
  { intros l. cbn [length]. change (S (length bs)) with (1 + length bs)%nat. rewrite script_app, <- app_assoc, E1.
    change (0 <? 0) with false. cbv iota. rewrite I1 in E2. rewrite andb_false_r, <- Hr', E2. cbn [frames].
    by rewrite S1, <- !app_assoc. }
  assert (Er : r <> []) by (by intros ->).
  exists sx2, (b :: bs). destruct Hlast as [Hlast|Hlast].
  - rewrite Hlast in *. rewrite (Hnil eq_refl) in *. exists (Z.to_nat (mx - cnt)). cbn [concat].
    rewrite Ec. change (len []) with 0 in *.
    split_and!; try done; [|by constructor|lia|lia|congruence].
    assert (Et : take (Z.to_nat cnt) r = r) by (rewrite <- (take_drop (Z.to_nat cnt) r) at 2; by rewrite Hlast, app_nil_r).
    unfold b. rewrite Et. cbn [zeros replicate]. by rewrite !app_nil_r.
  - exists pad. cbn [concat]. rewrite Ec.
    split_and!; try done; [|by constructor|lia|congruence].
    unfold b. rewrite Hlast, Z.sub_diag, app_nil_r, app_assoc. by rewrite take_drop.
Qed.

Lemma snd_eot_spec mx sx acc out :
  mx = 128 \/ mx = 1024 -> sending mx sx acc -> (length acc < S fuel)%nat ->
  exists sx' blocks pad,
    (forall l, xmodem_snd_eot line_dev (S fuel) sx (mk_line (script crc (idle sx) (length blocks) ++ l) out) =
      Some (1, snd_reset sx', mk_line l (out ++ frames crc (sx_seq sx) blocks ++ [EOT]))) /\
    concat blocks = acc ++ zeros pad /\ Forall (fun b => len b = 128 \/ len b = 1024) blocks /\ (pad < 128)%nat /\
    sx_mode sx' = sx_mode sx.
Proof.
  intros Hm (Hr & Hx & Hd & Ha & Hl & Eg & Hb) Hf. unfold xmodem_snd_eot. rewrite Hd.
  destruct (Z.leb_spec (len acc) (1024 - 128)) as [Hs|Hs]; cbv zeta.
  - destruct (snd_rest_spec 128 896 (S fuel) ltac:(lia) ltac:(lia) eq_refl 0 acc sx out)
      as (sx' & bs & pad & E & Ec & Hbs & Hp & _ & _ & Em); try done; [by right|lia|].
    exists sx', bs, pad. split_and!; try done; [|lia]. eapply Forall_impl; [exact Hbs|]. intros b Hb'. by left.
  - rewrite Hx. destruct Hm as [-> | ->]; [lia|].
    destruct (snd_rest_spec 1024 1024 (S fuel) ltac:(lia) ltac:(lia) eq_refl 0 acc sx out)
      as (sx' & bs & pad & E & Ec & Hbs & Hp & _ & Hend & Em); try done; [by right|lia|rewrite Hl; lia|].
    exists sx', bs, pad. split_and!; try done; [|lia]. eapply Forall_impl; [exact Hbs|]. intros b Hb'. by right.
Qed.

(** A client that sends a whole file. *)
Definition send_all (f : nat) (mode : Z) (data : list Z) (sx : xmodem_snd) (d : line) : option (Z * xmodem_snd * line) :=
  match xmodem_snd_init line_dev f mode sx d with
  | Some (0, sx, d) =>
      match xmodem_snd_loop line_dev f data sx d with
      | Some (0, sx, d) => xmodem_snd_eot line_dev f sx d
      | r => r
      end
  | r => r
  end.

Lemma snd_init_spec mode sx l :
  mode = XMODEM_SND_STD \/ mode = XMODEM_SND_1K -> length (sx_pkt sx) = 1027%nat ->
  xmodem_snd_init line_dev (S fuel) mode sx (mk_line (None :: l) []) =
    Some (0, mk_snd 1 XMODEM_SND_IDLE mode 0 (if mode =? XMODEM_SND_1K then 1024 else 128) (sx_pkt sx), mk_line l []).
Proof.
  intros Hm Hl. unfold xmodem_snd_init. cbn [flush]. cbn [recv line_dev]. unfold line_recv. cbn [line_in line_out].
  rewrite put_nil. by destruct Hm as [-> | ->].
Qed.

Lemma send_all_spec mode data sx :
  mode = XMODEM_SND_STD \/ mode = XMODEM_SND_1K -> length (sx_pkt sx) = 1027%nat -> (length data <= fuel)%nat ->
  exists sx' blocks pad,
    (forall l, send_all (S fuel) mode data sx (mk_line (None :: script crc true (length blocks) ++ l) []) =
      Some (1, sx', mk_line l (frames crc 1 blocks ++ [EOT]))) /\
    concat blocks = data ++ zeros pad /\ Forall (fun b => len b = 128 \/ len b = 1024) blocks /\ (pad < 128)%nat /\
    sx_state sx' = XMODEM_SND_IDLE /\ sx_seq sx' = 1 /\ sx_data_len sx' = 0.
Proof.
  intros Hm Hl Hf. unfold send_all.
  set (mx := if mode =? 1 then 1024 else 128). assert (Hmx : mx = 128 \/ mx = 1024) by (unfold mx; destruct (_ =? _); auto).
  set (sx0 := mk_snd 1 XMODEM_SND_IDLE mode 0 mx (sx_pkt sx)). assert (Hs : sending mx sx0 []).
  { split_and!; try done; [by left|change (len []) with 0; lia]. }
  assert (Ei : forall l, xmodem_snd_init line_dev (S fuel) mode sx (mk_line (None :: l) []) = Some (0, sx0, mk_line l []))
    by (intros l; by apply snd_init_spec).
  change true with (idle sx0). change 1 with (sx_seq sx0) at 2. clearbody sx0. unfold xmodem_snd_loop.
  destruct (snd_loop_spec mx (S fuel) Hmx data sx0 [] []) as (sx1 & acc & bs1 & E1 & Hs1 & Ec1 & Hf1 & Eq1 & Ei1);
    [done|lia|]. cbn [app] in *.
  destruct (snd_eot_spec mx sx1 acc (frames crc (sx_seq sx0) bs1) Hmx) as (sx2 & bs2 & pad & E2 & Ec2 & Hf2 & Hp & Em);
    [done| |].
  { apply (f_equal length) in Ec1. rewrite length_app in Ec1. lia. }
  exists (snd_reset sx2), (bs1 ++ bs2), pad. split_and!; try done.
  - intros l. rewrite Ei. cbv iota. rewrite length_app, script_app, <- app_assoc, E1. cbv iota.
    rewrite <- Ei1, E2, frames_app, <- Eq1, <- app_assoc. done.
  - by rewrite concat_app, Ec2, app_assoc, Ec1.
  - apply Forall_app. split; [|done]. eapply Forall_impl; [exact Hf1|]. cbv beta. intros b ->. done.
Qed.
End transmit.

Lemma blocks_ok blocks :
  Forall byte (concat blocks) -> Forall (fun b => len b = 128 \/ len b = 1024) blocks -> Forall block_ok blocks.
Proof.
  induction blocks as [|b bs IH]; intros Hb Hl; [constructor|]. cbn [concat] in Hb. apply Forall_app in Hb as [Hb Hbs].
  inversion Hl as [|?? Hl1 Hl2]; subst. constructor; [|by apply IH]. split; [unfold len in *; lia|done].
Qed.

Lemma zeros_bytes n : Forall byte (zeros n).
Proof. apply Forall_replicate. unfold byte, below. simpl. lia. Qed.

Lemma fmap_request crc m : Some <$> request crc :: replicate m ACK = Some (request crc) :: replicate m (Some ACK).
Proof. cbn. by rewrite fmap_replicate. Qed.


(** ** Retransmission *)

(** The reply to a packet lands on its first byte: the packet that follows a NAK
    is sent with it in place of the start character. *)
Lemma snd_nak_line fuel crc off n sx block l out :
  0 <= off -> (Z.to_nat off + 3 + Z.to_nat n <= length (sx_pkt sx))%nat -> 0 <= n ->
  sx_state sx = snd_state crc -> n = len block -> get (off + 3) n (sx_pkt sx) = block ->
  exists sx',
    xmodem_send_pkt line_dev (S (S fuel)) off n sx (mk_line (Some NAK :: Some ACK :: l) out) =
      Some (0, sx', mk_line l (out ++ frame crc (sx_seq sx) block ++ NAK :: frame_tail crc (sx_seq sx) block)).
Proof.
  intros Ho Hl Hn Hst En Eg.
  destruct (send_pkt_busy (S fuel) crc off n sx block) as (fcs & pkt1 & E & G0 & Efcs & L1 & D1); [done..|]. rewrite E.
  assert (G1 : get off (n + 3) (put off [NAK] pkt1) = NAK :: tail (hdr (sx_seq sx) n ++ block)).
  { unfold get. rewrite drop_put_start by lia. rewrite <- G0. unfold get.
    replace (Z.to_nat (n + 3)) with (S (Z.to_nat (n + 2))) by lia. cbn [length app firstn]. f_equal.
    destruct (drop (Z.to_nat off) pkt1) as [|x t] eqn:Ed.
    - apply (f_equal length) in Ed. rewrite length_drop in Ed. simpl in Ed. lia.
    - cbn [firstn tail]. rewrite <- drop_drop, Ed. done. }
  cbn [snd_tries]. cbn [sx_pkt sx_set_pkt send line_dev]. unfold line_send. cbn [line_in line_out].
  rewrite !len_not_neg. cbn [line_in line_out]. rewrite !recv_one. change (1 <=? 0) with false. cbv iota.
  cbn [sx_pkt sx_set_pkt]. rewrite rd_put by lia. change (21 =? 6) with false. change (21 =? 24) with false.
  change (21 =? 21) with true. change (0 + 1 =? 10) with false. cbv iota. cbn [negb].
  rewrite !len_not_neg. cbn [line_in line_out]. rewrite ?recv_one. change (1 <=? 0) with false. cbv iota. cbn [sx_pkt sx_set_pkt].
  rewrite rd_put by (rewrite ?length_put; cbn [length]; lia). change (6 =? 6) with true. cbv iota.
  eexists. f_equal. f_equal. f_equal. rewrite G0, G1.
  change (frame_tail crc (sx_seq sx) block) with (tail (frame crc (sx_seq sx) block)). rewrite <- Efcs.
  unfold hdr. cbn [app tail]. rewrite <- !app_assoc. cbn [app]. by rewrite <- ?app_assoc.
Qed.

(** A silence ends the transmission at once. *)
Lemma snd_silence_line fuel crc off n sx block l out :
  0 <= off -> (Z.to_nat off + 3 + Z.to_nat n <= length (sx_pkt sx))%nat -> 0 <= n ->
  sx_state sx = snd_state crc -> n = len block -> get (off + 3) n (sx_pkt sx) = block ->
  exists sx',
    xmodem_send_pkt line_dev (S fuel) off n sx (mk_line (None :: l) out) =
      Some (THINKOS_ETIMEDOUT, sx', mk_line l (out ++ frame crc (sx_seq sx) block)).
Proof.
  intros Ho Hl Hn Hst En Eg.
  destruct (send_pkt_busy fuel crc off n sx block) as (fcs & pkt1 & E & G0 & Efcs & L1 & D1); [done..|]. rewrite E.
  cbn [snd_tries]. cbn [sx_pkt sx_set_pkt send line_dev]. unfold line_send. cbn [line_in line_out].
  rewrite !len_not_neg. cbn [line_in line_out recv line_dev]. unfold line_recv. cbn [line_in line_out].
  eexists. by rewrite G0, <- app_assoc, Efcs.
Qed.

(** a packet that was not acknowledged is not sent again as it was.  After a
    NAK the sender repeats it with the NAK it has just read in place of the start
    character, and counts it as delivered when the next byte is an ACK; after a
    silence it gives up with the time-out at once, the ten attempts being made
    only for a result of +110, which is no result of the system's time-outs. *)
Theorem xmodem_retransmission fuel crc n sx block l out :
  n = 128 \/ n = 1024 -> length (sx_pkt sx) = 1027%nat -> sx_state sx = snd_state crc -> n = len block ->
  get 3 n (sx_pkt sx) = block ->
  (exists sx', xmodem_send_pkt line_dev (S (S fuel)) 0 n sx (mk_line (Some NAK :: Some ACK :: l) out) =
     Some (0, sx', mk_line l (out ++ frame crc (sx_seq sx) block ++ NAK :: frame_tail crc (sx_seq sx) block))) /\
  (exists sx', xmodem_send_pkt line_dev (S fuel) 0 n sx (mk_line (None :: l) out) =
     Some (THINKOS_ETIMEDOUT, sx', mk_line l (out ++ frame crc (sx_seq sx) block))).
Proof.
  intros Hn Hl Hst En Eg. split; [apply snd_nak_line|apply snd_silence_line]; try done; rewrite ?Hl; lia.
Qed.

(** ** Concrete runs *)

Definition demo_snd : xmodem_snd := mk_snd 0 0 0 0 0 (zeros 1027).
Definition demo_rcv : xmodem_rcv := mk_rcv 0 0 0 0 0 0 (zeros 1029).
Definition demo_data : list Z := (fun i => i mod 256) <$> seqZ 5 300.

Lemma demo_bytes : Forall byte demo_data.
Proof. apply Forall_fmap, Forall_true. intros i. apply Z.mod_pos_bound. lia. Qed.

(** The line as a device that delivers bytes, as many as are in it. *)
Definition byte_line : comm_dev line :=
  mk_comm_dev line line_send (fun n tmo d => let '(ret, bs, d) := line_recv n tmo d in (ret, u8 <$> bs, d)).

Lemma byte_line_bytes : byte_dev byte_line.
Proof.
  intros n tmo d. cbn. destruct (line_recv n tmo d) as [[ret bs] d']. cbn. apply Forall_fmap, Forall_true.
  intros x. apply u8_range.
Qed.

Lemma take_bytes_left n : forall l,
  (length (take_bytes n l).1 <= n)%nat /\ (length (take_bytes n l).2 + length (take_bytes n l).1 = length l)%nat.
Proof.
  induction n as [|n IH]; intros [|[c|] l]; cbn [take_bytes]; try (split; simpl; lia).
  destruct (IH l) as [H1 H2]. destruct (take_bytes n l) as [bs l']. cbn in *. lia.
Qed.

Lemma byte_line_supplies : supplies byte_line (fun d => length (line_in d)).
Proof.
  split; [done|]. intros n tmo [l out] Hn. cbn. unfold line_recv. cbn [line_in line_out].
  destruct l as [|[c|] l]; [split; [done|lia]| |split; [cbn; lia|lia]].
  replace (Z.to_nat n) with (S (Z.to_nat n - 1)) by lia. cbn [take_bytes].
  destruct (take_bytes_left (Z.to_nat n - 1) l) as [H1 H2]. destruct (take_bytes (Z.to_nat n - 1) l) as [bs l']. cbn in *.
  unfold len. cbn [length]. lia.
Qed.

Lemma xmodem_rcv_accepts_witness :
  let rx := (xmodem_rcv_init 1 demo_rcv).2 in
  match xmodem_rcv_pkt byte_line 400 rx (mk_line (wire (frame true 1 (zeros 128)) []) []) with
  | Some (ret, rx', _) => ret = 128 /\ received rx rx' ret
  | None => False
  end.
Proof.
  intros rx. set (d := mk_line _ _).
  assert (H : option_map (fun r => r.1.1) (xmodem_rcv_pkt byte_line 400 rx d) = Some 128) by (vm_compute; reflexivity).
  destruct (xmodem_rcv_accepts byte_line 400 rx d byte_line_bytes) as [A B]; [apply zeros_bytes|].
  specialize (B _ byte_line_supplies ltac:(vm_compute; split; congruence) ltac:(apply Nat.ltb_lt; vm_compute; reflexivity)).
  clearbody rx d. destruct B as [[[ret rx'] d'] E]. rewrite E in *. split; [by injection H|]. by eapply A.
Defined.


Lemma xmodem_retransmission_witness :
  let sx := mk_snd 1 (snd_state true) 0 128 128 (zeros 1027) in
  (exists sx', xmodem_send_pkt line_dev 3 0 128 sx (mk_line [Some NAK; Some ACK] []) =
     Some (0, sx', mk_line [] (frame true 1 (zeros 128) ++ NAK :: frame_tail true 1 (zeros 128)))) /\
  (exists sx', xmodem_send_pkt line_dev 2 0 128 sx (mk_line [None] []) =
     Some (THINKOS_ETIMEDOUT, sx', mk_line [] (frame true 1 (zeros 128)))).
Proof.
  intros sx. apply (xmodem_retransmission 1 true 128 sx (zeros 128) [] []);
    [by left|reflexivity|reflexivity|reflexivity|reflexivity].
Defined.
