(* ===== verification/Malloc.v ===== *)
(** * The memory allocator

    src/sdk/libc/malloc.c and calloc.c: a heap of chunks of 8 bytes that grows by
    [sbrk], with the free blocks ("holes") in a list in the order of their
    addresses, first fit, and adjacent holes joined.  The list lives in the
    memory it describes: the first word of every block is its size in chunks, and
    the second word of a hole the address of the next one.

    The abstract heap is the sequence of its blocks, used or free, from
    [__heap_start] to the break.  [malloc] and [free] are operations on it; no
    block of it overlaps another because it is a sequence, and the words of the
    used blocks keep their values. *)

From stdpp Require Import base tactics numbers list gmap.
From Stdlib Require Import ZArith Lia.
From S2P Require Import Prelude CortexM.

(** ** Code *)

Abbreviation CHUNK_BYTES := 8 (only parsing).
Abbreviation MALLOC_CHUNK_BITS := 3 (only parsing).

(** [malloc_heap.holes], [heap_break] and the words of the heap by address. *)
Record heap := mk_heap { holes : Z; heap_break : Z; words : gmap Z Z }.

Definition ld (h : heap) (a : Z) : Z := default 0 (words h !! a).
Definition st (a v : Z) (h : heap) : heap := mk_heap (holes h) (heap_break h) (<[a := v]> (words h)).
Definition set_holes (v : Z) (h : heap) : heap := mk_heap v (heap_break h) (words h).
Definition set_break (v : Z) (h : heap) : heap := mk_heap (holes h) v (words h).

(** The fields of [struct mem] and [struct hole]. *)
Abbreviation block_size h a := (ld h a) (only parsing).
Abbreviation hole_next h a := (ld h (a + 4)) (only parsing).

Definition chunk_align (ptr : Z) : Z := Z.land (u32 (ptr + CHUNK_BYTES - 1)) (u32 (Z.lnot (CHUNK_BYTES - 1))).
Definition chunks2bytes (size : Z) : Z := u32 (Z.shiftl size MALLOC_CHUNK_BITS).
Definition bytes2chunks (bytes : Z) : Z := Z.shiftr (u32 (bytes + CHUNK_BYTES - 1)) MALLOC_CHUNK_BITS.

Section code.
(** Symbols of the linker script. *)
Context (heap_start heap_end : Z).

(** The lists have no more elements than the heap has chunks. *)
Definition chunks : nat := S (Z.to_nat ((heap_end - heap_start) / CHUNK_BYTES)).

Definition sbrk (delta : Z) (h : heap) : Z * heap :=
  let data_end := heap_break h in
  let new_end := u32 (data_end + delta) in
  if heap_end <? new_end then (u32 (-1), h)
  else if new_end <? heap_start then (u32 (-1), h)
  else (data_end, set_break new_end h).

Definition malloc_init (h : heap) : heap :=
  let '(data_seg, h) := sbrk 0 h in
  let delta := int32 (heap_start - data_seg) in
  (sbrk delta h).2.

(** [if (prev) prev->next = v; else malloc_heap.holes = v;] *)
Definition link (prev v : Z) (h : heap) : heap := if prev =? 0 then set_holes v h else st (prev + 4) v h.

Definition malloc_grow (size : Z) (h : heap) : Z * heap :=
  let '(mem, h) := sbrk (chunks2bytes size) h in
  if mem =? u32 (-1) then (0, h) else (mem + 4, st mem size h).

Definition malloc_take (size prev hole : Z) (h : heap) : Z * heap :=
  let mem := hole in
  let '(size, h) :=
    if block_size h hole <=? u32 (size + 1) then
      (if size <? block_size h hole then u32 (size + 1) else size, link prev (hole_next h hole) h)
    else
      let rem := int32 (block_size h hole - size) in
      let next := hole_next h hole in
      let hole := hole + CHUNK_BYTES * size in
      let h := st hole (u32 rem) h in
      let h := st (hole + 4) next h in
      (size, link prev hole h) in
  (mem + 4, st mem size h).

(** First fit. *)
Fixpoint malloc_fit (n : nat) (size prev hole : Z) (h : heap) : option (Z * heap) :=
  match n with
  | O => None
  | S n =>
      if hole =? 0 then Some (malloc_grow size h)
      else if size <=? block_size h hole then Some (malloc_take size prev hole h)
      else malloc_fit n size hole (hole_next h hole) h
  end.

Definition malloc (bytes : Z) (h : heap) : option (Z * heap) :=
  if bytes =? 0 then Some (0, h)
  else
    let size := bytes2chunks (u32 (bytes + 4)) in
    malloc_fit chunks size 0 (holes h) h.

(** The last hole before the block. *)
Fixpoint free_prev (n : nat) (prev new : Z) (h : heap) : option Z :=
  match n with
  | O => None
  | S n =>
      if (hole_next h prev <? new) && negb (hole_next h prev =? 0)
      then free_prev n (hole_next h prev) new h else Some prev
  end.

(** Is there a hole after the block, side by side? *)
Definition free_next (new next : Z) (h : heap) : heap :=
  if next <=? new + CHUNK_BYTES * block_size h new then
    let h := st new (u32 (block_size h new + block_size h next)) h in
    st (new + 4) (hole_next h next) h
  else st (new + 4) next h.

Definition free_after (prev new : Z) (h : heap) : heap :=
  let next := hole_next h prev in
  let '(new, h) :=
    if new <=? prev + CHUNK_BYTES * block_size h prev
    then (prev, st prev (u32 (block_size h prev + block_size h new)) h)
    else
      let h := st (new + 4) (hole_next h prev) h in
      (new, st (prev + 4) new h) in
  if next =? 0 then h else free_next new next h.

Definition free (ptr : Z) (h : heap) : option heap :=
  let mem := u32 (ptr - 4) in
  if negb (mem =? chunk_align mem) then Some h
  else if block_size h mem =? 0 then Some h
  else
    let new := mem in
    if holes h =? 0 then
      let h := st (new + 4) 0 h in
      Some (set_holes new h)
    else if holes h <? new then
      match free_prev chunks (holes h) new h with
      | None => None
      | Some prev => Some (free_after prev new h)
      end
    else
      let next := holes h in
      let h := set_holes new h in
      Some (free_next new next h).

(** The bytes calloc clears, in order: the switch enters the loop at the store
    that leaves a multiple of 8, then [mcn] more rounds of 8 stores. *)
Fixpoint clear_rounds (mcn : nat) (zp k : Z) : list Z :=
  seqZ zp k ++ match mcn with O => [] | S mcn => clear_rounds mcn (zp + k) 8 end.

Definition calloc (nmemb size : Z) (h : heap) : option (Z * list Z * heap) :=
  let nbytes := u32 (nmemb * size) in
  match malloc nbytes h with
  | None => None
  | Some (ptr, h) =>
      let '(mcn, mctmp) := if nbytes <? 8 then (0, nbytes) else ((nbytes - 1) / 8, nbytes mod 8) in
      Some (ptr, clear_rounds (Z.to_nat mcn) ptr (if mctmp =? 0 then 8 else mctmp), h)
  end.
End code.

(** ** The abstract heap *)

(** A block: whether it is used, and its size in chunks. *)
Abbreviation block := (bool * Z)%type.

Definition total (l : list block) : Z := fold_right (fun b n => b.2 + n) 0 l.

(** The address of the first hole of a sequence at [a], [nx] if it has none. *)
Fixpoint first_free (a : Z) (l : list block) (nx : Z) : Z :=
  match l with
  | [] => nx
  | (u, n) :: l => if u then first_free (a + 8 * n) l nx else a
  end.

(** The address of the last one. *)
Fixpoint last_free (a : Z) (l : list block) (p : Z) : Z :=
  match l with
  | [] => p
  | (u, n) :: l => last_free (a + 8 * n) l (if u then p else a)
  end.

(** The words of a sequence of blocks at [a]; [nx] is the next hole after it. *)
Fixpoint layout (h : heap) (a : Z) (l : list block) (nx : Z) : Prop :=
  match l with
  | [] => True
  | (u, n) :: l =>
      0 < n /\ ld h a = n /\ (u = false -> ld h (a + 4) = first_free (a + 8 * n) l nx) /\ layout h (a + 8 * n) l nx
  end.

(** No two holes are adjacent; [u]: the block before is used. *)
Fixpoint coalesced (u : bool) (l : list block) : Prop :=
  match l with
  | [] => True
  | (v, _) :: l => (u = true \/ v = true) /\ coalesced v l
  end.

(** The block that a request takes. *)
Fixpoint take_fit (size : Z) (l : list block) : option (list block) :=
  match l with
  | [] => None
  | (false, n) :: l' =>
      if size <=? n then
        Some (if n <=? size + 1 then (true, n) :: l' else (true, size) :: (false, n - size) :: l')
      else cons (false, n) <$> take_fit size l'
  | b :: l' => cons b <$> take_fit size l'
  end.

(** The block a list of blocks has been released into: adjacent holes joined. *)
Fixpoint coalesce (l : list block) : list block :=
  match l with
  | [] => []
  | (false, n) :: l =>
      match coalesce l with
      | (false, m) :: r => (false, n + m) :: r
      | r => (false, n) :: r
      end
  | b :: l => b :: coalesce l
  end.

(** The words of the used blocks. *)
Fixpoint in_used (a : Z) (l : list block) (x : Z) : Prop :=
  match l with
  | [] => False
  | (u, n) :: l => (u = true /\ a <= x < a + 8 * n) \/ in_used (a + 8 * n) l x
  end.

(** ** Words *)

Lemma ld_st a v h x : ld (st a v h) x = if decide (x = a) then v else ld h x.
Proof.
  unfold ld, st. cbn [words]. destruct (decide (x = a)) as [-> |Hne]; [by rewrite lookup_insert_eq|].
  by rewrite lookup_insert_ne.
Qed.

Lemma ld_st_eq a v h : ld (st a v h) a = v.
Proof. rewrite ld_st. by destruct (decide (a = a)). Qed.

Lemma ld_st_ne a v h x : x <> a -> ld (st a v h) x = ld h x.
Proof. rewrite ld_st. by destruct (decide (x = a)). Qed.

Lemma ld_holes v h x : ld (set_holes v h) x = ld h x.
Proof. done. Qed.

Lemma total_app l1 l2 : total (l1 ++ l2) = total l1 + total l2.
Proof. unfold total. induction l1 as [|b l1 IH]; [done|]. cbn [app fold_right]. rewrite IH. lia. Qed.

Lemma total_one u n : total [(u, n)] = n.
Proof. unfold total. cbn [fold_right snd]. lia. Qed.

Lemma total_cons u n l : total ((u, n) :: l) = n + total l.
Proof. done. Qed.

Lemma first_free_app l1 : forall a l2 nx,
  first_free a (l1 ++ l2) nx = first_free a l1 (first_free (a + 8 * total l1) l2 nx).
Proof.
  induction l1 as [|[u n] l1 IH]; intros a l2 nx; [cbn [app first_free total fold_right]; f_equal; lia|].
  cbn [app first_free]. destruct u; [|done]. rewrite IH. f_equal. f_equal. unfold total. cbn [fold_right snd]. lia.
Qed.

Lemma last_free_app l1 : forall a l2 p,
  last_free a (l1 ++ l2) p = last_free (a + 8 * total l1) l2 (last_free a l1 p).
Proof.
  induction l1 as [|[u n] l1 IH]; intros a l2 p; [cbn [app last_free total fold_right]; f_equal; lia|].
  cbn [app last_free]. rewrite IH. f_equal. unfold total. cbn [fold_right snd]. lia.
Qed.

Lemma layout_app h l1 : forall a l2 nx,
  layout h a (l1 ++ l2) nx <->
  layout h a l1 (first_free (a + 8 * total l1) l2 nx) /\ layout h (a + 8 * total l1) l2 nx.
Proof.
  induction l1 as [|[u n] l1 IH]; intros a l2 nx.
  - cbn [app layout total fold_right]. replace (a + 8 * 0) with a by lia. tauto.
  - cbn [app layout]. rewrite IH, first_free_app.
    replace (a + 8 * total ((u, n) :: l1)) with (a + 8 * n + 8 * total l1) by (unfold total; cbn [fold_right snd]; lia). tauto.
Qed.

Lemma layout_total h l : forall a nx, layout h a l nx -> Z.of_nat (length l) <= total l.
Proof.
  induction l as [|[u n] l IH]; intros a nx H; [done|]. destruct H as (Hn & _ & _ & H). apply IH in H.
  unfold total in *. cbn [length fold_right snd]. lia.
Qed.

Lemma layout_frame h h' l : forall a nx,
  layout h a l nx -> (forall x, a <= x < a + 8 * total l -> ld h' x = ld h x) -> layout h' a l nx.
Proof.
  induction l as [|[u n] l IH]; intros a nx H F; [done|]. cbn [layout] in *. destruct H as (Hn & H1 & H2 & H3).
  pose proof (layout_total _ _ _ _ H3) as Ht.
  assert (Et : total ((u, n) :: l) = n + total l) by done. rewrite Et in F.
  split_and!; [done|rewrite F by lia; done|intros Hu; rewrite F by lia; by apply H2|].
  apply IH; [done|]. intros x Hx. apply F. lia.
Qed.

(** Relinking: the last hole of a sequence, or the list itself, is given another
    successor. *)
Definition linked (h : heap) (a : Z) (l : list block) (nx : Z) : Prop :=
  layout h a l nx /\ holes h = first_free a l nx.

Lemma in_used_app l1 : forall a l2 x, in_used a (l1 ++ l2) x <-> in_used a l1 x \/ in_used (a + 8 * total l1) l2 x.
Proof.
  induction l1 as [|[u n] l1 IH]; intros a l2 x.
  - cbn [app in_used total fold_right]. replace (a + 8 * 0) with a by lia. tauto.
  - cbn [app in_used]. rewrite IH.
    replace (a + 8 * total ((u, n) :: l1)) with (a + 8 * n + 8 * total l1) by (unfold total; cbn [fold_right snd]; lia). tauto.
Qed.

Lemma in_used_range h l : forall a nx x, layout h a l nx -> in_used a l x -> a <= x < a + 8 * total l.
Proof.
  induction l as [|[u n] l IH]; intros a nx x H U; [done|]. destruct H as (Hn & _ & _ & H).
  pose proof (layout_total _ _ _ _ H) as Ht. assert (Et : total ((u, n) :: l) = n + total l) by done. rewrite Et.
  destruct U as [[_ U]|U]; [lia|]. apply IH with (nx := nx) in U; [lia|done].
Qed.

Lemma linked_app h a l1 l2 nx :
  linked h a (l1 ++ l2) nx <->
  linked h a l1 (first_free (a + 8 * total l1) l2 nx) /\ layout h (a + 8 * total l1) l2 nx.
Proof. unfold linked. rewrite layout_app, first_free_app. tauto. Qed.

Lemma linked_frame h h' a l nx :
  linked h a l nx -> holes h' = holes h -> (forall x, a <= x < a + 8 * total l -> ld h' x = ld h x) -> linked h' a l nx.
Proof. intros [L Lh] E F. split; [by eapply layout_frame|by rewrite E]. Qed.

Lemma linked_snoc h a l u n nx :
  linked h a (l ++ [(u, n)]) nx <->
  linked h a l (if u then nx else a + 8 * total l) /\ 0 < n /\ ld h (a + 8 * total l) = n /\
  (u = false -> ld h (a + 8 * total l + 4) = nx).
Proof.
  unfold linked. rewrite layout_app, first_free_app. cbn [layout first_free]. destruct u; tauto.
Qed.

Lemma link_spec v l : forall h a nx,
  0 < a -> linked h a l nx ->
  let h' := link (last_free a l 0) v h in
  linked h' a l v /\ heap_break h' = heap_break h /\
  (forall x, x < a \/ a + 8 * total l <= x -> ld h' x = ld h x) /\ (forall x, in_used a l x -> ld h' x = ld h x).
Proof.
  induction l as [|[u n] l IH] using rev_ind; intros h a nx Ha H; cbv zeta; [done|].
  rewrite linked_snoc in H. destruct H as (H1 & Hn & H2 & H3). pose proof H1 as [Hlay _].
  pose proof (layout_total _ _ _ _ Hlay) as Ht. rewrite last_free_app, total_app.
  replace (total [(u, n)]) with n by (unfold total; cbn [fold_right snd]; lia). cbn [last_free]. destruct u.
  - destruct (IH h a nx Ha H1) as (L & B & F & U). set (h' := link _ v h) in *. split_and!; [|done| |].
    + rewrite linked_snoc. split_and!; [done|done|rewrite F by lia; done|done].
    + intros x Hx. apply F. lia.
    + intros x Hx. rewrite in_used_app in Hx. destruct Hx as [Hx|[[_ Hx]|[]]]; [by apply U|]. apply F. lia.
  - unfold link. destruct (Z.eqb_spec (a + 8 * total l) 0) as [|_]; [lia|].
    set (e := a + 8 * total l) in *. split_and!; [|done| |].
    + rewrite linked_snoc. fold e. split_and!; [|done|rewrite ld_st_ne by lia; done|intros _; apply ld_st_eq].
      destruct H1 as [H1 Hh]. split; [|done]. apply (layout_frame h); [done|]. intros x Hx. fold e in Hx. apply ld_st_ne. lia.
    + intros x Hx. apply ld_st_ne. lia.
    + intros x Hx. rewrite in_used_app in Hx. destruct Hx as [Hx|[[Hx _]|[]]]; [|done].
      apply (in_used_range h _ _ e) in Hx; [|done]. apply ld_st_ne. fold e in Hx. lia.
Qed.

(** ** The invariant *)

(** The linker places the heap at a multiple of 8, as the alignment of the
    sections gives it, and below the end of the address space. *)
Definition heap_range (heap_start heap_end : Z) : Prop :=
  0 < heap_start <= heap_end /\ heap_start mod 8 = 0 /\ heap_end < 4294967288.

Definition heap_ok (heap_start heap_end : Z) (h : heap) (l : list block) : Prop :=
  linked h heap_start l 0 /\ heap_break h = heap_start + 8 * total l /\ heap_break h <= heap_end /\ coalesced true l.

Lemma coalesced_app l1 : forall u l2,
  coalesced u (l1 ++ l2) <-> coalesced u l1 /\ coalesced (match last l1 with Some b => b.1 | None => u end) l2.
Proof.
  induction l1 as [|[v n] l1 IH]; intros u l2; [cbn [app coalesced]; tauto|]. cbn [app coalesced]. rewrite IH.
  destruct l1 as [|b l1]; [cbn [last coalesced fst]; tauto|]. rewrite last_cons_cons.
  destruct (last (b :: l1)) eqn:E; [tauto|]. by apply last_None in E.
Qed.

Lemma coalesced_true u l : coalesced u l -> coalesced true l.
Proof. destruct l as [|[v n] l]; [done|]. intros [_ H]. split; [by left|done]. Qed.

Section allocate.
Context (hs he : Z) (Hr : heap_range hs he) (h : heap).

(** The hole at the end of [l1] becomes a used block. *)
Lemma take_whole l1 n l2 :
  heap_ok hs he h (l1 ++ (false, n) :: l2) ->
  let e := hs + 8 * total l1 in
  let h' := st e n (link (last_free hs l1 0) (first_free (e + 8 * n) l2 0) h) in
  heap_ok hs he h' (l1 ++ (true, n) :: l2) /\ (forall x, in_used hs (l1 ++ (false, n) :: l2) x -> ld h' x = ld h x).
Proof.
  intros (L & B & E & C) e. destruct Hr as (H1 & H2 & H3).
  rewrite linked_app in L. fold e in L. destruct L as [L1 Ly].
  cbn [first_free layout] in L1, Ly. destruct Ly as (Hn & Y1 & Y2 & Y3).
  assert (Ht : 0 <= total l1) by (destruct L1 as [L1 _]; apply layout_total in L1; lia).
  rewrite total_app, total_cons in B. rewrite coalesced_app in C. cbn [coalesced] in C. destruct C as (C1 & C2 & C3).
  destruct (link_spec (first_free (e + 8 * n) l2 0) l1 h hs e) as (K1 & K2 & K3 & K4); [lia|done|].
  set (h1 := link _ _ h) in *. fold e in K3. intros h'. unfold h', heap_ok. split_and!.
  - rewrite linked_app. fold e. cbn [first_free layout]. rewrite ld_st_eq. split_and!; [|lia|done|done|].
    + apply (linked_frame h1); [done|done|]. intros x Hx. fold e in Hx. apply ld_st_ne. lia.
    + apply (layout_frame h); [done|]. intros x Hx. rewrite ld_st_ne by lia. apply K3. lia.
  - cbn [heap_break st]. rewrite K2, total_app, total_cons. lia.
  - cbn [heap_break st]. lia.
  - rewrite coalesced_app. cbn [coalesced]. split_and!; [done|by right|by eapply coalesced_true].
  - intros x Hx. rewrite in_used_app in Hx. fold e in Hx. cbn [in_used] in Hx. destruct Hx as [Hx|[[Hx _]|Hx]]; [|done|].
    + pose proof Hx as Hx'. apply (in_used_range h _ _ e) in Hx'; [|apply L1]. fold e in Hx'.
      rewrite ld_st_ne by lia. by apply K4.
    + apply (in_used_range h _ _ 0) in Hx; [|done]. rewrite ld_st_ne by lia. apply K3. lia.
Qed.

(** Its first part does, and the rest is a hole. *)
Lemma take_part l1 n l2 size :
  heap_ok hs he h (l1 ++ (false, n) :: l2) -> 0 < size < n ->
  let e := hs + 8 * total l1 in
  let e' := e + 8 * size in
  let h0 := st (e' + 4) (first_free (e + 8 * n) l2 0) (st e' (n - size) h) in
  let h' := st e size (link (last_free hs l1 0) e' h0) in
  heap_ok hs he h' (l1 ++ (true, size) :: (false, n - size) :: l2) /\
  (forall x, in_used hs (l1 ++ (false, n) :: l2) x -> ld h' x = ld h x).
Proof.
  intros (L & B & E & C) Hs e e' h0. destruct Hr as (H1 & H2 & H3).
  rewrite linked_app in L. fold e in L. destruct L as [L1 Ly].
  cbn [first_free layout] in L1, Ly. destruct Ly as (Hn & Y1 & Y2 & Y3).
  assert (Ht : 0 <= total l1) by (destruct L1 as [L1 _]; apply layout_total in L1; lia).
  rewrite total_app, total_cons in B. rewrite coalesced_app in C. cbn [coalesced] in C. destruct C as (C1 & C2 & C3).
  assert (F0 : forall x, x < e' \/ e' + 8 <= x -> ld h0 x = ld h x) by (intros x Hx; unfold h0; rewrite !ld_st_ne by lia; done).
  assert (L0' : linked h0 hs l1 e).
  { apply (linked_frame h); [done|done|]. intros x Hx. fold e in Hx. apply F0. lia. }
  destruct (link_spec e' l1 h0 hs e) as (K1 & K2 & K3 & K4); [lia|done|].
  set (h1 := link _ _ h0) in *. fold e in K3. intros h'.
  assert (F1 : forall x, e < x -> ld h' x = ld h0 x) by (intros x Hx; unfold h'; rewrite ld_st_ne by lia; apply K3; lia).
  unfold heap_ok. split_and!.
  - rewrite linked_app. fold e. cbn [first_free layout]. fold e'.
    replace (e' + 8 * (n - size)) with (e + 8 * n) by (unfold e'; lia). split_and!; [|lia|apply ld_st_eq|done|lia| | |].
    + apply (linked_frame h1); [done|done|]. intros x Hx. fold e in Hx. apply ld_st_ne. lia.
    + rewrite F1 by lia. unfold h0. rewrite ld_st_ne by lia. apply ld_st_eq.
    + intros _. rewrite F1 by lia. apply ld_st_eq.
    + apply (layout_frame h); [done|]. intros x Hx. rewrite F1, F0 by lia. done.
  - unfold h'. cbn [heap_break st]. rewrite K2, total_app, !total_cons. cbn [h0 heap_break st]. lia.
  - unfold h'. cbn [heap_break st]. rewrite K2. done.
  - rewrite coalesced_app. cbn [coalesced]. split_and!; [done|by right|by left|done].
  - intros x Hx. rewrite in_used_app in Hx. fold e in Hx. cbn [in_used] in Hx. destruct Hx as [Hx|[[Hx _]|Hx]]; [|done|].
    + pose proof Hx as Hx'. apply (in_used_range h _ _ e) in Hx'; [|apply L1]. fold e in Hx'.
      unfold h'. rewrite ld_st_ne by lia. rewrite K4 by done. apply F0. lia.
    + apply (in_used_range h _ _ 0) in Hx; [|done]. rewrite F1 by lia. apply F0. lia.
Qed.

(** The block at the end of [l1], a hole that fits, is taken. *)
Lemma malloc_take_spec l1 n l2 size :
  heap_ok hs he h (l1 ++ (false, n) :: l2) -> 0 < size <= n -> n < 536870912 ->
  let l' := l1 ++ (if n <=? size + 1 then (true, n) :: l2 else (true, size) :: (false, n - size) :: l2) in
  exists h', malloc_take size (last_free hs l1 0) (hs + 8 * total l1) h = (hs + 8 * total l1 + 4, h') /\
    heap_ok hs he h' l' /\ (forall x, in_used hs (l1 ++ (false, n) :: l2) x -> ld h' x = ld h x).
Proof.
  intros K Hs Hn l'. pose proof K as ([Ly _] & _). rewrite layout_app in Ly. destruct Ly as [_ (_ & Y1 & Y2 & _)].
  specialize (Y2 eq_refl). unfold malloc_take. rewrite Y1, Y2, (u32_small (size + 1)) by lia. unfold l'.
  destruct (Z.leb_spec n (size + 1)) as [Hfit|Hsplit].
  - replace (if size <? n then size + 1 else size) with n by (destruct (Z.ltb_spec size n); lia).
    eexists. split; [done|]. by apply take_whole.
  - replace (u32 (int32 (n - size))) with (n - size) by (rewrite int32_small by lia; symmetry; apply u32_small; lia).
    eexists. split; [done|]. apply take_part; [done|lia].
Qed.

Lemma malloc_grow_spec l size :
  heap_ok hs he h l -> 0 < size -> heap_break h + 8 * size < 4294967296 ->
  exists h',
    (if he <? heap_break h + 8 * size then malloc_grow hs he size h = (0, h') /\ h' = h
     else malloc_grow hs he size h = (hs + 8 * total l + 4, h') /\ heap_ok hs he h' (l ++ [(true, size)])) /\
    (forall x, in_used hs l x -> ld h' x = ld h x).
Proof.
  intros (L & B & E & C) Hs Ho. destruct Hr as (H1 & H2 & H3). pose proof L as [Ll _].
  pose proof (layout_total _ _ _ _ Ll) as Ht.
  unfold malloc_grow, sbrk, chunks2bytes.
  rewrite Z.shiftl_mul_pow2 by lia. change (2 ^ 3) with 8. rewrite (Z.mul_comm size).
  rewrite (u32_small (8 * size)), (u32_small (heap_break h + 8 * size)) by lia.
  destruct (Z.ltb_spec he (heap_break h + 8 * size)) as [Hlt|Hle]; [by exists h|].
  destruct (Z.ltb_spec (heap_break h + 8 * size) hs); [lia|].
  destruct (Z.eqb_spec (heap_break h) (u32 (-1))) as [E1|_]; [change (u32 (-1)) with 4294967295 in E1; lia|].
  eexists. split; [split; [by rewrite B|]|].
  - split_and!.
    + rewrite linked_snoc. rewrite <- B. split_and!; [|done|apply ld_st_eq|done]. destruct L as [_ Lh]. split; [|done].
      apply (layout_frame h); [done|]. intros x Hx. rewrite ld_st_ne by lia. done.
    + rewrite total_app, total_one. cbn [heap_break set_break st]. lia.
    + cbn [heap_break set_break st]. lia.
    + rewrite coalesced_app. split; [done|]. split; [by right|done].
  - intros x Hx. apply (in_used_range h _ _ 0) in Hx; [|done]. rewrite ld_st_ne by lia. done.
Qed.

(** What a request for [size] chunks does to the blocks [l]. *)
Definition allocated (size : Z) (l : list block) (p : Z) (h' : heap) : Prop :=
  (forall x, in_used hs l x -> ld h' x = ld h x) /\
  match take_fit size l with
  | Some l' => exists l1 n l2, l = l1 ++ (false, n) :: l2 /\ size <= n /\ p = hs + 8 * total l1 + 4 /\
      l' = l1 ++ (if n <=? size + 1 then (true, n) :: l2 else (true, size) :: (false, n - size) :: l2) /\
      heap_ok hs he h' l'
  | None => if he <? heap_break h + 8 * size then p = 0 /\ h' = h
            else p = hs + 8 * total l + 4 /\ heap_ok hs he h' (l ++ [(true, size)])
  end.

Lemma take_fit_app size l1 l2 : take_fit size l1 = None -> take_fit size (l1 ++ l2) = app l1 <$> take_fit size l2.
Proof.
  induction l1 as [|[u n] l1 IH]; intros H; [cbn [app]; by destruct (take_fit size l2)|]. cbn [app take_fit] in *.
  assert (H1 : take_fit size l1 = None) by (destruct u, (size <=? n), (take_fit size l1); done).
  rewrite IH by done. destruct u; [|destruct (size <=? n); [done|]]; by destruct (take_fit size l2).
Qed.

(** The walk ends at the first hole that fits, or at the end of the list. *)
Lemma malloc_fit_spec size : 0 < size -> forall l2 l1 n,
  heap_ok hs he h (l1 ++ l2) -> take_fit size l1 = None -> (length l2 < n)%nat ->
  exists p h', malloc_fit hs he n size (last_free hs l1 0) (first_free (hs + 8 * total l1) l2 0) h = Some (p, h') /\
    (if take_fit size (l1 ++ l2) then allocated size (l1 ++ l2) p h' else (p, h') = malloc_grow hs he size h).
Proof.
  intros Hs. induction l2 as [|[u m] l2 IH]; intros l1 n K T Hn.
  - destruct n as [|n]; [cbn [length] in Hn; lia|]. cbn [first_free malloc_fit]. change (0 =? 0) with true. cbv iota.
    rewrite app_nil_r, T. destruct (malloc_grow hs he size h) as [p h']. by exists p, h'.
  - pose proof K as ([Ly _] & B & Bh & _). rewrite layout_app in Ly. destruct Ly as [Y0 (Y1 & Y2 & Y3 & Y4)].
    apply layout_total in Y0, Y4. destruct Hr as (H1 & _ & H3). rewrite total_app, total_cons in B.
    destruct (u || negb (size <=? m)) eqn:Hu.
    + assert (T' : take_fit size (l1 ++ [(u, m)]) = None).
      { rewrite take_fit_app by done. cbn [take_fit]. destruct u; [done|]. by destruct (size <=? m). }
      assert (E : l1 ++ (u, m) :: l2 = (l1 ++ [(u, m)]) ++ l2) by (by rewrite <- app_assoc).
      specialize (IH (l1 ++ [(u, m)])). rewrite last_free_app, total_app, total_one, <- E in IH.
      cbn [last_free] in IH. replace (hs + 8 * (total l1 + m)) with (hs + 8 * total l1 + 8 * m) in IH by lia.
      cbn [first_free length] in *. destruct u; [apply IH; [done|done|lia]|].
      destruct n as [|n]; [lia|]. cbn [malloc_fit].
      destruct (Z.eqb_spec (hs + 8 * total l1) 0); [lia|]. rewrite Y2, Y3 by done.
      cbn [orb negb] in Hu. destruct (size <=? m); [done|]. apply IH; [done|done|lia].
    + destruct u; [done|]. cbn [orb negb] in Hu. destruct (Z.leb_spec size m) as [Hsm|]; [|done].
      destruct n as [|n]; [lia|]. cbn [malloc_fit first_free].
      destruct (Z.eqb_spec (hs + 8 * total l1) 0); [lia|]. rewrite Y2. destruct (Z.leb_spec size m); [|lia].
      destruct (malloc_take_spec l1 m l2 size K) as (h' & -> & K' & F); [lia|lia|]. eexists _, h'. split; [done|].
      unfold allocated. rewrite take_fit_app by done. cbn [take_fit]. destruct (Z.leb_spec size m); [|lia].
      cbn [fmap option_fmap option_map]. split; [done|]. by exists l1, m, l2.
Qed.
End allocate.

Fixpoint block_at (a : Z) (l : list block) (b : Z) (u : bool) (n : Z) : Prop :=
  match l with
  | [] => False
  | (v, m) :: l => (b = a /\ u = v /\ n = m) \/ block_at (a + 8 * m) l b u n
  end.

Lemma block_at_app l1 : forall a l2 b u n,
  block_at a (l1 ++ l2) b u n <-> block_at a l1 b u n \/ block_at (a + 8 * total l1) l2 b u n.
Proof.
  induction l1 as [|[v m] l1 IH]; intros a l2 b u n.
  - cbn [app block_at total fold_right]. replace (a + 8 * 0) with a by lia. tauto.
  - cbn [app block_at]. rewrite IH, total_cons.
    replace (a + 8 * m + 8 * total l1) with (a + 8 * (m + total l1)) by lia. tauto.
Qed.

(** Used blocks stay, and the new one is none of their words. *)
Definition extends (a : Z) (l l' : list block) (b n : Z) : Prop :=
  block_at a l' b true n /\ (forall x, b <= x < b + 8 * n -> ~ in_used a l x) /\
  (forall c m, block_at a l c true m -> block_at a l' c true m).

Lemma bytes2chunks_spec bytes : 0 <= bytes -> bytes + 7 < 4294967296 -> bytes2chunks bytes = (bytes + 7) / 8.
Proof.
  intros H1 H2. unfold bytes2chunks. rewrite u32_small by lia. rewrite Z.shiftr_div_pow2 by lia. f_equal. lia.
Qed.

Lemma extends_hole h a l1 n l2 size :
  layout h a (l1 ++ (false, n) :: l2) 0 -> 0 < size <= n ->
  let l' := l1 ++ (if n <=? size + 1 then (true, n) :: l2 else (true, size) :: (false, n - size) :: l2) in
  exists m, size <= m /\ extends a (l1 ++ (false, n) :: l2) l' (a + 8 * total l1) m.
Proof.
  intros L Hs l'. apply layout_app in L as [L1 (_ & _ & _ & L2)].
  assert (D : forall m x, m <= n -> a + 8 * total l1 <= x < a + 8 * total l1 + 8 * m ->
    ~ in_used a (l1 ++ (false, n) :: l2) x).
  { intros m x Hm Hx U. apply in_used_app in U as [U|[[U _]|U]]; [|done|].
    - apply (in_used_range _ _ _ _ _ L1) in U. lia.
    - apply (in_used_range _ _ _ _ _ L2) in U. lia. }
  unfold l'. destruct (Z.leb_spec n (size + 1)).
  - exists n. split; [lia|]. split_and!; [|intros x; by apply D|].
    + rewrite block_at_app. right. by left.
    + intros c m. rewrite !block_at_app. cbn [block_at]. intros [?|[(_ & ? & _)|?]]; [by left|done|by do 2 right].
  - exists size. split; [lia|]. split_and!; [|intros x; apply D; lia|].
    + rewrite block_at_app. right. by left.
    + intros c m. rewrite !block_at_app. cbn [block_at]. intros [?|[(_ & ? & _)|?]]; [by left|done|]. do 3 right.
      by replace (a + 8 * total l1 + 8 * size + 8 * (n - size)) with (a + 8 * total l1 + 8 * n) by lia.
Qed.

Lemma extends_end h a l size :
  layout h a l 0 -> extends a l (l ++ [(true, size)]) (a + 8 * total l) size.
Proof.
  intros L. split_and!.
  - rewrite block_at_app. right. by left.
  - intros x Hx U. apply (in_used_range _ _ _ _ _ L) in U. lia.
  - intros c m B. rewrite block_at_app. by left.
Qed.

(** A request, up to the growth of the heap. *)
Lemma malloc_fits hs he h l bytes :
  heap_range hs he -> heap_ok hs he h l -> 0 < bytes -> bytes + 11 < 4294967296 ->
  let size := (bytes + 11) / 8 in
  exists p h', malloc hs he bytes h = Some (p, h') /\
    (if take_fit size l then allocated hs he h size l p h' else (p, h') = malloc_grow hs he size h).
Proof.
  intros Hr K Hb Ho size. pose proof Hr as (H1 & H2 & H3). pose proof K as ([Ly Lh] & B & Bh & _).
  pose proof (layout_total _ _ _ _ Ly) as Ht.
  assert (Hsz : 0 < size) by (unfold size; Z.div_mod_to_equations; lia).
  unfold malloc. destruct (Z.eqb_spec bytes 0) as [|_]; [lia|].
  rewrite (u32_small (bytes + 4)), bytes2chunks_spec by lia.
  replace (bytes + 4 + 7) with (bytes + 11) by lia. fold size. rewrite Lh.
  destruct (malloc_fit_spec hs he Hr h size Hsz l [] (chunks hs he)) as (p & h' & E & A); [done|done| |].
  { unfold chunks. assert (total l <= (he - hs) / 8) by (apply Z.div_le_lower_bound; lia). lia. }
  cbn [app last_free] in E, A. change (total []) with 0 in E. replace (hs + 8 * 0) with hs in E by lia. by exists p, h'.
Qed.

(** A request that does not wrap around. *)
Lemma malloc_spec hs he h l bytes :
  heap_range hs he -> heap_ok hs he h l -> 0 < bytes -> he + bytes + 11 < 4294967296 ->
  exists p h', malloc hs he bytes h = Some (p, h') /\ allocated hs he h ((bytes + 11) / 8) l p h'.
Proof.
  intros Hr K Hb Ho. pose proof Hr as (H1 & _). pose proof K as (_ & _ & Bh & _).
  destruct (malloc_fits hs he h l bytes Hr K Hb) as (p & h' & E & A); [lia|]. exists p, h'. split; [done|].
  set (size := (bytes + 11) / 8) in *. destruct (take_fit size l) eqn:T; [done|].
  destruct (malloc_grow_spec hs he Hr h l size K) as (h1 & G & F); [unfold size; Z.div_mod_to_equations; lia..|].
  unfold allocated. rewrite T. destruct (he <? heap_break h + 8 * size); destruct G as [G G']; rewrite G in A; by simplify_eq.
Qed.


(** ** Release *)

Lemma coalesce_id u l : coalesced u l -> coalesce l = l.
Proof.
  revert u. induction l as [|[v n] l IH]; intros u C; [done|]. destruct C as [_ C]. cbn [coalesce]. rewrite (IH _ C).
  destruct v; [done|]. destruct l as [|[[] m] l]; [done|done|]. by destruct C as [[|] _].
Qed.

Lemma coalesce_used l1 m r : coalesce (l1 ++ (true, m) :: r) = coalesce l1 ++ (true, m) :: coalesce r.
Proof.
  induction l1 as [|[u n] l1 IH]; [done|]. cbn [app coalesce]. rewrite IH. destruct u; [done|].
  by destruct (coalesce l1) as [|[[] k] t].
Qed.

(** A hole of [m] chunks before [l]. *)
Definition merge (m : Z) (l : list block) : list block :=
  match l with
  | (false, k) :: r => (false, m + k) :: r
  | l => (false, m) :: l
  end.

(** The sequence is empty or ends with a used block. *)
Definition ends_used (l : list block) : Prop := l = [] \/ exists l0 k, l = l0 ++ [(true, k)].

Lemma coalesce_after l1 r : ends_used l1 -> coalesced true l1 -> coalesce (l1 ++ r) = l1 ++ coalesce r.
Proof.
  intros [-> |(l0 & k & ->)] C; [done|]. rewrite <- app_assoc. cbn [app]. rewrite coalesce_used.
  apply coalesced_app in C as [C _]. rewrite (coalesce_id _ _ C). by rewrite <- app_assoc.
Qed.

Lemma coalesce_hole u m l : coalesced u l -> coalesce ((false, m) :: l) = merge m l.
Proof. intros C. cbn [coalesce]. rewrite (coalesce_id _ _ C). by destruct l as [|[[] k] l]. Qed.

Lemma coalesce_hole2 u s n l : coalesced u l -> coalesce ((false, s) :: (false, n) :: l) = merge (s + n) l.
Proof.
  intros C. change (coalesce ((false, s) :: (false, n) :: l)) with
    (match coalesce ((false, n) :: l) with (false, m) :: r => (false, s + m) :: r | r => (false, s) :: r end).
  rewrite (coalesce_hole _ _ _ C). destruct l as [|[[] k] l]; [done|done|]. cbn [merge]. by rewrite Z.add_assoc.
Qed.

Lemma ends_cases l : coalesced true l -> ends_used l \/ exists l0 s, l = l0 ++ [(false, s)] /\ ends_used l0.
Proof.
  destruct l as [|[[] k] l _] using rev_ind; intros C; [by left; left|by left; right; eauto|].
  right. exists l, k. split; [done|]. apply coalesced_app in C as [_ [C _]].
  destruct l as [|[[] j] l _] using rev_ind; [by left|by right; eauto|]. rewrite last_snoc in C. by destruct C.
Qed.

Lemma merge_coalesced u m l : coalesced true l -> u = true -> coalesced u (merge m l).
Proof.
  intros C ->. destruct l as [|[[] k] l]; cbn [merge coalesced] in *; [tauto|tauto|]. destruct C as [_ C]. tauto.
Qed.

Lemma ends_used_last l : ends_used l -> match last l with Some b => b.1 | None => true end = true.
Proof. intros [-> |(l0 & k & ->)]; [done|]. by rewrite last_snoc. Qed.

Lemma first_free_ge h l : forall a nx, layout h a l nx -> first_free a l nx = nx \/ a <= first_free a l nx.
Proof.
  induction l as [|[u n] l IH]; intros a nx L; [by left|]. destruct L as (Hn & _ & _ & L). cbn [first_free].
  destruct u; [|right; lia]. destruct (IH _ _ L); [by left|right; lia].
Qed.

Lemma total_merge m l : total (merge m l) = m + total l.
Proof. destruct l as [|[[] k] l]; cbn [merge]; rewrite ?total_cons; lia. Qed.

Section release.
Context (hs : Z).

(** The hole at the end of [l1] is joined with the one that follows it, or linked
    to it. *)
Lemma free_next_spec h l1 m l2 :
  let q := hs + 8 * total l1 in
  let next := first_free (q + 8 * m) l2 0 in
  0 < hs -> linked h hs l1 q -> 0 < m -> ld h q = m -> layout h (q + 8 * m) l2 0 -> m + total l2 < 4294967296 ->
  next <> 0 ->
  let h' := free_next q next h in
  linked h' hs (l1 ++ merge m l2) 0 /\ heap_break h' = heap_break h /\
  (forall x, x < q \/ q + 8 * m + 8 <= x -> ld h' x = ld h x) /\
  (forall x, in_used (q + 8 * m) l2 x -> ld h' x = ld h x).
Proof.
  intros q next Hs L Hm Eq L2 Ho Hn h'. pose proof L as [Ly _]. pose proof (layout_total _ _ _ _ Ly) as Ht.
  assert (Q : hs <= q) by lia. unfold h', free_next. rewrite Eq. unfold next in *.
  assert (G : forall h1, holes h1 = holes h -> (forall x, x < q -> ld h1 x = ld h x) -> linked h1 hs l1 q).
  { intros h1 E1 F1. apply (linked_frame h); [done|done|]. intros x Hx. apply F1. unfold q. lia. }
  destruct l2 as [|[[] k] l2]; [done| |]; cbn [first_free layout] in *; destruct L2 as (Hk & K1 & K2 & K3).
  - destruct (first_free_ge _ _ _ _ K3) as [E|E]; [done|].
    destruct (Z.leb_spec (first_free (q + 8 * m + 8 * k) l2 0) (q + 8 * m)); [lia|].
    pose proof (layout_total _ _ _ _ K3) as Ht2. cbn [merge].
    assert (F : forall x, x <> q + 4 -> ld (st (q + 4) (first_free (q + 8 * m + 8 * k) l2 0) h) x = ld h x)
      by (intros x Hx; by apply ld_st_ne).
    split_and!; [|done|intros x Hx; apply F; lia|].
    + rewrite linked_app. fold q. cbn [first_free layout]. split_and!; [|done| | |done| |done|].
      * apply G; [done|]. intros x Hx. apply F. lia.
      * rewrite F by lia. done.
      * intros _. apply ld_st_eq.
      * rewrite F by lia. done.
      * apply (layout_frame h); [done|]. intros x Hx. apply F. lia.
    + intros x Hx. apply F. cbn [in_used] in Hx. destruct Hx as [[_ Hx]|Hx]; [lia|].
      apply (in_used_range _ _ _ _ _ K3) in Hx. lia.
  - rewrite Z.leb_refl. specialize (K2 eq_refl). rewrite K1, (ld_st_ne q), K2 by lia.
    pose proof (layout_total _ _ _ _ K3) as Ht2. rewrite total_cons in Ho. rewrite u32_small by lia. cbn [merge].
    set (h1 := st (q + 4) _ _). assert (F : forall x, x < q \/ q + 8 <= x -> ld h1 x = ld h x)
      by (intros x Hx; unfold h1; rewrite !ld_st_ne by lia; done).
    split_and!; [|done|intros x Hx; apply F; lia|].
    + rewrite linked_app. fold q. cbn [first_free layout]. replace (q + 8 * (m + k)) with (q + 8 * m + 8 * k) by lia.
      split_and!; [|lia| | |].
      * apply G; [done|]. intros x Hx. apply F. lia.
      * unfold h1. rewrite ld_st_ne by lia. apply ld_st_eq.
      * intros _. apply ld_st_eq.
      * apply (layout_frame h); [done|]. intros x Hx. apply F. lia.
    + intros x Hx. apply F. cbn [in_used] in Hx. destruct Hx as [[Hx _]|Hx]; [done|].
      apply (in_used_range _ _ _ _ _ K3) in Hx. lia.
Qed.

(** The walk to the last hole before [new]. *)
Lemma free_prev_spec h new nx : nx = 0 \/ new <= nx -> forall l n p a,
  0 < a -> ld h (p + 4) = first_free a l nx -> layout h a l nx -> a + 8 * total l <= new -> (length l < n)%nat ->
  free_prev n p new h = Some (last_free a l p).
Proof.
  intros Hx. induction l as [|[u m] l IH]; intros n p a Ha E L Hb Hn;
    (destruct n as [|n]; [cbn [length] in Hn; lia|]).
  - cbn [free_prev last_free first_free] in *. rewrite E. destruct (Z.ltb_spec nx new); [|done].
    destruct (Z.eqb_spec nx 0); [done|lia].
  - cbn [layout] in L. destruct L as (Hm & L1 & L2 & L3). pose proof (layout_total _ _ _ _ L3) as Ht.
    rewrite total_cons in Hb. cbn [last_free first_free length] in *. destruct u; [apply IH; [lia|done|done|lia|lia]|].
    cbn [free_prev]. rewrite E. destruct (Z.ltb_spec a new); [|lia]. destruct (Z.eqb_spec a 0); [lia|]. cbn [negb andb].
    apply IH; [lia|by apply L2|done|lia|lia].
Qed.

(** The end of the release: the hole at the end of [l1] is in the list. *)
Lemma free_end h l1 m l2 :
  let q := hs + 8 * total l1 in
  let next := first_free (q + 8 * m) l2 0 in
  0 < hs -> linked h hs l1 q -> 0 < m -> ld h q = m -> layout h (q + 8 * m) l2 0 -> m + total l2 < 4294967296 ->
  (next = 0 -> ld h (q + 4) = 0) ->
  let h' := if next =? 0 then h else free_next q next h in
  linked h' hs (l1 ++ merge m l2) 0 /\ heap_break h' = heap_break h /\
  (forall x, x < q -> ld h' x = ld h x) /\ (forall x, in_used (q + 8 * m) l2 x -> ld h' x = ld h x).
Proof.
  intros q next Hs L Hm Eq L2 Ho H0 h'. unfold h'. destruct (Z.eqb_spec next 0) as [E|E].
  - split_and!; try done. specialize (H0 E). rewrite linked_app. fold q. unfold next in E.
    destruct l2 as [|[[] k] l2]; cbn [merge first_free layout] in *; [tauto|by rewrite E in *; tauto|].
    destruct L as [L _]. apply layout_total in L. lia.
  - destruct (free_next_spec h l1 m l2) as (A1 & A2 & A3 & A4); try done. fold q next in A1, A2, A3, A4.
    split_and!; try done. intros x Hx. apply A3. by left.
Qed.

(** Either every block of a sequence is used, or it has a first hole. *)
Lemma free_dec l : forall a,
  (forall v p, first_free a l v = v /\ last_free a l p = p) \/
  exists l1 s l2, l = l1 ++ (false, s) :: l2 /\ (forall v, first_free a l1 v = v).
Proof.
  induction l as [|[u n] l IH]; intros a; [by left|]. destruct u; [|by right; exists [], n, l].
  destruct (IH (a + 8 * n)) as [H|(l1 & s & l2 & -> & H)]; [by left|]. right. by exists ((true, n) :: l1), s, l2.
Qed.

(** The last hole ends within the sequence. *)
Lemma last_free_end h l : forall a nx,
  0 < a -> layout h a l nx -> last_free a l 0 <> 0 ->
  a <= last_free a l 0 /\ last_free a l 0 + 8 * ld h (last_free a l 0) <= a + 8 * total l /\
  ld h (last_free a l 0 + 4) = nx.
Proof.
  induction l as [|[u n] l IH] using rev_ind; intros a nx Ha L Hn; [done|].
  rewrite last_free_app, total_app, total_one in *. apply layout_app in L as [L1 (Hp & L2 & L3 & _)]. cbn [last_free first_free] in *.
  destruct u; [|apply layout_total in L1; specialize (L3 eq_refl); lia]. specialize (IH _ _ Ha L1 Hn). lia.
Qed.
End release.

Section free_proof.
Context (hs he : Z) (Hr : heap_range hs he) (h : heap) (l1 l2 : list block) (n : Z).
Context (K : heap_ok hs he h (l1 ++ (true, n) :: l2)).
Let b : Z := hs + 8 * total l1.
Let nx : Z := first_free (b + 8 * n) l2 0.

(** What the invariant says around the block. *)
Lemma around :
  linked h hs l1 nx /\ 0 < n /\ ld h b = n /\ layout h (b + 8 * n) l2 0 /\ 0 <= total l1 /\ 0 <= total l2 /\
  (nx = 0 \/ b + 8 * n <= nx) /\ b + 8 * n + 8 * total l2 = heap_break h /\ heap_break h <= he /\
  coalesced true l1 /\ coalesced true l2 /\ 0 < hs /\ he < 4294967288.
Proof.
  destruct K as (L & B & E & C). rewrite linked_app in L. fold b in L. cbn [first_free layout] in L. fold nx in L.
  destruct L as (L & Hn & En & _ & L2). rewrite total_app, total_cons in B. apply coalesced_app in C as [C1 [_ C2]].
  pose proof L as [L1 _]. apply layout_total in L1. pose proof (layout_total _ _ _ _ L2) as T2.
  destruct Hr as (H1 & _ & H3). split_and!; try done; try lia; unfold b; try lia. apply (first_free_ge _ _ _ _ L2).
Qed.

(** The final state, from that of the last hole. *)
Definition freed (h' : heap) : Prop :=
  heap_ok hs he h' (coalesce (l1 ++ (false, n) :: l2)) /\
  (forall x, in_used hs l1 x \/ in_used (b + 8 * n) l2 x -> ld h' x = ld h x).

Lemma freed_intro h' l0 m :
  linked h' hs (l0 ++ merge m l2) 0 -> heap_break h' = heap_break h ->
  coalesce (l1 ++ (false, n) :: l2) = l0 ++ merge m l2 -> total l0 + m = total l1 + n ->
  ends_used l0 -> coalesced true l0 ->
  (forall x, in_used hs l1 x \/ in_used (b + 8 * n) l2 x -> ld h' x = ld h x) -> freed h'.
Proof.
  intros L B E T U C F. destruct around as (_ & _ & _ & _ & _ & _ & _ & A1 & A2 & _ & C2 & _). split; [|done]. rewrite E.
  split_and!; [done| |by rewrite B|].
  - rewrite B, total_app, total_merge, <- A1. unfold b. lia.
  - rewrite coalesced_app. split; [done|]. apply merge_coalesced; [done|by apply ends_used_last].
Qed.

(** The hole is a new one: it has been linked after [l1]. *)
Lemma freed_linked h1 :
  ends_used l1 -> heap_break h1 = heap_break h -> linked h1 hs l1 b ->
  (forall x, b <= x -> x <> b + 4 -> ld h1 x = ld h x) -> (forall x, in_used hs l1 x -> ld h1 x = ld h x) ->
  (nx = 0 -> ld h1 (b + 4) = 0) -> freed (if nx =? 0 then h1 else free_next b nx h1).
Proof.
  intros U B L F1 F2 H0. destruct around as (_ & Hn & En & L2 & T1 & T2 & _ & A1 & A2 & C1 & C2 & Hs & He).
  assert (L2' : layout h1 (b + 8 * n) l2 0) by (apply (layout_frame h); [done|]; intros x Hx; apply F1; lia).
  destruct (free_end hs h1 l1 n l2) as (E1 & E2 & E3 & E4); try done; [by rewrite F1 by lia|unfold b in *; lia|].
  fold b nx in E1, E2, E3, E4. apply (freed_intro _ l1 n); try done.
  - by rewrite E2.
  - rewrite coalesce_after by done. by rewrite (coalesce_hole _ _ _ C2).
  - intros x [Hx|Hx].
    + pose proof Hx as Hx'. apply (in_used_range h1 _ _ b) in Hx'; [|apply L]. rewrite E3 by (unfold b; lia). by apply F2.
    + pose proof Hx as Hx'. apply (in_used_range h _ _ 0) in Hx'; [|done]. rewrite E4 by done. apply F1; lia.
Qed.

(** The block has been joined to the hole before it. *)
Lemma freed_joined l0 s h1 :
  l1 = l0 ++ [(false, s)] -> ends_used l0 -> h1 = st (hs + 8 * total l0) (u32 (s + n)) h ->
  freed (if nx =? 0 then h1 else free_next (hs + 8 * total l0) nx h1).
Proof.
  intros El U ->. destruct around as (L & Hn & En & L2 & T1 & T2 & _ & A1 & A2 & C1 & C2 & Hs & He).
  rewrite El, linked_snoc in L. set (q := hs + 8 * total l0) in *. destruct L as (L & Hsz & Es & Ex). specialize (Ex eq_refl).
  assert (Hb : b = q + 8 * s) by (unfold b, q; rewrite El, total_app, total_one; lia).
  assert (T0 : 0 <= total l0) by (destruct L as [L _]; apply layout_total in L; lia).
  rewrite u32_small by (unfold q in *; lia). set (h1 := st q (s + n) h).
  assert (F : forall x, x <> q -> ld h1 x = ld h x) by (intros x Hx; by apply ld_st_ne).
  assert (Enx : nx = first_free (q + 8 * (s + n)) l2 0) by (unfold nx; f_equal; lia).
  destruct (free_end hs h1 l0 (s + n) l2) as (E1 & E2 & E3 & E4); fold q; try done.
  - apply (linked_frame h); [done|done|]. intros x Hx. fold q in Hx. apply F. lia.
  - lia.
  - apply ld_st_eq.
  - replace (q + 8 * (s + n)) with (b + 8 * n) by lia. apply (layout_frame h); [done|]. intros x Hx. apply F. lia.
  - lia.
  - intros E. rewrite F by lia. by rewrite Ex, Enx.
  - fold q in E1, E2, E3, E4. rewrite <- Enx in E1, E2, E3, E4.
    assert (C0 : coalesced true l0) by (rewrite El in C1; by apply coalesced_app in C1 as [C1 _]).
    apply (freed_intro _ l0 (s + n)); try done.
    + rewrite El, <- app_assoc. cbn [app]. rewrite coalesce_after by done. by rewrite (coalesce_hole2 _ _ _ _ C2).
    + rewrite El, total_app, total_one. lia.
    + replace (q + 8 * (s + n)) with (b + 8 * n) in E4 by lia. intros x [Hx|Hx].
      * rewrite El, in_used_app in Hx. fold q in Hx. destruct Hx as [Hx|[[? _]|[]]]; [|done].
        apply (in_used_range h _ _ q) in Hx; [|apply L]. fold q in Hx. rewrite E3 by lia. apply F. lia.
      * pose proof Hx as Hx'. apply (in_used_range h _ _ 0) in Hx'; [|done]. rewrite E4 by done. apply F. lia.
Qed.

(** The branches of [free]. *)
Lemma free_first :
  holes h = 0 \/ b <= holes h -> exists h', (if holes h =? 0 then Some (set_holes b (st (b + 4) 0 h))
    else Some (free_next b (holes h) (set_holes b h))) = Some h' /\ freed h'.
Proof.
  intros Hh. destruct around as (L & Hn & En & L2 & T1 & T2 & A0 & A1 & A2 & C1 & C2 & Hs & He).
  destruct (free_dec l1 hs) as [D|(la & s & lb & E & D)].
  2: { destruct L as [Ly Lh]. rewrite Lh, E, first_free_app, D in Hh. cbn [first_free] in Hh. rewrite E in Ly.
       apply layout_app in Ly as [Y1 Y2]. pose proof (layout_total _ _ _ _ Y1) as T3.
       destruct Y2 as (Hsz & _ & _ & Y2). apply layout_total in Y2.
       unfold b in Hh. rewrite E, total_app, total_cons in Hh. lia. }
  destruct (D nx 0) as [Df Dl]. assert (Eh : holes h = nx) by (destruct L as [_ Lh]; by rewrite Lh).
  assert (U : ends_used l1).
  { destruct (ends_cases l1 C1) as [U|(l0 & s & E & _)]; [done|]. destruct (D nx 0) as [_ X]. rewrite E, last_free_app in X.
    cbn [last_free] in X. rewrite E, total_app, total_one in T1. destruct L as [Ly _]. rewrite E in Ly.
    apply layout_app in Ly as [Y1 _]. apply layout_total in Y1. lia. }
  assert (Lb : forall h1, (forall x, x < b -> ld h1 x = ld h x) -> linked (set_holes b h1) hs l1 b).
  { intros h1 F. split; [|cbn [holes set_holes]; by destruct (D b 0) as [-> _]]. destruct L as [Ly _].
    assert (G : forall l a v w, layout h a l v -> (forall z, first_free a l z = z) -> layout h a l w).
    { clear. induction l as [|[u m] l IH]; intros a v w H Z; [done|]. destruct H as (H1 & H2 & _ & H4). cbn [first_free] in Z.
      destruct u; [|by specialize (Z (a + 1)); cbn in Z; lia]. split_and!; [done|done|done|by eapply IH]. }
    apply (layout_frame h); [apply (G _ _ nx); [done|intros z; apply (D z 0)]|]. intros x Hx. apply F. unfold b. lia. }
  pose proof (freed_linked (if nx =? 0 then set_holes b (st (b + 4) 0 h) else set_holes b h) U) as Fin.
  rewrite Eh. destruct (Z.eqb_spec nx 0) as [E|E]; (eexists; split; [done|]); apply Fin; try done.
  - apply Lb. intros x Hx. apply ld_st_ne. lia.
  - intros x Hx Hne. rewrite ld_holes. by apply ld_st_ne.
  - intros x Hx. apply (in_used_range h _ _ nx) in Hx; [|apply L]. rewrite ld_holes. apply ld_st_ne. unfold b. lia.
  - intros _. rewrite ld_holes. apply ld_st_eq.
  - by apply Lb.
Qed.

Lemma free_later :
  0 < holes h < b -> exists prev, free_prev (chunks hs he) (holes h) b h = Some prev /\ freed (free_after prev b h).
Proof.
  intros Hh. destruct around as (L & Hn & En & L2 & T1 & T2 & A0 & A1 & A2 & C1 & C2 & Hs & He). pose proof L as [Ly Lh].
  assert (P : free_prev (chunks hs he) (holes h) b h = Some (last_free hs l1 0) /\ last_free hs l1 0 <> 0).
  { destruct (free_dec l1 hs) as [D|(la & s & lb & E & D)].
    { destruct (D nx 0) as [D1 _]. rewrite Lh, D1 in Hh. lia. }
    rewrite Lh, E, first_free_app, D. cbn [first_free]. rewrite E in Ly. apply layout_app in Ly as [Y1 (Hsz & Y2 & Y3 & Y4)].
    pose proof (layout_total _ _ _ _ Y1) as T3. pose proof (layout_total _ _ _ _ Y4) as T4.
    assert (Eb : b = hs + 8 * total la + 8 * s + 8 * total lb) by (unfold b; rewrite E, total_app, total_cons; lia).
    rewrite last_free_app. cbn [last_free].
    rewrite (free_prev_spec h b nx ltac:(lia) lb _ _ (hs + 8 * total la + 8 * s)); [|lia|by apply Y3|done|lia|].
    - split; [done|]. assert (G : forall l a p, 0 < p < a -> layout h a l nx -> last_free a l p <> 0).
      { clear. induction l as [|[u m] l IH]; intros a p Hp H; [cbn [last_free]; lia|]. destruct H as (H1 & _ & _ & H4).
        cbn [last_free]. apply IH; [destruct u; lia|done]. }
      apply G; [lia|done].
    - unfold chunks. assert (total lb <= (he - hs) / 8) by (apply Z.div_le_lower_bound; lia). lia. }
  destruct P as [P Hp]. exists (last_free hs l1 0). split; [done|]. unfold free_after.
  destruct (last_free_end h l1 hs nx Hs Ly Hp) as (P1 & P2 & P3).
  destruct (ends_cases l1 C1) as [U|(l0 & s & E & U)].
  - assert (Hlt : last_free hs l1 0 + 8 * ld h (last_free hs l1 0) < b).
    { destruct U as [-> |(l0 & k & E)]; [done|]. unfold b. rewrite E, last_free_app, total_app, total_one in *. cbn [last_free] in *.
      apply layout_app in Ly as [Y1 (Hk & _)]. destruct (last_free_end _ _ _ _ Hs Y1 Hp). lia. }
    destruct (Z.leb_spec b (last_free hs l1 0 + 8 * ld h (last_free hs l1 0))); [lia|]. rewrite P3.
    assert (L1 : linked (st (b + 4) nx h) hs l1 nx).
    { apply (linked_frame h); [done|done|]. intros x Hx. fold b in Hx. apply ld_st_ne. lia. }
    destruct (link_spec b l1 _ hs nx Hs L1) as (K1 & K2 & K3 & K4). unfold link in K1, K2, K3, K4.
    destruct (Z.eqb_spec (last_free hs l1 0) 0) as [|_]; [done|]. fold b in K3. apply freed_linked; try done.
    + intros x Hx Hne. rewrite K3 by lia. by apply ld_st_ne.
    + intros x Hx. rewrite K4 by done. apply (in_used_range h _ _ nx) in Hx; [|done]. apply ld_st_ne. unfold b. lia.
    + intros E. rewrite K3 by lia. rewrite ld_st_eq. done.
  - pose proof L as L'. rewrite E, linked_snoc in L'. destruct L' as (_ & Hsz & Es & Ex). specialize (Ex eq_refl).
    assert (El : last_free hs l1 0 = hs + 8 * total l0) by (rewrite E, last_free_app; done).
    assert (Eb : b = hs + 8 * total l0 + 8 * s) by (unfold b; rewrite E, total_app, total_one; lia).
    rewrite El, Es, En, Ex. destruct (Z.leb_spec b (hs + 8 * total l0 + 8 * s)); [|lia]. by apply (freed_joined l0 s).
Qed.
End free_proof.

Lemma chunk_align_id b : 0 <= b < 4294967288 -> b mod 8 = 0 -> chunk_align b = b.
Proof.
  intros H M. unfold chunk_align. rewrite u32_small by lia. change (u32 (Z.lnot (8 - 1))) with 4294967288.
  rewrite land_align8 by lia. Z.div_mod_to_equations. lia.
Qed.

Lemma free_spec hs he h l1 n l2 :
  heap_range hs he -> heap_ok hs he h (l1 ++ (true, n) :: l2) ->
  let b := hs + 8 * total l1 in
  exists h', free hs he (b + 4) h = Some h' /\ heap_ok hs he h' (coalesce (l1 ++ (false, n) :: l2)) /\
    (forall x, in_used hs l1 x \/ in_used (b + 8 * n) l2 x -> ld h' x = ld h x).
Proof.
  intros Hr K b. destruct (around hs he Hr h l1 l2 n K) as (L & Hn & En & _ & T1 & T2 & A0 & A1 & A2 & _ & _ & Hs & He).
  pose proof Hr as (_ & Hm & _). fold b in En, A0, A1. unfold free. replace (b + 4 - 4) with b by lia.
  rewrite u32_small by (unfold b in *; lia).
  assert (Hal : b mod 8 = 0) by (unfold b; rewrite (Z.mul_comm 8), Z_mod_plus_full; done).
  rewrite chunk_align_id, Z.eqb_refl, En by (done || (unfold b in *; lia)). cbn [negb].
  destruct (Z.eqb_spec n 0) as [|_]; [lia|].
  assert (Hh : holes h = 0 \/ 0 < holes h).
  { destruct L as [Ly ->]. destruct (first_free_ge _ _ _ _ Ly) as [E|]; [rewrite E; unfold b in *; lia|right; lia]. }
  destruct (Z.eqb_spec (holes h) 0) as [E0|E0].
  - destruct (free_first hs he Hr h l1 l2 n K) as (h' & E & F); [by left|]. exists h'. rewrite E0 in E. split; [exact E|exact F].
  - destruct (Z.ltb_spec (holes h) b) as [Hlt|Hge].
    + destruct (free_later hs he Hr h l1 l2 n K) as (prev & E & F); [fold b; lia|]. fold b in E, F. rewrite E. eexists. split; [done|exact F].
    + destruct (free_first hs he Hr h l1 l2 n K) as (h' & E & F); [by right|]. exists h'.
      destruct (Z.eqb_spec (holes h) 0); [done|]. split; [exact E|exact F].
Qed.


(** a block that is allocated and given back leaves the heap as it was: the
    same sequence of blocks when it came from a hole, and one hole more, at the
    end, when the heap had to grow. *)
Theorem malloc_free_roundtrip hs he h l bytes p h' :
  heap_range hs he -> heap_ok hs he h l -> 0 < bytes -> he + bytes + 11 < 4294967296 ->
  malloc hs he bytes h = Some (p, h') -> p <> 0 ->
  let size := (bytes + 11) / 8 in
  exists h'', free hs he p h' = Some h'' /\
    heap_ok hs he h'' (if take_fit size l then l else coalesce (l ++ [(false, size)])).
Proof.
  intros Hr K Hb Ho E Hp size. destruct (malloc_spec hs he h l bytes Hr K Hb Ho) as (p0 & h0 & E0 & _ & A). fold size in A.
  rewrite E in E0. injection E0 as <- <-. destruct (take_fit size l) as [l'|].
  - destruct A as (l1 & n & l2 & -> & Hn & -> & -> & K'). pose proof K as (_ & _ & _ & C).
    apply coalesced_app in C as [C1 [C2 C3]].
    assert (U : ends_used l1).
    { destruct (ends_cases l1 C1) as [U|(l0 & s & -> & _)]; [done|]. rewrite last_snoc in C2. by destruct C2. }
    assert (C2' : coalesced true ((false, n) :: l2)) by (split; [by left|done]).
    destruct (n <=? size + 1).
    + destruct (free_spec hs he h' l1 n l2 Hr K') as (h'' & -> & K2 & _). exists h''. split; [done|].
      rewrite coalesce_after, (coalesce_id _ _ C2') in K2 by done. done.
    + destruct (free_spec hs he h' l1 size ((false, n - size) :: l2) Hr K') as (h'' & -> & K2 & _). exists h''. split; [done|].
      rewrite coalesce_after, (coalesce_hole2 _ _ _ _ C3) in K2 by done. replace (size + (n - size)) with n in K2 by lia.
      rewrite <- (coalesce_hole _ _ _ C3), (coalesce_id _ _ C2') in K2. done.
  - destruct (he <? _); [by destruct A|]. destruct A as [-> K'].
    destruct (free_spec hs he h' l size [] Hr K') as (h'' & -> & K2 & _). by exists h''.
Qed.

(** ** Clients *)

(** What a program does with the heap: allocate any number of bytes, give
    back a block it has, and write any word of the data of its blocks. *)
Inductive heap_event := HMalloc (bytes : Z) | HFree | HWrite.

Inductive heap_step (hs he : Z) : heap * list block -> heap_event -> heap * list block -> Prop :=
  | Heap_malloc h l bytes p h' l' :
      0 <= bytes < 4294967296 -> malloc hs he bytes h = Some (p, h') ->
      l' = (if p =? 0 then l else default (l ++ [(true, (bytes + 11) / 8)]) (take_fit ((bytes + 11) / 8) l)) ->
      heap_step hs he (h, l) (HMalloc bytes) (h', l')
  | Heap_free h l1 n l2 h' :
      free hs he (hs + 8 * total l1 + 4) h = Some h' ->
      heap_step hs he (h, l1 ++ (true, n) :: l2) HFree (h', coalesce (l1 ++ (false, n) :: l2))
  | Heap_write h l1 n l2 x v :
      hs + 8 * total l1 < x < hs + 8 * total l1 + 8 * n ->
      heap_step hs he (h, l1 ++ (true, n) :: l2) HWrite (st x v h, l1 ++ (true, n) :: l2).

Inductive heap_runs (hs he : Z) (s : heap * list block) : list heap_event -> heap * list block -> Prop :=
  | Heap_none : heap_runs hs he s [] s
  | Heap_more t s1 ev s2 : heap_runs hs he s t s1 -> heap_step hs he s1 ev s2 -> heap_runs hs he s (t ++ [ev]) s2.

(** The request does not reach the end of the address space when it is added
    to the end of the heap. *)
Definition request_fits (he : Z) (ev : heap_event) : Prop :=
  match ev with HMalloc bytes => he + bytes + 11 < 4294967296 | _ => True end.

Definition heap_boot (hs : Z) : heap := mk_heap 0 hs ∅.

Lemma init_ok hs he : heap_range hs he -> heap_ok hs he (malloc_init hs he (heap_boot hs)) [].
Proof.
  intros (H1 & H2 & H3). unfold malloc_init, sbrk. cbn [heap_break heap_boot]. rewrite Z.add_0_r, u32_small by lia.
  destruct (Z.ltb_spec he hs); [lia|]. destruct (Z.ltb_spec hs hs); [lia|]. cbn [heap_break set_break heap_boot].
  rewrite Z.sub_diag. change (int32 0) with 0. rewrite Z.add_0_r, u32_small by lia.
  destruct (Z.ltb_spec he hs); [lia|]. destruct (Z.ltb_spec hs hs); [lia|]. cbn [snd].
  split_and!; try done; cbn [heap_break set_break]; change (total []) with 0; lia.
Qed.

Lemma write_ok hs he h l1 n l2 x v :
  heap_ok hs he h (l1 ++ (true, n) :: l2) -> hs + 8 * total l1 < x < hs + 8 * total l1 + 8 * n ->
  heap_ok hs he (st x v h) (l1 ++ (true, n) :: l2).
Proof.
  intros (L & B & E & C) Hx. split_and!; try done. rewrite linked_app in *. cbn [first_free layout] in *.
  destruct L as (L & Hn & En & _ & L2). split_and!; try done.
  - apply (linked_frame h); [done|done|]. intros y Hy. apply ld_st_ne. lia.
  - rewrite ld_st_ne by lia. done.
  - apply (layout_frame h); [done|]. intros y Hy. apply ld_st_ne. lia.
Qed.

Lemma heap_step_ok hs he s ev s' :
  heap_range hs he -> heap_step hs he s ev s' -> request_fits he ev -> heap_ok hs he s.1 s.2 -> heap_ok hs he s'.1 s'.2.
Proof.
  intros Hr [h l bytes p h' l' Hb E -> |h l1 n l2 h' E|h l1 n l2 x v Hx]; cbn [fst snd request_fits]; intros Ho K.
  - destruct (Z.eq_dec bytes 0) as [->|Hne]; [injection E as <- <-; done|].
    destruct (malloc_spec hs he h l bytes Hr K ltac:(lia) Ho) as (p0 & h0 & E0 & _ & A). rewrite E in E0. injection E0 as <- <-.
    pose proof K as ([Ly _] & _). destruct Hr as (H1 & _). destruct (take_fit _ l) as [l'|].
    + destruct A as (l1 & n & l2 & -> & _ & -> & -> & K'). apply layout_app in Ly as [Y _]. apply layout_total in Y.
      destruct (Z.eqb_spec (hs + 8 * total l1 + 4) 0); [lia|done].
    + destruct (he <? _); destruct A as [-> K']; [by rewrite K'|]. apply layout_total in Ly.
      destruct (Z.eqb_spec (hs + 8 * total l + 4) 0); [lia|done].
  - destruct (free_spec hs he h l1 n l2 Hr K) as (h0 & E0 & K' & _). rewrite E in E0. by injection E0 as <-.
  - by apply write_ok.
Qed.

Lemma heap_runs_ok hs he t s :
  heap_range hs he -> heap_runs hs he (malloc_init hs he (heap_boot hs), []) t s -> Forall (request_fits he) t ->
  heap_ok hs he s.1 s.2.
Proof.
  intros Hr R. induction R as [|t s1 ev s2 R IH St]; [intros _; by apply init_ok|].
  rewrite Forall_app, Forall_singleton. intros [Ft Fe]. by apply (heap_step_ok hs he s1 ev s2 Hr St Fe), IH.
Qed.


(** ** Clearing *)

Lemma clear_rounds_spec mcn : forall zp k, 0 <= k -> clear_rounds mcn zp k = seqZ zp (k + 8 * Z.of_nat mcn).
Proof.
  induction mcn as [|mcn IH]; intros zp k Hk; cbn [clear_rounds].
  - rewrite app_nil_r. f_equal. lia.
  - rewrite IH by lia. rewrite <- seqZ_app by lia. f_equal. lia.
Qed.

(** Calloc clears exactly the bytes asked for, the product of its arguments
    modulo 2^32, from the address that malloc returned.  It clears them also when
    that is NULL, and eight bytes at NULL when the product is zero. *)
Theorem calloc_clears hs he nmemb size h p cleared h' :
  calloc hs he nmemb size h = Some (p, cleared, h') ->
  let nbytes := u32 (nmemb * size) in
  malloc hs he nbytes h = Some (p, h') /\ cleared = (if nbytes =? 0 then seqZ 0 8 else seqZ p nbytes).
Proof.
  unfold calloc. set (nbytes := u32 (nmemb * size)). pose proof (u32_range (nmemb * size)) as Hn. fold nbytes in Hn.
  destruct (Z.eqb_spec nbytes 0) as [E|E].
  - rewrite E. unfold malloc at 1. cbn. intros [= <- <- <-]. done.
  - destruct (malloc hs he nbytes h) as [[ptr h1]|]; [|done]. destruct (Z.ltb_spec nbytes 8).
    + destruct (Z.eqb_spec nbytes 0); [done|]. rewrite clear_rounds_spec by lia. intros [= <- <- <-]. split; [done|].
      f_equal. lia.
    + rewrite clear_rounds_spec by (destruct (_ =? 0); [lia|apply Z.mod_pos_bound; lia]). intros [= <- <- <-]. split; [done|].
      f_equal. destruct (Z.eqb_spec (nbytes mod 8) 0); Z.div_mod_to_equations; lia.
Qed.

(** ** Requests that wrap around *)

Lemma take_fit_large size l : total l < size -> Forall (fun b => 0 < b.2) l -> take_fit size l = None.
Proof.
  induction l as [|[u n] l IH]; intros H F; [done|]. inversion F as [|?? H1 H2]; subst. rewrite total_cons in H. cbn [snd] in H1.
  assert (Ht : 0 <= total l) by (clear -H2; induction H2 as [|[u n] l H1 H2 IH]; [done|]; rewrite total_cons; cbn [snd] in H1; lia).
  cbn [take_fit]. rewrite IH by (done || lia). destruct u; [done|]. destruct (Z.leb_spec size n); [lia|done].
Qed.

Lemma layout_positive h l : forall a nx, layout h a l nx -> Forall (fun b => 0 < b.2) l.
Proof.
  induction l as [|[u n] l IH]; intros a nx H; [constructor|]. destruct H as (Hn & _ & _ & H). constructor; [done|by eapply IH].
Qed.

(** the largest request whose rounding does not overflow, twelve bytes short
    of the address space, is not refused once the heap has a block: the new
    break wraps around to eight bytes below the old one, the check of the break
    passes, and malloc returns a pointer past the end of the heap. *)
Theorem malloc_wraps hs he h l :
  heap_range hs he -> heap_ok hs he h l -> l <> [] ->
  exists h', malloc hs he (4294967296 - 12) h = Some (heap_break h + 4, h') /\ heap_break h' = heap_break h - 8.
Proof.
  intros Hr K Hl. pose proof Hr as (H1 & H2 & H3). pose proof K as ([Ly _] & B & Bh & _).
  pose proof (layout_total _ _ _ _ Ly) as Ht.
  destruct (malloc_fits hs he h l (4294967296 - 12) Hr K) as (p & h' & -> & A); [lia|lia|].
  change ((4294967296 - 12 + 11) / 8) with 536870911 in A.
  rewrite take_fit_large in A; [|lia|by eapply layout_positive].
  assert (Hl1 : 1 <= total l) by (destruct l; [done|cbn [length] in Ht; lia]).
  revert A. unfold malloc_grow, sbrk, chunks2bytes. change (u32 (Z.shiftl 536870911 3)) with 4294967288.
  replace (u32 (heap_break h + 4294967288)) with (heap_break h - 8).
  2: { unfold u32. replace (heap_break h + 4294967288) with (heap_break h - 8 + 1 * 4294967296) by lia.
       rewrite Z_mod_plus_full. symmetry. apply Z.mod_small. lia. }
  destruct (Z.ltb_spec he (heap_break h - 8)); [lia|]. destruct (Z.ltb_spec (heap_break h - 8) hs); [lia|].
  destruct (Z.eqb_spec (heap_break h) (u32 (-1))) as [E1|_]; [change (u32 (-1)) with 4294967295 in E1; lia|].
  intros [= -> ->]. by eexists.
Qed.

(** ** A concrete heap *)

Definition hs0 : Z := 536870912.
Definition he0 : Z := hs0 + 4096.
Definition after {A} (r : option (A * heap)) : heap := match r with Some (_, h) => h | None => heap_boot hs0 end.

(** Two blocks of 20 bytes and one of 100, then the second is given back. *)
Definition heap1 : heap := after (malloc hs0 he0 20 (malloc_init hs0 he0 (heap_boot hs0))).
Definition heap2 : heap := after (malloc hs0 he0 20 heap1).
Definition heap3 : heap := after (malloc hs0 he0 100 heap2).
Definition heap4 : heap := default heap3 (free hs0 he0 (hs0 + 28) heap3).
Definition blocks4 : list block := [(true, 3); (false, 3); (true, 13)].

Lemma range0 : heap_range hs0 he0.
Proof. split_and!; [done|done|done|done]. Qed.

Lemma reach4 :
  heap_runs hs0 he0 (malloc_init hs0 he0 (heap_boot hs0), []) [HMalloc 20; HMalloc 20; HMalloc 100; HFree] (heap4, blocks4).
Proof.
  apply (Heap_more _ _ _ [HMalloc 20; HMalloc 20; HMalloc 100] (heap3, [(true, 3); (true, 3); (true, 13)]));
    [|by apply (Heap_free _ _ _ [(true, 3)] 3 [(true, 13)])].
  apply (Heap_more _ _ _ [HMalloc 20; HMalloc 20] (heap2, [(true, 3); (true, 3)]));
    [|by apply (Heap_malloc _ _ _ _ 100 (hs0 + 52)); [..|vm_compute; reflexivity|]].
  apply (Heap_more _ _ _ [HMalloc 20] (heap1, [(true, 3)]));
    [|by apply (Heap_malloc _ _ _ _ 20 (hs0 + 28)); [..|vm_compute; reflexivity|]].
  apply (Heap_more _ _ _ [] (malloc_init hs0 he0 (heap_boot hs0), [])); [constructor|].
  by apply (Heap_malloc _ _ _ _ 20 (hs0 + 4)); [..|vm_compute; reflexivity|].
Qed.

Lemma fits4 : Forall (request_fits he0) [HMalloc 20; HMalloc 20; HMalloc 100; HFree].
Proof. repeat constructor. Qed.

Lemma heap4_ok : heap_ok hs0 he0 heap4 blocks4.
Proof. apply (heap_runs_ok hs0 he0 _ (heap4, blocks4) range0 reach4 fits4). Qed.



Lemma malloc_free_roundtrip_witness :
  exists h'', free hs0 he0 (hs0 + 28) (after (malloc hs0 he0 10 heap4)) = Some h'' /\
    heap_ok hs0 he0 h'' (if take_fit 2 blocks4 then blocks4 else coalesce (blocks4 ++ [(false, 2)])).
Proof.
  apply (malloc_free_roundtrip hs0 he0 heap4 blocks4 10 (hs0 + 28) _ range0 heap4_ok);
    [lia|unfold he0, hs0; lia|vm_compute; reflexivity|unfold hs0; lia].
Defined.


Lemma calloc_clears_witness :
  let r := calloc hs0 he0 3 5 heap4 in
  match r with
  | Some (p, cleared, h') => malloc hs0 he0 15 heap4 = Some (p, h') /\ cleared = seqZ p 15
  | None => False
  end.
Proof.
  intros r. assert (H : is_Some r) by (vm_compute; eauto). destruct r as [[[p cleared] h']|] eqn:E; [|by destruct H].
  apply (calloc_clears hs0 he0 3 5 heap4 p cleared h' E).
Defined.

Lemma malloc_wraps_witness :
  exists h', malloc hs0 he0 (4294967296 - 12) heap4 = Some (heap_break heap4 + 4, h') /\ heap_break h' = heap_break heap4 - 8.
Proof. apply (malloc_wraps hs0 he0 heap4 blocks4 range0 heap4_ok). done. Defined.
