(* ===== verification/Convert.v ===== *)
(** * Number conversions

    The printers of src/sdk/libutil (uint2dec.c, int2dec.c, ull2dec.c, ll2dec.c,
    uint2hex.c, uint2hexup.c, ull2hex.c, ull2hexup.c), which work by subtraction
    and shifts, the square roots of isqrt.c and the logarithm of ilog2.c, and the
    readers of src/sdk/libc (strtoul.c, strtoull.c, strtol.c, atoi.c).

    A string is the list of its characters; the byte after the last one is the
    null character.  The printers return the string they store, their result
    being its length. *)

From stdpp Require Import base tactics numbers list.
From Stdlib Require Import ZArith Lia.
From S2P Require Import Prelude CortexM.

Definition wrap (w z : Z) : Z := z mod 2 ^ w.

(** ** Decimal printers *)

(** The inner loop: one digit. *)
Fixpoint dec_digit (n : nat) (i val dv c : Z) : Z * Z :=
  match n with
  | O => (val, c)
  | S n =>
      if i =? 0 then (val, c)
      else
        let '(val, c) := if dv <=? val then (val - dv, c + i) else (val, c) in
        dec_digit n (Z.shiftr i 1) val (Z.shiftr dv 1) c
  end.

(** The outer loop over the table; [n] digits have been stored. *)
Fixpoint dec_digits (tab : list Z) (i val n : Z) : list Z :=
  match tab with
  | [] => []
  | dv :: tab =>
      if dv =? 0 then []
      else
        let '(val, c) := dec_digit 4 i val dv 0 in
        if negb (c =? 0) || negb (n =? 0) then c + 48 :: dec_digits tab 8 val (n + 1)
        else dec_digits tab 8 val n
  end.

Definition __div_tab : list Z :=
  [4000000000; 800000000; 80000000; 8000000; 800000; 80000; 8000; 800; 80; 8; 0].

Definition __lldiv_tab : list Z :=
  [10000000000000000000; 8000000000000000000; 800000000000000000; 80000000000000000; 8000000000000000;
   800000000000000; 80000000000000; 8000000000000; 800000000000; 80000000000; 8000000000; 800000000; 80000000;
   8000000; 800000; 80000; 8000; 800; 80; 8; 0].

Definition uint2dec (val : Z) : list Z := if val =? 0 then [48] else dec_digits __div_tab 4 val 0.
Definition ull2dec (val : Z) : list Z := if val =? 0 then [48] else dec_digits __lldiv_tab 1 val 0.

Definition int2dec (val : Z) : list Z := if val <? 0 then 45 :: uint2dec (wrap 32 (- val)) else uint2dec val.
Definition ll2dec (val : Z) : list Z := if val <? 0 then 45 :: ull2dec (wrap 64 (- val)) else ull2dec val.

(** ** Hexadecimal printers *)

Definition __hextab : list Z := [48; 49; 50; 51; 52; 53; 54; 55; 56; 57; 97; 98; 99; 100; 101; 102].
Definition __hexuptab : list Z := [48; 49; 50; 51; 52; 53; 54; 55; 56; 57; 65; 66; 67; 68; 69; 70].

(** [k] digits of a value of [w] bits are left. *)
Fixpoint hex_digits (tab : list Z) (w : Z) (k : nat) (val n : Z) : list Z :=
  match k with
  | O => []
  | S k =>
      let c := Z.shiftr val (w - 4) in
      let val := wrap w (Z.shiftl val 4) in
      if negb (c =? 0) || negb (n =? 0) then rd tab c :: hex_digits tab w k val (n + 1)
      else hex_digits tab w k val n
  end.

Definition uint2hex (val : Z) : list Z := if val =? 0 then [48] else hex_digits __hextab 32 8 val 0.
Definition uint2hexup (val : Z) : list Z := if val =? 0 then [48] else hex_digits __hexuptab 32 8 val 0.
Definition ull2hex (val : Z) : list Z := if val =? 0 then [48] else hex_digits __hextab 64 16 val 0.
Definition ull2hexup (val : Z) : list Z := if val =? 0 then [48] else hex_digits __hexuptab 64 16 val 0.

(** ** Readers *)

Fixpoint skip_spaces (s : list Z) : list Z :=
  match s with
  | c :: t => if c =? 32 then skip_spaces t else s
  | [] => []
  end.

Definition chr (s : list Z) : Z := match s with c :: _ => c | [] => 0 end.

(** [case 10:] *)
Fixpoint read_dec (w : Z) (s : list Z) (val : Z) : Z * list Z :=
  match s with
  | [] => (val, [])
  | c :: t =>
      if (c =? 0) || (c <? 48) || (57 <? c) then (val, s)
      else
        let val := wrap w (Z.shiftl (wrap w (wrap w (Z.shiftl val 2) + val)) 1) in
        read_dec w t (wrap w (val + (c - 48)))
  end.

(** [case 16:]; [None] breaks the loop. *)
Definition hex_char (c : Z) : option Z :=
  let c := if 97 <=? c then Z.land c (Z.lnot 32) else c in
  if (65 <=? c) && (c <=? 70) then Some (c - 55)
  else if (48 <=? c) && (c <=? 57) then Some (c - 48)
  else None.

Fixpoint read_hex (w : Z) (s : list Z) (val : Z) : Z * list Z :=
  match s with
  | [] => (val, [])
  | c :: t =>
      if c =? 0 then (val, s)
      else match hex_char c with
           | None => (val, s)
           | Some c => read_hex w t (wrap w (wrap w (Z.shiftl val 4) + c))
           end
  end.

(** strtoul and strtoull have the same body; the octal loop comes before the
    first label of the switch and is never entered. *)
Definition strtou (w : Z) (s : list Z) (base : Z) : Z * list Z :=
  let cp := skip_spaces s in
  let c := chr cp in
  let '(base, cp) :=
    if ((base =? 0) || (base =? 16)) && (c =? 48) then
      let cp := tail cp in
      if Z.land (chr cp) (Z.lnot 32) =? 88 then (16, tail cp) else (base, cp)
    else (base, cp) in
  let base := if base =? 0 then (if c =? 48 then 8 else 10) else base in
  if base =? 10 then read_dec w cp 0
  else if base =? 16 then read_hex w cp 0
  else (0, cp).

Definition strtoul (s : list Z) (base : Z) : Z * list Z := strtou 32 s base.
Definition strtoull (s : list Z) (base : Z) : Z * list Z := strtou 64 s base.

Definition strtol (s : list Z) (base : Z) : Z * list Z :=
  let cp := skip_spaces s in
  let '(inv, cp) := if chr cp =? 45 then (true, tail cp) else (false, cp) in
  let '(val, rest) := strtoul cp base in
  let val := int32 val in
  (if inv then int32 (- val) else val, rest).

Definition atoi (s : list Z) : Z := (strtol s 10).1.

(** ** Square roots and logarithm *)

Fixpoint sqrt_loop (w wroot : Z) (n : nat) (x rem root : Z) : Z :=
  match n with
  | O => root
  | S n =>
      let root := wrap wroot (Z.shiftl root 1) in
      let rem := wrap w (wrap w (Z.shiftl rem 2) + Z.shiftr x (w - 2)) in
      let x := wrap w (Z.shiftl x 2) in
      let root := wrap wroot (root + 1) in
      if root <=? rem then sqrt_loop w wroot n x (rem - root) (wrap wroot (root + 1))
      else sqrt_loop w wroot n x rem (wrap wroot (root - 1))
  end.

Definition u32sqrt (x : Z) : Z := Z.shiftr (sqrt_loop 32 32 16 x 0 0) 1.
(** [root] has 32 bits only. *)
Definition u64sqrt (x : Z) : Z := Z.shiftr (sqrt_loop 64 32 32 x 0 0) 1.

Definition ilog2 (v : Z) : Z := 31 - __clz (u32 v).

(** ** The decimal digits *)

Definition digit (c : Z) : Prop := 48 <= c <= 57.

Lemma shiftr_half x y : x = 2 * y -> Z.shiftr x 1 = y.
Proof. intros ->. rewrite Z.shiftr_div_pow2 by lia. change (2 ^ 1) with 2. rewrite Z.mul_comm. by apply Z.div_mul. Qed.

Lemma div_mod_pair P val v c : 0 <= v < P -> val = v + c * P -> (v, c) = (val mod P, val / P).
Proof. intros H1 ->. by rewrite Z_mod_plus_full, Z.div_add, Z.mod_small, Z.div_small by lia. Qed.

Lemma dec_digit_spec P val :
  0 < P -> 0 <= val < 10 * P -> dec_digit 4 8 val (8 * P) 0 = (val mod P, val / P).
Proof.
  intros HP Hv. cbn [dec_digit]. rewrite (shiftr_half (8 * P) (4 * P)), (shiftr_half (4 * P) (2 * P)), (shiftr_half (2 * P) P) by lia.
  change (Z.shiftr 8 1) with 4. change (Z.shiftr 4 1) with 2. change (Z.shiftr 2 1) with 1.
  change (8 =? 0) with false. change (4 =? 0) with false. change (2 =? 0) with false. change (1 =? 0) with false. cbv iota.
  repeat match goal with |- context [?d <=? ?v] => destruct (Z.leb_spec d v) end; apply div_mod_pair; lia.
Qed.

Lemma dec_digit_4 P val :
  0 < P -> 0 <= val < 8 * P -> dec_digit 4 4 val (4 * P) 0 = (val mod P, val / P).
Proof.
  intros HP Hv. cbn [dec_digit]. rewrite (shiftr_half (4 * P) (2 * P)), (shiftr_half (2 * P) P) by lia.
  change (Z.shiftr 4 1) with 2. change (Z.shiftr 2 1) with 1. change (Z.shiftr 1 1) with 0.
  change (4 =? 0) with false. change (2 =? 0) with false. change (1 =? 0) with false. change (0 =? 0) with true. cbv iota.
  repeat match goal with |- context [?d <=? ?v] => destruct (Z.leb_spec d v) end; apply div_mod_pair; lia.
Qed.

Lemma dec_digit_1 P val : 0 < P -> 0 <= val < 2 * P -> dec_digit 4 1 val P 0 = (val mod P, val / P).
Proof.
  intros HP Hv. cbn [dec_digit]. change (Z.shiftr 1 1) with 0. change (1 =? 0) with false. change (0 =? 0) with true. cbv iota.
  destruct (Z.leb_spec P val); apply div_mod_pair; lia.
Qed.

Definition dec_value (v : Z) (s : list Z) : Z := fold_left (fun v c => 10 * v + (c - 48)) s v.

Fixpoint dec_tab (k : nat) : list Z :=
  match k with O => [0] | S k => 8 * 10 ^ Z.of_nat k :: dec_tab k end.

(** A number without leading zeros. *)
Definition canonical (s : list Z) : Prop := s <> [] /\ Forall digit s /\ (chr s = 48 -> s = [48]).

Lemma dec_digits_later k : forall val n acc,
  0 < n -> 0 <= val < 10 ^ Z.of_nat k ->
  let s := dec_digits (dec_tab k) 8 val n in Forall digit s /\ dec_value acc s = acc * 10 ^ Z.of_nat k + val.
Proof.
  induction k as [|k IH]; intros val n acc Hn Hv; cbv zeta.
  - change (10 ^ Z.of_nat 0) with 1 in *. split; [constructor|]. cbn. lia.
  - rewrite Nat2Z.inj_succ, Z.pow_succ_r in * by lia. set (P := 10 ^ Z.of_nat k) in *.
    assert (HP : 0 < P) by (apply Z.pow_pos_nonneg; lia).
    cbn [dec_tab dec_digits]. fold P. destruct (Z.eqb_spec (8 * P) 0); [lia|]. rewrite dec_digit_spec by lia.
    destruct (Z.eqb_spec n 0); [lia|]. rewrite orb_true_r.
    pose proof (Z.mod_pos_bound val P HP). assert (0 <= val / P < 10) by (split; [apply Z.div_pos|apply Z.div_lt_upper_bound]; lia).
    destruct (IH (val mod P) (n + 1) (10 * acc + val / P)) as [D V]; [lia|lia|]. split.
    + constructor; [unfold digit; lia|done].
    + unfold dec_value in *. cbn [fold_left]. replace (val / P + 48 - 48) with (val / P) by lia. rewrite V.
      rewrite (Z.div_mod val P) at 3 by lia. fold P. lia.
Qed.

(** The first digit that is stored is not a zero. *)
Lemma dec_digits_first k : forall val,
  0 <= val < 10 ^ Z.of_nat k ->
  let s := dec_digits (dec_tab k) 8 val 0 in
  Forall digit s /\ dec_value 0 s = val /\ (0 < val -> s <> [] /\ chr s <> 48).
Proof.
  induction k as [|k IH]; intros val Hv; cbv zeta.
  - change (10 ^ Z.of_nat 0) with 1 in *. split_and!; [constructor|cbn; lia|lia].
  - rewrite Nat2Z.inj_succ, Z.pow_succ_r in * by lia. set (P := 10 ^ Z.of_nat k) in *.
    assert (HP : 0 < P) by (apply Z.pow_pos_nonneg; lia).
    cbn [dec_tab dec_digits]. fold P. destruct (Z.eqb_spec (8 * P) 0); [lia|]. rewrite dec_digit_spec by lia.
    pose proof (Z.mod_pos_bound val P HP). assert (0 <= val / P < 10) by (split; [apply Z.div_pos|apply Z.div_lt_upper_bound]; lia).
    change (0 =? 0) with true. cbn [negb]. rewrite orb_false_r. destruct (Z.eqb_spec (val / P) 0) as [E|E]; cbn [negb].
    + pose proof (Z.div_mod val P) as Hdm. rewrite E in Hdm. replace (val mod P) with val by lia. apply IH. lia.
    + destruct (dec_digits_later k (val mod P) (0 + 1) (10 * 0 + val / P)) as [D V]; [lia|done|]. split_and!.
      * constructor; [unfold digit; lia|done].
      * unfold dec_value in *. cbn [fold_left]. replace (val / P + 48 - 48) with (val / P) by lia. rewrite V.
        pose proof (Z.div_mod val P). fold P. lia.
      * intros _. split; [done|]. cbn [chr]. lia.
Qed.

(** A first digit computed apart, before the table. *)
Lemma dec_digits_cons dv i k val :
  dv <> 0 -> 0 < val -> dec_digit 4 i val dv 0 = (val mod 10 ^ Z.of_nat k, val / 10 ^ Z.of_nat k) ->
  val / 10 ^ Z.of_nat k < 10 ->
  let s := dec_digits (dv :: dec_tab k) i val 0 in canonical s /\ dec_value 0 s = val.
Proof.
  intros Hdv Hv E Hq s. unfold s. cbn [dec_digits]. destruct (Z.eqb_spec dv 0); [done|]. rewrite E.
  set (P := 10 ^ Z.of_nat k) in *. assert (HP : 0 < P) by (apply Z.pow_pos_nonneg; lia).
  pose proof (Z.mod_pos_bound val P HP). assert (0 <= val / P) by (apply Z.div_pos; lia). pose proof (Z.div_mod val P) as Hdm.
  change (0 =? 0) with true. cbn [negb]. rewrite orb_false_r. destruct (Z.eqb_spec (val / P) 0) as [E0|E0]; cbn [negb].
  - rewrite E0 in Hdm. replace (val mod P) with val by lia.
    destruct (dec_digits_first k val) as (D & V & F); [fold P; lia|]. destruct (F Hv). split; [|done]. by split_and!.
  - destruct (dec_digits_later k (val mod P) (0 + 1) (10 * 0 + val / P)) as [D V]; [lia|done|]. split; [split_and!|].
    + done.
    + constructor; [unfold digit; lia|done].
    + cbn [chr]. lia.
    + unfold dec_value in *. cbn [fold_left]. replace (val / P + 48 - 48) with (val / P) by lia. rewrite V. fold P. lia.
Qed.

Lemma uint2dec_spec val : 0 <= val < 4294967296 -> canonical (uint2dec val) /\ dec_value 0 (uint2dec val) = val.
Proof.
  intros H. unfold uint2dec. destruct (Z.eqb_spec val 0) as [-> |Hn].
  - split; [|done]. split_and!; [done|by repeat constructor|done].
  - change __div_tab with (4 * 10 ^ Z.of_nat 9 :: dec_tab 9). apply dec_digits_cons; [done|lia| |].
    + apply dec_digit_4; [done|]. change (10 ^ Z.of_nat 9) with 1000000000. lia.
    + apply Z.div_lt_upper_bound; [done|]. change (10 ^ Z.of_nat 9) with 1000000000. lia.
Qed.

Lemma ull2dec_spec val : 0 <= val < 18446744073709551616 -> canonical (ull2dec val) /\ dec_value 0 (ull2dec val) = val.
Proof.
  intros H. unfold ull2dec. destruct (Z.eqb_spec val 0) as [-> |Hn].
  - split; [|done]. split_and!; [done|by repeat constructor|done].
  - change __lldiv_tab with (10 ^ Z.of_nat 19 :: dec_tab 19). apply dec_digits_cons; [done|lia| |].
    + apply dec_digit_1; [done|]. change (10 ^ Z.of_nat 19) with 10000000000000000000. lia.
    + apply Z.div_lt_upper_bound; [done|]. change (10 ^ Z.of_nat 19) with 10000000000000000000. lia.
Qed.

(** ** Reading decimals *)

Lemma dec_value_mono s : forall v, Forall digit s -> 0 <= v -> v <= dec_value v s.
Proof.
  unfold dec_value, digit. induction s as [|c s IH]; intros v D Hv; [done|]. inversion D as [|?? D1 D2]; subst. cbn [fold_left].
  transitivity (10 * v + (c - 48)); [lia|]. apply IH; [done|lia].
Qed.

Lemma wrap_small w z : 0 <= z < 2 ^ w -> wrap w z = z.
Proof. apply Z.mod_small. Qed.

Lemma wrap_mul w a b : 0 <= w -> wrap w (wrap w a * b) = wrap w (a * b).
Proof. intros Hw. unfold wrap. apply Z.mul_mod_idemp_l. apply Z.pow_nonzero; lia. Qed.

Lemma read_dec_spec w s : 0 <= w -> forall v,
  Forall digit s -> 0 <= v -> dec_value v s < 2 ^ w -> read_dec w s v = (dec_value v s, []).
Proof.
  intros Hw. induction s as [|c s IH]; intros v D Hv Hd; [done|]. inversion D as [|?? D1 D2]; subst. unfold digit in D1.
  cbn [read_dec]. destruct (Z.eqb_spec c 0); [lia|]. destruct (Z.ltb_spec c 48); [lia|]. destruct (Z.ltb_spec 57 c); [lia|].
  cbn [orb]. change (dec_value v (c :: s)) with (dec_value (10 * v + (c - 48)) s) in *.
  pose proof (dec_value_mono s (10 * v + (c - 48)) D2 ltac:(lia)) as M.
  rewrite !Z.shiftl_mul_pow2 by lia. change (2 ^ 2) with 4. change (2 ^ 1) with 2.
  rewrite (wrap_small w (v * 4)), (wrap_small w (v * 4 + v)), (wrap_small w ((v * 4 + v) * 2)), wrap_small by lia.
  replace ((v * 4 + v) * 2 + (c - 48)) with (10 * v + (c - 48)) by lia. apply IH; [done|lia|done].
Qed.

Lemma strtou_dec w s :
  0 <= w -> canonical s -> dec_value 0 s < 2 ^ w -> strtou w s 10 = (dec_value 0 s, []).
Proof.
  intros Hw (Hne & D & _) Hd. unfold strtou. destruct s as [|c s]; [done|]. inversion D as [|?? D1 _]; subst. unfold digit in D1.
  cbn [skip_spaces]. destruct (Z.eqb_spec c 32); [lia|]. change ((10 =? 0) || (10 =? 16)) with false. cbn [andb].
  change (10 =? 0) with false. change (10 =? 10) with true. cbv iota. by apply read_dec_spec.
Qed.

Lemma canonical_first s : canonical s -> digit (chr s) /\ skip_spaces s = s.
Proof.
  intros (Hne & D & _). destruct s as [|c s]; [done|]. inversion D as [|?? D1 _]; subst. split; [done|]. unfold digit in D1.
  cbn [skip_spaces]. destruct (Z.eqb_spec c 32); [lia|done].
Qed.

(** C29: printing in decimal and reading back.  uint2dec and ull2dec print every
    value without leading zeros, and strtoul, strtoull and, for signed values
    with int2dec, atoi read the same value back and consume the whole string. *)
Theorem dec_roundtrip u v i :
  0 <= u < 4294967296 -> 0 <= v < 18446744073709551616 -> -2147483648 <= i < 2147483648 ->
  canonical (uint2dec u) /\ strtoul (uint2dec u) 10 = (u, []) /\
  canonical (ull2dec v) /\ strtoull (ull2dec v) 10 = (v, []) /\
  strtol (int2dec i) 10 = (i, []) /\ atoi (int2dec i) = i.
Proof.
  intros Hu Hv Hi. destruct (uint2dec_spec u Hu) as [C1 V1]. destruct (ull2dec_spec v Hv) as [C2 V2].
  assert (L : strtol (int2dec i) 10 = (i, [])).
  { unfold strtol, int2dec. destruct (Z.ltb_spec i 0) as [Hneg|Hpos].
    - rewrite wrap_small by (change (2 ^ 32) with 4294967296; lia).
      destruct (uint2dec_spec (- i)) as [C3 V3]; [lia|]. cbn [skip_spaces chr]. change (45 =? 32) with false. cbv iota. cbn [chr tail].
      change (45 =? 45) with true. cbv iota. unfold strtoul. rewrite strtou_dec, V3 by (rewrite ?V3; done || lia).
      f_equal. destruct (Z.eqb_spec i (-2147483648)) as [-> |Hmin]; [reflexivity|].
      rewrite (int32_small (- i)), Z.opp_involutive by lia. apply int32_small. lia.
    - destruct (uint2dec_spec i) as [C3 V3]; [lia|]. destruct (canonical_first _ C3) as [F1 F2]. rewrite F2.
      unfold digit in F1. destruct (Z.eqb_spec (chr (uint2dec i)) 45); [lia|]. unfold strtoul.
      rewrite strtou_dec, V3 by (rewrite ?V3; done || lia). by rewrite int32_small by lia. }
  split_and!; [done| |done| |done|unfold atoi; by rewrite L].
  - unfold strtoul. rewrite strtou_dec, V1 by (rewrite ?V1; done || lia). done.
  - unfold strtoull. rewrite strtou_dec, V2 by (rewrite ?V2; done || lia). done.
Qed.

(** ** Hexadecimal *)

Definition nibble (d : Z) : Prop := 0 <= d < 16.
Definition hex_value (v : Z) (ds : list Z) : Z := fold_left (fun v d => 16 * v + d) ds v.

(** A value kept at the top of a [w]-bit word loses its [b] first bits: [y] is what
    is left of it. *)
Lemma top_bits b w k y :
  0 < b -> b * Z.of_nat (S k) <= w -> 0 <= y < (2 ^ b) ^ Z.of_nat (S k) ->
  let val := y * 2 ^ (w - b * Z.of_nat (S k)) in
  let P := (2 ^ b) ^ Z.of_nat k in
  Z.shiftr val (w - b) = y / P /\ 0 <= y / P < 2 ^ b /\
  wrap w (Z.shiftl val b) = y mod P * 2 ^ (w - b * Z.of_nat k) /\ 0 <= y mod P < P.
Proof.
  intros Hb Hw Hy val P. assert (HB : 0 < 2 ^ b) by (apply Z.pow_pos_nonneg; lia).
  assert (HP : 0 < P) by (apply Z.pow_pos_nonneg; lia).
  assert (EP : P = 2 ^ (b * Z.of_nat k)) by (unfold P; by rewrite Z.pow_mul_r by lia).
  rewrite Nat2Z.inj_succ, Z.pow_succ_r in Hy by lia. fold P in Hy. unfold val.
  set (e := w - b * Z.of_nat (S k)). assert (He : 0 <= e) by lia. assert (H2 : 0 < 2 ^ e) by (apply Z.pow_pos_nonneg; lia).
  split; [|split; [|split]].
  - rewrite Z.shiftr_div_pow2 by lia. replace (w - b) with (e + b * Z.of_nat k) by lia. rewrite Z.pow_add_r, <- EP by lia.
    rewrite <- Z.div_div by lia. by rewrite Z.div_mul by lia.
  - split; [apply Z.div_pos; lia|apply Z.div_lt_upper_bound; lia].
  - rewrite Z.shiftl_mul_pow2 by lia. unfold wrap. replace w with (e + b + b * Z.of_nat k) at 1 by lia.
    rewrite (Z.pow_add_r 2 (e + b)), <- EP by lia. replace (w - b * Z.of_nat k) with (e + b) by lia.
    rewrite <- Z.mul_assoc, <- (Z.pow_add_r 2 e b) by lia. rewrite (Z.mul_comm _ P). by rewrite Zmult_mod_distr_r.
  - apply Z.mod_pos_bound. done.
Qed.

Lemma hex_digits_later tab w k : forall y n acc,
  4 * Z.of_nat k <= w -> 0 < n -> 0 <= y < 16 ^ Z.of_nat k ->
  exists ds, hex_digits tab w k (y * 2 ^ (w - 4 * Z.of_nat k)) n = rd tab <$> ds /\ Forall nibble ds /\
    hex_value acc ds = acc * 16 ^ Z.of_nat k + y.
Proof.
  induction k as [|k IH]; intros y n acc Hw Hn Hy.
  - exists []. change (16 ^ Z.of_nat 0) with 1 in *. split_and!; [done|constructor|cbn; lia].
  - destruct (top_bits 4 w k y eq_refl Hw Hy) as (E1 & N & E2 & B). change (2 ^ 4) with 16 in *. cbn [hex_digits]. cbv zeta in E1, E2. rewrite E1, E2.
    destruct (Z.eqb_spec n 0); [lia|]. rewrite orb_true_r.
    destruct (IH (y mod 16 ^ Z.of_nat k) (n + 1) (16 * acc + y / 16 ^ Z.of_nat k)) as (ds & E & F & V); [lia|lia|done|].
    exists (y / 16 ^ Z.of_nat k :: ds). rewrite E. split_and!; [done|by constructor|].
    change (hex_value acc (y / 16 ^ Z.of_nat k :: ds)) with (hex_value (16 * acc + y / 16 ^ Z.of_nat k) ds). rewrite V.
    rewrite Nat2Z.inj_succ, Z.pow_succ_r by lia. pose proof (Z.div_mod y (16 ^ Z.of_nat k)). lia.
Qed.

Lemma hex_digits_first tab w k : forall y,
  4 * Z.of_nat k <= w -> 0 <= y < 16 ^ Z.of_nat k ->
  exists ds, hex_digits tab w k (y * 2 ^ (w - 4 * Z.of_nat k)) 0 = rd tab <$> ds /\ Forall nibble ds /\
    hex_value 0 ds = y /\ (0 < y -> 0 < chr ds).
Proof.
  induction k as [|k IH]; intros y Hw Hy.
  - exists []. change (16 ^ Z.of_nat 0) with 1 in *. split_and!; [done|constructor|cbn; lia|lia].
  - destruct (top_bits 4 w k y eq_refl Hw Hy) as (E1 & N & E2 & B). change (2 ^ 4) with 16 in *. cbn [hex_digits]. cbv zeta in E1, E2. rewrite E1, E2.
    change (0 =? 0) with true. cbn [negb]. rewrite orb_false_r. pose proof (Z.div_mod y (16 ^ Z.of_nat k)) as Hdm.
    destruct (Z.eqb_spec (y / 16 ^ Z.of_nat k) 0) as [E0|E0]; cbn [negb].
    + destruct (IH (y mod 16 ^ Z.of_nat k)) as (ds & E & F & V & C); [lia|done|]. exists ds. rewrite E0 in Hdm.
      split_and!; [done|done|lia|]. intros H. apply C. lia.
    + destruct (hex_digits_later tab w k (y mod 16 ^ Z.of_nat k) (0 + 1) (16 * 0 + y / 16 ^ Z.of_nat k)) as (ds & E & F & V); [lia|lia|done|].
      exists (y / 16 ^ Z.of_nat k :: ds). rewrite E. split_and!; [done|by constructor| |].
      * change (hex_value 0 (y / 16 ^ Z.of_nat k :: ds)) with (hex_value (16 * 0 + y / 16 ^ Z.of_nat k) ds). rewrite V. lia.
      * intros _. cbn [chr]. destruct N. lia.
Qed.

Definition hex_tab (tab : list Z) : Prop := tab = __hextab \/ tab = __hexuptab.

(** A digit of either table is read back, and is no null, space or X. *)
Lemma hex_char_tab tab d :
  hex_tab tab -> nibble d -> hex_char (rd tab d) = Some d /\ rd tab d <> 0 /\ rd tab d <> 32 /\
  Z.land (rd tab d) (Z.lnot 32) <> 88 /\ (rd tab d = 48 -> d = 0).
Proof.
  intros Ht Hd. assert (H : d = 0 \/ d = 1 \/ d = 2 \/ d = 3 \/ d = 4 \/ d = 5 \/ d = 6 \/ d = 7 \/ d = 8 \/ d = 9 \/ d = 10 \/
    d = 11 \/ d = 12 \/ d = 13 \/ d = 14 \/ d = 15) by (unfold nibble in Hd; lia). clear Hd.
  destruct Ht as [-> | ->]; repeat (destruct H as [-> |H]; [by split_and!|]); by subst.
Qed.

Lemma hex_value_mono ds : forall v, Forall nibble ds -> 0 <= v -> v <= hex_value v ds.
Proof.
  unfold hex_value, nibble. induction ds as [|d ds IH]; intros v D Hv; [done|]. inversion D as [|?? D1 D2]; subst.
  cbn [fold_left]. transitivity (16 * v + d); [lia|]. apply IH; [done|lia].
Qed.

Lemma read_hex_spec tab w ds : hex_tab tab -> forall v,
  Forall nibble ds -> 0 <= v -> hex_value v ds < 2 ^ w -> read_hex w (rd tab <$> ds) v = (hex_value v ds, []).
Proof.
  intros Ht. induction ds as [|d ds IH]; intros v D Hv Hd; [done|]. inversion D as [|?? D1 D2]; subst.
  destruct (hex_char_tab tab d Ht D1) as (E & H0 & _). cbn [fmap list_fmap read_hex].
  destruct (Z.eqb_spec (rd tab d) 0); [done|]. rewrite E. unfold nibble in D1.
  change (hex_value v (d :: ds)) with (hex_value (16 * v + d) ds) in *.
  pose proof (hex_value_mono ds (16 * v + d) D2 ltac:(lia)) as M. rewrite Z.shiftl_mul_pow2 by lia. change (2 ^ 4) with 16.
  rewrite (wrap_small w (v * 16)), wrap_small by lia. replace (v * 16 + d) with (16 * v + d) by lia. apply IH; [done|lia|done].
Qed.

Lemma strtou_hex tab w k v :
  hex_tab tab -> w = 4 * Z.of_nat k -> 0 <= v < 2 ^ w ->
  strtou w (if v =? 0 then [48] else hex_digits tab w k v 0) 16 = (v, []).
Proof.
  intros Ht Ew Hv. destruct (Z.eqb_spec v 0) as [-> |Hn]; [reflexivity|].
  assert (Hp : 16 ^ Z.of_nat k = 2 ^ w) by (rewrite Ew, Z.pow_mul_r by lia; done).
  destruct (hex_digits_first tab w k v) as (ds & E & F & V & C); [lia|lia|].
  replace (w - 4 * Z.of_nat k) with 0 in E by lia. rewrite Z.mul_1_r in E. rewrite E. specialize (C ltac:(lia)).
  destruct ds as [|d ds]; [done|]. inversion F as [|?? F1 F2]; subst. cbn [chr] in C.
  destruct (hex_char_tab tab d Ht F1) as (_ & _ & H1 & _ & H2). unfold strtou.
  replace (skip_spaces (rd tab <$> d :: ds)) with (rd tab <$> d :: ds)
    by (cbn [fmap list_fmap skip_spaces]; destruct (Z.eqb_spec (rd tab d) 32); done).
  change (chr (rd tab <$> d :: ds)) with (rd tab d). destruct (Z.eqb_spec (rd tab d) 48) as [E48|_]; [specialize (H2 E48); lia|].
  rewrite andb_false_r. change (16 =? 0) with false. change (16 =? 10) with false. change (16 =? 16) with true. cbv iota.
  apply read_hex_spec; [done|done|lia|lia].
Qed.

(** Printing in hexadecimal, with small or capital letters, and reading back
    with strtoul or strtoull gives the same value and consumes the string. *)
Theorem hex_roundtrip u v :
  0 <= u < 4294967296 -> 0 <= v < 18446744073709551616 ->
  strtoul (uint2hex u) 16 = (u, []) /\ strtoul (uint2hexup u) 16 = (u, []) /\
  strtoull (ull2hex v) 16 = (v, []) /\ strtoull (ull2hexup v) 16 = (v, []).
Proof.
  intros Hu Hv. unfold strtoul, strtoull, uint2hex, uint2hexup, ull2hex, ull2hexup.
  split_and!; apply strtou_hex; first [by left|by right|done].
Qed.

(** A number that starts with a zero and has no X is not read in base 8, nor
    is any number when base 8 is asked for: the result is 0 and no digit is
    consumed but the zero. *)
Theorem strtoul_no_octal s :
  Forall digit s ->
  strtoul (48 :: s) 0 = (0, s) /\ strtoul s 8 = (0, s).
Proof.
  intros D. assert (H : forall c, digit c -> (Z.land c (Z.lnot 32) =? 88) = false /\ (c =? 32) = false).
  { intros c Hc. unfold digit in Hc. assert (E : c = 48 \/ c = 49 \/ c = 50 \/ c = 51 \/ c = 52 \/ c = 53 \/ c = 54 \/ c = 55 \/
      c = 56 \/ c = 57) by lia. repeat (destruct E as [-> |E]; [done|]). by subst. }
  unfold strtoul, strtou. destruct s as [|c s]; [done|]. inversion D as [|?? D1 _]; subst. destruct (H c D1) as [H1 H2].
  split.
  - cbn [skip_spaces chr tail]. change (48 =? 32) with false. cbv iota. cbn [chr tail]. change ((0 =? 0) || (0 =? 16)) with true.
    change (48 =? 48) with true. cbn [andb chr tail]. rewrite H1. done.
  - cbn [skip_spaces]. rewrite H2. cbn [chr]. change ((8 =? 0) || (8 =? 16)) with false. done.
Qed.

(** ** Square roots *)

(** One round: two bits of the operand enter the remainder. *)
Lemma sqrt_step X d :
  0 <= X -> 0 <= d < 4 ->
  let r := Z.sqrt X in let rem := 4 * (X - r * r) + d in
  (if 4 * r + 1 <=? rem then Z.sqrt (4 * X + d) = 2 * r + 1 /\ rem - (4 * r + 1) = 4 * X + d - (2 * r + 1) * (2 * r + 1)
   else Z.sqrt (4 * X + d) = 2 * r /\ rem = 4 * X + d - 2 * r * (2 * r)).
Proof.
  intros HX Hd r rem. pose proof (Z.sqrt_spec X HX) as H. cbv zeta in H. fold r in H. pose proof (Z.sqrt_nonneg X) as Hr. fold r in Hr.
  destruct (Z.leb_spec (4 * r + 1) rem); unfold rem in *; (split; [apply Z.sqrt_unique|]); nia.
Qed.

Lemma sqrt_loop_spec w wr n : forall X y,
  2 * Z.of_nat n <= w -> 0 <= X -> 0 <= y < 4 ^ Z.of_nat n ->
  let F := Z.sqrt (X * 4 ^ Z.of_nat n + y) in
  4 * F + 4 <= 2 ^ w -> 2 * F + 2 <= 2 ^ wr ->
  sqrt_loop w wr n (y * 2 ^ (w - 2 * Z.of_nat n)) (X - Z.sqrt X * Z.sqrt X) (2 * Z.sqrt X) = 2 * F.
Proof.
  induction n as [|n IH]; intros X y Hw HX Hy F HF1 HF2; unfold F in *; clear F.
  - change (4 ^ Z.of_nat 0) with 1 in *. cbn [sqrt_loop]. do 2 f_equal. lia.
  - destruct (top_bits 2 w n y eq_refl Hw Hy) as (E1 & Hd & E2 & Hm). cbv zeta in E1, E2. change (2 ^ 2) with 4 in *.
    rewrite Nat2Z.inj_succ in HF1, HF2 |- *. rewrite Z.pow_succ_r in HF1, HF2 |- * by lia. rewrite <- Nat2Z.inj_succ.
    set (P := 4 ^ Z.of_nat n) in *. assert (HP : 0 < P) by (apply Z.pow_pos_nonneg; lia).
    pose proof (Z.div_mod y P ltac:(lia)) as Hdm. set (d := y / P) in *. set (y' := y mod P) in *.
    replace (X * (4 * P) + y) with ((4 * X + d) * P + y') in * by nia.
    cbn [sqrt_loop]. rewrite E1, E2. set (r := Z.sqrt X) in *. pose proof (Z.sqrt_nonneg X) as Hr. fold r in Hr.
    pose proof (Z.sqrt_spec X HX) as Hs. cbv zeta in Hs. fold r in Hs.
    assert (Hrem : 0 <= X - r * r <= 2 * r) by nia.
    assert (Hmono : Z.sqrt (4 * X + d) <= Z.sqrt ((4 * X + d) * P + y')) by (apply Z.sqrt_le_mono; nia).
    pose proof (sqrt_step X d HX Hd) as St. cbv zeta in St. fold r in St.
    assert (Hlow : 2 * r <= Z.sqrt (4 * X + d)) by (destruct (4 * r + 1 <=? _); lia).
    rewrite !Z.shiftl_mul_pow2 by lia. change (2 ^ 1) with 2. change (2 ^ 2) with 4.
    set (Fin := Z.sqrt ((4 * X + d) * P + y')) in *. set (rem := X - r * r) in *.
    assert (A1 : 0 <= 2 * r * 2 < 2 ^ wr) by lia. assert (A2 : 0 <= 2 * r * 2 + 1 < 2 ^ wr) by lia.
    assert (A3 : 0 <= rem * 4 < 2 ^ w) by lia. assert (A4 : 0 <= rem * 4 + d < 2 ^ w) by lia.
    rewrite (wrap_small wr (2 * r * 2)), (wrap_small wr (2 * r * 2 + 1)), (wrap_small w (rem * 4)), (wrap_small w (rem * 4 + d)) by done.
    unfold rem in *. clear rem.
    replace (2 * r * 2 + 1) with (4 * r + 1) by lia. replace ((X - r * r) * 4 + d) with (4 * (X - r * r) + d) by lia.
    specialize (IH (4 * X + d) y'). destruct (4 * r + 1 <=? 4 * (X - r * r) + d); destruct St as [S1 S2]; rewrite S1 in *.
    + rewrite (wrap_small wr (4 * r + 1 + 1)) by lia. rewrite S2. replace (4 * r + 1 + 1) with (2 * (2 * r + 1)) by lia.
      apply IH; [lia|lia|done|done|done].
    + rewrite (wrap_small wr (4 * r + 1 - 1)) by lia. rewrite S2. replace (4 * r + 1 - 1) with (2 * (2 * r)) by lia.
      apply IH; [lia|lia|done|done|done].
Qed.

(** u32sqrt is the integer square root for every operand, without overflow on
    the way; u64sqrt is for the operands below 2^62. *)
Theorem sqrt_floor x y :
  0 <= x < 4294967296 -> 0 <= y < 2 ^ 62 -> u32sqrt x = Z.sqrt x /\ u64sqrt y = Z.sqrt y.
Proof.
  intros Hx Hy. assert (S : forall z b, 0 <= z < b * b -> 0 <= b -> Z.sqrt z < b).
  { intros z b H1 H2. pose proof (Z.sqrt_spec z ltac:(lia)) as H. cbv zeta in H. nia. }
  pose proof (S x 65536 ltac:(lia) ltac:(lia)). pose proof (S y (2 ^ 31) ltac:(lia) ltac:(lia)). split.
  - unfold u32sqrt. pose proof (sqrt_loop_spec 32 32 16 0 x) as L. cbv zeta in L. change (Z.sqrt 0) with 0 in L.
    change (0 * 4 ^ Z.of_nat 16 + x) with x in L. change (2 ^ (32 - 2 * Z.of_nat 16)) with 1 in L. rewrite Z.mul_1_r in L.
    change (0 - 0 * 0) with 0 in L. change (2 * 0) with 0 in L. rewrite L; [by apply shiftr_half|lia..].
  - unfold u64sqrt. pose proof (sqrt_loop_spec 64 32 32 0 y) as L. cbv zeta in L. change (Z.sqrt 0) with 0 in L.
    change (0 * 4 ^ Z.of_nat 32 + y) with y in L. change (2 ^ (64 - 2 * Z.of_nat 32)) with 1 in L. rewrite Z.mul_1_r in L.
    change (0 - 0 * 0) with 0 in L. change (2 * 0) with 0 in L. rewrite L; [by apply shiftr_half|lia..].
Qed.

(** Above, the root no longer fits the variable that holds its double. *)
Lemma u64sqrt_overflows : u64sqrt (2 ^ 62) = 0 /\ Z.sqrt (2 ^ 62) = 2 ^ 31.
Proof. split; vm_compute; reflexivity. Qed.

Lemma ilog2_spec v : 0 < v < 2147483648 -> ilog2 v = Z.log2 v.
Proof. intros H. unfold ilog2, __clz. rewrite u32_small by lia. destruct (Z.eqb_spec v 0); lia. Qed.

(** ** Concrete values *)

Lemma dec_roundtrip_witness :
  canonical (uint2dec 4294967295) /\ strtoul (uint2dec 4294967295) 10 = (4294967295, []) /\
  canonical (ull2dec 10203040506070809010) /\ strtoull (ull2dec 10203040506070809010) 10 = (10203040506070809010, []) /\
  strtol (int2dec (-2147483648)) 10 = (-2147483648, []) /\ atoi (int2dec (-2147483648)) = -2147483648.
Proof. apply (dec_roundtrip 4294967295 10203040506070809010 (-2147483648)); lia. Defined.

Lemma hex_roundtrip_witness :
  strtoul (uint2hex 3735928559) 16 = (3735928559, []) /\ strtoul (uint2hexup 3735928559) 16 = (3735928559, []) /\
  strtoull (ull2hex 1) 16 = (1, []) /\ strtoull (ull2hexup 1) 16 = (1, []).
Proof. apply (hex_roundtrip 3735928559 1); lia. Defined.

Lemma strtoul_no_octal_witness : strtoul [48; 49; 55] 0 = (0, [49; 55]) /\ strtoul [49; 55] 8 = (0, [49; 55]).
Proof. apply (strtoul_no_octal [49; 55]). repeat constructor; done. Defined.

Lemma sqrt_floor_witness : u32sqrt 4294967295 = Z.sqrt 4294967295 /\ u64sqrt 1000000000000 = Z.sqrt 1000000000000.
Proof. apply (sqrt_floor 4294967295 1000000000000); lia. Defined.

(** The printers and the readers evaluate. *)
Example uint2dec_1024 : uint2dec 1024 = [49; 48; 50; 52].
Proof. reflexivity. Qed.

Example uint2hex_beef : uint2hex 48879 = [98; 101; 101; 102].
Proof. reflexivity. Qed.
