(* ===== verification/Ymodem.v ===== *)
(** * YMODEM reception

    src/sdk/libxmodem/ymodem_rcv.c, the compiled version.  It shares the packet
    format with [Xmodem], the device being a parameter again, and adds a first
    packet with the name and the size of the file. *)

From stdpp Require Import base tactics numbers list.
From Stdlib Require Import ZArith Lia.
From S2P Require Import Prelude Buffer State Crc Convert Xmodem.

(** ** Data *)

Record ymodem_rcv := mk_ry {
  ry_pktno : Z; ry_fsize : Z; ry_count : Z; ry_crc_mode : Z; ry_xmodem : Z; ry_sync : Z; ry_retry : Z;
  ry_data_len : Z; ry_data_pos : Z; ry_pkt : list Z
}.

Definition ry_set_pkt (v : list Z) (ry : ymodem_rcv) : ymodem_rcv :=
  mk_ry (ry_pktno ry) (ry_fsize ry) (ry_count ry) (ry_crc_mode ry) (ry_xmodem ry) (ry_sync ry) (ry_retry ry)
    (ry_data_len ry) (ry_data_pos ry) v.
Definition ry_set_sync (v : Z) (ry : ymodem_rcv) : ymodem_rcv :=
  mk_ry (ry_pktno ry) (ry_fsize ry) (ry_count ry) (ry_crc_mode ry) (ry_xmodem ry) v (ry_retry ry)
    (ry_data_len ry) (ry_data_pos ry) (ry_pkt ry).
Definition ry_set_retry (v : Z) (ry : ymodem_rcv) : ymodem_rcv :=
  mk_ry (ry_pktno ry) (ry_fsize ry) (ry_count ry) (ry_crc_mode ry) (ry_xmodem ry) (ry_sync ry) v
    (ry_data_len ry) (ry_data_pos ry) (ry_pkt ry).
Definition ry_set_pktno (v : Z) (ry : ymodem_rcv) : ymodem_rcv :=
  mk_ry v (ry_fsize ry) (ry_count ry) (ry_crc_mode ry) (ry_xmodem ry) (ry_sync ry) (ry_retry ry)
    (ry_data_len ry) (ry_data_pos ry) (ry_pkt ry).
Definition ry_set_fsize (v : Z) (ry : ymodem_rcv) : ymodem_rcv :=
  mk_ry (ry_pktno ry) v (ry_count ry) (ry_crc_mode ry) (ry_xmodem ry) (ry_sync ry) (ry_retry ry)
    (ry_data_len ry) (ry_data_pos ry) (ry_pkt ry).
Definition ry_set_pos (v : Z) (ry : ymodem_rcv) : ymodem_rcv :=
  mk_ry (ry_pktno ry) (ry_fsize ry) (ry_count ry) (ry_crc_mode ry) (ry_xmodem ry) (ry_sync ry) (ry_retry ry)
    (ry_data_len ry) v (ry_pkt ry).

(** ** Code *)

(** [ry->crc_mode ? 'C' : NAK] *)
Definition ry_request (crc_mode : Z) : Z := if negb (crc_mode =? 0) then CHAR_C else NAK.

Definition ymodem_rcv_init (mode : Z) (ry : ymodem_rcv) : Z * ymodem_rcv :=
  if XMODEM_RCV_CRC <? mode then (- EINVAL, ry)
  else
    let crc_mode := if mode =? XMODEM_RCV_CRC then 1 else 0 in
    (0, mk_ry 0 (1024 * 1024) 0 crc_mode 0 (ry_request crc_mode) 30 0 0 (ry_pkt ry)).

(** The digits after a name, up to the first other character. *)
Fixpoint dec2int_from (s : list Z) (val : Z) : Z :=
  match s with
  | [] => val
  | c :: t => if (c =? 0) || (c <? 48) || (57 <? c) then val else dec2int_from t (u32 (u32 (val * 10) + (c - 48)))
  end.
Definition dec2int (s : list Z) : Z := dec2int_from s 0.

(** What follows the first null of the data. *)
Fixpoint after_null (s : list Z) : list Z :=
  match s with
  | [] => []
  | c :: t => if c =? 0 then t else after_null t
  end.

Inductive ystart := Y_timeout | Y_return (ret : Z) | Y_eot | Y_packet (cnt rem pos : Z).

Section code.
Context {D : Type} (dev : comm_dev D) (fuel : nat).

Definition ymodem_rcv_cancel (ry : ymodem_rcv) (d : D) : Z * ymodem_rcv * D :=
  let ry := ry_set_pkt (put 0 [CAN; CAN] (ry_pkt ry)) ry in
  let '(_, d) := send dev [CAN; CAN] d in
  (0, ry, d).

(** [rem] bytes from [pos] have been received and not looked at. *)
Fixpoint ry_start (n : nat) (rem pos : Z) (pkt : list Z) (d : D) : option (ystart * list Z * D) :=
  match n with
  | O => None
  | S n =>
      let next rem pos pkt d :=
        let c := rd pkt pos in
        let pos := pos + 1 in
        let rem := rem - 1 in
        if c =? STX then Some (Y_packet 1024 rem pos, pkt, d)
        else if c =? SOH then Some (Y_packet 128 rem pos, pkt, d)
        else if c =? CAN then Some (Y_return (-1), pkt, d)
        else if c =? EOT then Some (Y_eot, pkt, d)
        else ry_start n rem pos pkt d in
      if rem =? 0 then
        let '(ret, bytes, d) := recv dev 128 2000 d in
        let pkt := put 0 bytes pkt in
        if ret =? THINKOS_ETIMEDOUT then Some (Y_timeout, pkt, d)
        else if ret <? 0 then Some (Y_return ret, pkt, d)
        else next ret 0 pkt d
      else next rem pos pkt d
  end.

Definition ry_valid (crc_mode cnt : Z) (pkt : list Z) : bool :=
  (rd pkt 1 =? Z.land (Z.lnot (rd pkt 2)) 255) &&
  (let data := get 3 cnt pkt in
   if negb (crc_mode =? 0)
   then Z.lor (Z.shiftl (rd pkt (3 + cnt)) 8) (rd pkt (3 + cnt + 1)) =? crc16ccitt 0 data
   else rd pkt (3 + cnt) =? pkt_cks data).

(** From the number of a packet that has passed the checks to the return. *)
Definition ry_accept (cnt : Z) (ry : ymodem_rcv) (d : D) : Z * ymodem_rcv * D :=
  let '(cnt, ry, d) :=
    if ry_pktno ry =? 0 then
      let ry := ry_set_pkt (put 0 [ACK] (ry_pkt ry)) ry in
      let '(_, d) := send dev [ACK] d in
      (cnt, ry, d)
    else
      let cnt := if ry_fsize ry <? u32 (ry_count ry + cnt) then int32 (ry_fsize ry - ry_count ry) else cnt in
      (cnt, mk_ry (ry_pktno ry) (ry_fsize ry) (u32 (ry_count ry + cnt)) (ry_crc_mode ry) (ry_xmodem ry) ACK 10
              (ry_data_len ry) (ry_data_pos ry) (ry_pkt ry), d) in
  (cnt, mk_ry (u32 (ry_pktno ry + 1)) (ry_fsize ry) (ry_count ry) (ry_crc_mode ry) (ry_xmodem ry) (ry_sync ry) (ry_retry ry)
          (u16 cnt) 0 (ry_pkt ry), d).

Definition ry_fail (ry : ymodem_rcv) (d : D) : Z * ymodem_rcv * D :=
  let '(_, ry, d) := ymodem_rcv_cancel ry d in (-1, ry, d).

Fixpoint ry_pkt_loop (n : nat) (ry : ymodem_rcv) (d : D) : option (Z * ymodem_rcv * D) :=
  match n with
  | O => None
  | S n =>
      let timeout ry d :=
        let ry := ry_set_retry (u8 (ry_retry ry - 1)) ry in
        if ry_retry ry =? 0 then Some (ry_fail ry d) else ry_pkt_loop n ry d in
      let error ry d :=
        match flush dev fuel 0 (ry_pkt ry) d with
        | None => None
        | Some (pkt, d) => Some (ry_fail (ry_set_sync NAK (ry_set_pkt pkt ry)) d)
        end in
      let '(ret, d) := send dev [ry_sync ry] d in
      if ret <? 0 then Some (ret, ry, d)
      else
        match ry_start fuel 0 0 (ry_pkt ry) d with
        | None => None
        | Some (Y_timeout, pkt, d) => timeout (ry_set_pkt pkt ry) d
        | Some (Y_return ret, pkt, d) => Some (ret, ry_set_pkt pkt ry, d)
        | Some (Y_eot, pkt, d) =>
            let ry := ry_set_pktno 0 (ry_set_sync (ry_request (ry_crc_mode ry)) ry) in
            let ry := ry_set_pkt (put 0 [ACK] pkt) ry in
            let '(_, d) := send dev [ACK] d in
            Some (0, ry, d)
        | Some (Y_packet cnt rem pos, pkt, d) =>
            let pkt := put 1 (get pos rem pkt) pkt in
            match rcv_body dev fuel (cnt + 4 - rem) (1 + rem) pkt d with
            | None => None
            | Some (Body_timeout, pkt, d) => timeout (ry_set_pkt pkt ry) d
            | Some (Body_return ret, pkt, d) => Some (ret, ry_set_pkt pkt ry, d)
            | Some (Body_done, pkt, d) =>
                let ry := ry_set_pkt pkt ry in
                let seq := rd pkt 1 in
                if negb (ry_valid (ry_crc_mode ry) cnt pkt) then error ry d
                else if seq =? Z.land (ry_pktno ry - 1) 255 then ry_pkt_loop n ry d
                else if negb (seq =? Z.land (ry_pktno ry) 255) then
                  if (ry_pktno ry =? 0) && (seq =? 1) then
                    let ry := mk_ry (u32 (ry_pktno ry + 1)) (ry_fsize ry) (ry_count ry) (ry_crc_mode ry) 1 (ry_sync ry)
                                (ry_retry ry) (ry_data_len ry) (ry_data_pos ry) (ry_pkt ry) in
                    Some (ry_accept cnt ry d)
                  else error ry d
                else Some (ry_accept cnt ry d)
            end
        end
  end.

Definition ymodem_rcv_pkt (ry : ymodem_rcv) (d : D) : option (Z * ymodem_rcv * D) := ry_pkt_loop fuel ry d.

Definition ry_copy (len : Z) (ry : ymodem_rcv) : Z * list Z * ymodem_rcv :=
  let n := Z.min (ry_data_len ry - ry_data_pos ry) len in
  (n, get (3 + ry_data_pos ry) n (ry_pkt ry), ry_set_pos (u16 (ry_data_pos ry + n)) ry).

Fixpoint ry_loop (n : nat) (len : Z) (ry : ymodem_rcv) (d : D) : option (Z * list Z * ymodem_rcv * D) :=
  match n with
  | O => None
  | S n =>
      if 0 <? ry_data_len ry - ry_data_pos ry then
        let '(ret, bytes, ry) := ry_copy len ry in Some (ret, bytes, ry, d)
      else
        match ymodem_rcv_pkt ry d with
        | None => None
        | Some (ret, ry, d) =>
            let again ry := if 0 <=? ret then ry_loop n len ry d else Some (ret, [], ry, d) in
            if (0 <? ret) && (ry_xmodem ry =? 0) && (ry_pktno ry =? 1) then
              let fsize := int32 (dec2int (after_null (drop 3 (ry_pkt ry)))) in
              if fsize =? 0 then Some (ret, [], ry, d) else again (ry_set_fsize (u32 fsize) ry)
            else again ry
        end
  end.

Definition ymodem_rcv_loop (len : Z) (ry : ymodem_rcv) (d : D) : option (Z * list Z * ymodem_rcv * D) :=
  if len <=? 0 then Some (- EINVAL, [], ry, d) else ry_loop fuel len ry d.
End code.

(** ** The end of a file *)

Section results.
Context {D : Type} (dev : comm_dev D) (fuel : nat).

Lemma ry_loop_nonzero n : forall len ry d ret bytes ry' d',
  0 < len -> ry_loop dev fuel n len ry d = Some (ret, bytes, ry', d') -> ret <> 0.
Proof.
  induction n as [|n IH]; intros len ry d ret bytes ry' d' Hl; [done|]. cbn [ry_loop].
  destruct (Z.ltb_spec 0 (ry_data_len ry - ry_data_pos ry)); [unfold ry_copy; intros [= <- _ _ _]; lia|].
  destruct (ymodem_rcv_pkt dev fuel ry d) as [[[r ry1] d1]|]; [|done]. cbv zeta.
  destruct (Z.ltb_spec 0 r) as [Hr|Hr]; cbn [andb]; destruct (Z.leb_spec 0 r) as [Hr0|Hr0]; try lia.
  - destruct ((ry_xmodem ry1 =? 0) && (ry_pktno ry1 =? 1)); [|by eapply IH].
    destruct (_ =? 0); [intros [= <- _ _ _]; lia|by eapply IH].
  - by eapply IH.
  - intros [= <- _ _ _]. lia.
Qed.

(** ** The safety of the receiver *)

(** The bytes accepted never exceed the size of the file. *)
Definition ry_ok (ry : ymodem_rcv) : Prop := 0 <= ry_count ry <= ry_fsize ry /\ ry_fsize ry < 2147483648 - 1024 /\
  0 <= ry_pktno ry < 4294967295.

Definition ry_received (ry ry' : ymodem_rcv) (ret : Z) : Prop :=
  ry_fsize ry' = ry_fsize ry /\ ry_crc_mode ry' = ry_crc_mode ry /\ ry_count ry <= ry_count ry' <= ry_fsize ry /\
  (0 < ret -> exists n, (n = 128 \/ n = 1024) /\ ret <= n /\ ry_valid (ry_crc_mode ry) n (ry_pkt ry') = true /\
     (rd (ry_pkt ry') 1 = Z.land (ry_pktno ry) 255 \/ ry_pktno ry = 0 /\ rd (ry_pkt ry') 1 = 1 /\ ry_xmodem ry' = 1) /\
     ry_data_len ry' = ret /\ ry_data_pos ry' = 0 /\ ry_count ry' = ry_count ry + (if ry_pktno ry' =? 1 then 0 else ret)).

Lemma ry_valid_put_0 m cnt c pkt : 0 <= cnt -> ry_valid m cnt (put 0 [c] pkt) = ry_valid m cnt pkt.
Proof. intros H. unfold ry_valid. by rewrite !rd_put_0, get_put_0 by lia. Qed.

Lemma ry_start_cnt n : forall rem pos pkt d r pkt' d',
  ry_start dev n rem pos pkt d = Some (r, pkt', d') ->
  match r with Y_packet cnt _ _ => cnt = 128 \/ cnt = 1024 | Y_return ret => ret < 0 | _ => True end.
Proof.
  induction n as [|n IH]; intros rem pos pkt d r pkt' d'; [done|]. cbn [ry_start]. cbv zeta.
  assert (N : forall rem pos pkt d,
    (if rd pkt pos =? 2 then Some (Y_packet 1024 (rem - 1) (pos + 1), pkt, d)
     else if rd pkt pos =? 1 then Some (Y_packet 128 (rem - 1) (pos + 1), pkt, d)
     else if rd pkt pos =? 24 then Some (Y_return (-1), pkt, d)
     else if rd pkt pos =? 4 then Some (Y_eot, pkt, d) else ry_start dev n (rem - 1) (pos + 1) pkt d) = Some (r, pkt', d') ->
    match r with Y_packet cnt _ _ => cnt = 128 \/ cnt = 1024 | Y_return ret => ret < 0 | _ => True end).
  { intros rem0 pos0 pkt0 d0. destruct (_ =? 2); [intros [= <- _ _]; auto|]. destruct (_ =? 1); [intros [= <- _ _]; auto|].
    destruct (_ =? 24); [intros [= <- _ _]; lia|]. destruct (_ =? 4); [by intros [= <- _ _]|]. apply IH. }
  destruct (rem =? 0); [|apply N]. destruct (recv dev 128 2000 d) as [[ret bytes] d1].
  destruct (ret =? -1); [by intros [= <- _ _]|]. destruct (Z.ltb_spec ret 0); [intros [= <- _ _]; done|]. apply N.
Qed.

Lemma ry_accept_spec cnt ry d ret ry' d' :
  ry_ok ry -> cnt = 128 \/ cnt = 1024 -> ry_accept dev cnt ry d = (ret, ry', d') ->
  ry_fsize ry' = ry_fsize ry /\ ry_crc_mode ry' = ry_crc_mode ry /\ ry_xmodem ry' = ry_xmodem ry /\
  ry_pktno ry' = ry_pktno ry + 1 /\ 0 <= ret <= cnt /\
  ry_count ry' = ry_count ry + (if ry_pktno ry =? 0 then 0 else ret) /\ ry_count ry' <= ry_fsize ry /\
  ry_data_len ry' = ret /\ ry_data_pos ry' = 0 /\
  (forall m, ry_valid m cnt (ry_pkt ry') = ry_valid m cnt (ry_pkt ry)) /\ rd (ry_pkt ry') 1 = rd (ry_pkt ry) 1.
Proof.
  intros ((C1 & C2) & C3 & P1 & P2) Hc. unfold ry_accept. destruct (Z.eqb_spec (ry_pktno ry) 0) as [E|E].
  - destruct (send dev [6] d) as [r d1]. intros [= <- <- _].
    cbn [ry_fsize ry_crc_mode ry_xmodem ry_pktno ry_count ry_data_len ry_data_pos ry_pkt ry_set_pkt].
    rewrite u32_small, u16_small by lia. split_and!; try done; try lia.
    + intros m. apply ry_valid_put_0. lia.
    + by apply rd_put_0.
  - rewrite (u32_small (ry_count ry + cnt)) by lia.
    set (k := if ry_fsize ry <? ry_count ry + cnt then int32 (ry_fsize ry - ry_count ry) else cnt).
    assert (Hk : 0 <= k <= cnt /\ ry_count ry + k <= ry_fsize ry).
    { unfold k. destruct (Z.ltb_spec (ry_fsize ry) (ry_count ry + cnt)); [|lia]. rewrite int32_small by lia. lia. }
    clearbody k. intros [= <- <- _].
    cbn [ry_fsize ry_crc_mode ry_xmodem ry_pktno ry_count ry_data_len ry_data_pos ry_pkt].
    rewrite !u32_small, u16_small by lia. split_and!; try done; lia.
Qed.

(** An accepted packet. *)
Lemma ry_accepted ry ry1 cnt d ret ry' d' :
  ry_ok ry -> ry_fsize ry1 = ry_fsize ry -> ry_count ry1 = ry_count ry -> ry_crc_mode ry1 = ry_crc_mode ry ->
  cnt = 128 \/ cnt = 1024 -> ry_valid (ry_crc_mode ry) cnt (ry_pkt ry1) = true ->
  (ry_pktno ry1 = ry_pktno ry /\ rd (ry_pkt ry1) 1 = Z.land (ry_pktno ry) 255 \/
   ry_pktno ry = 0 /\ ry_pktno ry1 = 1 /\ rd (ry_pkt ry1) 1 = 1 /\ ry_xmodem ry1 = 1) ->
  ry_accept dev cnt ry1 d = (ret, ry', d') -> ry_received ry ry' ret.
Proof.
  intros K F C M Hc V N E.
  assert (K1 : ry_ok ry1) by (destruct K as (A1 & A2 & A3); unfold ry_ok; rewrite F, C; split_and!; try done; lia).
  destruct (ry_accept_spec cnt ry1 d ret ry' d' K1 Hc E) as (B1 & B2 & B3 & B4 & B5 & B6 & B7 & B8 & B9 & B10 & B11).
  split_and!; [congruence|congruence| |lia|].
  { rewrite B6, C. destruct (_ =? 0); lia. }
  intros Hr. exists cnt. rewrite B10, B11, B8, B9, B6, B4, B3, C. split_and!; try done; [lia| |].
  - destruct N as [[_ N]|(N1 & _ & N2 & N3)]; [by left|by right].
  - destruct (Z.eqb_spec (ry_pktno ry1) 0), (Z.eqb_spec (ry_pktno ry1 + 1) 1); lia.
Qed.

Lemma ry_received_from ry0 ry ry' ret :
  ry_pktno ry = ry_pktno ry0 -> ry_fsize ry = ry_fsize ry0 -> ry_count ry = ry_count ry0 ->
  ry_crc_mode ry = ry_crc_mode ry0 -> ry_received ry ry' ret -> ry_received ry0 ry' ret.
Proof. unfold ry_received. by intros -> -> -> ->. Qed.

Lemma ry_received_fail ry ry' ret :
  ry_ok ry -> ret <= 0 -> ry_fsize ry' = ry_fsize ry -> ry_count ry' = ry_count ry -> ry_crc_mode ry' = ry_crc_mode ry ->
  ry_received ry ry' ret.
Proof. intros ((C1 & C2) & _) Hr H1 H2 H3. unfold ry_received. rewrite H1, H2, H3. split_and!; try done; lia. Qed.

Lemma ry_fail_fields ry d ret ry' d' :
  ry_fail dev ry d = (ret, ry', d') ->
  ret = -1 /\ ry_fsize ry' = ry_fsize ry /\ ry_count ry' = ry_count ry /\ ry_crc_mode ry' = ry_crc_mode ry.
Proof. unfold ry_fail, ymodem_rcv_cancel. destruct (send dev _ d). by intros [= <- <- _]. Qed.

Lemma ry_pkt_loop_spec n : forall ry d ret ry' d',
  ry_ok ry -> ry_pkt_loop dev fuel n ry d = Some (ret, ry', d') -> ry_received ry ry' ret.
Proof.
  induction n as [|n IH]; intros ry d ret ry' d' K; [done|]. cbn [ry_pkt_loop]. cbv zeta.
  set (keep ry1 := ry_pktno ry1 = ry_pktno ry /\ ry_fsize ry1 = ry_fsize ry /\ ry_count ry1 = ry_count ry /\
                   ry_crc_mode ry1 = ry_crc_mode ry).
  assert (Again : forall ry1 d1, keep ry1 -> ry_pkt_loop dev fuel n ry1 d1 = Some (ret, ry', d') -> ry_received ry ry' ret).
  { intros ry1 d1 (H1 & H2 & H3 & H4) E. eapply ry_received_from; [done..|]. eapply IH; [|exact E].
    unfold ry_ok. by rewrite H1, H2, H3. }
  assert (Bad : forall ry1 d1, keep ry1 -> Some (ry_fail dev ry1 d1) = Some (ret, ry', d') -> ry_received ry ry' ret).
  { intros ry1 d1 (_ & H2 & H3 & H4) [= E]. apply ry_fail_fields in E as (-> & E2 & E3 & E4).
    apply ry_received_fail; [done|lia|congruence..]. }
  assert (T : forall ry1 d1, keep ry1 ->
    (if ry_retry (ry_set_retry (u8 (ry_retry ry1 - 1)) ry1) =? 0
     then Some (ry_fail dev (ry_set_retry (u8 (ry_retry ry1 - 1)) ry1) d1)
     else ry_pkt_loop dev fuel n (ry_set_retry (u8 (ry_retry ry1 - 1)) ry1) d1) = Some (ret, ry', d') ->
    ry_received ry ry' ret).
  { intros ry1 d1 H. destruct (_ =? 0); [by apply Bad|by apply Again]. }
  destruct (send dev [ry_sync ry] d) as [r0 d0].
  destruct (Z.ltb_spec r0 0); [intros [= <- <- _]; apply ry_received_fail; [done|lia|done..]|].
  destruct (ry_start dev fuel 0 0 (ry_pkt ry) d0) as [[[r pkt] d1]|] eqn:Es; [|done].
  apply ry_start_cnt in Es. destruct r as [|r1| |cnt rem pos].
  - by apply T.
  - intros [= <- <- _]. apply ry_received_fail; [done|lia|done..].
  - destruct (send dev [6] d1). intros [= <- <- _]. apply ry_received_fail; [done|lia|done..].
  - destruct (rcv_body dev fuel _ _ _ d1) as [[[b pkt2] d2]|] eqn:Eb; [|done]. apply rcv_body_error in Eb.
    destruct b as [|r2|]; [by apply T|intros [= <- <- _]; apply ry_received_fail; [done|lia|done..]|].
    assert (Er : forall X, match flush dev fuel 0 (ry_pkt (ry_set_pkt pkt2 ry)) d2 with
        | Some (pkt, d) => Some (ry_fail dev (ry_set_sync 21 (ry_set_pkt pkt (ry_set_pkt pkt2 ry))) d) | None => None end = Some X ->
        X = (ret, ry', d') -> ry_received ry ry' ret).
    { intros X E ->. destruct (flush dev fuel 0 _ d2) as [[pkt3 d3]|]; [|done]. by eapply Bad; [|exact E]. }
    destruct (ry_valid _ _ _) eqn:Ev; cbn [negb]; [|intros E; by eapply Er].
    destruct (_ =? Z.land _ _); [by apply Again|].
    destruct (Z.eqb_spec (rd pkt2 1) (Z.land (ry_pktno (ry_set_pkt pkt2 ry)) 255)) as [Eq|Eq]; cbn [negb].
    + intros [= E]. eapply ry_accepted; [..|exact E]; try done. by left.
    + destruct (Z.eqb_spec (ry_pktno (ry_set_pkt pkt2 ry)) 0) as [E0|E0]; cbn [andb]; [|intros E; by eapply Er].
      destruct (Z.eqb_spec (rd pkt2 1) 1) as [E1|E1]; [|intros E; by eapply Er]. intros [= E].
      eapply ry_accepted; [..|exact E]; try done. right. cbn [ry_set_pkt ry_pktno] in *. by rewrite E0.
Qed.
End results.

(** The result of ymodem_rcv_loop is never 0, on any device: it returns data,
    an error, or the length of an empty header.  The end of a transmission, which
    xmodem_rcv_loop reports as 0, makes it wait for another file. *)
Theorem ymodem_never_zero {D} (dev : comm_dev D) fuel len ry d ret bytes ry' d' :
  ymodem_rcv_loop dev fuel len ry d = Some (ret, bytes, ry', d') -> ret <> 0.
Proof.
  unfold ymodem_rcv_loop. destruct (Z.leb_spec len 0); [intros [= <- _ _ _]; lia|]. by apply ry_loop_nonzero.
Qed.

(** whatever the device delivers, the YMODEM receiver returns data only from
    a packet with the expected number (or the first of an XMODEM transfer), a
    matching complement and a correct check, and never more bytes in all than the
    size of the file. *)
Theorem ymodem_rcv_accepts {D} (dev : comm_dev D) fuel ry d ret ry' d' :
  ry_ok ry -> ymodem_rcv_pkt dev fuel ry d = Some (ret, ry', d') -> ry_received ry ry' ret.
Proof. apply ry_pkt_loop_spec. Qed.

(** ** The header packet *)

Lemma ry_frame_valid seq block t :
  block_ok block -> byte seq -> ry_valid 1 (len block) (frame true seq block ++ t) = true.
Proof.
  intros Hb Hs. destruct (frame_valid true 1 seq block t Hb Hs eq_refl) as (V & E1 & E3). cbv zeta in V, E1, E3.
  destruct Hb as [_ Hby]. destruct (frame_crc seq block t) as [F1 F2]. unfold pkt_valid in V. unfold ry_valid.
  rewrite E3, F1, F2, crc_join, crc_same, Z.eqb_refl by (done || apply pkt_crc_range).
  apply andb_true_iff in V as [V1 _]. by rewrite V1.
Qed.

Lemma dec2int_spec s : forall t v,
  Forall digit s -> 0 <= v -> dec_value v s < 4294967296 -> dec2int_from (s ++ 0 :: t) v = dec_value v s.
Proof.
  induction s as [|c s IH]; intros t v D Hv Hd; [done|]. inversion D as [|?? D1 D2]; subst. unfold digit in D1.
  cbn [app dec2int_from]. destruct (Z.eqb_spec c 0); [lia|]. destruct (Z.ltb_spec c 48); [lia|]. destruct (Z.ltb_spec 57 c); [lia|].
  cbn [orb]. change (dec_value v (c :: s)) with (dec_value (10 * v + (c - 48)) s) in *.
  pose proof (dec_value_mono s (10 * v + (c - 48)) D2 ltac:(lia)) as M.
  rewrite (u32_small (v * 10)), u32_small by lia. replace (v * 10 + (c - 48)) with (10 * v + (c - 48)) by lia.
  apply IH; [done|lia|done].
Qed.

Lemma after_null_spec name t : Forall (fun c => c <> 0) name -> after_null (name ++ 0 :: t) = t.
Proof.
  induction name as [|c name IH]; intros H; [done|]. inversion H as [|?? H1 H2]; subst. cbn [app after_null].
  destruct (Z.eqb_spec c 0); [done|by apply IH].
Qed.

(** The data of the first packet: the name, a null, the size in decimal, a null. *)
Definition header (name : list Z) (size : Z) (pad : list Z) : list Z := name ++ 0 :: uint2dec size ++ 0 :: pad.

Lemma header_size name size pad t :
  Forall (fun c => c <> 0) name -> 0 <= size < 2147483648 -> int32 (dec2int (after_null (header name size pad ++ t))) = size.
Proof.
  intros Hn Hs. unfold header. rewrite <- app_assoc. cbn [app]. rewrite after_null_spec by done. rewrite <- app_assoc. cbn [app].
  destruct (uint2dec_spec size) as ((_ & D & _) & V); [lia|]. unfold dec2int. rewrite dec2int_spec, V by (rewrite ?V; done || lia).
  apply int32_small. lia.
Qed.

(** A packet of 128 bytes comes in as 128 bytes and the rest. *)
Lemma take_bytes_split bs1 bs2 l out tmo :
  bs1 <> [] -> recv line_dev (len bs1) tmo (mk_line (wire (bs1 ++ bs2) l) out) = (len bs1, bs1, mk_line (wire bs2 l) out).
Proof. intros H. rewrite wire_app. by apply recv_bytes. Qed.

Lemma ry_header_pkt fuel n ry hb l out :
  length hb = 128%nat -> Forall byte hb -> ry_pktno ry = 0 -> ry_crc_mode ry = 1 ->
  ry_pkt_loop line_dev (S (S fuel)) (S n) ry (mk_line (wire (frame true 0 hb) l) out) =
  Some (128, mk_ry 1 (ry_fsize ry) (ry_count ry) 1 (ry_xmodem ry) (ry_sync ry) (ry_retry ry) 128 0
               (ACK :: frame_tail true 0 hb ++ drop 133 (ry_pkt ry)), mk_line l (out ++ [ry_sync ry] ++ [ACK])).
Proof.
  intros Hl Hb Hp Hm. set (f := frame true 0 hb).
  assert (Lf : length f = 133%nat) by (unfold f, frame; rewrite !length_app, Hl; done).
  assert (Hh : exists t, f = SOH :: t) by (exists (frame_tail true 0 hb); unfold f; rewrite frame_cons; unfold len; by rewrite Hl).
  assert (Ef : take 128 f ++ drop 128 f = f) by apply take_drop.
  assert (L1 : len (take 128 f) = 128) by (unfold len; rewrite length_take; lia).
  assert (L2 : len (drop 128 f) = 5) by (unfold len; rewrite length_drop; lia).
  cbn [ry_pkt_loop]. cbv zeta. cbn [send line_dev]. unfold line_send. cbn [line_in line_out].
  change (len [ry_sync ry] <? 0) with false. cbv iota.
  assert (Es : ry_start line_dev (S (S fuel)) 0 0 (ry_pkt ry) (mk_line (wire f l) (out ++ [ry_sync ry])) =
    Some (Y_packet 128 127 1, take 128 f ++ drop 128 (ry_pkt ry), mk_line (wire (drop 128 f) l) (out ++ [ry_sync ry]))).
  { cbn [ry_start]. change (0 =? 0) with true. cbv iota. rewrite <- Ef at 1. rewrite <- L1 at 1.
    rewrite take_bytes_split by (intros E; rewrite E in L1; done). rewrite L1. change (128 =? -1) with false.
    change (128 <? 0) with false. cbv iota zeta. rewrite put_0. destruct Hh as [t Et].
    replace (length (take 128 f)) with 128%nat by (rewrite length_take; lia). rewrite Et at 1. cbn [firstn app].
    change (rd (1 :: take 127 t ++ drop 128 (ry_pkt ry)) 0) with 1. change (1 =? 2) with false. change (1 =? 1) with true. cbv iota.
    change (128 - 1) with 127. change (0 + 1) with 1. do 3 f_equal. by rewrite Et. }
  rewrite Es, put_get by lia. change (128 + 4 - 127) with 5. change (1 + 127) with 128.
  assert (Eb : rcv_body line_dev (S (S fuel)) 5 128 (take 128 f ++ drop 128 (ry_pkt ry))
      (mk_line (wire (drop 128 f) l) (out ++ [ry_sync ry])) =
    Some (Body_done, f ++ drop 133 (ry_pkt ry), mk_line l (out ++ [ry_sync ry]))).
  { cbn [rcv_body]. change (5 =? 0) with false. cbv iota. rewrite <- L2 at 1. unfold wire. rewrite recv_bytes by (intros E; rewrite E in L2; done).
    rewrite L2. change (5 =? -1) with false. change (5 <? 0) with false. change (5 - 5) with 0. change (0 =? 0) with true. cbv iota.
    rewrite <- L1 at 1. rewrite put_next, app_assoc, Ef, drop_drop. rewrite length_drop, Lf. done. }
  rewrite Eb. destruct (frame_valid true 1 0 hb (drop 133 (ry_pkt ry))) as (_ & E1 & _); [by split; [left|]|done|done|]. cbv zeta in E1.
  fold f in E1. pose proof (ry_frame_valid 0 hb (drop 133 (ry_pkt ry))) as V. fold f in V.
  cbn [ry_crc_mode ry_set_pkt ry_pktno]. rewrite Hm, Hp. replace (len hb) with 128 in V by (unfold len; by rewrite Hl).
  rewrite V, E1 by (done || by split; [left|]). cbn [negb]. change (0 =? Z.land (0 - 1) 255) with false. change (0 =? Z.land 0 255) with true.
  cbn [negb]. unfold ry_accept. cbn [ry_pktno ry_set_pkt]. rewrite Hp. change (0 =? 0) with true. cbv iota.
  cbn [send line_dev]. unfold line_send. cbn [line_in line_out ry_pktno ry_fsize ry_count ry_crc_mode ry_xmodem ry_sync ry_retry ry_pkt ry_set_pkt].
  rewrite Hm, Hp, put_0. unfold f. rewrite frame_cons. cbn [length app drop]. by rewrite <- app_assoc.
Qed.

(** the packet with the name and the size of the file sets the size, and is
    then handed to the caller as if it were the first data of the file. *)
Theorem ymodem_header_is_data fuel ry name size pad n l out :
  let hb := header name size pad in
  Forall (fun c => c <> 0) name -> 0 < size < 2147483648 -> length hb = 128%nat -> Forall byte hb ->
  ry_pktno ry = 0 -> ry_crc_mode ry = 1 -> ry_xmodem ry = 0 -> ry_data_len ry = ry_data_pos ry -> 0 < n ->
  exists ry' out',
    ymodem_rcv_loop line_dev (S (S fuel)) n ry (mk_line (wire (frame true 0 hb) l) out) =
      Some (Z.min 128 n, take (Z.to_nat n) hb, ry', mk_line l out') /\ ry_fsize ry' = size.
Proof.
  intros hb Hn Hs Hl Hb Hp Hm Hx Hd Hlen. unfold ymodem_rcv_loop. destruct (Z.leb_spec n 0); [lia|].
  cbn [ry_loop]. rewrite Hd, Z.sub_diag. change (0 <? 0) with false. cbv iota. unfold ymodem_rcv_pkt.
  rewrite ry_header_pkt by done. change (0 <? 128) with true. cbn [ry_xmodem ry_pktno ry_pkt]. rewrite Hx.
  change (0 =? 0) with true. change (1 =? 1) with true. cbn [andb].
  set (t := (if true then [Z.shiftr (pkt_crc hb) 8; Z.land (pkt_crc hb) 255] else [pkt_cks hb]) ++ drop 133 (ry_pkt ry)).
  assert (Ep : ACK :: frame_tail true 0 hb ++ drop 133 (ry_pkt ry) = [ACK; 0; 255] ++ hb ++ t).
  { unfold frame_tail, t. rewrite <- !app_assoc. reflexivity. }
  rewrite Ep. clearbody t. change (drop 3 ([6; 0; 255] ++ hb ++ t)) with (hb ++ t). pose proof (header_size name size pad t Hn ltac:(lia)) as Hsz.
  fold hb in Hsz. rewrite !Hsz.
  destruct (Z.eqb_spec size 0); [lia|]. change (0 <=? 128) with true. cbv iota. cbn [ry_data_len ry_data_pos ry_set_fsize].
  change (0 <? 128 - 0) with true. cbv iota. unfold ry_copy. cbn [ry_data_len ry_data_pos ry_set_fsize ry_pkt].
  change (128 - 0) with 128. change (3 + 0) with 3.
  assert (Eg : get 3 (Z.min 128 n) ([6; 0; 255] ++ hb ++ t) = take (Z.to_nat n) hb).
  { rewrite (get_take 3 (len hb)) by (unfold len; rewrite Hl; lia). pose proof (get_mid [6; 0; 255] hb t) as G. change (len [6; 0; 255]) with 3 in G. rewrite G.
    destruct (Z.min_spec 128 n) as [[? ->]|[? ->]]; [|done]. by rewrite !take_ge by (rewrite Hl; lia). }
  rewrite Eg. eexists _, _. split; [done|]. cbn [ry_fsize ry_set_pos ry_set_fsize]. apply u32_small. lia.
Qed.

(** ** Concrete runs *)

Definition demo_ry : ymodem_rcv := (ymodem_rcv_init 1 (mk_ry 0 0 0 0 0 0 0 0 0 (zeros 1029))).2.
(** "a.bin", 300 bytes. *)
Definition demo_header : list Z := header [97; 46; 98; 105; 110] 300 (zeros 118).

Lemma demo_header_bytes : Forall byte demo_header.
Proof.
  unfold demo_header, header. apply Forall_app. split; [by repeat constructor|]. constructor; [done|].
  apply Forall_app. split; [by repeat constructor|]. constructor; [done|apply zeros_bytes].
Qed.

Lemma ymodem_never_zero_witness :
  let r := ymodem_rcv_loop line_dev 100 77 demo_ry (mk_line [Some EOT] []) in
  match r with Some (ret, _, _, _) => ret = -1 /\ ret <> 0 | None => False end.
Proof.
  intros r. assert (H : option_map (fun r => r.1.1.1) r = Some (-1)) by (vm_compute; reflexivity).
  destruct r as [[[[ret bytes] ry'] d']|] eqn:E; [|done]. split; [by injection H|].
  apply (ymodem_never_zero line_dev 100 77 demo_ry (mk_line [Some EOT] []) ret bytes ry' d' E).
Defined.

Lemma ymodem_rcv_accepts_witness :
  let d := mk_line (wire (frame true 1 (zeros 128)) []) [] in
  match ymodem_rcv_pkt line_dev 10 demo_ry d with
  | Some (ret, ry', _) => ret = 128 /\ ry_received demo_ry ry' ret
  | None => False
  end.
Proof.
  intros d. assert (H : option_map (fun r => r.1.1) (ymodem_rcv_pkt line_dev 10 demo_ry d) = Some 128) by (vm_compute; reflexivity).
  assert (K : ry_ok demo_ry) by (split_and!; done).
  pose proof (fun ret ry' d' => ymodem_rcv_accepts line_dev 10 demo_ry d ret ry' d' K) as A. clearbody d.
  destruct (ymodem_rcv_pkt line_dev 10 demo_ry d) as [[[ret ry'] d']|]; [|done]. split; [by injection H|]. by eapply A.
Defined.

Lemma ymodem_header_is_data_witness :
  exists ry' out',
    ymodem_rcv_loop line_dev 2 64 demo_ry (mk_line (wire (frame true 0 demo_header) []) []) =
      Some (Z.min 128 64, take 64 demo_header, ry', mk_line [] out') /\ ry_fsize ry' = 300.
Proof.
  apply (ymodem_header_is_data 0 demo_ry [97; 46; 98; 105; 110] 300 (zeros 118) 64 [] []);
    [by repeat constructor|lia|reflexivity|exact demo_header_bytes|reflexivity|reflexivity|reflexivity|reflexivity|lia].
Defined.
