(* ===== verification/Mbuf.v ===== *)
(** * Network buffers

    src/sdk/libtcpip/mbuf: a pool of 64 buffers of 124 bytes in a free list, and
    queues of bytes kept in chains of them, which the sockets of the TCP/IP stack
    use for the data in transit; and the checksum of in_chksum.c.

    A list head is used as a buffer whose [next] is the first field, so a pointer
    is null, a buffer of the pool, the head of the free list or the head of the
    queue at hand.  The pool is accessed under a mutex; the operations run one at
    a time and [mb_locked] says whether the mutex has been left taken. *)

From stdpp Require Import base tactics numbers list gmap.
From Stdlib Require Import ZArith Lia.
From S2P Require Import Prelude Buffer.

Abbreviation MBUF_DATA_SIZE := 124 (only parsing).
Abbreviation MBUF_POOL_SIZE := 64 (only parsing).

Inductive ptr := PNull | PBuf (i : Z) | PFree | PQueue.

#[global] Instance ptr_eq_dec : EqDecision ptr.
Proof. solve_decision. Defined.

(** ** Data *)

Record mbuf_sys := mk_mbufs {
  mb_max : Z; mb_used : Z; mb_locked : bool; mb_first : ptr; mb_last : ptr; mb_next : gmap Z ptr; mb_data : gmap Z (list Z)
}.

Record mbuf_queue := mk_queue { q_offs : Z; q_len : Z; q_first : ptr; q_last : ptr }.

Definition set_locked (v : bool) (s : mbuf_sys) : mbuf_sys :=
  mk_mbufs (mb_max s) (mb_used s) v (mb_first s) (mb_last s) (mb_next s) (mb_data s).
Definition set_used (v : Z) (s : mbuf_sys) : mbuf_sys :=
  mk_mbufs (mb_max s) v (mb_locked s) (mb_first s) (mb_last s) (mb_next s) (mb_data s).
Definition set_first (v : ptr) (s : mbuf_sys) : mbuf_sys :=
  mk_mbufs (mb_max s) (mb_used s) (mb_locked s) v (mb_last s) (mb_next s) (mb_data s).
Definition set_last (v : ptr) (s : mbuf_sys) : mbuf_sys :=
  mk_mbufs (mb_max s) (mb_used s) (mb_locked s) (mb_first s) v (mb_next s) (mb_data s).

Definition data_of (s : mbuf_sys) (p : ptr) : list Z :=
  match p with PBuf i => default [] (mb_data s !! i) | _ => [] end.
Definition set_data (p : ptr) (v : list Z) (s : mbuf_sys) : mbuf_sys :=
  match p with
  | PBuf i => mk_mbufs (mb_max s) (mb_used s) (mb_locked s) (mb_first s) (mb_last s) (mb_next s) (<[i := v]> (mb_data s))
  | _ => s
  end.

(** [p->next] in the pool. *)
Definition next_of (s : mbuf_sys) (p : ptr) : ptr :=
  match p with PBuf i => default PNull (mb_next s !! i) | PFree => mb_first s | _ => PNull end.
Definition set_next (p v : ptr) (s : mbuf_sys) : mbuf_sys :=
  match p with
  | PBuf i => mk_mbufs (mb_max s) (mb_used s) (mb_locked s) (mb_first s) (mb_last s) (<[i := v]> (mb_next s)) (mb_data s)
  | PFree => set_first v s
  | _ => s
  end.

Definition thinkos_mutex_lock (s : mbuf_sys) : mbuf_sys := set_locked true s.
Definition thinkos_mutex_unlock (s : mbuf_sys) : mbuf_sys := set_locked false s.

(** ** The pool *)

Fixpoint init_links (n : nat) (p : ptr) (i : Z) (s : mbuf_sys) : ptr * mbuf_sys :=
  match n with
  | O => (p, s)
  | S n => init_links n (PBuf i) (i + 1) (set_next p (PBuf i) s)
  end.

Definition mbuf_init (s : mbuf_sys) : mbuf_sys :=
  let s := set_used 0 s in
  let s := mk_mbufs MBUF_POOL_SIZE (mb_used s) (mb_locked s) (mb_first s) (mb_last s) (mb_next s) (mb_data s) in
  let '(p, s) := init_links (Z.to_nat MBUF_POOL_SIZE) PFree 0 s in
  let s := set_next p PNull s in
  set_last p s.

Definition __mbuf_release (p : ptr) (s : mbuf_sys) : mbuf_sys :=
  let q := mb_last s in
  let s := set_next q p s in
  let s := set_last p s in
  let s := set_next p PNull s in
  set_used (u8 (mb_used s - 1)) s.

Definition mbuf_free (p : ptr) (s : mbuf_sys) : mbuf_sys :=
  let s := thinkos_mutex_lock s in
  let s := __mbuf_release p s in
  thinkos_mutex_unlock s.

(** The first free buffer leaves the list. *)
Definition mbuf_take (m : ptr) (s : mbuf_sys) : mbuf_sys :=
  let s := set_first (next_of s m) s in
  let s := if decide (mb_first s = PNull) then set_last PFree s else s in
  set_used (u8 (mb_used s + 1)) s.

Definition mbuf_try_alloc (s : mbuf_sys) : ptr * mbuf_sys :=
  let s := thinkos_mutex_lock s in
  let m := mb_first s in
  if decide (m <> PNull) then (m, thinkos_mutex_unlock (mbuf_take m s)) else (PNull, thinkos_mutex_unlock s).

(** [None]: the caller waits for a buffer to be released. *)
Definition mbuf_alloc (s : mbuf_sys) : option (ptr * mbuf_sys) :=
  let s := thinkos_mutex_lock s in
  let m := mb_first s in
  if decide (m = PNull) then None else Some (m, thinkos_mutex_unlock (mbuf_take m s)).

(** ** Lists of buffers *)

(** [n] steps along the list; [q] is the last buffer passed. *)
Fixpoint list_walk (n : nat) (q p : ptr) (s : mbuf_sys) : ptr * ptr :=
  match n with
  | O => (q, p)
  | S n => list_walk n p (next_of s p) s
  end.

Definition mbuf_list_alloc (len : Z) (s : mbuf_sys) : ptr * mbuf_sys :=
  let n := Z.quot (len + (MBUF_DATA_SIZE - 1)) MBUF_DATA_SIZE in
  let s := thinkos_mutex_lock s in
  if mb_max s - mb_used s <? n then (PNull, s)
  else
    let m := mb_first s in
    let '(q, p) := list_walk (Z.to_nat n) m m s in
    let s := set_next q PNull s in
    let s := set_first p s in
    let s := if decide (p = PNull) then set_last PFree s else s in
    let s := set_used (u8 (mb_used s + n)) s in
    (m, thinkos_mutex_unlock s).

(** The fuel of the walks is the size of the pool. *)
Fixpoint release_all (n : nat) (m : ptr) (s : mbuf_sys) : option mbuf_sys :=
  match n with
  | O => None
  | S n => if decide (m = PNull) then Some s else release_all n (next_of s m) (__mbuf_release m s)
  end.

Definition mbuf_list_free (q : ptr) (s : mbuf_sys) : option mbuf_sys :=
  let s := thinkos_mutex_lock s in
  match release_all 65 q s with
  | None => None
  | Some s => Some (thinkos_mutex_unlock s)
  end.

Fixpoint list_write (n : nat) (p : ptr) (src : list Z) (s : mbuf_sys) : option (list Z * mbuf_sys) :=
  match n with
  | O => None
  | S n =>
      if (MBUF_DATA_SIZE <=? len src) && bool_decide (p <> PNull) then
        list_write n (next_of s p) (drop (Z.to_nat MBUF_DATA_SIZE) src)
          (set_data p (put 0 (take (Z.to_nat MBUF_DATA_SIZE) src) (data_of s p)) s)
      else if (0 <? len src) && bool_decide (p <> PNull) then Some ([], set_data p (put 0 src (data_of s p)) s)
      else Some (src, s)
  end.

Definition mbuf_list_write (q : ptr) (buf : list Z) (s : mbuf_sys) : option (Z * mbuf_sys) :=
  match list_write 65 q buf s with
  | None => None
  | Some (rest, s) => Some (len buf - len rest, s)
  end.

Fixpoint list_read (n : nat) (p : ptr) (rem : Z) (s : mbuf_sys) : option (list Z * Z) :=
  match n with
  | O => None
  | S n =>
      if (MBUF_DATA_SIZE <=? rem) && bool_decide (p <> PNull) then
        match list_read n (next_of s p) (rem - MBUF_DATA_SIZE) s with
        | None => None
        | Some (bs, rest) => Some (get 0 MBUF_DATA_SIZE (data_of s p) ++ bs, rest)
        end
      else if (0 <? rem) && bool_decide (p <> PNull) then Some (get 0 rem (data_of s p), 0)
      else Some ([], rem)
  end.

Definition mbuf_list_read (q : ptr) (length : Z) (s : mbuf_sys) : option (Z * list Z) :=
  match list_read 65 q length s with
  | None => None
  | Some (bs, rest) => Some (length - rest, bs)
  end.

(** ** Queues of bytes *)

Definition mbuf_queue_init (q : mbuf_queue) : mbuf_queue := mk_queue 0 0 PNull PQueue.

Definition q_set_len (v : Z) (q : mbuf_queue) : mbuf_queue := mk_queue (q_offs q) v (q_first q) (q_last q).
Definition q_set_offs (v : Z) (q : mbuf_queue) : mbuf_queue := mk_queue v (q_len q) (q_first q) (q_last q).
Definition q_set_first (v : ptr) (q : mbuf_queue) : mbuf_queue := mk_queue (q_offs q) (q_len q) v (q_last q).
Definition q_set_last (v : ptr) (q : mbuf_queue) : mbuf_queue := mk_queue (q_offs q) (q_len q) (q_first q) v.

(** [q->last->next = m], the head of the queue standing for a buffer. *)
Definition q_append (m : ptr) (s : mbuf_sys) (q : mbuf_queue) : mbuf_sys * mbuf_queue :=
  match q_last q with
  | PQueue => (s, q_set_first m q)
  | p => (set_next p m s, q)
  end.

Fixpoint add_loop (n : nat) (src : list Z) (s : mbuf_sys) (q : mbuf_queue) : option (list Z * mbuf_sys * mbuf_queue) :=
  match n with
  | O => None
  | S n =>
      if len src =? 0 then Some (src, s, q)
      else
        let '(m, s) := mbuf_try_alloc s in
        if decide (m = PNull) then Some (src, s, q)
        else
          let '(s, q) := q_append m s q in
          let q := q_set_last m q in
          let s := set_next m PNull s in
          let n1 := Z.min (len src) MBUF_DATA_SIZE in
          let s := set_data m (put 0 (take (Z.to_nat n1) src) (data_of s m)) s in
          let q := q_set_len (u16 (q_len q + n1)) q in
          add_loop n (drop (Z.to_nat n1) src) s q
  end.

Definition mbuf_queue_add (buf : list Z) (s : mbuf_sys) (q : mbuf_queue) : option (Z * mbuf_sys * mbuf_queue) :=
  if len buf =? 0 then Some (0, s, q)
  else
    let tail := q_offs q + q_len q in
    let offs := tail mod MBUF_DATA_SIZE in
    let '(src, s, q) :=
      if negb (offs =? 0) then
        let n := Z.min (len buf) (MBUF_DATA_SIZE - offs) in
        (drop (Z.to_nat n) buf,
         set_data (q_last q) (put offs (take (Z.to_nat n) buf) (data_of s (q_last q))) s,
         q_set_len (u16 (q_len q + n)) q)
      else (buf, s, q) in
    match add_loop 65 src s q with
    | None => None
    | Some (rest, s, q) => Some (len buf - len rest, s, q)
    end.

(** The end of a round: [n1] bytes have been used from buffer [m]. *)
Definition q_consume (n1 : Z) (m : ptr) (s : mbuf_sys) (q : mbuf_queue) : ptr * mbuf_sys * mbuf_queue :=
  let q := q_set_offs (u16 (q_offs q + n1)) q in
  if q_offs q =? MBUF_DATA_SIZE then
    let q := q_set_offs 0 q in
    let q := q_set_first (next_of s m) q in
    (q_first q, mbuf_free m s, q)
  else (m, s, q).

(** The last byte has been used. *)
Definition q_clear (m : ptr) (s : mbuf_sys) (q : mbuf_queue) : mbuf_sys * mbuf_queue :=
  let q := q_set_last PQueue (q_set_offs 0 q) in
  let q := q_set_first (next_of s m) q in
  (mbuf_free m s, q).

(** The count and the bytes come with the result. *)
Fixpoint remove_loop (n : nat) (rem cnt : Z) (m : ptr) (s : mbuf_sys) (q : mbuf_queue) :
    option (Z * list Z * mbuf_sys * mbuf_queue) :=
  match n with
  | O => None
  | S n =>
      if rem =? 0 then Some (cnt, [], s, q)
      else
        let n1 := Z.min rem (MBUF_DATA_SIZE - q_offs q) in
        let bytes := get (q_offs q) n1 (data_of s m) in
        let cnt := cnt + n1 in
        let q := q_set_len (u16 (q_len q - n1)) q in
        if q_len q =? 0 then
          let '(s, q) := q_clear m s q in Some (cnt, bytes, s, q)
        else
          let '(m, s, q) := q_consume n1 m s q in
          match remove_loop n (rem - n1) cnt m s q with
          | None => None
          | Some (cnt, rest, s, q) => Some (cnt, bytes ++ rest, s, q)
          end
  end.

Definition mbuf_queue_remove (length : Z) (s : mbuf_sys) (q : mbuf_queue) : option (Z * list Z * mbuf_sys * mbuf_queue) :=
  let rem := Z.min length (q_len q) in
  if rem =? 0 then Some (0, [], s, q) else remove_loop 65 rem 0 (q_first q) s q.

Fixpoint trim_loop (n : nat) (rem cnt : Z) (m : ptr) (s : mbuf_sys) (q : mbuf_queue) : option (Z * mbuf_sys * mbuf_queue) :=
  match n with
  | O => None
  | S n =>
      if rem =? 0 then Some (cnt, s, q)
      else
        let n1 := Z.min rem (MBUF_DATA_SIZE - q_offs q) in
        let cnt := cnt + n1 in
        let q := q_set_len (u16 (q_len q - n1)) q in
        if q_len q =? 0 then
          let '(s, q) := q_clear m s q in Some (cnt, s, q)
        else
          let '(m, s, q) := q_consume n1 m s q in trim_loop n (rem - n1) cnt m s q
  end.

Definition mbuf_queue_trim (length : Z) (s : mbuf_sys) (q : mbuf_queue) : option (Z * mbuf_sys * mbuf_queue) :=
  let rem := Z.min length (q_len q) in
  if rem =? 0 then Some (0, s, q) else trim_loop 65 rem 0 (q_first q) s q.

(** [pos] bytes are skipped. *)
Fixpoint get_skip (n : nat) (pos offs : Z) (m : ptr) (s : mbuf_sys) : option (Z * ptr) :=
  match n with
  | O => None
  | S n =>
      if pos =? 0 then Some (offs, m)
      else
        let n1 := Z.min pos (MBUF_DATA_SIZE - offs) in
        let offs := offs + n1 in
        let '(m, offs) := if offs =? MBUF_DATA_SIZE then (next_of s m, 0) else (m, offs) in
        get_skip n (pos - n1) offs m s
  end.

Fixpoint get_copy (n : nat) (rem cnt offs : Z) (m : ptr) (s : mbuf_sys) : option (Z * list Z) :=
  match n with
  | O => None
  | S n =>
      if rem =? 0 then Some (cnt, [])
      else
        let n1 := Z.min rem (MBUF_DATA_SIZE - offs) in
        match get_copy n (rem - n1) (cnt + n1) 0 (next_of s m) s with
        | None => None
        | Some (cnt, rest) => Some (cnt, get offs n1 (data_of s m) ++ rest)
        end
  end.

Definition mbuf_queue_get (offs length : Z) (s : mbuf_sys) (q : mbuf_queue) : option (Z * list Z) :=
  if q_len q <? offs then Some (0, [])
  else
    let rem := Z.min length (q_len q - offs) in
    if rem =? 0 then Some (0, [])
    else
      match get_skip 66 offs (q_offs q) (q_first q) s with
      | None => None
      | Some (o, m) => get_copy 66 rem 0 o m s
      end.

(** The free buffers are counted. *)
Fixpoint count_free (n : nat) (m : ptr) (s : mbuf_sys) : option Z :=
  match n with
  | O => None
  | S n =>
      if decide (m <> PNull) then
        match count_free n (next_of s m) s with None => None | Some c => Some (c + 1) end
      else Some 0
  end.

Definition mbuf_alloc_check (s : mbuf_sys) : option (Z * mbuf_sys) :=
  let s := thinkos_mutex_lock s in
  match count_free 65 (mb_first s) s with
  | None => None
  | Some n => Some ((if negb (n + mb_used s =? mb_max s) then -1 else 0), thinkos_mutex_unlock s)
  end.

Definition mbuf_avail (s : mbuf_sys) : Z := mb_max s - mb_used s.
Definition mbuf_memavail (s : mbuf_sys) : Z := (mb_max s - mb_used s) * MBUF_DATA_SIZE.

Definition mbuf_queue_free (s : mbuf_sys) (q : mbuf_queue) : option (mbuf_sys * mbuf_queue) :=
  let m := q_first q in
  let s := thinkos_mutex_lock s in
  match release_all 65 m s with
  | None => None
  | Some s => Some (thinkos_mutex_unlock s, mk_queue 0 0 PNull PQueue)
  end.

(** ** Chains *)

(** The buffers [l] follow each other from [p], and [e] follows them. *)
Fixpoint seg (s : mbuf_sys) (p : ptr) (l : list Z) (e : ptr) : Prop :=
  match l with
  | [] => p = e
  | i :: l => p = PBuf i /\ seg s (next_of s (PBuf i)) l e
  end.

Definition last_ptr (h : ptr) (l : list Z) : ptr := match last l with Some i => PBuf i | None => h end.

Lemma seg_frame s s' l : forall p e,
  (forall i, i ∈ l -> mb_next s' !! i = mb_next s !! i) -> seg s p l e -> seg s' p l e.
Proof.
  induction l as [|i l IH]; intros p e F H; [done|]. destruct H as [-> H]. split; [done|]. cbn [next_of] in *.
  rewrite F by set_solver. apply IH; [|done]. intros j Hj. apply F. set_solver.
Qed.

Lemma seg_app s l1 l2 : forall p e, seg s p (l1 ++ l2) e <-> exists m, seg s p l1 m /\ seg s m l2 e.
Proof.
  induction l1 as [|i l1 IH]; intros p e; cbn [app seg].
  - split; [by intros H; exists p|]. by intros (m & -> & H).
  - rewrite IH. split; [intros (-> & m & H1 & H2); by exists m|]. intros (m & [-> H1] & H2). split; [done|by exists m].
Qed.

Lemma next_set_eq s i v : next_of (set_next (PBuf i) v s) (PBuf i) = v.
Proof. cbn [next_of set_next mb_next]. by rewrite lookup_insert_eq. Qed.

(** The last buffer of a chain is given another successor. *)
Lemma seg_relink s l i v p e :
  NoDup (l ++ [i]) -> seg s p (l ++ [i]) e -> seg (set_next (PBuf i) v s) p (l ++ [i]) v.
Proof.
  intros N H. apply seg_app in H as (m & H1 & [-> _]). apply seg_app. exists (PBuf i). split.
  - apply (seg_frame s); [|done]. intros j Hj. cbn [set_next mb_next]. apply lookup_insert_ne. intros <-.
    apply NoDup_app in N as (_ & N & _). apply (N i); set_solver.
  - split; [done|]. by rewrite next_set_eq.
Qed.

(** ** The pool *)

Definition buffer (i : Z) : Prop := 0 <= i < MBUF_POOL_SIZE.

Record pool_ok (s : mbuf_sys) (fl : list Z) : Prop := {
  po_chain : seg s (mb_first s) fl PNull;
  po_last : mb_last s = last_ptr PFree fl;
  po_used : mb_used s = MBUF_POOL_SIZE - len fl;
  po_max : mb_max s = MBUF_POOL_SIZE;
  po_data : forall i, buffer i -> length (data_of s (PBuf i)) = 124%nat;
  po_nodup : NoDup fl;
  po_range : Forall buffer fl
}.

Lemma buffers_bound l : NoDup l -> Forall buffer l -> (length l <= 64)%nat.
Proof.
  intros N F. assert (S : l ⊆+ seqZ 0 64).
  { apply NoDup_submseteq; [done|]. intros i Hi. apply elem_of_seqZ. rewrite Forall_forall in F. specialize (F i Hi).
    unfold buffer in F. lia. }
  apply submseteq_length in S. by rewrite length_seqZ in S.
Qed.

Lemma last_ptr_snoc h l i : last_ptr h (l ++ [i]) = PBuf i.
Proof. unfold last_ptr. by rewrite last_snoc. Qed.

(** The lock is not part of the pool. *)
Lemma pool_lock v s fl : pool_ok s fl -> pool_ok (set_locked v s) fl.
Proof.
  intros [C L U M D N R]. constructor; try done. by apply (seg_frame s).
Qed.

Lemma pool_unlock v s fl : pool_ok (set_locked v s) fl -> pool_ok s fl.
Proof.
  intros [C L U M D N R]. constructor; try done. by apply (seg_frame (set_locked v s)).
Qed.

(** The first free buffer is taken. *)
Lemma pool_take s i fl :
  pool_ok s (i :: fl) ->
  exists s', mbuf_try_alloc s = (PBuf i, s') /\ pool_ok s' fl /\ mb_next s' = mb_next s /\ mb_data s' = mb_data s /\ mb_locked s' = false.
Proof.
  intros [C L U M D N R]. destruct C as [Cf C]. unfold mbuf_try_alloc. cbn [thinkos_mutex_lock set_locked mb_first].
  rewrite Cf. destruct (decide (PBuf i <> PNull)) as [_|H]; [|by destruct H]. eexists. split; [done|].
  unfold mbuf_take. cbn [next_of set_first set_locked mb_next mb_first mb_used mb_max mb_locked mb_last mb_data] in *.
  apply NoDup_cons in N as [N1 N2]. inversion R as [|?? R1 R2]; subst. unfold len in U. cbn [length] in U.
  pose proof (buffers_bound fl N2 R2) as Hb.
  assert (Hu : u8 (mb_used s + 1) = 64 - len fl) by (unfold len; rewrite u8_small; lia).
  change (thinkos_mutex_lock s) with (set_locked true s). cbn [set_locked mb_next].
  destruct (decide (default PNull (mb_next s !! i) = PNull)) as [E|E].
  - split; [|done]. destruct fl as [|j fl]; [|destruct C as [C _]; by rewrite E in C]. constructor; try done.
  - split; [|done]. constructor; try done.
    + by apply (seg_frame s).
    + cbn [thinkos_mutex_unlock set_locked set_used set_last set_first mb_last]. rewrite L. unfold last_ptr.
      destruct fl as [|j fl]; [by rewrite C in E|]. by rewrite last_cons_cons.
Qed.

Lemma pool_empty s : pool_ok s [] -> mbuf_try_alloc s = (PNull, set_locked false s).
Proof.
  intros [C L U M D N R]. unfold mbuf_try_alloc. cbn [seg] in C. cbn [thinkos_mutex_lock set_locked mb_first]. rewrite C.
  by destruct (decide (PNull <> PNull)) as [H|_].
Qed.

(** Other lists of buffers are left alone. *)
Definition frame (own : list Z) (s s' : mbuf_sys) : Prop :=
  forall j, j ∉ own -> mb_next s' !! j = mb_next s !! j /\ mb_data s' !! j = mb_data s !! j.

(** A buffer is given back. *)
Lemma pool_release s fl i :
  pool_ok s fl -> i ∉ fl -> buffer i ->
  pool_ok (__mbuf_release (PBuf i) s) (fl ++ [i]) /\ mb_data (__mbuf_release (PBuf i) s) = mb_data s /\
  frame (fl ++ [i]) s (__mbuf_release (PBuf i) s).
Proof.
  intros [C L U M D N R] Hi Hr. pose proof (buffers_bound fl N R) as Hb.
  assert (N' : NoDup (fl ++ [i])) by (apply NoDup_app; split_and!; [done| |apply NoDup_singleton]; set_solver).
  assert (R' : Forall buffer (fl ++ [i])) by (apply Forall_app; by split; [|apply Forall_singleton]).
  pose proof (buffers_bound _ N' R') as Hb'. rewrite length_app in Hb'. cbn [length] in Hb'.
  assert (Hu : u8 (mb_used s - 1) = 64 - len (fl ++ [i])).
  { rewrite u8_small; rewrite U; unfold len; rewrite ?length_app; cbn [length]; lia. }
  destruct (decide (fl = [])) as [->|Hne].
  - cbn [last_ptr last] in L. split_and!.
    + unfold __mbuf_release. rewrite L. constructor; try done. cbn [app seg]. split; [done|].
      cbn [next_of set_next set_used set_last set_first mb_next]. by rewrite lookup_insert_eq.
    + unfold __mbuf_release. by rewrite L.
    + intros j Hj. unfold __mbuf_release. rewrite L. cbn [set_next set_used set_last set_first mb_next mb_data].
      split; [|done]. apply lookup_insert_ne. set_solver.
  - destruct (exists_last Hne) as (fl0 & k & ->). rewrite last_ptr_snoc in L. split_and!.
    + unfold __mbuf_release. rewrite L. constructor; try done.
      * apply (seg_frame (set_next (PBuf i) PNull (set_next (PBuf k) (PBuf i) s))); [done|].
        apply (seg_relink _ _ _ _ _ (default PNull (mb_next s !! i))); [done|]. apply seg_app. exists (PBuf i). split.
        -- cbn [set_last set_next set_used mb_first]. by apply (seg_relink _ _ _ _ _ PNull).
        -- split; [done|]. cbn [seg next_of set_next mb_next]. rewrite lookup_insert_ne; [done|]. set_solver.
      * by rewrite last_ptr_snoc.
    + unfold __mbuf_release. by rewrite L.
    + intros j Hj. unfold __mbuf_release. rewrite L. cbn [set_next set_used set_last set_first mb_next mb_data].
      split; [|done]. rewrite !lookup_insert_ne; set_solver.
Qed.

Lemma pool_free s fl i :
  pool_ok s fl -> i ∉ fl -> buffer i ->
  pool_ok (mbuf_free (PBuf i) s) (fl ++ [i]) /\ mb_data (mbuf_free (PBuf i) s) = mb_data s /\
  frame (fl ++ [i]) s (mbuf_free (PBuf i) s) /\ mb_locked (mbuf_free (PBuf i) s) = false.
Proof.
  intros P Hi Hr. destruct (pool_release _ _ _ (pool_lock true _ _ P) Hi Hr) as (P' & D & F). unfold mbuf_free.
  split_and!; [by apply pool_lock|done|done|done].
Qed.

(** ** Queues *)

(** The bytes of the buffers [l], one after the other. *)
Definition raw (s : mbuf_sys) (l : list Z) : list Z := concat ((fun i => data_of s (PBuf i)) <$> l).

(** The queue [q] holds the bytes [qs] in the buffers [l]; [fl] are the free ones. *)
Record queue_ok (s : mbuf_sys) (q : mbuf_queue) (fl l qs : list Z) : Prop := {
  qo_pool : pool_ok s fl;
  qo_lock : mb_locked s = false;
  qo_chain : seg s (q_first q) l PNull;
  qo_last : q_last q = last_ptr PQueue l;
  qo_nodup : NoDup (fl ++ l);
  qo_range : Forall buffer l;
  qo_len : q_len q = len qs;
  qo_offs : 0 <= q_offs q < MBUF_DATA_SIZE;
  qo_bytes : exists pre post, raw s l = pre ++ qs ++ post /\ len pre = q_offs q /\ len post < MBUF_DATA_SIZE;
  qo_empty : qs = [] -> l = []
}.

Lemma raw_app s l1 l2 : raw s (l1 ++ l2) = raw s l1 ++ raw s l2.
Proof. unfold raw. by rewrite fmap_app, concat_app. Qed.

Lemma raw_one s i : raw s [i] = data_of s (PBuf i).
Proof. unfold raw. cbn. apply app_nil_r. Qed.

Lemma raw_frame s s' l : (forall i, i ∈ l -> mb_data s' !! i = mb_data s !! i) -> raw s' l = raw s l.
Proof.
  induction l as [|i l IH]; intros F; [done|]. change (i :: l) with ([i] ++ l). rewrite !raw_app, !raw_one.
  rewrite IH by (intros j Hj; apply F; set_solver). cbn [data_of]. by rewrite F by set_solver.
Qed.

Lemma length_raw s fl l : pool_ok s fl -> Forall buffer l -> length (raw s l) = (124 * length l)%nat.
Proof.
  intros P. induction 1 as [|i l H _ IH]; [done|]. change (i :: l) with ([i] ++ l). rewrite raw_app, raw_one, length_app, IH.
  rewrite (po_data _ _ P) by done. rewrite length_app. cbn [length]. lia.
Qed.

(** The bytes of a buffer are replaced. *)
Lemma pool_set_data s fl i v :
  pool_ok s fl -> length v = 124%nat -> pool_ok (set_data (PBuf i) v s) fl.
Proof.
  intros [C L U M D N R] Hv. constructor; try done; [by apply (seg_frame s)|]. intros j Hj. cbn [data_of set_data mb_data].
  destruct (decide (j = i)) as [->|Hne]; [by rewrite lookup_insert_eq|]. rewrite lookup_insert_ne by done. by apply D.
Qed.

Lemma data_set_eq s i v : data_of (set_data (PBuf i) v s) (PBuf i) = v.
Proof. cbn [data_of set_data mb_data]. by rewrite lookup_insert_eq. Qed.

Lemma raw_set_data s i v l : i ∉ l -> raw (set_data (PBuf i) v s) l = raw s l.
Proof. intros H. apply raw_frame. intros j Hj. cbn [set_data mb_data]. apply lookup_insert_ne. set_solver. Qed.

Lemma pool_set_next s fl i v : pool_ok s fl -> i ∉ fl -> pool_ok (set_next (PBuf i) v s) fl.
Proof.
  intros [C L U M D N R] Hi. constructor; try done. apply (seg_frame s); [|done]. intros j Hj. cbn [set_next mb_next].
  apply lookup_insert_ne. set_solver.
Qed.

(** A queue that holds something has a last buffer, whose end is the room left. *)
Lemma queue_tail s q fl l qs pre post :
  queue_ok s q fl l qs -> raw s l = pre ++ qs ++ post -> len pre = q_offs q -> len post < MBUF_DATA_SIZE ->
  (q_offs q + q_len q) mod MBUF_DATA_SIZE = if len post =? 0 then 0 else MBUF_DATA_SIZE - len post.
Proof.
  intros Q E Ep Eq. pose proof (length_raw _ _ _ (qo_pool _ _ _ _ _ Q) (qo_range _ _ _ _ _ Q)) as Hl.
  rewrite E, !length_app in Hl. rewrite (qo_len _ _ _ _ _ Q), <- Ep. unfold len in *.
  replace (Z.of_nat (length pre) + Z.of_nat (length qs)) with (124 * Z.of_nat (length l) - Z.of_nat (length post)) by lia.
  destruct (Z.eqb_spec (Z.of_nat (length post)) 0) as [H|H].
  - rewrite H. replace (124 * Z.of_nat (length l) - 0) with (Z.of_nat (length l) * 124) by lia. apply Z_mod_mult.
  - symmetry. apply (Z.mod_unique_pos _ _ (Z.of_nat (length l) - 1)); lia.
Qed.

Lemma last_block s fl l i x post :
  pool_ok s fl -> buffer i -> raw s (l ++ [i]) = x ++ post -> (length post <= 124)%nat ->
  exists a, data_of s (PBuf i) = a ++ post /\ x = raw s l ++ a.
Proof.
  intros P Hi E Hp. rewrite raw_app, raw_one in E. pose proof (po_data _ _ P i Hi) as Hd.
  revert E Hd. generalize (data_of s (PBuf i)) as d. intros d E Hd. exists (take (124 - length post) d).
  rewrite <- (take_drop (124 - length post) d), app_assoc in E.
  apply app_inj_2 in E as [E1 E2]; [|rewrite length_drop; lia]. split; [|done].
  rewrite <- (take_drop (124 - length post) d) at 1. by rewrite E2.
Qed.

(** What is left over of the own buffers' invariant when their contents change. *)
Record chain_ok (s : mbuf_sys) (q : mbuf_queue) (fl l : list Z) : Prop := {
  co_pool : pool_ok s fl;
  co_lock : mb_locked s = false;
  co_chain : seg s (q_first q) l PNull;
  co_last : q_last q = last_ptr PQueue l;
  co_nodup : NoDup (fl ++ l);
  co_range : Forall buffer l
}.

Lemma queue_chain s q fl l qs : queue_ok s q fl l qs -> chain_ok s q fl l.
Proof. by intros [? ? ? ? ? ? ? ? ? ?]. Qed.

Lemma chain_queue s q fl l pre qs post :
  chain_ok s q fl l -> q_len q = len qs -> 0 <= q_offs q < 124 -> raw s l = pre ++ qs ++ post -> len pre = q_offs q ->
  len post < 124 -> (qs = [] -> l = []) -> queue_ok s q fl l qs.
Proof. intros [? ? ? ? ? ?] ? ? ? ? ? ?. constructor; try done. by exists pre, post. Qed.

(** The length of a queue fits its field. *)
Lemma chain_bound s q fl l pre qs post :
  chain_ok s q fl l -> raw s l = pre ++ qs ++ post -> len pre + len qs + len post = 124 * len l /\ len l <= 64.
Proof.
  intros [P _ _ _ N R] E. pose proof (length_raw _ _ _ P R) as Hl. rewrite E, !length_app in Hl.
  apply NoDup_app in N as (_ & _ & N). pose proof (buffers_bound _ N R). unfold len. lia.
Qed.

(** The room of the last buffer is filled. *)
Lemma add_tail s q fl l pre qs post buf :
  queue_ok s q fl l qs -> raw s l = pre ++ qs ++ post -> len pre = q_offs q -> 0 < len post < 124 -> buf <> [] ->
  let n := Z.min (len buf) (len post) in
  let s' := set_data (q_last q) (put (124 - len post) (take (Z.to_nat n) buf) (data_of s (q_last q))) s in
  let q' := q_set_len (u16 (q_len q + n)) q in
  queue_ok s' q' fl l (qs ++ take (Z.to_nat n) buf) /\
  raw s' l = pre ++ (qs ++ take (Z.to_nat n) buf) ++ drop (Z.to_nat n) post /\ frame (fl ++ l) s s'.
Proof.
  intros Q E Ep Hp Hb n s' q'. pose proof (queue_chain _ _ _ _ _ Q) as C. pose proof C as [P Lk Ch L N R].
  destruct (chain_bound _ _ _ _ _ _ _ C E) as [Hl1 Hl2].
  destruct (decide (l = [])) as [->|Hne]; [unfold len in *; cbn [length] in *; lia|].
  destruct (exists_last Hne) as (l0 & i & ->). rewrite last_ptr_snoc in L. subst s'. rewrite L.
  apply Forall_app in R as [R0 Ri]. rewrite Forall_singleton in Ri.
  destruct (last_block s fl l0 i (pre ++ qs) post P Ri) as (a & Ed & Ex); [by rewrite E, app_assoc|unfold len in *; lia|].
  pose proof (po_data _ _ P i Ri) as Hd. rewrite Ed. rewrite Ed, length_app in Hd.
  set (chunk := take (Z.to_nat n) buf). assert (Hc : length chunk = Z.to_nat n).
  { unfold chunk, n, len. rewrite length_take. lia. }
  assert (Ha : 124 - len post = len a) by (unfold len; lia). rewrite Ha, put_next, Hc.
  assert (Hn : 0 < n <= len post). { unfold n. destruct buf; [done|]. unfold len in *. cbn [length]. lia. }
  assert (Ni : i ∉ l0). { apply NoDup_app in N as (_ & _ & N). apply NoDup_app in N as (_ & N & _). intros Hi. apply (N i Hi). set_solver. }
  assert (Er : raw (set_data (PBuf i) (a ++ chunk ++ drop (Z.to_nat n) post) s) (l0 ++ [i]) = pre ++ (qs ++ chunk) ++ drop (Z.to_nat n) post).
  { rewrite raw_app, raw_one, data_set_eq, raw_set_data by done. rewrite !app_assoc, <- Ex. by rewrite <- !app_assoc. }
  assert (Hv : length (a ++ chunk ++ drop (Z.to_nat n) post) = 124%nat).
  { rewrite !length_app, length_drop, Hc. unfold len in *. lia. }
  split_and!; [|done|].
  - apply (chain_queue _ _ _ _ pre _ (drop (Z.to_nat n) post)); try done.
    + destruct C. constructor; try done; [by apply pool_set_data|by apply (seg_frame s)].
    + unfold q'. cbn [q_set_len q_len]. rewrite (qo_len _ _ _ _ _ Q). pose proof Hl1. unfold len in *.
      rewrite length_app in *. rewrite u16_small; lia.
    + apply (qo_offs _ _ _ _ _ Q).
    + unfold len in *. rewrite length_drop. lia.
    + intros H. apply (f_equal length) in H. rewrite length_app in H. cbn [length] in H. lia.
  - intros j Hj. split; [done|]. cbn [set_data mb_data]. apply lookup_insert_ne. set_solver.
Qed.

(** A fresh buffer is linked at the end. *)
Definition link_block (i : Z) (s : mbuf_sys) (q : mbuf_queue) : mbuf_sys * mbuf_queue :=
  let '(s, q) := q_append (PBuf i) s q in
  (set_next (PBuf i) PNull s, q_set_last (PBuf i) q).

Lemma link_chain s q fl l i :
  chain_ok s q fl l -> i ∉ fl -> i ∉ l -> buffer i ->
  let '(s', q') := link_block i s q in
  chain_ok s' q' fl (l ++ [i]) /\ q_len q' = q_len q /\ q_offs q' = q_offs q /\ mb_data s' = mb_data s /\
  frame (l ++ [i]) s s'.
Proof.
  intros [P Lk Ch L N R] Hif Hil Hi. unfold link_block, q_append. rewrite L.
  assert (N' : NoDup (fl ++ l ++ [i])).
  { rewrite app_assoc. apply NoDup_app. split_and!; [done| |apply NoDup_singleton]. set_solver. }
  assert (R' : Forall buffer (l ++ [i])) by (apply Forall_app; by split; [|constructor]).
  destruct (decide (l = [])) as [->|Hne].
  - cbn [last_ptr last app]. split_and!; try done.
    + constructor; try done; [by apply pool_set_next|]. cbn [seg app]. split; [done|]. by rewrite next_set_eq.
    + intros j Hj. split; [|done]. cbn [set_next mb_next]. apply lookup_insert_ne. set_solver.
  - destruct (exists_last Hne) as (l0 & k & ->). rewrite last_ptr_snoc. split_and!; try done.
    + constructor; try done.
      * apply pool_set_next; [|done]. apply pool_set_next; [done|]. apply NoDup_app in N as (_ & N & _). intros Hk.
        apply (N k Hk). set_solver.
      * apply (seg_relink _ _ _ _ _ (default PNull (mb_next s !! i))); [by apply NoDup_app in N' as (_ & _ & N')|]. apply seg_app. exists (PBuf i). split.
        -- apply (seg_relink _ _ _ _ _ PNull); [by apply NoDup_app in N as (_ & _ & N)|done].
        -- split; [done|]. cbn [seg next_of set_next mb_next]. rewrite lookup_insert_ne; [done|]. set_solver.
      * by rewrite last_ptr_snoc.
    + intros j Hj. split; [|done]. cbn [set_next mb_next]. rewrite !lookup_insert_ne; set_solver.
Qed.

(** Bytes are stored in the fresh buffer. *)
Lemma add_block s q fl l i pre qs src :
  chain_ok s q fl (l ++ [i]) -> q_len q = len qs -> 0 <= q_offs q < 124 -> raw s l = pre ++ qs -> len pre = q_offs q -> src <> [] ->
  let n := Z.min (len src) 124 in
  let s' := set_data (PBuf i) (put 0 (take (Z.to_nat n) src) (data_of s (PBuf i))) s in
  let q' := q_set_len (u16 (q_len q + n)) q in
  queue_ok s' q' fl (l ++ [i]) (qs ++ take (Z.to_nat n) src) /\
  (exists post, raw s' (l ++ [i]) = pre ++ (qs ++ take (Z.to_nat n) src) ++ post /\ (len post = 0 \/ len src <= 124)) /\
  frame (l ++ [i]) s s'.
Proof.
  intros C El Eo E Ep Hs n s' q'. pose proof C as [P Lk Ch L N R].
  assert (Ri : buffer i). { rewrite Forall_app, Forall_singleton in R. by destruct R. }
  assert (Ni : i ∉ l). { apply NoDup_app in N as (_ & _ & N). apply NoDup_app in N as (_ & N & _). intros H. apply (N i H). set_solver. }
  pose proof (po_data _ _ P i Ri) as Hd. set (chunk := take (Z.to_nat n) src).
  assert (Hn : 0 < n). { unfold n. destruct src; [done|]. unfold len. cbn [length]. lia. }
  assert (Hc : length chunk = Z.to_nat n). { unfold chunk, n, len. rewrite length_take. lia. }
  subst s'. rewrite put_0. fold chunk. set (post := drop (length chunk) (data_of s (PBuf i))).
  assert (Hp : length post = (124 - Z.to_nat n)%nat). { unfold post. by rewrite length_drop, Hd, Hc. }
  assert (Hv : length (chunk ++ post) = 124%nat) by (rewrite length_app; lia).
  assert (Er : raw (set_data (PBuf i) (chunk ++ post) s) (l ++ [i]) = pre ++ (qs ++ chunk) ++ post).
  { rewrite raw_app, raw_one, data_set_eq, raw_set_data by done. rewrite E. by rewrite <- !app_assoc. }
  assert (C' : chain_ok (set_data (PBuf i) (chunk ++ post) s) q' fl (l ++ [i])).
  { constructor; try done; [by apply pool_set_data|by apply (seg_frame s)]. }
  destruct (chain_bound _ _ _ _ _ _ _ C' Er) as [Hl1 Hl2]. clearbody chunk post. split_and!.
  - apply (chain_queue _ _ _ _ pre _ post); try done.
    + unfold q'. cbn [q_set_len q_len]. rewrite El. clear - Hl1 Hl2 Hc Hn. unfold len in *. rewrite !length_app in *. rewrite u16_small; lia.
    + unfold len. lia.
    + intros H. apply (f_equal length) in H. rewrite length_app in H. cbn [length] in H. lia.
  - exists post. split; [done|]. destruct (Z.le_gt_cases (len src) 124); [by right|left].
    assert (n = 124) by (unfold n; lia). clearbody n. unfold len. lia.
  - intros j Hj. split; [done|]. cbn [set_data mb_data]. apply lookup_insert_ne. set_solver.
Qed.

Lemma frame_trans own s1 s2 s3 : frame own s1 s2 -> frame own s2 s3 -> frame own s1 s3.
Proof. intros F G j Hj. destruct (F j Hj), (G j Hj). split; congruence. Qed.

Lemma frame_mono own own' s s' : own ⊆ own' -> frame own s s' -> frame own' s s'.
Proof. intros H F j Hj. apply F. set_solver. Qed.

(** Where the bytes and the buffers are after an operation. *)
Definition queue_step (fl l : list Z) (s s' : mbuf_sys) (q' : mbuf_queue) (fl' l' qs' : list Z) : Prop :=
  queue_ok s' q' fl' l' qs' /\ fl' ++ l' ≡ₚ fl ++ l /\ frame (fl ++ l) s s'.

(** Buffers are taken until the bytes are stored or the pool is empty. *)
Lemma add_loop_spec n : forall src s q fl l qs pre post,
  queue_ok s q fl l qs -> raw s l = pre ++ qs ++ post -> len pre = q_offs q -> (len post = 0 \/ src = []) -> (length fl < n)%nat ->
  let k := Z.to_nat (Z.min (len src) (124 * len fl)) in
  exists s' q' fl' l', add_loop n src s q = Some (drop k src, s', q') /\ queue_step fl l s s' q' fl' l' (qs ++ take k src).
Proof.
  induction n as [|n IH]; intros src s q fl l qs pre post Q E Ep Hp Hn k; [lia|]. cbn [add_loop].
  destruct (Z.eqb_spec (len src) 0) as [H0|H0].
  { assert (src = []) as -> by (destruct src; [done|]; unfold len in H0; cbn [length] in H0; lia). subst k. rewrite drop_nil, take_nil, app_nil_r.
    exists s, q, fl, l. split; [done|]. by split_and!. }
  assert (Hs : src <> []) by (by intros ->). destruct Hp as [Hp|Hp]; [|done].
  assert (post = []) as -> by (destruct post; [done|]; unfold len in Hp; cbn [length] in Hp; lia). rewrite app_nil_r in E.
  destruct fl as [|i fl].
  { rewrite (pool_empty _ (qo_pool _ _ _ _ _ Q)). cbn [decide]. subst k. change (len []) with 0.
    replace (Z.to_nat (len src `min` (124 * 0))) with 0%nat by (unfold len; lia). rewrite drop_0, take_0, app_nil_r.
    exists (set_locked false s), q, [], l. split; [done|]. split_and!; [|done|done]. pose proof (queue_chain _ _ _ _ _ Q) as [].
    destruct Q. constructor; try done; [by apply pool_lock|by apply (seg_frame s)]. }
  destruct (pool_take _ _ _ (qo_pool _ _ _ _ _ Q)) as (s1 & -> & P1 & En & Ed & Lk1). rewrite decide_False by done.
  pose proof (queue_chain _ _ _ _ _ Q) as [P _ Ch L N R].
  assert (C1 : chain_ok s1 q fl l).
  { constructor; try done; [apply (seg_frame s); [by rewrite En|done]|]. cbn [app] in N. by apply NoDup_cons in N as [_ N]. }
  assert (Hif : i ∉ fl /\ i ∉ l). { cbn [app] in N. apply NoDup_cons in N as [N _]. split; set_solver. }
  assert (Hi : buffer i) by (pose proof (po_range _ _ P) as H; by inversion H).
  destruct Hif as [Hif Hil]. pose proof (link_chain s1 q fl l i C1 Hif Hil Hi) as Hlink. unfold link_block in Hlink.
  destruct (q_append (PBuf i) s1 q) as [s2 q2]. destruct Hlink as (C2 & El & Eo & Ed2 & F2).
  pose proof (add_block _ _ fl l i pre qs src C2) as A. cbn zeta in A. rewrite El, Eo in A.
  destruct A as (Q3 & (post3 & E3 & H3) & F3); try done; [apply Q|apply Q|rewrite <- E; apply raw_frame; intros; by rewrite Ed2, Ed|].
  assert (F0 : frame (i :: fl ++ l) s s1) by (intros j _; by rewrite En, Ed).
  assert (F4 : frame (i :: fl ++ l) s (set_data (PBuf i) (put 0 (take (Z.to_nat (len src `min` 124)) src) (data_of (set_next (PBuf i) PNull s2) (PBuf i))) (set_next (PBuf i) PNull s2))).
  { eapply frame_trans; [done|]. eapply frame_trans; (eapply frame_mono; [|done]); set_solver. }
  rewrite El. set (n1 := len src `min` 124) in *.
  edestruct (IH (drop (Z.to_nat n1) src)) as (s' & q' & fl' & l' & Hr & Q' & Pm & F'); [exact Q3|exact E3| | |cbn [length] in Hn; lia|].
  { cbn [q_set_len q_set_last q_offs] in *. by rewrite Eo. }
  { destruct H3 as [H3|H3]; [by left|right]. apply drop_ge. unfold n1, len in *. lia. }
  exists s', q', fl', l'. rewrite Hr.
  assert (Hk : k = (Z.to_nat n1 + Z.to_nat (len (drop (Z.to_nat n1) src) `min` (124 * len fl)))%nat).
  { unfold k, n1, len. rewrite length_drop. cbn [length]. lia. }
  rewrite Hk, <- drop_drop. split; [done|]. rewrite <- app_assoc, take_take_drop in Q'. split_and!.
  - done.
  - rewrite Pm. cbn [app]. rewrite app_assoc. rewrite (Permutation_app_comm (fl ++ l) [i]). done.
  - cbn [app]. eapply frame_trans; [done|]. eapply frame_mono; [|done]. set_solver.
Qed.

(** Bytes are appended to a queue in order, as many as the room of its last
    buffer and of the free ones allows; the count says how many, the buffers of
    other queues are untouched and none is lost. *)
Theorem mbuf_queue_add_fifo s q fl l qs buf (Q : queue_ok s q fl l qs) :
  let k := Z.min (len buf) (MBUF_DATA_SIZE * len (fl ++ l) - q_offs q - q_len q) in
  exists s' q' fl' l',
    mbuf_queue_add buf s q = Some (k, s', q') /\ queue_step fl l s s' q' fl' l' (qs ++ take (Z.to_nat k) buf).
Proof.
  intros k. destruct (qo_bytes _ _ _ _ _ Q) as (pre & post & E & Ep & Hp).
  pose proof (queue_chain _ _ _ _ _ Q) as C. destruct (chain_bound _ _ _ _ _ _ _ C E) as [Hl _].
  assert (Ek : k = Z.min (len buf) (124 * len fl + len post)).
  { unfold k. rewrite (qo_len _ _ _ _ _ Q), <- Ep. unfold len in *. rewrite length_app. lia. }
  assert (Hfl : (length fl < 65)%nat) by (pose proof (buffers_bound fl (po_nodup _ _ (co_pool _ _ _ _ C)) (po_range _ _ (co_pool _ _ _ _ C))); lia).
  unfold mbuf_queue_add. destruct (Z.eqb_spec (len buf) 0) as [H0|H0].
  { assert (buf = []) as -> by (destruct buf; [done|]; unfold len in H0; cbn [length] in H0; lia).
    rewrite Ek, take_nil, app_nil_r. exists s, q, fl, l. split; [|by split_and!]. repeat f_equal. unfold len. cbn [length]. lia. }
  rewrite (queue_tail _ _ _ _ _ _ _ Q E Ep Hp). destruct (Z.eqb_spec (len post) 0) as [Hz|Hz].
  - cbn [negb Z.eqb]. destruct (add_loop_spec 65 buf s q fl l qs pre post) as (s' & q' & fl' & l' & -> & S); [done..|by left|done|].
    exists s', q', fl', l'. rewrite Ek, Hz, Z.add_0_r. split; [|done]. repeat f_equal. unfold len. rewrite length_drop. lia.
  - assert (Hb : buf <> []) by (by intros ->). assert (0 < len post) by (unfold len in *; lia).
    destruct (Z.eqb_spec (124 - len post) 0) as [Hx|_]; [lia|]. cbn [negb]. replace (124 - (124 - len post)) with (len post) by lia.
    destruct (add_tail _ _ _ _ _ _ _ buf Q E Ep) as (Q1 & E1 & F1); [lia|done|]. cbn zeta in Q1, E1, F1.
    set (n := Z.min (len buf) (len post)) in *.
    edestruct (add_loop_spec 65 (drop (Z.to_nat n) buf)) as (s' & q' & fl' & l' & -> & Q' & Pm & F'); [exact Q1|exact E1|done| |done|].
    { destruct (Z.le_gt_cases (len buf) (len post)); [right; apply drop_ge|left]; unfold n, len in *; rewrite ?length_drop; lia. }
    exists s', q', fl', l'.
    set (k2 := Z.to_nat (Z.min (len (drop (Z.to_nat n) buf)) (124 * len fl))) in *.
    assert (Hk : Z.to_nat k = (Z.to_nat n + k2)%nat). { rewrite Ek. unfold k2, n, len in *. rewrite length_drop. lia. }
    rewrite <- app_assoc, take_take_drop, <- Hk in Q'. split.
    + rewrite drop_drop, <- Hk. repeat f_equal. rewrite Ek. unfold len in *. rewrite length_drop. lia.
    + split_and!; [done|done|]. by eapply frame_trans.
Qed.

(** The first bytes of a queue are in its first buffer. *)
Lemma head_bytes s q fl i l pre qs post n :
  chain_ok s q fl (i :: l) -> raw s (i :: l) = pre ++ qs ++ post -> 0 <= n <= len qs -> len pre + n <= 124 ->
  get (len pre) n (data_of s (PBuf i)) = take (Z.to_nat n) qs.
Proof.
  intros [P _ _ _ _ R] E Hn Hp. assert (Hi : buffer i) by (by inversion R). pose proof (po_data _ _ P i Hi) as Hd.
  change (i :: l) with ([i] ++ l) in E. rewrite raw_app, raw_one in E.
  assert (Ed : data_of s (PBuf i) = take 124 (pre ++ qs ++ post)) by (by rewrite <- E, <- Hd, take_app_length). rewrite Ed. unfold get, len in *.
  rewrite Nat2Z.id, skipn_firstn_comm, drop_app_length, take_take, take_app_le by lia. f_equal. lia.
Qed.

(** The first buffer of a queue is given back. *)
Lemma head_free s q fl i l :
  chain_ok s q fl (i :: l) ->
  next_of s (PBuf i) = (if decide (l = []) then PNull else next_of s (PBuf i)) /\
  pool_ok (mbuf_free (PBuf i) s) (fl ++ [i]) /\ seg (mbuf_free (PBuf i) s) (next_of s (PBuf i)) l PNull /\
  raw (mbuf_free (PBuf i) s) l = raw s l /\ mb_locked (mbuf_free (PBuf i) s) = false /\
  NoDup ((fl ++ [i]) ++ l) /\ frame (fl ++ i :: l) s (mbuf_free (PBuf i) s).
Proof.
  intros [P Lk Ch L N R]. assert (Hi : buffer i) by (by inversion R). destruct Ch as [_ Ch].
  assert (Ni : i ∉ fl). { apply NoDup_app in N as (_ & N & _). intros H. apply (N i H). set_solver. }
  destruct (pool_free _ _ _ P Ni Hi) as (P' & D & F & Lk').
  assert (Nl : forall j, j ∈ l -> j ∉ fl ++ [i]).
  { intros j Hj. apply NoDup_app in N as (_ & N1 & N2). apply NoDup_cons in N2 as [N2 _]. intros [H|H]%elem_of_app; [apply (N1 j H); set_solver|].
    assert (j = i) by set_solver. by subst. }
  split_and!; try done.
  - destruct (decide (l = [])) as [->|_]; [done|done].
  - apply (seg_frame s); [|done]. intros j Hj. by apply F, Nl.
  - apply raw_frame. intros. by rewrite D.
  - by rewrite <- app_assoc.
  - eapply frame_mono; [|done]. set_solver.
Qed.

(** Everything has been used. *)
Lemma clear_queue s q fl i l qs :
  queue_ok s q fl (i :: l) qs -> q_offs q + len qs <= 124 ->
  let '(s', q') := q_clear (PBuf i) s (q_set_len 0 q) in queue_step fl (i :: l) s s' q' (fl ++ [i]) [] [].
Proof.
  intros Q Hl. pose proof (queue_chain _ _ _ _ _ Q) as C. destruct (qo_bytes _ _ _ _ _ Q) as (pre & post & E & Ep & Hp).
  destruct (chain_bound _ _ _ _ _ _ _ C E) as [Hb _].
  assert (l = []) as ->. { destruct l; [done|]. unfold len in *. cbn [length] in *. lia. }
  destruct (head_free _ _ _ _ _ C) as (En & P' & Ch' & _ & Lk' & N' & F'). rewrite decide_True in En by done.
  unfold q_clear. cbn [q_set_last q_set_offs q_set_len q_set_first q_offs q_len q_first q_last]. rewrite En.
  split_and!; [constructor; try done|by rewrite app_nil_r|done]. by exists [], [].
Qed.

(** Some of the bytes of the first buffer have been used, the queue is not empty. *)
Lemma consume_queue s q fl i l qs n :
  queue_ok s q fl (i :: l) qs -> 0 < n < len qs -> q_offs q + n <= 124 ->
  exists s' q' fl' l',
    q_consume n (PBuf i) s (q_set_len (q_len q - n) q) = (q_first q', s', q') /\
    queue_step fl (i :: l) s s' q' fl' l' (drop (Z.to_nat n) qs) /\
    (if q_offs q + n =? 124 then length l' = length l else length l' = S (length l)).
Proof.
  intros Q Hn Hl. pose proof (queue_chain _ _ _ _ _ Q) as C. destruct (qo_bytes _ _ _ _ _ Q) as (pre & post & E & Ep & Hp).
  pose proof (qo_offs _ _ _ _ _ Q) as Ho. pose proof (qo_len _ _ _ _ _ Q) as El.
  assert (Hne : drop (Z.to_nat n) qs <> []). { intros H. apply (f_equal length) in H. rewrite length_drop in H. unfold len in *. cbn in H. lia. }
  assert (Er : raw s (i :: l) = (pre ++ take (Z.to_nat n) qs) ++ drop (Z.to_nat n) qs ++ post).
  { rewrite E, <- !app_assoc. f_equal. by rewrite app_assoc, take_drop. }
  assert (Hx : len (pre ++ take (Z.to_nat n) qs) = q_offs q + n). { unfold len in *. rewrite length_app, length_take. lia. }
  assert (Eu : q_len q - n = len (drop (Z.to_nat n) qs)). { unfold len in *. rewrite length_drop. lia. }
  unfold q_consume. cbn [q_set_len q_set_offs q_offs q_len q_first q_last]. rewrite (u16_small (q_offs q + n)) by lia.
  destruct (Z.eqb_spec (q_offs q + n) 124) as [H124|H124].
  - destruct (head_free _ _ _ _ _ C) as (_ & P' & Ch' & Er' & Lk' & N' & F').
    assert (Hi : buffer i) by (pose proof (co_range _ _ _ _ C) as R; by inversion R).
    pose proof (po_data _ _ (co_pool _ _ _ _ C) i Hi) as Hd.
    change (i :: l) with ([i] ++ l) in Er. rewrite raw_app, raw_one in Er.
    apply app_inj_1 in Er as [_ Er]; [|rewrite Hd; unfold len in Hx; lia].
    assert (Hlne : l <> []). { intros ->. cbn in Er. symmetry in Er. by apply app_eq_nil in Er as [Er _]. }
    eexists _, _, (fl ++ [i]), l. split; [reflexivity|]. split; [|done]. split_and!; [|by rewrite <- app_assoc|done].
    apply (chain_queue _ _ _ _ [] _ post); try done; [|by rewrite Er'].
    constructor; try done; [|by pose proof (co_range _ _ _ _ C) as R; inversion R].
    cbn [q_set_first q_set_offs q_set_len q_last]. rewrite (co_last _ _ _ _ C). unfold last_ptr. destruct l; [done|]. by rewrite last_cons_cons.
  - exists s, (mk_queue (q_offs q + n) (q_len q - n) (q_first q) (q_last q)), fl, (i :: l). split; [|split].
    + cbn [q_first]. destruct C as [_ _ [H _] _ _ _]. by rewrite <- H.
    + split_and!; [|done|done]. apply (chain_queue _ _ _ _ (pre ++ take (Z.to_nat n) qs) _ post); try done.
      * by destruct C.
      * cbn [q_offs]. lia.
    + done.
Qed.

Lemma remove_loop_spec n : forall rem cnt s q fl l qs,
  queue_ok s q fl l qs -> 0 <= rem <= len qs -> (0 < n)%nat /\ (0 < rem -> (length l < n)%nat) ->
  exists s' q' fl' l',
    remove_loop n rem cnt (q_first q) s q = Some (cnt + rem, take (Z.to_nat rem) qs, s', q') /\
    queue_step fl l s s' q' fl' l' (drop (Z.to_nat rem) qs).
Proof.
  induction n as [|n IH]; intros rem cnt s q fl l qs Q Hr Hn; [lia|]. cbn [remove_loop].
  destruct (Z.eqb_spec rem 0) as [->|H0].
  { exists s, q, fl, l. rewrite Z.add_0_r, take_0, drop_0. split; [done|by split_and!]. }
  destruct l as [|i l].
  { destruct (qo_bytes _ _ _ _ _ Q) as (pre & post & E & _). cbn in E. symmetry in E. apply app_eq_nil in E as [_ E].
    apply app_eq_nil in E as [-> _]. change (len []) with 0 in Hr. lia. }
  pose proof (qo_offs _ _ _ _ _ Q) as Ho. pose proof (qo_len _ _ _ _ _ Q) as El. pose proof (queue_chain _ _ _ _ _ Q) as C.
  destruct (qo_bytes _ _ _ _ _ Q) as (pre & post & E & Ep & Hp). destruct (chain_bound _ _ _ _ _ _ _ C E) as [Hb1 Hb2].
  assert (Ef : q_first q = PBuf i) by (by destruct C as [_ _ [H _] _ _ _]). rewrite Ef.
  set (n1 := Z.min rem (124 - q_offs q)). assert (Hn1 : 0 < n1 <= rem /\ q_offs q + n1 <= 124) by (unfold n1; lia).
  assert (Hn2 : n1 = rem \/ q_offs q + n1 = 124) by (unfold n1; lia). clearbody n1.
  assert (Hpre : 0 <= len pre /\ 0 <= len post) by (unfold len; lia).
  assert (Eg : get (q_offs q) n1 (data_of s (PBuf i)) = take (Z.to_nat n1) qs) by (rewrite <- Ep; apply (head_bytes _ _ _ _ _ pre qs post n1 C E); lia).
  rewrite Eg, (u16_small (q_len q - n1)) by lia.
  destruct (Z.eqb_spec (q_len (q_set_len (q_len q - n1) q)) 0) as [Hz|Hz]; cbn [q_set_len q_len] in Hz.
  - pose proof (clear_queue _ _ _ _ _ _ Q) as K. rewrite Hz.
    destruct (q_clear (PBuf i) s _) as [s' q']. assert (n1 = rem) as -> by lia. exists s', q', (fl ++ [i]), []. split; [done|].
    rewrite (drop_ge qs) by (unfold len in *; lia). apply K. lia.
  - destruct (consume_queue _ _ _ _ _ _ n1 Q) as (s1 & q1 & fl1 & l1 & Hq & (Q1 & Pm1 & F1) & Hl1); [lia..|].
    rewrite Hq.
    destruct (IH (rem - n1) (cnt + n1) s1 q1 fl1 l1 _ Q1) as (s' & q' & fl' & l' & -> & Q' & Pm' & F').
    { unfold len in *. rewrite length_drop. lia. }
    { cbn [length] in Hn. destruct (Z.eqb_spec (q_offs q + n1) 124); lia. }
    exists s', q', fl', l'. rewrite drop_drop in Q'. replace (Z.to_nat n1 + Z.to_nat (rem - n1))%nat with (Z.to_nat rem) in Q' by lia.
    split.
    + rewrite take_take_drop. replace (Z.to_nat n1 + Z.to_nat (rem - n1))%nat with (Z.to_nat rem) by lia.
      by replace (cnt + n1 + (rem - n1)) with (cnt + rem) by lia.
    + split_and!; [done|by rewrite Pm'|]. eapply frame_trans; [done|]. eapply frame_mono; [|done]. intros j. by rewrite Pm1.
Qed.

(** The queue's buffers fit the fuel of the loops. *)
Lemma queue_fuel s q fl l qs : queue_ok s q fl l qs -> (length l < 65)%nat.
Proof.
  intros Q. pose proof (qo_nodup _ _ _ _ _ Q) as N. apply NoDup_app in N as (_ & _ & N).
  pose proof (buffers_bound _ N (qo_range _ _ _ _ _ Q)). lia.
Qed.

(** Bytes leave a queue in the order they came, as many as asked or as there
    are; emptied buffers return to the pool. *)
Theorem mbuf_queue_remove_fifo s q fl l qs n (Q : queue_ok s q fl l qs) (H : 0 <= n) :
  let k := Z.min n (len qs) in
  exists s' q' fl' l',
    mbuf_queue_remove n s q = Some (k, take (Z.to_nat k) qs, s', q') /\ queue_step fl l s s' q' fl' l' (drop (Z.to_nat k) qs).
Proof.
  intros k. pose proof (queue_fuel _ _ _ _ _ Q). unfold mbuf_queue_remove. rewrite (qo_len _ _ _ _ _ Q). fold k.
  destruct (Z.eqb_spec k 0) as [->|Hk].
  - exists s, q, fl, l. rewrite take_0, drop_0. split; [done|by split_and!].
  - destruct (remove_loop_spec 65 k 0 s q fl l qs Q) as (s' & q' & fl' & l' & -> & S); [unfold k, len; lia|lia|].
    by exists s', q', fl', l'.
Qed.

(** Trimming a queue is removing from it without the copy. *)
Lemma trim_loop_remove n : forall rem cnt m s q,
  trim_loop n rem cnt m s q = option_map (fun '(c, _, s, q) => (c, s, q)) (remove_loop n rem cnt m s q).
Proof.
  induction n as [|n IH]; intros rem cnt m s q; [done|]. cbn [trim_loop remove_loop]. destruct (rem =? 0); [done|].
  destruct (q_len _ =? 0); [by destruct (q_clear m s _)|]. destruct (q_consume _ m s _) as [[m1 s1] q1]. rewrite IH.
  by destruct (remove_loop n _ _ m1 s1 q1) as [[[[? ?] ?] ?]|].
Qed.

Theorem mbuf_queue_trim_remove n s q :
  mbuf_queue_trim n s q = option_map (fun '(c, _, s, q) => (c, s, q)) (mbuf_queue_remove n s q).
Proof. unfold mbuf_queue_trim, mbuf_queue_remove. destruct (_ =? 0); [done|]. apply trim_loop_remove. Qed.

Lemma raw_cons s i l : raw s (i :: l) = data_of s (PBuf i) ++ raw s l.
Proof. change (i :: l) with ([i] ++ l). by rewrite raw_app, raw_one. Qed.

(** The walk to a position. *)
Lemma get_skip_spec s fl n : forall pos offs m l,
  pool_ok s fl -> seg s m l PNull -> Forall buffer l -> 0 <= offs < 124 -> 0 <= pos -> offs + pos < 124 * len l ->
  (0 < n)%nat /\ (0 < pos -> (length l < n)%nat) ->
  exists offs' m' l', get_skip n pos offs m s = Some (offs', m') /\ seg s m' l' PNull /\ Forall buffer l' /\ 0 <= offs' < 124 /\
    drop (Z.to_nat offs') (raw s l') = drop (Z.to_nat (offs + pos)) (raw s l) /\ (length l' <= length l)%nat.
Proof.
  induction n as [|n IH]; intros pos offs m l P Ch R Ho Hp Hl Hn; [lia|]. cbn [get_skip].
  destruct (Z.eqb_spec pos 0) as [->|H0].
  { exists offs, m, l. rewrite Z.add_0_r. split_and!; done || lia. }
  destruct l as [|i l]; [unfold len in Hl; cbn [length] in Hl; lia|]. destruct Ch as [-> Ch]. inversion R as [|?? Hi Rl]; subst.
  cbn zeta. set (n1 := pos `min` (124 - offs)). assert (Hn1 : n1 = pos /\ offs + pos < 124 \/ offs + n1 = 124 /\ n1 <= pos) by (unfold n1; lia).
  clearbody n1. pose proof (po_data _ _ P i Hi) as Hd. unfold len in Hl. cbn [length] in Hl, Hn.
  destruct (Z.eqb_spec (offs + n1) 124) as [E|E].
  - destruct (IH (pos - n1) 0 (next_of s (PBuf i)) l) as (o & m' & l' & Hr & C' & R' & Ho' & Ed & Hl'); try (done || (unfold len; lia)).
    exists o, m', l'. split_and!; try (done || (cbn [length]; lia)). rewrite Ed, raw_cons, drop_app_ge by lia. f_equal. lia.
  - destruct (IH (pos - n1) (offs + n1) (PBuf i) (i :: l)) as (o & m' & l' & Hr & C' & R' & Ho' & Ed & Hl');
      try (done || (unfold len; cbn [length]; lia)).
    exists o, m', l'. split_and!; try (done || lia). rewrite Ed. f_equal. lia.
Qed.

(** The copy from there. *)
Lemma get_copy_spec s fl n : forall rem cnt offs m l,
  pool_ok s fl -> seg s m l PNull -> Forall buffer l -> 0 <= offs < 124 -> 0 <= rem -> offs + rem <= 124 * len l -> (length l < n)%nat ->
  get_copy n rem cnt offs m s = Some (cnt + rem, take (Z.to_nat rem) (drop (Z.to_nat offs) (raw s l))).
Proof.
  induction n as [|n IH]; intros rem cnt offs m l P Ch R Ho Hp Hl Hn; [lia|]. cbn [get_copy].
  destruct (Z.eqb_spec rem 0) as [->|H0]; [by rewrite Z.add_0_r, take_0|].
  destruct l as [|i l]; [unfold len in Hl; cbn [length] in Hl; lia|]. destruct Ch as [-> Ch]. inversion R as [|?? Hi Rl]; subst.
  cbn zeta. set (n1 := rem `min` (124 - offs)). assert (Hn1 : n1 = rem /\ offs + rem <= 124 \/ offs + n1 = 124 /\ n1 <= rem) by (unfold n1; lia).
  clearbody n1. pose proof (po_data _ _ P i Hi) as Hd. unfold len in Hl. cbn [length] in Hl, Hn.
  rewrite (IH _ _ _ _ l) by (done || unfold len; lia). rewrite raw_cons, drop_app_le by lia.
  replace (cnt + n1 + (rem - n1)) with (cnt + rem) by lia. repeat f_equal. unfold get. rewrite drop_0.
  assert (Hld : length (drop (Z.to_nat offs) (data_of s (PBuf i))) = (124 - Z.to_nat offs)%nat) by (by rewrite length_drop, Hd).
  destruct Hn1 as [[-> H1]|[H1 H2]].
  - rewrite Z.sub_diag, take_0, app_nil_r. by rewrite take_app_le by lia.
  - rewrite take_app_ge by lia. rewrite (take_ge (drop _ _)) by lia. repeat f_equal. lia.
Qed.

(** A queue is read at any position without being changed. *)
Theorem mbuf_queue_get_peeks s q fl l qs offs n (Q : queue_ok s q fl l qs) (H : 0 <= offs) (Hn : 0 <= n) :
  mbuf_queue_get offs n s q =
  Some (Z.max 0 (Z.min n (len qs - offs)), take (Z.to_nat n) (drop (Z.to_nat offs) qs)).
Proof.
  pose proof (queue_fuel _ _ _ _ _ Q) as Hf. pose proof (queue_chain _ _ _ _ _ Q) as C.
  destruct (qo_bytes _ _ _ _ _ Q) as (pre & post & E & Ep & Hp). destruct (chain_bound _ _ _ _ _ _ _ C E) as [Hb _].
  pose proof (qo_offs _ _ _ _ _ Q) as Ho. unfold mbuf_queue_get. rewrite (qo_len _ _ _ _ _ Q).
  assert (Hx : 0 <= len pre /\ 0 <= len post /\ 0 <= len qs) by (unfold len; lia).
  destruct (Z.ltb_spec (len qs) offs) as [L|L].
  { rewrite drop_ge, take_nil by (unfold len in *; lia). do 2 f_equal. lia. }
  cbn zeta. destruct (Z.eqb_spec (n `min` (len qs - offs)) 0) as [Z0|Z0].
  { replace (take _ _) with (@nil Z); [do 2 f_equal; lia|]. symmetry.
    destruct (Z.eq_dec n 0) as [->|]; [apply take_0|]. rewrite drop_ge by (unfold len in *; lia). apply take_nil. }
  destruct C as [P _ Ch _ _ R].
  destruct (get_skip_spec s fl 66 offs (q_offs q) (q_first q) l) as (o & m & l' & -> & C' & R' & Ho' & Ed & Hl'); try (done || lia).
  assert (Er : drop (Z.to_nat o) (raw s l') = drop (Z.to_nat offs) qs ++ post).
  { rewrite Ed, E, <- Ep, drop_app_ge by (unfold len; lia). rewrite drop_app_le by (unfold len in *; lia). do 2 f_equal. unfold len. lia. }
  pose proof (length_raw _ _ _ P R') as Hr. pose proof (f_equal length Er) as Hle. rewrite length_app, !length_drop, Hr in Hle.
  rewrite (get_copy_spec s fl 66 _ _ _ _ l') by (done || unfold len in *; lia). rewrite Er.
  rewrite take_app_le by (rewrite length_drop; unfold len in *; lia). do 2 f_equal; [lia|].
  destruct (Z.le_gt_cases n (len qs - offs)); [f_equal; lia|]. rewrite !take_ge; [done|rewrite length_drop; unfold len in *; lia..].
Qed.

(** ** Chains of buffers released *)

Lemma release_all_spec n : forall m l s fl,
  pool_ok s fl -> seg s m l PNull -> NoDup (fl ++ l) -> Forall buffer l -> (length l < n)%nat ->
  exists s', release_all n m s = Some s' /\ pool_ok s' (fl ++ l) /\ mb_locked s' = mb_locked s /\ mb_data s' = mb_data s /\
    frame (fl ++ l) s s'.
Proof.
  induction n as [|n IH]; intros m l s fl P Ch N R Hn; [lia|]. cbn [release_all]. destruct l as [|i l].
  { cbn [seg] in Ch. subst m. rewrite app_nil_r. exists s. by split_and!. }
  destruct Ch as [-> Ch]. inversion R as [|?? Hi Rl]; subst. rewrite decide_False by done.
  assert (Ni : i ∉ fl). { apply NoDup_app in N as (_ & N & _). intros H. apply (N i H). set_solver. }
  destruct (pool_release _ _ _ P Ni Hi) as (P1 & D1 & F1).
  destruct (IH (next_of s (PBuf i)) l (__mbuf_release (PBuf i) s) (fl ++ [i])) as (s' & E & P' & L' & D' & F'); try done.
  - apply (seg_frame s); [|done]. intros j Hj. apply F1. apply NoDup_app in N as (_ & N1 & N2). apply NoDup_cons in N2 as [N2 _].
    intros [H|H]%elem_of_app; [apply (N1 j H); set_solver|]. assert (j = i) by set_solver. by subst.
  - by rewrite <- app_assoc.
  - cbn [length] in Hn. lia.
  - exists s'. rewrite <- app_assoc in P', F'. cbn [app] in *. split_and!; [done|done| |by rewrite D'|].
    + rewrite L'. unfold __mbuf_release. by destruct (mb_last s).
    + eapply frame_trans; [|done]. eapply frame_mono; [|done]. set_solver.
Qed.

(** A queue that is freed gives all its buffers back. *)
Theorem mbuf_queue_free_returns_all s q fl l qs (Q : queue_ok s q fl l qs) :
  exists s' q', mbuf_queue_free s q = Some (s', q') /\ queue_step fl l s s' q' (fl ++ l) [] [].
Proof.
  pose proof (queue_fuel _ _ _ _ _ Q) as Hf. destruct (queue_chain _ _ _ _ _ Q) as [P Lk Ch L N R]. unfold mbuf_queue_free.
  destruct (release_all_spec 65 (q_first q) l (thinkos_mutex_lock s) fl) as (s1 & -> & P1 & _ & D1 & F1); try done.
  { by apply pool_lock. }
  { by apply (seg_frame s). }
  eexists _, _. split; [done|]. split_and!; [|by rewrite app_nil_r|done].
  constructor; try done; [by apply pool_lock|by rewrite app_nil_r|by exists [], []].
Qed.

(** ** The pool as it starts *)

Lemma seqZ_snoc k : seqZ 0 (Z.of_nat (S k)) = seqZ 0 (Z.of_nat k) ++ [Z.of_nat k].
Proof. rewrite Nat2Z.inj_succ, <- Z.add_1_r, seqZ_app by lia. done. Qed.

Lemma last_ptr_seqZ (n : nat) : last_ptr PFree (seqZ 0 (Z.of_nat n)) = match n with O => PFree | S n => PBuf (Z.of_nat n) end.
Proof. destruct n as [|n]; [done|]. by rewrite seqZ_snoc, last_ptr_snoc. Qed.

(** The links made so far. *)
Record linked (k : nat) (p : ptr) (s s0 : mbuf_sys) : Prop := {
  lk_ptr : p = last_ptr PFree (seqZ 0 (Z.of_nat k));
  lk_chain : k = O \/ exists e, seg s (mb_first s) (seqZ 0 (Z.of_nat k)) e;
  lk_same : mb_max s = mb_max s0 /\ mb_used s = mb_used s0 /\ mb_locked s = mb_locked s0 /\ mb_data s = mb_data s0
}.

Lemma link_next k p s s0 : linked k p s s0 -> linked (S k) (PBuf (Z.of_nat k)) (set_next p (PBuf (Z.of_nat k)) s) s0.
Proof.
  intros [-> Ch Sm]. constructor.
  - by rewrite seqZ_snoc, last_ptr_snoc.
  - right. rewrite last_ptr_seqZ. destruct k as [|k].
    + exists (next_of s (PBuf 0)). by cbn.
    + destruct Ch as [Ch|[e Ch]]; [done|]. eexists. rewrite seqZ_snoc. apply seg_app. exists (PBuf (Z.of_nat (S k))). split; [|by split].
      cbn [set_next mb_first]. rewrite seqZ_snoc in *. apply (seg_relink _ _ _ _ _ e); [|done]. rewrite <- seqZ_snoc. apply NoDup_seqZ.
  - rewrite last_ptr_seqZ. by destruct k.
Qed.

Lemma init_links_spec n : forall k p s s0, linked k p s s0 ->
  let '(p', s') := init_links n p (Z.of_nat k) s in linked (n + k) p' s' s0.
Proof.
  induction n as [|n IH]; intros k p s s0 L; [done|]. cbn [init_links]. specialize (IH (S k) _ _ _ (link_next _ _ _ _ L)).
  rewrite Nat2Z.inj_succ, <- Z.add_1_r in IH. by rewrite <- Nat.add_succ_comm in IH.
Qed.

Definition storage_ok (s : mbuf_sys) : Prop := (forall i, buffer i -> length (data_of s (PBuf i)) = 124%nat) /\ mb_locked s = false.

(** All the buffers are free at the start. *)
Theorem mbuf_init_pool s (S0 : storage_ok s) : pool_ok (mbuf_init s) (seqZ 0 MBUF_POOL_SIZE) /\ mb_locked (mbuf_init s) = false.
Proof.
  destruct S0 as [D Lk]. unfold mbuf_init.
  set (s0 := mk_mbufs _ _ _ _ _ _ _). pose proof (init_links_spec 64 0 PFree s0 s0) as H. change (Z.of_nat 0) with 0 in H.
  change (Z.to_nat 64) with 64%nat. destruct (init_links 64 PFree 0 s0) as [p s1]. destruct H as [-> Ch (M & U & L & Dt)].
  { constructor; [done|by left|done]. }
  change (last_ptr PFree (seqZ 0 (Z.of_nat (64 + 0)))) with (PBuf 63). change (64 + 0)%nat with 64%nat in Ch.
  destruct Ch as [|[e Ch]]; [done|]. split; [|by rewrite <- Lk; cbn]. constructor.
  - cbn [set_last set_next mb_first]. apply (seg_frame (set_next (PBuf 63) PNull s1)); [done|].
    change (seqZ 0 64) with (seqZ 0 (Z.of_nat 64)). rewrite (seqZ_snoc 63) in *. apply (seg_relink _ _ _ _ _ e); [|done].
    rewrite <- seqZ_snoc. apply NoDup_seqZ.
  - done.
  - unfold len. rewrite length_seqZ. cbn. by rewrite U.
  - cbn. by rewrite M.
  - intros i Hi. cbn [data_of set_last set_next mb_data]. rewrite Dt. by apply D.
  - apply NoDup_seqZ.
  - apply Forall_forall. intros i Hi%elem_of_seqZ. unfold buffer. lia.
Qed.

Lemma queue_init_ok s fl q : pool_ok s fl -> mb_locked s = false -> queue_ok s (mbuf_queue_init q) fl [] [].
Proof.
  intros P L. constructor; try done; [rewrite app_nil_r; by apply P|by exists [], []].
Qed.

(** ** Lists of buffers *)

(** A walk of [n] steps over a chain. *)
Lemma list_walk_spec s : forall l1 q m e,
  seg s m l1 e -> list_walk (length l1) q m s = (last_ptr q l1, e).
Proof.
  induction l1 as [|i l1 IH]; intros q m e Ch; cbn [length list_walk]; [cbn in Ch; by subst|]. destruct Ch as [-> Ch].
  rewrite (IH _ _ _ Ch). unfold last_ptr. destruct l1; [done|]. rewrite last_cons_cons, last_cons. by destruct (last l1).
Qed.

(** The buffers that hold [n] bytes. *)
Definition blocks (n : Z) : Z := (n + (MBUF_DATA_SIZE - 1)) / MBUF_DATA_SIZE.

Lemma quot_blocks n : 0 <= n -> Z.quot (n + (124 - 1)) 124 = blocks n.
Proof. intros H. apply Z.quot_div_nonneg; lia. Qed.

(** As many buffers as the bytes need leave the pool as a list of their own. *)
Theorem mbuf_list_alloc_takes s fl n (P : pool_ok s fl) (H : 0 < n) (Hf : blocks n <= len fl) :
  exists m s', mbuf_list_alloc n s = (m, s') /\ seg s' m (take (Z.to_nat (blocks n)) fl) PNull /\
    pool_ok s' (drop (Z.to_nat (blocks n)) fl) /\ mb_locked s' = false /\ mb_data s' = mb_data s /\ frame fl s s'.
Proof.
  pose proof P as [Ch L U M D N R]. pose proof (buffers_bound _ N R) as Hb. unfold mbuf_list_alloc. rewrite quot_blocks by lia.
  assert (Hn : 0 < blocks n) by (unfold blocks; apply Z.div_str_pos; lia).
  change (mb_max (thinkos_mutex_lock s)) with (mb_max s). change (mb_used (thinkos_mutex_lock s)) with (mb_used s). rewrite M, U.
  destruct (Z.ltb_spec (64 - (64 - len fl)) (blocks n)); [lia|].
  set (k := Z.to_nat (blocks n)) in *. assert (Hk : (0 < k <= length fl)%nat) by (unfold k, len in *; lia).
  assert (Hbk : blocks n = Z.of_nat k) by (unfold k; lia). rewrite Hbk. clearbody k. clear H Hf Hn Hbk.
  assert (Hlt : length (take k fl) = k) by (rewrite length_take; lia).
  rewrite <- (take_drop k fl) in Ch. apply seg_app in Ch as (p & Ch1 & Ch2).
  change (list_walk k _ _ _) with (list_walk k (mb_first s) (mb_first s) (set_locked true s)).
  pose proof (list_walk_spec (set_locked true s) (take k fl) (mb_first s) (mb_first s) p) as W. rewrite Hlt in W.
  rewrite W by (by apply (seg_frame s)). clear W.
  assert (Ht : take k fl <> []) by (intros E; rewrite E in Hlt; cbn in Hlt; lia).
  destruct (exists_last Ht) as (t0 & i & Et). rewrite Et in *. rewrite last_ptr_snoc.
  assert (Nf : NoDup ((t0 ++ [i]) ++ drop k fl)) by (by rewrite <- Et, take_drop). apply NoDup_app in Nf as (N1 & N2 & N3).
  assert (Hu : u8 (64 - len fl + Z.of_nat k) = 64 - len (drop k fl)) by (unfold len; rewrite length_drop, u8_small; lia).
  eexists _, _. split; [reflexivity|]. split_and!.
  - apply (seg_frame (set_next (PBuf i) PNull s)); [by destruct (decide (p = PNull))|]. by apply (seg_relink _ _ _ _ _ p).
  - assert (Hfr : forall s', mb_next s' = mb_next (set_next (PBuf i) PNull s) -> seg s' p (drop k fl) PNull).
    { intros s' E. apply (seg_frame s); [|done]. intros j Hj. rewrite E. cbn [set_next mb_next]. apply lookup_insert_ne. intros <-.
      apply (N2 i); set_solver. }
    assert (Rd : Forall buffer (drop k fl)) by by apply Forall_drop.
    destruct (decide (p = PNull)) as [->|Hp].
    + destruct (drop k fl) as [|j fl'] eqn:Ed; [|by destruct Ch2]. constructor; try done. cbn. by rewrite U.
    + constructor; try done; [by apply Hfr| |by cbn; rewrite U].
      assert (Hl : last_ptr PFree fl = last_ptr PFree (take k fl ++ drop k fl)) by (by rewrite take_drop).
      cbn. rewrite L, Hl. unfold last_ptr. rewrite last_app. destruct (drop k fl) as [|j fl']; [done|].
      rewrite last_cons. by destruct (last fl').
  - by destruct (decide (p = PNull)).
  - by destruct (decide (p = PNull)).
  - assert (Hi : i ∈ fl) by (rewrite <- (take_drop k fl), Et; set_solver). intros j Hj.
    destruct (decide (p = PNull)); (split; [|done]); cbn; apply lookup_insert_ne; by intros ->.
Qed.

Lemma pool_list_short s fl n : pool_ok s fl -> len fl < blocks n -> mbuf_list_alloc n s = (PNull, set_locked true s).
Proof.
  intros P H. destruct P as [Ch L U M D N R]. unfold mbuf_list_alloc.
  assert (Hn : 0 <= n). { destruct (Z.le_gt_cases 0 n) as [?|Hlt]; [done|]. assert (blocks n <= 0); [|unfold len in H; lia].
    unfold blocks. assert ((n + (124 - 1)) / 124 < 1) by (apply Z.div_lt_upper_bound; lia). lia. }
  rewrite quot_blocks by done.
  change (mb_max (thinkos_mutex_lock s)) with (mb_max s). change (mb_used (thinkos_mutex_lock s)) with (mb_used s). rewrite M, U.
  by destruct (Z.ltb_spec (64 - (64 - len fl)) (blocks n)); [|lia].
Qed.

(** When there are not enough, the result is null and the mutex stays locked. *)
Theorem mbuf_list_alloc_fails s fl n (P : pool_ok s fl) (H : len fl < blocks n) :
  mbuf_list_alloc n s = (PNull, set_locked true s).
Proof. by apply (pool_list_short s fl). Qed.

(** A list of no bytes, or of a small negative number of them, cuts the free list
    after its first buffer, which is both free and returned, while the count of
    used buffers does not change. *)
Theorem mbuf_list_alloc_zero s i fl n (P : pool_ok s (i :: fl)) (H : -247 < n <= 0) :
  exists s', mbuf_list_alloc n s = (PBuf i, s') /\ mb_first s' = PBuf i /\ next_of s' (PBuf i) = PNull /\ mb_used s' = mb_used s.
Proof.
  pose proof P as [[Cf Ch] L U M D N R]. pose proof (buffers_bound _ N R) as Hb. unfold mbuf_list_alloc.
  assert (Z.quot (n + (124 - 1)) 124 = 0) as -> by (apply Z.quot_small_iff; lia). change (mb_max (thinkos_mutex_lock s)) with (mb_max s).
  change (mb_used (thinkos_mutex_lock s)) with (mb_used s). rewrite M.
  destruct (Z.ltb_spec (64 - mb_used s) 0); [unfold len in U; lia|]. cbn [Z.to_nat list_walk].
  change (mb_first (thinkos_mutex_lock s)) with (mb_first s). rewrite Cf. cbn beta iota zeta.
  eexists. split; [reflexivity|]. split_and!; [done|by apply next_set_eq|]. cbn. rewrite Z.add_0_r, u8_small; [done|].
  rewrite U. unfold len. cbn [length] in *. destruct (decide _); cbn; lia.
Qed.

(** The bytes of a list are the ones written, then what was there. *)
Lemma list_write_spec n : forall src m l s fl,
  pool_ok s fl -> seg s m l PNull -> NoDup l -> Forall buffer l -> len src <= 124 * len l -> (length l < n)%nat ->
  exists s', list_write n m src s = Some ([], s') /\ raw s' l = src ++ drop (length src) (raw s l) /\
    mb_next s' = mb_next s /\ pool_ok s' fl /\ mb_locked s' = mb_locked s /\ (forall j, j ∉ l -> mb_data s' !! j = mb_data s !! j).
Proof.
  induction n as [|n IH]; intros src m l s fl P Ch N R Hs Hn; [lia|]. cbn [list_write].
  destruct l as [|i l].
  { cbn [seg] in Ch. subst m. assert (src = []) as -> by (destruct src; [done|]; unfold len in Hs; cbn [length] in Hs; lia).
    exists s. by split_and!. }
  destruct Ch as [-> Ch]. inversion R as [|?? Hi Rl]; subst. apply NoDup_cons in N as [Ni N].
  rewrite bool_decide_true by done. rewrite !andb_true_r. pose proof (po_data _ _ P i Hi) as Hd. cbn [length] in Hn.
  destruct (Z.leb_spec 124 (len src)) as [L|L].
  - set (chunk := take (Z.to_nat 124) src). assert (Hc : length chunk = 124%nat) by (unfold chunk, len in *; rewrite length_take; lia).
    assert (Ep : put 0 chunk (data_of s (PBuf i)) = chunk) by (rewrite put_0, drop_ge by lia; apply app_nil_r). rewrite Ep.
    destruct (IH (drop (Z.to_nat 124) src) (next_of s (PBuf i)) l (set_data (PBuf i) chunk s) fl) as (s' & -> & Er & En & P' & Lk & Fr); try done.
    { by apply pool_set_data. }
    { by apply (seg_frame s). }
    { unfold len in *. rewrite length_drop. cbn [length] in Hs. lia. }
    { lia. }
    exists s'. split_and!; try done.
    + rewrite raw_cons, Er, raw_set_data by done. rewrite raw_cons.
      assert (E1 : data_of s' (PBuf i) = chunk) by (cbn [data_of]; rewrite Fr by done; cbn [set_data mb_data]; by rewrite lookup_insert_eq).
      rewrite E1, app_assoc. unfold chunk. rewrite take_drop. f_equal. rewrite length_drop, drop_app_ge by (rewrite Hd; unfold len in L; lia).
      f_equal. rewrite Hd. lia.
    + intros j Hj. rewrite Fr by set_solver. cbn [set_data mb_data]. apply lookup_insert_ne. set_solver.
  - destruct (Z.ltb_spec 0 (len src)) as [L2|L2].
    + eexists. split; [done|]. rewrite put_0. assert (Hv : length (src ++ drop (length src) (data_of s (PBuf i))) = 124%nat).
      { rewrite length_app, length_drop, Hd. unfold len in L. lia. }
      split_and!; try done.
      * rewrite !raw_cons, data_set_eq, raw_set_data by done. rewrite <- app_assoc. f_equal. rewrite drop_app_le; [done|].
        rewrite Hd. unfold len in L. lia.
      * by apply pool_set_data.
      * intros j Hj. cbn [set_data mb_data]. apply lookup_insert_ne. set_solver.
    + assert (src = []) as -> by (destruct src; [done|]; unfold len in L2; cbn [length] in L2; lia). exists s. by split_and!.
Qed.

Lemma list_read_spec s fl n : forall rem m l,
  pool_ok s fl -> seg s m l PNull -> Forall buffer l -> 0 <= rem <= 124 * len l -> (length l < n)%nat ->
  list_read n m rem s = Some (take (Z.to_nat rem) (raw s l), 0).
Proof.
  induction n as [|n IH]; intros rem m l P Ch R Hr Hn; [lia|]. cbn [list_read]. destruct l as [|i l].
  { cbn [seg] in Ch. subst m. unfold len in Hr. cbn [length] in Hr. assert (rem = 0) as -> by lia. done. }
  destruct Ch as [-> Ch]. inversion R as [|?? Hi Rl]; subst. rewrite bool_decide_true by done. rewrite !andb_true_r.
  pose proof (po_data _ _ P i Hi) as Hd. cbn [length] in Hn. rewrite raw_cons. unfold get. rewrite drop_0.
  destruct (Z.leb_spec 124 rem) as [L|L].
  - rewrite (IH _ _ l) by (done || unfold len in *; cbn [length] in *; lia). rewrite take_ge by lia. rewrite take_app_ge by lia.
    repeat f_equal. lia.
  - destruct (Z.ltb_spec 0 rem) as [L2|L2]; [by rewrite take_app_le by lia|]. by assert (rem = 0) as -> by lia.
Qed.

(** What is written to a list of buffers is read from it. *)
Theorem mbuf_list_roundtrip s fl m l buf (P : pool_ok s fl) (Ch : seg s m l PNull) (N : NoDup l) (R : Forall buffer l) (H : len buf <= 124 * len l) :
  exists s', mbuf_list_write m buf s = Some (len buf, s') /\ mbuf_list_read m (len buf) s' = Some (len buf, buf) /\
    pool_ok s' fl /\ seg s' m l PNull.
Proof.
  pose proof (buffers_bound l N R). unfold mbuf_list_write, mbuf_list_read.
  destruct (list_write_spec 65 buf m l s fl) as (s' & -> & Er & En & P' & _); try (done || lia).
  assert (Ch' : seg s' m l PNull) by (apply (seg_frame s); [by rewrite En|done]).
  exists s'. change (len []) with 0. rewrite Z.sub_0_r. split; [done|]. split; [|done].
  rewrite (list_read_spec s' fl 65 _ _ l) by (done || unfold len in *; lia). rewrite Er, Z.sub_0_r. unfold len.
  by rewrite Nat2Z.id, take_app_length.
Qed.

(** A datagram is kept in a list of its own: as many buffers as it needs are
    taken, what is written is read back, and the buffers return to the pool. *)
Theorem mbuf_datagram_roundtrip s fl buf (P : pool_ok s fl) (H : 0 < len buf) (Hf : blocks (len buf) <= len fl) :
  exists m s1 s2 s3,
    mbuf_list_alloc (len buf) s = (m, s1) /\ mbuf_list_write m buf s1 = Some (len buf, s2) /\
    mbuf_list_read m (len buf) s2 = Some (len buf, buf) /\ mbuf_list_free m s2 = Some s3 /\
    (exists fl', fl' ≡ₚ fl /\ pool_ok s3 fl') /\ mb_locked s3 = false.
Proof.
  destruct (mbuf_list_alloc_takes s fl (len buf) P H Hf) as (m & s1 & E1 & C1 & P1 & L1 & _ & _).
  set (k := Z.to_nat (blocks (len buf))) in *.
  assert (Hk : (k <= length fl)%nat) by (unfold k, len in *; lia).
  pose proof (po_nodup _ _ P) as N. pose proof (po_range _ _ P) as R. rewrite <- (take_drop k fl) in N, R.
  apply NoDup_app in N as (N1 & N2 & N3). apply Forall_app in R as [R1 R2].
  destruct (mbuf_list_roundtrip s1 _ m _ buf P1 C1 N1 R1) as (s2 & E2 & E3 & P2 & C2).
  { unfold len at 2. rewrite length_take, Nat.min_l by done. unfold k, blocks. pose proof (Z.div_mod (len buf + (124 - 1)) 124).
    pose proof (Z.mod_pos_bound (len buf + (124 - 1)) 124). lia. }
  pose proof (buffers_bound _ N1 R1).
  destruct (release_all_spec 65 m (take k fl) (thinkos_mutex_lock s2) (drop k fl)) as (s3 & E4 & P4 & _); try (done || lia).
  { by apply pool_lock. }
  { by apply (seg_frame s2). }
  { apply NoDup_app. split_and!; [done| |done]. intros x H1 H2. by apply (N2 x). }
  exists m, s1, s2, (thinkos_mutex_unlock s3). unfold mbuf_list_free. rewrite E4. split_and!; try done.
  eexists. split; [|apply pool_lock, P4]. rewrite (Permutation_app_comm (drop k fl)). by rewrite take_drop.
Qed.

(** The check of the pool succeeds on a pool that is in order. *)
Lemma count_free_spec s n : forall m l, seg s m l PNull -> (length l < n)%nat -> count_free n m s = Some (len l).
Proof.
  induction n as [|n IH]; intros m l Ch Hn; [lia|]. cbn [count_free]. destruct l as [|i l].
  { cbn [seg] in Ch. by subst m. }
  destruct Ch as [-> Ch]. rewrite decide_True by done. cbn [length] in Hn. rewrite (IH _ l) by (done || lia). f_equal. unfold len.
  cbn [length]. lia.
Qed.

Lemma pool_check s fl : pool_ok s fl -> mbuf_alloc_check s = Some (0, set_locked false s).
Proof.
  intros [Ch L U M D N R]. pose proof (buffers_bound _ N R). unfold mbuf_alloc_check.
  rewrite (count_free_spec _ 65 _ fl) by (done || lia || by apply (seg_frame s)).
  change (mb_max (thinkos_mutex_lock s)) with (mb_max s). change (mb_used (thinkos_mutex_lock s)) with (mb_used s). rewrite U, M.
  replace (len fl + (64 - len fl)) with 64 by lia. done.
Qed.

(** ** Sequences of operations *)

Inductive qop := QAdd (buf : list Z) | QRemove (n : Z) | QFree.

(** What an operation accepts into the queue and what it takes out of it. *)
Definition run_op (op : qop) (s : mbuf_sys) (q : mbuf_queue) : option (list Z * list Z * mbuf_sys * mbuf_queue) :=
  match op with
  | QAdd buf => match mbuf_queue_add buf s q with Some (k, s, q) => Some (take (Z.to_nat k) buf, [], s, q) | None => None end
  | QRemove n => match mbuf_queue_remove n s q with Some (_, bs, s, q) => Some ([], bs, s, q) | None => None end
  | QFree =>
      match mbuf_queue_get 0 (q_len q) s q with
      | None => None
      | Some (_, bs) => match mbuf_queue_free s q with Some (s, q) => Some ([], bs, s, q) | None => None end
      end
  end.

Fixpoint run_ops (ops : list qop) (s : mbuf_sys) (q : mbuf_queue) : option (list Z * list Z * mbuf_sys * mbuf_queue) :=
  match ops with
  | [] => Some ([], [], s, q)
  | op :: ops =>
      match run_op op s q with
      | None => None
      | Some (a, r, s, q) =>
          match run_ops ops s q with None => None | Some (a', r', s, q) => Some (a ++ a', r ++ r', s, q) end
      end
  end.

Definition op_ok (op : qop) : Prop := match op with QRemove n => 0 <= n | _ => True end.

Lemma run_op_spec op s q fl l qs :
  queue_ok s q fl l qs -> op_ok op ->
  exists a r s' q' fl' l' qs', run_op op s q = Some (a, r, s', q') /\ queue_step fl l s s' q' fl' l' qs' /\ qs ++ a = r ++ qs'.
Proof.
  intros Q H. destruct op as [buf|n|]; cbn [run_op].
  - destruct (mbuf_queue_add_fifo s q fl l qs buf Q) as (s' & q' & fl' & l' & -> & S). by eexists _, [], s', q', fl', l', _.
  - destruct (mbuf_queue_remove_fifo s q fl l qs n Q H) as (s' & q' & fl' & l' & -> & S). eexists [], _, s', q', fl', l', _.
    split; [done|]. split; [done|]. by rewrite app_nil_r, take_drop.
  - rewrite (mbuf_queue_get_peeks s q fl l qs 0 (q_len q) Q) by (rewrite ?(qo_len _ _ _ _ _ Q); unfold len; lia).
    destruct (mbuf_queue_free_returns_all s q fl l qs Q) as (s' & q' & -> & S). eexists [], _, s', q', _, _, _.
    split; [done|]. split; [done|]. rewrite !app_nil_r, drop_0, take_ge; [done|]. rewrite (qo_len _ _ _ _ _ Q). unfold len. lia.
Qed.

(** C20: Whatever the sequence of operations on a queue, every one returns, the bytes
    that come out are those that were accepted, in the same order, the rest being
    still in the queue; no buffer is lost or shared and no other list of buffers
    is touched. *)
Theorem mbuf_queue_lossless ops : forall s q fl l qs (Q : queue_ok s q fl l qs) (H : Forall op_ok ops),
  exists a r s' q' fl' l' qs', run_ops ops s q = Some (a, r, s', q') /\ queue_step fl l s s' q' fl' l' qs' /\ qs ++ a = r ++ qs'.
Proof.
  induction ops as [|op ops IH]; intros s q fl l qs Q H; cbn [run_ops].
  - exists [], [], s, q, fl, l, qs. split_and!; try done. by rewrite app_nil_r.
  - inversion H as [|?? H1 H2]; subst.
    destruct (run_op_spec op s q fl l qs Q H1) as (a & r & s1 & q1 & fl1 & l1 & qs1 & -> & (Q1 & Pm1 & F1) & E1).
    destruct (IH _ _ _ _ _ Q1 H2) as (a' & r' & s' & q' & fl' & l' & qs' & -> & (Q' & Pm' & F') & E').
    eexists _, _, s', q', fl', l', qs'. split; [done|]. split.
    + split_and!; [done|by rewrite Pm'|]. eapply frame_trans; [done|]. eapply frame_mono; [|done]. intros j. by rewrite Pm1.
    + by rewrite app_assoc, E1, <- app_assoc, E', app_assoc.
Qed.

(** ** Concrete pools *)

Definition zero_pool : mbuf_sys := mk_mbufs 0 0 false PNull PNull ∅ (list_to_map ((fun i => (i, replicate 124 0)) <$> seqZ 0 64)).

Lemma zero_pool_ok : storage_ok zero_pool.
Proof.
  split; [|done]. intros i Hi. unfold buffer in Hi.
  assert (E : forallb (fun i => Nat.eqb (length (data_of zero_pool (PBuf i))) 124) (seqZ 0 64) = true) by by vm_compute.
  rewrite forallb_forall in E. apply Nat.eqb_eq, E. apply list_elem_of_In, elem_of_seqZ. lia.
Qed.

Definition demo_pool : mbuf_sys := mbuf_init zero_pool.

Lemma demo_pool_ok : pool_ok demo_pool (seqZ 0 64) /\ mb_locked demo_pool = false.
Proof. apply mbuf_init_pool, zero_pool_ok. Qed.

Definition demo_queue : mbuf_queue := mk_queue 0 0 PNull PQueue.

Lemma demo_queue_ok : queue_ok demo_pool demo_queue (seqZ 0 64) [] [].
Proof. apply (queue_init_ok _ _ demo_queue); apply demo_pool_ok. Qed.

Definition demo_ops : list qop := [QAdd (seqZ 0 300); QRemove 200; QAdd (seqZ 5 50); QFree].

Lemma mbuf_queue_lossless_witness :
  exists a r s' q' fl' l' qs', run_ops demo_ops demo_pool demo_queue = Some (a, r, s', q') /\
    queue_step (seqZ 0 64) [] demo_pool s' q' fl' l' qs' /\ [] ++ a = r ++ qs'.
Proof.
  apply (mbuf_queue_lossless demo_ops demo_pool demo_queue (seqZ 0 64) [] []); [apply demo_queue_ok|].
  by repeat constructor.
Defined.

(** The same sequence, run. *)
Example demo_run :
  option_map (fun '(a, r, s, q) => (bool_decide (a = r), len r, mb_used s, q_len q)) (run_ops demo_ops demo_pool demo_queue) = Some (true, 350, 0, 0).
Proof. by vm_compute. Qed.

Lemma mbuf_datagram_roundtrip_witness :
  exists m s1 s2 s3,
    mbuf_list_alloc (len (seqZ 0 300)) demo_pool = (m, s1) /\ mbuf_list_write m (seqZ 0 300) s1 = Some (len (seqZ 0 300), s2) /\
    mbuf_list_read m (len (seqZ 0 300)) s2 = Some (len (seqZ 0 300), seqZ 0 300) /\ mbuf_list_free m s2 = Some s3 /\
    (exists fl', fl' ≡ₚ seqZ 0 64 /\ pool_ok s3 fl') /\ mb_locked s3 = false.
Proof. apply (mbuf_datagram_roundtrip demo_pool (seqZ 0 64) (seqZ 0 300)); [apply demo_pool_ok|done|by vm_compute]. Defined.

Lemma mbuf_list_alloc_fails_witness : mbuf_list_alloc 8000 demo_pool = (PNull, set_locked true demo_pool).
Proof. apply (mbuf_list_alloc_fails demo_pool (seqZ 0 64) 8000); [apply demo_pool_ok|by vm_compute]. Defined.

Lemma mbuf_list_alloc_zero_witness :
  exists s', mbuf_list_alloc 0 demo_pool = (PBuf 0, s') /\ mb_first s' = PBuf 0 /\ next_of s' (PBuf 0) = PNull /\ mb_used s' = mb_used demo_pool.
Proof. apply (mbuf_list_alloc_zero demo_pool 0 (seqZ 1 63) 0); [apply demo_pool_ok|lia]. Defined.
