(* ===== verification/Chksum.v ===== *)
(** * The Internet checksum

    src/sdk/libtcpip/in_chksum.c: the one's complement sum that the IP, ICMP, UDP
    and TCP code of src/sdk/libtcpip computes and verifies, with its two unrolled
    loops, one for data at an even address and one for data at an odd one. *)

From stdpp Require Import base tactics numbers list.
From Stdlib Require Import ZArith Lia.
From S2P Require Import Prelude Buffer.

(** ** The code *)

(** [hp[k]], a half word of the little-endian memory. *)
Definition hp (l : list Z) (k : Z) : Z := rd l (2 * k) + 256 * rd l (2 * k + 1).
(** [cp[k] + (cp[k + 1] << 8)]. *)
Definition cp16 (l : list Z) (k : Z) : Z := rd l k + Z.shiftl (rd l (k + 1)) 8.

(** A run of [__sum += ...] statements. *)
Definition add_hp (ks : list Z) (l : list Z) (sum : Z) : Z := foldl (fun sum k => u32 (sum + hp l k)) sum ks.
Definition add_cp (ks : list Z) (l : list Z) (sum : Z) : Z := foldl (fun sum k => u32 (sum + cp16 l k)) sum ks.

(** The loop over eight half words; the fuel is the number of bytes. *)
Fixpoint while8 (add : list Z -> Z -> Z) (n : nat) (l : list Z) (sum : Z) : list Z * Z :=
  match n with
  | O => (l, sum)
  | S n => if 16 <=? len l then while8 add n (drop 16 l) (add l sum) else (l, sum)
  end.

(** [if (__len >= n) ...]. *)
Definition step (n : nat) (add : list Z -> Z -> Z) (l : list Z) (sum : Z) : list Z * Z :=
  if Z.of_nat n <=? len l then (drop n l, add l sum) else (l, sum).

Definition sum_aligned (l : list Z) (sum : Z) : list Z * Z :=
  let '(l, sum) := while8 (add_hp [0; 1; 2; 3; 4; 5; 6; 7]) (length l) l sum in
  let '(l, sum) := step 8 (add_hp [0; 1; 2; 3]) l sum in
  let '(l, sum) := step 4 (add_hp [0; 1]) l sum in
  step 2 (add_hp [0]) l sum.

Definition sum_unaligned (l : list Z) (sum : Z) : list Z * Z :=
  let '(l, sum) := while8 (add_cp [0; 2; 4; 6; 8; 10; 12; 14]) (length l) l sum in
  let '(l, sum) := step 8 (add_cp [0; 2; 4; 6]) l sum in
  let '(l, sum) := step 4 (add_cp [0; 2]) l sum in
  step 2 (add_cp [0]) l sum.

(** [while (__sum >> 16)]. *)
Fixpoint fold16 (n : nat) (sum : Z) : option Z :=
  match n with
  | O => None
  | S n => if Z.shiftr sum 16 =? 0 then Some sum else fold16 n (u32 (Z.land sum 0xffff + Z.shiftr sum 16))
  end.

(** [__data] is the address, [l] the bytes there. *)
Definition in_chksum (sum __data : Z) (l : list Z) : option Z :=
  let '(l, sum) := if Z.land __data 1 =? 0 then sum_aligned l sum else sum_unaligned l sum in
  let sum := if negb (len l =? 0) then u32 (sum + rd l 0) else sum in
  fold16 3 sum.

(** ** The reference *)

(** The sum of the half words, the last byte standing alone when there is one. *)
Fixpoint wsum (l : list Z) : Z :=
  match l with
  | a :: b :: l => a + 256 * b + wsum l
  | [a] => a
  | [] => 0
  end.

(** The one's complement representative: [0] only for [0]. *)
Definition ones (x : Z) : Z := if x =? 0 then 0 else (x - 1) mod 65535 + 1.

Lemma hp_cp16 l k : hp l k = cp16 l (2 * k).
Proof. unfold hp, cp16. rewrite Z.shiftl_mul_pow2 by lia. lia. Qed.

Lemma add_hp_cp ks : forall l sum, add_hp ks l sum = add_cp (Z.mul 2 <$> ks) l sum.
Proof.
  unfold add_hp, add_cp. induction ks as [|k ks IH]; intros l sum; [done|]. cbn [fmap list_fmap foldl]. rewrite hp_cp16. apply IH.
Qed.

Lemma while8_ext f g : (forall l s, f l s = g l s) -> forall n l s, while8 f n l s = while8 g n l s.
Proof. intros H n. induction n as [|n IH]; intros l s; [done|]. cbn [while8]. by rewrite H, IH. Qed.

Lemma step_ext n f g l s : (forall l s, f l s = g l s) -> step n f l s = step n g l s.
Proof. intros H. unfold step. by rewrite H. Qed.

(** The address does not matter. *)
Lemma sum_alignment l sum : sum_aligned l sum = sum_unaligned l sum.
Proof.
  unfold sum_aligned, sum_unaligned.
  rewrite (while8_ext _ (add_cp [0; 2; 4; 6; 8; 10; 12; 14])) by (intros; apply add_hp_cp).
  destruct (while8 _ _ _ _) as [l1 s1].
  rewrite (step_ext 8 _ (add_cp [0; 2; 4; 6])) by (intros; apply add_hp_cp). destruct (step 8 _ _ _) as [l2 s2].
  rewrite (step_ext 4 _ (add_cp [0; 2])) by (intros; apply add_hp_cp). destruct (step 4 _ _ _) as [l3 s3].
  apply step_ext. intros; apply add_hp_cp.
Qed.

(** A step over whole half words. *)
Lemma wsum_app l1 l2 : Nat.even (length l1) = true -> wsum (l1 ++ l2) = wsum l1 + wsum l2.
Proof.
  revert l1. refine (fix IH l1 := _). destruct l1 as [|a [|b l1]]; intros H; [done|done|]. cbn [app wsum]. rewrite IH by done. lia.
Qed.

(** Additions modulo [2^32] of the half words at [ks]. *)
Lemma add_cp_sum ks : forall l sum, 0 <= sum < 4294967296 -> add_cp ks l sum = u32 (sum + foldr (fun k a => cp16 l k + a) 0 ks).
Proof.
  unfold add_cp. induction ks as [|k ks IH]; intros l sum H; cbn [foldl foldr]; [by rewrite Z.add_0_r, u32_small|].
  rewrite IH by apply u32_range. unfold u32. rewrite Zplus_mod_idemp_l. f_equal. lia.
Qed.

(** A run over the first [length h] bytes. *)
Definition covers (ks : list Z) (n : nat) : Prop :=
  forall h l, length h = n -> foldr (fun k a => cp16 (h ++ l) k + a) 0 ks = wsum h.

Lemma rd_cons0 x l : rd (x :: l) 0 = x.
Proof. done. Qed.
Lemma rd_consS x l k : 0 <= k -> rd (x :: l) (k + 1) = rd l k.
Proof.
  intros H. unfold rd. destruct (Z.ltb_spec (k + 1) 0), (Z.ltb_spec k 0); try lia.
  by replace (Z.to_nat (k + 1)) with (S (Z.to_nat k)) by lia.
Qed.

Lemma cp16_cons a b l k : 0 <= k -> cp16 (a :: b :: l) (k + 2) = cp16 l k.
Proof.
  intros H. unfold cp16. replace (k + 2) with (k + 1 + 1) by lia. by rewrite !rd_consS by lia.
Qed.

Lemma foldr_shift a b l ks :
  Forall (Z.le 0) ks -> foldr (fun k c => cp16 (a :: b :: l) k + c) 0 ((fun k => k + 2) <$> ks) = foldr (fun k c => cp16 l k + c) 0 ks.
Proof. induction 1 as [|k ks H _ IH]; [done|]. cbn [fmap list_fmap foldr]. rewrite cp16_cons by done. by rewrite <- IH. Qed.

Lemma covers_nil : covers [] 0.
Proof. intros h l H. by destruct h. Qed.

Lemma covers_cons ks n : Forall (Z.le 0) ks -> covers ks n -> covers (0 :: ((fun k => k + 2) <$> ks)) (S (S n)).
Proof.
  intros Hk C h l H. destruct h as [|a [|b h]]; [done..|]. cbn [app foldr wsum]. rewrite foldr_shift by done.
  rewrite C by (cbn in H; lia). unfold cp16. rewrite rd_consS, !rd_cons0 by lia.
  rewrite Z.shiftl_mul_pow2 by lia. lia.
Qed.

Lemma covers1 : covers [0] 2.
Proof. apply (covers_cons []); [done|apply covers_nil]. Qed.
Lemma covers2 : covers [0; 2] 4.
Proof. apply (covers_cons [0]); [by repeat constructor|apply covers1]. Qed.
Lemma covers4 : covers [0; 2; 4; 6] 8.
Proof. apply (covers_cons [0; 2; 4]); [by repeat constructor|]. apply (covers_cons [0; 2]); [by repeat constructor|]. apply covers2. Qed.
Lemma covers8 : covers [0; 2; 4; 6; 8; 10; 12; 14] 16.
Proof.
  apply (covers_cons [0; 2; 4; 6; 8; 10; 12]); [by repeat constructor|]. apply (covers_cons [0; 2; 4; 6; 8; 10]); [by repeat constructor|].
  apply (covers_cons [0; 2; 4; 6; 8]); [by repeat constructor|]. apply (covers_cons [0; 2; 4; 6]); [by repeat constructor|]. apply covers4.
Qed.

(** The code stops before [l] with what remains of it, the rest being summed. *)
Lemma step_spec n ks l sum :
  covers ks n -> 0 <= sum < 4294967296 ->
  exists h, l = h ++ (step n (add_cp ks) l sum).1 /\ (length h = n \/ h = [] /\ (length l < n)%nat) /\
    (step n (add_cp ks) l sum).2 = u32 (sum + wsum h).
Proof.
  intros C H. unfold step. destruct (Z.leb_spec (Z.of_nat n) (len l)) as [L|L].
  - exists (take n l). cbn [fst snd]. assert (Hl : length (take n l) = n) by (unfold len in L; rewrite length_take; lia).
    split; [by rewrite take_drop|]. split; [by left|]. rewrite add_cp_sum by done. do 2 f_equal.
    rewrite <- (C (take n l) (drop n l) Hl). by rewrite take_drop.
  - exists []. cbn [fst snd app wsum]. split; [done|]. split; [right; split; [done|unfold len in L; lia]|].
    by rewrite Z.add_0_r, u32_small.
Qed.

Abbreviation idx8 := ([0; 2; 4; 6; 8; 10; 12; 14]%Z) (only parsing).

Lemma while8_spec n : forall l sum, 0 <= sum < 4294967296 -> (length l <= n)%nat ->
  exists h, l = h ++ (while8 (add_cp idx8) n l sum).1 /\ Nat.even (length h) = true /\
    (length (while8 (add_cp idx8) n l sum).1 < 16)%nat /\
    (while8 (add_cp idx8) n l sum).2 = u32 (sum + wsum h).
Proof.
  induction n as [|n IH]; intros l sum H Hl; cbn [while8].
  - exists []. cbn [fst snd app wsum]. split_and!; [done|done|lia|]. by rewrite Z.add_0_r, u32_small.
  - destruct (Z.leb_spec 16 (len l)) as [L|L].
    + unfold len in L. assert (Ht : length (take 16 l) = 16%nat) by (rewrite length_take; lia).
      rewrite add_cp_sum by done.
      pose proof (covers8 (take 16 l) (drop 16 l) Ht) as C. rewrite take_drop in C. rewrite C.
      destruct (IH (drop 16 l) (u32 (sum + wsum (take 16 l)))) as (h & E & Ev & Hs & ->); [apply u32_range|rewrite length_drop; lia|].
      exists (take 16 l ++ h). split_and!; [by rewrite <- app_assoc, <- E, take_drop| |done|].
      * rewrite length_app, Ht. by rewrite Nat.even_add, Ev.
      * rewrite wsum_app by (by rewrite Ht). unfold u32. rewrite Zplus_mod_idemp_l. f_equal. lia.
    + exists []. cbn [fst snd app wsum]. unfold len in L. split_and!; [done|done|lia|]. by rewrite Z.add_0_r, u32_small.
Qed.

(** Both loops leave the last byte, if there is one, and have summed the rest. *)
Lemma sum_spec l sum : 0 <= sum < 4294967296 ->
  exists h, l = h ++ (sum_unaligned l sum).1 /\ Nat.even (length h) = true /\ (length (sum_unaligned l sum).1 < 2)%nat /\
    (sum_unaligned l sum).2 = u32 (sum + wsum h).
Proof.
  intros H. unfold sum_unaligned. destruct (while8_spec (length l) l sum H) as (h1 & E1 & V1 & L1 & S1); [done|].
  destruct (while8 _ _ _ _) as [l1 s1]. cbn [fst snd] in *.
  destruct (step_spec 8 _ l1 s1 covers4) as (h2 & E2 & L2 & S2); [rewrite S1; apply u32_range|].
  destruct (step 8 _ _ _) as [l2 s2]. cbn [fst snd] in *.
  destruct (step_spec 4 _ l2 s2 covers2) as (h3 & E3 & L3 & S3); [rewrite S2; apply u32_range|].
  destruct (step 4 _ _ _) as [l3 s3]. cbn [fst snd] in *.
  destruct (step_spec 2 _ l3 s3 covers1) as (h4 & E4 & L4 & S4); [rewrite S3; apply u32_range|].
  destruct (step 2 _ _ _) as [l4 s4]. cbn [fst snd] in *. subst s1 s2 s3 s4. subst l1 l2 l3.
  assert (V : forall h n, Nat.even n = true -> length h = n \/ h = [] /\ True -> Nat.even (length (A := Z) h) = true).
  { intros h n Hn [->|[-> _]]; done. }
  assert (V2 : Nat.even (length h2) = true) by (apply (V _ 8%nat); [done|tauto]).
  assert (V3 : Nat.even (length h3) = true) by (apply (V _ 4%nat); [done|tauto]).
  assert (V4 : Nat.even (length h4) = true) by (apply (V _ 2%nat); [done|tauto]).
  exists (h1 ++ h2 ++ h3 ++ h4). split_and!.
  - by rewrite <- !app_assoc.
  - by rewrite !length_app, !Nat.even_add, V1, V2, V3, V4.
  - clear - L1 L2 L3 L4. rewrite ?length_app in L1. rewrite ?length_app in L2. rewrite ?length_app in L3. rewrite ?length_app in L4.
    destruct L2 as [L2|[-> L2]], L3 as [L3|[-> L3]], L4 as [L4|[-> L4]]; cbn [length] in *; lia.
  - rewrite !wsum_app by done. unfold u32. repeat (rewrite Zplus_mod_idemp_l, <- ?Z.add_assoc). done.
Qed.

(** ** The fold *)

Lemma ones_range x : 0 <= x -> 0 <= ones x <= 65535.
Proof. intros H. unfold ones. destruct (Z.eqb_spec x 0); [lia|]. pose proof (Z.mod_pos_bound (x - 1) 65535). lia. Qed.

Lemma ones_small x : 0 <= x <= 65535 -> ones x = x.
Proof. intros H. unfold ones. destruct (Z.eqb_spec x 0); [done|]. rewrite Z.mod_small; lia. Qed.

(** The high half word added to the low one is the same sum. *)
Lemma ones_fold x : 0 <= x -> ones (x mod 65536 + x / 65536) = ones x.
Proof.
  intros H. pose proof (Z.div_mod x 65536). pose proof (Z.mod_pos_bound x 65536). pose proof (Z.div_pos x 65536).
  unfold ones. destruct (Z.eqb_spec (x mod 65536 + x / 65536) 0), (Z.eqb_spec x 0); try lia. f_equal.
  replace (x - 1) with (x mod 65536 + x / 65536 - 1 + (x / 65536) * 65535) by lia. by rewrite Z.mod_add.
Qed.

Lemma fold16_step n x : 0 <= x < 4294967296 ->
  fold16 (S n) x = if x <? 65536 then Some x else fold16 n (x mod 65536 + x / 65536).
Proof.
  intros H. cbn [fold16]. rewrite Z.shiftr_div_pow2 by lia. change (2 ^ 16) with 65536.
  change 0xffff with (Z.ones 16). rewrite Z.land_ones by lia. change (2 ^ 16) with 65536.
  pose proof (Z.div_mod x 65536). pose proof (Z.mod_pos_bound x 65536). pose proof (Z.div_pos x 65536).
  destruct (Z.eqb_spec (x / 65536) 0) as [E|E], (Z.ltb_spec x 65536) as [L|L]; try done; [lia|by rewrite Z.div_small in E by lia|].
  rewrite u32_small; [done|]. assert (x / 65536 < 65536) by (apply Z.div_lt_upper_bound; lia). lia.
Qed.

(** Two rounds are enough. *)
Lemma fold16_ones x : 0 <= x < 4294967296 -> fold16 3 x = Some (ones x).
Proof.
  intros H. rewrite fold16_step by done. destruct (Z.ltb_spec x 65536) as [L|L]; [by rewrite ones_small by lia|].
  pose proof (Z.div_mod x 65536). pose proof (Z.mod_pos_bound x 65536).
  assert (B : 0 < x / 65536 < 65536) by (split; [apply Z.div_str_pos; lia|apply Z.div_lt_upper_bound; lia]).
  rewrite <- (ones_fold x) by lia. set (y := x mod 65536 + x / 65536) in *. assert (Hy : 0 <= y <= 131070) by lia. clearbody y.
  rewrite fold16_step by lia. destruct (Z.ltb_spec y 65536) as [L2|L2]; [by rewrite ones_small by lia|].
  rewrite <- (ones_fold y) by lia. assert (Ey : y / 65536 = 1) by (symmetry; apply (Z.div_unique_pos _ _ _ (y - 65536)); lia).
  pose proof (Z.div_mod y 65536). pose proof (Z.mod_pos_bound y 65536).
  assert (Hz : 0 <= y mod 65536 + y / 65536 < 65536) by lia.
  rewrite fold16_step by lia. destruct (Z.ltb_spec (y mod 65536 + y / 65536) 65536); [|lia]. by rewrite ones_small by lia.
Qed.

Definition bytes (l : list Z) : Prop := Forall (fun b => 0 <= b < 256) l.

Lemma wsum_bound l : bytes l -> 0 <= wsum l <= 65535 * len l.
Proof.
  revert l. refine (fix IH l := _). destruct l as [|a [|b l]]; intros H; [done| |].
  - inversion H; subst. unfold len. cbn. lia.
  - inversion H as [|?? Ha H']; subst. inversion H' as [|?? Hb H'']; subst. specialize (IH l H''). unfold len in *. cbn [wsum length]. lia.
Qed.

(** The sum is the one's complement sum of the half words, whatever the address
    of the data; the folding loop ends. *)
Lemma in_chksum_spec sum addr l (B : bytes l) (H : 0 <= sum) (Hs : sum + wsum l < 2 ^ 32) :
  in_chksum sum addr l = Some (ones (sum + wsum l)).
Proof.
  pose proof (wsum_bound l B) as Hw. assert (H0 : 0 <= sum < 4294967296) by lia.
  unfold in_chksum. assert (E : (if Z.land addr 1 =? 0 then sum_aligned l sum else sum_unaligned l sum) = sum_unaligned l sum).
  { destruct (Z.land addr 1 =? 0); [apply sum_alignment|done]. }
  rewrite E. destruct (sum_spec l sum H0) as (h & El & V & L & S). destruct (sum_unaligned l sum) as [t s]. cbn [fst snd] in *.
  subst l s. rewrite wsum_app in * by done. unfold bytes in B. rewrite Forall_app in B. destruct B as [Bh Bt].
  pose proof (wsum_bound h Bh). pose proof (wsum_bound t Bt). rewrite (u32_small (sum + wsum h)) by lia.
  destruct t as [|a [|b t]]; [| |cbn [length] in L; lia].
  - cbn [len wsum] in *. change (negb (len [] =? 0)) with false. cbn iota. rewrite (Z.add_0_r (wsum h)) in *. apply fold16_ones. lia.
  - change (negb (len [a] =? 0)) with true. cbn iota. rewrite rd_cons0. cbn [wsum] in *. rewrite u32_small by lia.
    rewrite <- Z.add_assoc. apply fold16_ones. lia.
Qed.

(** C21: The checksum is the one's complement sum of the half words of the data,
    whatever the address it is at; the folding loop ends. *)
Theorem in_chksum_equiv sum l (B : bytes l) (H : 0 <= sum) (Hs : sum + wsum l < 2 ^ 32) :
  (forall addr, in_chksum sum addr l = Some (ones (sum + wsum l))) /\ 0 <= ones (sum + wsum l) <= 65535 /\
  ones (sum + wsum l) mod 65535 = (sum + wsum l) mod 65535.
Proof.
  pose proof (wsum_bound l B). split; [intros addr; by apply in_chksum_spec|]. split; [apply ones_range; lia|].
  unfold ones. destruct (Z.eqb_spec (sum + wsum l) 0) as [->|]; [done|]. rewrite Zplus_mod_idemp_l. f_equal. lia.
Qed.

Lemma in_chksum_equiv_witness :
  (forall addr, in_chksum 0 addr (seqZ 1 37) = Some (ones (0 + wsum (seqZ 1 37)))) /\ 0 <= ones (0 + wsum (seqZ 1 37)) <= 65535 /\
  ones (0 + wsum (seqZ 1 37)) mod 65535 = (0 + wsum (seqZ 1 37)) mod 65535.
Proof.
  apply (in_chksum_equiv 0 (seqZ 1 37)); [|lia|by vm_compute]. apply Forall_forall. intros b Hb%elem_of_seqZ. lia.
Defined.

(** A message of odd length at both kinds of address. *)
Example in_chksum_run : in_chksum 0 0 (seqZ 1 37) = Some 22378 /\ in_chksum 0 1 (seqZ 1 37) = in_chksum 0 0 (seqZ 1 37).
Proof. by vm_compute. Qed.
