(* ===== verification/Ip.v ===== *)
(** * IP headers

    src/sdk/libtcpip/ip.c: the header that the protocols put in front of their
    datagrams ([iph_template], [mk_iphdr]) and the checks a datagram passes before
    it is given to its protocol ([ip_input]).  A packet is the list of the bytes in
    memory; addresses and ports are kept as the words of that little-endian memory,
    the way the code compares them. *)

From stdpp Require Import base tactics numbers list.
From Stdlib Require Import ZArith Lia.
From S2P Require Import Prelude Buffer Chksum.

(** ** Words in memory *)

Definition ld16 (l : list Z) (k : Z) : Z := rd l k + 256 * rd l (k + 1).
Definition ld32 (l : list Z) (k : Z) : Z := ld16 l k + 65536 * ld16 l (k + 2).
Definition st16 (v : Z) : list Z := [v mod 256; (v / 256) mod 256].
Definition st32 (v : Z) : list Z := st16 (v mod 65536) ++ st16 (v / 65536).

Definition NTOHS (x : Z) : Z := u16 (Z.lor (Z.shiftl (Z.land (u16 x) 0x00ff) 8) (Z.shiftr (Z.land (u16 x) 0xff00) 8)).
Definition ntohs (x : Z) : Z := u16 (Z.lor (Z.shiftl (Z.land x 0xff) 8) (Z.shiftr (Z.land x 0xff00) 8)).
Abbreviation htons := ntohs (only parsing).

Abbreviation IP_HEADER_LEN := 20 (only parsing).
Abbreviation IP_MF := 0x0020 (only parsing).
Abbreviation IPPROTO_ICMP := 1 (only parsing).
Abbreviation IPPROTO_TCP := 6 (only parsing).
Abbreviation IPPROTO_UDP := 17 (only parsing).
Abbreviation INADDR_ANY := 0 (only parsing).
Abbreviation INADDR_BROADCAST := 0xffffffff (only parsing).

(** The fields of [struct iphdr]. *)
Definition ip_hlen (p : list Z) : Z := Z.land (rd p 0) 15.
Definition ip_ver (p : list Z) : Z := Z.shiftr (rd p 0) 4.
Definition ip_tot_len (p : list Z) : Z := ld16 p 2.
Definition ip_off (p : list Z) : Z := ld16 p 6.
Definition ip_proto (p : list Z) : Z := rd p 9.
Definition ip_saddr (p : list Z) : Z := ld32 p 12.
Definition ip_daddr (p : list Z) : Z := ld32 p 16.

Record ifnet := mk_ifnet { if_ipv4_addr : Z; if_ipv4_mask : Z; if_mtu : Z }.

(** ** Output *)

Definition IP_HLVT (ver tos : Z) : Z := Z.shiftl tos 8 + Z.shiftl ver 4 + Z.shiftr IP_HEADER_LEN 2.

(** The packet and the sequence number. *)
Definition iph_template (proto ttl tos : Z) (p : list Z) (ip_sequence : Z) : list Z * Z :=
  let p := put 8 (st32 (u32 (Z.shiftl proto 8 + ttl))) p in
  let p := put 0 (st32 (u32 (Z.shiftl IP_HEADER_LEN 24 + IP_HLVT 4 tos))) p in
  let ip_sequence := u16 (ip_sequence + 1) in
  let x := u32 (Z.shiftl ip_sequence 16) in
  let y := Z.shiftr x 24 in
  let x := u32 (Z.shiftl x 8) in
  (put 4 (st32 (u32 (Z.shiftr x 16 + y))) p, ip_sequence).

(** [addr] is where the packet is; [None] does not occur. *)
Definition mk_iphdr (addr saddr daddr len : Z) (p : list Z) : option (list Z) :=
  let p := put 12 (st32 saddr) p in
  let p := put 16 (st32 daddr) p in
  let len := len + IP_HEADER_LEN in
  let tmp := u32 (Z.shiftl (u32 len) 24) in
  let tmp := u32 (Z.shiftr (u32 len) 8 + Z.shiftr tmp 16) in
  let p := put 2 (st16 (u16 tmp)) p in
  match in_chksum 0 addr (get 0 IP_HEADER_LEN p) with
  | None => None
  | Some sum => Some (put 10 (st16 (u16 (Z.lnot sum))) p)
  end.

(** ** Input *)

Section Input.

(** The protocols: the packet, the offset of their header and the length of what
    follows the IP header; the result and the state. *)
Context {St : Type}.
Variables icmp_input udp_input tcp_input : list Z -> Z -> Z -> St -> Z * St.
Variable raw_input : list Z -> Z -> St -> Z * St.

Definition ip_dispatch (p : list Z) (off len : Z) (st : St) : Z * St :=
  if ip_proto p =? IPPROTO_ICMP then icmp_input p off len st
  else if ip_proto p =? IPPROTO_UDP then udp_input p off len st
  else if ip_proto p =? IPPROTO_TCP then tcp_input p off len st
  else (0, st).

Definition ip_for_us (ifn : ifnet) (p : list Z) : bool :=
  (ip_daddr p =? if_ipv4_addr ifn) || (ip_daddr p =? INADDR_BROADCAST) ||
  (ip_daddr p =? Z.lor (if_ipv4_addr ifn) (u32 (Z.lnot (if_ipv4_mask ifn)))).

(** [addr] is where the packet is and [__len] the length of the frame. *)
Definition ip_input (ifn : ifnet) (addr : Z) (p : list Z) (__len : Z) (st : St) : Z * St :=
  if negb (ip_ver p =? 4) then (-1, st)
  else
    let hdr_len := Z.shiftl (ip_hlen p) 2 in
    let tot_len := ntohs (ip_tot_len p) in
    if (hdr_len <? 20) || (__len <? hdr_len) then (-1, st)
    else if __len <? tot_len then (-1, st)
    else if negb (Z.land (ip_off p) (NTOHS IP_MF) =? 0) then (-1, st)
    else if negb (bool_decide (in_chksum 0 addr (get 0 hdr_len p) = Some 0xffff)) then (-1, st)
    else if negb (ip_for_us ifn p) then (-1, st)
    else
      let '(ret, st) := ip_dispatch p hdr_len (tot_len - hdr_len) st in
      if ret <? 0 then raw_input p tot_len st else (ret, st).

End Input.

(** ** Bytes of words *)

Definition is_byte (b : Z) : Prop := 0 <= b < 256.

Lemma st16_bytes a b : is_byte a -> is_byte b -> st16 (a + 256 * b) = [a; b].
Proof.
  unfold is_byte, st16. intros Ha Hb. replace (a + 256 * b) with (a + b * 256) by lia.
  rewrite Z.mod_add, Z.div_add by lia. by rewrite (Z.div_small a), !Z.mod_small by lia.
Qed.

Lemma st32_bytes a b c d : is_byte a -> is_byte b -> is_byte c -> is_byte d ->
  st32 (a + 256 * b + 65536 * c + 16777216 * d) = [a; b; c; d].
Proof.
  intros Ha Hb Hc Hd. unfold st32. unfold is_byte in *.
  replace (a + 256 * b + 65536 * c + 16777216 * d) with (a + 256 * b + (c + 256 * d) * 65536) by lia.
  rewrite Z.mod_add, Z.div_add by lia. rewrite Z.mod_small, Z.div_small by lia. rewrite Z.add_0_l. by rewrite !st16_bytes.
Qed.

Lemma st16_is v : bytes (st16 v).
Proof. repeat constructor; apply Z.mod_pos_bound; lia. Qed.

Lemma st32_is v : bytes (st32 v).
Proof. apply Forall_app. split; apply st16_is. Qed.

(** A number of 16 bits is its two bytes. *)
Lemma two_bytes v : 0 <= v < 65536 -> exists a b, v = a + 256 * b /\ is_byte a /\ is_byte b.
Proof.
  intros H. exists (v mod 256), (v / 256). pose proof (Z.div_mod v 256). pose proof (Z.mod_pos_bound v 256).
  split; [lia|]. unfold is_byte. split; [lia|]. split; [apply Z.div_pos; lia|apply Z.div_lt_upper_bound; lia].
Qed.

Lemma four_bytes v : 0 <= v < 4294967296 ->
  exists a b c d, v = a + 256 * b + 65536 * c + 16777216 * d /\ is_byte a /\ is_byte b /\ is_byte c /\ is_byte d.
Proof.
  intros H. pose proof (Z.div_mod v 65536). pose proof (Z.mod_pos_bound v 65536).
  destruct (two_bytes (v mod 65536)) as (a & b & E1 & Ha & Hb); [lia|].
  destruct (two_bytes (v / 65536)) as (c & d & E2 & Hc & Hd).
  { split; [apply Z.div_pos; lia|apply Z.div_lt_upper_bound; lia]. }
  exists a, b, c, d. split; [lia|done].
Qed.

(** Bit operations on bytes as arithmetic. *)
Lemma lor_bytes a b : is_byte a -> is_byte b -> Z.lor (256 * a) b = 256 * a + b.
Proof.
  intros Ha Hb. unfold is_byte in *. replace (256 * a) with (Z.shiftl a 8) by (rewrite Z.shiftl_mul_pow2; lia).
  assert (H : Z.land (Z.shiftl a 8) b = 0).
  { apply Z.bits_inj'. intros n Hn. rewrite Z.land_spec, Z.bits_0, Z.shiftl_spec by lia.
    destruct (Z.lt_ge_cases n 8) as [L|L]; [by rewrite Z.testbit_neg_r by lia|].
    apply andb_false_intro2. destruct (Z.eq_dec b 0) as [->|]; [apply Z.bits_0|]. apply Z.bits_above_log2; [lia|].
    apply Z.lt_le_trans with 8; [apply Z.log2_lt_pow2; lia|lia]. }
  by rewrite <- Z.lxor_lor, <- Z.add_nocarry_lxor.
Qed.

Lemma ntohs_bytes a b : is_byte a -> is_byte b -> ntohs (a + 256 * b) = b + 256 * a.
Proof.
  intros Ha Hb. unfold ntohs, is_byte in *.
  replace (Z.land (a + 256 * b) 0xff) with a.
  2: { change 0xff with (Z.ones 8). rewrite Z.land_ones by lia. change (2 ^ 8) with 256. apply (Z.mod_unique_pos _ _ b); lia. }
  replace (Z.shiftr (Z.land (a + 256 * b) 0xff00) 8) with b.
  2: { rewrite Z.shiftr_land. change (Z.shiftr 0xff00 8) with (Z.ones 8). rewrite Z.land_ones, Z.shiftr_div_pow2 by lia. change (2 ^ 8) with 256.
       replace ((a + 256 * b) / 256) with b by (apply (Z.div_unique_pos _ _ _ a); lia). symmetry. apply Z.mod_small. lia. }
  rewrite Z.shiftl_mul_pow2 by lia. change (2 ^ 8) with 256. rewrite (Z.mul_comm a). rewrite lor_bytes by done.
  rewrite u16_small by lia. lia.
Qed.

(** ** The header *)

(** The bytes of the header, with the checksum [c]. *)
Definition header (proto ttl tos id saddr daddr tot c : Z) : list Z :=
  [69; tos; tot / 256; tot mod 256; id / 256; id mod 256; 0; 0; ttl; proto] ++ st16 c ++ st32 saddr ++ st32 daddr.

Lemma long_list (p : list Z) : (20 <= length p)%nat ->
  exists b0 b1 b2 b3 b4 b5 b6 b7 b8 b9 b10 b11 b12 b13 b14 b15 b16 b17 b18 b19 r,
    p = b0 :: b1 :: b2 :: b3 :: b4 :: b5 :: b6 :: b7 :: b8 :: b9 :: b10 :: b11 :: b12 :: b13 :: b14 :: b15 :: b16 :: b17 :: b18 :: b19 :: r.
Proof.
  intros H. do 20 (destruct p as [|? p]; [cbn [length] in H; lia|]; cbn [length] in H). by do 21 eexists.
Qed.

(** The template leaves the total length, the addresses and the checksum open. *)
Lemma iph_template_bytes proto ttl tos p seq :
  is_byte proto -> is_byte ttl -> is_byte tos -> (20 <= length p)%nat ->
  let id := u16 (seq + 1) in
  iph_template proto ttl tos p seq = ([69; tos; 0; 20; id / 256; id mod 256; 0; 0; ttl; proto; 0; 0] ++ drop 12 p, id).
Proof.
  intros Hp Ht Hs Hl id. unfold iph_template. cbn zeta. fold id.
  assert (Hid : 0 <= id < 65536) by (unfold id, u16; apply Z.mod_pos_bound; lia). destruct (two_bytes id Hid) as (lo & hi & Ei & Hlo & Hhi). clearbody id.
  assert (Ed : id / 256 = hi) by (symmetry; apply (Z.div_unique_pos _ _ _ lo); unfold is_byte in *; lia).
  assert (Em : id mod 256 = lo) by (symmetry; apply (Z.mod_unique_pos _ _ hi); unfold is_byte in *; lia).
  rewrite Ed, Em. unfold is_byte in *.
  assert (E1 : st32 (u32 (Z.shiftl proto 8 + ttl)) = [ttl; proto; 0; 0]).
  { rewrite Z.shiftl_mul_pow2, u32_small by lia. rewrite <- (st32_bytes ttl proto 0 0) by (unfold is_byte; lia). f_equal. lia. }
  assert (E2 : st32 (u32 (Z.shiftl 20 24 + IP_HLVT 4 tos)) = [69; tos; 0; 20]).
  { unfold IP_HLVT. rewrite (Z.shiftl_mul_pow2 tos) by lia. cbn [Z.shiftl Z.shiftr]. change (Z.shiftl 20 24) with 335544320.
    change (Z.shiftl 4 4) with 64. change (Z.shiftr 20 2) with 5. rewrite u32_small by lia.
    rewrite <- (st32_bytes 69 tos 0 20) by (unfold is_byte; lia). f_equal. lia. }
  assert (E3 : st32 (u32 (Z.shiftr (u32 (Z.shiftl (u32 (Z.shiftl id 16)) 8)) 16 + Z.shiftr (u32 (Z.shiftl id 16)) 24)) = [hi; lo; 0; 0]).
  { rewrite (Z.shiftl_mul_pow2 id) by lia. change (2 ^ 16) with 65536. rewrite (u32_small (id * 65536)) by lia.
    rewrite (Z.shiftl_mul_pow2 (id * 65536)), !Z.shiftr_div_pow2 by lia. change (2 ^ 8) with 256. change (2 ^ 24) with 16777216. change (2 ^ 16) with 65536.
    assert (X1 : u32 (id * 65536 * 256) = lo * 16777216) by (unfold u32; symmetry; apply (Z.mod_unique_pos _ _ hi); lia).
    rewrite X1. replace (lo * 16777216 / 65536) with (lo * 256) by (apply Z.div_unique_exact; lia).
    replace (id * 65536 / 16777216) with hi by (apply (Z.div_unique_pos _ _ _ (lo * 65536)); lia).
    rewrite u32_small by lia. rewrite <- (st32_bytes hi lo 0 0) by (unfold is_byte; lia). f_equal. lia. }
  rewrite E1, E2, E3. destruct (long_list p Hl) as (b0 & b1 & b2 & b3 & b4 & b5 & b6 & b7 & b8 & b9 & b10 & b11 & b12 & b13 & b14 & b15 & b16 & b17 & b18 & b19 & r & ->).
  done.
Qed.

Lemma header_bytes proto ttl tos id saddr daddr tot c :
  is_byte proto -> is_byte ttl -> is_byte tos -> 0 <= id < 65536 -> 0 <= tot < 65536 -> bytes (header proto ttl tos id saddr daddr tot c).
Proof.
  intros Hp Ht Hs Hid Htot. unfold header. assert (D : forall x, 0 <= x < 65536 -> 0 <= x / 256 < 256).
  { intros x Hx. split; [apply Z.div_pos; lia|apply Z.div_lt_upper_bound; lia]. }
  assert (M : forall x, 0 <= x mod 256 < 256) by (intros x; apply Z.mod_pos_bound; lia).
  apply Forall_app. split.
  { repeat (apply Forall_cons_2; [solve [done | lia | by apply D | apply M]|]). apply Forall_nil_2. }
  apply Forall_app. split; [apply st16_is|]. apply Forall_app. split; apply st32_is.
Qed.

(** The checksum is a word of the sum. *)
Lemma header_sum proto ttl tos id saddr daddr tot c :
  0 <= c < 65536 -> wsum (header proto ttl tos id saddr daddr tot c) = wsum (header proto ttl tos id saddr daddr tot 0) + c.
Proof.
  intros Hc. unfold header, st32. destruct (two_bytes c Hc) as (a & b & -> & Ha & Hb). rewrite st16_bytes by done.
  unfold st16. cbn [app wsum]. change (0 mod 256) with 0. change ((0 / 256) mod 256) with 0. lia.
Qed.

Lemma ones_complement s : 0 < s -> ones (s + (65535 - ones s)) = 65535.
Proof.
  intros H. unfold ones. destruct (Z.eqb_spec s 0); [lia|]. pose proof (Z.div_mod (s - 1) 65535). pose proof (Z.mod_pos_bound (s - 1) 65535).
  pose proof (Z.div_pos (s - 1) 65535). set (q := (s - 1) / 65535) in *. set (r := (s - 1) mod 65535) in *.
  destruct (Z.eqb_spec (s + (65535 - (r + 1))) 0); [lia|]. replace (s + (65535 - (r + 1)) - 1) with (65534 + q * 65535) by lia.
  rewrite Z.mod_add by lia. done.
Qed.

(** The header that goes out: its checksum is the complement of the sum. *)
Lemma mk_iphdr_bytes addr proto ttl tos p seq saddr daddr n :
  is_byte proto -> is_byte ttl -> is_byte tos -> (20 <= length p)%nat -> 0 <= n -> n + 20 < 65536 ->
  let id := u16 (seq + 1) in
  let s := wsum (header proto ttl tos id saddr daddr (n + 20) 0) in
  mk_iphdr addr saddr daddr n (iph_template proto ttl tos p seq).1 =
  Some (header proto ttl tos id saddr daddr (n + 20) (65535 - ones s) ++ drop 20 p).
Proof.
  intros Hp Ht Hs Hl Hn Hn2 id s. rewrite iph_template_bytes by done. fold id. cbn [fst].
  assert (Hid : 0 <= id < 65536) by (unfold id, u16; apply Z.mod_pos_bound; lia).
  pose proof (header_bytes proto ttl tos id saddr daddr (n + 20) 0 Hp Ht Hs Hid ltac:(lia)) as B. pose proof (wsum_bound _ B) as W. fold s in W.
  change (len (header proto ttl tos id saddr daddr (n + 20) 0)) with 20 in W.
  unfold mk_iphdr. cbn zeta. destruct (two_bytes (n + 20) ltac:(lia)) as (lo & hi & En & Hlo & Hhi). unfold is_byte in Hlo, Hhi.
  assert (Et : st16 (u16 (u32 (Z.shiftr (u32 (n + 20)) 8 + Z.shiftr (u32 (Z.shiftl (u32 (n + 20)) 24)) 16))) = [(n + 20) / 256; (n + 20) mod 256]).
  { rewrite (u32_small (n + 20)) by lia. rewrite Z.shiftl_mul_pow2, !Z.shiftr_div_pow2 by lia.
    change (2 ^ 24) with 16777216. change (2 ^ 16) with 65536. change (2 ^ 8) with 256.
    assert (X : u32 ((n + 20) * 16777216) = lo * 16777216) by (unfold u32; symmetry; apply (Z.mod_unique_pos _ _ hi); lia). rewrite X.
    replace (lo * 16777216 / 65536) with (lo * 256) by (apply Z.div_unique_exact; lia).
    replace ((n + 20) / 256) with hi by (apply (Z.div_unique_pos _ _ _ lo); lia).
    replace ((n + 20) mod 256) with lo by (apply (Z.mod_unique_pos _ _ hi); lia).
    rewrite u32_small, u16_small by lia. rewrite <- st16_bytes by done. f_equal. lia. }
  rewrite Et. destruct (long_list p Hl) as (b0 & b1 & b2 & b3 & b4 & b5 & b6 & b7 & b8 & b9 & b10 & b11 & b12 & b13 & b14 & b15 & b16 & b17 & b18 & b19 & r & ->).
  assert (E0 : get 0 20 (put 2 [(n + 20) / 256; (n + 20) mod 256] (put 16 (st32 daddr) (put 12 (st32 saddr)
    ([69; tos; 0; 20; id / 256; id mod 256; 0; 0; ttl; proto; 0; 0] ++ drop 12 (b0 :: b1 :: b2 :: b3 :: b4 :: b5 :: b6 :: b7 :: b8 :: b9 :: b10 :: b11 :: b12 :: b13 :: b14 :: b15 :: b16 :: b17 :: b18 :: b19 :: r))))) = header proto ttl tos id saddr daddr (n + 20) 0) by done.
  rewrite E0. rewrite in_chksum_spec; [|done|lia|change (2 ^ 32) with 4294967296; lia]. rewrite Z.add_0_l. fold s.
  pose proof (ones_range s ltac:(lia)) as R.
  assert (Ec : u16 (Z.lnot (ones s)) = 65535 - ones s).
  { unfold Z.lnot. replace (Z.pred (- ones s)) with (65535 - ones s + (-1) * 65536) by lia. unfold u16. rewrite Z.mod_add by lia. apply Z.mod_small. lia. }
  rewrite Ec. done.
Qed.

(** ** What comes in *)

Section Accept.

Context {St : Type}.
Variables icmp_input udp_input tcp_input : list Z -> Z -> Z -> St -> Z * St.
Variable raw_input : list Z -> Z -> St -> Z * St.
Variable ifn : ifnet.

Notation input := (ip_input icmp_input udp_input tcp_input raw_input ifn).
Notation dispatch := (ip_dispatch icmp_input udp_input tcp_input).

Lemma header_daddr proto ttl tos id saddr daddr tot c pl :
  0 <= daddr < 4294967296 -> ip_daddr (header proto ttl tos id saddr daddr tot c ++ pl) = daddr.
Proof.
  intros H. destruct (four_bytes daddr H) as (a & b & c' & d & -> & Ha & Hb & Hc & Hd). unfold header. rewrite st32_bytes by done.
  change (ip_daddr _) with (a + 256 * b + 65536 * (c' + 256 * d)). lia.
Qed.

Lemma header_saddr proto ttl tos id saddr daddr tot c pl :
  0 <= saddr < 4294967296 -> ip_saddr (header proto ttl tos id saddr daddr tot c ++ pl) = saddr.
Proof.
  intros H. destruct (four_bytes saddr H) as (a & b & c' & d & -> & Ha & Hb & Hc & Hd). unfold header. rewrite st32_bytes by done.
  change (ip_saddr _) with (a + 256 * b + 65536 * (c' + 256 * d)). lia.
Qed.

(** A datagram whose header was made by the output code passes all the checks. *)
Lemma ip_input_accepts proto ttl tos id saddr daddr n addr pl flen st :
  is_byte proto -> is_byte ttl -> is_byte tos -> 0 <= id < 65536 -> 0 <= daddr < 4294967296 -> 0 <= n -> n + 20 < 65536 -> n + 20 <= flen ->
  daddr = if_ipv4_addr ifn \/ daddr = INADDR_BROADCAST ->
  let s := wsum (header proto ttl tos id saddr daddr (n + 20) 0) in
  let p := header proto ttl tos id saddr daddr (n + 20) (65535 - ones s) ++ pl in
  input addr p flen st = (let '(ret, st) := dispatch p 20 n st in if ret <? 0 then raw_input p (n + 20) st else (ret, st)).
Proof.
  intros Hp Ht Hs Hid Hd Hn Hn2 Hf Hdst s p.
  pose proof (header_bytes proto ttl tos id saddr daddr (n + 20) 0 Hp Ht Hs Hid ltac:(lia)) as B0. pose proof (wsum_bound _ B0) as W.
  fold s in W. change (len (header proto ttl tos id saddr daddr (n + 20) 0)) with 20 in W.
  assert (Ws : 0 < s). { unfold s, header, st32, st16 in *. cbn [app wsum] in *. inversion B0; subst. unfold is_byte in *.
    assert (M : forall x, 0 <= x mod 256) by (intros; apply Z.mod_pos_bound; lia).
    assert (D : 0 <= (n + 20) / 256) by (apply Z.div_pos; lia). assert (D' : 0 <= id / 256) by (apply Z.div_pos; lia).
    repeat match goal with |- context [?x mod 256] => lazymatch goal with H : 0 <= x mod 256 |- _ => fail | _ => pose proof (M x) end end. lia. }
  pose proof (ones_range s ltac:(lia)) as R. set (c := 65535 - ones s) in *.
  pose proof (header_bytes proto ttl tos id saddr daddr (n + 20) c Hp Ht Hs Hid ltac:(lia)) as B1.
  assert (Hc : in_chksum 0 addr (header proto ttl tos id saddr daddr (n + 20) c) = Some 0xffff).
  { rewrite in_chksum_spec; [|done|lia|rewrite header_sum by lia; change (2 ^ 32) with 4294967296; fold s; lia].
    rewrite Z.add_0_l, header_sum by lia. fold s. unfold c. by rewrite ones_complement. }
  assert (Et : ntohs (ip_tot_len p) = n + 20).
  { change (ip_tot_len p) with ((n + 20) / 256 + 256 * ((n + 20) mod 256)). rewrite ntohs_bytes.
    - pose proof (Z.div_mod (n + 20) 256). lia.
    - split; [apply Z.div_pos; lia|apply Z.div_lt_upper_bound; lia].
    - apply Z.mod_pos_bound. lia. }
  assert (Eg : get 0 (Z.shiftl (ip_hlen p) 2) p = header proto ttl tos id saddr daddr (n + 20) c) by done.
  unfold ip_input. change (ip_ver p) with 4. cbn [negb Z.eqb Pos.eqb]. rewrite Et, Eg. change (Z.shiftl (ip_hlen p) 2) with 20.
  cbn [Z.ltb Z.compare Pos.compare Pos.compare_cont orb]. destruct (Z.ltb_spec flen 20); [lia|]. destruct (Z.ltb_spec flen (n + 20)); [lia|].
  change (Z.land (ip_off p) (NTOHS 32)) with 0. cbn [negb Z.eqb]. rewrite bool_decide_true by done. cbn [negb].
  assert (U : ip_for_us ifn p = true).
  { unfold ip_for_us. unfold p. rewrite header_daddr by done. destruct Hdst as [->| ->]; [by rewrite Z.eqb_refl|].
    rewrite Z.eqb_refl, orb_true_r. done. }
  rewrite U. cbn [negb]. by replace (n + 20 - 20) with n by lia.
Qed.

End Accept.

(** The header that [iph_template] and [mk_iphdr] make for [n] bytes is accepted
    by [ip_input] at the destination, which hands exactly those [n] bytes to the
    protocol, whatever they are. *)
Theorem ip_header_roundtrip {St} (icmp udp tcp : list Z -> Z -> Z -> St -> Z * St) raw ifn
    addr proto ttl tos p seq saddr daddr n addr' pl flen st
    (Hp : is_byte proto) (Ht : is_byte ttl) (Hs : is_byte tos) (Hl : (20 <= length p)%nat)
    (Hsa : 0 <= saddr < 2 ^ 32) (Hda : 0 <= daddr < 2 ^ 32) (Hn : 0 <= n) (Hn2 : n + 20 < 2 ^ 16) (Hf : n + 20 <= flen)
    (Hdst : daddr = if_ipv4_addr ifn \/ daddr = INADDR_BROADCAST) :
  exists h, mk_iphdr addr saddr daddr n (iph_template proto ttl tos p seq).1 = Some (h ++ drop 20 p) /\ length h = 20%nat /\
    ip_saddr (h ++ pl) = saddr /\ ip_daddr (h ++ pl) = daddr /\ ip_proto (h ++ pl) = proto /\
    ip_input icmp udp tcp raw ifn addr' (h ++ pl) flen st =
      (let '(ret, st) := ip_dispatch icmp udp tcp (h ++ pl) 20 n st in
       if ret <? 0 then raw (h ++ pl) (n + 20) st else (ret, st)).
Proof.
  change (2 ^ 32) with 4294967296 in *. change (2 ^ 16) with 65536 in *.
  assert (Hid : 0 <= u16 (seq + 1) < 65536) by (unfold u16; apply Z.mod_pos_bound; lia).
  rewrite mk_iphdr_bytes by done. eexists. split; [done|]. split; [done|].
  split; [by apply header_saddr|]. split; [by apply header_daddr|]. split; [done|].
  by apply ip_input_accepts.
Qed.

(** A protocol sees only datagrams that passed every check: they are for this
    host, their checksum is right, and the range handed on lies inside the frame. *)
Theorem ip_input_checked {St} (icmp udp tcp : list Z -> Z -> Z -> St -> Z * St) raw ifn addr p flen st :
  ip_input icmp udp tcp raw ifn addr p flen st = (-1, st) \/
  exists off n, 20 <= off <= flen /\ off + n <= flen /\ off + n = ntohs (ip_tot_len p) /\ ip_for_us ifn p = true /\
    in_chksum 0 addr (get 0 off p) = Some 0xffff /\
    ip_input icmp udp tcp raw ifn addr p flen st =
      (let '(ret, st) := ip_dispatch icmp udp tcp p off n st in if ret <? 0 then raw p (off + n) st else (ret, st)).
Proof.
  unfold ip_input. destruct (negb (ip_ver p =? 4)); [by left|]. cbn zeta.
  destruct (Z.ltb_spec (Z.shiftl (ip_hlen p) 2) 20); [by left|]. destruct (Z.ltb_spec flen (Z.shiftl (ip_hlen p) 2)); [by left|].
  cbn [orb]. destruct (Z.ltb_spec flen (ntohs (ip_tot_len p))); [by left|]. destruct (negb (_ =? 0)); [by left|].
  destruct (bool_decide_reflect (in_chksum 0 addr (get 0 (Z.shiftl (ip_hlen p) 2) p) = Some 0xffff)) as [C|]; [|by left]. cbn [negb].
  destruct (ip_for_us ifn p) eqn:U; [|by left]. cbn [negb]. right.
  exists (Z.shiftl (ip_hlen p) 2), (ntohs (ip_tot_len p) - Z.shiftl (ip_hlen p) 2).
  replace (Z.shiftl (ip_hlen p) 2 + (ntohs (ip_tot_len p) - Z.shiftl (ip_hlen p) 2)) with (ntohs (ip_tot_len p)) by lia.
  by split_and!.
Qed.

(** ** Concrete packets *)

Definition demo_ifn : ifnet := mk_ifnet 0x0201a8c0 0x00ffffff 1500.

(** The handlers record what they are given. *)
Definition log_proto (k : Z) (p : list Z) (off len : Z) (st : list (Z * Z * Z)) : Z * list (Z * Z * Z) := (0, st ++ [(k, off, len)]).
Definition log_raw (p : list Z) (len : Z) (st : list (Z * Z * Z)) : Z * list (Z * Z * Z) := (0, st).
Definition demo_input (p : list Z) : Z * list (Z * Z * Z) :=
  ip_input (log_proto 1) (log_proto 17) (log_proto 6) log_raw demo_ifn 0 p (len p) [].

Definition demo_header (n : Z) : list Z :=
  header 17 127 0 7 0x0101a8c0 0x0201a8c0 (n + 20) (65535 - ones (wsum (header 17 127 0 7 0x0101a8c0 0x0201a8c0 (n + 20) 0))).

Lemma ip_header_roundtrip_witness :
  exists h, mk_iphdr 0 0x0101a8c0 0x0201a8c0 8 (iph_template 17 127 0 (zeros 40) 6).1 = Some (h ++ drop 20 (zeros 40)) /\ length h = 20%nat /\
    ip_saddr (h ++ zeros 8) = 0x0101a8c0 /\ ip_daddr (h ++ zeros 8) = 0x0201a8c0 /\ ip_proto (h ++ zeros 8) = 17 /\
    ip_input (log_proto 1) (log_proto 17) (log_proto 6) log_raw demo_ifn 0 (h ++ zeros 8) 28 [] =
      (let '(ret, st) := ip_dispatch (log_proto 1) (log_proto 17) (log_proto 6) (h ++ zeros 8) 20 8 [] in
       if ret <? 0 then log_raw (h ++ zeros 8) 28 st else (ret, st)).
Proof.
  apply (ip_header_roundtrip (log_proto 1) (log_proto 17) (log_proto 6) log_raw demo_ifn 0 17 127 0 (zeros 40) 6 0x0101a8c0 0x0201a8c0 8);
    (unfold is_byte; lia) || (vm_compute; lia) || (by left).
Defined.

Example demo_input_run : demo_input (demo_header 8 ++ zeros 8) = (0, [(17, 20, 8)]).
Proof. by vm_compute. Qed.

(** The first fragment of a datagram, with the more-fragments flag on the wire
    ([0x2000] in network order), is delivered as if it were whole; a whole
    datagram's flags word tested by the code is the low byte of the offset. *)
Definition with_sum (h : list Z) : list Z := put 10 (st16 (65535 - ones (wsum h))) h.
Definition fragment (flags : list Z) : list Z := with_sum (put 10 [0; 0] (put 6 flags (demo_header 8))) ++ zeros 8.

Theorem ip_fragment_delivered :
  demo_input (fragment [0x20; 0x00]) = (0, [(17, 20, 8)]) /\ demo_input (fragment [0x00; 0x20]) = (-1, []).
Proof. by vm_compute. Qed.

(** A total length below the header's gives the protocol a negative length. *)
Theorem ip_negative_length : demo_input (demo_header (-16) ++ zeros 8) = (0, [(17, 20, -16)]).
Proof. by vm_compute. Qed.
