(* ===== verification/Udp.v ===== *)
(** * UDP

    src/sdk/libtcpip/udp and the lookup of src/sdk/libtcpip/pcb: the protocol
    control blocks, the lookup of the one a datagram is for, and the ring of four
    datagrams of a block, each kept in a list of network buffers (Mbuf.v), between
    [udp_input] (called by [ip_input] of Ip.v) and [udp_recv].

    Modelled with [ENABLE_NET_UDP_CHECKSUM] 0, as in all the configurations.  A
    block is denoted by its position in the list of active blocks.  The operations
    run under the network mutex, so one at a time; [us_net_locked] says whether it
    has been left taken.  The condition variable of a block and the ICMP packet that
    answers a datagram for a closed port are not modelled, only that it is sent. *)

From stdpp Require Import base tactics numbers list gmap.
From Stdlib Require Import ZArith Lia.
From S2P Require Import Prelude Buffer Chksum Ip Mbuf.

Abbreviation NET_UDP_RECV_QUEUE_LEN := 4 (only parsing).
Abbreviation ENOTCONN := 107 (only parsing).
Abbreviation ECONNREFUSED := 111 (only parsing).
Abbreviation EADDRINUSE := 98 (only parsing).
Abbreviation EADDRNOTAVAIL := 99 (only parsing).
Abbreviation ICMP_DEST_UNREACH := 3 (only parsing).
Abbreviation ICMP_PORT_UNREACH := 3 (only parsing).

(** ** Data *)

Record udp_dgram := mk_dgram { d_addr : Z; d_port : Z; d_len : Z; d_q : ptr }.

Record udp_pcb := mk_pcb {
  u_faddr : Z; u_laddr : Z; u_fport : Z; u_lport : Z;
  u_icmp_err : bool; u_rcv_tail : Z; u_rcv_head : Z; u_rcv_buf : list udp_dgram
}.

Record udp_system := mk_udp {
  us_free : list udp_pcb; us_active : list udp_pcb; us_net_locked : bool;
  us_mbufs : mbuf_sys; us_icmp : list (Z * Z)
}.

Definition us_set_active (v : list udp_pcb) (s : udp_system) : udp_system :=
  mk_udp (us_free s) v (us_net_locked s) (us_mbufs s) (us_icmp s).
Definition us_set_free (v : list udp_pcb) (s : udp_system) : udp_system :=
  mk_udp v (us_active s) (us_net_locked s) (us_mbufs s) (us_icmp s).
Definition us_set_mbufs (v : mbuf_sys) (s : udp_system) : udp_system :=
  mk_udp (us_free s) (us_active s) (us_net_locked s) v (us_icmp s).
Definition us_set_lock (v : bool) (s : udp_system) : udp_system :=
  mk_udp (us_free s) (us_active s) v (us_mbufs s) (us_icmp s).

Definition tcpip_net_lock : udp_system -> udp_system := us_set_lock true.
Definition tcpip_net_unlock : udp_system -> udp_system := us_set_lock false.
Definition icmp_error (type code : Z) (s : udp_system) : udp_system :=
  mk_udp (us_free s) (us_active s) (us_net_locked s) (us_mbufs s) (us_icmp s ++ [(type, code)]).

Definition u_set_faddr (a p : Z) (u : udp_pcb) : udp_pcb :=
  mk_pcb a (u_laddr u) p (u_lport u) (u_icmp_err u) (u_rcv_tail u) (u_rcv_head u) (u_rcv_buf u).
Definition u_set_laddr (a p : Z) (u : udp_pcb) : udp_pcb :=
  mk_pcb (u_faddr u) a (u_fport u) p (u_icmp_err u) (u_rcv_tail u) (u_rcv_head u) (u_rcv_buf u).
Definition u_set_err (v : bool) (u : udp_pcb) : udp_pcb :=
  mk_pcb (u_faddr u) (u_laddr u) (u_fport u) (u_lport u) v (u_rcv_tail u) (u_rcv_head u) (u_rcv_buf u).
Definition u_set_head (v : Z) (u : udp_pcb) : udp_pcb :=
  mk_pcb (u_faddr u) (u_laddr u) (u_fport u) (u_lport u) (u_icmp_err u) (u_rcv_tail u) v (u_rcv_buf u).
Definition u_set_tail (v : Z) (u : udp_pcb) : udp_pcb :=
  mk_pcb (u_faddr u) (u_laddr u) (u_fport u) (u_lport u) (u_icmp_err u) v (u_rcv_head u) (u_rcv_buf u).
Definition u_set_buf (v : list udp_dgram) (u : udp_pcb) : udp_pcb :=
  mk_pcb (u_faddr u) (u_laddr u) (u_fport u) (u_lport u) (u_icmp_err u) (u_rcv_tail u) (u_rcv_head u) v.

Definition no_dgram : udp_dgram := mk_dgram 0 0 0 PNull.

#[global] Instance udp_dgram_inhabited : Inhabited udp_dgram := populate no_dgram.

Definition no_pcb : udp_pcb := mk_pcb 0 0 0 0 false 0 0 (replicate 4 no_dgram).

(** ** Lookup *)

(** The loop of [pcb_wildlookup] from the block at position [i]. *)
Fixpoint wild_loop (faddr fport laddr lport : Z) (l : list udp_pcb) (i : nat) (mtch : option nat) (matchwild wildcard : Z) : option nat :=
  match l with
  | [] => mtch
  | u :: l =>
      let continue := wild_loop faddr fport laddr lport l (S i) in
      if negb (u_lport u =? lport) then continue mtch matchwild wildcard
      else if negb (u_laddr u =? INADDR_ANY) && negb (laddr =? INADDR_ANY) && negb (u_laddr u =? laddr) then continue mtch matchwild wildcard
      else
        let wildcard :=
          if negb (u_laddr u =? INADDR_ANY) then (if laddr =? INADDR_ANY then wildcard + 1 else wildcard)
          else (if negb (laddr =? INADDR_ANY) then wildcard + 1 else wildcard) in
        if negb (u_faddr u =? INADDR_ANY) && negb (faddr =? INADDR_ANY) && (negb (u_faddr u =? faddr) || negb (u_fport u =? fport)) then
          continue mtch matchwild wildcard
        else
          let wildcard :=
            if negb (u_faddr u =? INADDR_ANY) then (if faddr =? INADDR_ANY then wildcard + 1 else wildcard)
            else (if negb (faddr =? INADDR_ANY) then wildcard + 1 else wildcard) in
          if wildcard <? matchwild then
            if wildcard =? 0 then Some i else continue (Some i) wildcard wildcard
          else continue mtch matchwild wildcard
  end.

Definition pcb_wildlookup (faddr fport laddr lport : Z) (l : list udp_pcb) : option nat :=
  wild_loop faddr fport laddr lport l 0 None 3 0.

Fixpoint lookup_loop (faddr fport laddr lport : Z) (l : list udp_pcb) (i : nat) : option nat :=
  match l with
  | [] => None
  | u :: l =>
      if (u_lport u =? lport) && (u_laddr u =? laddr) && (u_faddr u =? faddr) && (u_fport u =? fport) then Some i
      else lookup_loop faddr fport laddr lport l (S i)
  end.

Definition pcb_lookup (faddr fport laddr lport : Z) (l : list udp_pcb) : option nat := lookup_loop faddr fport laddr lport l 0.

(** ** Blocks *)

Definition udp_alloc (s : udp_system) : option nat * udp_system :=
  let s := tcpip_net_lock s in
  match us_free s with
  | [] => (None, s)
  | _ :: free =>
      let s := us_set_free free s in
      let s := us_set_active (us_active s ++ [no_pcb]) s in
      (Some (length (us_active s) - 1)%nat, tcpip_net_unlock s)
  end.

Definition upd_pcb (k : nat) (f : udp_pcb -> udp_pcb) (s : udp_system) : udp_system := us_set_active (alter f k (us_active s)) s.

Definition udp_bind (k : nat) (addr port : Z) (s : udp_system) : Z * udp_system :=
  (0, tcpip_net_unlock (upd_pcb k (u_set_laddr addr port) (tcpip_net_lock s))).

Definition udp_connect (k : nat) (addr port : Z) (s : udp_system) : Z * udp_system :=
  if (port =? 0) && negb (addr =? INADDR_ANY) then (- EADDRNOTAVAIL, s)
  else
    let s := tcpip_net_lock s in
    if (addr =? INADDR_ANY) && (port =? 0) then (0, tcpip_net_unlock (upd_pcb k (u_set_faddr addr port) s))
    else
      let u := default no_pcb (us_active s !! k) in
      match pcb_lookup addr port (u_laddr u) (u_lport u) (us_active s) with
      | Some _ => (- EADDRINUSE, tcpip_net_unlock s)
      | None => (0, tcpip_net_unlock (upd_pcb k (u_set_faddr addr port) s))
      end.

Definition udp_port_unreach (faddr fport laddr lport : Z) (s : udp_system) : Z * udp_system :=
  match pcb_wildlookup faddr fport laddr lport (us_active s) with
  | None => (-1, s)
  | Some k => (0, upd_pcb k (fun u => u_set_faddr INADDR_ANY 0 (u_set_err true u)) s)
  end.

(** The block returns to the free list as it is. *)
Definition udp_release (k : nat) (s : udp_system) : Z * udp_system :=
  match us_active s !! k with
  | None => (-1, s)
  | Some u =>
      let s := us_set_active (delete k (us_active s)) s in
      (0, us_set_free (us_free s ++ [u]) s)
  end.

Definition udp_close (k : nat) (s : udp_system) : Z * udp_system :=
  let '(ret, s) := udp_release k (tcpip_net_lock s) in
  ((if ret <? 0 then -1 else ret), tcpip_net_unlock s).

(** ** Datagrams *)

(** The block [u] is given the payload: the end of [udp_input].  [None] does not
    occur (the fuel of the list operations). *)
Definition udp_enqueue (addr port : Z) (payload : list Z) (len : Z) (u : udp_pcb) (m : mbuf_sys) : option (udp_pcb * mbuf_sys) :=
  let tail := u_rcv_tail u in
  let cnt := Z.land (tail - u_rcv_head u) 0xff in
  if NET_UDP_RECV_QUEUE_LEN <=? cnt then Some (u, m)
  else
    let k := Z.to_nat (tail mod NET_UDP_RECV_QUEUE_LEN) in
    let '(q, m) := mbuf_list_alloc len m in
    if decide (q <> PNull) then
      match mbuf_list_write q payload m with
      | None => None
      | Some (n, m) =>
          let u := u_set_buf (<[k := mk_dgram addr port (u16 n) q]> (u_rcv_buf u)) u in
          Some (u_set_tail (u8 (tail + 1)) u, m)
      end
    else
      let d := u_rcv_buf u !!! k in
      Some (u_set_buf (<[k := mk_dgram (d_addr d) (d_port d) (d_len d) PNull]> (u_rcv_buf u)) u, m).

(** [p] is the packet and [off] where the UDP header is. *)
Definition udp_input (p : list Z) (off __len : Z) (s : udp_system) : Z * udp_system :=
  let len := ntohs (ld16 p (off + 4)) in
  if __len <? len then (-1, s)
  else
    let sport := ld16 p off in
    let dport := ld16 p (off + 2) in
    match pcb_wildlookup (ip_saddr p) sport (ip_daddr p) dport (us_active s) with
    | None => (-1, icmp_error ICMP_DEST_UNREACH ICMP_PORT_UNREACH s)
    | Some k =>
        let len := len - 8 in
        match udp_enqueue (ip_saddr p) sport (get (off + 8) len p) len (default no_pcb (us_active s !! k)) (us_mbufs s) with
        | None => (0, s)
        | Some (u, m) => (0, upd_pcb k (fun _ => u) (us_set_mbufs m s))
        end
    end.

(** The caller waits, the mutex released, or has an error, or bytes and the address and port they came
    from. *)
Inductive recv_result := RecvWait | RecvErr (e : Z) | Recv (n : Z) (bs : list Z) (addr port : Z).

(** A datagram is taken out of the ring. *)
Definition udp_dequeue (__len : Z) (u : udp_pcb) (m : mbuf_sys) : option (recv_result * udp_pcb * mbuf_sys) :=
  let head := u_rcv_head u in
  let d := u_rcv_buf u !!! Z.to_nat (head mod NET_UDP_RECV_QUEUE_LEN) in
  let u := u_set_head (u8 (head + 1)) u in
  let n := Z.min (d_len d) __len in
  match mbuf_list_read (d_q d) n m with
  | None => None
  | Some (n, bs) =>
      match mbuf_list_free (d_q d) m with
      | None => None
      | Some m => Some (Recv n bs (d_addr d) (d_port d), u, m)
      end
  end.

Definition udp_recv (k : nat) (__len : Z) (s : udp_system) : option (recv_result * udp_system) :=
  let s := tcpip_net_lock s in
  let u := default no_pcb (us_active s !! k) in
  if u_lport u =? 0 then Some (RecvErr (- ENOTCONN), tcpip_net_unlock s)
  else if u_icmp_err u then Some (RecvErr (- ECONNREFUSED), tcpip_net_unlock (upd_pcb k (u_set_err false) s))
  else if u_rcv_head u =? u_rcv_tail u then Some (RecvWait, tcpip_net_unlock s)
  else
    match udp_dequeue __len u (us_mbufs s) with
    | None => None
    | Some (r, u, m) => Some (r, tcpip_net_unlock (upd_pcb k (fun _ => u) (us_set_mbufs m s)))
    end.

(** ** Lookup *)

(** A block may receive what is sent from one address to another. *)
Definition accepts (faddr fport laddr lport : Z) (u : udp_pcb) : bool :=
  (u_lport u =? lport) && ((u_laddr u =? INADDR_ANY) || (laddr =? INADDR_ANY) || (u_laddr u =? laddr)) &&
  ((u_faddr u =? INADDR_ANY) || (faddr =? INADDR_ANY) || ((u_faddr u =? faddr) && (u_fport u =? fport))).

(** How many of the two addresses are left open by only one side. *)
Definition wildness (faddr laddr : Z) (u : udp_pcb) : Z :=
  (if Bool.eqb (u_laddr u =? INADDR_ANY) (laddr =? INADDR_ANY) then 0 else 1) +
  (if Bool.eqb (u_faddr u =? INADDR_ANY) (faddr =? INADDR_ANY) then 0 else 1).

Section Wild.

Variables faddr fport laddr lport : Z.

Notation accepts := (accepts faddr fport laddr lport).
Notation loop := (wild_loop faddr fport laddr lport).

(** One round of the loop; the count grows by at most the block's own. *)
Lemma wild_round u l i m mw w :
  exists w', w <= w' <= w + 2 /\ (u_lport u <> lport -> w' = w) /\
    loop (u :: l) i m mw w =
      (if accepts u && (w + wildness faddr laddr u <? mw) then
         if w + wildness faddr laddr u =? 0 then Some i else loop l (S i) (Some i) (w + wildness faddr laddr u) (w + wildness faddr laddr u)
       else loop l (S i) m mw w').
Proof.
  unfold Udp.accepts, wildness. cbn [wild_loop].
  destruct (u_lport u =? lport) eqn:EL; cbn [negb andb].
  2: { exists w. split; [lia|]. done. }
  apply Z.eqb_eq in EL.
  destruct (u_laddr u =? 0) eqn:E1, (laddr =? 0) eqn:E2, (u_laddr u =? laddr) eqn:E3,
    (u_faddr u =? 0) eqn:E4, (faddr =? 0) eqn:E5, (u_faddr u =? faddr) eqn:E6, (u_fport u =? fport) eqn:E7;
    cbn [negb andb orb Bool.eqb]; rewrite ?Z.add_assoc, ?Z.add_0_r;
    (eexists; split; [|split; [|reflexivity]]; [lia|done]).
Qed.

Lemma wild_sound l : forall i m mw w k,
  loop l i m mw w = Some k -> m = Some k \/ exists j u, k = (i + j)%nat /\ l !! j = Some u /\ accepts u = true.
Proof.
  induction l as [|u l IH]; intros i m mw w k H; [by left|]. destruct (wild_round u l i m mw w) as (w' & _ & _ & E). rewrite E in H. clear E.
  destruct (accepts u) eqn:A; cbn [andb] in H.
  - destruct (_ <? mw); [destruct (_ =? 0)|].
    + right. exists 0%nat, u. inversion H; subst. by rewrite Nat.add_0_r.
    + right. apply IH in H as [H|(j & v & -> & Hj & Hv)]; [exists 0%nat, u; inversion H; subst; by rewrite Nat.add_0_r|].
      exists (S j), v. by rewrite Nat.add_succ_r.
    + apply IH in H as [H|(j & v & -> & Hj & Hv)]; [by left|right]. exists (S j), v. by rewrite Nat.add_succ_r.
  - apply IH in H as [H|(j & v & -> & Hj & Hv)]; [by left|right]. exists (S j), v. by rewrite Nat.add_succ_r.
Qed.

Lemma wild_kept l : forall i k mw w, exists k', loop l i (Some k) mw w = Some k'.
Proof.
  induction l as [|u l IH]; intros i k mw w; [by exists k|]. destruct (wild_round u l i (Some k) mw w) as (w' & _ & _ & ->).
  destruct (_ && _); [destruct (_ =? 0); [by eexists|]|]; apply IH.
Qed.

Lemma wildness_range u : 0 <= wildness faddr laddr u <= 2.
Proof. unfold wildness. destruct (Bool.eqb _ _), (Bool.eqb _ _); lia. Qed.

Lemma wild_found l : forall i j u,
  l !! j = Some u -> accepts u = true -> (forall i' v, (i' < j)%nat -> l !! i' = Some v -> u_lport v <> lport) ->
  exists k, loop l i None 3 0 = Some k.
Proof.
  induction l as [|v l IH]; intros i j u Hj A B; [done|]. destruct (wild_round v l i None 3 0) as (w' & _ & Hw & ->). destruct j as [|j].
  - inversion Hj; subst. rewrite A. pose proof (wildness_range u). cbn [andb]. destruct (Z.ltb_spec (0 + wildness faddr laddr u) 3); [|lia].
    destruct (_ =? 0); [by eexists|]. apply wild_kept.
  - pose proof (B 0%nat v ltac:(lia) eq_refl) as Hv. rewrite (Hw Hv).
    assert (Av : accepts v = false) by (unfold Udp.accepts; destruct (Z.eqb_spec (u_lport v) lport); [done|done]). rewrite Av. cbn [andb].
    apply (IH _ j u); [done|done|]. intros i' v' Hi Hv'. by apply (B (S i') v'); [lia|].
Qed.

End Wild.

(** A datagram is given only to a block that may receive it, and to one if the
    first block of its port may. *)
Theorem pcb_wildlookup_sound faddr fport laddr lport l :
  (forall k, pcb_wildlookup faddr fport laddr lport l = Some k -> exists u, l !! k = Some u /\ accepts faddr fport laddr lport u = true) /\
  (forall j u, l !! j = Some u -> accepts faddr fport laddr lport u = true ->
     (forall i v, (i < j)%nat -> l !! i = Some v -> u_lport v <> lport) -> exists k, pcb_wildlookup faddr fport laddr lport l = Some k).
Proof.
  unfold pcb_wildlookup. split.
  - intros k H. apply wild_sound in H as [H|(j & u & -> & Hj & A)]; [done|]. by exists u.
  - intros j u Hj A B. by apply (wild_found faddr fport laddr lport l 0 j u).
Qed.

(** ** Blocks that are not found *)

Definition listener (port : Z) : udp_pcb := u_set_laddr INADDR_ANY port no_pcb.
Definition connected (port faddr fport : Z) : udp_pcb := u_set_faddr faddr fport (listener port).
Definition at_addr (laddr port faddr fport : Z) : udp_pcb := u_set_faddr faddr fport (u_set_laddr laddr port no_pcb).

(** The count of open addresses is not reset from one block to the next: behind a
    block of the same port that is connected to another host a listener is not
    found, although it accepts the datagram, *)
Theorem wildlookup_hides_listener :
  accepts 0x0301a8c0 9 0x0201a8c0 7 (listener 7) = true /\
  pcb_wildlookup 0x0301a8c0 9 0x0201a8c0 7 [connected 7 0x0101a8c0 9; listener 7] = None /\
  pcb_wildlookup 0x0301a8c0 9 0x0201a8c0 7 [listener 7; connected 7 0x0101a8c0 9] = Some 0%nat.
Proof. by vm_compute. Qed.

(** and behind a listener the block that matches all addresses is not chosen. *)
Theorem wildlookup_prefers_listener :
  wildness 0x0301a8c0 0x0201a8c0 (at_addr 0x0201a8c0 7 0x0301a8c0 9) = 0 /\
  pcb_wildlookup 0x0301a8c0 9 0x0201a8c0 7 [listener 7; at_addr 0x0201a8c0 7 0x0301a8c0 9] = Some 0%nat.
Proof. by vm_compute. Qed.

(** ** The ring of a block *)

(** A datagram in the ring: where it came from, its bytes and the buffers that hold
    them. *)
Record gram := mk_gram { g_addr : Z; g_port : Z; g_bytes : list Z; g_chain : list Z }.

Record dg_ok (m : mbuf_sys) (d : udp_dgram) (g : gram) : Prop := {
  dg_addr : d_addr d = g_addr g;
  dg_port : d_port d = g_port g;
  dg_len : d_len d = len (g_bytes g);
  dg_chain : seg m (d_q d) (g_chain g) PNull;
  dg_bytes : exists post, raw m (g_chain g) = g_bytes g ++ post
}.

Definition chains (gs : list gram) : list Z := concat (g_chain <$> gs).
Definition slot (x : Z) : nat := Z.to_nat (x mod NET_UDP_RECV_QUEUE_LEN).

(** The block holds the datagrams [gs], the oldest first; [fl] are the free buffers. *)
Record rcv_ok (m : mbuf_sys) (u : udp_pcb) (fl : list Z) (gs : list gram) : Prop := {
  ro_pool : pool_ok m fl;
  ro_lock : mb_locked m = false;
  ro_nodup : NoDup (fl ++ chains gs);
  ro_range : Forall buffer (chains gs);
  ro_size : length (u_rcv_buf u) = 4%nat;
  ro_head : 0 <= u_rcv_head u < 256;
  ro_tail : u_rcv_tail u = u8 (u_rcv_head u + Z.of_nat (length gs));
  ro_count : (length gs <= 4)%nat;
  ro_slots : forall j g, gs !! j = Some g -> exists d, u_rcv_buf u !! slot (u_rcv_head u + Z.of_nat j) = Some d /\ dg_ok m d g
}.

Lemma slot_u8 x : slot (u8 x) = slot x.
Proof.
  unfold slot, u8. f_equal. change 256 with (4 * 64). rewrite Z.rem_mul_r by lia. rewrite Z.mul_comm, Z.mod_add by lia.
  apply Z.mod_mod. lia.
Qed.

Lemma slot_lt x : (slot x < 4)%nat.
Proof. unfold slot. pose proof (Z.mod_pos_bound x 4). lia. Qed.

Lemma slot_ne h i j : 0 <= i < j -> j - i < 4 -> slot (h + i) <> slot (h + j).
Proof.
  intros H1 H2 E. unfold slot in E. pose proof (Z.mod_pos_bound (h + i) 4). pose proof (Z.mod_pos_bound (h + j) 4).
  assert (E' : (h + i) mod 4 = (h + j) mod 4) by lia. pose proof (Z.div_mod (h + i) 4). pose proof (Z.div_mod (h + j) 4). lia.
Qed.

(** The datagrams whose buffers are untouched remain. *)
Lemma dg_frame m m' d g :
  (forall j, j ∈ g_chain g -> mb_next m' !! j = mb_next m !! j /\ mb_data m' !! j = mb_data m !! j) -> dg_ok m d g -> dg_ok m' d g.
Proof.
  intros F [A P L C (post & B)]. constructor; try done.
  - apply (seg_frame m); [|done]. intros j Hj. by apply F.
  - exists post. rewrite <- B. apply raw_frame. intros j Hj. by apply F.
Qed.

Lemma chains_elem gs j g i : gs !! j = Some g -> i ∈ g_chain g -> i ∈ chains gs.
Proof.
  intros H Hi. unfold chains. apply list_elem_of_In, in_concat. exists (g_chain g). split; [|by apply list_elem_of_In].
  apply list_elem_of_In, list_elem_of_fmap. exists g. split; [done|]. by apply list_elem_of_lookup_2 with j.
Qed.

Lemma chains_app gs1 gs2 : chains (gs1 ++ gs2) = chains gs1 ++ chains gs2.
Proof. unfold chains. by rewrite fmap_app, concat_app. Qed.

Lemma ring_count h n : 0 <= h < 256 -> (n <= 4)%nat -> Z.land (u8 (h + Z.of_nat n) - h) 0xff = Z.of_nat n.
Proof.
  intros Hh Hn. change 0xff with (Z.ones 8). rewrite Z.land_ones by lia. change (2 ^ 8) with 256. unfold u8.
  rewrite Zminus_mod_idemp_l. replace (h + Z.of_nat n - h) with (Z.of_nat n) by lia. apply Z.mod_small. lia.
Qed.

(** The datagram goes to the end of the ring when there is a slot and there are
    buffers for it. *)
Lemma enqueue_spec m u fl gs addr port pl :
  rcv_ok m u fl gs -> (length gs < 4)%nat -> 0 < len pl < 65536 -> blocks (len pl) <= len fl ->
  exists u' m' fl' c, udp_enqueue addr port pl (len pl) u m = Some (u', m') /\ rcv_ok m' u' fl' (gs ++ [mk_gram addr port pl c]) /\
    fl' ++ c ≡ₚ fl /\ frame fl m m'.
Proof.
  intros [P Lk N R Sz Hh Ht Hc Sl] Hg Hp Hb. unfold udp_enqueue. cbn zeta. rewrite Ht, ring_count by done.
  destruct (Z.leb_spec 4 (Z.of_nat (length gs))); [lia|].
  destruct (mbuf_list_alloc_takes m fl (len pl) P) as (q & m1 & -> & C1 & P1 & L1 & D1 & F1); [lia|done|].
  set (k := Z.to_nat (blocks (len pl))) in *. assert (Hk : blocks (len pl) = Z.of_nat k).
  { unfold k. assert (0 < blocks (len pl)) by (unfold blocks; apply Z.div_str_pos; lia). lia. }
  assert (Hk2 : (0 < k <= length fl)%nat). { assert (0 < blocks (len pl)) by (unfold blocks; apply Z.div_str_pos; lia). assert (len fl = Z.of_nat (length fl)) by done. lia. }
  assert (Hcap : len pl <= 124 * len (take k fl)).
  { unfold len at 2. rewrite length_take, Nat.min_l by lia. unfold blocks in Hk.
    pose proof (Z.div_mod (len pl + (124 - 1)) 124). pose proof (Z.mod_pos_bound (len pl + (124 - 1)) 124). lia. }
  clearbody k. assert (Hq : q <> PNull).
  { destruct (take k fl) as [|i c] eqn:Et; [apply (f_equal length) in Et; rewrite length_take in Et; cbn in Et; lia|].
    destruct C1 as [-> _]. done. }
  rewrite decide_True by done.
  apply NoDup_app in N as (Nf & Nd & Nc). pose proof Nf as Nf'. rewrite <- (take_drop k fl) in Nf'. apply NoDup_app in Nf' as (N1 & N2 & N3).
  assert (Rt : Forall buffer (take k fl)) by (apply Forall_take; by destruct P).
  pose proof (buffers_bound _ N1 Rt) as B64. unfold mbuf_list_write.
  destruct (list_write_spec 65 pl q (take k fl) m1 (drop k fl)) as (m2 & -> & Er & En & P2 & L2 & D2); try (done || lia).
  change (len []) with 0. rewrite Z.sub_0_r, u16_small by lia.
  assert (Hfr : frame fl m m2).
  { intros j Hj. split; [rewrite En; by apply F1|]. rewrite D2, D1; [done|]. intros Hj'. apply Hj. rewrite <- (take_drop k fl). set_solver. }
  eexists _, _, (drop k fl), (take k fl). split; [done|]. split; [|split; [|done]].
  2: { rewrite Permutation_app_comm. by rewrite take_drop. }
  set (g := mk_gram addr port pl (take k fl)).
  assert (Ec : chains (gs ++ [g]) = chains gs ++ take k fl) by (rewrite chains_app; unfold chains at 2; cbn; by rewrite app_nil_r).
  change (Z.to_nat (u8 (u_rcv_head u + Z.of_nat (length gs)) mod 4)) with (slot (u8 (u_rcv_head u + Z.of_nat (length gs)))). rewrite slot_u8.
  constructor; rewrite ?Ec; try done; cbn [u_set_tail u_set_buf u_rcv_buf u_rcv_head u_rcv_tail].
  - by rewrite L2.
  - apply NoDup_app. split_and!; [done| |].
    + intros x Hx Hx'. apply elem_of_app in Hx' as [Hx'|Hx']; [|by apply (N2 x)].
      apply (Nd x); [|done]. rewrite <- (take_drop k fl). set_solver.
    + apply NoDup_app. split_and!; [done| |done]. intros x Hx Hx'. apply (Nd x); [|done]. rewrite <- (take_drop k fl). set_solver.
  - by apply Forall_app.
  - by rewrite length_insert.
  - rewrite length_app. cbn [length]. unfold u8. rewrite Zplus_mod_idemp_l. f_equal. lia.
  - rewrite length_app. cbn [length]. lia.
  - intros j g' Hj. apply lookup_app_Some in Hj as [Hj|[Hlen Hj]].
    + pose proof (lookup_lt_Some _ _ _ Hj). destruct (Sl j g' Hj) as (d & Hd & Ok). exists d. split.
      * rewrite list_lookup_insert_ne; [done|]. apply not_eq_sym, slot_ne; lia.
      * apply (dg_frame m); [|done]. intros i Hi. apply Hfr. intros Hf. apply (Nd i Hf). by apply (chains_elem gs j g').
    + apply list_lookup_singleton_Some in Hj as [Hj <-]. assert (j = length gs) as -> by lia. eexists. split.
      * apply list_lookup_insert_eq. rewrite Sz. apply slot_lt.
      * constructor; try done; [apply (seg_frame m1); [by rewrite En|done]|]. by eexists.
Qed.

(** The oldest datagram is taken out, as much of it as is asked for, and its
    buffers return to the pool. *)
Lemma dequeue_spec m u fl g gs n :
  rcv_ok m u fl (g :: gs) -> 0 <= n ->
  let k := Z.min (len (g_bytes g)) n in
  exists u' m', udp_dequeue n u m = Some (Recv k (take (Z.to_nat k) (g_bytes g)) (g_addr g) (g_port g), u', m') /\
    rcv_ok m' u' (fl ++ g_chain g) gs /\ frame (fl ++ g_chain g) m m'.
Proof.
  intros [P Lk N R Sz Hh Ht Hc Sl] Hn k. unfold udp_dequeue. cbn zeta.
  destruct (Sl 0%nat g eq_refl) as (d & Hd & [Da Dp Dl Dc (post & Db)]). rewrite Z.add_0_r in Hd.
  change (Z.to_nat (u_rcv_head u mod 4)) with (slot (u_rcv_head u)). rewrite (list_lookup_total_correct _ _ _ Hd), Dl. fold k.
  assert (Ec : chains (g :: gs) = g_chain g ++ chains gs) by done. rewrite Ec in *.
  apply NoDup_app in N as (Nf & Nd & Ncc). pose proof Ncc as Ncc'. apply NoDup_app in Ncc' as (Nc & Ncd & Ns).
  apply Forall_app in R as [Rc Rs]. pose proof (buffers_bound _ Nc Rc) as B64.
  pose proof (length_raw _ _ _ P Rc) as Hl. rewrite Db, length_app in Hl.
  unfold mbuf_list_read. rewrite (list_read_spec m fl 65 k _ (g_chain g)) by (done || lia || (unfold k, len; lia)).
  rewrite Z.sub_0_r. assert (Et : take (Z.to_nat k) (raw m (g_chain g)) = take (Z.to_nat k) (g_bytes g)).
  { rewrite Db, take_app_le; [done|]. unfold k, len. lia. }
  rewrite Et. unfold mbuf_list_free.
  destruct (release_all_spec 65 (d_q d) (g_chain g) (thinkos_mutex_lock m) fl) as (m1 & -> & P1 & _ & D1 & F1); try (done || lia).
  { by apply pool_lock. }
  { by apply (seg_frame m). }
  { apply NoDup_app. split_and!; [done| |done]. intros x Hx Hx'. apply (Nd x Hx). set_solver. }
  rewrite Da, Dp. eexists _, _. split; [done|]. split; [|done]. clear Et.
  constructor; try done; cbn [u_set_head u_rcv_buf u_rcv_head u_rcv_tail].
  - by apply pool_lock.
  - rewrite <- app_assoc. apply NoDup_app. by split_and!.
  - apply u8_range.
  - rewrite Ht. unfold u8. rewrite Zplus_mod_idemp_l. f_equal. cbn [length]. lia.
  - cbn [length] in Hc. lia.
  - intros j g' Hj. destruct (Sl (S j) g' Hj) as (d' & Hd' & Ok'). exists d'. split.
    + assert (Es : slot (u8 (u_rcv_head u + 1) + Z.of_nat j) = slot (u_rcv_head u + Z.of_nat (S j))).
      { rewrite <- (slot_u8 (_ + Z.of_nat j)), <- (slot_u8 (_ + Z.of_nat (S j))). f_equal. unfold u8. rewrite Zplus_mod_idemp_l. f_equal. lia. }
      by rewrite Es.
    + apply (dg_frame m); [|done]. intros i Hi. pose proof (chains_elem _ _ _ _ Hj Hi) as Hi'. apply F1. intros [Hf|Hf]%elem_of_app.
      * apply (Nd i Hf). set_solver.
      * by apply (Ncd i).
Qed.

(** ** Sockets *)

(** The block [k] of the system holds the datagrams [gs]. *)
Definition sock_ok (s : udp_system) (k : nat) (fl : list Z) (gs : list gram) : Prop :=
  exists u, us_active s !! k = Some u /\ rcv_ok (us_mbufs s) u fl gs.

Lemma sock_set s k m u u0 : us_active s !! k = Some u0 -> us_active (upd_pcb k (fun _ => u) (us_set_mbufs m s)) !! k = Some u.
Proof. intros H. cbn [upd_pcb us_set_active us_set_mbufs us_active]. by rewrite list_lookup_alter_eq, H. Qed.

(** A datagram that arrives for a block is put behind the ones it holds: when its
    length fits the packet, it carries something, there is a slot and there are
    buffers. *)
Lemma udp_input_queues s k fl gs p off n
    (S : sock_ok s k fl gs)
    (Lk : pcb_wildlookup (ip_saddr p) (ld16 p off) (ip_daddr p) (ld16 p (off + 2)) (us_active s) = Some k)
    (Hl : ntohs (ld16 p (off + 4)) <= n) (H8 : 8 < ntohs (ld16 p (off + 4)) < 65536) (Ho : 0 <= off)
    (Hp : off + ntohs (ld16 p (off + 4)) <= len p)
    (Hg : (length gs < 4)%nat) (Hb : blocks (ntohs (ld16 p (off + 4)) - 8) <= len fl) :
  exists s' fl' c, udp_input p off n s = (0, s') /\
    sock_ok s' k fl' (gs ++ [mk_gram (ip_saddr p) (ld16 p off) (get (off + 8) (ntohs (ld16 p (off + 4)) - 8) p) c]) /\ fl' ++ c ≡ₚ fl.
Proof.
  destruct S as (u & Hu & R). set (l := ntohs (ld16 p (off + 4))) in *. unfold udp_input. fold l. cbn zeta.
  destruct (Z.ltb_spec n l); [lia|]. rewrite Lk, Hu. change (default no_pcb (Some u)) with u.
  assert (El : len (get (off + 8) (l - 8) p) = l - 8).
  { unfold len, get. rewrite length_take, length_drop. unfold len in Hp. lia. }
  destruct (enqueue_spec _ _ _ _ (ip_saddr p) (ld16 p off) (get (off + 8) (l - 8) p) R) as (u' & m' & fl' & c & E & R' & Pm & _).
  { done. } { rewrite El. lia. } { by rewrite El. }
  rewrite El in E. rewrite E. exists (upd_pcb k (fun _ => u') (us_set_mbufs m' s)), fl', c.
  split; [done|]. split; [|done]. exists u'. split; [by apply (sock_set _ _ _ _ u)|done].
Qed.

(** [udp_recv] returns the oldest datagram, cut to the length of the caller's
    buffer, with its sender; its buffers return to the pool. *)
Theorem udp_recv_oldest s k fl g gs n u
    (Hu : us_active s !! k = Some u) (Hb : u_lport u <> 0) (He : u_icmp_err u = false)
    (R : rcv_ok (us_mbufs s) u fl (g :: gs)) (Hn : 0 <= n) :
  let c := Z.min (len (g_bytes g)) n in
  exists s', udp_recv k n s = Some (Recv c (take (Z.to_nat c) (g_bytes g)) (g_addr g) (g_port g), s') /\
    sock_ok s' k (fl ++ g_chain g) gs /\ us_net_locked s' = false.
Proof.
  intros c. unfold udp_recv. change (us_active (tcpip_net_lock s)) with (us_active s). change (us_mbufs (tcpip_net_lock s)) with (us_mbufs s).
  rewrite Hu. change (default no_pcb (Some u)) with u. cbn zeta. destruct (Z.eqb_spec (u_lport u) 0); [done|]. rewrite He.
  destruct (Z.eqb_spec (u_rcv_head u) (u_rcv_tail u)) as [E|_].
  { destruct R as [_ _ _ _ _ Hh Ht Hc _]. rewrite Ht in E. pose proof (ring_count (u_rcv_head u) (length (g :: gs)) Hh Hc) as C.
    rewrite <- E, Z.sub_diag in C. change (Z.land 0 255) with 0 in C. cbn [length] in C. lia. }
  destruct (dequeue_spec _ _ _ _ _ n R Hn) as (u' & m' & -> & R' & _). eexists. split; [done|]. split; [|done].
  exists u'. split; [|done]. by apply (sock_set (tcpip_net_lock s) _ _ _ u).
Qed.

(** ** Sending *)

Abbreviation EDESTADDRREQ := 89 (only parsing).
Abbreviation EHOSTUNREACH := 113 (only parsing).
Abbreviation udp_def_ttl := 127 (only parsing).
Abbreviation udp_def_tos := 0x80 (only parsing).

Inductive send_result := SendErr (e : Z) | SendPkt (p : list Z).

(** The datagram is made in the memory [mem] of the interface, at [addr]. *)
Definition udp_make (addr saddr daddr sport dport : Z) (buf mem : list Z) (seq : Z) : option (list Z * Z) :=
  let '(p, seq) := iph_template IPPROTO_UDP udp_def_ttl udp_def_tos mem seq in
  match mk_iphdr addr saddr daddr (8 + len buf) p with
  | None => None
  | Some p =>
      let p := put 22 (st16 (u16 dport)) p in
      let p := put 20 (st16 sport) p in
      let p := put 24 (st16 (htons (u16 (len buf + 8)))) p in
      let p := put 28 buf p in
      Some (put 26 (st16 0) p, seq)
  end.

(** The source address. *)
Definition src_addr (u : udp_pcb) (ifn : ifnet) : Z := if u_laddr u =? INADDR_ANY then if_ipv4_addr ifn else u_laddr u.

(** [udp_sendto] up to [ip_output]: [sin] is the destination given by the caller,
    [route_lookup] the interface of the route to an address, [ifn_mmap] the memory
    for a packet and its address. *)
Definition udp_sendto (u : udp_pcb) (buf : list Z) (sin : option (Z * Z)) (route_lookup : Z -> option ifnet)
    (ifn_mmap : Z -> option (Z * list Z)) (seq : Z) : option (send_result * Z) :=
  if u_lport u =? 0 then Some (SendErr (-3), seq)
  else
    let dst :=
      match sin with
      | None =>
          if u_fport u =? 0 then inl (- ECONNREFUSED)
          else if u_faddr u =? INADDR_ANY then inl (- ENOTCONN) else inr (u_faddr u, u_fport u)
      | Some (a, p) =>
          if p =? 0 then inl (- ECONNREFUSED) else if a =? INADDR_ANY then inl (- EDESTADDRREQ) else inr (a, p)
      end in
    match dst with
    | inl e => Some (SendErr e, seq)
    | inr (daddr, dport) =>
        match route_lookup daddr with
        | None => Some (SendErr (- EHOSTUNREACH), seq)
        | Some ifn =>
            let mtu := if_mtu ifn - 20 in
            if (len buf <=? 0) || (mtu <? len buf) then Some (SendErr (-7), seq)
            else
              let saddr := src_addr u ifn in
              match ifn_mmap (20 + 8 + len buf) with
              | None => Some (SendErr (-1), seq)
              | Some (addr, mem) =>
                  match udp_make addr saddr daddr (u_lport u) dport buf mem seq with
                  | None => None
                  | Some (p, seq) => Some (SendPkt p, seq)
                  end
              end
        end
    end.

Lemma put_app_r (h l r : list Z) k : 0 <= k -> put (len h + k) l (h ++ r) = h ++ put k l r.
Proof.
  intros H. unfold put, len. replace (Z.to_nat (Z.of_nat (length h) + k)) with (length h + Z.to_nat k)%nat by lia.
  rewrite take_app_add, <- app_assoc. f_equal. f_equal. f_equal. by rewrite <- Nat.add_assoc, drop_app_add.
Qed.

Lemma rd_app_r (h r : list Z) k : 0 <= k -> rd (h ++ r) (len h + k) = rd r k.
Proof.
  intros H. unfold rd, len. destruct (Z.ltb_spec (Z.of_nat (length h) + k) 0); [lia|]. destruct (Z.ltb_spec k 0); [lia|].
  replace (Z.to_nat (Z.of_nat (length h) + k)) with (length h + Z.to_nat k)%nat by lia. rewrite app_nth2_plus. done.
Qed.

Lemma get_app_rest (h r : list Z) k n : 0 <= k -> get (len h + k) n (h ++ r) = get k n r.
Proof.
  intros H. unfold get, len. f_equal. replace (Z.to_nat (Z.of_nat (length h) + k)) with (length h + Z.to_nat k)%nat by lia. apply drop_app_add.
Qed.

(** The bytes behind the IP header. *)
Definition udp_bytes (sport dport : Z) (buf : list Z) : list Z :=
  st16 sport ++ st16 (u16 dport) ++ st16 (htons (u16 (len buf + 8))) ++ [0; 0] ++ buf.

Lemma udp_make_bytes addr saddr daddr sport dport buf mem seq :
  length mem = (28 + length buf)%nat -> len buf + 28 < 65536 ->
  let id := u16 (seq + 1) in
  let h := header IPPROTO_UDP udp_def_ttl udp_def_tos id saddr daddr (8 + len buf + 20)
             (65535 - ones (wsum (header IPPROTO_UDP udp_def_ttl udp_def_tos id saddr daddr (8 + len buf + 20) 0))) in
  udp_make addr saddr daddr sport dport buf mem seq = Some (h ++ udp_bytes sport dport buf, id).
Proof.
  intros Hm Hb id h. unfold udp_make.
  assert (B : is_byte 17 /\ is_byte 127 /\ is_byte 128) by (unfold is_byte; lia). destruct B as (B1 & B2 & B3).
  pose proof (iph_template_bytes 17 127 0x80 mem seq B1 B2 B3 ltac:(lia)) as Ht.
  pose proof (mk_iphdr_bytes addr 17 127 0x80 mem seq saddr daddr (8 + len buf) B1 B2 B3 ltac:(lia) ltac:(unfold len; lia) ltac:(lia)) as Hk.
  cbn zeta in Ht, Hk. rewrite Ht in *. cbn [fst] in Hk. rewrite Hk. fold id. fold h. cbn zeta.
  assert (Hh : len h = 20) by done. set (r := drop 20 mem). assert (Hr : length r = (8 + length buf)%nat) by (unfold r; rewrite length_drop; lia).
  clearbody h r. destruct r as [|a0 [|a1 [|a2 [|a3 [|a4 [|a5 [|a6 [|a7 r]]]]]]]]; try (cbn [length] in Hr; lia). cbn [length] in Hr.
  assert (E : forall k l q, 0 <= k -> put (20 + k) l (h ++ q) = h ++ put k l q) by (intros; rewrite <- Hh; by apply put_app_r).
  rewrite (E 2 _ _ ltac:(lia) : put 22 _ (h ++ _) = _). rewrite (E 0 _ _ ltac:(lia) : put 20 _ (h ++ _) = _).
  rewrite (E 4 _ _ ltac:(lia) : put 24 _ (h ++ _) = _). rewrite (E 8 _ _ ltac:(lia) : put 28 _ (h ++ _) = _).
  rewrite (E 6 _ _ ltac:(lia) : put 26 _ (h ++ _) = _). do 3 f_equal.
  transitivity (put 6 (st16 0) ((st16 sport ++ st16 (u16 dport) ++ st16 (htons (u16 (len buf + 8))) ++ [a6; a7]) ++ buf ++ drop (length buf) r));
    [reflexivity|]. rewrite drop_ge, app_nil_r by lia. reflexivity.
Qed.

(** What the receiver reads in it. *)
Lemma udp_fields h sport dport buf :
  len h = 20 -> 0 <= sport < 65536 -> 0 <= dport < 65536 -> len buf + 28 < 65536 ->
  let p := h ++ udp_bytes sport dport buf in
  ld16 p 20 = sport /\ ld16 p 22 = dport /\ ntohs (ld16 p 24) = len buf + 8 /\ get 28 (len buf) p = buf /\ len p = 28 + len buf.
Proof.
  intros Hh Hs Hd Hb p. destruct (two_bytes sport Hs) as (a & b & Es & Ha & Hb'). destruct (two_bytes dport Hd) as (c & d & Ed & Hc & Hd').
  assert (Hn : 0 <= len buf + 8 < 65536) by (unfold len in *; lia). destruct (two_bytes _ Hn) as (e & f & En & He & Hf).
  assert (Eu : udp_bytes sport dport buf = [a; b; c; d; f; e; 0; 0] ++ buf).
  { unfold udp_bytes. rewrite (u16_small (len buf + 8)), (u16_small dport) by lia. rewrite En, ntohs_bytes by done.
    replace (f + 256 * e) with (f + 256 * e) by lia. rewrite Es, Ed, !st16_bytes by done. done. }
  assert (R : forall k, 0 <= k -> rd p (20 + k) = rd ([a; b; c; d; f; e; 0; 0] ++ buf) k) by (intros k Hk; unfold p; rewrite Eu, <- Hh; by apply rd_app_r).
  unfold ld16. rewrite (R 0 ltac:(lia) : rd p 20 = _), (R 1 ltac:(lia) : rd p (20 + 1) = _), (R 2 ltac:(lia) : rd p 22 = _), (R 3 ltac:(lia) : rd p (22 + 1) = _),
    (R 4 ltac:(lia) : rd p 24 = _), (R 5 ltac:(lia) : rd p (24 + 1) = _). split_and!.
  - by rewrite Es.
  - by rewrite Ed.
  - change (ntohs (f + 256 * e) = len buf + 8). rewrite ntohs_bytes by done. lia.
  - unfold p. rewrite Eu. change 28 with (20 + 8). rewrite <- Hh at 1. rewrite get_app_rest by lia. unfold get, len. rewrite Nat2Z.id.
    change (Z.to_nat 8) with (length [a; b; c; d; f; e; 0; 0]). rewrite drop_app_length. by rewrite take_ge.
  - unfold p. rewrite Eu. unfold len in *. rewrite !length_app. cbn [length]. lia.
Qed.

(** C19: from socket to socket.  A bound block sends a message that is not empty and not longer than
    the MTU of the interface (less 20) to an address and a port with a route; the interface has a
    buffer for the packet.  At the destination the lookup finds a block, the ring of that block holds fewer than
    4 datagrams and there are buffers enough for the message.  Then the packet that [udp_sendto] makes is
    accepted by [ip_input] there and queued after the others, with the sender's address and
    port, at the block that was found, and no buffer is lost. *)
Theorem udp_end_to_end u buf daddr dport route_lookup ifn_mmap seq ifn addr mem ifn' st k fl gs
    (Hl : 0 < u_lport u < 65536) (Hdp : 0 < dport < 65536) (Hda : 0 < daddr < 2 ^ 32)
    (Hr : route_lookup daddr = Some ifn) (Hb : 0 < len buf <= if_mtu ifn - 20) (Hb2 : len buf + 28 < 2 ^ 16)
    (Hm : ifn_mmap (28 + len buf) = Some (addr, mem)) (Hml : length mem = (28 + length buf)%nat)
    (Hsa : 0 <= src_addr u ifn < 2 ^ 32)
    (Hdst : if_ipv4_addr ifn' = daddr) (S : sock_ok st k fl gs)
    (Lk : pcb_wildlookup (src_addr u ifn) (u_lport u) daddr dport (us_active st) = Some k)
    (Hg : (length gs < 4)%nat) (Hbl : blocks (len buf) <= len fl) :
  exists p seq', udp_sendto u buf (Some (daddr, dport)) route_lookup ifn_mmap seq = Some (SendPkt p, seq') /\
    forall icmp_input tcp_input raw_input addr',
    exists st' fl' c, ip_input icmp_input udp_input tcp_input raw_input ifn' addr' p (len p) st = (0, st') /\
      sock_ok st' k fl' (gs ++ [mk_gram (src_addr u ifn) (u_lport u) buf c]) /\ fl' ++ c ≡ₚ fl.
Proof.
  change (2 ^ 32) with 4294967296 in *. change (2 ^ 16) with 65536 in *.
  assert (B : is_byte 17 /\ is_byte 127 /\ is_byte 128) by (unfold is_byte; lia). destruct B as (B1 & B2 & B3).
  unfold udp_sendto. destruct (Z.eqb_spec (u_lport u) 0); [lia|]. destruct (Z.eqb_spec dport 0); [lia|]. destruct (Z.eqb_spec daddr 0); [lia|].
  rewrite Hr. cbn zeta. destruct (Z.leb_spec (len buf) 0); [lia|]. destruct (Z.ltb_spec (if_mtu ifn - 20) (len buf)); [lia|]. cbn [orb].
  change (20 + 8) with 28. rewrite Hm. generalize dependent (src_addr u ifn). intros saddr Hsa Lk.
  rewrite udp_make_bytes by done. set (id := u16 (seq + 1)). set (s0 := wsum _). set (h := header _ _ _ _ _ _ _ (65535 - ones s0)).
  eexists _, _. split; [done|]. intros icmp tcp raw addr'.
  destruct (udp_fields h (u_lport u) dport buf) as (F1 & F2 & F3 & F4 & F5); [done|lia|lia|lia|].
  set (pl := udp_bytes (u_lport u) dport buf) in *.
  assert (Hid : 0 <= id < 65536) by (unfold id, u16; apply Z.mod_pos_bound; lia).
  assert (Sa : ip_saddr (h ++ pl) = saddr) by (by apply header_saddr). assert (Da : ip_daddr (h ++ pl) = daddr) by (apply header_daddr; lia).
  destruct (udp_input_queues st k fl gs (h ++ pl) 20 (8 + len buf) S) as (st' & fl' & c & E & Sk & Pm).
  { change (20 + 2) with 22. by rewrite Sa, Da, F1, F2. }
  { change (20 + 4) with 24. rewrite F3. lia. }
  { change (20 + 4) with 24. rewrite F3. lia. }
  { lia. }
  { change (20 + 4) with 24. rewrite F3, F5. lia. }
  { done. }
  { change (20 + 4) with 24. rewrite F3. by replace (len buf + 8 - 8) with (len buf) by lia. }
  change (20 + 4) with 24 in Sk. change (20 + 8) with 28 in Sk. rewrite F3, Sa, F1 in Sk. replace (len buf + 8 - 8) with (len buf) in Sk by lia. rewrite F4 in Sk.
  exists st', fl', c. split; [|done].
  pose proof (ip_input_accepts icmp udp_input tcp raw ifn' 17 127 0x80 id saddr daddr (8 + len buf) addr' pl (len (h ++ pl)) st) as A. cbn zeta in A.
  fold s0 in A. fold h in A. rewrite A; [|done|done|done|done|lia|lia|lia|lia|by left].
  unfold ip_dispatch. change (ip_proto (h ++ pl)) with 17. cbn [Z.eqb Pos.eqb]. by rewrite E.
Qed.

(** ** Buffers that run out *)

(** When the pool has not enough buffers the datagram is lost, and the mutex of the
    pool stays locked. *)
Theorem udp_input_exhausted s k fl gs p off n
    (S : sock_ok s k fl gs)
    (Lk : pcb_wildlookup (ip_saddr p) (ld16 p off) (ip_daddr p) (ld16 p (off + 2)) (us_active s) = Some k)
    (Hl : ntohs (ld16 p (off + 4)) <= n) (Hg : (length gs < 4)%nat) (Hb : len fl < blocks (ntohs (ld16 p (off + 4)) - 8)) :
  exists s', udp_input p off n s = (0, s') /\ us_mbufs s' = set_locked true (us_mbufs s).
Proof.
  destruct S as (u & Hu & R). unfold udp_input. cbn zeta. destruct (Z.ltb_spec n (ntohs (ld16 p (off + 4)))); [lia|].
  rewrite Lk, Hu. change (default no_pcb (Some u)) with u. unfold udp_enqueue. cbn zeta. rewrite (ro_tail _ _ _ _ R), ring_count by apply R.
  destruct (Z.leb_spec 4 (Z.of_nat (length gs))); [lia|]. rewrite (pool_list_short _ fl _ (ro_pool _ _ _ _ R) Hb).
  by eexists.
Qed.

(** ** Concrete systems *)

Definition demo_udp : udp_system := mk_udp [] [listener 7] false demo_pool [].

Lemma demo_sock_ok : sock_ok demo_udp 0 (seqZ 0 64) [].
Proof.
  exists (listener 7). split; [done|]. destruct demo_pool_ok as [P L].
  constructor; try done; [rewrite app_nil_r; by destruct P|cbn; lia].
Qed.

Definition demo_sender : udp_pcb := listener 9.
Definition demo_route (a : Z) : option ifnet := Some (mk_ifnet 0x0101a8c0 0x00ffffff 1500).
Definition demo_mmap (n : Z) : option (Z * list Z) := Some (0, zeros (Z.to_nat n)).

Lemma udp_end_to_end_witness :
  exists p seq', udp_sendto demo_sender (seqZ 1 30) (Some (0x0201a8c0, 7)) demo_route demo_mmap 5 = Some (SendPkt p, seq') /\
    forall icmp_input tcp_input raw_input addr',
    exists st' fl' c, ip_input icmp_input udp_input tcp_input raw_input demo_ifn addr' p (len p) demo_udp = (0, st') /\
      sock_ok st' 0 fl' ([] ++ [mk_gram (src_addr demo_sender (mk_ifnet 0x0101a8c0 0x00ffffff 1500)) (u_lport demo_sender) (seqZ 1 30) c]) /\ fl' ++ c ≡ₚ seqZ 0 64.
Proof.
  apply (udp_end_to_end demo_sender (seqZ 1 30) 0x0201a8c0 7 demo_route demo_mmap 5 (mk_ifnet 0x0101a8c0 0x00ffffff 1500) 0 (zeros 58) demo_ifn demo_udp 0 (seqZ 0 64) []);
    first [apply demo_sock_ok | done | cbn; lia | vm_compute; done | vm_compute; lia].
Defined.

Lemma udp_recv_oldest_witness :
  exists s s', udp_recv 0 100 s = Some (Recv 30 (seqZ 1 30) 5 6, s') /\ us_net_locked s' = false.
Proof.
  destruct demo_sock_ok as (u & Hu & R). inversion Hu; subst u.
  destruct (enqueue_spec demo_pool (listener 7) (seqZ 0 64) [] 5 6 (seqZ 1 30) R) as (u' & m' & fl' & c & E & R' & _);
    [cbn; lia|vm_compute; done|vm_compute; done|].
  assert (Hlp : u_lport u' = 7 /\ u_icmp_err u' = false).
  { unfold udp_enqueue in E. destruct (_ <=? _); [by inversion E; subst|]. destruct (mbuf_list_alloc _ _) as [q m]. destruct (decide _).
    - destruct (mbuf_list_write _ _ _) as [[? ?]|]; [|done]. by inversion E; subst.
    - by inversion E; subst. }
  destruct Hlp as [Hp He].
  pose (s := mk_udp [] [u'] false m' []).
  destruct (udp_recv_oldest s 0 fl' (mk_gram 5 6 (seqZ 1 30) c) [] 100 u') as (s' & Er & _ & Hl); [done|by rewrite Hp|done|exact R'|lia|].
  exists s, s'. by split.
Defined.

Definition empty_dgram : list Z := header 17 127 0 7 0x0101a8c0 0x0201a8c0 28 0 ++ st16 9 ++ st16 7 ++ [0; 8; 0; 0].

(** An empty datagram, which is a legal one, leaves one buffer of the 64 reachable
    and the check of the pool fails. *)
Theorem udp_empty_datagram_breaks_pool :
  option_map fst (mbuf_alloc_check (us_mbufs demo_udp)) = Some 0 /\
  (let s := (udp_input empty_dgram 20 8 demo_udp).2 in
   option_map fst (mbuf_alloc_check (us_mbufs s)) = Some (-1) /\ mbuf_avail (us_mbufs s) = 64 /\
   (let '(m, b) := mbuf_try_alloc (us_mbufs s) in m = PBuf 0 /\ (mbuf_try_alloc b).1 = PNull)).
Proof. by vm_compute. Qed.

(** The datagrams of a block that is closed keep their buffers. *)
Theorem udp_close_leaks_buffers :
  let p := header 17 127 0 7 0x0101a8c0 0x0201a8c0 58 0 ++ udp_bytes 9 7 (seqZ 1 30) in
  let s := (udp_close 0 (udp_input p 20 38 demo_udp).2).2 in
  us_active s = [] /\ mb_used (us_mbufs s) = 1 /\ (let '(k, s) := udp_alloc s in k = Some 0%nat /\ us_active s = [no_pcb] /\ mb_used (us_mbufs s) = 1).
Proof. by vm_compute. Qed.

(** With no free block the network mutex stays locked. *)
Theorem udp_alloc_fails_locked s (H : us_free s = []) : udp_alloc s = (None, us_set_lock true s).
Proof. unfold udp_alloc. cbn [tcpip_net_lock us_set_lock us_free]. by rewrite H. Qed.

Lemma pcb_wildlookup_sound_witness :
  exists k, pcb_wildlookup 0x0301a8c0 9 0x0201a8c0 7 [listener 5; connected 7 0x0301a8c0 9; listener 7] = Some k.
Proof.
  destruct (pcb_wildlookup_sound 0x0301a8c0 9 0x0201a8c0 7 [listener 5; connected 7 0x0301a8c0 9; listener 7]) as [_ H].
  apply (H 1%nat (connected 7 0x0301a8c0 9)); [done|by vm_compute|]. intros i v Hi Hv. destruct i as [|i]; [|lia]. inversion Hv; subst. by vm_compute.
Defined.

(** The limit on the length counts the IP header and not the UDP header: a packet of
    1508 bytes is made for an interface with an MTU of 1500. *)
Theorem udp_sendto_exceeds_mtu :
  option_map (fun r => match r.1 with SendPkt p => len p | SendErr e => e end)
    (udp_sendto demo_sender (zeros 1480) (Some (0x0201a8c0, 7)) demo_route demo_mmap 5) = Some 1508.
Proof. by vm_compute. Qed.
