(* ===== verification/Route.v ===== *)
(** * Routes

    src/sdk/libtcpip/ip_route.c: the table of routes, a fixed array whose used
    entries come first, ordered by their masks, with [__route_lookup],
    [__route_add], [__route_del] and the calls around them.  Addresses and masks are
    the words of the little-endian memory. *)

From stdpp Require Import base tactics numbers list sorting.
From Stdlib Require Import ZArith Lia.
From S2P Require Import Prelude Ip.

Abbreviation IP_ROUTE_TABLE_LEN := 4%nat (only parsing).

(** The interface of an entry is its number, [None] in an unused entry. *)
Record route := mk_route { rt_dst : Z; rt_gateway : Z; rt_genmask : Z; rt_ifn : option Z }.

Definition no_route : route := mk_route 0 0 0 None.

Definition used (r : route) : bool := match rt_ifn r with Some _ => true | None => false end.
Definition at_ (tab : list route) (p : nat) : route := default no_route (tab !! p).

Definition init_routes : list route := replicate IP_ROUTE_TABLE_LEN no_route.

(** ** Lookup *)

Definition matches (target : Z) (r : route) : bool := Z.land target (rt_genmask r) =? rt_dst r.

Fixpoint lookup_loop (i p : nat) (target : Z) (tab : list route) : option nat :=
  match i with
  | O => None
  | S i =>
      if negb (used (at_ tab p)) then None
      else if matches target (at_ tab p) then Some p
      else lookup_loop i (S p) target tab
  end.

(** The position of the entry. *)
Definition __route_lookup (target : Z) (tab : list route) : option nat := lookup_loop IP_ROUTE_TABLE_LEN 0 target tab.

Fixpoint get_loop (i p : nat) (dst mask : Z) (tab : list route) : option nat :=
  match i with
  | O => None
  | S i =>
      if negb (used (at_ tab p)) then None
      else if (dst =? rt_dst (at_ tab p)) && (mask =? rt_genmask (at_ tab p)) then Some p
      else get_loop i (S p) dst mask tab
  end.

Definition ipv4_route_get (dst mask : Z) (tab : list route) : option nat := get_loop IP_ROUTE_TABLE_LEN 0 dst mask tab.

(** The entries given to a callback that does not stop. *)
Fixpoint enum_loop (i p : nat) (tab : list route) : list route :=
  match i with
  | O => []
  | S i => if used (at_ tab p) then at_ tab p :: enum_loop i (S p) tab else []
  end.

Definition ipv4_route_enum (tab : list route) : list route := enum_loop (IP_ROUTE_TABLE_LEN - 1) 0 tab.

(** ** Removal *)

(** The search: how many entries are left and the position where it stopped. *)
Fixpoint del_find (i p : nat) (dst : Z) (tab : list route) : option (nat * nat) :=
  match i with
  | O => Some (O, p)
  | S i =>
      if negb (used (at_ tab p)) then None
      else if dst =? rt_dst (at_ tab p) then Some (i, p)
      else del_find i (S p) dst tab
  end.

(** The next entries move one place down; the last position and the table. *)
Fixpoint del_shift (i p : nat) (tab : list route) : nat * list route :=
  match i with
  | O => (p, tab)
  | S i =>
      let next := S p in
      if negb (used (at_ tab next)) then (p, tab)
      else del_shift i next (<[p := at_ tab next]> tab)
  end.

Definition __route_del (dst : Z) (tab : list route) : Z * list route :=
  match del_find IP_ROUTE_TABLE_LEN 0 dst tab with
  | None => (-1, tab)
  | Some (O, _) => (-1, tab)
  | Some (i, p) =>
      let '(p, tab) := del_shift i p tab in
      (0, <[p := no_route]> tab)
  end.

(** ** Insertion *)

Fixpoint add_find (i p : nat) (mask : Z) (tab : list route) : nat * nat :=
  match i with
  | O => (O, p)
  | S i' => if rt_genmask (at_ tab p) <=? mask then (i, p) else add_find i' (S p) mask tab
  end.

(** The entries from [p] on, or no room. *)
Fixpoint add_count (i p n : nat) (tab : list route) : option nat :=
  if negb (used (at_ tab p)) then Some n
  else
    match i with
    | O | S O => None
    | S i => add_count i (S p) (S n) tab
    end.

Fixpoint add_shift (n p : nat) (new : route) (tab : list route) : list route :=
  match n with
  | O => <[p := new]> tab
  | S n => add_shift n (S p) (at_ tab p) (<[p := new]> tab)
  end.

Definition __route_add (dst mask gw ifn : Z) (tab : list route) : Z * list route :=
  let tab := (__route_del dst tab).2 in
  match add_find IP_ROUTE_TABLE_LEN 0 mask tab with
  | (O, _) => (-1, tab)
  | (i, p) =>
      match add_count i p 0 tab with
      | None => (-1, tab)
      | Some n => (0, add_shift n p (mk_route dst gw mask (Some ifn)) tab)
      end
  end.

(** ** The table as a list *)

(** The used entries come first. *)
Definition rep (tab rs : list route) : Prop :=
  tab = rs ++ replicate (IP_ROUTE_TABLE_LEN - length rs) no_route /\ (length rs <= IP_ROUTE_TABLE_LEN)%nat /\ Forall (fun r => used r = true) rs.

Lemma at_mid pre r suf : at_ (pre ++ r :: suf) (length pre) = r.
Proof. unfold at_. by rewrite list_lookup_middle. Qed.

Lemma at_next pre x y suf : at_ (pre ++ x :: y :: suf) (S (length pre)) = y.
Proof. unfold at_. rewrite lookup_app_r by lia. by replace (S (length pre) - length pre)%nat with 1%nat by lia. Qed.

Lemma at_end pre n : at_ (pre ++ replicate n no_route) (length pre) = no_route.
Proof. unfold at_. rewrite lookup_app_r, Nat.sub_diag by lia. by destruct n. Qed.

Lemma insert_mid (pre : list route) x y suf : <[length pre := y]> (pre ++ x :: suf) = pre ++ y :: suf.
Proof. rewrite insert_app_r_alt, Nat.sub_diag by lia. done. Qed.

Lemma snoc (pre : list route) x suf : pre ++ x :: suf = (pre ++ [x]) ++ suf.
Proof. by rewrite <- app_assoc. Qed.

Lemma length_snoc (pre : list route) x : length (pre ++ [x]) = S (length pre).
Proof. rewrite length_app. cbn [length]. lia. Qed.

Section Find.
Context (f : route -> bool).

(** The position of the first entry for which [f] holds. *)
Fixpoint first (rs : list route) : option nat :=
  match rs with [] => None | r :: rs => if f r then Some O else S <$> first rs end.

Lemma first_some rs k : first rs = Some k -> exists pre r suf, rs = pre ++ r :: suf /\ length pre = k /\ f r = true /\ Forall (fun x => f x = false) pre.
Proof.
  revert k. induction rs as [|r rs IH]; intros k; [done|]. cbn [first]. destruct (f r) eqn:F.
  - intros [= <-]. exists [], r, rs. done.
  - destruct (first rs) as [j|]; [|done]. intros [= <-]. destruct (IH j eq_refl) as (pre & x & suf & -> & <- & X & P). exists (r :: pre), x, suf. split_and!; auto.
Qed.

Lemma first_none rs : first rs = None -> Forall (fun x => f x = false) rs.
Proof.
  induction rs as [|r rs IH]; [done|]. cbn [first]. destruct (f r) eqn:F; [done|]. destruct (first rs); [done|]. auto.
Qed.
End Find.

Lemma lookup_loop_first target i : forall pre rs, (length rs <= i)%nat -> Forall (fun r => used r = true) rs ->
  lookup_loop i (length pre) target (pre ++ rs ++ replicate (i - length rs) no_route) = (fun k => length pre + k)%nat <$> first (matches target) rs.
Proof.
  induction i as [|i IH]; intros pre rs L U; [by destruct rs; [|cbn [length] in L; lia]|]. cbn [lookup_loop]. destruct rs as [|r rs].
  - cbn [app length]. rewrite at_end. done.
  - cbn [app]. rewrite at_mid. inversion U as [|? ? Ur Us]; subst. rewrite Ur. cbn [negb first]. destruct (matches target r); [cbn; f_equal; lia|].
    rewrite snoc, <- (length_snoc pre r). cbn [length] in *. change (S i - S (length rs))%nat with (i - length rs)%nat. rewrite IH by (done || lia).
    rewrite length_snoc. destruct (first (matches target) rs); cbn; [f_equal; lia|done].
Qed.

(** The lookup takes the first entry that matches. *)
Lemma lookup_first target tab rs : rep tab rs -> __route_lookup target tab = first (matches target) rs.
Proof.
  intros (-> & L & U). unfold __route_lookup. etrans; [exact (lookup_loop_first target 4 [] rs L U)|]. by destruct (first _ rs).
Qed.

Definition dst_is (dst : Z) (r : route) : bool := dst =? rt_dst r.

Lemma del_find_first dst i : forall pre rs, (length rs <= i)%nat -> Forall (fun r => used r = true) rs ->
  del_find i (length pre) dst (pre ++ rs ++ replicate (i - length rs) no_route) =
    match first (dst_is dst) rs with
    | Some k => Some (i - S k, length pre + k)%nat
    | None => if (length rs =? i)%nat then Some (O, length pre + i)%nat else None
    end.
Proof.
  induction i as [|i IH]; intros pre rs L U; [destruct rs; [cbn; by rewrite Nat.add_0_r|cbn [length] in L; lia]|]. cbn [del_find]. destruct rs as [|r rs].
  - cbn [app length]. by rewrite at_end.
  - cbn [app]. rewrite at_mid. inversion U as [|? ? Ur Us]; subst. rewrite Ur. cbn [negb first]. unfold dst_is at 1. destruct (dst =? rt_dst r); [f_equal; f_equal; lia|].
    rewrite snoc, <- (length_snoc pre r). cbn [length] in *. change (S i - S (length rs))%nat with (i - length rs)%nat. rewrite IH by (done || lia).
    rewrite length_snoc. destruct (first (dst_is dst) rs); cbn [fmap option_fmap option_map Nat.eqb]; [f_equal; f_equal; lia|]. destruct (_ =? _)%nat; [f_equal; f_equal; lia|done].
Qed.

Lemma del_shift_moves suf : forall n pre x, Forall (fun r => used r = true) suf ->
  let '(p, tab) := del_shift (length suf + n) (length pre) (pre ++ x :: suf ++ replicate n no_route) in
  <[p := no_route]> tab = pre ++ suf ++ no_route :: replicate n no_route.
Proof.
  induction suf as [|y suf IH]; intros n pre x U.
  - cbn [length Nat.add app]. destruct n as [|n]; cbn [del_shift replicate].
    + apply insert_mid.
    + rewrite at_next. cbn [used no_route rt_ifn negb]. apply insert_mid.
  - cbn [length Nat.add app del_shift]. rewrite at_next. inversion U as [|? ? Uy Us]; subst. rewrite Uy. cbn [negb]. rewrite insert_mid, snoc, <- (length_snoc pre y).
    specialize (IH n (pre ++ [y]) y Us). destruct (del_shift _ _ _) as [p tab]. by rewrite <- app_assoc in IH.
Qed.

(** Without the first entry of a destination: the last place of a full table is not
    removed. *)
Definition remove_dst (dst : Z) (rs : list route) : option (list route) :=
  match first (dst_is dst) rs with
  | None => None
  | Some k => if (k =? IP_ROUTE_TABLE_LEN - 1)%nat then None else Some (delete k rs)
  end.

Lemma route_del_rep dst tab rs : rep tab rs ->
  match remove_dst dst rs with
  | None => __route_del dst tab = (-1, tab)
  | Some rs' => exists tab', __route_del dst tab = (0, tab') /\ rep tab' rs'
  end.
Proof.
  intros (-> & L & U). unfold __route_del, remove_dst. pose proof (del_find_first dst 4 [] rs L U) as D. cbn [length app Nat.add] in D. rewrite D. clear D.
  destruct (first (dst_is dst) rs) as [k|] eqn:F; [|by destruct (_ =? _)%nat].
  apply first_some in F as (pre & x & suf & -> & <- & _ & _). rewrite length_app in L. cbn [length] in L. apply Forall_app in U as [Up Us]. apply Forall_cons in Us as [_ Uf].
  destruct (Nat.eqb_spec (length pre) (4 - 1)) as [E|E]; [by rewrite E|]. destruct (4 - S (length pre))%nat as [|i] eqn:Ei; [lia|]. cbn [length Nat.add].
  rewrite <- Ei. rewrite length_app. cbn [length]. set (n := (4 - (length pre + S (length suf)))%nat). replace (4 - S (length pre))%nat with (length suf + n)%nat by (unfold n; lia).
  pose proof (del_shift_moves suf n pre x Uf) as D. rewrite <- app_assoc. cbn [app]. destruct (del_shift _ _ _) as [p tab]. rewrite D. eexists. split; [done|].
  rewrite delete_middle. split_and!; [|rewrite length_app; lia|by apply Forall_app]. rewrite <- app_assoc. do 2 f_equal. rewrite length_app.
  replace (4 - (length pre + length suf))%nat with (S n) by (unfold n; lia). done.
Qed.

(** ** Insertion in the list *)

(** In front of the first entry whose mask is not larger. *)
Fixpoint place (r : route) (rs : list route) : list route :=
  match rs with
  | [] => [r]
  | x :: rs => if rt_genmask x <=? rt_genmask r then r :: x :: rs else x :: place r rs
  end.

Lemma place_split r rs : exists hi lo, rs = hi ++ lo /\ place r rs = hi ++ r :: lo /\ Forall (fun x => (rt_genmask x <=? rt_genmask r) = false) hi /\
  match lo with [] => True | x :: _ => (rt_genmask x <=? rt_genmask r) = true end.
Proof.
  induction rs as [|x rs (hi & lo & -> & E & F & H)]; [by exists [], []|]. cbn [place]. destruct (rt_genmask x <=? rt_genmask r) eqn:M; [by exists [], (x :: hi ++ lo)|].
  exists (x :: hi), lo. rewrite E. split_and!; auto.
Qed.

Lemma length_place r rs : length (place r rs) = S (length rs).
Proof. induction rs as [|x rs IH]; cbn [place]; [done|]. destruct (_ <=? _); cbn [length]; congruence. Qed.

Lemma place_Forall (P : route -> Prop) r rs : P r -> Forall P rs -> Forall P (place r rs).
Proof. intros Pr. induction 1; cbn [place]; [auto|]. destruct (_ <=? _); auto. Qed.

Lemma add_find_skips mask hi : forall i pre suf, Forall (fun x => (rt_genmask x <=? mask) = false) hi ->
  match suf with [] => i = O | x :: _ => (rt_genmask x <=? mask) = true end ->
  add_find (length hi + i) (length pre) mask (pre ++ hi ++ suf) = (i, length pre + length hi)%nat.
Proof.
  induction hi as [|x hi IH]; intros i pre suf F H.
  - cbn [app length Nat.add]. rewrite Nat.add_0_r. destruct suf as [|x suf]; [by subst|]. destruct i as [|i]; [done|]. cbn [add_find]. by rewrite at_mid, H.
  - cbn [length Nat.add app add_find]. rewrite at_mid. apply Forall_cons in F as [Fx F]. rewrite Fx, snoc, <- (length_snoc pre x), IH by done. rewrite length_snoc. f_equal. lia.
Qed.

Lemma add_count_free lo : forall i n m pre, Forall (fun r => used r = true) lo -> (i = length lo + m)%nat -> (0 < i)%nat ->
  add_count i (length pre) n (pre ++ lo ++ replicate m no_route) = if (m =? 0)%nat then None else Some (n + length lo)%nat.
Proof.
  induction lo as [|x lo IH]; intros i n m pre U E H.
  - cbn [app length]. destruct i as [|i]; [lia|]. cbn [add_count]. rewrite at_end. cbn [used no_route rt_ifn negb length]. destruct (Nat.eqb_spec m 0); [cbn [length] in *; lia|]. f_equal. lia.
  - apply Forall_cons in U as [Ux U]. destruct i as [|i]; [lia|]. cbn [add_count app]. rewrite at_mid, Ux. cbn [negb length] in *. destruct i as [|i].
    + destruct (Nat.eqb_spec m 0); [done|lia].
    + rewrite snoc, <- (length_snoc pre x), IH by (done || lia). destruct (_ =? _)%nat; [done|]. f_equal. lia.
Qed.

Lemma add_shift_moves lo : forall n pre new, add_shift (length lo) (length pre) new (pre ++ lo ++ no_route :: replicate n no_route) = pre ++ new :: lo ++ replicate n no_route.
Proof.
  induction lo as [|x lo IH]; intros n pre new; cbn [length app add_shift]; [apply insert_mid|]. rewrite at_mid, insert_mid, snoc, <- (length_snoc pre new), IH. by rewrite <- app_assoc.
Qed.

Definition route_masks (rs : list route) : Prop := StronglySorted (fun x y => rt_genmask y <= rt_genmask x) rs.

(** What [__route_add] does to the list. *)
Definition add_route (r : route) (rs : list route) : option (list route) :=
  let rs := default rs (remove_dst (rt_dst r) rs) in
  if (length rs =? IP_ROUTE_TABLE_LEN)%nat then None else Some (place r rs).

Lemma route_add_rep dst mask gw ifn tab rs : rep tab rs -> 0 <= mask ->
  match add_route (mk_route dst gw mask (Some ifn)) rs with
  | None => __route_add dst mask gw ifn tab = (-1, tab)
  | Some rs' => exists tab', __route_add dst mask gw ifn tab = (0, tab') /\ rep tab' rs'
  end.
Proof.
  intros R Hm. set (r := mk_route dst gw mask (Some ifn)). unfold add_route, __route_add. change (rt_dst r) with dst.
  assert (D : exists tab1, (__route_del dst tab).2 = tab1 /\ rep tab1 (default rs (remove_dst dst rs)) /\ (length (default rs (remove_dst dst rs)) = 4%nat -> tab1 = tab)).
  { pose proof (route_del_rep dst tab rs R) as D. unfold remove_dst in *. destruct (first (dst_is dst) rs) as [k|] eqn:F; [|by exists tab; rewrite D].
    destruct (_ =? _)%nat; [by exists tab; rewrite D|]. destruct D as (tab1 & -> & R1). exists tab1. split_and!; [done|done|]. intros E. simpl in E.
    apply first_some in F as (pre & x & suf & -> & <- & _). rewrite delete_middle, length_app in E. destruct R as (_ & L & _). rewrite length_app in L. cbn [length] in L. lia. }
  destruct D as (tab1 & -> & R1 & Full). revert R1 Full. generalize (default rs (remove_dst dst rs)). clear R rs. intros rs (E & L & U) Full.
  destruct (place_split r rs) as (hi & lo & -> & P & Fh & Hl). change (rt_genmask r) with mask in *. rewrite P. set (m := (4 - length (hi ++ lo))%nat) in *.
  assert (Lm : (length hi + (length lo + m) = 4)%nat) by (unfold m; rewrite length_app in *; lia). apply Forall_app in U as [Uh Ul].
  assert (A : add_find 4 0 mask tab1 = (length lo + m, length hi)%nat).
  { rewrite E, <- Lm, <- app_assoc. apply (add_find_skips mask hi (length lo + m) []); [done|]. destruct lo as [|x lo]; [|done]. cbn [app length Nat.add]. destruct m; [done|]. cbn [replicate no_route rt_genmask].
    by apply Z.leb_le. }
  rewrite A. rewrite length_app. destruct (Nat.eqb_spec (length hi + length lo) 4) as [F|F].
  - rewrite length_app in Full. rewrite Full in * by done. destruct (length lo + m)%nat as [|i] eqn:Ei; [done|]. rewrite E, <- app_assoc.
    rewrite add_count_free by (done || lia). destruct (Nat.eqb_spec m 0); [done|lia].
  - destruct (length lo + m)%nat as [|i] eqn:Ei; [lia|]. rewrite E, <- app_assoc, add_count_free by (done || lia). destruct (Nat.eqb_spec m 0); [lia|]. cbn [Nat.add].
    destruct m as [|m']; [done|]. cbn [replicate]. rewrite add_shift_moves. eexists. split; [done|].
    split_and!; [|rewrite length_app; cbn [length]; lia|apply Forall_app; split; [done|by constructor]].
    rewrite <- app_assoc. cbn [app]. do 3 f_equal. rewrite length_app. cbn [length]. f_equal. lia.
Qed.

(** ** The longest prefix *)

(** The mask of a prefix of [n] bits as a word of the little-endian memory. *)
Definition prefix_mask (n : Z) : Z := ld32 (rev (st32 (2 ^ 32 - 2 ^ (32 - n)))) 0.

Lemma prefix_mask_order n m : 0 <= n <= 32 -> 0 <= m <= 32 -> (prefix_mask n <=? prefix_mask m) = (n <=? m).
Proof.
  intros Hn Hm.
  assert (T : forallb (fun n => forallb (fun m => Bool.eqb (prefix_mask n <=? prefix_mask m) (n <=? m)) (seqZ 0 33)) (seqZ 0 33) = true) by (vm_compute; reflexivity).
  rewrite forallb_forall in T. specialize (T n). rewrite forallb_forall in T. apply eqb_prop, T; apply list_elem_of_In, elem_of_seqZ; lia.
Qed.

Lemma prefix_mask_pos n : 0 <= n <= 32 -> 0 <= prefix_mask n.
Proof. intros H. apply Z.leb_le. change 0 with (prefix_mask 0) at 1. rewrite prefix_mask_order by lia. apply Z.leb_le. lia. Qed.

Lemma place_sorted r rs : route_masks rs -> route_masks (place r rs).
Proof.
  unfold route_masks. induction 1 as [|x rs S IH F]; cbn [place]; [by repeat constructor|]. destruct (Z.leb_spec (rt_genmask x) (rt_genmask r)).
  - constructor; [by constructor|]. constructor; [done|]. eapply Forall_impl; [exact F|]. cbn. lia.
  - constructor; [done|]. apply place_Forall; [lia|done].
Qed.

Lemma sorted_delete k rs : route_masks rs -> route_masks (delete k rs).
Proof.
  unfold route_masks. intros S. revert k. induction S as [|x rs S IH F]; intros k; [by destruct k; constructor|]. destruct k as [|k]; [exact S|]. simpl. constructor; [apply IH|]. by apply Forall_delete.
Qed.

Definition route_prefix (r : route) (n : Z) : Prop := 0 <= n <= 32 /\ rt_genmask r = prefix_mask n.
Definition has_prefix (r : route) : Prop := exists n, route_prefix r n.

Inductive route_op := RAdd (dst prefix gw ifn : Z) | RDel (dst : Z).

Definition route_step (tab : list route) (op : route_op) : list route :=
  match op with
  | RAdd dst n gw ifn => (__route_add dst (prefix_mask n) gw ifn tab).2
  | RDel dst => (__route_del dst tab).2
  end.

Definition list_step (rs : list route) (op : route_op) : list route :=
  match op with
  | RAdd dst n gw ifn => default rs (add_route (mk_route dst gw (prefix_mask n) (Some ifn)) rs)
  | RDel dst => default rs (remove_dst dst rs)
  end.

Definition op_ok (op : route_op) : Prop := match op with RAdd _ n _ _ => 0 <= n <= 32 | RDel _ => True end.

Definition routes_ok (tab rs : list route) : Prop := rep tab rs /\ route_masks rs /\ Forall has_prefix rs.

Lemma remove_dst_keeps dst rs : route_masks rs -> Forall has_prefix rs ->
  route_masks (default rs (remove_dst dst rs)) /\ Forall has_prefix (default rs (remove_dst dst rs)).
Proof.
  intros S F. unfold remove_dst. destruct (first _ rs) as [k|]; [|done]. destruct (_ =? _)%nat; [done|]. cbn. split; [by apply sorted_delete|by apply Forall_delete].
Qed.

Lemma route_step_ok tab rs op : op_ok op -> routes_ok tab rs -> routes_ok (route_step tab op) (list_step rs op).
Proof.
  intros V (R & S & F). destruct op as [dst n gw ifn|dst]; cbn [route_step list_step op_ok] in *; destruct (remove_dst_keeps dst rs S F) as [S' F'].
  - pose proof (route_add_rep dst (prefix_mask n) gw ifn tab rs R (prefix_mask_pos n V)) as A. unfold add_route in *. cbn [rt_dst] in *.
    revert A S' F'. destruct (_ =? _)%nat; intros A S' F'; [by rewrite A|]. destruct A as (tab' & -> & R'). cbn [snd]. split_and!; [done|by apply place_sorted|]. apply place_Forall; [|done]. by exists n.
  - pose proof (route_del_rep dst tab rs R) as D. destruct (remove_dst dst rs) as [rs'|]; [|by rewrite D]. destruct D as (tab' & -> & R'). done.
Qed.

Lemma routes_reachable ops : Forall op_ok ops -> routes_ok (foldl route_step init_routes ops) (foldl list_step [] ops).
Proof.
  assert (G : routes_ok init_routes []) by (split_and!; [by split_and!; [|cbn; lia|]|constructor|constructor]).
  revert G. generalize init_routes (@nil route). induction ops as [|op ops IH]; intros tab rs G V; [done|]. apply Forall_cons in V as [Vo V]. cbn [foldl]. apply IH; [|done]. by apply route_step_ok.
Qed.

(** C30: After any sequence of additions and removals of routes the table holds the list
    that the same operations give, and the lookup of an address returns a route with
    the longest prefix among the routes that match it, or none when none does. *)
Theorem route_longest_prefix ops target (V : Forall op_ok ops) :
  let tab := foldl route_step init_routes ops in
  let rs := foldl list_step [] ops in
  rep tab rs /\
  match __route_lookup target tab with
  | None => forall r, r ∈ rs -> matches target r = false
  | Some k => exists r n, tab !! k = Some r /\ r ∈ rs /\ matches target r = true /\ route_prefix r n /\
      forall r' n', r' ∈ rs -> matches target r' = true -> route_prefix r' n' -> n' <= n
  end.
Proof.
  destruct (routes_reachable ops V) as (R & S & F). cbv zeta. split; [done|]. rewrite (lookup_first _ _ _ R). revert R S F. generalize (foldl route_step init_routes ops) (foldl list_step [] ops).
  intros tab rs (-> & _ & _) S F. destruct (first (matches target) rs) as [k|] eqn:E.
  - apply first_some in E as (pre & r & suf & -> & <- & M & N). assert (has_prefix r) as [n Hr] by (apply Forall_app in F as [_ F]; by apply Forall_cons in F as [F _]).
    exists r, n. split; [rewrite <- app_assoc; apply list_lookup_middle; done|]. split; [by apply elem_of_app; right; left|]. split_and!; [done|done|].
    intros r' n' I M' [Hn' E']. destruct Hr as [Hn E]. apply Z.leb_le. rewrite <- prefix_mask_order, <- E, <- E' by done. apply Z.leb_le.
    apply elem_of_app in I as [I|I]; [rewrite Forall_forall in N; by rewrite (N r' I) in M'|]. apply elem_of_cons in I as [->|I]; [lia|].
    unfold route_masks in S. clear - S I. induction pre as [|x pre IH]; cbn [app] in S; inversion S as [|? ? S1 F1]; subst; [|auto]. rewrite Forall_forall in F1. by apply F1.
  - intros r I. apply first_none in E. rewrite Forall_forall in E. by apply E.
Qed.

(** 192.168.1.0/24 on interface 0 and the rest through 192.168.1.254. *)
Definition demo_routes : list route_op := [RAdd 0 0 0xfe01a8c0 0; RAdd 0x0001a8c0 24 0 0].

Lemma route_longest_prefix_witness : exists r n,
  foldl route_step init_routes demo_routes !! O = Some r /\ r ∈ foldl list_step [] demo_routes /\ matches 0x0501a8c0 r = true /\ route_prefix r n /\
    forall r' n', r' ∈ foldl list_step [] demo_routes -> matches 0x0501a8c0 r' = true -> route_prefix r' n' -> n' <= n.
Proof. apply (route_longest_prefix demo_routes 0x0501a8c0). repeat constructor; cbn; lia. Defined.

(** ** Where the table falls short *)

Definition full_table : list route := foldl route_step init_routes [RAdd 0 0 5 0; RAdd 10 8 0 0; RAdd 11 16 0 0; RAdd 12 24 0 0].

(** The last route of a full table can be neither removed nor replaced, and the
    enumeration does not show it. *)
Theorem full_table_last :
  at_ full_table 3 = mk_route 0 5 0 (Some 0) /\ __route_del 0 full_table = (-1, full_table) /\ __route_add 0 0 6 0 full_table = (-1, full_table) /\
  ~ (at_ full_table 3 ∈ ipv4_route_enum full_table).
Proof. split_and!; [done..|]. vm_compute. intros H. repeat (inversion H as [|? ? ? H']; subst; clear H; rename H' into H). Qed.

(** Two networks with the same address and different prefixes do not coexist. *)
Theorem same_address_replaced : foldl list_step [] [RAdd 10 8 0 0; RAdd 10 16 0 1] = [mk_route 10 0 (prefix_mask 16) (Some 1)].
Proof. done. Qed.
