(* ===== verification/Arp.v ===== *)
(** * Address resolution and the output of datagrams

    src/sdk/libtcpip/arp/etharp.c: the table of hardware addresses with its one-entry
    cache, the queries and replies and what [etharp_input] makes of them; arp.c: the
    calls of the applications; ip.c: [ip_output], which finds the hardware address of
    the next hop, for an Ethernet interface.  A frame is its destination, its protocol
    and its bytes.  What the driver answers to [ifn_mmap] and [ifn_send] are arguments. *)

From stdpp Require Import base tactics numbers list.
From Stdlib Require Import ZArith Lia.
From S2P Require Import Prelude Buffer Chksum Ip Route.

Abbreviation ETHARP_TABLE_LEN := 2%nat (only parsing).
Abbreviation ETH_P_IP := 0x0800 (only parsing).
Abbreviation ETH_P_ARP := 0x0806 (only parsing).
Abbreviation ARPHRD_ETHER := 1 (only parsing).
Abbreviation ARPOP_REQUEST := 1 (only parsing).
Abbreviation ARPOP_REPLY := 2 (only parsing).
Abbreviation EAGAIN := 11 (only parsing).
Abbreviation ENOENT := 2 (only parsing).

Record etharp_entry := mk_entry { e_count : Z; e_hwaddr : list Z; e_ipaddr : Z }.

Definition bcast : etharp_entry := mk_entry 0 (replicate 6 0xff) 0xffffffff.

(** The cache is the position of an entry, or [bcast]. *)
Record etharp_system := mk_etharp { a_cache : option nat; a_pending : Z; a_tab : list etharp_entry }.

Definition init_etharp : etharp_system := mk_etharp None INADDR_ANY (replicate ETHARP_TABLE_LEN (mk_entry 0 (replicate 6 0) 0)).

(** ** The table *)

Definition hw_eq (a b : list Z) : bool := forallb (fun k => rd a k =? rd b k) [0; 1; 2; 3; 4; 5].

Definition same_host (ipaddr : Z) (hwaddr : list Z) (p : etharp_entry) : bool := (e_ipaddr p =? ipaddr) || hw_eq (e_hwaddr p) hwaddr.

(** The entry that is replaced. *)
Fixpoint add_loop (i : nat) (tab : list etharp_entry) (ipaddr : Z) (hwaddr : list Z) (min : Z) (new : option nat) : option nat :=
  match tab with
  | [] => new
  | p :: tab =>
      if same_host ipaddr hwaddr p then add_loop (S i) tab ipaddr hwaddr 0 (Some i)
      else if e_count p <? min then add_loop (S i) tab ipaddr hwaddr (e_count p) (Some i)
      else add_loop (S i) tab ipaddr hwaddr min new
  end.

Definition hw_copy (hwaddr : list Z) : list Z := rd hwaddr <$> [0; 1; 2; 3; 4; 5].

Definition etharp_add (ipaddr : Z) (hwaddr : list Z) (st : etharp_system) : etharp_system :=
  match add_loop 0 (a_tab st) ipaddr hwaddr 100000 None with
  | None => st
  | Some new => mk_etharp (a_cache st) (a_pending st) (<[new := mk_entry 0 (hw_copy hwaddr) ipaddr]> (a_tab st))
  end.

Definition used_entry (p : etharp_entry) : etharp_entry := mk_entry (u16 (e_count p + 1)) (e_hwaddr p) (e_ipaddr p).

Fixpoint lookup_tab (i : nat) (tab : list etharp_entry) (ipaddr : Z) : option nat :=
  match tab with
  | [] => None
  | p :: tab => if e_ipaddr p =? ipaddr then Some i else lookup_tab (S i) tab ipaddr
  end.

Definition cached (st : etharp_system) : etharp_entry :=
  match a_cache st with None => bcast | Some i => default bcast (a_tab st !! i) end.

Definition etharp_lookup (ipaddr : Z) (st : etharp_system) : option (list Z) * etharp_system :=
  if e_ipaddr (cached st) =? ipaddr then
    let tab := match a_cache st with None => a_tab st | Some i => alter used_entry i (a_tab st) end in
    (Some (e_hwaddr (cached st)), mk_etharp (a_cache st) (a_pending st) tab)
  else if ipaddr =? INADDR_BROADCAST then (Some (e_hwaddr bcast), st)
  else
    match lookup_tab 0 (a_tab st) ipaddr with
    | Some i =>
        (e_hwaddr <$> a_tab st !! i, mk_etharp (Some i) (a_pending st) (alter used_entry i (a_tab st)))
    | None => (None, mk_etharp (a_cache st) ipaddr (a_tab st))
    end.

(** The entries with an address, at most [max]. *)
Fixpoint get_entries (n : nat) (tab : list etharp_entry) (max : nat) : list etharp_entry :=
  match tab with
  | [] => []
  | p :: tab =>
      if e_ipaddr p =? 0 then get_entries n tab max
      else p :: (if (S n =? max)%nat then [] else get_entries (S n) tab max)
  end.

Definition etharp_ipv4_get (max : nat) (st : etharp_system) : list etharp_entry := get_entries 0 (a_tab st) max.

(** ** Packets *)

(** An interface with its hardware address. *)
Record ethif := mk_ethif { eth_ifn : ifnet; eth_addr : list Z }.

Record frame := mk_frame { f_dst : list Z; f_proto : Z; f_pkt : list Z }.

Definition ip_bytes (ip : Z) : list Z := [u8 ip; u8 (Z.shiftr ip 8); u8 (Z.shiftr ip 16); u8 (Z.shiftr ip 24)].

Definition IP4_ADDR (a b c d : Z) : Z :=
  u32 (Z.lor (Z.lor (Z.lor (Z.shiftl (Z.land a 0xff) 0) (Z.shiftl (Z.land b 0xff) 8)) (Z.shiftl (Z.land c 0xff) 16)) (Z.shiftl (Z.land d 0xff) 24)).

(** [struct etharp]. *)
Definition mk_arp (op : Z) (sha : list Z) (spa : Z) (dha : list Z) (dpa : Z) : list Z :=
  st16 (NTOHS ARPHRD_ETHER) ++ st16 (NTOHS ETH_P_IP) ++ [6; 4] ++ st16 (NTOHS op) ++ sha ++ ip_bytes spa ++ dha ++ ip_bytes dpa.

Definition arp_hdr (p : list Z) : Z := ld16 p 0.
Definition arp_pro (p : list Z) : Z := ld16 p 2.
Definition arp_hln (p : list Z) : Z := rd p 4.
Definition arp_pln (p : list Z) : Z := rd p 5.
Definition arp_op (p : list Z) : Z := ld16 p 6.
Definition arp_sha (p : list Z) : list Z := get 8 6 p.
Definition arp_spa (p : list Z) : Z := IP4_ADDR (rd p 14) (rd p 15) (rd p 16) (rd p 17).
Definition arp_dpa (p : list Z) : Z := IP4_ADDR (rd p 24) (rd p 25) (rd p 26) (rd p 27).

Section Driver.

Variables (mmap_ok : bool) (send : frame -> Z).

(** [ifn_send] with what the caller makes of its result. *)
Definition arp_send (f : frame) : Z * list frame := ((if send f <? 0 then send f else 0), [f]).

Definition etharp_query (e : ethif) (addr : Z) : Z * list frame :=
  if negb mmap_ok then (-1, [])
  else arp_send (mk_frame (e_hwaddr bcast) (NTOHS ETH_P_ARP) (mk_arp ARPOP_REQUEST (eth_addr e) (if_ipv4_addr (eth_ifn e)) (replicate 6 0) addr)).

Definition etharp_reply (e : ethif) (dha : list Z) (addr : Z) : Z * list frame :=
  if negb mmap_ok then (-1, [])
  else arp_send (mk_frame dha (NTOHS ETH_P_ARP) (mk_arp ARPOP_REPLY (eth_addr e) (if_ipv4_addr (eth_ifn e)) (hw_copy dha) addr)).

Definition etharp_input (e : ethif) (p : list Z) (len : Z) (st : etharp_system) : Z * list frame * etharp_system :=
  if len <? 28 then (-1, [], st)
  else if negb (arp_dpa p =? if_ipv4_addr (eth_ifn e)) then (-1, [], st)
  else if negb (arp_hdr p =? NTOHS ARPHRD_ETHER) then (-1, [], st)
  else if negb (arp_pro p =? NTOHS ETH_P_IP) then (-1, [], st)
  else if negb (arp_hln p =? 6) then (-1, [], st)
  else if negb (arp_pln p =? 4) then (-1, [], st)
  else
    let st := etharp_add (arp_spa p) (arp_sha p) st in
    if arp_op p =? NTOHS ARPOP_REQUEST then (etharp_reply e (arp_sha p) (arp_spa p), st)
    else (0, [], st).

(** The interfaces by their numbers. *)
Variable ifs : Z -> ethif.

Definition rt_if (r : route) : ethif := ifs (default 0 (rt_ifn r)).

Definition etharp_query_pending (tab : list route) (st : etharp_system) : Z * list frame * etharp_system :=
  let daddr := a_pending st in
  if daddr =? INADDR_ANY then (0, [], st)
  else
    let st := mk_etharp (a_cache st) INADDR_ANY (a_tab st) in
    match __route_lookup daddr tab with
    | None => (-1, [], st)
    | Some k =>
        let rt := at_ tab k in
        let daddr := if negb (rt_gateway rt =? INADDR_ANY) then rt_gateway rt else daddr in
        (etharp_query (rt_if rt) daddr, st)
    end.

(** [ip_output] on an Ethernet interface. *)
Definition ip_output (rt : option route) (p : list Z) (st : etharp_system) : Z * list frame * etharp_system :=
  let dst := match rt with Some r => if negb (rt_gateway r =? INADDR_ANY) then rt_gateway r else ip_daddr p | None => ip_daddr p end in
  match etharp_lookup dst st with
  | (None, st) => (- EAGAIN, [], st)
  | (Some hw, st) =>
      let f := mk_frame hw (NTOHS ETH_P_IP) (get 0 (ntohs (ip_tot_len p)) p) in
      (send f, [f], st)
  end.

(** ** The calls of the applications *)

(** The assignment in the condition clears the gateway of the route and is false. *)
Definition ipv4_arp_lookup (ipaddr : Z) (tab : list route) (st : etharp_system) : (Z + list Z) * list route * etharp_system :=
  match __route_lookup ipaddr tab with
  | None => (inl (- ENOENT), tab, st)
  | Some k =>
      let r := at_ tab k in
      let tab := <[k := mk_route (rt_dst r) INADDR_ANY (rt_genmask r) (rt_ifn r)]> tab in
      if negb (INADDR_ANY =? 0) then
        match etharp_lookup ipaddr st with
        | (Some hw, st) => (inr hw, tab, st)
        | (None, st) => (inl (- ENOENT), tab, st)
        end
      else (inl (- ENOENT), tab, st)
  end.

Definition ipv4_arp_query (ipaddr : Z) (tab : list route) : Z * list frame :=
  match __route_lookup ipaddr tab with
  | None => (- ENOENT, [])
  | Some k => if rt_gateway (at_ tab k) =? INADDR_ANY then etharp_query (rt_if (at_ tab k)) ipaddr else (- ENOENT, [])
  end.

End Driver.

(** ** Addresses in packets *)

Lemma ip_bytes_of a b c d : is_byte a -> is_byte b -> is_byte c -> is_byte d ->
  ip_bytes (a + 256 * b + 65536 * c + 16777216 * d) = [a; b; c; d].
Proof.
  unfold is_byte, ip_bytes, u8. intros Ha Hb Hc Hd. rewrite !Z.shiftr_div_pow2 by lia. change (2 ^ 8) with 256. change (2 ^ 16) with 65536. change (2 ^ 24) with 16777216.
  f_equal; [|f_equal; [|f_equal; [|f_equal]]].
  - replace (a + 256 * b + 65536 * c + 16777216 * d) with (a + (b + 256 * c + 65536 * d) * 256) by lia. rewrite Z.mod_add, Z.mod_small by lia. done.
  - replace (a + 256 * b + 65536 * c + 16777216 * d) with (a + (b + (c + 256 * d) * 256) * 256) by lia. rewrite Z.div_add, Z.div_small, Z.add_0_l, Z.mod_add, Z.mod_small by lia. done.
  - replace (a + 256 * b + 65536 * c + 16777216 * d) with (a + 256 * b + (c + d * 256) * 65536) by lia. rewrite Z.div_add, Z.div_small, Z.add_0_l, Z.mod_add, Z.mod_small by lia. done.
  - replace (a + 256 * b + 65536 * c + 16777216 * d) with (a + 256 * b + 65536 * c + d * 16777216) by lia. rewrite Z.div_add, Z.div_small, Z.add_0_l, Z.mod_small by lia. done.
Qed.

Lemma IP4_ADDR_of a b c d : is_byte a -> is_byte b -> is_byte c -> is_byte d -> IP4_ADDR a b c d = a + 256 * b + 65536 * c + 16777216 * d.
Proof.
  unfold is_byte, IP4_ADDR. intros Ha Hb Hc Hd. change 255 with (Z.ones 8). rewrite !Z.land_ones, !Z.mod_small by (cbn; lia). rewrite Z.shiftl_0_r.
  rewrite (lor_shift a b 8), (lor_shift _ c 16), (lor_shift _ d 24) by (change (2 ^ 8) with 256 in *; change (2 ^ 16) with 65536 in *; change (2 ^ 24) with 16777216 in *; lia). change (2 ^ 8) with 256. change (2 ^ 16) with 65536. change (2 ^ 24) with 16777216. rewrite u32_small by lia. lia.
Qed.

(** What the packet says is what was put in it. *)
Lemma arp_fields op sha spa dha dpa :
  length sha = 6%nat -> length dha = 6%nat -> 0 <= op < 256 -> 0 <= spa < 4294967296 -> 0 <= dpa < 4294967296 ->
  let p := mk_arp op sha spa dha dpa in
  len p = 28 /\ arp_hdr p = NTOHS ARPHRD_ETHER /\ arp_pro p = NTOHS ETH_P_IP /\ arp_hln p = 6 /\ arp_pln p = 4 /\ arp_op p = NTOHS op /\
  arp_sha p = sha /\ arp_spa p = spa /\ arp_dpa p = dpa.
Proof.
  intros Ls Ld Ho Hs Hd p. destruct (four_bytes spa Hs) as (a & b & c & d & -> & B1 & B2 & B3 & B4). destruct (four_bytes dpa Hd) as (a' & b' & c' & d' & -> & B1' & B2' & B3' & B4').
  unfold p, mk_arp. rewrite !ip_bytes_of by done.
  do 6 (destruct sha as [|? sha]; [done|]). destruct sha; [|done]. do 6 (destruct dha as [|? dha]; [done|]). destruct dha; [|done].
  assert (No : NTOHS op = 256 * op).
  { unfold NTOHS. rewrite (u16_small op) by lia. change 0x00ff with (Z.ones 8). rewrite Z.land_ones, Z.mod_small by (cbn; lia).
    replace (Z.land op 65280) with 0. { rewrite Z.shiftr_0_l, Z.lor_0_r, Z.shiftl_mul_pow2, u16_small by lia. lia. }
    rewrite <- (Z.mod_small op (2 ^ 8)) by (cbn; lia). rewrite <- Z.land_ones, <- Z.land_assoc by lia. change (Z.land (Z.ones 8) 65280) with 0. by rewrite Z.land_0_r. }
  rewrite No. assert (So : st16 (256 * op) = [0; op]) by (replace (256 * op) with (0 + 256 * op) by lia; apply st16_bytes; unfold is_byte; lia). rewrite So.
  change (st16 (NTOHS 1)) with [0; 1]. change (st16 (NTOHS 0x0800)) with [8; 0]. cbn [app].
  split_and!; try reflexivity.
  - by apply IP4_ADDR_of.
  - by apply IP4_ADDR_of.
Qed.

(** ** Entries of the table *)

(** At most one entry is about the address or the hardware address. *)
Definition no_clash (ip : Z) (hw : list Z) (st : etharp_system) : Prop :=
  forall i j p q, a_tab st !! i = Some p -> a_tab st !! j = Some q -> same_host ip hw p = true -> same_host ip hw q = true -> i = j.

Record arp_ok (st : etharp_system) : Prop := {
  ao_len : (0 < length (a_tab st))%nat;
  ao_cache : match a_cache st with None => True | Some i => (i < length (a_tab st))%nat end;
  ao_counts : Forall (fun p => 0 <= e_count p < 65536) (a_tab st)
}.

Lemma hw_copy_id hw : length hw = 6%nat -> hw_copy hw = hw.
Proof. intros L. do 6 (destruct hw as [|? hw]; [done|]). by destruct hw. Qed.

(** The scan of the table. *)
Lemma add_loop_app ip hw pre suf : forall i mn new, exists mn' new', add_loop i (pre ++ suf) ip hw mn new = add_loop (i + length pre) suf ip hw mn' new'.
Proof.
  induction pre as [|p pre IH]; intros i mn new; cbn [app length]; [rewrite Nat.add_0_r; by eauto|]. rewrite <- Nat.add_succ_comm. cbn [add_loop]. destruct (same_host ip hw p); [apply IH|]. destruct (_ <? _); apply IH.
Qed.

Lemma add_loop_stays ip hw tab k : Forall (fun p => same_host ip hw p = false /\ 0 <= e_count p) tab -> forall i, add_loop i tab ip hw 0 (Some k) = Some k.
Proof.
  induction 1 as [|p tab [M C] _ IH]; intros i; [done|]. cbn [add_loop]. rewrite M. destruct (Z.ltb_spec (e_count p) 0); [lia|apply IH].
Qed.

Lemma add_loop_some ip hw tab : forall i mn new, (tab <> [] /\ Forall (fun p => e_count p < mn) tab) \/ (exists k, new = Some k /\ (k < i)%nat) ->
  exists k, add_loop i tab ip hw mn new = Some k /\ (k < i + length tab)%nat.
Proof.
  induction tab as [|p tab IH]; intros i mn new H; cbn [add_loop length].
  - destruct H as [[? _]|(k & -> & Hk)]; [done|]. exists k. split; [done|lia].
  - rewrite <- Nat.add_succ_comm. destruct (same_host ip hw p); [apply IH; right; exists i; split; [done|lia]|]. destruct (Z.ltb_spec (e_count p) mn) as [L|L]; [apply IH; right; exists i; split; [done|lia]|].
    destruct H as [[_ H]|(k & -> & Hk)]; [apply Forall_cons in H as [H _]; lia|]. apply IH. right. exists k. split; [done|lia].
Qed.

(** The entry that is written, and that no other entry has the address. *)
Lemma add_loop_picks ip hw st : arp_ok st -> no_clash ip hw st ->
  exists k, add_loop 0 (a_tab st) ip hw 100000 None = Some k /\ (k < length (a_tab st))%nat /\ forall j q, a_tab st !! j = Some q -> same_host ip hw q = true -> j = k.
Proof.
  intros [L _ C] N. destruct (add_loop_some ip hw (a_tab st) 0 100000 None) as (k & E & Hk).
  { left. split; [by destruct (a_tab st); [cbn in L; lia|]|]. eapply Forall_impl; [exact C|]. cbn. lia. }
  exists k. split; [done|]. split; [done|]. intros j q Hj M. apply list_elem_of_split_length in Hj as (pre & suf & Et & Ej).
  unfold no_clash in N. rewrite Et in *. destruct (add_loop_app ip hw pre (q :: suf) 0 100000 None) as (mn & new & A). rewrite A in E. cbn [add_loop Nat.add] in E. rewrite M in E.
  rewrite add_loop_stays in E; [congruence|]. apply Forall_app in C as [_ C]. apply Forall_cons in C as [_ C]. apply Forall_lookup. intros i p Hp. split; [|rewrite Forall_lookup in C; apply (C i p Hp)].
  destruct (same_host ip hw p) eqn:Mp; [|done]. exfalso. enough (length pre = length pre + S i)%nat by lia. apply (N _ _ q p); [by apply list_lookup_middle| |done|done].
  rewrite lookup_app_r by lia. by replace (length pre + S i - length pre)%nat with (S i) by lia.
Qed.

Lemma lookup_tab_some ip tab : forall i n, lookup_tab i tab ip = Some n -> exists j p, n = (i + j)%nat /\ tab !! j = Some p /\ e_ipaddr p = ip.
Proof.
  induction tab as [|p tab IH]; intros i n; cbn [lookup_tab]; [done|]. destruct (Z.eqb_spec (e_ipaddr p) ip) as [E|_]; [intros [= <-]; exists O, p; split_and!; [lia|done|done]|].
  intros E. destruct (IH _ _ E) as (j & q & -> & Q & Eq). exists (S j), q. split_and!; [lia|done|done].
Qed.

Lemma lookup_tab_none ip tab : forall i, lookup_tab i tab ip = None -> Forall (fun p => e_ipaddr p <> ip) tab.
Proof.
  induction tab as [|p tab IH]; intros i; cbn [lookup_tab]; [done|]. destruct (Z.eqb_spec (e_ipaddr p) ip); [done|]. intros E. constructor; [done|]. by apply (IH (S i)).
Qed.

Lemma same_ip ip hw p : e_ipaddr p = ip -> same_host ip hw p = true.
Proof. intros <-. unfold same_host. by rewrite Z.eqb_refl. Qed.

(** The lookup gives the hardware address of the only entry with the address. *)
Lemma lookup_only ip hw st k p : ip <> INADDR_BROADCAST -> arp_ok st -> a_tab st !! k = Some p -> e_ipaddr p = ip -> e_hwaddr p = hw ->
  (forall j q, a_tab st !! j = Some q -> e_ipaddr q = ip -> j = k) -> (etharp_lookup ip st).1 = Some hw.
Proof.
  intros B O Hk Ei Eh U. unfold etharp_lookup. destruct (Z.eqb_spec (e_ipaddr (cached st)) ip) as [E|E].
  - cbn [fst]. f_equal. revert E. unfold cached. pose proof (ao_cache _ O) as C. destruct (a_cache st) as [i|]; [|intros E; by subst].
    destruct (lookup_lt_is_Some_2 (a_tab st) i C) as [q Hq]. rewrite Hq. cbn [default from_option id]. intros E. rewrite (U i q Hq E) in Hq. congruence.
  - destruct (Z.eqb_spec ip 0xffffffff) as [Eb|Nb]; [done|]. destruct (lookup_tab 0 (a_tab st) ip) as [n|] eqn:F.
    + apply lookup_tab_some in F as (j & q & -> & Hq & Eq). cbn [fst Nat.add]. rewrite (U j q Hq Eq), Hk in *. cbn. by rewrite Eh.
    + apply lookup_tab_none in F. rewrite Forall_lookup in F. by destruct (F k p Hk).
Qed.

(** The address that was added is found. *)
Lemma etharp_add_lookup ip hw st : arp_ok st -> no_clash ip hw st -> length hw = 6%nat -> ip <> INADDR_BROADCAST ->
  arp_ok (etharp_add ip hw st) /\ (etharp_lookup ip (etharp_add ip hw st)).1 = Some hw.
Proof.
  intros O N L B. destruct (add_loop_picks ip hw st O N) as (k & E & Hk & U). unfold etharp_add. rewrite E, hw_copy_id by done. set (st' := mk_etharp _ _ _).
  assert (O' : arp_ok st'). { destruct O as [O1 O2 O3]. constructor; cbn [a_tab a_cache st']; rewrite ?length_insert; [done|done|]. apply Forall_insert; [done|cbn; lia]. }
  split; [done|]. apply (lookup_only ip hw st' k (mk_entry 0 hw ip)); try done; cbn [a_tab st'].
  - by apply list_lookup_insert_eq.
  - intros j q Hj Ej. destruct (decide (j = k)) as [|Ne]; [done|]. rewrite list_lookup_insert_ne in Hj by done. by apply (U j q), same_ip.
Qed.

(** ** Resolution *)

Lemma lookup_fails ip st : (etharp_lookup ip st).1 = None -> etharp_lookup ip st = (None, mk_etharp (a_cache st) ip (a_tab st)).
Proof.
  unfold etharp_lookup. destruct (_ =? _); [done|]. destruct (_ =? _); [done|]. destruct (lookup_tab 0 (a_tab st) ip) as [n|] eqn:F; [|done].
  apply lookup_tab_some in F as (j & q & -> & Hq & _). cbn [Nat.add fst]. by rewrite Hq.
Qed.

(** A host answers a request and learns who asked. *)
Lemma input_request send e ip hw st : 0 <= ip < 4294967296 -> ip <> INADDR_BROADCAST -> length hw = 6%nat -> 0 <= if_ipv4_addr (eth_ifn e) < 4294967296 ->
  arp_ok st -> no_clash ip hw st -> (forall f, 0 <= send f) ->
  let st' := etharp_add ip hw st in
  etharp_input true send e (mk_arp ARPOP_REQUEST hw ip (replicate 6 0) (if_ipv4_addr (eth_ifn e))) 28 st =
    (0, [mk_frame hw (NTOHS ETH_P_ARP) (mk_arp ARPOP_REPLY (eth_addr e) (if_ipv4_addr (eth_ifn e)) hw ip)], st').
Proof.
  intros Hi Hb Hw He O N S st'. pose proof (arp_fields ARPOP_REQUEST hw ip (replicate 6 0) (if_ipv4_addr (eth_ifn e)) Hw eq_refl ltac:(lia) Hi He) as F.
  cbv zeta in F. revert F. generalize (mk_arp 1 hw ip (replicate 6 0) (if_ipv4_addr (eth_ifn e))). intros p (_ & F1 & F2 & F3 & F4 & F5 & F6 & F7 & F8).
  unfold etharp_input. rewrite F1, F2, F3, F4, F5, F6, F7, F8, !Z.eqb_refl. change (28 <? 28) with false. change (6 =? 6) with true. change (4 =? 4) with true. cbn [negb].
  unfold etharp_reply, arp_send. cbn [negb]. rewrite hw_copy_id by done. pose proof (S (mk_frame hw (NTOHS 2054) (mk_arp 2 (eth_addr e) (if_ipv4_addr (eth_ifn e)) hw ip))).
  destruct (Z.ltb_spec (send (mk_frame hw (NTOHS 2054) (mk_arp 2 (eth_addr e) (if_ipv4_addr (eth_ifn e)) hw ip))) 0); [lia|]. done.
Qed.

(** A host learns from the answer. *)
Lemma input_reply send e ip hw dha st : 0 <= ip < 4294967296 -> length hw = 6%nat -> length dha = 6%nat -> 0 <= if_ipv4_addr (eth_ifn e) < 4294967296 ->
  etharp_input true send e (mk_arp ARPOP_REPLY hw ip dha (if_ipv4_addr (eth_ifn e))) 28 st = (0, [], etharp_add ip hw st).
Proof.
  intros Hi Hw Hd He. pose proof (arp_fields ARPOP_REPLY hw ip dha (if_ipv4_addr (eth_ifn e)) Hw Hd ltac:(lia) Hi He) as F.
  cbv zeta in F. revert F. generalize (mk_arp 2 hw ip dha (if_ipv4_addr (eth_ifn e))). intros p (_ & F1 & F2 & F3 & F4 & F5 & F6 & F7 & F8).
  unfold etharp_input. rewrite F1, F2, F3, F4, F5, F6, F7, F8, !Z.eqb_refl. done.
Qed.

(** The next hop of a datagram. *)
Definition next_hop (rt : route) (p : list Z) : Z := if negb (rt_gateway rt =? INADDR_ANY) then rt_gateway rt else ip_daddr p.

(** C31: a datagram has a route, and the hardware address of its next hop, the gateway or the host
    itself, is not known; the next hop is on a link (its own route has no gateway), the
    drivers send what they are given, and in the table of each host at most one entry holds the other's IP address
    or hardware address.  Then the output asks to try
    again and a request for the next hop is broadcast;
    the host with that address answers and learns the sender's address; with the answer
    the output sends the datagram to that host. *)
Theorem output_resolves send ifs tab k k' p sta stb eb
    (Sok : forall f, 0 <= send f) (Rt : __route_lookup (ip_daddr p) tab = Some k)
    (Hop : 0 <= next_hop (at_ tab k) p < INADDR_BROADCAST) (Hop0 : next_hop (at_ tab k) p <> INADDR_ANY)
    (Link : __route_lookup (next_hop (at_ tab k) p) tab = Some k') (Direct : rt_gateway (at_ tab k') = INADDR_ANY)
    (Unknown : (etharp_lookup (next_hop (at_ tab k) p) sta).1 = None) (Oa : arp_ok sta) (Ob : arp_ok stb)
    (Peer : if_ipv4_addr (eth_ifn eb) = next_hop (at_ tab k) p) (Lb : length (eth_addr eb) = 6%nat)
    (La : length (eth_addr (rt_if ifs (at_ tab k'))) = 6%nat) (Ia : 0 <= if_ipv4_addr (eth_ifn (rt_if ifs (at_ tab k'))) < INADDR_BROADCAST)
    (Na : no_clash (next_hop (at_ tab k) p) (eth_addr eb) sta) (Nb : no_clash (if_ipv4_addr (eth_ifn (rt_if ifs (at_ tab k')))) (eth_addr (rt_if ifs (at_ tab k'))) stb) :
  let ea := rt_if ifs (at_ tab k') in
  exists q r f sta1 sta2 sta3 sta4 stb1,
    ip_output send (Some (at_ tab k)) p sta = (- EAGAIN, [], sta1) /\
    etharp_query_pending true send ifs tab sta1 = (0, [q], sta2) /\ f_dst q = e_hwaddr bcast /\
    etharp_input true send eb (f_pkt q) 28 stb = (0, [r], stb1) /\ f_dst r = eth_addr ea /\
    etharp_input true send ea (f_pkt r) 28 sta2 = (0, [], sta3) /\
    ip_output send (Some (at_ tab k)) p sta3 = (send f, [f], sta4) /\ f_dst f = eth_addr eb /\ f_pkt f = get 0 (ntohs (ip_tot_len p)) p /\
    (etharp_lookup (if_ipv4_addr (eth_ifn ea)) stb1).1 = Some (eth_addr ea).
Proof.
  intros ea. fold ea in La, Ia, Nb. pose proof (lookup_fails _ _ Unknown) as E1. unfold ip_output. fold (next_hop (at_ tab k) p). revert Hop Hop0 Link Unknown Peer Na E1. generalize (next_hop (at_ tab k) p). intros hop Hop Hop0 Link _ Peer Na E1.
  rewrite E1. set (sta1 := mk_etharp (a_cache sta) hop (a_tab sta)). set (sta2 := mk_etharp (a_cache sta) INADDR_ANY (a_tab sta)).
  assert (O2 : arp_ok sta2) by (by destruct Oa; constructor). assert (N2 : no_clash hop (eth_addr eb) sta2) by exact Na.
  destruct (etharp_add_lookup hop (eth_addr eb) sta2 O2 N2 Lb ltac:(lia)) as [_ E3]. destruct (etharp_add_lookup _ _ stb Ob Nb La ltac:(lia)) as [_ E2].
  set (q := mk_frame (e_hwaddr bcast) (NTOHS 2054) (mk_arp 1 (eth_addr ea) (if_ipv4_addr (eth_ifn ea)) (replicate 6 0) hop)).
  assert (Q : etharp_query_pending true send ifs tab sta1 = (0, [q], sta2)).
  { unfold etharp_query_pending. cbn [a_pending a_cache a_tab sta1]. destruct (Z.eqb_spec hop 0); [done|]. rewrite Link, Direct, Z.eqb_refl. cbn [negb]. unfold etharp_query, arp_send. cbn [negb].
    fold ea q. destruct (Z.ltb_spec (send q) 0) as [L|_]; [pose proof (Sok q); lia|done]. }
  pose proof (input_request send eb (if_ipv4_addr (eth_ifn ea)) (eth_addr ea) stb ltac:(lia) ltac:(lia) La ltac:(rewrite Peer; lia) Ob Nb Sok) as I1. cbv zeta in I1. rewrite Peer in I1.
  pose proof (input_reply send ea hop (eth_addr eb) (eth_addr ea) sta2 ltac:(lia) Lb La ltac:(lia)) as I2.
  destruct (etharp_lookup hop (etharp_add hop (eth_addr eb) sta2)) as [h sta4] eqn:E4. cbn [fst] in E3. subst h.
  eexists q, _, _, sta1, sta2, (etharp_add hop (eth_addr eb) sta2), sta4, _. split; [done|]. split; [exact Q|]. split; [done|]. split; [exact I1|]. split; [done|]. split; [exact I2|].
  rewrite E4. split; [done|]. split; [done|]. split; [done|]. exact E2.
Qed.

(** ** Examples *)

Definition demo_tab : list route := foldl route_step init_routes demo_routes.
Definition demo_eth (ip mac : Z) : ethif := mk_ethif (mk_ifnet ip 0x00ffffff 1500) [2; 0; 0; 0; 0; mac].

(** A datagram for 10.1.2.3, which goes through the gateway 192.168.1.254. *)
Definition far_packet : list Z := header 17 127 0 1 0x0201a8c0 0x0302010a 28 0 ++ zeros 8.
Definition sent_ok (f : frame) : Z := 0.

Lemma output_resolves_witness :
  let ea := demo_eth 0x0201a8c0 1 in
  exists q r f sta1 sta2 sta3 sta4 stb1,
    ip_output sent_ok (Some (at_ demo_tab 1)) far_packet init_etharp = (- EAGAIN, [], sta1) /\
    etharp_query_pending true sent_ok (fun _ => ea) demo_tab sta1 = (0, [q], sta2) /\ f_dst q = e_hwaddr bcast /\
    etharp_input true sent_ok (demo_eth 0xfe01a8c0 9) (f_pkt q) 28 init_etharp = (0, [r], stb1) /\ f_dst r = eth_addr ea /\
    etharp_input true sent_ok ea (f_pkt r) 28 sta2 = (0, [], sta3) /\
    ip_output sent_ok (Some (at_ demo_tab 1)) far_packet sta3 = (sent_ok f, [f], sta4) /\ f_dst f = eth_addr (demo_eth 0xfe01a8c0 9) /\
    f_pkt f = get 0 (ntohs (ip_tot_len far_packet)) far_packet /\ (etharp_lookup 0x0201a8c0 stb1).1 = Some (eth_addr ea).
Proof.
  assert (N : forall ip hw, (ip =? 0) = false -> hw_eq (replicate 6 0) hw = false -> no_clash ip hw init_etharp).
  { intros ip hw Hi Hh i j p q Hp _ M _. exfalso. assert (p = mk_entry 0 (replicate 6 0) 0) as -> by (by do 2 (destruct i as [|i]; [by inversion Hp|])).
    unfold same_host in M. cbn [e_ipaddr e_hwaddr] in M. rewrite Z.eqb_sym, Hi, Hh in M. done. }
  apply (output_resolves sent_ok (fun _ => demo_eth 0x0201a8c0 1) demo_tab 1 0 far_packet init_etharp init_etharp (demo_eth 0xfe01a8c0 9));
    first [apply N; vm_compute; reflexivity | done | (vm_compute; reflexivity) | (vm_compute; split; done) | (constructor; cbn; [lia|done|repeat constructor; cbn; lia])].
Defined.

(** The call for an address through the application interface fails for every address
    that has a route, and takes the gateway out of the route. *)
Theorem arp_lookup_clears_gateway ipaddr tab st k : __route_lookup ipaddr tab = Some k ->
  exists tab', ipv4_arp_lookup ipaddr tab st = (inl (- ENOENT), tab', st) /\ rt_gateway (at_ tab' k) = INADDR_ANY.
Proof.
  intros E. unfold ipv4_arp_lookup. rewrite E. eexists. split; [done|]. unfold at_. destruct (decide (k < length tab)%nat) as [L|L]; [by rewrite list_lookup_insert_eq|].
  rewrite lookup_ge_None_2; [done|]. rewrite length_insert. lia.
Qed.

(** A host that takes over the address of another one: its entry gets the address, the
    old entry keeps it too, and the lookup goes on finding the old one. *)
Theorem takeover_keeps_stale :
  let old := [2; 0; 0; 0; 0; 7] in
  let new := [2; 0; 0; 0; 0; 8] in
  let st := etharp_add 11 new (etharp_lookup 10 (etharp_add 10 old init_etharp)).2 in
  (etharp_lookup 10 st).1 = Some old /\ (etharp_lookup 10 (etharp_add 10 new st)).1 = Some old.
Proof. done. Qed.
