(* ===== verification/Icmp.v ===== *)
(** * Control messages

    src/sdk/libtcpip/icmp.c: the echo reply, the error messages and their reception.  A
    packet is rewritten in place, as in the code: [p] is the buffer of the datagram, with
    at least the room of the message, [addr] where it is and [off] the offset of the
    message in it. *)

From stdpp Require Import base tactics numbers list.
From Stdlib Require Import ZArith Lia.
From S2P Require Import Prelude Buffer Chksum Ip Mbuf Udp Route Arp.

Abbreviation ICMP_ECHOREPLY := 0 (only parsing).
Abbreviation ICMP_DEST_UNREACH := 3 (only parsing).
Abbreviation ICMP_ECHO := 8 (only parsing).
Abbreviation ICMP_PARAMETERPROB := 12 (only parsing).
Abbreviation NR_ICMP_TYPES := 18 (only parsing).
Abbreviation ICMP_PORT_UNREACH := 3 (only parsing).
Abbreviation ICMP_FRAG_NEEDED := 4 (only parsing).
Abbreviation ICMP_MINLEN := 8 (only parsing).
Abbreviation IP_DF := 0x0040 (only parsing).
Abbreviation ip_defttl := 127 (only parsing).
Abbreviation ip_deftos := 0 (only parsing).

(** ** Addresses *)

Definition in_broadcast (addr : Z) (ifn : ifnet) : bool := Z.lor addr (if_ipv4_mask ifn) =? INADDR_BROADCAST.
Definition IN_MULTICAST (a : Z) : bool := Z.land a 0x000000f0 =? 0x000000e0.

Section Icmp.

Variables (mmap_ok : bool) (send : frame -> Z) (ifs : Z -> ethif) (tab : list route).

(** The datagram goes out; when the hardware address is missing it is asked for. *)
Definition output_or_query (rt : route) (p : list Z) (st : etharp_system) : Z * list frame * etharp_system :=
  let '(ret, fs, st) := ip_output send (Some rt) p st in
  if ret <? 0 then
    if ret =? - EAGAIN then let '(_, gs, st) := etharp_query_pending mmap_ok send ifs tab st in (-1, fs ++ gs, st)
    else (-1, fs, st)
  else (0, fs, st).

(** ** Echo *)

(** The checksum of the reply from that of the request. *)
Definition echo_chksum (c : Z) : Z :=
  if NTOHS (0xffff - Z.shiftl ICMP_ECHO 8) <=? c then u16 (c + (NTOHS (Z.shiftl ICMP_ECHO 8) + 1))
  else u16 (c + NTOHS (Z.shiftl ICMP_ECHO 8)).

Definition icmp_echoreplay (p : list Z) (off : Z) (st : etharp_system) : Z * list frame * etharp_system :=
  let p := put off [ICMP_ECHOREPLY] p in
  let p := put (off + 2) (st16 (echo_chksum (ld16 p (off + 2)))) p in
  match __route_lookup (ip_daddr p) tab with
  | None => (-1, [], st)
  | Some k =>
      let tmp := ip_saddr p in
      let p := put 12 (st32 (ip_daddr p)) p in
      let p := put 16 (st32 tmp) p in
      let '(ret, fs, st) := output_or_query (at_ tab k) p st in
      ((if ret <? 0 then -1 else 1), fs, st)
  end.

(** ** Reception *)

(** Where the transport header of the quoted datagram at [off] is. *)
Definition icmp_skip_ip_hdr (p : list Z) (off frag_len : Z) : option Z :=
  if negb (Z.shiftr (rd p off) 4 =? 4) then None
  else
    let hdr_len := Z.shiftl (Z.land (rd p off) 15) 2 in
    if frag_len <? hdr_len then None else Some (off + hdr_len).

(** [None] stands for a quoted header that is not there. *)
Definition dest_unreach (p : list Z) (off len : Z) (u : udp_system) : udp_system :=
  match icmp_skip_ip_hdr p (off + 8) len with
  | Some udp =>
      if (rd p (off + 8 + 9) =? IPPROTO_UDP) && (rd p (off + 1) =? ICMP_PORT_UNREACH) then
        (udp_port_unreach (ld32 p (off + 8 + 16)) (ld16 p (udp + 2)) (ld32 p (off + 8 + 12)) (ld16 p udp) u).2
      else u
  | None => u
  end.

Definition icmp_input (p : list Z) (off __len : Z) (st : etharp_system) (u : udp_system) : Z * list frame * etharp_system * udp_system :=
  let len := __len - ICMP_MINLEN in
  let type := rd p off in
  if type =? ICMP_ECHO then (icmp_echoreplay p off st, u)
  else if type =? ICMP_DEST_UNREACH then (0, [], st, dest_unreach p off len u)
  else (-1, [], st, u).

(** ** Errors *)

(** With the sequence number of the datagrams; [None] does not occur. *)
Definition icmp_send (addr : Z) (p : list Z) (off __len seq : Z) (st : etharp_system) : option (Z * list frame * etharp_system * Z) :=
  let len := __len + ICMP_MINLEN in
  let saddr := ip_daddr p in
  let daddr := ip_saddr p in
  let '(p, seq) := iph_template IPPROTO_ICMP ip_defttl ip_deftos p seq in
  match mk_iphdr addr saddr daddr len p with
  | None => None
  | Some p =>
      let p := put (off + 2) (st16 0) p in
      match in_chksum 0 (addr + off) (get off len p) with
      | None => None
      | Some sum =>
          let p := put (off + 2) (st16 (u16 (Z.lnot sum))) p in
          match __route_lookup daddr tab with
          | None => Some (-1, [], st, seq)
          | Some k => Some (output_or_query (at_ tab k) p st, seq)
          end
      end
  end.

Definition icmp_error (addr : Z) (p : list Z) (type code : Z) (ifn : ifnet) (seq : Z) (st : etharp_system) : option (Z * list frame * etharp_system * Z) :=
  if negb (Z.land (ip_off p) (Z.lnot (Z.lor IP_MF IP_DF)) =? 0) then Some (-1, [], st, seq)
  else
    let len := Z.min (Z.shiftl (ip_hlen p) 2 + 8) (ntohs (ip_tot_len p)) in
    let p := put 28 (get 0 len p) p in
    if in_broadcast (ip_daddr p) ifn || IN_MULTICAST (ip_daddr p) then Some (-1, [], st, seq)
    else if NR_ICMP_TYPES <? u32 type then Some (-1, [], st, seq)
    else
      let p := put 20 [u8 type] p in
      let p := put 24 (st32 0) p in
      let '(p, code) :=
        if type =? ICMP_PARAMETERPROB then (put 24 [u8 code] p, 0)
        else if (type =? ICMP_DEST_UNREACH) && (code =? ICMP_FRAG_NEEDED) then (put 26 (st16 (htons (if_mtu ifn))) p, code)
        else (p, code) in
      let p := put 21 [u8 code] p in
      icmp_send addr p 20 len seq st.

End Icmp.

(** ** The checksum of the reply *)

Lemma ones_full x : 0 < x -> (ones x = 65535 <-> x mod 65535 = 0).
Proof.
  intros H. unfold ones. destruct (Z.eqb_spec x 0); [lia|]. pose proof (Z.div_mod (x - 1) 65535). pose proof (Z.mod_pos_bound (x - 1) 65535). split; intros E.
  - symmetry. apply (Z.mod_unique_pos _ _ ((x - 1) / 65535 + 1)); lia.
  - pose proof (Z.div_mod x 65535 ltac:(lia)) as D. rewrite E in D. rewrite <- (Z.mod_unique_pos (x - 1) 65535 (x / 65535 - 1) 65534); lia.
Qed.

(** The type 8 moves from the message to the checksum. *)
Lemma echo_chksum_mod c : 0 <= c < 65536 -> 0 <= echo_chksum c < 65536 /\ exists k, echo_chksum c = c + 8 + k * 65535.
Proof.
  intros H. unfold echo_chksum. change (NTOHS (0xffff - Z.shiftl 8 8)) with 65527. change (NTOHS (Z.shiftl 8 8)) with 8. destruct (Z.leb_spec 65527 c).
  - assert (u16 (c + (8 + 1)) = c + 9 - 65536) as -> by (unfold u16; symmetry; apply (Z.mod_unique_pos _ _ 1); lia). split; [lia|]. exists (-1). lia.
  - rewrite u16_small by lia. split; [lia|]. exists 0. lia.
Qed.

Lemma echo_chksum_valid s c : 0 <= c < 65536 -> 0 < s -> ones (s + 8 + c) = 65535 -> ones (s + echo_chksum c) = 65535.
Proof.
  intros Hc Hs E. destruct (echo_chksum_mod c Hc) as [R [k K]]. apply ones_full in E; [|lia]. apply ones_full; [lia|]. rewrite K.
  replace (s + (c + 8 + k * 65535)) with (s + 8 + c + k * 65535) by lia. by rewrite Z.mod_add.
Qed.

Lemma wsum_word a b c rest : 0 <= c < 65536 -> wsum (a :: b :: st16 c ++ rest) = a + wsum (0 :: b :: 0 :: 0 :: rest) + c.
Proof. intros H. destruct (two_bytes c H) as (x & y & -> & X & Y). rewrite st16_bytes by done. cbn [app wsum]. lia. Qed.

Lemma header_swap proto ttl tos id a b tot c : wsum (header proto ttl tos id a b tot c) = wsum (header proto ttl tos id b a tot c).
Proof. unfold header, st32, st16. cbn [app wsum]. lia. Qed.

(** ** The exchange *)

(** A datagram with a good header. *)
Definition datagram (proto ttl tos id a b : Z) (m : list Z) : list Z :=
  header proto ttl tos id a b (len m + 20) (65535 - ones (wsum (header proto ttl tos id a b (len m + 20) 0))) ++ m.

Lemma ld16_at h x y r : ld16 (h ++ x :: y :: r) (len h) = x + 256 * y.
Proof. unfold ld16. by rewrite rd_mid, rd_mid2. Qed.

(** What the reply does to the buffer. *)
Lemma echo_buffer ttl tos id a b tot c code ck rest : 0 <= ck < 65536 -> 0 <= a < 4294967296 -> 0 <= b < 4294967296 ->
  let p := put 20 [ICMP_ECHOREPLY] (header 1 ttl tos id a b tot c ++ 8 :: code :: st16 ck ++ rest) in
  let p' := put 22 (st16 (echo_chksum (ld16 p 22))) p in
  ip_saddr p' = a /\ ip_daddr p' = b /\
  put 16 (st32 (ip_saddr p')) (put 12 (st32 (ip_daddr p')) p') = header 1 ttl tos id b a tot c ++ 0 :: code :: st16 (echo_chksum ck) ++ rest.
Proof.
  intros Hc Ha Hb. destruct (two_bytes ck Hc) as (x & y & -> & X & Y). rewrite (st16_bytes x y) by done. cbn [app]. cbv zeta.
  assert (E : put 20 [0] (header 1 ttl tos id a b tot c ++ 8 :: code :: x :: y :: rest) = header 1 ttl tos id a b tot c ++ 0 :: code :: x :: y :: rest) by reflexivity.
  rewrite E. assert (L : ld16 (header 1 ttl tos id a b tot c ++ 0 :: code :: x :: y :: rest) 22 = x + 256 * y) by reflexivity. rewrite L. set (e := echo_chksum _).
  assert (E2 : put 22 (st16 e) (header 1 ttl tos id a b tot c ++ 0 :: code :: x :: y :: rest) = header 1 ttl tos id a b tot c ++ 0 :: code :: st16 e ++ rest) by reflexivity.
  rewrite E2, header_saddr, header_daddr by done. split_and!; reflexivity.
Qed.

Lemma header_tot_len proto ttl tos id a b tot c pl : 0 <= tot < 65536 -> ntohs (ip_tot_len (header proto ttl tos id a b tot c ++ pl)) = tot.
Proof.
  intros H. change (ip_tot_len _) with (tot / 256 + 256 * (tot mod 256)). rewrite ntohs_bytes.
  - pose proof (Z.div_mod tot 256). lia.
  - split; [apply Z.div_pos; lia|apply Z.div_lt_upper_bound; lia].
  - apply Z.mod_pos_bound. lia.
Qed.

Lemma get_all proto ttl tos id a b tot c m t : get 0 (len m + 20) (header proto ttl tos id a b tot c ++ m ++ t) = header proto ttl tos id a b tot c ++ m.
Proof.
  unfold get. change (drop (Z.to_nat 0) ?l) with l. rewrite app_assoc. apply take_app_length'. rewrite length_app. unfold len. change (length (header _ _ _ _ _ _ _ _)) with 20%nat. lia.
Qed.

(** A datagram to a host on the link whose hardware address is known goes out, without
    what follows it in the buffer. *)
Lemma output_known mmap_ok send ifs tab rt proto ttl tos id a b m t c st hw :
  rt_gateway rt = INADDR_ANY -> 0 <= b < 4294967296 -> len m + 20 < 65536 -> (etharp_lookup b st).1 = Some hw -> (forall f, 0 <= send f) ->
  let h := header proto ttl tos id a b (len m + 20) c in
  output_or_query mmap_ok send ifs tab rt (h ++ m ++ t) st = (0, [mk_frame hw (NTOHS ETH_P_IP) (h ++ m)], (etharp_lookup b st).2).
Proof.
  intros G Hb Hm K S h. assert (Hl : 0 <= len m) by (unfold len; lia). unfold output_or_query, ip_output, h. rewrite G, Z.eqb_refl. cbn [negb]. rewrite header_daddr by done.
  destruct (etharp_lookup b st) as [w st']. cbn [fst] in K. subst w. cbn [snd]. rewrite header_tot_len, get_all by lia.
  match goal with |- context [send ?f] => pose proof (S f) as F; destruct (Z.ltb_spec (send f) 0); [lia|done] end.
Qed.

(** C32: the reply to a valid echo request whose code, identifier, number and data are not all zero,
    from a sender whose hardware address the host knows, where the route that the host
    looks up has no gateway and the interface sends.  The host sends it to that hardware address,
    with the addresses exchanged and the data unchanged; the checksum
    of the message, which is adjusted and not computed again, is right, and the IP
    input of the sender accepts the datagram and hands the message on. *)
Theorem echo_reply_valid {St} mmap_ok send ifs tab st u ttl tos id a b code ck rest hw k ifa (icmp udp tcp : list Z -> Z -> Z -> St -> Z * St) raw addr s
    (Ht : is_byte ttl) (Hs : is_byte tos) (Hid : 0 <= id < 2 ^ 16) (Ha : 0 <= a < 2 ^ 32) (Hb : 0 <= b < 2 ^ 32) (Hck : 0 <= ck < 2 ^ 16) (Hl : len rest + 24 < 2 ^ 16)
    (Valid : ones (wsum (ICMP_ECHO :: code :: st16 ck ++ rest)) = 65535) (NZ : 0 < wsum (0 :: code :: 0 :: 0 :: rest))
    (Rt : __route_lookup b tab = Some k) (Direct : rt_gateway (at_ tab k) = INADDR_ANY) (Known : (etharp_lookup a st).1 = Some hw) (Sok : forall f, 0 <= send f)
    (Ifa : a = if_ipv4_addr ifa) :
  let m := ICMP_ECHO :: code :: st16 ck ++ rest in
  exists m' st', icmp_input mmap_ok send ifs tab (datagram 1 ttl tos id a b m) 20 (len m) st u =
      (1, [mk_frame hw (NTOHS ETH_P_IP) (datagram 1 ttl tos id b a m')], st', u) /\
    m' = ICMP_ECHOREPLY :: code :: st16 (echo_chksum ck) ++ rest /\ ones (wsum m') = 65535 /\
    ip_input icmp udp tcp raw ifa addr (datagram 1 ttl tos id b a m') (len m' + 20) s =
      (let '(ret, s) := icmp (datagram 1 ttl tos id b a m') 20 (len m') s in if ret <? 0 then raw (datagram 1 ttl tos id b a m') (len m' + 20) s else (ret, s)).
Proof.
  change (2 ^ 16) with 65536 in *. change (2 ^ 32) with 4294967296 in *. intros m. set (m' := ICMP_ECHOREPLY :: code :: st16 (echo_chksum ck) ++ rest).
  assert (Lm : len m' = len m) by reflexivity. assert (Lr : len m = len rest + 4) by (unfold len; cbn [length m]; rewrite length_app; cbn; lia).
  assert (L0 : 0 <= len rest) by (unfold len; lia). exists m', (etharp_lookup a st).2. split; [|split; [done|split]].
  - unfold icmp_input, datagram. change (rd (header _ _ _ _ _ _ _ _ ++ m) 20) with 8. change (8 =? 8) with true. cbn iota. f_equal. unfold icmp_echoreplay. rewrite Lm, <- (header_swap 1 ttl tos id a b).
    set (tot := len m + 20). set (c := 65535 - ones _). destruct (echo_buffer ttl tos id a b tot c code ck rest Hck Ha Hb) as (E1 & E2 & E3). unfold m.
    change (20 + 2) with 22. rewrite E2 in E3. rewrite E2, Rt, E3. fold m'. unfold tot. rewrite <- Lm.
    pose proof (output_known mmap_ok send ifs tab (at_ tab k) 1 ttl tos id b a m' [] c st hw Direct Ha ltac:(lia) Known Sok) as O. cbv zeta in O. rewrite app_nil_r in O. by rewrite O.
  - unfold m'. destruct (echo_chksum_mod ck Hck) as [R _]. rewrite wsum_word by done. rewrite Z.add_0_l. apply echo_chksum_valid; [done|done|]. rewrite wsum_word in Valid by done.
    rewrite <- Valid. f_equal. lia.
  - unfold datagram. rewrite (ip_input_accepts icmp udp tcp raw ifa 1 ttl tos id b a (len m') addr m'); first [done | lia | (unfold is_byte; lia) | by left].
Qed.

(** ** Errors *)

(** The message that tells that a port is not used: the header and the first eight bytes
    of the datagram follow. *)
Definition unreach_msg (ck : Z) (quoted : list Z) : list Z := [ICMP_DEST_UNREACH; ICMP_PORT_UNREACH] ++ st16 ck ++ [0; 0; 0; 0] ++ quoted.

Lemma unreach_sum ck quoted : 0 <= ck < 65536 -> wsum (unreach_msg ck quoted) = wsum (unreach_msg 0 quoted) + ck.
Proof. intros H. destruct (two_bytes ck H) as (x & y & -> & X & Y). unfold unreach_msg. rewrite st16_bytes by done. change (st16 0) with [0; 0]. cbn [app wsum]. lia. Qed.

Lemma unreach_bytes quoted : bytes quoted -> bytes (unreach_msg 0 quoted).
Proof. intros B. unfold unreach_msg. change (st16 0) with [0; 0]. cbn [app]. do 8 (apply Forall_cons_2; [lia|]). done. Qed.

Lemma lnot_ones s : 0 <= s -> u16 (Z.lnot (ones s)) = 65535 - ones s.
Proof.
  intros H. pose proof (ones_range s H). unfold Z.lnot. replace (Z.pred (- ones s)) with (65535 - ones s + (-1) * 65536) by lia. unfold u16. rewrite Z.mod_add by lia. apply Z.mod_small. lia.
Qed.

(** The buffer before it is sent. *)
Lemma unreach_buffer ttl tos id a b tot c q t : length q = 8%nat -> (28 <= length t)%nat ->
  let h := header 17 ttl tos id a b tot c in
  put 21 [3] (put 24 (st32 0) (put 20 [3] (put 28 (get 0 28 (h ++ q ++ t)) (h ++ q ++ t)))) = h ++ [3; 3] ++ take 2 (drop 2 q) ++ [0; 0; 0; 0] ++ (h ++ q) ++ drop 28 t.
Proof.
  intros Lq Lt h. do 8 (destruct q as [|? q]; [done|]). destruct q; [|done].
  assert (P : put 28 (get 0 28 (h ++ [z; z0; z1; z2; z3; z4; z5; z6] ++ t)) (h ++ [z; z0; z1; z2; z3; z4; z5; z6] ++ t) = h ++ [z; z0; z1; z2; z3; z4; z5; z6] ++ (h ++ [z; z0; z1; z2; z3; z4; z5; z6]) ++ drop 28 t).
  { unfold get, put. change (take (Z.to_nat 28) (drop (Z.to_nat 0) ?l)) with (take 28 l). change (take (Z.to_nat 28) ?l) with (take 28 l). rewrite !app_assoc. rewrite take_app_length' by done.
    rewrite drop_app_ge by (cbn; lia). rewrite <- !app_assoc. done. }
  rewrite P. done.
Qed.

(** The message goes out with both checksums. *)
Lemma icmp_send_unreach mmap_ok send ifs tab addr h x y quoted t seq st a b k :
  length h = 20%nat -> length quoted = 28%nat -> bytes quoted -> ip_saddr (h ++ [3; 3; x; y; 0; 0; 0; 0] ++ quoted ++ t) = a -> ip_daddr (h ++ [3; 3; x; y; 0; 0; 0; 0] ++ quoted ++ t) = b ->
  __route_lookup a tab = Some k ->
  let id := u16 (seq + 1) in
  let ck := 65535 - ones (wsum (unreach_msg 0 quoted)) in
  icmp_send mmap_ok send ifs tab addr (h ++ [3; 3; x; y; 0; 0; 0; 0] ++ quoted ++ t) 20 28 seq st =
    Some (output_or_query mmap_ok send ifs tab (at_ tab k)
      (header 1 127 0 id b a 56 (65535 - ones (wsum (header 1 127 0 id b a 56 0))) ++ unreach_msg ck quoted ++ t) st, id).
Proof.
  intros Lh Lq Bq Ea Eb Rt id ck. unfold icmp_send. rewrite Ea, Eb. set (p := h ++ _).
  assert (Lp : (20 <= length p)%nat) by (unfold p; rewrite length_app; lia).
  assert (D : drop 20 p = [3; 3; x; y; 0; 0; 0; 0] ++ quoted ++ t) by (unfold p; by rewrite drop_app_length').
  assert (Y1 : is_byte 1) by (unfold is_byte; lia). assert (Y2 : is_byte 127) by (unfold is_byte; lia). assert (Y3 : is_byte 0) by (unfold is_byte; lia).
  pose proof (mk_iphdr_bytes addr 1 127 0 p seq b a 36 Y1 Y2 Y3 Lp ltac:(lia) ltac:(lia)) as M.
  pose proof (iph_template_bytes 1 127 0 p seq Y1 Y2 Y3 Lp) as T. cbv zeta in M, T. fold id in M, T. rewrite T in *. cbn [fst] in M. change (28 + 8) with 36. rewrite M, D. change (36 + 20) with 56.
  set (h' := header _ _ _ _ _ _ _ _). assert (Lh' : length h' = 20%nat) by done.
  assert (P : forall v, put (20 + 2) (st16 v) (h' ++ [3; 3; x; y; 0; 0; 0; 0] ++ quoted ++ t) = h' ++ unreach_msg v quoted ++ t) by reflexivity.
  rewrite P. assert (P2 : forall v w, put (20 + 2) (st16 v) (h' ++ unreach_msg w quoted ++ t) = h' ++ unreach_msg v quoted ++ t) by reflexivity.
  pose proof (unreach_bytes quoted Bq) as B0.
  assert (L0 : len (unreach_msg 0 quoted) = 36) by (unfold len; change (length (unreach_msg 0 quoted)) with (8 + length quoted)%nat; rewrite Lq; done).
  pose proof (wsum_bound _ B0) as W. rewrite L0 in W.
  assert (G : get 20 36 (h' ++ unreach_msg 0 quoted ++ t) = unreach_msg 0 quoted).
  { rewrite <- L0. change 20 with (len h'). apply get_mid. }
  rewrite G, in_chksum_spec by (done || lia). rewrite Z.add_0_l, lnot_ones by lia. fold ck. rewrite P2, Rt. done.
Qed.

(** C33: A datagram for a port that is not used: the error message that answers it is
    accepted by the IP input of the sender, its checksum is right, and the sender's
    input of control messages reports the error to the block with the addresses and
    ports of the datagram. *)
Theorem unreach_reaches_sender {St} mmap_ok send ifs tab st u st' seq addr ttl tos id a b tot c q t hw k ifa ifb (icmp udp tcp : list Z -> Z -> Z -> St -> Z * St) raw addr' s
    (Ht : is_byte ttl) (Hs : is_byte tos) (Hid : 0 <= id < 2 ^ 16) (Ha : 0 <= a < 2 ^ 32) (Hb : 0 <= b < 2 ^ 32) (Htot : 28 <= tot < 2 ^ 16) (Hc : 0 <= c < 2 ^ 16)
    (Lq : length q = 8%nat) (Bq : bytes q) (Lt : (28 <= length t)%nat) (Nb : in_broadcast b ifb = false) (Nm : IN_MULTICAST b = false)
    (Rt : __route_lookup a tab = Some k) (Direct : rt_gateway (at_ tab k) = INADDR_ANY) (Known : (etharp_lookup a st).1 = Some hw) (Sok : forall f, 0 <= send f)
    (Ifa : a = if_ipv4_addr ifa) :
  exists m id', icmp_error mmap_ok send ifs tab addr (header 17 ttl tos id a b tot c ++ q ++ t) ICMP_DEST_UNREACH ICMP_PORT_UNREACH ifb seq st =
      Some (0, [mk_frame hw (NTOHS ETH_P_IP) (datagram 1 127 0 id' b a m)], (etharp_lookup a st).2, id') /\
    ones (wsum m) = 65535 /\
    ip_input icmp udp tcp raw ifa addr' (datagram 1 127 0 id' b a m) 56 s =
      (let '(ret, s) := icmp (datagram 1 127 0 id' b a m) 20 36 s in if ret <? 0 then raw (datagram 1 127 0 id' b a m) 56 s else (ret, s)) /\
    icmp_input mmap_ok send ifs tab (datagram 1 127 0 id' b a m) 20 36 st' u = (0, [], st', (udp_port_unreach b (ld16 q 2) a (ld16 q 0) u).2).
Proof.
  change (2 ^ 16) with 65536 in *. change (2 ^ 32) with 4294967296 in *. set (h := header 17 ttl tos id a b tot c).
  assert (Bh : bytes (h ++ q)) by (apply Forall_app; split; [|done]; apply header_bytes; try (done || lia); unfold is_byte; lia).
  assert (Lhq : length (h ++ q) = 28%nat) by (rewrite length_app, Lq; done). set (ck := 65535 - ones (wsum (unreach_msg 0 (h ++ q)))). set (id' := u16 (seq + 1)).
  assert (Hid' : 0 <= id' < 65536) by (apply Z.mod_pos_bound; lia).
  pose proof (unreach_bytes _ Bh) as B0. pose proof (wsum_bound _ B0) as W.
  pose proof (ones_range (wsum (unreach_msg 0 (h ++ q))) ltac:(lia)) as Ro. assert (Wp : 0 < wsum (unreach_msg 0 (h ++ q))).
  { pose proof (wsum_bound _ Bh). unfold unreach_msg. change (st16 0) with [0; 0]. cbn [app wsum]. cbn [app] in *. lia. }
  set (m := unreach_msg ck (h ++ q)). assert (Lm : len m = 36) by (unfold len; change (length m) with (8 + length (h ++ q))%nat; rewrite Lhq; done).
  exists m, id'. split; [|split; [|split]].
  - unfold icmp_error. change (ip_off (h ++ q ++ t)) with 0. change (negb (Z.land 0 (Z.lnot (Z.lor 32 64)) =? 0)) with false. cbn iota. change (Z.shiftl (ip_hlen (h ++ q ++ t)) 2 + 8) with 28.
    unfold h. rewrite header_tot_len, Z.min_l by lia. pose proof (unreach_buffer ttl tos id a b tot c q t Lq Lt) as U. cbv zeta in U. fold h in U |- *.
    assert (Db : ip_daddr (put 28 (get 0 28 (h ++ q ++ t)) (h ++ q ++ t)) = b).
    { do 8 (destruct q as [|? q]; [done|]). destruct q; [|done]. etrans; [|apply (header_daddr 17 ttl tos id a b tot c []); done]. reflexivity. }
    rewrite Db, Nb, Nm. change (18 <? u32 3) with false. change (u8 3) with 3. cbn [orb andb Z.eqb Pos.eqb]. change (u8 3) with 3. rewrite U.
    do 8 (destruct q as [|? q]; [done|]). destruct q; [|done]. cbn [drop take app] in *.
    pose proof (icmp_send_unreach mmap_ok send ifs tab addr h z1 z2 (h ++ [z; z0; z1; z2; z3; z4; z5; z6]) (drop 28 t) seq st a b k eq_refl Lhq Bh) as S. cbv zeta in S. fold id' ck in S.
    cbn [app] in S. rewrite S; [|by apply header_saddr|by apply header_daddr|done].
    pose proof (output_known mmap_ok send ifs tab (at_ tab k) 1 127 0 id' b a m (drop 28 t) (65535 - ones (wsum (header 1 127 0 id' b a 56 0))) st hw Direct Ha ltac:(lia) Known Sok) as O.
    cbv zeta in O. rewrite Lm in O. change (36 + 20) with 56 in O. unfold m in O. rewrite O. unfold datagram. by rewrite Lm.
  - unfold m. rewrite unreach_sum by (unfold ck; lia). by apply ones_complement.
  - unfold datagram. rewrite Lm. change (36 + 20) with 56. rewrite (ip_input_accepts icmp udp tcp raw ifa 1 127 0 id' b a 36 addr' m) by first [done | lia | (unfold is_byte; lia) | by left]. done.
  - unfold datagram. rewrite Lm. change (36 + 20) with 56. set (g := header 1 _ _ _ _ _ _ _). unfold icmp_input. change (rd (g ++ m) 20) with 3. cbn [Z.eqb Pos.eqb]. f_equal.
    unfold dest_unreach, icmp_skip_ip_hdr. change (rd (g ++ m) (20 + 8)) with 69. change (negb (Z.shiftr 69 4 =? 4)) with false. cbn iota. change (Z.shiftl (Z.land 69 15) 2) with 20.
    change (36 - 8 <? 20) with false. cbn iota. change (rd (g ++ m) (20 + 8 + 9)) with 17. change (rd (g ++ m) (20 + 1)) with 3. cbn [Z.eqb Pos.eqb andb].
    assert (Es : ld32 (g ++ m) (20 + 8 + 12) = a) by (etrans; [|apply (header_saddr 17 ttl tos id a b tot c q); done]; reflexivity).
    assert (Ed : ld32 (g ++ m) (20 + 8 + 16) = b) by (etrans; [|apply (header_daddr 17 ttl tos id a b tot c q); done]; reflexivity).
    rewrite Es, Ed. do 8 (destruct q as [|? q]; [done|]). destruct q; [|done]. reflexivity.
Qed.

(** ** Examples *)

Definition peer_hw : list Z := [2; 0; 0; 0; 0; 1].
Definition demo_arp : etharp_system := etharp_add 0x0101a8c0 peer_hw init_etharp.
Definition demo_if (n : Z) : ethif := demo_eth 0x0201a8c0 2.
Definition echo_data : list Z := [0; 1; 0; 2; 97; 98; 99].
Definition echo_ck : Z := 65535 - ones (wsum (8 :: 0 :: 0 :: 0 :: echo_data)).

Lemma echo_reply_valid_witness :
  let m := ICMP_ECHO :: 0 :: st16 echo_ck ++ echo_data in
  exists m' st', icmp_input true sent_ok demo_if demo_tab (datagram 1 64 0 7 0x0101a8c0 0x0201a8c0 m) 20 (len m) demo_arp demo_udp =
      (1, [mk_frame peer_hw (NTOHS ETH_P_IP) (datagram 1 64 0 7 0x0201a8c0 0x0101a8c0 m')], st', demo_udp) /\
    m' = ICMP_ECHOREPLY :: 0 :: st16 (echo_chksum echo_ck) ++ echo_data /\ ones (wsum m') = 65535 /\
    ip_input (log_proto 1) (log_proto 17) (log_proto 6) log_raw (mk_ifnet 0x0101a8c0 0x00ffffff 1500) 0 (datagram 1 64 0 7 0x0201a8c0 0x0101a8c0 m') (len m' + 20) [] =
      (let '(ret, s) := log_proto 1 (datagram 1 64 0 7 0x0201a8c0 0x0101a8c0 m') 20 (len m') [] in
       if ret <? 0 then log_raw (datagram 1 64 0 7 0x0201a8c0 0x0101a8c0 m') (len m' + 20) s else (ret, s)).
Proof.
  apply (echo_reply_valid true sent_ok demo_if demo_tab demo_arp demo_udp 64 0 7 0x0101a8c0 0x0201a8c0 0 echo_ck echo_data peer_hw 0 (mk_ifnet 0x0101a8c0 0x00ffffff 1500)
    (log_proto 1) (log_proto 17) (log_proto 6) log_raw 0 []); first [(unfold is_byte; lia) | (vm_compute; reflexivity) | (vm_compute; split; done) | done].
Defined.

Lemma unreach_reaches_sender_witness : exists m id',
  icmp_error true sent_ok demo_if demo_tab 0 (header 17 64 0 7 0x0101a8c0 0x0201a8c0 28 0 ++ (st16 9 ++ st16 5 ++ [0; 8; 0; 0]) ++ zeros 40) ICMP_DEST_UNREACH ICMP_PORT_UNREACH
      (mk_ifnet 0x0201a8c0 0x00ffffff 1500) 3 demo_arp =
    Some (0, [mk_frame peer_hw (NTOHS ETH_P_IP) (datagram 1 127 0 id' 0x0201a8c0 0x0101a8c0 m)], (etharp_lookup 0x0101a8c0 demo_arp).2, id') /\
  ones (wsum m) = 65535 /\
  ip_input (log_proto 1) (log_proto 17) (log_proto 6) log_raw (mk_ifnet 0x0101a8c0 0x00ffffff 1500) 0 (datagram 1 127 0 id' 0x0201a8c0 0x0101a8c0 m) 56 [] =
    (let '(ret, s) := log_proto 1 (datagram 1 127 0 id' 0x0201a8c0 0x0101a8c0 m) 20 36 [] in
     if ret <? 0 then log_raw (datagram 1 127 0 id' 0x0201a8c0 0x0101a8c0 m) 56 s else (ret, s)) /\
  icmp_input true sent_ok demo_if demo_tab (datagram 1 127 0 id' 0x0201a8c0 0x0101a8c0 m) 20 36 init_etharp demo_udp =
    (0, [], init_etharp, (udp_port_unreach 0x0201a8c0 5 0x0101a8c0 9 demo_udp).2).
Proof.
  apply (unreach_reaches_sender true sent_ok demo_if demo_tab demo_arp demo_udp init_etharp 3 0 64 0 7 0x0101a8c0 0x0201a8c0 28 0 (st16 9 ++ st16 5 ++ [0; 8; 0; 0]) (zeros 40) peer_hw 0
    (mk_ifnet 0x0101a8c0 0x00ffffff 1500) (mk_ifnet 0x0201a8c0 0x00ffffff 1500) (log_proto 1) (log_proto 17) (log_proto 6) log_raw 0 []);
    first [(unfold is_byte; lia) | (vm_compute; reflexivity) | (vm_compute; split; done) | (cbn; lia) | done | (repeat (apply Forall_cons_2; [vm_compute; split; done|]); done)].
Defined.

(** A request whose words are all zero but the type: the adjusted checksum is zero and
    the receiver of the reply does not accept it. *)
Theorem echo_of_zeros_invalid : ones (wsum (8 :: 0 :: st16 0xfff7 ++ zeros 4)) = 0xffff /\ echo_chksum 0xfff7 = 0 /\ ones (wsum (0 :: 0 :: st16 (echo_chksum 0xfff7) ++ zeros 4)) = 0.
Proof. by vm_compute. Qed.

(** The route of the reply is looked up with the host's own address: a request from
    behind a gateway, whose hardware address is known, is not answered. *)
Definition gw_arp : etharp_system := etharp_add 0xfe01a8c0 peer_hw init_etharp.

Theorem echo_through_gateway_lost :
  let m := ICMP_ECHO :: 0 :: st16 echo_ck ++ echo_data in
  let '(ret, fs, _, _) := icmp_input true sent_ok demo_if demo_tab (datagram 1 64 0 7 0x0302010a 0x0201a8c0 m) 20 (len m) gw_arp demo_udp in
  ret = -1 /\ (f_proto <$> fs) = [NTOHS ETH_P_ARP] /\ __route_lookup 0x0302010a demo_tab = Some 1%nat /\ (etharp_lookup (rt_gateway (at_ demo_tab 1)) gw_arp).1 = Some peer_hw.
Proof. by vm_compute. Qed.
