(* ===== verification/Tcp.v ===== *)
(** * TCP input

    src/sdk/libtcpip/tcp/tcp_in.c: what [tcp_input] does with a segment for an
    active block: header prediction, the trimming of the segment to the window, the
    acknowledgement of sent data, the data and the FIN, and the states of the
    connection; and [tcp_recv], which takes the received bytes out.

    A segment comes as its fields in host order, the bytes of its options followed
    by what is after them in the packet, and its data.  The queues of the block live
    in the pool of network buffers of Mbuf.v.  A response is recorded with its three
    arguments; the wake-ups of the condition variable are not modelled.  The result
    of [tcp_respond], which is the one of the network driver, is a parameter. *)

From stdpp Require Import base tactics numbers list gmap.
From Stdlib Require Import ZArith Lia.
From S2P Require Import Prelude Buffer Mbuf.

(** ** Constants *)

Abbreviation TCPS_CLOSED := 0 (only parsing).
Abbreviation TCPS_LISTEN := 1 (only parsing).
Abbreviation TCPS_SYN_SENT := 2 (only parsing).
Abbreviation TCPS_SYN_RCVD := 3 (only parsing).
Abbreviation TCPS_ESTABLISHED := 4 (only parsing).
Abbreviation TCPS_CLOSE_WAIT := 5 (only parsing).
Abbreviation TCPS_FIN_WAIT_1 := 6 (only parsing).
Abbreviation TCPS_CLOSING := 7 (only parsing).
Abbreviation TCPS_LAST_ACK := 8 (only parsing).
Abbreviation TCPS_FIN_WAIT_2 := 9 (only parsing).
Abbreviation TCPS_TIME_WAIT := 10 (only parsing).

Abbreviation TH_FIN := 0x01 (only parsing).
Abbreviation TH_SYN := 0x02 (only parsing).
Abbreviation TH_RST := 0x04 (only parsing).
Abbreviation TH_PSH := 0x08 (only parsing).
Abbreviation TH_ACK := 0x10 (only parsing).
Abbreviation TH_URG := 0x20 (only parsing).

Abbreviation TF_ACKNOW := 0x01 (only parsing).
Abbreviation TF_DELACK := 0x02 (only parsing).
Abbreviation TF_IDLE := 0x08 (only parsing).
Abbreviation TF_NEEDOUTPUT := 0x80 (only parsing).

Abbreviation tcp_maxrcv := 2920 (only parsing).
Abbreviation tcp_msl := 5 (only parsing).
Abbreviation tcp_idle_det_tmo := 60 (only parsing).
Definition tcp_rxmtintvl : list Z := [3; 6; 12; 24; 48; 96; 128; 128; 128; 128; 128; 128].

Definition TCPS_HAVERCVDFIN (s : Z) : bool := TCPS_TIME_WAIT <=? s.

Definition SEQ_LT (a b : Z) : bool := int32 (a - b) <? 0.
Definition SEQ_LEQ (a b : Z) : bool := int32 (a - b) <=? 0.
Definition SEQ_GT (a b : Z) : bool := 0 <? int32 (a - b).

(** ** Data *)

(** The fields of the control block that are used; the route is the MTU of its interface. *)
Record tcp_pcb := mk_tcp {
  t_flags : Z; t_state : Z; t_count : Z; t_rxmt_tmr : Z; t_conn_tmr : Z; t_maxseg : Z; t_route : option Z; snd_seq : Z;
  snd_off : Z; snd_max : Z; snd_wnd : Z; rcv_adv_wnd : Z; rcv_nxt : Z; rcv_q : mbuf_queue; snd_q : mbuf_queue
}.

Definition set_t_flags (v : Z) (p : tcp_pcb) : tcp_pcb := mk_tcp v (t_state p) (t_count p) (t_rxmt_tmr p) (t_conn_tmr p) (t_maxseg p) (t_route p) (snd_seq p) (snd_off p) (snd_max p) (snd_wnd p) (rcv_adv_wnd p) (rcv_nxt p) (rcv_q p) (snd_q p).
Definition set_t_state (v : Z) (p : tcp_pcb) : tcp_pcb := mk_tcp (t_flags p) v (t_count p) (t_rxmt_tmr p) (t_conn_tmr p) (t_maxseg p) (t_route p) (snd_seq p) (snd_off p) (snd_max p) (snd_wnd p) (rcv_adv_wnd p) (rcv_nxt p) (rcv_q p) (snd_q p).
Definition set_t_count (v : Z) (p : tcp_pcb) : tcp_pcb := mk_tcp (t_flags p) (t_state p) v (t_rxmt_tmr p) (t_conn_tmr p) (t_maxseg p) (t_route p) (snd_seq p) (snd_off p) (snd_max p) (snd_wnd p) (rcv_adv_wnd p) (rcv_nxt p) (rcv_q p) (snd_q p).
Definition set_t_rxmt_tmr (v : Z) (p : tcp_pcb) : tcp_pcb := mk_tcp (t_flags p) (t_state p) (t_count p) v (t_conn_tmr p) (t_maxseg p) (t_route p) (snd_seq p) (snd_off p) (snd_max p) (snd_wnd p) (rcv_adv_wnd p) (rcv_nxt p) (rcv_q p) (snd_q p).
Definition set_t_conn_tmr (v : Z) (p : tcp_pcb) : tcp_pcb := mk_tcp (t_flags p) (t_state p) (t_count p) (t_rxmt_tmr p) v (t_maxseg p) (t_route p) (snd_seq p) (snd_off p) (snd_max p) (snd_wnd p) (rcv_adv_wnd p) (rcv_nxt p) (rcv_q p) (snd_q p).
Definition set_t_maxseg (v : Z) (p : tcp_pcb) : tcp_pcb := mk_tcp (t_flags p) (t_state p) (t_count p) (t_rxmt_tmr p) (t_conn_tmr p) v (t_route p) (snd_seq p) (snd_off p) (snd_max p) (snd_wnd p) (rcv_adv_wnd p) (rcv_nxt p) (rcv_q p) (snd_q p).
Definition set_t_route (v : option Z) (p : tcp_pcb) : tcp_pcb := mk_tcp (t_flags p) (t_state p) (t_count p) (t_rxmt_tmr p) (t_conn_tmr p) (t_maxseg p) v (snd_seq p) (snd_off p) (snd_max p) (snd_wnd p) (rcv_adv_wnd p) (rcv_nxt p) (rcv_q p) (snd_q p).
Definition set_snd_seq (v : Z) (p : tcp_pcb) : tcp_pcb := mk_tcp (t_flags p) (t_state p) (t_count p) (t_rxmt_tmr p) (t_conn_tmr p) (t_maxseg p) (t_route p) v (snd_off p) (snd_max p) (snd_wnd p) (rcv_adv_wnd p) (rcv_nxt p) (rcv_q p) (snd_q p).
Definition set_snd_off (v : Z) (p : tcp_pcb) : tcp_pcb := mk_tcp (t_flags p) (t_state p) (t_count p) (t_rxmt_tmr p) (t_conn_tmr p) (t_maxseg p) (t_route p) (snd_seq p) v (snd_max p) (snd_wnd p) (rcv_adv_wnd p) (rcv_nxt p) (rcv_q p) (snd_q p).
Definition set_snd_max (v : Z) (p : tcp_pcb) : tcp_pcb := mk_tcp (t_flags p) (t_state p) (t_count p) (t_rxmt_tmr p) (t_conn_tmr p) (t_maxseg p) (t_route p) (snd_seq p) (snd_off p) v (snd_wnd p) (rcv_adv_wnd p) (rcv_nxt p) (rcv_q p) (snd_q p).
Definition set_snd_wnd (v : Z) (p : tcp_pcb) : tcp_pcb := mk_tcp (t_flags p) (t_state p) (t_count p) (t_rxmt_tmr p) (t_conn_tmr p) (t_maxseg p) (t_route p) (snd_seq p) (snd_off p) (snd_max p) v (rcv_adv_wnd p) (rcv_nxt p) (rcv_q p) (snd_q p).
Definition set_rcv_adv_wnd (v : Z) (p : tcp_pcb) : tcp_pcb := mk_tcp (t_flags p) (t_state p) (t_count p) (t_rxmt_tmr p) (t_conn_tmr p) (t_maxseg p) (t_route p) (snd_seq p) (snd_off p) (snd_max p) (snd_wnd p) v (rcv_nxt p) (rcv_q p) (snd_q p).
Definition set_rcv_nxt (v : Z) (p : tcp_pcb) : tcp_pcb := mk_tcp (t_flags p) (t_state p) (t_count p) (t_rxmt_tmr p) (t_conn_tmr p) (t_maxseg p) (t_route p) (snd_seq p) (snd_off p) (snd_max p) (snd_wnd p) (rcv_adv_wnd p) v (rcv_q p) (snd_q p).
Definition set_rcv_q (v : mbuf_queue) (p : tcp_pcb) : tcp_pcb := mk_tcp (t_flags p) (t_state p) (t_count p) (t_rxmt_tmr p) (t_conn_tmr p) (t_maxseg p) (t_route p) (snd_seq p) (snd_off p) (snd_max p) (snd_wnd p) (rcv_adv_wnd p) (rcv_nxt p) v (snd_q p).
Definition set_snd_q (v : mbuf_queue) (p : tcp_pcb) : tcp_pcb := mk_tcp (t_flags p) (t_state p) (t_count p) (t_rxmt_tmr p) (t_conn_tmr p) (t_maxseg p) (t_route p) (snd_seq p) (snd_off p) (snd_max p) (snd_wnd p) (rcv_adv_wnd p) (rcv_nxt p) (rcv_q p) v.

Inductive pcb_where := InActive | InClosed | InFree.

(** The block, the pool, the list the block is in and the responses sent. *)
Record tcp_st := mk_st { tp : tcp_pcb; mb : mbuf_sys; whr : pcb_where; sent : list (Z * Z * Z) }.

Definition on (f : tcp_pcb -> tcp_pcb) (s : tcp_st) : tcp_st := mk_st (f (tp s)) (mb s) (whr s) (sent s).
Definition move_to (w : pcb_where) (s : tcp_st) : tcp_st := mk_st (tp s) (mb s) w (sent s).
Definition with_pool (m : mbuf_sys) (s : tcp_st) : tcp_st := mk_st (tp s) m (whr s) (sent s).

Record segment := mk_segment { th_seq : Z; th_ack : Z; th_flags : Z; th_win : Z; th_optlen : Z; th_opt : list Z; th_data : list Z }.

Definition bit (flags f : Z) : bool := negb (Z.land flags f =? 0).
Definition set_bits (f : Z) (p : tcp_pcb) : tcp_pcb := set_t_flags (Z.lor (t_flags p) f) p.
Definition clear_bits (f : Z) (p : tcp_pcb) : tcp_pcb := set_t_flags (Z.land (t_flags p) (u8 (Z.lnot f))) p.

(** A handler fails (out of fuel, which does not occur), returns, or goes on. *)
Inductive flow (A : Type) := Stuck | Done (ret : Z) (s : tcp_st) | Go (a : A).
Arguments Stuck {A}.
Arguments Done {A} _ _.
Arguments Go {A} _.

Definition bind {A B} (f : flow A) (k : A -> flow B) : flow B :=
  match f with Stuck => Stuck | Done r s => Done r s | Go a => k a end.
Notation "'let*' x := f 'in' k" := (bind f (fun x => k)) (at level 200, x strict pattern, right associativity).

(** ** Queues of the block *)

Definition rcv_add (buf : list Z) (s : tcp_st) : flow (Z * tcp_st) :=
  match mbuf_queue_add buf (mb s) (rcv_q (tp s)) with
  | None => Stuck
  | Some (n, m, q) => Go (n, on (set_rcv_q q) (with_pool m s))
  end.

Definition snd_trim (n : Z) (s : tcp_st) : flow tcp_st :=
  match mbuf_queue_trim n (mb s) (snd_q (tp s)) with
  | None => Stuck
  | Some (_, m, q) => Go (on (set_snd_q q) (with_pool m s))
  end.

Definition snd_free (s : tcp_st) : flow tcp_st :=
  match mbuf_queue_free (mb s) (snd_q (tp s)) with
  | None => Stuck
  | Some (m, q) => Go (on (set_snd_q q) (with_pool m s))
  end.

Definition rcv_free (s : tcp_st) : flow tcp_st :=
  match mbuf_queue_free (mb s) (rcv_q (tp s)) with
  | None => Stuck
  | Some (m, q) => Go (on (set_rcv_q q) (with_pool m s))
  end.

(** ** Output *)

Definition tcp_output_sched (s : tcp_st) : tcp_st :=
  if Z.land (t_flags (tp s)) TF_NEEDOUTPUT =? 0 then on (set_bits TF_NEEDOUTPUT) s else s.

Definition tcp_respond (ack seq flags : Z) (s : tcp_st) : tcp_st := mk_st (tp s) (mb s) (whr s) (sent s ++ [(ack, seq, flags)]).

(** An active block is released. *)
Definition tcp_pcb_free (s : tcp_st) : flow tcp_st :=
  let s := if bit (t_flags (tp s)) TF_NEEDOUTPUT then on (clear_bits TF_NEEDOUTPUT) s else s in
  let* s := rcv_free s in
  let* s := snd_free s in
  Go (move_to InFree s).

(** ** Options *)

(** [len] bytes of options are left at [p]; the result is the segment size. *)
Fixpoint parse_options (n : nat) (flags : Z) (p : list Z) (len maxseg : Z) : Z :=
  match n with
  | O => maxseg
  | S n =>
      if len =? 0 then maxseg
      else
        let opt := rd p 0 in
        if opt =? 0 then maxseg
        else if opt =? 1 then parse_options n flags (drop 1 p) (len - 1) maxseg
        else
          let k := rd p 1 in
          if k <=? 0 then maxseg
          else
            let maxseg :=
              if (opt =? 2) && (k =? 4) && bit flags TH_SYN then
                let val := Z.shiftl (rd p 2) 8 + rd p 3 in
                if val <? maxseg then val else maxseg
              else maxseg in
            parse_options n flags (drop (Z.to_nat k) p) (len - k) maxseg
  end.

Definition tcp_parse_options (flags : Z) (p : list Z) (len : Z) (s : tcp_st) : tcp_st :=
  on (set_t_maxseg (parse_options (S (length p)) flags p len (t_maxseg (tp s)))) s.

(** ** Input *)

Section Input.

(** The result of sending a response. *)
Variable respond_ret : Z.

Definition drop_with_reset {A} (tiflags ti_seq ti_ack ti_len : Z) (s : tcp_st) : flow A :=
  if negb (bit tiflags TH_RST) then
    if bit tiflags TH_ACK then Done respond_ret (tcp_respond 0 ti_ack TH_RST s)
    else if bit tiflags TH_SYN then Done respond_ret (tcp_respond (u32 (ti_seq + (ti_len + 1))) 0 (Z.lor TH_ACK TH_RST) s)
    else Done 0 s
  else Done 0 s.

Definition drop_after_ack {A} (tiflags : Z) (s : tcp_st) : flow A :=
  if bit tiflags TH_RST then Done 0 s
  else Done 0 (tcp_output_sched (on (set_bits TF_ACKNOW) s)).

(** The label [close]. *)
Definition close_conn {A} (s : tcp_st) : flow A :=
  let* s := snd_free s in
  let* s := rcv_free s in
  Done 0 (move_to InClosed (on (set_t_state TCPS_CLOSED) s)).

(** The label [close_and_reset]. *)
Definition close_and_reset {A} (tiflags ti_seq ti_ack ti_len : Z) (s : tcp_st) : flow A :=
  let s := move_to InClosed (on (set_t_state TCPS_CLOSED) s) in
  let* s := snd_free s in
  let* s := rcv_free s in
  drop_with_reset tiflags ti_seq ti_ack ti_len s.

(** The send sequence after [snd_una] has been acknowledged. *)
Definition set_snd (snd_una snd_nxt snd_max : Z) (p : tcp_pcb) : tcp_pcb :=
  set_snd_max (u16 (snd_max - snd_una)) (set_snd_off (u16 (snd_nxt - snd_una)) (set_snd_seq snd_una p)).

Definition rxmt_restart (p : tcp_pcb) : tcp_pcb := set_t_rxmt_tmr (rd tcp_rxmtintvl (t_count p / 2)) p.
Definition rxmt_stop (p : tcp_pcb) : tcp_pcb := set_t_count 0 (set_t_rxmt_tmr 0 p).

(** Header prediction; [Go] is the slow path. *)
Definition predict (g : segment) (snd_una snd_nxt snd_max : Z) (s : tcp_st) : flow tcp_st :=
  if (t_state (tp s) =? TCPS_ESTABLISHED) &&
     (Z.land (th_flags g) (Z.lor (Z.lor (Z.lor (Z.lor TH_SYN TH_FIN) TH_RST) TH_URG) TH_ACK) =? TH_ACK) &&
     (th_seq g =? rcv_nxt (tp s)) && negb (th_win g =? 0) && (th_win g =? snd_wnd (tp s)) && (snd_nxt =? snd_max) then
    if len (th_data g) =? 0 then
      if SEQ_GT (th_ack g) snd_una && SEQ_LEQ (th_ack g) snd_max then
        let acked := int32 (th_ack g - snd_una) in
        let* s := snd_trim acked s in
        let s := on (set_snd (th_ack g) snd_nxt snd_max) s in
        let s :=
          if th_ack g =? snd_max then on rxmt_stop s
          else if t_rxmt_tmr (tp s) =? 0 then on rxmt_restart s else s in
        Done 0 (if negb (q_len (snd_q (tp s)) =? 0) then tcp_output_sched s else s)
      else Go s
    else if (th_ack g =? snd_una) && (len (th_data g) <=? tcp_maxrcv - q_len (rcv_q (tp s))) then
      let* (n, s) := rcv_add (th_data g) s in
      let s := on (fun p => set_rcv_nxt (u32 (rcv_nxt p + n)) p) s in
      Done 0
        (if negb (n =? len (th_data g)) then tcp_output_sched (on (set_bits TF_ACKNOW) s) else on (set_bits TF_DELACK) s)
    else Go s
  else Go s.

(** The answer to an active open; [Go] with the sequence number is [step6]. *)
Definition syn_sent (g : segment) (s : tcp_st) : flow (Z * tcp_st) :=
  let reset := close_and_reset (th_flags g) (th_seq g) (th_ack g) (len (th_data g)) in
  if bit (th_flags g) TH_RST then close_conn s
  else if negb (bit (th_flags g) TH_SYN) then reset s
  else if negb (bit (th_flags g) TH_ACK) then reset s
  else if negb (len (th_data g) =? 0) then reset s
  else
    let s := on (fun p => set_snd_seq (u32 (snd_seq p + 1)) p) s in
    if negb (snd_seq (tp s) =? th_ack g) then reset s
    else
      let s := on (fun p => set_snd_max (u16 (snd_max p - 1)) (set_snd_off (u16 (snd_off p - 1)) p)) s in
      let s := if negb (th_optlen g =? 0) then tcp_parse_options (th_flags g) (th_opt g) (th_optlen g) s else s in
      let ti_seq := u32 (th_seq g + 1) in
      let s := on (fun p => set_bits TF_ACKNOW (set_t_state TCPS_ESTABLISHED (set_snd_wnd (th_win g) (set_rcv_nxt ti_seq p)))) s in
      Go (ti_seq, s).

(** Data before the window is dropped: the flags, the sequence number and the data
    that are left. *)
Definition trim_head (g : segment) (s : tcp_st) : Z * Z * list Z * tcp_st :=
  let tiflags := th_flags g in
  let ti_seq := th_seq g in
  let data := th_data g in
  let todrop := int32 (rcv_nxt (tp s) - ti_seq) in
  if 0 <? todrop then
    let '(tiflags, ti_seq, todrop) :=
      if bit tiflags TH_SYN then (Z.land tiflags (Z.lnot TH_SYN), u32 (ti_seq + 1), todrop - 1) else (tiflags, ti_seq, todrop) in
    let '(tiflags, todrop, s) :=
      if (len data <? todrop) || ((todrop =? len data) && (Z.land tiflags TH_FIN =? 0)) then
        (Z.land tiflags (Z.lnot TH_FIN), len data, on (set_bits TF_ACKNOW) s)
      else (tiflags, todrop, s) in
    (tiflags, u32 (ti_seq + todrop), drop (Z.to_nat todrop) data, s)
  else (tiflags, ti_seq, data, s).

(** Data behind the window is dropped. *)
Definition trim_tail (tiflags ti_seq : Z) (data : list Z) (rcv_wnd : Z) (s : tcp_st) : flow (Z * list Z * tcp_st) :=
  let todrop := int32 (ti_seq + len data - (rcv_nxt (tp s) + rcv_wnd)) in
  if 0 <? todrop then
    if (len data <=? todrop) && negb ((rcv_wnd =? 0) && (ti_seq =? rcv_nxt (tp s))) then drop_after_ack tiflags s
    else
      let s := if len data <=? todrop then on (set_bits TF_ACKNOW) s else s in
      Go (Z.land tiflags (Z.lnot (Z.lor TH_PSH TH_FIN)), take (Z.to_nat (len data - todrop)) data, s)
  else Go (tiflags, data, s).

(** A reset. *)
Definition got_reset (s : tcp_st) : flow tcp_st :=
  let st := t_state (tp s) in
  if (st =? TCPS_SYN_RCVD) || (st =? TCPS_ESTABLISHED) || (st =? TCPS_CLOSE_WAIT) then close_conn s
  else if (st =? TCPS_FIN_WAIT_1) || (st =? TCPS_FIN_WAIT_2) || (st =? TCPS_CLOSING) || (st =? TCPS_LAST_ACK) || (st =? TCPS_TIME_WAIT) then
    let* s := tcp_pcb_free s in Done 0 s
  else Go s.

(** The states that process acknowledgements. *)
Definition acks_in (st : Z) : bool :=
  (st =? TCPS_ESTABLISHED) || (st =? TCPS_FIN_WAIT_1) || (st =? TCPS_FIN_WAIT_2) || (st =? TCPS_CLOSE_WAIT) ||
  (st =? TCPS_CLOSING) || (st =? TCPS_LAST_ACK) || (st =? TCPS_TIME_WAIT).

(** The inner switch: the FIN of this side may be acknowledged. *)
Definition fin_acked (tiflags : Z) (ourfinisacked : bool) (s : tcp_st) : flow tcp_st :=
  let st := t_state (tp s) in
  if st =? TCPS_FIN_WAIT_1 then
    Go (if ourfinisacked then on (fun p => set_t_state TCPS_FIN_WAIT_2 (set_t_conn_tmr (4 * tcp_msl) p)) s else s)
  else if st =? TCPS_CLOSING then
    if ourfinisacked then
      let* s := snd_free s in
      let* s := rcv_free s in
      Go (on (fun p => set_t_conn_tmr (2 * tcp_msl) (set_t_rxmt_tmr 0 (set_t_state TCPS_TIME_WAIT p))) s)
    else Go s
  else if st =? TCPS_LAST_ACK then
    if ourfinisacked then let* s := tcp_pcb_free s in Done 0 s else Go s
  else if st =? TCPS_TIME_WAIT then drop_after_ack tiflags (on (set_t_conn_tmr (2 * tcp_msl)) s)
  else Go s.

(** The acknowledgement; the flag is [needoutput]. *)
Definition process_ack (g : segment) (tiflags ti_seq ti_len snd_una snd_nxt sndmax : Z) (s : tcp_st) : flow (bool * tcp_st) :=
  let ti_ack := th_ack g in
  let* s :=
    if t_state (tp s) =? TCPS_SYN_RCVD then
      if SEQ_GT snd_una ti_ack || SEQ_GT ti_ack sndmax then drop_with_reset tiflags ti_seq ti_ack ti_len s
      else Go (on (fun p => set_snd_max (u16 (snd_max p - 1)) (set_snd_off (u16 (snd_off p - 1)) (set_t_state TCPS_ESTABLISHED p))) s)
    else Go s in
  if negb (acks_in (t_state (tp s))) then Go (false, s)
  else if SEQ_LEQ ti_ack snd_una then Go (false, s)
  else if SEQ_GT ti_ack sndmax then drop_after_ack tiflags s
  else
    let acked := int32 (ti_ack - snd_una) in
    let '(needoutput, s) := if ti_ack =? sndmax then (true, on rxmt_stop s) else (false, on rxmt_restart s) in
    let ourfinisacked := q_len (snd_q (tp s)) <? acked in
    let* s := snd_trim (if ourfinisacked then q_len (snd_q (tp s)) else acked) s in
    let snd_nxt := if SEQ_LT snd_nxt ti_ack then ti_ack else snd_nxt in
    let s := on (set_snd ti_ack snd_nxt sndmax) s in
    let* s := fin_acked tiflags ourfinisacked s in
    Go (needoutput, s).

(** The text of the segment: the flags that are left and the state. *)
Definition process_data (tiflags ti_seq : Z) (data : list Z) (s : tcp_st) : flow (Z * tcp_st) :=
  if (negb (len data =? 0) || bit tiflags TH_FIN) && negb (TCPS_HAVERCVDFIN (t_state (tp s))) then
    if (ti_seq =? rcv_nxt (tp s)) && (t_state (tp s) =? TCPS_ESTABLISHED) then
      let s := on (set_bits TF_DELACK) s in
      let* (n, s) := rcv_add data s in
      let s := on (fun p => set_rcv_nxt (u32 (rcv_nxt p + n)) p) s in
      Go (Z.land tiflags TH_FIN, s)
    else Go (tiflags, on (set_bits TF_ACKNOW) s)
  else Go (Z.land tiflags (Z.lnot TH_FIN), s).

Definition process_fin (tiflags : Z) (s : tcp_st) : flow tcp_st :=
  if bit tiflags TH_FIN then
    let s :=
      if negb (TCPS_HAVERCVDFIN (t_state (tp s))) then
        on (fun p => set_rcv_nxt (u32 (rcv_nxt p + 1)) (set_bits TF_ACKNOW p)) s
      else s in
    let st := t_state (tp s) in
    if (st =? TCPS_SYN_RCVD) || (st =? TCPS_ESTABLISHED) then Go (on (set_t_state TCPS_CLOSE_WAIT) s)
    else if st =? TCPS_FIN_WAIT_1 then Go (on (set_t_state TCPS_CLOSING) s)
    else if st =? TCPS_FIN_WAIT_2 then
      let* s := rcv_free s in
      let* s := snd_free s in
      Go (on (fun p => set_t_conn_tmr (2 * tcp_msl) (set_t_rxmt_tmr 0 (set_t_state TCPS_TIME_WAIT p))) s)
    else if st =? TCPS_TIME_WAIT then Go (on (set_t_conn_tmr (2 * tcp_msl)) s)
    else Go s
  else Go s.

(** From the label [step6] on. *)
Definition step6 (g : segment) (needoutput : bool) (tiflags ti_seq : Z) (data : list Z) (s : tcp_st) : flow unit :=
  let '(needoutput, s) :=
    if bit tiflags TH_ACK && negb (th_win g =? snd_wnd (tp s)) then (true, on (set_snd_wnd (th_win g)) s) else (needoutput, s) in
  let* (tiflags, s) := process_data tiflags ti_seq data s in
  let* s := process_fin tiflags s in
  Done 0 (if needoutput || bit (t_flags (tp s)) TF_ACKNOW then tcp_output_sched s else s).

(** The part of the slow path for the states after [SYN_SENT]. *)
Definition tcp_slow (g : segment) (rcv_wnd snd_una snd_nxt snd_max : Z) (s : tcp_st) : flow unit :=
  let '(tiflags, ti_seq, data, s) := trim_head g s in
  if (TCPS_FIN_WAIT_1 <? t_state (tp s)) && negb (len data =? 0) then drop_with_reset tiflags ti_seq (th_ack g) (len data) s
  else
    let* (tiflags, data, s) := trim_tail tiflags ti_seq data rcv_wnd s in
    let* s := if bit tiflags TH_RST then got_reset s else Go s in
    if bit tiflags TH_SYN then drop_with_reset tiflags ti_seq (th_ack g) (len data) s
    else if negb (bit tiflags TH_ACK) then Done 0 s
    else
      let* (needoutput, s) := process_ack g tiflags ti_seq (len data) snd_una snd_nxt snd_max s in
      step6 g needoutput tiflags ti_seq data s.

(** [tcp_input] once the active block has been found. *)
Definition tcp_input (g : segment) (s : tcp_st) : flow unit :=
  let snd_una := snd_seq (tp s) in
  let snd_nxt := u32 (snd_seq (tp s) + snd_off (tp s)) in
  let snd_max := u32 (snd_seq (tp s) + snd_max (tp s)) in
  let s := on (set_t_conn_tmr tcp_idle_det_tmo) s in
  let s := if bit (t_flags (tp s)) TF_IDLE then on (clear_bits TF_IDLE) s else s in
  let* s := predict g snd_una snd_nxt snd_max s in
  let rcv_wnd := Z.max 0 (tcp_maxrcv - q_len (rcv_q (tp s))) in
  if t_state (tp s) =? TCPS_SYN_SENT then
    let* (ti_seq, s) := syn_sent g s in step6 g false (th_flags g) ti_seq (take (Z.to_nat (Z.min (len (th_data g)) rcv_wnd)) (th_data g)) s
  else tcp_slow g rcv_wnd snd_una snd_nxt snd_max s.

End Input.

(** ** Receiving *)

Inductive tcp_recv_result := TcpWait | TcpRecv (n : Z) (bs : list Z).

Definition tcp_recv (__len : Z) (s : tcp_st) : option (tcp_recv_result * tcp_st) :=
  let st := t_state (tp s) in
  if __len =? 0 then Some (TcpRecv (-1) [], s)
  else if st =? TCPS_CLOSED then Some (TcpRecv (-1) [], s)
  else if (st =? TCPS_TIME_WAIT) || (st =? TCPS_CLOSING) || (st =? TCPS_LAST_ACK) then Some (TcpRecv 0 [], s)
  else if q_len (rcv_q (tp s)) =? 0 then
    if st =? TCPS_CLOSE_WAIT then Some (TcpRecv 0 [], s) else Some (TcpWait, s)
  else
    match mbuf_queue_remove __len (mb s) (rcv_q (tp s)) with
    | None => None
    | Some (n, bs, m, q) =>
        let s := on (set_rcv_q q) (with_pool m s) in
        if (st =? TCPS_FIN_WAIT_1) || (st =? TCPS_FIN_WAIT_2) then Some (TcpRecv n bs, s)
        else if q_len (rcv_q (tp s)) =? 0 then
          let s := if bit (t_flags (tp s)) TF_DELACK then on (set_bits TF_ACKNOW) s else s in
          Some (TcpRecv n bs, tcp_output_sched s)
        else Some (TcpRecv n bs, s)
    end.

(** ** Reasoning about handlers *)

(** A flow that does not get stuck: when it returns [I] holds, when it goes on [Q]. *)
Definition wp {A} (I : tcp_st -> Prop) (f : flow A) (Q : A -> Prop) : Prop :=
  match f with Stuck => False | Done _ s => I s | Go a => Q a end.

Lemma wp_bind {A B I} (f : flow A) (k : A -> flow B) P Q : wp I f P -> (forall a, P a -> wp I (k a) Q) -> wp I (bind f k) Q.
Proof. destruct f as [| |a]; cbn; [done|done|]. intros H HK. by apply HK. Qed.

Lemma wp_mono {A I} (f : flow A) (P Q : A -> Prop) : wp I f P -> (forall a, P a -> Q a) -> wp I f Q.
Proof. destruct f as [| |a]; cbn; [done|done|]. intros H HK. by apply HK. Qed.

(** ** Two queues in one pool *)

(** The queues [q1] and [q2] hold [b1] and [b2] in the buffers [l1] and [l2]. *)
Definition two_ok (m : mbuf_sys) (q1 q2 : mbuf_queue) (fl l1 b1 l2 b2 : list Z) : Prop :=
  queue_ok m q1 fl l1 b1 /\ queue_ok m q2 fl l2 b2 /\ NoDup (fl ++ l1 ++ l2).

Lemma two_sym m q1 q2 fl l1 b1 l2 b2 : two_ok m q1 q2 fl l1 b1 l2 b2 -> two_ok m q2 q1 fl l2 b2 l1 b1.
Proof. intros (A & B & N). split_and!; [done|done|]. by rewrite (Permutation_app_comm l2). Qed.

(** What happens to one of them leaves the other alone. *)
Lemma two_step m m' q1 q1' q2 fl l1 b1 fl' l1' b1' l2 b2 :
  two_ok m q1 q2 fl l1 b1 l2 b2 -> queue_step fl l1 m m' q1' fl' l1' b1' -> two_ok m' q1' q2 fl' l1' b1' l2 b2.
Proof.
  intros (A & B & N) (A' & Pm & F). assert (N' : NoDup (fl' ++ l1' ++ l2)) by (rewrite app_assoc, Pm, <- app_assoc; done).
  split_and!; [done| |done]. assert (Fr : forall i, i ∈ l2 -> i ∉ fl ++ l1).
  { intros i Hi Hf. rewrite app_assoc in N. apply NoDup_app in N as (_ & N & _). by apply (N i). }
  destruct B as [P Lk Ch L Nd R Ln Of (pre & post & E & Ep & Hp) Em]. constructor; try done.
  - by destruct A'.
  - by destruct A'.
  - apply (seg_frame m); [|done]. intros i Hi. by apply F, Fr.
  - rewrite (Permutation_app_comm l1' l2), app_assoc in N'. by apply NoDup_app in N' as (N' & _).
  - exists pre, post. split; [|done]. rewrite <- E. apply raw_frame. intros i Hi. by apply F, Fr.
Qed.

Lemma trim_fifo m q fl l b n : queue_ok m q fl l b -> 0 <= n ->
  exists k m' q' fl' l', mbuf_queue_trim n m q = Some (k, m', q') /\ queue_step fl l m m' q' fl' l' (drop (Z.to_nat (Z.min n (len b))) b).
Proof.
  intros Q H. destruct (mbuf_queue_remove_fifo m q fl l b n Q H) as (m' & q' & fl' & l' & E & S).
  eexists _, m', q', fl', l'. rewrite mbuf_queue_trim_remove, E. done.
Qed.

(** ** The stream of the peer *)

Section Stream.

(** The bytes the peer sends, the sequence number of the first and what the
    application has read. *)
Variable str : Z -> Z.
Variable base : Z.

Definition slice (o n : Z) : list Z := str <$> seqZ o n.

Lemma slice_app o a b : 0 <= a -> 0 <= b -> slice o (a + b) = slice o a ++ slice (o + a) b.
Proof. intros Ha Hb. unfold slice. by rewrite seqZ_app, fmap_app. Qed.

Lemma len_slice o n : 0 <= n -> len (slice o n) = n.
Proof. intros H. unfold slice, len. rewrite length_fmap, length_seqZ. lia. Qed.

Lemma slice_drop o data k : data = slice o (len data) -> 0 <= k <= len data -> drop (Z.to_nat k) data = slice (o + k) (len data - k).
Proof.
  intros E H. rewrite E at 1. replace (len data) with (k + (len data - k)) at 1 by lia. rewrite slice_app by lia.
  rewrite drop_app_length'; [done|]. unfold slice. rewrite length_fmap, length_seqZ. done.
Qed.

Lemma slice_take o data k : data = slice o (len data) -> 0 <= k <= len data -> take (Z.to_nat k) data = slice o k.
Proof.
  intros E H. rewrite E at 1. replace (len data) with (k + (len data - k)) by lia. rewrite slice_app by lia.
  apply take_app_length'. unfold slice. rewrite length_fmap, length_seqZ. done.
Qed.

(** The data [data] at [seq], if any, is a part of the stream, not far from [pos]. *)
Definition fits (pos seq : Z) (data : list Z) : Prop :=
  data = [] \/ exists o, seq = u32 (base + o) /\ -2 ^ 30 < o - pos < 2 ^ 30 /\ data = slice o (len data) /\ len data < 2 ^ 17.

Variable read : list Z.

Definition live (st : Z) : bool := (st =? TCPS_SYN_RCVD) || (st =? TCPS_ESTABLISHED).

(** What has been received is a prefix of the stream, and while data is accepted
    the next sequence number is the one of the next byte. *)
Definition inv (pos : Z) (s : tcp_st) : Prop :=
  exists fl rl rs sl ss,
    two_ok (mb s) (rcv_q (tp s)) (snd_q (tp s)) fl rl rs sl ss /\ read ++ rs = slice 0 (len (read ++ rs)) /\
    (live (t_state (tp s)) = true -> len (read ++ rs) = pos /\ rcv_nxt (tp s) = u32 (base + pos)) /\
    (t_state (tp s) = TCPS_SYN_SENT -> read ++ rs = []).

(** A flow that does not get stuck: when it returns the invariant holds. *)
Abbreviation fwp := (wp (fun s => exists pos, inv pos s)).

(** The fields the invariant depends on. *)
Definition same (s s' : tcp_st) : Prop :=
  mb s' = mb s /\ rcv_q (tp s') = rcv_q (tp s) /\ snd_q (tp s') = snd_q (tp s) /\ t_state (tp s') = t_state (tp s) /\
  rcv_nxt (tp s') = rcv_nxt (tp s).

Lemma inv_same pos s s' : same s s' -> inv pos s -> inv pos s'.
Proof.
  intros (E1 & E2 & E3 & E4 & E5) (fl & rl & rs & sl & ss & T & P & L & Y). exists fl, rl, rs, sl, ss. rewrite E1, E2, E3, E4, E5. done.
Qed.

(** The state changes to one that takes no data. *)
Lemma inv_state pos s s' :
  mb s' = mb s -> rcv_q (tp s') = rcv_q (tp s) -> snd_q (tp s') = snd_q (tp s) -> live (t_state (tp s')) = false -> t_state (tp s') <> TCPS_SYN_SENT ->
  inv pos s -> inv pos s'.
Proof.
  intros E1 E2 E3 E4 E5 (fl & rl & rs & sl & ss & T & P & L & Y). exists fl, rl, rs, sl, ss. rewrite E1, E2, E3, E4. done.
Qed.

(** The part that does not depend on the state of the connection. *)
Definition inv0 (s : tcp_st) : Prop :=
  exists fl rl rs sl ss, two_ok (mb s) (rcv_q (tp s)) (snd_q (tp s)) fl rl rs sl ss /\ read ++ rs = slice 0 (len (read ++ rs)).

Lemma inv_inv0 pos s : inv pos s -> inv0 s.
Proof. intros (fl & rl & rs & sl & ss & T & P & _). by exists fl, rl, rs, sl, ss. Qed.

Lemma inv0_inv pos s : inv0 s -> live (t_state (tp s)) = false -> t_state (tp s) <> TCPS_SYN_SENT -> inv pos s.
Proof. intros (fl & rl & rs & sl & ss & T & P) L Y. exists fl, rl, rs, sl, ss. rewrite L. done. Qed.

Lemma inv0_same s s' : mb s' = mb s -> rcv_q (tp s') = rcv_q (tp s) -> snd_q (tp s') = snd_q (tp s) -> inv0 s -> inv0 s'.
Proof. intros E1 E2 E3 (fl & rl & rs & sl & ss & T & P). exists fl, rl, rs, sl, ss. by rewrite E1, E2, E3. Qed.

Lemma len_nonneg (l : list Z) : 0 <= len l.
Proof. unfold len. lia. Qed.

(** A part of a prefix is a prefix. *)
Lemma prefix_app l1 l2 : l1 ++ l2 = slice 0 (len (l1 ++ l2)) -> l1 = slice 0 (len l1).
Proof.
  intros E. pose proof (len_nonneg l1). pose proof (len_nonneg l2). pose proof (slice_take 0 (l1 ++ l2) (len l1) E ltac:(rewrite len_app; lia)) as H1.
  rewrite <- H1. unfold len. by rewrite Nat2Z.id, take_app_length.
Qed.

Lemma rcv_free_two s fl rl rs sl ss :
  two_ok (mb s) (rcv_q (tp s)) (snd_q (tp s)) fl rl rs sl ss ->
  exists q m fl', rcv_free s = Go (on (set_rcv_q q) (with_pool m s)) /\ two_ok m q (snd_q (tp s)) fl' [] [] sl ss.
Proof.
  intros (A & B & N). destruct (mbuf_queue_free_returns_all _ _ _ _ _ A) as (m & q & E & S).
  eexists q, m, _. unfold rcv_free. rewrite E. split; [done|]. by apply (two_step _ _ _ _ _ _ _ _ _ _ _ _ _ (conj A (conj B N)) S).
Qed.

Lemma rcv_free_inv0 s : inv0 s -> exists q m, rcv_free s = Go (on (set_rcv_q q) (with_pool m s)) /\ inv0 (on (set_rcv_q q) (with_pool m s)).
Proof.
  intros (fl & rl & rs & sl & ss & T & P). destruct (rcv_free_two _ _ _ _ _ _ T) as (q & m & fl' & E & T'). exists q, m. split; [done|].
  exists fl', [], [], sl, ss. split; [done|]. rewrite app_nil_r. by apply prefix_app in P.
Qed.

Lemma snd_step s q m k fl sl ss fl' sl' ss' :
  forall rl rs, two_ok (mb s) (rcv_q (tp s)) (snd_q (tp s)) fl rl rs sl ss -> queue_step fl sl (mb s) m q fl' sl' ss' ->
  k = on (set_snd_q q) (with_pool m s) -> two_ok (mb k) (rcv_q (tp k)) (snd_q (tp k)) fl' rl rs sl' ss'.
Proof. intros rl rs T S ->. apply two_sym. apply two_sym in T. by apply (two_step _ _ _ _ _ _ _ _ _ _ _ _ _ T S). Qed.

Lemma snd_free_two s fl rl rs sl ss :
  two_ok (mb s) (rcv_q (tp s)) (snd_q (tp s)) fl rl rs sl ss ->
  exists q m fl', snd_free s = Go (on (set_snd_q q) (with_pool m s)) /\ two_ok m (rcv_q (tp s)) q fl' rl rs [] [].
Proof.
  intros T. destruct (mbuf_queue_free_returns_all _ _ _ _ _ (proj1 (proj2 T))) as (m & q & E & S).
  eexists q, m, _. unfold snd_free. rewrite E. split; [done|]. exact (snd_step s q m _ _ _ _ _ _ _ _ _ T S eq_refl).
Qed.

Lemma snd_trim_two s n fl rl rs sl ss :
  two_ok (mb s) (rcv_q (tp s)) (snd_q (tp s)) fl rl rs sl ss -> 0 <= n ->
  exists q m fl' sl', snd_trim n s = Go (on (set_snd_q q) (with_pool m s)) /\
    two_ok m (rcv_q (tp s)) q fl' rl rs sl' (drop (Z.to_nat (Z.min n (len ss))) ss).
Proof.
  intros T Hn. destruct (trim_fifo _ _ _ _ _ n (proj1 (proj2 T)) Hn) as (k & m & q & fl' & sl' & E & S).
  exists q, m, fl', sl'. unfold snd_trim. rewrite E. split; [done|]. exact (snd_step s q m _ _ _ _ _ _ _ _ _ T S eq_refl).
Qed.

Lemma snd_free_inv0 s : inv0 s -> exists q m, snd_free s = Go (on (set_snd_q q) (with_pool m s)) /\ inv0 (on (set_snd_q q) (with_pool m s)).
Proof.
  intros (fl & rl & rs & sl & ss & T & P). destruct (snd_free_two _ _ _ _ _ _ T) as (q & m & fl' & E & T'). exists q, m. split; [done|].
  by exists fl', rl, rs, [], [].
Qed.

(** Acknowledged bytes leave the send queue. *)
Lemma snd_trim_inv pos s n : inv pos s -> 0 <= n ->
  exists q m, snd_trim n s = Go (on (set_snd_q q) (with_pool m s)) /\ inv pos (on (set_snd_q q) (with_pool m s)).
Proof.
  intros (fl & rl & rs & sl & ss & T & P & L & Y) Hn. destruct (snd_trim_two _ n _ _ _ _ _ T Hn) as (q & m & fl' & sl' & E & T'). exists q, m. split; [done|].
  by eexists fl', rl, rs, sl', _.
Qed.

(** Bytes enter the receive queue. *)
Lemma rcv_add_spec s fl rl rs sl ss buf :
  two_ok (mb s) (rcv_q (tp s)) (snd_q (tp s)) fl rl rs sl ss ->
  exists n q m fl' rl', rcv_add buf s = Go (n, on (set_rcv_q q) (with_pool m s)) /\ 0 <= n <= len buf /\
    two_ok m q (snd_q (tp s)) fl' rl' (rs ++ take (Z.to_nat n) buf) sl ss.
Proof.
  intros T. destruct T as (A & B & N). destruct (mbuf_queue_add_fifo _ _ _ _ _ buf A) as (m & q & fl' & rl' & E & S).
  eexists _, q, m, fl', rl'. unfold rcv_add. rewrite E. split; [done|]. split.
  - destruct (qo_bytes _ _ _ _ _ A) as (pre & post & Er & Ep & Hp). destruct (chain_bound _ _ _ _ _ _ _ (queue_chain _ _ _ _ _ A) Er) as [H1 _].
    rewrite (qo_len _ _ _ _ _ A), <- Ep, len_app. pose proof (len_nonneg post). pose proof (len_nonneg fl). pose proof (len_nonneg buf). lia.
  - by apply (two_step _ _ _ _ _ _ _ _ _ _ _ _ _ (conj A (conj B N)) S).
Qed.

(** A run of the stream that starts where the received bytes end. *)
Lemma accept pos s data :
  inv pos s -> t_state (tp s) = TCPS_ESTABLISHED -> data = slice pos (len data) ->
  exists n q m, rcv_add data s = Go (n, on (set_rcv_q q) (with_pool m s)) /\ 0 <= n <= len data /\
    inv (pos + n) (on (fun p => set_rcv_nxt (u32 (rcv_nxt p + n)) p) (on (set_rcv_q q) (with_pool m s))).
Proof.
  intros (fl & rl & rs & sl & ss & T & P & L & Y) St D. destruct (rcv_add_spec s fl rl rs sl ss data T) as (n & q & m & fl' & rl' & E & Hn & T').
  exists n, q, m. split; [done|]. split; [done|]. rewrite St in L. destruct L as [Lp Ln]; [done|].
  pose proof (slice_take pos data n D Hn) as Et. exists fl', rl', (rs ++ take (Z.to_nat n) data), sl, ss.
  assert (Hl : len (read ++ rs ++ take (Z.to_nat n) data) = pos + n).
  { rewrite app_assoc, len_app, Lp, Et, len_slice; lia. }
  split; [done|]. split; [|split].
  - rewrite Hl, app_assoc, P, Et, Lp. pose proof (len_nonneg (read ++ rs)). rewrite slice_app by lia. done.
  - intros _. split; [done|]. cbn [on tp set_rcv_nxt rcv_nxt set_rcv_q with_pool]. rewrite Ln. unfold u32. rewrite Zplus_mod_idemp_l. f_equal. lia.
  - cbn [on tp set_rcv_nxt t_state set_rcv_q with_pool]. by rewrite St.
Qed.

(** ** The steps of the input *)

Variable rr : Z.

Lemma inv_respond pos s a q f : inv pos s -> inv pos (tcp_respond a q f s).
Proof. by apply inv_same. Qed.

Lemma inv_sched pos s : inv pos s -> inv pos (tcp_output_sched s).
Proof. intros I. unfold tcp_output_sched. destruct (_ =? 0); [|done]. by apply (inv_same pos s). Qed.

Lemma inv_bits pos f s : inv pos s -> inv pos (on (set_bits f) s).
Proof. by apply inv_same. Qed.

Lemma reset_fwp {A} (Q : A -> Prop) pos fl sq ak ln s : inv pos s -> fwp (drop_with_reset rr fl sq ak ln s) Q.
Proof.
  intros I. unfold drop_with_reset. destruct (negb _); [|by exists pos]. destruct (bit _ _); [exists pos; by apply inv_respond|].
  destruct (bit _ _); [exists pos; by apply inv_respond|by exists pos].
Qed.

Lemma ack_fwp {A} (Q : A -> Prop) pos fl s : inv pos s -> fwp (drop_after_ack fl s) Q.
Proof.
  intros I. unfold drop_after_ack. destruct (bit _ _); exists pos; [done|]. by apply inv_sched, inv_bits.
Qed.

Lemma close_fwp {A} (Q : A -> Prop) s : inv0 s -> fwp (close_conn s) Q.
Proof.
  intros I. unfold close_conn. destruct (snd_free_inv0 s I) as (q1 & m1 & -> & I1). cbn [bind].
  destruct (rcv_free_inv0 _ I1) as (q2 & m2 & -> & I2). cbn [bind wp]. exists 0. apply inv0_inv; [|done|done].
  by apply (inv0_same _ _ eq_refl eq_refl eq_refl I2).
Qed.

Lemma close_reset_fwp {A} (Q : A -> Prop) fl sq ak ln s : inv0 s -> fwp (close_and_reset rr fl sq ak ln s) Q.
Proof.
  intros I. unfold close_and_reset. set (s1 := move_to _ _). assert (I1 : inv0 s1) by (by apply (inv0_same s)).
  destruct (snd_free_inv0 s1 I1) as (q1 & m1 & -> & I2). cbn [bind]. destruct (rcv_free_inv0 _ I2) as (q2 & m2 & -> & I3). cbn [bind].
  apply (reset_fwp _ 0). by apply inv0_inv.
Qed.

Lemma free_fwp s : inv0 s -> exists s', tcp_pcb_free s = Go s' /\ inv0 s' /\ t_state (tp s') = t_state (tp s).
Proof.
  intros I. unfold tcp_pcb_free. set (s1 := if bit _ _ then _ else _).
  assert (I1 : inv0 s1 /\ t_state (tp s1) = t_state (tp s)).
  { unfold s1. destruct (bit _ _); [|done]. split; [by apply (inv0_same s)|done]. }
  destruct I1 as [I1 St]. clearbody s1. destruct (rcv_free_inv0 s1 I1) as (q1 & m1 & -> & I2). cbn [bind].
  destruct (snd_free_inv0 _ I2) as (q2 & m2 & -> & I3). cbn [bind]. eexists. split; [done|]. split; [|by rewrite <- St].
  by apply (inv0_same _ _ eq_refl eq_refl eq_refl I3).
Qed.

(** Differences of sequence numbers. *)
Lemma int32_diff a b : -2 ^ 31 <= a - b < 2 ^ 31 -> int32 (u32 a - u32 b) = a - b.
Proof.
  intros H. change (2 ^ 31) with 2147483648 in H. replace (int32 (u32 a - u32 b)) with (int32 (a - b)); [by apply int32_small; lia|].
  unfold int32, u32. by rewrite <- Zminus_mod.
Qed.

Lemma u32_inj a b : -2 ^ 31 < a - b < 2 ^ 31 -> u32 a = u32 b -> a = b.
Proof. intros H E. pose proof (int32_diff a b ltac:(lia)) as D. rewrite E, Z.sub_diag in D. change (int32 0) with 0 in D. lia. Qed.

Lemma u32_u32 a b : u32 (u32 a + b) = u32 (a + b).
Proof. unfold u32. by rewrite Zplus_mod_idemp_l. Qed.

(** A segment whose data is a part of the stream; a SYN is one less than the first
    byte. *)
Definition seg_fits (pos : Z) (g : segment) : Prop :=
  0 <= th_seq g < 2 ^ 32 /\
  if bit (th_flags g) TH_SYN then u32 (th_seq g + 1) = u32 base /\ fits pos (u32 (th_seq g + 1)) (th_data g)
  else fits pos (th_seq g) (th_data g).

Lemma fits_next pos seq data : fits pos seq data -> seq = u32 (base + pos) -> data = slice pos (len data).
Proof.
  intros [->|(o & E & B & D & _)] Es; [done|]. rewrite Es in E. apply u32_inj in E; [|lia]. by assert (o = pos) as <- by lia.
Qed.

Lemma fits_drop pos seq data k : fits pos seq data -> 0 <= k <= len data -> (forall o, seq = u32 (base + o) -> -2 ^ 30 < o - pos < 2 ^ 30 -> o + k <= pos) ->
  fits pos (u32 (seq + k)) (drop (Z.to_nat k) data).
Proof.
  intros [->|(o & E & B & D & L)] Hk Ho; [left; by rewrite drop_nil|right]. exists (o + k). specialize (Ho o E B). rewrite (slice_drop o data k D Hk). rewrite len_slice by lia. split_and!; [|lia|lia|done|lia].
  rewrite E, u32_u32. f_equal. lia.
Qed.

Lemma fits_take pos seq data k : fits pos seq data -> 0 <= k <= len data -> fits pos seq (take (Z.to_nat k) data).
Proof.
  intros [->|(o & E & B & D & L)] Hk; [left; by rewrite take_nil|right]. exists o. rewrite (slice_take o data k D Hk), len_slice by lia. split_and!; [done|lia|lia|done|lia].
Qed.

Lemma bit_clear f : bit (Z.land f (Z.lnot TH_SYN)) TH_SYN = false.
Proof. unfold bit. rewrite <- Z.land_assoc. change (Z.land (Z.lnot 2) 2) with 0. by rewrite Z.land_0_r. Qed.

Lemma bit_other f g : Z.land (Z.lnot g) TH_SYN = TH_SYN -> bit (Z.land f (Z.lnot g)) TH_SYN = bit f TH_SYN.
Proof. intros H. unfold bit. by rewrite <- Z.land_assoc, H. Qed.

Lemma inv_rcv_nxt pos s : inv pos s -> live (t_state (tp s)) = true -> rcv_nxt (tp s) = u32 (base + pos).
Proof. intros (fl & rl & rs & sl & ss & T & P & L & Y) H. by apply L. Qed.

Lemma trim_head_spec pos g s :
  inv pos s -> seg_fits pos g ->
  let '(fl, sq, data, s') := trim_head g s in
  inv pos s' /\ t_state (tp s') = t_state (tp s) /\ (bit fl TH_SYN = false -> live (t_state (tp s')) = true -> fits pos sq data).
Proof.
  intros I [R F]. change (2 ^ 32) with 4294967296 in R. unfold trim_head. destruct (Z.ltb_spec 0 (int32 (rcv_nxt (tp s) - th_seq g))) as [T|T].
  2: { split; [done|]. split; [done|]. intros S _. by rewrite S in F. }
  set (todrop := int32 (rcv_nxt (tp s) - th_seq g)) in *.
  set (x := if bit (th_flags g) TH_SYN then _ else _).
  assert (X : exists fl1 sq1 td, x = (fl1, sq1, td) /\ fits pos sq1 (th_data g) /\ 0 <= td /\ bit fl1 TH_SYN = false /\
    (live (t_state (tp s)) = true -> forall o, sq1 = u32 (base + o) -> -2 ^ 30 < o - pos < 2 ^ 30 -> td = pos - o)).
  { unfold x. destruct (bit (th_flags g) TH_SYN) eqn:S.
    - eexists _, _, _. split; [done|]. destruct F as [_ F]. split; [done|]. split; [lia|]. split; [apply bit_clear|].
      intros L o E B. unfold todrop. rewrite (inv_rcv_nxt _ _ I L).
      assert (Et : th_seq g = u32 (base + o - 1)).
      { rewrite <- (u32_small (th_seq g)) by done. replace (th_seq g) with (th_seq g + 1 - 1) by lia. unfold Z.sub at 1. rewrite <- u32_u32, E.
        rewrite u32_u32. f_equal. }
      rewrite Et, int32_diff by lia. lia.
    - eexists _, _, _. split; [done|]. split; [done|]. split; [lia|]. split; [done|]. intros L o E B. unfold todrop.
      rewrite (inv_rcv_nxt _ _ I L), E, int32_diff by lia. lia. }
  destruct X as (fl1 & sq1 & td & -> & F1 & Htd & S1 & D1). clear T F. clearbody todrop.
  pose proof (len_nonneg (th_data g)) as Hl.
  destruct ((len (th_data g) <? td) || ((td =? len (th_data g)) && (Z.land fl1 TH_FIN =? 0))) eqn:C.
  - split; [by apply inv_bits|]. split; [done|]. intros _ L. apply fits_drop; [done|lia|]. intros o E B. specialize (D1 L o E B).
    apply orb_true_iff in C as [C|C]; [apply Z.ltb_lt in C; lia|]. apply andb_true_iff in C as [C _]. apply Z.eqb_eq in C. lia.
  - apply orb_false_iff in C as [C _]. apply Z.ltb_ge in C. split; [done|]. split; [done|]. intros _ L. apply fits_drop; [done|lia|].
    intros o E B. specialize (D1 L o E B). lia.
Qed.

Lemma trim_tail_spec pos fl sq data w s :
  inv pos s ->
  fwp (trim_tail fl sq data w s) (fun '(fl', data', s') =>
    inv pos s' /\ t_state (tp s') = t_state (tp s) /\ bit fl' TH_SYN = bit fl TH_SYN /\ (fits pos sq data -> fits pos sq data')).
Proof.
  intros I. unfold trim_tail. set (todrop := int32 _). pose proof (len_nonneg data) as Hl. destruct (Z.ltb_spec 0 todrop) as [T|T]; [|by cbn].
  destruct (_ && negb _); [by apply (ack_fwp _ pos)|]. cbn [wp]. split; [destruct (_ <=? _); [by apply inv_bits|done]|].
  split; [by destruct (_ <=? _)|]. split; [by apply bit_other|]. intros F.
  destruct (Z.le_gt_cases todrop (len data)).
  - apply fits_take; [done|lia].
  - replace (Z.to_nat (len data - todrop)) with (Z.to_nat 0) by lia. apply fits_take; [done|lia].
Qed.

Lemma got_reset_spec pos s : inv pos s -> fwp (got_reset s) (fun s' => s' = s).
Proof.
  intros I. unfold got_reset. destruct (_ || _); [apply close_fwp; by apply (inv_inv0 pos)|].
  destruct ((t_state (tp s) =? 6) || (t_state (tp s) =? 9) || (t_state (tp s) =? 7) || (t_state (tp s) =? 8) || (t_state (tp s) =? 10)) eqn:E; [|done].
  destruct (free_fwp s (inv_inv0 _ _ I)) as (s' & -> & I' & St). cbn [bind wp]. exists 0. apply inv0_inv; [done| |]; rewrite St.
  - unfold live. repeat (apply orb_true_iff in E as [E|E]); apply Z.eqb_eq in E; rewrite E; done.
  - repeat (apply orb_true_iff in E as [E|E]); apply Z.eqb_eq in E; rewrite E; done.
Qed.

(** The invariant, and a state that takes no data does not become one that does. *)
Definition keeps (pos : Z) (s s' : tcp_st) : Prop :=
  inv pos s' /\ (live (t_state (tp s)) = false -> live (t_state (tp s')) = false).

Lemma fin_acked_spec pos fl b s : inv pos s -> fwp (fin_acked fl b s) (keeps pos s).
Proof.
  intros I. unfold fin_acked. destruct (Z.eqb_spec (t_state (tp s)) 6) as [E|_].
  { cbn [wp]. destruct b; [|done]. split; [by apply (inv_state pos s)|done]. }
  destruct (Z.eqb_spec (t_state (tp s)) 7) as [E|_].
  { destruct b; [|done]. destruct (snd_free_inv0 s (inv_inv0 _ _ I)) as (q1 & m1 & -> & I1). cbn [bind].
    destruct (rcv_free_inv0 _ I1) as (q2 & m2 & -> & I2). cbn [bind wp]. split; [|done]. apply inv0_inv; [|done|done].
    by apply (inv0_same _ _ eq_refl eq_refl eq_refl I2). }
  destruct (Z.eqb_spec (t_state (tp s)) 8) as [E|_].
  { destruct b; [|done]. destruct (free_fwp s (inv_inv0 _ _ I)) as (s' & -> & I' & St). cbn [bind wp]. exists 0.
    apply inv0_inv; [done| |]; by rewrite St, E. }
  destruct (Z.eqb_spec (t_state (tp s)) 10) as [E|_]; [|done]. apply (ack_fwp _ pos). by apply (inv_same pos s).
Qed.

Lemma inv_established pos s s' :
  mb s' = mb s -> rcv_q (tp s') = rcv_q (tp s) -> snd_q (tp s') = snd_q (tp s) -> rcv_nxt (tp s') = rcv_nxt (tp s) ->
  t_state (tp s) = TCPS_SYN_RCVD -> t_state (tp s') = TCPS_ESTABLISHED -> inv pos s -> inv pos s'.
Proof.
  intros E1 E2 E3 E4 S S' (fl & rl & rs & sl & ss & T & P & L & Y). rewrite S in L. destruct (L eq_refl) as [L1 L2].
  exists fl, rl, rs, sl, ss. rewrite E1, E2, E3, E4, S'. by split_and!.
Qed.

Lemma inv_snd_len pos s : inv pos s -> 0 <= q_len (snd_q (tp s)).
Proof. intros (fl & rl & rs & sl & ss & (_ & Q & _) & _). rewrite (qo_len _ _ _ _ _ Q). apply len_nonneg. Qed.

Lemma process_ack_spec pos g fl sq ln una nxt mx s :
  inv pos s -> fwp (process_ack rr g fl sq ln una nxt mx s) (fun '(_, s') => keeps pos s s').
Proof.
  intros I. unfold process_ack. apply (wp_bind _ _ (keeps pos s)).
  { destruct (Z.eqb_spec (t_state (tp s)) 3) as [E|_]; [|done]. destruct (_ || _); [by apply (reset_fwp _ pos)|]. cbn [wp].
    split; [by apply (inv_established pos s)|by rewrite E]. }
  intros s1 [I1 K1]. assert (Step : forall s2, keeps pos s1 s2 -> keeps pos s s2) by (intros s2 [I2 K2]; split; [done|]; intros L; by apply K2, K1).
  clear K1 I. generalize dependent s. intros s Step.
  destruct (negb (acks_in _)); [by apply Step|]. destruct (SEQ_LEQ (th_ack g) una) eqn:Q; [by apply Step|].
  destruct (SEQ_GT (th_ack g) mx); [by apply (ack_fwp _ pos)|]. unfold SEQ_LEQ in Q. apply Z.leb_gt in Q.
  set (x := if th_ack g =? mx then _ else _).
  assert (X : exists b s2, x = (b, s2) /\ inv pos s2 /\ t_state (tp s2) = t_state (tp s1)).
  { unfold x. destruct (_ =? mx); eexists _, _; (split; [done|]); (split; [|done]); by apply (inv_same pos s1). }
  destruct X as (b & s2 & -> & I2 & S2). pose proof (inv_snd_len _ _ I2) as Hl.
  set (n := if q_len _ <? _ then _ else _). assert (Hn : 0 <= n) by (unfold n; destruct (_ <? _); lia). clearbody n.
  destruct (snd_trim_inv pos s2 n I2 Hn) as (q & m & -> & I3). cbn [bind]. set (s3 := on (set_snd _ _ _) _).
  assert (I4 : inv pos s3) by (by apply (inv_same pos _ _ (ltac:(by split_and!)) I3)).
  assert (S4 : t_state (tp s3) = t_state (tp s1)) by (by rewrite <- S2). clearbody s3. clear I3.
  apply (wp_bind _ _ (keeps pos s3)); [by apply fin_acked_spec|]. intros s5 [I5 K5]. apply Step. split; [done|]. by rewrite <- S4.
Qed.

Lemma process_data_spec pos fl sq data s :
  inv pos s -> (live (t_state (tp s)) = true -> fits pos sq data) -> fwp (process_data fl sq data s) (fun '(_, s') => exists pos', inv pos' s').
Proof.
  intros I F. unfold process_data. destruct (_ && negb _); [|by exists pos]. destruct (_ =? rcv_nxt (tp s)) eqn:E; cbn [andb]; [|exists pos; by apply inv_bits].
  destruct (Z.eqb_spec (t_state (tp s)) 4) as [S|_]; [|exists pos; by apply inv_bits]. apply Z.eqb_eq in E.
  assert (L : live (t_state (tp s)) = true) by (by rewrite S). rewrite (inv_rcv_nxt _ _ I L) in E.
  destruct (accept pos (on (set_bits 2) s) data) as (n & q & m & -> & _ & I'); [by apply inv_bits|done|by apply (fits_next pos sq); [apply F|]|].
  cbn [bind wp]. by eexists.
Qed.

Lemma process_fin_spec pos fl s : inv pos s -> fwp (process_fin fl s) (fun s' => exists pos', inv pos' s').
Proof.
  intros I. unfold process_fin. destruct (bit fl 1); [|by exists pos]. set (s1 := if negb _ then _ else _).
  assert (I1 : inv0 s1 /\ t_state (tp s1) = t_state (tp s)).
  { unfold s1. destruct (negb _); (split; [|done]); [by apply (inv0_same s); [..|apply (inv_inv0 pos)]|by apply (inv_inv0 pos)]. }
  assert (Keep : live (t_state (tp s)) = false -> exists pos', inv pos' s1).
  { intros L. destruct (Z.eq_dec (t_state (tp s)) 2) as [E|E].
    - exists pos. unfold s1. destruct I as (fl' & rl & rs & sl & ss & T & P & _ & Y). exists fl', rl, rs, sl, ss.
      destruct (negb _); cbn [on tp mb set_rcv_nxt set_bits set_t_flags rcv_q snd_q t_state]; rewrite ?L; by split_and!.
    - exists 0. apply inv0_inv; [apply I1| |]; by rewrite (proj2 I1). }
  destruct I1 as [I1 S1]. clearbody s1. rewrite S1.
  destruct (Z.eqb_spec (t_state (tp s)) 3) as [E|N3]; [exists 0; apply inv0_inv; [by apply (inv0_same s1)|done|done]|].
  destruct (Z.eqb_spec (t_state (tp s)) 4) as [E|N4]; [exists 0; apply inv0_inv; [by apply (inv0_same s1)|done|done]|]. cbn [orb].
  destruct (Z.eqb_spec (t_state (tp s)) 6) as [E|_]; [exists 0; apply inv0_inv; [by apply (inv0_same s1)|done|done]|].
  destruct (Z.eqb_spec (t_state (tp s)) 9) as [E|_].
  { destruct (rcv_free_inv0 s1 I1) as (q1 & m1 & -> & I2). cbn [bind]. destruct (snd_free_inv0 _ I2) as (q2 & m2 & -> & I3). cbn [bind wp].
    exists 0. apply inv0_inv; [|done|done]. by apply (inv0_same _ _ eq_refl eq_refl eq_refl I3). }
  assert (L : live (t_state (tp s)) = false). { unfold live. destruct (Z.eqb_spec (t_state (tp s)) 3), (Z.eqb_spec (t_state (tp s)) 4); done. }
  destruct (Keep L) as (p & Ip). destruct (Z.eqb_spec (t_state (tp s)) 10) as [E|_]; exists p; [by apply (inv_same p s1)|done].
Qed.

Lemma step6_spec pos g b fl sq data s :
  inv pos s -> (live (t_state (tp s)) = true -> fits pos sq data) -> fwp (step6 g b fl sq data s) (fun _ => True).
Proof.
  intros I F. unfold step6. set (x := if bit fl 16 && _ then _ else _).
  assert (X : exists b1 s1, x = (b1, s1) /\ inv pos s1 /\ t_state (tp s1) = t_state (tp s)).
  { unfold x. destruct (_ && _); eexists _, _; (split; [done|]); (split; [|done]); [by apply (inv_same pos s)|done]. }
  destruct X as (b1 & s1 & -> & I1 & S1). apply (wp_bind _ _ (fun '(_, s') => exists pos', inv pos' s')).
  { apply (process_data_spec pos); [done|]. by rewrite S1. }
  intros [fl2 s2] (pos2 & I2). apply (wp_bind _ _ (fun s' => exists pos', inv pos' s')); [by apply (process_fin_spec pos2)|].
  intros s3 (pos3 & I3). cbn [wp]. exists pos3. destruct (_ || _); [by apply inv_sched|done].
Qed.

Lemma syn_sent_spec pos g s :
  inv pos s -> t_state (tp s) = TCPS_SYN_SENT -> seg_fits pos g ->
  fwp (syn_sent rr g s) (fun '(sq, s') => inv 0 s' /\ sq = u32 base /\ len (th_data g) = 0).
Proof.
  intros I S [_ F]. pose proof (inv_inv0 _ _ I) as I0. unfold syn_sent. destruct (bit (th_flags g) 4); [by apply close_fwp|].
  destruct (bit (th_flags g) 2); cbn [negb]; [|by apply close_reset_fwp]. destruct F as [F _].
  destruct (negb (bit (th_flags g) 16)); [by apply close_reset_fwp|].
  destruct (Z.eqb_spec (len (th_data g)) 0) as [D|_]; cbn [negb]; [|by apply close_reset_fwp].
  set (s1 := on _ s). assert (I1 : inv0 s1) by (by apply (inv0_same s)).
  destruct (negb (_ =? th_ack g)); [by apply close_reset_fwp|]. set (s2 := on _ s1). set (s3 := if negb (th_optlen g =? 0) then _ else s2).
  cbn [wp]. split; [|by rewrite F].
  destruct I as (fl & rl & rs & sl & ss & T & P & _ & Y). specialize (Y S). exists fl, rl, rs, sl, ss.
  assert (Q : mb s3 = mb s /\ rcv_q (tp s3) = rcv_q (tp s) /\ snd_q (tp s3) = snd_q (tp s)) by (unfold s3; by destruct (negb _)).
  destruct Q as (Q1 & Q2 & Q3). clearbody s3.
  cbn [on tp mb set_bits set_t_flags set_t_state set_snd_wnd set_rcv_nxt rcv_q snd_q t_state rcv_nxt]. rewrite Q1, Q2, Q3, Y. split_and!; try done.
  intros _. by rewrite F, Z.add_0_r.
Qed.

Lemma predict_spec pos g una nxt mx s :
  inv pos s -> seg_fits pos g -> fwp (predict g una nxt mx s) (fun s' => s' = s).
Proof.
  intros I [_ F]. unfold predict.
  destruct (Z.eqb_spec (t_state (tp s)) 4) as [S|_]; [|done]. cbn [andb].
  destruct (Z.eqb_spec (Z.land (th_flags g) (Z.lor (Z.lor (Z.lor (Z.lor 2 1) 4) 32) 16)) 16) as [B|_]; [|done]. cbn [andb].
  destruct (Z.eqb_spec (th_seq g) (rcv_nxt (tp s))) as [E|_]; [|done]. cbn [andb].
  destruct (_ && (nxt =? mx)); [|done].
  assert (NS : bit (th_flags g) TH_SYN = false).
  { unfold bit. change 2 with (Z.land 55 2). rewrite Z.land_assoc. change (Z.lor (Z.lor (Z.lor (Z.lor 2 1) 4) 32) 16) with 55 in B. by rewrite B. }
  rewrite NS in F. assert (L : live (t_state (tp s)) = true) by (by rewrite S). rewrite (inv_rcv_nxt _ _ I L) in E.
  destruct (len (th_data g) =? 0).
  - destruct (SEQ_GT (th_ack g) una) eqn:G; [|done]. cbn [andb]. destruct (SEQ_LEQ (th_ack g) mx); [|done]. unfold SEQ_GT in G. apply Z.ltb_lt in G.
    destruct (snd_trim_inv pos s (int32 (th_ack g - una)) I ltac:(lia)) as (q & m & -> & I1). cbn [bind]. set (s1 := on (set_snd _ _ _) _).
    assert (I2 : inv pos s1) by (by apply (inv_same pos _ _ (ltac:(by split_and!)) I1)). clearbody s1. cbn [wp]. exists pos.
    set (s2 := if th_ack g =? mx then _ else _). assert (I3 : inv pos s2).
    { unfold s2. destruct (_ =? mx); [by apply (inv_same pos s1)|]. destruct (_ =? 0); [by apply (inv_same pos s1)|done]. }
    clearbody s2. destruct (negb _); [by apply inv_sched|done].
  - destruct (_ && (_ <=? _)); [|done].
    destruct (accept pos s (th_data g) I S (fits_next _ _ _ F E)) as (n & q & m & -> & _ & I'). cbn [bind wp]. exists (pos + n).
    destruct (negb _); [by apply inv_sched, inv_bits|by apply inv_bits].
Qed.

Lemma tcp_slow_spec pos g w una nxt mx s : inv pos s -> seg_fits pos g -> fwp (tcp_slow rr g w una nxt mx s) (fun _ => True).
Proof.
  intros I F. unfold tcp_slow. pose proof (trim_head_spec pos g s I F) as H. destruct (trim_head g s) as [[[fl sq] data] s1]. destruct H as (I1 & S1 & F1).
  destruct (_ && negb _); [by apply (reset_fwp _ pos)|].
  apply (wp_bind _ _ (fun '(fl', data', s') => inv pos s' /\ t_state (tp s') = t_state (tp s1) /\ bit fl' TH_SYN = bit fl TH_SYN /\ (fits pos sq data -> fits pos sq data'))).
  { by apply trim_tail_spec. }
  intros [[fl2 data2] s2] (I2 & S2 & B2 & F2). apply (wp_bind _ _ (fun s' => s' = s2)).
  { destruct (bit fl2 4); [by apply (got_reset_spec pos)|done]. }
  intros s3 ->. destruct (bit fl2 2) eqn:Y; [by apply (reset_fwp _ pos)|]. destruct (negb (bit fl2 16)); [by exists pos|].
  (* the state may change from SYN_RCVD to ESTABLISHED, both of which take data *)
  assert (F3 : live (t_state (tp s2)) = true -> fits pos sq data2).
  { intros L. apply F2, F1; [by rewrite <- B2|by rewrite <- S2]. }
  apply (wp_bind _ _ (fun '(_, s') => keeps pos s2 s')); [by apply process_ack_spec|]. intros [b s4] [I4 K4].
  apply (step6_spec pos); [done|]. intros L4. apply F3. destruct (live (t_state (tp s2))); [done|]. by rewrite K4 in L4.
Qed.

Lemma reset_done fl sq ak ln s (u : unit) : drop_with_reset rr fl sq ak ln s <> Go u.
Proof. unfold drop_with_reset. destruct (negb (bit fl 4)); [|done]. destruct (bit fl 16); [done|]. by destruct (bit fl 2). Qed.

Lemma step6_done g b fl sq data s u : step6 g b fl sq data s <> Go u.
Proof.
  unfold step6. destruct (if bit fl 16 && _ then _ else _) as [b1 s1]. destruct (process_data _ _ _ _) as [| |[fl2 s2]]; cbn [bind]; [done|done|].
  by destruct (process_fin _ _).
Qed.

(** A segment of the stream is handled and the invariant holds after it. *)
Lemma tcp_input_inv pos g s : inv pos s -> seg_fits pos g -> fwp (tcp_input rr g s) (fun _ => False).
Proof.
  intros I F. unfold tcp_input. set (s1 := on (set_t_conn_tmr _) s). set (s2 := if bit _ _ then _ else s1).
  assert (I2 : inv pos s2).
  { assert (inv pos s1) by (by apply (inv_same pos s)). unfold s2. destruct (bit _ _); [by apply (inv_same pos s1)|done]. }
  clearbody s2. clear s1. generalize (snd_seq (tp s)) (u32 (snd_seq (tp s) + snd_off (tp s))) (u32 (snd_seq (tp s) + snd_max (tp s))). intros una nxt mx.
  apply (wp_bind _ _ (fun s' => s' = s2)); [by apply (predict_spec pos)|]. intros s3 ->. cbn zeta.
  assert (D : forall f : flow unit, fwp f (fun _ => True) -> (forall u, f <> Go u) -> fwp f (fun _ => False)).
  { intros f Hf Hn. destruct f as [| |u]; [done|done|]. by destruct (Hn u). }
  destruct (Z.eqb_spec (t_state (tp s2)) 2) as [E|_].
  - apply (wp_bind _ _ (fun '(sq, s') => inv 0 s' /\ sq = u32 base /\ len (th_data g) = 0)); [by apply (syn_sent_spec pos)|].
    intros [sq s4] (I4 & Hsq & Hd). apply D; [|apply step6_done]. apply (step6_spec 0); [done|]. intros _.
    assert (th_data g = []) as -> by (destruct (th_data g); [done|]; unfold len in Hd; cbn [length] in Hd; lia). rewrite take_nil. by left.
  - apply D; [by apply (tcp_slow_spec pos)|]. intros u. unfold tcp_slow. destruct (trim_head g s2) as [[[fl sq] data] s4].
    destruct (_ && negb _); [apply reset_done|]. destruct (trim_tail _ _ _ _ _) as [| |[[fl2 data2] s5]]; cbn [bind]; [done|done|].
    destruct (if bit fl2 4 then got_reset s5 else Go s5) as [| |s6]; cbn [bind]; [done|done|].
    destruct (bit fl2 2); [apply reset_done|]. destruct (negb _); [done|]. destruct (process_ack _ _ _ _ _ _ _ _ _) as [| |[b s7]]; cbn [bind]; [done|done|].
    apply step6_done.
Qed.

(** [tcp_recv] takes bytes from the front of what has been received. *)
Lemma tcp_recv_inv n s : 0 <= n -> (exists pos, inv pos s) ->
  exists r s', tcp_recv n s = Some (r, s') /\ match r with TcpWait => s' = s | TcpRecv _ bs => exists rs' fl rl sl ss,
    two_ok (mb s') (rcv_q (tp s')) (snd_q (tp s')) fl rl rs' sl ss /\ (read ++ bs) ++ rs' = slice 0 (len ((read ++ bs) ++ rs')) /\
    t_state (tp s') = t_state (tp s) /\ rcv_nxt (tp s') = rcv_nxt (tp s) /\
    (exists pos, (live (t_state (tp s)) = true -> len ((read ++ bs) ++ rs') = pos /\ rcv_nxt (tp s) = u32 (base + pos)) /\
      (t_state (tp s) = TCPS_SYN_SENT -> (read ++ bs) ++ rs' = [])) end.
Proof.
  intros Hn (pos & fl & rl & rs & sl & ss & T & P & L & Y).
  assert (Same : exists rs' fl rl sl ss, two_ok (mb s) (rcv_q (tp s)) (snd_q (tp s)) fl rl rs' sl ss /\ (read ++ []) ++ rs' = slice 0 (len ((read ++ []) ++ rs')) /\
    t_state (tp s) = t_state (tp s) /\ rcv_nxt (tp s) = rcv_nxt (tp s) /\
    (exists pos, (live (t_state (tp s)) = true -> len ((read ++ []) ++ rs') = pos /\ rcv_nxt (tp s) = u32 (base + pos)) /\
      (t_state (tp s) = TCPS_SYN_SENT -> (read ++ []) ++ rs' = []))).
  { exists rs, fl, rl, sl, ss. rewrite app_nil_r. split_and!; try done. by exists pos. }
  unfold tcp_recv. destruct (n =? 0); [by eexists _, _|]. destruct (_ =? 0); [by eexists _, _|]. destruct (_ || _ || _); [by eexists _, _|].
  destruct (q_len _ =? 0); [destruct (_ =? 5); by eexists _, _|].
  destruct (mbuf_queue_remove_fifo _ _ _ _ _ n (proj1 T) Hn) as (m & q & fl' & rl' & -> & S).
  pose proof (two_step _ _ _ _ _ _ _ _ _ _ _ _ _ T S) as T'. set (k := Z.to_nat (Z.min n (len rs))) in *.
  set (s1 := on (set_rcv_q q) (with_pool m s)).
  assert (G : forall s2, same s1 s2 -> exists rs' fl rl sl ss, two_ok (mb s2) (rcv_q (tp s2)) (snd_q (tp s2)) fl rl rs' sl ss /\
    (read ++ take k rs) ++ rs' = slice 0 (len ((read ++ take k rs) ++ rs')) /\ t_state (tp s2) = t_state (tp s) /\ rcv_nxt (tp s2) = rcv_nxt (tp s) /\
    (exists pos, (live (t_state (tp s)) = true -> len ((read ++ take k rs) ++ rs') = pos /\ rcv_nxt (tp s) = u32 (base + pos)) /\
      (t_state (tp s) = TCPS_SYN_SENT -> (read ++ take k rs) ++ rs' = []))).
  { intros s2 (E1 & E2 & E3 & E4 & E5). exists (drop k rs), fl', rl', sl, ss. rewrite E1, E2, E3, E4, E5.
    assert (Er : (read ++ take k rs) ++ drop k rs = read ++ rs) by (by rewrite <- app_assoc, take_drop). rewrite Er. split_and!; try done. by exists pos. }
  destruct ((t_state (tp s) =? 6) || (t_state (tp s) =? 9)); [eexists _, _; split; [done|]; by apply G|].
  destruct (q_len (rcv_q (tp s1)) =? 0); [|eexists _, _; split; [done|]; by apply G].
  eexists _, _. split; [done|]. apply G. unfold tcp_output_sched. destruct (bit _ _), (_ =? 0); by split_and!.
Qed.

Lemma inv_pos : forall s, (exists pos, inv pos s) -> inv (len read + q_len (rcv_q (tp s))) s.
Proof.
  intros s (pos & fl & rl & rs & sl & ss & T & P & L & Y). exists fl, rl, rs, sl, ss. rewrite (qo_len _ _ _ _ _ (proj1 T)), <- len_app. split_and!; try done.
  intros H. destruct (L H) as [L1 L2]. by rewrite L1.
Qed.

End Stream.

(** ** Connections *)

(** How many bytes have been received, read or not. *)
Definition received (read : list Z) (s : tcp_st) : Z := len read + q_len (rcv_q (tp s)).

Section Connection.

(** The bytes the peer sends, the sequence number of the first one, and the result
    of sending a response. *)
Variable str : Z -> Z.
Variable base : Z.
Variable rr : Z.

(** A connection with what the application has read: a segment arrives whose data
    is a part of the stream of the peer, from anywhere within 2^30 bytes of the
    received ones, and with any flags, window and acknowledgement; or the
    application reads. *)
Inductive conn_step : list Z * tcp_st -> list Z * tcp_st -> Prop :=
| by_segment read s g r s' :
    seg_fits str base (received read s) g -> tcp_input rr g s = Done r s' -> conn_step (read, s) (read, s')
| by_recv read s n k bs s' :
    0 <= n -> tcp_recv n s = Some (TcpRecv k bs, s') -> conn_step (read, s) (read ++ bs, s').

(** A block that waits for the connection, with a correct pool. *)
Definition conn_start (s : tcp_st) : Prop :=
  (t_state (tp s) = TCPS_SYN_SENT \/ t_state (tp s) = TCPS_SYN_RCVD /\ rcv_nxt (tp s) = u32 base) /\
  exists fl sl ss, two_ok (mb s) (rcv_q (tp s)) (snd_q (tp s)) fl [] [] sl ss.

Definition conn_ok (c : list Z * tcp_st) : Prop := exists pos, inv str base c.1 pos c.2.

Lemma conn_start_ok s : conn_start s -> conn_ok ([], s).
Proof.
  intros [S (fl & sl & ss & T)]. exists 0, fl, [], [], sl, ss. split_and!; try done. cbn [snd app]. change (len []) with 0.
  intros L. rewrite Z.add_0_r. destruct S as [S|[_ S]]; [by rewrite S in L|done].
Qed.

Lemma conn_step_ok c c' : conn_step c c' -> conn_ok c -> conn_ok c'.
Proof.
  intros St I. destruct St as [read s g r s' F E|read s n k bs s' Hn E].
  - pose proof (tcp_input_inv str base read rr _ g s (inv_pos str base read s I) F) as H. by rewrite E in H.
  - destruct (tcp_recv_inv str base read n s Hn I) as (x & s2 & E2 & H). rewrite E in E2. inversion E2; subst x s2.
    destruct H as (rs & fl & rl & sl & ss & T & P & S & R & pos & L & Y). exists pos, fl, rl, rs, sl, ss. cbn [fst snd]. rewrite S, R. done.
Qed.

(** C34: Whatever segments arrive, repeated, out of order or lost, with any flags and
    acknowledgements, as long as their data belongs to the peer's stream: the
    application reads a prefix of that stream, and the next such segment is
    processed to its end. *)
Theorem tcp_delivers_stream s0 read s (S0 : conn_start s0) (R : rtc conn_step ([], s0) (read, s)) :
  read = slice str 0 (len read) /\
  (forall g, seg_fits str base (received read s) g -> exists r s', tcp_input rr g s = Done r s').
Proof.
  assert (I : conn_ok (read, s)).
  { remember ([], s0) as c0 eqn:E0. remember (read, s) as c1 eqn:E1. assert (I0 : conn_ok c0) by (subst; by apply conn_start_ok). clear E0 E1 S0.
    induction R as [|x y z St _ IH]; [done|]. apply IH. by apply (conn_step_ok x). }
  split.
  - destruct I as (pos & fl & rl & rs & sl & ss & _ & P & _). by apply (prefix_app str read rs).
  - intros g F. pose proof (tcp_input_inv str base read rr _ g s (inv_pos str base read s I) F) as H.
    destruct (tcp_input rr g s) as [|r s'|u]; [done|by exists r, s'|done].
Qed.

End Connection.

(** ** Progress *)

Definition room (q : mbuf_queue) (fl l : list Z) : Z := 124 * len (fl ++ l) - q_offs q - q_len q.

Lemma rcv_add_all s fl rl rs sl ss buf :
  two_ok (mb s) (rcv_q (tp s)) (snd_q (tp s)) fl rl rs sl ss -> len buf <= room (rcv_q (tp s)) fl rl ->
  exists q m fl' rl', rcv_add buf s = Go (len buf, on (set_rcv_q q) (with_pool m s)) /\ two_ok m q (snd_q (tp s)) fl' rl' (rs ++ buf) sl ss.
Proof.
  intros T H. destruct T as (A & B & N). destruct (mbuf_queue_add_fifo _ _ _ _ _ buf A) as (m & q & fl' & rl' & E & S).
  unfold room in H. rewrite Z.min_l in E, S by done. exists q, m, fl', rl'. unfold rcv_add. rewrite E. split; [done|].
  rewrite take_ge in S by (unfold len; lia). by apply (two_step _ _ _ _ _ _ _ _ _ _ _ _ _ (conj A (conj B N)) S).
Qed.

(** What the receipt of [data] leaves. *)
Definition took (s s' : tcp_st) (data rs : list Z) : Prop :=
  t_state (tp s') = TCPS_ESTABLISHED /\ rcv_nxt (tp s') = u32 (rcv_nxt (tp s) + len data) /\
  exists fl' rl' sl' ss', two_ok (mb s') (rcv_q (tp s')) (snd_q (tp s')) fl' rl' (rs ++ data) sl' ss'.

Lemma took_same s s1 s2 data rs : same s1 s2 -> took s s1 data rs -> took s s2 data rs.
Proof. intros (E1 & E2 & E3 & E4 & E5). unfold took. by rewrite E1, E2, E3, E4, E5. Qed.

Lemma sched_same s : same s (tcp_output_sched s).
Proof. unfold tcp_output_sched. destruct (_ =? 0); by split_and!. Qed.

Lemma same_trans s1 s2 s3 : same s1 s2 -> same s2 s3 -> same s1 s3.
Proof. intros (A1 & A2 & A3 & A4 & A5) (B1 & B2 & B3 & B4 & B5). unfold same. by rewrite B1, B2, B3, B4, B5, A1, A2, A3, A4, A5. Qed.

Lemma took_add s s0 fl rl rs sl ss data :
  same s s0 -> t_state (tp s) = TCPS_ESTABLISHED -> two_ok (mb s) (rcv_q (tp s)) (snd_q (tp s)) fl rl rs sl ss -> len data <= room (rcv_q (tp s)) fl rl ->
  exists q m, rcv_add data s0 = Go (len data, on (set_rcv_q q) (with_pool m s0)) /\
    took s (on (fun p => set_rcv_nxt (u32 (rcv_nxt p + len data)) p) (on (set_rcv_q q) (with_pool m s0))) data rs.
Proof.
  intros (E1 & E2 & E3 & E4 & E5) St T H. rewrite <- E1, <- E2, <- E3 in T. rewrite <- E2 in H.
  destruct (rcv_add_all s0 fl rl rs sl ss data T H) as (q & m & fl' & rl' & E & T'). exists q, m. split; [done|]. split_and!.
  - cbn. by rewrite E4.
  - cbn [on tp set_rcv_nxt rcv_nxt set_rcv_q with_pool]. by rewrite E5.
  - by exists fl', rl', sl, ss.
Qed.

(** The flags of a segment with data. *)
Definition data_flags (f : Z) : Prop := f = TH_ACK \/ f = Z.lor TH_ACK TH_PSH.

Lemma data_flags_bits f : data_flags f ->
  bit f TH_RST = false /\ bit f TH_SYN = false /\ bit f TH_ACK = true /\ Z.land f TH_FIN = 0 /\ (Z.land f 55 =? TH_ACK) = true.
Proof. by intros [->| ->]. Qed.

(** The slow path takes the next segment whole. *)
Lemma slow_takes rr g s fl rl rs sl ss una nxt mx :
  t_state (tp s) = TCPS_ESTABLISHED -> two_ok (mb s) (rcv_q (tp s)) (snd_q (tp s)) fl rl rs sl ss ->
  data_flags (th_flags g) -> th_seq g = rcv_nxt (tp s) -> th_ack g = una -> 0 <= rcv_nxt (tp s) < 2 ^ 32 ->
  0 < len (th_data g) <= tcp_maxrcv - q_len (rcv_q (tp s)) -> len (th_data g) <= room (rcv_q (tp s)) fl rl ->
  exists s', tcp_slow rr g (Z.max 0 (tcp_maxrcv - q_len (rcv_q (tp s)))) una nxt mx s = Done 0 s' /\ took s s' (th_data g) rs.
Proof.
  intros St T Fl Sq Ak Hr Hd Hrm. unfold tcp_slow, trim_head. rewrite Sq, Z.sub_diag. change (0 <? int32 0) with false. cbn iota.
  destruct (data_flags_bits _ Fl) as (F1 & F2 & F3 & F4 & _). rewrite St. change (6 <? 4) with false. cbn [andb]. unfold trim_tail.
  assert (Hq : 0 <= q_len (rcv_q (tp s)) <= 65535).
  { destruct T as (A & _). destruct (qo_bytes _ _ _ _ _ A) as (pre & post & E & _). destruct (chain_bound _ _ _ _ _ _ _ (queue_chain _ _ _ _ _ A) E).
    rewrite (qo_len _ _ _ _ _ A). unfold len in *. lia. }
  set (w := Z.max 0 _). assert (Hw : w = 2920 - q_len (rcv_q (tp s))) by (unfold w; lia). clearbody w.
  replace (rcv_nxt (tp s) + len (th_data g) - (rcv_nxt (tp s) + w)) with (len (th_data g) - w) by lia.
  rewrite int32_small by lia. destruct (Z.ltb_spec 0 (len (th_data g) - w)); [lia|]. cbn [bind].
  rewrite F1, F2, F3. cbn [negb bind]. unfold process_ack. rewrite St, Ak.
  change (4 =? 3) with false. cbn iota. cbn [bind]. rewrite St. change (negb (acks_in 4)) with false. cbn iota.
  unfold SEQ_LEQ. rewrite Z.sub_diag. change (int32 0 <=? 0) with true. cbn iota. cbn [bind]. unfold step6.
  set (x := if bit (th_flags g) 16 && _ then _ else _).
  assert (X : exists b s1, x = (b, s1) /\ same s s1) by (unfold x; destruct (_ && _); eexists _, _; (split; [done|]); by split_and!).
  destruct X as (b & s1 & -> & Sm). unfold process_data. pose proof Sm as (M1 & M2 & M3 & M4 & M5). rewrite M4, M5, St.
  destruct (Z.eqb_spec (len (th_data g)) 0); [lia|]. change (negb (TCPS_HAVERCVDFIN 4)) with true. cbn [negb orb andb]. rewrite Z.eqb_refl.
  change (4 =? 4) with true. cbn [andb].
  destruct (took_add s (on (set_bits 2) s1) fl rl rs sl ss (th_data g)) as (q & m & -> & Tk); [|done|done|done|].
  { by apply (same_trans s s1); [|split_and!]. }
  cbn [bind]. rewrite F4. unfold process_fin. change (bit 0 1) with false. cbn iota. cbn [bind].
  eexists. split; [done|]. destruct (_ || _); [|done]. by apply (took_same _ _ _ _ _ (sched_same _)).
Qed.

(** In an established connection the segment that starts at the next expected
    byte, fits the window and the buffers and acknowledges nothing new is taken
    whole, on the fast path and on the slow one alike. *)
Theorem tcp_takes_next rr g s fl rl rs sl ss
    (St : t_state (tp s) = TCPS_ESTABLISHED) (T : two_ok (mb s) (rcv_q (tp s)) (snd_q (tp s)) fl rl rs sl ss)
    (Fl : data_flags (th_flags g)) (Sq : th_seq g = rcv_nxt (tp s)) (Ak : th_ack g = snd_seq (tp s)) (Hr : 0 <= rcv_nxt (tp s) < 2 ^ 32)
    (Hd : 0 < len (th_data g) <= tcp_maxrcv - q_len (rcv_q (tp s))) (Hrm : len (th_data g) <= room (rcv_q (tp s)) fl rl) :
  exists s', tcp_input rr g s = Done 0 s' /\ took s s' (th_data g) rs.
Proof.
  unfold tcp_input. set (s1 := on (set_t_conn_tmr _) s). set (s2 := if bit _ _ then _ else s1).
  assert (Sm : same s s2) by (unfold s2; destruct (bit _ _); by split_and!). clearbody s2. clear s1.
  generalize (u32 (snd_seq (tp s) + snd_off (tp s))) (u32 (snd_seq (tp s) + snd_max (tp s))). intros nxt mx.
  pose proof Sm as (M1 & M2 & M3 & M4 & M5).
  assert (Slow : exists s', tcp_slow rr g (Z.max 0 (2920 - q_len (rcv_q (tp s2)))) (snd_seq (tp s)) nxt mx s2 = Done 0 s' /\ took s s' (th_data g) rs).
  { destruct (slow_takes rr g s2 fl rl rs sl ss (snd_seq (tp s)) nxt mx) as (s' & E & Tk); rewrite ?M1, ?M2, ?M3, ?M4, ?M5; try done.
    exists s'. rewrite M2 in E. split; [done|]. unfold took in *. by rewrite <- M5. }
  unfold predict. rewrite M4, M5, St, Sq, (Z.eqb_refl (rcv_nxt (tp s))). change (4 =? 4) with true.
  change (Z.lor (Z.lor (Z.lor (Z.lor 2 1) 4) 32) 16) with 55. destruct (data_flags_bits _ Fl) as (_ & _ & _ & _ & ->). cbn [andb]. change (4 =? 2) with false.
  destruct (negb (th_win g =? 0) && (th_win g =? snd_wnd (tp s2)) && (nxt =? mx)); [|cbn [bind]; cbn zeta; rewrite ?M4, ?St; exact Slow].
  destruct (Z.eqb_spec (len (th_data g)) 0); [lia|]. rewrite Ak, Z.eqb_refl, M2. destruct (Z.leb_spec (len (th_data g)) (2920 - q_len (rcv_q (tp s)))); [|lia].
  cbn [andb]. destruct (took_add s s2 fl rl rs sl ss (th_data g) Sm St T Hrm) as (q & m & -> & Tk). cbn [bind]. rewrite Z.eqb_refl. cbn [negb].
  eexists. split; [done|]. by apply (took_same _ _ _ _ _ (ltac:(by split_and!) : same _ (on (set_bits 2) _)) Tk).
Qed.

(** ** A connection *)

(** A block in a given state over the pool of Mbuf.v, and a segment with data. *)
Definition demo_pcb (st nxt : Z) : tcp_pcb := mk_tcp 0 st 0 0 0 1460 (Some 1500) 1000 0 0 4096 2920 nxt demo_queue demo_queue.
Definition demo_tcp (st nxt : Z) : tcp_st := mk_st (demo_pcb st nxt) demo_pool InActive [].
Definition demo_seg (seq flags : Z) (data : list Z) : segment := mk_segment seq 1000 flags 4096 0 [] data.

(** The stream of the peer: the byte at [i] is [i] modulo 256, the first one has number 501. *)
Definition demo_str (i : Z) : Z := i mod 256.

Lemma demo_two : two_ok demo_pool demo_queue demo_queue (seqZ 0 64) [] [] [] [].
Proof. split_and!; [apply demo_queue_ok..|]. rewrite !app_nil_r. apply NoDup_seqZ. Qed.

(** Two segments of the stream arrive out of order, then in order, and the
    application reads. *)
Definition after {A} (f : flow A) : tcp_st := match f with Done _ s => s | _ => demo_tcp TCPS_CLOSED 0 end.
Definition demo_s1 : tcp_st := after (tcp_input 0 (demo_seg 506 TH_ACK [5; 6; 7]) (demo_tcp TCPS_SYN_RCVD 501)).
Definition demo_s2 : tcp_st := after (tcp_input 0 (demo_seg 501 TH_ACK [0; 1; 2; 3; 4]) demo_s1).
Definition demo_s3 : tcp_st := match tcp_recv 100 demo_s2 with Some (_, s) => s | None => demo_s2 end.

Lemma demo_conn_steps : rtc (conn_step demo_str 501 0) ([], demo_tcp TCPS_SYN_RCVD 501) ([0; 1; 2; 3; 4], demo_s3).
Proof.
  assert (E1 : tcp_input 0 (demo_seg 506 TH_ACK [5; 6; 7]) (demo_tcp TCPS_SYN_RCVD 501) = Done 0 demo_s1) by (vm_compute; reflexivity).
  assert (E2 : tcp_input 0 (demo_seg 501 TH_ACK [0; 1; 2; 3; 4]) demo_s1 = Done 0 demo_s2) by (vm_compute; reflexivity).
  assert (E3 : tcp_recv 100 demo_s2 = Some (TcpRecv 5 [0; 1; 2; 3; 4], demo_s3)) by (vm_compute; reflexivity).
  assert (L1 : received [] demo_s1 = 0) by (vm_compute; reflexivity).
  generalize dependent demo_s3. generalize dependent demo_s2. generalize dependent demo_s1. intros s1 E1 L1 s2 E2 s3 E3.
  apply rtc_l with (y := ([], s1)). { refine (by_segment _ _ _ _ _ _ 0 _ _ E1). split; [cbn; lia|]. right. exists 5. split_and!; vm_compute; done. }
  apply rtc_l with (y := ([], s2)). { refine (by_segment _ _ _ _ _ _ 0 _ _ E2). rewrite L1. split; [cbn; lia|]. right. exists 0. split_and!; vm_compute; done. }
  apply rtc_once. change [0; 1; 2; 3; 4] with ([] ++ [0; 1; 2; 3; 4]). refine (by_recv _ _ _ _ _ 100 5 _ _ _ E3). lia.
Qed.

Lemma tcp_delivers_stream_witness :
  [0; 1; 2; 3; 4] = slice demo_str 0 5 /\
  (forall g, seg_fits demo_str 501 (received [0; 1; 2; 3; 4] demo_s3) g -> exists r s', tcp_input 0 g demo_s3 = Done r s').
Proof.
  apply (tcp_delivers_stream demo_str 501 0 (demo_tcp TCPS_SYN_RCVD 501) [0; 1; 2; 3; 4] demo_s3); [|apply demo_conn_steps].
  split; [by right|]. exists (seqZ 0 64), [], []. apply demo_two.
Defined.

Lemma tcp_takes_next_witness :
  exists s', tcp_input 0 (demo_seg 501 TH_ACK (seqZ 0 200)) (demo_tcp TCPS_ESTABLISHED 501) = Done 0 s' /\
    took (demo_tcp TCPS_ESTABLISHED 501) s' (seqZ 0 200) [].
Proof.
  apply (tcp_takes_next 0 (demo_seg 501 TH_ACK (seqZ 0 200)) (demo_tcp TCPS_ESTABLISHED 501) (seqZ 0 64) [] [] [] []);
    first [apply demo_two | done | by left | cbn; lia | vm_compute; split; done | vm_compute; done].
Defined.

(** ** Behaviours of the code *)

(** The segment with the last bytes and the FIN arrives before the one in front of
    it: its bytes are dropped, the FIN is counted, the connection goes to
    CLOSE_WAIT, and the missing bytes are not accepted when they come.  The stream
    ends for the application without the bytes that the peer sent. *)
Theorem early_fin_truncates :
  let s := demo_tcp TCPS_ESTABLISHED 501 in
  let s1 := after (tcp_input 0 (demo_seg 506 (Z.lor TH_ACK TH_FIN) [5; 6; 7]) s) in
  let s2 := after (tcp_input 0 (demo_seg 501 TH_ACK [0; 1; 2; 3; 4]) s1) in
  (t_state (tp s1), rcv_nxt (tp s1), q_len (rcv_q (tp s1))) = (TCPS_CLOSE_WAIT, 502, 0) /\
  (t_state (tp s2), q_len (rcv_q (tp s2))) = (TCPS_CLOSE_WAIT, 0) /\
  option_map fst (tcp_recv 100 s2) = Some (TcpRecv 0 []).
Proof. vm_compute. done. Qed.

(** With the buffers exhausted the bytes of the last segment are lost, and yet its
    FIN is counted: the application sees the end of the stream. *)
Definition empty_pool : mbuf_sys :=
  match mbuf_queue_add (zeros 7936) demo_pool demo_queue with Some (_, m, _) => m | None => demo_pool end.

Theorem fin_without_buffers_truncates :
  let s := with_pool empty_pool (demo_tcp TCPS_ESTABLISHED 501) in
  let s1 := after (tcp_input 0 (demo_seg 501 (Z.lor TH_ACK TH_FIN) [0; 1; 2]) s) in
  mb_used empty_pool = 64 /\ (t_state (tp s1), rcv_nxt (tp s1), q_len (rcv_q (tp s1))) = (TCPS_CLOSE_WAIT, 502, 0) /\
  option_map fst (tcp_recv 100 s1) = Some (TcpRecv 0 []).
Proof. vm_compute. done. Qed.

(** A segment of a closing side: in FIN_WAIT_1 the data that comes with the FIN is
    dropped and the FIN counted, so that the acknowledgement sent names the byte
    after the first of the data. *)
Theorem fin_wait_drops_data :
  let s1 := after (tcp_input 0 (demo_seg 501 (Z.lor TH_ACK TH_FIN) [0; 1; 2]) (demo_tcp TCPS_FIN_WAIT_1 501)) in
  (t_state (tp s1), rcv_nxt (tp s1), q_len (rcv_q (tp s1))) = (TCPS_CLOSING, 502, 0).
Proof. vm_compute. done. Qed.

(** A reset that is in sequence: in ESTABLISHED it empties the
    queues and moves the block to the closed list. *)
Example reset_closes :
  let s := after (tcp_input 0 (demo_seg 501 TH_ACK [0; 1; 2]) (demo_tcp TCPS_ESTABLISHED 501)) in
  let s1 := after (tcp_input 0 (demo_seg 504 (Z.lor TH_ACK TH_RST) []) s) in
  (t_state (tp s1), whr s1, q_len (rcv_q (tp s1)), mb_used (mb s1)) = (TCPS_CLOSED, InClosed, 0, 0).
Proof. vm_compute. done. Qed.
