(* ===== verification/TcpOut.v ===== *)
(** * TCP output

    src/sdk/libtcpip/tcp: [tcp_output] (tcp_out.c), which decides what a block sends
    and makes the segments, [tcp_send] (tcp_send.c), [tcp_close] (tcp_close.c) for a
    block with a connection, the probe of tcp_keepalive.c, and what the three timers of tcp_tmr.c do to
    a block.  The segments are in the form [tcp_input] takes them in Tcp.v: their
    fields in host order, options and data.

    The results of the driver are parameters: the route, whether the interface maps
    a buffer for the k-th packet, and what [ip_output] returns for it. *)

From stdpp Require Import base tactics numbers list gmap.
From Stdlib Require Import ZArith Lia.
From S2P Require Import Prelude Buffer Mbuf Tcp.

(** ** Constants *)

Abbreviation TF_SENTFIN := 0x04 (only parsing).
Abbreviation tcp_maxsnd := 2920 (only parsing).
Abbreviation tcp_maxwin := 2920 (only parsing).
Abbreviation tcp_maxmss := 2920 (only parsing).
Abbreviation tcp_defmss := 1460 (only parsing).
Abbreviation TCP_SEND_NOWAIT := 0x0004 (only parsing).
Abbreviation TCP_MAXRXMTS := 6 (only parsing).

Definition tcp_outflags : list Z :=
  [Z.lor TH_RST TH_ACK; 0; TH_SYN; Z.lor TH_SYN TH_ACK; TH_ACK; TH_ACK;
   Z.lor TH_FIN TH_ACK; Z.lor TH_FIN TH_ACK; Z.lor TH_FIN TH_ACK; TH_ACK; TH_ACK].

Definition tcp_keepintvl : list Z := [240; 105; 105; 105; 105; 105; 105; 105; 105].

(** ** One round of output *)

(** What is to be sent: the offset in the send queue, the length, the flags, whether
    more is left, the sequence number, and the space in the receive queue. *)
Record plan := mk_plan { pl_off : Z; pl_len : Z; pl_flags : Z; pl_more : bool; pl_nxt : Z; pl_win : Z }.

Definition out_plan (snd_una snd_nxt : Z) (s : tcp_st) : plan * tcp_st :=
  let off := int32 (snd_nxt - snd_una) in
  let w_rem := snd_wnd (tp s) - off in
  let q_rem := q_len (snd_q (tp s)) - off in
  let flags := rd tcp_outflags (t_state (tp s)) in
  let len := Z.min w_rem q_rem in
  let '(len, snd_nxt, s) :=
    if len <? 0 then
      if w_rem =? 0 then (0, snd_una, on (fun p => set_snd_off 0 (set_t_rxmt_tmr 0 p)) s) else (0, snd_nxt, s)
    else (len, snd_nxt, s) in
  let '(len, sendalot) := if t_maxseg (tp s) <? len then (t_maxseg (tp s), true) else (len, false) in
  let flags := if SEQ_LT (snd_nxt + len) (snd_una + q_len (snd_q (tp s))) then Z.land flags (Z.lnot TH_FIN) else flags in
  (mk_plan off len flags sendalot snd_nxt (tcp_maxrcv - q_len (rcv_q (tp s))), s).

(** The reasons to send. *)
Definition must_send (idle : bool) (snd_una snd_max : Z) (p : plan) (s : tcp_st) : bool :=
  let q_rem := q_len (snd_q (tp s)) - pl_off p in
  (negb (pl_len p =? 0) &&
   ((pl_len p =? t_maxseg (tp s)) || (idle && (q_rem <=? pl_len p)) || (snd_wnd (tp s) / 2 <=? pl_len p) || SEQ_LT (pl_nxt p) snd_max)) ||
  ((0 <? pl_win p) &&
   (let adv := Z.min (pl_win p) (tcp_maxwin - rcv_adv_wnd (tp s)) in (2 * t_maxseg (tp s) <=? adv) || (tcp_maxrcv <=? 2 * adv))) ||
  bit (t_flags (tp s)) TF_ACKNOW || bit (pl_flags p) TH_SYN || bit (pl_flags p) TH_RST ||
  (bit (pl_flags p) TH_FIN && (negb (bit (t_flags (tp s)) TF_SENTFIN) || (pl_nxt p =? snd_una))).

(** The segment size that is announced. *)
Definition tcp_mss (route : option Z) : Z :=
  match route with Some mtu => let mss := mtu - 40 in if tcp_maxmss <? mss then tcp_maxmss else mss | None => tcp_defmss end.

(** A round fails (which does not occur), ends the function, or has sent a segment
    and may go round again. *)
Inductive out_res :=
| OStuck
| OStop (ret : Z) (s : tcp_st)
| OSent (g : segment) (snd_nxt snd_max : Z) (s : tcp_st) (again : bool).

Section Output.

Variable route_lookup : option Z.
Variable mmap : nat -> bool.
Variable ip_output : nat -> segment -> Z.

(** The bookkeeping after a segment has been handed to [ip_output]. *)
Definition out_sent (flags len snd_una snd_nxt snd_max win : Z) (s : tcp_st) : Z * Z * tcp_st :=
  let snd_nxt := if bit flags TH_SYN then u32 (snd_nxt + 1) else snd_nxt in
  let '(snd_nxt, s) := if bit flags TH_FIN then (u32 (snd_nxt + 1), on (set_bits TF_SENTFIN) s) else (snd_nxt, s) in
  let snd_nxt := u32 (snd_nxt + len) in
  let snd_max := if SEQ_GT snd_nxt snd_max then snd_nxt else snd_max in
  let s :=
    if (t_rxmt_tmr (tp s) =? 0) && negb (snd_nxt =? snd_una) then on (fun p => set_t_count 0 (set_t_rxmt_tmr (rd tcp_rxmtintvl 0) p)) s else s in
  (snd_nxt, snd_max, on (fun p => clear_bits (Z.lor TF_ACKNOW TF_DELACK) (set_rcv_adv_wnd win (set_snd snd_una snd_nxt snd_max p))) s).

(** From the label [send] on. *)
Definition out_send (k : nat) (snd_una snd_max : Z) (p : plan) (s : tcp_st) : out_res :=
  match (match t_route (tp s) with Some mtu => Some mtu | None => route_lookup end) with
  | None => OStop 0 s
  | Some mtu =>
      let s := on (set_t_route (Some mtu)) s in
      let len := if mtu <? 40 + pl_len p then mtu - 40 else pl_len p in
      let optlen := if bit (pl_flags p) TH_SYN then 4 else 0 in
      let opt := if bit (pl_flags p) TH_SYN then let mss := tcp_mss (t_route (tp s)) in [2; 4; Z.shiftr (u16 mss) 8; u8 mss] else [] in
      let '(len, sendalot) :=
        if u32 (t_maxseg (tp s) - optlen) <? u32 len then (int32 (t_maxseg (tp s) - optlen), true) else (len, pl_more p) in
      let flags := if negb (len =? 0) && (pl_off p + len =? q_len (snd_q (tp s))) then Z.lor (pl_flags p) TH_PSH else pl_flags p in
      let snd_nxt :=
        if bit flags TH_FIN && bit (t_flags (tp s)) TF_SENTFIN && (pl_nxt p =? snd_max) then u32 (pl_nxt p - 1) else pl_nxt p in
      let win := if (pl_win p <? tcp_maxrcv / 4) && (pl_win p <? t_maxseg (tp s)) then 0 else pl_win p in
      let win := if tcp_maxwin <? win then tcp_maxwin else win in
      if negb (mmap k) then OStop 0 s
      else
        match (if 0 <? len then mbuf_queue_get (pl_off p) len (mb s) (snd_q (tp s)) else Some (0, [])) with
        | None => OStuck
        | Some (_, data) =>
            let seq := if negb (len =? 0) || bit flags (Z.lor TH_SYN TH_FIN) then snd_nxt else snd_max in
            let g := mk_segment seq (rcv_nxt (tp s)) flags win optlen opt data in
            let ret := ip_output k g in
            if ret <? 0 then OStop ret s
            else let '(snd_nxt, snd_max, s) := out_sent flags len snd_una snd_nxt snd_max win s in OSent g snd_nxt snd_max s sendalot
        end
  end.

(** One round, from the label [again] on. *)
Definition out_once (idle : bool) (k : nat) (snd_una snd_nxt snd_max : Z) (s : tcp_st) : out_res :=
  let '(p, s) := out_plan snd_una snd_nxt s in
  if must_send idle snd_una snd_max p s then out_send k snd_una snd_max p s else OStop 0 s.

(** The rounds, with the segments sent. *)
Fixpoint out_loop (n : nat) (idle : bool) (k : nat) (snd_una snd_nxt snd_max : Z) (s : tcp_st) : option (Z * list segment * tcp_st) :=
  match n with
  | O => None
  | S n =>
      match out_once idle k snd_una snd_nxt snd_max s with
      | OStuck => None
      | OStop ret s => Some (ret, [], s)
      | OSent g snd_nxt snd_max s false => Some (0, [g], s)
      | OSent g snd_nxt snd_max s true =>
          match out_loop n idle (S k) snd_una snd_nxt snd_max s with None => None | Some (ret, gs, s) => Some (ret, g :: gs, s) end
      end
  end.

(** [n] bounds the rounds. *)
Definition output_rounds (n : nat) (s : tcp_st) : option (Z * list segment * tcp_st) :=
  let snd_una := snd_seq (tp s) in
  let snd_nxt := u32 (snd_seq (tp s) + snd_off (tp s)) in
  let snd_max := u32 (snd_seq (tp s) + snd_max (tp s)) in
  out_loop n (snd_max =? snd_una) 0 snd_una snd_nxt snd_max s.

(** As many rounds as the queue has bytes, and one more, are enough. *)
Definition tcp_output (s : tcp_st) : option (Z * list segment * tcp_st) := output_rounds (S (Z.to_nat (q_len (snd_q (tp s))))) s.

End Output.

(** ** Sending *)

(** The call returns, or waits with the rest of the data. *)
Inductive send_res := SendRet (v : Z) | SendWait (rest : list Z).

Definition snd_add (buf : list Z) (s : tcp_st) : option (Z * tcp_st) :=
  match mbuf_queue_add buf (mb s) (snd_q (tp s)) with
  | None => None
  | Some (n, m, q) => Some (n, on (set_snd_q q) (with_pool m s))
  end.

(** From the label [again] on with the data [rem]: the result, the bytes queued. *)
Fixpoint send_again (n : nat) (rem : list Z) (__len __flags : Z) (s : tcp_st) : option (send_res * list Z * tcp_st) :=
  match n with
  | O => None
  | S n =>
      if len rem =? 0 then
        let s :=
          if 0 <? __len then
            if bit __flags TCP_SEND_NOWAIT || (t_maxseg (tp s) <=? q_len (snd_q (tp s)) - q_offs (snd_q (tp s))) then tcp_output_sched s
            else on (set_bits TF_DELACK) s
          else s in
        Some (SendRet __len, [], s)
      else
        let m := tcp_maxsnd - q_len (snd_q (tp s)) in
        if m <=? 0 then Some (SendWait rem, [], tcp_output_sched (on (set_bits TF_ACKNOW) s))
        else
          let m := Z.min m (len rem) in
          match snd_add (take (Z.to_nat m) rem) s with
          | None => None
          | Some (k, s) =>
              if k =? 0 then Some (SendWait rem, [], s)
              else
                match send_again n (drop (Z.to_nat k) rem) __len __flags s with
                | None => None
                | Some (r, acc, s) => Some (r, take (Z.to_nat k) rem ++ acc, s)
                end
          end
  end.

Definition tcp_send (rem : list Z) (__len __flags : Z) (s : tcp_st) : option (send_res * list Z * tcp_st) :=
  if negb (t_state (tp s) =? TCPS_ESTABLISHED) then
    if t_state (tp s) =? TCPS_SYN_RCVD then Some (SendWait rem, [], s) else Some (SendRet (-1), [], s)
  else send_again (S (length rem)) rem __len __flags s.

(** ** Closing *)

Definition tcp_close (s : tcp_st) : flow unit :=
  let st := t_state (tp s) in
  let finish s := Done 0 (tcp_output_sched (on (set_bits TF_ACKNOW) s)) in
  if (st =? TCPS_TIME_WAIT) || (st =? TCPS_SYN_SENT) then let* s := tcp_pcb_free s in Done 0 s
  else if st =? TCPS_CLOSED then
    Done 0 (move_to InFree (if bit (t_flags (tp s)) TF_NEEDOUTPUT then on (clear_bits TF_NEEDOUTPUT) s else s))
  else if (st =? TCPS_SYN_RCVD) || (st =? TCPS_ESTABLISHED) then finish (on (set_t_state TCPS_FIN_WAIT_1) s)
  else if st =? TCPS_CLOSE_WAIT then
    let n := q_len (snd_q (tp s)) in
    let s := on (fun p => set_snd_max (u16 (snd_max p - n)) (set_snd_off (u16 (snd_off p - n)) (set_t_state TCPS_LAST_ACK p))) s in
    let* s := snd_free s in
    let* s := rcv_free s in
    finish s
  else Done (-1) s.

(** ** Timers *)

Definition tcp_output_enqueue (s : tcp_st) : tcp_st := if negb (bit (t_flags (tp s)) TF_NEEDOUTPUT) then on (set_bits TF_NEEDOUTPUT) s else s.

Definition tcp_fast_tmr (s : tcp_st) : tcp_st :=
  if bit (t_flags (tp s)) TF_DELACK then tcp_output_enqueue (on (set_bits TF_ACKNOW) (on (clear_bits TF_DELACK) s)) else s.

Definition tcp_rxmt_tmr (s : tcp_st) : tcp_st :=
  if t_rxmt_tmr (tp s) =? 0 then s
  else
    let s := on (set_t_rxmt_tmr (t_rxmt_tmr (tp s) - 1)) s in
    if t_rxmt_tmr (tp s) =? 0 then
      let s := on (set_t_count (u8 (t_count (tp s) + 1))) s in
      if TCP_MAXRXMTS <? t_count (tp s) then s
      else tcp_output_enqueue (on (fun p => clear_bits TF_SENTFIN (set_snd_off 0 (set_t_rxmt_tmr (rd tcp_rxmtintvl (t_count p)) p))) s)
    else s.

(** The probe. *)
Definition tcp_keepalive (s : tcp_st) : segment :=
  mk_segment (u32 (snd_seq (tp s) - 1)) (rcv_nxt (tp s)) TH_ACK (u16 (tcp_maxrcv - q_len (rcv_q (tp s)))) 0 [] [].

(** The connection is given up. *)
Definition tmr_close (s : tcp_st) : flow (list segment * tcp_st) :=
  let* s := snd_free s in
  let* s := rcv_free s in
  Go ([], tcp_output_enqueue (move_to InClosed (on (set_t_state TCPS_CLOSED) s))).

(** The keep-alive counter in ESTABLISHED. *)
Definition keep_alive (s : tcp_st) : flow (list segment * tcp_st) :=
  let s := on (set_t_count (u8 (t_count (tp s) + 1))) s in
  if t_count (tp s) <? 9 then
    let tmr := rd tcp_keepintvl (t_count (tp s)) in
    let s := on (set_t_conn_tmr tmr) s in
    if negb (tmr =? 0) then Go ([tcp_keepalive s], s) else tmr_close s
  else tmr_close s.

Definition tcp_idle_tmr (s : tcp_st) : flow (list segment * tcp_st) :=
  if t_conn_tmr (tp s) =? 0 then Go ([], s)
  else
    let s := on (set_t_conn_tmr (t_conn_tmr (tp s) - 1)) s in
    if negb (t_conn_tmr (tp s) =? 0) then Go ([], s)
    else
      let st := t_state (tp s) in
      if (st =? TCPS_SYN_SENT) || (st =? TCPS_SYN_RCVD) then tmr_close s
      else if st =? TCPS_ESTABLISHED then
        if negb (bit (t_flags (tp s)) TF_IDLE) then
          let s := on (fun p => set_t_conn_tmr (rd tcp_keepintvl 0) (set_t_count 0 (set_bits TF_IDLE p))) s in
          if negb (t_conn_tmr (tp s) =? 0) then Go ([], s) else keep_alive s
        else keep_alive s
      else if st =? TCPS_FIN_WAIT_2 then
        Go ([], on (fun p => set_t_conn_tmr (2 * tcp_msl) (set_t_state TCPS_TIME_WAIT (set_t_rxmt_tmr 0 p))) s)
      else if st =? TCPS_TIME_WAIT then let* s := tcp_pcb_free s in Go ([], s)
      else Go ([], s).
