(* ===== verification/TcpSnd.v ===== *)
(** * The sending side of a TCP connection

    The invariant of a block that sends: the send queue holds the end of what the
    application has written, at the sequence number of its first byte.  Whatever
    segment arrives, and whatever the timers, the application and [tcp_output] do, it
    is kept, and every segment that is sent carries bytes of the stream at their
    sequence number. *)

From stdpp Require Import base tactics numbers list gmap.
From Stdlib Require Import ZArith Lia.
From S2P Require Import Prelude Buffer Mbuf Tcp TcpOut.

(** ** Flags *)

Definition sentfin (p : tcp_pcb) : bool := bit (t_flags p) TF_SENTFIN.

Lemma sentfin_testbit p : sentfin p = Z.testbit (t_flags p) 2.
Proof.
  unfold sentfin, bit. destruct (Z.testbit (t_flags p) 2) eqn:E.
  - destruct (Z.eqb_spec (Z.land (t_flags p) 4) 0) as [Z0|]; [|done]. pose proof (f_equal (fun x => Z.testbit x 2) Z0) as H. cbv beta in H.
    rewrite Z.land_spec, E in H. done.
  - replace (Z.land (t_flags p) 4) with 0; [done|]. symmetry. apply Z.bits_inj'. intros n Hn. rewrite Z.land_spec, Z.bits_0.
    destruct (Z.eq_dec n 2) as [->|N]; [by rewrite E|]. change 4 with (2 ^ 2). rewrite Z.pow2_bits_false by lia. apply andb_false_r.
Qed.

Lemma sentfin_set f p : Z.testbit f 2 = false -> sentfin (set_bits f p) = sentfin p.
Proof. intros H. rewrite !sentfin_testbit. cbn [set_bits set_t_flags t_flags]. by rewrite Z.lor_spec, H, orb_false_r. Qed.

Lemma sentfin_clear f p : Z.testbit (u8 (Z.lnot f)) 2 = true -> sentfin (clear_bits f p) = sentfin p.
Proof. intros H. rewrite !sentfin_testbit. cbn [clear_bits set_t_flags t_flags]. by rewrite Z.land_spec, H, andb_true_r. Qed.

(** ** The invariant *)

Section Sender.

(** The sequence number of the first byte of the stream and the route. *)
Variable base : Z.
Variable route_lookup : option Z.

(** The send queue [ss] is the end of what was written, and the first of its bytes
    has the sequence number of the block. *)
Record aligned (w : list Z) (p : tcp_pcb) (ss : list Z) : Prop := {
  al_una : exists una, 0 <= una <= len w /\ ss = drop (Z.to_nat una) w /\ snd_seq p = u32 (base + una);
  al_off : snd_off p <= snd_max p;
  al_max : snd_max p <= len ss + 1;
  al_open : t_state p = TCPS_ESTABLISHED \/ t_state p = TCPS_CLOSE_WAIT -> snd_max p <= len ss /\ sentfin p = false;
  al_nofin : sentfin p = false -> snd_off p <= len ss;
  al_fin : sentfin p = true -> snd_max p = len ss + 1
}.

Definition route_of (p : tcp_pcb) : option Z := match t_route p with Some mtu => Some mtu | None => route_lookup end.

(** A block past the handshake: aligned, or with an empty queue that stays so. *)
Record snd_ok (w : list Z) (p : tcp_pcb) (ss : list Z) : Prop := {
  so_state : t_state p = TCPS_CLOSED \/ TCPS_ESTABLISHED <= t_state p <= TCPS_TIME_WAIT;
  so_mss : 0 < t_maxseg p < 2 ^ 16;
  so_mtu : forall mtu, route_of p = Some mtu -> t_maxseg p + 40 <= mtu;
  so_seq : 0 <= snd_seq p < 2 ^ 32;
  so_off : 0 <= snd_off p < 2 ^ 16;
  so_max : 0 <= snd_max p < 2 ^ 16;
  so_rcv : 0 <= rcv_nxt p < 2 ^ 32;
  so_queue : aligned w p ss \/ ss = [] /\ t_state p <> TCPS_ESTABLISHED
}.

Definition sinv (w : list Z) (s : tcp_st) : Prop :=
  exists fl rl rs sl ss, two_ok (mb s) (rcv_q (tp s)) (snd_q (tp s)) fl rl rs sl ss /\ snd_ok w (tp s) ss.

(** The fields it depends on. *)
Definition ssame (p p' : tcp_pcb) : Prop :=
  t_state p' = t_state p /\ t_maxseg p' = t_maxseg p /\ t_route p' = t_route p /\ snd_seq p' = snd_seq p /\ snd_off p' = snd_off p /\
  snd_max p' = snd_max p /\ sentfin p' = sentfin p /\ (0 <= rcv_nxt p < 2 ^ 32 -> 0 <= rcv_nxt p' < 2 ^ 32).

Lemma snd_ok_same w p p' ss : ssame p p' -> snd_ok w p ss -> snd_ok w p' ss.
Proof.
  intros (E1 & E2 & E3 & E4 & E5 & E6 & E7 & E8) [A1 A2 A3 A4 A5 A6 A8 A7]. constructor; unfold route_of; rewrite ?E1, ?E2, ?E3, ?E4, ?E5, ?E6; auto.
  destruct A7 as [[B1 B2 B3 B4 B5 B6]|A7]; [left|by right]. constructor; rewrite ?E1, ?E4, ?E5, ?E6, ?E7; done.
Qed.

(** Steps that keep the buffers too. *)
Definition quiet (s s' : tcp_st) : Prop :=
  mb s' = mb s /\ rcv_q (tp s') = rcv_q (tp s) /\ snd_q (tp s') = snd_q (tp s) /\ ssame (tp s) (tp s').

Lemma sinv_quiet w s s' : quiet s s' -> sinv w s -> sinv w s'.
Proof.
  intros (E1 & E2 & E3 & E4) (fl & rl & rs & sl & ss & T & O). exists fl, rl, rs, sl, ss. rewrite E1, E2, E3. split; [done|]. by apply (snd_ok_same w (tp s)).
Qed.

Lemma quiet_refl s : quiet s s.
Proof. unfold quiet, ssame. by split_and!. Qed.

Lemma quiet_trans s1 s2 s3 : quiet s1 s2 -> quiet s2 s3 -> quiet s1 s3.
Proof.
  intros (A1 & A2 & A3 & B1 & B2 & B3 & B4 & B5 & B6 & B7 & B8) (C1 & C2 & C3 & D1 & D2 & D3 & D4 & D5 & D6 & D7 & D8). unfold quiet, ssame.
  split_and!; [by etrans..|auto].
Qed.

Lemma quiet_bits f s : Z.testbit f 2 = false -> quiet s (on (set_bits f) s).
Proof. intros H. unfold quiet, ssame. split_and!; try done. by apply sentfin_set. Qed.

Lemma quiet_clear f s : Z.testbit (u8 (Z.lnot f)) 2 = true -> quiet s (on (clear_bits f) s).
Proof. intros H. unfold quiet, ssame. split_and!; try done. by apply sentfin_clear. Qed.

Lemma quiet_sched s : quiet s (tcp_output_sched s).
Proof. unfold tcp_output_sched. destruct (_ =? 0); [by apply quiet_bits|apply quiet_refl]. Qed.

Lemma quiet_enqueue s : quiet s (tcp_output_enqueue s).
Proof. unfold tcp_output_enqueue. destruct (negb _); [by apply quiet_bits|apply quiet_refl]. Qed.

(** A step that changes none of the fields in any syntactic way. *)
Ltac quiet := first [unfold quiet, ssame; split_and!; (done || (intros _; apply u32_range)) | apply quiet_refl | apply quiet_sched | by apply quiet_bits | by apply quiet_clear].

Abbreviation swp w := (wp (sinv w)).

Lemma reset_swp {A} w (Q : A -> Prop) rr fl sq ak ln s : sinv w s -> swp w (drop_with_reset rr fl sq ak ln s) Q.
Proof.
  intros I. unfold drop_with_reset. destruct (negb (bit fl 4)); [|done]. destruct (bit fl 16); [by apply (sinv_quiet w s); [quiet|]|].
  destruct (bit fl 2); [by apply (sinv_quiet w s); [quiet|]|done].
Qed.

Lemma ack_swp {A} w (Q : A -> Prop) fl s : sinv w s -> swp w (drop_after_ack fl s) Q.
Proof.
  intros I. unfold drop_after_ack. destruct (bit fl 4); [done|]. apply (sinv_quiet w s); [|done]. eapply quiet_trans; [|apply quiet_sched]. quiet.
Qed.

(** ** Release of the queues *)

(** The numbers that do not concern the queue. *)
Definition nums (p p' : tcp_pcb) : Prop :=
  t_maxseg p' = t_maxseg p /\ t_route p' = t_route p /\ snd_seq p' = snd_seq p /\ snd_off p' = snd_off p /\ snd_max p' = snd_max p /\ rcv_nxt p' = rcv_nxt p.

Lemma snd_ok_empty w p p' ss :
  nums p p' -> t_state p' = TCPS_CLOSED \/ TCPS_ESTABLISHED < t_state p' <= TCPS_TIME_WAIT -> snd_ok w p ss -> snd_ok w p' [].
Proof.
  intros (E2 & E3 & E4 & E5 & E6 & E8) St [A1 A2 A3 A4 A5 A6 A8 _]. constructor; unfold route_of; rewrite ?E2, ?E3, ?E4, ?E5, ?E6, ?E8; try done; [lia|]. right. split; [done|lia].
Qed.

(** Both queues are released, in either order. *)
Lemma free_both w s f :
  sinv w s -> (forall p, nums p (f p) /\ rcv_q (f p) = rcv_q p /\ snd_q (f p) = snd_q p) ->
  (forall p, t_state p = t_state (tp s) -> t_state (f p) = TCPS_CLOSED \/ TCPS_ESTABLISHED < t_state (f p) <= TCPS_TIME_WAIT) ->
  (exists s1 s2, snd_free s = Go s1 /\ rcv_free s1 = Go s2 /\ sinv w (on f s2) /\ t_state (tp s2) = t_state (tp s)) /\
  (exists s1 s2, rcv_free s = Go s1 /\ snd_free s1 = Go s2 /\ sinv w (on f s2) /\ t_state (tp s2) = t_state (tp s)).
Proof.
  intros (fl & rl & rs & sl & ss & T & O) F St.
  assert (K : forall s2 fl', two_ok (mb s2) (rcv_q (tp s2)) (snd_q (tp s2)) fl' [] [] [] [] -> nums (tp s) (tp s2) -> t_state (tp s2) = t_state (tp s) -> sinv w (on f s2)).
  { intros s2 fl' T2 N2 S2. destruct (F (tp s2)) as (N & Er & Es). exists fl', [], [], [], []. cbn [on tp mb]. rewrite Er, Es. split; [done|].
    apply (snd_ok_empty w (tp s) _ ss); [|by apply St|done]. destruct N as (? & ? & ? & ? & ? & ?), N2 as (? & ? & ? & ? & ? & ?). unfold nums. split_and!; by etrans. }
  split.
  - destruct (snd_free_two _ _ _ _ _ _ T) as (q & m & fl1 & E1 & T1). set (s1 := on _ _) in *.
    destruct (rcv_free_two s1 fl1 rl rs [] [] T1) as (q2 & m2 & fl2 & E2 & T2). exists s1. eexists. split; [done|]. split; [done|].
    split; [|done]. apply (K _ fl2); [done| |done]. unfold nums. by split_and!.
  - destruct (rcv_free_two _ _ _ _ _ _ T) as (q & m & fl1 & E1 & T1). set (s1 := on _ _) in *.
    destruct (snd_free_two s1 fl1 [] [] sl ss T1) as (q2 & m2 & fl2 & E2 & T2). exists s1. eexists. split; [done|]. split; [done|].
    split; [|done]. apply (K _ fl2); [done| |done]. unfold nums. by split_and!.
Qed.

Lemma sinv_moved w r s : sinv w s -> sinv w (move_to r s).
Proof. apply sinv_quiet. quiet. Qed.

Lemma close_swp {A} w (Q : A -> Prop) s : sinv w s -> swp w (close_conn s) Q.
Proof.
  intros I. destruct (free_both w s (set_t_state TCPS_CLOSED) I) as [(s1 & s2 & E1 & E2 & I2 & _) _]; [by intros p; unfold nums; split_and!|by left|].
  unfold close_conn. rewrite E1. cbn [bind]. rewrite E2. cbn [bind wp]. by apply sinv_moved.
Qed.

Lemma free_sinv w s : sinv w s -> TCPS_ESTABLISHED < t_state (tp s) <= TCPS_TIME_WAIT ->
  exists s', tcp_pcb_free s = Go s' /\ sinv w s'.
Proof.
  intros I St. unfold tcp_pcb_free. set (s1 := if bit _ _ then _ else s).
  assert (Q : quiet s s1) by (unfold s1; destruct (bit _ _); quiet). pose proof (sinv_quiet w _ _ Q I) as I1. destruct Q as (_ & _ & _ & S1 & _). clearbody s1.
  destruct (free_both w s1 id I1) as [_ (s2 & s3 & E2 & E3 & I3 & _)]; [by intros p; unfold nums; split_and!|intros p Ep; right; cbn [id]; by rewrite Ep, S1|].
  rewrite E2. cbn [bind]. rewrite E3. cbn [bind]. eexists. split; [done|]. by apply sinv_moved.
Qed.

(** ** Acknowledgement *)

Lemma u16_range x : 0 <= u16 x < 2 ^ 16.
Proof. unfold u16. apply Z.mod_pos_bound. lia. Qed.

(** The distance of two sequence numbers. *)
Lemma seq_dist a n : 0 <= a < 2 ^ 32 -> -2 ^ 31 <= n < 2 ^ 31 -> int32 (u32 (a + n) - a) = n.
Proof. intros Ha Hn. rewrite <- (u32_small a) at 2 by lia. rewrite int32_diff by lia. lia. Qed.

Lemma u32_int32 x z : u32 (x + int32 z) = u32 (x + z).
Proof.
  unfold int32, u32. change (2 ^ 32) with 4294967296. destruct (_ <? _); [by rewrite Zplus_mod_idemp_r|].
  replace (x + (z mod 4294967296 - 4294967296)) with (x + z mod 4294967296 + -1 * 4294967296) by lia. by rewrite Z_mod_plus_full, Zplus_mod_idemp_r.
Qed.

Lemma int32_top z : int32 z < 2 ^ 31.
Proof. unfold int32. pose proof (u32_range z). destruct (Z.ltb_spec (u32 z) 2147483648); lia. Qed.

(** An acknowledgement in the window: it is the number of the block plus [a]. *)
Lemma ack_dist una mx a :
  0 <= una < 2 ^ 32 -> 0 <= mx < 2 ^ 16 -> 0 < int32 (a - una) -> int32 (a - u32 (una + mx)) <= 0 ->
  0 < int32 (a - una) <= mx /\ u32 a = u32 (una + int32 (a - una)).
Proof.
  intros Hu Hm H1 H2. set (d := int32 (a - una)) in *.
  assert (E : u32 a = u32 (una + d)) by (unfold d; rewrite u32_int32; f_equal; lia).
  assert (R : d < 2 ^ 31) by apply int32_top.
  split; [|done]. split; [done|]. assert (int32 (a - u32 (una + mx)) = d - mx); [|lia].
  replace (int32 (a - u32 (una + mx))) with (int32 (u32 a - u32 (una + mx))) by (unfold int32, u32; by rewrite Zminus_mod_idemp_l).
  rewrite E, int32_diff by lia. lia.
Qed.

Lemma u16_u32 x : u16 (u32 x) = u16 x.
Proof. unfold u16, u32. symmetry. apply Znumtheory.Zmod_div_mod; [lia|lia|]. by exists (2 ^ 16). Qed.

Lemma u16_diff x y : u16 (u32 x - u32 y) = u16 (x - y).
Proof. rewrite <- (u16_u32 (x - y)), <- (u16_u32 (u32 x - u32 y)). unfold u32. by rewrite <- Zminus_mod. Qed.

Lemma int32_u32_l x y : int32 (u32 x - y) = int32 (x - y).
Proof. rewrite <- int32_u32, <- (int32_u32 (x - y)). unfold u32. by rewrite Zminus_mod_idemp_l. Qed.

Definition snd_nxt_of (p : tcp_pcb) : Z := u32 (snd_seq p + snd_off p).
Definition snd_max_of (p : tcp_pcb) : Z := u32 (snd_seq p + snd_max p).

(** The numbers after [a] bytes have been acknowledged. *)
Lemma set_snd_nums p ack a :
  0 <= snd_seq p < 2 ^ 32 -> 0 <= snd_off p < 2 ^ 16 -> 0 <= snd_max p < 2 ^ 16 -> ack = u32 (snd_seq p + a) -> 0 < a <= snd_max p ->
  let p' := set_snd ack (if SEQ_LT (snd_nxt_of p) ack then ack else snd_nxt_of p) (snd_max_of p) p in
  snd_seq p' = ack /\ snd_off p' = Z.max 0 (snd_off p - a) /\ snd_max p' = snd_max p - a.
Proof.
  intros Hs Ho Hm -> Ha p'. unfold p', set_snd, snd_nxt_of, snd_max_of, SEQ_LT. cbn [snd_seq snd_off snd_max set_snd_max set_snd_off set_snd_seq].
  split; [done|]. rewrite int32_diff by lia. split.
  - destruct (Z.ltb_spec (snd_seq p + snd_off p - (snd_seq p + a)) 0).
    + rewrite Z.sub_diag. rewrite Z.max_l by lia. done.
    + rewrite u16_diff, Z.max_r by lia. rewrite u16_small by lia. lia.
  - rewrite u16_diff, u16_small by lia. lia.
Qed.

Lemma drop_drop_z (w : list Z) a b : 0 <= a -> 0 <= b -> drop (Z.to_nat b) (drop (Z.to_nat a) w) = drop (Z.to_nat (a + b)) w.
Proof. intros Ha Hb. rewrite drop_drop. f_equal. lia. Qed.

Lemma len_drop (w : list Z) a : 0 <= a <= len w -> len (drop (Z.to_nat a) w) = len w - a.
Proof. intros H. unfold len in *. rewrite length_drop. lia. Qed.

Lemma ack_ok w p ss ack :
  snd_ok w p ss -> 0 <= ack < 2 ^ 32 -> 0 < int32 (ack - snd_seq p) -> int32 (ack - snd_max_of p) <= 0 ->
  snd_ok w (set_snd ack (if SEQ_LT (snd_nxt_of p) ack then ack else snd_nxt_of p) (snd_max_of p) p)
    (drop (Z.to_nat (Z.min (int32 (ack - snd_seq p)) (len ss))) ss).
Proof.
  intros O Hk H1 H2. pose proof (so_seq _ _ _ O) as Hs. pose proof (so_off _ _ _ O) as Ho. pose proof (so_max _ _ _ O) as Hm.
  destruct (ack_dist _ _ _ Hs Hm H1 H2) as [Ha Ea]. set (a := int32 (ack - snd_seq p)) in *. clearbody a. rewrite (u32_small ack) in Ea by lia.
  destruct (set_snd_nums p ack a Hs Ho Hm Ea Ha) as (N1 & N2 & N3). set (p' := set_snd _ _ _ _) in *.
  assert (St : t_state p' = t_state p) by done. assert (Sf : sentfin p' = sentfin p) by done. assert (Sm : t_maxseg p' = t_maxseg p) by done.
  assert (Sr : t_route p' = t_route p) by done. assert (Sn : rcv_nxt p' = rcv_nxt p) by done. clearbody p'. destruct O as [A1 A2 A3 _ _ _ A8 A7].
  constructor; unfold route_of; rewrite ?St, ?Sm, ?Sr, ?Sn, ?N1, ?N2, ?N3; try done; [lia|lia|].
  destruct A7 as [[(una & Hu & -> & Eu) B2 B3 B4 B5 B6]|[-> A7]]; [|right; by rewrite drop_nil].
  set (ss := drop (Z.to_nat una) w) in *. assert (Hl : len ss = len w - una) by (by apply len_drop).
  destruct (Z.le_gt_cases a (len ss)) as [L|L].
  - left. rewrite Z.min_l by lia. unfold ss. rewrite drop_drop_z by lia.
    constructor; rewrite ?St, ?Sf, ?N1, ?N2, ?N3, ?len_drop by lia.
    + exists (una + a). split; [lia|]. split; [done|]. rewrite Ea, Eu, u32_u32. f_equal. lia.
    + lia.
    + lia.
    + intros S. specialize (B4 S). split; [lia|]. by apply B4.
    + intros S. specialize (B5 S). lia.
    + intros S. specialize (B6 S). lia.
  - right. split; [rewrite drop_ge; [done|]; unfold len in *; lia|]. intros S. destruct (B4 (or_introl S)). lia.
Qed.

(** ** The states *)

Lemma snd_ok_state w p p' ss :
  nums p p' -> sentfin p' = sentfin p -> TCPS_CLOSE_WAIT < t_state p' <= TCPS_TIME_WAIT \/ t_state p' = TCPS_CLOSE_WAIT /\ t_state p = TCPS_ESTABLISHED ->
  snd_ok w p ss -> snd_ok w p' ss.
Proof.
  intros (E2 & E3 & E4 & E5 & E6 & E8) E7 St [A1 A2 A3 A4 A5 A6 A8 A7]. constructor; unfold route_of; rewrite ?E2, ?E3, ?E4, ?E5, ?E6, ?E8; try done; [lia|].
  destruct A7 as [[B1 B2 B3 B4 B5 B6]|[-> A7]]; [left|right; split; [done|lia]]. constructor; rewrite ?E4, ?E5, ?E6, ?E7; try done.
  intros S. apply B4. destruct St as [St|[_ ->]]; [lia|by left].
Qed.

Lemma sinv_state w s f :
  (forall p, nums p (f p) /\ sentfin (f p) = sentfin p /\ rcv_q (f p) = rcv_q p /\ snd_q (f p) = snd_q p) ->
  TCPS_CLOSE_WAIT < t_state (f (tp s)) <= TCPS_TIME_WAIT \/ t_state (f (tp s)) = TCPS_CLOSE_WAIT /\ t_state (tp s) = TCPS_ESTABLISHED ->
  sinv w s -> sinv w (on f s).
Proof.
  intros F St (fl & rl & rs & sl & ss & T & O). destruct (F (tp s)) as (N & Sf & Er & Es). exists fl, rl, rs, sl, ss. cbn [on tp mb]. rewrite Er, Es.
  split; [done|]. by apply (snd_ok_state w (tp s)).
Qed.

Lemma sinv_no_syn w s : sinv w s -> t_state (tp s) <> TCPS_SYN_SENT /\ t_state (tp s) <> TCPS_SYN_RCVD.
Proof. intros (fl & rl & rs & sl & ss & _ & O). pose proof (so_state _ _ _ O). lia. Qed.

(** Closes the side conditions of the two lemmas above. *)
Ltac nums := intros ?; unfold nums; by split_and!.

Lemma got_reset_swp w s : sinv w s -> swp w (got_reset s) (sinv w).
Proof.
  intros I. unfold got_reset. destruct (_ || _); [by apply close_swp|].
  destruct ((t_state (tp s) =? 6) || (t_state (tp s) =? 9) || (t_state (tp s) =? 7) || (t_state (tp s) =? 8) || (t_state (tp s) =? 10)) eqn:E; [|done].
  destruct (free_sinv w s I) as (s' & -> & I'); [|done]. repeat (apply orb_true_iff in E as [E|E]); apply Z.eqb_eq in E; rewrite E; lia.
Qed.

Lemma fin_acked_swp w fl b s : sinv w s -> swp w (fin_acked fl b s) (sinv w).
Proof.
  intros I. unfold fin_acked. destruct (Z.eqb_spec (t_state (tp s)) 6) as [E|_].
  { cbn [wp]. destruct b; [|done]. apply sinv_state; [nums|cbn; lia|done]. }
  destruct (Z.eqb_spec (t_state (tp s)) 7) as [E|_].
  { destruct b; [|done].
    destruct (free_both w s (fun p => set_t_conn_tmr (2 * 5) (set_t_rxmt_tmr 0 (set_t_state TCPS_TIME_WAIT p))) I) as [(s1 & s2 & -> & E2 & I2 & _) _];
      [nums|cbn; lia|]. cbn [bind]. by rewrite E2. }
  destruct (Z.eqb_spec (t_state (tp s)) 8) as [E|_].
  { destruct b; [|done]. destruct (free_sinv w s I) as (s' & -> & I'); [lia|done]. }
  destruct (Z.eqb_spec (t_state (tp s)) 10) as [E|_]; [|done]. apply ack_swp. by apply (sinv_quiet w s); [quiet|].
Qed.

(** Bytes enter the receive queue: the sending side does not notice. *)
Lemma rcv_add_swp w s data f :
  sinv w s -> (forall n s1, quiet (on (set_rcv_q (rcv_q (tp s1))) s1) (f n s1)) ->
  exists n s1, rcv_add data s = Go (n, s1) /\ sinv w (f n s1).
Proof.
  intros (fl & rl & rs & sl & ss & T & O) F. destruct (rcv_add_spec s fl rl rs sl ss data T) as (n & q & m & fl' & rl' & E & Hn & T').
  eexists n, _. split; [done|]. eapply sinv_quiet; [apply F|]. eexists fl', rl', _, sl, ss. split; [done|]. by apply (snd_ok_same w (tp s)); [unfold ssame; split_and!|].
Qed.

(** What is trimmed from the send queue has been acknowledged. *)
Lemma trim_ack w s ack n :
  sinv w s -> 0 <= ack < 2 ^ 32 -> 0 < int32 (ack - snd_seq (tp s)) -> int32 (ack - snd_max_of (tp s)) <= 0 ->
  n = (if q_len (snd_q (tp s)) <? int32 (ack - snd_seq (tp s)) then q_len (snd_q (tp s)) else int32 (ack - snd_seq (tp s))) ->
  exists s1, snd_trim n s = Go s1 /\
    sinv w (on (set_snd ack (if SEQ_LT (snd_nxt_of (tp s)) ack then ack else snd_nxt_of (tp s)) (snd_max_of (tp s))) s1).
Proof.
  intros (fl & rl & rs & sl & ss & T & O) Hk H1 H2 Hn. pose proof (qo_len _ _ _ _ _ (proj1 (proj2 T))) as Hq. pose proof (len_nonneg ss) as Hl.
  assert (Hn0 : 0 <= n /\ n `min` len ss = int32 (ack - snd_seq (tp s)) `min` len ss) by (rewrite Hn, Hq; destruct (Z.ltb_spec (len ss) (int32 (ack - snd_seq (tp s)))); lia).
  destruct (snd_trim_two _ n _ _ _ _ _ T (proj1 Hn0)) as (q & m & fl' & sl' & E & T'). eexists. split; [exact E|].
  rewrite (proj2 Hn0) in T'. eexists fl', rl, rs, sl', _. split; [exact T'|].
  eapply snd_ok_same; [|by apply (ack_ok w (tp s) ss ack)]. unfold ssame. by split_and!.
Qed.

(** ** Input *)

Lemma quiet_nums s s' : quiet s s' -> snd_seq (tp s') = snd_seq (tp s) /\ snd_nxt_of (tp s') = snd_nxt_of (tp s) /\ snd_max_of (tp s') = snd_max_of (tp s) /\
  q_len (snd_q (tp s')) = q_len (snd_q (tp s)).
Proof. intros (_ & _ & Eq & _ & _ & _ & E1 & E2 & E3 & _). unfold snd_nxt_of, snd_max_of. by rewrite Eq, E1, E2, E3. Qed.

Lemma process_ack_swp w rr g fl sq ln s :
  sinv w s -> 0 <= th_ack g < 2 ^ 32 ->
  swp w (process_ack rr g fl sq ln (snd_seq (tp s)) (snd_nxt_of (tp s)) (snd_max_of (tp s)) s) (fun '(_, s') => sinv w s').
Proof.
  intros I Hk. unfold process_ack. destruct (sinv_no_syn w s I) as [_ N3]. apply Z.eqb_neq in N3. rewrite N3. clear N3. cbn [bind].
  destruct (negb (acks_in _)); [done|]. destruct (SEQ_LEQ _ _) eqn:Q1; [done|]. destruct (SEQ_GT _ _) eqn:Q2; [by apply ack_swp|].
  unfold SEQ_LEQ in Q1. unfold SEQ_GT in Q2. apply Z.leb_gt in Q1. apply Z.ltb_ge in Q2.
  set (x := if th_ack g =? _ then _ else _).
  assert (X : exists b s2, x = (b, s2) /\ quiet s s2) by (unfold x; destruct (_ =? _); eexists _, _; (split; [done|]); quiet).
  destruct X as (b & s2 & -> & Qt). destruct (quiet_nums _ _ Qt) as (E1 & E2 & E3 & E4). pose proof (sinv_quiet w _ _ Qt I) as I2.
  rewrite <- E1, <- E2, <- E3. rewrite <- E1 in Q1. rewrite <- E3 in Q2.
  destruct (trim_ack w s2 (th_ack g) _ I2 Hk Q1 Q2 eq_refl) as (s3 & -> & I3). cbn [bind]. set (s4 := on (set_snd _ _ _) s3) in *. clearbody s4.
  apply (wp_bind _ _ (sinv w)); [by apply fin_acked_swp|]. intros s5 I5. exact I5.
Qed.

Lemma process_data_swp w fl sq data s : sinv w s -> swp w (process_data fl sq data s) (fun '(_, s') => sinv w s').
Proof.
  intros I. unfold process_data. assert (I2 : forall f, Z.testbit f 2 = false -> sinv w (on (set_bits f) s)) by (intros f Hf; by apply (sinv_quiet w s); [apply quiet_bits|]).
  destruct (_ && negb _); [|done]. destruct (_ && _); [|by apply I2].
  destruct (rcv_add_swp w (on (set_bits 2) s) data (fun n => on (fun p => set_rcv_nxt (u32 (rcv_nxt p + n)) p)) (I2 2 eq_refl)) as (n & s1 & -> & I1); [|done].
  intros n s1. quiet.
Qed.

Lemma process_fin_swp w fl s : sinv w s -> swp w (process_fin fl s) (sinv w).
Proof.
  intros I. unfold process_fin. destruct (bit fl 1); [|done]. set (s1 := if negb _ then _ else _).
  assert (Q : quiet s s1).
  { unfold s1. destruct (negb _); [|quiet]. apply (quiet_trans _ (on (set_bits 1) s)); quiet. }
  pose proof (sinv_quiet w _ _ Q I) as I1. clearbody s1. clear Q I. destruct (sinv_no_syn w s1 I1) as [_ N3]. apply Z.eqb_neq in N3. rewrite N3. clear N3. cbn [orb].
  destruct (Z.eqb_spec (t_state (tp s1)) 4) as [E|_]; [apply sinv_state; [nums|cbn; lia|done]|].
  destruct (Z.eqb_spec (t_state (tp s1)) 6) as [E|_]; [apply sinv_state; [nums|cbn; lia|done]|].
  destruct (Z.eqb_spec (t_state (tp s1)) 9) as [E|_].
  { destruct (free_both w s1 (fun p => set_t_conn_tmr (2 * 5) (set_t_rxmt_tmr 0 (set_t_state TCPS_TIME_WAIT p))) I1) as [_ (s2 & s3 & -> & E2 & I2 & _)];
      [nums|cbn; lia|]. cbn [bind]. by rewrite E2. }
  destruct (Z.eqb_spec (t_state (tp s1)) 10) as [E|_]; [|done]. cbn [wp]. by apply (sinv_quiet w s1); [quiet|].
Qed.

Lemma step6_swp w g b fl sq data s : sinv w s -> swp w (step6 g b fl sq data s) (fun _ => False).
Proof.
  intros I. unfold step6. set (x := if bit fl 16 && _ then _ else _).
  assert (X : exists b1 s1, x = (b1, s1) /\ sinv w s1).
  { unfold x. destruct (_ && _); eexists _, _; (split; [done|]); [by apply (sinv_quiet w s); [quiet|]|done]. }
  destruct X as (b1 & s1 & -> & I1). apply (wp_bind _ _ (fun '(_, s') => sinv w s')); [by apply process_data_swp|].
  intros [fl2 s2] I2. apply (wp_bind _ _ (sinv w)); [by apply process_fin_swp|].
  intros s3 I3. cbn [wp]. destruct (_ || _); [by apply (sinv_quiet w s3); [quiet|]|done].
Qed.

Lemma predict_swp w g s :
  sinv w s -> 0 <= th_ack g < 2 ^ 32 -> swp w (predict g (snd_seq (tp s)) (snd_nxt_of (tp s)) (snd_max_of (tp s)) s) (fun s' => s' = s).
Proof.
  intros I Hk. unfold predict.
  destruct ((t_state (tp s) =? 4) && _ && _ && _ && _ && (snd_nxt_of (tp s) =? snd_max_of (tp s))) eqn:C; [|done].
  apply andb_true_iff in C as [_ C]. apply Z.eqb_eq in C. destruct (len (th_data g) =? 0).
  - destruct (SEQ_GT _ _ && SEQ_LEQ _ _) eqn:A; [|done]. apply andb_true_iff in A as [A1 A2]. unfold SEQ_GT, SEQ_LEQ in *. apply Z.ltb_lt in A1. apply Z.leb_le in A2.
    destruct I as (fl & rl & rs & sl & ss & T & O). pose proof (so_seq _ _ _ O) as Hs. pose proof (so_max _ _ _ O) as Hm. pose proof (so_off _ _ _ O) as Ho.
    destruct (ack_dist _ _ _ Hs Hm A1 A2) as [Ha Ea].
    destruct (snd_trim_two _ (int32 (th_ack g - snd_seq (tp s))) _ _ _ _ _ T ltac:(lia)) as (q & m & fl' & sl' & -> & T'). cbn [bind].
    set (s1 := on (set_snd _ _ _) _).
    assert (I1 : sinv w s1).
    { eexists fl', rl, rs, sl', _. split; [exact T'|]. pose proof (ack_ok w (tp s) ss (th_ack g) O Hk A1 A2) as K.
      replace (if SEQ_LT (snd_nxt_of (tp s)) (th_ack g) then th_ack g else snd_nxt_of (tp s)) with (snd_nxt_of (tp s)) in K.
      - eapply snd_ok_same; [|exact K]. unfold ssame. by split_and!.
      - destruct (SEQ_LT _ _) eqn:L; [|done]. unfold SEQ_LT in L. apply Z.ltb_lt in L. rewrite C in L.
        rewrite <- (u32_small (th_ack g)), Ea in L by done. unfold snd_max_of in L. rewrite int32_diff in L by lia. lia. }
    clearbody s1. set (s2 := if _ =? snd_max_of _ then _ else _).
    assert (I2 : sinv w s2) by (unfold s2; destruct (_ =? snd_max_of _); [|destruct (_ =? 0)]; try done; apply (sinv_quiet w s1); try done; quiet).
    clearbody s2. cbn [wp]. destruct (negb _); [by apply (sinv_quiet w s2); [quiet|]|done].
  - destruct (_ && _); [|done].
    destruct (rcv_add_swp w s (th_data g) (fun n s1 =>
      let s := on (fun p => set_rcv_nxt (u32 (rcv_nxt p + n)) p) s1 in if negb (n =? len (th_data g)) then tcp_output_sched (on (set_bits 1) s) else on (set_bits 2) s) I)
      as (n & s1 & -> & I1); [|done].
    intros n s1. cbv zeta. destruct (negb _); [eapply quiet_trans; [|apply quiet_sched]|];
      (apply (quiet_trans _ (on (fun p => set_rcv_nxt (u32 (rcv_nxt p + n)) p) s1)); quiet).
Qed.

Lemma tcp_slow_swp w rr g wnd s :
  sinv w s -> 0 <= th_ack g < 2 ^ 32 -> swp w (tcp_slow rr g wnd (snd_seq (tp s)) (snd_nxt_of (tp s)) (snd_max_of (tp s)) s) (fun _ => False).
Proof.
  intros I Hk. unfold tcp_slow.
  assert (X : exists fl sq data s1, trim_head g s = (fl, sq, data, s1) /\ quiet s s1).
  { unfold trim_head. destruct (0 <? _); [|eexists _, _, _, _; split; [done|quiet]]. destruct (if bit (th_flags g) 2 then _ else _) as [[fl sq] td].
    destruct (_ || _); eexists _, _, _, _; (split; [done|]); quiet. }
  destruct X as (fl & sq & data & s1 & -> & Q). destruct (quiet_nums _ _ Q) as (E1 & E2 & E3 & _). rewrite <- E1, <- E2, <- E3. pose proof (sinv_quiet w _ _ Q I) as I1.
  clear Q E1 E2 E3 I. clear s. destruct (_ && negb _); [by apply reset_swp|].
  apply (wp_bind _ _ (fun '(_, _, s') => quiet s1 s')).
  { unfold trim_tail. destruct (0 <? _); [|cbn [wp]; quiet]. destruct (_ && negb _); [by apply ack_swp|]. cbn [wp]. destruct (_ <=? _); quiet. }
  intros [[fl2 data2] s2] Q. destruct (quiet_nums _ _ Q) as (E1 & E2 & E3 & _). rewrite <- E1, <- E2, <- E3. pose proof (sinv_quiet w _ _ Q I1) as I2.
  clear Q E1 E2 E3 I1. clear s1. apply (wp_bind _ _ (fun s' => s' = s2)).
  { destruct (bit fl2 4); [|done]. pose proof (got_reset_swp w s2 I2) as R. unfold got_reset in *.
    destruct (_ || _); [by apply close_swp|]. destruct (_ || _); [|done]. destruct (tcp_pcb_free s2); done. }
  intros s3 ->. destruct (bit fl2 2); [by apply reset_swp|]. destruct (negb _); [done|].
  apply (wp_bind _ _ (fun '(_, s') => sinv w s')); [by apply process_ack_swp|]. intros [b s4] I4. by apply step6_swp.
Qed.

(** Whatever segment arrives, it is handled and the sending side stays correct. *)
Lemma tcp_input_sinv w rr g s : sinv w s -> 0 <= th_ack g < 2 ^ 32 -> exists r s', tcp_input rr g s = Done r s' /\ sinv w s'.
Proof.
  intros I Hk. unfold tcp_input. set (s1 := on (set_t_conn_tmr _) s). set (s2 := if bit _ _ then _ else s1).
  assert (Q : quiet s s2). { apply (quiet_trans _ s1); [quiet|]. unfold s2. destruct (bit _ _); quiet. }
  destruct (quiet_nums _ _ Q) as (E1 & E2 & E3 & _). pose proof (sinv_quiet w _ _ Q I) as I2. fold (snd_nxt_of (tp s)). fold (snd_max_of (tp s)).
  cbv zeta. rewrite <- E1, <- E2, <- E3. clearbody s2. clear s1 Q E1 E2 E3 I.
  enough (W : swp w (let* s0 := predict g (snd_seq (tp s2)) (snd_nxt_of (tp s2)) (snd_max_of (tp s2)) s2 in
     if t_state (tp s0) =? 2 then let* (ti_seq, s3) := syn_sent rr g s0 in
       step6 g false (th_flags g) ti_seq (take (Z.to_nat (len (th_data g) `min` (0 `max` (2920 - q_len (rcv_q (tp s0)))))) (th_data g)) s3
     else tcp_slow rr g (0 `max` (2920 - q_len (rcv_q (tp s0)))) (snd_seq (tp s2)) (snd_nxt_of (tp s2)) (snd_max_of (tp s2)) s0) (fun _ => False)).
  { destruct (bind _ _) as [|r s'|]; [done|by exists r, s'|done]. }
  apply (wp_bind _ _ (fun s' => s' = s2)); [by apply predict_swp|]. intros s3 ->. destruct (sinv_no_syn w s2 I2) as [N _]. apply Z.eqb_neq in N. rewrite N.
  by apply tcp_slow_swp.
Qed.

(** ** Output *)

Lemma int32_shift a b c : int32 (u32 a + b - c) = int32 (a + b - c).
Proof. rewrite <- int32_u32, <- (int32_u32 (a + b - c)). unfold u32. by rewrite <- Zminus_mod_idemp_l, Zplus_mod_idemp_l, Zminus_mod_idemp_l. Qed.

Lemma outflags_spec st : st = TCPS_CLOSED \/ TCPS_ESTABLISHED <= st <= TCPS_TIME_WAIT ->
  bit (rd tcp_outflags st) TH_SYN = false /\ (bit (rd tcp_outflags st) TH_FIN = true -> TCPS_FIN_WAIT_1 <= st <= TCPS_LAST_ACK).
Proof.
  intros H. assert (C : st = 0 \/ st = 4 \/ st = 5 \/ st = 6 \/ st = 7 \/ st = 8 \/ st = 9 \/ st = 10) by lia.
  destruct C as [->|[->|[->|[->|[->|[->|[->| ->]]]]]]]; split; try done; try (intros _; lia).
Qed.

(** The send queue of a pool with 64 buffers. *)
Lemma queue_small m q fl l b : queue_ok m q fl l b -> 0 <= len b < 2 ^ 13.
Proof.
  intros Q. destruct (qo_bytes _ _ _ _ _ Q) as (pre & post & E & Ep & Hp). destruct (chain_bound _ _ _ _ _ _ _ (queue_chain _ _ _ _ _ Q) E) as [H1 H2].
  pose proof (len_nonneg b). unfold len in *. lia.
Qed.

(** What is planned: the data is in the queue, at the number it has there. *)
Record plan_ok (w : list Z) (s s1 : tcp_st) (ss : list Z) (p : plan) : Prop := {
  po_same : mb s1 = mb s /\ rcv_q (tp s1) = rcv_q (tp s) /\ snd_q (tp s1) = snd_q (tp s) /\ snd_seq (tp s1) = snd_seq (tp s) /\ snd_max (tp s1) = snd_max (tp s);
  po_inv : snd_ok w (tp s1) ss;
  po_off : pl_off p = snd_off (tp s);
  po_nxt : pl_nxt p = snd_nxt_of (tp s1);
  po_len : 0 <= pl_len p <= t_maxseg (tp s1);
  po_data : 0 < pl_len p -> snd_off (tp s1) = snd_off (tp s) /\ snd_off (tp s) + pl_len p <= len ss;
  po_more : pl_more p = true -> 0 < pl_len p /\ snd_off (tp s) + pl_len p < len ss;
  po_syn : bit (pl_flags p) TH_SYN = false;
  po_fin : bit (pl_flags p) TH_FIN = true -> TCPS_FIN_WAIT_1 <= t_state (tp s1) <= TCPS_LAST_ACK /\ len ss <= snd_off (tp s1) + pl_len p
}.

Lemma snd_ok_rewind w p p' ss :
  t_state p' = t_state p -> t_maxseg p' = t_maxseg p -> t_route p' = t_route p -> snd_seq p' = snd_seq p -> snd_max p' = snd_max p ->
  rcv_nxt p' = rcv_nxt p -> snd_off p' = 0 -> (sentfin p' = true -> sentfin p = true) -> snd_ok w p ss -> snd_ok w p' ss.
Proof.
  intros E1 E2 E3 E4 E5 E6 E7 E8 [A1 A2 A3 A4 A5 A6 A8 A7]. constructor; unfold route_of; rewrite ?E1, ?E2, ?E3, ?E4, ?E5, ?E6, ?E7; try done.
  destruct A7 as [[B1 B2 B3 B4 B5 B6]|A7]; [left|by right]. pose proof (len_nonneg ss). constructor; rewrite ?E1, ?E4, ?E5, ?E7; try (done || lia).
  - intros S. destruct (B4 S) as [B4a B4b]. split; [done|]. destruct (sentfin p') eqn:F; [|done]. by rewrite (E8 eq_refl) in B4b.
  - intros S. by apply B6, E8.
Qed.

Lemma out_plan_ok w s fl rl rs sl ss :
  two_ok (mb s) (rcv_q (tp s)) (snd_q (tp s)) fl rl rs sl ss -> snd_ok w (tp s) ss ->
  plan_ok w s (out_plan (snd_seq (tp s)) (snd_nxt_of (tp s)) s).2 ss (out_plan (snd_seq (tp s)) (snd_nxt_of (tp s)) s).1.
Proof.
  intros T O. pose proof (queue_small _ _ _ _ _ (proj1 (proj2 T))) as Hl. pose proof (qo_len _ _ _ _ _ (proj1 (proj2 T))) as Hq.
  pose proof (so_seq _ _ _ O) as Hs. pose proof (so_off _ _ _ O) as Ho. pose proof (so_mss _ _ _ O) as Hm. pose proof (so_state _ _ _ O) as Hst.
  unfold out_plan. assert (Eo : int32 (snd_nxt_of (tp s) - snd_seq (tp s)) = snd_off (tp s)) by (apply seq_dist; lia). rewrite Eo, Hq.
  set (x := if _ <? 0 then _ else _).
  assert (X : exists n nxt s1, x = (n, nxt, s1) /\ mb s1 = mb s /\ rcv_q (tp s1) = rcv_q (tp s) /\ snd_q (tp s1) = snd_q (tp s) /\
     snd_seq (tp s1) = snd_seq (tp s) /\ snd_max (tp s1) = snd_max (tp s) /\ t_maxseg (tp s1) = t_maxseg (tp s) /\ t_state (tp s1) = t_state (tp s) /\
     snd_ok w (tp s1) ss /\ nxt = snd_nxt_of (tp s1) /\ 0 <= n /\ (0 < n -> snd_off (tp s1) = snd_off (tp s) /\ snd_off (tp s) + n <= len ss)).
  { unfold x. destruct (Z.ltb_spec ((snd_wnd (tp s) - snd_off (tp s)) `min` (len ss - snd_off (tp s))) 0); [destruct (_ =? 0)|].
    - eexists _, _, _. split; [done|]. split_and!; try (done || lia).
      + by apply (snd_ok_rewind w (tp s)).
      + unfold snd_nxt_of. cbn. rewrite Z.add_0_r. by rewrite u32_small.
    - eexists _, _, _. split; [done|]. split_and!; try (done || lia).
    - eexists _, _, _. split; [done|]. split_and!; try (done || lia). }
  clearbody x. destruct X as (n & nxt & s1 & -> & X1 & X2 & X3 & X4 & X5 & X6 & X7 & O1 & -> & Hn & Hd). pose proof (so_off _ _ _ O1) as Ho1.
  set (y := if _ <? n then _ else _).
  assert (Y : exists n' m, y = (n', m) /\ 0 <= n' <= t_maxseg (tp s1) /\ n' <= n /\ (m = true -> 0 < n' < n)).
  { unfold y. destruct (Z.ltb_spec (t_maxseg (tp s1)) n); eexists _, _; (split; [done|]); split_and!; try (done || lia); intros _; lia. }
  clearbody y. destruct Y as (n' & m & -> & Hn' & Hle & Hm'). cbn [fst snd].
  unfold SEQ_LT, snd_nxt_of. rewrite int32_shift, X3, X4, Hq. destruct (outflags_spec (t_state (tp s)) Hst) as [F1 F2].
  assert (Hfit : 0 < n' -> snd_off (tp s1) = snd_off (tp s) /\ snd_off (tp s) + n' <= len ss) by (intros; destruct Hd; lia).
  rewrite int32_small by lia.
  constructor; cbn [pl_off pl_len pl_flags pl_more pl_nxt]; try done.
  - unfold snd_nxt_of. by rewrite X4.
  - intros M. specialize (Hm' M). destruct Hd; [lia|]. lia.
  - destruct (_ <? 0); [|done]. unfold bit in *. by rewrite <- Z.land_assoc.
  - destruct (Z.ltb_spec (snd_seq (tp s) + snd_off (tp s1) + n' - (snd_seq (tp s) + len ss)) 0).
    + unfold bit. rewrite <- Z.land_assoc. change (Z.land (Z.lnot 1) 1) with 0. by rewrite Z.land_0_r.
    + intros F. rewrite X7. split; [by apply F2|lia].
Qed.

(** What [out_sent] does: the numbers move by the length and the FIN. *)
Lemma out_sent_spec flags n una o mx win s :
  bit flags TH_SYN = false -> -2 ^ 20 < o + n < 2 ^ 20 -> -2 ^ 20 < mx < 2 ^ 20 ->
  let o' := o + n + (if bit flags TH_FIN then 1 else 0) in
  exists s', out_sent flags n una (u32 (una + o)) (u32 (una + mx)) win s = (u32 (una + o'), u32 (una + Z.max o' mx), s') /\
    mb s' = mb s /\ rcv_q (tp s') = rcv_q (tp s) /\ snd_q (tp s') = snd_q (tp s) /\ t_state (tp s') = t_state (tp s) /\ t_maxseg (tp s') = t_maxseg (tp s) /\
    t_route (tp s') = t_route (tp s) /\ rcv_nxt (tp s') = rcv_nxt (tp s) /\ snd_seq (tp s') = una /\
    snd_off (tp s') = u16 (u32 (una + o') - una) /\ snd_max (tp s') = u16 (u32 (una + Z.max o' mx) - una) /\
    sentfin (tp s') = bit flags TH_FIN || sentfin (tp s).
Proof.
  intros Sy Hn Hm o'. unfold out_sent. rewrite Sy.
  set (x := if bit flags 1 then _ else _).
  assert (X : exists nxt s1, x = (nxt, s1) /\ u32 (nxt + n) = u32 (una + o') /\ mb s1 = mb s /\ rcv_q (tp s1) = rcv_q (tp s) /\ snd_q (tp s1) = snd_q (tp s) /\
    t_state (tp s1) = t_state (tp s) /\ t_maxseg (tp s1) = t_maxseg (tp s) /\ t_route (tp s1) = t_route (tp s) /\ rcv_nxt (tp s1) = rcv_nxt (tp s) /\
    sentfin (tp s1) = bit flags 1 || sentfin (tp s)).
  { unfold x, o'. destruct (bit flags 1); eexists _, _; (split; [done|]); split_and!; try done; rewrite ?u32_u32, <- ?(Z.add_assoc _ _ n), ?u32_u32; try (f_equal; lia).
    cbn [on tp orb]. rewrite sentfin_testbit. cbn [set_bits set_t_flags t_flags]. by rewrite Z.lor_spec, orb_true_r. }
  clearbody x. destruct X as (nxt & s1 & -> & E & Y1 & Y2 & Y3 & Y4 & Y5 & Y6 & Y7 & Y8). rewrite E.
  assert (Em : (if SEQ_GT (u32 (una + o')) (u32 (una + mx)) then u32 (una + o') else u32 (una + mx)) = u32 (una + Z.max o' mx)).
  { unfold SEQ_GT. assert (-2 ^ 21 < o' < 2 ^ 21) by (unfold o'; destruct (bit flags 1); lia). rewrite int32_diff by lia.
    destruct (Z.ltb_spec 0 (una + o' - (una + mx))); [rewrite Z.max_l|rewrite Z.max_r]; done || lia. }
  rewrite Em. clearbody o'. set (s2 := if _ && _ then _ else s1).
  assert (Z2 : mb s2 = mb s /\ rcv_q (tp s2) = rcv_q (tp s) /\ snd_q (tp s2) = snd_q (tp s) /\
    t_state (tp s2) = t_state (tp s) /\ t_maxseg (tp s2) = t_maxseg (tp s) /\ t_route (tp s2) = t_route (tp s) /\ rcv_nxt (tp s2) = rcv_nxt (tp s) /\
    sentfin (tp s2) = bit flags 1 || sentfin (tp s)) by (unfold s2; destruct (_ && _); by split_and!).
  clearbody s2. destruct Z2 as (Z1 & Z2 & Z3 & Z4 & Z5 & Z6 & Z7 & Z8). eexists. split; [done|]. split_and!; try done.
  cbn [on tp]. rewrite sentfin_clear by done. exact Z8.
Qed.

(** A segment that carries a part of what was written, at [o], or no data. *)
Definition carries (w : list Z) (o : Z) (g : segment) : Prop :=
  bit (th_flags g) TH_SYN = false /\ 0 <= th_seq g < 2 ^ 32 /\ 0 <= th_ack g < 2 ^ 32 /\ len (th_data g) < 2 ^ 13 /\
  (th_data g = [] \/ 0 <= o /\ o + len (th_data g) <= len w /\ th_data g = take (length (th_data g)) (drop (Z.to_nat o) w) /\ th_seq g = u32 (base + o)).

(** The position in the stream of a segment that is sent. *)
Definition seg_off (w : list Z) (s : tcp_st) (g : segment) : Z := len w - q_len (snd_q (tp s)) + int32 (th_seq g - snd_seq (tp s)).

Definition emitted (w : list Z) (s : tcp_st) (g : segment) : Prop := carries w (seg_off w s g) g.

(** The numbers of the queue after a segment. *)
Lemma snd_ok_sent w p p' ss n fin o :
  snd_ok w p ss -> 0 <= n -> len ss < 2 ^ 13 ->
  t_state p' = t_state p -> t_maxseg p' = t_maxseg p -> route_of p' = route_of p -> rcv_nxt p' = rcv_nxt p -> snd_seq p' = snd_seq p ->
  (0 < n -> snd_off p + n <= len ss) ->
  (fin = true -> TCPS_FIN_WAIT_1 <= t_state p <= TCPS_LAST_ACK /\ len ss <= snd_off p + n) ->
  o = (if fin && sentfin p && (snd_off p =? snd_max p) then snd_off p - 1 else snd_off p) + n + (if fin then 1 else 0) ->
  snd_off p' = u16 (u32 (snd_seq p + o) - snd_seq p) -> snd_max p' = u16 (u32 (snd_seq p + Z.max o (snd_max p)) - snd_seq p) -> sentfin p' = fin || sentfin p ->
  snd_ok w p' ss /\ (fin = false -> snd_off p' = snd_off p + n /\ 0 <= snd_max p' /\ (0 < n -> snd_max p' = Z.max o (snd_max p))).
Proof.
  intros O Hn Hl E1 E2 E3 E4 E5 Hd Hf Eo Ep Em Es. pose proof (so_seq _ _ _ O) as Hs. pose proof (so_off _ _ _ O) as Ho. pose proof (so_max _ _ _ O) as Hm.
  pose proof (len_nonneg ss) as Hl0.
  assert (D : forall x, u16 (u32 (snd_seq p + x) - snd_seq p) = u16 x) by (intros x; rewrite <- (u32_small (snd_seq p)) at 2 by lia; rewrite u16_diff; f_equal; lia).
  rewrite D in Ep, Em. assert (Hn2 : n <= len ss) by (destruct (Z.eq_dec n 0) as [->|]; lia).
  split.
  - destruct O as [A1 A2 A3 A4 A5 A6 A8 A7].
    constructor; rewrite ?E1, ?E2, ?E3, ?E4, ?E5; try done; [rewrite Ep; apply u16_range|rewrite Em; apply u16_range|].
    destruct A7 as [[B1 B2 B3 B4 B5 B6]|[-> A7]]; [left|right; done].
    assert (C : 0 <= o <= len ss + 1 /\ (fin = false -> sentfin p = false -> o <= len ss) /\ (fin = true -> o = len ss + 1) /\ (fin = false -> o <= Z.max (snd_max p) (len ss))).
    { subst o. destruct fin; cbn [andb].
      - specialize (Hf eq_refl) as [_ Hf]. destruct (sentfin p) eqn:F; cbn [andb].
        + specialize (B6 eq_refl). destruct (Z.eqb_spec (snd_off p) (snd_max p)); split_and!; try done; intros; lia || (destruct (Z.eq_dec n 0); lia).
        + specialize (B5 eq_refl). split_and!; try done; intros; destruct (Z.eq_dec n 0); lia.
      - split_and!; try done; intros; destruct (Z.eq_dec n 0); try lia; specialize (B5 ltac:(done)); lia. }
    rewrite u16_small in Ep, Em by lia. constructor; rewrite ?E1, ?E5, ?Ep, ?Em, ?Es; try (done || lia).
    + intros S. destruct fin; [destruct (Hf eq_refl); lia|]. destruct (B4 S) as [B4a B4b]. rewrite B4b. split; [|done]. destruct C as (C1 & C2 & _). specialize (C2 eq_refl B4b). lia.
    + intros S. apply orb_false_iff in S as [-> S]. destruct C as (C1 & C2 & _). by apply C2.
    + intros S. destruct fin; [destruct C as (_ & _ & C & _); specialize (C eq_refl); lia|]. specialize (B6 S). lia.
  - intros ->. cbn [andb] in Eo. rewrite Z.add_0_r in Eo. subst o.
    assert (Hb : snd_off p + n < 2 ^ 16) by (destruct (Z.eq_dec n 0); lia). rewrite u16_small in Ep, Em by lia. split; [done|]. split; [lia|done].
Qed.

(** What one round leaves. *)
Definition round_ok (w : list Z) (s : tcp_st) (r : out_res) : Prop :=
  match r with
  | OStuck => False
  | OStop _ s' => sinv w s'
  | OSent g nxt mx s' more =>
      sinv w s' /\ emitted w s g /\
      (more = true -> snd_seq (tp s') = snd_seq (tp s) /\ nxt = snd_nxt_of (tp s') /\ mx = snd_max_of (tp s') /\
         q_len (snd_q (tp s')) = q_len (snd_q (tp s)) /\ snd_off (tp s) < snd_off (tp s') < q_len (snd_q (tp s)))
  end.

Lemma bit_psh f : bit (Z.lor f TH_PSH) TH_SYN = bit f TH_SYN /\ bit (Z.lor f TH_PSH) TH_FIN = bit f TH_FIN.
Proof. unfold bit. by rewrite !Z.land_lor_distr_l, !Z.lor_0_r. Qed.

(** The data of a planned segment. *)
Lemma plan_data w s s1 ss p m q fl sl :
  plan_ok w s s1 ss p -> queue_ok m q fl sl ss ->
  exists k data, (if 0 <? pl_len p then mbuf_queue_get (pl_off p) (pl_len p) m q else Some (0, [])) = Some (k, data) /\
    len data = pl_len p /\ (0 < pl_len p -> data = take (Z.to_nat (pl_len p)) (drop (Z.to_nat (snd_off (tp s1))) ss)).
Proof.
  intros P Q. pose proof (po_len _ _ _ _ _ P) as Hlen. destruct (Z.ltb_spec 0 (pl_len p)) as [Hp|Hp]; [|eexists _, _; split; [done|]; split; [unfold len; cbn [length]; lia|lia]].
  destruct (po_data _ _ _ _ _ P Hp) as [Hd1 Hd2]. pose proof (so_off _ _ _ (po_inv _ _ _ _ _ P)) as Ho.
  rewrite (mbuf_queue_get_peeks _ _ fl sl ss (pl_off p) (pl_len p) Q) by (rewrite ?(po_off _ _ _ _ _ P); lia). eexists _, _. split; [done|].
  rewrite (po_off _ _ _ _ _ P), Hd1. split; [|done]. unfold len in *. rewrite length_take, length_drop. lia.
Qed.

(** With data the number does not step back for the FIN. *)
Lemma plan_no_back w s s1 ss p fin :
  plan_ok w s s1 ss p -> 0 < pl_len p -> fin && sentfin (tp s1) && (snd_off (tp s1) =? snd_max (tp s1)) = false.
Proof.
  intros P Hp. destruct (po_data _ _ _ _ _ P Hp) as [Hd1 Hd2]. pose proof (so_off _ _ _ (po_inv _ _ _ _ _ P)) as Ho.
  destruct (so_queue _ _ _ (po_inv _ _ _ _ _ P)) as [[_ _ _ _ _ B6]|[Es _]]; [|rewrite Es in Hd2; change (len []) with 0 in Hd2; lia].
  destruct (sentfin (tp s1)) eqn:F; [|by rewrite andb_false_r]. specialize (B6 eq_refl).
  destruct (Z.eqb_spec (snd_off (tp s1)) (snd_max (tp s1))); [lia|apply andb_false_r].
Qed.

Lemma plan_emits w s s1 ss p g :
  plan_ok w s s1 ss p -> q_len (snd_q (tp s)) = len ss -> len ss < 2 ^ 13 -> bit (th_flags g) TH_SYN = false -> 0 <= th_seq g < 2 ^ 32 -> 0 <= th_ack g < 2 ^ 32 ->
  len (th_data g) = pl_len p ->
  (0 < pl_len p -> th_seq g = u32 (snd_seq (tp s) + snd_off (tp s1)) /\ th_data g = take (Z.to_nat (pl_len p)) (drop (Z.to_nat (snd_off (tp s1))) ss)) -> emitted w s g.
Proof.
  intros P Hq Hl Hf Hs Ha Hd G. pose proof (po_len _ _ _ _ _ P) as Hlen. pose proof (po_inv _ _ _ _ _ P) as O. destruct (po_same _ _ _ _ _ P) as (_ & _ & _ & M4 & _).
  pose proof (so_off _ _ _ O) as Ho. pose proof (so_seq _ _ _ O) as Hsq. split; [done|]. split; [done|]. split; [done|].
  destruct (Z.eq_dec (pl_len p) 0) as [E0|N0]; [split; [lia|]; left; destruct (th_data g); [done|]; unfold len in Hd; cbn [length] in Hd; lia|].
  destruct (po_data _ _ _ _ _ P ltac:(lia)) as [Hd1 Hd2]. destruct (G ltac:(lia)) as [Ex Ed]. split; [lia|]. right.
  destruct (so_queue _ _ _ O) as [[(una & Hu & Ess & Eu) _ _ _ _ _]|[Es _]]; [|rewrite Es in Hd2; change (len []) with 0 in Hd2; lia].
  assert (Hls : len ss = len w - una) by (rewrite Ess; by apply len_drop).
  assert (Eso : seg_off w s g = una + snd_off (tp s1)) by (unfold seg_off; rewrite Hq, Ex, seq_dist by lia; lia).
  rewrite Eso. split; [lia|]. split; [lia|]. split.
  - rewrite Ed at 1. rewrite Ess, drop_drop_z by lia. f_equal. unfold len in Hd. lia.
  - rewrite Ex, <- M4, Eu, u32_u32 by lia. f_equal. lia.
Qed.

Lemma out_send_ok w ipo mmap k s s1 fl rl rs sl ss p :
  two_ok (mb s) (rcv_q (tp s)) (snd_q (tp s)) fl rl rs sl ss -> plan_ok w s s1 ss p ->
  round_ok w s (out_send route_lookup mmap ipo k (snd_seq (tp s)) (snd_max_of (tp s)) p s1).
Proof.
  intros T P. pose proof P as [(M1 & M2 & M3 & M4 & M5) O Eoff Enxt Hlen Hdata Hmore Hsyn Hfin].
  pose proof (queue_small _ _ _ _ _ (proj1 (proj2 T))) as Hl. pose proof (qo_len _ _ _ _ _ (proj1 (proj2 T))) as Hq.
  rewrite <- M1, <- M2, <- M3 in T. pose proof (so_off _ _ _ O) as Ho. pose proof (so_max _ _ _ O) as Hmx. pose proof (so_mss _ _ _ O) as Hm. pose proof (so_seq _ _ _ O) as Hs.
  unfold out_send. change (match t_route (tp s1) with Some mtu => Some mtu | None => route_lookup end) with (route_of (tp s1)).
  destruct (route_of (tp s1)) as [mtu|] eqn:R; [|by exists fl, rl, rs, sl, ss]. pose proof (so_mtu _ _ _ O mtu R) as Hmtu.
  set (s2 := on (set_t_route (Some mtu)) s1).
  assert (O2 : snd_ok w (tp s2) ss).
  { destruct O as [A1 A2 A3 A4 A5 A6 A8 A7]. constructor; try done; [intros m Em; cbn in Em; inversion Em; by subst|].
    destruct A7 as [[B1 B2 B3 B4 B5 B6]|A7]; [left; by constructor|by right]. }
  assert (S2 : sinv w s2) by (by exists fl, rl, rs, sl, ss).
  destruct (Z.ltb_spec mtu (40 + pl_len p)) as [L|_]; [lia|]. rewrite Hsyn.
  rewrite (u32_small (pl_len p)), (u32_small (t_maxseg (tp s2) - 0)) by (cbn; lia). destruct (Z.ltb_spec (t_maxseg (tp s2) - 0) (pl_len p)) as [L|_]; [cbn in L; lia|].
  set (flags := if negb (pl_len p =? 0) && _ then _ else _).
  assert (Fl : bit flags TH_SYN = false /\ bit flags TH_FIN = bit (pl_flags p) TH_FIN).
  { unfold flags. destruct (_ && _); [|done]. destruct (bit_psh (pl_flags p)) as [-> ->]. done. }
  clearbody flags. destruct Fl as [Fs Ff]. cbn zeta. match goal with |- context [out_sent _ _ _ _ _ ?x _] => generalize x; intros win end.
  destruct (negb (mmap k)); [done|].
  assert (Eb : (pl_nxt p =? snd_max_of (tp s)) = (snd_off (tp s1) =? snd_max (tp s1))).
  { rewrite Enxt. unfold snd_nxt_of, snd_max_of. rewrite M4, M5. destruct (Z.eqb_spec (snd_off (tp s1)) (snd_max (tp s))) as [->|N]; [apply Z.eqb_refl|].
    apply Z.eqb_neq. intros E. apply N. apply u32_inj in E; lia. }
  rewrite Eb, Ff. set (dec := bit (pl_flags p) 1 && bit (t_flags (tp s2)) 4 && _).
  assert (En : (if dec then u32 (pl_nxt p - 1) else pl_nxt p) = u32 (snd_seq (tp s) + (if dec then snd_off (tp s1) - 1 else snd_off (tp s1)))).
  { rewrite Enxt. unfold snd_nxt_of. rewrite M4. destruct dec; [|done]. unfold Z.sub at 1. rewrite u32_u32. f_equal. lia. }
  rewrite En.
  destruct (plan_data w s s1 ss p (mb s2) (snd_q (tp s2)) fl sl P (proj1 (proj2 T))) as (k' & data & -> & Hdl & Hde).
 set (seq := if _ || _ then _ else _).
  assert (Hseq : 0 <= seq < 2 ^ 32 /\ (0 < pl_len p -> seq = u32 (snd_seq (tp s) + (if dec then snd_off (tp s1) - 1 else snd_off (tp s1))))).
  { unfold seq. split; [destruct (_ || _); [|unfold snd_max_of]; apply u32_range|]. intros Hp. destruct (Z.eqb_spec (pl_len p) 0); [lia|done]. }
  clearbody seq. destruct Hseq as [Hseq Hseq'].
  assert (Hdec : 0 < pl_len p -> dec = false) by (by apply (plan_no_back w s s1 ss p)).
  destruct (_ <? 0); [done|].
  assert (Ho2 : -2 ^ 20 < (if dec then snd_off (tp s1) - 1 else snd_off (tp s1)) + pl_len p < 2 ^ 20) by (destruct dec; lia).
  unfold snd_max_of at 1. rewrite <- M5.
  destruct (out_sent_spec flags (pl_len p) (snd_seq (tp s)) _ (snd_max (tp s1)) win s2 Fs Ho2 ltac:(lia)) as (s3 & -> & Y1 & Y2 & Y3 & Y4 & Y5 & Y6 & Y7 & Y8 & Y9 & Y10 & Y11).
  set (oo := (if dec then snd_off (tp s1) - 1 else snd_off (tp s1)) + pl_len p + (if bit flags 1 then 1 else 0)) in *.
  assert (K : snd_ok w (tp s3) ss /\ (bit flags 1 = false -> snd_off (tp s3) = snd_off (tp s2) + pl_len p /\ 0 <= snd_max (tp s3) /\
    (0 < pl_len p -> snd_max (tp s3) = Z.max oo (snd_max (tp s2))))).
  { apply (snd_ok_sent w (tp s2) (tp s3) ss (pl_len p) (bit flags 1) oo); try done; try lia; try (change (snd_seq (tp s2)) with (snd_seq (tp s1)); by rewrite ?Y8, M4).
    - unfold route_of. by rewrite Y6.
    - intros Hp. destruct (Hdata Hp) as [Hd1 ?]. change (snd_off (tp s2)) with (snd_off (tp s1)). lia.
    - rewrite Ff. apply Hfin.
    - unfold oo, dec. by rewrite Ff. }
  destruct K as [O3 Hx]. split; [|split].
  - exists fl, rl, rs, sl, ss. by rewrite Y1, Y2, Y3.
  - apply (plan_emits w s s1 ss p); try done; [lia|apply (so_rcv _ _ _ O2)|]. intros Hp. split; [by rewrite Hseq', Hdec|by apply Hde].
  - intros More. destruct (Hmore More) as [Hp Hlt]. destruct (Hdata Hp) as [Hd1 Hd2].
    assert (Nf : bit flags 1 = false). { rewrite Ff. destruct (bit (pl_flags p) 1) eqn:F; [|done]. destruct (Hfin eq_refl). lia. }
    assert (Eoo : oo = snd_off (tp s1) + pl_len p) by (unfold oo; rewrite Nf, Hdec by done; lia).
    destruct (Hx Nf) as (Xo & Xm & Xm'). specialize (Xm' Hp). change (snd_off (tp s2)) with (snd_off (tp s1)) in Xo. change (snd_max (tp s2)) with (snd_max (tp s1)) in Xm'.
    unfold snd_nxt_of, snd_max_of. rewrite Y8, Y3, Xo, Xm', Eoo. change (snd_q (tp s2)) with (snd_q (tp s1)). rewrite M3, Hq, Hd1. split_and!; done || lia.
Qed.

Lemma emitted_nil w s : Forall (emitted w s) [].
Proof. constructor. Qed.
Local Hint Resolve emitted_nil : core.

Lemma out_once_ok w ipo mmap idle k s :
  sinv w s -> round_ok w s (out_once route_lookup mmap ipo idle k (snd_seq (tp s)) (snd_nxt_of (tp s)) (snd_max_of (tp s)) s).
Proof.
  intros (fl & rl & rs & sl & ss & T & O). unfold out_once. pose proof (out_plan_ok w s fl rl rs sl ss T O) as P.
  destruct (out_plan _ _ s) as [p s1]. cbn [fst snd] in P. destruct (must_send _ _ _ _ _); [by apply (out_send_ok w ipo mmap k s s1 fl rl rs sl ss)|].
  destruct P as [(M1 & M2 & M3 & _) O1 _ _ _ _ _ _ _]. exists fl, rl, rs, sl, ss. by rewrite M1, M2, M3.
Qed.

(** The rounds end, each sends a part of what was written, and the invariant is kept. *)
Lemma out_loop_ok w ipo mmap idle n : forall k s, sinv w s -> q_len (snd_q (tp s)) - snd_off (tp s) < Z.of_nat n -> (0 < n)%nat ->
  exists r gs s', out_loop route_lookup mmap ipo n idle k (snd_seq (tp s)) (snd_nxt_of (tp s)) (snd_max_of (tp s)) s = Some (r, gs, s') /\ sinv w s' /\ Forall (emitted w s) gs.
Proof.
  induction n as [|n IH]; intros k s I Hn Hp; [lia|]. cbn [out_loop]. pose proof (out_once_ok w ipo mmap idle k s I) as R. unfold round_ok in R.
  destruct (out_once _ _ _ _ _ _ _ _ _) as [|r s'|g nxt mx s' more]; [done|by exists r, [], s'|]. destruct R as (I' & E & M).
  destruct more; [|exists 0, [g], s'; split; [done|]; split; [done|]; by constructor]. destruct (M eq_refl) as (M1 & -> & -> & M4 & M5). rewrite <- M1.
  destruct (IH (S k) s' I') as (r & gs & s2 & -> & I2 & F); [lia|lia|]. exists r, (g :: gs), s2. split; [done|]. split; [done|]. constructor; [done|].
  eapply Forall_impl; [exact F|]. intros g'. unfold emitted, seg_off. by rewrite M1, M4.
Qed.

Lemma tcp_output_ok w ipo mmap s : sinv w s ->
  exists r gs s', tcp_output route_lookup mmap ipo s = Some (r, gs, s') /\ sinv w s' /\ Forall (emitted w s) gs.
Proof.
  intros I. unfold tcp_output, output_rounds. fold (snd_nxt_of (tp s)). fold (snd_max_of (tp s)). apply out_loop_ok; [done| |lia].
  destruct I as (fl & rl & rs & sl & ss & T & O). rewrite (qo_len _ _ _ _ _ (proj1 (proj2 T))). pose proof (len_nonneg ss). pose proof (so_off _ _ _ O). lia.
Qed.

(** ** The application *)

(** Bytes are appended to what was written. *)
Lemma snd_ok_write w p p' ss buf : snd_ok w p ss -> t_state p = TCPS_ESTABLISHED -> ssame p p' -> snd_ok (w ++ buf) p' (ss ++ buf).
Proof.
  intros O S Sm. apply (snd_ok_same _ p p'); [done|]. destruct O as [A1 A2 A3 A4 A5 A6 A8 A7]. constructor; try done.
  destruct A7 as [[(una & Hu & Es & Eu) B2 B3 B4 B5 B6]|[_ A7]]; [left|done]. pose proof (len_nonneg buf).
  constructor; rewrite ?len_app; try done.
  - exists una. split; [lia|]. split; [|done]. rewrite Es, drop_app_le; [done|]. unfold len in *. lia.
  - lia.
  - intros St. destruct (B4 St). split; [lia|done].
  - intros F. specialize (B5 F). lia.
  - intros F. destruct (B4 (or_introl S)) as [_ F']. by rewrite F in F'.
Qed.

Lemma snd_add_ok w s buf : sinv w s -> t_state (tp s) = TCPS_ESTABLISHED ->
  exists n s', snd_add buf s = Some (n, s') /\ 0 <= n <= len buf /\ sinv (w ++ take (Z.to_nat n) buf) s' /\ t_state (tp s') = TCPS_ESTABLISHED.
Proof.
  intros (fl & rl & rs & sl & ss & T & O) St. pose proof (two_sym _ _ _ _ _ _ _ _ T) as T2.
  destruct (rcv_add_spec (on (fun p => set_rcv_q (snd_q p) (set_snd_q (rcv_q p) p)) s) fl sl ss rl rs buf T2) as (n & q & m & fl' & sl' & E & Hn & T').
  unfold rcv_add in E. cbn [on tp mb rcv_q snd_q set_rcv_q set_snd_q] in E, T'. unfold snd_add. destruct (mbuf_queue_add _ _ _) as [[[n0 m0] q0]|]; [|done].
  inversion E as [[En Em Eq]]. subst. eexists n, _. split; [done|]. split; [done|]. split; [|done].
  eexists fl', rl, rs, sl', _. split; [by apply two_sym|]. apply (snd_ok_write w (tp s)); [done|done|]. unfold ssame. by split_and!.
Qed.

Lemma send_again_ok n : forall w rem ln fl s, sinv w s -> t_state (tp s) = TCPS_ESTABLISHED -> (length rem < n)%nat ->
  exists r acc s', send_again n rem ln fl s = Some (r, acc, s') /\ sinv (w ++ acc) s' /\
    match r with SendRet v => v = ln /\ acc = rem | SendWait rest => rem = acc ++ rest end.
Proof.
  induction n as [|n IH]; intros w rem ln fl s I St Hn; [lia|]. cbn [send_again]. destruct (Z.eqb_spec (len rem) 0) as [E0|N0].
  { assert (rem = []) as -> by (destruct rem; [done|]; unfold len in E0; cbn [length] in E0; lia).
    eexists _, [], _. split; [done|]. rewrite app_nil_r. split; [|done]. destruct (0 <? ln); [|done]. destruct (_ || _); apply (sinv_quiet w s); try done; quiet. }
  destruct (Z.leb_spec (2920 - q_len (snd_q (tp s))) 0).
  { eexists _, [], _. split; [done|]. rewrite app_nil_r. split; [|done]. apply (sinv_quiet w s); [|done]. eapply quiet_trans; [|apply quiet_sched]. quiet. }
  set (m := Z.min _ (len rem)). assert (Hm : 0 < m <= len rem) by (pose proof (len_nonneg rem); lia).
  destruct (snd_add_ok w s (take (Z.to_nat m) rem) I St) as (k & s1 & -> & Hk & I1 & S1). destruct (Z.eqb_spec k 0) as [->|Nk].
  { eexists _, [], _. split; [done|]. rewrite app_nil_r. split; [|done]. change (take (Z.to_nat 0) (take (Z.to_nat m) rem)) with (@nil Z) in I1. by rewrite app_nil_r in I1. }
  assert (Hk2 : 0 < k <= m) by (unfold len in *; rewrite length_take in Hk; lia).
  rewrite take_take, Nat.min_l in I1 by lia.
  destruct (IH (w ++ take (Z.to_nat k) rem) (drop (Z.to_nat k) rem) ln fl s1 I1 S1) as (r & acc & s2 & -> & I2 & R); [rewrite length_drop; unfold len in *; lia|].
  eexists r, _, s2. split; [done|]. rewrite app_assoc. split; [done|]. destruct r as [v|rest].
  - destruct R as [-> ->]. by rewrite take_drop.
  - rewrite <- app_assoc, <- R. by rewrite take_drop.
Qed.

(** [tcp_send] returns or waits; the bytes it has taken are at the end of what was written. *)
Lemma tcp_send_ok w rem ln fl s : sinv w s ->
  exists r acc s', tcp_send rem ln fl s = Some (r, acc, s') /\ sinv (w ++ acc) s' /\
    match r with SendRet v => v = ln /\ acc = rem \/ v = -1 /\ acc = [] | SendWait rest => rem = acc ++ rest end.
Proof.
  intros I. unfold tcp_send. destruct (sinv_no_syn w s I) as [_ N3]. apply Z.eqb_neq in N3. rewrite N3. clear N3. destruct (Z.eqb_spec (t_state (tp s)) 4) as [St|_].
  - cbn [negb]. destruct (send_again_ok (S (length rem)) w rem ln fl s I St) as (r & acc & s' & -> & I' & R); [lia|]. exists r, acc, s'. split; [done|]. split; [done|].
    destruct r; [by left|done].
  - exists (SendRet (-1)), [], s. rewrite app_nil_r. split; [done|]. split; [done|]. by right.
Qed.

(** [tcp_recv] does not concern the sending side. *)
Lemma tcp_recv_sinv w n s : sinv w s -> 0 <= n -> exists r s', tcp_recv n s = Some (r, s') /\ sinv w s'.
Proof.
  intros I Hn. unfold tcp_recv. destruct (n =? 0); [by eexists _, s|]. destruct (_ =? 0); [by eexists _, s|]. destruct (_ || _); [by eexists _, s|].
  destruct (_ =? 0); [destruct (_ =? 5); by eexists _, s|].
  destruct I as (fl & rl & rs & sl & ss & T & O). destruct (mbuf_queue_remove_fifo _ _ _ _ _ n (proj1 T) Hn) as (m & q & fl' & l' & -> & S).
  set (s1 := on (set_rcv_q q) (with_pool m s)).
  assert (I1 : sinv w s1).
  { eexists fl', l', _, sl, ss. split; [by apply (two_step _ _ _ _ _ _ _ _ _ _ _ _ _ T S)|]. apply (snd_ok_same w (tp s)); [|done]. unfold ssame. by split_and!. }
  clearbody s1. destruct (_ || _); [by eexists _, s1|]. destruct (_ =? 0); [|by eexists _, s1]. eexists _, _. split; [done|].
  eapply sinv_quiet; [apply quiet_sched|]. destruct (bit _ 2); [by apply (sinv_quiet w s1); [quiet|]|done].
Qed.

(** ** Closing and timers *)

Lemma tcp_close_sinv w s : sinv w s -> exists r s', tcp_close s = Done r s' /\ sinv w s'.
Proof.
  intros I. unfold tcp_close. destruct (sinv_no_syn w s I) as [N2 N3]. apply Z.eqb_neq in N2, N3. rewrite N2, N3, orb_false_r. cbn [orb]. clear N2 N3.
  assert (Fin : forall s, sinv w s -> sinv w (tcp_output_sched (on (set_bits 1) s))).
  { intros s' I'. apply (sinv_quiet w s'); [|done]. eapply quiet_trans; [|apply quiet_sched]. quiet. }
  destruct (Z.eqb_spec (t_state (tp s)) 10) as [E|_].
  { destruct (free_sinv w s I) as (s' & -> & I'); [lia|]. by eexists _, s'. }
  destruct (Z.eqb_spec (t_state (tp s)) 0) as [E|_].
  { eexists _, _. split; [done|]. apply sinv_moved. destruct (bit _ _); [by apply (sinv_quiet w s); [quiet|]|done]. }
  destruct (Z.eqb_spec (t_state (tp s)) 4) as [E|_].
  { eexists _, _. split; [done|]. apply Fin. apply sinv_state; [nums|cbn; lia|done]. }
  destruct (Z.eqb_spec (t_state (tp s)) 5) as [E|_]; [|by eexists _, s].
  set (s1 := on _ s). destruct I as (fl & rl & rs & sl & ss & T & O).
  destruct (snd_free_two s1 _ _ _ _ _ T) as (q & m & fl1 & -> & T1). cbn [bind]. set (s2 := on (set_snd_q q) _) in *.
  destruct (rcv_free_two s2 fl1 rl rs [] [] T1) as (q2 & m2 & fl2 & -> & T2). cbn [bind]. eexists _, _. split; [done|]. apply Fin.
  exists fl2, [], [], [], []. split; [done|]. destruct O as [A1 A2 A3 A4 A5 A6 A8 _]. constructor; try done; [cbn; lia|apply u16_range|apply u16_range|by right].
Qed.

Lemma tcp_fast_tmr_sinv w s : sinv w s -> sinv w (tcp_fast_tmr s).
Proof.
  intros I. unfold tcp_fast_tmr. destruct (bit _ _); [|done]. apply (sinv_quiet w s); [|done]. eapply quiet_trans; [|apply quiet_enqueue].
  apply (quiet_trans _ (on (clear_bits 2) s)); quiet.
Qed.

Lemma tcp_rxmt_tmr_sinv w s : sinv w s -> sinv w (tcp_rxmt_tmr s).
Proof.
  intros I. unfold tcp_rxmt_tmr. destruct (_ =? 0); [done|]. set (s1 := on _ s). assert (I1 : sinv w s1) by (by apply (sinv_quiet w s); [quiet|]). clearbody s1.
  destruct (_ =? 0); [|done]. set (s2 := on _ s1). assert (I2 : sinv w s2) by (by apply (sinv_quiet w s1); [quiet|]). clearbody s2.
  destruct (_ <? _); [done|]. eapply sinv_quiet; [apply quiet_enqueue|]. destruct I2 as (fl & rl & rs & sl & ss & T & O). exists fl, rl, rs, sl, ss. split; [done|].
  apply (snd_ok_rewind w (tp s2)); try done. rewrite sentfin_testbit. cbn [on tp clear_bits set_t_flags t_flags]. by rewrite Z.land_spec, andb_false_r.
Qed.

(** The probe carries no data. *)
Lemma keepalive_emitted w s0 s : sinv w s -> emitted w s0 (tcp_keepalive s).
Proof.
  intros (fl & rl & rs & sl & ss & T & O). unfold emitted, carries, tcp_keepalive. cbn [th_flags th_seq th_ack th_data]. split; [done|]. split; [apply u32_range|].
  split; [apply (so_rcv _ _ _ O)|]. split; [done|by left].
Qed.

Lemma tmr_close_sinv w s : sinv w s -> exists s', tmr_close s = Go ([], s') /\ sinv w s'.
Proof.
  intros I. destruct (free_both w s (set_t_state TCPS_CLOSED) I) as [(s1 & s2 & E1 & E2 & I2 & _) _]; [nums|by left|].
  unfold tmr_close. rewrite E1. cbn [bind]. rewrite E2. cbn [bind]. eexists. split; [done|]. eapply sinv_quiet; [apply quiet_enqueue|]. by apply sinv_moved.
Qed.

Lemma keep_alive_sinv w s0 s : sinv w s -> exists gs s', keep_alive s = Go (gs, s') /\ sinv w s' /\ Forall (emitted w s0) gs.
Proof.
  intros I. unfold keep_alive. set (s1 := on _ s). assert (I1 : sinv w s1) by (by apply (sinv_quiet w s); [quiet|]). clearbody s1.
  destruct (_ <? 9); [|destruct (tmr_close_sinv w s1 I1) as (s' & -> & I'); by exists [], s']. set (s2 := on _ s1).
  assert (I2 : sinv w s2) by (by apply (sinv_quiet w s1); [quiet|]). clearbody s2.
  destruct (negb _); [|destruct (tmr_close_sinv w s2 I2) as (s' & -> & I'); by exists [], s'].
  eexists _, s2. split; [done|]. split; [done|]. constructor; [by apply keepalive_emitted|done].
Qed.

Lemma tcp_idle_tmr_sinv w s : sinv w s -> exists gs s', tcp_idle_tmr s = Go (gs, s') /\ sinv w s' /\ Forall (emitted w s) gs.
Proof.
  intros I. unfold tcp_idle_tmr. destruct (_ =? 0); [by exists [], s|]. set (s1 := on _ s). assert (I1 : sinv w s1) by (by apply (sinv_quiet w s); [quiet|]). clearbody s1.
  destruct (negb _); [by exists [], s1|]. destruct (_ || _); [destruct (tmr_close_sinv w s1 I1) as (s' & -> & I'); by exists [], s'|].
  destruct (Z.eqb_spec (t_state (tp s1)) 4) as [E|_].
  { destruct (negb (bit _ _)); [|by apply keep_alive_sinv]. set (s2 := on _ s1). assert (I2 : sinv w s2).
    { apply (sinv_quiet w s1); [|done]. apply (quiet_trans _ (on (set_bits 8) s1)); quiet. }
    clearbody s2. destruct (negb _); [by exists [], s2|by apply keep_alive_sinv]. }
  destruct (Z.eqb_spec (t_state (tp s1)) 9) as [E|_]; [eexists [], _; split; [done|]; split; [|done]; apply sinv_state; [nums|cbn; lia|done]|].
  destruct (Z.eqb_spec (t_state (tp s1)) 10) as [E|_]; [|by exists [], s1]. destruct (free_sinv w s1 I1) as (s' & -> & I'); [lia|]. by exists [], s'.
Qed.

End Sender.
