(* ===== verification/TcpConn.v ===== *)
(** * A TCP connection between two hosts

    Two blocks, each with its application, joined by a network that loses, repeats,
    delays and reorders segments.  The steps of a host are the handlers of Tcp.v and
    TcpOut.v, the whole functions, in any order.  The theorem: on either side what has
    been read is a prefix of what the other side has written.

    A segment with data is delivered only while its place in the stream is less than
    2^30 bytes from what the receiver has taken: the network does not keep a segment
    for longer than that (the maximum segment lifetime). *)

From stdpp Require Import base tactics numbers list gmap relations.
From Stdlib Require Import ZArith Lia.
From S2P Require Import Prelude Buffer Mbuf Tcp TcpOut TcpSnd.

(** ** What the other handlers leave of the receiving side *)

Section Receiver.

Variable str : Z -> Z.
Variable base : Z.
Variable read : list Z.
Abbreviation inv := (inv str base read).
Abbreviation inv0 := (inv0 str read).

(** The send queue changes. *)
Lemma inv_snd pos s s' q m fl rl rs sl ss fl' sl' ss' :
  two_ok (mb s) (rcv_q (tp s)) (snd_q (tp s)) fl rl rs sl ss -> queue_step fl sl (mb s) m q fl' sl' ss' ->
  mb s' = m -> rcv_q (tp s') = rcv_q (tp s) -> snd_q (tp s') = q -> t_state (tp s') = t_state (tp s) -> rcv_nxt (tp s') = rcv_nxt (tp s) ->
  read ++ rs = slice str 0 (len (read ++ rs)) -> (live (t_state (tp s)) = true -> len (read ++ rs) = pos /\ rcv_nxt (tp s) = u32 (base + pos)) ->
  (t_state (tp s) = TCPS_SYN_SENT -> read ++ rs = []) -> inv pos s'.
Proof.
  intros T S E1 E2 E3 E4 E5 P L Y. exists fl', rl, rs, sl', ss'. rewrite E1, E2, E3, E4, E5. split; [|done].
  apply two_sym. by apply (two_step _ _ _ _ _ _ _ _ _ _ _ _ _ (two_sym _ _ _ _ _ _ _ _ T) S).
Qed.

Lemma snd_add_inv pos s buf n s' : inv pos s -> snd_add buf s = Some (n, s') -> inv pos s'.
Proof.
  intros (fl & rl & rs & sl & ss & T & P & L & Y) E. unfold snd_add in E.
  destruct (mbuf_queue_add_fifo _ _ _ _ _ buf (proj1 (proj2 T))) as (m & q & fl' & sl' & E' & S). rewrite E' in E. inversion E; subst.
  by eapply (inv_snd pos s _ _ _ _ _ _ _ _ _ _ _ T S).
Qed.

Lemma send_again_inv n : forall pos rem ln fl s r acc s', inv pos s -> send_again n rem ln fl s = Some (r, acc, s') -> inv pos s'.
Proof.
  induction n as [|n IH]; intros pos rem ln fl s r acc s' I; cbn [send_again]; [done|]. destruct (len rem =? 0).
  { intros E. inversion E; subst. destruct (0 <? ln); [|done]. destruct (_ || _); [by apply inv_sched|by apply inv_bits]. }
  destruct (_ <=? 0). { intros E. inversion E; subst. by apply inv_sched, inv_bits. }
  destruct (snd_add _ s) as [[k s1]|] eqn:A; [|done]. apply (snd_add_inv pos) in A; [|done]. destruct (k =? 0); [intros E; by inversion E; subst|].
  destruct (send_again n _ _ _ s1) as [[[r1 acc1] s2]|] eqn:R; [|done]. intros E. inversion E; subst. by apply (IH pos _ _ _ _ _ _ _ A R).
Qed.

Lemma tcp_send_inv pos rem ln fl s r acc s' : inv pos s -> tcp_send rem ln fl s = Some (r, acc, s') -> inv pos s'.
Proof.
  intros I. unfold tcp_send. destruct (negb _); [destruct (_ =? 3); intros E; by inversion E; subst|]. by apply send_again_inv.
Qed.

(** Output changes neither queue. *)
Lemma out_sent_same flags n una nxt mx win s : same s (out_sent flags n una nxt mx win s).2.
Proof.
  unfold out_sent. set (x := if bit flags 1 then _ else _). assert (X : exists a s1, x = (a, s1) /\ same s s1) by (unfold x; destruct (bit flags 1); eexists _, _; (split; [done|]); by split_and!).
  clearbody x. destruct X as (a & s1 & -> & S). cbn [snd]. apply (same_trans s s1); [done|]. destruct (_ && _); by split_and!.
Qed.

Lemma out_once_same rl mmap ipo idle k una nxt mx s :
  match out_once rl mmap ipo idle k una nxt mx s with OStuck => True | OStop _ s' => same s s' | OSent _ _ _ s' _ => same s s' end.
Proof.
  unfold out_once. assert (P : same s (out_plan una nxt s).2).
  { unfold out_plan. destruct (_ <? 0); [destruct (_ =? 0)|]; cbn iota; destruct (_ <? _); by split_and!. }
  destruct (out_plan una nxt s) as [p s1]. cbn [snd] in P. destruct (must_send _ _ _ _ _); [|done]. unfold out_send.
  destruct (match t_route (tp s1) with Some mtu => Some mtu | None => rl end) as [mtu|]; [|done].
  assert (P2 : same s (on (set_t_route (Some mtu)) s1)) by (apply (same_trans s s1); [done|by split_and!]).
  destruct (if _ <? u32 _ then _ else _) as [ln more]. destruct (negb (mmap k)); [done|]. destruct (if 0 <? ln then _ else _) as [[k' data]|]; [|done].
  destruct (_ <? 0); [done|]. match goal with |- context [out_sent ?a ?b ?c ?d ?e ?f ?g] => pose proof (out_sent_same a b c d e f g) as P3; destruct (out_sent a b c d e f g) as [[x y] z] end.
  by apply (same_trans s _ _ P2).
Qed.

Lemma out_loop_same rl mmap ipo idle n : forall k una nxt mx s r gs s', out_loop rl mmap ipo n idle k una nxt mx s = Some (r, gs, s') -> same s s'.
Proof.
  induction n as [|n IH]; intros k una nxt mx s r gs s'; cbn [out_loop]; [done|]. pose proof (out_once_same rl mmap ipo idle k una nxt mx s) as P.
  destruct (out_once _ _ _ _ _ _ _ _ _) as [|r1 s1|g nxt1 mx1 s1 []]; [done|intros E; by inversion E; subst| |intros E; by inversion E; subst].
  destruct (out_loop _ _ _ n _ _ _ _ _ s1) as [[[r2 gs2] s2]|] eqn:R; [|done]. intros E. inversion E; subst. apply (same_trans s s1); [done|]. by apply (IH _ _ _ _ _ _ _ _ R).
Qed.

(** Both queues are released. *)
Lemma frees_inv0 s s1 s2 : snd_free s = Go s1 -> rcv_free s1 = Go s2 -> inv0 s -> inv0 s2.
Proof.
  intros E1 E2 I. destruct (snd_free_inv0 str read s I) as (q & m & E & I1). rewrite E in E1. inversion E1; subst. destruct (rcv_free_inv0 str read _ I1) as (q2 & m2 & E' & I2).
  rewrite E' in E2. by inversion E2; subst.
Qed.

Lemma pcb_free_inv s s' : t_state (tp s) = TCPS_TIME_WAIT -> tcp_pcb_free s = Go s' -> inv0 s -> inv 0 s'.
Proof.
  intros St E I. destruct (free_fwp str read s I) as (s2 & E2 & I2 & S2). rewrite E2 in E. inversion E; subst. apply inv0_inv; [done| |]; by rewrite S2, St.
Qed.

Lemma tcp_close_inv pos s r s' : t_state (tp s) <> TCPS_SYN_SENT -> inv pos s -> tcp_close s = Done r s' -> exists pos', inv pos' s'.
Proof.
  intros N2 I. pose proof (inv_inv0 _ _ _ _ _ I) as I0. unfold tcp_close. apply Z.eqb_neq in N2. rewrite N2, orb_false_r. clear N2.
  destruct (Z.eqb_spec (t_state (tp s)) 10) as [E|_].
  { destruct (tcp_pcb_free s) as [| |s1] eqn:F; cbn [bind]; intros H; inversion H; subst; [by destruct (free_fwp str read s I0) as (? & ? & _); congruence|].
    exists 0. by apply (pcb_free_inv s). }
  destruct (_ =? 0). { intros H. inversion H; subst. exists pos. apply (inv_same _ _ _ pos s); [|done]. destruct (bit _ _); by split_and!. }
  destruct (_ || _). { intros H. inversion H; subst. exists pos. apply inv_sched, inv_bits. by apply (inv_state _ _ _ pos s). }
  destruct (_ =? 5); [|intros H; inversion H; subst; by exists pos]. set (s1 := on _ s). assert (I1 : inv0 s1) by (by apply (inv0_same _ _ s)).
  assert (S1 : t_state (tp s1) = TCPS_LAST_ACK) by done. clearbody s1.
  destruct (snd_free_inv0 str read s1 I1) as (q2 & m2 & -> & I2). cbn [bind]. destruct (rcv_free_inv0 str read _ I2) as (q3 & m3 & -> & I3). cbn [bind].
  set (s3 := on _ (with_pool m3 _)) in *. assert (S3 : t_state (tp s3) = TCPS_LAST_ACK) by done. clearbody s3. intros H. inversion H; subst. exists 0.
  apply inv_sched, inv_bits. apply inv0_inv; [done| |]; by rewrite S3.
Qed.

Lemma tmr_close_inv s gs s' : inv0 s -> tmr_close s = Go (gs, s') -> inv 0 s'.
Proof.
  intros I. unfold tmr_close. destruct (snd_free s) as [| |s2] eqn:F1; [done|done|]. cbn [bind]. destruct (rcv_free s2) as [| |s3] eqn:F2; [done|done|]. cbn [bind].
  intros H. inversion H; subst. pose proof (frees_inv0 s s2 s3 F1 F2 I) as I3. apply (inv_same _ _ _ 0 (move_to InClosed (on (set_t_state TCPS_CLOSED) s3))).
  - unfold tcp_output_enqueue. destruct (negb _); by split_and!.
  - apply inv0_inv; [by apply (inv0_same _ _ s3)|done|done].
Qed.

Lemma keep_alive_inv pos s gs s' : inv pos s -> keep_alive s = Go (gs, s') -> exists pos', inv pos' s'.
Proof.
  intros I. unfold keep_alive. set (s1 := on _ s). assert (I1 : inv pos s1) by (by apply (inv_same _ _ _ pos s)). clearbody s1.
  destruct (_ <? 9); [|intros H; exists 0; by apply (tmr_close_inv s1 gs); [apply (inv_inv0 str base read pos)|]]. set (s2 := on _ s1).
  assert (I2 : inv pos s2) by (by apply (inv_same _ _ _ pos s1)). clearbody s2.
  destruct (negb _); intros H; [inversion H; subst; by exists pos|]. exists 0. by apply (tmr_close_inv s2 gs); [apply (inv_inv0 str base read pos)|].
Qed.

Lemma tcp_idle_tmr_inv pos s gs s' : inv pos s -> tcp_idle_tmr s = Go (gs, s') -> exists pos', inv pos' s'.
Proof.
  intros I. unfold tcp_idle_tmr. destruct (_ =? 0); [intros H; inversion H; subst; by exists pos|]. set (s1 := on _ s).
  assert (I1 : inv pos s1) by (by apply (inv_same _ _ _ pos s)). clearbody s1. pose proof (inv_inv0 _ _ _ _ _ I1) as I0. destruct (negb _); [intros H; inversion H; subst; by exists pos|].
  destruct (_ || _); [intros H; exists 0; by apply (tmr_close_inv s1 gs)|].
  destruct (Z.eqb_spec (t_state (tp s1)) 4) as [E|_].
  { destruct (negb (bit _ _)); [|by apply (keep_alive_inv pos)]. set (s2 := on _ s1). assert (I2 : inv pos s2) by (by apply (inv_same _ _ _ pos s1)). clearbody s2.
    destruct (negb _); [intros H; inversion H; subst; by exists pos|by apply (keep_alive_inv pos)]. }
  destruct (_ =? 9); [intros H; inversion H; subst; exists pos; by apply (inv_state _ _ _ pos s1)|].
  destruct (Z.eqb_spec (t_state (tp s1)) 10) as [E|_]; [|intros H; inversion H; subst; by exists pos].
  destruct (tcp_pcb_free s1) as [| |s2] eqn:F; cbn [bind]; intros H; inversion H; subst. exists 0. by apply (pcb_free_inv s1).
Qed.

End Receiver.

(** ** Two hosts *)

(** A host: its block and pool, what its application has written and read, and the
    segments it has sent with their places in its stream. *)
Record host := mk_host { h_st : tcp_st; h_wr : list Z; h_rd : list Z; h_net : list (Z * segment) }.

(** The segments of a call, with their places. *)
Definition posted (w : list Z) (s : tcp_st) (gs : list segment) : list (Z * segment) := (fun g => (seg_off w s g, g)) <$> gs.

Section Hosts.

(** The result of sending a response, and the routes. *)
Variable rr : Z.
Variable route : option Z.

(** One step of a host that receives from [net]. *)
Inductive host_step (net : list (Z * segment)) : host -> host -> Prop :=
| do_deliver s w rd out o g r s' :
    (o, g) ∈ net -> th_data g = [] \/ -2 ^ 30 < o - received rd s < 2 ^ 30 -> tcp_input rr g s = Done r s' ->
    host_step net (mk_host s w rd out) (mk_host s' w rd out)
| do_write s w rd out rem ln fl r acc s' :
    tcp_send rem ln fl s = Some (r, acc, s') -> host_step net (mk_host s w rd out) (mk_host s' (w ++ acc) rd out)
| do_read s w rd out n k bs s' :
    0 <= n -> tcp_recv n s = Some (TcpRecv k bs, s') -> host_step net (mk_host s w rd out) (mk_host s' w (rd ++ bs) out)
| do_output s w rd out mmap ipo r gs s' :
    tcp_output route mmap ipo s = Some (r, gs, s') -> host_step net (mk_host s w rd out) (mk_host s' w rd (out ++ posted w s gs))
| do_close s w rd out r s' : tcp_close s = Done r s' -> host_step net (mk_host s w rd out) (mk_host s' w rd out)
| do_fast s w rd out : host_step net (mk_host s w rd out) (mk_host (tcp_fast_tmr s) w rd out)
| do_rxmt s w rd out : host_step net (mk_host s w rd out) (mk_host (tcp_rxmt_tmr s) w rd out)
| do_idle s w rd out gs s' :
    tcp_idle_tmr s = Go (gs, s') -> host_step net (mk_host s w rd out) (mk_host s' w rd (out ++ posted w s gs)).

Inductive duplex_step : host * host -> host * host -> Prop :=
| left_step a a' b : host_step (h_net b) a a' -> duplex_step (a, b) (a', b)
| right_step a b b' : host_step (h_net a) b b' -> duplex_step (a, b) (a, b').

(** A block whose handshake is over: [out_base] is the number of its first byte,
    [in_base] the one of the peer's. *)
Definition host_start (out_base in_base : Z) (h : host) : Prop :=
  h_wr h = [] /\ h_rd h = [] /\ h_net h = [] /\ t_state (tp (h_st h)) = TCPS_ESTABLISHED /\
  (exists fl, two_ok (mb (h_st h)) (rcv_q (tp (h_st h))) (snd_q (tp (h_st h))) fl [] [] [] []) /\
  snd_seq (tp (h_st h)) = u32 out_base /\ rcv_nxt (tp (h_st h)) = u32 in_base /\ snd_off (tp (h_st h)) = 0 /\ snd_max (tp (h_st h)) = 0 /\
  sentfin (tp (h_st h)) = false /\ 0 < t_maxseg (tp (h_st h)) < 2 ^ 16 /\
  (forall mtu, route_of route (tp (h_st h)) = Some mtu -> t_maxseg (tp (h_st h)) + 40 <= mtu).

(** The invariant of a host whose peer's stream is [str]. *)
Definition host_ok (out_base in_base : Z) (str : Z -> Z) (h : host) : Prop :=
  (exists pos, inv str in_base (h_rd h) pos (h_st h)) /\ sinv out_base route (h_wr h) (h_st h) /\ Forall (fun '(o, g) => carries out_base (h_wr h) o g) (h_net h).

Lemma host_start_ok ob ib str h : host_start ob ib h -> host_ok ob ib str h.
Proof.
  intros (E1 & E2 & E3 & St & (fl & T) & Sq & Rn & So & Sm & Sf & Ms & Mt). split; [|split; [|by rewrite E3]].
  - exists 0, fl, [], [], [], []. split; [done|]. rewrite E2, St, Rn. split_and!; try done. intros _. by rewrite Z.add_0_r.
  - exists fl, [], [], [], []. split; [done|]. constructor; rewrite ?St, ?Sq, ?Rn, ?So, ?Sm; try first [done | lia | apply u32_range]. left.
    constructor; rewrite ?So, ?Sm; try done; [exists 0; by rewrite E1, Sq, Z.add_0_r|by rewrite Sf].
Qed.

Lemma carries_app ob w acc o g : carries ob w o g -> carries ob (w ++ acc) o g.
Proof.
  intros (A & B & C & D & H). split; [done|]. split; [done|]. split; [done|]. split; [done|]. destruct H as [E|(E1 & E2 & E3 & E4)]; [by left|right]. pose proof (len_nonneg acc). rewrite len_app. split_and!; try (done || lia).
  rewrite drop_app_le, take_app_le; [done| |]; rewrite ?length_drop; unfold len in *; lia.
Qed.

(** What the peer has sent belongs to its stream. *)
Lemma carries_fits str ob w pos o g :
  carries ob w o g -> w = slice str 0 (len w) -> th_data g = [] \/ -2 ^ 30 < o - pos < 2 ^ 30 -> seg_fits str ob pos g.
Proof.
  intros (A & B & _ & D & H) P N. split; [done|]. rewrite A. destruct H as [H|(E1 & E2 & E3 & E4)]; [by left|]. destruct N as [N|N]; [by left|]. right. exists o.
  split_and!; try (done || lia). pose proof (len_nonneg (th_data g)) as Hl. rewrite E3 at 1. pose proof (slice_drop str 0 w o P ltac:(lia)) as Hd.
  assert (Ho : len (drop (Z.to_nat o) w) = len w - o) by (apply len_drop; lia). rewrite <- Ho in Hd.
  pose proof (slice_take str (0 + o) _ (len (th_data g)) Hd ltac:(lia)) as Ht. replace (Z.to_nat (len (th_data g))) with (length (th_data g)) in Ht by (unfold len; lia).
  by rewrite Ht.
Qed.

Lemma posted_ok ob w s gs net :
  Forall (emitted ob w s) gs -> Forall (fun '(o, g) => carries ob w o g) net -> Forall (fun '(o, g) => carries ob w o g) (net ++ posted w s gs).
Proof. intros F N. apply Forall_app. split; [done|]. apply Forall_fmap. eapply Forall_impl; [exact F|]. done. Qed.

(** A step keeps the invariant, and what is written only grows. *)
Lemma host_step_ok ob ib str w net h h' :
  host_step net h h' -> Forall (fun '(o, g) => carries ib w o g) net -> w = slice str 0 (len w) -> host_ok ob ib str h -> host_ok ob ib str h'.
Proof.
  intros St Nt P ([pos I] & J & N). destruct St as [s w' rd out o g r s' Hin Hn E|s w' rd out rem ln fl r acc s' E|s w' rd out n k bs s' Hn E|s w' rd out mmap ipo r gs s' E|
    s w' rd out r s' E|s w' rd out|s w' rd out|s w' rd out gs s' E]; cbn [h_st h_wr h_rd h_net] in *; unfold host_ok; cbn [h_st h_wr h_rd h_net].
  - rewrite Forall_forall in Nt. specialize (Nt _ Hin). cbn beta iota in Nt.
    pose proof (tcp_input_inv str ib rd rr _ g s (inv_pos str ib rd s (ex_intro _ pos I)) (carries_fits str ib w _ o g Nt P Hn)) as H. rewrite E in H.
    destruct (tcp_input_sinv ob route w' rr g s J) as (r2 & s2 & E2 & J2); [apply Nt|]. rewrite E in E2. inversion E2; subst. done.
  - split; [exists pos; by apply (tcp_send_inv str ib rd pos rem ln fl s r acc)|]. destruct (tcp_send_ok ob route w' rem ln fl s J) as (r2 & acc2 & s2 & E2 & J2 & _).
    rewrite E in E2. inversion E2; subst. split; [done|]. eapply Forall_impl; [exact N|]. intros [o g]. apply carries_app.
  - destruct (tcp_recv_sinv ob route w' n s J Hn) as (r2 & s2 & E2 & J2). rewrite E in E2. inversion E2; subst.
    destruct (tcp_recv_inv str ib rd n s Hn (ex_intro _ pos I)) as (x & s3 & E3 & H). rewrite E in E3. inversion E3; subst.
    destruct H as (rs & fl & rl & sl & ss & T & Pr & S & R & p & L & Y). split; [|done]. exists p, fl, rl, rs, sl, ss. rewrite S, R. done.
  - destruct (tcp_output_ok ob route w' ipo mmap s J) as (r2 & gs2 & s2 & E2 & J2 & F). rewrite E in E2. inversion E2; subst. split; [|split; [done|by apply posted_ok]].
    exists pos. apply (inv_same str ib rd pos s); [|done]. by apply (out_loop_same _ _ _ _ _ _ _ _ _ _ _ _ _ E).
  - destruct (tcp_close_sinv ob route w' s J) as (r2 & s2 & E2 & J2). rewrite E in E2. inversion E2; subst. split; [|done].
    apply (tcp_close_inv str ib rd pos s r2); [by apply (sinv_no_syn ob route w')|done|done].
  - split; [|split; [by apply tcp_fast_tmr_sinv|done]]. exists pos. apply (inv_same str ib rd pos s); [|done].
    unfold tcp_fast_tmr. destruct (bit _ _); [|done]. unfold tcp_output_enqueue. destruct (negb _); by split_and!.
  - split; [|split; [by apply tcp_rxmt_tmr_sinv|done]]. exists pos. apply (inv_same str ib rd pos s); [|done].
    unfold tcp_rxmt_tmr. destruct (_ =? 0); [done|]. destruct (_ =? 0); [|by split_and!]. destruct (_ <? _); [by split_and!|]. unfold tcp_output_enqueue. destruct (negb _); by split_and!.
  - destruct (tcp_idle_tmr_sinv ob route w' s J) as (gs2 & s2 & E2 & J2 & F). rewrite E in E2. inversion E2; subst.
    split; [|split; [done|by apply posted_ok]]. by apply (tcp_idle_tmr_inv str ib rd pos s gs2).
Qed.

(** ** Integrity of the streams *)

Lemma host_step_grows net h h' : host_step net h h' -> h_wr h `prefix_of` h_wr h'.
Proof. intros []; cbn [h_wr]; try done. by apply prefix_app_r. Qed.

Lemma duplex_grows c c' : rtc duplex_step c c' -> h_wr c.1 `prefix_of` h_wr c'.1 /\ h_wr c.2 `prefix_of` h_wr c'.2.
Proof.
  induction 1 as [|x y z St _ [IH1 IH2]]; [done|]. destruct St as [a a' b H|a b b' H]; apply host_step_grows in H; cbn [fst snd] in *; (split; [|done || by etrans]); done || by etrans.
Qed.

(** The stream that starts with [l] and goes on with [d]. *)
Definition stream_of (l : list Z) (d : Z) (i : Z) : Z := nth (Z.to_nat i) l d.

Lemma slice_lookup str n i : 0 <= Z.of_nat i < n -> slice str 0 n !! i = Some (str (Z.of_nat i)).
Proof. intros H. unfold slice. rewrite list_lookup_fmap, lookup_seqZ_lt by lia. cbn. do 2 f_equal. Qed.

Lemma stream_prefix l l' d : l' `prefix_of` l -> l' = slice (stream_of l d) 0 (len l').
Proof.
  intros [k ->]. apply list_eq. intros i. destruct (decide (i < length l')%nat) as [L|L].
  - rewrite slice_lookup by (unfold len; lia). unfold stream_of. rewrite Nat2Z.id, app_nth1 by done. destruct (lookup_lt_is_Some_2 l' i L) as [x Hx].
    rewrite Hx. f_equal. symmetry. by apply nth_lookup_Some.
  - rewrite lookup_ge_None_2 by lia. symmetry. apply lookup_ge_None_2. pose proof (len_slice (stream_of (l' ++ k) d) 0 (len l') (len_nonneg l')) as H. unfold len in *. lia.
Qed.

(** What is a prefix of every stream that starts with [l] is a prefix of [l]. *)
Lemma prefix_of_streams l rd : (forall d, rd = slice (stream_of l d) 0 (len rd)) -> rd `prefix_of` l.
Proof.
  intros H. assert (L : (length rd <= length l)%nat).
  { destruct (decide (length rd <= length l)%nat) as [?|N]; [done|exfalso]. assert (K : forall d, rd !! length l = Some d).
    { intros d. rewrite (H d), slice_lookup by (unfold len; lia). unfold stream_of. by rewrite Nat2Z.id, nth_overflow. }
    pose proof (K 0) as K0. rewrite (K 1) in K0. done. }
  exists (drop (length rd) l). rewrite <- (take_drop (length rd) l) at 1. f_equal.
  assert (E : len (take (length rd) l) = len rd) by (unfold len; rewrite length_take; lia).
  pose proof (stream_prefix l (take (length rd) l) 0 ltac:(by exists (drop (length rd) l); rewrite take_drop)) as P. rewrite E, <- (H 0) in P. exact P.
Qed.

(** Both hosts, given what will have been written in the end. *)
Definition duplex_ok (ba bb : Z) (sa sb : Z -> Z) (c : host * host) : Prop := host_ok ba bb sb c.1 /\ host_ok bb ba sa c.2.

Lemma duplex_run ba bb sa sb c c' :
  duplex_ok ba bb sa sb c -> rtc duplex_step c c' -> h_wr c'.1 = slice sa 0 (len (h_wr c'.1)) -> h_wr c'.2 = slice sb 0 (len (h_wr c'.2)) -> duplex_ok ba bb sa sb c'.
Proof.
  intros K R Pa Pb. induction R as [|x y z St R IH]; [done|]. apply IH; [|done|done]. destruct (duplex_grows y z R) as [[ka Ga] [kb Gb]].
  rewrite Ga in Pa. rewrite Gb in Pb. apply prefix_app in Pa, Pb. destruct K as [K1 K2]. destruct St as [a a' b H|a b b' H]; cbn [fst snd] in *; (split; [|]); try done.
  - apply (host_step_ok ba bb sb (h_wr b) (h_net b) a); [done|apply K2|done|done].
  - apply (host_step_ok bb ba sa (h_wr a) (h_net a) b); [done|apply K1|done|done].
Qed.

(** Every call a host makes returns, whatever it got from [net]. *)
Definition host_runs (net : list (Z * segment)) (h : host) : Prop :=
  (forall o g, (o, g) ∈ net -> exists r s', tcp_input rr g (h_st h) = Done r s') /\
  (forall mmap ipo, exists r gs s', tcp_output route mmap ipo (h_st h) = Some (r, gs, s')) /\
  (forall rem ln fl, exists r acc s', tcp_send rem ln fl (h_st h) = Some (r, acc, s')) /\
  (forall n, 0 <= n -> exists r s', tcp_recv n (h_st h) = Some (r, s')) /\
  (exists r s', tcp_close (h_st h) = Done r s') /\ (exists gs s', tcp_idle_tmr (h_st h) = Go (gs, s')).

Lemma host_ok_runs ob ib str w net h : host_ok ob ib str h -> Forall (fun '(o, g) => carries ib w o g) net -> host_runs net h.
Proof.
  intros (_ & J & _) N. split_and!.
  - intros o g Hin. rewrite Forall_forall in N. specialize (N _ Hin). destruct (tcp_input_sinv ob route (h_wr h) rr g (h_st h) J) as (r & s' & E & _); [apply N|]. by exists r, s'.
  - intros mmap ipo. destruct (tcp_output_ok ob route (h_wr h) ipo mmap (h_st h) J) as (r & gs & s' & E & _). by exists r, gs, s'.
  - intros rem ln fl. destruct (tcp_send_ok ob route (h_wr h) rem ln fl (h_st h) J) as (r & acc & s' & E & _). by exists r, acc, s'.
  - intros n Hn. destruct (tcp_recv_sinv ob route (h_wr h) n (h_st h) J Hn) as (r & s' & E & _). by exists r, s'.
  - destruct (tcp_close_sinv ob route (h_wr h) (h_st h) J) as (r & s' & E & _). by exists r, s'.
  - destruct (tcp_idle_tmr_sinv ob route (h_wr h) (h_st h) J) as (gs & s' & E & _). by exists gs, s'.
Qed.

(** C35: A connection between two hosts over a network that loses, repeats and reorders
    segments: whatever the applications, the timers and the network do, each
    application reads a prefix of what the other one wrote, and every call of the
    hosts returns. *)
Theorem tcp_stream_integrity ba bb c0 c
    (A0 : host_start ba bb c0.1) (B0 : host_start bb ba c0.2) (R : rtc duplex_step c0 c) :
  h_rd c.2 `prefix_of` h_wr c.1 /\ h_rd c.1 `prefix_of` h_wr c.2 /\ host_runs (h_net c.2) c.1 /\ host_runs (h_net c.1) c.2.
Proof.
  assert (K : forall d, duplex_ok ba bb (stream_of (h_wr c.1) d) (stream_of (h_wr c.2) d) c).
  { intros d. apply (duplex_run _ _ _ _ c0); [|done|by apply stream_prefix..]. split; by apply host_start_ok. }
  split_and!.
  - apply prefix_of_streams. intros d. destruct (K d) as [_ ((pos & fl & rl & rs & sl & ss & _ & P & _) & _)]. by apply (prefix_app _ _ rs).
  - apply prefix_of_streams. intros d. destruct (K d) as [((pos & fl & rl & rs & sl & ss & _ & P & _) & _) _]. by apply (prefix_app _ _ rs).
  - destruct (K 0) as [K1 K2]. eapply host_ok_runs; [exact K1|apply K2].
  - destruct (K 0) as [K1 K2]. eapply host_ok_runs; [exact K2|apply K1].
Qed.

End Hosts.

(** ** Delivery *)

Lemma snd_add_all s fl rl rs sl ss buf :
  two_ok (mb s) (rcv_q (tp s)) (snd_q (tp s)) fl rl rs sl ss -> len buf <= room (snd_q (tp s)) fl sl ->
  exists q m fl' sl', snd_add buf s = Some (len buf, on (set_snd_q q) (with_pool m s)) /\ two_ok m (rcv_q (tp s)) q fl' rl rs sl' (ss ++ buf).
Proof.
  intros T H. destruct (mbuf_queue_add_fifo _ _ _ _ _ buf (proj1 (proj2 T))) as (m & q & fl' & sl' & E & S).
  unfold room in H. rewrite Z.min_l in E, S by done. exists q, m, fl', sl'. unfold snd_add. rewrite E. split; [done|].
  rewrite take_ge in S by (unfold len; lia). apply two_sym. by apply (two_step _ _ _ _ _ _ _ _ _ _ _ _ _ (two_sym _ _ _ _ _ _ _ _ T) S).
Qed.

(** A message that fits the queue is taken whole. *)
Lemma tcp_send_takes s fl rl rs sl ss buf flags :
  t_state (tp s) = TCPS_ESTABLISHED -> two_ok (mb s) (rcv_q (tp s)) (snd_q (tp s)) fl rl rs sl ss ->
  0 < len buf <= tcp_maxsnd - len ss -> len buf <= room (snd_q (tp s)) fl sl ->
  exists s' fl' sl', tcp_send buf (len buf) flags s = Some (SendRet (len buf), buf, s') /\ two_ok (mb s') (rcv_q (tp s')) (snd_q (tp s')) fl' rl rs sl' (ss ++ buf) /\
    ssame (tp s) (tp s') /\ snd_wnd (tp s') = snd_wnd (tp s) /\ rcv_nxt (tp s') = rcv_nxt (tp s).
Proof.
  intros St T Hb Hr. unfold tcp_send. rewrite St. change (negb (4 =? 4)) with false. cbn iota. cbn [send_again]. destruct (Z.eqb_spec (len buf) 0); [lia|].
  rewrite (qo_len _ _ _ _ _ (proj1 (proj2 T))). destruct (Z.leb_spec (2920 - len ss) 0); [lia|]. rewrite Z.min_r, (take_ge buf) by (unfold len in *; lia).
  destruct (snd_add_all s fl rl rs sl ss buf T Hr) as (q & m & fl' & sl' & -> & T'). destruct (Z.eqb_spec (len buf) 0); [lia|].
  rewrite drop_ge, take_ge by (unfold len; lia). destruct (length buf) as [|k] eqn:L; [unfold len in *; lia|]. cbn [send_again]. change (len [] =? 0) with true. cbn iota.
  destruct (Z.ltb_spec 0 (len buf)); [|lia]. rewrite app_nil_r. set (s1 := on (set_snd_q q) (with_pool m s)) in *.
  assert (S1 : ssame (tp s) (tp s1) /\ snd_wnd (tp s1) = snd_wnd (tp s) /\ rcv_nxt (tp s1) = rcv_nxt (tp s)) by (unfold ssame; by split_and!).
  assert (T1 : two_ok (mb s1) (rcv_q (tp s1)) (snd_q (tp s1)) fl' rl rs sl' (ss ++ buf)) by done. clearbody s1. clear T'.
  destruct S1 as ((S1 & S2 & S3 & S4 & S5 & S6 & S7 & S8) & S9 & S10).
  assert (Q : forall s2, quiet s1 s2 -> snd_wnd (tp s2) = snd_wnd (tp s1) -> rcv_nxt (tp s2) = rcv_nxt (tp s1) ->
    exists s' fl' sl', Some (SendRet (len buf), buf, s2) = Some (SendRet (len buf), buf, s') /\ two_ok (mb s') (rcv_q (tp s')) (snd_q (tp s')) fl' rl rs sl' (ss ++ buf) /\
    ssame (tp s) (tp s') /\ snd_wnd (tp s') = snd_wnd (tp s) /\ rcv_nxt (tp s') = rcv_nxt (tp s)).
  { intros s2 (Q1 & Q2 & Q3 & Q4 & Q5 & Q6 & Q7 & Q8 & Q9 & Q10 & Q11) Q12 Q13. exists s2, fl', sl'. rewrite Q1, Q2, Q3, Q12, Q13. split; [done|]. split; [done|]. split; [|done].
    unfold ssame. split_and!; [by etrans..|auto]. }
  destruct (_ || _); apply Q; try done; try (unfold tcp_output_sched; by destruct (_ =? 0)); [apply quiet_sched|by apply quiet_bits].
Qed.

(** Output of an idle connection: the queue in one segment. *)
Lemma tcp_output_idle route mmap ipo s mtu fl rl rs sl buf :
  t_state (tp s) = TCPS_ESTABLISHED -> two_ok (mb s) (rcv_q (tp s)) (snd_q (tp s)) fl rl rs sl buf ->
  snd_off (tp s) = 0 -> snd_max (tp s) = 0 -> 0 <= snd_seq (tp s) < 2 ^ 32 -> 0 < len buf -> len buf <= t_maxseg (tp s) < 2 ^ 16 -> len buf <= snd_wnd (tp s) ->
  route_of route (tp s) = Some mtu -> t_maxseg (tp s) + 40 <= mtu -> mmap 0%nat = true -> (forall g, 0 <= ipo 0%nat g) ->
  exists g s', tcp_output route mmap ipo s = Some (0, [g], s') /\
    th_seq g = snd_seq (tp s) /\ th_ack g = rcv_nxt (tp s) /\ data_flags (th_flags g) /\ th_data g = buf /\ th_win g <= tcp_maxwin.
Proof.
  intros St T So Sm Sq Hb Hmx Hw R Hmtu Mm Ipo. pose proof (qo_len _ _ _ _ _ (proj1 (proj2 T))) as Hq. unfold tcp_output, output_rounds. rewrite So, Sm, Z.add_0_r, (u32_small (snd_seq (tp s))) by done.
  rewrite Z.eqb_refl. cbn [out_loop]. unfold out_once, out_plan. rewrite Z.sub_diag. change (int32 0) with 0. rewrite !Z.sub_0_r, Hq, St.
  change (rd tcp_outflags 4) with 16. rewrite Z.min_r by lia. destruct (Z.ltb_spec (len buf) 0); [lia|]. destruct (Z.ltb_spec (t_maxseg (tp s)) (len buf)); [lia|].
  change (Z.land 16 (Z.lnot 1)) with 16. replace (if SEQ_LT _ _ then 16 else 16) with 16 by (by destruct (SEQ_LT _ _)).
  assert (M : must_send true (snd_seq (tp s)) (snd_seq (tp s)) (mk_plan 0 (len buf) 16 false (snd_seq (tp s)) (2920 - q_len (rcv_q (tp s)))) s = true).
  { unfold must_send. cbn [pl_len pl_off]. rewrite Hq, Z.sub_0_r. destruct (Z.eqb_spec (len buf) 0); [lia|]. rewrite Z.leb_refl. cbn [negb andb orb]. by rewrite orb_true_r. }
  rewrite M. unfold out_send. cbn [pl_len pl_off pl_flags pl_nxt pl_more pl_win]. change (match t_route (tp s) with Some mtu => Some mtu | None => route end) with (route_of route (tp s)).
  rewrite R, Mm. destruct (Z.ltb_spec mtu (40 + len buf)); [lia|]. change (bit 16 2) with false. cbn iota. cbn [negb].
  change (t_maxseg (tp (on (set_t_route (Some mtu)) s))) with (t_maxseg (tp s)). rewrite !(u32_small (t_maxseg (tp s) - 0)), (u32_small (len buf)) by lia.
  destruct (Z.ltb_spec (t_maxseg (tp s) - 0) (len buf)); [lia|]. change (q_len (snd_q (tp (on (set_t_route (Some mtu)) s)))) with (q_len (snd_q (tp s))). rewrite Hq, Z.add_0_l, Z.eqb_refl.
  destruct (Z.eqb_spec (len buf) 0); [lia|]. cbn [negb andb orb]. change (Z.lor 16 8) with 24. change (bit 24 1) with false. cbn [andb].
  destruct (Z.ltb_spec 0 (len buf)); [|lia]. change (mb (on (set_t_route (Some mtu)) s)) with (mb s). change (snd_q (tp (on (set_t_route (Some mtu)) s))) with (snd_q (tp s)).
  rewrite (mbuf_queue_get_peeks _ _ _ _ _ 0 (len buf) (proj1 (proj2 T))) by lia. rewrite drop_0, take_ge by (unfold len; lia).
  match goal with |- context [ipo 0%nat ?x] => set (g := x); pose proof (Ipo g) end. destruct (Z.ltb_spec (ipo 0%nat g) 0); [lia|].
  destruct (out_sent _ _ _ _ _ _ _) as [[x y] s']. exists g, s'. split; [done|]. unfold g. cbn [th_seq th_ack th_flags th_data th_win].
  split_and!; try done; [by right|]. destruct (Z.ltb_spec 2920 (if (2920 - q_len (rcv_q (tp s)) <? 2920 / 4) && (2920 - q_len (rcv_q (tp s)) <? t_maxseg (tp s)) then 0 else 2920 - q_len (rcv_q (tp s)))); lia.
Qed.

(** A block with nothing to send or to acknowledge, and its peer with nothing to read. *)
Record idle_sender (route : option Z) (mtu : Z) (a : tcp_st) (fl rl rs sl : list Z) : Prop := {
  is_state : t_state (tp a) = TCPS_ESTABLISHED;
  is_queues : two_ok (mb a) (rcv_q (tp a)) (snd_q (tp a)) fl rl rs sl [];
  is_off : snd_off (tp a) = 0;
  is_max : snd_max (tp a) = 0;
  is_seq : 0 <= snd_seq (tp a) < 2 ^ 32;
  is_route : route_of route (tp a) = Some mtu;
  is_mss : t_maxseg (tp a) + 40 <= mtu /\ t_maxseg (tp a) < 2 ^ 16
}.

Record ready_receiver (a b : tcp_st) (fl rl sl ss : list Z) : Prop := {
  rr_state : t_state (tp b) = TCPS_ESTABLISHED;
  rr_queues : two_ok (mb b) (rcv_q (tp b)) (snd_q (tp b)) fl rl [] sl ss;
  rr_nxt : rcv_nxt (tp b) = snd_seq (tp a);
  rr_una : snd_seq (tp b) = rcv_nxt (tp a)
}.


(** ** A run *)

(** Two hosts over the pools of Mbuf.v. *)
Definition demo_side (seq nxt : Z) : tcp_st := mk_st (mk_tcp 0 TCPS_ESTABLISHED 0 0 0 1460 (Some 1500) seq 0 0 4096 2920 nxt demo_queue demo_queue) demo_pool InActive [].
Definition demo_a : tcp_st := demo_side 1000 501.
Definition demo_b : tcp_st := demo_side 501 1000.

Lemma demo_side_start seq nxt : u32 seq = seq -> u32 nxt = nxt -> host_start None seq nxt (mk_host (demo_side seq nxt) [] [] []).
Proof.
  intros E1 E2. unfold host_start, demo_side. pose proof demo_two as T. revert T. generalize demo_pool demo_queue. intros m q T.
  cbn [h_wr h_rd h_net h_st tp mb t_state rcv_q snd_q snd_seq rcv_nxt snd_off snd_max t_maxseg route_of t_route]. rewrite E1, E2. split_and!; try (done || lia).
  - by exists (seqZ 0 64).
  - intros mtu E. inversion E; subst. lia.
Qed.

Definition yes (k : nat) : bool := true.
Definition all_sent (k : nat) (g : segment) : Z := 0.


(** A run: the left host writes and sends, the right one takes the segment and reads. *)
Definition st_a1 : tcp_st := match tcp_send (seqZ 0 300) 300 0 demo_a with Some (_, _, s) => s | None => demo_a end.
Definition out_a : list segment * tcp_st := match tcp_output None yes all_sent st_a1 with Some (_, gs, s) => (gs, s) | None => ([], st_a1) end.
Definition seg_a : segment := hd (demo_seg 0 0 []) out_a.1.
Definition st_b1 : tcp_st := after (tcp_input 0 seg_a demo_b).
Definition st_b2 : tcp_st := match tcp_recv 1000 st_b1 with Some (_, s) => s | None => demo_b end.

Definition host_a (s : tcp_st) (w : list Z) (net : list (Z * segment)) : host := mk_host s w [] net.
Definition host_b (s : tcp_st) (rd : list Z) : host := mk_host s [] rd [].

Lemma demo_run_steps :
  rtc (duplex_step 0 None) (host_a demo_a [] [], host_b demo_b []) (host_a out_a.2 (seqZ 0 300) [(0, seg_a)], host_b st_b2 (seqZ 0 300)).
Proof.
  assert (E1 : tcp_send (seqZ 0 300) 300 0 demo_a = Some (SendRet 300, seqZ 0 300, st_a1)) by (vm_compute; reflexivity).
  assert (E2 : tcp_output None yes all_sent st_a1 = Some (0, [seg_a], out_a.2)) by (vm_compute; reflexivity).
  assert (E3 : posted (seqZ 0 300) st_a1 [seg_a] = [(0, seg_a)]) by (vm_compute; reflexivity).
  assert (E4 : tcp_input 0 seg_a demo_b = Done 0 st_b1) by (vm_compute; reflexivity).
  assert (E5 : tcp_recv 1000 st_b1 = Some (TcpRecv 300 (seqZ 0 300), st_b2)) by (vm_compute; reflexivity).
  assert (E6 : received [] demo_b = 0) by (vm_compute; reflexivity).
  generalize dependent st_b2. generalize dependent st_b1. generalize dependent out_a.2. generalize dependent seg_a. generalize dependent st_a1.
  generalize dependent demo_b. generalize dependent demo_a. intros a b E6 a1 E1 g E3 a2 E2 b1 E4 b2 E5.
  apply rtc_l with (y := (host_a a1 ([] ++ seqZ 0 300) [], host_b b [])). { constructor. by eapply do_write. }
  apply rtc_l with (y := (host_a a2 (seqZ 0 300) ([] ++ posted (seqZ 0 300) a1 [g]), host_b b [])). { constructor. by eapply do_output. }
  rewrite E3. apply rtc_l with (y := (host_a a2 (seqZ 0 300) [(0, g)], host_b b1 [])).
  { constructor. apply (do_deliver 0 None _ b [] [] [] 0 g 0 b1); [apply list_elem_of_here|right; rewrite E6; lia|exact E4]. }
  apply rtc_once. constructor. by eapply (do_read 0 None _ b1 [] [] [] 1000 300).
Qed.

Lemma tcp_stream_integrity_witness :
  let a := host_a out_a.2 (seqZ 0 300) [(0, seg_a)] in
  let b := host_b st_b2 (seqZ 0 300) in
  h_rd b `prefix_of` h_wr a /\ h_rd a `prefix_of` h_wr b /\ host_runs 0 None (h_net b) a /\ host_runs 0 None (h_net a) b.
Proof.
  intros a b. apply (tcp_stream_integrity 0 None 1000 501 (host_a demo_a [] [], host_b demo_b []) (a, b));
    [by apply demo_side_start|by apply demo_side_start|apply demo_run_steps].
Defined.

(** ** Behaviours of the code *)

(** The number of the block and the answer of a peer that announces a segment size of 0. *)
Definition syn_sent_pcb : tcp_st := mk_st (mk_tcp 0 TCPS_SYN_SENT 0 0 0 1460 (Some 1500) 999 1 1 1 0 0 demo_queue demo_queue) demo_pool InActive [].
Definition syn_ack_mss0 : segment := mk_segment 500 1000 (Z.lor TH_SYN TH_ACK) 4096 4 [2; 4; 0; 0] [].

Definition zero_mss : tcp_st :=
  match tcp_send [7] 1 TCP_SEND_NOWAIT (after (tcp_input 0 syn_ack_mss0 syn_sent_pcb)) with Some (_, _, s) => s | None => syn_sent_pcb end.

(** The state after one round is the state after every round. *)
Definition zero_mss_round : tcp_st :=
  match out_once None yes all_sent true 0 1000 1000 1000 zero_mss with OSent _ _ _ s _ => s | _ => zero_mss end.

Definition zero_mss_seg : segment :=
  match out_once None yes all_sent true 0 1000 1000 1000 zero_mss with OSent g _ _ _ _ => g | _ => demo_seg 0 0 [] end.

Lemma zero_mss_again k : out_once None yes all_sent true k 1000 1000 1000 zero_mss_round = OSent zero_mss_seg 1000 1000 zero_mss_round true.
Proof. vm_compute. reflexivity. Qed.

Lemma zero_mss_loop n : forall k, out_loop None yes all_sent n true k 1000 1000 1000 zero_mss_round = None.
Proof. induction n as [|n IH]; intros k; [done|]. cbn [out_loop]. rewrite zero_mss_again, IH. done. Qed.

(** A peer that answers the SYN with a maximum segment size of 0 makes [tcp_output]
    send empty segments for ever once there is a byte to send: no number of rounds is
    enough. *)
Theorem mss_zero_never_ends n : t_maxseg (tp zero_mss) = 0 /\ t_state (tp zero_mss) = TCPS_ESTABLISHED /\ output_rounds None yes all_sent n zero_mss = None.
Proof.
  split; [vm_compute; reflexivity|]. split; [vm_compute; reflexivity|]. unfold output_rounds.
  assert (E : snd_seq (tp zero_mss) = 1000 /\ snd_off (tp zero_mss) = 0 /\ snd_max (tp zero_mss) = 0) by (vm_compute; split_and!; reflexivity).
  destruct E as (-> & -> & ->). change (u32 (1000 + 0)) with 1000. rewrite Z.eqb_refl. destruct n as [|n]; [done|]. cbn [out_loop].
  assert (E : out_once None yes all_sent true 0 1000 1000 1000 zero_mss = OSent zero_mss_seg 1000 1000 zero_mss_round true) by (vm_compute; reflexivity).
  rewrite E, zero_mss_loop. done.
Qed.

(** The application closes after the peer did, with three bytes sent and not yet
    acknowledged: the FIN takes the number of the first of them, and a peer that did
    not get them takes it for the end of the stream. *)
Definition sent_three : tcp_st :=
  match tcp_send [7; 8; 9] 3 TCP_SEND_NOWAIT demo_a with
  | Some (_, _, s) => match tcp_output None yes all_sent s with Some (_, _, s) => s | None => s end
  | None => demo_a
  end.

Definition closing_pcb : tcp_st := after (tcp_close (after (tcp_input 0 (mk_segment 501 1000 (Z.lor TH_ACK TH_FIN) 4096 0 [] []) sent_three))).

Theorem close_drops_sent_data :
  exists g s, tcp_output None yes all_sent closing_pcb = Some (0, [g], s) /\ th_seq g = 1000 /\ bit (th_flags g) TH_FIN = true /\ th_data g = [] /\
    t_state (tp (after (tcp_input 0 g (on (set_t_state TCPS_FIN_WAIT_2) (demo_side 502 1000))))) = TCPS_TIME_WAIT.
Proof. eexists _, _. split; [vm_compute; reflexivity|]. vm_compute. split_and!; reflexivity. Qed.

(** The same with the three bytes not yet sent: the offset wraps around and the FIN is
    sent 65533 bytes ahead. *)
Theorem close_wraps_offset :
  exists s0 g s, tcp_send [7; 8; 9] 3 0 demo_a = Some (SendRet 3, [7; 8; 9], s0) /\
    tcp_output None yes all_sent (after (tcp_close (after (tcp_input 0 (mk_segment 501 1000 (Z.lor TH_ACK TH_FIN) 4096 0 [] []) s0)))) = Some (0, [g], s) /\
    th_seq g = 1000 + 65533 /\ bit (th_flags g) TH_FIN = true.
Proof. eexists _, _, _. split; [vm_compute; reflexivity|]. split; [vm_compute; reflexivity|]. vm_compute. split_and!; reflexivity. Qed.

(** A block in SYN_RCVD takes an acknowledgement that does not cover its SYN: it goes
    to ESTABLISHED with the number of the SYN and, if the SYN has not been sent yet,
    with offsets that wrapped around. *)
Theorem syn_rcvd_takes_old_ack :
  let p := mk_st (mk_tcp 0 TCPS_SYN_RCVD 0 0 0 1460 (Some 1500) 1000 0 0 4096 2920 501 demo_queue demo_queue) demo_pool InActive [] in
  let s := after (tcp_input 0 (demo_seg 501 TH_ACK []) p) in
  (t_state (tp s), snd_seq (tp s), snd_off (tp s), snd_max (tp s)) = (TCPS_ESTABLISHED, 1000, 65535, 65535).
Proof. vm_compute. reflexivity. Qed.
