(* ===== verification/TcpOpen.v ===== *)
(** * Opening of TCP connections

    src/sdk/libtcpip/tcp: the set-up of a block by [tcp_connect] (tcp_connect.c) and
    by [tcp_passive_open] (tcp_in.c), the part of [tcp_input] for a listening block,
    [tcp_listen] (tcp_listen.c) and [tcp_accept] (tcp_accept.c) with the ring of
    connections that wait to be accepted, and the release of a listening block
    (tcp.c).

    The handshake ends in the states that TcpConn.v starts from.  What the kernel and
    the lists of blocks answer (a condition variable, a semaphore, a free block) are
    arguments; the choice of a local port is not modelled. *)

From stdpp Require Import base tactics numbers list gmap.
From Stdlib Require Import ZArith Lia.
From S2P Require Import Prelude Buffer Mbuf Tcp TcpOut TcpSnd TcpConn.

Abbreviation tcp_conn_est_tmo := 10 (only parsing).
Abbreviation TCP_BACKLOG_MAX := 11 (only parsing).

(** ** Active opening *)

(** The segment size for a route. *)
Definition open_mss (route : option Z) : Z :=
  let mss := match route with None => tcp_defmss | Some mtu => mtu - 40 end in
  if tcp_maxmss <? mss then tcp_maxmss else mss.

Abbreviation ENOTSOCK := 88 (only parsing).

(** [tcp_connect] up to the wait: the error, or the counter of initial numbers and the
    block. *)
Definition tcp_connect (route : option Z) (laddr_any cond_ok : bool) (iss : Z) (s : tcp_st) : Z + Z * tcp_st :=
  if (match whr s with InClosed => false | _ => true end) then inl (- ENOTSOCK)
  else if (match route with None => laddr_any | Some _ => false end) || negb cond_ok then inl (-1)
  else
    let p := set_t_maxseg (u16 (open_mss route)) (tp s) in
    let p := set_snd_q (mbuf_queue_init (snd_q p)) (set_rcv_q (mbuf_queue_init (rcv_q p)) p) in
    let p := set_rcv_nxt 0 p in
    let iss := u16 (iss + 1) in
    let p := set_snd_seq (u32 (Z.shiftl iss 20)) p in
    let p := set_snd_max 0 (set_snd_off 0 p) in
    let p := set_snd_wnd 1 p in
    let p := set_t_conn_tmr tcp_conn_est_tmo p in
    let p := set_t_state TCPS_SYN_SENT p in
    inr (iss, tcp_output_sched (move_to InActive (on (fun _ => p) s))).

(** What the caller of [tcp_connect] does each time it is woken: it waits again, or
    returns. *)
Definition connect_poll (s : tcp_st) : flow tcp_st :=
  let st := t_state (tp s) in
  if st =? TCPS_CLOSED then
    let* s := snd_free s in
    let* s := rcv_free s in
    Done (-1) s
  else if (st =? TCPS_TIME_WAIT) || (st =? TCPS_CLOSING) || (st =? TCPS_LAST_ACK) || (st =? TCPS_CLOSE_WAIT) then Done (-1) s
  else if st =? TCPS_ESTABLISHED then Done 0 s
  else Go s.

(** ** Listening *)

(** A listening block: the ring of accepted connections, by the numbers of their
    blocks, and the value of its semaphore. *)
Record listen_pcb := mk_listen { l_max : Z; l_head : Z; l_tail : Z; l_backlog : list Z; l_sem : Z }.

(** A slot that holds no block. *)
Abbreviation NULL := (-1) (only parsing).

Abbreviation EADDRINUSE := 98 (only parsing).
Abbreviation ENOMEM := 12 (only parsing).

(** An error; the block is listening; it was already and is put in the list; or it is
    connected, and the network mutex is released twice. *)
Inductive listen_res := ListenErr (e : Z) | ListenOk (mux : listen_pcb) | ListenAgain | ListenTwice.

(** For a block in the state [st]; whether its address is in use and whether there is
    a semaphore are arguments. *)
Definition tcp_listen (st __backlog : Z) (in_use sem_ok : bool) : listen_res :=
  let backlog := if u32 (TCP_BACKLOG_MAX - 1) <? u32 __backlog then TCP_BACKLOG_MAX else __backlog + 1 in
  if in_use then ListenErr (- EADDRINUSE)
  else if st =? TCPS_CLOSED then
    if negb sem_ok then ListenErr (- ENOMEM)
    else ListenOk (mk_listen (u8 backlog) 0 0 (replicate (Z.to_nat TCP_BACKLOG_MAX) NULL) 0)
  else if st =? TCPS_LISTEN then ListenAgain
  else ListenTwice.

(** The block of a passive opening. *)
Definition passive_pcb (route : option Z) (g : segment) (iss : Z) : tcp_pcb :=
  let maxseg := match route with None => tcp_defmss | Some mtu => u16 (mtu - 40) end in
  let maxseg := if tcp_maxmss <? maxseg then tcp_maxmss else maxseg in
  let maxseg := if negb (th_optlen g =? 0) then parse_options (S (length (th_opt g))) (th_flags g) (th_opt g) (th_optlen g) maxseg else maxseg in
  let q := mbuf_queue_init (mk_queue 0 0 PNull PNull) in
  mk_tcp TF_ACKNOW TCPS_SYN_RCVD 0 0 tcp_conn_est_tmo maxseg route (u32 (Z.shiftl iss 20)) 0 0 (th_win g) 0 (u32 (th_seq g + 1)) q q.

(** The result, and whether a condition variable was allocated that nobody will free. *)
Definition tcp_passive_open (mux : listen_pcb) (cond_ok pcb_ok : bool) (tp : Z) (route : option Z) (g : segment) (iss : Z) :
    option (tcp_pcb * listen_pcb * Z) * bool :=
  let new_head := l_head mux + 1 in
  let new_head := if new_head =? l_max mux then 0 else new_head in
  if l_tail mux =? new_head then (None, false)
  else if negb cond_ok then (None, false)
  else if negb pcb_ok then (None, true)
  else
    let iss := u16 (iss + 1) in
    let backlog := <[Z.to_nat (l_head mux) := tp]> (l_backlog mux) in
    (Some (passive_pcb route g iss, mk_listen (l_max mux) new_head (l_tail mux) backlog (l_sem mux + 1), iss), false).

(** The answer of [dropwithreset] when there is no block: acknowledgement, sequence
    number and flags. *)
Definition reset_reply (g : segment) : option (Z * Z * Z) :=
  if bit (th_flags g) TH_RST then None
  else if bit (th_flags g) TH_ACK then Some (0, th_ack g, TH_RST)
  else if bit (th_flags g) TH_SYN then Some (u32 (th_seq g + (len (th_data g) + 1)), 0, Z.lor TH_ACK TH_RST)
  else None.

Inductive listen_in := LDrop | LReply (r : option (Z * Z * Z)) | LOpen (p : tcp_pcb) (mux : listen_pcb) (iss : Z).

(** A segment for which there is no active block. *)
Definition listen_input (mux : option listen_pcb) (cond_ok pcb_ok : bool) (tp : Z) (route : option Z) (g : segment) (iss : Z) : listen_in :=
  match mux with
  | None => LReply (reset_reply g)
  | Some mux =>
      if bit (th_flags g) TH_ACK then LReply (reset_reply g)
      else if negb (len (th_data g) =? 0) then LReply (reset_reply g)
      else if negb (bit (th_flags g) TH_SYN) then LDrop
      else if bit (th_flags g) TH_RST then LDrop
      else
        match (tcp_passive_open mux cond_ok pcb_ok tp route g iss).1 with
        | None => LReply (reset_reply g)
        | Some (p, mux, iss) => LOpen (set_bits TF_NEEDOUTPUT p) mux iss
        end
  end.

(** [tcp_accept] waits for the semaphore and takes the oldest connection; the result of
    the wait and the state of the block after it are arguments. *)
Definition tcp_accept (wait_ok : bool) (st : Z) (mux : listen_pcb) : option (Z * listen_pcb) :=
  if negb wait_ok then Some (NULL, mux)
  else if l_sem mux =? 0 then None
  else if negb (st =? TCPS_LISTEN) then Some (NULL, mk_listen (l_max mux) (l_head mux) (l_tail mux) (l_backlog mux) (l_sem mux - 1))
  else
    let tp := default NULL (l_backlog mux !! Z.to_nat (l_tail mux)) in
    let tail := l_tail mux + 1 in
    let tail := if tail =? l_max mux then 0 else tail in
    Some (tp, mk_listen (l_max mux) (l_head mux) tail (l_backlog mux) (l_sem mux - 1)).

(** The blocks that [tcp_pcb_free] releases with a listening block. *)
Fixpoint listen_frees (n : nat) (mux : listen_pcb) : list Z :=
  match n with
  | O => []
  | S n =>
      if l_head mux =? l_tail mux then []
      else
        let tp := default NULL (l_backlog mux !! Z.to_nat (l_head mux)) in
        let head := l_head mux + 1 in
        let head := if head =? l_max mux then 0 else head in
        tp :: listen_frees n (mk_listen (l_max mux) head (l_tail mux) (l_backlog mux) (l_sem mux))
  end.

(** ** The ring of waiting connections *)

Definition count (mux : listen_pcb) : Z :=
  if l_tail mux <=? l_head mux then l_head mux - l_tail mux else l_head mux - l_tail mux + l_max mux.

Definition slot (mux : listen_pcb) (i : Z) : Z :=
  let k := l_tail mux + i in default NULL (l_backlog mux !! Z.to_nat (if k <? l_max mux then k else k - l_max mux)).

(** The connections, the oldest first. *)
Definition entries (mux : listen_pcb) : list Z := slot mux <$> seqZ 0 (count mux).

Record ring_ok (mux : listen_pcb) : Prop := {
  ro_max : 1 <= l_max mux <= TCP_BACKLOG_MAX;
  ro_head : 0 <= l_head mux < l_max mux;
  ro_tail : 0 <= l_tail mux < l_max mux;
  ro_slots : len (l_backlog mux) = TCP_BACKLOG_MAX;
  ro_sem : l_sem mux = count mux
}.

Lemma len_entries mux : ring_ok mux -> len (entries mux) = count mux.
Proof.
  intros [M H T _ _]. unfold entries, len. rewrite length_fmap, length_seqZ. unfold count. destruct (Z.leb_spec (l_tail mux) (l_head mux)); lia.
Qed.

(** A listening block starts with an empty ring of the size asked for. *)
Lemma tcp_listen_ok n mux : 0 <= n < 2 ^ 31 -> tcp_listen TCPS_CLOSED n false true = ListenOk mux -> ring_ok mux /\ entries mux = [] /\ l_max mux = Z.min (n + 1) TCP_BACKLOG_MAX.
Proof.
  intros Hn. unfold tcp_listen. change (u32 (11 - 1)) with 10. rewrite u32_small by lia. cbn [negb Z.eqb].
  destruct (Z.ltb_spec 10 n); intros E; inversion E; subst; clear E.
  - split; [by constructor|]. split; [done|]. cbn [l_max]. change (u8 11) with 11. lia.
  - rewrite u8_small by lia. split; [constructor; cbn [l_max l_head l_tail l_backlog l_sem]; done || lia|]. split; [done|]. cbn [l_max]. lia.
Qed.

Definition next (mux : listen_pcb) (k : Z) : Z := if k + 1 =? l_max mux then 0 else k + 1.

(** The connection of a passive opening goes to the end of the ring. *)
Lemma backlog_push mux tp : ring_ok mux -> count mux <> l_max mux - 1 ->
  let mux' := mk_listen (l_max mux) (next mux (l_head mux)) (l_tail mux) (<[Z.to_nat (l_head mux) := tp]> (l_backlog mux)) (l_sem mux + 1) in
  ring_ok mux' /\ entries mux' = entries mux ++ [tp].
Proof.
  intros [M H T S E] N mux'.
  assert (C : count mux' = count mux + 1 /\ 0 <= count mux).
  { unfold count, mux', next in *. cbn [l_max l_head l_tail]. destruct (Z.eqb_spec (l_head mux + 1) (l_max mux));
      repeat match goal with |- context [?a <=? ?b] => destruct (Z.leb_spec a b) | H : context [?a <=? ?b] |- _ => destruct (Z.leb_spec a b) end; lia. }
  split.
  - constructor; try done; unfold mux'; cbn [l_max l_head l_tail l_backlog l_sem].
    + unfold next. destruct (Z.eqb_spec (l_head mux + 1) (l_max mux)); lia.
    + unfold len in *. by rewrite length_insert.
    + fold mux'. lia.
  - unfold entries. rewrite (proj1 C), seqZ_app, fmap_app by lia. f_equal.
    + apply list_fmap_ext. intros k i Hk. apply lookup_seqZ in Hk as [-> Hk]. unfold slot, mux'. cbn [l_max l_tail l_backlog].
      rewrite list_lookup_insert_ne; [done|]. unfold count in Hk. destruct (Z.leb_spec (l_tail mux) (l_head mux)), (Z.ltb_spec (l_tail mux + (0 + Z.of_nat k)) (l_max mux)); lia.
    + change (seqZ (0 + count mux) 1) with [0 + count mux]. cbn [fmap list_fmap]. f_equal. unfold slot, mux'. cbn [l_max l_tail l_backlog].
      replace (if l_tail mux + (0 + count mux) <? l_max mux then _ else _) with (l_head mux).
      * rewrite list_lookup_insert_eq; [done|]. unfold len in *. lia.
      * unfold count. destruct (Z.leb_spec (l_tail mux) (l_head mux));
          match goal with |- context [?a <? ?b] => destruct (Z.ltb_spec a b) end; lia.
Qed.

Lemma backlog_pop mux : ring_ok mux -> 0 < count mux ->
  let mux' := mk_listen (l_max mux) (l_head mux) (next mux (l_tail mux)) (l_backlog mux) (l_sem mux - 1) in
  ring_ok mux' /\ entries mux = slot mux 0 :: entries mux'.
Proof.
  intros [M H T S E] N mux'.
  assert (C : count mux' = count mux - 1).
  { unfold count, mux', next in *. cbn [l_max l_head l_tail]. destruct (Z.eqb_spec (l_tail mux + 1) (l_max mux));
      repeat match goal with |- context [?a <=? ?b] => destruct (Z.leb_spec a b) | H : context [?a <=? ?b] |- _ => destruct (Z.leb_spec a b) end; lia. }
  split.
  - constructor; try done; unfold mux'; cbn [l_max l_head l_tail l_backlog l_sem].
    + unfold next. destruct (Z.eqb_spec (l_tail mux + 1) (l_max mux)); lia.
    + fold mux'. lia.
  - unfold entries. replace (count mux) with (1 + (count mux - 1)) by lia. rewrite seqZ_app, fmap_app by lia. rewrite C. cbn [fmap list_fmap]. change (seqZ 0 1) with [0].
    cbn [fmap list_fmap app]. f_equal. rewrite (Z.add_comm 0 1), <- (fmap_add_seqZ 1 0 (count mux - 1)), <- list_fmap_compose. apply list_fmap_ext. intros k i Hk. apply lookup_seqZ in Hk as [-> Hk].
    cbn [compose]. unfold slot, mux', next. cbn [l_max l_tail l_backlog]. do 3 f_equal.
    unfold count in Hk. destruct (Z.eqb_spec (l_tail mux + 1) (l_max mux)), (Z.leb_spec (l_tail mux) (l_head mux));
      repeat match goal with |- context [?a <? ?b] => destruct (Z.ltb_spec a b) end; lia.
Qed.

(** A passive opening with room in the ring. *)
Lemma ring_full mux : ring_ok mux -> (l_tail mux =? next mux (l_head mux)) = (count mux =? l_max mux - 1).
Proof.
  intros [M H T _ _]. unfold next, count. destruct (Z.eqb_spec (l_head mux + 1) (l_max mux)), (Z.leb_spec (l_tail mux) (l_head mux));
    repeat match goal with |- context [?a =? ?b] => destruct (Z.eqb_spec a b) end; lia.
Qed.

Lemma passive_open_pushes mux tp route g iss : ring_ok mux -> count mux <> l_max mux - 1 ->
  exists mux', tcp_passive_open mux true true tp route g iss = (Some (passive_pcb route g (u16 (iss + 1)), mux', u16 (iss + 1)), false) /\
    ring_ok mux' /\ entries mux' = entries mux ++ [tp].
Proof.
  intros R N. unfold tcp_passive_open. fold (next mux (l_head mux)). rewrite (ring_full mux R). destruct (Z.eqb_spec (count mux) (l_max mux - 1)); [done|].
  eexists. split; [done|]. by apply backlog_push.
Qed.

(** C38: The connections that wait to be accepted form a queue: a passive opening puts its
    block at the end unless the backlog is full, and [tcp_accept] takes the oldest, or
    waits when there is none. *)
Theorem backlog_fifo mux tp route g iss (R : ring_ok mux) :
  (if len (entries mux) =? l_max mux - 1 then tcp_passive_open mux true true tp route g iss = (None, false)
   else exists mux', tcp_passive_open mux true true tp route g iss = (Some (passive_pcb route g (u16 (iss + 1)), mux', u16 (iss + 1)), false) /\
     ring_ok mux' /\ entries mux' = entries mux ++ [tp]) /\
  match entries mux with
  | [] => tcp_accept true TCPS_LISTEN mux = None
  | x :: l => exists mux', tcp_accept true TCPS_LISTEN mux = Some (x, mux') /\ ring_ok mux' /\ entries mux' = l
  end.
Proof.
  split.
  - rewrite len_entries by done. destruct (Z.eqb_spec (count mux) (l_max mux - 1)) as [F|N]; [|by apply passive_open_pushes].
    unfold tcp_passive_open. fold (next mux (l_head mux)). rewrite (ring_full mux R). apply Z.eqb_eq in F. by rewrite F.
  - unfold tcp_accept. cbn [negb]. rewrite (ro_sem _ R). pose proof (len_entries mux R) as L. destruct (Z.eqb_spec (count mux) 0) as [E|E].
    + destruct (entries mux); [done|]. unfold len in L. cbn [length] in L. lia.
    + assert (C : 0 < count mux). { destruct R as [M H T _ _]. unfold count in *. destruct (Z.leb_spec (l_tail mux) (l_head mux)); lia. }
      destruct (backlog_pop mux R C) as [R' ->]. eexists. split; [|split; [exact R'|done]]. change (negb (1 =? 1)) with false. unfold slot. rewrite Z.add_0_r.
      destruct (Z.ltb_spec (l_tail mux) (l_max mux)); [by rewrite (ro_sem _ R)|destruct R; lia].
Qed.

Definition demo_mux : listen_pcb := mk_listen 3 0 0 (replicate 11 NULL) 0.

Lemma backlog_fifo_witness : exists mux', tcp_passive_open demo_mux true true 5 None (demo_seg 500 TH_SYN []) 7 =
  (Some (passive_pcb None (demo_seg 500 TH_SYN []) 8, mux', 8), false) /\ ring_ok mux' /\ entries mux' = [5].
Proof. apply (backlog_fifo demo_mux 5 None (demo_seg 500 TH_SYN []) 7). constructor; done || cbn; lia. Defined.

(** Releasing a listening block walks the ring from the head: it visits the slots that
    hold no connection and leaves the ones that do. *)
Theorem listen_free_wrong_slots : exists p mux iss,
  (tcp_passive_open demo_mux true true 5 None (demo_seg 500 TH_SYN []) 7).1 = Some (p, mux, iss) /\ entries mux = [5] /\ listen_frees 3 mux = [NULL; NULL].
Proof. eexists _, _, _. split; [done|]. done. Qed.

(** When there is no free block the condition variable that was allocated is lost. *)
Theorem passive_open_leaks mux tp route g iss : l_tail mux <> next mux (l_head mux) -> tcp_passive_open mux true false tp route g iss = (None, true).
Proof. intros N. unfold tcp_passive_open. fold (next mux (l_head mux)). apply Z.eqb_neq in N. by rewrite N. Qed.

(** ** The handshake *)

(** A block with empty queues. *)
Record blk (s : tcp_st) (st seq off mx nxt mss : Z) (route : option Z) : Prop := {
  b_state : t_state (tp s) = st;
  b_seq : snd_seq (tp s) = seq;
  b_off : snd_off (tp s) = off;
  b_max : snd_max (tp s) = mx;
  b_nxt : rcv_nxt (tp s) = nxt;
  b_mss : t_maxseg (tp s) = mss;
  b_route : t_route (tp s) = route;
  b_fin : sentfin (tp s) = false;
  b_queues : exists fl, two_ok (mb s) (rcv_q (tp s)) (snd_q (tp s)) fl [] [] [] []
}.

Lemma blk_quiet s s' st seq off mx nxt mss route : quiet s s' -> rcv_nxt (tp s') = rcv_nxt (tp s) -> blk s st seq off mx nxt mss route -> blk s' st seq off mx nxt mss route.
Proof.
  intros (E1 & E2 & E3 & E4 & E5 & E6 & E7 & E8 & E9 & E10 & _) E [B1 B2 B3 B4 B5 B6 B7 B8 [fl T]].
  constructor; rewrite ?E4, ?E5, ?E6, ?E7, ?E8, ?E9, ?E10, ?E; try done. exists fl. by rewrite E1, E2, E3.
Qed.

Lemma blk_lens s st seq off mx nxt mss route : blk s st seq off mx nxt mss route -> q_len (rcv_q (tp s)) = 0 /\ q_len (snd_q (tp s)) = 0.
Proof. intros [_ _ _ _ _ _ _ _ [fl (A & B & _)]]. by rewrite (qo_len _ _ _ _ _ A), (qo_len _ _ _ _ _ B). Qed.

(** The options of a SYN. *)
Definition mss_opt (mtu : Z) : list Z := [2; 4; Z.shiftr (u16 (tcp_mss (Some mtu))) 8; u8 (tcp_mss (Some mtu))].

Lemma parse_mss flags mtu mss : bit flags TH_SYN = true -> 40 < mtu < 65536 -> 0 < mss ->
  let m := parse_options 5 flags (mss_opt mtu) 4 mss in 0 < m <= mss.
Proof.
  intros F H Hm. unfold mss_opt. set (v := tcp_mss (Some mtu)). assert (Hv : 0 < v <= 2920) by (unfold v, tcp_mss; destruct (Z.ltb_spec 2920 (mtu - 40)); lia). clearbody v.
  assert (E : Z.shiftl (Z.shiftr (u16 v) 8) 8 + u8 v = v).
  { rewrite u16_small by lia. unfold u8. rewrite Z.shiftr_div_pow2, Z.shiftl_mul_pow2 by lia. change (2 ^ 8) with 256. rewrite (Z_div_mod_eq_full v 256) at 3. lia. }
  cbn [parse_options]. change (4 =? 0) with false. change (rd (2 :: _) 0) with 2. change (rd (2 :: 4 :: _) 1) with 4. cbn iota. change (2 =? 0) with false. change (2 =? 1) with false.
  change (4 <=? 0) with false. cbn iota. rewrite F. change ((2 =? 2) && (4 =? 4) && true) with true. cbn iota.
  change (rd (2 :: 4 :: Z.shiftr (u16 v) 8 :: [u8 v]) 2) with (Z.shiftr (u16 v) 8). change (rd (2 :: 4 :: Z.shiftr (u16 v) 8 :: [u8 v]) 3) with (u8 v). rewrite E.
  change (4 - 4 =? 0) with true. cbn iota. destruct (Z.ltb_spec v mss); lia.
Qed.

(** Output of a block with nothing in its queue that has a reason to send. *)
Lemma out_empty route mmap ipo s mtu st seq nxt mss :
  blk s st seq 0 0 nxt mss (t_route (tp s)) -> 0 <= seq < 2 ^ 32 -> 0 < mss < 2 ^ 16 -> route_of route (tp s) = Some mtu -> 40 <= mtu -> 0 <= snd_wnd (tp s) ->
  bit (rd tcp_outflags st) TH_FIN = false -> bit (rd tcp_outflags st) TH_SYN || bit (t_flags (tp s)) TF_ACKNOW = true -> mmap 0%nat = true -> (forall g, 0 <= ipo 0%nat g) ->
  let flags := rd tcp_outflags st in
  let syn := bit flags TH_SYN in
  tcp_output route mmap ipo s =
    Some (0, [mk_segment seq nxt flags 2920 (if syn then 4 else 0) (if syn then mss_opt mtu else []) []],
          (out_sent flags 0 seq seq seq 2920 (on (set_t_route (Some mtu)) s)).2).
Proof.
  intros B Hs Hm R Hmtu Hw Fin Why Mm Ipo flags syn. destruct (blk_lens _ _ _ _ _ _ _ _ B) as [Lr Ls]. destruct B as [B1 B2 B3 B4 B5 B6 _ B8 _].
  unfold tcp_output, output_rounds. rewrite B2, B3, B4, Z.add_0_r, u32_small, Z.eqb_refl by done. cbn [out_loop]. unfold out_once, out_plan.
  rewrite Z.sub_diag. change (int32 0) with 0. rewrite !Z.sub_0_r, Ls, B1. fold flags. rewrite Z.min_r by lia. change (0 <? 0) with false. cbn iota. rewrite B6, Lr.
  destruct (Z.ltb_spec mss 0); [lia|]. rewrite Z.add_0_r, Ls. unfold SEQ_LT. rewrite Z.add_0_r, Z.sub_diag. change (int32 0 <? 0) with false. cbn iota.
  assert (M : must_send true seq seq (mk_plan 0 0 flags false seq (2920 - 0)) s = true).
  { unfold must_send. cbn [pl_len pl_flags pl_win pl_off pl_nxt]. destruct (bit flags 2) eqn:S; [by rewrite ?orb_true_r, ?orb_true_l, ?orb_true_r|]. unfold flags in S. rewrite S in Why. cbn [orb] in Why. rewrite Why. by rewrite ?orb_true_r, ?orb_true_l, ?orb_true_r. }
  rewrite M. unfold out_send. cbn [pl_len pl_off pl_flags pl_nxt pl_more pl_win].
  change (match t_route (tp s) with Some mtu => Some mtu | None => route end) with (route_of route (tp s)). rewrite R, Mm. destruct (Z.ltb_spec mtu (40 + 0)); [lia|]. fold syn.
  change (u32 0) with 0. match goal with |- context [u32 ?x <? 0] => destruct (Z.ltb_spec (u32 x) 0) as [L|_]; [pose proof (u32_range x); lia|] end.
  change (negb (0 =? 0)) with false. cbn [andb negb orb]. unfold flags in Fin. fold flags in Fin. rewrite Fin. cbn [andb]. change (2920 - 0 <? 2920 / 4) with false. cbn [andb]. change (2920 <? 2920 - 0) with false. cbn iota.
  change (0 <? 0) with false. cbn iota. match goal with |- context [ipo 0%nat ?x] => set (g := x) end. pose proof (Ipo g). destruct (Z.ltb_spec (ipo 0%nat g) 0); [lia|].
  assert (Eg : g = mk_segment seq nxt flags 2920 (if syn then 4 else 0) (if syn then mss_opt mtu else []) []).
  { unfold g. f_equal; first [exact B5 | reflexivity | by destruct (bit flags (Z.lor TH_SYN TH_FIN))]. }
  rewrite Eg. change (2920 - 0) with 2920. destruct (out_sent _ _ _ _ _ _ _) as [[x y] s']. done.
Qed.

(** The block after that output: a SYN takes one number. *)
Lemma out_empty_blk s st seq nxt mss mtu flags :
  blk s st seq 0 0 nxt mss (t_route (tp s)) -> 0 <= seq < 2 ^ 32 -> bit flags TH_FIN = false ->
  let s' := (out_sent flags 0 seq seq seq 2920 (on (set_t_route (Some mtu)) s)).2 in
  let n := if bit flags TH_SYN then 1 else 0 in
  blk s' st seq n n nxt mss (Some mtu) /\ snd_wnd (tp s') = snd_wnd (tp s).
Proof.
  intros [B1 B2 B3 B4 B5 B6 B7 B8 [fl T]] Hs Fin. unfold out_sent. rewrite Fin. cbn iota. set (n := if bit flags 2 then 1 else 0).
  assert (Hn : 0 <= n <= 1) by (unfold n; destruct (bit flags 2); lia).
  assert (E : u32 ((if bit flags 2 then u32 (seq + 1) else seq) + 0) = u32 (seq + n)).
  { unfold n. destruct (bit flags 2); rewrite Z.add_0_r; [|done]. apply (u32_small (u32 (seq + 1))), u32_range. }
  rewrite E. assert (G : SEQ_GT (u32 (seq + n)) seq = (0 <? n)) by (unfold SEQ_GT; rewrite seq_dist by lia; done). rewrite G.
  assert (Em : (if 0 <? n then u32 (seq + n) else seq) = u32 (seq + n)).
  { destruct (Z.ltb_spec 0 n); [done|]. assert (n = 0) as -> by lia. rewrite Z.add_0_r. symmetry. by apply u32_small. }
  rewrite Em. clearbody n. clear E G Em. set (s1 := if _ && _ then _ else _).
  assert (S1 : mb s1 = mb s /\ rcv_q (tp s1) = rcv_q (tp s) /\ snd_q (tp s1) = snd_q (tp s) /\ t_state (tp s1) = t_state (tp s) /\ rcv_nxt (tp s1) = rcv_nxt (tp s) /\
    t_maxseg (tp s1) = t_maxseg (tp s) /\ t_route (tp s1) = Some mtu /\ sentfin (tp s1) = sentfin (tp s) /\ snd_wnd (tp s1) = snd_wnd (tp s)) by (unfold s1; destruct (_ && _); by split_and!).
  clearbody s1. destruct S1 as (X1 & X2 & X3 & X4 & X5 & X6 & X7 & X8 & X9). cbn [snd]. split; [|exact X9].
  assert (D : u16 (u32 (seq + n) - seq) = n). { rewrite <- (u32_small seq) at 2 by lia. rewrite u16_diff. replace (seq + n - seq) with n by lia. apply u16_small. lia. }
  constructor; cbn [on tp mb clear_bits set_t_flags set_rcv_adv_wnd set_snd set_snd_max set_snd_off set_snd_seq t_state snd_seq snd_off snd_max rcv_nxt t_maxseg t_route rcv_q snd_q]; try congruence.
  - rewrite <- X8 in B8. by rewrite <- B8, <- (sentfin_clear 3 (tp s1)).
  - exists fl. by rewrite X1, X2, X3.
Qed.

(** Setting a flag. *)
Lemma bit_set f p : bit (t_flags (set_bits f p)) f = negb (Z.land (Z.lor (t_flags p) f) f =? 0).
Proof. done. Qed.

Lemma acknow_set p : bit (t_flags (set_bits TF_ACKNOW p)) TF_ACKNOW = true.
Proof.
  rewrite bit_set, Z.land_lor_distr_l. change (Z.land 1 1) with 1. apply negb_true_iff, Z.eqb_neq. intros E.
  pose proof (f_equal (fun x => Z.testbit x 0) E) as E2. cbv beta in E2. by rewrite Z.lor_spec, orb_true_r in E2.
Qed.

Lemma acknow_sched s : bit (t_flags (tp (tcp_output_sched s))) TF_ACKNOW = bit (t_flags (tp s)) TF_ACKNOW.
Proof. unfold tcp_output_sched. destruct (_ =? 0); [|done]. cbn [on tp set_bits set_t_flags t_flags]. unfold bit. by rewrite Z.land_lor_distr_l, Z.lor_0_r. Qed.

Lemma wnd_sched s : snd_wnd (tp (tcp_output_sched s)) = snd_wnd (tp s) /\ rcv_nxt (tp (tcp_output_sched s)) = rcv_nxt (tp s).
Proof. unfold tcp_output_sched. by destruct (_ =? 0). Qed.

Definition syn_ack (ti ack win mtu : Z) : segment := mk_segment ti ack (Z.lor TH_SYN TH_ACK) win 4 (mss_opt mtu) [].

(** The answer to the SYN. *)
Lemma syn_sent_go rr s seq mss mtu mtu' ti win :
  blk s TCPS_SYN_SENT seq 1 1 0 mss (Some mtu) -> 0 < mss -> 40 < mtu' < 65536 ->
  exists s' mss', syn_sent rr (syn_ack ti (u32 (seq + 1)) win mtu') s = Go (u32 (ti + 1), s') /\
    blk s' TCPS_ESTABLISHED (u32 (seq + 1)) 0 0 (u32 (ti + 1)) mss' (Some mtu) /\ 0 < mss' <= mss /\ snd_wnd (tp s') = win /\ bit (t_flags (tp s')) TF_ACKNOW = true.
Proof.
  intros [B1 B2 B3 B4 B5 B6 B7 B8 [fl T]] Hm Hmtu. pose proof (parse_mss (Z.lor 2 16) mtu' mss eq_refl Hmtu Hm) as Pm. cbv zeta in Pm.
  unfold syn_sent, syn_ack. cbn [th_flags th_data th_ack th_seq th_win th_opt th_optlen]. change (bit (Z.lor 2 16) 4) with false. change (bit (Z.lor 2 16) 2) with true.
  change (bit (Z.lor 2 16) 16) with true. cbn [negb]. change (negb (len [] =? 0)) with false. cbn iota. cbn [on tp snd_seq set_snd_seq]. rewrite B2, Z.eqb_refl. cbn [negb].
  change (negb (4 =? 0)) with true. cbn iota. set (m := parse_options _ _ _ _ _) in Pm. eexists _, m. split; [done|]. split; [|split; [done|split; [done|apply acknow_set]]].
  unfold m. constructor; cbn [on tp mb tcp_parse_options set_bits set_t_flags set_t_state set_snd_wnd set_rcv_nxt set_t_maxseg set_snd_max set_snd_off set_snd_seq t_state
    snd_seq snd_off snd_max rcv_nxt t_maxseg t_route rcv_q snd_q]; try done.
  all: first [by rewrite B2 | by rewrite B3 | by rewrite B4 | by rewrite B6 | by exists fl | by rewrite sentfin_set].
Qed.

(** The end of the processing of a segment without data and FIN. *)
Lemma step6_empty g b fl sq s : bit fl TH_FIN = false -> th_win g = snd_wnd (tp s) ->
  step6 g b fl sq [] s = Done 0 (if b || bit (t_flags (tp s)) TF_ACKNOW then tcp_output_sched s else s).
Proof.
  intros F W. unfold step6. rewrite W, Z.eqb_refl. cbn [negb]. rewrite andb_false_r. cbn iota. unfold process_data. change (negb (len [] =? 0)) with false. rewrite F. cbn [orb andb bind].
  unfold process_fin. replace (bit (Z.land fl (Z.lnot 1)) 1) with false; [done|]. unfold bit. rewrite <- Z.land_assoc. change (Z.land (Z.lnot 1) 1) with 0. by rewrite Z.land_0_r.
Qed.

(** What [tcp_input] does first keeps the block. *)
Lemma input_first s st seq off mx nxt mss route :
  blk s st seq off mx nxt mss route ->
  let s1 := on (set_t_conn_tmr 60) s in
  let s2 := if bit (t_flags (tp s1)) TF_IDLE then on (clear_bits TF_IDLE) s1 else s1 in
  blk s2 st seq off mx nxt mss route /\ snd_wnd (tp s2) = snd_wnd (tp s).
Proof.
  intros B s1 s2. split; [|unfold s2; by destruct (bit _ _)]. apply (blk_quiet s); [|unfold s2; by destruct (bit _ _)|done].
  apply (quiet_trans _ s1); [unfold quiet, ssame; by split_and!|]. unfold s2. destruct (bit _ _); [by apply quiet_clear|apply quiet_refl].
Qed.

Lemma input_syn_ack rr s seq mss mtu mtu' ti win :
  blk s TCPS_SYN_SENT seq 1 1 0 mss (Some mtu) -> 0 < mss -> 40 < mtu' < 65536 ->
  exists s' mss', tcp_input rr (syn_ack ti (u32 (seq + 1)) win mtu') s = Done 0 s' /\
    blk s' TCPS_ESTABLISHED (u32 (seq + 1)) 0 0 (u32 (ti + 1)) mss' (Some mtu) /\ 0 < mss' <= mss /\ snd_wnd (tp s') = win /\ bit (t_flags (tp s')) TF_ACKNOW = true.
Proof.
  intros B Hm Hmtu. destruct (input_first _ _ _ _ _ _ _ _ B) as [B2 _]. unfold tcp_input. revert B2. cbv zeta. generalize (if bit (t_flags (tp (on (set_t_conn_tmr 60) s))) 8 then
    on (clear_bits 8) (on (set_t_conn_tmr 60) s) else on (set_t_conn_tmr 60) s). intros s2 B2.
  generalize (snd_seq (tp s)) (u32 (snd_seq (tp s) + snd_off (tp s))) (u32 (snd_seq (tp s) + snd_max (tp s))). intros una nx mx. unfold predict. pose proof (b_state _ _ _ _ _ _ _ _ B2) as St.
  rewrite St. change (2 =? 4) with false. cbn [andb bind]. rewrite St. change (2 =? 2) with true. cbn iota.
  destruct (syn_sent_go rr s2 seq mss mtu mtu' ti win B2 Hm Hmtu) as (s3 & mss' & -> & B3 & Pm & W3 & A3). cbn [bind th_data syn_ack]. rewrite take_nil, step6_empty by done.
  rewrite A3, orb_true_r. exists (tcp_output_sched s3), mss'. split; [done|]. destruct (wnd_sched s3) as [Ws Ns]. split; [by apply (blk_quiet s3); [apply quiet_sched|..]|].
  split; [done|]. rewrite Ws, acknow_sched. done.
Qed.

(** The last segment of the handshake. *)
Lemma ack_of_syn rr s seq nxt mss route g :
  blk s TCPS_SYN_RCVD seq 1 1 nxt mss route -> 0 <= seq < 2 ^ 32 -> th_ack g = u32 (seq + 1) ->
  exists s', process_ack rr g TH_ACK nxt 0 seq (u32 (seq + 1)) (u32 (seq + 1)) s = Go (true, s') /\
    blk s' TCPS_ESTABLISHED (u32 (seq + 1)) 0 0 nxt mss route /\ snd_wnd (tp s') = snd_wnd (tp s).
Proof.
  intros [B1 B2 B3 B4 B5 B6 B7 B8 [fl T]] Hs Hk. unfold process_ack. rewrite B1, Hk. change (3 =? 3) with true. cbn iota.
  assert (E1 : int32 (seq - u32 (seq + 1)) = -1) by (rewrite <- (u32_small seq) at 1 by lia; rewrite int32_diff by lia; lia).
  assert (E2 : int32 (u32 (seq + 1) - seq) = 1) by (apply seq_dist; lia).
  unfold SEQ_GT, SEQ_LEQ, SEQ_LT. rewrite E1, E2, !Z.sub_diag, Z.eqb_refl. change (int32 0) with 0. cbn [Z.ltb Z.compare orb Z.leb bind].
  set (s1 := on _ s).
  assert (S1 : blk (on rxmt_stop s1) TCPS_ESTABLISHED seq 0 0 nxt mss route /\ snd_wnd (tp (on rxmt_stop s1)) = snd_wnd (tp s) /\ t_state (tp s1) = 4).
  { split; [|done]. constructor; try done; [..|by exists fl]; cbn [on tp set_snd_max set_snd_off s1 rxmt_stop snd_off snd_max set_t_state set_t_count set_t_rxmt_tmr];
      first [by rewrite B3 | by rewrite B4]. }
  revert S1. generalize (on rxmt_stop s1). generalize s1. clear s1 fl T B1 B2 B3 B4 B5 B6 B7 B8. intros s1 s2 (B & W & S1). rewrite S1. change (negb (acks_in 4)) with false. cbn iota.
  destruct (blk_lens _ _ _ _ _ _ _ _ B) as [_ Ls]. rewrite Ls. change (0 <? 1) with true. cbn iota. destruct B as [B1 B2 B3 B4 B5 B6 B7 B8 [fl T]].
  destruct (snd_trim_two s2 0 fl [] [] [] [] T ltac:(done)) as (q & m & fl' & sl' & -> & T2). cbn [bind]. assert (sl' = []) as -> by (by apply (qo_empty _ _ _ _ _ (proj1 (proj2 T2)))).
  set (s3 := on (set_snd _ _ _) _).
  assert (B3' : blk s3 TCPS_ESTABLISHED (u32 (seq + 1)) 0 0 nxt mss route /\ snd_wnd (tp s3) = snd_wnd (tp s)).
  { split; [|exact W]. constructor; try done; [..|by exists fl']; cbn [on tp set_snd set_snd_max set_snd_off set_snd_seq snd_off snd_max s3]; by rewrite Z.sub_diag. }
  clearbody s3. destruct B3' as [B3' W3]. unfold fin_acked. rewrite (b_state _ _ _ _ _ _ _ _ B3'). change (4 =? 6) with false. change (4 =? 7) with false. change (4 =? 8) with false.
  change (4 =? 10) with false. cbn [bind]. by exists s3.
Qed.

Lemma input_last_ack rr s seq nxt mss route :
  blk s TCPS_SYN_RCVD seq 1 1 nxt mss route -> 0 <= seq < 2 ^ 32 ->
  exists s', tcp_input rr (mk_segment nxt (u32 (seq + 1)) TH_ACK (snd_wnd (tp s)) 0 [] []) s = Done 0 s' /\ blk s' TCPS_ESTABLISHED (u32 (seq + 1)) 0 0 nxt mss route.
Proof.
  intros B Hs. destruct (input_first _ _ _ _ _ _ _ _ B) as [B2 W2]. unfold tcp_input. revert B2 W2. cbv zeta. generalize (if bit (t_flags (tp (on (set_t_conn_tmr 60) s))) 8 then
    on (clear_bits 8) (on (set_t_conn_tmr 60) s) else on (set_t_conn_tmr 60) s). intros s2 B2 W2.
  rewrite (b_seq _ _ _ _ _ _ _ _ B), (b_off _ _ _ _ _ _ _ _ B), (b_max _ _ _ _ _ _ _ _ B), <- W2. clear W2 B. clear s.
  pose proof (b_state _ _ _ _ _ _ _ _ B2) as St. unfold predict. rewrite St. change (3 =? 4) with false. cbn [andb bind]. rewrite St. change (3 =? 2) with false. cbn iota.
  destruct (blk_lens _ _ _ _ _ _ _ _ B2) as [Lr _]. rewrite Lr. change (0 `max` (2920 - 0)) with 2920. unfold tcp_slow, trim_head. cbn [th_flags th_seq th_data th_ack].
  rewrite (b_nxt _ _ _ _ _ _ _ _ B2), Z.sub_diag. change (0 <? int32 0) with false. cbn iota. rewrite St. change (6 <? 3) with false. cbn [andb]. unfold trim_tail.
  rewrite (b_nxt _ _ _ _ _ _ _ _ B2). change (len []) with 0. replace (nxt + 0 - (nxt + 2920)) with (-2920) by lia. change (0 <? int32 (-2920)) with false. cbn [bind].
  change (bit 16 4) with false. change (bit 16 2) with false. change (bit 16 16) with true. cbn [negb bind]. change (len []) with 0.
  destruct (ack_of_syn rr s2 seq nxt mss route (mk_segment nxt (u32 (seq + 1)) 16 (snd_wnd (tp s2)) 0 [] []) B2 Hs eq_refl) as (s3 & -> & B3 & W3). cbn [bind].
  rewrite step6_empty; [|done|by rewrite W3]. cbn [orb]. eexists. split; [done|]. by apply (blk_quiet s3); [apply quiet_sched|apply wnd_sched|].
Qed.

(** The block is what the transfer of data starts from. *)
Lemma blk_start s seq nxt mss mtu route :
  blk s TCPS_ESTABLISHED (u32 seq) 0 0 (u32 nxt) mss (Some mtu) -> 0 < mss < 2 ^ 16 -> mss + 40 <= mtu -> host_start route seq nxt (mk_host s [] [] []).
Proof.
  intros [B1 B2 B3 B4 B5 B6 B7 B8 B9] Hm Hmtu. unfold host_start. cbn [h_wr h_rd h_net h_st]. unfold route_of. rewrite B7, B6. split_and!; try (done || lia).
  intros m E. inversion E; subst. lia.
Qed.

Lemma open_mss_range mtu : 40 < mtu < 65536 -> 0 < open_mss (Some mtu) <= 2920 /\ open_mss (Some mtu) + 40 <= mtu.
Proof. intros H. unfold open_mss. destruct (Z.ltb_spec 2920 (mtu - 40)); lia. Qed.

(** The block that connects. *)
Lemma connect_blk mtu la iss s iss' a fl :
  tcp_connect (Some mtu) la true iss s = inr (iss', a) -> 40 < mtu < 65536 -> pool_ok (mb s) fl -> mb_locked (mb s) = false -> sentfin (tp s) = false -> t_route (tp s) = None ->
  blk a TCPS_SYN_SENT (u32 (Z.shiftl iss' 20)) 0 0 0 (open_mss (Some mtu)) None /\ snd_wnd (tp a) = 1.
Proof.
  intros E Hm P L F R. unfold tcp_connect in E. destruct (whr s); try done. cbn [orb negb] in E. inversion E as [[E1 E2]]. clear E E2. subst iss'. destruct (wnd_sched (move_to InActive (on (fun _ : tcp_pcb =>
    set_t_state 2 (set_t_conn_tmr 10 (set_snd_wnd 1 (set_snd_max 0 (set_snd_off 0 (set_snd_seq (u32 (Z.shiftl (u16 (iss + 1)) 20)) (set_rcv_nxt 0 (set_snd_q
    (mbuf_queue_init (snd_q (set_t_maxseg (u16 (open_mss (Some mtu))) (tp s)))) (set_rcv_q (mbuf_queue_init (rcv_q (set_t_maxseg (u16 (open_mss (Some mtu))) (tp s))))
    (set_t_maxseg (u16 (open_mss (Some mtu))) (tp s))))))))))) s))) as [W N]. split; [|exact W]. eapply blk_quiet; [apply quiet_sched|exact N|].
  destruct (open_mss_range mtu Hm) as [Ho _]. pose proof (queue_init_ok (mb s) fl (rcv_q (tp s)) P L) as Q.
  constructor; try done.
  - cbn [move_to on tp]. by apply u16_small; lia.
  - exists fl. split; [exact Q|]. split; [exact Q|]. rewrite !app_nil_r. apply (Mbuf.po_nodup _ _ P).
Qed.

(** The block of the listener. *)
Lemma passive_blk mtu g iss m fl mtu' :
  40 < mtu < 65536 -> 40 < mtu' < 65536 -> pool_ok m fl -> mb_locked m = false -> bit (th_flags g) TH_SYN = true -> th_optlen g = 4 -> th_opt g = mss_opt mtu' ->
  exists mss, blk (mk_st (set_bits TF_NEEDOUTPUT (passive_pcb (Some mtu) g iss)) m InActive []) TCPS_SYN_RCVD (u32 (Z.shiftl iss 20)) 0 0 (u32 (th_seq g + 1)) mss (Some mtu) /\
    0 < mss < 2 ^ 16 /\ mss + 40 <= mtu.
Proof.
  intros Hm Hm' P L F O1 O2. pose proof (queue_init_ok m fl (mk_queue 0 0 PNull PNull) P L) as Q.
  set (m0 := if 2920 <? u16 (mtu - 40) then 2920 else u16 (mtu - 40)). assert (H0 : 0 < m0 <= 2920 /\ m0 + 40 <= mtu).
  { unfold m0. rewrite u16_small by lia. destruct (Z.ltb_spec 2920 (mtu - 40)); lia. }
  pose proof (parse_mss (th_flags g) mtu' m0 F Hm' ltac:(lia)) as Pm. cbv zeta in Pm. eexists. split; [|split; [|]].
  - constructor; try done. exists fl. split; [exact Q|]. split; [exact Q|]. rewrite !app_nil_r. apply (Mbuf.po_nodup _ _ P).
  - unfold passive_pcb. fold m0. rewrite O1, O2. cbn [set_bits set_t_flags t_maxseg tp]. change (negb (4 =? 0)) with true. cbn iota. change (S (length (mss_opt mtu'))) with 5%nat. lia.
  - unfold passive_pcb. fold m0. rewrite O1, O2. cbn [set_bits set_t_flags t_maxseg tp]. change (negb (4 =? 0)) with true. cbn iota. change (S (length (mss_opt mtu'))) with 5%nat. lia.
Qed.

(** C37: The handshake of a block that connects with a block that listens: the SYN, its
    answer and the acknowledgement leave both sides established, each expecting the
    first byte of the other, in a state the transfer of data starts from; the call of
    the client returns 0. *)
Theorem tcp_handshake rr route mmap ipo mtua mtub issa issb iss' id mux s a0 mb_b fla flb la
    (Ma : 40 < mtua < 65536) (Mb : 40 < mtub < 65536) (Mm : mmap 0%nat = true) (Ipo : forall g, 0 <= ipo 0%nat g)
    (Pa : pool_ok (mb s) fla) (La : mb_locked (mb s) = false) (Pb : pool_ok mb_b flb) (Lb : mb_locked mb_b = false)
    (Fa : sentfin (tp s) = false) (Ra : t_route (tp s) = None)
    (Ca : tcp_connect (Some mtua) la true issa s = inr (iss', a0)) (R : ring_ok mux) (Room : len (entries mux) < l_max mux - 1) :
  exists g1 a1 p mux' issb' g2 b1 a2 g3 a3 b2,
    tcp_output (Some mtua) mmap ipo a0 = Some (0, [g1], a1) /\
    listen_input (Some mux) true true id (Some mtub) g1 issb = LOpen p mux' issb' /\ entries mux' = entries mux ++ [id] /\
    tcp_output (Some mtub) mmap ipo (mk_st p mb_b InActive []) = Some (0, [g2], b1) /\
    tcp_input rr g2 a1 = Done 0 a2 /\ connect_poll a2 = Done 0 a2 /\
    tcp_output (Some mtua) mmap ipo a2 = Some (0, [g3], a3) /\ tcp_input rr g3 b1 = Done 0 b2 /\
    let x := Z.shiftl iss' 20 + 1 in
    let y := Z.shiftl issb' 20 + 1 in
    host_start route x y (mk_host a3 [] [] []) /\ host_start route y x (mk_host b2 [] [] []).
Proof.
  destruct (connect_blk mtua la issa s iss' a0 fla Ca Ma Pa La Fa Ra) as [A0 W0]. destruct (open_mss_range mtua Ma) as [Ho Ho'].
  set (X := u32 (Z.shiftl iss' 20)) in *. assert (HX : 0 <= X < 2 ^ 32) by apply u32_range. clear Ca Pa La Fa Ra. pose proof (b_route _ _ _ _ _ _ _ _ A0) as R0.
  rewrite <- R0 in A0. pose proof (out_empty (Some mtua) mmap ipo a0 mtua 2 X 0 _ A0 HX ltac:(lia) ltac:(unfold route_of; by rewrite R0) ltac:(lia) ltac:(lia) eq_refl eq_refl Mm Ipo) as O1.
  destruct (out_empty_blk a0 2 X 0 _ mtua (rd tcp_outflags 2) A0 HX eq_refl) as [A1 _]. cbv zeta in O1. revert O1 A1. generalize (out_sent (rd tcp_outflags 2) 0 X X X 2920 (on (set_t_route (Some mtua)) a0)).2.
  intros a1 O1 A1. set (g1 := mk_segment _ _ _ _ _ _ _) in O1.
  destruct (passive_open_pushes mux id (Some mtub) g1 issb R ltac:(rewrite <- len_entries by done; lia)) as (mux' & Op & R' & En). set (issb' := u16 (issb + 1)) in *.
  destruct (passive_blk mtub g1 issb' mb_b flb mtua Mb Ma Pb Lb eq_refl eq_refl eq_refl) as (mssb & B0 & Hb & Hb'). set (Y := u32 (Z.shiftl issb' 20)) in *.
  assert (HY : 0 <= Y < 2 ^ 32) by apply u32_range. set (p := set_bits _ _) in B0. set (b0 := mk_st p mb_b InActive []) in *. change (th_seq g1) with X in B0.
  pose proof (out_empty (Some mtub) mmap ipo b0 mtub 3 Y _ _ B0 HY Hb eq_refl ltac:(lia) ltac:(done) eq_refl eq_refl Mm Ipo) as O2. cbv zeta in O2.
  destruct (out_empty_blk b0 3 Y _ _ mtub (rd tcp_outflags 3) B0 HY eq_refl) as [B1 W1]. change (snd_wnd (tp b0)) with 2920 in W1.
  revert O2 B1 W1. generalize (out_sent (rd tcp_outflags 3) 0 Y Y Y 2920 (on (set_t_route (Some mtub)) b0)).2. intros b1 O2 B1 W1. change (if bit _ 2 then 1 else 0) with 1 in A1, B1.
  destruct (input_syn_ack rr a1 X (open_mss (Some mtua)) mtua mtub Y 2920 A1 ltac:(lia) Mb) as (a2 & mssa & I2 & A2 & Hms & W2 & K2).
  assert (X1 : 0 <= u32 (X + 1) < 2 ^ 32) by apply u32_range. assert (Y1 : 0 <= u32 (Y + 1) < 2 ^ 32) by apply u32_range.
  pose proof (b_route _ _ _ _ _ _ _ _ A2) as R2. pose proof A2 as A2'. rewrite <- R2 in A2'.
  pose proof (out_empty (Some mtua) mmap ipo a2 mtua 4 (u32 (X + 1)) _ _ A2' X1 ltac:(lia) ltac:(unfold route_of; by rewrite R2) ltac:(lia) ltac:(lia) eq_refl ltac:(rewrite K2; apply orb_true_r) Mm Ipo) as O3.
  destruct (out_empty_blk a2 4 (u32 (X + 1)) _ _ mtua (rd tcp_outflags 4) A2' X1 eq_refl) as [A3 _]. cbv zeta in O3. revert O3 A3.
  generalize (out_sent (rd tcp_outflags 4) 0 (u32 (X + 1)) (u32 (X + 1)) (u32 (X + 1)) 2920 (on (set_t_route (Some mtua)) a2)).2. intros a3 O3 A3. change (if bit _ 2 then 1 else 0) with 0 in A3.
  destruct (input_last_ack rr b1 Y (u32 (X + 1)) mssb (Some mtub) B1 HY) as (b2 & I3 & B2). rewrite W1 in I3.
  assert (EX : u32 (X + 1) = u32 (Z.shiftl iss' 20 + 1)) by (unfold X; apply u32_u32).
  assert (EY : u32 (Y + 1) = u32 (Z.shiftl issb' 20 + 1)) by (unfold Y; apply u32_u32).
  exists g1, a1, p, mux', issb', (syn_ack Y (u32 (X + 1)) 2920 mtub), b1, a2, (mk_segment (u32 (X + 1)) (u32 (Y + 1)) TH_ACK 2920 0 [] []), a3, b2. split; [exact O1|]. split.
  { unfold listen_input. change (bit (th_flags g1) 16) with false. change (negb (len (th_data g1) =? 0)) with false. change (bit (th_flags g1) 2) with true. change (bit (th_flags g1) 4) with false.
    cbn [negb]. by rewrite Op. }
  split; [exact En|]. split; [exact O2|]. split; [exact I2|]. split.
  { unfold connect_poll. by rewrite (b_state _ _ _ _ _ _ _ _ A2). }
  split; [exact O3|]. split; [exact I3|]. rewrite EX in A3, B2. rewrite EY in A3, B2. split; eapply blk_start; [exact A3|lia|lia|exact B2|lia|lia].
Qed.

Definition demo_closed : tcp_st := mk_st (mk_tcp 0 TCPS_CLOSED 0 0 0 0 None 0 0 0 0 0 0 demo_queue demo_queue) demo_pool InClosed [].
Definition demo_syn : tcp_st := match tcp_connect (Some 1500) true true 7 demo_closed with inr (_, s) => s | inl _ => demo_closed end.

Lemma tcp_handshake_witness : exists g1 a1 p mux' issb' g2 b1 a2 g3 a3 b2,
  tcp_output (Some 1500) yes all_sent demo_syn = Some (0, [g1], a1) /\
  listen_input (Some demo_mux) true true 5 (Some 576) g1 9 = LOpen p mux' issb' /\ entries mux' = [] ++ [5] /\
  tcp_output (Some 576) yes all_sent (mk_st p demo_pool InActive []) = Some (0, [g2], b1) /\
  tcp_input 0 g2 a1 = Done 0 a2 /\ connect_poll a2 = Done 0 a2 /\
  tcp_output (Some 1500) yes all_sent a2 = Some (0, [g3], a3) /\ tcp_input 0 g3 b1 = Done 0 b2 /\
  let x := Z.shiftl 8 20 + 1 in
  let y := Z.shiftl issb' 20 + 1 in
  host_start None x y (mk_host a3 [] [] []) /\ host_start None y x (mk_host b2 [] [] []).
Proof.
  assert (Ca : tcp_connect (Some 1500) true true 7 demo_closed = inr (8, demo_syn)) by (vm_compute; reflexivity).
  assert (Pa : pool_ok (mb demo_closed) (seqZ 0 64)) by exact (proj1 demo_pool_ok).
  assert (La : mb_locked (mb demo_closed) = false) by reflexivity.
  assert (Lb : mb_locked demo_pool = false) by reflexivity. pose proof (proj1 demo_pool_ok) as Pb.
  assert (Fa : sentfin (tp demo_closed) = false) by reflexivity. assert (Ra : t_route (tp demo_closed) = None) by reflexivity.
  revert Ca Pa La Lb Pb Fa Ra. generalize demo_closed demo_syn demo_pool. intros s a0 m Ca Pa La Lb Pb Fa Ra.
  apply (tcp_handshake 0 None yes all_sent 1500 576 7 9 8 5 demo_mux s a0 m (seqZ 0 64) (seqZ 0 64) true ltac:(lia) ltac:(lia) eq_refl ltac:(done) Pa La Pb Lb Fa Ra Ca).
  - constructor; done || cbn; lia.
  - done.
Defined.
