(* ===== verification/JsVm.v ===== *)
(** * The MicroJS virtual machine

    src/sdk/libmicrojs/microjs_vm.c, microjs-rt.h: the stack machine that runs the code
    of the translator.  The memory is one array of 32-bit words, indexed from the data
    area; the stack lies in it above the variables and grows upwards, and the pointers
    [sp] and [xp] are indices.  The code is an array of bytes.  The external functions
    are a parameter.  What C leaves undefined (a division by zero, a shift by a negative
    count or by 32 and more) has no step; signed overflow wraps. *)

From stdpp Require Import base tactics numbers list relations.
From Stdlib Require Import ZArith Lia.
From S2P Require Import Prelude.

(** An array. *)
Definition mem := Z -> Z.
Definition upd (m : mem) (a v : Z) : mem := fun x => if x =? a then v else m x.

Abbreviation MISCOP := 0 (only parsing).
Abbreviation OPC_ABT := 0 (only parsing).
Abbreviation OPC_RET := 1 (only parsing).
Abbreviation OPC_XPT := 2 (only parsing).
Abbreviation OPC_POP := 3 (only parsing).
Abbreviation OPC_INV := 4 (only parsing).
Abbreviation OPC_NEG := 5 (only parsing).
Abbreviation OPC_I8 := 6 (only parsing).
Abbreviation OPC_I16 := 7 (only parsing).
Abbreviation OPC_I32 := 8 (only parsing).
Abbreviation OPC_EXT := 9 (only parsing).
Abbreviation OPC_INC := 10 (only parsing).
Abbreviation OPC_DEC := 11 (only parsing).
Abbreviation OPC_NOT := 12 (only parsing).
Abbreviation OPC_I4 := 16 (only parsing).
Abbreviation INTOP := 32 (only parsing).
Abbreviation OPC_ADD := 32 (only parsing).
Abbreviation OPC_SUB := 33 (only parsing).
Abbreviation OPC_MUL := 34 (only parsing).
Abbreviation OPC_DIV := 35 (only parsing).
Abbreviation OPC_MOD := 36 (only parsing).
Abbreviation OPC_ASR := 37 (only parsing).
Abbreviation OPC_SHL := 38 (only parsing).
Abbreviation OPC_OR := 39 (only parsing).
Abbreviation OPC_AND := 40 (only parsing).
Abbreviation OPC_XOR := 41 (only parsing).
Abbreviation OPC_LT := 42 (only parsing).
Abbreviation OPC_GT := 43 (only parsing).
Abbreviation OPC_EQ := 44 (only parsing).
Abbreviation OPC_NE := 45 (only parsing).
Abbreviation OPC_LE := 46 (only parsing).
Abbreviation OPC_GE := 47 (only parsing).
Abbreviation OPC_ISP := 48 (only parsing).
Abbreviation OPC_LD := 64 (only parsing).
Abbreviation OPC_ST := 80 (only parsing).
Abbreviation OPC_PUSHX := 96 (only parsing).
Abbreviation OPC_JMP := 112 (only parsing).
Abbreviation OPC_JEQ := 128 (only parsing).
Abbreviation ERR_INVALID_INSTRUCTION := 25 (only parsing).

(** ** Numbers *)

(** The sign extension of the low [n] bits. *)
Definition signext (n x : Z) : Z := let y := x mod 2 ^ n in if y <? 2 ^ (n - 1) then y else y - 2 ^ n.

Definition SIGNEXT4BIT (x : Z) : Z := signext 4 x.
Definition SIGNEXT12BIT (x : Z) : Z := signext 12 x.
Definition int16 (x : Z) : Z := signext 16 x.

Definition bool_int (b : bool) : Z := if b then 1 else 0.

(** The operations on two words, [r1] below [r0] on the stack. *)
Definition int_op (opt r1 r0 : Z) : option Z :=
  if opt =? OPC_LT - INTOP then Some (bool_int (r1 <? r0))
  else if opt =? OPC_GT - INTOP then Some (bool_int (r0 <? r1))
  else if opt =? OPC_EQ - INTOP then Some (bool_int (r1 =? r0))
  else if opt =? OPC_NE - INTOP then Some (bool_int (negb (r1 =? r0)))
  else if opt =? OPC_LE - INTOP then Some (bool_int (r1 <=? r0))
  else if opt =? OPC_GE - INTOP then Some (bool_int (r0 <=? r1))
  else if opt =? OPC_ASR - INTOP then (if (0 <=? r0) && (r0 <? 32) then Some (Z.shiftr r1 r0) else None)
  else if opt =? OPC_SHL - INTOP then (if (0 <=? r0) && (r0 <? 32) then Some (int32 (Z.shiftl r1 r0)) else None)
  else if opt =? OPC_ADD - INTOP then Some (int32 (r1 + r0))
  else if opt =? OPC_SUB - INTOP then Some (int32 (r1 - r0))
  else if opt =? OPC_MUL - INTOP then Some (int32 (r1 * r0))
  else if opt =? OPC_DIV - INTOP then (if r0 =? 0 then None else Some (int32 (Z.quot r1 r0)))
  else if opt =? OPC_MOD - INTOP then (if r0 =? 0 then None else Some (Z.rem r1 r0))
  else if opt =? OPC_OR - INTOP then Some (Z.lor r1 r0)
  else if opt =? OPC_AND - INTOP then Some (Z.land r1 r0)
  else Some (Z.lxor r1 r0).

(** ** The machine *)

Section Vm.

(** The environment of the external functions. *)
Context {E : Type}.

Record microjs_vm := mk_vm { v_pc : Z; v_sp : Z; v_xp : Z; v_mem : mem; v_env : E }.

(** An external function gets the index of its arguments and their number; its result
    is the number of values it returns, or an error. *)
Variable microjs_extern : Z -> E -> mem -> Z -> Z -> Z * E * mem.

(** It goes on, returns, or is not defined. *)
Inductive vm_res := VGo (s : microjs_vm) | VRet (ret : Z) (s : microjs_vm) | VUndef.

Definition set_pc (pc : Z) (s : microjs_vm) : microjs_vm := mk_vm pc (v_sp s) (v_xp s) (v_mem s) (v_env s).

Definition STACK_PUSH (x : Z) (s : microjs_vm) : microjs_vm := mk_vm (v_pc s) (v_sp s + 1) (v_xp s) (upd (v_mem s) (v_sp s) x) (v_env s).
Definition STACK_POP (s : microjs_vm) : Z * microjs_vm := (v_mem s (v_sp s - 1), mk_vm (v_pc s) (v_sp s - 1) (v_xp s) (v_mem s) (v_env s)).
Definition STACK_ADJUST (n : Z) (s : microjs_vm) : microjs_vm := mk_vm (v_pc s) (v_sp s - n) (v_xp s) (v_mem s) (v_env s).

(** The exception [r1] goes to the handler of the frame. *)
Definition except (r1 : Z) (s : microjs_vm) : microjs_vm :=
  let r0 := v_mem s (v_xp s - 1) in
  let s := STACK_PUSH r1 (mk_vm (v_pc s) (v_xp s - 1) (v_xp s) (v_mem s) (v_env s)) in
  mk_vm (Z.land r0 0xffff) (v_sp s) (Z.shiftr r0 16) (v_mem s) (v_env s).

Definition unary_op (opt r0 : Z) : Z :=
  if opt =? OPC_INV then Z.lnot r0
  else if opt =? OPC_NEG then int32 (- r0)
  else if opt =? OPC_NOT then bool_int (r0 =? 0)
  else if opt =? OPC_INC then int32 (r0 + 1)
  else int32 (r0 - 1).

Definition misc_op (opt : Z) (code : mem) (s : microjs_vm) : vm_res :=
  let pc := v_pc s in
  if (opt =? OPC_INV) || (opt =? OPC_NEG) || (opt =? OPC_NOT) || (opt =? OPC_INC) || (opt =? OPC_DEC) then
    let '(r0, s) := STACK_POP s in VGo (STACK_PUSH (unary_op opt r0) s)
  else if opt =? OPC_POP then VGo (STACK_ADJUST 1 s)
  else if opt =? OPC_I32 then
    let r0 := int32 (Z.lor (Z.lor (Z.lor (code pc) (Z.shiftl (code (pc + 1)) 8)) (Z.shiftl (code (pc + 2)) 16)) (Z.shiftl (code (pc + 3)) 24)) in
    VGo (STACK_PUSH r0 (set_pc (pc + 4) s))
  else if opt =? OPC_I16 then
    let r0 := int16 (Z.lor (code pc) (Z.shiftl (code (pc + 1)) 8)) in
    VGo (STACK_PUSH r0 (set_pc (pc + 2) s))
  else if opt =? OPC_I8 then VGo (STACK_PUSH (int8 (code pc)) (set_pc (pc + 1) s))
  else if opt =? OPC_EXT then
    let r1 := code (pc + 1) in
    let '(r0, env, m) := microjs_extern (code pc) (v_env s) (v_mem s) (v_sp s - r1) r1 in
    let s := mk_vm (pc + 2) (v_sp s) (v_xp s) m env in
    if r0 <? 0 then VGo (except (- r0) s) else VGo (STACK_ADJUST (r1 - r0) s)
  else if opt =? OPC_XPT then let '(r1, s) := STACK_POP s in VGo (except r1 s)
  else if opt =? OPC_RET then let '(r0, s) := STACK_POP s in VRet r0 s
  else if opt =? OPC_ABT then VRet 0 s
  else VGo (except ERR_INVALID_INSTRUCTION s).

(** One round of the loop of [microjs_exec]. *)
Definition vm_step (code : mem) (s : microjs_vm) : vm_res :=
  let b := code (v_pc s) in
  let opt := Z.land b 15 in
  let opc := Z.shiftr b 4 in
  let s := set_pc (v_pc s + 1) s in
  let arg := Z.shiftl (code (v_pc s)) 4 + opt in
  let s2 := set_pc (v_pc s + 1) s in
  if opc =? Z.shiftr OPC_JMP 4 then VGo (set_pc (v_pc s2 + SIGNEXT12BIT arg) s2)
  else if opc =? Z.shiftr OPC_JEQ 4 then
    let '(r1, s2) := STACK_POP s2 in
    if r1 =? 0 then VGo (set_pc (v_pc s2 + SIGNEXT12BIT arg) s2) else VGo s2
  else if opc =? Z.shiftr OPC_PUSHX 4 then
    let s := STACK_PUSH (int32 (Z.lor arg (Z.shiftl (v_xp s2) 16))) s2 in
    VGo (mk_vm (v_pc s) (v_sp s) (v_sp s) (v_mem s) (v_env s))
  else if opc =? Z.shiftr OPC_ISP 4 then VGo (STACK_ADJUST (SIGNEXT12BIT arg) s2)
  else if opc =? Z.shiftr OPC_LD 4 then VGo (STACK_PUSH (v_mem s2 arg) s2)
  else if opc =? Z.shiftr OPC_ST 4 then
    let '(r0, s) := STACK_POP s2 in
    VGo (mk_vm (v_pc s) (v_sp s) (v_xp s) (upd (v_mem s) arg r0) (v_env s))
  else if opc =? Z.shiftr OPC_I4 4 then VGo (STACK_PUSH (SIGNEXT4BIT opt) s)
  else if opc =? Z.shiftr INTOP 4 then
    let '(r0, s) := STACK_POP s in
    let '(r1, s) := STACK_POP s in
    match int_op opt r1 r0 with Some r2 => VGo (STACK_PUSH r2 s) | None => VUndef end
  else if opc =? Z.shiftr MISCOP 4 then misc_op opt code s
  else VGo (except ERR_INVALID_INSTRUCTION s).

(** The loop; [abort k] is whether the flag is set before round [k]. *)
Fixpoint exec_loop (n : nat) (abort : nat -> bool) (code : mem) (s : microjs_vm) : option (Z * microjs_vm) :=
  if abort O then Some (-1, s)
  else
    match n with
    | O => None
    | S n =>
        match vm_step code s with
        | VUndef => None
        | VRet ret s => Some (ret, s)
        | VGo s => exec_loop n (fun k => abort (S k)) code s
        end
    end.

Definition microjs_exec := exec_loop.

(** Where the stack begins, as an index from the data: at the end of the data when the
    caller gives the data area itself or nothing, otherwise where the caller says. *)
Definition stack_base (data_sz : Z) (stack : option Z) : Z :=
  match stack with None => data_sz / 4 | Some b => if b =? 0 then data_sz / 4 else b end.

Definition microjs_vm_init (data_sz : Z) (stack : option Z) (m : mem) (env : E) : microjs_vm :=
  let b := stack_base data_sz stack in mk_vm 0 b b m env.

(** [base] is where the stack of the machine begins. *)
Definition microjs_vm_reset (base : Z) (s : microjs_vm) : microjs_vm := mk_vm 0 base base (v_mem s) (v_env s).

Fixpoint clr_loop (n : nat) (i : Z) (m : mem) : mem := match n with O => m | S n => clr_loop n (i + 1) (upd m i 0) end.

(** The data of the program is cleared. *)
Definition microjs_vm_clr_data (data_sz : Z) (s : microjs_vm) : microjs_vm := mk_vm (v_pc s) (v_sp s) (v_xp s) (clr_loop (Z.to_nat (data_sz / 4)) 0 (v_mem s)) (v_env s).

End Vm.

Arguments microjs_vm : clear implicits.
Arguments vm_res : clear implicits.
