(* ===== verification/JsGen.v ===== *)
(** * The MicroJS translator

    src/sdk/libmicrojs/microjs_sdt.c: the actions of the syntax-directed translator that
    generate code, in the order in which the grammar (microjs.gr) runs them, with the
    peephole optimisations and the patching of jumps in place.  The objects of the symbol
    table are given by their addresses; its stack of temporaries is a list, with room.
    Strings, external calls and blocks with declarations of their own are not part of
    the language of the correctness theorem. *)

From stdpp Require Import base tactics numbers list relations.
From Stdlib Require Import ZArith Lia.
From S2P Require Import Prelude Buffer JsVm.

Abbreviation SIZEOF_WORD := 4 (only parsing).
Abbreviation ERR_VAR_UNKNOWN := 14 (only parsing).
Abbreviation ERR_SYM_POP_FAIL := 19 (only parsing).
Abbreviation ERR_CODE_MEM_OVERFLOW := 23 (only parsing).
Abbreviation ERR_STACK_UNDERFLOW := 27 (only parsing).

(** A name: its characters. *)
Definition ident := list Z.

(** What the actions leave on the stack of the symbol table: a name, the place of a
    jump, the loop and the jump of a while, the four places of a for, the frame of a
    block with the objects and the data before it, a class, a call. *)
Inductive item := ITmp (name : ident) | IRef (addr : Z) | IWld (loop cond : Z) | IFld (a0 a1 a2 a3 : Z) | IBlk (nobjs pos : Z)
  | ICld (cid : Z) | ICall (xid argcnt argmin argmax retcnt : Z).

(** The objects of the symbol table come with the last one first. *)
Record microjs_sdt := mk_sdt { code : mem; cdsz : Z; pc : Z; spc : Z; stack_pos : Z; stack_sz : Z; syms : list item; objs : list (ident * Z); data_pos : Z; data_sz : Z }.

(** An action fails with an error or goes on. *)
Inductive act_res := AErr (e : Z) | AOk (g : microjs_sdt).

Definition abind (r : act_res) (k : microjs_sdt -> act_res) : act_res := match r with AErr e => AErr e | AOk g => k g end.
Notation "'let!' x := f 'in' k" := (abind f (fun x => k)) (at level 200, x name, right associativity).

(** ** State *)

Definition set_code (c : mem) (g : microjs_sdt) : microjs_sdt := mk_sdt c (cdsz g) (pc g) (spc g) (stack_pos g) (stack_sz g) (syms g) (objs g) (data_pos g) (data_sz g).
Definition set_gpc (v : Z) (g : microjs_sdt) : microjs_sdt := mk_sdt (code g) (cdsz g) v (spc g) (stack_pos g) (stack_sz g) (syms g) (objs g) (data_pos g) (data_sz g).
Definition set_stack (p s : Z) (g : microjs_sdt) : microjs_sdt := mk_sdt (code g) (cdsz g) (pc g) (spc g) p s (syms g) (objs g) (data_pos g) (data_sz g).
Definition set_syms (l : list item) (g : microjs_sdt) : microjs_sdt := mk_sdt (code g) (cdsz g) (pc g) (spc g) (stack_pos g) (stack_sz g) l (objs g) (data_pos g) (data_sz g).

Definition set_objs (l : list (ident * Z)) (p s : Z) (g : microjs_sdt) : microjs_sdt := mk_sdt (code g) (cdsz g) (pc g) (spc g) (stack_pos g) (stack_sz g) (syms g) l p s.

(** [microjs->spc = microjs->pc]. *)
Definition save_pc (g : microjs_sdt) : microjs_sdt := mk_sdt (code g) (cdsz g) (pc g) (pc g) (stack_pos g) (stack_sz g) (syms g) (objs g) (data_pos g) (data_sz g).

(** [microjs->code[microjs->pc++] = b]. *)
Definition emit (b : Z) (g : microjs_sdt) : microjs_sdt := set_gpc (u16 (pc g + 1)) (set_code (upd (code g) (pc g) (u8 b)) g).

Definition sym_push (i : item) (g : microjs_sdt) : act_res := AOk (set_syms (i :: syms g) g).

Definition tgt_stack_push (g : microjs_sdt) : act_res :=
  let p := u16 (stack_pos g + SIZEOF_WORD) in
  AOk (set_stack p (if stack_sz g <? p then p else stack_sz g) g).

Definition tgt_stack_pop (g : microjs_sdt) : act_res :=
  if stack_pos g =? 0 then AErr (- ERR_STACK_UNDERFLOW) else AOk (set_stack (u16 (stack_pos g - SIZEOF_WORD)) (stack_sz g) g).

(** ** Constants *)

Definition encode_int (x : Z) (g : microjs_sdt) : microjs_sdt :=
  let g := save_pc g in
  if 0 <=? x then
    if x <? 32768 then
      if x <? 128 then
        if x <? 8 then emit (OPC_I4 + x) g
        else emit x (emit OPC_I8 g)
      else emit (Z.shiftr x 8) (emit x (emit OPC_I16 g))
    else emit (Z.shiftr x 24) (emit (Z.shiftr x 16) (emit (Z.shiftr x 8) (emit x (emit OPC_I32 g))))
  else
    if -32768 <=? x then
      if -128 <=? x then
        if -8 <=? x then emit (OPC_I4 + Z.land x 15) g
        else emit x (emit OPC_I8 g)
      else emit (Z.shiftr x 8) (emit x (emit OPC_I16 g))
    else emit (Z.shiftr x 24) (emit (Z.shiftr x 16) (emit (Z.shiftr x 8) (emit x (emit OPC_I32 g)))).

(** The constant that the instruction at [a] pushes. *)
Definition is_constant (c : mem) (a : Z) : option Z :=
  let opc := c a in
  if Z.land opc 0xf0 =? OPC_I4 then Some (SIGNEXT4BIT (Z.land opc 15))
  else if opc =? OPC_I8 then Some (int8 (c (a + 1)))
  else if opc =? OPC_I16 then Some (int16 (Z.lor (c (a + 1)) (Z.shiftl (c (a + 2)) 8)))
  else if opc =? OPC_I32 then
    Some (int32 (Z.lor (Z.lor (Z.lor (c (a + 1)) (Z.shiftl (c (a + 2)) 8)) (Z.shiftl (c (a + 3)) 16)) (Z.shiftl (c (a + 4)) 24)))
  else None.

Definition last_const (g : microjs_sdt) : option Z := is_constant (code g) (spc g).
Definition rollback (g : microjs_sdt) : microjs_sdt := set_gpc (spc g) g.

Definition op_push_int (x : Z) (g : microjs_sdt) : act_res := tgt_stack_push (encode_int x g).
Definition op_push_true (g : microjs_sdt) : act_res := tgt_stack_push (emit (OPC_I4 + 1) (save_pc g)).
Definition op_push_false (g : microjs_sdt) : act_res := tgt_stack_push (emit (OPC_I4 + 0) (save_pc g)).

(** ** Operations *)

(** The actions that emit one binary operation. *)
Definition op_binary (opc : Z) (g : microjs_sdt) : act_res := tgt_stack_pop (emit opc (save_pc g)).

Definition op_equ (g : microjs_sdt) : act_res :=
  if bool_decide (last_const g = Some 0) then AOk (emit OPC_NOT (rollback g)) else op_binary OPC_EQ g.

Definition op_add (g : microjs_sdt) : act_res :=
  if bool_decide (last_const g = Some 1) then tgt_stack_pop (emit OPC_INC (rollback g)) else op_binary OPC_ADD g.

Definition op_sub (g : microjs_sdt) : act_res :=
  if bool_decide (last_const g = Some 1) then tgt_stack_pop (emit OPC_DEC (rollback g)) else op_binary OPC_SUB g.

Definition op_neq := op_binary OPC_NE.
Definition op_gt := op_binary OPC_GT.
Definition op_lt := op_binary OPC_LT.
Definition op_gte := op_binary OPC_GE.
Definition op_lte := op_binary OPC_LE.
Definition op_logic_or := op_binary OPC_OR.
Definition op_logic_and := op_binary OPC_AND.
Definition op_or := op_binary OPC_OR.
Definition op_xor := op_binary OPC_XOR.
Definition op_mul := op_binary OPC_MUL.
Definition op_div := op_binary OPC_DIV.
Definition op_mod := op_binary OPC_MOD.
Definition op_and := op_binary OPC_AND.
Definition op_shl := op_binary OPC_SHL.
Definition op_asr := op_binary OPC_ASR.

Definition op_inv (g : microjs_sdt) : act_res := AOk (emit OPC_INV (save_pc g)).
Definition op_not (g : microjs_sdt) : act_res := AOk (emit OPC_NOT (save_pc g)).

Definition op_minus (g : microjs_sdt) : act_res :=
  match last_const g with
  | Some val => AOk (encode_int (int32 (- val)) (rollback g))
  | None => AOk (emit OPC_NEG (save_pc g))
  end.

(** ** Variables *)

(** A block: the end of the data and the number of objects are kept, and restored with
    what is above them dropped (blocks are closed only where they were opened). *)
Definition op_blk_open (g : microjs_sdt) : act_res := sym_push (IBlk (Z.of_nat (length (objs g))) (data_pos g)) g.

Fixpoint sym_sf_pop (l : list item) : option (Z * Z * list item) :=
  match l with [] => None | IBlk n p :: l => Some (n, p, l) | _ :: l => sym_sf_pop l end.

(** The oldest [n] objects. *)
Definition keep_objs (n : Z) (l : list (ident * Z)) : list (ident * Z) := drop (length l - Z.to_nat n) l.

Definition op_blk_close (g : microjs_sdt) : act_res :=
  match sym_sf_pop (syms g) with
  | None => AErr (- ERR_SYM_POP_FAIL)
  | Some (n, p, l) => AOk (set_objs (keep_objs n (objs g)) p (data_sz g) (set_syms l g))
  end.

(** The address of the last object with the name. *)
Fixpoint sym_obj_lookup (l : list (ident * Z)) (name : ident) : option Z :=
  match l with [] => None | (nm, addr) :: l => if bool_decide (nm = name) then Some addr else sym_obj_lookup l name end.

(** The objects of the block. *)
Definition scope_objs (g : microjs_sdt) : list (ident * Z) :=
  match sym_sf_pop (syms g) with None => objs g | Some (n, _, _) => take (length (objs g) - Z.to_nat n) (objs g) end.

(** A word of the data. *)
Definition data_alloc32 (g : microjs_sdt) : Z * microjs_sdt :=
  let addr := Z.land (data_pos g + SIZEOF_WORD - 1) (Z.lnot (SIZEOF_WORD - 1)) in
  let p := u16 (addr + SIZEOF_WORD) in
  (addr, set_objs (objs g) p (if data_sz g <? p then p else data_sz g) g).

Definition op_var_decl (name : ident) (g : microjs_sdt) : act_res :=
  match sym_obj_lookup (scope_objs g) name with
  | Some _ => AOk g
  | None =>
      let '(addr, g) := data_alloc32 g in
      AOk (set_objs ((name, u16 addr) :: objs g) (data_pos g) (data_sz g) g)
  end.

Definition op_pop_tmp (g : microjs_sdt) : act_res :=
  match syms g with ITmp name :: l => AOk (set_syms l g) | _ => AErr (- ERR_SYM_POP_FAIL) end.

Section Symbols.

(** The lookup of a name in the symbol table. *)
Variable lookup : microjs_sdt -> ident -> option Z.

Definition op_push_tmp (name : ident) (g : microjs_sdt) : act_res := sym_push (ITmp name) g.

(** The instruction with the number of the word. *)
Definition emit_word (opc addr : Z) (g : microjs_sdt) : microjs_sdt :=
  let addr := Z.land (Z.shiftr addr 2) 0x0fff in
  emit (Z.shiftr addr 4) (emit (opc + Z.land addr 15) (save_pc g)).

Definition var_eval (g : microjs_sdt) : act_res :=
  match syms g with
  | ITmp name :: l =>
      match lookup g name with
      | None => AErr (- ERR_VAR_UNKNOWN)
      | Some addr => tgt_stack_push (emit_word OPC_LD addr (set_syms l g))
      end
  | _ => AErr (- ERR_SYM_POP_FAIL)
  end.

Definition var_assign (g : microjs_sdt) : act_res :=
  match syms g with
  | ITmp name :: l =>
      match lookup g name with
      | None => AErr (- ERR_VAR_UNKNOWN)
      | Some addr => tgt_stack_pop (emit_word OPC_ST addr (set_syms l g))
      end
  | _ => AErr (- ERR_SYM_POP_FAIL)
  end.

(** ** Jumps *)

(** A jump whose distance is not known yet: the opcode and two places. *)
Definition reserve (opc : Z) (g : microjs_sdt) : microjs_sdt := set_gpc (u16 (pc g + 2)) (set_code (upd (code g) (pc g) opc) g).

(** The distance is put into the jump at [a]. *)
Definition patch (a offs : Z) (g : microjs_sdt) : microjs_sdt :=
  set_code (upd (upd (code g) a (u8 (code g a + Z.land offs 15))) (a + 1) (u8 (Z.shiftr offs 4))) g.

Definition emit_jmp (offs : Z) (g : microjs_sdt) : microjs_sdt := emit (Z.shiftr offs 4) (emit (OPC_JMP + Z.land offs 15) g).

Definition op_patch_ref (g : microjs_sdt) : act_res :=
  match syms g with
  | IRef a :: l => AOk (patch a (pc g - 2 - a) (set_syms l g))
  | _ => AErr (- ERR_SYM_POP_FAIL)
  end.

Definition op_if_cond (g : microjs_sdt) : act_res :=
  let a := pc g in
  sym_push (IRef a) (reserve OPC_JEQ (save_pc g)).

Definition op_if_else (g : microjs_sdt) : act_res :=
  match syms g with
  | IRef a :: l =>
      let g := save_pc (set_syms l g) in
      let g := patch a (pc g - a) g in
      let a := pc g in
      sym_push (IRef a) (reserve OPC_JMP g)
  | _ => AErr (- ERR_SYM_POP_FAIL)
  end.

Definition op_while_begin (g : microjs_sdt) : act_res := sym_push (IWld (pc g) 0) g.

Definition op_while_cond (g : microjs_sdt) : act_res :=
  match syms g with
  | IWld loop _ :: l =>
      let g := save_pc (set_syms l g) in
      let cond := pc g in
      sym_push (IWld loop cond) (reserve OPC_JEQ g)
  | _ => AErr (- ERR_SYM_POP_FAIL)
  end.

Definition op_while_end (g : microjs_sdt) : act_res :=
  match syms g with
  | IWld loop cond :: l =>
      let g := set_syms l g in
      let g := save_pc (patch cond (pc g - cond) g) in
      AOk (emit_jmp (loop - (pc g + 2)) g)
  | _ => AErr (- ERR_SYM_POP_FAIL)
  end.

Definition op_for_init (g : microjs_sdt) : act_res := sym_push (IFld (pc g) 0 0 0) g.

Definition op_for_cond (g : microjs_sdt) : act_res :=
  match syms g with
  | IFld a0 _ _ _ :: l =>
      let g := set_syms l g in
      let a1 := pc g in
      let g := save_pc (reserve OPC_JEQ g) in
      let a2 := pc g in
      let g := reserve OPC_JMP g in
      sym_push (IFld a0 a1 a2 (pc g)) g
  | _ => AErr (- ERR_SYM_POP_FAIL)
  end.

Definition op_for_after (g : microjs_sdt) : act_res :=
  match syms g with
  | IFld a0 a1 a2 a3 :: l =>
      let g := set_syms l g in
      let g := save_pc (patch a2 (pc g - a2) g) in
      sym_push (IFld a0 a1 a2 a3) (emit_jmp (a0 - (pc g + 2)) g)
  | _ => AErr (- ERR_SYM_POP_FAIL)
  end.

Definition op_for_end (g : microjs_sdt) : act_res :=
  match syms g with
  | IFld a0 a1 a2 a3 :: l =>
      let g := save_pc (set_syms l g) in
      let g := patch a1 (pc g - a1) g in
      AOk (emit_jmp (a3 - (pc g + 2)) g)
  | _ => AErr (- ERR_SYM_POP_FAIL)
  end.

(** ** Exceptions *)

Definition op_try_begin (g : microjs_sdt) : act_res :=
  let g := save_pc g in
  let a := pc g in
  let! g := tgt_stack_push (reserve OPC_PUSHX g) in
  sym_push (IRef a) g.

(** The address of the handler is put into the PUSHX at [a]. *)
Definition patch_handler (a : Z) (g : microjs_sdt) : microjs_sdt :=
  set_code (upd (upd (code g) a (u8 (code g a + Z.land (pc g) 15))) (a + 1) (u8 (Z.shiftr (pc g) 4))) g.

Definition op_try_end (g : microjs_sdt) : act_res :=
  match syms g with
  | IRef a :: l =>
      let g := emit_jmp 1 (save_pc (set_syms l g)) in
      tgt_stack_pop (emit OPC_XPT (patch_handler a g))
  | _ => AErr (- ERR_SYM_POP_FAIL)
  end.

Definition op_catch (g : microjs_sdt) : act_res :=
  match syms g with
  | IRef a :: l =>
      let g := save_pc (set_syms l g) in
      let a2 := pc g in
      let! g := sym_push (IRef a2) (reserve OPC_JMP g) in
      AOk (patch_handler a g)
  | _ => AErr (- ERR_SYM_POP_FAIL)
  end.

Definition op_throw (g : microjs_sdt) : act_res := AOk (emit OPC_XPT (save_pc g)).

(** ** The program *)

(** The symbol table is empty. *)
Definition microjs_sdt_begin (c : mem) (code_size : Z) : act_res :=
  let g := mk_sdt c code_size 0 0 0 0 [IRef 0] [] 0 0 in
  tgt_stack_push (reserve OPC_PUSHX g).

Definition microjs_sdt_end (g : microjs_sdt) : act_res :=
  if cdsz g <? pc g + 3 then AErr (- ERR_CODE_MEM_OVERFLOW)
  else
    let! g := tgt_stack_pop g in
    let g := emit OPC_ABT (emit OPC_POP g) in
    match last (syms g) with
    | Some (IRef a) => AOk (emit OPC_RET (patch_handler a g))
    | _ => AErr (- ERR_SYM_POP_FAIL)
    end.

(** ** The language *)

Inductive uop := UMinus | UInv | UNot.
Inductive bop := BOr | BLogicOr | BXor | BAnd | BLogicAnd | BLt | BGt | BEqu | BNeq | BGte | BLte | BShl | BAsr | BAdd | BSub | BDiv | BMod | BMul.

Inductive exp := EInt (n : Z) | ETrue | EFalse | EVar (name : ident) | EUn (o : uop) (e : exp) | EBin (o : bop) (e1 e2 : exp).

Inductive stmt :=
  | SAssign (name : ident) (e : exp)
  | SIf (e : exp) (s : list stmt)
  | SIfElse (e : exp) (s1 s2 : list stmt)
  | SWhile (e : exp) (s : list stmt)
  | SFor (i : list (ident * exp)) (e : exp) (a : list (ident * exp)) (s : list stmt).

(** An action of the parser, with the check of the code buffer after it. *)
Definition action (op : microjs_sdt -> act_res) (g : microjs_sdt) : act_res :=
  let! g := op g in
  if cdsz g <=? pc g then AErr (- ERR_CODE_MEM_OVERFLOW) else AOk g.

Definition un_action (o : uop) : microjs_sdt -> act_res := match o with UMinus => op_minus | UInv => op_inv | UNot => op_not end.

Definition bin_action (o : bop) : microjs_sdt -> act_res :=
  match o with
  | BOr => op_or | BLogicOr => op_logic_or | BXor => op_xor | BAnd => op_and | BLogicAnd => op_logic_and
  | BLt => op_lt | BGt => op_gt | BEqu => op_equ | BNeq => op_neq | BGte => op_gte | BLte => op_lte
  | BShl => op_shl | BAsr => op_asr | BAdd => op_add | BSub => op_sub | BDiv => op_div | BMod => op_mod | BMul => op_mul
  end.

Fixpoint gen_exp (e : exp) (g : microjs_sdt) : act_res :=
  match e with
  | EInt n => action (op_push_int n) g
  | ETrue => action op_push_true g
  | EFalse => action op_push_false g
  | EVar name => let! g := action (op_push_tmp name) g in action var_eval g
  | EUn o e => let! g := gen_exp e g in action (un_action o) g
  | EBin o e1 e2 => let! g := gen_exp e1 g in let! g := gen_exp e2 g in action (bin_action o) g
  end.

Definition gen_assign (x : ident * exp) (g : microjs_sdt) : act_res :=
  let! g := action (op_push_tmp x.1) g in
  let! g := gen_exp x.2 g in
  action var_assign g.

Fixpoint gen_assigns (l : list (ident * exp)) (g : microjs_sdt) : act_res :=
  match l with [] => AOk g | x :: l => let! g := gen_assign x g in gen_assigns l g end.

(** A compound statement. *)
Definition gen_block (gen : microjs_sdt -> act_res) (g : microjs_sdt) : act_res :=
  let! g := action op_blk_open g in
  let! g := gen g in
  action op_blk_close g.

Fixpoint gen_stmt (s : stmt) (g : microjs_sdt) : act_res :=
  let gen_stmts := fix gen_stmts (l : list stmt) (g : microjs_sdt) : act_res :=
    match l with [] => AOk g | s :: l => let! g := gen_stmt s g in gen_stmts l g end in
  match s with
  | SAssign name e => gen_assign (name, e) g
  | SIf e s =>
      let! g := gen_exp e g in
      let! g := action op_if_cond g in
      let! g := gen_block (gen_stmts s) g in
      action op_patch_ref g
  | SIfElse e s1 s2 =>
      let! g := gen_exp e g in
      let! g := action op_if_cond g in
      let! g := gen_block (gen_stmts s1) g in
      let! g := action op_if_else g in
      let! g := gen_block (gen_stmts s2) g in
      action op_patch_ref g
  | SWhile e s =>
      let! g := action op_while_begin g in
      let! g := gen_exp e g in
      let! g := action op_while_cond g in
      let! g := gen_block (gen_stmts s) g in
      action op_while_end g
  | SFor i e a s =>
      let! g := gen_assigns i g in
      let! g := action op_for_init g in
      let! g := gen_exp e g in
      let! g := action op_for_cond g in
      let! g := gen_assigns a g in
      let! g := action op_for_after g in
      let! g := gen_block (gen_stmts s) g in
      action op_for_end g
  end.

Fixpoint gen_stmts (l : list stmt) (g : microjs_sdt) : act_res :=
  match l with [] => AOk g | s :: l => let! g := gen_stmt s g in gen_stmts l g end.

(** [var x, y;] at the start of a program. *)
Fixpoint gen_decls (l : list ident) (g : microjs_sdt) : act_res :=
  match l with
  | [] => AOk g
  | name :: l =>
      let! g := action (op_var_decl name) g in
      let! g := action (op_push_tmp name) g in
      let! g := action op_pop_tmp g in
      gen_decls l g
  end.

Definition gen_program (names : list ident) (p : list stmt) (c : mem) (code_size : Z) : act_res :=
  let! g := microjs_sdt_begin c code_size in
  let! g := gen_decls names g in
  let! g := gen_stmts p g in
  microjs_sdt_end g.

End Symbols.

(** The translator looks into its own table; the lookup by a fixed function serves the
    proofs. *)
Definition table (g : microjs_sdt) : ident -> option Z := sym_obj_lookup (objs g).
Definition op_var_eval : microjs_sdt -> act_res := var_eval table.
Definition op_var_assign : microjs_sdt -> act_res := var_assign table.

(** ** Reference code *)

(** The bytes of a constant. *)
Definition enc (x : Z) : list Z :=
  if (-8 <=? x) && (x <? 8) then [OPC_I4 + Z.land x 15]
  else if (-128 <=? x) && (x <? 128) then [OPC_I8; u8 x]
  else if (-32768 <=? x) && (x <? 32768) then [OPC_I16; u8 x; u8 (Z.shiftr x 8)]
  else [OPC_I32; u8 x; u8 (Z.shiftr x 8); u8 (Z.shiftr x 16); u8 (Z.shiftr x 24)].

(** The value of an expression whose code is one constant. *)
Fixpoint cval (e : exp) : option Z :=
  match e with
  | EInt n => Some n
  | ETrue => Some 1
  | EFalse => Some 0
  | EUn UMinus e => (fun v => int32 (- v)) <$> cval e
  | _ => None
  end.

Definition bin_opc (o : bop) : Z :=
  match o with
  | BOr | BLogicOr => OPC_OR | BXor => OPC_XOR | BAnd | BLogicAnd => OPC_AND
  | BLt => OPC_LT | BGt => OPC_GT | BEqu => OPC_EQ | BNeq => OPC_NE | BGte => OPC_GE | BLte => OPC_LE
  | BShl => OPC_SHL | BAsr => OPC_ASR | BAdd => OPC_ADD | BSub => OPC_SUB | BDiv => OPC_DIV | BMod => OPC_MOD | BMul => OPC_MUL
  end.

(** The instruction that takes the place of a constant and the operation on it. *)
Definition peephole (o : bop) (c : option Z) : option Z :=
  match o, c with
  | BEqu, Some 0 => Some OPC_NOT
  | BAdd, Some 1 => Some OPC_INC
  | BSub, Some 1 => Some OPC_DEC
  | _, _ => None
  end.

Definition all {A} (P : A -> Prop) : list A -> Prop := fix all l := match l with [] => True | x :: l => P x /\ all l end.

Section Reference.

Variable obj_addr : ident -> option Z.

Definition word (name : ident) : Z := Z.land (Z.shiftr (default 0 (obj_addr name)) 2) 0x0fff.
Definition word_code (opc : Z) (name : ident) : list Z := [opc + Z.land (word name) 15; Z.shiftr (word name) 4].

Fixpoint comp_exp (e : exp) : list Z :=
  match e with
  | EInt n => enc n
  | ETrue => [17]
  | EFalse => [16]
  | EVar name => word_code OPC_LD name
  | EUn UMinus e => match cval e with Some v => enc (int32 (- v)) | None => comp_exp e ++ [OPC_NEG] end
  | EUn UInv e => comp_exp e ++ [OPC_INV]
  | EUn UNot e => comp_exp e ++ [OPC_NOT]
  | EBin o e1 e2 =>
      match peephole o (cval e2) with
      | Some i => comp_exp e1 ++ [i]
      | None => comp_exp e1 ++ comp_exp e2 ++ [bin_opc o]
      end
  end.

Definition jump (opc offs : Z) : list Z := [opc + Z.land offs 15; u8 (Z.shiftr offs 4)].

Definition comp_assign (x : ident * exp) : list Z := comp_exp x.2 ++ word_code OPC_ST x.1.
Definition comp_assigns (l : list (ident * exp)) : list Z := concat (comp_assign <$> l).

Fixpoint comp_stmt (s : stmt) : list Z :=
  match s with
  | SAssign name e => comp_assign (name, e)
  | SIf e s =>
      let b := concat (comp_stmt <$> s) in
      comp_exp e ++ jump OPC_JEQ (len b) ++ b
  | SIfElse e s1 s2 =>
      let b1 := concat (comp_stmt <$> s1) in
      let b2 := concat (comp_stmt <$> s2) in
      comp_exp e ++ jump OPC_JEQ (len b1 + 2) ++ b1 ++ jump OPC_JMP (len b2) ++ b2
  | SWhile e s =>
      let b := concat (comp_stmt <$> s) in
      comp_exp e ++ jump OPC_JEQ (len b + 2) ++ b ++ jump OPC_JMP (- (len (comp_exp e) + len b + 4))
  | SFor i e a s =>
      let b := concat (comp_stmt <$> s) in
      let ca := comp_assigns a in
      comp_assigns i ++ comp_exp e ++ jump OPC_JEQ (len ca + len b + 6) ++ jump OPC_JMP (len ca + 2) ++
        ca ++ jump OPC_JMP (- (len (comp_exp e) + len ca + 6)) ++ b ++ jump OPC_JMP (- (len ca + len b + 4))
  end.

Definition comp_stmts (l : list stmt) : list Z := concat (comp_stmt <$> l).

(** ** What the translator accepts *)

(** The words of the variables lie below [stk]. *)
Variable stk : Z.

Definition name_ok (name : ident) : Prop := exists a, obj_addr name = Some a /\ 0 <= a /\ word name < stk.

Fixpoint exp_ok (e : exp) : Prop :=
  match e with
  | EInt n => -2147483648 <= n < 2147483648
  | ETrue | EFalse => True
  | EVar name => name_ok name
  | EUn _ e => exp_ok e
  | EBin _ e1 e2 => exp_ok e1 /\ exp_ok e2
  end.

Definition assign_ok (x : ident * exp) : Prop := name_ok x.1 /\ exp_ok x.2.

Fixpoint stmt_ok (s : stmt) : Prop :=
  match s with
  | SAssign name e => assign_ok (name, e)
  | SIf e s | SWhile e s => exp_ok e /\ all stmt_ok s
  | SIfElse e s1 s2 => exp_ok e /\ all stmt_ok s1 /\ all stmt_ok s2
  | SFor i e a s => all assign_ok i /\ exp_ok e /\ all assign_ok a /\ all stmt_ok s
  end.

End Reference.

(** The number of actions. *)
Fixpoint weight (e : exp) : Z :=
  match e with
  | EInt _ | ETrue | EFalse => 1
  | EVar _ => 2
  | EUn _ e => weight e + 1
  | EBin _ e1 e2 => weight e1 + weight e2 + 1
  end.

Definition weight_a (x : ident * exp) : Z := weight x.2 + 2.
Definition sum (l : list Z) : Z := foldr Z.add 0 l.

Fixpoint weight_s (s : stmt) : Z :=
  match s with
  | SAssign name e => weight_a (name, e)
  | SIf e s => weight e + 2 + sum (weight_s <$> s)
  | SIfElse e s1 s2 => weight e + 3 + sum (weight_s <$> s1) + sum (weight_s <$> s2)
  | SWhile e s => weight e + 3 + sum (weight_s <$> s)
  | SFor i e a s => sum (weight_a <$> i) + weight e + sum (weight_a <$> a) + 4 + sum (weight_s <$> s)
  end.

(** ** Code in memory *)

Definition code_at (c : mem) (a : Z) (l : list Z) : Prop := forall i b, l !! i = Some b -> c (a + Z.of_nat i) = b.

Lemma code_at_nil c a : code_at c a [].
Proof. by intros i b. Qed.

Lemma code_at_cons c a b l : code_at c a (b :: l) <-> c a = b /\ code_at c (a + 1) l.
Proof.
  split.
  - intros H. split; [specialize (H O b eq_refl); by rewrite Z.add_0_r in H|]. intros i x Hx. specialize (H (S i) x Hx). rewrite <- H. f_equal. lia.
  - intros [E H] i x Hx. destruct i as [|i]; cbn in Hx; [inversion Hx; subst; by rewrite Z.add_0_r|]. rewrite <- (H i x Hx). f_equal. lia.
Qed.

Lemma code_at_app c a l1 l2 : code_at c a (l1 ++ l2) <-> code_at c a l1 /\ code_at c (a + len l1) l2.
Proof.
  revert a. induction l1 as [|b l1 IH]; intros a; cbn [app].
  - unfold len. cbn [length]. rewrite Z.add_0_r. split; [intros H; split; [apply code_at_nil|done]|by intros [_ H]].
  - rewrite !code_at_cons, IH. unfold len. cbn [length]. replace (a + 1 + Z.of_nat (length l1)) with (a + Z.of_nat (S (length l1))) by lia. tauto.
Qed.

Lemma code_at_ext c c' a l : (forall x, a <= x < a + len l -> c' x = c x) -> code_at c a l -> code_at c' a l.
Proof. intros E H i b Hb. rewrite <- (H i b Hb). apply E. apply lookup_lt_Some in Hb. unfold len. lia. Qed.

Lemma upd_eq m a v : upd m a v a = v.
Proof. unfold upd. by rewrite Z.eqb_refl. Qed.

Lemma upd_ne m a v x : x <> a -> upd m a v x = m x.
Proof. intros N. unfold upd. destruct (Z.eqb_spec x a); done. Qed.

(** ** Constants *)

Lemma bytes2 x : Z.lor (u8 x) (Z.shiftl (u8 (Z.shiftr x 8)) 8) = x mod 65536.
Proof.
  unfold u8. pose proof (Z.mod_pos_bound x 256 ltac:(lia)). rewrite lor_shift by (change (2 ^ 8) with 256; lia). rewrite Z.shiftr_div_pow2 by lia. change (2 ^ 8) with 256.
  change 65536 with (256 * 256). rewrite Z.rem_mul_r by lia. lia.
Qed.

Lemma bytes4 x : Z.lor (Z.lor (Z.lor (u8 x) (Z.shiftl (u8 (Z.shiftr x 8)) 8)) (Z.shiftl (u8 (Z.shiftr x 16)) 16)) (Z.shiftl (u8 (Z.shiftr x 24)) 24) = u32 x.
Proof.
  rewrite bytes2. pose proof (Z.mod_pos_bound x 65536 ltac:(lia)). rewrite (lor_shift (x mod 65536)) by (change (2 ^ 16) with 65536; lia). unfold u8. rewrite !Z.shiftr_div_pow2 by lia.
  change (2 ^ 16) with 65536. change (2 ^ 24) with 16777216. pose proof (Z.mod_pos_bound (x / 65536) 256 ltac:(lia)). rewrite lor_shift by (change (2 ^ 24) with 16777216; lia).
  change (2 ^ 24) with 16777216. unfold u32. change 4294967296 with (65536 * (256 * 256)). rewrite !Z.rem_mul_r by lia. rewrite Z.div_div by lia. change (65536 * 256) with 16777216. lia.
Qed.

Lemma int16_small x : -32768 <= x < 32768 -> int16 (x mod 65536) = x.
Proof.
  intros H. unfold int16, signext. change (2 ^ 16) with 65536. change (2 ^ (16 - 1)) with 32768. rewrite Z.mod_mod by lia. destruct (Z.lt_ge_cases x 0).
  - assert (x mod 65536 = x + 65536) as -> by (symmetry; apply (Z.mod_unique_pos _ _ (-1)); lia). destruct (Z.ltb_spec (x + 65536) 32768); lia.
  - rewrite Z.mod_small by lia. destruct (Z.ltb_spec x 32768); lia.
Qed.

(** The 16 values of four bits, by computation. *)
Lemma small_const (P : Z -> bool) x : -8 <= x < 8 -> forallb P (seqZ (-8) 16) = true -> P x = true.
Proof. intros H F. rewrite forallb_forall in F. apply F, list_elem_of_In, elem_of_seqZ. lia. Qed.

Lemma small_decode x : -8 <= x < 8 -> 0 <= Z.land x 15 < 16 /\ u8 (16 + Z.land x 15) = 16 + Z.land x 15 /\ Z.land (16 + Z.land x 15) 0xf0 = 16 /\ Z.land (16 + Z.land x 15) 15 = Z.land x 15 /\
  Z.shiftr (16 + Z.land x 15) 4 = 1 /\ SIGNEXT4BIT (Z.land x 15) = x.
Proof.
  intros H. pose proof (small_const (fun x => (0 <=? Z.land x 15) && (Z.land x 15 <? 16) && (u8 (16 + Z.land x 15) =? 16 + Z.land x 15) && (Z.land (16 + Z.land x 15) 0xf0 =? 16) &&
    (Z.land (16 + Z.land x 15) 15 =? Z.land x 15) && (Z.shiftr (16 + Z.land x 15) 4 =? 1) && (SIGNEXT4BIT (Z.land x 15) =? x)) x H ltac:(vm_compute; reflexivity)) as F.
  cbv beta in F. rewrite !andb_true_iff, !Z.eqb_eq, Z.leb_le, Z.ltb_lt in F. tauto.
Qed.

Lemma land_low x : 0 <= x < 16 -> Z.land x 15 = x.
Proof. intros H. change 15 with (Z.ones 4). rewrite Z.land_ones by lia. apply Z.mod_small. change (2 ^ 4) with 16. lia. Qed.

(** The four forms of a constant. *)
Lemma enc_cases x :
  (-8 <= x < 8 /\ enc x = [16 + Z.land x 15]) \/
  (~ (-8 <= x < 8) /\ -128 <= x < 128 /\ enc x = [6; u8 x]) \/
  (~ (-128 <= x < 128) /\ -32768 <= x < 32768 /\ enc x = [7; u8 x; u8 (Z.shiftr x 8)]) \/
  (~ (-32768 <= x < 32768) /\ enc x = [8; u8 x; u8 (Z.shiftr x 8); u8 (Z.shiftr x 16); u8 (Z.shiftr x 24)]).
Proof.
  unfold enc. destruct (Z.leb_spec (-8) x), (Z.ltb_spec x 8), (Z.leb_spec (-128) x), (Z.ltb_spec x 128), (Z.leb_spec (-32768) x), (Z.ltb_spec x 32768); cbn [andb]; try lia;
    first [left; split; [lia|reflexivity] | right; left; split; [lia|split; [lia|reflexivity]] | right; right; left; split; [lia|split; [lia|reflexivity]] | right; right; right; split; [lia|reflexivity]].
Qed.

Lemma enc_len x : 1 <= len (enc x) <= 5.
Proof. destruct (enc_cases x) as [(_ & ->)|[(_ & _ & ->)|[(_ & _ & ->)|(_ & ->)]]]; unfold len; cbn [length]; lia. Qed.

(** The instruction of a constant is read back. *)
Lemma is_constant_enc c a x : -2147483648 <= x < 2147483648 -> code_at c a (enc x) -> is_constant c a = Some x.
Proof.
  intros H. unfold is_constant. destruct (enc_cases x) as [(X & ->)|[(_ & X & ->)|[(_ & X & ->)|(X & ->)]]]; rewrite !code_at_cons, <- ?Z.add_assoc.
  - intros [-> _]. destruct (small_decode x X) as (_ & _ & -> & -> & _ & ->). done.
  - intros (-> & -> & _). change (Z.land 6 240 =? 16) with false. change (6 =? 6) with true. cbn iota. f_equal. rewrite int8_u8. by apply int8_small.
  - intros (-> & -> & E & _). change (1 + 1) with 2 in E. rewrite E. change (Z.land 7 240 =? 16) with false. change (7 =? 6) with false. change (7 =? 7) with true. cbn iota. f_equal. rewrite bytes2. by apply int16_small.
  - intros (-> & -> & E1 & E2 & E3 & _). change (1 + 1) with 2 in *. change (1 + (1 + (1 + 1))) with 4 in *. change (1 + 2) with 3 in *. change (2 + 1) with 3 in *. change (1 + 3) with 4 in *.
    rewrite E1, E2, E3. change (Z.land 8 240 =? 16) with false. change (8 =? 6) with false. change (8 =? 7) with false. change (8 =? 8) with true. cbn iota. f_equal. rewrite bytes4, int32_u32. apply int32_small. lia.
Qed.

(** ** Growth of the code *)

Record made (g g' : microjs_sdt) (l : list Z) : Prop := {
  md_pc : pc g' = pc g + len l;
  md_sz : cdsz g' = cdsz g;
  md_old : forall a, a < pc g -> code g' a = code g a;
  md_new : code_at (code g') (pc g) l
}.

Lemma len_cons x (l : list Z) : len (x :: l) = 1 + len l.
Proof. unfold len. cbn [length]. lia. Qed.

Lemma len_pos (l : list Z) : 0 <= len l.
Proof. unfold len. lia. Qed.

Lemma made_refl g : made g g [].
Proof. constructor; [unfold len; cbn; lia|done|done|apply code_at_nil]. Qed.

Lemma made_trans g1 g2 g3 l1 l2 : made g1 g2 l1 -> made g2 g3 l2 -> made g1 g3 (l1 ++ l2).
Proof.
  intros [P1 S1 O1 N1] [P2 S2 O2 N2]. pose proof (len_pos l1). constructor; [rewrite len_app; lia|congruence|intros a Ha; rewrite O2, O1 by lia; done|].
  apply code_at_app. rewrite P1 in N2. split; [|done]. eapply code_at_ext; [|exact N1]. intros x Hx. apply O2. lia.
Qed.

(** Fields that the code does not depend on. *)
Lemma made_same g g' g2 l : made g g' l -> code g2 = code g' -> pc g2 = pc g' -> cdsz g2 = cdsz g' -> made g g2 l.
Proof. intros [P S O N] Ec Ep Es. constructor; rewrite ?Ec, ?Ep, ?Es; done. Qed.

Lemma made_from g g0 g' l : made g g' l -> code g0 = code g -> pc g0 = pc g -> cdsz g0 = cdsz g -> made g0 g' l.
Proof. intros [P S O N] Ec Ep Es. constructor; rewrite ?Ec, ?Ep, ?Es; done. Qed.

Lemma emit_made b g : 0 <= pc g -> pc g + 1 < 65536 -> made g (emit b g) [u8 b].
Proof.
  intros H0 H. constructor; cbn [emit set_gpc set_code pc code cdsz].
  - rewrite u16_small by lia. done.
  - done.
  - intros a Ha. apply upd_ne. lia.
  - apply code_at_cons. split; [apply upd_eq|apply code_at_nil].
Qed.

Definition emits (l : list Z) (g : microjs_sdt) : microjs_sdt := foldl (fun g b => emit b g) g l.

Lemma emits_made l : forall g, 0 <= pc g -> pc g + len l < 65536 -> made g (emits l g) (u8 <$> l).
Proof.
  induction l as [|b l IH]; intros g H0 H; [apply made_refl|]. rewrite len_cons in H. pose proof (len_pos l). cbn [emits foldl fmap list_fmap]. pose proof (emit_made b g H0 ltac:(lia)) as M.
  apply (made_trans g (emit b g) _ [u8 b]); [done|]. apply IH; rewrite (md_pc _ _ _ M); change (len [u8 b]) with 1; lia.
Qed.

(** What emitting leaves alone. *)
Lemma emits_keep l : forall g, spc (emits l g) = spc g /\ stack_pos (emits l g) = stack_pos g /\ stack_sz (emits l g) = stack_sz g /\ syms (emits l g) = syms g.
Proof. induction l as [|b l IH]; intros g; [done|]. cbn [emits foldl]. apply (IH (emit b g)). Qed.

Lemma encode_emits x g : exists l, encode_int x g = emits l (save_pc g) /\ u8 <$> l = enc x /\ len l <= 5.
Proof.
  unfold encode_int. destruct (enc_cases x) as [(X & ->)|[(N & X & ->)|[(N & X & ->)|(N & ->)]]].
  - exists [16 + Z.land x 15]. destruct (small_decode x X) as (_ & E & _). cbn [fmap list_fmap]. rewrite E. split; [|done]. repeat (zb_case; try lia); [|done]. by rewrite land_low by lia.
  - exists [6; x]. split; [|done]. repeat (zb_case; try lia); done.
  - exists [7; x; Z.shiftr x 8]. split; [|done]. repeat (zb_case; try lia); done.
  - exists [8; x; Z.shiftr x 8; Z.shiftr x 16; Z.shiftr x 24]. split; [|done]. repeat (zb_case; try lia); done.
Qed.

(** ** Expressions *)

Definition room (g : microjs_sdt) (w : Z) : Prop :=
  0 <= pc g /\ pc g + 5 * w < cdsz g /\ cdsz g <= 65535 /\ 0 <= stack_pos g /\ stack_pos g + 4 * w < 65536.

Lemma action_ok op g g' : op g = AOk g' -> pc g' < cdsz g' -> action op g = AOk g'.
Proof. intros E H. unfold action. rewrite E. cbn [abind]. destruct (Z.leb_spec (cdsz g') (pc g')); [lia|done]. Qed.

Lemma stack_push_ok g : 0 <= stack_pos g -> stack_pos g + 4 < 65536 -> exists g', tgt_stack_push g = AOk g' /\ stack_pos g' = stack_pos g + 4 /\
  code g' = code g /\ pc g' = pc g /\ cdsz g' = cdsz g /\ spc g' = spc g /\ syms g' = syms g.
Proof. intros H0 H. unfold tgt_stack_push. eexists. split; [done|]. cbn [set_stack stack_pos code pc cdsz spc syms]. by rewrite u16_small by lia. Qed.

Lemma stack_pop_ok g : 4 <= stack_pos g -> stack_pos g < 65536 -> exists g', tgt_stack_pop g = AOk g' /\ stack_pos g' = stack_pos g - 4 /\
  code g' = code g /\ pc g' = pc g /\ cdsz g' = cdsz g /\ spc g' = spc g /\ syms g' = syms g.
Proof.
  intros H0 H. unfold tgt_stack_pop. destruct (Z.eqb_spec (stack_pos g) 0); [lia|]. eexists. split; [done|]. cbn [set_stack stack_pos code pc cdsz spc syms]. by rewrite u16_small by lia.
Qed.

(** Bytes that do not push a constant. *)
Definition not_const (b : Z) : bool := negb (Z.land b 0xf0 =? 16) && negb (b =? 6) && negb (b =? 7) && negb (b =? 8).

Lemma not_const_none c a : not_const (c a) = true -> is_constant c a = None.
Proof.
  unfold not_const, is_constant. rewrite !andb_true_iff, !negb_true_iff. intros (((-> & ->) & ->) & ->). done.
Qed.

(** One instruction of one byte. *)
Lemma emit_op b g : 0 <= pc g -> pc g + 1 < 65536 -> u8 b = b -> not_const b = true ->
  let g' := emit b (save_pc g) in
  made g g' [b] /\ spc g' = pc g /\ last_const g' = None /\ stack_pos g' = stack_pos g /\ syms g' = syms g.
Proof.
  intros H0 H Hb N g'. assert (M : made g g' [b]).
  { rewrite <- Hb. apply (made_from (save_pc g)); [by apply emit_made|done|done|done]. }
  split; [done|]. split; [done|]. split; [|done]. unfold last_const. apply not_const_none. pose proof (md_new _ _ _ M) as C. apply code_at_cons in C as [C _]. change (spc g') with (pc g). by rewrite C.
Qed.

(** An instruction in the place of the last constant. *)
Lemma emit_back b g g2 l : 0 <= pc g -> pc g + 1 < 65536 -> u8 b = b -> not_const b = true -> made g g2 l -> spc g2 = pc g ->
  let g' := emit b (rollback g2) in
  made g g' [b] /\ spc g' = pc g /\ last_const g' = None /\ stack_pos g' = stack_pos g2 /\ syms g' = syms g2.
Proof.
  intros H0 H Hb N [P S O _] E g'. assert (M : made g g' [b]).
  { constructor; cbn [g' emit rollback set_gpc set_code pc code cdsz].
    - rewrite E, u16_small by lia. done.
    - done.
    - intros a Ha. rewrite upd_ne by lia. by apply O.
    - rewrite E, Hb. apply code_at_cons. split; [apply upd_eq|apply code_at_nil]. }
  split; [done|]. split; [done|]. split; [|done]. unfold last_const. apply not_const_none. pose proof (md_new _ _ _ M) as C. apply code_at_cons in C as [C _]. change (spc g') with (spc g2). by rewrite E, C.
Qed.

(** A constant, in the place of the last one or not. *)
Lemma encode_made x g : 0 <= pc g -> pc g + 5 < 65536 -> -2147483648 <= x < 2147483648 ->
  let g' := encode_int x g in
  made g g' (enc x) /\ spc g' = pc g /\ last_const g' = Some x /\ stack_pos g' = stack_pos g /\ syms g' = syms g.
Proof.
  intros H0 H Hx g'. destruct (encode_emits x g) as (l & E & El & Ll). destruct (emits_keep l (save_pc g)) as (K1 & K2 & _ & K3). fold g' in E.
  assert (M : made g g' (enc x)).
  { rewrite <- El, E. apply (made_from (save_pc g)); [apply emits_made; cbn [save_pc pc]; lia|done|done|done]. }
  rewrite E at 2 4 5. split; [done|]. split; [done|]. split; [|done]. unfold last_const. apply is_constant_enc; [done|]. rewrite E at 2. rewrite K1. apply (md_new _ _ _ M).
Qed.

Lemma made_back g g2 l g' l' : made g g2 l -> spc g2 = pc g -> made (rollback g2) g' l' -> made g g' l'.
Proof.
  intros [_ S O _] E [P' S' O' N']. change (pc (rollback g2)) with (spc g2) in *. rewrite E in *. constructor; [done|by rewrite S'|intros a Ha; rewrite O' by done; by apply O|done].
Qed.

Section Gen.

Context (obj_addr : ident -> option Z) (stk : Z).

Record exp_made (e : exp) (g g' : microjs_sdt) : Prop := {
  xm_made : made g g' (comp_exp obj_addr e);
  xm_syms : syms g' = syms g;
  xm_stack : exists d, 1 <= d <= weight e /\ stack_pos g' = stack_pos g + 4 * d;
  xm_last : last_const g' = cval e;
  xm_spc : cval e <> None -> spc g' = pc g
}.

Lemma weight_pos e : 1 <= weight e.
Proof. induction e; cbn [weight]; lia. Qed.

Lemma word_range name : 0 <= word obj_addr name < 4096.
Proof. unfold word. change 0x0fff with (Z.ones 12). rewrite Z.land_ones by lia. change 4096 with (2 ^ 12). apply Z.mod_pos_bound. lia. Qed.

Lemma nibble x : 0 <= Z.land x 15 < 16.
Proof. change 15 with (Z.ones 4). rewrite Z.land_ones by lia. change 16 with (2 ^ 4). apply Z.mod_pos_bound. lia. Qed.

Lemma comp_len e : exp_ok obj_addr stk e -> 1 <= len (comp_exp obj_addr e) <= 5 * weight e.
Proof.
  induction e as [n| | |name|o e IH|o e1 IH1 e2 IH2]; cbn [exp_ok comp_exp weight]; intros H.
  - pose proof (enc_len n). lia.
  - change (len [17]) with 1. lia.
  - change (len [16]) with 1. lia.
  - change (len (word_code obj_addr 64 name)) with 2. lia.
  - specialize (IH H). destruct o; [destruct (cval e) as [v|]; [pose proof (enc_len (int32 (- v))); pose proof (weight_pos e); lia|]|..]; rewrite len_app; change (len [_]) with 1; lia.
  - destruct H as [H1 H2]. specialize (IH1 H1). specialize (IH2 H2). destruct (peephole o (cval e2)); rewrite !len_app; change (len [_]) with 1; lia.
Qed.

Lemma exp_made_room e g g' w : exp_ok obj_addr stk e -> exp_made e g g' -> room g (weight e + w) -> room g' w.
Proof.
  intros Ok [[P S _ _] _ (d & D & E) _ _] (R1 & R2 & R3 & R4 & R5). pose proof (comp_len e Ok). unfold room. rewrite P, S, E. lia.
Qed.

(** The code is there; the accounts of the stack follow. *)
Lemma exp_made_intro e g g1 g2 d : made g g1 (comp_exp obj_addr e) -> last_const g1 = cval e -> (cval e <> None -> spc g1 = pc g) ->
  code g2 = code g1 -> pc g2 = pc g1 -> cdsz g2 = cdsz g1 -> spc g2 = spc g1 -> syms g2 = syms g -> 1 <= d <= weight e -> stack_pos g2 = stack_pos g + 4 * d -> exp_made e g g2.
Proof.
  intros M L P Ec Ep Es Esp Ey D Ek. constructor; [by eapply made_same|done|by exists d| |by rewrite Esp]. unfold last_const in *. by rewrite Ec, Esp.
Qed.

(** The result of an action fits. *)
Lemma made_fits g g' l w : made g g' l -> len l <= 5 * w -> room g w -> pc g' < cdsz g'.
Proof. intros [P S _ _] L (R1 & R2 & R3 & _). lia. Qed.

Lemma push_const e x g g1 : comp_exp obj_addr e = enc x -> cval e = Some x -> weight e = 1 -> -2147483648 <= x < 2147483648 -> room g 1 ->
  encode_int x g = g1 -> exists g', action (fun _ => tgt_stack_push g1) g = AOk g' /\ exp_made e g g'.
Proof.
  intros Ec Ev Ew Hx R <-. pose proof R as (R1 & R2 & R3 & R4 & R5). destruct (encode_made x g R1 ltac:(lia) Hx) as (M & P & L & S & Y).
  destruct (stack_push_ok (encode_int x g) ltac:(lia) ltac:(lia)) as (g2 & E2 & S2 & C2 & P2 & Z2 & Q2 & Y2). exists g2. split.
  - apply action_ok; [done|]. rewrite P2, Z2. pose proof (enc_len x). eapply made_fits; [exact M| |exact R]. lia.
  - eapply (exp_made_intro e g _ g2 1 ltac:(rewrite Ec; exact M)); try done; try congruence; lia.
Qed.

Lemma push_word name g : name_ok obj_addr stk name -> room g 2 ->
  exists g', (let! g := action (op_push_tmp name) g in action (var_eval (fun _ => obj_addr)) g) = AOk g' /\ exp_made (EVar name) g g'.
Proof.
  intros (a & Ha & H0 & Hw) R. pose proof R as (R1 & R2 & R3 & R4 & R5). rewrite (action_ok (op_push_tmp name) g (set_syms (ITmp name :: syms g) g)); [|done|cbn [set_syms pc cdsz]; lia]. cbn [abind].
  pose proof (word_range name) as W. pose proof (nibble (word obj_addr name)) as N. assert (Hi : 0 <= Z.shiftr (word obj_addr name) 4 < 256).
  { rewrite Z.shiftr_div_pow2 by lia. change (2 ^ 4) with 16. split; [apply Z.div_pos; lia|apply Z.div_lt_upper_bound; lia]. }
  set (g0 := save_pc (set_syms (syms g) g)). set (g1 := emits [64 + Z.land (word obj_addr name) 15; Z.shiftr (word obj_addr name) 4] g0).
  assert (M : made g g1 (word_code obj_addr 64 name)).
  { apply (made_from g0); [|done|done|done]. pose proof (emits_made [64 + Z.land (word obj_addr name) 15; Z.shiftr (word obj_addr name) 4] g0 R1 ltac:(change (len [_; _]) with 2; unfold g0; cbn [save_pc set_syms pc]; lia)) as M.
    cbn [fmap list_fmap] in M. by rewrite !u8_small in M by lia. }
  destruct (stack_push_ok g1 ltac:(done) ltac:(cbn [g1 emits foldl emit set_gpc set_code stack_pos g0 save_pc set_syms]; lia)) as (g2 & E2 & S2 & C2 & P2 & Z2 & Q2 & Y2).
  exists g2. split.
  - apply action_ok.
    + unfold var_eval. cbn [set_syms syms]. rewrite Ha. rewrite <- E2. unfold emit_word, word, g1, word. rewrite Ha. done.
    + rewrite P2, Z2. apply (made_fits g g1 _ 2 M); [change (len (word_code obj_addr 64 name)) with 2; lia|exact R].
  - assert (L : last_const g1 = None).
    { unfold last_const. apply not_const_none. pose proof (md_new _ _ _ M) as C. apply code_at_cons in C as [C _]. change (spc g1) with (pc g). rewrite C.
      pose proof (small_const (fun x => not_const (64 + (x + 8))) (Z.land (word obj_addr name) 15 - 8) ltac:(lia) ltac:(vm_compute; reflexivity)) as F. cbv beta in F.
      by replace (Z.land (word obj_addr name) 15 - 8 + 8) with (Z.land (word obj_addr name) 15) in F by lia. }
    eapply (exp_made_intro (EVar name) g g1 g2 1 M); try done; try congruence; cbn [weight]; lia.
Qed.

Lemma bin_opc_byte o : u8 (bin_opc o) = bin_opc o /\ not_const (bin_opc o) = true.
Proof. by destruct o. Qed.

Lemma un_opc_byte : u8 OPC_NEG = OPC_NEG /\ u8 OPC_INV = OPC_INV /\ u8 OPC_NOT = OPC_NOT.
Proof. done. Qed.

(** An operation on one value. *)
Lemma unary_made o e g g1 : exp_ok obj_addr stk e -> exp_made e g g1 -> room g (weight e + 1) -> exists g', action (un_action o) g1 = AOk g' /\ exp_made (EUn o e) g g'.
Proof.
  intros Ok X R. pose proof (exp_made_room e g g1 1 Ok X R) as R1. pose proof R1 as (Q1 & Q2 & Q3 & Q4 & Q5). destruct X as [M Y (d & D & S) L P]. pose proof (comp_len e Ok) as Le.
  assert (Plain : forall b, u8 b = b -> not_const b = true -> comp_exp obj_addr (EUn o e) = comp_exp obj_addr e ++ [b] -> cval (EUn o e) = None -> un_action o g1 = AOk (emit b (save_pc g1)) ->
    exists g', action (un_action o) g1 = AOk g' /\ exp_made (EUn o e) g g').
  { intros b Hb Nb Ec Ev Ea. destruct (emit_op b g1 Q1 ltac:(lia) Hb Nb) as (M1 & P1 & L1 & S1 & Y1). set (g2 := emit b (save_pc g1)) in *. exists g2. split.
    - apply action_ok; [done|]. apply (made_fits g1 g2 _ 1 M1); [change (len [b]) with 1; lia|exact R1].
    - apply (exp_made_intro (EUn o e) g g2 g2 d); try done; try congruence; [rewrite Ec; by apply (made_trans g g1)|cbn [weight]; lia]. }
  destruct o; [|by apply (Plain OPC_INV)|by apply (Plain OPC_NOT)].
  destruct (cval e) as [v|] eqn:V; [|by apply (Plain OPC_NEG); cbn [comp_exp cval un_action]; unfold op_minus; rewrite ?V, ?L].
  specialize (P ltac:(done)). pose proof R as (H1 & H2 & H3 & H4 & H5). set (r := rollback g1). pose proof (weight_pos e) as We. destruct (encode_made (int32 (- v)) r ltac:(change (pc r) with (spc g1); lia) ltac:(change (pc r) with (spc g1); lia)
    ltac:(unfold int32; pose proof (u32_range (- v)); destruct (Z.ltb_spec (u32 (- v)) 2147483648); lia)) as (M1 & P1 & L1 & S1 & Y1).
  set (g2 := encode_int (int32 (- v)) r) in *. exists g2. assert (M2 : made g g2 (enc (int32 (- v)))) by (by eapply made_back). split.
  - apply action_ok; [cbn [un_action]; unfold op_minus; by rewrite L|]. pose proof (enc_len (int32 (- v))). apply (made_fits g g2 _ (weight e + 1) M2); [lia|exact R].
  - apply (exp_made_intro (EUn UMinus e) g g2 g2 d); try done; try congruence; cbn [comp_exp cval weight]; rewrite ?V; try done; [by rewrite P1|rewrite Y1; exact Y|lia|rewrite S1; exact S].
Qed.

(** An operation on two values. *)
Lemma binary_made o e1 e2 g g1 g2 : exp_ok obj_addr stk e1 -> exp_ok obj_addr stk e2 -> exp_made e1 g g1 -> exp_made e2 g1 g2 -> room g (weight e1 + (weight e2 + 1)) ->
  exists g', action (bin_action o) g2 = AOk g' /\ exp_made (EBin o e1 e2) g g'.
Proof.
  intros Ok1 Ok2 X1 X2 R. pose proof (exp_made_room e1 g g1 _ Ok1 X1 R) as R1. pose proof (exp_made_room e2 g1 g2 _ Ok2 X2 R1) as R2. pose proof R1 as (A1 & A2 & A3 & A4 & A5). pose proof R2 as (Q1 & Q2 & Q3 & Q4 & Q5).
  destruct X1 as [M1 Y1 (d1 & D1 & S1) _ _]. destruct X2 as [M2 Y2 (d2 & D2 & S2) L P]. pose proof (comp_len e1 Ok1) as Le1. pose proof (comp_len e2 Ok2) as Le2. pose proof (weight_pos e2) as We.
  assert (Plain : peephole o (cval e2) = None -> bin_action o g2 = op_binary (bin_opc o) g2 -> exists g', action (bin_action o) g2 = AOk g' /\ exp_made (EBin o e1 e2) g g').
  { intros Pe Ea. destruct (bin_opc_byte o) as [Hb Nb]. destruct (emit_op (bin_opc o) g2 Q1 ltac:(lia) Hb Nb) as (M3 & P3 & L3 & S3 & Y3). set (g3 := emit (bin_opc o) (save_pc g2)) in *.
    destruct (stack_pop_ok g3 ltac:(lia) ltac:(lia)) as (g4 & E4 & S4 & C4 & P4 & Z4 & Q4' & Y4). exists g4. split.
    - apply action_ok; [by rewrite Ea|]. rewrite P4, Z4. apply (made_fits g2 g3 _ 1 M3); [change (len [_]) with 1; lia|exact R2].
    - apply (exp_made_intro (EBin o e1 e2) g g3 g4 (d1 + d2 - 1)); try done; try congruence; cbn [comp_exp weight]; rewrite ?Pe; [|lia|lia]. by apply (made_trans g g1); [|apply (made_trans g1 g2)]. }
  assert (Back : forall b v, cval e2 = Some v -> peephole o (cval e2) = Some b -> u8 b = b -> not_const b = true ->
    made g1 (emit b (rollback g2)) [b] /\ spc (emit b (rollback g2)) = pc g1 /\ last_const (emit b (rollback g2)) = None /\ stack_pos (emit b (rollback g2)) = stack_pos g2 /\ syms (emit b (rollback g2)) = syms g2).
  { intros b v Ev _ Hb Nb. apply (emit_back b g1 g2 _ A1 ltac:(lia) Hb Nb M2). apply P. by rewrite Ev. }
  assert (Pop : forall b v, cval e2 = Some v -> peephole o (cval e2) = Some b -> u8 b = b -> not_const b = true -> bin_action o g2 = tgt_stack_pop (emit b (rollback g2)) ->
    exists g', action (bin_action o) g2 = AOk g' /\ exp_made (EBin o e1 e2) g g').
  { intros b v Ev Pe Hb Nb Ea. destruct (Back b v Ev Pe Hb Nb) as (M3 & P3 & L3 & S3 & Y3). set (g3 := emit b (rollback g2)) in *.
    destruct (stack_pop_ok g3 ltac:(lia) ltac:(lia)) as (g4 & E4 & S4 & C4 & P4 & Z4 & Q4' & Y4). exists g4. split.
    - apply action_ok; [by rewrite Ea|]. rewrite P4, Z4. apply (made_fits g1 g3 _ (weight e2 + 1) M3); [change (len [_]) with 1; lia|exact R1].
    - apply (exp_made_intro (EBin o e1 e2) g g3 g4 (d1 + d2 - 1)); try done; try congruence; cbn [comp_exp weight]; rewrite ?Pe; [|lia|lia]. by apply (made_trans g g1). }
  destruct o; try (by apply Plain).
  - destruct (decide (cval e2 = Some 0)) as [V|V].
    + destruct (Back OPC_NOT 0 V ltac:(by rewrite V) eq_refl eq_refl) as (M3 & P3 & L3 & S3 & Y3). set (g3 := emit 12 (rollback g2)) in *. exists g3. split.
      * apply action_ok; [cbn [bin_action]; unfold op_equ; rewrite L, V; by rewrite bool_decide_true|]. apply (made_fits g1 g3 _ (weight e2 + 1) M3); [change (len [_]) with 1; lia|exact R1].
      * apply (exp_made_intro (EBin BEqu e1 e2) g g3 g3 (d1 + d2)); try done; try congruence; cbn [comp_exp weight]; rewrite ?V; [|lia|lia]. by apply (made_trans g g1).
    + apply Plain; [by destruct (cval e2) as [[| |]|]|]. cbn [bin_action]. unfold op_equ. rewrite L. by rewrite bool_decide_false.
  - destruct (decide (cval e2 = Some 1)) as [V|V].
    + apply (Pop OPC_INC 1 V); [by rewrite V|done|done|]. cbn [bin_action]. unfold op_add. rewrite L, V. by rewrite bool_decide_true.
    + apply Plain; [by destruct (cval e2) as [[|[| |]|]|]|]. cbn [bin_action]. unfold op_add. rewrite L. by rewrite bool_decide_false.
  - destruct (decide (cval e2 = Some 1)) as [V|V].
    + apply (Pop OPC_DEC 1 V); [by rewrite V|done|done|]. cbn [bin_action]. unfold op_sub. rewrite L, V. by rewrite bool_decide_true.
    + apply Plain; [by destruct (cval e2) as [[|[| |]|]|]|]. cbn [bin_action]. unfold op_sub. rewrite L. by rewrite bool_decide_false.
Qed.

(** The translator makes the reference code of an expression. *)
Lemma gen_exp_made e : forall g, exp_ok obj_addr stk e -> room g (weight e) -> exists g', gen_exp (fun _ => obj_addr) e g = AOk g' /\ exp_made e g g'.
Proof.
  induction e as [n| | |name|o e IH|o e1 IH1 e2 IH2]; intros g Ok R; cbn [gen_exp exp_ok weight] in *.
  - by apply (push_const (EInt n) n g _ eq_refl).
  - by apply (push_const ETrue 1 g _ eq_refl eq_refl eq_refl).
  - by apply (push_const EFalse 0 g _ eq_refl eq_refl eq_refl).
  - by apply push_word.
  - assert (Ra : room g (weight e)) by (unfold room in *; lia). destruct (IH g Ok Ra) as (g1 & -> & X). cbn [abind]. by apply (unary_made o e g g1).
  - destruct Ok as [Ok1 Ok2]. pose proof (weight_pos e1). pose proof (weight_pos e2). assert (Ra : room g (weight e1)) by (unfold room in *; lia). destruct (IH1 g Ok1 Ra) as (g1 & -> & X1). cbn [abind].
    assert (Rb : room g (weight e1 + weight e2)) by (unfold room in *; lia). pose proof (exp_made_room e1 g g1 _ Ok1 X1 Rb) as R1. destruct (IH2 g1 Ok2 R1) as (g2 & -> & X2). cbn [abind].
    apply (binary_made o e1 e2 g g1 g2); try done. by rewrite Z.add_assoc.
Qed.

(** ** Statements *)

Record stmt_made (l : list Z) (w : Z) (g g' : microjs_sdt) : Prop := {
  sm_made : made g g' l;
  sm_len : len l <= 5 * w;
  sm_syms : syms g' = syms g;
  sm_stack : stack_pos g <= stack_pos g' <= stack_pos g + 4 * w
}.

Lemma stmt_made_nil g : stmt_made [] 0 g g.
Proof. constructor; [apply made_refl|change (len []) with 0; lia|done|lia]. Qed.

Lemma stmt_made_trans l1 l2 w1 w2 g1 g2 g3 : stmt_made l1 w1 g1 g2 -> stmt_made l2 w2 g2 g3 -> stmt_made (l1 ++ l2) (w1 + w2) g1 g3.
Proof. intros [M1 L1 Y1 S1] [M2 L2 Y2 S2]. constructor; [by eapply made_trans|rewrite len_app; lia|congruence|lia]. Qed.

Lemma stmt_made_room l w w' g g' : stmt_made l w g g' -> room g (w + w') -> room g' w'.
Proof. intros [[P S _ _] L _ K] (R1 & R2 & R3 & R4 & R5). unfold room. pose proof (len_pos l). rewrite P, S. lia. Qed.

Lemma exp_stmt_made e g g' : exp_ok obj_addr stk e -> exp_made e g g' -> stmt_made (comp_exp obj_addr e) (weight e) g g'.
Proof. intros Ok [M Y (d & D & S) _ _]. pose proof (comp_len e Ok). constructor; [done|lia|done|lia]. Qed.

Lemma gen_exp_stmt e g : exp_ok obj_addr stk e -> room g (weight e) -> exists g', gen_exp (fun _ => obj_addr) e g = AOk g' /\ stmt_made (comp_exp obj_addr e) (weight e) g g'.
Proof. intros Ok R. destruct (gen_exp_made e g Ok R) as (g' & E & X). exists g'. split; [done|]. by apply exp_stmt_made. Qed.

Lemma room_le g w w' : room g w -> w' <= w -> room g w'.
Proof. unfold room. lia. Qed.

(** A value is stored. *)
Lemma store_made name g l : name_ok obj_addr stk name -> syms g = ITmp name :: l -> 4 <= stack_pos g -> room g 2 ->
  exists g', action (var_assign (fun _ => obj_addr)) g = AOk g' /\ made g g' (word_code obj_addr OPC_ST name) /\ syms g' = l /\ stack_pos g' = stack_pos g - 4.
Proof.
  intros (a & Ha & H0 & Hw) Y S R. pose proof R as (Q1 & Q2 & Q3 & Q4 & Q5). pose proof (nibble (word obj_addr name)) as N. pose proof (word_range name) as W.
  assert (Hi : 0 <= Z.shiftr (word obj_addr name) 4 < 256).
  { rewrite Z.shiftr_div_pow2 by lia. change (2 ^ 4) with 16. split; [apply Z.div_pos; lia|apply Z.div_lt_upper_bound; lia]. }
  set (g2 := emits [80 + Z.land (word obj_addr name) 15; Z.shiftr (word obj_addr name) 4] (save_pc (set_syms l g))).
  assert (M2 : made g g2 (word_code obj_addr 80 name)).
  { apply (made_from (save_pc (set_syms l g))); [|done|done|done].
    pose proof (emits_made [80 + Z.land (word obj_addr name) 15; Z.shiftr (word obj_addr name) 4] (save_pc (set_syms l g)) Q1 ltac:(change (len [_; _]) with 2; cbn [save_pc set_syms pc]; lia)) as M2.
    cbn [fmap list_fmap] in M2. by rewrite !u8_small in M2 by lia. }
  assert (S0 : stack_pos g2 = stack_pos g) by done. destruct (stack_pop_ok g2 ltac:(lia) ltac:(lia)) as (g3 & E3 & S3 & C3 & P3 & Z3 & _ & Y3). exists g3. split; [|split; [by apply (made_same g g2)|split; [by rewrite Y3|lia]]].
  apply action_ok; [|rewrite P3, Z3; apply (made_fits g g2 _ 2 M2); [change (len (word_code obj_addr 80 name)) with 2; lia|exact R]].
  unfold var_assign. rewrite Y, Ha, <- E3. unfold emit_word, g2, word. rewrite Ha. done.
Qed.

Lemma gen_assign_made x g : assign_ok obj_addr stk x -> room g (weight_a x) -> exists g', gen_assign (fun _ => obj_addr) x g = AOk g' /\ stmt_made (comp_assign obj_addr x) (weight_a x) g g'.
Proof.
  destruct x as [name e]. intros [On Ok] R. cbn [fst snd] in *. unfold weight_a in *. cbn [snd] in *. pose proof (weight_pos e) as We.
  unfold gen_assign. cbn [fst snd]. set (g0 := set_syms (ITmp name :: syms g) g). rewrite (action_ok (op_push_tmp name) g g0); [|done|cbn [g0 set_syms pc cdsz]; unfold room in R; lia]. cbn [abind].
  assert (R0 : room g0 (weight e + 2)) by exact R. destruct (gen_exp_made e g0 Ok ltac:(eapply room_le; [exact R0|lia])) as (g1 & -> & X). cbn [abind].
  pose proof (exp_made_room e g0 g1 2 Ok X R0) as Rx. pose proof (comp_len e Ok) as Le. destruct X as [M Y (d & D & S) _ _]. change (stack_pos g0) with (stack_pos g) in S.
  destruct (store_made name g1 (syms g) On Y ltac:(unfold room in R; lia) Rx) as (g3 & -> & M3 & Y3 & S3). exists g3. split; [done|]. constructor.
  - unfold comp_assign. cbn [fst snd]. apply (made_trans g g1); [|done]. by apply (made_from g0).
  - unfold comp_assign. cbn [fst snd]. rewrite len_app. change (len (word_code obj_addr 80 name)) with 2. lia.
  - done.
  - lia.
Qed.

Lemma gen_assigns_made l : forall g, all (assign_ok obj_addr stk) l -> room g (sum (weight_a <$> l)) ->
  exists g', gen_assigns (fun _ => obj_addr) l g = AOk g' /\ stmt_made (comp_assigns obj_addr l) (sum (weight_a <$> l)) g g'.
Proof.
  induction l as [|x l IH]; intros g Ok R; [exists g; split; [done|apply stmt_made_nil]|]. destruct Ok as [Ox Ol].
  cbn [fmap list_fmap sum foldr gen_assigns] in *. fold (sum (weight_a <$> l)) in *. assert (Hs : forall l, 0 <= sum (weight_a <$> l)).
  { clear. induction l as [|x l IH]; cbn [fmap list_fmap sum foldr]; [lia|]. fold (sum (weight_a <$> l)). unfold weight_a at 1. pose proof (weight_pos x.2). lia. }
  specialize (Hs l). destruct (gen_assign_made x g Ox ltac:(eapply room_le; [exact R|lia])) as (g1 & -> & M1). cbn [abind]. pose proof (stmt_made_room _ _ _ _ _ M1 R) as R1.
  destruct (IH g1 Ol R1) as (g2 & -> & M2). exists g2. split; [done|]. by apply (stmt_made_trans _ _ _ _ g g1).
Qed.

(** ** Jumps *)

Lemma reserve_made op g : 0 <= pc g -> pc g + 2 < 65536 -> made g (reserve op g) [op; code g (pc g + 1)].
Proof.
  intros H0 H. constructor; cbn [reserve set_gpc set_code pc code cdsz].
  - rewrite u16_small by lia. done.
  - done.
  - intros a Ha. apply upd_ne. lia.
  - rewrite !code_at_cons. split; [apply upd_eq|]. split; [apply upd_ne; lia|apply code_at_nil].
Qed.

Lemma jump_bytes op offs : 0 <= op <= 240 -> u8 (op + Z.land offs 15) = op + Z.land offs 15.
Proof. intros H. pose proof (nibble offs). apply u8_small. lia. Qed.

Lemma len_jump op offs : len (jump op offs) = 2.
Proof. done. Qed.

Lemma patch_made g g2 l1 op x l2 offs : made g g2 (l1 ++ [op; x] ++ l2) -> 0 <= op <= 240 -> made g (patch (pc g + len l1) offs g2) (l1 ++ jump op offs ++ l2).
Proof.
  intros [P S O N] Hop. pose proof (len_pos l1). rewrite !code_at_app in N. destruct N as (N1 & N2 & N3). cbn [len] in N3. rewrite code_at_cons in N2. destruct N2 as [N2 _].
  constructor; cbn [patch set_code pc cdsz code].
  - rewrite P, !len_app. done.
  - done.
  - intros a Ha. rewrite !upd_ne by lia. by apply O.
  - rewrite !code_at_app. change (len (jump op offs)) with (len [op; x]). split; [|split].
    + eapply code_at_ext; [|exact N1]. intros y Hy. rewrite !upd_ne by lia. done.
    + unfold jump. rewrite !code_at_cons. split; [rewrite upd_ne, upd_eq, N2 by lia; by apply jump_bytes|]. split; [apply upd_eq|apply code_at_nil].
    + eapply code_at_ext; [|exact N3]. intros y Hy. change (len [op; x]) with 2 in *. rewrite !upd_ne by lia. done.
Qed.

Lemma emit_jmp_made offs g : 0 <= pc g -> pc g + 2 < 65536 -> made g (emit_jmp offs g) (jump OPC_JMP offs).
Proof.
  intros H0 H. pose proof (emits_made [112 + Z.land offs 15; Z.shiftr offs 4] g H0 ltac:(change (len [_; _]) with 2; lia)) as M. cbn [fmap list_fmap] in M. by rewrite (jump_bytes 112 offs) in M by lia.
Qed.

Lemma room_made g g' l w w' : made g g' l -> len l <= 5 * w -> stack_pos g' = stack_pos g -> room g (w + w') -> 0 <= w -> room g' w'.
Proof. intros [P S _ _] L K (R1 & R2 & R3 & R4 & R5) H. unfold room. pose proof (len_pos l). rewrite P, S, K. lia. Qed.

Definition stmt_gen (s : stmt) : Prop := forall g, stmt_ok obj_addr stk s -> room g (weight_s s) ->
  exists g', gen_stmt (fun _ => obj_addr) s g = AOk g' /\ stmt_made (comp_stmt obj_addr s) (weight_s s) g g'.

Definition weights (l : list stmt) : Z := sum (weight_s <$> l).

Definition stmts_gen (l : list stmt) : Prop := forall g, all (stmt_ok obj_addr stk) l -> room g (weights l) ->
  exists g', gen_stmts (fun _ => obj_addr) l g = AOk g' /\ stmt_made (comp_stmts obj_addr l) (weights l) g g'.

(** A block leaves no trace. *)
Definition block_gen (l : list stmt) : Prop := forall g, all (stmt_ok obj_addr stk) l -> room g (weights l) ->
  exists g', gen_block (gen_stmts (fun _ => obj_addr) l) g = AOk g' /\ stmt_made (comp_stmts obj_addr l) (weights l) g g'.

Lemma block_made l : stmts_gen l -> 0 <= weights l -> block_gen l.
Proof.
  intros IH W g Ok R. set (g0 := set_syms (IBlk (Z.of_nat (length (objs g))) (data_pos g) :: syms g) g). unfold gen_block. rewrite (action_ok op_blk_open g g0); [|done|cbn [g0 set_syms pc cdsz]; unfold room in R; lia]. cbn [abind].
  assert (R0 : room g0 (weights l)) by exact R. destruct (IH g0 Ok R0) as (g1 & -> & M). cbn [abind]. pose proof (stmt_made_room _ _ 0 _ _ M ltac:(by rewrite Z.add_0_r)) as R1. destruct M as [M L Y K].
  eexists. split; [apply action_ok; [unfold op_blk_close; by rewrite Y|cbn [set_objs set_syms pc cdsz]; unfold room in R1; lia]|]. constructor; [|done|done|exact K].
  apply (made_same g g1); [by apply (made_from g0)|done|done|done].
Qed.

Lemma sum_app_pos (f : ident * exp -> Z) l : (forall x, 0 <= f x) -> 0 <= sum (f <$> l).
Proof. intros H. induction l as [|x l IH]; cbn [fmap list_fmap sum foldr]; [lia|]. fold (sum (f <$> l)). specialize (H x). lia. Qed.

Lemma weight_a_pos x : 0 <= weight_a x.
Proof. unfold weight_a. pose proof (weight_pos x.2). lia. Qed.

(** A jump whose place is kept. *)
Lemma cond_made op g (l : list item) : room g 1 ->
  let g' := set_syms l (reserve op (save_pc g)) in
  made g g' [op; code g (pc g + 1)] /\ stack_pos g' = stack_pos g /\ pc g' < cdsz g' /\ pc g' = pc g + 2.
Proof.
  intros R g'. pose proof R as (R1 & R2 & R3 & R4 & R5). assert (M : made g g' [op; code g (pc g + 1)]).
  { apply (made_same g (reserve op (save_pc g))); [|done|done|done]. apply (made_from (save_pc g)); [|done|done|done]. exact (reserve_made op (save_pc g) R1 ltac:(cbn [save_pc pc]; lia)). }
  split; [done|]. split; [done|]. split; [apply (made_fits g g' _ 1 M); [change (len [_; _]) with 2; lia|done]|]. by rewrite (md_pc _ _ _ M).
Qed.

Lemma if_made e s : block_gen s -> 0 <= weights s -> stmt_gen (SIf e s).
Proof.
  intros IH Ws g [Oe Os] R. cbn [weight_s] in R. fold (weights s) in R. pose proof (weight_pos e) as We. cbn [gen_stmt]. destruct (gen_exp_stmt e g Oe ltac:(eapply room_le; [exact R|lia])) as (g1 & -> & M1). cbn [abind].
  assert (R1 : room g1 (weights s + 2)) by (eapply (stmt_made_room _ (weight e)); [exact M1|eapply room_le; [exact R|lia]]).
  destruct (cond_made OPC_JEQ g1 (IRef (pc g1) :: syms g1) ltac:(eapply room_le; [exact R1|lia])) as (M2 & K2 & F2 & P2). set (g2 := set_syms _ _) in *.
  rewrite (action_ok op_if_cond g1 g2); [|done|done]. cbn [abind]. set (x := code g1 (pc g1 + 1)) in *. clearbody x.
  assert (R2 : room g2 (weights s + 1)) by (eapply (room_made _ _ _ 1); [exact M2|change (len [_; _]) with 2; lia|done|eapply room_le; [exact R1|lia]|lia]).
  change ((fix gen_stmts l g := match l with [] => AOk g | s :: l => let! g := gen_stmt (fun _ => obj_addr) s g in gen_stmts l g end)) with (gen_stmts (fun _ => obj_addr)).
  destruct (IH g2 Os ltac:(eapply room_le; [exact R2|lia])) as (g3 & -> & M3). cbn [abind]. pose proof (stmt_made_room _ _ _ _ _ M3 R2) as R3. destruct M3 as [M3 L3 Y3 K3]. destruct M1 as [M1 L1 Y1 K1].
  set (b := comp_stmts obj_addr s) in *. assert (E : pc g1 = pc g + len (comp_exp obj_addr e)) by apply (md_pc _ _ _ M1).
  assert (M : made g (patch (pc g1) (pc g3 - 2 - pc g1) (set_syms (syms g1) g3)) (comp_exp obj_addr e ++ jump OPC_JEQ (len b) ++ b)).
  { rewrite (md_pc _ _ _ M3), P2. replace (pc g1 + 2 + len b - 2 - pc g1) with (len b) by lia. rewrite E. apply (patch_made g _ _ 128 x); [|lia].
    apply (made_same g g3); [|done|done|done]. by apply (made_trans g g1); [|apply (made_trans g1 g2)]. }
  eexists. split.
  - apply action_ok; [unfold op_patch_ref; rewrite Y3; done|]. cbn [patch set_code set_syms pc cdsz]. destruct R3 as (Q1 & Q2 & _). lia.
  - cbn [comp_stmt weight_s]. fold (comp_stmts obj_addr s) (weights s). constructor; [exact M| |exact Y1|cbn [patch set_code set_syms stack_pos]; lia].
    rewrite !len_app, len_jump. fold b. lia.
Qed.

Lemma while_made e s : block_gen s -> 0 <= weights s -> stmt_gen (SWhile e s).
Proof.
  intros IH Ws g [Oe Os] R. cbn [weight_s] in R. fold (weights s) in R. pose proof (weight_pos e) as We. cbn [gen_stmt].
  set (g0 := set_syms (IWld (pc g) 0 :: syms g) g). rewrite (action_ok op_while_begin g g0); [|done|cbn [g0 set_syms pc cdsz]; unfold room in R; lia]. cbn [abind].
  assert (R0 : room g0 (weight e + 3 + weights s)) by exact R. destruct (gen_exp_stmt e g0 Oe ltac:(eapply room_le; [exact R0|lia])) as (g1 & -> & M1). cbn [abind].
  assert (R1 : room g1 (weights s + 3)) by (eapply (stmt_made_room _ (weight e)); [exact M1|eapply room_le; [exact R0|lia]]). destruct M1 as [M1 L1 Y1 K1]. cbn [g0 set_syms syms] in Y1.
  destruct (cond_made OPC_JEQ g1 (IWld (pc g) (pc g1) :: syms g) ltac:(eapply room_le; [exact R1|lia])) as (M2 & K2 & F2 & P2). set (g2 := set_syms (IWld (pc g) (pc g1) :: syms g) (reserve OPC_JEQ (save_pc g1))) in *.
  rewrite (action_ok op_while_cond g1 g2); [|unfold op_while_cond; by rewrite Y1|done]. cbn [abind]. set (x := code g1 (pc g1 + 1)) in *. clearbody x.
  assert (R2 : room g2 (weights s + 2)) by (eapply (room_made _ _ _ 1); [exact M2|change (len [_; _]) with 2; lia|done|eapply room_le; [exact R1|lia]|lia]).
  change ((fix gen_stmts l g := match l with [] => AOk g | s :: l => let! g := gen_stmt (fun _ => obj_addr) s g in gen_stmts l g end)) with (gen_stmts (fun _ => obj_addr)).
  destruct (IH g2 Os ltac:(eapply room_le; [exact R2|lia])) as (g3 & -> & M3). cbn [abind]. pose proof (stmt_made_room _ _ 2 _ _ M3 R2) as R3. destruct M3 as [M3 L3 Y3 K3]. pose proof R3 as (Q1 & Q2 & Q3 & _).
  set (b := comp_stmts obj_addr s) in *. set (le := comp_exp obj_addr e) in *. assert (E : pc g1 = pc g + len le) by apply (md_pc _ _ _ M1). assert (E3 : pc g3 = pc g1 + 2 + len b) by (rewrite (md_pc _ _ _ M3), P2; done).
  set (g4 := save_pc (patch (pc g1) (pc g3 - pc g1) (set_syms (syms g) g3))).
  assert (M4 : made g g4 (le ++ jump OPC_JEQ (len b + 2) ++ b)).
  { apply (made_same g (patch (pc g1) (pc g3 - pc g1) (set_syms (syms g) g3))); [|done|done|done]. replace (pc g3 - pc g1) with (len b + 2) by lia. rewrite E. apply (patch_made g _ _ 128 x); [|lia].
    apply (made_same g g3); [|done|done|done]. by apply (made_trans g g1); [apply (made_from g0)|apply (made_trans g1 g2)]. }
  pose proof (emit_jmp_made (pc g - (pc g4 + 2)) g4 Q1 ltac:(cbn [g4 save_pc patch set_code set_syms pc]; lia)) as M5. set (g5 := emit_jmp (pc g - (pc g4 + 2)) g4) in *.
  assert (E4 : pc g - (pc g4 + 2) = - (len le + len b + 4)) by (change (pc g4) with (pc g3); lia).
  exists g5. split.
  - apply action_ok; [unfold op_while_end; rewrite Y3; done|]. apply (made_fits g4 g5 _ 1 M5); [rewrite len_jump; lia|]. unfold room in *. cbn [g4 save_pc patch set_code set_syms pc cdsz stack_pos]. lia.
  - rewrite E4 in M5. pose proof (made_trans _ _ _ _ _ M4 M5) as M. rewrite <- !app_assoc in M. cbn [comp_stmt weight_s]. fold (comp_stmts obj_addr s) (weights s). constructor; [exact M| |done|].
    + rewrite !len_app, !len_jump. fold b le. lia.
    + change (stack_pos g5) with (stack_pos g3). change (stack_pos g0) with (stack_pos g) in K1. lia.
Qed.

(** Moving past the first parts of a piece of code. *)
Lemma patch_at g g2 l1 op x l2 offs a : made g g2 (l1 ++ [op; x] ++ l2) -> 0 <= op <= 240 -> a = pc g + len l1 -> made g (patch a offs g2) (l1 ++ jump op offs ++ l2).
Proof. intros M H ->. by apply (patch_made g g2 l1 op x l2 offs). Qed.

Lemma room_same g g' w : pc g' = pc g -> cdsz g' = cdsz g -> stack_pos g' = stack_pos g -> room g w -> room g' w.
Proof. unfold room. intros -> -> ->. done. Qed.

Lemma if_else_made e s1 s2 : block_gen s1 -> block_gen s2 -> 0 <= weights s1 -> 0 <= weights s2 -> stmt_gen (SIfElse e s1 s2).
Proof.
  intros IH1 IH2 W1 W2 g (Oe & O1 & O2) R. cbn [weight_s] in R. fold (weights s1) (weights s2) in R. pose proof (weight_pos e) as We. cbn [gen_stmt].
  destruct (gen_exp_stmt e g Oe ltac:(eapply room_le; [exact R|lia])) as (g1 & -> & [M1 L1 Y1 K1]). cbn [abind].
  assert (R1 : room g1 (weights s1 + weights s2 + 3)) by (eapply (stmt_made_room _ (weight e)); [by constructor|eapply room_le; [exact R|lia]]).
  destruct (cond_made OPC_JEQ g1 (IRef (pc g1) :: syms g1) ltac:(eapply room_le; [exact R1|lia])) as (M2 & K2 & F2 & P2). set (g2 := set_syms (IRef (pc g1) :: syms g1) (reserve OPC_JEQ (save_pc g1))) in *.
  rewrite (action_ok op_if_cond g1 g2); [|done|done]. cbn [abind]. set (x := code g1 (pc g1 + 1)) in *. clearbody x.
  assert (R2 : room g2 (weights s1 + (weights s2 + 2))) by (eapply (room_made _ _ _ 1); [exact M2|change (len [_; _]) with 2; lia|done|eapply room_le; [exact R1|lia]|lia]).
  change ((fix gen_stmts l g := match l with [] => AOk g | s :: l => let! g := gen_stmt (fun _ => obj_addr) s g in gen_stmts l g end)) with (gen_stmts (fun _ => obj_addr)).
  destruct (IH1 g2 O1 ltac:(eapply room_le; [exact R2|lia])) as (g3 & -> & M3). cbn [abind]. pose proof (stmt_made_room _ _ _ _ _ M3 R2) as R3. destruct M3 as [M3 L3 Y3 K3].
  set (b1 := comp_stmts obj_addr s1) in *. set (le := comp_exp obj_addr e) in *. assert (E1 : pc g1 = pc g + len le) by apply (md_pc _ _ _ M1). assert (E3 : pc g3 = pc g1 + 2 + len b1) by (rewrite (md_pc _ _ _ M3), P2; done).
  set (g4 := patch (pc g1) (pc g3 - pc g1) (save_pc (set_syms (syms g) g3))).
  assert (M4 : made g g4 (le ++ jump OPC_JEQ (len b1 + 2) ++ b1)).
  { unfold g4. replace (pc g3 - pc g1) with (len b1 + 2) by lia. apply (patch_at g _ _ 128 x); [|lia|lia].
    apply (made_same g g3); [|done|done|done]. by apply (made_trans g g1); [|apply (made_trans g1 g2)]. }
  assert (R4 : room g4 (weights s2 + 2)) by (by apply (room_same g3)).
  destruct (cond_made OPC_JMP g4 (IRef (pc g4) :: syms g) ltac:(eapply room_le; [exact R4|lia])) as (M5 & K5 & F5 & P5). set (g5 := set_syms (IRef (pc g4) :: syms g) (reserve OPC_JMP (save_pc g4))) in *.
  rewrite (action_ok op_if_else g3 g5); [|unfold op_if_else; rewrite Y3; cbn [g2 set_syms syms]; rewrite Y1; done|done]. cbn [abind]. set (y := code g4 (pc g4 + 1)) in *. clearbody y.
  assert (R5 : room g5 (weights s2 + 1)) by (eapply (room_made _ _ _ 1); [exact M5|change (len [_; _]) with 2; lia|done|eapply room_le; [exact R4|lia]|lia]).
  destruct (IH2 g5 O2 ltac:(eapply room_le; [exact R5|lia])) as (g6 & -> & M6). cbn [abind]. pose proof (stmt_made_room _ _ _ _ _ M6 R5) as (Q1 & Q2 & _). destruct M6 as [M6 L6 Y6 K6].
  set (b2 := comp_stmts obj_addr s2) in *. assert (E6 : pc g6 = pc g4 + 2 + len b2) by (rewrite (md_pc _ _ _ M6), P5; done).
  set (front := le ++ jump OPC_JEQ (len b1 + 2) ++ b1) in *. assert (E4 : pc g4 = pc g + len front) by apply (md_pc _ _ _ M4).
  assert (M : made g (patch (pc g4) (pc g6 - 2 - pc g4) (set_syms (syms g) g6)) (front ++ jump OPC_JMP (len b2) ++ b2)).
  { replace (pc g6 - 2 - pc g4) with (len b2) by lia. apply (patch_at g _ _ 112 y); [|lia|lia]. apply (made_same g g6); [|done|done|done]. by apply (made_trans g g4); [|apply (made_trans g4 g5)]. }
  assert (K4 : stack_pos g4 = stack_pos g3) by done. assert (Lf : len front = len le + 2 + len b1) by (unfold front; rewrite !len_app, len_jump; lia). change (syms g5) with (IRef (pc g4) :: syms g) in Y6. clearbody g4 g5 g2.
  eexists. split.
  - apply action_ok; [unfold op_patch_ref; rewrite Y6; done|]. cbn [patch set_code set_syms pc cdsz]. lia.
  - cbn [comp_stmt weight_s]. fold (comp_stmts obj_addr s1) (comp_stmts obj_addr s2) (weights s1) (weights s2). fold b1 b2 le. constructor; [|rewrite !len_app, !len_jump; lia|done|cbn [patch set_code set_syms stack_pos]; lia].
    unfold front in M. rewrite <- !app_assoc in M. exact M.
Qed.

(** The two jumps of a for statement. *)
Lemma for_cond_made g (l : list item) : room g 1 ->
  let g1 := save_pc (reserve OPC_JEQ g) in
  let g' := set_syms l (reserve OPC_JMP g1) in
  exists x y, made g g' ([OPC_JEQ; x] ++ [OPC_JMP; y]) /\ stack_pos g' = stack_pos g /\ pc g' < cdsz g' /\ pc g1 = pc g + 2 /\ pc g' = pc g + 4.
Proof.
  intros R g1 g'. pose proof R as (R1 & R2 & R3 & R4 & R5). pose proof (reserve_made OPC_JEQ g R1 ltac:(lia)) as M1. pose proof (md_pc _ _ _ M1) as P1. change (len [_; _]) with 2 in P1. change (pc g1 = pc g + 2) in P1.
  pose proof (reserve_made OPC_JMP g1 ltac:(lia) ltac:(lia)) as M2. eexists _, _.
  assert (M : made g g' ([OPC_JEQ; code g (pc g + 1)] ++ [OPC_JMP; code g1 (pc g1 + 1)])).
  { apply (made_trans g g1); [by apply (made_same g (reserve OPC_JEQ g))|by apply (made_same g1 (reserve OPC_JMP g1))]. }
  split; [exact M|]. split; [done|]. split; [apply (made_fits g g' _ 1 M); [change (len (_ ++ _)) with 4; lia|done]|]. split; [done|]. by rewrite (md_pc _ _ _ M).
Qed.

(** The rest of a for statement, from the end of its third clause. *)
Lemma for_tail_made g g3 fr x y ca s a1 n l : made g g3 ((fr ++ [OPC_JEQ; x]) ++ [OPC_JMP; y] ++ ca) -> a1 = pc g + len fr ->
  syms g3 = IFld (a1 - n) a1 (a1 + 2) (a1 + 4) :: l -> block_gen s -> all (stmt_ok obj_addr stk) s -> room g3 (weights s + 3) -> 0 <= weights s ->
  let b := comp_stmts obj_addr s in
  exists g', (let! g := action op_for_after g3 in let! g := gen_block (gen_stmts (fun _ => obj_addr) s) g in action op_for_end g) = AOk g' /\
    made g g' (fr ++ jump OPC_JEQ (len ca + len b + 6) ++ jump OPC_JMP (len ca + 2) ++ ca ++ jump OPC_JMP (- (n + len ca + 6)) ++ b ++ jump OPC_JMP (- (len ca + len b + 4))) /\
    len b <= 5 * weights s /\ syms g' = l /\ stack_pos g3 <= stack_pos g' <= stack_pos g3 + 4 * weights s.
Proof.
  intros M3 Ha Y3 IH Os R3 Ws b. pose proof (md_pc _ _ _ M3) as E3. rewrite !len_app in E3. change (len [OPC_JEQ; x]) with 2 in E3. change (len [OPC_JMP; y]) with 2 in E3.
  set (g4 := save_pc (patch (a1 + 2) (pc g3 - (a1 + 2)) (set_syms l g3))). assert (P4 : pc g4 = pc g3) by done.
  assert (M4 : made g g4 ((fr ++ [OPC_JEQ; x]) ++ jump OPC_JMP (len ca + 2) ++ ca)).
  { apply (made_same g (patch (a1 + 2) (pc g3 - (a1 + 2)) (set_syms l g3))); [|done|done|done]. replace (pc g3 - (a1 + 2)) with (len ca + 2) by lia.
    apply (patch_at g _ _ 112 y); [by apply (made_same g g3)|lia|rewrite len_app; change (len [_; _]) with 2; lia]. }
  assert (R4 : room g4 (weights s + 3)) by (by apply (room_same g3)). pose proof R4 as (Q1 & Q2 & Q3 & _).
  pose proof (emit_jmp_made (a1 - n - (pc g4 + 2)) g4 Q1 ltac:(lia)) as M5. set (g5 := set_syms (IFld (a1 - n) a1 (a1 + 2) (a1 + 4) :: l) (emit_jmp (a1 - n - (pc g4 + 2)) g4)). apply (made_same _ _ g5) in M5; [|done|done|done].
  rewrite (action_ok op_for_after g3 g5); [|unfold op_for_after; rewrite Y3; done|apply (made_fits g4 g5 _ 1 M5); [rewrite len_jump; lia|eapply room_le; [exact R4|lia]]]. cbn [abind].
  replace (a1 - n - (pc g4 + 2)) with (- (n + len ca + 6)) in M5 by lia. pose proof (md_pc _ _ _ M5) as E5. rewrite len_jump in E5.
  assert (R5 : room g5 (weights s + 2)) by (eapply (room_made _ _ _ 1); [exact M5|rewrite len_jump; lia|done|eapply room_le; [exact R4|lia]|lia]).
  destruct (IH g5 Os ltac:(eapply room_le; [exact R5|lia])) as (g6 & -> & M6). cbn [abind]. pose proof (stmt_made_room _ _ _ _ _ M6 R5) as R6. destruct M6 as [M6 L6 Y6 K6]. fold b in M6, L6. pose proof (md_pc _ _ _ M6) as E6.
  set (g7 := patch a1 (pc g6 - a1) (save_pc (set_syms l g6))). assert (P7 : pc g7 = pc g6) by done.
  assert (M7 : made g g7 (fr ++ jump OPC_JEQ (len ca + len b + 6) ++ jump OPC_JMP (len ca + 2) ++ ca ++ jump OPC_JMP (- (n + len ca + 6)) ++ b)).
  { unfold g7. replace (pc g6 - a1) with (len ca + len b + 6) by lia. apply (patch_at g _ _ 128 x); [|lia|done]. apply (made_same g g6); [|done|done|done].
    pose proof (made_trans _ _ _ _ _ (made_trans _ _ _ _ _ M4 M5) M6) as M. rewrite <- !app_assoc in M. exact M. }
  assert (R7 : room g7 2) by (by apply (room_same g6)). pose proof R7 as (T1 & T2 & T3 & _). pose proof (emit_jmp_made (a1 + 4 - (pc g7 + 2)) g7 T1 ltac:(lia)) as M8. set (g8 := emit_jmp (a1 + 4 - (pc g7 + 2)) g7) in *.
  exists g8. split; [|split; [|split; [done|split; [done|exact K6]]]].
  - apply action_ok; [unfold op_for_end; rewrite Y6; done|]. apply (made_fits g7 g8 _ 1 M8); [rewrite len_jump; lia|eapply room_le; [exact R7|lia]].
  - replace (a1 + 4 - (pc g7 + 2)) with (- (len ca + len b + 4)) in M8 by lia. pose proof (made_trans _ _ _ _ _ M7 M8) as M. rewrite <- !app_assoc in M. exact M.
Qed.

Lemma for_made i e a s : block_gen s -> 0 <= weights s -> stmt_gen (SFor i e a s).
Proof.
  intros IH Ws g (Oi & Oe & Oa & Os) R. cbn [weight_s] in R. fold (weights s) in R. pose proof (weight_pos e) as We. cbn [gen_stmt].
  pose proof (sum_app_pos weight_a i weight_a_pos) as Wi. pose proof (sum_app_pos weight_a a weight_a_pos) as Wa. set (wi := sum (weight_a <$> i)) in *. set (wa := sum (weight_a <$> a)) in *.
  destruct (gen_assigns_made i g Oi ltac:(eapply room_le; [exact R|lia])) as (gi & -> & Mi). cbn [abind]. fold wi in Mi.
  assert (Ri : room gi (weight e + (wa + weights s + 4))) by (eapply (stmt_made_room _ wi); [exact Mi|eapply room_le; [exact R|lia]]). destruct Mi as [Mi Li Yi Ki].
  set (g0 := set_syms (IFld (pc gi) 0 0 0 :: syms gi) gi). rewrite (action_ok op_for_init gi g0); [|done|cbn [g0 set_syms pc cdsz]; unfold room in Ri; lia]. cbn [abind].
  destruct (gen_exp_stmt e g0 Oe ltac:(eapply room_le; [exact Ri|lia])) as (g1 & -> & M1). cbn [abind].
  assert (R1 : room g1 (wa + weights s + 4)) by (eapply stmt_made_room; [exact M1|exact Ri]). destruct M1 as [M1 L1 Y1 K1]. cbn [g0 set_syms syms] in Y1.
  destruct (for_cond_made g1 (IFld (pc gi) (pc g1) (pc g1 + 2) (pc g1 + 4) :: syms gi) ltac:(eapply room_le; [exact R1|lia])) as (x & y & M2 & K2 & F2 & P2 & P2').
  set (g2 := set_syms (IFld (pc gi) (pc g1) (pc g1 + 2) (pc g1 + 4) :: syms gi) (reserve OPC_JMP (save_pc (reserve OPC_JEQ g1)))) in *.
  rewrite (action_ok op_for_cond g1 g2); [|unfold op_for_cond; rewrite Y1; unfold g2; rewrite <- P2, <- P2'; done|done]. cbn [abind].
  assert (R2 : room g2 (wa + (weights s + 3))) by (eapply (room_made _ _ _ 1); [exact M2|change (len (_ ++ _)) with 4; lia|done|eapply room_le; [exact R1|lia]|lia]).
  destruct (gen_assigns_made a g2 Oa ltac:(eapply room_le; [exact R2|lia])) as (g3 & -> & M3). cbn [abind]. fold wa in M3. pose proof (stmt_made_room _ _ _ _ _ M3 R2) as R3. destruct M3 as [M3 L3 Y3 K3]. change (syms g2) with (IFld (pc gi) (pc g1) (pc g1 + 2) (pc g1 + 4) :: syms gi) in Y3.
  set (ci := comp_assigns obj_addr i) in *. set (ca := comp_assigns obj_addr a) in *. set (le := comp_exp obj_addr e) in *.
  assert (Ei : pc gi = pc g + len ci) by apply (md_pc _ _ _ Mi). assert (E1 : pc g1 = pc gi + len le) by apply (md_pc _ _ _ M1). assert (E3 : pc g3 = pc g1 + 4 + len ca) by (rewrite (md_pc _ _ _ M3), P2'; done).
  assert (F3 : made g g3 ((ci ++ le ++ [OPC_JEQ; x]) ++ [OPC_JMP; y] ++ ca)).
  { replace ((ci ++ le ++ [OPC_JEQ; x]) ++ [OPC_JMP; y] ++ ca) with (ci ++ le ++ ([OPC_JEQ; x] ++ [OPC_JMP; y]) ++ ca) by (by rewrite <- !app_assoc).
    apply (made_trans g gi); [done|]. apply (made_trans gi g1); [by apply (made_from g0)|]. by apply (made_trans g1 g2). }
  assert (E0 : pc gi = pc g1 - len le) by lia. rewrite E0 in Y3.
  change ((fix gen_stmts l g := match l with [] => AOk g | s :: l => let! g := gen_stmt (fun _ => obj_addr) s g in gen_stmts l g end)) with (gen_stmts (fun _ => obj_addr)).
  destruct (for_tail_made g g3 (ci ++ le) x y ca s (pc g1) (len le) (syms gi)) as (g' & E & M & Lb & Y & K); try done; [by rewrite <- (app_assoc ci le)|rewrite len_app; lia|].
  exists g'. split; [exact E|]. cbn [comp_stmt weight_s]. fold (comp_stmts obj_addr s) (weights s). fold ci ca le wi wa. change (stack_pos g0) with (stack_pos gi) in K1. constructor; [by rewrite <- (app_assoc ci le) in M| |congruence|lia].
  rewrite !len_app, !len_jump. lia.
Qed.

End Gen.

(** ** Programs *)

Section StmtInd.

Variable P : stmt -> Prop.

Hypothesis PAssign : forall name e, P (SAssign name e).
Hypothesis PIf : forall e s, Forall P s -> P (SIf e s).
Hypothesis PIfElse : forall e s1 s2, Forall P s1 -> Forall P s2 -> P (SIfElse e s1 s2).
Hypothesis PWhile : forall e s, Forall P s -> P (SWhile e s).
Hypothesis PFor : forall i e a s, Forall P s -> P (SFor i e a s).

(** Induction with the statements of the blocks. *)
Fixpoint stmt_nested_ind (s : stmt) : P s :=
  let blk := fix blk (l : list stmt) : Forall P l :=
    match l with [] => List.Forall_nil P | s :: l => List.Forall_cons P s l (stmt_nested_ind s) (blk l) end in
  match s with
  | SAssign name e => PAssign name e
  | SIf e s => PIf e s (blk s)
  | SIfElse e s1 s2 => PIfElse e s1 s2 (blk s1) (blk s2)
  | SWhile e s => PWhile e s (blk s)
  | SFor i e a s => PFor i e a s (blk s)
  end.

End StmtInd.

Lemma sum_pos l : Forall (fun w => 0 <= w) l -> 0 <= sum l.
Proof. induction 1; cbn [sum foldr]; [lia|]. fold (sum l). lia. Qed.

Lemma weight_s_pos s : 0 <= weight_s s.
Proof.
  assert (W : forall l, Forall (fun s => 0 <= weight_s s) l -> 0 <= sum (weight_s <$> l)) by (intros l F; apply sum_pos; by rewrite Forall_fmap).
  induction s using stmt_nested_ind; cbn [weight_s]; repeat match goal with H : Forall _ _ |- _ => apply W in H end; try (pose proof (weight_pos e); lia); [apply weight_a_pos|].
  pose proof (weight_pos e). pose proof (sum_app_pos weight_a i weight_a_pos). pose proof (sum_app_pos weight_a a weight_a_pos). lia.
Qed.

Lemma weights_pos l : 0 <= weights l.
Proof. apply sum_pos. rewrite Forall_fmap. apply Forall_forall. intros s _. apply weight_s_pos. Qed.

(** ** What code leaves alone *)

(** The stack of the symbol table, the objects and their data. *)
Definition kept (g : microjs_sdt) : list item * list (ident * Z) * Z * Z := (syms g, objs g, data_pos g, data_sz g).

Lemma abind_inv r k g' : abind r k = AOk g' -> exists g, r = AOk g /\ k g = AOk g'.
Proof. destruct r as [e|g]; [done|]. by exists g. Qed.

Lemma action_inv op g g' : action op g = AOk g' -> op g = AOk g'.
Proof. unfold action. intros H. apply abind_inv in H as (g1 & E & H). by destruct (cdsz g1 <=? pc g1); simplify_eq. Qed.

Lemma emit_kept b g : kept (emit b g) = kept g.
Proof. done. Qed.

Lemma encode_kept x g : kept (encode_int x g) = kept g.
Proof. unfold encode_int. by repeat case_match. Qed.

Lemma push_kept g g' : tgt_stack_push g = AOk g' -> kept g' = kept g.
Proof. by intros [= <-]. Qed.

Lemma pop_kept g g' : tgt_stack_pop g = AOk g' -> kept g' = kept g.
Proof. unfold tgt_stack_pop. case_match; [done|]. by intros [= <-]. Qed.

Lemma binary_kept o g g' : bin_action o g = AOk g' -> kept g' = kept g.
Proof.
  assert (B : forall opc g', op_binary opc g = AOk g' -> kept g' = kept g) by (intros opc g1 H; apply pop_kept in H; by rewrite H).
  destruct o; cbn [bin_action]; try apply B; unfold op_equ, op_add, op_sub; (case_bool_decide; [|apply B]); [by intros [= <-]| |]; intros H1; apply pop_kept in H1; by rewrite H1.
Qed.

Lemma unary_kept o g g' : un_action o g = AOk g' -> kept g' = kept g.
Proof. destruct o; cbn [un_action]; unfold op_minus, op_inv, op_not; try (by intros [= <-]). case_match; intros [= <-]; [by rewrite encode_kept|done]. Qed.

Section Kept.

Context (obj_addr : ident -> option Z).

(** A name is pushed and taken again. *)
Lemma eval_kept name g g' : var_eval (fun _ => obj_addr) (set_syms (ITmp name :: syms g) g) = AOk g' -> kept g' = kept g.
Proof. unfold var_eval. cbn [syms set_syms]. case_match; [|done]. by intros X%push_kept. Qed.

Lemma gen_exp_kept e : forall g g', gen_exp (fun _ => obj_addr) e g = AOk g' -> kept g' = kept g.
Proof.
  induction e as [n| | |name|o e IH|o e1 IH1 e2 IH2]; intros g g' H; cbn [gen_exp] in H.
  - apply action_inv, push_kept in H. rewrite H. apply encode_kept.
  - by apply action_inv, push_kept in H.
  - by apply action_inv, push_kept in H.
  - apply abind_inv in H as (g1 & H1 & H). apply action_inv in H1, H. injection H1 as <-. by apply eval_kept in H.
  - apply abind_inv in H as (g1 & H1 & H). apply action_inv, unary_kept in H. apply IH in H1. congruence.
  - apply abind_inv in H as (g1 & H1 & H). apply abind_inv in H as (g2 & H2 & H). apply action_inv, binary_kept in H. apply IH1 in H1. apply IH2 in H2. congruence.
Qed.

Lemma kept_syms g g' : kept g' = kept g -> syms g' = syms g.
Proof. unfold kept. congruence. Qed.

Lemma store_kept name l g g' : syms g = ITmp name :: l -> var_assign (fun _ => obj_addr) g = AOk g' -> kept g' = (l, objs g, data_pos g, data_sz g).
Proof. intros Y. unfold var_assign. rewrite Y. case_match; [|done]. by intros X%pop_kept. Qed.

Lemma gen_assign_kept x g g' : gen_assign (fun _ => obj_addr) x g = AOk g' -> kept g' = kept g.
Proof.
  intros H. unfold gen_assign in H. apply abind_inv in H as (g1 & H1 & H). apply abind_inv in H as (g2 & H2 & H). apply action_inv in H1, H. injection H1 as <-. apply gen_exp_kept in H2. unfold kept in H2. cbn [set_syms syms objs data_pos data_sz] in H2. injection H2 as Y O P S.
  apply (store_kept _ _ _ _ Y) in H. rewrite H, O, P, S. done.
Qed.

Lemma gen_assigns_kept l : forall g g', gen_assigns (fun _ => obj_addr) l g = AOk g' -> kept g' = kept g.
Proof. induction l as [|x l IH]; intros g g' H; [by injection H as <-|]. cbn [gen_assigns] in H. apply abind_inv in H as (g1 & H1 & H). apply gen_assign_kept in H1. apply IH in H. congruence. Qed.

Definition keeps (gen : microjs_sdt -> act_res) : Prop := forall g g', gen g = AOk g' -> kept g' = kept g.

Lemma gen_block_kept gen : keeps gen -> keeps (gen_block gen).
Proof.
  intros K g g' H. unfold gen_block in H. apply abind_inv in H as (g1 & H1 & H). apply abind_inv in H as (g2 & H2 & H). apply action_inv in H1, H. injection H1 as <-. apply K in H2. unfold kept in H2. cbn [set_syms syms objs data_pos data_sz] in H2. injection H2 as Y O P S.
  unfold op_blk_close in H. rewrite Y in H. cbn [sym_sf_pop] in H. injection H as <-. unfold kept. cbn [set_objs set_syms syms objs data_pos data_sz]. rewrite O, S. unfold keep_objs. by rewrite Nat2Z.id, Nat.sub_diag.
Qed.

Lemma gen_stmts_keeps l : Forall (fun s => keeps (gen_stmt (fun _ => obj_addr) s)) l -> keeps (gen_stmts (fun _ => obj_addr) l).
Proof. induction 1 as [|s l Hs Hl IH]; intros g g' H; [by injection H as <-|]. cbn [gen_stmts] in H. apply abind_inv in H as (g1 & H1 & H). apply Hs in H1. apply IH in H. congruence. Qed.

Definition rest (g : microjs_sdt) : list (ident * Z) * Z * Z := (objs g, data_pos g, data_sz g).

Lemma kept_split g g' : kept g' = kept g <-> syms g' = syms g /\ rest g' = rest g.
Proof. unfold kept, rest. split; [intros [= -> -> -> ->]; done|]. by intros [-> [= -> -> ->]]. Qed.

(** What the actions of the statements put on the stack of the symbol table and take
    from it. *)
Lemma AOk_inj g g' : AOk g = AOk g' -> g = g'.
Proof. by intros [= ->]. Qed.

Lemma if_cond_kept g g' : op_if_cond g = AOk g' -> exists a, syms g' = IRef a :: syms g /\ rest g' = rest g.
Proof. intros <-%AOk_inj. eexists. split; reflexivity. Qed.

Lemma if_else_kept a l g g' : syms g = IRef a :: l -> op_if_else g = AOk g' -> exists a', syms g' = IRef a' :: l /\ rest g' = rest g.
Proof. unfold op_if_else. intros ->. intros <-%AOk_inj. eexists. split; reflexivity. Qed.

Lemma patch_ref_kept a l g g' : syms g = IRef a :: l -> op_patch_ref g = AOk g' -> syms g' = l /\ rest g' = rest g.
Proof. unfold op_patch_ref. intros ->. intros <-%AOk_inj. split; reflexivity. Qed.

Lemma while_cond_kept a b l g g' : syms g = IWld a b :: l -> op_while_cond g = AOk g' -> exists b', syms g' = IWld a b' :: l /\ rest g' = rest g.
Proof. unfold op_while_cond. intros ->. intros <-%AOk_inj. eexists. split; reflexivity. Qed.

Lemma while_end_kept a b l g g' : syms g = IWld a b :: l -> op_while_end g = AOk g' -> syms g' = l /\ rest g' = rest g.
Proof. unfold op_while_end. intros ->. intros <-%AOk_inj. split; reflexivity. Qed.

Lemma for_cond_kept a0 a1 a2 a3 l g g' : syms g = IFld a0 a1 a2 a3 :: l -> op_for_cond g = AOk g' -> exists b1 b2 b3, syms g' = IFld a0 b1 b2 b3 :: l /\ rest g' = rest g.
Proof. unfold op_for_cond. intros ->. intros <-%AOk_inj. eexists _, _, _. split; reflexivity. Qed.

Lemma for_after_kept a0 a1 a2 a3 l g g' : syms g = IFld a0 a1 a2 a3 :: l -> op_for_after g = AOk g' -> syms g' = IFld a0 a1 a2 a3 :: l /\ rest g' = rest g.
Proof. unfold op_for_after. intros ->. intros <-%AOk_inj. split; reflexivity. Qed.

Lemma for_end_kept a0 a1 a2 a3 l g g' : syms g = IFld a0 a1 a2 a3 :: l -> op_for_end g = AOk g' -> syms g' = l /\ rest g' = rest g.
Proof. unfold op_for_end. intros ->. intros <-%AOk_inj. split; reflexivity. Qed.

Lemma gen_stmt_keeps s : keeps (gen_stmt (fun _ => obj_addr) s).
Proof.
  induction s using stmt_nested_ind; intros g g' X; cbn [gen_stmt] in X; change ((fix gen_stmts l g := match l with [] => AOk g | s :: l => let! g := gen_stmt (fun _ => obj_addr) s g in gen_stmts l g end)) with (gen_stmts (fun _ => obj_addr)) in X.
  - by apply gen_assign_kept in X.
  - apply abind_inv in X as (g1 & H1 & X). apply abind_inv in X as (g2 & H2 & X). apply abind_inv in X as (g3 & H3 & X). apply action_inv in H2, X. apply gen_exp_kept, kept_split in H1 as [Y1 O1]. apply if_cond_kept in H2 as (a & Y2 & O2).
    apply gen_block_kept, kept_split in H3 as [Y3 O3]; [|by apply gen_stmts_keeps]. rewrite Y2 in Y3. apply (patch_ref_kept _ _ _ _ Y3) in X as [Y O]. apply kept_split. split; congruence.
  - apply abind_inv in X as (g1 & H1 & X). apply abind_inv in X as (g2 & H2 & X). apply abind_inv in X as (g3 & H3 & X). apply abind_inv in X as (g4 & H4 & X). apply abind_inv in X as (g5 & H5 & X). apply action_inv in H2, H4, X.
    apply gen_exp_kept, kept_split in H1 as [Y1 O1]. apply if_cond_kept in H2 as (a & Y2 & O2). apply gen_block_kept, kept_split in H3 as [Y3 O3]; [|by apply gen_stmts_keeps]. rewrite Y2 in Y3. apply (if_else_kept _ _ _ _ Y3) in H4 as (a' & Y4 & O4).
    apply gen_block_kept, kept_split in H5 as [Y5 O5]; [|by apply gen_stmts_keeps]. rewrite Y4 in Y5. apply (patch_ref_kept _ _ _ _ Y5) in X as [Y O]. apply kept_split. split; congruence.
  - apply abind_inv in X as (g1 & H1 & X). apply abind_inv in X as (g2 & H2 & X). apply abind_inv in X as (g3 & H3 & X). apply abind_inv in X as (g4 & H4 & X). apply action_inv in H1, H3, X. injection H1 as <-. apply gen_exp_kept, kept_split in H2 as [Y2 O2].
    apply (while_cond_kept _ _ _ _ _ Y2) in H3 as (b & Y3 & O3). apply gen_block_kept, kept_split in H4 as [Y4 O4]; [|by apply gen_stmts_keeps]. rewrite Y3 in Y4. apply (while_end_kept _ _ _ _ _ Y4) in X as [Y O]. apply kept_split. split; [done|]. by rewrite O, O4, O3, O2.
  - apply abind_inv in X as (g1 & H1 & X). apply abind_inv in X as (g2 & H2 & X). apply abind_inv in X as (g3 & H3 & X). apply abind_inv in X as (g4 & H4 & X). apply abind_inv in X as (g5 & H5 & X). apply abind_inv in X as (g6 & H6 & X). apply abind_inv in X as (g7 & H7 & X).
    apply action_inv in H2, H4, H6, X. apply gen_assigns_kept, kept_split in H1 as [Y1 O1]. injection H2 as <-. apply gen_exp_kept, kept_split in H3 as [Y3 O3]. apply (for_cond_kept _ _ _ _ _ _ _ Y3) in H4 as (b1 & b2 & b3 & Y4 & O4). apply gen_assigns_kept, kept_split in H5 as [Y5 O5]. rewrite Y4 in Y5.
    apply (for_after_kept _ _ _ _ _ _ _ Y5) in H6 as [Y6 O6]. apply gen_block_kept, kept_split in H7 as [Y7 O7]; [|by apply gen_stmts_keeps]. rewrite Y6 in Y7. apply (for_end_kept _ _ _ _ _ _ _ Y7) in X as [Y O]. apply kept_split. split; [congruence|]. rewrite O, O7, O6, O5, O4, O3. exact O1.
Qed.

Lemma gen_stmts_kept l : keeps (gen_stmts (fun _ => obj_addr) l).
Proof. apply gen_stmts_keeps, Forall_forall. intros s _. apply gen_stmt_keeps. Qed.

End Kept.

Section Program.

Context (obj_addr : ident -> option Z) (stk : Z).

Lemma stmts_made l : Forall (stmt_gen obj_addr stk) l -> stmts_gen obj_addr stk l.
Proof.
  induction 1 as [|s l Hs Hl IH]; intros g Ok R; [exists g; split; [done|apply stmt_made_nil]|]. destruct Ok as [Os Ol]. unfold weights in R. cbn [fmap list_fmap sum foldr] in R. fold (sum (weight_s <$> l)) in R. fold (weights l) in R.
  pose proof (weights_pos l). cbn [gen_stmts]. destruct (Hs g Os ltac:(eapply room_le; [exact R|lia])) as (g1 & -> & M1). cbn [abind]. destruct (IH g1 Ol (stmt_made_room _ _ _ _ _ M1 R)) as (g2 & -> & M2).
  exists g2. split; [done|]. apply (stmt_made_trans _ _ (weight_s s) (weights l) g g1 g2 M1 M2).
Qed.

(** The translator makes the reference code of a statement. *)
Lemma gen_stmt_made s : stmt_gen obj_addr stk s.
Proof.
  induction s using stmt_nested_ind.
  - exact (fun g => gen_assign_made obj_addr stk (name, e) g).
  - apply if_made; [apply block_made; [by apply stmts_made|]|]; apply weights_pos.
  - apply if_else_made; try apply weights_pos; (apply block_made; [by apply stmts_made|apply weights_pos]).
  - apply while_made; [apply block_made; [by apply stmts_made|]|]; apply weights_pos.
  - apply for_made; [apply block_made; [by apply stmts_made|]|]; apply weights_pos.
Qed.

End Program.

(** ** Declarations *)

(** The objects after a declaration, four bytes each. *)
Definition declare (l : list (ident * Z)) (name : ident) : list (ident * Z) :=
  match sym_obj_lookup l name with Some _ => l | None => (name, 4 * Z.of_nat (length l)) :: l end.

Definition declared (names : list ident) : list (ident * Z) := foldl declare [] names.

Lemma declare_len l names : (length (foldl declare l names) <= length l + length names)%nat.
Proof.
  revert l. induction names as [|x names IH]; intros l; cbn [foldl length]; [lia|]. specialize (IH (declare l x)). assert (H : (length (declare l x) <= S (length l))%nat) by (unfold declare; destruct (sym_obj_lookup l x); cbn [length]; lia). lia.
Qed.

Lemma align4 k : Z.land (4 * k + SIZEOF_WORD - 1) (Z.lnot (SIZEOF_WORD - 1)) = 4 * k.
Proof.
  rewrite <- Z.ldiff_land. change (4 - 1) with (Z.ones 2). rewrite Z.ldiff_ones_r, Z.shiftr_div_pow2, Z.shiftl_mul_pow2 by lia. change (2 ^ 2) with 4. replace (4 * k + 4 - 1) with (3 + k * 4) by lia. rewrite Z.div_add by lia. change (3 / 4) with 0. lia.
Qed.

(** The data of the objects is counted. *)
Record counted (g : microjs_sdt) : Prop := {
  ct_pos : data_pos g = 4 * Z.of_nat (length (objs g));
  ct_sz : data_sz g = data_pos g
}.

Lemma op_var_decl_made name g : sym_sf_pop (syms g) = None -> counted g -> 4 * (Z.of_nat (length (objs g)) + 1) < 65536 ->
  exists g', op_var_decl name g = AOk g' /\ objs g' = declare (objs g) name /\ counted g' /\ code g' = code g /\ pc g' = pc g /\ cdsz g' = cdsz g /\ stack_pos g' = stack_pos g /\ syms g' = syms g.
Proof.
  intros F [P Z] H. unfold op_var_decl, scope_objs, declare. rewrite F. destruct (sym_obj_lookup (objs g) name); [by exists g|].
  unfold data_alloc32. rewrite P, align4. eexists. split; [reflexivity|]. cbn [set_objs objs data_pos data_sz code pc cdsz stack_pos syms]. rewrite Z, P, !u16_small by lia. split; [done|]. split; [|done].
  constructor; cbn [set_objs objs data_pos data_sz length]; [lia|]. destruct (Z.ltb_spec (4 * Z.of_nat (length (objs g))) (4 * Z.of_nat (length (objs g)) + 4)); lia.
Qed.

Lemma gen_decls_made names : forall g, sym_sf_pop (syms g) = None -> counted g -> 4 * (Z.of_nat (length (objs g)) + Z.of_nat (length names)) < 65536 -> pc g < cdsz g ->
  exists g', gen_decls names g = AOk g' /\ objs g' = foldl declare (objs g) names /\ counted g' /\ code g' = code g /\ pc g' = pc g /\ cdsz g' = cdsz g /\ stack_pos g' = stack_pos g /\ syms g' = syms g.
Proof.
  induction names as [|x names IH]; intros g F C H Hp; [by exists g|]. cbn [length] in H. destruct (op_var_decl_made x g F C ltac:(lia)) as (g1 & E1 & O1 & C1 & K1 & K2 & K3 & K4 & K5). cbn [gen_decls].
  rewrite (action_ok (op_var_decl x) g g1 E1) by lia. cbn [abind]. rewrite (action_ok (op_push_tmp x) g1 (set_syms (ITmp x :: syms g1) g1)) by (try done; cbn [set_syms pc cdsz]; lia). cbn [abind].
  set (g2 := set_syms (syms g1) (set_syms (ITmp x :: syms g1) g1)). rewrite (action_ok op_pop_tmp _ g2) by (try done; cbn [g2 set_syms pc cdsz]; lia). cbn [abind].
  assert (Le : (length (objs g1) <= length (objs g) + 1)%nat) by (rewrite O1; unfold declare; destruct (sym_obj_lookup (objs g) x); cbn [length]; lia).
  destruct (IH g2) as (g' & E & O & C' & A1 & A2 & A3 & A4 & A5); [by rewrite <- F, <- K5|by destruct C1|cbn [g2 set_syms objs]; lia|cbn [g2 set_syms pc cdsz]; lia|].
  exists g'. split; [exact E|]. cbn [foldl]. rewrite <- O1. split; [exact O|]. split; [done|]. rewrite A1, A2, A3, A4, A5, <- K1, <- K2, <- K3, <- K4, <- K5. done.
Qed.

Section Whole.

Context (names : list ident).

Abbreviation obj_addr := (sym_obj_lookup (declared names)).

(** The code of a program: the frame of the default handler, the statements, the end,
    the handler. *)
Definition comp_program (p : list stmt) : list Z :=
  let b := comp_stmts obj_addr p in
  let h := len b + 4 in
  [OPC_PUSHX + Z.land h 15; u8 (Z.shiftr h 4)] ++ b ++ [OPC_POP; OPC_ABT; OPC_RET].

(** The number of words of data. *)
Definition words : Z := Z.of_nat (length (declared names)).

Definition program_ok (p : list stmt) (code_size : Z) : Prop :=
  all (stmt_ok obj_addr words) p /\ 5 * (weights p + 1) < code_size <= 65535 /\ 4 * (weights p + 1) < 65536 /\ Z.of_nat (length names) <= 4096.

Lemma handler_patch h g : patch_handler h g = patch h (pc g) g.
Proof. done. Qed.

Lemma program_made p c code_size : program_ok p code_size ->
  exists g, gen_program (fun _ => obj_addr) names p c code_size = AOk g /\ code_at (code g) 0 (comp_program p) /\ pc g = len (comp_program p) /\ data_sz g = 4 * words.
Proof.
  intros (Ok & Sz & St & Ns). pose proof (weights_pos p) as W. set (g0 := mk_sdt c code_size 0 0 0 0 [IRef 0] [] 0 0). pose proof (reserve_made OPC_PUSHX g0 ltac:(done) ltac:(done)) as M0.
  unfold gen_program, microjs_sdt_begin. fold g0. set (x := code g0 (pc g0 + 1)) in *. clearbody x. set (g1 := set_stack 4 4 (reserve OPC_PUSHX g0)). change (tgt_stack_push (reserve OPC_PUSHX g0)) with (AOk g1). cbn [abind].
  assert (C1 : code g1 = code (reserve OPC_PUSHX g0)) by done. assert (P1 : pc g1 = 2) by done. assert (S1 : stack_pos g1 = 4) by done. assert (Z1 : cdsz g1 = code_size) by done. assert (Y1 : syms g1 = [IRef 0]) by done. assert (G1 : counted g1) by done. assert (O1 : objs g1 = []) by done. clearbody g1.
  destruct (gen_decls_made names g1) as (g1' & -> & B0 & [D1 D2] & B1 & B2 & B3 & B4 & B5); [by rewrite Y1|done|rewrite O1; cbn [length]; lia|lia|]. cbn [abind]. rewrite O1 in B0. fold (declared names) in B0. rewrite D1, B0 in D2. fold words in D2. rewrite <- B1 in C1. rewrite <- B2 in P1. rewrite <- B3 in Z1. rewrite <- B4 in S1. rewrite <- B5 in Y1. clear B1 B2 B3 B4 B5 G1 O1 g1. rename g1' into g1.
  assert (M1 : made g0 g1 [OPC_PUSHX; x]) by (by apply (made_same g0 (reserve OPC_PUSHX g0))). assert (R1 : room g1 (weights p)) by (unfold room; rewrite P1, S1, Z1; lia).
  destruct (stmts_made obj_addr words p ltac:(apply Forall_forall; intros s _; apply gen_stmt_made) g1 Ok R1) as (g2 & E2 & [M2 L2 Y2 K2]). pose proof (gen_stmts_kept _ _ _ _ E2) as D3. apply kept_split in D3 as [_ [= _ _ D3]]. rewrite D2 in D3. rewrite E2. cbn [abind]. set (b := comp_stmts obj_addr p) in *.
  pose proof (md_pc _ _ _ M2) as P2. pose proof (md_sz _ _ _ M2) as Z2. pose proof (len_pos b) as Lb. unfold microjs_sdt_end. destruct (Z.ltb_spec (cdsz g2) (pc g2 + 3)); [lia|].
  destruct (stack_pop_ok g2 ltac:(lia) ltac:(lia)) as (g3 & E3 & S3 & C3 & P3 & Z3 & _ & Y3). pose proof (pop_kept _ _ E3) as D4. apply kept_split in D4 as [_ [= _ _ D4]]. rewrite D3 in D4. rewrite E3. cbn [abind]. pose proof (emits_made [OPC_POP; OPC_ABT] g3 ltac:(lia) ltac:(change (len [_; _]) with 2; lia)) as M4.
  change (emits [OPC_POP; OPC_ABT] g3) with (emit OPC_ABT (emit OPC_POP g3)) in M4. change (u8 <$> [OPC_POP; OPC_ABT]) with [OPC_POP; OPC_ABT] in M4. assert (Y4 : syms (emit OPC_ABT (emit OPC_POP g3)) = [IRef 0]) by (cbn [emit set_gpc set_code syms]; congruence). assert (D5 : data_sz (emit OPC_ABT (emit OPC_POP g3)) = 4 * words) by exact D4. set (g4 := emit OPC_ABT (emit OPC_POP g3)) in *. clearbody g4.
  rewrite Y4. cbn [last]. rewrite handler_patch. eexists. split; [reflexivity|]. pose proof (md_pc _ _ _ M4) as P4. change (len [OPC_POP; OPC_ABT]) with 2 in P4.
  assert (M5 : made g0 (patch 0 (pc g4) g4) ([] ++ jump OPC_PUSHX (pc g4) ++ b ++ [OPC_POP; OPC_ABT])).
  { apply (patch_at g0 g4 [] 96 x); [|lia|done]. apply (made_trans g0 g1 g4 [OPC_PUSHX; x]); [done|]. apply (made_trans g1 g2); [done|]. by apply (made_from g3). }
  set (g5 := patch 0 (pc g4) g4) in *. assert (P5 : pc g5 = pc g4) by done. assert (D6 : data_sz g5 = 4 * words) by exact D5. clearbody g5. pose proof (emits_made [OPC_RET] g5 ltac:(lia) ltac:(change (len [_]) with 1; lia)) as M6. change (emits [OPC_RET] g5) with (emit OPC_RET g5) in M6. change (u8 <$> [OPC_RET]) with [OPC_RET] in M6.
  pose proof (made_trans _ _ _ _ _ M5 M6) as M. rewrite <- !app_assoc in M. replace (pc g4) with (len b + 4) in M by lia. destruct M as [Mp _ _ Mc]. split; [exact Mc|]. split; [exact Mp|exact D6].
Qed.

End Whole.

(** ** Acceptance *)

(** The result of an action on a larger code buffer. *)
Definition set_cdsz (n : Z) (g : microjs_sdt) : microjs_sdt := mk_sdt (code g) n (pc g) (spc g) (stack_pos g) (stack_sz g) (syms g) (objs g) (data_pos g) (data_sz g).

Definition amap (f : microjs_sdt -> microjs_sdt) (r : act_res) : act_res := match r with AErr e => AErr e | AOk g => AOk (f g) end.

(** It does not look at the size of the buffer, and keeps it. *)
Definition blind (op : microjs_sdt -> act_res) : Prop :=
  forall g, (forall n, op (set_cdsz n g) = amap (set_cdsz n) (op g)) /\ match op g with AErr _ => True | AOk g' => cdsz g' = cdsz g end.

(** What is accepted is accepted with more room, with the same result. *)
Definition grows (gen : microjs_sdt -> act_res) : Prop :=
  forall g g' n, gen g = AOk g' -> cdsz g <= n -> gen (set_cdsz n g) = AOk (set_cdsz n g') /\ cdsz g' = cdsz g.

Lemma grows_bind f h : grows f -> grows h -> grows (fun g => abind (f g) h).
Proof.
  intros F H g g' n E L. apply abind_inv in E as (g1 & E1 & E2). destruct (F g g1 n E1 L) as [F1 L1]. rewrite F1. cbn [abind]. rewrite <- L1 in L. destruct (H g1 g' n E2 L) as [H1 L2]. split; [done|congruence].
Qed.

Lemma grows_action op : blind op -> grows (action op).
Proof.
  intros B g g' n E L. unfold action in *. apply abind_inv in E as (g1 & E1 & E2). destruct (B g) as [B1 Z1]. rewrite E1 in Z1. rewrite (B1 n), E1. cbn [amap abind].
  change (cdsz (set_cdsz n g1)) with n. change (pc (set_cdsz n g1)) with (pc g1). destruct (Z.leb_spec (cdsz g1) (pc g1)); [done|]. apply AOk_inj in E2 as <-. destruct (Z.leb_spec n (pc g1)); [lia|done].
Qed.

(** Each action; the state is a record of its parts. *)
Ltac blind_tac := let c := fresh in let l := fresh "l" in
  intros [c ? ? ? ? ? l ? ? ?]; split; [intros ?|];
  cbv [bin_action un_action op_push_int op_push_true op_push_false op_binary op_equ op_add op_sub op_neq op_gt op_lt op_gte op_lte op_logic_or op_logic_and op_or op_xor op_mul op_div op_mod op_and op_shl op_asr op_inv op_not op_minus
    op_blk_open op_blk_close op_var_decl op_pop_tmp op_push_tmp var_eval var_assign op_patch_ref op_if_cond op_if_else op_while_begin op_while_cond op_while_end op_for_init op_for_cond op_for_after op_for_end
    encode_int rollback last_const tgt_stack_push tgt_stack_pop sym_push save_pc emit emit_word emit_jmp reserve patch scope_objs data_alloc32 table
    amap set_cdsz set_code set_gpc set_stack set_syms set_objs code cdsz pc spc stack_pos stack_sz syms objs data_pos data_sz];
  repeat match goal with
  | |- context [match ?x with _ => _ end] => is_var x; destruct x
  | |- context [if ?b then _ else _] => lazymatch b with context [if _ then _ else _] => fail | _ => destruct b end
  | |- context [match ?x with Some _ => _ | None => _ end] => lazymatch x with context [if _ then _ else _] => fail | _ => destruct x end
  end;
  first [reflexivity|exact I].

Lemma blind_push_int x : blind (op_push_int x).
Proof. blind_tac. Qed.

Lemma blind_bin o : blind (bin_action o).
Proof. destruct o; blind_tac. Qed.

Lemma blind_un o : blind (un_action o).
Proof. destruct o; blind_tac. Qed.

Lemma blind_var (f : ident -> option Z) : blind (var_eval (fun _ => f)) /\ blind (var_assign (fun _ => f)).
Proof. split; blind_tac. Qed.

Lemma blind_words x : blind op_push_true /\ blind op_push_false /\ blind (op_push_tmp x) /\ blind (op_var_decl x) /\ blind op_pop_tmp.
Proof. split_and!; blind_tac. Qed.

Lemma blind_jumps : blind op_patch_ref /\ blind op_if_cond /\ blind op_if_else /\ blind op_while_begin /\ blind op_while_cond /\ blind op_while_end.
Proof. split_and!; blind_tac. Qed.

Lemma blind_for : blind op_for_init /\ blind op_for_cond /\ blind op_for_after /\ blind op_for_end.
Proof. split_and!; blind_tac. Qed.

Lemma blind_blk : blind op_blk_open /\ blind op_blk_close.
Proof.
  split; [blind_tac|]. intros [c ? ? ? ? ? l ? ? ?]. unfold op_blk_close. cbn [syms set_cdsz]. destruct (sym_sf_pop l) as [[[n p] l']|]; (split; [done|]); done.
Qed.

Create HintDb grows.
#[local] Hint Resolve grows_action grows_bind blind_push_int blind_bin blind_un : grows.

Section Grows.

Context (obj_addr : ident -> option Z).

Abbreviation lk := (fun _ : microjs_sdt => obj_addr).

Lemma grows_exp e : grows (gen_exp lk e).
Proof.
  pose proof (blind_words []) as (B1 & B2 & _). destruct (blind_var obj_addr) as [V _].
  induction e as [n| | |name|o e IH|o e1 IH1 e2 IH2]; cbn [gen_exp].
  - auto with grows.
  - auto with grows.
  - auto with grows.
  - destruct (blind_words name) as (_ & _ & B & _). apply (grows_bind (action (op_push_tmp name))); auto with grows.
  - apply (grows_bind (gen_exp lk e)); auto with grows.
  - apply (grows_bind (gen_exp lk e1)); [done|]. apply (grows_bind (gen_exp lk e2)); auto with grows.
Qed.

Lemma grows_assign x : grows (gen_assign lk x).
Proof.
  destruct (blind_words x.1) as (_ & _ & B & _). destruct (blind_var obj_addr) as [_ V]. unfold gen_assign.
  apply (grows_bind (action (op_push_tmp x.1))); [auto with grows|]. apply (grows_bind (gen_exp lk x.2)); [apply grows_exp|auto with grows].
Qed.

Lemma grows_nil : grows (fun g => AOk g).
Proof. intros g g' n <-%AOk_inj L. done. Qed.

Lemma grows_assigns l : grows (gen_assigns lk l).
Proof. induction l as [|x l IH]; [apply grows_nil|]. cbn [gen_assigns]. apply (grows_bind (gen_assign lk x)); [apply grows_assign|done]. Qed.

Lemma grows_block gen : grows gen -> grows (gen_block gen).
Proof.
  intros G. destruct blind_blk as [B1 B2]. unfold gen_block. apply (grows_bind (action op_blk_open)); [auto with grows|]. apply (grows_bind gen); auto with grows.
Qed.

Lemma grows_stmts l : Forall (fun s => grows (gen_stmt lk s)) l -> grows (gen_stmts lk l).
Proof. induction 1 as [|s l Hs Hl IH]; [apply grows_nil|]. cbn [gen_stmts]. by apply (grows_bind (gen_stmt lk s)). Qed.

Lemma grows_stmt s : grows (gen_stmt lk s).
Proof.
  destruct blind_jumps as (J1 & J2 & J3 & J4 & J5 & J6), blind_for as (F1 & F2 & F3 & F4).
  induction s using stmt_nested_ind; cbn [gen_stmt]; change ((fix gen_stmts l g := match l with [] => AOk g | s :: l => let! g := gen_stmt lk s g in gen_stmts l g end)) with (gen_stmts lk).
  - apply grows_assign.
  - apply (grows_bind (gen_exp lk e)); [apply grows_exp|]. apply (grows_bind (action op_if_cond)); [auto with grows|]. apply (grows_bind (gen_block (gen_stmts lk s))); [by apply grows_block, grows_stmts|auto with grows].
  - apply (grows_bind (gen_exp lk e)); [apply grows_exp|]. apply (grows_bind (action op_if_cond)); [auto with grows|]. apply (grows_bind (gen_block (gen_stmts lk s1))); [by apply grows_block, grows_stmts|].
    apply (grows_bind (action op_if_else)); [auto with grows|]. apply (grows_bind (gen_block (gen_stmts lk s2))); [by apply grows_block, grows_stmts|auto with grows].
  - apply (grows_bind (action op_while_begin)); [auto with grows|]. apply (grows_bind (gen_exp lk e)); [apply grows_exp|]. apply (grows_bind (action op_while_cond)); [auto with grows|].
    apply (grows_bind (gen_block (gen_stmts lk s))); [by apply grows_block, grows_stmts|auto with grows].
  - apply (grows_bind (gen_assigns lk i)); [apply grows_assigns|]. apply (grows_bind (action op_for_init)); [auto with grows|]. apply (grows_bind (gen_exp lk e)); [apply grows_exp|]. apply (grows_bind (action op_for_cond)); [auto with grows|].
    apply (grows_bind (gen_assigns lk a)); [apply grows_assigns|]. apply (grows_bind (action op_for_after)); [auto with grows|]. apply (grows_bind (gen_block (gen_stmts lk s))); [by apply grows_block, grows_stmts|auto with grows].
Qed.

Lemma grows_decls names : grows (gen_decls names).
Proof.
  induction names as [|x names IH]; [apply grows_nil|]. destruct (blind_words x) as (_ & _ & B1 & B2 & B3). cbn [gen_decls].
  apply (grows_bind (action (op_var_decl x))); [auto with grows|]. apply (grows_bind (action (op_push_tmp x))); [auto with grows|]. apply (grows_bind (action op_pop_tmp)); auto with grows.
Qed.

Lemma grows_end : grows microjs_sdt_end.
Proof.
  intros g g' n E L. unfold microjs_sdt_end in *. change (cdsz (set_cdsz n g)) with n. change (pc (set_cdsz n g)) with (pc g). destruct (Z.ltb_spec (cdsz g) (pc g + 3)); [done|]. destruct (Z.ltb_spec n (pc g + 3)); [lia|].
  apply abind_inv in E as (g1 & E1 & E). unfold tgt_stack_pop in *. change (stack_pos (set_cdsz n g)) with (stack_pos g). destruct (stack_pos g =? 0); [done|]. apply AOk_inj in E1 as <-. cbn [abind]. destruct g as [c sz p sp st ss l o dp ds]. cbn in *.
  destruct (last l) as [[]|]; try done. by apply AOk_inj in E as <-.
Qed.

(** A program that is accepted is accepted with a larger buffer, with the same code. *)
Lemma grows_program names p c code_size g n : gen_program lk names p c code_size = AOk g -> code_size <= n -> gen_program lk names p c n = AOk (set_cdsz n g).
Proof.
  intros E L. unfold gen_program in *. apply abind_inv in E as (g0 & E0 & E). apply AOk_inj in E0.
  change (microjs_sdt_begin c n) with (AOk (set_cdsz n (set_stack 4 4 (reserve OPC_PUSHX (mk_sdt c code_size 0 0 0 0 [IRef 0] [] 0 0))))). cbn [abind].
  assert (X : grows (fun g => let! g := gen_decls names g in let! g := gen_stmts lk p g in microjs_sdt_end g)).
  { apply (grows_bind (gen_decls names)); [apply grows_decls|]. apply (grows_bind (gen_stmts lk p)); [|apply grows_end]. apply grows_stmts, Forall_forall. intros s _. apply grows_stmt. }
  rewrite <- E0 in E. by apply (X _ g n E).
Qed.

End Grows.

(** ** The table *)

(** While the objects are [l], looking into the table is looking into [l]. *)
Section Table.

Context (l : list (ident * Z)).

Abbreviation obj_addr := (sym_obj_lookup l).
Abbreviation lk := (fun _ : microjs_sdt => obj_addr).

Definition same (f h : microjs_sdt -> act_res) : Prop := forall g, objs g = l -> f g = h g.

Definition steady (h : microjs_sdt -> act_res) : Prop := forall g g', h g = AOk g' -> objs g' = objs g.

Lemma same_bind f h k k' : same f h -> steady h -> same k k' -> same (fun g => abind (f g) k) (fun g => abind (h g) k').
Proof. intros F S K g Hg. rewrite (F g Hg). destruct (h g) as [e|g1] eqn:E; [done|]. cbn [abind]. apply K. rewrite (S g g1 E). done. Qed.

Lemma same_refl f : same f f.
Proof. done. Qed.

Lemma steady_kept h : keeps h -> steady h.
Proof. intros K g g' E. apply K in E. unfold kept in E. congruence. Qed.

Lemma steady_action op : steady op -> steady (action op).
Proof. intros S g g' E. apply S. by apply action_inv in E. Qed.

Lemma steady_push name : steady (op_push_tmp name).
Proof. by intros g g' <-%AOk_inj. Qed.

Lemma same_action op op' : same op op' -> same (action op) (action op').
Proof. intros S g Hg. unfold action. by rewrite (S g Hg). Qed.

Lemma same_var : same op_var_eval (var_eval lk) /\ same op_var_assign (var_assign lk).
Proof. split; intros g Hg; unfold op_var_eval, op_var_assign, var_eval, var_assign, table; by rewrite Hg. Qed.

Lemma same_exp e : same (gen_exp table e) (gen_exp lk e).
Proof.
  induction e as [n| | |name|o e IH|o e1 IH1 e2 IH2]; cbn [gen_exp]; try apply same_refl.
  - apply (same_bind (action (op_push_tmp name)) (action (op_push_tmp name))); [apply same_refl|apply steady_action, steady_push|apply same_action, same_var].
  - apply same_bind; [done|apply steady_kept; intros g g'; apply gen_exp_kept|apply same_refl].
  - apply same_bind; [done|apply steady_kept; intros g g'; apply gen_exp_kept|]. apply same_bind; [done|apply steady_kept; intros g g'; apply gen_exp_kept|apply same_refl].
Qed.

Lemma same_assign x : same (gen_assign table x) (gen_assign lk x).
Proof.
  unfold gen_assign. apply (same_bind (action (op_push_tmp x.1)) (action (op_push_tmp x.1))); [apply same_refl|apply steady_action, steady_push|].
  apply same_bind; [apply same_exp|apply steady_kept; intros g g'; apply gen_exp_kept|apply same_action, same_var].
Qed.

Lemma same_assigns a : same (gen_assigns table a) (gen_assigns lk a).
Proof. induction a as [|x a IH]; [apply same_refl|]. cbn [gen_assigns]. apply same_bind; [apply same_assign|apply steady_kept; intros g g'; apply gen_assign_kept|done]. Qed.

Lemma same_block f h : same f h -> same (gen_block f) (gen_block h).
Proof.
  intros S. unfold gen_block. apply (same_bind (action op_blk_open) (action op_blk_open)); [apply same_refl|apply steady_action; by intros g g' <-%AOk_inj|].
  intros g Hg. by rewrite (S g Hg).
Qed.

Lemma same_stmts p : Forall (fun s => same (gen_stmt table s) (gen_stmt lk s)) p -> same (gen_stmts table p) (gen_stmts lk p).
Proof. induction 1 as [|s p Hs Hp IH]; [apply same_refl|]. cbn [gen_stmts]. apply same_bind; [done|apply steady_kept, gen_stmt_keeps|done]. Qed.

(** The actions of the statements leave the objects alone. *)
Lemma steady_cond : steady op_if_cond /\ steady op_if_else /\ steady op_while_begin /\ steady op_while_cond /\ steady op_for_init /\ steady op_for_cond /\ steady op_for_after.
Proof.
  split_and!; intros g g'; unfold op_if_cond, op_if_else, op_while_begin, op_while_cond, op_for_init, op_for_cond, op_for_after; try (by intros <-%AOk_inj); (destruct (syms g) as [|[] ?]; try done; by intros <-%AOk_inj).
Qed.

Lemma same_stmt s : same (gen_stmt table s) (gen_stmt lk s).
Proof.
  destruct steady_cond as (S1 & S2 & S3 & S4 & S5 & S6 & S7). pose proof same_exp as Se. assert (Ke : forall e, steady (gen_exp lk e)) by (intros e; apply steady_kept; intros g g'; apply gen_exp_kept).
  assert (Kb : forall s, steady (gen_block (gen_stmts lk s))) by (intros s'; apply steady_kept, gen_block_kept, gen_stmts_kept). assert (Ka : forall a, steady (gen_assigns lk a)) by (intros a; apply steady_kept; intros g g'; apply gen_assigns_kept).
  induction s using stmt_nested_ind; cbn [gen_stmt];
    change ((fix gen_stmts l g := match l with [] => AOk g | s :: l => let! g := gen_stmt lk s g in gen_stmts l g end)) with (gen_stmts lk); change ((fix gen_stmts l g := match l with [] => AOk g | s :: l => let! g := gen_stmt table s g in gen_stmts l g end)) with (gen_stmts table).
  - apply same_assign.
  - apply same_bind; [done|done|]. apply same_bind; [apply same_refl|by apply steady_action|]. apply same_bind; [by apply same_block, same_stmts|done|apply same_refl].
  - apply same_bind; [done|done|]. apply same_bind; [apply same_refl|by apply steady_action|]. apply same_bind; [by apply same_block, same_stmts|done|]. apply same_bind; [apply same_refl|by apply steady_action|]. apply same_bind; [by apply same_block, same_stmts|done|apply same_refl].
  - apply same_bind; [apply same_refl|by apply steady_action|]. apply same_bind; [done|done|]. apply same_bind; [apply same_refl|by apply steady_action|]. apply same_bind; [by apply same_block, same_stmts|done|apply same_refl].
  - apply same_bind; [apply same_assigns|done|]. apply same_bind; [apply same_refl|by apply steady_action|]. apply same_bind; [done|done|]. apply same_bind; [apply same_refl|by apply steady_action|]. apply same_bind; [apply same_assigns|done|].
    apply same_bind; [apply same_refl|by apply steady_action|]. apply same_bind; [by apply same_block, same_stmts|done|apply same_refl].
Qed.

Lemma same_all p : same (gen_stmts table p) (gen_stmts lk p).
Proof. apply same_stmts, Forall_forall. intros s _. apply same_stmt. Qed.

End Table.

(** A program that the translator accepts is translated to the reference code. *)
Lemma program_accepted names p c code_size g :
  gen_program table names p c code_size = AOk g -> code_size <= 65535 -> all (stmt_ok (sym_obj_lookup (declared names)) (words names)) p -> weights p < 13106 -> Z.of_nat (length names) <= 4096 ->
  code_at (code g) 0 (comp_program names p) /\ data_sz g = 4 * words names.
Proof.
  intros E L Ok W Ns. assert (E' : gen_program (fun _ => sym_obj_lookup (declared names)) names p c code_size = AOk g).
  { unfold gen_program in *. apply abind_inv in E as (g0 & E0 & E). apply abind_inv in E as (g1 & E1 & E). rewrite E0. cbn [abind]. rewrite E1. cbn [abind]. rewrite <- (same_all (declared names) p g1); [done|].
    apply AOk_inj in E0. subst g0. destruct (Z.ltb_spec 2 code_size) as [Hc|Hc].
    - destruct (gen_decls_made names (set_stack 4 4 (reserve OPC_PUSHX (mk_sdt c code_size 0 0 0 0 [IRef 0] [] 0 0)))) as (g' & X & O & _); [done|done|change (objs _) with (@nil (ident * Z)); cbn [length]; lia|exact Hc|]. change (gen_decls names _) with (gen_decls names (set_stack 4 4 (reserve OPC_PUSHX (mk_sdt c code_size 0 0 0 0 [IRef 0] [] 0 0)))) in E1. rewrite X in E1. apply AOk_inj in E1 as <-. exact O.
    - destruct names as [|x names]; [by apply AOk_inj in E1 as <-|]. cbn [gen_decls] in E1. exfalso. apply abind_inv in E1 as (g2 & X & _). unfold action in X. apply abind_inv in X as (g3 & X3 & X).
      pose proof (blind_words x) as (_ & _ & _ & B & _). destruct (op_var_decl_made x (set_stack 4 4 (reserve OPC_PUSHX (mk_sdt c code_size 0 0 0 0 [IRef 0] [] 0 0)))) as (g4 & X4 & _ & _ & _ & P4 & Z4 & _); [done|done|done|].
      change (op_var_decl x _) with (op_var_decl x (set_stack 4 4 (reserve OPC_PUSHX (mk_sdt c code_size 0 0 0 0 [IRef 0] [] 0 0)))) in X3. rewrite X4 in X3. apply AOk_inj in X3 as <-. rewrite P4, Z4 in X. change (pc _) with 2 in X. change (cdsz _) with code_size in X. destruct (Z.leb_spec code_size 2); [done|lia]. }
  clear E. apply (grows_program _ _ _ _ _ _ 65535) in E'; [|done]. destruct (program_made names p c 65535) as (g' & X & C & _ & D); [split; [done|]; pose proof (weights_pos p); lia|].
  rewrite X in E'. apply AOk_inj in E'. subst g'. split; [exact C|exact D].
Qed.
