(* ===== verification/JsCorrect.v ===== *)
(** * Translated programs run right

    src/sdk/libmicrojs: what a program means, and that the machine of microjs_vm.c, on
    the code that the translator of microjs_sdt.c makes of it, computes that; then what
    the translator gets wrong. *)

From stdpp Require Import base tactics numbers list option relations.
From Stdlib Require Import ZArith Lia.
From S2P Require Import Prelude Buffer JsVm JsGen.

(** ** What a program means *)

Definition un_sem (o : uop) (v : Z) : Z := match o with UMinus => int32 (- v) | UInv => Z.lnot v | UNot => bool_int (v =? 0) end.

(** What the machine makes of an operation, when C defines it: the code of [&&] and [||]
    is that of [&] and [|]. *)
Definition op_sem (o : bop) (v1 v2 : Z) : option Z :=
  match o with
  | BOr | BLogicOr => Some (Z.lor v1 v2)
  | BXor => Some (Z.lxor v1 v2)
  | BAnd | BLogicAnd => Some (Z.land v1 v2)
  | BLt => Some (bool_int (v1 <? v2))
  | BGt => Some (bool_int (v2 <? v1))
  | BEqu => Some (bool_int (v1 =? v2))
  | BNeq => Some (bool_int (negb (v1 =? v2)))
  | BGte => Some (bool_int (v2 <=? v1))
  | BLte => Some (bool_int (v1 <=? v2))
  | BShl => if (0 <=? v2) && (v2 <? 32) then Some (int32 (Z.shiftl v1 v2)) else None
  | BAsr => if (0 <=? v2) && (v2 <? 32) then Some (Z.shiftr v1 v2) else None
  | BAdd => Some (int32 (v1 + v2))
  | BSub => Some (int32 (v1 - v2))
  | BDiv => if v2 =? 0 then None else Some (int32 (Z.quot v1 v2))
  | BMod => if v2 =? 0 then None else Some (Z.rem v1 v2)
  | BMul => Some (int32 (v1 * v2))
  end.

(** What an operation means: [&&] and [||] are about truth. *)
Definition bin_sem (o : bop) (v1 v2 : Z) : option Z :=
  match o with
  | BLogicOr => Some (bool_int (negb (v1 =? 0) || negb (v2 =? 0)))
  | BLogicAnd => Some (bool_int (negb (v1 =? 0) && negb (v2 =? 0)))
  | _ => op_sem o v1 v2
  end.

(** An expression whose value is a truth value. *)
Fixpoint truth_valued (e : exp) : bool :=
  match e with
  | EInt n => (n =? 0) || (n =? 1)
  | ETrue | EFalse => true
  | EUn UNot _ => true
  | EBin (BLt | BGt | BEqu | BNeq | BGte | BLte | BLogicOr | BLogicAnd) _ _ => true
  | EBin (BOr | BXor | BAnd) e1 e2 => truth_valued e1 && truth_valued e2
  | _ => false
  end.

(** The operands of [&&] and [||] are truth values. *)
Fixpoint logic_exp (e : exp) : Prop :=
  match e with
  | EInt _ | ETrue | EFalse | EVar _ => True
  | EUn _ e => logic_exp e
  | EBin o e1 e2 => logic_exp e1 /\ logic_exp e2 /\
      match o with BLogicOr | BLogicAnd => truth_valued e1 = true /\ truth_valued e2 = true | _ => True end
  end.

Definition logic_assign (x : ident * exp) : Prop := logic_exp x.2.

Fixpoint logic_stmt (s : stmt) : Prop :=
  match s with
  | SAssign _ e => logic_exp e
  | SIf e s | SWhile e s => logic_exp e /\ all logic_stmt s
  | SIfElse e s1 s2 => logic_exp e /\ all logic_stmt s1 /\ all logic_stmt s2
  | SFor i e a s => all logic_assign i /\ logic_exp e /\ all logic_assign a /\ all logic_stmt s
  end.

Section Meaning.

(** The meaning of the operations and the places of the variables. *)
Variable sem : bop -> Z -> Z -> option Z.
Variable obj_addr : ident -> option Z.

(** The value of an expression in the data [m]. *)
Fixpoint eval (m : mem) (e : exp) : option Z :=
  match e with
  | EInt n => Some n
  | ETrue => Some 1
  | EFalse => Some 0
  | EVar name => Some (m (word obj_addr name))
  | EUn o e => un_sem o <$> eval m e
  | EBin o e1 e2 => v1 ← eval m e1; v2 ← eval m e2; sem o v1 v2
  end.

Definition as_stmt (x : ident * exp) : stmt := SAssign x.1 x.2.

(** A statement within [n] nested rounds; a for statement is its while loop. *)
Fixpoint run (n : nat) (s : stmt) (m : mem) : option mem :=
  match n with
  | O => None
  | S n =>
      let runs (l : list stmt) (m : mem) := foldl (fun r s => r ≫= run n s) (Some m) l in
      match s with
      | SAssign name e => (fun v => upd m (word obj_addr name) v) <$> eval m e
      | SIf e s => v ← eval m e; if v =? 0 then Some m else runs s m
      | SIfElse e s1 s2 => v ← eval m e; if v =? 0 then runs s2 m else runs s1 m
      | SWhile e s => v ← eval m e; if v =? 0 then Some m else runs (s ++ [SWhile e s]) m
      | SFor i e a s => runs ((as_stmt <$> i) ++ [SWhile e (s ++ (as_stmt <$> a))]) m
      end
  end.

Definition runs (n : nat) (l : list stmt) (m : mem) : option mem := foldl (fun r s => r ≫= run n s) (Some m) l.

Lemma foldl_none n l : foldl (fun r s => r ≫= run n s) None l = None.
Proof. by induction l. Qed.

Lemma runs_cons n s l m m' : runs n (s :: l) m = Some m' <-> exists m1, run n s m = Some m1 /\ runs n l m1 = Some m'.
Proof.
  unfold runs. cbn [foldl mbind option_bind]. destruct (run n s m) as [m1|].
  - split; [by exists m1|]. by intros (? & [= <-] & H).
  - rewrite foldl_none. split; [done|]. by intros (? & ? & _).
Qed.

Lemma runs_app n l1 l2 m m' : runs n (l1 ++ l2) m = Some m' <-> exists m1, runs n l1 m = Some m1 /\ runs n l2 m1 = Some m'.
Proof.
  revert m. induction l1 as [|s l1 IH]; intros m; cbn [app].
  - split; [by exists m|]. by intros (? & [= <-] & H).
  - setoid_rewrite runs_cons. split.
    + intros (m1 & E & H). apply IH in H as (m2 & H1 & H2). exists m2. split; [|done]. by exists m1.
    + intros (m2 & (m1 & E & H1) & H2). exists m1. split; [done|]. apply IH. by exists m2.
Qed.

(** The words of the program. *)
Variable stk : Z.

Definition agree (m m' : mem) : Prop := forall x, x < stk -> m' x = m x.

Lemma eval_agree e m m' : exp_ok obj_addr stk e -> agree m m' -> eval m' e = eval m e.
Proof.
  intros Ok A. induction e as [n| | |name|o e IH|o e1 IH1 e2 IH2]; cbn [eval exp_ok] in *; try done.
  - destruct Ok as (a & _ & _ & W). by rewrite (A _ W).
  - by rewrite IH.
  - destruct Ok as [Ok1 Ok2]. by rewrite IH1, IH2.
Qed.

(** The distances of the jumps fit the twelve bits of their field. *)
Definition fits (offs : Z) : Prop := -2048 <= offs < 2048.

Fixpoint jumps_ok (s : stmt) : Prop :=
  match s with
  | SAssign _ _ => True
  | SIf e s => fits (len (comp_stmts obj_addr s)) /\ all jumps_ok s
  | SIfElse e s1 s2 => fits (len (comp_stmts obj_addr s1) + 2) /\ fits (len (comp_stmts obj_addr s2)) /\ all jumps_ok s1 /\ all jumps_ok s2
  | SWhile e s => fits (len (comp_stmts obj_addr s) + 2) /\ fits (- (len (comp_exp obj_addr e) + len (comp_stmts obj_addr s) + 4)) /\ all jumps_ok s
  | SFor i e a s =>
      let b := comp_stmts obj_addr s in let ca := comp_assigns obj_addr a in
      fits (len ca + len b + 6) /\ fits (- (len (comp_exp obj_addr e) + len ca + 6)) /\ all jumps_ok s
  end.

End Meaning.

(** ** Steps of the machine *)

Ltac vm_red := cbv [set_pc STACK_PUSH STACK_POP STACK_ADJUST v_pc v_sp v_xp v_mem v_env].

Ltac vm_same := vm_red; f_equal; f_equal; first [done|lia|f_equal; lia].

Section Machine.

Context {E : Type} (ext : Z -> E -> mem -> Z -> Z -> Z * E * mem) (c : mem).

Definition go (s s' : microjs_vm E) : Prop := vm_step ext c s = VGo s'.

Lemma split_op k x : 0 <= x < 16 -> Z.land (16 * k + x) 15 = x /\ Z.shiftr (16 * k + x) 4 = k.
Proof.
  intros H. change 15 with (Z.ones 4). rewrite Z.land_ones, Z.shiftr_div_pow2 by lia. change (2 ^ 4) with 16. split; [|symmetry; apply (Z.div_unique _ _ _ x); lia].
  rewrite Z.add_comm, Z.mul_comm, Z.mod_add by lia. apply Z.mod_small. lia.
Qed.

Lemma nibbles x : 0 <= x < 4096 -> Z.shiftl (Z.shiftr x 4) 4 + Z.land x 15 = x.
Proof. intros H. change 15 with (Z.ones 4). rewrite Z.land_ones, Z.shiftr_div_pow2, Z.shiftl_mul_pow2 by lia. change (2 ^ 4) with 16. pose proof (Z.div_mod x 16). lia. Qed.

Lemma jump_arg offs : -2048 <= offs < 2048 -> SIGNEXT12BIT (Z.shiftl (u8 (Z.shiftr offs 4)) 4 + Z.land offs 15) = offs.
Proof.
  intros H. unfold SIGNEXT12BIT, signext, u8. change 15 with (Z.ones 4). rewrite Z.land_ones, Z.shiftr_div_pow2, Z.shiftl_mul_pow2 by lia. change (2 ^ 4) with 16. change (2 ^ 12) with 4096. change (2 ^ (12 - 1)) with 2048.
  assert (X : (offs / 16) mod 256 * 16 + offs mod 16 = offs mod 4096) by (pose proof (Z.rem_mul_r offs 16 256 ltac:(lia) ltac:(lia)) as Q; change (16 * 256) with 4096 in Q; lia).
  rewrite X, Z.mod_mod by lia. destruct (Z.ltb_spec (offs mod 4096) 2048); Z.div_mod_to_equations; lia.
Qed.

Lemma step_jmp pc sp xp m env offs : code_at c pc (jump OPC_JMP offs) -> -2048 <= offs < 2048 -> go (mk_vm pc sp xp m env) (mk_vm (pc + 2 + offs) sp xp m env).
Proof.
  intros C H. unfold jump in C. rewrite !code_at_cons in C. destruct C as (C0 & C1 & _). pose proof (nibble offs) as N. destruct (split_op 7 (Z.land offs 15) N) as [S1 S2].
  unfold go, vm_step. vm_red. rewrite C0, C1. change 112 with (16 * 7). rewrite S1, S2. cbn [Z.eqb]. change (7 =? Z.shiftr (16 * 7) 4) with true. cbv iota. rewrite jump_arg by done. vm_same.
Qed.

Lemma step_jeq pc sp xp m env offs : code_at c pc (jump OPC_JEQ offs) -> -2048 <= offs < 2048 ->
  go (mk_vm pc sp xp m env) (mk_vm (if m (sp - 1) =? 0 then pc + 2 + offs else pc + 2) (sp - 1) xp m env).
Proof.
  intros C H. unfold jump in C. rewrite !code_at_cons in C. destruct C as (C0 & C1 & _). pose proof (nibble offs) as N. destruct (split_op 8 (Z.land offs 15) N) as [S1 S2].
  unfold go, vm_step. vm_red. rewrite C0, C1. change 128 with (16 * 8). rewrite S1, S2. change (8 =? Z.shiftr 112 4) with false. change (8 =? Z.shiftr (16 * 8) 4) with true. cbv iota. cbn [STACK_POP v_sp v_mem v_pc v_xp v_env].
  rewrite jump_arg by done. replace (pc + 1 + 1) with (pc + 2) by lia. by destruct (m (sp - 1) =? 0).
Qed.

Lemma step_ld pc sp xp m env (obj_addr : ident -> option Z) name : code_at c pc (word_code obj_addr OPC_LD name) ->
  go (mk_vm pc sp xp m env) (mk_vm (pc + 2) (sp + 1) xp (upd m sp (m (word obj_addr name))) env).
Proof.
  intros C. unfold word_code in C. rewrite !code_at_cons in C. destruct C as (C0 & C1 & _). pose proof (nibble (word obj_addr name)) as N. destruct (split_op 4 _ N) as [S1 S2].
  unfold go, vm_step. vm_red. rewrite C0, C1. change 64 with (16 * 4). rewrite S1, S2. change (Z.shiftr (16 * 4) 4) with 4. cbn [Z.eqb Z.shiftr Z.shiftl Pos.eqb Z.opp Pos.iter Z.div2 Pos.div2].
  rewrite nibbles by apply word_range. cbn [STACK_PUSH v_sp v_mem v_pc v_xp v_env]. vm_same.
Qed.

Lemma step_st pc sp xp m env (obj_addr : ident -> option Z) name : code_at c pc (word_code obj_addr OPC_ST name) ->
  go (mk_vm pc sp xp m env) (mk_vm (pc + 2) (sp - 1) xp (upd m (word obj_addr name) (m (sp - 1))) env).
Proof.
  intros C. unfold word_code in C. rewrite !code_at_cons in C. destruct C as (C0 & C1 & _). pose proof (nibble (word obj_addr name)) as N. destruct (split_op 5 _ N) as [S1 S2].
  unfold go, vm_step. vm_red. rewrite C0, C1. change 80 with (16 * 5). rewrite S1, S2. change (Z.shiftr (16 * 5) 4) with 5. cbn [Z.eqb Z.shiftr Z.shiftl Pos.eqb Z.opp Pos.iter Z.div2 Pos.div2].
  rewrite nibbles by apply word_range. cbn [STACK_POP v_sp v_mem v_pc v_xp v_env]. vm_same.
Qed.

Lemma step_misc pc sp xp m env opt : c pc = opt -> 0 <= opt < 16 -> vm_step ext c (mk_vm pc sp xp m env) = misc_op ext opt c (mk_vm (pc + 1) sp xp m env).
Proof.
  intros C H. destruct (split_op 0 opt H) as [S1 S2]. change (16 * 0 + opt) with opt in *. unfold vm_step. vm_red. by rewrite C, S1, S2.
Qed.

Lemma step_intop pc sp xp m env o : c pc = bin_opc o -> vm_step ext c (mk_vm pc sp xp m env) =
  match op_sem o (m (sp - 1 - 1)) (m (sp - 1)) with Some v => VGo (mk_vm (pc + 1) (sp - 1 - 1 + 1) xp (upd m (sp - 1 - 1) v) env) | None => VUndef end.
Proof. intros C. unfold vm_step. vm_red. rewrite C. by destruct o. Qed.

Lemma step_un pc sp xp m env o : c pc = match o with UMinus => OPC_NEG | UInv => OPC_INV | UNot => OPC_NOT end ->
  go (mk_vm pc sp xp m env) (mk_vm (pc + 1) sp xp (upd m (sp - 1) (un_sem o (m (sp - 1)))) env).
Proof. intros C. unfold go. rewrite (step_misc pc sp xp m env _ C) by (by destruct o). replace sp with (sp - 1 + 1) at 2 by lia. by destruct o. Qed.

Lemma step_inc pc sp xp m env : c pc = OPC_INC -> go (mk_vm pc sp xp m env) (mk_vm (pc + 1) sp xp (upd m (sp - 1) (int32 (m (sp - 1) + 1))) env).
Proof. intros C. unfold go. rewrite (step_misc pc sp xp m env _ C) by done. by replace sp with (sp - 1 + 1) at 2 by lia. Qed.

Lemma step_dec pc sp xp m env : c pc = OPC_DEC -> go (mk_vm pc sp xp m env) (mk_vm (pc + 1) sp xp (upd m (sp - 1) (int32 (m (sp - 1) - 1))) env).
Proof. intros C. unfold go. rewrite (step_misc pc sp xp m env _ C) by done. by replace sp with (sp - 1 + 1) at 2 by lia. Qed.

Lemma step_bin pc sp xp m env o v : c pc = bin_opc o -> op_sem o (m (sp - 2)) (m (sp - 1)) = Some v ->
  go (mk_vm pc sp xp m env) (mk_vm (pc + 1) (sp - 1) xp (upd m (sp - 2) v) env).
Proof. intros C S. unfold go. rewrite (step_intop pc sp xp m env _ C). replace (sp - 2) with (sp - 1 - 1) in * by lia. rewrite S. vm_same. Qed.

Lemma step_enc pc sp xp m env x : -2147483648 <= x < 2147483648 -> code_at c pc (enc x) -> go (mk_vm pc sp xp m env) (mk_vm (pc + len (enc x)) (sp + 1) xp (upd m sp x) env).
Proof.
  intros H. unfold go. destruct (enc_cases x) as [(X & ->)|[(_ & X & ->)|[(_ & X & ->)|(X & ->)]]]; rewrite !code_at_cons.
  - intros [C _]. destruct (small_decode x X) as (L & _ & _ & S1 & S2 & S3). unfold vm_step. vm_red. rewrite C, S1, S2, S3. reflexivity.
  - intros (C & C1 & _). rewrite (step_misc pc sp xp m env 6 C) by done. unfold misc_op. vm_red. rewrite C1. change (VGo (mk_vm (pc + 1 + 1) (sp + 1) xp (upd m sp (int8 (u8 x))) env) = VGo (mk_vm (pc + 2) (sp + 1) xp (upd m sp x) env)).
    rewrite int8_u8, int8_small by lia. vm_same.
  - intros (C & C1 & C2 & _). rewrite (step_misc pc sp xp m env 7 C) by done. unfold misc_op. vm_red. rewrite C1, C2.
    change (VGo (mk_vm (pc + 1 + 2) (sp + 1) xp (upd m sp (int16 (Z.lor (u8 x) (Z.shiftl (u8 (Z.shiftr x 8)) 8)))) env) = VGo (mk_vm (pc + 3) (sp + 1) xp (upd m sp x) env)). rewrite bytes2, int16_small by lia. vm_same.
  - intros (C & C1 & C2 & C3 & C4 & _). rewrite (step_misc pc sp xp m env 8 C) by done. unfold misc_op. vm_red. replace (pc + 1 + 1 + 1) with (pc + 1 + 2) in * by lia. replace (pc + 1 + 2 + 1) with (pc + 1 + 3) in * by lia. rewrite C1, C2, C3, C4.
    match goal with |- ?l = _ => change l with (VGo (mk_vm (pc + 1 + 4) (sp + 1) xp (upd m sp (int32 (Z.lor (Z.lor (Z.lor (u8 x) (Z.shiftl (u8 (Z.shiftr x 8)) 8)) (Z.shiftl (u8 (Z.shiftr x 16)) 16)) (Z.shiftl (u8 (Z.shiftr x 24)) 24)))) env)) end.
    rewrite bytes4, int32_u32, int32_small by lia. change (len [_; _; _; _; _]) with 5. vm_same.
Qed.

(** ** Expressions *)

Context (obj_addr : ident -> option Z) (stk : Z).

(** From [pc] to [pc'], the value [v] is pushed and nothing below changes. *)
Definition pushes (pc pc' sp xp : Z) (m : mem) (env : E) (v : Z) : Prop :=
  exists m', rtc go (mk_vm pc sp xp m env) (mk_vm pc' (sp + 1) xp m' env) /\ m' sp = v /\ forall x, x < sp -> m' x = m x.

Lemma push_step pc pc' sp xp m env v : go (mk_vm pc sp xp m env) (mk_vm pc' (sp + 1) xp (upd m sp v) env) -> pushes pc pc' sp xp m env v.
Proof. intros G. exists (upd m sp v). split; [by apply rtc_once|]. split; [apply upd_eq|]. intros x Hx. apply upd_ne. lia. Qed.

(** An instruction that changes the value. *)
Lemma push_change pc pc1 pc2 sp xp m env v v' :
  pushes pc pc1 sp xp m env v -> (forall m, m sp = v -> go (mk_vm pc1 (sp + 1) xp m env) (mk_vm pc2 (sp + 1) xp (upd m sp v') env)) -> pushes pc pc2 sp xp m env v'.
Proof.
  intros (m1 & G & V & K) G2. exists (upd m1 sp v'). split; [eapply rtc_r; [exact G|by apply G2]|]. split; [apply upd_eq|]. intros x Hx. rewrite upd_ne by lia. by apply K.
Qed.

Lemma int32_range z : -2147483648 <= int32 z < 2147483648.
Proof. unfold int32, u32. pose proof (Z.mod_pos_bound z 4294967296 ltac:(lia)). destruct (Z.ltb_spec (z mod 4294967296) 2147483648); lia. Qed.

Lemma cval_eval m e v : exp_ok obj_addr stk e -> cval e = Some v -> eval op_sem obj_addr m e = Some v /\ -2147483648 <= v < 2147483648.
Proof.
  revert v. induction e as [n| | |name|o e IH|o e1 IH1 e2 IH2]; intros v Ok; cbn [cval eval exp_ok] in *; try done; try (intros [= <-]; split; [done|lia]).
  destruct o; try done. destruct (cval e) as [w|]; [|done]. cbn [fmap option_fmap option_map]. intros [= <-]. destruct (IH w Ok eq_refl) as [-> _]. split; [done|]. apply int32_range.
Qed.

(** An instruction that takes the place of a constant operand computes the operation. *)
Lemma peephole_sem o k i v : peephole o (Some k) = Some i ->
  exists v', op_sem o v k = Some v' /\ forall pc sp xp m env, c pc = i -> m sp = v -> go (mk_vm pc (sp + 1) xp m env) (mk_vm (pc + 1) (sp + 1) xp (upd m sp v') env).
Proof.
  assert (X : forall sp, sp + 1 - 1 = sp) by lia.
  intros P. destruct o; try (by destruct k); cbn [peephole op_sem] in *; (destruct k as [|[]|]; try done; injection P as <-; eexists; split; [reflexivity|]; intros pc sp xp m env C V).
  - pose proof (step_un pc (sp + 1) xp m env UNot C) as G. rewrite X, V in G. exact G.
  - pose proof (step_inc pc (sp + 1) xp m env C) as G. rewrite X, V in G. exact G.
  - pose proof (step_dec pc (sp + 1) xp m env C) as G. rewrite X, V in G. exact G.
Qed.

(** The code of an expression pushes its value. *)
Lemma exp_pushes e : forall pc sp xp m env v, exp_ok obj_addr stk e -> stk <= sp -> code_at c pc (comp_exp obj_addr e) -> eval op_sem obj_addr m e = Some v ->
  pushes pc (pc + len (comp_exp obj_addr e)) sp xp m env v.
Proof.
  induction e as [n| | |name|o e IH|o e1 IH1 e2 IH2]; intros pc sp xp m env v Ok Sp C Ev; cbn [exp_ok] in Ok.
  - cbn [eval comp_exp] in *. injection Ev as <-. apply push_step. by apply step_enc.
  - cbn [eval comp_exp] in *. injection Ev as <-. apply push_step. by apply (step_enc pc sp xp m env 1).
  - cbn [eval comp_exp] in *. injection Ev as <-. apply push_step. by apply (step_enc pc sp xp m env 0).
  - cbn [eval comp_exp] in *. injection Ev as <-. apply push_step. by apply step_ld.
  - pose proof Ev as Ev'. cbn [eval] in Ev. destruct (eval op_sem obj_addr m e) as [w|] eqn:Ew; [|done]. cbn [fmap option_fmap option_map] in Ev. injection Ev as <-.
    assert (Plain : comp_exp obj_addr (EUn o e) = comp_exp obj_addr e ++ [match o with UMinus => OPC_NEG | UInv => OPC_INV | UNot => OPC_NOT end] -> pushes pc (pc + len (comp_exp obj_addr (EUn o e))) sp xp m env (un_sem o w)).
    { intros Ec. rewrite Ec in *. rewrite code_at_app, code_at_cons in C. destruct C as (C1 & C2 & _). rewrite len_app. change (len [_]) with 1. apply (push_change _ (pc + len (comp_exp obj_addr e)) _ sp xp m env w); [by apply IH|].
      intros m1 V. pose proof (step_un _ (sp + 1) xp m1 env o C2) as G. replace (sp + 1 - 1) with sp in G by lia. rewrite V, <- Z.add_assoc in G. exact G. }
    destruct o; [|by apply Plain|by apply Plain]. cbn [comp_exp] in *. destruct (cval e) as [k|] eqn:Ek; [|by apply Plain].
    destruct (cval_eval m e k Ok Ek) as [E1 _]. rewrite Ew in E1. injection E1 as ->. apply push_step. apply step_enc; [apply int32_range|done].
  - destruct Ok as [Ok1 Ok2]. cbn [eval] in Ev. destruct (eval op_sem obj_addr m e1) as [v1|] eqn:E1; [|done]. cbn [mbind option_bind] in Ev. destruct (eval op_sem obj_addr m e2) as [v2|] eqn:E2; [|done]. cbn [mbind option_bind] in Ev.
    cbn [comp_exp] in *. destruct (peephole o (cval e2)) as [i|] eqn:P.
    + destruct (cval e2) as [k|] eqn:Ek; [|by destruct o]. destruct (cval_eval m e2 k Ok2 Ek) as [X _]. rewrite E2 in X. injection X as ->. destruct (peephole_sem o k i v1 P) as (v' & S & G). rewrite Ev in S. injection S as <-.
      rewrite code_at_app, code_at_cons in C. destruct C as (C1 & C2 & _). rewrite len_app. change (len [i]) with 1. apply (push_change _ (pc + len (comp_exp obj_addr e1)) _ sp xp m env v1); [by apply IH1|].
      intros m1 V. rewrite Z.add_assoc. by apply G.
    + rewrite !code_at_app, code_at_cons in C. destruct C as (C1 & C2 & C3 & _). destruct (IH1 pc sp xp m env v1 Ok1 Sp C1 E1) as (m1 & G1 & V1 & K1).
      assert (E2' : eval op_sem obj_addr m1 e2 = Some v2) by (rewrite (eval_agree op_sem obj_addr stk e2 m m1 Ok2); [done|]; intros x Hx; apply K1; lia).
      destruct (IH2 _ (sp + 1) xp m1 env v2 Ok2 ltac:(lia) C2 E2') as (m2 & G2 & V2 & K2). pose proof (step_bin _ (sp + 1 + 1) xp m2 env o v C3) as G3.
      replace (sp + 1 + 1 - 2) with sp in G3 by lia. replace (sp + 1 + 1 - 1) with (sp + 1) in G3 by lia. rewrite V2, (K2 sp), V1 in G3 by lia. specialize (G3 Ev).
      exists (upd m2 sp v). split; [|split; [apply upd_eq|]].
      * rewrite !len_app. change (len [_]) with 1. rewrite !Z.add_assoc. etrans; [exact G1|]. eapply rtc_r; [exact G2|exact G3].
      * intros x Hx. rewrite upd_ne, K2, K1 by lia. done.
Qed.

(** ** Statements *)

(** From [pc] to [pc'], with the data [d] in the end and nothing else changed below the
    top of the stack. *)
Definition goes (pc pc' sp xp : Z) (m : mem) (env : E) (d : mem) : Prop :=
  exists m', rtc go (mk_vm pc sp xp m env) (mk_vm pc' sp xp m' env) /\ agree stk d m' /\ forall x, stk <= x < sp -> m' x = m x.

Lemma goes_refl pc sp xp m env d : agree stk d m -> goes pc pc sp xp m env d.
Proof. intros A. exists m. split; [apply rtc_refl|]. done. Qed.

Lemma goes_trans pc pc1 pc2 sp xp m env d1 d2 :
  goes pc pc1 sp xp m env d1 -> (forall m1, agree stk d1 m1 -> goes pc1 pc2 sp xp m1 env d2) -> goes pc pc2 sp xp m env d2.
Proof.
  intros (m1 & G1 & A1 & K1) H. destruct (H m1 A1) as (m2 & G2 & A2 & K2). exists m2. split; [by etrans|]. split; [done|]. intros x Hx. by rewrite K2, K1.
Qed.

Lemma goes_jmp pc sp xp m env d offs : code_at c pc (jump OPC_JMP offs) -> -2048 <= offs < 2048 -> agree stk d m -> goes pc (pc + 2 + offs) sp xp m env d.
Proof. intros C H A. exists m. split; [apply rtc_once; by apply step_jmp|]. done. Qed.

Lemma goes_cond e offs pc sp xp m env d v : exp_ok obj_addr stk e -> stk <= sp -> code_at c pc (comp_exp obj_addr e) -> code_at c (pc + len (comp_exp obj_addr e)) (jump OPC_JEQ offs) ->
  -2048 <= offs < 2048 -> agree stk d m -> eval op_sem obj_addr d e = Some v ->
  let pc' := pc + len (comp_exp obj_addr e) + 2 in goes pc (if v =? 0 then pc' + offs else pc') sp xp m env d.
Proof.
  intros Ok Sp C J H A Ev pc'. rewrite <- (eval_agree op_sem obj_addr stk e d m Ok A) in Ev. destruct (exp_pushes e pc sp xp m env v Ok Sp C Ev) as (m1 & G & V & K).
  pose proof (step_jeq _ (sp + 1) xp m1 env offs J H) as G2. replace (sp + 1 - 1) with sp in G2 by lia. rewrite V in G2. exists m1. split; [eapply rtc_r; [exact G|exact G2]|].
  split; [intros x Hx; rewrite K by lia; by apply A|intros x Hx; apply K; lia].
Qed.

Lemma goes_assign name e pc sp xp m env d v : assign_ok obj_addr stk (name, e) -> stk <= sp -> code_at c pc (comp_assign obj_addr (name, e)) -> agree stk d m -> eval op_sem obj_addr d e = Some v ->
  goes pc (pc + len (comp_assign obj_addr (name, e))) sp xp m env (upd d (word obj_addr name) v).
Proof.
  intros [(a & _ & _ & W) Ok] Sp C A Ev. cbn [fst snd] in *. unfold comp_assign in *. cbn [fst snd] in *. rewrite code_at_app in C. destruct C as [C1 C2]. rewrite <- (eval_agree op_sem obj_addr stk e d m Ok A) in Ev.
  destruct (exp_pushes e pc sp xp m env v Ok Sp C1 Ev) as (m1 & G & V & K). pose proof (step_st _ (sp + 1) xp m1 env obj_addr name C2) as G2. replace (sp + 1 - 1) with sp in G2 by lia. rewrite V in G2.
  exists (upd m1 (word obj_addr name) v). split; [|split].
  - rewrite len_app. change (len (word_code obj_addr 80 name)) with 2. rewrite Z.add_assoc. eapply rtc_r; [exact G|exact G2].
  - intros x Hx. unfold upd. destruct (x =? word obj_addr name); [done|]. rewrite K by lia. by apply A.
  - intros x Hx. rewrite upd_ne by lia. apply K. lia.
Qed.

(** What is to be shown of a statement within [n] rounds. *)
Definition right (n : nat) : Prop := forall s pc sp xp m env d d', run op_sem obj_addr n s d = Some d' -> stmt_ok obj_addr stk s -> code_at c pc (comp_stmt obj_addr s) -> jumps_ok obj_addr s ->
  agree stk d m -> stk <= sp -> goes pc (pc + len (comp_stmt obj_addr s)) sp xp m env d'.

Lemma goes_stmts n l : right n -> forall pc sp xp m env d d', runs op_sem obj_addr n l d = Some d' -> all (stmt_ok obj_addr stk) l -> code_at c pc (comp_stmts obj_addr l) -> all (jumps_ok obj_addr) l ->
  agree stk d m -> stk <= sp -> goes pc (pc + len (comp_stmts obj_addr l)) sp xp m env d'.
Proof.
  intros R. induction l as [|s l IH]; intros pc sp xp m env d d' Er Ok C L A Sp.
  - injection Er as <-. change (len (comp_stmts obj_addr [])) with 0. rewrite Z.add_0_r. by apply goes_refl.
  - apply runs_cons in Er as (d1 & E1 & E2). destruct Ok as [Os Ol]. change (comp_stmts obj_addr (s :: l)) with (comp_stmt obj_addr s ++ comp_stmts obj_addr l) in *. rewrite code_at_app in C. destruct C as [C1 C2]. rewrite len_app in *.
    destruct L as [L1 L2]. apply (goes_trans _ (pc + len (comp_stmt obj_addr s)) _ sp xp m env d1); [by eapply R|].
    intros m1 A1. rewrite Z.add_assoc. by eapply IH.
Qed.

Lemma all_assigns l : all (assign_ok obj_addr stk) l -> all (stmt_ok obj_addr stk) (as_stmt <$> l).
Proof. induction l as [|[] l IH]; [done|]. intros [H Hl]. split; [done|by apply IH]. Qed.

Lemma comp_as_stmt l : comp_stmts obj_addr (as_stmt <$> l) = comp_assigns obj_addr l.
Proof. unfold comp_stmts, comp_assigns. by rewrite <- list_fmap_compose. Qed.

Lemma jumps_assigns l : all (jumps_ok obj_addr) (as_stmt <$> l).
Proof. by induction l. Qed.

(** The loop of a for statement, whose third clause comes before its body in the code. *)
Lemma goes_for e a s n : (forall k, (k < n)%nat -> right k) -> exp_ok obj_addr stk e -> all (assign_ok obj_addr stk) a -> all (stmt_ok obj_addr stk) s -> all (jumps_ok obj_addr) s ->
  let le := comp_exp obj_addr e in let ca := comp_assigns obj_addr a in let b := comp_stmts obj_addr s in
  forall k, (k <= n)%nat -> forall pc sp xp m env d d', run op_sem obj_addr k (SWhile e (s ++ (as_stmt <$> a))) d = Some d' -> agree stk d m -> stk <= sp ->
  code_at c pc (le ++ jump OPC_JEQ (len ca + len b + 6) ++ jump OPC_JMP (len ca + 2) ++ ca ++ jump OPC_JMP (- (len le + len ca + 6)) ++ b ++ jump OPC_JMP (- (len ca + len b + 4))) ->
  fits (len ca + len b + 6) -> fits (- (len le + len ca + 6)) -> goes pc (pc + len le + len ca + len b + 8) sp xp m env d'.
Proof.
  intros Rk Oe Oa Os Js le ca b. unfold fits. pose proof (len_pos le). pose proof (len_pos ca). pose proof (len_pos b). induction k as [|k IH]; intros Hk pc sp xp m env d d' Er A Sp C L L'; [done|].
  pose proof C as C'. rewrite !code_at_app, !len_jump in C. destruct C as (C1 & C2 & C3 & C4 & C5 & C6 & C7). cbn [run] in Er. destruct (eval op_sem obj_addr d e) as [v|] eqn:Ev; [|done]. cbn [mbind option_bind] in Er.
  pose proof (goes_cond e _ pc sp xp m env d v Oe Sp C1 C2 ltac:(lia) A Ev) as G. cbv zeta in G. fold le in G. destruct (v =? 0); [injection Er as <-; by replace (pc + len le + len ca + len b + 8) with (pc + len le + 2 + (len ca + len b + 6)) by lia|].
  fold (runs op_sem obj_addr k ((s ++ (as_stmt <$> a)) ++ [SWhile e (s ++ (as_stmt <$> a))]) d) in Er. apply runs_app in Er as (d2 & Er & E3). apply runs_app in Er as (d1 & E1 & E2). apply runs_cons in E3 as (d3 & E3 & [= <-]).
  eapply goes_trans; [exact G|]. intros m1 A1. eapply goes_trans; [apply (goes_jmp _ sp xp m1 env d (len ca + 2) C3 ltac:(lia) A1)|]. intros m2 A2.
  assert (X : pc + len le + 2 + 2 + (len ca + 2) = pc + len le + 2 + 2 + len ca + 2) by lia. rewrite X.
  eapply goes_trans; [apply (goes_stmts k s (Rk k ltac:(lia)) _ sp xp m2 env d d1 E1 Os C6 Js A2 Sp)|]. intros m3 A3. fold b.
  eapply goes_trans; [apply (goes_jmp _ sp xp m3 env d1 _ C7 ltac:(lia) A3)|]. intros m4 A4.
  replace (pc + len le + 2 + 2 + len ca + 2 + len b + 2 + - (len ca + len b + 4)) with (pc + len le + 2 + 2) by lia.
  eapply goes_trans; [apply (goes_stmts k (as_stmt <$> a) (Rk k ltac:(lia)) _ sp xp m4 env d1 d2 E2 (all_assigns a Oa))|]; rewrite ?comp_as_stmt; try done; [apply jumps_assigns|]. intros m5 A5. fold ca.
  eapply goes_trans; [apply (goes_jmp _ sp xp m5 env d2 _ C5 ltac:(lia) A5)|]. intros m6 A6. replace (pc + len le + 2 + 2 + len ca + 2 + - (len le + len ca + 6)) with pc by lia.
  apply (IH ltac:(lia) pc sp xp m6 env d2 d3); done.
Qed.

(** The code of a statement does what the statement means. *)
Lemma stmt_right n : right n.
Proof.
  induction n as [n Rk] using lt_wf_ind. destruct n as [|n]; [by intros s pc sp xp m env d d' Er|]. pose proof (Rk n ltac:(lia)) as R. intros s pc sp xp m env d d' Er Ok C L A Sp.
  destruct s as [name e|e s|e s1 s2|e s|i e a s]; cbn [run stmt_ok comp_stmt jumps_ok] in *; fold (comp_stmts obj_addr) in *.
  - destruct (eval op_sem obj_addr d e) as [v|] eqn:Ev; [|done]. injection Er as <-. by apply goes_assign.
  - destruct Ok as [Oe Os]. fold (comp_stmts obj_addr s) in *. set (b := comp_stmts obj_addr s) in *. set (le := comp_exp obj_addr e) in *. pose proof (len_pos le). destruct L as [L1 L2]. unfold fits in L1. rewrite !code_at_app, len_jump in C. destruct C as (C1 & C2 & C3).
    destruct (eval op_sem obj_addr d e) as [v|] eqn:Ev; [|done]. cbn [mbind option_bind] in Er. pose proof (goes_cond e _ pc sp xp m env d v Oe Sp C1 C2 ltac:(lia) A Ev) as G. cbv zeta in G. fold le in G.
    rewrite !len_app, len_jump. replace (pc + (len le + (2 + len b))) with (pc + len le + 2 + len b) by lia. destruct (v =? 0); [by injection Er as <-|]. eapply goes_trans; [exact G|]. intros m1 A1. by eapply goes_stmts.
  - destruct Ok as (Oe & O1 & O2). fold (comp_stmts obj_addr s1) (comp_stmts obj_addr s2) in *. set (b1 := comp_stmts obj_addr s1) in *. set (b2 := comp_stmts obj_addr s2) in *. set (le := comp_exp obj_addr e) in *. pose proof (len_pos le). pose proof (len_pos b1). pose proof (len_pos b2).
    destruct L as (L1 & L2 & J1 & J2). unfold fits in L1, L2. rewrite !code_at_app, !len_jump in C. destruct C as (C1 & C2 & C3 & C4 & C5). destruct (eval op_sem obj_addr d e) as [v|] eqn:Ev; [|done]. cbn [mbind option_bind] in Er.
    pose proof (goes_cond e _ pc sp xp m env d v Oe Sp C1 C2 ltac:(lia) A Ev) as G. cbv zeta in G. fold le in G. rewrite !len_app, !len_jump. replace (pc + (len le + (2 + (len b1 + (2 + len b2))))) with (pc + len le + 2 + len b1 + 2 + len b2) by lia.
    destruct (v =? 0); (eapply goes_trans; [exact G|]; intros m1 A1).
    + replace (pc + len le + 2 + (len b1 + 2)) with (pc + len le + 2 + len b1 + 2) by lia. by eapply goes_stmts.
    + eapply goes_trans; [apply (goes_stmts n s1 R _ sp xp m1 env d d' Er O1 C3 J1 A1 Sp)|]. intros m2 A2. apply goes_jmp; [done|lia|done].
  - destruct Ok as [Oe Os]. fold (comp_stmts obj_addr s) in *. set (b := comp_stmts obj_addr s) in *. set (le := comp_exp obj_addr e) in *. pose proof (len_pos le). pose proof (len_pos b).
    assert (Ll : len (le ++ jump OPC_JEQ (len b + 2) ++ b ++ jump OPC_JMP (- (len le + len b + 4))) = len le + 2 + len b + 2) by (rewrite !len_app, !len_jump; lia). rewrite Ll. destruct L as (L1 & L2 & J). unfold fits in L1, L2. pose proof C as C'. rewrite !code_at_app, len_jump in C. destruct C as (C1 & C2 & C3 & C4).
    destruct (eval op_sem obj_addr d e) as [v|] eqn:Ev; [|done]. cbn [mbind option_bind] in Er. pose proof (goes_cond e _ pc sp xp m env d v Oe Sp C1 C2 ltac:(lia) A Ev) as G. cbv zeta in G. fold le in G.
    replace (pc + (len le + 2 + len b + 2)) with (pc + len le + 2 + (len b + 2)) by lia. destruct (v =? 0); [by injection Er as <-|]. eapply goes_trans; [exact G|]. intros m1 A1.
    fold (runs op_sem obj_addr n (s ++ [SWhile e s]) d) in Er. apply runs_app in Er as (d1 & E1 & E2). apply runs_cons in E2 as (d2 & E2 & [= <-]).
    eapply goes_trans; [apply (goes_stmts n s R _ sp xp m1 env d d1 E1 Os C3 J A1 Sp)|]. intros m2 A2. fold b. eapply goes_trans; [apply (goes_jmp _ sp xp m2 env d1 _ C4 ltac:(lia) A2)|]. intros m3 A3.
    replace (pc + len le + 2 + len b + 2 + - (len le + len b + 4)) with pc by lia. pose proof (R (SWhile e s) pc sp xp m3 env d1 d2 E2) as G3. cbn [stmt_ok comp_stmt jumps_ok] in G3. fold (comp_stmts obj_addr s) in G3. fold b le in G3. rewrite Ll in G3.
    replace (pc + len le + 2 + (len b + 2)) with (pc + (len le + 2 + len b + 2)) by lia. by apply G3.
  - destruct Ok as (Oi & Oe & Oa & Os). fold (comp_stmts obj_addr s) in *. rewrite code_at_app in C. destruct C as [C1 C2]. destruct L as (L1 & L2 & J). set (b := comp_stmts obj_addr s) in *. set (le := comp_exp obj_addr e) in *. set (ci := comp_assigns obj_addr i) in *. set (ca := comp_assigns obj_addr a) in *.
    pose proof (len_pos le). pose proof (len_pos b). pose proof (len_pos ci). pose proof (len_pos ca). fold (runs op_sem obj_addr n ((as_stmt <$> i) ++ [SWhile e (s ++ (as_stmt <$> a))]) d) in Er. apply runs_app in Er as (d1 & E1 & E2). apply runs_cons in E2 as (d2 & E2 & [= <-]).
    eapply goes_trans; [apply (goes_stmts n (as_stmt <$> i) R pc sp xp m env d d1 E1 (all_assigns i Oi))|]; rewrite ?comp_as_stmt; try done; [apply jumps_assigns|]. intros m1 A1. fold ci. rewrite !len_app, !len_jump.
    pose proof (goes_for e a s (S n) Rk Oe Oa Os J n ltac:(lia) (pc + len ci) sp xp m1 env d1 d2 E2 A1 Sp C2 L1 L2) as G. fold le ca b in G.
    by replace (pc + (len ci + (len le + (2 + (2 + (len ca + (2 + (len b + 2)))))))) with (pc + len ci + len le + len ca + len b + 8) by lia.
Qed.

(** ** Programs *)

Lemma step_pushx pc sp xp m env h : code_at c pc [OPC_PUSHX + Z.land h 15; u8 (Z.shiftr h 4)] -> exists v, go (mk_vm pc sp xp m env) (mk_vm (pc + 2) (sp + 1) (sp + 1) (upd m sp v) env).
Proof.
  rewrite !code_at_cons. intros (C0 & C1 & _). pose proof (nibble h) as N. destruct (split_op 6 (Z.land h 15) N) as [S1 S2]. change 96 with (16 * 6) in C0. eexists. unfold go, vm_step. vm_red. rewrite C0, C1, S1, S2.
  change (6 =? Z.shiftr 112 4) with false. change (6 =? Z.shiftr 128 4) with false. change (6 =? Z.shiftr (16 * 6) 4) with true. cbv iota. replace (pc + 1 + 1) with (pc + 2) by lia. reflexivity.
Qed.

(** The rounds of the loop. *)
Lemma exec_rtc s s' : rtc go s s' -> exists n, forall k, exec_loop ext (n + k) (fun _ => false) c s = exec_loop ext k (fun _ => false) c s'.
Proof. induction 1 as [s|s s1 s2 G _ (n & IH)]; [by exists O|]. exists (S n). intros k. cbn [Nat.add exec_loop]. rewrite G. apply IH. Qed.

End Machine.

(** ** Truth *)

Section Truth.

Context (obj_addr : ident -> option Z).

Lemma bool_int_truth b : bool_int b = 0 \/ bool_int b = 1.
Proof. destruct b; auto. Qed.

Lemma truth_value e m v : logic_exp e -> truth_valued e = true -> eval op_sem obj_addr m e = Some v -> v = 0 \/ v = 1.
Proof.
  revert v. induction e as [n| | |name|o e IH|o e1 IH1 e2 IH2]; intros v L T; cbn [eval].
  - cbn [truth_valued] in T. intros [= <-]. lia.
  - intros [= <-]. auto.
  - intros [= <-]. auto.
  - done.
  - destruct o; try done. destruct (eval op_sem obj_addr m e); [|done]. intros [= <-]. apply bool_int_truth.
  - destruct L as (L1 & L2 & L3). destruct (eval op_sem obj_addr m e1) as [v1|] eqn:E1; [|done]. cbn [mbind option_bind]. destruct (eval op_sem obj_addr m e2) as [v2|] eqn:E2; [|done]. cbn [mbind option_bind].
    assert (B : truth_valued e1 = true -> truth_valued e2 = true -> (v1 = 0 \/ v1 = 1) /\ (v2 = 0 \/ v2 = 1)) by (intros T1 T2; split; [by apply IH1|by apply IH2]).
    destruct o; cbn [op_sem truth_valued] in *; try done; try (intros [= <-]; apply bool_int_truth); (assert (T2 : truth_valued e1 = true /\ truth_valued e2 = true) by (done || by apply andb_true_iff)); destruct T2 as [T1 T2]; destruct (B T1 T2) as [[-> | ->] [-> | ->]]; intros [= <-]; auto.
Qed.

(** On truth values the code of [&&] and [||] computes what they mean. *)
Lemma eval_logic e m : logic_exp e -> eval bin_sem obj_addr m e = eval op_sem obj_addr m e.
Proof.
  induction e as [n| | |name|o e IH|o e1 IH1 e2 IH2]; intros L; cbn [eval logic_exp] in *; try done; [by rewrite IH|]. destruct L as (L1 & L2 & L3). rewrite IH1, IH2 by done.
  destruct (eval op_sem obj_addr m e1) as [v1|] eqn:E1; [|done]. cbn [mbind option_bind]. destruct (eval op_sem obj_addr m e2) as [v2|] eqn:E2; [|done]. cbn [mbind option_bind].
  destruct o; try done; destruct L3 as [T1 T2]; destruct (truth_value e1 m v1 L1 T1 E1) as [-> | ->], (truth_value e2 m v2 L2 T2 E2) as [-> | ->]; done.
Qed.

Lemma all_join {A} (P : A -> Prop) l1 l2 : all P l1 -> all P l2 -> all P (l1 ++ l2).
Proof. induction l1 as [|x l1 IH]; [done|]. intros [H1 H2] H. split; [done|by apply IH]. Qed.

Lemma logic_assigns l : all logic_assign l -> all logic_stmt (as_stmt <$> l).
Proof. induction l as [|[x e] l IH]; [done|]. intros [H1 H2]. split; [done|by apply IH]. Qed.

Lemma runs_logic n : (forall s m, logic_stmt s -> run bin_sem obj_addr n s m = run op_sem obj_addr n s m) -> forall l m, all logic_stmt l -> runs bin_sem obj_addr n l m = runs op_sem obj_addr n l m.
Proof.
  intros R l m L. unfold runs. generalize (Some m) as r. induction l as [|s l IH]; intros r; [done|]. destruct L as [Ls Ll]. cbn [foldl]. rewrite IH by done. f_equal. destruct r as [m1|]; [|done]. by apply R.
Qed.

Lemma run_logic n : forall s m, logic_stmt s -> run bin_sem obj_addr n s m = run op_sem obj_addr n s m.
Proof.
  induction n as [|n IH]; intros s m L; [done|]. pose proof (runs_logic n IH) as R. unfold runs in R. destruct s as [name e|e s|e s1 s2|e s|i e a s]; cbn [run logic_stmt] in *.
  - by rewrite eval_logic.
  - destruct L as [Le Ls]. rewrite eval_logic by done. destruct (eval op_sem obj_addr m e) as [v|]; [|done]. cbn [mbind option_bind]. destruct (v =? 0); [done|]. by apply R.
  - destruct L as (Le & L1 & L2). rewrite eval_logic by done. destruct (eval op_sem obj_addr m e) as [v|]; [|done]. cbn [mbind option_bind]. destruct (v =? 0); by apply R.
  - destruct L as [Le Ls]. rewrite eval_logic by done. destruct (eval op_sem obj_addr m e) as [v|]; [|done]. cbn [mbind option_bind]. destruct (v =? 0); [done|]. apply R. by apply all_join.
  - destruct L as (Li & Le & La & Ls). apply R. apply all_join; [by apply logic_assigns|]. split; [|done]. split; [done|]. apply all_join; [done|by apply logic_assigns].
Qed.

End Truth.

(** ** Programs that are accepted *)

(** Every variable is declared and every number fits a word; the program has fewer than
    13106 operations and at most 4096 variables, for which the counters of the translator
    are wide enough; the operands of [&&] and [||] are truth values; no jump is longer
    than its field. *)
Definition program_fits (names : list ident) (p : list stmt) : Prop :=
  let obj_addr := sym_obj_lookup (declared names) in
  all (stmt_ok obj_addr (words names)) p /\ weights p < 13106 /\ Z.of_nat (length names) <= 4096 /\
  all logic_stmt p /\ all (jumps_ok obj_addr) p.

(** C39: a program of assignments, conditionals and loops is accepted by the translator with a code
    buffer of any size up to 65535 bytes.  Its variables are declared, its numbers fit a word, it has
    fewer than 13106 operations, the operands of its && and || are truth values (comparisons, negations and
    what is made of them) and none of its jumps is longer than the field of a jump (2047 bytes).  If the program, run on the data [m], comes to
    an end with the data [d] without an operation that C leaves undefined (a division by zero, a shift
    by more than 31), then the machine, started on the code with [m] in its memory and a stack
    anywhere above the data, stops with 0, with the data [d], with the stack
    empty again and nothing done outside. *)
Theorem program_correct {E} (ext : Z -> E -> mem -> Z -> Z -> Z * E * mem) names p buf code_size g stack m env n d :
  gen_program table names p buf code_size = AOk g -> code_size <= 65535 -> program_fits names p ->
  runs bin_sem (sym_obj_lookup (declared names)) n p m = Some d ->
  let base := stack_base (data_sz g) stack in words names <= base ->
  exists fuel s, microjs_exec ext fuel (fun _ => false) (code g) (microjs_vm_init (data_sz g) stack m env) = Some (0, s) /\
    (forall x, x < words names -> v_mem s x = d x) /\ v_sp s = base /\ v_env s = env.
Proof.
  intros Eg Lc (Os & W & Ns & Lg & Js) Er base Hb. set (obj_addr := sym_obj_lookup (declared names)) in *. destruct (program_accepted names p buf code_size g Eg Lc Os W Ns) as [C D]. rewrite (runs_logic obj_addr n (run_logic obj_addr n) p m Lg) in Er.
  unfold microjs_vm_init. fold base. cbv zeta. clearbody base. set (stk := words names) in *.
  unfold comp_program in C. fold obj_addr in C. set (b := comp_stmts obj_addr p) in *. rewrite !code_at_app in C. destruct C as (C1 & C2 & C3). change (0 + len [_; _]) with 2 in C2, C3. rewrite !code_at_cons in C3. destruct C3 as (C3 & C4 & _).
  destruct (step_pushx ext (code g) 0 base base m env (len b + 4) C1) as (v & G1).
  destruct (goes_stmts ext (code g) obj_addr stk n p (stmt_right ext (code g) obj_addr stk n) 2 (base + 1) (base + 1) (upd m base v) env m d Er Os C2 Js) as (m' & G2 & A & _); [intros x Hx; apply upd_ne; lia|lia|]. fold b in G2.
  assert (G3 : vm_step ext (code g) (mk_vm (2 + len b) (base + 1) (base + 1) m' env) = VGo (mk_vm (2 + len b + 1) base (base + 1) m' env)) by (rewrite (step_misc ext (code g) _ _ _ _ _ 3 C3) by done; replace base with (base + 1 - 1) at 3 by lia; reflexivity).
  assert (G4 : vm_step ext (code g) (mk_vm (2 + len b + 1) base (base + 1) m' env) = VRet 0 (mk_vm (2 + len b + 1 + 1) base (base + 1) m' env)) by (by rewrite (step_misc ext (code g) _ _ _ _ _ 0 C4)).
  destruct (exec_rtc ext (code g) _ _ (rtc_l _ _ _ _ G1 (rtc_r _ _ _ G2 G3))) as (k & Ek). exists (k + 1)%nat, (mk_vm (2 + len b + 1 + 1) base (base + 1) m' env).
  split; [unfold microjs_exec; rewrite Ek; cbn [exec_loop]; by rewrite G4|]. split; [exact A|done].
Qed.

(** The sum of the odd numbers below ten, with a for, an if and a while. *)
Definition name_i : ident := [105].
Definition name_s : ident := [115].

Definition demo_program : list stmt :=
  [SAssign name_s (EInt 0);
   SFor [(name_i, EInt 0)] (EBin BLt (EVar name_i) (EInt 10)) [(name_i, EBin BAdd (EVar name_i) (EInt 1))]
     [SIfElse (EBin BEqu (EBin BMod (EVar name_i) (EInt 2)) (EInt 0)) [] [SAssign name_s (EBin BAdd (EVar name_s) (EVar name_i))]];
   SWhile (EBin BGt (EVar name_i) (EInt 5)) [SAssign name_i (EBin BSub (EVar name_i) (EInt 1))]].

Definition demo_names : list ident := [name_i; name_s].
Definition demo_addr : ident -> option Z := sym_obj_lookup (declared demo_names).

Lemma demo_name_ok name : name = name_i \/ name = name_s -> name_ok demo_addr 2 name.
Proof. intros [-> | ->]; [exists 0|exists 4]; vm_compute; repeat split; congruence. Qed.

Lemma demo_fits : program_fits demo_names demo_program.
Proof.
  unfold program_fits. cbv zeta. fold demo_addr. change (words demo_names) with 2. split; [|split_and!; [vm_compute; reflexivity|vm_compute; congruence|repeat split|vm_compute; repeat split; congruence]].
  cbn [demo_program all stmt_ok exp_ok]. unfold assign_ok. cbn [fst snd exp_ok]. repeat split; try (apply demo_name_ok; auto); lia.
Qed.

(** The sum is 25, with the stack behind the data and with the stack at word 100; forty
    bytes of code are not enough for the program, and sixty are. *)
Lemma program_correct_witness :
  gen_program table demo_names demo_program (fun _ => 0) 40 = AErr (- ERR_CODE_MEM_OVERFLOW) /\
  exists g, gen_program table demo_names demo_program (fun _ => 0) 60 = AOk g /\
    forall stack, stack = None \/ stack = Some 100 ->
    exists fuel s, microjs_exec (fun _ env m _ _ => (0, env, m)) fuel (fun _ => false) (code g) (microjs_vm_init (data_sz g) stack (fun _ => 0) tt) = Some (0, s) /\ v_mem s 1 = 25 /\ v_mem s 0 = 5.
Proof.
  split; [vm_compute; reflexivity|].
  assert (G : match gen_program table demo_names demo_program (fun _ => 0) 60 with AOk g => Some (data_sz g) | AErr _ => None end = Some 8) by (vm_compute; reflexivity). destruct (gen_program table demo_names demo_program (fun _ => 0) 60) as [e|g] eqn:Eg; [discriminate G|]. injection G as G. exists g. split; [reflexivity|].
  assert (D : (fun r => option_map (fun d : mem => (d 0, d 1)) r) (runs bin_sem demo_addr 40 demo_program (fun _ => 0)) = Some (5, 25)) by (vm_compute; reflexivity). destruct (runs bin_sem demo_addr 40 demo_program (fun _ => 0)) as [d|] eqn:Er; [|discriminate D]. injection D as D0 D1.
  intros stack Hs.
  destruct (program_correct (fun _ env m _ _ => (0, env, m)) demo_names demo_program (fun _ => 0) 60 g stack (fun _ => 0) tt 40 d Eg ltac:(lia) demo_fits Er) as (fuel & s & X & V & _); [rewrite G; destruct Hs as [-> | ->]; vm_compute; congruence|].
  exists fuel, s. split; [exact X|]. rewrite <- D0, <- D1. split; apply V; vm_compute; reflexivity.
Defined.
