(* ===== verification/JsExt.v ===== *)
(** * Objects and functions of the host in MicroJS

    src/sdk/libmicrojs/microjs_sdt.c, microjs_sym.c: the actions of the translator for
    the external objects, their attributes and arrays, and for the calls of external
    functions and methods; the search of the library.  Names are numbers, as in the rest
    of the translator. *)

From stdpp Require Import base tactics numbers list option relations.
From Stdlib Require Import ZArith Lia.
From S2P Require Import Prelude Buffer JsVm JsGen JsCorrect.

Abbreviation ERR_EXTERN_UNKNOWN := 15 (only parsing).
Abbreviation ERR_ARG_MISSING := 16 (only parsing).
Abbreviation ERR_TOO_MANY_ARGS := 17 (only parsing).
Abbreviation ERR_RET_COUNT_MISMATCH := 24 (only parsing).
Abbreviation ERR_EXTERN_NOT_SCALAR := 27 (only parsing).
Abbreviation ERR_EXTERN_NOT_FUNCTION := 28 (only parsing).
Abbreviation ERR_EXTERN_NOT_ARRAY := 29 (only parsing).
Abbreviation ERR_EXTERN_NOT_OBJECT := 30 (only parsing).
Abbreviation ERR_EXTERN_NOT_INTEGER := 31 (only parsing).
Abbreviation ERR_EXTERN_NOT_MEMBER := 32 (only parsing).
Abbreviation ERR_EXTERN_READONLY := 33 (only parsing).

Abbreviation O_ARRAY := 1 (only parsing).
Abbreviation O_MEMBER := 2 (only parsing).
Abbreviation O_SIZEOFFS := 4 (only parsing).
Abbreviation O_READONLY := 8 (only parsing).
Abbreviation O_SINGLETON := 8 (only parsing).
Abbreviation O_FUNCTION := 0 (only parsing).
Abbreviation O_INTEGER := 64 (only parsing).
Abbreviation O_OBJECT := 128 (only parsing).

(** An external definition, with the members of its union that the code reads. *)
Record extdef := mk_ext { x_nm : ident; x_opt : Z; x_argmin : Z; x_argmax : Z; x_ret : Z; x_cdef : Z; x_inst : Z; x_size : Z; x_offs : Z }.

Definition EXTDEF_TYPE (x : extdef) : Z := Z.land (x_opt x) 192.
Definition EXTDEF_FLAG (x : extdef) (o : Z) : bool := negb (Z.land (x_opt x) o =? 0).

(** The library: the definitions and, for each class, its first and last member. *)
Record ext_libdef := mk_lib { xdef : list extdef; classtab : list (Z * Z) }.

Fixpoint find_name (nm : ident) (i : Z) (l : list extdef) : option (Z * extdef) :=
  match l with [] => None | x :: l => if bool_decide (x_nm x = nm) then Some (i, x) else find_name nm (i + 1) l end.

(** The first definition with the name, with its number. *)
Definition lib_lookup (lib : ext_libdef) (nm : ident) : option (Z * extdef) := find_name nm 0 (xdef lib).

(** The same among the members of a class. *)
Definition lib_member_lookup (lib : ext_libdef) (cid : Z) (nm : ident) : option (Z * extdef) :=
  '(first, last) ← classtab lib !! Z.to_nat cid;
  find_name nm first (take (Z.to_nat (last + 1 - first)) (drop (Z.to_nat first) (xdef lib))).

Definition tgt_stack_adjust (cnt : Z) (g : microjs_sdt) : act_res :=
  let addr := stack_pos g + cnt * SIZEOF_WORD in
  if addr <? 0 then AErr (- ERR_STACK_UNDERFLOW) else AOk (set_stack (u16 addr) (stack_sz g) g).

Definition emit_ext (xid argc : Z) (g : microjs_sdt) : microjs_sdt := emit argc (emit xid (emit OPC_EXT g)).

Section Extern.

Variable lib : ext_libdef.

(** ** Objects *)

Definition op_object_get (g : microjs_sdt) : act_res :=
  match syms g with
  | ITmp nm :: l =>
      match lib_lookup lib nm with
      | None => AErr (- ERR_EXTERN_UNKNOWN)
      | Some (xid, x) =>
          if negb (EXTDEF_TYPE x =? O_OBJECT) then AErr (- ERR_EXTERN_NOT_OBJECT)
          else if EXTDEF_FLAG x O_ARRAY then AErr (- ERR_EXTERN_NOT_SCALAR)
          else
            let g := set_syms l g in
            let g := if EXTDEF_FLAG x O_SINGLETON then encode_int (x_inst x) g else emit_ext xid 0 g in
            let! g := tgt_stack_push g in
            sym_push (ICld (x_cdef x)) g
      end
  | _ => AErr (- ERR_SYM_POP_FAIL)
  end.

Definition op_array_xlat (g : microjs_sdt) : act_res :=
  match syms g with
  | ITmp nm :: l =>
      match lib_lookup lib nm with
      | None => AErr (- ERR_EXTERN_UNKNOWN)
      | Some (xid, x) =>
          if negb (EXTDEF_TYPE x =? O_OBJECT) then AErr (- ERR_EXTERN_NOT_OBJECT)
          else if negb (EXTDEF_FLAG x O_ARRAY) then AErr (- ERR_EXTERN_NOT_ARRAY)
          else
            let g := set_syms l g in
            let g :=
              if EXTDEF_FLAG x O_SIZEOFFS then
                let g := if 1 <? x_size x then emit OPC_MUL (encode_int (x_size x) g) else g in
                if negb (x_offs x =? 0) then emit OPC_ADD (encode_int (x_offs x) g) else g
              else emit_ext xid 1 g in
            sym_push (ICld (x_cdef x)) g
      end
  | _ => AErr (- ERR_SYM_POP_FAIL)
  end.

(** ** Members *)

(** The member that is named last, of the class below its name. *)
Definition class_member_pop (g : microjs_sdt) (k : Z -> extdef -> microjs_sdt -> act_res) : act_res :=
  match syms g with
  | ITmp nm :: ICld cid :: l =>
      match lib_member_lookup lib cid nm with
      | None => AErr (- ERR_EXTERN_UNKNOWN)
      | Some (xid, x) => if negb (EXTDEF_FLAG x O_MEMBER) then AErr (- ERR_EXTERN_NOT_MEMBER) else k xid x (set_syms l g)
      end
  | _ => AErr (- ERR_SYM_POP_FAIL)
  end.

Definition op_attr_eval (g : microjs_sdt) : act_res :=
  class_member_pop g (fun xid x g =>
    if negb (EXTDEF_TYPE x =? O_INTEGER) then AErr (- ERR_EXTERN_NOT_INTEGER)
    else if EXTDEF_FLAG x O_ARRAY then AErr (- ERR_EXTERN_NOT_SCALAR)
    else AOk (emit_ext xid 1 g)).

Definition op_array_eval (g : microjs_sdt) : act_res :=
  class_member_pop g (fun xid x g =>
    if negb (EXTDEF_TYPE x =? O_INTEGER) then AErr (- ERR_EXTERN_NOT_INTEGER)
    else if negb (EXTDEF_FLAG x O_ARRAY) then AErr (- ERR_EXTERN_NOT_ARRAY)
    else AOk (emit_ext xid 2 g)).

Definition op_attr_assign (g : microjs_sdt) : act_res :=
  class_member_pop g (fun xid x g =>
    if negb (EXTDEF_TYPE x =? O_INTEGER) then AErr (- ERR_EXTERN_NOT_INTEGER)
    else if EXTDEF_FLAG x O_READONLY then AErr (- ERR_EXTERN_READONLY)
    else if EXTDEF_FLAG x O_ARRAY then AErr (- ERR_EXTERN_NOT_SCALAR)
    else tgt_stack_adjust (-2) (emit_ext xid 2 g)).

Definition op_array_assign (g : microjs_sdt) : act_res :=
  class_member_pop g (fun xid x g =>
    if negb (EXTDEF_TYPE x =? O_INTEGER) then AErr (- ERR_EXTERN_NOT_INTEGER)
    else if EXTDEF_FLAG x O_READONLY then AErr (- ERR_EXTERN_READONLY)
    else if negb (EXTDEF_FLAG x O_ARRAY) then AErr (- ERR_EXTERN_NOT_ARRAY)
    else tgt_stack_adjust (-3) (emit_ext xid 3 g)).

(** ** Calls *)

Definition op_method_lookup (g : microjs_sdt) : act_res :=
  class_member_pop g (fun xid x g =>
    if negb (EXTDEF_TYPE x =? O_FUNCTION) then AErr (- ERR_EXTERN_NOT_FUNCTION)
    else sym_push (ICall (u8 xid) 1 (x_argmin x) (x_argmax x) (x_ret x)) g).

Definition op_function_lookup (g : microjs_sdt) : act_res :=
  match syms g with
  | ITmp nm :: l =>
      match lib_lookup lib nm with
      | None => AErr (- ERR_EXTERN_UNKNOWN)
      | Some (xid, x) =>
          if negb (EXTDEF_TYPE x =? O_FUNCTION) then AErr (- ERR_EXTERN_NOT_FUNCTION)
          else sym_push (ICall (u8 xid) 0 (x_argmin x) (x_argmax x) (x_ret x)) (set_syms l g)
      end
  | _ => AErr (- ERR_SYM_POP_FAIL)
  end.

End Extern.

Definition op_arg (g : microjs_sdt) : act_res :=
  match syms g with
  | ICall xid argcnt argmin argmax retcnt :: l => sym_push (ICall xid (u8 (argcnt + 1)) argmin argmax retcnt) (set_syms l g)
  | _ => AErr (- ERR_SYM_POP_FAIL)
  end.

Definition op_call (g : microjs_sdt) : act_res :=
  match syms g with
  | ICall xid argcnt argmin argmax retcnt :: l =>
      if argcnt <? argmin then AErr (- ERR_ARG_MISSING)
      else if argmax <? argcnt then AErr (- ERR_TOO_MANY_ARGS)
      else
        let! g := tgt_stack_adjust (retcnt - argcnt) (emit_ext xid argcnt (save_pc (set_syms l g))) in
        sym_push (ICall xid argcnt argmin argmax retcnt) g
  | _ => AErr (- ERR_SYM_POP_FAIL)
  end.

(** The instruction that drops [n] values. *)
Definition emit_drop (n : Z) (g : microjs_sdt) : microjs_sdt :=
  if 0 <? n then
    let g := save_pc g in
    if 1 <? n then emit n (emit OPC_ISP g) else emit OPC_POP g
  else g.

Definition op_ret_discard (g : microjs_sdt) : act_res :=
  match syms g with
  | ICall xid argcnt argmin argmax retcnt :: l => tgt_stack_adjust (- retcnt) (emit_drop retcnt (set_syms l g))
  | _ => AErr (- ERR_SYM_POP_FAIL)
  end.

(** All the values but one are dropped. *)
Definition op_call_ret (g : microjs_sdt) : act_res :=
  match syms g with
  | ICall xid argcnt argmin argmax retcnt :: l =>
      if retcnt <? 1 then AErr (- ERR_RET_COUNT_MISMATCH)
      else
        let n := retcnt - 1 in
        let g := emit_drop n (set_syms l g) in
        if 0 <? n then tgt_stack_adjust (- n) g else AOk g
  | _ => AErr (- ERR_SYM_POP_FAIL)
  end.

(** ** Calls run right *)

(** The arguments of a call. *)
Fixpoint gen_args (lookup : microjs_sdt -> ident -> option Z) (l : list exp) (g : microjs_sdt) : act_res :=
  match l with
  | [] => AOk g
  | e :: l =>
      let! g := gen_exp lookup e g in
      let! g := action op_arg g in
      gen_args lookup l g
  end.

(** [x = f(args)]. *)
Definition gen_call (lookup : microjs_sdt -> ident -> option Z) (lib : ext_libdef) (x f : ident) (args : list exp) (g : microjs_sdt) : act_res :=
  let! g := action (op_push_tmp x) g in
  let! g := action (op_push_tmp f) g in
  let! g := action (op_function_lookup lib) g in
  let! g := gen_args lookup args g in
  let! g := action op_call g in
  let! g := action op_call_ret g in
  action (var_assign lookup) g.

(** Looking into the table is looking into the objects it has. *)
Lemma same_args l args : same l (gen_args table args) (gen_args (fun _ => sym_obj_lookup l) args).
Proof.
  induction args as [|e args IH]; [apply same_refl|]. cbn [gen_args]. apply same_bind; [apply same_exp|apply steady_kept; intros g g'; apply gen_exp_kept|]. apply same_bind; [apply same_refl| |done].
  apply steady_action. intros g g'. unfold op_arg. destruct (syms g) as [|[] ?]; try done. by intros <-%AOk_inj.
Qed.

Lemma steady_args l args : steady (gen_args (fun _ => sym_obj_lookup l) args).
Proof.
  induction args as [|e args IH]; [by intros g g' <-%AOk_inj|]. intros g g' H. cbn [gen_args] in H. apply abind_inv in H as (g1 & H1 & H). apply abind_inv in H as (g2 & H2 & H). rewrite (IH g2 g' H). apply gen_exp_kept in H1. unfold kept in H1. injection H1 as _ O _ _. rewrite <- O.
  apply action_inv in H2. unfold op_arg in H2. destruct (syms g1) as [|[] ?]; try done. by apply AOk_inj in H2 as <-.
Qed.

Lemma steady_adjust n g g' : tgt_stack_adjust n g = AOk g' -> objs g' = objs g.
Proof. unfold tgt_stack_adjust. destruct (_ <? 0); [done|]. by intros <-%AOk_inj. Qed.

Lemma steady_lookup lib : steady (op_function_lookup lib).
Proof.
  intros g g'. unfold op_function_lookup. destruct (syms g) as [|[] ?]; try done. destruct (lib_lookup lib name) as [[xid xd]|]; [|done]. destruct (negb _); [done|]. by intros <-%AOk_inj.
Qed.

Lemma steady_call : steady op_call.
Proof.
  intros g g'. unfold op_call. destruct (syms g) as [|[| | | | | |xid argcnt amin amax ret] l]; try done. destruct (_ <? _); [done|]. destruct (_ <? _); [done|]. intros H. apply abind_inv in H as (g1 & H1 & <-%AOk_inj). cbn [set_syms objs]. by apply steady_adjust in H1.
Qed.

Lemma steady_call_ret : steady op_call_ret.
Proof.
  intros g g'. unfold op_call_ret. destruct (syms g) as [|[| | | | | |xid argcnt amin amax ret] l]; try done. destruct (_ <? 1); [done|]. assert (O : objs (emit_drop (ret - 1) (set_syms l g)) = objs g) by (unfold emit_drop; destruct (0 <? ret - 1); [destruct (1 <? ret - 1)|]; done).
  destruct (0 <? _); [intros H; apply steady_adjust in H; congruence|]. intros H. apply AOk_inj in H. congruence.
Qed.

Lemma same_call l lib x f args : same l (gen_call table lib x f args) (gen_call (fun _ => sym_obj_lookup l) lib x f args).
Proof.
  unfold gen_call. apply same_bind; [apply same_refl|apply steady_action, steady_push|]. apply same_bind; [apply same_refl|apply steady_action, steady_push|]. apply same_bind; [apply same_refl|apply steady_action, steady_lookup|].
  apply same_bind; [apply same_args|apply steady_args|]. apply same_bind; [apply same_refl|apply steady_action, steady_call|]. apply same_bind; [apply same_refl|apply steady_action, steady_call_ret|apply same_action, same_var].
Qed.

Section Call.

Context {E : Type} (ext : Z -> E -> mem -> Z -> Z -> Z * E * mem) (obj_addr : ident -> option Z) (stk : Z) (lib : ext_libdef).

Abbreviation lk := (fun _ : microjs_sdt => obj_addr).

Definition comp_args (l : list exp) : list Z := concat (comp_exp obj_addr <$> l).
Definition arg_weight (l : list exp) : Z := sum (weight <$> l).
Definition count (l : list exp) : Z := Z.of_nat (length l).

Lemma arg_weight_ge l : count l <= arg_weight l.
Proof.
  unfold count, arg_weight. induction l as [|e l IH]; cbn [length fmap list_fmap sum foldr]; [lia|]. fold (sum (weight <$> l)). pose proof (weight_pos e). lia.
Qed.

Lemma gen_args_made l : forall g xid k amin amax ret rest, syms g = ICall xid k amin amax ret :: rest -> all (exp_ok obj_addr stk) l -> room g (arg_weight l) -> 0 <= k -> k + count l < 256 ->
  exists g', gen_args lk l g = AOk g' /\ made g g' (comp_args l) /\ syms g' = ICall xid (k + count l) amin amax ret :: rest /\
    stack_pos g + 4 * count l <= stack_pos g' <= stack_pos g + 4 * arg_weight l /\ len (comp_args l) <= 5 * arg_weight l.
Proof.
  induction l as [|e l IH]; intros g xid k amin amax ret rest Y Ok R K0 K.
  - exists g. change (count []) with 0. change (arg_weight []) with 0. change (comp_args []) with (@nil Z). rewrite Z.add_0_r. split; [done|]. split; [apply made_refl|]. split; [done|]. change (len []) with 0. lia.
  - destruct Ok as [Oe Ol]. change (arg_weight (e :: l)) with (weight e + arg_weight l) in *. change (comp_args (e :: l)) with (comp_exp obj_addr e ++ comp_args l). assert (Ec : count (e :: l) = 1 + count l) by (unfold count; cbn [length]; lia). rewrite Ec in *.
    pose proof (arg_weight_ge l) as Wl. assert (C0 : 0 <= count l) by (unfold count; lia). cbn [gen_args]. destruct (gen_exp_made obj_addr stk e g Oe ltac:(eapply room_le; [exact R|lia])) as (g1 & -> & X). cbn [abind].
    pose proof (exp_made_room obj_addr stk e g g1 _ Oe X R) as R1. pose proof (comp_len obj_addr stk e Oe). destruct X as [M Ys (d & D & S) _ _]. set (g2 := set_syms (ICall xid (k + 1) amin amax ret :: rest) g1).
    rewrite (action_ok op_arg g1 g2); [|unfold op_arg; rewrite Ys, Y, u8_small by lia; done|cbn [g2 set_syms pc cdsz]; unfold room in R1; lia]. cbn [abind].
    destruct (IH g2 xid (k + 1) amin amax ret rest eq_refl Ol R1 ltac:(lia) ltac:(lia)) as (g3 & -> & M3 & Y3 & S3 & L3). change (stack_pos g2) with (stack_pos g1) in S3. exists g3. split; [done|]. split; [apply (made_trans g g1); [done|by apply (made_from g2)]|].
    split; [by rewrite Z.add_assoc|]. rewrite len_app. lia.
Qed.

(** The instruction that drops the second of two values. *)
Definition drops (ret : Z) : list Z := if ret =? 2 then [OPC_POP] else [].

Definition comp_call (x : ident) (xid ret : Z) (args : list exp) : list Z := comp_args args ++ [OPC_EXT; xid; count args] ++ drops ret ++ word_code obj_addr OPC_ST x.

Lemma call_ret_made g xid k amin amax ret l : syms g = ICall xid k amin amax ret :: l -> ret = 1 \/ ret = 2 -> room g 1 -> 4 * ret <= stack_pos g ->
  exists g', op_call_ret g = AOk g' /\ made g g' (drops ret) /\ syms g' = l /\ stack_pos g' = stack_pos g - 4 * (ret - 1).
Proof.
  intros Y Hr R S. unfold op_call_ret. rewrite Y. destruct Hr as [-> | ->].
  - exists (set_syms l g). split; [done|]. split; [apply (made_same g g); [apply made_refl|done|done|done]|]. split; [done|]. cbn [set_syms stack_pos]. lia.
  - pose proof R as (Q1 & Q2 & Q3 & Q4 & Q5). pose proof (emits_made [OPC_POP] (save_pc (set_syms l g)) Q1 ltac:(change (len [_]) with 1; cbn [save_pc set_syms pc]; lia)) as M. change (u8 <$> [OPC_POP]) with [OPC_POP] in M. apply (made_from _ g) in M; [|done|done|done].
    set (g1 := emits [OPC_POP] (save_pc (set_syms l g))) in *. assert (S1 : stack_pos g1 = stack_pos g) by done. assert (Y1 : syms g1 = l) by done. change (emit_drop (2 - 1) (set_syms l g)) with g1. clearbody g1.
    unfold tgt_stack_adjust. rewrite S1. cbn [Z.ltb Z.compare Pos.compare Pos.compare_cont]. change (0 <? 2 - 1) with true. change (2 <? 1) with false. cbv iota. destruct (Z.ltb_spec (stack_pos g + - (2 - 1) * 4) 0); [lia|]. eexists. split; [reflexivity|].
    split; [by apply (made_same g g1)|]. split; [done|]. cbn [set_stack stack_pos]. rewrite u16_small by lia. lia.
Qed.

(** The code of a call. *)
Lemma call_made x f xid xd args g : name_ok obj_addr stk x -> lib_lookup lib f = Some (xid, xd) -> 0 <= xid < 256 -> EXTDEF_TYPE xd = O_FUNCTION -> x_argmin xd <= count args <= x_argmax xd -> x_ret xd = 1 \/ x_ret xd = 2 -> count args < 256 ->
  all (exp_ok obj_addr stk) args -> room g (arg_weight args + 4) -> exists g', gen_call lk lib x f args g = AOk g' /\ made g g' (comp_call x xid (x_ret xd) args).
Proof.
  intros On Lf Hx Ty Ac Re Hc Oa R. pose proof (arg_weight_ge args) as Wa. assert (C0 : 0 <= count args) by (unfold count; lia). assert (Hp : pc g < cdsz g) by (unfold room in R; lia). set (ret := x_ret xd) in *. assert (Hr : 1 <= ret <= 2) by lia. unfold gen_call.
  set (g0 := set_syms (ITmp x :: syms g) g). rewrite (action_ok (op_push_tmp x) g g0) by done. cbn [abind]. rewrite (action_ok (op_push_tmp f) g0 (set_syms (ITmp f :: syms g0) g0)) by done. cbn [abind].
  set (g1 := set_syms (ICall xid 0 (x_argmin xd) (x_argmax xd) ret :: ITmp x :: syms g) g). rewrite (action_ok (op_function_lookup lib) _ g1); [|unfold op_function_lookup; cbn [set_syms syms]; rewrite Lf, Ty, u8_small by lia; done|done]. cbn [abind].
  assert (R1 : room g1 (arg_weight args + 4)) by exact R. destruct (gen_args_made args g1 xid 0 (x_argmin xd) (x_argmax xd) ret _ eq_refl Oa ltac:(eapply room_le; [exact R1|lia]) ltac:(lia) ltac:(lia)) as (g2 & -> & M2 & Y2 & S2 & L2). cbn [abind].
  assert (R2 : room g2 4) by (unfold room in *; rewrite (md_pc _ _ _ M2), (md_sz _ _ _ M2); pose proof (len_pos (comp_args args)); lia). pose proof R2 as (Q1 & Q2 & Q3 & Q4 & Q5). change (stack_pos g1) with (stack_pos g) in S2. rewrite Z.add_0_l in Y2.
  set (g3 := emits [OPC_EXT; xid; count args] (save_pc (set_syms (ITmp x :: syms g) g2))). pose proof (emits_made [OPC_EXT; xid; count args] (save_pc (set_syms (ITmp x :: syms g) g2)) Q1 ltac:(change (len [_; _; _]) with 3; cbn [save_pc set_syms pc]; lia)) as M3.
  fold g3 in M3. cbn [fmap list_fmap] in M3. rewrite (u8_small xid), (u8_small (count args)) in M3 by lia. change (u8 9) with 9 in M3. apply (made_from _ g2) in M3; [|done|done|done].
  pose proof (md_pc _ _ _ M3) as P3. change (len [_; _; _]) with 3 in P3. pose proof (md_sz _ _ _ M3) as Z3. assert (Y3 : syms g3 = ITmp x :: syms g) by done. assert (S3 : stack_pos g3 = stack_pos g2) by done.
  set (g4 := set_syms (ICall xid (count args) (x_argmin xd) (x_argmax xd) ret :: ITmp x :: syms g) (set_stack (stack_pos g2 + (ret - count args) * 4) (stack_sz g3) g3)).
  rewrite (action_ok op_call g2 g4).
  2: { unfold op_call. rewrite Y2. destruct (Z.ltb_spec (count args) (x_argmin xd)); [lia|]. destruct (Z.ltb_spec (x_argmax xd) (count args)); [lia|]. change (emit_ext xid (count args) (save_pc (set_syms (ITmp x :: syms g) g2))) with g3.
       unfold tgt_stack_adjust. rewrite S3. destruct (Z.ltb_spec (stack_pos g2 + (ret - count args) * 4) 0); [unfold room in R; lia|]. rewrite u16_small by lia. cbn [abind]. unfold sym_push. cbn [set_stack syms]. rewrite Y3. done. }
  2: { cbn [g4 set_stack set_syms pc cdsz]. lia. }
  cbn [abind]. clearbody g3. assert (S4 : stack_pos g4 = stack_pos g2 + (ret - count args) * 4) by done. assert (M4 : made g2 g4 [OPC_EXT; xid; count args]) by (by apply (made_same g2 g3)). assert (Y4 : syms g4 = ICall xid (count args) (x_argmin xd) (x_argmax xd) ret :: ITmp x :: syms g) by done.
  assert (P4 : pc g4 = pc g2 + 3) by done. assert (Z4 : cdsz g4 = cdsz g2) by done. clearbody g4.
  assert (R4 : room g4 2) by (unfold room in *; lia). destruct (call_ret_made g4 _ _ _ _ ret _ Y4 Re ltac:(eapply room_le; [exact R4|lia]) ltac:(unfold room in R; lia)) as (g5 & E5 & M5 & Y5 & S5).
  assert (L5 : len (drops ret) <= 1) by (unfold drops; destruct (ret =? 2); [change (len [_]) with 1|change (len []) with 0]; lia). pose proof (md_pc _ _ _ M5) as P5. pose proof (md_sz _ _ _ M5) as Z5. pose proof (len_pos (drops ret)). assert (R5 : room g5 2) by (unfold room in *; lia).
  rewrite (action_ok op_call_ret g4 g5 E5) by (unfold room in R5; lia). cbn [abind].
  destruct (store_made obj_addr stk x g5 (syms g) On Y5 ltac:(unfold room in R; lia) R5) as (g6 & E6 & M6 & _). exists g6. split; [exact E6|].
  apply (made_trans g g2); [by apply (made_from g1)|]. apply (made_trans g2 g4); [done|]. by apply (made_trans g4 g5).
Qed.

(** The arguments are on the stack, the first one lowest. *)
Lemma args_pushed (c : mem) l vs : Forall2 (fun e v => exp_ok obj_addr stk e) l vs -> forall pc sp xp m env, Forall2 (fun e v => eval op_sem obj_addr m e = Some v) l vs -> stk <= sp -> code_at c pc (comp_args l) ->
  exists m', rtc (go ext c) (mk_vm pc sp xp m env) (mk_vm (pc + len (comp_args l)) (sp + count l) xp m' env) /\ (forall i v, vs !! i = Some v -> m' (sp + Z.of_nat i) = v) /\ forall y, y < sp -> m' y = m y.
Proof.
  induction 1 as [|e v l vs Oe Ol IH]; intros pc sp xp m env Ev Sp C.
  - exists m. change (len (comp_args [])) with 0. change (count []) with 0. rewrite !Z.add_0_r. split; [apply rtc_refl|]. done.
  - apply Forall2_cons in Ev as [E1 E2]. change (comp_args (e :: l)) with (comp_exp obj_addr e ++ comp_args l) in *. rewrite code_at_app in C. destruct C as [C1 C2].
    destruct (exp_pushes ext c obj_addr stk e pc sp xp m env v Oe Sp C1 E1) as (m1 & G1 & V1 & K1).
    assert (E2' : Forall2 (fun e v => eval op_sem obj_addr m1 e = Some v) l vs).
    { clear IH C2. induction E2 as [|e' v' l' vs' He Hl IHl]; [done|]. apply Forall2_cons in Ol as [Oe' Ol']. constructor; [|by apply IHl]. rewrite <- He. apply (eval_agree op_sem obj_addr stk); [done|]. intros y Hy. apply K1. lia. }
    destruct (IH _ (sp + 1) xp m1 env E2' ltac:(lia) C2) as (m2 & G2 & V2 & K2). exists m2. split; [|split].
    + rewrite len_app, Z.add_assoc. replace (sp + count (e :: l)) with (sp + 1 + count l) by (unfold count; cbn [length]; lia). by etrans.
    + intros i w Hi. destruct i as [|i]; cbn in Hi; [injection Hi as <-; rewrite Z.add_0_r, K2 by lia; done|]. rewrite <- (V2 i w Hi). f_equal. lia.
    + intros y Hy. rewrite K2, K1 by lia. done.
Qed.

(** An external call, that returns one value or raises. *)
Lemma step_call (c : mem) pc sp xp m env xid k r env' m' : code_at c pc [OPC_EXT; xid; k] -> ext xid env m (sp - k) k = (r, env', m') ->
  vm_step ext c (mk_vm pc sp xp m env) = if r <? 0 then VGo (except (- r) (mk_vm (pc + 3) sp xp m' env')) else VGo (mk_vm (pc + 3) (sp - (k - r)) xp m' env').
Proof.
  rewrite !code_at_cons. intros (C0 & C1 & C2 & _) X. rewrite (step_misc ext c pc sp xp m env 9 C0) by done. unfold misc_op. vm_red. rewrite C1, C2, X.
  change ((9 =? 4) || (9 =? 5) || (9 =? 12) || (9 =? 10) || (9 =? 11)) with false. change (9 =? 3) with false. change (9 =? 8) with false. change (9 =? 7) with false. change (9 =? 6) with false. change (9 =? 9) with true. cbv iota.
  by replace (pc + 1 + 2) with (pc + 3) by lia.
Qed.

End Call.

(** The code drops the second of two values. *)
Lemma step_drops {E} (ext : Z -> E -> mem -> Z -> Z -> Z * E * mem) (c : mem) pc sp xp m env ret : code_at c pc (drops ret) -> ret = 1 \/ ret = 2 -> rtc (go ext c) (mk_vm pc (sp + ret) xp m env) (mk_vm (pc + len (drops ret)) (sp + 1) xp m env).
Proof.
  intros C [-> | ->]; cbn [drops Z.eqb Pos.eqb] in *; [change (len []) with 0; rewrite Z.add_0_r; apply rtc_refl|]. rewrite code_at_cons in C. destruct C as [C _]. apply rtc_once. unfold go. rewrite (step_misc ext c pc (sp + 2) xp m env 3 C) by done. change (len [3]) with 1. replace (sp + 1) with (sp + 2 - 1) by lia. reflexivity.
Qed.


(** ** Examples *)

Definition name_f : ident := [102].
Definition name_g : ident := [103].
Definition name_h : ident := [104].
Definition name_led : ident := [108; 101; 100].
Definition name_value : ident := [118; 97; 108].
Definition name_arr : ident := [97].

(** A function of two arguments and one value, one with two values, an object with an
    attribute, an array of objects of size 4. *)
Definition demo_lib : ext_libdef :=
  mk_lib [mk_ext name_f O_FUNCTION 2 2 1 0 0 0 0; mk_ext name_g O_FUNCTION 0 0 2 0 0 0 0; mk_ext name_led (O_OBJECT + O_SINGLETON) 0 0 0 0 3 0 0;
          mk_ext name_value (O_INTEGER + O_MEMBER) 0 0 0 0 0 0 0; mk_ext name_arr (O_OBJECT + O_ARRAY + O_SIZEOFFS) 0 0 0 0 0 4 0; mk_ext name_h O_FUNCTION 0 0 1 0 0 0 0] [(3, 3)].

(** The host: function 0 subtracts, function 1 returns 7 and 8, function 5 returns 9. *)
Definition demo_ext (xid : Z) (env : unit) (m : mem) (argv argc : Z) : Z * unit * mem :=
  if xid =? 0 then (1, env, upd m argv (int32 (m argv - m (argv + 1))))
  else if xid =? 1 then (2, env, upd (upd m argv 7) (argv + 1) 8)
  else (1, env, upd m argv 9).

Definition start : microjs_sdt := mk_sdt (fun _ => 0) 1000 0 0 0 0 [] (declared demo_names) 8 8.


Fixpoint acts (l : list (microjs_sdt -> act_res)) (g : microjs_sdt) : act_res :=
  match l with [] => AOk g | op :: l => let! g := action op g in acts l g end.

(** What the translator has in the end. *)
Definition ends {A} (l : list (microjs_sdt -> act_res)) (g : microjs_sdt) (f : microjs_sdt -> A) : option A := match acts l g with AErr _ => None | AOk g => Some (f g) end.

(** A whole program, run; the result, the top of the stack and the second variable. *)
Definition run_acts (l : list (microjs_sdt -> act_res)) (fuel : nat) : option (Z * Z * Z * Z) :=
  match (let! g := microjs_sdt_begin (fun _ => 0) 1000 in let! g := gen_decls demo_names g in let! g := acts l g in microjs_sdt_end g) with
  | AErr _ => None
  | AOk g => '(ret, s) ← microjs_exec demo_ext fuel (fun _ => false) (code g) (microjs_vm_init (data_sz g) None (fun _ => 0) tt); Some (ret, v_sp s, v_mem s 1, stack_sz g)
  end.

(** ** What goes wrong *)

(** Two values or more that a call leaves are dropped by an instruction whose operand is
    shifted by four bits: the machine takes sixteen times as many words off the stack. *)
Theorem discard_pops_too_much {E} (ext : Z -> E -> mem -> Z -> Z -> Z * E * mem) n g xid argc amin amax l sp xp m env :
  1 < n < 128 -> syms g = ICall xid argc amin amax n :: l -> room g 1 -> 4 * n <= stack_pos g ->
  exists g', op_ret_discard g = AOk g' /\ stack_pos g' = stack_pos g - 4 * n /\ go ext (code g') (mk_vm (pc g) sp xp m env) (mk_vm (pc g') (sp - 16 * n) xp m env).
Proof.
  intros H Y R S. pose proof R as (R1 & R2 & R3 & R4 & R5). set (g1 := emits [OPC_ISP; n] (save_pc (set_syms l g))). pose proof (emits_made [OPC_ISP; n] (save_pc (set_syms l g)) R1 ltac:(change (len [_; _]) with 2; cbn [save_pc set_syms pc]; lia)) as M.
  fold g1 in M. cbn [fmap list_fmap] in M. rewrite (u8_small n) in M by lia. change (u8 48) with 48 in M. destruct M as [P _ _ C]. change (pc (save_pc (set_syms l g))) with (pc g) in *. change (len [_; _]) with 2 in P. rewrite !code_at_cons in C. destruct C as (C0 & C1 & _).
  assert (S1 : stack_pos g1 = stack_pos g) by apply (emits_keep [OPC_ISP; n] (save_pc (set_syms l g))). exists (set_stack (stack_pos g - 4 * n) (stack_sz g1) g1). split; [|split; [reflexivity|]].
  - unfold op_ret_discard. rewrite Y. unfold emit_drop. destruct (Z.ltb_spec 0 n); [|lia]. destruct (Z.ltb_spec 1 n); [|lia]. change (emit n (emit 48 (save_pc (set_syms l g)))) with g1. unfold tgt_stack_adjust. rewrite S1.
    destruct (Z.ltb_spec (stack_pos g + - n * 4) 0); [lia|]. rewrite u16_small by lia. do 2 f_equal. lia.
  - cbn [set_stack code pc]. clearbody g1. unfold go, vm_step. vm_red. rewrite C0, C1. change (Z.land 48 15) with 0. change (Z.shiftr 48 4) with 3. cbn [Z.eqb Pos.eqb]. change (3 =? Z.shiftr 112 4) with false. change (3 =? Z.shiftr 128 4) with false. change (3 =? Z.shiftr 96 4) with false. change (3 =? 3) with true. cbv iota.
    assert (X : SIGNEXT12BIT (Z.shiftl n 4 + 0) = 16 * n).
    { unfold SIGNEXT12BIT, signext. rewrite Z.shiftl_mul_pow2 by lia. change (2 ^ 4) with 16. change (2 ^ 12) with 4096. change (2 ^ (12 - 1)) with 2048. rewrite Z.mod_small by lia. destruct (Z.ltb_spec (n * 16 + 0) 2048); lia. }
    rewrite X, P. do 2 f_equal. lia.
Qed.

(** The value of a call counts for nothing in the size of the stack: a program that
    needs two words, one for the frame of the default handler and one for the value,
    reports one. *)
Theorem call_value_not_counted :
  ends [op_push_tmp name_s; op_push_tmp name_h; op_function_lookup demo_lib; op_call; op_call_ret] (mk_sdt (fun _ => 0) 1000 2 0 4 4 [IRef 0] (declared demo_names) 8 8) (fun g => (stack_pos g, stack_sz g)) = Some (8, 4).
Proof. vm_compute. reflexivity. Qed.

(** The index of an array of objects is multiplied by the size of one, which takes a
    word more than is counted. *)
Theorem array_index_not_counted :
  ends [op_push_tmp name_arr; op_push_int 2; op_array_xlat demo_lib] start (fun g => (stack_sz g, code g <$> [0; 1; 2])) = Some (4, [OPC_I4 + 2; OPC_I4 + 4; OPC_MUL]).
Proof. vm_compute. reflexivity. Qed.

(** The negation of an attribute is folded into the negation of the number of its
    object: the code is one constant, and the attribute is not read. *)
Theorem minus_of_attribute :
  ends [op_push_tmp name_led; op_object_get demo_lib; op_push_tmp name_value; op_attr_eval demo_lib; op_minus] start (fun g => (pc g, is_constant (code g) 0)) = Some (1, Some (-3)).
Proof. vm_compute. reflexivity. Qed.

(** [try {} catch (h) { s = 1; } throw 5;]: the handler of a block that ended without
    an exception stays, and catches what is thrown after it. *)
Theorem handler_stays_after_try :
  run_acts [op_try_begin; op_blk_open; op_blk_close; op_catch; op_blk_open; op_var_decl name_h; op_push_tmp name_h; op_var_assign; op_push_tmp name_s; op_push_int 1; op_var_assign; op_blk_close; op_patch_ref; op_push_int 5; op_throw] 100 = Some (5, 3, 1, 8).
Proof. vm_compute. reflexivity. Qed.

(** [while (s < 20) { try { } s = s + 1; }]: each round leaves a frame on the stack,
    which ends 20 words above its bottom; the translator reports four. *)
Theorem try_in_loop_fills_stack :
  run_acts [op_while_begin; op_push_tmp name_s; op_var_eval; op_push_int 20; op_lt; op_while_cond; op_blk_open; op_try_begin; op_blk_open; op_blk_close; op_try_end;
    op_push_tmp name_s; op_push_tmp name_s; op_var_eval; op_push_int 1; op_add; op_var_assign; op_blk_close; op_while_end] 1000 = Some (0, 2 + 20, 20, 16).
Proof. vm_compute. reflexivity. Qed.

(** [i == 0] becomes one operation on [i], without the second operand being taken off
    the count. *)
Theorem equ_zero_counts_twice :
  ends [op_push_tmp name_i; op_var_eval; op_push_int 0; op_equ] start (fun g => (pc g, code g 2, stack_pos g)) = Some (3, OPC_NOT, 8).
Proof. vm_compute. reflexivity. Qed.

(** The condition of an if stays in the count for ever. *)
Theorem condition_stays_counted :
  ends [op_push_tmp name_i; op_var_eval; op_if_cond; op_blk_open; op_blk_close; op_patch_ref] start (fun g => (stack_pos start, stack_pos g)) = Some (0, 4).
Proof. vm_compute. reflexivity. Qed.

(** A jump over 2048 bytes is taken backwards. *)
Theorem long_jump_goes_back {E} (ext : Z -> E -> mem -> Z -> Z -> Z * E * mem) c pc sp xp m env :
  code_at c pc (jump OPC_JMP 2048) -> go ext c (mk_vm pc sp xp m env) (mk_vm (pc + 2 - 2048) sp xp m env).
Proof. intros C. change (jump OPC_JMP 2048) with (jump OPC_JMP (-2048)) in C. apply step_jmp; [done|lia]. Qed.

(** [s = 1 && 2;] leaves 0 in [s], although both operands are true. *)
Theorem logic_and_is_bitwise :
  run_acts [op_push_tmp name_s; op_push_int 1; op_push_int 2; op_logic_and; op_var_assign] 100 = Some (0, 2, 0, 12) /\ bin_sem BLogicAnd 1 2 = Some 1.
Proof. split; vm_compute; reflexivity. Qed.
